(* ===== verification/_CoqProject ===== *)
-Q . S2P
Prelude.v
PyBase.v
Hashing.v
Decimal.v
Float64.v
DecimalText.v
Json.v
Lifecycle.v
Sql.v
ExecModel.v
ExecRepo.v
Execution.v
CircuitBreaker.v
Gates.v
Contracts.v
RiskRules.v
RiskService.v
Position.v
Paper.v
PaperService.v
Money.v
Service.v
Pnl.v
Portfolio.v
Reconciliation.v
TradingDb.v
Signal.v
Trading.v
Oms.v
Market.v
Indicators.v
Strategy.v
Broker.v
BrokerAdapters.v
Backtest.v
BacktestEngine.v
BacktestPortfolio.v
MarketData.v
MarketFeed.v
Tokens.v
Api.v
WalkForward.v
BacktestTools.v
BacktestReports.v
BacktestAnalytics.v
Observability.v
PaperStore.v
