(* ===== verification/Prelude.v ===== *)
(** * Alpha Algo trading system: a verification library

    The program is a set of Python services around one order path:

      market events -> strategy engine
        -> signal engine -> trading orchestrator (risk service) -> order management
        -> submission guard -> execution engine -> broker adapters
        -> order events -> position engine -> P&L, portfolio, reconciliation

    with safety switches beside it (global halt, live gates, staged release,
    circuit breakers), a paper broker with its own cash account that stands
    in for a real one, backtests that replay history with the tools that run,
    judge and store them, and the HTTP API, event bus and observability around the
    services.  The services are objects with injected collaborators
    (clock, identifiers, repository, adapter); durable state sits behind
    SQLAlchemy repositories.  This library models those services one
    definition per method, in the order the code runs, and proves what makes
    them correct.

    ** How the code is modelled

    - A pure function becomes a function; a function that can raise returns
      [res] ([Ok] or [Err] with the exception class and message).  A method of
      a mutable object is a computation of [M S A := S -> res A * S]: the state
      comes back in the error case too, as Python keeps the mutations made
      before a raise.  [try_except] is [try ... except], [isinstance] follows
      the class table of [exn_parent].
    - Decimals are exact: sign, coefficient and exponent, with the 28-digit
      half-even context of Python's [decimal] ([Decimal]); [dval] is the
      rational value the theorems speak about.  Integers are [Z].
    - Time stamps are microseconds with an optional UTC offset (an absent one
      is a naive datetime).  Identifiers are [N].  SHA-256, SHA-1, UUIDv5,
      HMAC, base64, JSON text and its parser, [isoformat], [str(Decimal)] and
      [UUID(str)] are computed ([Hashing], [PyBase], [DecimalText], [Json],
      [Tokens]), so that identity keys and content
      hashes are the ones the program computes.
    - Injected callables ([clock], [uuid4], a halt flag) are functions of the
      number of calls made so far: every theorem holds for any behaviour of
      them.
    - SQLAlchemy and PostgreSQL are not part of the sources.  A session is the
      class [Session] ([Sql]): queries, and commits that are atomic and
      enforce the declared constraints.  No law says that a call succeeds, so
      the theorems cover lost connections and violated constraints.  [MemDB]
      is an instance on which the witnesses run.  A broker behind the
      execution engine is the class [ExecutionAdapter]; the paper runtime's
      store is [PaperRepository]; the HTTP client of the broker adapters is the
      class [Transport].
    - Strategy callbacks run concurrently under a time limit: which of them
      finish in time, late or never is the parameter [Schedule], and the
      theorems hold for every schedule.  The callbacks of a strategy are
      arbitrary computations on its context; sma_cross.py is one of them.
    - JSON that comes from a broker is dynamically typed ([jv]); its numbers are
      kept as the decimals they denote.  The floats of the broker's rate limiter
      are binary64 numbers with their rounding ([Float64]).

    ** The files

    - [Prelude]: exceptions, the monads and their notation, invariants of
      computations ([preserves], [reads]), inversion tactics ([res_inv],
      [bind_ok]).
    - [PyBase], [Hashing], [Decimal], [DecimalText], [Float64]: the parts of the
      Python language and standard library the services use, with their round
      trips and bounds.
    - [Lifecycle]: execution_engine/lifecycle.py and events.py, the state
      machine of an order and its fill accounting.
    - [Sql]: the session interface, unique constraints and [MemDB].
    - [ExecModel], [ExecRepo], [Execution]: execution_engine/errors.py,
      state.py, identity.py, adapter.py, metrics.py; repository.py with its
      tables (class [ExecutionRepository], its laws [RepositoryLaws], and the
      SQL instance that satisfies them); engine.py (submit with retries,
      cancel, apply_event).
    - [CircuitBreaker], [Gates]: risk_engine/circuit_breaker.py and gates.py
      (live safety gates, global halt, staged live release).
    - [Contracts]: the signal and risk contracts, the signal identity key, and
      the submission guard of execution_engine/submission.py.
    - [RiskRules], [RiskService]: risk_engine/engine.py (twenty rules and
      their engine); snapshot.py, state.py, context.py, approval.py,
      repository.py, metrics.py, service.py.
    - [Position]: position_engine (arithmetic, identity, repository, engine).
    - [Money], [Service]: arithmetic on the money grid of four decimals, what a
      [Numeric] column makes of a value, and the shape the accounting services share (optional repository, counters,
      injected callables).
    - [Pnl]: pnl_engine (accounting, unrealized, aggregation, identity,
      repository, engine) and db/models/pnl.py.
    - [Portfolio]: portfolio_engine (adapters, aggregation, identity,
      repository, engine).
    - [Reconciliation]: reconciliation_engine (tolerance, matching, identity,
      adapters, repository, engine) and db/models/reconciliation.py.
    - [TradingDb]: the tables [signals], [trading_intents], [orders] and
      [order_events] with their unique columns and foreign keys, which the next
      three components share.
    - [Signal]: signal_engine (state, identity, validation, idempotency,
      repository, service).
    - [Trading]: trading_engine (state, intent, identity, oms_port, repository,
      service), on [RiskService] and [Signal].
    - [Oms]: oms (validation, identity, repository, boundary, service), on
      [Trading].
    - [Market]: contracts/market_data.py, ticks and candles.
    - [Indicators], [Strategy]: strategy_engine (state, identity, config,
      duplicate, signal_validation, registry, dispatcher, instance, run_record,
      runtime) and the reference strategy sma_cross.py with its indicators, on
      [Signal].
    - [Broker]: alpha_algo_broker_integration (errors, contracts, instrument
      mapping, event identity, rate limits, connection state, transport, the
      base adapter with its guards), with the classes [Transport] and [Provider].
    - [BrokerAdapters]: the Zerodha, Upstox and Angel One adapters (tables,
      payloads, parsers, error mapping), instances of [Provider].
    - [Backtest], [BacktestEngine], [BacktestPortfolio]: alpha_algo_backtesting
      (clock, hashing, input, replay, session), alpha_algo_backtest_engine
      (intents, costs, fills, ledger, engine, metrics) and
      alpha_algo_backtest_portfolio (capital, inputs, engine).
    - [MarketData]: market_data (validation, normalization, safety, backpressure,
      metrics, repository, engine) and db/models/market_data.py.
    - [MarketFeed]: market_data (provider, fake_provider, connection, historical,
      service), with the class [MarketDataProvider].
    - [Paper], [PaperService]: the paper broker (types.py, fill_policy.py,
      book.py, paper_broker.py, routing.py) and the paper runtime (costs.py,
      funds.py, account.py, run.py, service.py).
    - [PaperStore]: paper_feed (mapping, provenance), the record of a paper run and
      paper_runtime/repository.py with db/models/paper.py, an instance of
      [PaperRepository].
    - [Json], [Tokens], [Api]: [json.dumps] and [json.loads]; the signed tokens of
      apps/api/alpha_algo_api/security; settings, secrets, rate limiting,
      permissions, authentication, the routes, the middleware stack with its error
      handlers, the websocket gateway and the database wiring.
    - [WalkForward]: alpha_algo_walk_forward (windows, aggregate, results,
      assessment).
    - [BacktestTools]: alpha_algo_backtest_latency, _optimize (grid search,
      resampling), _quality (classification of records) and _persistence (run
      identity, records and their store).
    - [BacktestReports], [BacktestAnalytics]: alpha_algo_backtest_reports (curves,
      statistics, risk ratios, report) and alpha_algo_backtest_analytics (value at
      risk, excursions, alpha and beta, growth rate, their composition).
    - [Observability]: contracts/events.py, the event bus, and
      alpha_algo_observability (failure classes, redaction, metrics, health,
      alerts, audit chain, trace headers).

    Each file ends with a [...Sample] module of concrete runs that instantiate
    the theorems.

    ** What the theorems show

    - Orders.  Every transition trail is a path of the allowed moves, terminal
      states can be reached and are left by nothing; fills never exceed the
      order quantity, an order is FILLED exactly when they reach it, and they
      add up to the events' quantities.
    - Execution.  Whatever the database and the broker do, an engine with a
      repository dispatches an order identity from one [submit] call at most, and
      once apart from retries after a transient failure (an engine without one
      dispatches every repeated request); [submit] terminates and reports the last
      result of the adapter by a fixed table; a refused request
      touches nothing; an event is recorded once; an order counts as cancelled
      only when the broker confirmed it.
    - Risk.  An approval from the default rules implies every configured limit,
      computed on the context the service built from a fresh snapshot; a global
      halt cannot be overridden by custom rules; the service releases an
      approval to its consumers only once and only after it was committed; a
      replay returns the recorded decision.  The submission guard accepts only
      a valid, unexpired approval of the same signal.
    - Safety switches.  The release stage advances exactly when the gates,
      the halt and the breaker allow it; a live submission signal implies all
      of them; the halt is lifted only by an audited call; the breaker opens on
      a burst and stays open until its reset time.
    - Positions.  Long-only; the quantity of every position is the sum of the
      changes in its append-only event log; one fill moves one position by
      exactly its quantity, once; the average price lies between the prices it
      averages.
    - Paper trading.  Limit protection of the fill policy; one fill per accepted
      order and idempotent order ids; the emitted events drive the execution
      engine's order state to completion (a refinement between the two
      components); cash is conserved and every filled buy is paid.
    - Signals and intents.  A signal reaches the consumers at most once and only
      after its commit, and every answer of the signal engine is true of the
      database.  The orchestrator hands an intent on at most once, only after
      storing it, and only with an unexpired approval of the risk service bound
      to exactly this request.
    - Orders from intents.  An order reaches the execution boundary only
      validated, re-checked and committed, each order id and each orchestration
      id at most once in any interleaving with other writers; a repeated intent
      changes nothing; cancellation starts only from cancellable states; and
      what the orchestrator hands over, order management accepts, but for three
      facts it does not check.
    - Accounting.  Realized P&L is proceeds minus cost; a fill is recorded once;
      aggregation by any key partitions the ledger; what the ledger stores it
      gives back, rounded to the four decimals of its columns.  Portfolio exposure totals satisfy gross = long + short and
      net = long - short, and a portfolio never claims more than its data
      supports.  A position reconciliation is clean exactly when both sides
      agree.
    - Strategies.  Every signal that leaves the runtime was emitted by the
      strategy it names, under its configuration, for the event it carries, and
      leaves once; a strategy that raises, hangs or emits nonsense changes
      nothing for the others; registry and runtime stay consistent under every
      operation; and what the runtime fans out, the signal engine accepts.
    - Broker layer.  A request that places or changes an order is sent only in
      an enabled mode, with the halt clear, on a live connection and for a
      supported order; an event is taken at most once; the
      number of granted requests stays within burst plus rate times time, up to a
      stated rounding error; reconnection ends;
      a supported order is translated field by field for each provider.
    - Backtests.  No look-ahead: what a run shows for its first [k] records does
      not depend on later records or later decisions.  Every intent has one
      outcome, evaluated at the first record strictly after its decision; fills
      are made at quoted prices, never beyond a limit and never flattered by
      slippage; valid simulations complete (the FIFO ledger always carries
      exactly the position); equity is never negative, metrics exist exactly
      when every marked equity is positive, and the largest drawdown is a
      fraction.  A portfolio run never touches its reserved cash and does not
      depend on the order of its universe.
    - Market data.  In any interleaving of events, consumer turns and watchdog
      turns, every tick handed to the consumers is valid and fresh, none is handed
      over twice while the duplicate detector has room, and every tick received is
      accounted for; what is stored was delivered; the consumer loop survives every
      consumer and database failure and empties its queue; historical paging
      returns exactly the range asked for; the watchdog reconnects silent
      connections with a bounded number of attempts.
    - Around the backtests.  Walk-forward windows move forward, never overlap out of
      sample and cover what the schedule says, and a walk-forward run completes;
      latency only delays decisions; grid search evaluates every combination and
      selects the first best; a shuffle is a permutation and a resampling summary
      is in order; the quality report calls a dataset ready exactly when the engine
      accepts it (the empty one apart); a stored record is read back.  A report can be built of every run
      of the engine with positive equity and of no other, and agrees with the
      engine's metrics, returns and drawdowns; calendar buckets partition the curve;
      value at risk is an order statistic; excursions depend on the window of the
      trade only.
    - Paper edges.  The feed converts exactly the valid ticks with coherent quotes;
      funds are durable and isolated between accounts, and a restarted service
      finds the funds its predecessor persisted, to four decimals.
    - API.  A token that decodes was signed with the secret, is unexpired and of the
      accepted algorithm, and what is created decodes to what it says; a protected
      route runs only for an unexpired access token with the permission; a login
      issues exactly what the database grants; every request is answered, with its
      request id (preflight requests by the CORS middleware, without one), and an
      exception that leaves the application has been answered by the generic 500
      response; the sliding-window limiter refines the log of accepted requests.
    - Events and observability.  Every live handler is called once, in order, and
      a failing one is recorded and changes nothing for the others; a rewritten
      audit trail with the same last hash exhibits a SHA-256 collision;
      alerts, metrics and health behave as their registries promise.
    - Defects the models exposed, each as a theorem or an example: the outcome of a retried
      submission cannot be stored, concurrent fills from two processes lose an
      update, a concurrent [disable] of the live release is lost, the
      half-open breaker admits every probe, a repeated paper order is reported
      as rejected, a paper sale below its commission raises after the fill, the
      evidence of a reconciliation run is never stored, matched executions hide
      unexpected ones, the orchestrator's foreign key does not fit the signal
      engine's primary key, a stored rejection blocks a later approval, signals
      of a strategy callback that ends late are lost, the moving-average window
      is never trimmed, every event of an order after the first is refused as a
      duplicate, refusals that Angel One reports with HTTP 200 are acknowledged,
      [get_order] reports every order as acknowledged, a failed reconnection
      returns the old session, the halt blocks cancellations too, a
      good-till-cancelled order is sent as a day order, the per-symbol budget of
      a portfolio run limits single fills only, the digest of a history does
      not separate its fields, an injected empty duplicate detector is replaced,
      a tick dropped by a full queue is not reported, equal-time ticks are lost
      at a page boundary, a non-positive age ends the consumer, the watchdog gives
      up, no rate-limit client is ever removed, a refresh ignores revocation, a
      token outside ASCII is answered with 500, cancelling one of two equal
      subscriptions silences both, a nested list hides secret keys, a value at a
      histogram boundary goes to the next bin, a resolved alert can be reopened,
      the audit hash omits the actor and forks under concurrency, an optional
      check that raises makes the system unavailable, the service refuses its own
      trace header, failure codes are classified by substring, a final newline
      passes the patterns, a run identity does not separate None from its text, a
      naive record makes the quality check raise, an empty dataset is called ready,
      a price and the paper cash change in their columns, a float token bucket
      exceeds its rate by a rounding error, an engine without a repository
      dispatches twice, equal losses make the value at
      risk raise, excursions count points outside the trade, a slippage of many
      digits sells at price zero, a stored paper run cannot be completed, and an
      account is read back with another creation time.

    ** Bounds and fuel

    The retry loop of [engine_submit] runs on [max_retries + 1] units of fuel
    (the loop makes at most that many attempts, and the theorem on termination
    shows that the fuel is never used up).  [ndigits] and the text of a number
    take their fuel from the number's binary size.  The class table is five
    levels deep.  The reconnection loop takes its fuel from the configured
    number of attempts; the throttling loop waits as long as its caller does, and
    its fuel is that patience, after which the caller cancels it.  The JSON parser
    takes its fuel from the length of the text, of which every step consumes a
    character.  Exact-sum theorems state the digits they need: quantities
    below 10^28, cash amounts of at most eight decimals below 10^19.

    ** Not modelled

    Logging, latency figures, and thread locks, whose sections are run as
    atomic steps; where two callers can interleave between sections, the
    interleaving is explicit ([Gates], [Position]).  Columns that no modelled
    method reads or writes.  Text is bytes: [upper], [strip] and [repr] treat
    characters beyond ASCII as opaque.  Metadata values are
    scalars (text, integers, booleans, time stamps); NaN and infinite decimals
    cannot be written.  The [Numeric] columns of the P&L ledger and of the paper
    store round as PostgreSQL does ([Money.numeric]); elsewhere a [Numeric] column
    keeps the value it is given.  The exponent limits of the decimal context and
    of binary64.  Delays that only wait (back-off
    between reconnections).  Composition roots ([boundary.py] of
    the engines) only wire objects.  [Decimal.ln], [Decimal.exp] and
    Argon2 are parameters.  Outside the library: the schema migrations, which only
    declare the tables the repositories are modelled with; the operator scripts;
    the reference tables (db/models/reference.py), which no service reads; the
    inspection routes and the no-op variants of observability; and the web and
    mobile clients. *)

From stdpp Require Import base list strings gmap relations.
From Stdlib Require Import ZArith Lia String Ascii.

Open Scope Z_scope.

(** * Failure classes and exception classes

    Python exceptions are values of [exn]: the class, the message
    ([str(exc)]) and, for the execution engine's errors, the instance's
    [failure_class] override. *)

(** [FailureClass] of execution_engine/errors.py. *)
Inductive FailureClass :=
| VALIDATION_FAILURE
| AUTH_FAILURE
| TRANSIENT_FAILURE
| TIMEOUT_FAILURE
| PROVIDER_REJECTION
| UNKNOWN_EXTERNAL_STATE
| INTERNAL_FAILURE.

#[export] Instance FailureClass_eq_dec : EqDecision FailureClass.
Proof. solve_decision. Defined.

(** [BrokerErrorClass] of alpha_algo_broker_integration/errors.py. *)
Inductive BrokerErrorClass :=
| bx_AUTHENTICATION | bx_AUTHORIZATION | bx_RATE_LIMIT | bx_VALIDATION | bx_ORDER_REJECTED | bx_TIMEOUT
| bx_NETWORK | bx_PROVIDER_UNAVAILABLE | bx_NOT_FOUND | bx_UNSUPPORTED | bx_DUPLICATE | bx_UNKNOWN.

#[export] Instance BrokerErrorClass_eq_dec : EqDecision BrokerErrorClass.
Proof. solve_decision. Defined.

Inductive exn_class :=
(* built-in and third-party classes the sources raise or catch *)
| Exception
| ValueError
| TypeError
| KeyError
| IndexError
| AttributeError
| AssertionError
| TimeoutError
| InvalidOperation
| DivisionByZero
| ZeroDivisionError
| OverflowError
| CancelledError
| IntegrityError
| MultipleResultsFound
| InvalidRequestError
(* execution engine *)
| InvalidOrderTransition
| InvalidOrderEvent
| RiskApprovalRequired
| ExecutionError
| ExecutionValidationError
| ExecutionAuthError
| ExecutionTransientError
| ExecutionTimeoutError
| ExecutionProviderRejection
| ExecutionUnknownState
| ExecutionInternalError
| DuplicateExecutionError
| ExecutionNotFoundError
(* risk engine *)
| RiskStateError
| RiskStateUnavailable
| RiskContextError
| RiskContextUnavailable
(* position engine *)
| PositionError
| PositionValidationError
| PositionIdentityError
| PositionModeError
| PositionConflictError
| PositionOverCloseError
| PositionUnsupportedError
| PositionPersistenceError
| PositionNotFoundError
| DuplicateApplyError
(* paper trading *)
| PaperAdapterError
| PaperModeViolationError
| PaperMarketDataUnavailableError
| UnsupportedOrderTypeError
| ClientOrderIdConflictError
| UnknownTradingModeError
| LiveTradingDisabledError
| TradingHaltedError
(* P&L engine *)
| PnlError
| PnlValidationError
| PnlDataError
| PnlModeError
| PnlOverCloseError
| PnlPersistenceError
| PnlDuplicateExecutionError
| PnlConflictError
| PnlRejectedError
(* portfolio engine *)
| PortfolioError
| PortfolioValidationError
| PortfolioIdentityError
| PortfolioModeError
| PortfolioDataError
| PortfolioPersistenceError
| DuplicateSnapshotError
(* reconciliation engine *)
| ReconciliationError
| ReconciliationModeError
| ReconciliationValidationError
| ReconciliationPersistenceError
| ReconciliationDataError
| DuplicateDiscrepancyError
| DiscrepancyConflictError
(* order management *)
| OmsError
| OrderValidationError
| OrderNotFoundError
| DuplicateOrderError
| IntentConflictError
| RiskApprovalError
| TradingModeError
| InvalidStateTransitionError
| PersistenceError
| ExecutionBoundaryError
(* signal engine *)
| SignalEngineError
| SignalRejectedError
| SignalTradingModeError
| RuntimeError
(* trading orchestrator *)
| OrchestrationStateError
(* strategy engine *)
| StrategyRuntimeError
| RegistryError
| DuplicateRegistrationError
| StrategyNotFoundError
| LifecycleError
| ConfigValidationError
| StrategyTradingModeError
(* broker integration; a broker error with its class, provider code and provider message *)
| BrokerError (c : BrokerErrorClass) (provider_code provider_message : option string)
| DuplicateEventError
(* backtesting *)
| BacktestEngineError
| BacktestMetricsError
| PortfolioBacktestError
(* market data *)
| RawEventValidationError
| TickRejectedError
| HistoricalDataError
| ProviderAuthenticationError
| ConnectionError
| OSError
(* tools around the backtests *)
| WalkForwardError
| WalkForwardMetricsError
| DataQualityError
| LatencyError
| OptimizationError
| RunPersistenceError
| BacktestReportError
| BacktestReportMetricsError
| AnalyticsError
| AnnualizationError
| RiskMeasureError
| ExcursionError
(* paper feed, events, observability, API *)
| PaperFeedError
| DomainEventError
| CardinalityError
| TokenError
| DatabaseUnavailableError
| OperationalError
| UnicodeEncodeError
| UnicodeDecodeError
| JSONDecodeError
| BinasciiError
| ApiError (status : Z) (code : string) (details : list (string * string)).

#[export] Instance exn_class_eq_dec : EqDecision exn_class.
Proof. solve_decision. Defined.

(** [type(exc).__name__] *)
Definition exn_name (c : exn_class) : string :=
  match c with
  | Exception => "Exception"
  | ValueError => "ValueError"
  | TypeError => "TypeError"
  | KeyError => "KeyError"
  | IndexError => "IndexError"
  | AttributeError => "AttributeError"
  | AssertionError => "AssertionError"
  | TimeoutError => "TimeoutError"
  | InvalidOperation => "InvalidOperation"
  | DivisionByZero => "DivisionByZero"
  | ZeroDivisionError => "ZeroDivisionError"
  | OverflowError => "OverflowError"
  | CancelledError => "CancelledError"
  | IntegrityError => "IntegrityError"
  | MultipleResultsFound => "MultipleResultsFound"
  | InvalidRequestError => "InvalidRequestError"
  | InvalidOrderTransition => "InvalidOrderTransition"
  | InvalidOrderEvent => "InvalidOrderEvent"
  | RiskApprovalRequired => "RiskApprovalRequired"
  | ExecutionError => "ExecutionError"
  | ExecutionValidationError => "ExecutionValidationError"
  | ExecutionAuthError => "ExecutionAuthError"
  | ExecutionTransientError => "ExecutionTransientError"
  | ExecutionTimeoutError => "ExecutionTimeoutError"
  | ExecutionProviderRejection => "ExecutionProviderRejection"
  | ExecutionUnknownState => "ExecutionUnknownState"
  | ExecutionInternalError => "ExecutionInternalError"
  | DuplicateExecutionError => "DuplicateExecutionError"
  | ExecutionNotFoundError => "ExecutionNotFoundError"
  | RiskStateError => "RiskStateError"
  | RiskStateUnavailable => "RiskStateUnavailable"
  | RiskContextError => "RiskContextError"
  | RiskContextUnavailable => "RiskContextUnavailable"
  | PositionError => "PositionError"
  | PositionValidationError => "PositionValidationError"
  | PositionIdentityError => "PositionIdentityError"
  | PositionModeError => "PositionModeError"
  | PositionConflictError => "PositionConflictError"
  | PositionOverCloseError => "PositionOverCloseError"
  | PositionUnsupportedError => "PositionUnsupportedError"
  | PositionPersistenceError => "PositionPersistenceError"
  | PositionNotFoundError => "PositionNotFoundError"
  | DuplicateApplyError => "DuplicateApplyError"
  | PaperAdapterError => "PaperAdapterError"
  | PaperModeViolationError => "PaperModeViolationError"
  | PaperMarketDataUnavailableError => "PaperMarketDataUnavailableError"
  | UnsupportedOrderTypeError => "UnsupportedOrderTypeError"
  | ClientOrderIdConflictError => "ClientOrderIdConflictError"
  | UnknownTradingModeError => "UnknownTradingModeError"
  | LiveTradingDisabledError => "LiveTradingDisabledError"
  | TradingHaltedError => "TradingHaltedError"
  | PnlError => "PnlError"
  | PnlValidationError => "PnlValidationError"
  | PnlDataError => "PnlDataError"
  | PnlModeError => "PnlModeError"
  | PnlOverCloseError => "PnlOverCloseError"
  | PnlPersistenceError => "PnlPersistenceError"
  | PnlDuplicateExecutionError => "DuplicateExecutionError"
  | PnlConflictError => "PnlConflictError"
  | PnlRejectedError => "PnlRejectedError"
  | PortfolioError => "PortfolioError"
  | PortfolioValidationError => "PortfolioValidationError"
  | PortfolioIdentityError => "PortfolioIdentityError"
  | PortfolioModeError => "PortfolioModeError"
  | PortfolioDataError => "PortfolioDataError"
  | PortfolioPersistenceError => "PortfolioPersistenceError"
  | DuplicateSnapshotError => "DuplicateSnapshotError"
  | ReconciliationError => "ReconciliationError"
  | ReconciliationModeError => "ReconciliationModeError"
  | ReconciliationValidationError => "ReconciliationValidationError"
  | ReconciliationPersistenceError => "ReconciliationPersistenceError"
  | ReconciliationDataError => "ReconciliationDataError"
  | DuplicateDiscrepancyError => "DuplicateDiscrepancyError"
  | DiscrepancyConflictError => "DiscrepancyConflictError"
  | OmsError => "OmsError"
  | OrderValidationError => "OrderValidationError"
  | OrderNotFoundError => "OrderNotFoundError"
  | DuplicateOrderError => "DuplicateOrderError"
  | IntentConflictError => "IntentConflictError"
  | RiskApprovalError => "RiskApprovalError"
  | TradingModeError => "TradingModeError"
  | InvalidStateTransitionError => "InvalidStateTransitionError"
  | PersistenceError => "PersistenceError"
  | ExecutionBoundaryError => "ExecutionBoundaryError"
  | SignalEngineError => "SignalEngineError"
  | SignalRejectedError => "SignalRejectedError"
  | SignalTradingModeError => "TradingModeError"
  | StrategyRuntimeError => "StrategyRuntimeError"
  | RegistryError => "RegistryError"
  | DuplicateRegistrationError => "DuplicateRegistrationError"
  | StrategyNotFoundError => "StrategyNotFoundError"
  | LifecycleError => "LifecycleError"
  | ConfigValidationError => "ConfigValidationError"
  | StrategyTradingModeError => "TradingModeError"
  | BrokerError _ _ _ => "BrokerError"
  | DuplicateEventError => "DuplicateEventError"
  | BacktestEngineError => "BacktestEngineError"
  | BacktestMetricsError => "BacktestMetricsError"
  | PortfolioBacktestError => "PortfolioBacktestError"
  | RawEventValidationError => "RawEventValidationError"
  | TickRejectedError => "TickRejectedError"
  | HistoricalDataError => "HistoricalDataError"
  | ProviderAuthenticationError => "ProviderAuthenticationError"
  | ConnectionError => "ConnectionError"
  | OSError => "OSError"
  | WalkForwardError => "WalkForwardError"
  | WalkForwardMetricsError => "WalkForwardMetricsError"
  | DataQualityError => "DataQualityError"
  | LatencyError => "LatencyError"
  | OptimizationError => "OptimizationError"
  | RunPersistenceError => "PersistenceError"
  | BacktestReportError => "BacktestReportError"
  | BacktestReportMetricsError => "BacktestReportMetricsError"
  | AnalyticsError => "AnalyticsError"
  | AnnualizationError => "AnnualizationError"
  | RiskMeasureError => "RiskMeasureError"
  | ExcursionError => "ExcursionError"
  | PaperFeedError => "PaperFeedError"
  | DomainEventError => "DomainEventError"
  | CardinalityError => "CardinalityError"
  | TokenError => "TokenError"
  | DatabaseUnavailableError => "DatabaseUnavailableError"
  | OperationalError => "OperationalError"
  | UnicodeEncodeError => "UnicodeEncodeError"
  | UnicodeDecodeError => "UnicodeDecodeError"
  | JSONDecodeError => "JSONDecodeError"
  | BinasciiError => "Error"
  | ApiError _ _ _ => "ApiError"
  | RuntimeError => "RuntimeError"
  | OrchestrationStateError => "OrchestrationStateError"
  end.

(** The base class of each exception class ([Exception] is the root). *)
Definition exn_parent (c : exn_class) : option exn_class :=
  match c with
  | Exception | CancelledError => None
  | InvalidOrderTransition | InvalidOrderEvent | RiskApprovalRequired
  | PaperAdapterError | UnknownTradingModeError | LiveTradingDisabledError
  | TradingHaltedError | BacktestEngineError | PortfolioBacktestError => Some ValueError
  | BacktestMetricsError => Some BacktestEngineError
  | TimeoutError | ConnectionError => Some OSError
  | WalkForwardError | DataQualityError | LatencyError | OptimizationError
  | RunPersistenceError | AnalyticsError | PaperFeedError | DomainEventError
  | CardinalityError | UnicodeEncodeError | UnicodeDecodeError | JSONDecodeError
  | BinasciiError => Some ValueError
  | WalkForwardMetricsError => Some WalkForwardError
  | BacktestReportError => Some BacktestEngineError
  | BacktestReportMetricsError => Some BacktestReportError
  | AnnualizationError | RiskMeasureError | ExcursionError => Some AnalyticsError
  | PaperModeViolationError | PaperMarketDataUnavailableError
  | UnsupportedOrderTypeError | ClientOrderIdConflictError => Some PaperAdapterError
  | ExecutionValidationError | ExecutionAuthError | ExecutionTransientError
  | ExecutionTimeoutError | ExecutionProviderRejection | ExecutionUnknownState
  | ExecutionInternalError | DuplicateExecutionError | ExecutionNotFoundError =>
      Some ExecutionError
  | RiskStateUnavailable => Some RiskStateError
  | RiskContextUnavailable => Some RiskContextError
  | PositionValidationError | PositionIdentityError | PositionModeError
  | PositionConflictError | PositionOverCloseError | PositionUnsupportedError
  | PositionPersistenceError | PositionNotFoundError | DuplicateApplyError =>
      Some PositionError
  | PnlValidationError | PnlDataError | PnlModeError
  | PnlOverCloseError | PnlPersistenceError | PnlDuplicateExecutionError
  | PnlConflictError | PnlRejectedError =>
      Some PnlError
  | PortfolioValidationError | PortfolioIdentityError | PortfolioModeError
  | PortfolioDataError | PortfolioPersistenceError | DuplicateSnapshotError =>
      Some PortfolioError
  | ReconciliationModeError | ReconciliationValidationError | ReconciliationPersistenceError
  | ReconciliationDataError | DuplicateDiscrepancyError | DiscrepancyConflictError =>
      Some ReconciliationError
  | OrderValidationError | OrderNotFoundError | DuplicateOrderError
  | IntentConflictError | RiskApprovalError | TradingModeError
  | InvalidStateTransitionError | PersistenceError | ExecutionBoundaryError =>
      Some OmsError
  | SignalRejectedError | SignalTradingModeError => Some SignalEngineError
  | RegistryError | LifecycleError | ConfigValidationError | StrategyTradingModeError =>
      Some StrategyRuntimeError
  | DuplicateRegistrationError | StrategyNotFoundError => Some RegistryError
  | _ => Some Exception
  end.

Record exn := Exn {
  exn_cls : exn_class;
  exn_msg : string;
  exn_failure : option FailureClass;
}.

Definition mk_exn (c : exn_class) (msg : string) : exn := Exn c msg None.

Fixpoint subclass_fuel (n : nat) (c d : exn_class) : bool :=
  if decide (c = d) then true else
  match n with
  | O => false
  | S n' => match exn_parent c with
            | Some p => subclass_fuel n' p d
            | None => false
            end
  end.

(** [isinstance(exc, d)]: the class table is five levels deep. *)
Definition isinstance (e : exn) (d : exn_class) : bool :=
  subclass_fuel 4 (exn_cls e) d.

(** * The error monad and the state-and-error monad *)

Inductive res (A : Type) : Type :=
| Ok (a : A)
| Err (e : exn).
Arguments Ok {A} a.
Arguments Err {A} e.

Definition rbind {A B} (m : res A) (k : A -> res B) : res B :=
  match m with
  | Ok a => k a
  | Err e => Err e
  end.

Definition raise {A} (c : exn_class) (msg : string) : res A := Err (mk_exn c msg).

(** [if b: raise c(msg)] *)
Definition raise_if (b : bool) (c : exn_class) (msg : string) : res unit :=
  if b then raise c msg else Ok tt.

Definition is_ok {A} (m : res A) : bool :=
  match m with Ok _ => true | Err _ => false end.

(** An object's methods mutate the object and may raise; a raised exception
    keeps the mutations made before it, so the state is returned in both
    cases. *)
Definition M (S A : Type) : Type := S -> res A * S.

Definition ret {S A} (a : A) : M S A := fun s => (Ok a, s).
Definition bind {S A B} (m : M S A) (k : A -> M S B) : M S B :=
  fun s => match m s with
           | (Ok a, s') => k a s'
           | (Err e, s') => (Err e, s')
           end.
Definition lift {S A} (r : res A) : M S A := fun s => (r, s).
Definition throw {S A} (c : exn_class) (msg : string) : M S A := lift (raise c msg).
Definition gets {S A} (f : S -> A) : M S A := fun s => (Ok (f s), s).
Definition modify {S} (f : S -> S) : M S unit := fun s => (Ok tt, f s).

(** [try: m  except ...: handler]; the handler answers [None] for an
    exception that none of its clauses catches. *)
Definition try_except {S A} (m : M S A) (handler : exn -> option (M S A)) : M S A :=
  fun s => match m s with
           | (Err e, s') => match handler e with
                            | Some h => h s'
                            | None => (Err e, s')
                            end
           | r => r
           end.

(** Run a computation on a part of the state. *)
Definition zoom {S T A} (get : S -> T) (set : T -> S -> S) (m : M T A) : M S A :=
  fun s => let '(r, t) := m (get s) in (r, set t s).

Declare Scope py_scope.
Delimit Scope py_scope with py.
Notation "'let!' x ':=' c 'in' k" := (rbind c (fun x => k))
  (at level 10, x pattern, c at level 100, k at level 200) : py_scope.
Notation "'let*' x ':=' c 'in' k" := (bind c (fun x => k))
  (at level 10, x pattern, c at level 100, k at level 200) : py_scope.
Notation "c ';!' k" := (rbind c (fun _ => k))
  (at level 100, k at level 200, right associativity) : py_scope.
Notation "c ';*' k" := (bind c (fun _ => k))
  (at level 100, k at level 200, right associativity) : py_scope.
Open Scope py_scope.

(** ** Invariants of stateful computations *)

(** [m] preserves [I] whether it returns or raises. *)
Definition preserves {S A} (I : S -> Prop) (m : M S A) : Prop :=
  forall s, I s -> I (snd (m s)).

(** [m] leaves the state unchanged. *)
Definition reads {S A} (m : M S A) : Prop := forall s, snd (m s) = s.

Create HintDb pres.

Section Preserves.
Context {S : Type} (I : S -> Prop).

Lemma preserves_ret {A} (a : A) : preserves I (ret a).
Proof. by intros s Hs. Qed.

Lemma preserves_lift {A} (r : res A) : preserves I (lift r).
Proof. by intros s Hs. Qed.

Lemma preserves_gets {A} (f : S -> A) : preserves I (gets f).
Proof. by intros s Hs. Qed.

Lemma preserves_modify (f : S -> S) :
  (forall s, I s -> I (f s)) -> preserves I (modify f).
Proof. intros Hf s Hs. exact (Hf s Hs). Qed.

Lemma preserves_bind {A B} (m : M S A) (k : A -> M S B) :
  preserves I m -> (forall a, preserves I (k a)) -> preserves I (bind m k).
Proof.
  intros Hm Hk s Hs. specialize (Hm s Hs). unfold bind.
  destruct (m s) as [[a|e] s']; simpl in *; [by apply Hk | done].
Qed.

Lemma preserves_try {A} (m : M S A) h :
  preserves I m ->
  (forall e, match h e with Some k => preserves I k | None => True end) ->
  preserves I (try_except m h).
Proof.
  intros Hm Hh s Hs. specialize (Hm s Hs). unfold try_except.
  destruct (m s) as [[a|e] s']; simpl in *; [done|].
  specialize (Hh e). destruct (h e); [by apply Hh | done].
Qed.

Lemma preserves_if {A} (b : bool) (m1 m2 : M S A) :
  preserves I m1 -> preserves I m2 -> preserves I (if b then m1 else m2).
Proof. by destruct b. Qed.

Lemma preserves_reads {A} (m : M S A) : reads m -> preserves I m.
Proof. intros Hm s Hs. by rewrite Hm. Qed.
End Preserves.

#[export] Hint Resolve preserves_ret preserves_lift preserves_gets
  preserves_bind preserves_if preserves_try : pres.

Lemma reads_lift {S A} (r : res A) : reads (S:=S) (lift r).
Proof. done. Qed.

Lemma reads_bind {S A B} (m : M S A) (k : A -> M S B) :
  reads m -> (forall a, reads (k a)) -> reads (bind m k).
Proof.
  intros Hm Hk s. unfold bind. specialize (Hm s).
  destruct (m s) as [[a|e] s']; simpl in *; subst; [apply Hk | done].
Qed.

(** A property every step keeps holds in every reachable state. *)
Lemma rtc_preserved {S} (R : S -> S -> Prop) (P : S -> Prop) a b :
  (forall x y, P x -> R x y -> P y) -> rtc R a b -> P a -> P b.
Proof. intros HR Hab. induction Hab as [x|x y z Hxy _ IH]; eauto. Qed.

(** ** Inversion of monadic runs *)

Lemma rbind_ok {A B} (m : res A) (k : A -> res B) b :
  rbind m k = Ok b -> exists a, m = Ok a /\ k a = Ok b.
Proof. destruct m; simpl; [eauto | done]. Qed.

Lemma raise_if_ok b c msg u : raise_if b c msg = Ok u -> b = false.
Proof. by destruct b. Qed.

Lemma bind_ok {S A B} (m : M S A) (k : A -> M S B) s b s' :
  bind m k s = (Ok b, s') ->
  exists a s1, m s = (Ok a, s1) /\ k a s1 = (Ok b, s').
Proof.
  unfold bind. destruct (m s) as [[a|e] s1] eqn:E; [eauto | done].
Qed.

(** Destruct every monadic success in the context into its steps. *)
Ltac res_inv :=
  repeat match goal with
  | H : Ok _ = Ok _ |- _ => injection H as H; try subst
  | H : Ok _ = Err _ |- _ => discriminate H
  | H : Err _ = Ok _ |- _ => discriminate H
  | H : raise _ _ = Ok _ |- _ => discriminate H
  | H : rbind _ _ = Ok _ |- _ =>
      let a := fresh "a" in let H1 := fresh "E" in let H2 := fresh "K" in
      apply rbind_ok in H as (a & H1 & H2)
  | H : raise_if _ _ _ = Ok _ |- _ => apply raise_if_ok in H
  end.

Tactic Notation "inv" hyp(H) := inversion H; subst; clear H.
