(* ===== verification/PyBase.v ===== *)
(** The part of Python's language and standard library the sources use:
    [str] methods, [datetime]/[timedelta], [UUID], [json.dumps] of flat
    dictionaries, SHA-256, SHA-1 and [uuid5].

    Strings are sequences of ASCII characters ([Stdlib] strings); text outside
    ASCII is out of scope.  A [datetime] is an instant in microseconds with an
    optional UTC offset; [None] is a naive datetime. *)

From stdpp Require Import base list strings gmap.
From Stdlib Require Import ZArith Lia String Ascii.
From S2P Require Import Prelude.

Open Scope Z_scope.

(** * Strings *)

Definition is_space (c : ascii) : bool :=
  let n := N_of_ascii c in
  ((9 <=? n) && (n <=? 13) || (28 <=? n) && (n <=? 32))%N.

Fixpoint lstrip (s : string) : string :=
  match s with
  | EmptyString => EmptyString
  | String c s' => if is_space c then lstrip s' else s
  end.

Fixpoint rstrip (s : string) : string :=
  match s with
  | EmptyString => EmptyString
  | String c s' =>
      match rstrip s' with
      | EmptyString => if is_space c then EmptyString else String c EmptyString
      | r => String c r
      end
  end.

(** [s.strip()] *)
Definition py_strip (s : string) : string := rstrip (lstrip s).

(** [not s.strip()] *)
Definition is_blank (s : string) : bool := String.eqb (py_strip s) "".

Definition upper_ascii (c : ascii) : ascii :=
  let n := N_of_ascii c in
  if ((97 <=? n) && (n <=? 122))%N then ascii_of_N (n - 32) else c.

(** [s.upper()] *)
Fixpoint py_upper (s : string) : string :=
  match s with
  | EmptyString => EmptyString
  | String c s' => String (upper_ascii c) (py_upper s')
  end.

Definition lower_ascii (c : ascii) : ascii :=
  let n := N_of_ascii c in
  if ((65 <=? n) && (n <=? 90))%N then ascii_of_N (n + 32) else c.

Fixpoint py_lower (s : string) : string :=
  match s with
  | EmptyString => ""
  | String c s' => String (lower_ascii c) (py_lower s')
  end.

Fixpoint is_prefix (p s : string) : bool :=
  match p, s with
  | EmptyString, _ => true
  | String a p', String b s' => Ascii.eqb a b && is_prefix p' s'
  | _, _ => false
  end.

(** [needle in s] *)
Fixpoint py_in (needle s : string) : bool :=
  is_prefix needle s ||
  match s with
  | EmptyString => false
  | String _ s' => py_in needle s'
  end.

Definition dec_digit (n : N) : ascii := ascii_of_N (48 + n).

Fixpoint dec_digits (fuel : nat) (n : N) : string :=
  match fuel with
  | O => String (dec_digit n) ""
  | S f => if (n <? 10)%N then String (dec_digit n) ""
           else dec_digits f (n / 10) +:+ String (dec_digit (n mod 10)) ""
  end.

(** [str(n)] of a natural number *)
Definition str_N (n : N) : string := dec_digits (N.to_nat (N.size n)) n.

(** [str(z)] of an [int] *)
Definition str_Z (z : Z) : string :=
  if z <? 0 then String "-"%char (str_N (Z.to_N (- z))) else str_N (Z.to_N z).

(** [a or b] on optional strings *)
Definition str_or (a b : option string) : option string :=
  match a with
  | Some s => if String.eqb s "" then b else a
  | None => b
  end.

(** * Python's stable sort *)

Fixpoint stable_insert {A} (le : A -> A -> bool) (x : A) (l : list A) : list A :=
  match l with
  | [] => [x]
  | y :: l' => if le x y then x :: l else y :: stable_insert le x l'
  end.
Definition stable_sort {A} (le : A -> A -> bool) (l : list A) : list A := foldr (stable_insert le) [] l.
Definition sorted_strings : list string -> list string := stable_sort String.leb.

(** * datetime *)

Record datetime := DT {
  dt_instant : Z;          (* microseconds: UTC if aware, wall clock if naive *)
  dt_offset : option Z;    (* UTC offset in microseconds *)
}.

#[export] Instance datetime_eq_dec : EqDecision datetime.
Proof. solve_decision. Defined.

(** An aware UTC datetime. *)
Definition utc (micros : Z) : datetime := DT micros (Some 0).

Definition dt_aware (d : datetime) : bool :=
  match dt_offset d with Some _ => true | None => false end.

(** [_require_timezone(value, field_name)], repeated in most packages. *)
Definition require_timezone (d : datetime) (field : string) : res unit :=
  raise_if (negb (dt_aware d)) ValueError (field +:+ " must be timezone-aware").

Definition dt_comparable (a b : datetime) : bool :=
  Bool.eqb (dt_aware a) (dt_aware b).

Definition dt_cmp (op : Z -> Z -> bool) (a b : datetime) : res bool :=
  if dt_comparable a b then Ok (op (dt_instant a) (dt_instant b))
  else raise TypeError "can't compare offset-naive and offset-aware datetimes".

Definition dt_le := dt_cmp Z.leb.
Definition dt_lt := dt_cmp Z.ltb.
Definition dt_gt := dt_cmp Z.gtb.

(** [a - b], a [timedelta] in microseconds *)
Definition dt_sub (a b : datetime) : res Z :=
  if dt_comparable a b then Ok (dt_instant a - dt_instant b)
  else raise TypeError "can't subtract offset-naive and offset-aware datetimes".

(** [a + timedelta] *)
Definition dt_add (a : datetime) (delta : Z) : datetime :=
  DT (dt_instant a + delta) (dt_offset a).

Lemma dt_cmp_aware op a b :
  dt_aware a = true -> dt_aware b = true ->
  dt_cmp op a b = Ok (op (dt_instant a) (dt_instant b)).
Proof. intros Ha Hb. unfold dt_cmp, dt_comparable. by rewrite Ha, Hb. Qed.

Lemma require_timezone_ok d f u : require_timezone d f = Ok u -> dt_aware d = true.
Proof. unfold require_timezone. intros H%raise_if_ok. by destruct (dt_aware d). Qed.

(** The text of a date and time, with the given separator between them. *)
Definition pad (width : nat) (z : Z) : string :=
  let s := str_Z z in
  String.concat "" (replicate (width - String.length s) "0"%string) +:+ s.

(** Civil date of a day count since 1970-01-01 (proleptic Gregorian). *)
Definition civil_of_days (days : Z) : Z * Z * Z :=
  let z := days + 719468 in
  let era := z / 146097 in
  let doe := z - era * 146097 in
  let yoe := (doe - doe / 1460 + doe / 36524 - doe / 146096) / 365 in
  let doy := doe - (365 * yoe + yoe / 4 - yoe / 100) in
  let mp := (5 * doy + 2) / 153 in
  let d := doy - (153 * mp + 2) / 5 + 1 in
  let m := if mp <? 10 then mp + 3 else mp - 9 in
  (yoe + era * 400 + (if m <=? 2 then 1 else 0), m, d).

Definition iso_offset (off : Z) : string :=
  let a := Z.abs off / 1000000 in
  (if off <? 0 then "-" else "+") +:+ pad 2 (a / 3600) +:+ ":" +:+ pad 2 (a / 60 mod 60) +:+
  (if a mod 60 =? 0 then "" else ":" +:+ pad 2 (a mod 60)).

Definition iso_text (sep : string) (d : datetime) : string :=
  let wall := dt_instant d + default 0 (dt_offset d) in
  let secs := wall / 1000000 in
  let us := wall mod 1000000 in
  let '(y, m, dd) := civil_of_days (secs / 86400) in
  let t := secs mod 86400 in
  pad 4 y +:+ "-" +:+ pad 2 m +:+ "-" +:+ pad 2 dd +:+ sep +:+
  pad 2 (t / 3600) +:+ ":" +:+ pad 2 (t / 60 mod 60) +:+ ":" +:+ pad 2 (t mod 60) +:+
  (if us =? 0 then "" else "." +:+ pad 6 us) +:+
  match dt_offset d with Some o => iso_offset o | None => "" end.

(** [d.isoformat()]; [str(d)] uses a space as separator. *)
Definition isoformat (d : datetime) : string := iso_text "T" d.

Example isoformat_sample :
  isoformat (DT 1700000000123456 (Some (19800 * 1000000)))
  = "2023-11-15T03:43:20.123456+05:30".
Proof. vm_compute. reflexivity. Qed.

(** * Enumerations *)

(** [E(value)] for a [StrEnum] class [E] with these members. *)
Definition enum_of {T} (members : list T) (value : T -> string) (s : string) : res T :=
  match List.find (fun m => String.eqb (value m) s) members with
  | Some m => Ok m
  | None => raise ValueError (s +:+ " is not a valid value")
  end.

(** * Metadata values *)

(** Values of [dict[str, object]] metadata. *)
Inductive pyval :=
| PNone
| PBool (b : bool)
| PInt (z : Z)
| PStr (s : string)
| PDatetime (d : datetime).

#[export] Instance pyval_eq_dec : EqDecision pyval.
Proof. solve_decision. Defined.

Definition py_truthy (v : option pyval) : bool :=
  match v with
  | None | Some PNone => false
  | Some (PBool b) => b
  | Some (PInt z) => negb (z =? 0)
  | Some (PStr s) => negb (String.eqb s "")
  | Some (PDatetime _) => true
  end.

(** [str(v)] / [f"{v}"] *)
Definition py_str (v : pyval) : string :=
  match v with
  | PNone => "None"
  | PBool true => "True"
  | PBool false => "False"
  | PInt z => str_Z z
  | PStr s => s
  | PDatetime d => iso_text " " d
  end.

Abbreviation metadata := (gmap string pyval).

(** A counter attribute of a metrics object: [self.name += 1]. *)
Definition bump (m : gmap string Z) (k : string) : gmap string Z := <[k := default 0 (m !! k) + 1]> m.

(** * UUID *)

(** A UUID is its 128-bit integer. *)
Abbreviation UUID := N.

Definition hex_digit (n : N) : ascii :=
  if (n <? 10)%N then ascii_of_N (48 + n) else ascii_of_N (87 + n).

Definition hex_value (c : ascii) : option N :=
  let n := N_of_ascii c in
  if ((48 <=? n) && (n <=? 57))%N then Some (n - 48)%N
  else if ((97 <=? n) && (n <=? 102))%N then Some (n - 87)%N
  else if ((65 <=? n) && (n <=? 70))%N then Some (n - 55)%N
  else None.

(** [w] lower-case hexadecimal digits of [n], most significant first. *)
Fixpoint to_hex (w : nat) (n : N) : string :=
  match w with
  | O => ""
  | S w' => String (hex_digit (N.shiftr n (4 * N.of_nat w') mod 16)) (to_hex w' n)
  end.

(** [u.hex] and [str(u)] *)
Definition uuid_hex (u : UUID) : string := to_hex 32 u.

Definition uuid_str (u : UUID) : string :=
  to_hex 8 (N.shiftr u 96) +:+ "-" +:+ to_hex 4 (N.shiftr u 80) +:+ "-" +:+
  to_hex 4 (N.shiftr u 64) +:+ "-" +:+ to_hex 4 (N.shiftr u 48) +:+ "-" +:+ to_hex 12 u.

Fixpoint parse_hex (acc : N) (s : string) : option N :=
  match s with
  | EmptyString => Some acc
  | String c s' => match hex_value c with
                   | Some d => parse_hex (16 * acc + d) s'
                   | None => None
                   end
  end.

Fixpoint str_remove (c : ascii) (s : string) : string :=
  match s with
  | EmptyString => EmptyString
  | String a s' => if Ascii.eqb a c then str_remove c s' else String a (str_remove c s')
  end.

(** [UUID(s)] for plain or dashed hexadecimal text; [None] is [ValueError]. *)
Definition uuid_parse (s : string) : option UUID :=
  let h := str_remove "-" s in
  if (String.length h =? 32)%nat then parse_hex 0 h else None.

(** Round trip of [UUID(str(u))]. *)
Lemma str_remove_app c s t : str_remove c (s +:+ t) = str_remove c s +:+ str_remove c t.
Proof.
  induction s as [|a s IH]; simpl; [done|].
  destruct (Ascii.eqb a c); simpl; by rewrite IH.
Qed.

Lemma hex_digit_cases (n : N) : (n < 16)%N ->
  hex_value (hex_digit n) = Some n /\ Ascii.eqb (hex_digit n) "-" = false.
Proof.
  intros Hn.
  assert (Forall (fun k => hex_value (hex_digit k) = Some k
                           /\ Ascii.eqb (hex_digit k) "-" = false)
            (N.of_nat <$> seq 0 16)) as Hall by (repeat constructor).
  rewrite Forall_forall in Hall. apply Hall.
  apply list_elem_of_fmap. exists (N.to_nat n). split; [lia|].
  apply elem_of_seq. lia.
Qed.

Lemma hex_digit_nonspace n : (n < 16)%N -> is_space (hex_digit n) = false.
Proof.
  intros Hn. assert (forallb (fun k => negb (is_space (hex_digit (N.of_nat k)))) (seq 0 16) = true) as H by done.
  rewrite forallb_forall in H. specialize (H (N.to_nat n)). rewrite N2Nat.id, negb_true_iff in H.
  apply H, in_seq. lia.
Qed.

Lemma is_blank_cons c s : is_space c = false -> is_blank (String c s) = false.
Proof. intros Hc. unfold is_blank, py_strip. simpl. rewrite Hc. simpl. rewrite Hc. by destruct (rstrip s). Qed.

Lemma to_hex_nodash w n : str_remove "-" (to_hex w n) = to_hex w n.
Proof.
  induction w as [|w IH]; [done|]. cbn [to_hex str_remove].
  destruct (hex_digit_cases (N.shiftr n (4 * N.of_nat w) mod 16)) as [_ ->].
  { apply N.mod_lt. lia. }
  by rewrite IH.
Qed.

Lemma to_hex_length w n : String.length (to_hex w n) = w.
Proof. induction w; cbn; congruence. Qed.

Lemma shiftr_16_split n w :
  ((n mod 16 ^ (N.of_nat (S w)))
   = N.shiftr n (4 * N.of_nat w) mod 16 * 16 ^ N.of_nat w + n mod 16 ^ N.of_nat w)%N.
Proof.
  rewrite N.shiftr_div_pow2.
  replace (2 ^ (4 * N.of_nat w))%N with (16 ^ N.of_nat w)%N
    by (rewrite N.pow_mul_r; done).
  replace (16 ^ N.of_nat (S w))%N with (16 ^ N.of_nat w * 16)%N
    by (rewrite Nat2N.inj_succ, N.pow_succ_r'; lia).
  rewrite N.Div0.mod_mul_r. lia.
Qed.

Lemma parse_to_hex w : forall acc n s,
  parse_hex acc (to_hex w n +:+ s)
  = parse_hex (acc * 16 ^ N.of_nat w + n mod 16 ^ N.of_nat w) s.
Proof.
  induction w as [|w IH]; intros acc n s.
  { cbn [to_hex]. replace (16 ^ N.of_nat 0)%N with 1%N by done.
    rewrite N.mod_1_r. simpl. f_equal. lia. }
  cbn [to_hex]. simpl.
  destruct (hex_digit_cases (N.shiftr n (4 * N.of_nat w) mod 16)) as [-> _].
  { apply N.mod_lt. lia. }
  rewrite IH. f_equal. rewrite (shiftr_16_split n w).
  rewrite Nat2N.inj_succ, N.pow_succ_r'. lia.
Qed.

Lemma str_length_app s t :
  String.length (s +:+ t) = (String.length s + String.length t)%nat.
Proof. induction s as [|c s IH]; simpl; [done | by rewrite IH]. Qed.

Lemma str_app_nil_r s : s +:+ "" = s.
Proof. induction s as [|c s IH]; [done|]. exact (f_equal (String c) IH). Qed.

Lemma str_app_nil_l s : "" +:+ s = s.
Proof. done. Qed.

Lemma to_hex_end acc w n :
  parse_hex acc (to_hex w n) = Some (acc * 16 ^ N.of_nat w + n mod 16 ^ N.of_nat w)%N.
Proof. rewrite <- (str_app_nil_r (to_hex w n)). by rewrite parse_to_hex. Qed.

(** One more field of [k] bits below the fields already read. *)
Lemma shiftr_join (u a k : N) :
  (N.shiftr u (a + k) * 2 ^ k + N.shiftr u a mod 2 ^ k = N.shiftr u a)%N.
Proof.
  rewrite !N.shiftr_div_pow2, N.pow_add_r, <- N.Div0.div_div.
  pose proof (N.div_mod' (u / 2 ^ a) (2 ^ k)). lia.
Qed.

Lemma uuid_roundtrip u : (u < 2 ^ 128)%N -> uuid_parse (uuid_str u) = Some u.
Proof.
  intros Hu. unfold uuid_parse, uuid_str.
  repeat rewrite str_remove_app. rewrite !to_hex_nodash.
  change (str_remove "-" "-") with EmptyString. rewrite !str_app_nil_l.
  rewrite !str_length_app, !to_hex_length. cbn [Nat.add Nat.eqb].
  rewrite !parse_to_hex, to_hex_end. f_equal.
  change (16 ^ N.of_nat 8)%N with (2 ^ 32)%N. change (16 ^ N.of_nat 4)%N with (2 ^ 16)%N.
  change (16 ^ N.of_nat 12)%N with (2 ^ 48)%N.
  rewrite (N.mod_small (N.shiftr u 96)), N.mul_0_l, N.add_0_l.
  2: { rewrite N.shiftr_div_pow2. apply N.Div0.div_lt_upper_bound; lia. }
  rewrite (shiftr_join u 80 16 : (N.shiftr u 96 * _ + _)%N = _).
  rewrite (shiftr_join u 64 16 : (N.shiftr u 80 * _ + _)%N = _).
  rewrite (shiftr_join u 48 16 : (N.shiftr u 64 * _ + _)%N = _).
  pose proof (shiftr_join u 0 48 : (N.shiftr u 48 * _ + _)%N = _) as H.
  by rewrite N.shiftr_0_r in H.
Qed.

(** * json.dumps

    [json.dumps(payload, sort_keys=True)] with the default separators
    ([", "], [": "]) or the compact ones ([","], [":"]).  An object is the list
    of its items in insertion order. *)

Inductive json :=
| JNull
| JStr (s : string)
| JInt (z : Z)
| JFloat (text : string)        (* its [repr] *)
| JBool (b : bool)
| JArr (l : list json)
| JObj (l : list (string * json)).

Definition json_opt_str (o : option string) : json :=
  match o with Some s => JStr s | None => JNull end.

Definition quote : ascii := ascii_of_N 34.
Definition backslash : ascii := ascii_of_N 92.

Definition json_char (c : ascii) : string :=
  let n := N_of_ascii c in
  let esc (a : ascii) := String backslash (String a "") in
  if (n =? 34)%N then esc quote
  else if (n =? 92)%N then esc backslash
  else if (n =? 10)%N then esc "n"%char
  else if (n =? 13)%N then esc "r"%char
  else if (n =? 9)%N then esc "t"%char
  else if (n =? 12)%N then esc "f"%char
  else if (n =? 8)%N then esc "b"%char
  else if (n <? 32)%N || (n =? 127)%N then esc "u"%char +:+ to_hex 4 n
  else String c "".

Fixpoint json_chars (s : string) : string :=
  match s with
  | EmptyString => ""
  | String c s' => json_char c +:+ json_chars s'
  end.

(** [json.dumps] of a text of ASCII characters; a byte beyond ASCII is written as
    it is, where [json.dumps] escapes the character. *)
Definition json_string (s : string) : string :=
  String quote (json_chars s +:+ String quote "").

Fixpoint insert_key {V} (kv : string * V) (l : list (string * V)) : list (string * V) :=
  match l with
  | [] => [kv]
  | kv' :: l' => if String.leb kv.1 kv'.1 then kv :: l else kv' :: insert_key kv l'
  end.

Definition sort_keys {V} (l : list (string * V)) : list (string * V) :=
  foldr insert_key [] l.

Fixpoint json_text (item_sep key_sep : string) (j : json) : string :=
  match j with
  | JNull => "null"
  | JStr s => json_string s
  | JInt z => str_Z z
  | JFloat t => t
  | JBool b => if b then "true" else "false"
  | JArr l => "[" +:+ String.concat item_sep (List.map (json_text item_sep key_sep) l) +:+ "]"
  | JObj l =>
      "{" +:+ String.concat item_sep
        (List.map (fun kv => json_string kv.1 +:+ key_sep +:+ kv.2)
           (sort_keys (List.map (fun kv => (kv.1, json_text item_sep key_sep kv.2)) l))) +:+ "}"
  end.

Definition json_dumps (item_sep key_sep : string) (l : list (string * json)) : string :=
  json_text item_sep key_sep (JObj l).

Definition json_default := json_dumps ", " ": ".
Definition json_compact := json_dumps "," ":".

(** [repr(s)] of a string *)
Fixpoint repr_chars (q : Ascii.ascii) (s : string) : string :=
  match s with
  | EmptyString => ""
  | String c s' =>
      let n := Ascii.N_of_ascii c in
      let esc a := String backslash (String a "") in
      (if Ascii.eqb c q || (n =? 92)%N then esc c
       else if (n =? 10)%N then esc "n"%char
       else if (n =? 13)%N then esc "r"%char
       else if (n =? 9)%N then esc "t"%char
       else if (n <? 32)%N || (126 <? n)%N then esc "x"%char +:+ to_hex 2 n
       else String c "") +:+ repr_chars q s'
  end.

Definition py_repr (s : string) : string :=
  let single := Ascii.ascii_of_N 39 in
  let q := if py_in (String single "") s && negb (py_in (String quote "") s) then quote else single in
  String q (repr_chars q s +:+ String q "").

(** ** Sorted dictionaries *)

Lemma insert_key_perm {V} (kv : string * V) l : insert_key kv l ≡ₚ kv :: l.
Proof.
  induction l as [|x l IH]; simpl; [done|]. destruct (String.leb _ _); [done|].
  rewrite IH. apply Permutation_swap.
Qed.

Lemma sort_keys_perm {V} (l : list (string * V)) : sort_keys l ≡ₚ l.
Proof. induction l as [|x l IH]; simpl; [done|]. by rewrite insert_key_perm, IH. Qed.

(** ** [mapM_res]: a comprehension whose element can raise *)

Fixpoint mapM_res {A B} (f : A -> res B) (l : list A) : res (list B) :=
  match l with
  | [] => Ok []
  | a :: l' => let! b := f a in let! bs := mapM_res f l' in Ok (b :: bs)
  end.

Lemma mapM_res_ok {A B} (f : A -> res B) l bs :
  mapM_res f l = Ok bs <-> Forall2 (fun a b => f a = Ok b) l bs.
Proof.
  revert bs. induction l as [|a l IH]; intros bs; simpl.
  - split; [intros [= <-]; constructor|]. by inversion 1.
  - split.
    + intros H. res_inv. constructor; [done|]. by apply IH.
    + intros H. inversion H as [|? ? ? bs' Ha Hl]; subst. rewrite Ha. simpl.
      apply IH in Hl as ->. done.
Qed.
