(* ===== verification/Hashing.v ===== *)
(** [hashlib.sha256(...).hexdigest()], SHA-1 and [uuid.uuid5], executable, with
    the published test vectors.  The engines use them only as deterministic
    functions of the text they digest. *)

From stdpp Require Import base list strings.
From Stdlib Require Import ZArith NArith Lia String Ascii.
From S2P Require Import Prelude PyBase.

Open Scope N_scope.

Definition mask32 (x : N) : N := x mod 2 ^ 32.
Definition add32 (x y : N) : N := mask32 (x + y).
Definition not32 (x : N) : N := N.lxor x (2 ^ 32 - 1).
Definition rotr32 (n x : N) : N := N.lor (N.shiftr x n) (mask32 (N.shiftl x (32 - n))).
Definition rotl32 (n x : N) : N := rotr32 (32 - n) x.

Fixpoint bytes_of_string (s : string) : list N :=
  match s with
  | EmptyString => []
  | String c s' => N_of_ascii c :: bytes_of_string s'
  end.

(** Big-endian bytes of [n], [w] of them. *)
Fixpoint be_bytes (w : nat) (n : N) : list N :=
  match w with
  | O => []
  | S w' => N.shiftr n (8 * N.of_nat w') mod 256 :: be_bytes w' n
  end.

Definition pad_message (l : list N) : list N :=
  let n := List.length l in
  let zeros := ((119 - n mod 64) mod 64)%nat in
  l ++ [128] ++ replicate zeros 0 ++ be_bytes 8 (8 * N.of_nat n).

Fixpoint words (l : list N) : list N :=
  match l with
  | a :: b :: c :: d :: r => (((a * 256 + b) * 256 + c) * 256 + d) :: words r
  | _ => []
  end.

Fixpoint chunks (k : nat) (fuel : nat) (l : list N) : list (list N) :=
  match fuel, l with
  | S f, _ :: _ => take k l :: chunks k f (drop k l)
  | _, _ => []
  end.

Definition word_blocks (l : list N) : list (list N) :=
  let w := words (pad_message l) in chunks 16 (List.length w) w.

Module Sha256.
(** The constants are the first 32 bits of the fractional parts of the cube
    roots of the first 64 primes, and of the square roots of the first 8. *)
Definition is_prime (n : nat) : bool :=
  (1 <? n)%nat && forallb (fun d => negb (n mod d =? 0)%nat) (seq 2 (n - 2)).

Definition primes : list N := Eval vm_compute in
  N.of_nat <$> List.filter is_prime (seq 0 312).

(** The largest [r] below [2 ^ bits] with [r ^ k <= n]. *)
Definition root_floor (k : N) (bits : nat) (n : N) : N :=
  foldr (fun b r => let r' := r + 2 ^ N.of_nat b in if r' ^ k <=? n then r' else r)
    0 (seq 0 bits).

Definition root_fraction (k p : N) : N := mask32 (root_floor k 40 (p * 2 ^ (32 * k))).

Definition round_constants : list N := Eval vm_compute in root_fraction 3 <$> primes.

Definition initial : list N := Eval vm_compute in root_fraction 2 <$> take 8 primes.

Definition small0 (x : N) := N.lxor (rotr32 7 x) (N.lxor (rotr32 18 x) (N.shiftr x 3)).
Definition small1 (x : N) := N.lxor (rotr32 17 x) (N.lxor (rotr32 19 x) (N.shiftr x 10)).
Definition big0 (x : N) := N.lxor (rotr32 2 x) (N.lxor (rotr32 13 x) (rotr32 22 x)).
Definition big1 (x : N) := N.lxor (rotr32 6 x) (N.lxor (rotr32 11 x) (rotr32 25 x)).
Definition ch (x y z : N) := N.lxor (N.land x y) (N.land (not32 x) z).
Definition maj (x y z : N) := N.lxor (N.land x y) (N.lxor (N.land x z) (N.land y z)).

(** The schedule is kept newest word first. *)
Fixpoint extend (n : nat) (rev_w : list N) : list N :=
  match n with
  | O => rev_w
  | S n' =>
      let w k := nth k rev_w 0 in
      extend n' (add32 (add32 (small1 (w 1%nat)) (w 6%nat))
                       (add32 (small0 (w 14%nat)) (w 15%nat)) :: rev_w)
  end.

Definition round (st : list N) (kw : N * N) : list N :=
  match st with
  | [a; b; c; d; e; f; g; h] =>
      let t1 := add32 (add32 h (big1 e)) (add32 (ch e f g) (add32 kw.1 kw.2)) in
      let t2 := add32 (big0 a) (maj a b c) in
      [add32 t1 t2; a; b; c; add32 d t1; e; f; g]
  | _ => st
  end.

Definition compress (st block : list N) : list N :=
  let w := reverse (extend 48 (reverse block)) in
  zip_with add32 st (foldl round st (zip round_constants w)).

Definition digest (s : string) : list N :=
  foldl compress initial (word_blocks (bytes_of_string s)).
End Sha256.

(** [hashlib.sha256(s.encode("utf-8")).hexdigest()] *)
Definition sha256_hex (s : string) : string :=
  String.concat "" (to_hex 8 <$> Sha256.digest s).

(** The digest is eight words, so its text starts with a hexadecimal digit. *)
Lemma sha256_round_length st kw : List.length st = 8%nat -> List.length (Sha256.round st kw) = 8%nat.
Proof. destruct st as [|? [|? [|? [|? [|? [|? [|? [|? [|]]]]]]]]]; done. Qed.

Lemma sha256_compress_length st block :
  List.length st = 8%nat -> List.length (Sha256.compress st block) = 8%nat.
Proof.
  intros Hst. unfold Sha256.compress. rewrite length_zip_with, Hst.
  generalize (zip Sha256.round_constants (reverse (Sha256.extend 48 (reverse block)))). intros kws.
  assert (List.length (foldl Sha256.round st kws) = 8%nat) as ->; [|done].
  revert st Hst. induction kws as [|kw kws IH]; intros st Hst; [done|]. simpl. by apply IH, sha256_round_length.
Qed.

Lemma sha256_digest_length s : List.length (Sha256.digest s) = 8%nat.
Proof.
  unfold Sha256.digest. generalize (word_blocks (bytes_of_string s)). intros blocks.
  assert (List.length Sha256.initial = 8%nat) as Hst by done. revert Hst. generalize Sha256.initial.
  induction blocks as [|b blocks IH]; intros st Hst; [done|]. simpl. by apply IH, sha256_compress_length.
Qed.

Lemma sha256_hex_nonblank s : is_blank (sha256_hex s) = false.
Proof.
  unfold sha256_hex. pose proof (sha256_digest_length s) as Hl.
  destruct (Sha256.digest s) as [|x [|y l]]; [done..|]. cbn [fmap list_fmap String.concat]. cbn [to_hex].
  apply is_blank_cons, hex_digit_nonspace. apply N.mod_lt. lia.
Qed.

Example sha256_abc :
  sha256_hex "abc" = "ba7816bf8f01cfea414140de5dae2223b00361a396177a9cb410ff61f20015ad"%string.
Proof. vm_compute. reflexivity. Qed.

Example sha256_two_blocks :
  sha256_hex "abcdbcdecdefdefgefghfghighijhijkijkljklmklmnlmnomnopnopq"
  = "248d6a61d20638b8e5c026930c3e6039a33ce45964ff2167f6ecedd419db06c1"%string.
Proof. vm_compute. reflexivity. Qed.

Module Sha1.
Definition initial : list N := [0x67452301; 0xefcdab89; 0x98badcfe; 0x10325476; 0xc3d2e1f0].

Fixpoint extend (n : nat) (rev_w : list N) : list N :=
  match n with
  | O => rev_w
  | S n' =>
      let w k := nth k rev_w 0 in
      extend n' (rotl32 1 (N.lxor (N.lxor (w 2%nat) (w 7%nat))
                                  (N.lxor (w 13%nat) (w 15%nat))) :: rev_w)
  end.

Definition round (st : list N) (tw : nat * N) : list N :=
  match st with
  | [a; b; c; d; e] =>
      let t := tw.1 in
      let '(f, k) :=
        if (t <? 20)%nat then (N.lor (N.land b c) (N.land (not32 b) d), 0x5a827999)
        else if (t <? 40)%nat then (N.lxor b (N.lxor c d), 0x6ed9eba1)
        else if (t <? 60)%nat then
          (N.lor (N.land b c) (N.lor (N.land b d) (N.land c d)), 0x8f1bbcdc)
        else (N.lxor b (N.lxor c d), 0xca62c1d6) in
      [add32 (add32 (rotl32 5 a) f) (add32 (add32 e k) tw.2); a; rotl32 30 b; c; d]
  | _ => st
  end.

Definition compress (st block : list N) : list N :=
  let w := reverse (extend 64 (reverse block)) in
  zip_with add32 st (foldl round st (zip (seq 0 80) w)).

Definition digest_bytes (l : list N) : list N := foldl compress initial (word_blocks l).
End Sha1.

Example sha1_abc :
  String.concat "" (to_hex 8 <$> Sha1.digest_bytes (bytes_of_string "abc"))
  = "a9993e364706816aba3e25717850c26c9cd0d89d"%string.
Proof. vm_compute. reflexivity. Qed.

(** [uuid.uuid5(namespace, name)]: the first 128 bits of the SHA-1 digest with
    the version and variant fields set. *)
Definition uuid5 (namespace : UUID) (name : string) : UUID :=
  match Sha1.digest_bytes (be_bytes 16 namespace ++ bytes_of_string name) with
  | a :: b :: c :: d :: _ =>
      let v := ((a * 2 ^ 32 + b) * 2 ^ 32 + c) * 2 ^ 32 + d in
      let v := N.lor (N.ldiff v (N.shiftl 0xc000 48)) (N.shiftl 0x8000 48) in
      N.lor (N.ldiff v (N.shiftl 0xf000 64)) (N.shiftl 5 76)
  | _ => 0
  end.

(** The value of [uuid.uuid5(uuid.NAMESPACE_DNS, "python.org")] given in the
    standard library's documentation. *)
Example uuid5_python_org :
  uuid_str (uuid5 0x6ba7b8109dad11d180b400c04fd430c8 "python.org")
  = "886313e1-3b8a-5372-9b90-0c9aee199e5d"%string.
Proof. vm_compute. reflexivity. Qed.
