(* ===== verification/Decimal.v ===== *)
(** Python's [decimal.Decimal] for finite values under the default context:
    28 significant digits, [ROUND_HALF_EVEN].  A value is a sign, a natural
    coefficient and a decimal exponent; every operation computes the exact
    result and rounds it with [dfix].

    Not modelled: infinities and NaN, and the exponent limits of the context
    ([Emax] = 999999).  [dval] reads a decimal as a rational number; the lemmas
    relate each operation to the arithmetic of [Q], exactly when the result
    fits 28 digits and up to half a unit in the last place otherwise. *)

From stdpp Require Import base list strings.
From Stdlib Require Import ZArith NArith QArith Qpower Qabs Lia Lqa.
From S2P Require Import Prelude.

Open Scope Z_scope.

Record decimal := Dec {
  dneg : bool;
  dcoef : N;
  dexp : Z;
}.

#[export] Instance decimal_eq_dec : EqDecision decimal.
Proof. solve_decision. Defined.

(** [getcontext().prec] *)
Definition PREC : nat := 28.

(** Signed coefficient. *)
Definition dz (d : decimal) : Z :=
  if dneg d then - Z.of_N (dcoef d) else Z.of_N (dcoef d).

(** * Digits and rounding *)

Fixpoint ndigits_fuel (fuel : nat) (n : N) : nat :=
  match fuel with
  | O => 1
  | S f => if (n <? 10)%N then 1 else S (ndigits_fuel f (n / 10))
  end.

(** [len(str(n))] *)
Definition ndigits (n : N) : nat := ndigits_fuel (N.to_nat (N.size n)) n.

(** [n / d] to the nearest integer, ties to even. *)
Definition div_half_even (n d : N) : N :=
  let q := (n / d)%N in
  let r := (n mod d)%N in
  match (2 * r ?= d)%N with
  | Lt => q
  | Gt => (q + 1)%N
  | Eq => if N.even q then q else (q + 1)%N
  end.

(** [_fix]: round to the context's precision. *)
Definition dfix (d : decimal) : decimal :=
  let nd := ndigits (dcoef d) in
  if (nd <=? PREC)%nat then d
  else
    let drop := (nd - PREC)%nat in
    let c := div_half_even (dcoef d) (10 ^ N.of_nat drop) in
    let e := dexp d + Z.of_nat drop in
    if (ndigits c <=? PREC)%nat then Dec (dneg d) c e
    else Dec (dneg d) (c / 10) (e + 1).

(** * Operations *)

(** [Decimal(z)] of an [int] is exact. *)
Definition dec_of_Z (z : Z) : decimal := Dec (z <? 0) (Z.abs_N z) 0.

Definition dzero : decimal := dec_of_Z 0.

(** Signed coefficient at a smaller exponent. *)
Definition scaled (d : decimal) (e : Z) : Z := dz d * 10 ^ (dexp d - e).

Definition of_signed (zero_neg : bool) (z e : Z) : decimal :=
  Dec (if z =? 0 then zero_neg else z <? 0) (Z.abs_N z) e.

Definition dadd (a b : decimal) : decimal :=
  let e := Z.min (dexp a) (dexp b) in
  dfix (of_signed (dneg a && dneg b) (scaled a e + scaled b e) e).

Definition copy_negate (d : decimal) : decimal := Dec (negb (dneg d)) (dcoef d) (dexp d).

Definition dsub (a b : decimal) : decimal := dadd a (copy_negate b).

(** Unary minus and [abs]: the result is rounded to the context. *)
Definition dminus (d : decimal) : decimal :=
  dfix (if (dcoef d =? 0)%N then Dec false 0 (dexp d) else copy_negate d).

Definition dabs (d : decimal) : decimal := dfix (Dec false (dcoef d) (dexp d)).

Definition dmul (a b : decimal) : decimal :=
  dfix (Dec (xorb (dneg a) (dneg b)) (dcoef a * dcoef b) (dexp a + dexp b)).

(** Drop up to [n] trailing zeros. *)
Fixpoint strip_zeros (n : nat) (c : N) (e : Z) : N * Z :=
  match n with
  | O => (c, e)
  | S n' => if (c mod 10 =? 0)%N then strip_zeros n' (c / 10) (e + 1) else (c, e)
  end.

Definition ddiv (a b : decimal) : res decimal :=
  let sign := xorb (dneg a) (dneg b) in
  if (dcoef b =? 0)%N then
    if (dcoef a =? 0)%N then raise InvalidOperation "[<class 'decimal.DivisionUndefined'>]"
    else raise DivisionByZero "[<class 'decimal.DivisionByZero'>]"
  else if (dcoef a =? 0)%N then Ok (Dec sign 0 (dexp a - dexp b))
  else
    let shift := Z.of_nat (ndigits (dcoef b)) - Z.of_nat (ndigits (dcoef a))
                 + Z.of_nat PREC + 1 in
    let e := dexp a - dexp b - shift in
    let num := (dcoef a * 10 ^ Z.to_N shift)%N in
    let den := (dcoef b * 10 ^ Z.to_N (- shift))%N in
    let q := (num / den)%N in
    let '(c, e') :=
      if (num mod den =? 0)%N then
        strip_zeros (Z.to_nat (dexp a - dexp b - e)) q e
      else if (q mod 5 =? 0)%N then ((q + 1)%N, e) else (q, e) in
    Ok (dfix (Dec sign c e')).

(** Coefficient of [d] rescaled to exponent [e], half-even. *)
Definition rescale_coef (d : decimal) (e : Z) : N :=
  if e <=? dexp d then (dcoef d * 10 ^ Z.to_N (dexp d - e))%N
  else div_half_even (dcoef d) (10 ^ Z.to_N (e - dexp d)).

(** [d.quantize(q, rounding=ROUND_HALF_EVEN)] *)
Definition quantize (d q : decimal) : res decimal :=
  let c := rescale_coef d (dexp q) in
  if (PREC <? ndigits c)%nat then raise InvalidOperation "[<class 'decimal.InvalidOperation'>]"
  else Ok (Dec (dneg d) c (dexp q)).

(** [d.to_integral_value()] *)
Definition to_integral_value (d : decimal) : decimal :=
  if 0 <=? dexp d then d else Dec (dneg d) (rescale_coef d 0) 0.

(** [int(d)] truncates toward zero. *)
Definition int_of_dec (d : decimal) : Z :=
  if 0 <=? dexp d then dz d * 10 ^ dexp d
  else Z.quot (dz d) (10 ^ (- dexp d)).

(** Comparison by value ([==], [<], [<=]). *)
Definition dcmp (a b : decimal) : comparison :=
  let e := Z.min (dexp a) (dexp b) in scaled a e ?= scaled b e.

Definition deq (a b : decimal) : bool := match dcmp a b with Eq => true | _ => false end.
Definition dlt (a b : decimal) : bool := match dcmp a b with Lt => true | _ => false end.
Definition dle (a b : decimal) : bool := match dcmp a b with Gt => false | _ => true end.
Definition dgt (a b : decimal) : bool := dlt b a.
Definition dge (a b : decimal) : bool := dle b a.

(** [sum(l, Decimal("0"))] *)
Definition dsum (l : list decimal) : decimal := foldl dadd dzero l.

(** [max(a, b)] keeps the first argument on ties. *)
Definition dmax (a b : decimal) : decimal := if dgt b a then b else a.

Declare Scope dec_scope.
Delimit Scope dec_scope with dec.
Infix "<?" := dlt : dec_scope.
Infix "<=?" := dle : dec_scope.
Infix "=?" := deq : dec_scope.
Infix ">?" := dgt : dec_scope.
Infix ">=?" := dge : dec_scope.

(** * Value semantics *)

Definition pow10 (e : Z) : Q := Qpower (inject_Z 10) e.

Definition dval (d : decimal) : Q := (inject_Z (dz d) * pow10 (dexp d))%Q.

(** ** Powers of ten *)

Lemma pow10_pos e : (0 < pow10 e)%Q.
Proof. apply Qpower_0_lt. reflexivity. Qed.

Lemma pow10_add a b : (pow10 (a + b) == pow10 a * pow10 b)%Q.
Proof. apply Qpower_plus. discriminate. Qed.

Lemma pow10_Z e : 0 <= e -> (pow10 e == inject_Z (10 ^ e))%Q.
Proof. intros He. unfold pow10. by rewrite Zpower_Qpower. Qed.

Lemma pow10_split e m : m <= e -> (pow10 e == inject_Z (10 ^ (e - m)) * pow10 m)%Q.
Proof.
  intros Hm. rewrite <- pow10_Z by lia. rewrite <- pow10_add.
  by replace (e - m + m) with e by lia.
Qed.

Lemma scaled_val d e : e <= dexp d -> (dval d == inject_Z (scaled d e) * pow10 e)%Q.
Proof.
  intros He. unfold dval, scaled.
  rewrite (pow10_split (dexp d) e He), inject_Z_mult. ring.
Qed.

(** ** Comparison *)

Lemma Qcompare_scale a b e :
  (inject_Z a * pow10 e ?= inject_Z b * pow10 e)%Q = (a ?= b).
Proof.
  pose proof (pow10_pos e) as Hp.
  destruct (Z.compare_spec a b) as [->|H|H].
  - apply Qeq_alt. reflexivity.
  - apply Qlt_alt. apply Qmult_lt_r; [done|]. by rewrite <- Zlt_Qlt.
  - apply Qgt_alt. apply Qmult_lt_r; [done|]. by rewrite <- Zlt_Qlt.
Qed.

Lemma dcmp_spec a b : dcmp a b = (dval a ?= dval b)%Q.
Proof.
  unfold dcmp. set (e := Z.min (dexp a) (dexp b)).
  rewrite (scaled_val a e), (scaled_val b e) by lia.
  by rewrite Qcompare_scale.
Qed.

Lemma dle_spec a b : dle a b = true <-> (dval a <= dval b)%Q.
Proof.
  unfold dle. rewrite dcmp_spec, Qle_alt.
  destruct (dval a ?= dval b)%Q; split; congruence.
Qed.

Lemma dlt_spec a b : dlt a b = true <-> (dval a < dval b)%Q.
Proof.
  unfold dlt. rewrite dcmp_spec, Qlt_alt.
  destruct (dval a ?= dval b)%Q; split; congruence.
Qed.

Lemma deq_spec a b : deq a b = true <-> (dval a == dval b)%Q.
Proof.
  unfold deq. rewrite dcmp_spec, Qeq_alt.
  destruct (dval a ?= dval b)%Q; split; congruence.
Qed.

Lemma dle_false a b : dle a b = false <-> (dval b < dval a)%Q.
Proof.
  rewrite <- not_true_iff_false, dle_spec. split; [apply Qnot_le_lt | apply Qlt_not_le].
Qed.

Lemma dlt_false a b : dlt a b = false <-> (dval b <= dval a)%Q.
Proof.
  rewrite <- not_true_iff_false, dlt_spec. split; [apply Qnot_lt_le | apply Qle_not_lt].
Qed.

Lemma deq_false a b : deq a b = false <-> ~ (dval a == dval b)%Q.
Proof. by rewrite <- not_true_iff_false, deq_spec. Qed.

(** Turn every decimal comparison into a statement of [Q]. *)
Ltac dec_to_Q :=
  unfold dgt, dge in *;
  repeat match goal with
  | H : dle _ _ = true |- _ => apply dle_spec in H
  | H : dlt _ _ = true |- _ => apply dlt_spec in H
  | H : deq _ _ = true |- _ => apply deq_spec in H
  | H : dle _ _ = false |- _ => apply dle_false in H
  | H : dlt _ _ = false |- _ => apply dlt_false in H
  | H : deq _ _ = false |- _ => apply deq_false in H
  | |- dle _ _ = true => apply dle_spec
  | |- dlt _ _ = true => apply dlt_spec
  | |- deq _ _ = true => apply deq_spec
  | |- dle _ _ = false => apply dle_false
  | |- dlt _ _ = false => apply dlt_false
  end.

Lemma dval_zero : (dval dzero == 0)%Q.
Proof. reflexivity. Qed.

Lemma dval_coef0 e : (dval (Dec false 0 e) == 0)%Q.
Proof. unfold dval. change (dz (Dec false 0 e)) with 0. ring. Qed.

Lemma dval_of_Z z : (dval (dec_of_Z z) == inject_Z z)%Q.
Proof.
  unfold dval, dec_of_Z, dz. simpl. rewrite Qmult_1_r.
  destruct (Z.ltb_spec z 0); rewrite N2Z.inj_abs_N; f_equiv; lia.
Qed.

(** ** Digits *)

Lemma ndigits_fuel_bound fuel : forall n, (n < 2 ^ N.of_nat fuel)%N ->
  (n < 10 ^ N.of_nat (ndigits_fuel fuel n))%N /\
  (n = 0 \/ 10 ^ N.of_nat (ndigits_fuel fuel n - 1) <= n)%N /\
  (1 <= ndigits_fuel fuel n)%nat.
Proof.
  induction fuel as [|f IH]; intros n Hn.
  { simpl in *. split_and!; lia. }
  cbn [ndigits_fuel]. destruct (N.ltb_spec n 10) as [Hlt|Hge].
  { simpl. split_and!; lia. }
  destruct (IH (n / 10)%N) as (H1 & H2 & H3).
  { apply N.Div0.div_lt_upper_bound. rewrite Nat2N.inj_succ, N.pow_succ_r' in Hn. lia. }
  set (k := ndigits_fuel f (n / 10)) in *.
  pose proof (N.div_mod' n 10). pose proof (N.mod_lt n 10).
  split_and!; [| |lia].
  - rewrite Nat2N.inj_succ, N.pow_succ_r'. nia.
  - right. destruct H2 as [H2|H2].
    { apply N.div_small_iff in H2; lia. }
    replace (S k - 1)%nat with (S (k - 1)) by lia.
    rewrite Nat2N.inj_succ, N.pow_succ_r'.
    generalize dependent (10 ^ N.of_nat (k - 1))%N. intros p Hp.
    etransitivity; [|apply (N.Div0.mul_div_le n 10)]. by apply N.mul_le_mono_l.
Qed.

Lemma ndigits_bound n :
  (n < 10 ^ N.of_nat (ndigits n))%N /\
  (n = 0 \/ 10 ^ N.of_nat (ndigits n - 1) <= n)%N /\ (1 <= ndigits n)%nat.
Proof. apply ndigits_fuel_bound. rewrite N2Nat.id. apply N.size_gt. Qed.

Lemma ndigits_le n k : (1 <= k)%nat -> (ndigits n <= k)%nat <-> (n < 10 ^ N.of_nat k)%N.
Proof.
  intros Hk. destruct (ndigits_bound n) as (H1 & H2 & H3). split; intros H.
  - eapply N.lt_le_trans; [exact H1|]. apply N.pow_le_mono_r; lia.
  - destruct (decide (ndigits n <= k)%nat) as [|Hgt]; [done|].
    destruct H2 as [->|H2]; [vm_compute; lia|].
    assert (10 ^ N.of_nat k <= 10 ^ N.of_nat (ndigits n - 1))%N
      by (apply N.pow_le_mono_r; lia). lia.
Qed.

(** ** Half-even division *)

(** The quotient, the remainder and the rounded result. *)
Lemma div_half_even_cases n d : (0 < d)%N -> exists q r,
  (n = d * q + r)%N /\ (r < d)%N /\
  ((div_half_even n d = q /\ 2 * r <= d) \/ (div_half_even n d = q + 1 /\ d <= 2 * r))%N.
Proof.
  intros Hd. exists (n / d)%N, (n mod d)%N.
  split; [apply N.div_mod' | split; [apply N.mod_lt; lia|]].
  unfold div_half_even. generalize (n / d)%N (n mod d)%N. intros q r.
  destruct (N.compare_spec (2 * r) d); [destruct (N.even q)| |]; lia.
Qed.

Lemma div_half_even_err n d : (0 < d)%N ->
  2 * Z.abs (Z.of_N n - Z.of_N (div_half_even n d) * Z.of_N d) <= Z.of_N d.
Proof.
  intros Hd. destruct (div_half_even_cases n d Hd) as (q & r & -> & Hr & H).
  destruct H as [[-> ?]|[-> ?]]; nia.
Qed.

Lemma div_half_even_le n d k : (0 < d)%N -> (n <= k * d)%N -> (div_half_even n d <= k)%N.
Proof.
  intros Hd Hn. destruct (div_half_even_cases n d Hd) as (q & r & -> & Hr & H).
  destruct H as [[-> ?]|[-> ?]]; nia.
Qed.

Lemma div_half_even_ge n d k : (0 < d)%N -> (k * d <= n)%N -> (k <= div_half_even n d)%N.
Proof.
  intros Hd Hn. destruct (div_half_even_cases n d Hd) as (q & r & -> & Hr & H).
  destruct H as [[-> ?]|[-> ?]]; nia.
Qed.

Lemma div_half_even_exact k d : (0 < d)%N -> div_half_even (k * d) d = k.
Proof.
  intros Hd. apply N.le_antisymm.
  - by apply div_half_even_le.
  - by apply div_half_even_ge.
Qed.

(** ** Rounding to the context *)

Definition fits (z : Z) : Prop := Z.abs z < 10 ^ 28.

Lemma dfix_id d : (dcoef d < 10 ^ 28)%N -> dfix d = d.
Proof.
  intros H. unfold dfix. rewrite (proj2 (Nat.leb_le _ _)); [done|].
  by apply ndigits_le; [unfold PREC; lia|].
Qed.

Lemma dz_fits d : fits (dz d) <-> (dcoef d < 10 ^ 28)%N.
Proof. unfold fits, dz. destruct (dneg d); lia. Qed.

(** A coefficient of more than 28 digits loses [k] digits; a carry past 28
    digits shifts the exponent once more. *)
Lemma dfix_unfold d : (10 ^ 28 <= dcoef d)%N -> exists k : nat,
  let c := div_half_even (dcoef d) (10 ^ N.of_nat k) in
  (10 ^ 27 * 10 ^ N.of_nat k <= dcoef d)%N /\ (10 ^ 27 <= c <= 10 ^ 28)%N /\
  ((c < 10 ^ 28)%N /\ dfix d = Dec (dneg d) c (dexp d + Z.of_nat k) \/
   c = (10 ^ 28)%N /\ dfix d = Dec (dneg d) (10 ^ 27) (dexp d + Z.of_nat (S k))).
Proof.
  intros Hbig. destruct (ndigits_bound (dcoef d)) as (Hub & Hlb & H1).
  assert (28 < ndigits (dcoef d))%nat as Hnd.
  { destruct (decide (ndigits (dcoef d) <= 28)%nat) as [Hle|]; [|lia].
    apply ndigits_le in Hle; [|lia]. change (N.of_nat 28) with 28%N in Hle. lia. }
  exists (ndigits (dcoef d) - 28)%nat. unfold dfix, PREC.
  rewrite (proj2 (Nat.leb_gt _ _) Hnd). set (k := (ndigits (dcoef d) - 28)%nat).
  set (c := div_half_even (dcoef d) (10 ^ N.of_nat k)). cbv zeta.
  assert (0 < 10 ^ N.of_nat k)%N as Hp by (apply N.neq_0_lt_0, N.pow_nonzero; lia).
  assert (10 ^ 27 * 10 ^ N.of_nat k <= dcoef d)%N as Hlow.
  { rewrite <- N.pow_add_r.
    destruct Hlb as [Hlb|Hlb]; [rewrite Hlb in Hbig; by vm_compute in Hbig|].
    replace (27 + N.of_nat k)%N with (N.of_nat (ndigits (dcoef d) - 1)) by lia. lia. }
  assert (c <= 10 ^ 28)%N as Hc.
  { apply div_half_even_le; [done|]. rewrite <- N.pow_add_r.
    replace (28 + N.of_nat k)%N with (N.of_nat (ndigits (dcoef d))) by lia. lia. }
  split; [done|]. split; [split; [by apply div_half_even_ge | done]|].
  destruct (Nat.leb_spec (ndigits c) 28) as [Hfit|Hover].
  - left. apply ndigits_le in Hfit; [|lia]. by change (N.of_nat 28) with 28%N in Hfit.
  - right. assert (c = 10 ^ 28)%N as E.
    { destruct (N.lt_ge_cases c (10 ^ 28)) as [Hlt|]; [|lia].
      apply (proj2 (ndigits_le c 28 ltac:(lia))) in Hlt. lia. }
    split; [done|]. rewrite E. f_equal. lia.
Qed.

(** The result denotes a value within half of its own last place, its
    coefficient has exactly 28 digits and the sign is kept. *)
Lemma dfix_big d : (10 ^ 28 <= dcoef d)%N -> exists c k,
  dfix d = Dec (dneg d) c (dexp d + Z.of_nat k) /\
  (10 ^ 27 <= c < 10 ^ 28)%N /\
  2 * Z.abs (Z.of_N (dcoef d) - Z.of_N c * 10 ^ Z.of_nat k) <= 10 ^ Z.of_nat k.
Proof.
  intros Hbig. destruct (dfix_unfold d Hbig) as (k & Hlow & [Hc1 Hc2] & Hcase).
  assert (0 < 10 ^ N.of_nat k)%N as Hp by (apply N.neq_0_lt_0, N.pow_nonzero; lia).
  pose proof (div_half_even_err (dcoef d) _ Hp) as Herr.
  rewrite N2Z.inj_pow, nat_N_Z in Herr. change (Z.of_N 10) with 10 in Herr.
  destruct Hcase as [[Hlt E]|[E28 E]]; [by eexists _, k|].
  exists (10 ^ 27)%N, (S k). rewrite E28 in Herr. split; [done|].
  assert (Z.of_N (10 ^ 28) = 10 * Z.of_N (10 ^ 27)) as EZ by (vm_compute; reflexivity).
  split; [split; [done | vm_compute; reflexivity]|].
  rewrite EZ in Herr. rewrite Nat2Z.inj_succ, Z.pow_succ_r by lia.
  revert Herr. generalize (Z.of_N (10 ^ 27)) (Z.of_N (dcoef d)) (10 ^ Z.of_nat k). lia.
Qed.

Lemma dfix_exact d : fits (dz d) -> dfix d = d.
Proof. rewrite dz_fits. apply dfix_id. Qed.

Lemma dfix_cases d :
  dfix d = d \/ exists c k,
  dfix d = Dec (dneg d) c (dexp d + Z.of_nat k) /\ (10 ^ 27 <= c < 10 ^ 28)%N /\
  (0 < dcoef d)%N /\
  2 * Z.abs (Z.of_N (dcoef d) - Z.of_N c * 10 ^ Z.of_nat k) <= 10 ^ Z.of_nat k.
Proof.
  destruct (N.lt_ge_cases (dcoef d) (10 ^ 28)) as [H|H]; [left; by apply dfix_id|].
  destruct (dfix_big d H) as (c & k & E & Hc & Herr). right. exists c, k.
  split_and!; try done; try apply Hc.
  eapply N.lt_le_trans; [|exact H]. vm_compute. reflexivity.
Qed.

(** Rounding keeps the sign, and zero only for zero. *)
Lemma dfix_sgn d : Z.sgn (dz (dfix d)) = Z.sgn (dz d).
Proof.
  destruct (dfix_cases d) as [->|(c & k & -> & Hc & Hd & _)]; [done|].
  assert (0 < 10 ^ 27)%N by (vm_compute; reflexivity).
  unfold dz. simpl. destruct (dneg d); lia.
Qed.

Lemma dval_sgn d : (0 ?= dval d)%Q = (0 ?= dz d).
Proof.
  unfold dval. rewrite <- (Qcompare_scale 0 (dz d) (dexp d)).
  by rewrite Qmult_0_l.
Qed.

Lemma dval_pos d : (0 < dval d)%Q <-> 0 < dz d.
Proof. by rewrite Qlt_alt, dval_sgn, Z.compare_lt_iff. Qed.

Lemma dval_nonneg d : (0 <= dval d)%Q <-> 0 <= dz d.
Proof. by rewrite Qle_alt, dval_sgn, Z.compare_le_iff. Qed.

Lemma dfix_pos d : (0 < dval (dfix d))%Q <-> (0 < dval d)%Q.
Proof. rewrite !dval_pos. pose proof (dfix_sgn d). lia. Qed.

Lemma dfix_nonneg d : (0 <= dval (dfix d))%Q <-> (0 <= dval d)%Q.
Proof. rewrite !dval_nonneg. pose proof (dfix_sgn d). lia. Qed.

(** Rounding moves a value by at most half a unit in the last place. *)
Lemma dfix_err d :
  (Qabs (dval (dfix d) - dval d) <= (1 # 2) * pow10 (dexp (dfix d)))%Q.
Proof.
  pose proof (pow10_pos (dexp (dfix d))) as Hp.
  destruct (dfix_cases d) as [E|(c & k & E & _ & _ & Herr)].
  { rewrite E. assert (dval d - dval d == 0)%Q as -> by ring.
    change (Qabs 0) with 0%Q. rewrite E in Hp. lra. }
  rewrite E in *. cbn [dexp] in *. set (e := dexp d) in *. set (m := Z.of_nat k) in *.
  assert (dval d == inject_Z (dz d) * pow10 e)%Q as Hd by reflexivity.
  assert (pow10 (e + m) == inject_Z (10 ^ m) * pow10 e)%Q as Hpm.
  { rewrite pow10_add, (pow10_Z m) by lia. ring. }
  set (z := if dneg d then - Z.of_N c else Z.of_N c).
  assert (dval (Dec (dneg d) c (e + m)) - dval d
          == inject_Z (z * 10 ^ m - dz d) * pow10 e)%Q as ->.
  { rewrite Hd. unfold dval at 1, dz at 1. cbn [dneg dcoef dexp]. fold z.
    rewrite Hpm. unfold Z.sub. rewrite inject_Z_plus, inject_Z_mult, inject_Z_opp. ring. }
  rewrite Qabs_Qmult, (Qabs_pos (pow10 e)) by apply Qlt_le_weak, pow10_pos.
  change (Qabs (inject_Z ?x)) with (inject_Z (Z.abs x)).
  assert (2 * Z.abs (z * 10 ^ m - dz d) <= 10 ^ m) as Hz.
  { subst z. unfold dz. destruct (dneg d); lia. }
  rewrite Zle_Qle, inject_Z_mult in Hz. change (inject_Z 2) with (2 # 1)%Q in Hz.
  rewrite Hpm. pose proof (pow10_pos e). nra.
Qed.

(** ** Addition and subtraction *)

Lemma of_signed_dz s z e : dz (of_signed s z e) = z.
Proof. unfold of_signed, dz. simpl. destruct (Z.eqb_spec z 0), (Z.ltb_spec z 0), s; lia. Qed.

Lemma of_signed_val s z e : (dval (of_signed s z e) == inject_Z z * pow10 e)%Q.
Proof. unfold dval. by rewrite of_signed_dz. Qed.

Lemma aligned_sum a b : let e := Z.min (dexp a) (dexp b) in
  (inject_Z (scaled a e + scaled b e) * pow10 e == dval a + dval b)%Q.
Proof.
  intros e. rewrite (scaled_val a e), (scaled_val b e) by lia.
  rewrite inject_Z_plus. ring.
Qed.

Lemma dadd_pos a b : (0 < dval (dadd a b))%Q <-> (0 < dval a + dval b)%Q.
Proof. unfold dadd. by rewrite dfix_pos, of_signed_val, aligned_sum. Qed.

Lemma dadd_nonneg a b : (0 <= dval (dadd a b))%Q <-> (0 <= dval a + dval b)%Q.
Proof. unfold dadd. by rewrite dfix_nonneg, of_signed_val, aligned_sum. Qed.

(** The exact sum of [a] and [b] has at most 28 digits. *)
Definition sum_fits (a b : decimal) : Prop :=
  let e := Z.min (dexp a) (dexp b) in fits (scaled a e + scaled b e).

Lemma dadd_exact a b : sum_fits a b -> (dval (dadd a b) == dval a + dval b)%Q.
Proof.
  intros H. unfold dadd. rewrite dfix_exact by (by rewrite of_signed_dz).
  by rewrite of_signed_val, aligned_sum.
Qed.

Lemma copy_negate_val d : (dval (copy_negate d) == - dval d)%Q.
Proof.
  assert (dz (copy_negate d) = - dz d) as E by (unfold dz; simpl; destruct (dneg d); simpl; lia).
  unfold dval. rewrite E, inject_Z_opp. simpl. ring.
Qed.

Lemma dsub_pos a b : (0 < dval (dsub a b))%Q <-> (dval b < dval a)%Q.
Proof. unfold dsub. rewrite dadd_pos, copy_negate_val. split; intros; lra. Qed.

Lemma dsub_nonneg a b : (0 <= dval (dsub a b))%Q <-> (dval b <= dval a)%Q.
Proof. unfold dsub. rewrite dadd_nonneg, copy_negate_val. split; intros; lra. Qed.

Lemma dsub_exact a b : sum_fits a (copy_negate b) ->
  (dval (dsub a b) == dval a - dval b)%Q.
Proof. intros H. unfold dsub. rewrite dadd_exact by done. rewrite copy_negate_val. ring. Qed.

(** Whole-number decimals add exactly. *)
Lemma dec_of_Z_dz z : dz (dec_of_Z z) = z.
Proof. unfold dec_of_Z, dz. simpl. destruct (Z.ltb_spec z 0); lia. Qed.

Lemma dadd_of_Z a b : fits (a + b) ->
  (dval (dadd (dec_of_Z a) (dec_of_Z b)) == inject_Z (a + b))%Q.
Proof.
  intros H. rewrite dadd_exact.
  - by rewrite !dval_of_Z, inject_Z_plus.
  - unfold sum_fits, scaled. simpl. rewrite !dec_of_Z_dz. by rewrite !Z.mul_1_r.
Qed.

(** ** Multiplication *)

Lemma dmul_pre a b :
  (dval (Dec (xorb (dneg a) (dneg b)) (dcoef a * dcoef b) (dexp a + dexp b))
   == dval a * dval b)%Q.
Proof.
  unfold dval, dz. simpl. rewrite pow10_add, N2Z.inj_mul.
  destruct (dneg a), (dneg b); simpl; rewrite ?inject_Z_opp, inject_Z_mult; ring.
Qed.

Lemma dmul_pos a b : (0 < dval a)%Q -> (0 < dval b)%Q -> (0 < dval (dmul a b))%Q.
Proof.
  intros Ha Hb. unfold dmul. rewrite dfix_pos, dmul_pre. by apply Qmult_lt_0_compat.
Qed.

Lemma dmul_nonneg a b : (0 <= dval a)%Q -> (0 <= dval b)%Q -> (0 <= dval (dmul a b))%Q.
Proof.
  intros Ha Hb. unfold dmul. rewrite dfix_nonneg, dmul_pre. by apply Qmult_le_0_compat.
Qed.

Lemma dmul_exact a b : fits (dz a * dz b) -> (dval (dmul a b) == dval a * dval b)%Q.
Proof.
  intros H. unfold dmul. rewrite dfix_exact; [apply dmul_pre|].
  unfold fits, dz in *. simpl. destruct (dneg a), (dneg b); simpl in *; lia.
Qed.

(** ** Rounding respects the numbers the context can represent *)

Definition representable (d : decimal) : Prop := dneg d = false /\ (dcoef d < 10 ^ 28)%N.

(** The value of a rounded long coefficient, on the grid it is rounded to. *)
Lemma dfix_grid d : dneg d = false -> (10 ^ 28 <= dcoef d)%N -> exists (k : nat) (c : N),
  (dval (dfix d) == inject_Z (Z.of_N c) * pow10 (dexp d + Z.of_nat k))%Q /\
  (10 ^ 27 * 10 ^ N.of_nat k <= dcoef d)%N /\
  (forall m, dcoef d <= m * 10 ^ N.of_nat k -> c <= m)%N /\
  (forall m, m * 10 ^ N.of_nat k <= dcoef d -> m <= c)%N.
Proof.
  intros Hneg Hbig. destruct (dfix_unfold d Hbig) as (k & Hlow & _ & Hcase).
  assert (0 < 10 ^ N.of_nat k)%N as Hp by (apply N.neq_0_lt_0, N.pow_nonzero; lia).
  exists k, (div_half_even (dcoef d) (10 ^ N.of_nat k)).
  split_and!; [|done | intros m; by apply div_half_even_le | intros m; by apply div_half_even_ge].
  unfold dval, dz. destruct Hcase as [[_ ->]|[-> ->]]; cbn [dneg dcoef dexp]; rewrite Hneg; [done|].
  assert (inject_Z (Z.of_N (10 ^ 28)) == inject_Z (Z.of_N (10 ^ 27)) * (10 # 1))%Q as ->
    by (vm_compute; reflexivity).
  replace (dexp d + Z.of_nat (S k)) with (dexp d + Z.of_nat k + 1) by lia.
  rewrite (pow10_add _ 1). change (pow10 1) with (10 # 1)%Q. ring.
Qed.

Lemma pos_val d : dneg d = false -> (dval d == inject_Z (Z.of_N (dcoef d)) * pow10 (dexp d))%Q.
Proof. intros H. unfold dval, dz. by rewrite H. Qed.

(** Comparing two non-negative values through a common scale. *)
Lemma pow_N_Z (m : N) (k : nat) : Z.of_N (m * 10 ^ N.of_nat k) = Z.of_N m * 10 ^ Z.of_nat k.
Proof. by rewrite N2Z.inj_mul, N2Z.inj_pow, nat_N_Z. Qed.

Lemma scale_le (a b : N) (e : Z) (k : nat) :
  (inject_Z (Z.of_N a) * pow10 e <= inject_Z (Z.of_N b) * pow10 (e + Z.of_nat k))%Q
  <-> (a <= b * 10 ^ N.of_nat k)%N.
Proof.
  assert (inject_Z (Z.of_N b) * pow10 (e + Z.of_nat k)
          == inject_Z (Z.of_N (b * 10 ^ N.of_nat k)) * pow10 e)%Q as ->.
  { rewrite pow10_add, (pow10_Z (Z.of_nat k)), pow_N_Z, inject_Z_mult by lia. ring. }
  rewrite Qle_alt, Qcompare_scale, Z.compare_le_iff. lia.
Qed.

Lemma scale_ge (a b : N) (e : Z) (k : nat) :
  (inject_Z (Z.of_N b) * pow10 (e + Z.of_nat k) <= inject_Z (Z.of_N a) * pow10 e)%Q
  <-> (b * 10 ^ N.of_nat k <= a)%N.
Proof.
  assert (inject_Z (Z.of_N b) * pow10 (e + Z.of_nat k)
          == inject_Z (Z.of_N (b * 10 ^ N.of_nat k)) * pow10 e)%Q as ->.
  { rewrite pow10_add, (pow10_Z (Z.of_nat k)), pow_N_Z, inject_Z_mult by lia. ring. }
  rewrite Qle_alt, Qcompare_scale, Z.compare_le_iff. lia.
Qed.

(** A representable number below 10^28 units of its exponent cannot reach a
    coefficient of 28 digits at a larger exponent. *)
Lemma coarse_gap (m c : N) (f e : Z) : (m < 10 ^ 28)%N -> (10 ^ 27 <= c)%N -> f < e ->
  (inject_Z (Z.of_N m) * pow10 f < inject_Z (Z.of_N c) * pow10 e)%Q.
Proof.
  intros Hm Hc Hf. apply Qnot_le_lt.
  replace e with (f + Z.of_nat (Z.to_nat (e - f))) by lia. rewrite scale_ge.
  assert (10 <= 10 ^ N.of_nat (Z.to_nat (e - f)))%N.
  { rewrite <- (N.pow_1_r 10) at 1. apply N.pow_le_mono_r; lia. }
  assert (10 ^ 28 = 10 ^ 27 * 10)%N as E by (vm_compute; reflexivity).
  rewrite E in Hm. revert Hm Hc. generalize (10 ^ 27)%N. intros t. nia.
Qed.

Lemma dfix_le_repr d r : dneg d = false -> representable r ->
  (dval d <= dval r)%Q -> (dval (dfix d) <= dval r)%Q.
Proof.
  intros Hn [Hr Hrc] Hle. destruct (N.lt_ge_cases (dcoef d) (10 ^ 28)) as [H|H].
  { by rewrite dfix_id. }
  destruct (dfix_grid d Hn H) as (k & c & -> & Hlow & Hup & _).
  rewrite (pos_val _ Hn), (pos_val _ Hr) in Hle. rewrite (pos_val _ Hr).
  destruct (Z.le_gt_cases (dexp d + Z.of_nat k) (dexp r)) as [Hge|Hlt].
  - set (j := Z.to_nat (dexp r - (dexp d + Z.of_nat k))).
    replace (dexp r) with (dexp d + Z.of_nat k + Z.of_nat j) by lia.
    apply scale_le. apply Hup.
    replace (dexp r) with (dexp d + Z.of_nat (j + k)) in Hle by lia.
    apply scale_le in Hle. by rewrite Nat2N.inj_add, N.pow_add_r, N.mul_assoc in Hle.
  - exfalso. apply (Qle_not_lt _ _ Hle).
    eapply Qlt_le_trans; [apply (coarse_gap _ (10 ^ 27) _ _ Hrc ltac:(reflexivity) Hlt)|].
    by apply scale_ge.
Qed.

Lemma dfix_ge_repr d r : dneg d = false -> representable r ->
  (dval r <= dval d)%Q -> (dval r <= dval (dfix d))%Q.
Proof.
  intros Hn [Hr Hrc] Hle. destruct (N.lt_ge_cases (dcoef d) (10 ^ 28)) as [H|H].
  { by rewrite dfix_id. }
  destruct (dfix_grid d Hn H) as (k & c & -> & Hlow & _ & Hlo).
  rewrite (pos_val _ Hn), (pos_val _ Hr) in Hle. rewrite (pos_val _ Hr).
  destruct (Z.le_gt_cases (dexp d + Z.of_nat k) (dexp r)) as [Hge|Hlt].
  - set (j := Z.to_nat (dexp r - (dexp d + Z.of_nat k))).
    replace (dexp r) with (dexp d + Z.of_nat k + Z.of_nat j) by lia.
    apply scale_ge. apply Hlo.
    replace (dexp r) with (dexp d + Z.of_nat (j + k)) in Hle by lia.
    apply scale_ge in Hle. by rewrite Nat2N.inj_add, N.pow_add_r, N.mul_assoc in Hle.
  - apply Qlt_le_weak. apply coarse_gap; [done| |done]. by apply Hlo.
Qed.

(** ** Quantization *)

Lemma quantize_inv d q r : quantize d q = Ok r ->
  r = Dec (dneg d) (rescale_coef d (dexp q)) (dexp q) /\
  (rescale_coef d (dexp q) < 10 ^ 28)%N.
Proof.
  unfold quantize. destruct (Nat.ltb_spec PREC (ndigits (rescale_coef d (dexp q)))) as [|H]; [done|].
  intros [= <-]. split; [done|]. by apply ndigits_le in H; [|unfold PREC; lia].
Qed.

Lemma quantize_ok d q : (rescale_coef d (dexp q) < 10 ^ 28)%N ->
  quantize d q = Ok (Dec (dneg d) (rescale_coef d (dexp q)) (dexp q)).
Proof.
  intros H. unfold quantize. rewrite (proj2 (Nat.ltb_ge _ _)); [done|].
  by apply ndigits_le; [unfold PREC; lia|].
Qed.

Lemma pow10_N_pos (n : N) : (0 < 10 ^ n)%N.
Proof. apply N.neq_0_lt_0, N.pow_nonzero. lia. Qed.

(** A bound on the quantum's grid bounds the rescaled coefficient. *)
Lemma rescale_coef_le d e (m : N) :
  (inject_Z (Z.of_N (dcoef d)) * pow10 (dexp d) <= inject_Z (Z.of_N m) * pow10 e)%Q ->
  (rescale_coef d e <= m)%N.
Proof.
  unfold rescale_coef. destruct (Z.leb_spec e (dexp d)) as [H|H]; intros Hle.
  - replace (dexp d) with (e + Z.of_nat (Z.to_nat (dexp d - e))) in Hle by lia.
    apply scale_ge in Hle. by rewrite Z_nat_N in Hle.
  - replace e with (dexp d + Z.of_nat (Z.to_nat (e - dexp d))) in Hle by lia.
    apply scale_le in Hle. rewrite Z_nat_N in Hle.
    apply div_half_even_le; [apply pow10_N_pos | done].
Qed.

Lemma rescale_coef_ge d e (m : N) :
  (inject_Z (Z.of_N m) * pow10 e <= inject_Z (Z.of_N (dcoef d)) * pow10 (dexp d))%Q ->
  (m <= rescale_coef d e)%N.
Proof.
  unfold rescale_coef. destruct (Z.leb_spec e (dexp d)) as [H|H]; intros Hle.
  - replace (dexp d) with (e + Z.of_nat (Z.to_nat (dexp d - e))) in Hle by lia.
    apply scale_le in Hle. by rewrite Z_nat_N in Hle.
  - replace e with (dexp d + Z.of_nat (Z.to_nat (e - dexp d))) in Hle by lia.
    apply scale_ge in Hle. rewrite Z_nat_N in Hle.
    apply div_half_even_ge; [apply pow10_N_pos | done].
Qed.

(** Quantizing a non-negative value stays between two multiples of the quantum
    that enclose it. *)
Lemma quantize_between d q (lo hi : N) : dneg d = false ->
  (inject_Z (Z.of_N lo) * pow10 (dexp q) <= dval d)%Q ->
  (dval d <= inject_Z (Z.of_N hi) * pow10 (dexp q))%Q -> (hi < 10 ^ 28)%N ->
  exists c, quantize d q = Ok (Dec false c (dexp q)) /\ (lo <= c <= hi)%N.
Proof.
  intros Hn Hlo Hhi Hfit. rewrite (pos_val _ Hn) in Hlo, Hhi.
  apply rescale_coef_ge in Hlo. apply rescale_coef_le in Hhi.
  exists (rescale_coef d (dexp q)). rewrite quantize_ok, Hn by lia. done.
Qed.

(** Quantizing moves a value by at most half a quantum and keeps its sign. *)
Lemma rescale_err d e :
  (Qabs (inject_Z (Z.of_N (rescale_coef d e)) * pow10 e
         - inject_Z (Z.of_N (dcoef d)) * pow10 (dexp d)) <= (1 # 2) * pow10 e)%Q.
Proof.
  pose proof (pow10_pos e) as Hp. unfold rescale_coef.
  destruct (Z.leb_spec e (dexp d)) as [H|H].
  - rewrite (pow10_split (dexp d) e H). rewrite N2Z.inj_mul, N2Z.inj_pow, Z2N.id by lia.
    rewrite inject_Z_mult. change (Z.of_N 10) with 10.
    match goal with |- (Qabs ?x <= _)%Q => assert (x == 0)%Q as -> by ring end.
    change (Qabs 0) with 0%Q. lra.
  - set (p := (10 ^ Z.to_N (e - dexp d))%N).
    pose proof (div_half_even_err (dcoef d) p (pow10_N_pos _)) as Herr.
    assert (pow10 e == inject_Z (Z.of_N p) * pow10 (dexp d))%Q as Hpe.
    { rewrite (pow10_split e (dexp d)) by lia. subst p.
      by rewrite N2Z.inj_pow, Z2N.id by lia. }
    rewrite Hpe. rewrite Zle_Qle, inject_Z_mult in Herr. change (inject_Z 2) with (2 # 1)%Q in Herr.
    set (c := Z.of_N (div_half_even (dcoef d) p)) in *.
    assert (inject_Z c * (inject_Z (Z.of_N p) * pow10 (dexp d))
            - inject_Z (Z.of_N (dcoef d)) * pow10 (dexp d)
            == inject_Z (c * Z.of_N p - Z.of_N (dcoef d)) * pow10 (dexp d))%Q as ->.
    { unfold Z.sub. rewrite inject_Z_plus, inject_Z_mult, inject_Z_opp. ring. }
    rewrite Qabs_Qmult, (Qabs_pos (pow10 (dexp d))) by apply Qlt_le_weak, pow10_pos.
    change (Qabs (inject_Z ?x)) with (inject_Z (Z.abs x)).
    replace (Z.abs (c * Z.of_N p - Z.of_N (dcoef d)))
      with (Z.abs (Z.of_N (dcoef d) - c * Z.of_N p)) by lia.
    pose proof (pow10_pos (dexp d)). nra.
Qed.

Lemma quantize_err d q r : quantize d q = Ok r ->
  dexp r = dexp q /\ (Qabs (dval r - dval d) <= (1 # 2) * pow10 (dexp q))%Q.
Proof.
  intros [-> _]%quantize_inv. split; [done|].
  pose proof (rescale_err d (dexp q)) as H. unfold dval, dz. cbn [dneg dcoef dexp].
  destruct (dneg d); [|done]. rewrite !inject_Z_opp, <- Qabs_opp.
  match goal with |- (Qabs ?x <= _)%Q => match type of H with (Qabs ?y <= _)%Q =>
    assert (x == y)%Q as -> by ring end end. done.
Qed.

Lemma quantize_nonneg d q r : quantize d q = Ok r -> (0 <= dval d)%Q -> (0 <= dval r)%Q.
Proof.
  intros [-> _]%quantize_inv Hd. rewrite dval_nonneg in *. unfold dz in *. cbn [dneg dcoef dexp].
  destruct (dneg d); [|lia].
  assert (dcoef d = 0%N) as E by lia. unfold rescale_coef. rewrite E.
  destruct (dexp q <=? dexp d); [lia|].
  assert (div_half_even 0 (10 ^ Z.to_N (dexp q - dexp d)) <= 0)%N; [|lia].
  apply div_half_even_le; [apply pow10_N_pos | lia].
Qed.

(** ** Division *)

Lemma strip_zeros_val n : forall c e,
  (inject_Z (Z.of_N (strip_zeros n c e).1) * pow10 (strip_zeros n c e).2
   == inject_Z (Z.of_N c) * pow10 e)%Q.
Proof.
  induction n as [|n IH]; intros c e; cbn [strip_zeros]; [done|].
  destruct (N.eqb_spec (c mod 10) 0) as [H|H]; [|done].
  rewrite IH, pow10_add. pose proof (N.div_mod' c 10) as Hc. rewrite H, N.add_0_r in Hc.
  rewrite Hc at 2. rewrite N2Z.inj_mul, inject_Z_mult. change (pow10 1) with (10 # 1)%Q.
  change (inject_Z (Z.of_N 10)) with (10 # 1)%Q. ring.
Qed.

(** The scaled numerator and denominator of [ddiv]. *)
Definition div_shift (a b : decimal) : Z :=
  Z.of_nat (ndigits (dcoef b)) - Z.of_nat (ndigits (dcoef a)) + 29.
Definition div_num (a b : decimal) : N := (dcoef a * 10 ^ Z.to_N (div_shift a b))%N.
Definition div_den (a b : decimal) : N := (dcoef b * 10 ^ Z.to_N (- div_shift a b))%N.
Definition div_exp (a b : decimal) : Z := dexp a - dexp b - div_shift a b.

Lemma div_den_pos a b : (0 < dcoef b)%N -> (0 < div_den a b)%N.
Proof. intros H. unfold div_den. pose proof (pow10_N_pos (Z.to_N (- div_shift a b))). nia. Qed.

Lemma pow10_to_N e : (inject_Z (Z.of_N (10 ^ Z.to_N e)) == pow10 (Z.max 0 e))%Q.
Proof.
  rewrite N2Z.inj_pow. change (Z.of_N 10) with 10.
  replace (Z.of_N (Z.to_N e)) with (Z.max 0 e) by lia. by rewrite pow10_Z by lia.
Qed.

(** [num / den] in units of [10 ^ div_exp] is the exact quotient. *)
Lemma div_scaled a b : dneg a = false -> dneg b = false ->
  (inject_Z (Z.of_N (div_num a b)) * pow10 (div_exp a b) * dval b
   == inject_Z (Z.of_N (div_den a b)) * dval a)%Q.
Proof.
  intros Ha Hb. rewrite (pos_val a Ha), (pos_val b Hb). unfold div_num, div_den, div_exp.
  rewrite !N2Z.inj_mul, !inject_Z_mult, !pow10_to_N. set (s := div_shift a b).
  assert (pow10 (Z.max 0 s) * pow10 (dexp a - dexp b - s) * pow10 (dexp b)
          == pow10 (Z.max 0 (- s)) * pow10 (dexp a))%Q as H.
  { rewrite <- !pow10_add. by replace (Z.max 0 s + (dexp a - dexp b - s) + dexp b)
      with (Z.max 0 (- s) + dexp a) by lia. }
  transitivity (inject_Z (Z.of_N (dcoef a)) * inject_Z (Z.of_N (dcoef b))
    * (pow10 (Z.max 0 s) * pow10 (dexp a - dexp b - s) * pow10 (dexp b)))%Q; [ring|].
  rewrite H. ring.
Qed.

(** The integer quotient has at least 28 digits. *)
Lemma div_quot_big a b : (0 < dcoef a)%N -> (0 < dcoef b)%N ->
  (10 ^ 27 <= div_num a b / div_den a b)%N.
Proof.
  intros Ha Hb. apply N.div_le_lower_bound; [pose proof (div_den_pos a b Hb); lia|].
  unfold div_num, div_den, div_shift.
  destruct (ndigits_bound (dcoef a)) as (_ & [Ha'|Ha'] & Hda); [lia|].
  destruct (ndigits_bound (dcoef b)) as (Hb' & _ & Hdb).
  set (la := ndigits (dcoef a)) in *. set (lb := ndigits (dcoef b)) in *.
  set (s := Z.of_nat lb - Z.of_nat la + 29).
  transitivity (10 ^ N.of_nat (la - 1) * 10 ^ Z.to_N s)%N;
    [|by apply N.mul_le_mono_r].
  transitivity (10 ^ N.of_nat lb * 10 ^ Z.to_N (- s) * 10 ^ 27)%N;
    [apply N.mul_le_mono_r, N.mul_le_mono_r; lia|].
  rewrite <- !N.pow_add_r. apply N.pow_le_mono_r; lia.
Qed.

(** The coefficient and exponent [ddiv] rounds. *)
Definition div_pre (a b : decimal) : N * Z :=
  let q := (div_num a b / div_den a b)%N in
  if (div_num a b mod div_den a b =? 0)%N then
    strip_zeros (Z.to_nat (dexp a - dexp b - div_exp a b)) q (div_exp a b)
  else if (q mod 5 =? 0)%N then ((q + 1)%N, div_exp a b) else (q, div_exp a b).

Lemma ddiv_unfold a b : (0 < dcoef a)%N -> (0 < dcoef b)%N ->
  ddiv a b = Ok (dfix (Dec (xorb (dneg a) (dneg b)) (div_pre a b).1 (div_pre a b).2)).
Proof.
  intros Ha Hb. unfold ddiv.
  rewrite (proj2 (N.eqb_neq (dcoef b) 0)), (proj2 (N.eqb_neq (dcoef a) 0)) by lia.
  replace (Z.of_nat (ndigits (dcoef b)) - Z.of_nat (ndigits (dcoef a)) + Z.of_nat PREC + 1)
    with (div_shift a b) by (unfold div_shift, PREC; lia).
  fold (div_num a b) (div_den a b) (div_exp a b). unfold div_pre. by case_match.
Qed.

(** A representable number strictly above [q] units is at least [q + 1] units,
    and one strictly below [q + 1] units is at most [q] units, for [q] of 28
    digits or more. *)
Lemma repr_above r (q : N) e : representable r -> (10 ^ 27 <= q)%N ->
  (inject_Z (Z.of_N q) * pow10 e < dval r)%Q ->
  (inject_Z (Z.of_N (q + 1)) * pow10 e <= dval r)%Q.
Proof.
  intros [Hr Hc] Hq Hlt. rewrite (pos_val _ Hr) in *.
  destruct (Z.le_gt_cases e (dexp r)) as [He|He].
  - replace (dexp r) with (e + Z.of_nat (Z.to_nat (dexp r - e))) in * by lia.
    apply scale_le.
    apply Qlt_not_le in Hlt. rewrite scale_ge in Hlt. lia.
  - exfalso. apply (Qlt_not_le _ _ Hlt), Qlt_le_weak, coarse_gap; done.
Qed.

Lemma repr_below r (q : N) e : representable r -> (10 ^ 27 <= q)%N ->
  (dval r < inject_Z (Z.of_N (q + 1)) * pow10 e)%Q ->
  (dval r <= inject_Z (Z.of_N q) * pow10 e)%Q.
Proof.
  intros [Hr Hc] Hq Hlt. rewrite (pos_val _ Hr) in *.
  destruct (Z.le_gt_cases e (dexp r)) as [He|He].
  - replace (dexp r) with (e + Z.of_nat (Z.to_nat (dexp r - e))) in * by lia.
    apply scale_ge. apply Qlt_not_le in Hlt. rewrite scale_le in Hlt. lia.
  - by apply Qlt_le_weak, coarse_gap.
Qed.

Lemma div_pre_between a b lo hi :
  dneg a = false -> dneg b = false -> (0 < dcoef a)%N -> (0 < dcoef b)%N ->
  representable lo -> representable hi ->
  (dval lo * dval b <= dval a)%Q -> (dval a <= dval hi * dval b)%Q ->
  let v := (inject_Z (Z.of_N (div_pre a b).1) * pow10 (div_pre a b).2)%Q in
  (dval lo <= v)%Q /\ (v <= dval hi)%Q.
Proof.
  intros Hna Hnb Ha Hb Hlo Hhi Hl Hh v.
  pose proof (div_quot_big a b Ha Hb) as Hq. pose proof (div_scaled a b Hna Hnb) as Hs.
  pose proof (div_den_pos a b Hb) as Hden. pose proof (pow10_pos (div_exp a b)) as Hu.
  assert (0 < dval b)%Q as HB by (apply dval_pos; unfold dz; rewrite Hnb; lia).
  assert (0 < inject_Z (Z.of_N (div_den a b)))%Q as HD by (change 0%Q with (inject_Z 0); rewrite <- Zlt_Qlt; lia).
  pose proof (N.div_mod' (div_num a b) (div_den a b)) as Hdm.
  pose proof (N.mod_lt (div_num a b) (div_den a b) ltac:(lia)) as Hml.
  subst v. unfold div_pre.
  set (num := div_num a b) in *. set (den := div_den a b) in *. set (e := div_exp a b) in *.
  set (q := (num / den)%N) in *. set (r := (num mod den)%N) in *.
  assert (inject_Z (Z.of_N num) == inject_Z (Z.of_N den) * inject_Z (Z.of_N q) + inject_Z (Z.of_N r))%Q as Hnum
    by (rewrite Hdm, N2Z.inj_add, N2Z.inj_mul, inject_Z_plus, inject_Z_mult; done).
  assert (dval lo * inject_Z (Z.of_N den) <= inject_Z (Z.of_N num) * pow10 e)%Q as HL by nra.
  assert (inject_Z (Z.of_N num) * pow10 e <= dval hi * inject_Z (Z.of_N den))%Q as HH by nra.
  destruct (N.eqb_spec r 0) as [Hr0|Hr0].
  - rewrite strip_zeros_val. rewrite Hr0 in Hnum. change (inject_Z (Z.of_N 0)) with 0%Q in Hnum.
    split; nra.
  - assert (0 < inject_Z (Z.of_N r))%Q as HR by (change 0%Q with (inject_Z 0); rewrite <- Zlt_Qlt; lia).
    assert (inject_Z (Z.of_N r) < inject_Z (Z.of_N den))%Q as HR' by (rewrite <- Zlt_Qlt; lia).
    assert (inject_Z (Z.of_N (q + 1)) == inject_Z (Z.of_N q) + 1)%Q as Hq1
      by (rewrite N2Z.inj_add, inject_Z_plus; done).
    assert (inject_Z (Z.of_N (q + 1)) * pow10 e <= dval hi)%Q as H1
      by (apply repr_above; [done..|]; nra).
    assert (dval lo <= inject_Z (Z.of_N q) * pow10 e)%Q as H2
      by (apply repr_below; [done..|]; rewrite Hq1; nra).
    destruct (q mod 5 =? 0)%N; cbn [fst snd]; rewrite ?Hq1 in *; split; nra.
Qed.

(** The rounded quotient of positive values lies between any two representable
    numbers that enclose the exact quotient. *)
Lemma ddiv_between a b lo hi :
  dneg a = false -> dneg b = false -> (0 < dcoef a)%N -> (0 < dcoef b)%N ->
  representable lo -> representable hi ->
  (dval lo * dval b <= dval a)%Q -> (dval a <= dval hi * dval b)%Q ->
  exists r, ddiv a b = Ok r /\ dneg r = false /\ (dval lo <= dval r <= dval hi)%Q.
Proof.
  intros Hna Hnb Ha Hb Hlo Hhi Hl Hh. rewrite ddiv_unfold by done. eexists. split; [done|].
  destruct (div_pre_between a b lo hi) as [H1 H2]; try done.
  set (d := Dec _ _ _).
  assert (dneg d = false) as Hd by (subst d; cbn; by rewrite Hna, Hnb).
  assert (dval d == inject_Z (Z.of_N (div_pre a b).1) * pow10 (div_pre a b).2)%Q as Hv
    by (rewrite (pos_val d Hd); done).
  split; [destruct (dfix_cases d) as [->|(c & k & -> & _)]; done|].
  split; [apply dfix_ge_repr | apply dfix_le_repr]; try done; by rewrite Hv.
Qed.

Lemma dz_pos_inv d : 0 < dz d -> dneg d = false /\ (0 < dcoef d)%N.
Proof. unfold dz. destruct (dneg d); intros; split; lia. Qed.

Lemma ddiv_nonneg a b r : ddiv a b = Ok r -> (0 <= dval a)%Q -> (0 < dval b)%Q -> (0 <= dval r)%Q.
Proof.
  rewrite dval_pos, !dval_nonneg. intros E Ha [Hnb Hb]%dz_pos_inv.
  destruct (N.eq_dec (dcoef a) 0) as [Ha0|Ha0].
  - unfold ddiv in E. rewrite Ha0 in E. simpl in E.
    destruct (N.eqb_spec (dcoef b) 0); [lia|]. injection E as <-. unfold dz. simpl. by case_match.
  - assert (0 < dz a) as [Hna Hca]%dz_pos_inv by (unfold dz in *; destruct (dneg a); lia).
    rewrite ddiv_unfold in E by lia. injection E as <-.
    apply dval_nonneg, dfix_nonneg, dval_nonneg. unfold dz. cbn [dneg dcoef]. rewrite Hna, Hnb. simpl. lia.
Qed.

(** * Sums on a common grid *)

Lemma dval_prec_limit e :
  (dval (Dec false (10 ^ 27) (e + 1)) == inject_Z (10 ^ 28) * pow10 e)%Q.
Proof.
  unfold dval. cbn [dz dneg dcoef dexp]. rewrite pow10_add.
  change (pow10 1) with (inject_Z 10).
  rewrite (Qmult_comm (pow10 e)), Qmult_assoc, <- inject_Z_mult. by vm_compute.
Qed.

(** On a common decimal grid, a sum that does not exceed a representable bound
    is exact. *)
Lemma dadd_grid a b q e :
  dexp a = e -> dexp b = e -> dexp q = e -> fits (dz q) ->
  (0 <= dval a)%Q -> (0 <= dval b)%Q -> (dval (dadd a b) <= dval q)%Q ->
  dexp (dadd a b) = e /\ (dval (dadd a b) == dval a + dval b)%Q.
Proof.
  intros Ea Eb Eq Hq Ha Hb Hle. apply dval_nonneg in Ha. apply dval_nonneg in Hb.
  assert (sum_fits a b) as Hfit.
  { unfold sum_fits, scaled. rewrite Ea, Eb, Z.min_id, Z.sub_diag, !Z.mul_1_r.
    destruct (decide (fits (dz a + dz b))) as [|Hn]; [done|exfalso].
    unfold fits in *. unfold dadd in Hle.
    rewrite Ea, Eb, Z.min_id in Hle. unfold scaled in Hle.
    rewrite Ea, Eb, Z.sub_diag, !Z.mul_1_r in Hle.
    set (r := Dec false (10 ^ 27) (e + 1)).
    assert (dval r <= dval (dfix (of_signed (dneg a && dneg b) (dz a + dz b) e)))%Q as Hr.
    { apply dfix_ge_repr.
      - unfold of_signed. destruct (Z.eqb_spec (dz a + dz b) 0); simpl; lia.
      - split; [done|]. by vm_compute.
      - rewrite of_signed_val. unfold r. rewrite dval_prec_limit.
        apply Qmult_le_compat_r; [|apply Qlt_le_weak, pow10_pos].
        rewrite <- Zle_Qle. lia. }
    assert (dval q < dval r)%Q as Hlt; [|lra].
    unfold r. rewrite dval_prec_limit. unfold dval. rewrite Eq.
    apply Qmult_lt_compat_r; [apply pow10_pos|]. rewrite <- Zlt_Qlt. lia. }
  split; [|by apply dadd_exact].
  unfold dadd. rewrite dfix_exact by (by rewrite of_signed_dz). simpl. lia.
Qed.

(** * Rounded results against representable bounds *)

Lemma dfix_le_nonneg d r : (0 <= dval d)%Q -> representable r -> (dval d <= dval r)%Q -> (dval (dfix d) <= dval r)%Q.
Proof.
  intros H0 Hr H. destruct (dneg d) eqn:E; [|by apply dfix_le_repr].
  apply dval_nonneg in H0. unfold dz in H0. rewrite E in H0. by rewrite dfix_id by lia.
Qed.

Lemma dfix_ge_nonneg d r : (0 <= dval d)%Q -> representable r -> (dval r <= dval d)%Q -> (dval r <= dval (dfix d))%Q.
Proof.
  intros H0 Hr H. destruct (dneg d) eqn:E; [|by apply dfix_ge_repr].
  apply dval_nonneg in H0. unfold dz in H0. rewrite E in H0. by rewrite dfix_id by lia.
Qed.

Lemma dadd_ge_repr a b r : representable r -> (0 <= dval a + dval b)%Q -> (dval r <= dval a + dval b)%Q ->
  (dval r <= dval (dadd a b))%Q.
Proof. intros. unfold dadd. apply dfix_ge_nonneg; [|done|]; by rewrite of_signed_val, aligned_sum. Qed.

Lemma dadd_le_repr a b r : representable r -> (0 <= dval a + dval b)%Q -> (dval a + dval b <= dval r)%Q ->
  (dval (dadd a b) <= dval r)%Q.
Proof. intros. unfold dadd. apply dfix_le_nonneg; [|done|]; by rewrite of_signed_val, aligned_sum. Qed.

Lemma dmul_ge_repr a b r : representable r -> (0 <= dval a * dval b)%Q -> (dval r <= dval a * dval b)%Q ->
  (dval r <= dval (dmul a b))%Q.
Proof. intros. unfold dmul. apply dfix_ge_nonneg; [|done|]; by rewrite dmul_pre. Qed.

Lemma dmul_le_repr a b r : representable r -> (0 <= dval a * dval b)%Q -> (dval a * dval b <= dval r)%Q ->
  (dval (dmul a b) <= dval r)%Q.
Proof. intros. unfold dmul. apply dfix_le_nonneg; [|done|]; by rewrite dmul_pre. Qed.

(** A quotient by a positive number exists; of a non-negative number, it lies
    below every representable bound of the exact one. *)
Lemma ddiv_total a b : (0 < dval b)%Q -> exists r, ddiv a b = Ok r.
Proof.
  intros H. apply dval_pos in H. apply dz_pos_inv in H as [_ Hb]. unfold ddiv.
  destruct (N.eqb_spec (dcoef b) 0); [lia|]. destruct (dcoef a =? 0)%N; [eauto|]. case_match. eauto.
Qed.

Lemma ddiv_le_repr a b hi r : ddiv a b = Ok r -> representable hi -> (0 <= dval a)%Q -> (0 < dval b)%Q ->
  (dval a <= dval hi * dval b)%Q -> (dval r <= dval hi)%Q.
Proof.
  intros E Hhi Ha Hb H. assert (0 <= dval hi)%Q as Hhi0.
  { destruct Hhi as [Hs _]. rewrite (pos_val _ Hs). apply Qmult_le_0_compat; [|apply Qlt_le_weak, pow10_pos].
    change 0%Q with (inject_Z 0). rewrite <- Zle_Qle. lia. }
  apply dval_nonneg in Ha. pose proof Hb as [Hnb Hcb]%dval_pos%dz_pos_inv.
  destruct (N.eq_dec (dcoef a) 0) as [Hz|Hz].
  - unfold ddiv in E. rewrite Hz in E. destruct (N.eqb_spec (dcoef b) 0); [lia|]. cbn in E. injection E as <-.
    eapply Qle_trans; [|exact Hhi0]. apply Qnot_lt_le. rewrite dval_pos. unfold dz. cbn. by case_match.
  - assert (0 < dz a) as [Hna Hca]%dz_pos_inv by (unfold dz in *; destruct (dneg a); lia).
    destruct (ddiv_between a b (Dec false 0 0) hi) as (r' & E' & _ & Hr); try done.
    + rewrite dval_coef0. apply dval_nonneg in Ha. lra.
    + rewrite E in E'. simplify_eq. by destruct Hr.
Qed.
