(* ===== verification/Float64.v ===== *)
(** Python's [float]: IEEE 754 binary64.

    A float is the rational number it stands for; every arithmetic operation
    computes the exact result and rounds it with [binary64] to 53 significant
    bits, ties to even.  Comparisons are exact, also between a float and an
    [int].  The exponent is not bounded: overflow and the subnormal numbers
    (below 2^-1022), infinities and NaN are not modelled. *)

From stdpp Require Import base list.
From Stdlib Require Import ZArith QArith Qabs Lia Lqa.
From S2P Require Import Prelude.
Open Scope Z_scope.

(** [n / d] to the nearest integer, ties to even. *)
Definition round_even (n d : Z) : Z :=
  let q := n / d in
  let r := n mod d in
  match 2 * r ?= d with
  | Lt => q
  | Gt => q + 1
  | Eq => if Z.even q then q else q + 1
  end.

(** The [e] with 2^e <= n / d < 2^(e+1). *)
Definition exponent (n d : Z) : Z :=
  let k := Z.log2 n - Z.log2 d in
  if (if 0 <=? k then d * 2 ^ k <=? n else d <=? n * 2 ^ (- k)) then k else k - 1.

(** The nearest number of 53 significant bits. *)
Definition binary64 (x : Q) : Q :=
  if Qnum x =? 0 then 0%Q
  else
    let n := Z.abs (Qnum x) in
    let d := Z.pos (Qden x) in
    let s := 52 - exponent n d in
    if 0 <=? s then (Z.sgn (Qnum x) * round_even (n * 2 ^ s) d) # Z.to_pos (2 ^ s)
    else inject_Z (Z.sgn (Qnum x) * round_even n (d * 2 ^ (- s)) * 2 ^ (- s)).

Definition fadd (a b : Q) : Q := binary64 (a + b).
Definition fsub (a b : Q) : Q := binary64 (a - b).
Definition fmul (a b : Q) : Q := binary64 (a * b).

(** [float(z)] of an [int] *)
Definition float_of_int (z : Z) : Q := binary64 (inject_Z z).

(** The unit roundoff, 2^-53. *)
Definition ULP : Q := 1 # 9007199254740992.

(** ** Rounding error *)

Lemma round_even_err n d : 0 < d -> 2 * Z.abs (round_even n d * d - n) <= d.
Proof.
  intros Hd. unfold round_even. pose proof (Z.div_mod n d ltac:(lia)) as E.
  pose proof (Z.mod_pos_bound n d Hd) as Hr. set (q := n / d) in *. set (r := n mod d) in *.
  destruct (Z.compare_spec (2 * r) d); [destruct (Z.even q)|..]; nia.
Qed.

(** [2 ^ e <= n / d], whichever sign [e] has. *)
Definition at_least (n d e : Z) : Prop := if 0 <=? e then d * 2 ^ e <= n else d <= n * 2 ^ (- e).

Lemma exponent_below n d : 0 < n -> 0 < d -> at_least n d (exponent n d).
Proof.
  intros Hn Hd. unfold exponent, at_least.
  destruct (Z.log2_spec n Hn) as [Hn1 _]. destruct (Z.log2_spec d Hd) as [_ Hd2].
  pose proof (Z.log2_nonneg n) as Ln. pose proof (Z.log2_nonneg d) as Ld.
  set (a := Z.log2 n) in *. set (b := Z.log2 d) in *. rewrite Z.pow_succ_r in Hd2 by done.
  destruct (Z.leb_spec 0 (a - b)) as [Hk|Hk].
  - destruct (Z.leb_spec (d * 2 ^ (a - b)) n) as [H|H]; [by rewrite (proj2 (Z.leb_le _ _) Hk)|].
    destruct (Z.leb_spec 0 (a - b - 1)) as [Hk'|Hk'].
    + assert (2 ^ a = 2 ^ (a - b - 1) * (2 * 2 ^ b)) as Ha
        by (rewrite <- Z.pow_succ_r, <- Z.pow_add_r by lia; f_equal; lia).
      pose proof (Z.pow_pos_nonneg 2 (a - b - 1) ltac:(lia) ltac:(lia)). nia.
    + assert (a = b) as E by lia. rewrite E in *. replace (- (b - b - 1)) with 1 by lia.
      rewrite Z.sub_diag in *. change (2 ^ 0) with 1 in *. change (2 ^ 1) with 2. lia.
  - destruct (Z.leb_spec d (n * 2 ^ (- (a - b)))) as [H|H];
      [by rewrite (proj2 (Z.leb_gt _ _) Hk)|].
    destruct (Z.leb_spec 0 (a - b - 1)) as [Hk'|Hk']; [lia|].
    assert (2 * 2 ^ b = 2 ^ (- (a - b - 1)) * 2 ^ a) as Hb
      by (rewrite <- Z.pow_succ_r, <- Z.pow_add_r by lia; f_equal; lia).
    pose proof (Z.pow_pos_nonneg 2 (- (a - b - 1)) ltac:(lia) ltac:(lia)). nia.
Qed.

(** The 53 bits start at or below the leading one. *)
Lemma significant n d : 0 < n -> 0 < d -> let s := 52 - exponent n d in
  if 0 <=? s then d * 2 ^ 52 <= n * 2 ^ s else d * 2 ^ (- s) * 2 ^ 52 <= n.
Proof.
  intros Hn Hd s. pose proof (exponent_below n d Hn Hd) as H. unfold at_least in H. subst s.
  set (e := exponent n d) in *.
  destruct (Z.leb_spec 0 (52 - e)) as [Hs|Hs]; destruct (Z.leb_spec 0 e) as [He|He]; try lia.
  - assert (2 ^ 52 = 2 ^ e * 2 ^ (52 - e)) as -> by (rewrite <- Z.pow_add_r by lia; f_equal; lia).
    pose proof (Z.pow_pos_nonneg 2 (52 - e) ltac:(lia) Hs). nia.
  - assert (2 ^ (52 - e) = 2 ^ (- e) * 2 ^ 52) as -> by (rewrite <- Z.pow_add_r by lia; f_equal; lia). nia.
  - rewrite <- Z.mul_assoc, <- Z.pow_add_r by lia. by replace (- (52 - e) + 52) with e by lia.
Qed.

(** Rounding is accurate to a relative 2^-53. *)
Lemma binary64_err x : (Qabs (binary64 x - x) <= ULP * Qabs x)%Q.
Proof.
  unfold binary64. destruct (Z.eqb_spec (Qnum x) 0) as [E|E].
  { destruct x as [nx dx]. cbn in E. subst nx. unfold Qle. cbn. lia. }
  destruct x as [nx dx]. cbn [Qnum Qden] in *. set (n := Z.abs nx). set (d := Z.pos dx).
  assert (0 < n) as Hn by lia. assert (0 < d) as Hd by lia.
  pose proof (significant n d Hn Hd) as Hsig. cbv zeta in Hsig. set (s := 52 - exponent n d) in *.
  change (2 ^ 52) with 4503599627370496 in Hsig.
  assert (nx = Z.sgn nx * n) as Hnx by (unfold n; lia).
  assert (Z.abs (Z.sgn nx) = 1) as Hsgn by lia. set (sg := Z.sgn nx) in *. clearbody sg n.
  destruct (Z.leb_spec 0 s) as [Hs|Hs].
  - assert (0 < 2 ^ s) as HP by (apply Z.pow_pos_nonneg; lia).
    pose proof (round_even_err (n * 2 ^ s) d Hd) as Herr.
    set (P := 2 ^ s) in *. set (M := round_even (n * P) d) in *.
    unfold Qle, Qabs, Qminus, Qplus, Qopp, Qmult, ULP. cbn [Qnum Qden]. fold d.
    rewrite !Pos2Z.inj_mul, Z2Pos.id by done. fold d. subst nx.
    replace (sg * M * d + - (sg * n) * P) with (sg * (M * d - n * P)) by ring.
    rewrite !Z.abs_mul, Hsgn, (Z.abs_eq n) by lia. nia.
  - assert (0 < 2 ^ (- s)) as HP by (apply Z.pow_pos_nonneg; lia).
    pose proof (round_even_err n (d * 2 ^ (- s)) ltac:(nia)) as Herr.
    set (P := 2 ^ (- s)) in *. set (M := round_even n (d * P)) in *.
    unfold Qle, Qabs, Qminus, Qplus, Qopp, Qmult, ULP, inject_Z. cbn [Qnum Qden]. fold d.
    rewrite !Pos2Z.inj_mul. fold d. subst nx.
    replace (sg * M * P * d + - (sg * n) * 1) with (sg * (M * (d * P) - n)) by ring.
    rewrite !Z.abs_mul, Hsgn, (Z.abs_eq n) by lia. nia.
Qed.

Lemma ULP_bounds : (0 < ULP /\ ULP < 1 # 1000)%Q.
Proof. by split. Qed.

(** Non-negative numbers round to non-negative ones, within the error. *)
Lemma binary64_nonneg x : (0 <= x)%Q -> (0 <= binary64 x /\ binary64 x <= x * (1 + ULP) /\ x * (1 - ULP) <= binary64 x)%Q.
Proof.
  intros Hx. pose proof (binary64_err x) as H. rewrite (Qabs_pos x Hx) in H. apply Qabs_Qle_condition in H as [H1 H2].
  destruct ULP_bounds as [U1 U2]. split_and!; nra.
Qed.

(** [float(z) >= 1] for a positive [int]. *)
Lemma float_of_int_ge_one z : 1 <= z -> (1 <= float_of_int z)%Q.
Proof.
  intros Hz. destruct (decide (z = 1)) as [->|Hne]; [by vm_compute|].
  assert (2 <= z) as H2 by lia. rewrite Zle_Qle in H2. change (inject_Z 2) with 2%Q in H2.
  destruct (binary64_nonneg (inject_Z z) ltac:(lra)) as (_ & _ & H). destruct ULP_bounds as [U1 U2]. unfold float_of_int. nra.
Qed.

(** 0.1 + 0.2, and the double nearest to a third. *)
Example float_sum : (fadd (binary64 (1 # 10)) (binary64 (2 # 10)) == 5404319552844596 # 18014398509481984)%Q.
Proof. by vm_compute. Qed.

Example float_third : (binary64 (1 # 3) == 6004799503160661 # 18014398509481984)%Q.
Proof. by vm_compute. Qed.
