(* ===== verification/DecimalText.v ===== *)
(** [str(d)] and [Decimal(text)]: the textual form decimals take in event
    metadata, identity payloads and content hashes, and the round trip between
    the two. *)

From stdpp Require Import base list strings.
From Stdlib Require Import ZArith NArith Lia String Ascii.
From S2P Require Import Prelude PyBase Decimal.

Open Scope Z_scope.

Definition zeros (n : nat) : string := String.concat "" (replicate n "0"%string).

Fixpoint str_take (n : nat) (s : string) : string :=
  match n, s with
  | S n', String c s' => String c (str_take n' s')
  | _, _ => ""
  end.

Fixpoint str_drop (n : nat) (s : string) : string :=
  match n, s with
  | O, _ => s
  | S n', String _ s' => str_drop n' s'
  | _, _ => ""
  end.

(** ["%+d" % z] *)
Definition signed_str (z : Z) : string :=
  (if z <? 0 then "-" else "+") +:+ str_N (Z.abs_N z).

(** [Decimal.__str__] *)
Definition dec_str (d : decimal) : string :=
  let digits := str_N (dcoef d) in
  let len := Z.of_nat (String.length digits) in
  let leftdigits := dexp d + len in
  let dotplace := if (dexp d <=? 0) && (-6 <? leftdigits) then leftdigits else 1 in
  let body :=
    if dotplace <=? 0 then "0." +:+ zeros (Z.to_nat (- dotplace)) +:+ digits
    else if len <=? dotplace then digits +:+ zeros (Z.to_nat (dotplace - len))
    else str_take (Z.to_nat dotplace) digits +:+ "." +:+ str_drop (Z.to_nat dotplace) digits in
  (if dneg d then "-" else "") +:+ body +:+
  (if leftdigits =? dotplace then "" else "E" +:+ signed_str (leftdigits - dotplace)).

Fixpoint split_at (p : ascii -> bool) (s : string) : string * option string :=
  match s with
  | EmptyString => ("", None)
  | String c s' => if p c then ("", Some s')
                   else let '(a, b) := split_at p s' in (String c a, b)
  end.

Definition digit_value (c : ascii) : option N :=
  let n := N_of_ascii c in
  if ((48 <=? n) && (n <=? 57))%N then Some (n - 48)%N else None.

Fixpoint parse_dec (acc : N) (s : string) : option N :=
  match s with
  | EmptyString => Some acc
  | String c s' => match digit_value c with
                   | Some d => parse_dec (10 * acc + d) s'
                   | None => None
                   end
  end.

Definition parse_sign (s : string) : bool * string :=
  match s with
  | String c s' => if Ascii.eqb c "-" then (true, s')
                   else if Ascii.eqb c "+" then (false, s') else (false, s)
  | EmptyString => (false, s)
  end.

Definition parse_exponent (o : option string) : option Z :=
  match o with
  | None => Some 0
  | Some s =>
      let '(neg, t) := parse_sign s in
      if String.eqb t "" then None
      else n ← parse_dec 0 t; Some (if neg : bool then - Z.of_N n else Z.of_N n)
  end.

(** [Decimal(text)] for finite numerals; [None] is [InvalidOperation]. *)
Definition dec_parse (s : string) : option decimal :=
  let '(neg, s1) := parse_sign s in
  let '(mant, ex) := split_at (fun c => Ascii.eqb c "E" || Ascii.eqb c "e") s1 in
  let '(ip, fp) := split_at (fun c => Ascii.eqb c ".") mant in
  let frac := default ""%string fp in
  if String.eqb (ip +:+ frac) "" then None
  else
    c ← parse_dec 0 (ip +:+ frac);
    e ← parse_exponent ex;
    Some (Dec neg c (e - Z.of_nat (String.length frac))).

(** [int(s)]: optional sign, digits with single underscores between
    them, surrounding white space. *)
Fixpoint int_digits (acc : N) (after_digit : bool) (s : string) : option N :=
  match s with
  | EmptyString => if after_digit then Some acc else None
  | String c s' =>
      match digit_value c with
      | Some d => int_digits (10 * acc + d) true s'
      | None => if after_digit && Ascii.eqb c "_" then int_digits acc false s' else None
      end
  end.

Definition int_text (s : string) : res Z :=
  let '(neg, t) := parse_sign (py_strip s) in
  match int_digits 0 false t with
  | Some n => Ok (if neg : bool then - Z.of_N n else Z.of_N n)
  | None => raise ValueError ("invalid literal for int() with base 10: " +:+ py_repr s)
  end.

Example dec_str_samples :
  dec_str <$> [Dec false 1050 (-1); Dec true 5 (-7); Dec false 12 3; Dec false 1 (-6); Dec true 0 (-4)]
  = ["105.0"; "-5E-7"; "1.2E+4"; "0.000001"; "-0.0000"]%string.
Proof. vm_compute. reflexivity. Qed.

(** ** Round trip *)

Fixpoint all_digits (s : string) : bool :=
  match s with
  | EmptyString => true
  | String c s' => match digit_value c with Some _ => all_digits s' | None => false end
  end.

Lemma all_digits_app s t : all_digits (s +:+ t) = all_digits s && all_digits t.
Proof.
  induction s as [|c s IH]; [done|]. change (String c s +:+ t) with (String c (s +:+ t)).
  simpl. by destruct (digit_value c).
Qed.

Lemma parse_dec_app s : forall acc t,
  parse_dec acc (s +:+ t) = (n ← parse_dec acc s; parse_dec n t).
Proof.
  induction s as [|c s IH]; intros acc t; [done|].
  change (String c s +:+ t) with (String c (s +:+ t)). simpl.
  by destruct (digit_value c).
Qed.

Lemma dec_digit_value n : (n < 10)%N -> digit_value (dec_digit n) = Some n.
Proof.
  intros Hn.
  assert (Forall (fun k => digit_value (dec_digit k) = Some k) (N.of_nat <$> seq 0 10)) as Hall
    by (repeat constructor).
  rewrite Forall_forall in Hall. apply Hall, list_elem_of_fmap.
  exists (N.to_nat n). split; [lia|]. apply elem_of_seq. lia.
Qed.

Lemma dec_digits_spec fuel : forall n, (n < 2 ^ N.of_nat fuel)%N ->
  all_digits (dec_digits fuel n) = true /\ parse_dec 0 (dec_digits fuel n) = Some n.
Proof.
  induction fuel as [|f IH]; intros n Hn.
  { simpl in *. rewrite dec_digit_value by lia. split; [done | f_equal; lia]. }
  cbn [dec_digits]. destruct (N.ltb_spec n 10) as [H|H].
  { simpl. rewrite dec_digit_value by done. split; [done | f_equal; lia]. }
  destruct (IH (n / 10)%N) as [H1 H2].
  { apply N.Div0.div_lt_upper_bound. rewrite Nat2N.inj_succ, N.pow_succ_r' in Hn. lia. }
  assert (n mod 10 < 10)%N as Hm by (apply N.mod_lt; lia).
  rewrite all_digits_app, parse_dec_app, H1, H2. simpl. rewrite dec_digit_value by done.
  split; [done|]. f_equal. symmetry. apply N.div_mod'.
Qed.

Lemma str_N_spec n : all_digits (str_N n) = true /\ parse_dec 0 (str_N n) = Some n.
Proof. apply dec_digits_spec. rewrite N2Nat.id. apply N.size_gt. Qed.

Lemma dec_digits_nonempty fuel n : (0 < String.length (dec_digits fuel n))%nat.
Proof.
  destruct fuel; cbn; [lia|]. destruct (n <? 10)%N; [cbn; lia|].
  rewrite str_length_app. cbn. lia.
Qed.

Lemma str_N_length n : (0 < String.length (str_N n))%nat.
Proof. apply dec_digits_nonempty. Qed.

Lemma zeros_spec k :
  all_digits (zeros k) = true /\ parse_dec 0 (zeros k) = Some 0%N /\ String.length (zeros k) = k.
Proof.
  unfold zeros. assert (forall l, String.concat "" ("0"%string :: l)
    = "0" +:+ String.concat "" l) as Hc by (intros [|]; reflexivity).
  induction k as [|k (H1 & H2 & H3)]; [done|]. cbn [replicate]. rewrite Hc.
  rewrite all_digits_app, parse_dec_app, str_length_app, H1, H3.
  split_and!; [done | exact H2 | done].
Qed.

Lemma str_take_drop n s : str_take n s +:+ str_drop n s = s.
Proof.
  revert s. induction n as [|n IH]; intros [|c s]; try done. simpl.
  exact (f_equal (String c) (IH s)).
Qed.

Lemma str_drop_length n s : String.length (str_drop n s) = (String.length s - n)%nat.
Proof. revert s. induction n as [|n IH]; intros [|c s]; simpl; done || apply IH. Qed.

(** A digit is neither a sign, a point nor an exponent mark. *)
Lemma digit_not_mark c n : digit_value c = Some n ->
  Ascii.eqb c "-" = false /\ Ascii.eqb c "+" = false /\ Ascii.eqb c "." = false /\
  Ascii.eqb c "E" || Ascii.eqb c "e" = false.
Proof.
  intros H. split_and!; repeat match goal with
  | |- context [Ascii.eqb c ?x] => destruct (Ascii.eqb_spec c x) as [->|]; [discriminate H|]
  end; reflexivity.
Qed.

Lemma split_at_some p s c t : (forall a, In a (list_ascii_of_string s) -> p a = false) ->
  p c = true -> split_at p (s +:+ String c t) = (s, Some t).
Proof.
  intros Hs Hc. induction s as [|a s IH]; [|].
  { change (EmptyString +:+ String c t) with (String c t). cbn [split_at]. by rewrite Hc. }
  change (String a s +:+ String c t) with (String a (s +:+ String c t)).
  cbn [split_at]. rewrite Hs by (by left). rewrite IH; [done|]. intros x Hx. apply Hs. by right.
Qed.

Lemma str_app_assoc a b c : (a +:+ b) +:+ c = a +:+ b +:+ c.
Proof. induction a as [|x a IH]; [done|]. exact (f_equal (String x) IH). Qed.

Lemma all_digits_in s a : all_digits s = true -> In a (list_ascii_of_string s) ->
  exists n, digit_value a = Some n.
Proof.
  induction s as [|c s IH]; [done|]. simpl. destruct (digit_value c) eqn:E; [|done].
  intros Hs [<-|Hin]; eauto.
Qed.

Lemma parse_sign_digits s t : all_digits s = true -> s <> ""%string ->
  parse_sign (s +:+ t) = (false, s +:+ t).
Proof.
  destruct s as [|c s]; [done|]. simpl. destruct (digit_value c) eqn:E; [|done]. intros _ _.
  change (String c s +:+ t) with (String c (s +:+ t)). cbn [parse_sign].
  by destruct (digit_not_mark c _ E) as (-> & -> & _).
Qed.

Lemma str_N_ne n : str_N n <> ""%string.
Proof. intros H. pose proof (str_N_length n). rewrite H in *. simpl in *. lia. Qed.

Lemma parse_exponent_signed z : parse_exponent (Some (signed_str z)) = Some z.
Proof.
  unfold parse_exponent, signed_str. destruct (str_N_spec (Z.abs_N z)) as [_ Hp].
  pose proof (str_N_ne (Z.abs_N z)) as Hne. revert Hp Hne. generalize (str_N (Z.abs_N z)).
  intros t Hp Hne.
  destruct (Z.ltb_spec z 0);
    [change ("-" +:+ t) with (String "-" t) | change ("+" +:+ t) with (String "+" t)];
    cbn [parse_sign Ascii.eqb Bool.eqb]; cbv iota;
    (destruct (String.eqb_spec t ""); [done|]); rewrite Hp; simpl; f_equal; lia.
Qed.

(** The mantissa of the numeral: an integer part and, after a point, a
    fraction. *)
Definition numeral (ip : string) (fp : option string) : string :=
  ip +:+ match fp with Some f => "." +:+ f | None => "" end.

Lemma numeral_no_exp ip fp a : all_digits ip = true -> all_digits (default "" fp) = true ->
  In a (list_ascii_of_string (numeral ip fp)) -> Ascii.eqb a "E" || Ascii.eqb a "e" = false.
Proof.
  intros Hi Hf Hin. unfold numeral in Hin.
  assert (forall s t, list_ascii_of_string (s +:+ t)
    = (list_ascii_of_string s ++ list_ascii_of_string t)%list) as Happ.
  { intros s t. induction s as [|c s IH]; [done|]. exact (f_equal (cons c) IH). }
  rewrite Happ in Hin. apply in_app_iff in Hin as [Hin|Hin].
  - destruct (all_digits_in _ _ Hi Hin) as [n Hn]. by apply (digit_not_mark a n).
  - destruct fp as [f|]; [|done]. rewrite Happ in Hin. destruct Hin as [<-|Hin]; [done|].
    destruct (all_digits_in f a Hf Hin) as [n Hn]. by apply (digit_not_mark a n).
Qed.

Lemma split_at_none_in p s : (forall a, In a (list_ascii_of_string s) -> p a = false) ->
  split_at p s = (s, None).
Proof.
  intros Hs. induction s as [|c s IH]; [done|]. cbn [split_at].
  rewrite Hs by (by left). rewrite IH; [done|]. intros x Hx. apply Hs. by right.
Qed.

Lemma split_numeral ip fp : all_digits ip = true ->
  split_at (fun c => Ascii.eqb c ".") (numeral ip fp) = (ip, fp).
Proof.
  intros Hi.
  assert (forall a, In a (list_ascii_of_string ip) -> Ascii.eqb a "." = false) as Hin.
  { intros a Ha. destruct (all_digits_in _ _ Hi Ha) as [n Hn]. by apply (digit_not_mark a n). }
  unfold numeral. destruct fp as [f|].
  - by apply split_at_some.
  - rewrite str_app_nil_r. by apply split_at_none_in.
Qed.

Lemma dec_parse_form (neg : bool) ip fp (ex : option Z) c :
  all_digits ip = true -> ip <> ""%string -> all_digits (default "" fp) = true ->
  parse_dec 0 (ip +:+ default "" fp) = Some c ->
  dec_parse ((if neg then "-" else "") +:+ numeral ip fp +:+
             match ex with Some z => "E" +:+ signed_str z | None => "" end)
  = Some (Dec neg c (default 0 ex - Z.of_nat (String.length (default "" fp)))).
Proof.
  intros Hi Hne Hf Hp. set (tail := match ex with Some _ => _ | None => _ end).
  assert (parse_sign ((if neg then "-" else "") +:+ numeral ip fp +:+ tail)
          = (neg, numeral ip fp +:+ tail)) as Hs.
  { destruct neg; [done|]. rewrite str_app_nil_l. unfold numeral. rewrite str_app_assoc.
    by apply parse_sign_digits. }
  unfold dec_parse. rewrite Hs.
  assert (split_at (fun c => Ascii.eqb c "E" || Ascii.eqb c "e") (numeral ip fp +:+ tail)
          = (numeral ip fp, match ex with Some z => Some (signed_str z) | None => None end)) as He.
  { subst tail. destruct ex as [z|].
    - apply split_at_some; [|done]. intros a. by apply numeral_no_exp.
    - rewrite str_app_nil_r. apply split_at_none_in. intros a. by apply numeral_no_exp. }
  rewrite He, split_numeral by done.
  destruct (String.eqb_spec (ip +:+ default ""%string fp) "") as [E|_].
  { destruct ip; [done|]. discriminate E. }
  rewrite Hp. simpl. destruct ex as [z|]; [|done]. by rewrite parse_exponent_signed.
Qed.

(** [Decimal(str(d)) == d], digit for digit. *)
Lemma dec_roundtrip d : dec_parse (dec_str d) = Some d.
Proof.
  destruct d as [neg n e]. unfold dec_str. cbn [dneg dcoef dexp].
  destruct (str_N_spec n) as [Hd Hp]. pose proof (str_N_length n) as Hl.
  pose proof (str_N_ne n) as Hne. set (ds := str_N n) in *.
  set (len := Z.of_nat (String.length ds)).
  set (dot := if (e <=? 0) && (-6 <? e + len) then e + len else 1).
  assert (dot = e + len /\ e <= 0 \/ dot = 1 /\ dot <> e + len) as Hdot.
  { subst dot. destruct (Z.leb_spec e 0), (Z.ltb_spec (-6) (e + len)); simpl; lia. }
  set (tail := if e + len =? dot then _ else _).
  assert (tail = match (if e + len =? dot then None else Some (e + len - dot)) with
                 | Some z => "E" +:+ signed_str z | None => "" end) as ->
    by (subst tail; by destruct (e + len =? dot)).
  assert (default 0 (if e + len =? dot then None else Some (e + len - dot)) = e + len - dot) as Hex
    by (destruct (Z.eqb_spec (e + len) dot); simpl; lia).
  destruct (Z.leb_spec dot 0) as [H0|H0]; [|destruct (Z.leb_spec len dot) as [H1|H1]].
  - destruct (zeros_spec (Z.to_nat (- dot))) as (Hz1 & Hz2 & Hz3).
    change ("0." +:+ zeros (Z.to_nat (- dot)) +:+ ds)
      with (numeral "0" (Some (zeros (Z.to_nat (- dot)) +:+ ds))).
    rewrite (dec_parse_form _ _ _ _ n); simpl default; try done.
    + rewrite Hex, str_length_app, Hz3. do 2 f_equal. lia.
    + by rewrite all_digits_app, Hz1, Hd.
    + transitivity (parse_dec 0 (zeros (Z.to_nat (- dot)) +:+ ds)); [done|].
      by rewrite parse_dec_app, Hz2.
  - replace (dot - len) with 0 by lia. change (zeros (Z.to_nat 0)) with ""%string.
    rewrite str_app_nil_r. rewrite <- (str_app_nil_r ds) at 1.
    change (ds +:+ "") with (numeral ds None).
    rewrite (dec_parse_form _ _ _ _ n); simpl default; try done.
    + rewrite Hex. do 2 f_equal. simpl. lia.
    + by rewrite str_app_nil_r.
  - set (k := Z.to_nat dot).
    change (str_take k ds +:+ "." +:+ str_drop k ds)
      with (numeral (str_take k ds) (Some (str_drop k ds))).
    pose proof (str_take_drop k ds) as Htd.
    assert (all_digits (str_take k ds) && all_digits (str_drop k ds) = true) as [Ht Hdr]%andb_prop
      by (by rewrite <- all_digits_app, Htd).
    rewrite (dec_parse_form _ _ _ _ n); simpl default; try done.
    + rewrite Hex, str_drop_length. do 2 f_equal. lia.
    + intros E. apply (f_equal String.length) in Htd. rewrite str_length_app, E, str_drop_length in Htd.
      simpl in Htd. lia.
    + by rewrite Htd.
Qed.
