(* ===== verification/Json.v ===== *)
(** [json.loads] and [json.dumps] without sorted keys, and their round trip.

    Text is bytes, as everywhere in the library: an escape beyond ASCII is read
    as its UTF-8 bytes (surrogate pairs as two characters), and a byte beyond
    ASCII is written as it is, where [json.dumps] would escape the character.
    [json.loads] of bytes also recognises UTF-16 and UTF-32 and refuses invalid
    UTF-8; here the bytes are taken as they are.  A number with a
    fraction or an exponent is kept as its text.  Of two members with one key the
    last wins, at the place of the first, as in a [dict]. *)

From stdpp Require Import base list gmap strings.
From Stdlib Require Import ZArith Lia String Ascii.
From S2P Require Import Prelude PyBase Decimal DecimalText.
Open Scope Z_scope.

(** * Printing in insertion order *)

Fixpoint json_plain (item_sep key_sep : string) (j : json) : string :=
  match j with
  | JNull => "null"
  | JStr s => json_string s
  | JInt z => str_Z z
  | JFloat t => t
  | JBool b => if b then "true" else "false"
  | JArr l => "[" +:+ String.concat item_sep (List.map (json_plain item_sep key_sep) l) +:+ "]"
  | JObj l => "{" +:+ String.concat item_sep
                (List.map (fun kv => json_string kv.1 +:+ key_sep +:+ json_plain item_sep key_sep kv.2) l) +:+ "}"
  end.

(** * Parsing *)

Definition json_space (c : ascii) : bool :=
  let n := N_of_ascii c in (n =? 32)%N || (n =? 9)%N || (n =? 10)%N || (n =? 13)%N.

Fixpoint skip_ws (s : string) : string :=
  match s with
  | String c s' => if json_space c then skip_ws s' else s
  | EmptyString => ""
  end.

(** The UTF-8 bytes of a code unit. *)
Definition utf8 (n : N) : string :=
  let byte b := String (ascii_of_N b) "" in
  if (n <? 128)%N then byte n
  else if (n <? 2048)%N then byte (192 + n / 64)%N +:+ byte (128 + n mod 64)%N
  else byte (224 + n / 4096)%N +:+ byte (128 + (n / 64) mod 64)%N +:+ byte (128 + n mod 64)%N.

Definition unescape (c : ascii) : option ascii :=
  let n := N_of_ascii c in
  if (n =? 34)%N || (n =? 92)%N || (n =? 47)%N then Some c
  else if (n =? 110)%N then Some (ascii_of_N 10)
  else if (n =? 114)%N then Some (ascii_of_N 13)
  else if (n =? 116)%N then Some (ascii_of_N 9)
  else if (n =? 102)%N then Some (ascii_of_N 12)
  else if (n =? 98)%N then Some (ascii_of_N 8)
  else None.

Definition onto (t : string) (r : option (string * string)) : option (string * string) :=
  match r with Some (t', rest) => Some (t +:+ t', rest) | None => None end.

(** The characters of a string after its opening quote. *)
Fixpoint parse_chars (s : string) : option (string * string) :=
  match s with
  | EmptyString => None
  | String c s1 =>
      let n := N_of_ascii c in
      if (n =? 34)%N then Some (""%string, s1)
      else if (n =? 92)%N then
        match s1 with
        | String e s2 =>
            if Ascii.eqb e "u" then
              match s2 with
              | String a (String b (String c' (String d s3))) =>
                  match parse_hex 0 (String a (String b (String c' (String d "")))) with
                  | Some u => onto (utf8 u) (parse_chars s3)
                  | None => None
                  end
              | _ => None
              end
            else match unescape e with Some x => onto (String x "") (parse_chars s2) | None => None end
        | EmptyString => None
        end
      else if (n <? 32)%N then None
      else onto (String c "") (parse_chars s1)
  end.

Definition is_digit (c : ascii) : bool := match digit_value c with Some _ => true | None => false end.

Fixpoint span_digits (s : string) : string * string :=
  match s with
  | String c s' => if is_digit c then let '(d, r) := span_digits s' in (String c d, r) else (""%string, s)
  | EmptyString => (""%string, ""%string)
  end.

(** The fraction and the exponent of a number, if they are complete. *)
Definition number_fraction (s : string) : string * string :=
  match s with
  | String "."%char s' => let '(d, r) := span_digits s' in if String.eqb d "" then (""%string, s) else (String "." d, r)
  | _ => (""%string, s)
  end.
Definition number_exponent (s : string) : string * string :=
  match s with
  | String c s' =>
      if Ascii.eqb c "e" || Ascii.eqb c "E" then
        let '(sign, t) := match s' with
                          | String x t => if Ascii.eqb x "+" || Ascii.eqb x "-" then (String x "", t) else (""%string, s')
                          | EmptyString => (""%string, s')
                          end in
        let '(d, r) := span_digits t in
        if String.eqb d "" then (""%string, s) else (String c (sign +:+ d), r)
      else (""%string, s)
  | EmptyString => (""%string, s)
  end.

Definition parse_magnitude (negative : bool) (t : string) : option (json * string) :=
  let '(digits, t1) := match t with String "0"%char r => ("0"%string, r) | _ => span_digits t end in
  if String.eqb digits "" then None
  else
    let '(fraction, t2) := number_fraction t1 in
    let '(exponent, t3) := number_exponent t2 in
    if String.eqb (fraction +:+ exponent) "" then
      let v := Z.of_N (default 0%N (parse_dec 0 digits)) in Some (JInt (if negative then - v else v), t3)
    else Some (JFloat ((if negative then "-" else "") +:+ digits +:+ fraction +:+ exponent), t3).

Definition parse_number (s : string) : option (json * string) :=
  match s with String "-"%char t => parse_magnitude true t | _ => parse_magnitude false s end.

(** [s] without the prefix [p] *)
Fixpoint strip_prefix (p s : string) : option string :=
  match p, s with
  | EmptyString, _ => Some s
  | String a p', String b s' => if Ascii.eqb a b then strip_prefix p' s' else None
  | String _ _, EmptyString => None
  end.

Definition constants : list (string * json) :=
  [("null", JNull); ("true", JBool true); ("false", JBool false); ("NaN", JFloat "NaN"); ("Infinity", JFloat "Infinity");
   ("-Infinity", JFloat "-Infinity")]%string.

Fixpoint parse_constant (l : list (string * json)) (s : string) : option (json * string) :=
  match l with
  | [] => None
  | (text, v) :: l' => match strip_prefix text s with Some r => Some (v, r) | None => parse_constant l' s end
  end.

(** [d[k] = v] *)
Fixpoint dict_set (k : string) (v : json) (d : list (string * json)) : list (string * json) :=
  match d with
  | [] => [(k, v)]
  | (k', v') :: d' => if String.eqb k k' then (k, v) :: d' else (k', v') :: dict_set k v d'
  end.

Definition dict_of (l : list (string * json)) : list (string * json) := foldl (fun d kv => dict_set kv.1 kv.2 d) [] l.

Fixpoint parse_value (fuel : nat) (s : string) : option (json * string) :=
  match fuel with
  | O => None
  | S n =>
      match s with
      | EmptyString => None
      | String c s1 =>
          let k := N_of_ascii c in
          if (k =? 34)%N then match parse_chars s1 with Some (t, r) => Some (JStr t, r) | None => None end
          else if (k =? 91)%N then
            match skip_ws s1 with
            | String "]"%char r => Some (JArr [], r)
            | s2 => match parse_items n s2 with Some (l, r) => Some (JArr l, r) | None => None end
            end
          else if (k =? 123)%N then
            match skip_ws s1 with
            | String "}"%char r => Some (JObj [], r)
            | s2 => match parse_members n s2 with Some (l, r) => Some (JObj (dict_of l), r) | None => None end
            end
          else match parse_constant constants s with
               | Some r => Some r
               | None => parse_number s
               end
      end
  end
with parse_items (fuel : nat) (s : string) : option (list json * string) :=
  match fuel with
  | O => None
  | S n =>
      match parse_value n s with
      | Some (v, r) =>
          match skip_ws r with
          | String ","%char r1 => match parse_items n (skip_ws r1) with Some (l, r2) => Some (v :: l, r2) | None => None end
          | String "]"%char r1 => Some ([v], r1)
          | _ => None
          end
      | None => None
      end
  end
with parse_members (fuel : nat) (s : string) : option (list (string * json) * string) :=
  match fuel with
  | O => None
  | S n =>
      match s with
      | String c s1 =>
          if Ascii.eqb c quote then
            match parse_chars s1 with
            | Some (k, r) =>
                match skip_ws r with
                | String ":"%char r1 =>
                    match parse_value n (skip_ws r1) with
                    | Some (v, r2) =>
                        match skip_ws r2 with
                        | String ","%char r3 =>
                            match parse_members n (skip_ws r3) with Some (l, r4) => Some ((k, v) :: l, r4) | None => None end
                        | String "}"%char r3 => Some ([(k, v)], r3)
                        | _ => None
                        end
                    | None => None
                    end
                | _ => None
                end
            | None => None
            end
          else None
      | EmptyString => None
      end
  end.

(** [json.loads(s)]; a value uses up at least one character, so that the length
    is fuel enough; bytes are taken as they are (no UTF-16, no check of UTF-8). *)
Definition json_loads (s : string) : res json :=
  match parse_value (S (String.length s)) (skip_ws s) with
  | Some (v, r) => if String.eqb (skip_ws r) "" then Ok v else raise JSONDecodeError "Extra data"
  | None => raise JSONDecodeError "Expecting value"
  end.

(** * Round trip *)

Lemma onto_onto a b r : onto a (onto b r) = onto (a +:+ b) r.
Proof. destruct r as [[t s]|]; [|done]. cbn. by rewrite str_app_assoc. Qed.

Lemma parse_char c rest : parse_chars (json_char c +:+ rest) = onto (String c "") (parse_chars rest).
Proof. destruct c as [[] [] [] [] [] [] [] []]; reflexivity. Qed.

Lemma parse_chars_text s rest : parse_chars (json_chars s +:+ String quote rest) = Some (s, rest).
Proof. induction s as [|c s IH]; [done|]. cbn [json_chars]. by rewrite str_app_assoc, parse_char, IH. Qed.

(** What may follow a value: no continuation of a number. *)
Definition ends_number (rest : string) : bool :=
  match rest with
  | String c _ => negb (is_digit c || Ascii.eqb c "." || Ascii.eqb c "e" || Ascii.eqb c "E")
  | EmptyString => true
  end.

Definition ends_digits (rest : string) : bool := match rest with String c _ => negb (is_digit c) | EmptyString => true end.

Lemma ends_number_digits rest : ends_number rest = true -> ends_digits rest = true.
Proof. destruct rest as [|c r]; [done|]. cbn. by destruct (is_digit c). Qed.

Lemma span_all ds rest : all_digits ds = true -> ends_digits rest = true -> span_digits (ds +:+ rest) = (ds, rest).
Proof.
  intros Hd Hr. induction ds as [|c ds IH].
  - change ("" +:+ rest) with rest. destruct rest as [|c r]; [done|]. cbn in Hr |- *. destruct (is_digit c); done.
  - change (String c ds +:+ rest) with (String c (ds +:+ rest)). cbn in Hd |- *. unfold is_digit.
    destruct (digit_value c); [|done]. by rewrite IH.
Qed.

Lemma number_ends rest : ends_number rest = true ->
  number_fraction rest = (""%string, rest) /\ number_exponent rest = (""%string, rest).
Proof.
  destruct rest as [|c r]; [done|]. unfold ends_number. rewrite negb_true_iff, !orb_false_iff. intros [[[_ H1] H2] H3].
  split; [|cbn; by rewrite H2, H3]. unfold number_fraction.
  apply Ascii.eqb_neq in H1. destruct c as [[] [] [] [] [] [] [] []]; done.
Qed.

(** A positive number does not start with a zero. *)
Lemma dec_digits_head fuel : forall n, (0 < n)%N -> (n < 2 ^ N.of_nat fuel)%N ->
  exists c s, dec_digits fuel n = String c s /\ c <> "0"%char.
Proof.
  assert (forall n, (0 < n < 10)%N -> dec_digit n <> "0"%char) as Hdig.
  { intros n Hn E. pose proof (dec_digit_value n) as Hv. rewrite E in Hv. cbn in Hv. assert (Some 0%N = Some n) by (apply Hv; lia).
    simplify_eq. lia. }
  induction fuel as [|f IH]; intros n H0 Hn; [cbn in Hn; lia|]. cbn [dec_digits]. destruct (N.ltb_spec n 10) as [H|H].
  - eexists _, _. split; [done|]. apply Hdig. lia.
  - destruct (IH (n / 10)%N) as (c & s & E & Hc).
    + apply N.div_str_pos. lia.
    + apply N.Div0.div_lt_upper_bound. rewrite Nat2N.inj_succ, N.pow_succ_r' in Hn. lia.
    + rewrite E. eexists c, _. by split.
Qed.

Lemma parse_unsigned n rest : ends_number rest = true ->
  match (str_N n +:+ rest) with String "0"%char r => ("0"%string, r) | _ => span_digits (str_N n +:+ rest) end = (str_N n, rest).
Proof.
  intros Hr. destruct (str_N_spec n) as [Hd _]. destruct (decide (n = 0%N)) as [->|Hn]; [done|].
  destruct (dec_digits_head (N.to_nat (N.size n)) n) as (c & s & E & Hc); [lia|rewrite N2Nat.id; apply N.size_gt|].
  fold (str_N n) in E. pose proof (span_all _ _ Hd (ends_number_digits _ Hr)) as Hs. rewrite E in *.
  change (String c s +:+ rest) with (String c (s +:+ rest)) in *.
  destruct c as [[] [] [] [] [] [] [] []]; done.
Qed.

Lemma str_N_head n : exists c s, str_N n = String c s /\ is_digit c = true.
Proof.
  destruct (str_N_spec n) as [Hd _]. pose proof (str_N_ne n). destruct (str_N n) as [|c s]; [done|].
  exists c, s. split; [done|]. cbn in Hd. unfold is_digit. by destruct (digit_value c).
Qed.

Lemma parse_magnitude_text negative n rest : ends_number rest = true ->
  parse_magnitude negative (str_N n +:+ rest) = Some (JInt (if negative then - Z.of_N n else Z.of_N n), rest).
Proof.
  intros Hr. destruct (number_ends rest Hr) as [Hf He]. unfold parse_magnitude.
  rewrite (parse_unsigned n rest Hr), (proj2 (String.eqb_neq _ _) (str_N_ne n)), Hf, He, (proj2 (str_N_spec n)). done.
Qed.

Lemma parse_number_text z rest : ends_number rest = true -> parse_number (str_Z z +:+ rest) = Some (JInt z, rest).
Proof.
  intros Hr. unfold parse_number, str_Z. destruct (Z.ltb_spec z 0).
  - change (String "-" (str_N (Z.to_N (- z))) +:+ rest) with (String "-" (str_N (Z.to_N (- z)) +:+ rest)). cbn beta iota.
    rewrite parse_magnitude_text by done. do 3 f_equal. lia.
  - assert (parse_magnitude false (str_N (Z.to_N z) +:+ rest) = Some (JInt z, rest)) as Hm.
    { rewrite parse_magnitude_text by done. do 3 f_equal. lia. }
    destruct (str_N_head (Z.to_N z)) as (c & s & E & Hc). rewrite E in *.
    change (String c s +:+ rest) with (String c (s +:+ rest)) in *.
    destruct c as [[] [] [] [] [] [] [] []]; try discriminate Hc; exact Hm.
Qed.

(** The text of a number with a fraction: [repr] of a float of moderate size. *)
Definition float_ok (t : string) : bool :=
  match span_digits t with
  | (ip, String c ds) =>
      Ascii.eqb c "." && negb (String.eqb ip "") && (String.eqb ip "0" || negb (is_prefix "0" ip)) && all_digits ds && negb (String.eqb ds "")
  | _ => false
  end.

Lemma span_digits_spec s : let '(d, r) := span_digits s in s = d +:+ r /\ all_digits d = true.
Proof.
  induction s as [|c s IH]; [done|]. cbn. unfold is_digit. destruct (digit_value c) eqn:E; [|done].
  destruct (span_digits s) as [d r]. destruct IH as [-> Hd]. split; [done|]. cbn. by rewrite E.
Qed.

Lemma float_ok_parts t : float_ok t = true -> exists c ip ds, t = String c ip +:+ String "." ds /\ all_digits (String c ip) = true /\
  (c = "0"%char -> ip = ""%string) /\ all_digits ds = true /\ ds <> ""%string.
Proof.
  unfold float_ok. pose proof (span_digits_spec t) as H. destruct (span_digits t) as [ip [|x ds]]; [done|]. destruct H as [-> Hip].
  rewrite !andb_true_iff, !negb_true_iff. intros ((((Hx & Hne) & Hz) & Hds) & Hn). apply Ascii.eqb_eq in Hx as ->.
  apply String.eqb_neq in Hne, Hn. destruct ip as [|c ip]; [done|]. exists c, ip, ds. split_and!; try done. intros ->.
  apply orb_true_iff in Hz as [Hz|Hz]; [by apply String.eqb_eq in Hz; injection Hz|by destruct ip].
Qed.

Lemma parse_float_text t rest : float_ok t = true -> ends_number rest = true ->
  parse_constant constants (t +:+ rest) = None /\ parse_number (t +:+ rest) = Some (JFloat t, rest) /\
  exists c s, t = String c s /\ is_digit c = true.
Proof.
  intros Ht Hr. destruct (float_ok_parts t Ht) as (c & ip & ds & -> & Hip & H0 & Hds & Hne).
  assert (is_digit c = true) as Hc by (cbn in Hip; unfold is_digit; by destruct (digit_value c)).
  assert (((String c ip +:+ String "." ds) +:+ rest) = String c (ip +:+ String "." (ds +:+ rest))) as E by (by rewrite str_app_assoc).
  rewrite E. split_and!.
  - destruct c as [[] [] [] [] [] [] [] []]; try discriminate Hc; reflexivity.
  - assert ((match String c (ip +:+ String "." (ds +:+ rest)) with String "0"%char r => ("0"%string, r)
             | _ => span_digits (String c (ip +:+ String "." (ds +:+ rest))) end) = (String c ip, String "." (ds +:+ rest))) as Hs.
    { pose proof (span_all (String c ip) (String "." (ds +:+ rest)) Hip eq_refl) as Hsp.
      change (String c ip +:+ String "." (ds +:+ rest)) with (String c (ip +:+ String "." (ds +:+ rest))) in Hsp.
      destruct c as [[] [] [] [] [] [] [] []]; try exact Hsp. by rewrite (H0 eq_refl). }
    assert (parse_magnitude false (String c (ip +:+ String "." (ds +:+ rest))) = Some (JFloat (String c ip +:+ String "." ds), rest)) as Hm.
    { unfold parse_magnitude. rewrite Hs. cbn [String.eqb]. unfold number_fraction.
      rewrite (span_all ds rest Hds (ends_number_digits _ Hr)), (proj2 (String.eqb_neq _ _) Hne), (proj2 (number_ends rest Hr)).
      rewrite str_app_nil_r. done. }
    destruct c as [[] [] [] [] [] [] [] []]; try discriminate Hc; exact Hm.
  - by exists c, (ip +:+ String "." ds).
Qed.

(** The size of a value: the fuel its text takes. *)
Fixpoint jsize (j : json) : nat :=
  match j with
  | JArr l => S (list_sum (List.map (fun v => S (jsize v)) l))
  | JObj l => S (list_sum (List.map (fun kv => S (jsize kv.2)) l))
  | _ => 1
  end.

(** Values whose text can be read back: distinct keys, floats with a fraction
    and no exponent. *)
Fixpoint json_ok (j : json) : bool :=
  match j with
  | JFloat t => float_ok t
  | JArr l => forallb json_ok l
  | JObj l => bool_decide (NoDup (List.map fst l)) && forallb (fun kv => json_ok kv.2) l
  | _ => true
  end.

Lemma summand_le {A} (f : A -> nat) x l : x ∈ l -> (f x <= list_sum (List.map f l))%nat.
Proof.
  induction 1 as [x l|x y l H IH]; [change (f x <= f x + list_sum (List.map f l))%nat; lia|].
  change (f x <= f y + list_sum (List.map f l))%nat. lia.
Qed.

Lemma dict_set_fresh k v d : k ∉ List.map fst d -> dict_set k v d = d ++ [(k, v)].
Proof.
  induction d as [|[k' v'] d IH]; intros H; [done|]. cbn in H |- *. apply not_elem_of_cons in H as [H1 H2].
  rewrite (proj2 (String.eqb_neq _ _) H1). by rewrite IH.
Qed.

Lemma dict_of_distinct l : NoDup (List.map fst l) -> dict_of l = l.
Proof.
  unfold dict_of. assert (forall acc, NoDup (List.map fst (acc ++ l)) ->
    foldl (fun d kv => dict_set kv.1 kv.2 d) acc l = acc ++ l) as Hgen; [|intros H; by apply (Hgen [])].
  induction l as [|[k v] l IH]; intros acc H; [by rewrite app_nil_r|]. cbn [foldl fst snd].
  rewrite dict_set_fresh.
  - rewrite IH by (by rewrite <- app_assoc). by rewrite <- app_assoc.
  - rewrite List.map_app in H. apply NoDup_app in H as (_ & H & _). intros Hin. apply (H k Hin). apply list_elem_of_here.
Qed.

Section RoundTrip.
Context (w1 w2 : string).

(** Blank text *)
Fixpoint blank (s : string) : bool :=
  match s with String c s' => json_space c && blank s' | EmptyString => true end.

Context (Hw1 : blank w1 = true) (Hw2 : blank w2 = true).
Abbreviation item_sep := (String "," w1).
Abbreviation key_sep := (String ":" w2).
Abbreviation text := (json_plain item_sep key_sep).

Lemma skip_blank w s : blank w = true -> skip_ws (w +:+ s) = skip_ws s.
Proof.
  induction w as [|c w IH]; intros H; [done|]. cbn in H. apply andb_true_iff in H as [Hc Hw].
  change (String c w +:+ s) with (String c (w +:+ s)). cbn. by rewrite Hc, IH.
Qed.

(** The first character of a value. *)
Lemma value_head j : json_ok j = true ->
  exists c s, text j = String c s /\ json_space c = false /\ c <> "]"%char /\ c <> "}"%char.
Proof.
  intros Hj. destruct j as [|s|z|t|b|l|l]; try done.
  - by eexists _, _.
  - by eexists _, _.
  - cbn. unfold str_Z. destruct (z <? 0); [by eexists _, _|]. destruct (str_N_head (Z.to_N z)) as (c & s & E & Hc).
    exists c, s. split; [done|]. destruct c as [[] [] [] [] [] [] [] []]; done.
  - destruct (parse_float_text t "" Hj eq_refl) as (_ & _ & c & s & -> & Hc). exists c, s. split; [done|].
    destruct c as [[] [] [] [] [] [] [] []]; done.
  - destruct b; by eexists _, _.
  - by eexists _, _.
  - by eexists _, _.
Qed.

Lemma skip_value j rest : json_ok j = true -> skip_ws (text j +:+ rest) = text j +:+ rest.
Proof.
  intros Hj. destruct (value_head j Hj) as (c & s & -> & Hc & _).
  change (String c s +:+ rest) with (String c (s +:+ rest)). cbn. by rewrite Hc.
Qed.

Lemma parse_constant_number z rest : parse_constant constants (str_Z z +:+ rest) = None.
Proof.
  unfold str_Z. destruct (z <? 0).
  - destruct (str_N_head (Z.to_N (- z))) as (c & s & -> & Hc). change (String "-" (String c s) +:+ rest) with (String "-" (String c (s +:+ rest))).
    destruct c as [[] [] [] [] [] [] [] []]; done.
  - destruct (str_N_head (Z.to_N z)) as (c & s & -> & Hc). change (String c s +:+ rest) with (String c (s +:+ rest)).
    destruct c as [[] [] [] [] [] [] [] []]; done.
Qed.

Lemma str_Z_head z : exists c s, str_Z z = String c s /\
  ((N_of_ascii c =? 34) || (N_of_ascii c =? 91) || (N_of_ascii c =? 123))%N = false.
Proof.
  unfold str_Z. destruct (z <? 0); [by eexists _, _|]. destruct (str_N_head (Z.to_N z)) as (c & s & E & Hc).
  exists c, s. split; [done|]. destruct c as [[] [] [] [] [] [] [] []]; done.
Qed.

Definition items_text (l : list json) : string := String.concat item_sep (List.map text l).
Definition members_text (l : list (string * json)) : string :=
  String.concat item_sep (List.map (fun kv => json_string kv.1 +:+ key_sep +:+ text kv.2) l).

Lemma items_cons v l rest : items_text (v :: l) +:+ String "]" rest =
  text v +:+ match l with [] => String "]" rest | _ => String "," (w1 +:+ items_text l +:+ String "]" rest) end.
Proof.
  unfold items_text. destruct l as [|v' l]; [done|]. cbn [List.map String.concat].
  by rewrite !str_app_assoc.
Qed.

Lemma json_string_app k t : json_string k +:+ t = String quote (json_chars k +:+ String quote t).
Proof.
  unfold json_string. change (String quote (json_chars k +:+ String quote "") +:+ t)
    with (String quote ((json_chars k +:+ String quote "") +:+ t)). by rewrite str_app_assoc.
Qed.

Lemma members_cons kv l rest : members_text (kv :: l) +:+ String "}" rest =
  String quote (json_chars kv.1 +:+ String quote (String ":" (w2 +:+ text kv.2 +:+
    match l with [] => String "}" rest | _ => String "," (w1 +:+ members_text l +:+ String "}" rest) end))).
Proof.
  transitivity (json_string kv.1 +:+ key_sep +:+ text kv.2 +:+
    match l with [] => String "}" rest | _ => String "," (w1 +:+ members_text l +:+ String "}" rest) end).
  - unfold members_text. destruct l as [|kv' l]; cbn [List.map String.concat]; by rewrite !str_app_assoc.
  - by rewrite json_string_app.
Qed.

Lemma parse_object n t : parse_value (S n) (String "{" (String quote t)) =
  match parse_members n (String quote t) with Some (l, r) => Some (JObj (dict_of l), r) | None => None end.
Proof. reflexivity. Qed.

Lemma parse_item_more n s v r : parse_value n s = Some (v, String "," r) ->
  parse_items (S n) s = match parse_items n (skip_ws r) with Some (l, r2) => Some (v :: l, r2) | None => None end.
Proof. intros H. cbn [parse_items]. rewrite H. reflexivity. Qed.

Lemma parse_member n k r : parse_members (S n) (String quote (json_chars k +:+ String quote (String ":" r))) =
  match parse_value n (skip_ws r) with
  | Some (v, r2) =>
      match skip_ws r2 with
      | String ","%char r3 => match parse_members n (skip_ws r3) with Some (l, r4) => Some ((k, v) :: l, r4) | None => None end
      | String "}"%char r3 => Some ([(k, v)], r3)
      | _ => None
      end
  | None => None
  end.
Proof. cbn [parse_members]. change (Ascii.eqb quote quote) with true. cbn iota. by rewrite parse_chars_text. Qed.

Lemma parse_text fuel :
  (forall j rest, (jsize j <= fuel)%nat -> json_ok j = true -> ends_number rest = true ->
     parse_value fuel (text j +:+ rest) = Some (j, rest)) /\
  (forall l rest, l <> [] -> (list_sum (List.map (fun v => S (jsize v)) l) <= fuel)%nat -> forallb json_ok l = true ->
     parse_items fuel (items_text l +:+ String "]" rest) = Some (l, rest)) /\
  (forall l rest, l <> [] -> (list_sum (List.map (fun kv => S (jsize kv.2)) l) <= fuel)%nat ->
     forallb (fun kv => json_ok kv.2) l = true ->
     parse_members fuel (members_text l +:+ String "}" rest) = Some (l, rest)).
Proof.
  induction fuel as [|n (IHv & IHi & IHm)].
  { split_and!; [intros [] rest; cbn; lia|intros [|v l] rest; [done|cbn; lia]|intros [|v l] rest; [done|cbn; lia]]. }
  split_and!.
  - intros j rest Hs Hj Hr. destruct j as [|s|z|t|b|l|l]; try done.
    + cbn [json_plain]. unfold json_string. change (String quote (json_chars s +:+ String quote "") +:+ rest)
        with (String quote ((json_chars s +:+ String quote "") +:+ rest)). rewrite str_app_assoc.
      change (String quote "" +:+ rest) with (String quote rest). cbn -[parse_chars]. by rewrite parse_chars_text.
    + destruct (str_Z_head z) as (c & s & E & Hc). cbn [json_plain]. cbn [parse_value].
      pose proof (parse_constant_number z rest) as Hk. pose proof (parse_number_text z rest Hr) as Hn. rewrite E in *.
      change (String c s +:+ rest) with (String c (s +:+ rest)) in *. apply orb_false_iff in Hc as [[Hc1 Hc2]%orb_false_iff Hc3].
      by rewrite Hc1, Hc2, Hc3, Hk.
    + destruct (parse_float_text t rest Hj Hr) as (Hk & Hn & c & s & E & Hc). cbn [json_plain]. rewrite E in *.
      change (String c s +:+ rest) with (String c (s +:+ rest)) in *. cbn [parse_value]. rewrite Hk, Hn.
      destruct c as [[] [] [] [] [] [] [] []]; try discriminate Hc; reflexivity.
    + by destruct b.
    + destruct l as [|v l]; [done|]. cbn [json_plain]. fold (items_text (v :: l)).
      change ("[" +:+ items_text (v :: l) +:+ "]") with (String "[" (items_text (v :: l) +:+ "]")).
      change (String "[" (items_text (v :: l) +:+ "]") +:+ rest) with (String "[" ((items_text (v :: l) +:+ "]") +:+ rest)).
      rewrite str_app_assoc. change ("]" +:+ rest) with (String "]" rest).
      specialize (IHi (v :: l) rest). cbn [jsize] in Hs. cbn [json_ok] in Hj.
      assert (parse_items n (items_text (v :: l) +:+ String "]" rest) = Some (v :: l, rest)) as Hp by (apply IHi; [done|lia|done]).
      cbn [parse_value]. cbn [N_of_ascii]. rewrite items_cons in *. apply andb_true_iff in Hj as [Hv _].
      rewrite (skip_value v _ Hv). destruct (value_head v Hv) as (c & s & Ev & Hsp & H1 & H2). rewrite Ev in *.
      match goal with |- context [String c s +:+ ?x] => change (String c s +:+ x) with (String c (s +:+ x)) in * end.
      destruct c as [[] [] [] [] [] [] [] []]; first [done|by rewrite Hp].
    + destruct l as [|kv l]; [done|]. cbn [json_plain]. fold (members_text (kv :: l)).
      change ("{" +:+ members_text (kv :: l) +:+ "}") with (String "{" (members_text (kv :: l) +:+ "}")).
      change (String "{" (members_text (kv :: l) +:+ "}") +:+ rest) with (String "{" ((members_text (kv :: l) +:+ "}") +:+ rest)).
      rewrite str_app_assoc. change ("}" +:+ rest) with (String "}" rest).
      specialize (IHm (kv :: l) rest). cbn [jsize] in Hs. cbn [json_ok] in Hj. apply andb_true_iff in Hj as [Hd Hj].
      assert (parse_members n (members_text (kv :: l) +:+ String "}" rest) = Some (kv :: l, rest)) as Hp by (apply IHm; [done|lia|done]).
      rewrite members_cons in *. rewrite parse_object, Hp.
      apply bool_decide_eq_true in Hd. by rewrite dict_of_distinct.
  - intros l rest Hne Hs Hj. destruct l as [|v l]; [done|]. cbn [forallb] in Hj. apply andb_true_iff in Hj as [Hv Hl].
    rewrite items_cons. change (S (jsize v) + list_sum (List.map (fun v => S (jsize v)) l) <= S n)%nat in Hs.
    assert (forall r, ends_number r = true -> parse_value n (text v +:+ r) = Some (v, r)) as Hp by (intros; apply IHv; [lia|done|done]).
    destruct l as [|v' l]; [cbn [parse_items]; by rewrite Hp|].
    erewrite parse_item_more by (apply Hp; done). rewrite skip_blank by done.
    rewrite (items_cons v' l), skip_value by (by apply andb_true_iff in Hl as [? _]). rewrite <- items_cons.
    rewrite IHi; [done|done|lia|done].
  - intros l rest Hne Hs Hj. destruct l as [|[k v] l]; [done|]. cbn [forallb] in Hj. apply andb_true_iff in Hj as [Hv Hl]. cbn [snd] in Hv.
    change (S (jsize v) + list_sum (List.map (fun kv => S (jsize kv.2)) l) <= S n)%nat in Hs.
    rewrite members_cons. cbn [fst snd]. rewrite parse_member, skip_blank, skip_value, IHv by (done || lia || by destruct l).
    destruct l as [|kv' l]; [done|].
    change (match parse_members n (skip_ws (w1 +:+ members_text (kv' :: l) +:+ String "}" rest)) with
            | Some (l0, r4) => Some ((k, v) :: l0, r4) | None => None end = Some ((k, v) :: kv' :: l, rest)).
    rewrite skip_blank by done.
    assert (skip_ws (members_text (kv' :: l) +:+ String "}" rest) = members_text (kv' :: l) +:+ String "}" rest) as ->
      by (by rewrite members_cons).
    rewrite IHm; [done|done|lia|done].
Qed.

(** A text is at least as long as the fuel its value takes. *)
Lemma concat_length {A} (f : A -> string) (g : A -> nat) l : (forall x, x ∈ l -> (g x <= String.length (f x))%nat) ->
  (list_sum (List.map (fun x => S (g x)) l) <= S (String.length (String.concat item_sep (List.map f l))))%nat.
Proof.
  induction l as [|x l IH]; intros H; [cbn; lia|]. pose proof (H x (list_elem_of_here _ _)).
  specialize (IH (fun y Hy => H y (list_elem_of_further _ _ _ Hy))).
  change (S (g x) + list_sum (List.map (fun x => S (g x)) l) <= S (String.length (String.concat item_sep (f x :: List.map f l))))%nat.
  destruct l as [|y l]; [cbn in IH |- *; lia|].
  change (String.concat item_sep (f x :: List.map f (y :: l))) with (f x +:+ item_sep +:+ String.concat item_sep (List.map f (y :: l))).
  rewrite !str_length_app. cbn [String.length]. lia.
Qed.

Lemma text_length j : json_ok j = true -> (jsize j <= String.length (text j))%nat.
Proof.
  assert (forall n j, (jsize j <= n)%nat -> json_ok j = true -> (jsize j <= String.length (text j))%nat) as Hgen;
    [|by apply (Hgen (jsize j))].
  clear j. induction n as [|n IH]; intros j Hn Hj; [destruct j; cbn in Hn; lia|].
  destruct j as [|s|z|t|b|l|l]; try done.
  - cbn. lia.
  - cbn. lia.
  - destruct (value_head (JInt z) eq_refl) as (c & s & -> & _). cbn. lia.
  - destruct (value_head (JFloat t) Hj) as (c & s & -> & _). cbn. lia.
  - destruct b; cbn; lia.
  - cbn [json_plain jsize json_ok] in *. rewrite !str_length_app. cbn [String.length].
    enough (forall x, x ∈ l -> (jsize x <= String.length (text x))%nat) as H by (pose proof (concat_length text jsize l H); lia).
    intros x Hx. apply IH; [|rewrite forallb_forall in Hj; apply Hj, list_elem_of_In, Hx].
    pose proof (summand_le (fun v => S (jsize v)) x l Hx) as Hq. cbn beta in Hq. lia.
  - cbn [json_plain jsize json_ok] in *. rewrite !str_length_app. cbn [String.length]. apply andb_true_iff in Hj as [_ Hj].
    set (f := fun kv : string * json => json_string kv.1 +:+ key_sep +:+ text kv.2).
    enough (forall x, x ∈ l -> (jsize x.2 <= String.length (f x))%nat) as H
      by (pose proof (concat_length f (fun kv => jsize kv.2) l H); lia). subst f. cbn beta.
    intros x Hx. rewrite !str_length_app.
    assert (jsize x.2 <= String.length (text x.2))%nat; [|lia].
    apply IH; [|rewrite forallb_forall in Hj; apply (Hj x), list_elem_of_In, Hx].
    pose proof (summand_le (fun kv => S (jsize kv.2)) x l Hx) as Hq. cbn beta in Hq. lia.
Qed.

(** [json.loads(json.dumps(j)) == j] *)
Theorem loads_dumps j : json_ok j = true -> json_loads (text j) = Ok j.
Proof.
  intros Hj. unfold json_loads. pose proof (skip_value j "" Hj) as Hs. rewrite str_app_nil_r in Hs. rewrite Hs.
  pose proof (text_length j Hj). destruct (parse_text (S (String.length (text j)))) as [Hp _].
  specialize (Hp j ""%string). rewrite str_app_nil_r in Hp. rewrite Hp by (done || lia). done.
Qed.
End RoundTrip.

(** ** Sorted keys *)

(** The value that [sort_keys=True] prints. *)
Fixpoint sort_deep (j : json) : json :=
  match j with
  | JArr l => JArr (List.map sort_deep l)
  | JObj l => JObj (sort_keys (List.map (fun kv => (kv.1, sort_deep kv.2)) l))
  | _ => j
  end.

Lemma insert_key_map {V V'} (f : V -> V') (kv : string * V) l :
  insert_key (kv.1, f kv.2) (List.map (fun kv => (kv.1, f kv.2)) l) = List.map (fun kv => (kv.1, f kv.2)) (insert_key kv l).
Proof. induction l as [|x l IH]; [done|]. cbn. destruct (String.leb kv.1 x.1); [done|]. cbn. by rewrite IH. Qed.

Lemma sort_keys_map {V V'} (f : V -> V') l :
  sort_keys (List.map (fun kv => (kv.1, f kv.2)) l) = List.map (fun kv => (kv.1, f kv.2)) (sort_keys l).
Proof. unfold sort_keys. induction l as [|x l IH]; [done|]. cbn. by rewrite IH, insert_key_map. Qed.

(** Induction on the size of a value. *)
Lemma json_size_ind (P : json -> Prop) :
  (forall j, (forall k, (jsize k < jsize j)%nat -> P k) -> P j) -> forall j, P j.
Proof.
  intros H j. enough (forall n k, (jsize k < n)%nat -> P k) by eauto. induction n as [|n IH]; intros k Hk; [lia|].
  apply H. intros k' Hk'. apply IH. lia.
Qed.

Lemma jsize_item v l : v ∈ l -> (jsize v < jsize (JArr l))%nat.
Proof. intros H. pose proof (summand_le (fun v => S (jsize v)) v l H) as Hs. cbn beta in Hs. cbn [jsize]. lia. Qed.
Lemma jsize_member kv l : kv ∈ l -> (jsize kv.2 < jsize (JObj l))%nat.
Proof. intros H. pose proof (summand_le (fun kv => S (jsize kv.2)) kv l H) as Hs. cbn beta in Hs. cbn [jsize]. lia. Qed.

Lemma json_text_sorted i k j : json_text i k j = json_plain i k (sort_deep j).
Proof.
  induction j as [j IH] using json_size_ind. destruct j as [|s|z|t|b|l|l]; try done.
  - cbn [json_text sort_deep json_plain]. rewrite List.map_map. do 3 f_equal. apply List.map_ext_in. intros v Hv.
    apply IH, jsize_item. by apply list_elem_of_In.
  - cbn [json_text sort_deep json_plain].
    rewrite (sort_keys_map (json_text i k)), (sort_keys_map sort_deep), !List.map_map. do 3 f_equal. apply List.map_ext_in. intros kv Hv.
    cbn [fst snd]. do 2 f_equal. apply IH, jsize_member. apply list_elem_of_In in Hv. by rewrite sort_keys_perm in Hv.
Qed.

Lemma sort_deep_ok j : json_ok j = true -> json_ok (sort_deep j) = true.
Proof.
  induction j as [j IH] using json_size_ind. destruct j as [|s|z|t|b|l|l]; try done; cbn [json_ok sort_deep].
  - rewrite !forallb_forall. intros H v Hv. apply in_map_iff in Hv as (x & <- & Hx). apply IH; [apply jsize_item; by apply list_elem_of_In|by apply H].
  - rewrite !andb_true_iff, !bool_decide_eq_true, !forallb_forall. intros [Hd H].
    rewrite (sort_keys_map sort_deep), List.map_map. cbn [fst]. split.
    + change (NoDup (fst <$> sort_keys l)). by rewrite sort_keys_perm.
    + intros kv Hv. apply in_map_iff in Hv as (x & <- & Hx). cbn [snd]. apply list_elem_of_In in Hx. rewrite sort_keys_perm in Hx.
      apply IH; [by apply jsize_member|]. by apply H, list_elem_of_In.
Qed.

(** Equal texts are texts of the same value, up to the order of keys. *)
Theorem dumps_injective w1 w2 j j' : blank w1 = true -> blank w2 = true -> json_ok j = true -> json_ok j' = true ->
  json_text (String "," w1) (String ":" w2) j = json_text (String "," w1) (String ":" w2) j' -> sort_deep j = sort_deep j'.
Proof.
  intros H1 H2 Hj Hj' E. rewrite !json_text_sorted in E. pose proof (loads_dumps w1 w2 H1 H2 _ (sort_deep_ok _ Hj)) as L.
  rewrite E, (loads_dumps w1 w2 H1 H2 _ (sort_deep_ok _ Hj')) in L. by injection L.
Qed.
