(* ===== verification/Lifecycle.v ===== *)
(** Order lifecycle and order execution state
    (src/services/execution_engine/alpha_algo_execution_engine/lifecycle.py and
    events.py): the eleven-state machine, its audit trail, and the fill
    accounting driven by broker events.

    A transition's [event_id] comes from [uuid4()] in the source; here it is the
    argument [eid]. *)

From stdpp Require Import base list strings gmap.
From Stdlib Require Import ZArith QArith Lqa Lia String.
From S2P Require Import Prelude PyBase Decimal.

Open Scope Z_scope.

(** * lifecycle.py *)

Inductive OrderState :=
| INTENT_CREATED
| INTERNAL_ORDER_CREATED
| SUBMISSION_REQUESTED
| BROKER_ACKNOWLEDGED
| PARTIALLY_FILLED
| FILLED
| REJECTED
| CANCEL_REQUESTED
| CANCELLED
| UNKNOWN
| RECONCILIATION_REQUIRED.

#[export] Instance OrderState_eq_dec : EqDecision OrderState.
Proof. solve_decision. Defined.

Definition order_state_value (s : OrderState) : string :=
  match s with
  | INTENT_CREATED => "INTENT_CREATED"
  | INTERNAL_ORDER_CREATED => "INTERNAL_ORDER_CREATED"
  | SUBMISSION_REQUESTED => "SUBMISSION_REQUESTED"
  | BROKER_ACKNOWLEDGED => "BROKER_ACKNOWLEDGED"
  | PARTIALLY_FILLED => "PARTIALLY_FILLED"
  | FILLED => "FILLED"
  | REJECTED => "REJECTED"
  | CANCEL_REQUESTED => "CANCEL_REQUESTED"
  | CANCELLED => "CANCELLED"
  | UNKNOWN => "UNKNOWN"
  | RECONCILIATION_REQUIRED => "RECONCILIATION_REQUIRED"
  end.

Definition TERMINAL_ORDER_STATES : list OrderState := [FILLED; REJECTED; CANCELLED].

Definition ALLOWED_TRANSITIONS (s : OrderState) : list OrderState :=
  match s with
  | INTENT_CREATED => [INTERNAL_ORDER_CREATED]
  | INTERNAL_ORDER_CREATED => [SUBMISSION_REQUESTED; REJECTED]
  | SUBMISSION_REQUESTED => [BROKER_ACKNOWLEDGED; REJECTED; UNKNOWN; CANCEL_REQUESTED]
  | BROKER_ACKNOWLEDGED => [PARTIALLY_FILLED; FILLED; REJECTED; CANCEL_REQUESTED; UNKNOWN]
  | PARTIALLY_FILLED => [PARTIALLY_FILLED; FILLED; CANCEL_REQUESTED; UNKNOWN]
  | CANCEL_REQUESTED => [CANCELLED; PARTIALLY_FILLED; FILLED; UNKNOWN]
  | UNKNOWN => [RECONCILIATION_REQUIRED]
  | RECONCILIATION_REQUIRED =>
      [BROKER_ACKNOWLEDGED; PARTIALLY_FILLED; FILLED; REJECTED; CANCELLED]
  | FILLED => []
  | REJECTED => []
  | CANCELLED => []
  end.

Record OrderStateTransition := {
  tr_from_state : OrderState;
  tr_to_state : OrderState;
  tr_occurred_at : datetime;
  tr_reason : string;
  tr_event_id : UUID;
  tr_metadata : metadata;
}.

(** Construction with [__post_init__]. *)
Definition mk_OrderStateTransition (from to : OrderState) (occurred_at : datetime)
    (reason : string) (eid : UUID) (meta : metadata) : res OrderStateTransition :=
  require_timezone occurred_at "occurred_at" ;!
  raise_if (is_blank reason) ValueError "reason is required" ;!
  Ok {| tr_from_state := from; tr_to_state := to; tr_occurred_at := occurred_at;
        tr_reason := reason; tr_event_id := eid; tr_metadata := meta |}.

Record OrderLifecycle := {
  lc_order_id : UUID;
  lc_state : OrderState;
  lc_transitions : list OrderStateTransition;
}.

(** [OrderLifecycle(order_id)] *)
Definition new_lifecycle (oid : UUID) : OrderLifecycle :=
  {| lc_order_id := oid; lc_state := INTENT_CREATED; lc_transitions := [] |}.

Definition transition_to (lc : OrderLifecycle) (to_state : OrderState)
    (occurred_at : datetime) (reason : string) (meta : metadata) (eid : UUID)
    : res OrderLifecycle :=
  if negb (bool_decide (to_state ∈ ALLOWED_TRANSITIONS (lc_state lc))) then
    raise InvalidOrderTransition
      ("cannot transition order " +:+ uuid_str (lc_order_id lc) +:+ " from " +:+
       order_state_value (lc_state lc) +:+ " to " +:+ order_state_value to_state)
  else
    let! transition := mk_OrderStateTransition (lc_state lc) to_state occurred_at reason eid meta in
    Ok {| lc_order_id := lc_order_id lc; lc_state := to_state;
          lc_transitions := lc_transitions lc ++ [transition] |}.

Definition is_terminal (lc : OrderLifecycle) : bool :=
  bool_decide (lc_state lc ∈ TERMINAL_ORDER_STATES).

Definition requires_reconciliation (lc : OrderLifecycle) : bool :=
  bool_decide (lc_state lc ∈ [UNKNOWN; RECONCILIATION_REQUIRED]).

(** * events.py *)

Inductive OrderEventType :=
| ev_BROKER_ACKNOWLEDGED
| ev_PARTIAL_FILL
| ev_FILL
| ev_REJECTED
| ev_CANCEL_REQUESTED
| ev_CANCELLED
| ev_UNKNOWN
| ev_RECONCILIATION_REQUIRED.

#[export] Instance OrderEventType_eq_dec : EqDecision OrderEventType.
Proof. solve_decision. Defined.

Definition event_type_value (t : OrderEventType) : string :=
  match t with
  | ev_BROKER_ACKNOWLEDGED => "BROKER_ACKNOWLEDGED"
  | ev_PARTIAL_FILL => "PARTIAL_FILL"
  | ev_FILL => "FILL"
  | ev_REJECTED => "REJECTED"
  | ev_CANCEL_REQUESTED => "CANCEL_REQUESTED"
  | ev_CANCELLED => "CANCELLED"
  | ev_UNKNOWN => "UNKNOWN"
  | ev_RECONCILIATION_REQUIRED => "RECONCILIATION_REQUIRED"
  end.

Record BrokerOrderEvent := {
  ev_order_id : UUID;
  ev_event_type : OrderEventType;
  ev_occurred_at : datetime;
  ev_reason : string;
  ev_broker_order_id : option string;
  ev_fill_quantity : decimal;
  ev_metadata : metadata;
}.

Definition is_fill_type (t : OrderEventType) : bool :=
  match t with ev_PARTIAL_FILL | ev_FILL => true | _ => false end.

Definition BrokerOrderEvent_post_init (e : BrokerOrderEvent) : res unit :=
  require_timezone (ev_occurred_at e) "occurred_at" ;!
  raise_if (is_blank (ev_reason e)) ValueError "reason is required" ;!
  raise_if (dlt (ev_fill_quantity e) dzero) ValueError "fill_quantity cannot be negative" ;!
  if is_fill_type (ev_event_type e) then
    raise_if (dle (ev_fill_quantity e) dzero) ValueError
      "fill events require positive fill_quantity"
  else
    raise_if (negb (deq (ev_fill_quantity e) dzero)) ValueError
      "non-fill events cannot carry fill_quantity".

Definition mk_BrokerOrderEvent (oid : UUID) (t : OrderEventType) (occurred_at : datetime)
    (reason : string) (broker_oid : option string) (qty : decimal) (meta : metadata)
    : res BrokerOrderEvent :=
  let e := {| ev_order_id := oid; ev_event_type := t; ev_occurred_at := occurred_at;
              ev_reason := reason; ev_broker_order_id := broker_oid;
              ev_fill_quantity := qty; ev_metadata := meta |} in
  BrokerOrderEvent_post_init e ;! Ok e.

Record OrderExecutionState := {
  xs_lifecycle : OrderLifecycle;
  xs_order_quantity : decimal;
  xs_filled_quantity : decimal;
  xs_broker_order_id : option string;
}.

Definition OrderExecutionState_post_init (s : OrderExecutionState) : res unit :=
  raise_if (dle (xs_order_quantity s) dzero) ValueError "order_quantity must be positive" ;!
  raise_if (dlt (xs_filled_quantity s) dzero) ValueError "filled_quantity cannot be negative" ;!
  raise_if (dgt (xs_filled_quantity s) (xs_order_quantity s)) ValueError
    "filled_quantity cannot exceed order_quantity".

Definition mk_OrderExecutionState (lc : OrderLifecycle) (qty filled : decimal)
    (broker_oid : option string) : res OrderExecutionState :=
  let s := {| xs_lifecycle := lc; xs_order_quantity := qty; xs_filled_quantity := filled;
              xs_broker_order_id := broker_oid |} in
  OrderExecutionState_post_init s ;! Ok s.

(** The metadata recorded with a transition: the event's own entries win. *)
Definition transition_metadata (e : BrokerOrderEvent) : metadata :=
  ev_metadata e ∪
  {[ "broker_order_id"%string := match ev_broker_order_id e with Some s => PStr s | None => PNone end;
     "event_type"%string := PStr (event_type_value (ev_event_type e)) ]}.

Definition with_transition (s : OrderExecutionState) (e : BrokerOrderEvent)
    (to_state : OrderState) (filled : option decimal) (eid : UUID) : res OrderExecutionState :=
  let! next_lifecycle := transition_to (xs_lifecycle s) to_state (ev_occurred_at e)
                           (ev_reason e) (transition_metadata e) eid in
  mk_OrderExecutionState next_lifecycle (xs_order_quantity s)
    (default (xs_filled_quantity s) filled)
    (str_or (ev_broker_order_id e) (xs_broker_order_id s)).

Definition apply_partial_fill (s : OrderExecutionState) (e : BrokerOrderEvent) (eid : UUID)
    : res OrderExecutionState :=
  let next_filled := dadd (xs_filled_quantity s) (ev_fill_quantity e) in
  raise_if (dge next_filled (xs_order_quantity s)) InvalidOrderEvent
    "partial fill cannot complete or overfill the order" ;!
  with_transition s e PARTIALLY_FILLED (Some next_filled) eid.

Definition apply_fill (s : OrderExecutionState) (e : BrokerOrderEvent) (eid : UUID)
    : res OrderExecutionState :=
  let next_filled := dadd (xs_filled_quantity s) (ev_fill_quantity e) in
  raise_if (negb (deq next_filled (xs_order_quantity s))) InvalidOrderEvent
    "fill event must complete the order quantity exactly" ;!
  with_transition s e FILLED (Some next_filled) eid.

Definition apply_event (s : OrderExecutionState) (e : BrokerOrderEvent) (eid : UUID)
    : res OrderExecutionState :=
  if negb (ev_order_id e =? lc_order_id (xs_lifecycle s))%N then
    raise InvalidOrderEvent "event order_id does not match lifecycle"
  else
    match ev_event_type e with
    | ev_BROKER_ACKNOWLEDGED => with_transition s e BROKER_ACKNOWLEDGED None eid
    | ev_PARTIAL_FILL => apply_partial_fill s e eid
    | ev_FILL => apply_fill s e eid
    | ev_REJECTED => with_transition s e REJECTED None eid
    | ev_CANCEL_REQUESTED => with_transition s e CANCEL_REQUESTED None eid
    | ev_CANCELLED => with_transition s e CANCELLED None eid
    | ev_UNKNOWN => with_transition s e UNKNOWN None eid
    | ev_RECONCILIATION_REQUIRED => with_transition s e RECONCILIATION_REQUIRED None eid
    end.

(** * The state machine *)

Lemma transition_to_inv lc to at_ reason meta eid lc' :
  transition_to lc to at_ reason meta eid = Ok lc' ->
  to ∈ ALLOWED_TRANSITIONS (lc_state lc) /\ lc_order_id lc' = lc_order_id lc /\
  lc_state lc' = to /\
  exists t, lc_transitions lc' = lc_transitions lc ++ [t] /\
            tr_from_state t = lc_state lc /\ tr_to_state t = to.
Proof.
  unfold transition_to. case_bool_decide as Hin; simpl; [|done].
  intros H. unfold mk_OrderStateTransition in H. res_inv. simpl. eauto 10.
Qed.

(** The converse: an allowed move with an aware timestamp and a reason
    succeeds. *)
Lemma transition_to_total lc to at_ reason meta eid :
  to ∈ ALLOWED_TRANSITIONS (lc_state lc) -> dt_aware at_ = true -> is_blank reason = false ->
  exists lc', transition_to lc to at_ reason meta eid = Ok lc' /\ lc_state lc' = to /\
              lc_order_id lc' = lc_order_id lc.
Proof.
  intros Hin Hat Hr. unfold transition_to, mk_OrderStateTransition, require_timezone.
  rewrite bool_decide_true by done. rewrite Hat, Hr. simpl. eauto.
Qed.

(** A trail of transitions leads from [from] to [to] along allowed moves. *)
Fixpoint trail_ok (from : OrderState) (l : list OrderStateTransition) (to : OrderState) : Prop :=
  match l with
  | [] => from = to
  | t :: l' => tr_from_state t = from /\ tr_to_state t ∈ ALLOWED_TRANSITIONS from /\
               trail_ok (tr_to_state t) l' to
  end.

Lemma trail_ok_snoc l : forall from mid to t,
  trail_ok from l mid -> tr_from_state t = mid -> tr_to_state t = to ->
  to ∈ ALLOWED_TRANSITIONS mid -> trail_ok from (l ++ [t]) to.
Proof.
  induction l as [|u l IH]; simpl; intros from mid to t H Hf Ht Hin.
  - by subst.
  - destruct H as (? & ? & ?). split_and!; eauto.
Qed.

(** Lifecycles the system can build: a fresh one, advanced by successful
    [transition_to] calls. *)
Inductive lifecycle_reach (oid : UUID) : OrderLifecycle -> Prop :=
| reach_new : lifecycle_reach oid (new_lifecycle oid)
| reach_step lc to at_ reason meta eid lc' :
    lifecycle_reach oid lc ->
    transition_to lc to at_ reason meta eid = Ok lc' ->
    lifecycle_reach oid lc'.

(** Orders only reach the broker-facing states through a submission request. *)
Definition needs_submission (s : OrderState) : bool :=
  match s with
  | INTENT_CREATED | INTERNAL_ORDER_CREATED | REJECTED => false
  | _ => true
  end.

Lemma allowed_submission from to :
  to ∈ ALLOWED_TRANSITIONS from -> needs_submission to = true ->
  needs_submission from = true \/ to = SUBMISSION_REQUESTED.
Proof.
  intros H.
  assert (bool_decide (to ∈ ALLOWED_TRANSITIONS from) = true) as Hb
    by by apply bool_decide_eq_true_2.
  clear H. revert Hb. destruct from, to; vm_compute; intros; (discriminate || auto).
Qed.

Lemma trail_submission l : forall from to,
  trail_ok from l to -> needs_submission to = true ->
  needs_submission from = true \/ Exists (fun t => tr_to_state t = SUBMISSION_REQUESTED) l.
Proof.
  induction l as [|t l IH]; simpl; intros from to H Hto.
  - subst. by left.
  - destruct H as (Hf & Hin & Hl).
    destruct (IH _ _ Hl Hto) as [Hm|Hex]; [|right; by apply Exists_cons_tl].
    destruct (allowed_submission _ _ Hin Hm); [by left | right; by apply Exists_cons_hd].
Qed.

(** the audit trail of every lifecycle the system can build is a chain of
    allowed transitions from INTENT_CREATED to the current state, and an order
    that has been acknowledged, filled, cancelled or lost contains an explicit
    SUBMISSION_REQUESTED step: no broker-facing state without a submission. *)
Theorem lifecycle_trail_sound oid lc :
  lifecycle_reach oid lc ->
  lc_order_id lc = oid /\ trail_ok INTENT_CREATED (lc_transitions lc) (lc_state lc) /\
  (needs_submission (lc_state lc) = true ->
   Exists (fun t => tr_to_state t = SUBMISSION_REQUESTED) (lc_transitions lc)).
Proof.
  intros H. assert (lc_order_id lc = oid /\
    trail_ok INTENT_CREATED (lc_transitions lc) (lc_state lc)) as [Hid Htr].
  { induction H as [|lc to at_ reason meta eid lc' _ [IHid IHt] E]; [done|].
    apply transition_to_inv in E as (Hin & Hoid & Hst & t & Htr & Hf & Ht).
    split; [congruence|]. rewrite Hst, Htr. by eapply trail_ok_snoc. }
  split_and!; [done..|]. intros Hn. by destruct (trail_submission _ _ _ Htr Hn).
Qed.

(** an order can always be brought to an end: from every state some
    sequence of at most two allowed transitions reaches a terminal state, and
    a terminal state (FILLED, REJECTED, CANCELLED) refuses every transition. *)
Theorem terminal_reachable_and_absorbing lc at_ reason meta eid :
  dt_aware at_ = true -> is_blank reason = false ->
  (exists (path : list OrderState) lc', (List.length path <= 2)%nat /\
     foldl (fun r s => let! l := r in transition_to l s at_ reason meta eid) (Ok lc) path = Ok lc' /\
     is_terminal lc' = true) /\
  (is_terminal lc = true -> forall to, exists msg,
     transition_to lc to at_ reason meta eid = Err (mk_exn InvalidOrderTransition msg)).
Proof.
  intros Hat Hr. split.
  - exists (match lc_state lc with
            | FILLED | REJECTED | CANCELLED => []
            | INTENT_CREATED => [INTERNAL_ORDER_CREATED; REJECTED]
            | INTERNAL_ORDER_CREATED | SUBMISSION_REQUESTED | BROKER_ACKNOWLEDGED
            | RECONCILIATION_REQUIRED => [REJECTED]
            | PARTIALLY_FILLED | CANCEL_REQUESTED => [FILLED]
            | UNKNOWN => [RECONCILIATION_REQUIRED; REJECTED]
            end).
    unfold transition_to, mk_OrderStateTransition, require_timezone, is_terminal.
    destruct lc as [oid st tr]; destruct st; cbn [lc_state]; eexists; (split; [cbn; lia|]);
      cbn -[is_blank uuid_str]; rewrite ?Hat, ?Hr; cbn; done.
  - unfold is_terminal, transition_to. destruct lc as [oid st tr].
    destruct st; cbn; intros Ht to; try done; eauto.
Qed.

(** * Fill accounting *)

(** A successful [with_transition] moves the lifecycle and records the fills;
    the new state passed [__post_init__]. *)
Lemma with_transition_inv s e to filled eid s' :
  with_transition s e to filled eid = Ok s' ->
  to ∈ ALLOWED_TRANSITIONS (lc_state (xs_lifecycle s)) /\
  lc_state (xs_lifecycle s') = to /\
  lc_order_id (xs_lifecycle s') = lc_order_id (xs_lifecycle s) /\
  xs_order_quantity s' = xs_order_quantity s /\
  xs_filled_quantity s' = default (xs_filled_quantity s) filled /\
  OrderExecutionState_post_init s' = Ok tt.
Proof.
  unfold with_transition, mk_OrderExecutionState. intros H. res_inv.
  match goal with H : transition_to _ _ _ _ _ _ = _ |- _ =>
    apply transition_to_inv in H as (? & ? & ? & ?) end.
  match goal with H : OrderExecutionState_post_init _ = Ok ?u |- _ => destruct u end.
  split_and!; done.
Qed.

Lemma post_init_inv s u : OrderExecutionState_post_init s = Ok u ->
  (0 < dval (xs_order_quantity s))%Q /\ (0 <= dval (xs_filled_quantity s))%Q /\
  (dval (xs_filled_quantity s) <= dval (xs_order_quantity s))%Q.
Proof.
  unfold OrderExecutionState_post_init, dgt. intros H. res_inv.
  repeat match goal with
  | H : dle _ _ = false |- _ => apply dle_false in H
  | H : dlt _ _ = false |- _ => apply dlt_false in H
  end.
  rewrite dval_zero in *. auto.
Qed.

(** The state an event type leads to. *)
Definition event_target (t : OrderEventType) : OrderState :=
  match t with
  | ev_BROKER_ACKNOWLEDGED => BROKER_ACKNOWLEDGED
  | ev_PARTIAL_FILL => PARTIALLY_FILLED
  | ev_FILL => FILLED
  | ev_REJECTED => REJECTED
  | ev_CANCEL_REQUESTED => CANCEL_REQUESTED
  | ev_CANCELLED => CANCELLED
  | ev_UNKNOWN => UNKNOWN
  | ev_RECONCILIATION_REQUIRED => RECONCILIATION_REQUIRED
  end.

(** One accepted event, on every branch of [apply_event]. *)
Lemma apply_event_inv s e eid s' :
  apply_event s e eid = Ok s' ->
  let t := ev_event_type e in
  let next := dadd (xs_filled_quantity s) (ev_fill_quantity e) in
  event_target t ∈ ALLOWED_TRANSITIONS (lc_state (xs_lifecycle s)) /\
  lc_state (xs_lifecycle s') = event_target t /\
  lc_order_id (xs_lifecycle s') = lc_order_id (xs_lifecycle s) /\
  xs_order_quantity s' = xs_order_quantity s /\
  xs_filled_quantity s' = (if is_fill_type t then next else xs_filled_quantity s) /\
  OrderExecutionState_post_init s' = Ok tt /\
  (t = ev_PARTIAL_FILL -> dge next (xs_order_quantity s) = false) /\
  (t = ev_FILL -> deq next (xs_order_quantity s) = true).
Proof.
  unfold apply_event, apply_partial_fill, apply_fill. cbn zeta.
  destruct (negb _); [done|].
  destruct (ev_event_type e) eqn:Et; intros H; res_inv;
    match goal with H : with_transition _ _ _ _ _ = _ |- _ =>
      apply with_transition_inv in H as (? & ? & ? & ? & ? & ?) end;
    cbn [event_target is_fill_type default] in *; split_and!; try done.
  all: intros _; by match goal with H : negb ?b = false |- ?b = true => destruct b end.
Qed.

Lemma apply_event_order s e eid s' : apply_event s e eid = Ok s' ->
  lc_order_id (xs_lifecycle s') = ev_order_id e.
Proof.
  intros H. pose proof H as Hi. apply apply_event_inv in Hi as (_ & _ & -> & _).
  unfold apply_event in H. destruct (N.eqb_spec (ev_order_id e) (lc_order_id (xs_lifecycle s))); done.
Qed.

Lemma apply_event_broker s e eid s' : apply_event s e eid = Ok s' ->
  xs_broker_order_id s' = str_or (ev_broker_order_id e) (xs_broker_order_id s).
Proof.
  unfold apply_event, apply_partial_fill, apply_fill, with_transition, mk_OrderExecutionState.
  destruct (negb _); [done|]. by destruct (ev_event_type e); intros H; res_inv.
Qed.

(** The fill invariant of an order: positive quantity, fills within it, FILLED
    exactly when the fills reach the quantity, and a partially filled order has
    fills. *)
Definition xs_inv (s : OrderExecutionState) : Prop :=
  let q := dval (xs_order_quantity s) in
  let f := dval (xs_filled_quantity s) in
  let st := lc_state (xs_lifecycle s) in
  (0 < q)%Q /\ (0 <= f)%Q /\ (f <= q)%Q /\ (st = FILLED <-> f == q)%Q /\
  (st = PARTIALLY_FILLED -> 0 < f)%Q.

(** Events the broker connection can construct. *)
Definition valid_event (e : BrokerOrderEvent) : Prop := BrokerOrderEvent_post_init e = Ok tt.

Lemma valid_fill_pos e :
  valid_event e -> is_fill_type (ev_event_type e) = true -> (0 < dval (ev_fill_quantity e))%Q.
Proof.
  unfold valid_event, BrokerOrderEvent_post_init. intros H Hf. rewrite Hf in H. res_inv.
  match goal with H : dle _ _ = false |- _ => apply dle_false in H; by rewrite dval_zero in H end.
Qed.

Lemma valid_nonfill e :
  valid_event e -> is_fill_type (ev_event_type e) = false -> (dval (ev_fill_quantity e) == 0)%Q.
Proof.
  unfold valid_event, BrokerOrderEvent_post_init. intros H Hf. rewrite Hf in H. res_inv.
  match goal with H : negb _ = false |- _ => apply negb_false_iff, deq_spec in H;
    by rewrite dval_zero in H end.
Qed.

Lemma target_not_filled_from_filled to : ~ to ∈ ALLOWED_TRANSITIONS FILLED.
Proof. by apply not_elem_of_nil. Qed.

Lemma apply_event_xs_inv s e eid s' :
  xs_inv s -> valid_event e -> apply_event s e eid = Ok s' -> xs_inv s'.
Proof.
  intros (Hq & Hf & Hle & Hiff & Hpart) Hv H.
  apply apply_event_inv in H as (Hin & Hst & _ & Hqty & Hfil & Hpost & Hp & Hd).
  apply post_init_inv in Hpost as (Hq' & Hf' & Hle').
  unfold xs_inv. cbn zeta. split_and!; try done.
  - rewrite Hst, Hqty, Hfil.
    destruct (ev_event_type e) eqn:Et; cbn [event_target is_fill_type] in *;
      (split; [intros ?; try done | intros Heq]);
      try (exfalso; apply (proj2 Hiff) in Heq; rewrite Heq in Hin;
           by apply target_not_filled_from_filled in Hin).
    + specialize (Hp eq_refl). unfold dge in Hp. apply dle_false in Hp. rewrite Heq in Hp.
      by apply Qlt_irrefl in Hp.
    + by apply deq_spec, Hd.
    + done.
  - rewrite Hst, Hfil. destruct (ev_event_type e) eqn:Et; cbn [event_target is_fill_type]; try done.
    intros _. apply dadd_pos. pose proof (valid_fill_pos e Hv) as Hpos. rewrite Et in Hpos.
    specialize (Hpos eq_refl). lra.
Qed.

(** Processing a sequence of broker events, with the ids of their transitions. *)
Definition apply_events (s : OrderExecutionState) (evs : list (BrokerOrderEvent * UUID))
    : res OrderExecutionState :=
  foldl (fun r ev => let! s := r in apply_event s ev.1 ev.2) (Ok s) evs.

Lemma apply_events_cons s ev evs :
  apply_events s (ev :: evs) = let! s1 := apply_event s ev.1 ev.2 in apply_events s1 evs.
Proof.
  unfold apply_events. simpl. destruct (apply_event s ev.1 ev.2) as [s1|x]; [done|].
  simpl. by induction evs.
Qed.

Lemma xs_inv_unfilled lc qty z oid :
  lc_state lc <> FILLED -> lc_state lc <> PARTIALLY_FILLED -> (dval z == 0)%Q ->
  (0 < dval qty)%Q ->
  xs_inv {| xs_lifecycle := lc; xs_order_quantity := qty; xs_filled_quantity := z;
            xs_broker_order_id := oid |}.
Proof.
  intros Hnf Hnp Hz Hq. unfold xs_inv. simpl. rewrite Hz. split_and!; try done.
  - by apply Qlt_le_weak.
  - split; [done|]. intros Heq. rewrite <- Heq in Hq. by apply Qlt_irrefl in Hq.
Qed.

(** C8: whatever sequence of broker events an order accepts after submission
    (including acknowledgements, cancels, unknown outcomes and reconciliations
    in any order, with any decimal quantities, rounding included), fills never
    exceed the order quantity, the order is FILLED exactly when they equal it,
    and a PARTIALLY_FILLED order has a positive fill. *)
Theorem order_fills_within_quantity lc qty oid s0 evs s :
  lc_state lc <> FILLED -> lc_state lc <> PARTIALLY_FILLED ->
  mk_OrderExecutionState lc qty dzero oid = Ok s0 ->
  Forall (fun ev => valid_event ev.1) evs ->
  apply_events s0 evs = Ok s -> xs_inv s.
Proof.
  intros Hnf Hnp Hmk Hv Hrun.
  assert (xs_inv s0) as H0.
  { unfold mk_OrderExecutionState in Hmk. res_inv.
    match goal with H : OrderExecutionState_post_init _ = _ |- _ =>
      apply post_init_inv in H as (Hq & Hf & Hle) end.
    by apply xs_inv_unfilled. }
  clear Hmk. revert s0 H0 Hrun.
  induction Hv as [|ev evs He Hv IH]; intros s0 H0 Hrun.
  - unfold apply_events in Hrun. simpl in Hrun. by res_inv.
  - rewrite apply_events_cons in Hrun. res_inv. eapply IH; [|done].
    by eapply apply_event_xs_inv.
Qed.

(** The total of the fill quantities of a sequence of events. *)
Fixpoint total_fills (evs : list (BrokerOrderEvent * UUID)) : Q :=
  match evs with
  | [] => 0
  | ev :: evs' => (dval (ev_fill_quantity ev.1) + total_fills evs')%Q
  end.

Lemma fill_conservation_step e0 s ev eid s' :
  xs_inv s -> dexp (xs_order_quantity s) = e0 -> fits (dz (xs_order_quantity s)) ->
  dexp (xs_filled_quantity s) = e0 ->
  valid_event ev -> dexp (ev_fill_quantity ev) = e0 ->
  apply_event s ev eid = Ok s' ->
  xs_order_quantity s' = xs_order_quantity s /\ dexp (xs_filled_quantity s') = e0 /\
  (dval (xs_filled_quantity s') == dval (xs_filled_quantity s) + dval (ev_fill_quantity ev))%Q.
Proof.
  intros (_ & Hf & _) Hq Hfit He Hv Hfe H.
  apply apply_event_inv in H as (_ & _ & _ & Hqty & Hfil & Hpost & _ & _).
  apply post_init_inv in Hpost as (_ & _ & Hle). rewrite Hqty, Hfil in *.
  split; [done|]. destruct (is_fill_type (ev_event_type ev)) eqn:Et.
  - apply (dadd_grid _ _ (xs_order_quantity s)); try done.
    by apply Qlt_le_weak, valid_fill_pos.
  - split; [done|]. rewrite (valid_nonfill _ Hv Et). ring.
Qed.

(** conservation of fills.  On a decimal grid (all quantities with the same
    number of decimal places, the order quantity within 28 digits) the recorded
    filled quantity is exactly the sum of the fill quantities of the accepted
    events: no fill is lost, double counted or rounded away. *)
Theorem order_fill_conservation e0 lc qty oid s0 evs s :
  lc_state lc <> FILLED -> lc_state lc <> PARTIALLY_FILLED ->
  dexp qty = e0 -> fits (dz qty) ->
  mk_OrderExecutionState lc qty (Dec false 0 e0) oid = Ok s0 ->
  Forall (fun ev => valid_event ev.1 /\ dexp (ev_fill_quantity ev.1) = e0) evs ->
  apply_events s0 evs = Ok s ->
  (dval (xs_filled_quantity s) == total_fills evs)%Q /\ xs_inv s.
Proof.
  intros Hnf Hnp Hq Hfit Hmk Hv Hrun.
  assert (xs_inv s0 /\ xs_order_quantity s0 = qty /\ xs_filled_quantity s0 = Dec false 0 e0)
    as (H0 & Hq0 & Hf0).
  { unfold mk_OrderExecutionState in Hmk. res_inv.
    match goal with H : OrderExecutionState_post_init _ = _ |- _ =>
      apply post_init_inv in H as (? & ? & ?) end.
    split; [apply xs_inv_unfilled; try done; apply dval_coef0|done]. }
  assert (dval (xs_filled_quantity s0) == 0)%Q as Hz by (rewrite Hf0; apply dval_coef0).
  assert (dexp (xs_filled_quantity s0) = e0) as He by by rewrite Hf0.
  assert (dval (xs_filled_quantity s) == dval (xs_filled_quantity s0) + total_fills evs /\
    xs_inv s)%Q as [-> ?]; [|split; [rewrite Hz; ring | done]].
  clear Hmk Hf0 Hz. subst qty. revert s0 H0 Hq Hfit He Hrun.
  induction Hv as [|ev evs [Hve Hee] Hv IH]; intros s0 H0 Hq Hfit He Hrun.
  - unfold apply_events in Hrun. simpl in Hrun. res_inv. simpl. split; [ring | done].
  - rewrite apply_events_cons in Hrun. res_inv.
    match goal with H : apply_event _ _ _ = Ok ?s1 |- _ => rename H into E; rename s1 into s1' end.
    pose proof (apply_event_xs_inv _ _ _ _ H0 Hve E) as H1.
    destruct (fill_conservation_step _ _ _ _ _ H0 Hq Hfit He Hve Hee E) as (Hq1 & He1 & Hs1).
    destruct (IH s1' H1) as [Hs ?]; [by rewrite Hq1..|done|done|].
    split; [|done]. rewrite Hs, Hs1. simpl. ring.
Qed.

(** * Witnesses *)

Module Sample.
Definition t0 : datetime := utc 1700000000000000.

(** A submitted order, built by [transition_to] calls. *)
Definition submitted : res OrderLifecycle :=
  foldl (fun r st => let! l := r in transition_to l st t0 "step" ∅ 1%N)
    (Ok (new_lifecycle 7%N)) [INTERNAL_ORDER_CREATED; SUBMISSION_REQUESTED].

Definition lc : OrderLifecycle := Eval vm_compute in
  match submitted with Ok l => l | Err _ => new_lifecycle 7%N end.

Definition ev (t : OrderEventType) (q : Z) : BrokerOrderEvent * UUID :=
  ({| ev_order_id := 7; ev_event_type := t; ev_occurred_at := t0; ev_reason := "broker";
      ev_broker_order_id := Some "B1"%string; ev_fill_quantity := dec_of_Z q;
      ev_metadata := ∅ |}, 2%N).

(** Acknowledge, fill 4 of 10, lose the connection, reconcile, complete. *)
Definition evs : list (BrokerOrderEvent * UUID) :=
  [ev ev_BROKER_ACKNOWLEDGED 0; ev ev_PARTIAL_FILL 4; ev ev_UNKNOWN 0;
   ev ev_RECONCILIATION_REQUIRED 0; ev ev_FILL 6].

Definition s0 : OrderExecutionState :=
  {| xs_lifecycle := lc; xs_order_quantity := dec_of_Z 10; xs_filled_quantity := dzero;
     xs_broker_order_id := None |}.

Definition s1 : OrderExecutionState := Eval vm_compute in
  match apply_events s0 evs with Ok s => s | Err _ => s0 end.
End Sample.

Lemma lifecycle_trail_sound_witness :
  exists lc, lc_order_id lc = 7%N /\
    Exists (fun t => tr_to_state t = SUBMISSION_REQUESTED) (lc_transitions lc).
Proof.
  exists Sample.lc.
  destruct (lifecycle_trail_sound 7%N Sample.lc) as (H1 & _ & H3).
  - eapply (reach_step _ _ SUBMISSION_REQUESTED Sample.t0 "step" ∅ 1%N).
    + eapply (reach_step _ _ INTERNAL_ORDER_CREATED Sample.t0 "step" ∅ 1%N);
        [apply reach_new | vm_compute; reflexivity].
    + vm_compute. reflexivity.
  - split; [exact H1 | apply H3; reflexivity].
Defined.

Lemma terminal_witness : exists path lc',
  foldl (fun r s => let! l := r in transition_to l s Sample.t0 "end" ∅ 3%N)
    (Ok Sample.lc) path = Ok lc' /\ is_terminal lc' = true.
Proof.
  destruct (proj1 (terminal_reachable_and_absorbing Sample.lc Sample.t0 "end" ∅ 3%N
                     eq_refl eq_refl)) as (path & lc' & _ & H).
  exists path, lc'. exact H.
Defined.

Lemma order_fills_witness : xs_inv Sample.s1.
Proof.
  apply (order_fills_within_quantity Sample.lc (dec_of_Z 10) None Sample.s0 Sample.evs).
  - vm_compute. discriminate.
  - vm_compute. discriminate.
  - vm_compute. reflexivity.
  - repeat (apply Forall_cons; split; [vm_compute; reflexivity|]). apply Forall_nil. exact I.
  - vm_compute. reflexivity.
Defined.

Lemma order_fill_conservation_witness :
  (dval (xs_filled_quantity Sample.s1) == total_fills Sample.evs)%Q.
Proof.
  refine (proj1 (order_fill_conservation 0 Sample.lc (dec_of_Z 10) None Sample.s0
                   Sample.evs Sample.s1 _ _ _ _ _ _ _)).
  - vm_compute. discriminate.
  - vm_compute. discriminate.
  - reflexivity.
  - vm_compute. reflexivity.
  - vm_compute. reflexivity.
  - repeat (apply Forall_cons; split; [split; [vm_compute; reflexivity | reflexivity]|]).
    apply Forall_nil. exact I.
  - vm_compute. reflexivity.
Defined.
