(* ===== verification/Sql.v ===== *)
(** The database as the repositories see it: an SQLAlchemy session.

    SQLAlchemy and PostgreSQL are not part of the sources, so a session is an
    interface: a class of the operations the repositories call, with the
    documented behaviour they rely on as laws.  A law never says that an
    operation succeeds: any call may raise (a lost connection, a violated
    constraint), and the theorems of the repositories hold in that case too.
    [MemDB] is a concrete session on which the witnesses run.

    A row's key is the identity of its ORM object (the primary key, which
    SQLAlchemy fills in from the column default at flush). *)

From stdpp Require Import base list strings gmap fin_maps.
From Stdlib Require Import ZArith Lia String Sorted.
From S2P Require Import Prelude.

(** The unit of work of a session: rows added, and loaded rows modified. *)
Inductive change (Row : Type) :=
| Add (r : Row)
| Put (k : N) (r : Row).
Arguments Add {Row} r.
Arguments Put {Row} k r.

(** [applied cs m m']: flushing [cs] turns the committed rows [m] into [m']. *)
Inductive applied {Row : Type} : list (change Row) -> gmap N Row -> gmap N Row -> Prop :=
| applied_nil m : applied [] m m
| applied_add k r cs m m' :
    m !! k = None -> applied cs (<[k := r]> m) m' -> applied (Add r :: cs) m m'
| applied_put k r cs m m' :
    is_Some (m !! k) -> applied cs (<[k := r]> m) m' -> applied (Put k r :: cs) m m'.

(** The exceptions of the database layer (SQLAlchemy's and the driver's);
    application classes are never among them. *)
Definition db_error (c : exn_class) : bool :=
  match c with
  | Exception | TimeoutError | IntegrityError | MultipleResultsFound | InvalidRequestError => true
  | _ => false
  end.

Class Session (DB Row : Type) (constraint : gmap N Row -> bool) := {
  (** The committed rows (specification only). *)
  rows : DB -> gmap N Row;
  (** [session.execute(select(...).where(p)).scalar_one_or_none()], and
      [session.get(cls, id)] with [p] the primary-key test. *)
  scalar_one_or_none : (Row -> bool) -> M DB (option (N * Row));
  (** [session.commit()] after [session.add] and attribute assignments; a
      failed commit is followed by [session.rollback()]. *)
  commit : list (change Row) -> M DB unit;

  (** Queries do not change the database. *)
  scalar_reads p : reads (scalar_one_or_none p);
  (** "Return exactly one result or None". *)
  scalar_none p db : fst (scalar_one_or_none p db) = Ok None ->
    forall k r, rows db !! k = Some r -> p r = false;
  scalar_some p db k r : fst (scalar_one_or_none p db) = Ok (Some (k, r)) ->
    rows db !! k = Some r /\ p r = true /\
    (forall k' r', rows db !! k' = Some r' -> p r' = true -> k' = k);
  (** A commit is atomic and durable and enforces the constraints. *)
  commit_ok cs db db' : commit cs db = (Ok tt, db') ->
    applied cs (rows db) (rows db') /\ constraint (rows db') = true;
  commit_err cs db e db' : commit cs db = (Err e, db') -> rows db' = rows db;
  (** Failures are database errors, and only writing can violate a constraint. *)
  scalar_error p db e : fst (scalar_one_or_none p db) = Err e ->
    db_error (exn_cls e) = true /\ exn_cls e <> IntegrityError;
  commit_error cs db e : fst (commit cs db) = Err e -> db_error (exn_cls e) = true;
}.

(** Unique constraints: no two rows share a value of [key] (NULLs differ). *)
Fixpoint unique_on {Row K} `{EqDecision K} (key : Row -> option K) (l : list Row) : bool :=
  match l with
  | [] => true
  | r :: l' =>
      match key r with
      | Some k => forallb (fun r' => bool_decide (key r' <> Some k)) l' && unique_on key l'
      | None => unique_on key l'
      end
  end.

Lemma unique_on_list {Row K} `{EqDecision K} (key : Row -> option K) (l : list (N * Row)) x i j r r' :
  unique_on key (snd <$> l) = true -> NoDup (fst <$> l) ->
  (i, r) ∈ l -> (j, r') ∈ l -> key r = Some x -> key r' = Some x -> i = j.
Proof.
  induction l as [|[k a] l IH]; intros Hu Hd Hi Hj Hr Hr'; [by apply not_elem_of_nil in Hi|].
  cbn [fmap list_fmap fst snd] in *. apply NoDup_cons in Hd as [Hk Hd]. simpl in Hu.
  assert (Hother : forall b m y, (m, b) ∈ l -> key a = Some y -> key b = Some y -> False).
  { intros b m y Hb Ha Hy. rewrite Ha in Hu. apply andb_true_iff in Hu as [Hu _].
    rewrite forallb_forall in Hu. specialize (Hu b). rewrite bool_decide_eq_true in Hu.
    apply Hu; [|done]. apply list_elem_of_In. change b with ((m, b).2). by apply list_elem_of_fmap_2. }
  apply elem_of_cons in Hi as [Hi|Hi], Hj as [Hj|Hj]; simplify_eq; [done| | |].
  - destruct (Hother _ _ _ Hj Hr Hr').
  - destruct (Hother _ _ _ Hi Hr' Hr).
  - apply IH; [|done..]. destruct (key a); [by apply andb_true_iff in Hu as [_ Hu]|done].
Qed.

Lemma unique_on_lookup {Row K} `{EqDecision K} (key : Row -> option K) (m : gmap N Row) x i j r r' :
  unique_on key (snd <$> map_to_list m) = true ->
  m !! i = Some r -> m !! j = Some r' -> key r = Some x -> key r' = Some x -> i = j.
Proof.
  intros Hu Hi Hj. apply (unique_on_list key (map_to_list m)); [done | apply NoDup_fst_map_to_list|..];
    by apply elem_of_map_to_list.
Qed.

(** Two matching rows make [scalar_one_or_none] raise. *)
Lemma scalar_multiple {DB Row C} `{Session DB Row C} p db k1 k2 r1 r2 :
  rows db !! k1 = Some r1 -> rows db !! k2 = Some r2 -> p r1 = true -> p r2 = true ->
  k1 <> k2 -> exists e, fst (scalar_one_or_none p db) = Err e.
Proof.
  intros H1 H2 P1 P2 Hne.
  destruct (fst (scalar_one_or_none p db)) as [[[k r]|]|e] eqn:E; [| |eauto].
  - apply scalar_some in E as (_ & _ & Hu).
    by rewrite (Hu _ _ H1 P1), (Hu _ _ H2 P2) in Hne.
  - pose proof (scalar_none _ _ E _ _ H1). congruence.
Qed.

(** * A session over an in-memory database *)

Section MemDB.
Context {Row : Type} (constraint : gmap N Row -> bool).

Definition next_key (m : gmap N Row) : N :=
  N.succ (foldr N.max 0%N (fst <$> map_to_list m)).

Fixpoint flush (cs : list (change Row)) (m : gmap N Row) : option (gmap N Row) :=
  match cs with
  | [] => Some m
  | Add r :: cs' => flush cs' (<[next_key m := r]> m)
  | Put k r :: cs' => match m !! k with
                      | Some _ => flush cs' (<[k := r]> m)
                      | None => None
                      end
  end.

Definition mem_scalar (p : Row -> bool) : M (gmap N Row) (option (N * Row)) :=
  fun m => (match filter (fun kr => p kr.2 = true) (map_to_list m) with
            | [] => Ok None
            | [kr] => Ok (Some kr)
            | _ => raise MultipleResultsFound "Multiple rows were found when one or none was required"
            end, m).

Definition mem_commit (cs : list (change Row)) : M (gmap N Row) unit :=
  fun m => match flush cs m with
           | Some m' => if constraint m' then (Ok tt, m')
                        else (raise IntegrityError "constraint violated", m)
           | None => (raise IntegrityError "row no longer exists", m)
           end.

Lemma next_key_fresh m : m !! next_key m = None.
Proof.
  destruct (m !! next_key m) as [r|] eqn:E; [exfalso|done].
  apply elem_of_map_to_list in E.
  assert (Forall (fun kr => (kr.1 <= foldr N.max 0 (fst <$> map_to_list m))%N) (map_to_list m))
    as Hall.
  { generalize (map_to_list m). clear. intros l.
    assert (forall b, Forall (fun kr : N * Row => (kr.1 <= foldr N.max b (fst <$> l))%N) l)
      as H; [|done].
    intros b. induction l as [|kr l IH]; constructor; [apply N.le_max_l|].
    eapply Forall_impl; [exact IH|]. intros x Hx. etrans; [exact Hx | apply N.le_max_r]. }
  rewrite Forall_forall in Hall. apply Hall in E. unfold next_key in E. simpl in E. lia.
Qed.

Lemma flush_applied cs : forall m m', flush cs m = Some m' -> applied cs m m'.
Proof.
  induction cs as [|[r|k r] cs IH]; simpl; intros m m' H.
  - simplify_eq. constructor.
  - econstructor; [apply next_key_fresh | by apply IH].
  - destruct (m !! k) eqn:E; [|done]. econstructor; [by rewrite E | by apply IH].
Qed.

#[export] Program Instance MemDB : Session (gmap N Row) Row constraint := {|
  rows m := m;
  scalar_one_or_none := mem_scalar;
  commit := mem_commit;
|}.
Next Obligation. done. Qed.
Next Obligation.
  unfold mem_scalar. simpl. intros p m H k r Hk.
  destruct (p r) eqn:E; [exfalso|done]. apply elem_of_map_to_list in Hk.
  assert ((k, r) ∈ filter (fun kr => p kr.2 = true) (map_to_list m)) as Hin
    by (apply list_elem_of_filter; done).
  destruct (filter _ _) as [|? [|? ?]]; [by apply not_elem_of_nil in Hin | done..].
Qed.
Next Obligation.
  unfold mem_scalar. simpl. intros p m k r H.
  assert (filter (fun kr => p kr.2 = true) (map_to_list m) = [(k, r)]) as Hf
    by (destruct (filter _ _) as [|? [|? ?]]; by simplify_eq).
  assert ((k, r) ∈ filter (fun kr => p kr.2 = true) (map_to_list m)) as Hin
    by (rewrite Hf; by constructor).
  apply list_elem_of_filter in Hin as [Hp Hin]. apply elem_of_map_to_list in Hin.
  split_and!; [done..|]. intros k' r' Hk' Hp'. apply elem_of_map_to_list in Hk'.
  assert ((k', r') ∈ filter (fun kr => p kr.2 = true) (map_to_list m)) as Hin'
    by (apply list_elem_of_filter; done).
  rewrite Hf, list_elem_of_singleton in Hin'. by simplify_eq.
Qed.
Next Obligation.
  unfold mem_commit. simpl. intros cs m m' H. destruct (flush cs m) as [m1|] eqn:E; [|done].
  destruct (constraint m1) eqn:Ec; simplify_eq. split; [by apply flush_applied | done].
Qed.
Next Obligation.
  unfold mem_commit. simpl. intros cs m e m' H.
  destruct (flush cs m) as [m1|]; [destruct (constraint m1)|]; by simplify_eq.
Qed.
Next Obligation.
  unfold mem_scalar. simpl. intros p m e H.
  destruct (filter _ _) as [|? [|? ?]]; [done..|]. by injection H as <-.
Qed.
Next Obligation.
  unfold mem_commit. simpl. intros cs m e H.
  destruct (flush cs m) as [m1|]; [destruct (constraint m1)|]; [done| |]; by injection H as <-.
Qed.
End MemDB.

(** * Queries for several rows *)

(** [session.execute(select(...).where(p).order_by(key)).scalars().all()]: the
    matching rows in ascending order of the key (rows with equal keys in any
    order).  [.desc()] is the negated key, [.limit(n)] a prefix. *)
Class ListSession (DB Row : Type) (constraint : gmap N Row -> bool) `{Session DB Row constraint} := {
  scalars_all : (Row -> bool) -> (Row -> Z) -> M DB (list (N * Row));
  scalars_reads p key : reads (scalars_all p key);
  scalars_perm p key db l : fst (scalars_all p key db) = Ok l ->
    l ≡ₚ filter (fun kr => p kr.2 = true) (map_to_list (rows db));
  scalars_sorted p key db l : fst (scalars_all p key db) = Ok l ->
    StronglySorted (fun a b => (key a.2 <= key b.2)%Z) l;
}.

Lemma scalars_elem {DB Row C} `{ListSession DB Row C} p key db l k r :
  fst (scalars_all p key db) = Ok l ->
  (k, r) ∈ l <-> rows db !! k = Some r /\ p r = true.
Proof.
  intros Hl. rewrite (scalars_perm _ _ _ _ Hl), list_elem_of_filter, elem_of_map_to_list. simpl. tauto.
Qed.

Section Ordered.
Context {A : Type} (key : A -> Z).

Fixpoint insert_by (x : A) (l : list A) : list A :=
  match l with
  | [] => [x]
  | y :: l' => if (key x <=? key y)%Z then x :: l else y :: insert_by x l'
  end.

Definition sort_by (l : list A) : list A := foldr insert_by [] l.

Lemma insert_by_perm x l : insert_by x l ≡ₚ x :: l.
Proof.
  induction l as [|y l IH]; simpl; [done|]. destruct (_ <=? _)%Z; [done|].
  rewrite IH. apply Permutation_swap.
Qed.

Lemma sort_by_perm l : sort_by l ≡ₚ l.
Proof. induction l as [|x l IH]; simpl; [done|]. by rewrite insert_by_perm, IH. Qed.

Lemma insert_by_sorted x l :
  StronglySorted (fun a b => (key a <= key b)%Z) l ->
  StronglySorted (fun a b => (key a <= key b)%Z) (insert_by x l).
Proof.
  induction 1 as [|y l Hl IH Hy]; simpl; [repeat constructor|].
  destruct (Z.leb_spec (key x) (key y)).
  - constructor; [by constructor|]. constructor; [done|]. eapply Forall_impl; [exact Hy|]. simpl. lia.
  - constructor; [done|]. rewrite insert_by_perm. constructor; [lia|done].
Qed.

Lemma sort_by_sorted l : StronglySorted (fun a b => (key a <= key b)%Z) (sort_by l).
Proof. induction l; simpl; [constructor|]. by apply insert_by_sorted. Qed.
End Ordered.

#[export] Program Instance MemDBList {Row} (constraint : gmap N Row -> bool) :
    ListSession (gmap N Row) Row constraint := {|
  scalars_all p key := fun m =>
    (Ok (sort_by (fun kr : N * Row => key kr.2)
           (filter (fun kr => p kr.2 = true) (map_to_list m))), m);
|}.
Next Obligation. done. Qed.
Next Obligation. intros Row C p key db l [= <-]. apply sort_by_perm. Qed.
Next Obligation. intros Row C p key db l [= <-]. apply sort_by_sorted. Qed.

(** * Writing one row *)

Section WriteRow.
Context {DB Row : Type} {C : gmap N Row -> bool} `{Session DB Row C}.

(** [session.add(row); session.commit(); session.refresh(row)] and the
    conversion of the refreshed row, with the handlers every repository puts
    around them: a violated constraint becomes [dup], any other failure
    [failed].  [p] selects the row by its unique key. *)
Definition add_and_refresh {T} (p : Row -> bool) (row : Row) (from_orm : N * Row -> res T)
    (dup failed : exn) : M DB T :=
  try_except
    (commit [Add row] ;*
     let* rec := scalar_one_or_none p in
     match rec with
     | Some kr => lift (from_orm kr)
     | None => throw InvalidRequestError "Could not refresh instance"
     end)
    (fun exc => Some (lift (Err
       (if isinstance exc IntegrityError then dup
        else if isinstance exc (exn_cls dup) then exc
        else failed)))).

(** [db'] is [db] with [row] added under a new key. *)
Definition added (row : Row) (db db' : DB) (k : N) : Prop :=
  rows db !! k = None /\ rows db' = <[k := row]> (rows db) /\ C (rows db') = true.

Lemma commit_added row db db' : commit [Add row] db = (Ok tt, db') -> exists k, added row db db' k.
Proof.
  intros E. apply commit_ok in E as [Ha Hc]. inversion Ha as [|k r cs m m' Hn Hr|]; subst.
  inversion Hr; subst. exists k. unfold added. by split_and!.
Qed.

Lemma scalar_added p row db db' k : p row = true -> added row db db' k ->
  forall k' r', fst (scalar_one_or_none p db') = Ok (Some (k', r')) -> k' = k /\ r' = row.
Proof.
  intros Hp (_ & Hr & _) k' r' Hs. apply scalar_some in Hs as (Hl & _ & Hu).
  assert (rows db' !! k = Some row) as Hk by (by rewrite Hr, lookup_insert_eq).
  pose proof (Hu k row Hk Hp) as ->. rewrite Hk in Hl. by simplify_eq.
Qed.

Context {T : Type} (p : Row -> bool) (row : Row) (from_orm : N * Row -> res T) (dup failed : exn).
Context (Hp : p row = true) (Hfrom : forall k, exists t, from_orm (k, row) = Ok t).
Context (Hdup : forall c, db_error c = true -> subclass_fuel 4 c (exn_cls dup) = false).

(** A success stored the row; [dup] means that a constraint refused it; any
    other failure stored it or nothing. *)
Lemma add_and_refresh_spec db r db' :
  add_and_refresh p row from_orm dup failed db = (r, db') ->
  (exists k t, added row db db' k /\ r = Ok t /\ from_orm (k, row) = Ok t) \/
  (r = Err dup /\ rows db' = rows db) \/
  (r = Err failed /\ (rows db' = rows db \/ exists k, added row db db' k)).
Proof.
  unfold add_and_refresh, try_except, bind.
  destruct (commit [Add row] db) as [[[]|e] db1] eqn:E.
  2: { pose proof (Hdup _ (commit_error _ _ e ltac:(by rewrite E))) as He.
       apply commit_err in E. unfold isinstance at 2. rewrite He.
       destruct (isinstance e IntegrityError); intros [= <- <-]; right; [left|right]; eauto. }
  apply commit_added in E as [k Hk]. pose proof (scalar_reads p db1) as Hrd.
  pose proof (scalar_added p row db db1 k Hp Hk) as Hs.
  pose proof (scalar_error p db1) as He.
  destruct (scalar_one_or_none p db1) as [[[[k' r']|]|e] db2]; cbn [fst snd] in *; subst db2.
  - destruct (Hs _ _ eq_refl) as [-> ->]. destruct (Hfrom k) as [t Ht]. rewrite Ht.
    intros [= <- <-]. left. eauto.
  - unfold throw, lift, raise, isinstance, mk_exn. cbn [exn_cls]. rewrite (Hdup InvalidRequestError eq_refl).
    intros [= <- <-]. right; right. eauto.
  - destruct (He e eq_refl) as [Hd Hi]. unfold isinstance. rewrite (Hdup _ Hd).
    replace (subclass_fuel 4 (exn_cls e) IntegrityError) with false by (by destruct (exn_cls e)).
    intros [= <- <-]. right; right. eauto.
Qed.
End WriteRow.
