(* ===== verification/ExecModel.v ===== *)
(** Execution engine: data and boundaries
    (src/services/execution_engine/alpha_algo_execution_engine/errors.py,
    state.py, identity.py, adapter.py and metrics.py). *)

From stdpp Require Import base list strings gmap.
From Stdlib Require Import ZArith Lia String.
From S2P Require Import Prelude PyBase Hashing Decimal DecimalText Lifecycle.

Open Scope Z_scope.

(** * errors.py *)

Definition RETRYABLE_FAILURE_CLASSES : list FailureClass := [TRANSIENT_FAILURE].

(** The class attribute [failure_class] of the [ExecutionError] classes. *)
Definition class_failure (c : exn_class) : FailureClass :=
  match c with
  | ExecutionValidationError | DuplicateExecutionError | ExecutionNotFoundError =>
      VALIDATION_FAILURE
  | ExecutionAuthError => AUTH_FAILURE
  | ExecutionTransientError => TRANSIENT_FAILURE
  | ExecutionTimeoutError => TIMEOUT_FAILURE
  | ExecutionProviderRejection => PROVIDER_REJECTION
  | ExecutionUnknownState => UNKNOWN_EXTERNAL_STATE
  | _ => INTERNAL_FAILURE
  end.

(** [exc.failure_class]: the instance's override, else the class attribute. *)
Definition failure_class (e : exn) : FailureClass :=
  default (class_failure (exn_cls e)) (exn_failure e).

Definition classify (e : exn) : FailureClass :=
  if isinstance e ExecutionError then failure_class e
  else if isinstance e TimeoutError then TIMEOUT_FAILURE
  else INTERNAL_FAILURE.

(** * state.py *)

Inductive ExecutionSubmissionState :=
| ss_SUBMISSION_REQUESTED
| ss_SUBMISSION_IN_PROGRESS
| ss_SUBMITTED
| ss_ACKNOWLEDGED
| ss_TIMEOUT
| ss_REJECTED
| ss_UNKNOWN
| ss_CANCELLED.

#[export] Instance ExecutionSubmissionState_eq_dec : EqDecision ExecutionSubmissionState.
Proof. solve_decision. Defined.

Definition submission_value (s : ExecutionSubmissionState) : string :=
  match s with
  | ss_SUBMISSION_REQUESTED => "SUBMISSION_REQUESTED"
  | ss_SUBMISSION_IN_PROGRESS => "SUBMISSION_IN_PROGRESS"
  | ss_SUBMITTED => "SUBMITTED"
  | ss_ACKNOWLEDGED => "ACKNOWLEDGED"
  | ss_TIMEOUT => "TIMEOUT"
  | ss_REJECTED => "REJECTED"
  | ss_UNKNOWN => "UNKNOWN"
  | ss_CANCELLED => "CANCELLED"
  end.

Definition submission_members : list ExecutionSubmissionState :=
  [ss_SUBMISSION_REQUESTED; ss_SUBMISSION_IN_PROGRESS; ss_SUBMITTED; ss_ACKNOWLEDGED;
   ss_TIMEOUT; ss_REJECTED; ss_UNKNOWN; ss_CANCELLED].

Definition submission_of_value := enum_of submission_members submission_value.

Definition order_state_members : list OrderState :=
  [INTENT_CREATED; INTERNAL_ORDER_CREATED; SUBMISSION_REQUESTED; BROKER_ACKNOWLEDGED;
   PARTIALLY_FILLED; FILLED; REJECTED; CANCEL_REQUESTED; CANCELLED; UNKNOWN;
   RECONCILIATION_REQUIRED].

(** [OrderState(value)] *)
Definition order_state_of_value := enum_of order_state_members order_state_value.

Lemma order_state_roundtrip st : order_state_of_value (order_state_value st) = Ok st.
Proof. by destruct st. Qed.

Lemma submission_roundtrip st : submission_of_value (submission_value st) = Ok st.
Proof. by destruct st. Qed.

Record ExecutionAttempt := {
  at_attempt_id : string;
  at_execution_id : string;
  at_order_id : UUID;
  at_attempt_number : Z;
  at_state : ExecutionSubmissionState;
  at_broker_order_id : option string;
  at_submitted_at : option datetime;
  at_responded_at : option datetime;
  at_reason : string;
}.

(** * identity.py *)

Definition compute_execution_id (order_id : UUID) (order_identity_key : option string) : string :=
  sha256_hex (uuid_str order_id +:+ ":" +:+ default ""%string order_identity_key).

Definition compute_attempt_id (execution_id : string) (attempt_number : Z) : string :=
  execution_id +:+ "-a" +:+ str_Z attempt_number.

(** [metadata.get(k) or ...] followed by [if source]: the first truthy of the
    two explicit identifiers. *)
Definition event_source (meta : metadata) : option pyval :=
  let a := meta !! "source_event_id"%string in
  let b := meta !! "broker_event_id"%string in
  if py_truthy a then a else if py_truthy b then b else None.

Definition compute_event_identity (e : BrokerOrderEvent) : string :=
  match event_source (ev_metadata e) with
  | Some source => uuid_str (ev_order_id e) +:+ ":" +:+ py_str source
  | None =>
      sha256_hex (json_default
        [("order_id"%string, JStr (uuid_str (ev_order_id e)));
         ("type"%string, JStr (event_type_value (ev_event_type e)));
         ("broker_order_id"%string, json_opt_str (ev_broker_order_id e));
         ("fill_quantity"%string, JStr (dec_str (ev_fill_quantity e)))])
  end.

Definition event_content_hash (e : BrokerOrderEvent) : string :=
  sha256_hex (json_default
    [("type"%string, JStr (event_type_value (ev_event_type e)));
     ("broker_order_id"%string, json_opt_str (ev_broker_order_id e));
     ("fill_quantity"%string, JStr (dec_str (ev_fill_quantity e)));
     ("reason"%string, JStr (ev_reason e))]).

(** * adapter.py *)

Record ExecutionCapabilities := {
  cap_provider_name : string;
  cap_supports_live_trading : bool;
  cap_supports_cancellation : bool;
  cap_supports_partial_fills : bool;
}.

Record ExecutionRequest := {
  rq_order_id : UUID;
  rq_client_order_id : string;
  rq_execution_id : string;
  rq_correlation_id : option string;
  rq_account_id : UUID;
  rq_instrument_id : UUID;
  rq_signal_id : UUID;
  rq_strategy_id : UUID;
  rq_strategy_version : string;
  rq_side : string;
  rq_quantity : Z;
  rq_order_type : string;
  rq_limit_price : option decimal;
  rq_trading_mode : string;
  rq_risk_approval_id : string;
  rq_approval_expires_at : datetime;
  rq_binding_hash : string;
  rq_orchestration_id : string;
}.

Definition ExecutionRequest_post_init (r : ExecutionRequest) : res unit :=
  require_timezone (rq_approval_expires_at r) "approval_expires_at" ;!
  raise_if (rq_quantity r <=? 0) ValueError "quantity must be positive" ;!
  raise_if (is_blank (rq_client_order_id r)) ValueError "client_order_id is required" ;!
  raise_if (is_blank (rq_execution_id r)) ValueError "execution_id is required".

Record ExecutionResponse := {
  rs_status : ExecutionSubmissionState;
  rs_reason : string;
  rs_occurred_at : datetime;
  rs_broker_order_id : option string;
  rs_failure_class : option FailureClass;
}.

Definition mk_ExecutionResponse (status : ExecutionSubmissionState) (reason : string)
    (occurred_at : datetime) (broker_order_id : option string) (fc : option FailureClass)
    : res ExecutionResponse :=
  require_timezone occurred_at "occurred_at" ;!
  Ok {| rs_status := status; rs_reason := reason; rs_occurred_at := occurred_at;
        rs_broker_order_id := broker_order_id; rs_failure_class := fc |}.

(** The provider-neutral boundary ([class ExecutionAdapter(Protocol)]); [A] is
    the adapter object's own state, the broker behind it included. *)
Class ExecutionAdapter (A : Type) := {
  capabilities : A -> ExecutionCapabilities;
  adapter_submit : ExecutionRequest -> M A ExecutionResponse;
  adapter_cancel : UUID -> M A ExecutionResponse;
  adapter_health : A -> bool;
}.

(** The deterministic test adapter. *)
Record InMemoryAdapter := {
  im_response : option ExecutionResponse;
  im_raise_error : option exn;
  im_cancel_response : option ExecutionResponse;
  im_capabilities : ExecutionCapabilities;
  im_submissions : list ExecutionRequest;
  im_cancellations : list UUID;
  im_now : datetime;   (* what [datetime.now(UTC)] answers *)
}.

Definition im_log_submission (r : ExecutionRequest) (a : InMemoryAdapter) : InMemoryAdapter :=
  {| im_response := im_response a; im_raise_error := im_raise_error a;
     im_cancel_response := im_cancel_response a; im_capabilities := im_capabilities a;
     im_submissions := im_submissions a ++ [r]; im_cancellations := im_cancellations a;
     im_now := im_now a |}.

Definition im_log_cancellation (o : UUID) (a : InMemoryAdapter) : InMemoryAdapter :=
  {| im_response := im_response a; im_raise_error := im_raise_error a;
     im_cancel_response := im_cancel_response a; im_capabilities := im_capabilities a;
     im_submissions := im_submissions a; im_cancellations := im_cancellations a ++ [o];
     im_now := im_now a |}.

Definition im_submit (request : ExecutionRequest) : M InMemoryAdapter ExecutionResponse :=
  modify (im_log_submission request) ;*
  let* a := gets id in
  match im_raise_error a with
  | Some e => lift (Err e)
  | None =>
      match im_response a with
      | Some response => ret response
      | None =>
          lift (mk_ExecutionResponse ss_ACKNOWLEDGED "acknowledged by test adapter"
                  (rq_approval_expires_at request)
                  (Some ("test-broker-" +:+ uuid_str (rq_order_id request))) None)
      end
  end.

Definition im_cancel (order_id : UUID) : M InMemoryAdapter ExecutionResponse :=
  modify (im_log_cancellation order_id) ;*
  let* a := gets id in
  match im_cancel_response a with
  | Some response => ret response
  | None => lift (mk_ExecutionResponse ss_UNKNOWN "cancellation accepted; confirmation pending"
                    (im_now a) None None)
  end.

#[export] Instance InMemoryAdapter_adapter : ExecutionAdapter InMemoryAdapter := {|
  capabilities := im_capabilities;
  adapter_submit := im_submit;
  adapter_cancel := im_cancel;
  adapter_health := fun _ => true;
|}.

(** * metrics.py *)

Record ExecutionMetrics := {
  m_requests : Z; m_submissions : Z; m_acknowledgments : Z; m_rejects : Z; m_timeouts : Z;
  m_retries : Z; m_cancellations : Z; m_fills : Z; m_partial_fills : Z;
  m_duplicate_events : Z; m_duplicate_requests : Z; m_unknown_states : Z; m_failures : Z;
  m_validation_rejections : Z;
}.

Definition no_metrics : ExecutionMetrics := {|
  m_requests := 0; m_submissions := 0; m_acknowledgments := 0; m_rejects := 0; m_timeouts := 0;
  m_retries := 0; m_cancellations := 0; m_fills := 0; m_partial_fills := 0;
  m_duplicate_events := 0; m_duplicate_requests := 0; m_unknown_states := 0; m_failures := 0;
  m_validation_rejections := 0;
|}.

Inductive counter :=
| request | submission | acknowledgment | reject | timeout | retry | cancellation | fill
| partial_fill | duplicate_event | duplicate_request | unknown | failure | validation_rejection.

#[export] Instance counter_eq_dec : EqDecision counter.
Proof. solve_decision. Defined.

(** The [record_...] methods: each adds one to its own counter. *)
Definition record (c : counter) (m : ExecutionMetrics) : ExecutionMetrics :=
  let up (k : counter) (n : Z) := if decide (c = k) then n + 1 else n in
  {| m_requests := up request (m_requests m);
     m_submissions := up submission (m_submissions m);
     m_acknowledgments := up acknowledgment (m_acknowledgments m);
     m_rejects := up reject (m_rejects m);
     m_timeouts := up timeout (m_timeouts m);
     m_retries := up retry (m_retries m);
     m_cancellations := up cancellation (m_cancellations m);
     m_fills := up fill (m_fills m);
     m_partial_fills := up partial_fill (m_partial_fills m);
     m_duplicate_events := up duplicate_event (m_duplicate_events m);
     m_duplicate_requests := up duplicate_request (m_duplicate_requests m);
     m_unknown_states := up unknown (m_unknown_states m);
     m_failures := up failure (m_failures m);
     m_validation_rejections := up validation_rejection (m_validation_rejections m) |}.
