(* ===== verification/ExecRepo.v ===== *)
(** Execution repository
    (src/services/execution_engine/alpha_algo_execution_engine/repository.py,
    with the tables of packages/shared/alpha_algo_shared/db/models).

    [ExecutionRepository] is the engine's protocol, a class of operations;
    [RepositoryLaws] is what the engine relies on.  [SqlRepository] is the
    SQLAlchemy implementation, over any [Session]. *)

From stdpp Require Import base list strings gmap.
From Stdlib Require Import ZArith Lia String Ascii.
From S2P Require Import Prelude PyBase Hashing Decimal DecimalText Lifecycle Sql ExecModel.

Open Scope Z_scope.

(** * The protocol *)

Class ExecutionRepository (R : Type) := {
  find_attempt : string -> Z -> M R (option ExecutionAttempt);
  save_attempt : ExecutionAttempt -> M R unit;
  update_attempt : string -> ExecutionSubmissionState -> option string -> option datetime ->
                   option string -> M R unit;
  has_event : UUID -> string -> M R bool;
  get_event_hash : UUID -> string -> M R (option pyval);
  save_event : UUID -> BrokerOrderEvent -> OrderExecutionState -> string -> M R unit;
  load_execution_state : UUID -> M R (option OrderExecutionState);
}.

(** What the engine's at-most-once dispatch needs: an attempt (execution id and
    attempt number) that was saved stays known, whatever the engine does next,
    and the queries only read. *)
Class RepositoryLaws (R : Type) `{ExecutionRepository R} := {
  attempted : string * Z -> R -> Prop;
  attempted_saved a r r' : save_attempt a r = (Ok tt, r') ->
    attempted (at_execution_id a, at_attempt_number a) r';
  attempted_found x n r : attempted (x, n) r -> fst (find_attempt x n r) <> Ok None;
  find_reads x n : reads (find_attempt x n);
  has_reads o i : reads (has_event o i);
  hash_reads o i : reads (get_event_hash o i);
  load_reads o : reads (load_execution_state o);
  save_keeps x a : preserves (attempted x) (save_attempt a);
  update_keeps x i s b t m : preserves (attempted x) (update_attempt i s b t m);
  event_keeps x o e s i : preserves (attempted x) (save_event o e s i);
}.

(** * The tables *)

Record ExecutionAttemptRecord := {
  ar_execution_id : string;
  ar_attempt_number : Z;
  ar_order_id : UUID;
  ar_state : string;
  ar_broker_order_id : option string;
  ar_submitted_at : option datetime;
  ar_responded_at : option datetime;
  ar_reason : option string;
}.

Record OrderEvent := {
  oe_order_id : UUID;
  oe_source_event_id : option string;
  oe_event_type : string;
  oe_previous_status : option string;
  oe_new_status : string;
  oe_broker_order_id : option string;
  oe_event_timestamp : datetime;
  oe_reason : option string;
  oe_event_payload : option metadata;
}.

(** The columns of [orders] that this repository reads or writes. *)
Record Order := {
  or_id : UUID;
  or_quantity : Z;
  or_status : string;
  or_filled_quantity : option Z;
  or_broker_order_id : option string;
  or_acknowledged_at : option datetime;
  or_filled_at : option datetime;
  or_rejected_at : option datetime;
  or_canceled_at : option datetime;
}.

Inductive row :=
| RAttempt (r : ExecutionAttemptRecord)
| REvent (r : OrderEvent)
| ROrder (r : Order).

Definition attempt_key (r : row) : option (string * Z) :=
  match r with RAttempt a => Some (ar_execution_id a, ar_attempt_number a) | _ => None end.
Definition event_key (r : row) : option string :=
  match r with REvent e => oe_source_event_id e | _ => None end.
Definition order_key (r : row) : option UUID :=
  match r with ROrder o => Some (or_id o) | _ => None end.
Definition order_broker_key (r : row) : option string :=
  match r with ROrder o => or_broker_order_id o | _ => None end.

(** Foreign keys [order_id -> orders.id]. *)
Definition order_exists (l : list row) (oid : UUID) : bool :=
  existsb (fun r => bool_decide (order_key r = Some oid)) l.

Definition foreign_keys (l : list row) : bool :=
  forallb (fun r => match r with
                    | RAttempt a => order_exists l (ar_order_id a)
                    | REvent e => order_exists l (oe_order_id e)
                    | ROrder _ => true
                    end) l.

Definition exec_constraint (m : gmap N row) : bool :=
  let l := snd <$> map_to_list m in
  foreign_keys l &&
  unique_on attempt_key l && unique_on event_key l && unique_on order_key l &&
  unique_on order_broker_key l.

(** * The repository *)

Definition to_orm_attempt (a : ExecutionAttempt) : ExecutionAttemptRecord := {|
  ar_execution_id := at_execution_id a;
  ar_attempt_number := at_attempt_number a;
  ar_order_id := at_order_id a;
  ar_state := submission_value (at_state a);
  ar_broker_order_id := at_broker_order_id a;
  ar_submitted_at := at_submitted_at a;
  ar_responded_at := at_responded_at a;
  ar_reason := Some (at_reason a);
|}.

Definition from_orm_attempt (r : ExecutionAttemptRecord) : res ExecutionAttempt :=
  let! st := submission_of_value (ar_state r) in
  Ok {| at_attempt_id := compute_attempt_id (ar_execution_id r) (ar_attempt_number r);
        at_execution_id := ar_execution_id r;
        at_order_id := ar_order_id r;
        at_attempt_number := ar_attempt_number r;
        at_state := st;
        at_broker_order_id := ar_broker_order_id r;
        at_submitted_at := ar_submitted_at r;
        at_responded_at := ar_responded_at r;
        at_reason := default ""%string (ar_reason r) |}.

(** The text before the last ["-a"], if there is one. *)
Fixpoint rsplit_a (s : string) : option string :=
  match s with
  | EmptyString => None
  | String c s' =>
      match rsplit_a s' with
      | Some p => Some (String c p)
      | None => if is_prefix "-a" s then Some EmptyString else None
      end
  end.

Definition execution_id_from_attempt_id (attempt_id : string) : string :=
  default attempt_id (rsplit_a attempt_id).

(** Attempt ids are read back: the digits after the last ["-a"] hold no ["-a"]. *)
Lemma rsplit_a_digits s : all_digits s = true -> rsplit_a s = None.
Proof.
  induction s as [|c s IH]; [done|]. cbn [rsplit_a all_digits is_prefix].
  destruct (digit_value c) as [d|] eqn:E; [|done]. intros Hs. rewrite (IH Hs). destruct (Ascii.eqb_spec "-"%char c) as [<-|]; [|done].
  by vm_compute in E.
Qed.

Lemma rsplit_a_app x t : rsplit_a t = None -> rsplit_a (x +:+ "-a" +:+ t) = Some x.
Proof.
  intros Ht. induction x as [|c x IH].
  - change ("" +:+ "-a" +:+ t) with (String "-"%char (String "a"%char t)). simpl. by rewrite Ht.
  - change (String c x +:+ "-a" +:+ t) with (String c (x +:+ "-a" +:+ t)). cbn [rsplit_a].
    by rewrite IH.
Qed.

Lemma execution_id_roundtrip x n : 0 <= n ->
  execution_id_from_attempt_id (compute_attempt_id x n) = x.
Proof.
  intros Hn. unfold execution_id_from_attempt_id, compute_attempt_id, str_Z.
  destruct (Z.ltb_spec n 0); [lia|].
  rewrite rsplit_a_app; [done|]. apply rsplit_a_digits, str_N_spec.
Qed.

Definition apply_event_timestamp (o : Order) (e : BrokerOrderEvent) : Order :=
  let at_ := Some (ev_occurred_at e) in
  let t := ev_event_type e in
  {| or_id := or_id o; or_quantity := or_quantity o; or_status := or_status o;
     or_filled_quantity := or_filled_quantity o; or_broker_order_id := or_broker_order_id o;
     or_acknowledged_at := match t with ev_BROKER_ACKNOWLEDGED => at_ | _ => or_acknowledged_at o end;
     or_filled_at := match t with ev_FILL => at_ | _ => or_filled_at o end;
     or_rejected_at := match t with ev_REJECTED => at_ | _ => or_rejected_at o end;
     or_canceled_at := match t with ev_CANCELLED => at_ | _ => or_canceled_at o end |}.

Definition is_order (oid : UUID) (r : row) : bool :=
  match r with ROrder o => (or_id o =? oid)%N | _ => false end.
Definition is_event (identity : string) (r : row) : bool :=
  match r with REvent e => bool_decide (oe_source_event_id e = Some identity) | _ => false end.

Section SqlRepository.
Context {DB : Type} `{Session DB row exec_constraint}.

Definition sql_find_attempt (execution_id : string) (attempt_number : Z)
    : M DB (option ExecutionAttempt) :=
  let* rec := scalar_one_or_none (fun r =>
    match r with
    | RAttempt a => String.eqb (ar_execution_id a) execution_id &&
                    (ar_attempt_number a =? attempt_number)
    | _ => false
    end) in
  match rec with
  | Some (_, RAttempt a) => let* x := lift (from_orm_attempt a) in ret (Some x)
  | _ => ret None
  end.

Definition sql_save_attempt (attempt : ExecutionAttempt) : M DB unit :=
  commit [Add (RAttempt (to_orm_attempt attempt))].

Definition set_attempt (a : ExecutionAttemptRecord) (state : ExecutionSubmissionState)
    (broker_order_id : option string) (responded_at : option datetime) (reason : option string)
    : ExecutionAttemptRecord := {|
  ar_execution_id := ar_execution_id a;
  ar_attempt_number := ar_attempt_number a;
  ar_order_id := ar_order_id a;
  ar_state := submission_value state;
  ar_broker_order_id := match broker_order_id with Some b => Some b | None => ar_broker_order_id a end;
  ar_submitted_at := ar_submitted_at a;
  ar_responded_at := match responded_at with Some t => Some t | None => ar_responded_at a end;
  ar_reason := match reason with Some x => Some x | None => ar_reason a end;
|}.

Definition sql_update_attempt (attempt_id : string) (state : ExecutionSubmissionState)
    (broker_order_id : option string) (responded_at : option datetime) (reason : option string)
    : M DB unit :=
  let* rec := scalar_one_or_none (fun r =>
    match r with
    | RAttempt a => String.eqb (ar_execution_id a) (execution_id_from_attempt_id attempt_id)
    | _ => false
    end) in
  match rec with
  | Some (k, RAttempt a) =>
      commit [Put k (RAttempt (set_attempt a state broker_order_id responded_at reason))]
  | _ => ret tt
  end.

Definition sql_has_event (order_id : UUID) (event_identity : string) : M DB bool :=
  let* existing := scalar_one_or_none (is_event event_identity) in
  ret (match existing with Some _ => true | None => false end).

Definition sql_get_event_hash (order_id : UUID) (event_identity : string) : M DB (option pyval) :=
  let* rec := scalar_one_or_none (is_event event_identity) in
  ret (match rec with
       | Some (_, REvent e) =>
           match oe_event_payload e with
           | Some payload => match payload !! "_content_hash"%string with
                             | Some PNone => None
                             | v => v
                             end
           | None => None
           end
       | _ => None
       end).

Definition sql_save_event (order_id : UUID) (event : BrokerOrderEvent)
    (new_state : OrderExecutionState) (event_identity : string) : M DB unit :=
  let* found := scalar_one_or_none (is_order order_id) in
  match found with
  | Some (k, ROrder o) =>
      let order := {|
        or_id := or_id o; or_quantity := or_quantity o;
        or_status := order_state_value (lc_state (xs_lifecycle new_state));
        or_filled_quantity := Some (int_of_dec (xs_filled_quantity new_state));
        or_broker_order_id := match xs_broker_order_id new_state with
                              | Some b => Some b
                              | None => or_broker_order_id o
                              end;
        or_acknowledged_at := or_acknowledged_at o; or_filled_at := or_filled_at o;
        or_rejected_at := or_rejected_at o; or_canceled_at := or_canceled_at o |} in
      commit
        [Put k (ROrder (apply_event_timestamp order event));
         Add (REvent {|
           oe_order_id := order_id;
           oe_source_event_id := Some event_identity;
           oe_event_type := event_type_value (ev_event_type event);
           oe_previous_status := Some (event_type_value (ev_event_type event));
           oe_new_status := order_state_value (lc_state (xs_lifecycle new_state));
           oe_broker_order_id := ev_broker_order_id event;
           oe_event_timestamp := ev_occurred_at event;
           oe_reason := Some (ev_reason event);
           oe_event_payload :=
             Some (<["_content_hash"%string := PStr (event_content_hash event)]> (ev_metadata event)) |})]
  | _ => throw KeyError ("order not found: " +:+ uuid_str order_id)
  end.

Definition sql_load_execution_state (order_id : UUID) : M DB (option OrderExecutionState) :=
  let* found := scalar_one_or_none (is_order order_id) in
  match found with
  | Some (_, ROrder o) =>
      let* st := lift (order_state_of_value (or_status o)) in
      let* s := lift (mk_OrderExecutionState
                        {| lc_order_id := or_id o; lc_state := st; lc_transitions := [] |}
                        (dec_of_Z (or_quantity o))
                        (dec_of_Z (default 0 (or_filled_quantity o)))
                        (or_broker_order_id o)) in
      ret (Some s)
  | _ => ret None
  end.

#[export] Instance SqlRepository : ExecutionRepository DB := {|
  find_attempt := sql_find_attempt;
  save_attempt := sql_save_attempt;
  update_attempt := sql_update_attempt;
  has_event := sql_has_event;
  get_event_hash := sql_get_event_hash;
  save_event := sql_save_event;
  load_execution_state := sql_load_execution_state;
|}.

(** ** The SQL repository keeps the engine's contract *)

Definition has_attempt (x : string * Z) (m : gmap N row) : Prop :=
  exists k a, m !! k = Some (RAttempt a) /\ ar_execution_id a = x.1 /\ ar_attempt_number a = x.2.

Definition sql_attempted (x : string * Z) (db : DB) : Prop := has_attempt x (rows db).

(** A row keeps its attempt identity when it is rewritten. *)
Definition same_attempt (r r' : row) : Prop := attempt_key r = attempt_key r'.

Lemma has_attempt_add x k r m : m !! k = None -> has_attempt x m -> has_attempt x (<[k := r]> m).
Proof.
  intros Hk (j & a & Hj & ?). exists j, a. rewrite lookup_insert_ne; [done | congruence].
Qed.

Lemma has_attempt_put x k r0 r m :
  m !! k = Some r0 -> same_attempt r0 r -> has_attempt x m -> has_attempt x (<[k := r]> m).
Proof.
  intros Hk Hs (j & a & Hj & Hx & Hn). destruct (decide (j = k)) as [->|Hne].
  - simplify_eq. unfold same_attempt in Hs. destruct r as [a'| |]; simplify_eq/=.
    exists k, a'. rewrite lookup_insert_eq. split_and!; congruence.
  - exists j, a. by rewrite lookup_insert_ne.
Qed.

(** Commits that add rows or rewrite loaded ones keep the attempts. *)
Lemma commit_keeps x cs : 
  (forall m m', applied cs m m' -> has_attempt x m -> has_attempt x m') ->
  forall db, sql_attempted x db -> sql_attempted x (snd (commit cs db)).
Proof.
  intros Hcs db Hx. destruct (commit cs db) as [[[]|e] db'] eqn:E; unfold sql_attempted; simpl.
  - apply commit_ok in E as [Ha _]. by eapply Hcs.
  - by rewrite (commit_err _ _ _ _ E).
Qed.

Lemma query_then {A} x p (k : option (N * row) -> M DB A) :
  (forall o db, fst (scalar_one_or_none p db) = Ok o -> sql_attempted x db ->
     sql_attempted x (snd (k o db))) ->
  preserves (sql_attempted x) (bind (scalar_one_or_none p) k).
Proof.
  intros Hk db Hx. unfold bind. pose proof (scalar_reads p db) as Hr. specialize (Hk).
  destruct (scalar_one_or_none p db) as [[o|e] db'] eqn:E; simpl in *; subst db'; [|done].
  apply Hk; [by rewrite E | done].
Qed.

Lemma reads_scalar_bind {A} p (k : option (N * row) -> M DB A) :
  (forall o, reads (k o)) -> reads (bind (scalar_one_or_none p) k).
Proof. intros Hk. apply reads_bind; [apply scalar_reads | done]. Qed.

Lemma sql_find_reads x n : reads (sql_find_attempt x n).
Proof.
  unfold sql_find_attempt. apply reads_scalar_bind.
  intros [[? [a| |]]|] db; try done. unfold bind, lift. by destruct (from_orm_attempt a).
Qed.

Lemma sql_has_reads o i : reads (sql_has_event o i).
Proof. unfold sql_has_event. by apply reads_scalar_bind. Qed.

Lemma sql_hash_reads o i : reads (sql_get_event_hash o i).
Proof. unfold sql_get_event_hash. by apply reads_scalar_bind. Qed.

Lemma sql_load_reads o : reads (sql_load_execution_state o).
Proof.
  unfold sql_load_execution_state. apply reads_scalar_bind.
  intros [[? [| |r]]|] db; try done. unfold bind, lift.
  destruct (order_state_of_value (or_status r)); [|done]. by destruct (mk_OrderExecutionState _ _ _ _).
Qed.

#[export] Program Instance SqlRepositoryLaws : RepositoryLaws DB := {|
  attempted := sql_attempted;
|}.
Next Obligation.
  intros a db db' E. simpl in E. unfold sql_save_attempt in E.
  apply commit_ok in E as [Ha _]. inversion Ha as [|k r cs m m' Hk Hrest|]; subst.
  inversion Hrest; subst. exists k, (to_orm_attempt a).
  match goal with H : _ = rows db' |- _ => rewrite <- H end.
  by rewrite lookup_insert_eq.
Qed.
Next Obligation.
  intros x n db (k & a & Hk & Hx & Hn). simpl in *. unfold sql_find_attempt, bind.
  match goal with |- context [scalar_one_or_none ?p db] => set (q := p) end.
  pose proof (scalar_none q db) as Hnone. pose proof (scalar_some q db) as Hsome.
  destruct (scalar_one_or_none q db) as [[[[k' r]|]|e] db']; simpl in *; [| |done].
  - destruct (Hsome _ _ eq_refl) as (_ & Hq & _). unfold q in Hq. destruct r as [a'| |]; try done.
    unfold lift. by destruct (from_orm_attempt a').
  - specialize (Hnone eq_refl _ _ Hk). unfold q in Hnone.
    by rewrite Hx, String.eqb_refl, Hn, Z.eqb_refl in Hnone.
Qed.
Next Obligation. exact sql_find_reads. Qed.
Next Obligation. exact sql_has_reads. Qed.
Next Obligation. exact sql_hash_reads. Qed.
Next Obligation. exact sql_load_reads. Qed.
Next Obligation.
  intros x a db Hx. simpl. unfold sql_save_attempt. apply commit_keeps; [|done].
  intros m m' Ha Hm. inversion Ha as [|k r cs m1 m1' Hk Hrest|]; subst. inversion Hrest; subst.
  by apply has_attempt_add.
Qed.
Next Obligation.
  intros x i s b t msg. simpl. unfold sql_update_attempt. apply query_then.
  intros [[k [a| |]]|] db Hq Hx; try done. apply scalar_some in Hq as (Hk & _ & _).
  destruct (commit _ db) as [[[]|e] db'] eqn:E; simpl; unfold sql_attempted.
  - apply commit_ok in E as [Ha _]. inversion Ha as [| |k' r cs m1 m1' _ Hrest]; subst.
    inversion Hrest; subst. by eapply has_attempt_put.
  - by rewrite (commit_err _ _ _ _ E).
Qed.
Next Obligation.
  intros x o e s i. simpl. unfold sql_save_event. apply query_then.
  intros [[k [| |r]]|] db Hq Hx; try done. apply scalar_some in Hq as (Hk & _ & _).
  destruct (commit _ db) as [[[]|e'] db'] eqn:E; simpl; unfold sql_attempted.
  - apply commit_ok in E as [Ha _]. inversion Ha as [| |k' r' cs m1 m1' _ Hrest]; subst.
    inversion Hrest as [|k2 r2 cs2 m2 m2' Hk2 Hrest2|]; subst. inversion Hrest2; subst.
    apply has_attempt_add; [done|]. by eapply has_attempt_put.
  - by rewrite (commit_err _ _ _ _ E).
Qed.

End SqlRepository.
