(* ===== verification/Execution.v ===== *)
(** Execution engine
    (src/services/execution_engine/alpha_algo_execution_engine/engine.py):
    submission with duplicate detection and bounded retry, cancellation, and
    idempotent application of broker events.

    [World] is what the engine object reaches: the repository (if configured),
    the adapter, the metrics, and a counter of the calls made to the injected
    callables.  [clock], [global_halt_active] and [uuid4] are functions of that
    counter, so successive calls may answer differently.  [w_trace] is a ghost
    log of the external effects, in order; no operation reads it. *)

From stdpp Require Import base list strings gmap.
From Stdlib Require Import ZArith Lia String.
From S2P Require Import Prelude PyBase Hashing Decimal DecimalText Lifecycle Sql ExecModel ExecRepo.

Open Scope Z_scope.

Record ExecutionOutcome := {
  oc_order_id : UUID;
  oc_execution_id : string;
  oc_attempt_id : string;
  oc_submission_state : ExecutionSubmissionState;
  oc_order_state : option OrderState;
  oc_broker_order_id : option string;
  oc_reason : string;
  oc_duplicate : bool;
}.

Record EngineConfig := {
  cfg_clock : nat -> datetime;
  cfg_max_retries : Z;
  cfg_global_halt_active : nat -> bool;
  cfg_uuid4 : nat -> UUID;
}.

Definition ALLOWED_MODES : list string := ["BACKTEST"%string; "PAPER"%string].

(** External effects. *)
Inductive effect :=
| FxSaveAttempt (a : ExecutionAttempt)
| FxSubmit (r : ExecutionRequest) (result : res ExecutionResponse)
| FxUpdateAttempt (attempt_id : string) (state : ExecutionSubmissionState)
| FxSaveEvent (e : BrokerOrderEvent)
| FxCancel (order_id : UUID).

Record World (R A : Type) := {
  w_repo : option R;
  w_adapter : A;
  w_metrics : ExecutionMetrics;
  w_tick : nat;
  w_trace : list effect;
}.
Arguments w_repo {R A} w.
Arguments w_adapter {R A} w.
Arguments w_metrics {R A} w.
Arguments w_tick {R A} w.
Arguments w_trace {R A} w.

Section Engine.
Context {R A : Type} `{ExecutionRepository R} `{ExecutionAdapter A}.
Context (cfg : EngineConfig).

Abbreviation W := (World R A).

Definition set_repo (r : R) (w : W) : W :=
  {| w_repo := Some r; w_adapter := w_adapter w; w_metrics := w_metrics w;
     w_tick := w_tick w; w_trace := w_trace w |}.
Definition set_adapter (a : A) (w : W) : W :=
  {| w_repo := w_repo w; w_adapter := a; w_metrics := w_metrics w;
     w_tick := w_tick w; w_trace := w_trace w |}.

(** [self._metrics.record_...()] *)
Definition metric (c : counter) : M W unit :=
  modify (fun w => {| w_repo := w_repo w; w_adapter := w_adapter w;
                      w_metrics := record c (w_metrics w);
                      w_tick := w_tick w; w_trace := w_trace w |}).

(** A call of an injected callable. *)
Definition call {T} (f : nat -> T) : M W T :=
  fun w => (Ok (f (w_tick w)),
            {| w_repo := w_repo w; w_adapter := w_adapter w; w_metrics := w_metrics w;
               w_tick := S (w_tick w); w_trace := w_trace w |}).

Definition emit (fx : effect) : M W unit :=
  modify (fun w => {| w_repo := w_repo w; w_adapter := w_adapter w; w_metrics := w_metrics w;
                      w_tick := w_tick w; w_trace := w_trace w ++ [fx] |}).

(** [self._repository.m(...) if self._repository is not None else none] *)
Definition with_repo {T} (m : M R T) (none : T) : M W T :=
  fun w => match w_repo w with
           | Some r => let '(x, r') := m r in (x, set_repo r' w)
           | None => (Ok none, w)
           end.

(** A repository call that changes the database, logged once it succeeded. *)
Definition repo_effect (m : M R unit) (fx : effect) : M W unit :=
  fun w => match w_repo w with
           | Some _ => (with_repo m tt ;* emit fx) w
           | None => (Ok tt, w)
           end.

(** [self._adapter.submit(request)], logged with its result. *)
Definition call_submit (request : ExecutionRequest) : M W ExecutionResponse :=
  fun w => let '(x, a) := adapter_submit request (w_adapter w) in
           let '(_, w') := emit (FxSubmit request x) (set_adapter a w) in (x, w').

Definition call_cancel (order_id : UUID) : M W ExecutionResponse :=
  emit (FxCancel order_id) ;*
  fun w => let '(x, a) := adapter_cancel order_id (w_adapter w) in (x, set_adapter a w).

(** ** Events *)

Definition engine_apply_event (event : BrokerOrderEvent) : M W OrderExecutionState :=
  let* configured := gets (fun w => match w_repo w with Some _ => true | None => false end) in
  if negb configured then throw ExecutionValidationError "no execution repository configured"
  else
    let identity := compute_event_identity event in
    let oid := ev_order_id event in
    let* known := with_repo (has_event oid identity) false in
    if known then
      let* stored_hash := with_repo (get_event_hash oid identity) None in
      let conflict := match stored_hash with
                      | Some h => bool_decide (h <> PStr (event_content_hash event))
                      | None => false
                      end in
      if conflict then
        throw ExecutionValidationError "event identity conflict: same identity, different payload"
      else
        metric duplicate_event ;*
        let* state := with_repo (load_execution_state oid) None in
        match state with
        | None => throw ExecutionValidationError ("order not found: " +:+ uuid_str oid)
        | Some state => ret state
        end
    else
      let* state := with_repo (load_execution_state oid) None in
      match state with
      | None => throw ExecutionValidationError ("order not found: " +:+ uuid_str oid)
      | Some state =>
          let* eid := call (cfg_uuid4 cfg) in
          let* next_state := lift (apply_event state event eid) in
          match ev_event_type event with
          | ev_PARTIAL_FILL => metric partial_fill
          | ev_FILL => metric fill
          | _ => ret tt
          end ;*
          repo_effect (save_event oid event next_state identity) (FxSaveEvent event) ;*
          ret next_state
      end.

(** [_apply_order_event]: every exception is swallowed. *)
Definition apply_order_event (event : BrokerOrderEvent) : M W unit :=
  try_except (engine_apply_event event ;* ret tt) (fun _ => Some (ret tt)).

(** Building the [BrokerOrderEvent] argument happens outside that handler. *)
Definition order_event (oid : UUID) (t : OrderEventType) (at_ : datetime) (reason : string)
    (broker_oid : option string) : M W unit :=
  let* e := lift (mk_BrokerOrderEvent oid t at_ reason broker_oid dzero ∅) in
  apply_order_event e.

(** ** Submission *)

Definition validate_request (request : ExecutionRequest) : M W unit :=
  let mode := py_upper (rq_trading_mode request) in
  if String.eqb mode "LIVE" then
    metric validation_rejection ;*
    throw ExecutionValidationError "LIVE trading is disabled (fail-closed)"
  else if negb (bool_decide (mode ∈ ALLOWED_MODES)) then
    metric validation_rejection ;*
    throw ExecutionValidationError ("unknown trading mode: " +:+ rq_trading_mode request)
  else
    let* halted := call (cfg_global_halt_active cfg) in
    if halted then
      metric validation_rejection ;*
      throw ExecutionValidationError "global trading halt is active; submission refused"
    else
      let* now := call (cfg_clock cfg) in
      let* expired := lift (dt_le (rq_approval_expires_at request) now) in
      if expired then
        metric validation_rejection ;*
        throw ExecutionValidationError "risk approval is expired"
      else if is_blank (rq_risk_approval_id request) then
        metric validation_rejection ;*
        throw ExecutionValidationError "risk approval id is missing"
      else ret tt.

Definition find_existing (request : ExecutionRequest) : M W (option ExecutionAttempt) :=
  with_repo (find_attempt (rq_execution_id request) 0) None.

Definition new_attempt (request : ExecutionRequest) (attempt_number : Z) : M W ExecutionAttempt :=
  let* now := call (cfg_clock cfg) in
  ret {| at_attempt_id := compute_attempt_id (rq_execution_id request) attempt_number;
         at_execution_id := rq_execution_id request;
         at_order_id := rq_order_id request;
         at_attempt_number := attempt_number;
         at_state := ss_SUBMISSION_IN_PROGRESS;
         at_broker_order_id := None;
         at_submitted_at := Some now;
         at_responded_at := None;
         at_reason := "" |}.

Definition persist (attempt : ExecutionAttempt) : M W unit :=
  repo_effect (save_attempt attempt) (FxSaveAttempt attempt).

Definition finalize (attempt : ExecutionAttempt) (state : ExecutionSubmissionState)
    (broker_order_id : option string) (reason : string) (request : ExecutionRequest)
    (order_state : option OrderState) : M W ExecutionOutcome :=
  let* configured := gets (fun w => match w_repo w with Some _ => true | None => false end) in
  (if (configured : bool) then
     let* now := call (cfg_clock cfg) in
     repo_effect (update_attempt (at_attempt_id attempt) state broker_order_id (Some now)
                    (Some reason))
       (FxUpdateAttempt (at_attempt_id attempt) state)
   else ret tt) ;*
  ret {| oc_order_id := rq_order_id request; oc_execution_id := rq_execution_id request;
         oc_attempt_id := at_attempt_id attempt; oc_submission_state := state;
         oc_order_state := order_state; oc_broker_order_id := broker_order_id;
         oc_reason := reason; oc_duplicate := false |}.

Definition finalize_timeout (attempt : ExecutionAttempt) (reason : string)
    (request : ExecutionRequest) : M W ExecutionOutcome :=
  metric unknown ;*
  let* now := call (cfg_clock cfg) in
  order_event (rq_order_id request) ev_UNKNOWN now reason None ;*
  finalize attempt ss_TIMEOUT None reason request (Some UNKNOWN).

Definition outcome_of_existing (attempt : ExecutionAttempt) (request : ExecutionRequest)
    : ExecutionOutcome :=
  {| oc_order_id := rq_order_id request; oc_execution_id := rq_execution_id request;
     oc_attempt_id := at_attempt_id attempt; oc_submission_state := at_state attempt;
     oc_order_state := None; oc_broker_order_id := at_broker_order_id attempt;
     oc_reason := at_reason attempt; oc_duplicate := true |}.

Definition process_response (attempt : ExecutionAttempt) (response : ExecutionResponse)
    (request : ExecutionRequest) : M W ExecutionOutcome :=
  let bid := rs_broker_order_id response in
  let reason := rs_reason response in
  let event t := order_event (rq_order_id request) t (rs_occurred_at response) reason bid in
  match rs_status response with
  | ss_ACKNOWLEDGED =>
      metric acknowledgment ;*
      event ev_BROKER_ACKNOWLEDGED ;*
      finalize attempt ss_ACKNOWLEDGED bid reason request (Some BROKER_ACKNOWLEDGED)
  | ss_SUBMITTED =>
      finalize attempt ss_SUBMITTED bid reason request (Some SUBMISSION_REQUESTED)
  | ss_REJECTED =>
      metric reject ;*
      event ev_REJECTED ;*
      finalize attempt ss_REJECTED bid reason request (Some REJECTED)
  | (ss_TIMEOUT | ss_UNKNOWN) as status =>
      metric unknown ;*
      event ev_UNKNOWN ;*
      finalize attempt status bid reason request (Some UNKNOWN)
  | _ =>
      metric failure ;*
      finalize attempt ss_UNKNOWN bid reason request (Some UNKNOWN)
  end.

(** What the adapter call inside [try: ... except] leads to: another attempt,
    or the end of the loop. *)
Inductive dispatch :=
| Retry
| Done (m : M W ExecutionOutcome)
| Propagate (e : exn).

Definition dispatch_result (attempt_number : Z) (attempt : ExecutionAttempt)
    (request : ExecutionRequest) (result : res ExecutionResponse) : dispatch :=
  match result with
  | Ok response => Done (process_response attempt response request)
  | Err exc =>
      if isinstance exc ExecutionTransientError then
        if attempt_number <? cfg_max_retries cfg then Retry
        else Done (metric failure ;*
                   finalize attempt ss_REJECTED None (exn_msg exc) request None)
      else if isinstance exc ExecutionTimeoutError then
        Done (metric timeout ;* finalize_timeout attempt (exn_msg exc) request)
      else if isinstance exc ExecutionError then
        Done (metric failure ;*
              (if decide (failure_class exc = UNKNOWN_EXTERNAL_STATE)
               then finalize attempt ss_UNKNOWN None (exn_msg exc) request None
               else finalize attempt ss_REJECTED None (exn_msg exc) request None))
      else Propagate exc
  end.

(** The first [try] of an iteration: persist the attempt; on a concurrent
    duplicate answer with the winner. *)
Definition persist_or_existing (attempt : ExecutionAttempt) (request : ExecutionRequest)
    : M W (option ExecutionOutcome) :=
  try_except (persist attempt ;* ret None)
    (fun exc =>
       if isinstance exc IntegrityError then
         Some (let* existing := find_existing request in
               match existing with
               | Some x => metric duplicate_request ;*
                           ret (Some (outcome_of_existing x request))
               | None => lift (Err exc)
               end)
       else None).

(** The [while True] loop.  Every iteration but the last increments
    [attempt_number], which stays at most [max_retries]. *)
Fixpoint submit_loop (fuel : nat) (attempt_number : Z) (attempt : ExecutionAttempt)
    (request : ExecutionRequest) : M W (option ExecutionOutcome) :=
  match fuel with
  | O => ret None
  | S fuel' =>
      let* winner := persist_or_existing attempt request in
      match winner with
      | Some outcome => ret (Some outcome)
      | None =>
          metric submission ;*
          fun w =>
            let '(result, w') := call_submit request w in
            match dispatch_result attempt_number attempt request result with
            | Retry =>
                (metric retry ;*
                 let* attempt' := new_attempt request (attempt_number + 1) in
                 submit_loop fuel' (attempt_number + 1) attempt' request) w'
            | Done m => (let* o := m in ret (Some o)) w'
            | Propagate exc => (Err exc, w')
            end
      end
  end.

Definition loop_fuel : nat := S (Z.to_nat (cfg_max_retries cfg)).

Definition engine_submit (request : ExecutionRequest) : M W (option ExecutionOutcome) :=
  metric ExecModel.request ;*
  validate_request request ;*
  let* existing := find_existing request in
  match existing with
  | Some x => metric duplicate_request ;* ret (Some (outcome_of_existing x request))
  | None =>
      let* attempt := new_attempt request 0 in
      submit_loop loop_fuel 0 attempt request
  end.

(** ** Cancellation *)

Definition cancel_outcome (order_id : UUID) (st : ExecutionSubmissionState)
    (order_state : option OrderState) (bid : option string) (reason : string) : ExecutionOutcome :=
  {| oc_order_id := order_id; oc_execution_id := ""; oc_attempt_id := "";
     oc_submission_state := st; oc_order_state := order_state; oc_broker_order_id := bid;
     oc_reason := reason; oc_duplicate := false |}.

Definition engine_cancel (order_id : UUID) : M W ExecutionOutcome :=
  let* caps := gets (fun w => capabilities (w_adapter w)) in
  if negb (cap_supports_cancellation caps) then
    ret (cancel_outcome order_id ss_REJECTED None None "cancellation not supported by adapter")
  else
    metric cancellation ;*
    let* response := call_cancel order_id in
    let bid := rs_broker_order_id response in
    let* order_state :=
      match rs_status response with
      | ss_CANCELLED =>
          order_event order_id ev_CANCELLED (rs_occurred_at response) (rs_reason response) bid ;*
          ret CANCELLED
      | ss_REJECTED => ret CANCEL_REQUESTED
      | _ => metric unknown ;* ret UNKNOWN
      end in
    ret (cancel_outcome order_id (rs_status response) (Some order_state) bid (rs_reason response)).

(** ** Adapter submissions *)

(** The adapter submissions of a trace, with their results. *)
Definition submits (l : list effect) : list (ExecutionRequest * res ExecutionResponse) :=
  omap (fun fx => match fx with FxSubmit r x => Some (r, x) | _ => None end) l.

Lemma submits_app l1 l2 : submits (l1 ++ l2) = submits l1 ++ submits l2.
Proof. apply omap_app. Qed.

(** Computations that make no adapter submission, and stay configured. *)
Definition quiet {T} (m : M W T) : Prop := forall w,
  submits (w_trace (snd (m w))) = submits (w_trace w) /\
  (is_Some (w_repo w) -> is_Some (w_repo (snd (m w)))).

Lemma quiet_ret {T} (a : T) : quiet (ret a).
Proof. done. Qed.
Lemma quiet_lift {T} (r : res T) : quiet (lift r).
Proof. done. Qed.
Lemma quiet_throw {T} c msg : quiet (throw (A:=T) c msg).
Proof. done. Qed.
Lemma quiet_gets {T} (f : W -> T) : quiet (gets f).
Proof. done. Qed.
Lemma quiet_metric c : quiet (metric c).
Proof. done. Qed.
Lemma quiet_call {T} (f : nat -> T) : quiet (call f).
Proof. done. Qed.
Lemma quiet_bind {T U} (m : M W T) (k : T -> M W U) :
  quiet m -> (forall a, quiet (k a)) -> quiet (bind m k).
Proof.
  intros Hm Hk w. specialize (Hm w) as [Hm Hr]. unfold bind.
  destruct (m w) as [[a|e] w1]; simpl in *; [|done].
  specialize (Hk a w1) as [Hk Hr']. split; [congruence | auto].
Qed.
Lemma quiet_try {T} (m : M W T) h :
  quiet m -> (forall e, match h e with Some k => quiet k | None => True end) ->
  quiet (try_except m h).
Proof.
  intros Hm Hh w. specialize (Hm w) as [Hm Hr]. unfold try_except.
  destruct (m w) as [[a|e] w1]; simpl in *; [done|]. specialize (Hh e).
  destruct (h e) as [k|]; [|done]. specialize (Hh w1) as [Hk Hr']. split; [congruence | auto].
Qed.
Lemma quiet_with_repo {T} (m : M R T) none : quiet (with_repo m none).
Proof.
  intros w. unfold with_repo. destruct (w_repo w) as [r|] eqn:E; [|simpl; rewrite E; done].
  by destruct (m r).
Qed.
Lemma quiet_repo_effect m fx : submits [fx] = [] -> quiet (repo_effect m fx).
Proof.
  intros Hfx w. assert (quiet (with_repo m tt ;* emit fx)) as Hq.
  { apply quiet_bind; [apply quiet_with_repo|]. intros _ w'. unfold emit. simpl.
    by rewrite submits_app, Hfx, app_nil_r. }
  specialize (Hq w). unfold repo_effect. destruct (w_repo w) eqn:E; simpl.
  - exact Hq.
  - by rewrite E.
Qed.
Lemma quiet_call_cancel o : quiet (call_cancel o).
Proof.
  apply quiet_bind.
  - intros w. unfold emit. simpl. by rewrite submits_app, app_nil_r.
  - intros _ w. by destruct (adapter_cancel o (w_adapter w)).
Qed.

End Engine.

Create HintDb quiet.
Create HintDb known.
#[export] Hint Resolve quiet_ret quiet_lift quiet_throw quiet_gets quiet_metric quiet_call
  quiet_bind quiet_try quiet_with_repo quiet_repo_effect quiet_call_cancel : quiet.

(** Follow the structure of a computation down to its primitive steps. *)
Ltac quiet_step :=
  match goal with
  | |- forall _, _ => intros ?
  | |- quiet (bind _ _) => apply quiet_bind
  | |- quiet (if ?b then _ else _) => destruct b
  | |- quiet (match ?x with _ => _ end) => destruct x
  | |- quiet (let _ := _ in _) => cbn zeta
  | |- quiet (try_except _ _) => apply quiet_try
  | |- quiet (repo_effect _ _) => apply quiet_repo_effect; reflexivity
  | |- quiet _ => solve [auto with quiet nocore]
  | |- match (if ?b then _ else _) with _ => _ end => destruct b
  | |- True => exact I
  end.
Ltac quiet_solve := repeat quiet_step.

Section Theorems.
Context {R A : Type} `{RepositoryLaws R} `{ExecutionAdapter A}.
Context (cfg : EngineConfig).
Abbreviation W := (World R A).

Lemma quiet_engine_apply_event e : quiet (engine_apply_event (R:=R) (A:=A) cfg e).
Proof. unfold engine_apply_event. quiet_solve. Qed.

Lemma quiet_order_event o t at_ reason bid : quiet (order_event (R:=R) (A:=A) cfg o t at_ reason bid).
Proof.
  unfold order_event, apply_order_event. quiet_solve. apply quiet_engine_apply_event.
Qed.
#[local] Hint Resolve quiet_engine_apply_event quiet_order_event : quiet.

Lemma quiet_validate r : quiet (validate_request (R:=R) (A:=A) cfg r).
Proof. unfold validate_request. quiet_solve. Qed.

Lemma quiet_finalize at_ st bid reason r os : quiet (finalize (R:=R) (A:=A) cfg at_ st bid reason r os).
Proof. unfold finalize. quiet_solve. Qed.
#[local] Hint Resolve quiet_finalize : quiet.

Lemma quiet_process at_ resp r : quiet (process_response (R:=R) (A:=A) cfg at_ resp r).
Proof. unfold process_response. quiet_solve. Qed.

Lemma quiet_cancel o : quiet (engine_cancel (R:=R) (A:=A) cfg o).
Proof. unfold engine_cancel. quiet_solve. Qed.

Lemma quiet_timeout at_ reason r : quiet (finalize_timeout (R:=R) (A:=A) cfg at_ reason r).
Proof. unfold finalize_timeout. quiet_solve. Qed.

(** ** Known executions stay known *)

Definition known (x : string * Z) (w : W) : Prop :=
  exists r, w_repo w = Some r /\ attempted x r.

Lemma known_with_repo x {T} (m : M R T) none :
  preserves (attempted x) m -> preserves (known x) (with_repo (A:=A) m none).
Proof.
  intros Hm w (r & Hr & Hx). unfold with_repo. rewrite Hr. specialize (Hm r Hx).
  destruct (m r) as [y r']. simpl. by exists r'.
Qed.

Lemma known_repo_effect x (m : M R unit) fx :
  preserves (attempted x) m -> preserves (known x) (repo_effect (A:=A) m fx).
Proof.
  intros Hm w Hw. assert (preserves (known x) (with_repo m tt ;* emit fx)) as Hp.
  { apply preserves_bind; [by apply known_with_repo | by intros _ w' Hw']. }
  unfold repo_effect. destruct (w_repo w); [by apply Hp | done].
Qed.

Lemma known_reads x {T} (m : M R T) none :
  reads m -> preserves (known x) (with_repo (A:=A) m none).
Proof. intros Hm. by apply known_with_repo, preserves_reads. Qed.

Lemma known_metric x c : preserves (known x) (metric (R:=R) (A:=A) c).
Proof. by intros w Hw. Qed.

Lemma known_call x {T} (f : nat -> T) : preserves (known x) (call (R:=R) (A:=A) f).
Proof. by intros w Hw. Qed.

Lemma known_cancel_call x o : preserves (known x) (call_cancel (R:=R) (A:=A) o).
Proof. intros w Hw. unfold call_cancel, bind, emit. simpl. by destruct (adapter_cancel _ _). Qed.

Lemma known_submit_call x r : preserves (known x) (call_submit (R:=R) (A:=A) r).
Proof. intros w Hw. unfold call_submit. by destruct (adapter_submit _ _). Qed.

Ltac known_step :=
  match goal with
  | |- forall _, _ => intros ?
  | |- preserves _ (bind _ _) => apply preserves_bind
  | |- preserves _ (if ?b then _ else _) => destruct b
  | |- preserves _ (match ?x with _ => _ end) => destruct x
  | |- preserves _ (let _ := _ in _) => cbn zeta
  | |- preserves _ (try_except _ _) => apply preserves_try
  | |- preserves _ (ret _) => apply preserves_ret
  | |- preserves _ (lift _) => apply preserves_lift
  | |- preserves _ (throw _ _) => apply preserves_lift
  | |- preserves _ (gets _) => apply preserves_gets
  | |- preserves _ (metric _) => apply known_metric
  | |- preserves _ (call _) => apply known_call
  | |- preserves _ (call_cancel _) => apply known_cancel_call
  | |- preserves _ (with_repo (find_attempt _ _) _) => apply known_reads, find_reads
  | |- preserves _ (with_repo (has_event _ _) _) => apply known_reads, has_reads
  | |- preserves _ (with_repo (get_event_hash _ _) _) => apply known_reads, hash_reads
  | |- preserves _ (with_repo (load_execution_state _) _) => apply known_reads, load_reads
  | |- preserves _ (repo_effect (save_event _ _ _ _) _) => apply known_repo_effect, event_keeps
  | |- preserves _ (repo_effect (update_attempt _ _ _ _ _) _) =>
      apply known_repo_effect, update_keeps
  | |- preserves _ (repo_effect (save_attempt _) _) => apply known_repo_effect, save_keeps
  | |- preserves _ _ => solve [auto with known nocore]
  | |- match (if ?b then _ else _) with _ => _ end => destruct b
  | |- True => exact I
  end.
Ltac known_solve := repeat known_step.

Lemma known_apply_event x e : preserves (known x) (engine_apply_event cfg e).
Proof. unfold engine_apply_event. known_solve. Qed.
#[local] Hint Resolve known_apply_event : known.

Lemma known_order_event x o t at_ reason bid :
  preserves (known x) (order_event cfg o t at_ reason bid).
Proof. unfold order_event, apply_order_event. known_solve. Qed.
#[local] Hint Resolve known_order_event : known.

Lemma known_finalize x at_ st bid reason r os :
  preserves (known x) (finalize cfg at_ st bid reason r os).
Proof. unfold finalize. known_solve. Qed.
#[local] Hint Resolve known_finalize : known.

Lemma known_process x at_ resp r : preserves (known x) (process_response cfg at_ resp r).
Proof. unfold process_response. known_solve. Qed.

Lemma known_timeout x at_ reason r : preserves (known x) (finalize_timeout cfg at_ reason r).
Proof. unfold finalize_timeout. known_solve. Qed.

Lemma known_validate x r : preserves (known x) (validate_request cfg r).
Proof. unfold validate_request. known_solve. Qed.

Lemma known_cancel x o : preserves (known x) (engine_cancel cfg o).
Proof. unfold engine_cancel. known_solve. Qed.

(** ** The submission loop *)

(** The adapter submissions of one [submit] call: transient failures, each
    followed by a retry, then at most one other result. *)
Inductive one_dispatch (r : ExecutionRequest)
    : list (ExecutionRequest * res ExecutionResponse) -> Prop :=
| od_none : one_dispatch r []
| od_last x : one_dispatch r [(r, x)]
| od_retry e l : isinstance e ExecutionTransientError = true ->
    one_dispatch r l -> one_dispatch r ((r, Err e) :: l).

(** What is reported for an adapter result that is not retried. *)
Definition reported (x : res ExecutionResponse) : option ExecutionSubmissionState :=
  match x with
  | Ok resp =>
      Some (match rs_status resp with
            | ss_ACKNOWLEDGED => ss_ACKNOWLEDGED
            | ss_SUBMITTED => ss_SUBMITTED
            | ss_REJECTED => ss_REJECTED
            | ss_TIMEOUT => ss_TIMEOUT
            | _ => ss_UNKNOWN
            end)
  | Err e =>
      if isinstance e ExecutionTransientError then Some ss_REJECTED
      else if isinstance e ExecutionTimeoutError then Some ss_TIMEOUT
      else if isinstance e ExecutionError then
        Some (if decide (failure_class e = UNKNOWN_EXTERNAL_STATE) then ss_UNKNOWN else ss_REJECTED)
      else None
  end.

(** The outcome of a [submit] call reports its last adapter result. *)
Definition reports (rs : res (option ExecutionOutcome))
    (l : list (ExecutionRequest * res ExecutionResponse)) : Prop :=
  match rs with
  | Ok (Some o) => oc_duplicate o = false ->
      exists l0 rx, l = l0 ++ [rx] /\ reported rx.2 = Some (oc_submission_state o)
  | _ => True
  end.

Lemma persist_known a (w : W) u w1 :
  is_Some (w_repo w) -> persist a w = (Ok u, w1) ->
  known (at_execution_id a, at_attempt_number a) w1.
Proof.
  intros [r Hr]. unfold persist, repo_effect, with_repo, bind, emit, modify. rewrite Hr, ?Hr.
  destruct (save_attempt a r) as [[[]|e] r'] eqn:E; simpl; intros; simplify_eq/=.
  exists r'. split; [done|]. by eapply attempted_saved.
Qed.

Lemma persist_or_existing_spec a req (w : W) rs w1 :
  persist_or_existing a req w = (rs, w1) ->
  submits (w_trace w1) = submits (w_trace w) /\
  (is_Some (w_repo w) -> is_Some (w_repo w1)) /\
  (forall x, known x w -> known x w1) /\
  match rs with
  | Ok None => persist a w = (Ok tt, w1)
  | Ok (Some o) => oc_duplicate o = true
  | Err _ => True
  end.
Proof.
  intros E.
  assert (quiet (persist_or_existing (R:=R) (A:=A) a req)) as Hq.
  { unfold persist_or_existing, persist, find_existing. quiet_solve. }
  assert (forall x, preserves (known x) (persist_or_existing (R:=R) (A:=A) a req)) as Hk.
  { intros x. unfold persist_or_existing, persist, find_existing. known_solve. }
  specialize (Hq w) as [Hq1 Hq2]. rewrite E in Hq1, Hq2. split_and!; [done..| |].
  { intros x Hx. specialize (Hk x w Hx). by rewrite E in Hk. }
  clear Hq1 Hq2 Hk. revert E. unfold persist_or_existing, try_except, bind at 1.
  destruct (persist a w) as [[[]|e] w2] eqn:Ep; simpl; [by intros; simplify_eq|].
  destruct (isinstance e IntegrityError); [|by intros; simplify_eq].
  unfold bind, lift, ret.
  destruct (find_existing req w2) as [[[x|]|e2] w3]; simpl; intros; by simplify_eq.
Qed.

(** Walk through a successful run to the value it returns. *)
Ltac run_to_end E := repeat (apply bind_ok in E as (? & ? & _ & E)); by inversion E.

(** The end of an iteration: every finishing branch is quiet, keeps known
    executions and reports the result. *)
Lemma dispatch_done_spec n a req x m :
  dispatch_result (R:=R) (A:=A) cfg n a req x = Done m ->
  quiet m /\ (forall y, preserves (known y) m) /\
  (forall w o w', m w = (Ok o, w') -> reported x = Some (oc_submission_state o)).
Proof.
  unfold dispatch_result. destruct x as [resp|e].
  - intros [= <-]. split_and!.
    + apply quiet_process.
    + intros y. apply known_process.
    + intros w o w' E. unfold process_response in E. simpl. 
      destruct (rs_status resp); run_to_end E.
  - unfold reported. destruct (isinstance e ExecutionTransientError).
    { destruct (n <? cfg_max_retries cfg); [done|]. intros [= <-]. split_and!.
      - quiet_solve.
      - known_solve.
      - intros w o w' E. run_to_end E. }
    destruct (isinstance e ExecutionTimeoutError).
    { intros [= <-]. split_and!.
      - quiet_solve. apply quiet_timeout.
      - intros y. apply preserves_bind; [apply known_metric|intros _; apply known_timeout].
      - intros w o w' E. run_to_end E. }
    destruct (isinstance e ExecutionError); [|done]. intros [= <-]. split_and!.
    + quiet_solve.
    + known_solve.
    + intros w o w' E. destruct (decide _); run_to_end E.
Qed.

(** The loop goes round again only after a transient error with a retry left. *)
Lemma dispatch_retry_spec n a req x : dispatch_result (R := R) (A := A) cfg n a req x = Retry ->
  exists e, x = Err e /\ isinstance e ExecutionTransientError = true /\ n < cfg_max_retries cfg.
Proof.
  unfold dispatch_result. destruct x as [|e]; [done|]. intros Ed. exists e.
  destruct (isinstance e ExecutionTransientError).
  - by destruct (Z.ltb_spec n (cfg_max_retries cfg)).
  - destruct (isinstance e ExecutionTimeoutError); [done|]. by destruct (isinstance e ExecutionError).
Qed.

Lemma call_submit_traced req (w : W) x w' : call_submit req w = (x, w') ->
  submits (w_trace w') = submits (w_trace w) ++ [(req, x)].
Proof.
  unfold call_submit. destruct (adapter_submit req _) as [y a']. simpl.
  intros [= <- <-]. simpl. by rewrite submits_app.
Qed.

Lemma reports_cons rs c l : reports rs l -> reports rs (c :: l).
Proof.
  destruct rs as [[o|]|]; simpl; [|done..]. intros Hrep Ho.
  destruct (Hrep Ho) as (l0 & rx & -> & Hx). by exists (c :: l0), rx.
Qed.

Lemma submit_loop_spec fuel : forall n a req (w : W) rs w',
  submit_loop cfg fuel n a req w = (rs, w') ->
  at_execution_id a = rq_execution_id req -> at_attempt_number a = n ->
  exists l, submits (w_trace w') = submits (w_trace w) ++ l /\ one_dispatch req l /\
    (List.length l <= fuel)%nat /\ (forall x, known x w -> known x w') /\ reports rs l /\
    (rs = Ok None -> Z.of_nat fuel <= Z.max 0 (cfg_max_retries cfg - n)) /\
    (is_Some (w_repo w) -> n = 0 \/ known (rq_execution_id req, 0) w ->
     (l <> [] -> known (rq_execution_id req, 0) w') /\ is_Some (w_repo w')).
Proof.
  induction fuel as [|fuel IH]; intros n a req w rs w' E Hid Hn; simpl in E.
  { inv E. exists []. rewrite app_nil_r. split_and!; try done; [constructor | simpl; lia]. }
  unfold bind at 1 in E.
  destruct (persist_or_existing a req w) as [rp w1] eqn:Ep.
  apply persist_or_existing_spec in Ep as (Hs1 & Hr1 & Hk1 & Hp).
  destruct rp as [[o|]|e].
  1,3: inv E; exists []; rewrite app_nil_r; split_and!; try apply od_none; try done;
    simpl; try lia; try congruence; try (by auto); (split; [done|by auto]).
  assert (is_Some (w_repo w) -> n = 0 \/ known (rq_execution_id req, 0) w ->
          known (rq_execution_id req, 0) w1) as Hkn.
  { intros Hr [->|Hk]; [|by apply Hk1]. rewrite <- Hid, <- Hn. by eapply persist_known. }
  unfold bind at 1 in E. simpl in E.
  set (w2 := {| w_repo := w_repo w1 |}) in E.
  destruct (call_submit req w2) as [x w3] eqn:Ec.
  assert (submits (w_trace w3) = submits (w_trace w) ++ [(req, x)]) as Hs3.
  { rewrite (call_submit_traced _ _ _ _ Ec). simpl. by rewrite Hs1. }
  assert (forall y, known y w1 -> known y w3) as Hk3.
  { intros y Hy. pose proof (known_submit_call y req w2 Hy) as Hc. by rewrite Ec in Hc. }
  destruct (dispatch_result cfg n a req x) as [|m|e] eqn:Ed.
  - (* retry *)
    apply dispatch_retry_spec in Ed as (e & -> & Hte & Hlt).
    unfold bind, new_attempt, metric, modify, call, ret in E. simpl in E.
    match type of E with submit_loop _ _ _ ?a' _ ?w4 = _ => set (w5 := w4) in E; set (a5 := a') in E end.
    destruct (IH _ a5 req w5 rs w' E) as (l & Hl & Hod & Hlen & Hkk & Hrep & Hfuel & Hrk); [done..|].
    exists ((req, Err e) :: l). split_and!.
    + rewrite Hl. unfold w5. simpl. by rewrite Hs3, <- app_assoc.
    + by constructor.
    + simpl. lia.
    + intros y Hy. apply Hkk. apply (Hk3 y). by apply Hk1.
    + by apply reports_cons.
    + intros Hnone. specialize (Hfuel Hnone). lia.
    + intros Hr Hk. assert (known (rq_execution_id req, 0) w5) as Hk5 by (apply Hk3; auto).
      destruct Hrk as [_ Hr5]; [|by right|by auto].
      destruct Hk5 as (r5 & Hr5 & _). by exists r5.
  - apply dispatch_done_spec in Ed as (Hq & Hkm & Hrep). unfold bind in E.
    specialize (Hq w3) as [Hq Hqr].
    pose proof (fun y => Hkm y w3) as Hkm3.
    assert (is_Some (w_repo w) -> n = 0 \/ known (rq_execution_id req, 0) w ->
            known (rq_execution_id req, 0) (snd (m w3)) /\ is_Some (w_repo (snd (m w3)))) as Hend.
    { intros Hr Hk. specialize (Hk3 _ (Hkn Hr Hk)). split; [by apply Hkm3|].
      apply Hqr. destruct Hk3 as (r3 & ? & _). by exists r3. }
    destruct (m w3) as [[o|e] w4] eqn:Em; simpl in *; inv E; exists [(req, x)];
      split_and!; try (by intros); try apply od_last; try (simpl; lia);
      try (by rewrite Hq, Hs3); try (intros; by auto); try (intros Hr Hk; by destruct (Hend Hr Hk)).
    intros _. exists [], (req, x). split; [done|]. simpl. by eapply Hrep.
  - inv E. exists [(req, x)]. split_and!; try done; try apply od_last; try (simpl; lia); [by auto|].
    intros Hr Hk. specialize (Hk3 _ (Hkn Hr Hk)). split; [done|].
    destruct Hk3 as (r3 & ? & _). by exists r3.
Qed.

#[local] Arguments submit_loop : simpl never.

(** One [submit] call, with or without a repository. *)
Lemma engine_submit_run req (w : W) rs w' :
  engine_submit cfg req w = (rs, w') ->
  exists l, submits (w_trace w') = submits (w_trace w) ++ l /\ one_dispatch req l /\
    (List.length l <= loop_fuel cfg)%nat /\ (forall x, known x w -> known x w') /\
    reports rs l /\ rs <> Ok None /\ (known (rq_execution_id req, 0) w -> l = []) /\
    (is_Some (w_repo w) -> (l <> [] -> known (rq_execution_id req, 0) w') /\ is_Some (w_repo w')).
Proof.
  intros E. unfold engine_submit in E. unfold bind at 1 in E. simpl in E.
  set (w1 := {| w_repo := w_repo w |}) in E.
  unfold bind at 1 in E.
  pose proof (quiet_validate req w1) as [Hq1 Hr1].
  pose proof (fun x => known_validate x req w1) as Hk1.
  destruct (validate_request cfg req w1) as [[[]|e] w2]; simpl in *.
  2: { inv E. exists []. rewrite app_nil_r. split_and!; try done; [constructor|simpl; lia|].
       intros Hr. split; [done|by auto]. }
  unfold bind at 1 in E.
  pose proof (quiet_with_repo (A:=A) (find_attempt (rq_execution_id req) 0) None w2) as [Hq2 Hr2].
  pose proof (fun x => known_reads x _ None (find_reads (rq_execution_id req) 0) w2) as Hk2.
  assert (known (rq_execution_id req, 0) w2 -> fst (find_existing req w2) <> Ok None) as Hf.
  { intros (r & Hw2 & Hx). unfold find_existing, with_repo. rewrite Hw2.
    pose proof (attempted_found _ _ _ Hx). by destruct (find_attempt _ _ r). }
  unfold find_existing in *.
  destruct (with_repo _ _ w2) as [[[x|]|e] w3]; simpl in *.
  1,3: unfold bind, metric, modify, ret in *; simpl in *; inversion E; subst; exists [];
    rewrite app_nil_r; simpl; split_and!; try apply od_none; try done; try lia;
    try (by rewrite Hq2); try (intros y Hy; apply (Hk2 y); by apply Hk1);
    (intros Hr; split; [done|by auto]).
  unfold bind, new_attempt, call, ret in E. simpl in E.
  match type of E with submit_loop _ _ _ ?a' _ ?w4 = _ => set (w5 := w4) in E; set (a5 := a') in E end.
  destruct (submit_loop_spec _ _ a5 req w5 rs w' E) as (l & Hl & Hod & Hlen & Hkk & Hrep & Hfuel & Hrk);
    [done..|].
  exists l. split_and!; try done.
  - rewrite Hl. unfold w5. simpl. by rewrite Hq2, Hq1.
  - intros y Hy. apply Hkk. apply (Hk2 y). by apply Hk1.
  - intros Hnone. specialize (Hfuel Hnone). unfold loop_fuel in Hfuel. lia.
  - intros Hy. exfalso. apply Hf; [|done]. by apply Hk1.
  - intros Hr. apply Hrk; [by auto|by left].
Qed.

(** One [submit] call of an engine with a repository. *)
Lemma engine_submit_spec req (w : W) rs w' :
  engine_submit cfg req w = (rs, w') -> is_Some (w_repo w) ->
  exists l, submits (w_trace w') = submits (w_trace w) ++ l /\ one_dispatch req l /\
    (List.length l <= loop_fuel cfg)%nat /\ (l <> [] -> known (rq_execution_id req, 0) w') /\
    (forall x, known x w -> known x w') /\ reports rs l /\ rs <> Ok None /\
    (known (rq_execution_id req, 0) w -> l = []) /\ is_Some (w_repo w').
Proof.
  intros E Hr. destruct (engine_submit_run req w rs w' E)
    as (l & Hl & Hod & Hlen & Hkk & Hrep & Hnone & Hdup & Hrk).
  destruct (Hrk Hr) as [Hkl Hr']. eauto 20.
Qed.

(** ** Histories of engine operations *)

Inductive op :=
| OpSubmit (r : ExecutionRequest)
| OpCancel (order_id : UUID)
| OpEvent (e : BrokerOrderEvent).

(** The world after an operation, whether it returned or raised. *)
Definition run_op (w : W) (o : op) : W :=
  match o with
  | OpSubmit r => snd (engine_submit cfg r w)
  | OpCancel oid => snd (engine_cancel cfg oid w)
  | OpEvent e => snd (engine_apply_event cfg e w)
  end.

Definition run_ops (w : W) (ops : list op) : W := foldl run_op w ops.

(** The adapter submissions of one execution. *)
Definition submits_of (x : string) (w : W) : list (ExecutionRequest * res ExecutionResponse) :=
  filter (fun rx => rq_execution_id rx.1 = x) (submits (w_trace w)).

(** ACKNOWLEDGED and SUBMITTED are only reported for an answer that says so. *)
Lemma reported_answer (r : ExecutionRequest) x st l0 : reported x = Some st ->
  st = ss_ACKNOWLEDGED \/ st = ss_SUBMITTED ->
  exists resp, l0 ++ [(r, x)] = l0 ++ [(r, Ok resp)] /\ rs_status resp = st.
Proof.
  destruct x as [resp|e]; simpl.
  - intros [= Hx] Hst. exists resp. split; [done|]. destruct (rs_status resp), Hst; congruence.
  - intros Hx Hst. exfalso. revert Hx. repeat case_match; intros; simplify_eq; by destruct Hst.
Qed.

Lemma one_dispatch_requests r l : one_dispatch r l -> Forall (fun rx => rx.1 = r) l.
Proof. induction 1; constructor; auto. Qed.

Lemma one_dispatch_filter r l x : one_dispatch r l ->
  filter (fun rx => rq_execution_id rx.1 = x) l = if decide (rq_execution_id r = x) then l else [].
Proof.
  intros Hl. apply one_dispatch_requests in Hl.
  induction Hl as [|[r' y] l Hr Hl IH]; [by destruct (decide _)|]. simpl in Hr. subst r'.
  rewrite filter_cons. simpl. rewrite IH. by destruct (decide (rq_execution_id r = x)).
Qed.

(** The adapter submissions [l] of execution [x] come from one [submit] call of
    the history [ops]: none before it, all of [l] during it. *)
Definition by_one_submit (x : string) (w : W) (ops : list op)
    (l : list (ExecutionRequest * res ExecutionResponse)) : Prop :=
  exists pre r post, ops = pre ++ OpSubmit r :: post /\ rq_execution_id r = x /\
    submits_of x (run_ops w pre) = [] /\
    submits_of x (run_op (run_ops w pre) (OpSubmit r)) = l /\ one_dispatch r l.

(** What the history of one execution looks like. *)
Definition dispatched_once (x : string) (w : W) (ops : list op) : Prop :=
  let w' := run_ops w ops in
  is_Some (w_repo w') /\ (submits_of x w' <> [] -> known (x, 0) w') /\
  (submits_of x w' <> [] -> by_one_submit x w ops (submits_of x w')) /\
  (List.length (submits_of x w') <= loop_fuel cfg)%nat.

Lemma run_ops_snoc w ops o : run_ops w (ops ++ [o]) = run_op (run_ops w ops) o.
Proof. unfold run_ops. by rewrite foldl_app. Qed.

Lemma by_one_submit_snoc x w ops o l : by_one_submit x w ops l -> by_one_submit x w (ops ++ [o]) l.
Proof.
  intros (pre & r & post & -> & Hr). exists pre, r, (post ++ [o]).
  by rewrite <- app_assoc.
Qed.

Lemma dispatched_once_quiet {T} x (m : M W T) w ops o :
  quiet m -> preserves (known (x, 0)) m -> run_op (run_ops w ops) o = snd (m (run_ops w ops)) ->
  dispatched_once x w ops -> dispatched_once x w (ops ++ [o]).
Proof.
  intros Hq Hk Ho (Hr & Hkn & Hod & Hlen). specialize (Hq (run_ops w ops)) as [Hs Hr'].
  unfold dispatched_once. rewrite run_ops_snoc, Ho. unfold submits_of in *. rewrite Hs.
  split_and!; auto using by_one_submit_snoc.
Qed.

Lemma dispatched_once_op x w ops o : dispatched_once x w ops -> dispatched_once x w (ops ++ [o]).
Proof.
  destruct o as [r|oid|e]; intros Hw.
  2: { by apply (dispatched_once_quiet x (engine_cancel cfg oid));
         [apply quiet_cancel | apply known_cancel | |]. }
  2: { by apply (dispatched_once_quiet x (engine_apply_event cfg e));
         [apply quiet_engine_apply_event | apply known_apply_event | |]. }
  destruct Hw as (Hr & Hkn & Hod & Hlen). unfold dispatched_once.
  rewrite run_ops_snoc. simpl. set (w0 := run_ops w ops) in *.
  destruct (engine_submit cfg r w0) as [rs w'] eqn:E.
  destruct (engine_submit_spec r w0 rs w' E Hr)
    as (l & Hl & Hodl & Hlenl & Hkl & Hkk & _ & _ & Hdup & Hr').
  assert (submits_of x w' = submits_of x w0 ++ if decide (rq_execution_id r = x) then l else [])
    as Hx by (unfold submits_of; by rewrite Hl, filter_app, (one_dispatch_filter r l x Hodl)).
  simpl. split; [done|]. rewrite !Hx.
  destruct (decide (rq_execution_id r = x)) as [<-|Hne].
  - destruct (submits_of (rq_execution_id r) w0) as [|p l0] eqn:Ef.
    + simpl. split_and!; [done| |done]. intros _. exists ops, r, []. split_and!; try done.
      simpl. fold w0. rewrite E. simpl. by rewrite Hx.
    + rewrite (Hdup (Hkn ltac:(done))), app_nil_r.
      split_and!; [|intros _; by apply by_one_submit_snoc, Hod|done].
      intros _. by apply Hkk, Hkn.
  - rewrite app_nil_r. split_and!; [|intros; by apply by_one_submit_snoc, Hod|done].
    intros Hn. by apply Hkk, Hkn.
Qed.

(** C1: at-most-once dispatch of an engine that is given a repository (the
    constructor's default is none).  Starting without a submission of the
    execution, over any sequence of engine operations, in
    any order and whatever they return or raise, the adapter sees at most
    [max_retries + 1] submissions of an execution; if it sees any, one single
    [submit] call of the sequence makes them all (none is made before it and
    none after it), for the request of that call, and each of them except the
    last failed transiently.  So an execution whose outcome is ambiguous
    (timeout, unknown) or definite is never sent to the broker again.  The
    repository is any that meets the laws of [RepositoryLaws] (an attempt once
    saved stays found), which the SQL repository is shown to meet.  Without a
    repository the guarantee does not exist
    ([EngineSample.no_repository_dispatches_twice]). *)
Theorem at_most_once_dispatch x w ops :
  is_Some (w_repo w) -> submits_of x w = [] ->
  let l := submits_of x (run_ops w ops) in
  (l = [] \/ by_one_submit x w ops l) /\
  Z.of_nat (List.length l) <= 1 + Z.max 0 (cfg_max_retries cfg).
Proof.
  intros Hr Hnil. cbn zeta.
  assert (dispatched_once x w ops) as (_ & _ & Hod & Hlen).
  { induction ops as [|o ops IH] using rev_ind; [|by apply dispatched_once_op].
    unfold dispatched_once, run_ops. simpl. rewrite Hnil. split_and!; try done. simpl. lia. }
  split; [|unfold loop_fuel in Hlen; lia].
  destruct (submits_of x (run_ops w ops)); [by left | right; by apply Hod].
Qed.

(** C10: with or without a repository, [submit] always terminates with an
    outcome or an exception, its adapter submissions are all of its request and
    only a transient failure is followed by another, and an outcome that is not
    a duplicate's reports the last adapter result through [reported]: the
    adapter's answer is reported with its own status when that is ACKNOWLEDGED,
    SUBMITTED, REJECTED or TIMEOUT and as UNKNOWN otherwise; a timeout error is
    TIMEOUT; a transient error with no retry left is REJECTED; any other
    [ExecutionError] is UNKNOWN when its failure class says the external state
    is unknown and REJECTED otherwise.  In particular ACKNOWLEDGED or SUBMITTED
    is reported only when the adapter answered just that, while REJECTED is
    also what exhausted retries and other execution errors are reported as. *)
Theorem submit_terminates_and_reports req (w : W) rs w' :
  engine_submit cfg req w = (rs, w') ->
  rs <> Ok None /\
  exists l, submits (w_trace w') = submits (w_trace w) ++ l /\ one_dispatch req l /\ reports rs l /\
    forall o, rs = Ok (Some o) -> oc_duplicate o = false ->
      oc_submission_state o = ss_ACKNOWLEDGED \/ oc_submission_state o = ss_SUBMITTED ->
      exists l0 resp, l = l0 ++ [(req, Ok resp)] /\ rs_status resp = oc_submission_state o.
Proof.
  intros E. destruct (engine_submit_run req w rs w' E)
    as (l & Hl & Hod & _ & _ & Hrep & Hnone & _). split; [done|]. exists l. split_and!; [done..|].
  intros o -> Hdup Hst. destruct (Hrep Hdup) as (l0 & [r x] & -> & Hx). simpl in Hx.
  assert (r = req) as -> by (apply one_dispatch_requests, Forall_app in Hod as [_ Hod]; by inv Hod).
  exists l0. by apply reported_answer.
Qed.

(** ** Admission *)

(** The conditions under which a request is dispatched; [tick] counts the
    calls of the injected callables. *)
Definition admitted (req : ExecutionRequest) (tick : nat) : bool :=
  bool_decide (py_upper (rq_trading_mode req) ∈ ALLOWED_MODES) &&
  negb (cfg_global_halt_active cfg tick) &&
  match dt_le (rq_approval_expires_at req) (cfg_clock cfg (S tick)) with
  | Ok expired => negb expired
  | Err _ => false
  end &&
  negb (is_blank (rq_risk_approval_id req)).

(** The repository, the adapter and the effects are those of [w]. *)
Definition untouched (w w' : W) : Prop :=
  w_repo w' = w_repo w /\ w_adapter w' = w_adapter w /\ w_trace w' = w_trace w.

Lemma validate_spec req (w : W) :
  untouched w (snd (validate_request cfg req w)) /\
  if admitted req (w_tick w) then fst (validate_request cfg req w) = Ok tt
  else exists e, fst (validate_request cfg req w) = Err e /\
       (dt_comparable (rq_approval_expires_at req) (cfg_clock cfg (S (w_tick w))) = true ->
        exn_cls e = ExecutionValidationError).
Proof.
  unfold validate_request, admitted, untouched, bind, call, lift, metric, modify, throw, raise.
  destruct (String.eqb_spec (py_upper (rq_trading_mode req)) "LIVE") as [->|Hne].
  { replace (bool_decide ("LIVE"%string ∈ ALLOWED_MODES)) with false by (vm_compute; reflexivity).
    simpl. split; [done|]. eexists; eauto. }
  case_bool_decide as Hm; simpl; [|split; [done|]; eexists; eauto].
  destruct (cfg_global_halt_active cfg (w_tick w)); simpl; [split; [done|]; eexists; eauto|].
  unfold dt_le, dt_cmp.
  destruct (dt_comparable _ _); simpl; [|split; [done|]; eexists; by split].
  destruct (dt_instant _ <=? _); simpl; [split; [done|]; eexists; eauto|].
  destruct (is_blank _); simpl; [split; [done|]; eexists; eauto | done].
Qed.

(** fail-closed admission.  A request in LIVE or any unknown mode, under an
    active global halt, with an expired approval or with a blank approval id is
    refused with an exception before the repository or the adapter is touched;
    so an adapter submission implies that every condition held when [submit]
    checked it. *)
Theorem submit_fails_closed req (w : W) rs w' :
  engine_submit cfg req w = (rs, w') -> admitted req (w_tick w) = false ->
  untouched w w' /\ exists e, rs = Err e.
Proof.
  intros E Ha. unfold engine_submit in E. unfold bind at 1 in E. simpl in E.
  set (w1 := {| w_repo := w_repo w |}) in E.
  destruct (validate_spec req w1) as [Hu Hv]. replace (w_tick w1) with (w_tick w) in Hv by done.
  rewrite Ha in Hv. destruct Hv as (e & He & _). unfold bind at 1 in E.
  destruct (validate_request cfg req w1) as [r w2]. simpl in *. subst r. inv E. eauto.
Qed.

(** cancellation never claims more than the broker confirmed.  [cancel]
    reports CANCELLED only if the adapter answered CANCELLED, and unless it did
    the stored order is left as it was. *)
Theorem cancel_only_if_confirmed oid (w : W) o w' :
  engine_cancel cfg oid w = (Ok o, w') ->
  (oc_order_state o = Some CANCELLED <->
   exists resp a, cap_supports_cancellation (capabilities (w_adapter w)) = true /\
     adapter_cancel oid (w_adapter w) = (Ok resp, a) /\ rs_status resp = ss_CANCELLED) /\
  (oc_order_state o <> Some CANCELLED -> w_repo w' = w_repo w).
Proof.
  unfold engine_cancel. unfold bind at 1, gets. simpl.
  destruct (cap_supports_cancellation _) eqn:Ecap; simpl.
  2: { intros [= <- <-]. split; [|done]. split; [done|]. by intros (? & ? & ? & _). }
  unfold bind at 1, metric at 1, modify. simpl. unfold bind at 1, call_cancel, bind at 1, emit, modify.
  simpl. destruct (adapter_cancel oid (w_adapter w)) as [[resp|e] a]; [|done].
  destruct (rs_status resp) eqn:Est; unfold bind, metric, modify, ret; simpl;
    try (intros [= <- <-]; simpl; split; [|done]; split; [done|];
         intros (? & ? & _ & [= <- <-] & Hst); congruence).
  destruct (order_event cfg oid _ _ _ _ _) as [[u|e] w2]; [|done]. intros [= <- <-]. simpl.
  split; [|done]. split; [|done]. intros _. by exists resp, a.
Qed.

End Theorems.

(** * The engine over the SQL repository *)

Section SqlEngine.
Context {DB A : Type} `{Session DB row exec_constraint} `{ExecutionAdapter A}.
Context (cfg : EngineConfig).
Abbreviation W := (World DB A).

(** The state of an order as [load_execution_state] rebuilds it: the audit
    trail is not stored and the filled quantity is an integer column. *)
Definition reloaded (s : OrderExecutionState) : OrderExecutionState := {|
  xs_lifecycle := {| lc_order_id := lc_order_id (xs_lifecycle s);
                     lc_state := lc_state (xs_lifecycle s); lc_transitions := [] |};
  xs_order_quantity := xs_order_quantity s;
  xs_filled_quantity := dec_of_Z (int_of_dec (xs_filled_quantity s));
  xs_broker_order_id := xs_broker_order_id s;
|}.

Definition order_row_of (s : OrderExecutionState) (o : Order) : Prop :=
  or_id o = lc_order_id (xs_lifecycle s) /\
  or_status o = order_state_value (lc_state (xs_lifecycle s)) /\
  dec_of_Z (or_quantity o) = xs_order_quantity s /\
  or_filled_quantity o = Some (int_of_dec (xs_filled_quantity s)) /\
  or_broker_order_id o = xs_broker_order_id s.

(** What a saved event leaves in the database. *)
Definition recorded (e : BrokerOrderEvent) (s : OrderExecutionState) (m : gmap N row) : Prop :=
  (exists k ev payload, m !! k = Some (REvent ev) /\
     oe_source_event_id ev = Some (compute_event_identity e) /\
     oe_event_payload ev = Some payload /\
     payload !! "_content_hash"%string = Some (PStr (event_content_hash e))) /\
  (exists k o, m !! k = Some (ROrder o) /\ order_row_of s o).

Lemma load_spec oid (db : DB) s :
  fst (sql_load_execution_state oid db) = Ok (Some s) ->
  exists k o st, rows db !! k = Some (ROrder o) /\ or_id o = oid /\
    (forall k' r', rows db !! k' = Some r' -> is_order oid r' = true -> k' = k) /\
    order_state_of_value (or_status o) = Ok st /\
    s = {| xs_lifecycle := {| lc_order_id := or_id o; lc_state := st; lc_transitions := [] |};
           xs_order_quantity := dec_of_Z (or_quantity o);
           xs_filled_quantity := dec_of_Z (default 0 (or_filled_quantity o));
           xs_broker_order_id := or_broker_order_id o |}.
Proof.
  unfold sql_load_execution_state, bind. pose proof (scalar_some (is_order oid) db) as Hs.
  destruct (scalar_one_or_none _ db) as [[[[k [| |o]]|]|e] db']; simpl in *; try done.
  destruct (Hs _ _ eq_refl) as (Hk & Hp & Hu). simpl in Hp. apply N.eqb_eq in Hp.
  unfold lift. destruct (order_state_of_value (or_status o)) as [st|] eqn:Est; [|done].
  unfold mk_OrderExecutionState. destruct (OrderExecutionState_post_init _); simpl; [|done].
  intros [= <-]. by exists k, o, st.
Qed.

(** Saving the successor of the loaded state records the event. *)
Lemma save_event_recorded e s eid s' (db db0 db' : DB) :
  fst (sql_load_execution_state (ev_order_id e) db) = Ok (Some s) -> rows db0 = rows db ->
  apply_event s e eid = Ok s' ->
  sql_save_event (ev_order_id e) e s' (compute_event_identity e) db0 = (Ok tt, db') ->
  recorded e s' (rows db').
Proof.
  intros Hload Hrows Happ. apply load_spec in Hload as (k & o & st & Hk & Hid & Hu & _ & ->).
  pose proof Happ as Hinv. apply apply_event_inv in Hinv as (_ & _ & Hoid & Hqty & _ & _).
  unfold sql_save_event, bind. pose proof (scalar_some (is_order (ev_order_id e)) db0) as Hs.
  pose proof (scalar_reads (is_order (ev_order_id e)) db0) as Hread.
  destruct (scalar_one_or_none _ db0) as [[[[k' [| |o']]|]|x] db1]; simpl in *; try done. subst db1.
  destruct (Hs _ _ eq_refl) as (Hk' & Hp & _). rewrite Hrows in Hk'.
  assert (k' = k) as -> by by eapply Hu. simplify_eq.
  intros E. apply commit_ok in E as [Ha _].
  inversion Ha as [| |k1 r1 cs1 m1 m1' _ Hrest]; subst.
  inversion Hrest as [|k2 r2 cs2 m2 m2' Hfresh Hrest2|]; subst. inversion Hrest2; subst.
  assert (k2 <> k) as Hne by (intros ->; by rewrite lookup_insert_eq in Hfresh).
  split.
  - eexists k2, _, _. rewrite lookup_insert_eq. split_and!; try done. simpl. by rewrite lookup_insert_eq.
  - eexists k, _. rewrite lookup_insert_ne by done. rewrite lookup_insert_eq. split; [done|].
    unfold order_row_of. simpl in *. rewrite Hoid, Hqty. split_and!; try done.
    destruct (xs_broker_order_id s') as [b|] eqn:Eb; [done|].
    pose proof (apply_event_broker _ _ _ _ Happ) as Hb. rewrite Eb in Hb. simpl in Hb.
    revert Hb. unfold str_or. destruct (ev_broker_order_id e) as [c|]; [|done].
    by destruct (String.eqb c "").
Qed.

Lemma with_repo_reads {T} (m : M DB T) none (w : W) db :
  reads m -> w_repo w = Some db -> with_repo m none w = (fst (m db), set_repo db w).
Proof.
  intros Hm Hr. unfold with_repo. rewrite Hr. specialize (Hm db).
  destruct (m db) as [x db']. simpl in *. by subst db'.
Qed.

(** A first, successful application of an event records it. *)
Lemma fresh_event_recorded e (w : W) db s w1 :
  w_repo w = Some db ->
  (forall k r, rows db !! k = Some r -> is_event (compute_event_identity e) r = false) ->
  engine_apply_event cfg e w = (Ok s, w1) ->
  exists db1, w_repo w1 = Some db1 /\ recorded e s (rows db1) /\
              w_trace w1 = w_trace w ++ [FxSaveEvent e] /\
              lc_order_id (xs_lifecycle s) = ev_order_id e.
Proof.
  intros Hr Hnew E. unfold engine_apply_event in E. unfold bind at 1, gets in E. simpl in E.
  rewrite Hr in E. simpl in E. unfold bind at 1 in E.
  rewrite (with_repo_reads (sql_has_event _ _) _ _ db (sql_has_reads _ _) Hr) in E.
  assert (fst (sql_has_event (ev_order_id e) (compute_event_identity e) db) <> Ok true) as Hno.
  { unfold sql_has_event, bind.
    pose proof (scalar_some (is_event (compute_event_identity e)) db) as Hs.
    destruct (scalar_one_or_none _ db) as [[[[k r]|]|x] db']; simpl in *; try done.
    destruct (Hs _ _ eq_refl) as (Hk & Hp & _). by rewrite (Hnew _ _ Hk) in Hp. }
  simpl in E. destruct (fst (sql_has_event _ _ db)) as [[|]|x]; try done.
  unfold bind at 1 in E. rewrite (with_repo_reads _ _ _ db (sql_load_reads _)) in E by done. simpl in E.
  destruct (fst (sql_load_execution_state (ev_order_id e) db)) as [[s0|]|x] eqn:El; try done.
  unfold bind at 1, call in E. simpl in E. unfold bind at 1, lift in E.
  destruct (apply_event s0 e _) as [s1|x] eqn:Ea; [|done].
  unfold bind at 1 in E.
  match type of E with context [match ?m with (_, _) => _ end = _] =>
    set (mm := m) in E; assert (exists w2, mm = (Ok tt, w2) /\ w_repo w2 = Some db /\
      w_trace w2 = w_trace w) as (w2 & Hmm & Hr2 & Ht2);
      [unfold mm; destruct (ev_event_type e); unfold metric, modify, ret; simpl; eauto|]
  end.
  rewrite Hmm in E. unfold bind at 1, repo_effect in E. rewrite Hr2 in E.
  unfold bind at 1, with_repo in E. rewrite Hr2 in E.
  destruct (sql_save_event _ _ _ _ db) as [[[]|x] db1] eqn:Es; [|done].
  unfold emit, modify, ret in E. simpl in E. inv E. exists db1. simpl.
  split_and!; [done| |by rewrite Ht2|by eapply apply_event_order].
  by eapply save_event_recorded.
Qed.

Lemma recorded_has_event e s (db : DB) oid :
  recorded e s (rows db) -> fst (sql_has_event oid (compute_event_identity e) db) <> Ok false.
Proof.
  intros [(k & ev & payload & Hk & Hid & _) _]. unfold sql_has_event, bind.
  pose proof (scalar_none (is_event (compute_event_identity e)) db) as Hn.
  destruct (scalar_one_or_none _ db) as [[[[k' r]|]|x] db']; simpl in *; try done.
  specialize (Hn eq_refl _ _ Hk). simpl in Hn. by rewrite bool_decide_true in Hn.
Qed.

Lemma recorded_hash e s (db : DB) oid v :
  recorded e s (rows db) ->
  fst (sql_get_event_hash oid (compute_event_identity e) db) = Ok v ->
  v = Some (PStr (event_content_hash e)).
Proof.
  intros [(k & ev & payload & Hk & Hid & Hp & Hh) _]. unfold sql_get_event_hash, bind.
  pose proof (scalar_none (is_event (compute_event_identity e)) db) as Hn.
  pose proof (scalar_some (is_event (compute_event_identity e)) db) as Hs.
  destruct (scalar_one_or_none _ db) as [[[[k' r]|]|x] db']; simpl in *; try done.
  - destruct (Hs _ _ eq_refl) as (Hk' & _ & Hu).
    assert (k = k') as <- by (eapply Hu; [done|]; simpl; by rewrite bool_decide_true).
    rewrite Hk in Hk'. simplify_eq. rewrite Hp, Hh. by intros [= <-].
  - specialize (Hn eq_refl _ _ Hk). simpl in Hn. by rewrite bool_decide_true in Hn.
Qed.

Lemma recorded_load e s (db : DB) s' :
  recorded e s (rows db) ->
  fst (sql_load_execution_state (lc_order_id (xs_lifecycle s)) db) = Ok (Some s') ->
  s' = reloaded s.
Proof.
  intros [_ (k & o & Hk & Hid & Hst & Hq & Hf & Hb)] Hl.
  apply load_spec in Hl as (k' & o' & st & Hk' & Hid' & Hu & Hst' & ->).
  assert (k = k') as <- by (eapply Hu; [done|]; simpl; by apply N.eqb_eq).
  rewrite Hk in Hk'. simplify_eq. rewrite Hst, order_state_roundtrip in Hst'. simplify_eq.
  unfold reloaded. rewrite Hf, Hid, Hq, Hb. done.
Qed.

(** Re-delivery of an event identity that is already recorded. *)
Lemma redelivery e e2 s (w : W) db r w2 :
  w_repo w = Some db -> recorded e s (rows db) ->
  compute_event_identity e2 = compute_event_identity e ->
  ev_order_id e2 = lc_order_id (xs_lifecycle s) ->
  engine_apply_event cfg e2 w = (r, w2) ->
  w_repo w2 = w_repo w /\ w_trace w2 = w_trace w /\
  (event_content_hash e2 <> event_content_hash e -> exists x, r = Err x) /\
  (forall s', r = Ok s' -> s' = reloaded s).
Proof.
  intros Hr Hrec Hid Hoid E. unfold engine_apply_event in E. unfold bind at 1, gets in E. simpl in E.
  rewrite Hr in E. simpl in E. unfold bind at 1 in E.
  rewrite (with_repo_reads (sql_has_event _ _) _ _ db (sql_has_reads _ _) Hr), Hid in E. simpl in E.
  pose proof (recorded_has_event e s db (ev_order_id e2) Hrec) as Hhas.
  rewrite Hr. destruct (fst (sql_has_event _ _ db)) as [[|]|x]; [|done|by inv E; split_and!; eauto].
  unfold bind at 1 in E. rewrite (with_repo_reads _ _ _ db (sql_hash_reads _ _)) in E by done. simpl in E.
  pose proof (recorded_hash e s db (ev_order_id e2)) as Hhash.
  destruct (fst (sql_get_event_hash _ _ db)) as [v|x]; [|by inv E; split_and!; eauto].
  rewrite (Hhash v Hrec eq_refl) in E. case_bool_decide as Hc; [by inv E; split_and!; eauto|].
  assert (event_content_hash e2 = event_content_hash e) as Heq.
  { by injection Hc. }
  unfold bind at 1, metric, modify in E. simpl in E. unfold bind at 1 in E.
  rewrite (with_repo_reads _ _ _ db (sql_load_reads _)) in E by done. simpl in E.
  rewrite Hoid in E. pose proof (recorded_load e s db) as Hload.
  destruct (fst (sql_load_execution_state _ db)) as [[s1|]|x]; inv E; simpl; split_and!; eauto;
    try (by intros); intros s' Hs'; inv Hs'; by apply Hload.
Qed.

(** events are applied exactly once.  After the first application of a
    broker event succeeded, delivering it again changes neither the database
    nor the effects and, if it answers, answers with the stored result of the
    first application; a different payload under the same event identity is
    refused and changes nothing either. *)
Theorem event_exactly_once e (w : W) db s w1 e2 r w2 :
  w_repo w = Some db ->
  (forall k x, rows db !! k = Some x -> is_event (compute_event_identity e) x = false) ->
  engine_apply_event cfg e w = (Ok s, w1) ->
  compute_event_identity e2 = compute_event_identity e -> ev_order_id e2 = ev_order_id e ->
  engine_apply_event cfg e2 w1 = (r, w2) ->
  w_repo w2 = w_repo w1 /\ w_trace w2 = w_trace w1 /\
  (event_content_hash e2 <> event_content_hash e -> exists x, r = Err x) /\
  (forall s', r = Ok s' -> s' = reloaded s).
Proof.
  intros Hr Hnew E1 Hid Hoid E2.
  destruct (fresh_event_recorded e w db s w1 Hr Hnew E1) as (db1 & Hr1 & Hrec & _ & Hlc).
  eapply redelivery; eauto. congruence.
Qed.

(** ** Retried submissions *)

(** With two stored attempts of an execution, the update of an attempt raises. *)
Lemma update_attempt_ambiguous x n m st bid t reason (db : DB) :
  sql_attempted (x, 0) db -> sql_attempted (x, n) db -> n <> 0 -> 0 <= m ->
  exists e, fst (sql_update_attempt (compute_attempt_id x m) st bid t reason db) = Err e.
Proof.
  intros (k1 & a1 & Hk1 & Hx1 & Hn1) (k2 & a2 & Hk2 & Hx2 & Hn2) Hn Hm.
  unfold sql_update_attempt. rewrite execution_id_roundtrip by done. unfold bind.
  match goal with |- context [scalar_one_or_none ?p db] =>
    destruct (scalar_multiple p db k1 k2 _ _ Hk1 Hk2) as [e He] end.
  - simpl in Hx1. by rewrite Hx1, String.eqb_refl.
  - simpl in Hx2. by rewrite Hx2, String.eqb_refl.
  - intros ->. simpl in *. rewrite Hk1 in Hk2. injection Hk2 as ->. congruence.
  - exists e. destruct (scalar_one_or_none _ db) as [[o|e'] db']; simpl in *; congruence.
Qed.

(** The execution has two stored attempts. *)
Definition ambiguous (x : string) (n : Z) (w : W) : Prop :=
  known (R:=DB) (A:=A) (x, 0) w /\ known (x, n) w.

Definition raises {T} (x : string) (n : Z) (q : M W T) : Prop :=
  forall w, ambiguous x n w -> exists e w', q w = (Err e, w').

Lemma raises_bind {T U} x n (p : M W T) (q : T -> M W U) :
  (forall z, preserves (known (R:=DB) (A:=A) z) p) -> (forall t, raises x n (q t)) ->
  raises x n (bind p q).
Proof.
  intros Hp Hq w [H1 H2]. unfold bind. pose proof (Hp (x, 0) w H1) as Hp0.
  pose proof (Hp (x, n) w H2) as Hpn.
  destruct (p w) as [[u|e] w2]; simpl in *; [by apply Hq | eauto].
Qed.

Lemma raises_finalize x n m a st bid reason req os :
  n <> 0 -> 0 <= m -> at_attempt_id a = compute_attempt_id x m ->
  raises x n (finalize cfg a st bid reason req os).
Proof.
  intros Hn Hm Ha w ((db & Hr & Hk0) & (db' & Hr' & Hkn)). rewrite Hr in Hr'. injection Hr' as <-.
  unfold finalize, bind at 1, gets. simpl. rewrite Hr. unfold bind at 1.
  unfold bind at 1, call. unfold repo_effect. simpl. rewrite Hr. unfold bind, with_repo. simpl.
  rewrite Ha. destruct (update_attempt_ambiguous x n m st bid (Some (cfg_clock cfg (w_tick w)))
    (Some reason) db Hk0 Hkn Hn Hm) as [e He].
  destruct (sql_update_attempt _ _ _ _ _ db) as [r db1]. simpl in He. subst r. eauto.
Qed.

Lemma raises_dispatch x n a req y m :
  0 < n -> at_attempt_id a = compute_attempt_id x n ->
  dispatch_result cfg n a req y = Done m -> raises x n m.
Proof.
  intros Hn Ha.
  assert (forall st bid reason os, raises x n (finalize cfg a st bid reason req os)) as Hfin
    by (intros; eapply (raises_finalize x n n); [lia..|done]).
  unfold dispatch_result, finalize_timeout. destruct y as [resp|e].
  - intros [= <-]. unfold process_response. cbn zeta.
    destruct (rs_status resp);
      repeat (apply raises_bind; [intros z; first [apply known_metric | apply known_order_event]|];
              intros _); apply Hfin.
  - destruct (isinstance e ExecutionTransientError).
    { destruct (n <? cfg_max_retries cfg); [done|]. intros [= <-].
      apply raises_bind; [intros z; apply known_metric | intros _; apply Hfin]. }
    destruct (isinstance e ExecutionTimeoutError); [|destruct (isinstance e ExecutionError); [|done]];
      intros [= <-]; apply raises_bind; try (intros z; apply known_metric); intros _.
    + repeat (apply raises_bind; [intros z; first [apply known_metric | apply known_call |
        apply known_order_event]|]; intros ?); apply Hfin.
    + destruct (decide _); apply Hfin.
Qed.

(** An iteration that is itself a retry never ends with a reported outcome. *)
Lemma retry_loop_raises fuel : forall n a req (w : W) o w',
  0 < n -> at_attempt_id a = compute_attempt_id (rq_execution_id req) n ->
  at_execution_id a = rq_execution_id req -> at_attempt_number a = n ->
  known (R:=DB) (A:=A) (rq_execution_id req, 0) w ->
  submit_loop cfg fuel n a req w = (Ok (Some o), w') -> oc_duplicate o = true.
Proof.
  induction fuel as [|fuel IH]; intros n a req w o w' Hn Haid Hid Hnum Hk E; simpl in E; [done|].
  unfold bind at 1 in E. destruct (persist_or_existing a req w) as [rp w1] eqn:Ep.
  apply persist_or_existing_spec in Ep as (_ & _ & Hk1 & Hp).
  destruct rp as [[o'|]|e]; [by inv E| |done].
  assert (known (R:=DB) (A:=A) (rq_execution_id req, n) w1) as Hkn.
  { rewrite <- Hid, <- Hnum. eapply persist_known; [|done]. destruct Hk as (db & Hr & _). by exists db. }
  unfold bind at 1 in E. simpl in E. set (w2 := {| w_repo := w_repo w1 |}) in E.
  pose proof (known_submit_call (R:=DB) (A:=A) (rq_execution_id req, 0) req w2 (Hk1 _ Hk)) as Hs0.
  pose proof (known_submit_call (R:=DB) (A:=A) (rq_execution_id req, n) req w2 Hkn) as Hsn.
  destruct (call_submit req w2) as [y w3]. simpl in Hs0, Hsn.
  destruct (dispatch_result cfg n a req y) as [|m|e] eqn:Ed; [| |done].
  - unfold bind, new_attempt, metric, modify, call, ret in E. simpl in E.
    eapply IH in E; [done | lia | done | done | done | done].
  - destruct (raises_dispatch _ _ _ _ _ _ Hn Haid Ed w3) as (e & w4 & Em); [by split|].
    unfold bind in E. by rewrite Em in E.
Qed.

Lemma retried_submission_duplicate req (w : W) o w' l :
  is_Some (w_repo w) -> engine_submit cfg req w = (Ok (Some o), w') ->
  submits (w_trace w') = submits (w_trace w) ++ l -> (2 <= List.length l)%nat ->
  oc_duplicate o = true.
Proof.
  intros Hr E Hl Hlen. unfold engine_submit in E. unfold bind at 1 in E. simpl in E.
  set (w1 := {| w_repo := w_repo w |}) in E. unfold bind at 1 in E.
  pose proof (quiet_validate (A:=A) (R:=DB) cfg req w1) as [Hq1 Hr1].
  destruct (validate_request cfg req w1) as [[[]|e] w2]; [simpl in *|done].
  unfold bind at 1 in E.
  pose proof (quiet_with_repo (A:=A) (sql_find_attempt (rq_execution_id req) 0) None w2) as [Hq2 Hr2].
  unfold find_existing in E. simpl in E.
  destruct (with_repo _ _ w2) as [[[x|]|e] w3]; simpl in *; [by inv E| |done].
  unfold bind at 1, new_attempt, bind at 1, call, ret in E. simpl in E.
  match type of E with bind (persist_or_existing ?a _) _ ?v = _ => set (w4 := v) in E; set (a0 := a) in E end.
  unfold bind at 1 in E.
  destruct (persist_or_existing a0 req w4) as [rp w5] eqn:Ep.
  apply persist_or_existing_spec in Ep as (Hs5 & Hr5 & _ & Hp).
  destruct rp as [[o'|]|e]; [by inv E| |done].
  assert (known (R:=DB) (A:=A) (rq_execution_id req, 0) w5) as Hk5.
  { apply (persist_known a0 w4 tt); [by apply Hr2, Hr1 | done]. }
  unfold bind at 1 in E. simpl in E. set (w6 := {| w_repo := w_repo w5 |}) in E.
  pose proof (known_submit_call (R:=DB) (A:=A) (rq_execution_id req, 0) req w6 Hk5) as Hs0.
  destruct (call_submit req w6) as [y w7] eqn:Ec. simpl in Hs0.
  assert (submits (w_trace w7) = submits (w_trace w) ++ [(req, y)]) as Hs7.
  { revert Ec. unfold call_submit. destruct (adapter_submit req _) as [z a']. simpl.
    intros [= <- <-]. simpl. rewrite submits_app, Hs5. unfold w4. simpl. by rewrite Hq2, Hq1. }
  destruct (dispatch_result cfg 0 a0 req y) as [|m|e] eqn:Ed; [| |done].
  - unfold bind, new_attempt, metric, modify, call, ret in E. simpl in E.
    eapply retry_loop_raises in E; [done | lia | done | done | done | done].
  - apply dispatch_done_spec in Ed as (Hq & _ & _). specialize (Hq w7) as [Hq _].
    unfold bind in E. destruct (m w7) as [[o'|e] w8]; [|done]. inv E. simpl in Hq.
    rewrite Hq, Hs7 in Hl. apply app_inv_head in Hl. subst l. simpl in Hlen. lia.
Qed.

(** with the SQL repository a retried submission never reports its outcome.
    Once [submit] has dispatched a second attempt, [update_attempt] finds two
    rows for the execution and raises, so the call ends with an exception (or
    with the duplicate answer of a concurrent winner) even when the broker has
    acknowledged the order. *)
Theorem retried_submission_outcome_lost req (w : W) rs w' l :
  is_Some (w_repo w) -> engine_submit cfg req w = (rs, w') ->
  submits (w_trace w') = submits (w_trace w) ++ l -> (2 <= List.length l)%nat ->
  (exists e, rs = Err e) \/ (exists o, rs = Ok (Some o) /\ oc_duplicate o = true).
Proof.
  intros Hr E Hl Hlen. destruct rs as [[o|]|e]; [|exfalso|by left; eauto].
  - right. exists o. split; [done|]. by eapply retried_submission_duplicate.
  - by destruct (engine_submit_spec cfg req w _ w' E Hr) as (? & _ & _ & _ & _ & _ & _ & Hn & _).
Qed.

End SqlEngine.

(** * Witnesses *)

Module EngineSample.

Definition t0 : datetime := utc 1700000000000000.

Definition cfg (retries : Z) : EngineConfig := {|
  cfg_clock := fun n => utc (1700000000000000 + Z.of_nat n);
  cfg_max_retries := retries;
  cfg_global_halt_active := fun _ => false;
  cfg_uuid4 := fun n => N.of_nat n;
|}.

Definition req : ExecutionRequest := {|
  rq_order_id := 7; rq_client_order_id := "c-7"; rq_execution_id := "x7";
  rq_correlation_id := None; rq_account_id := 1; rq_instrument_id := 2; rq_signal_id := 3;
  rq_strategy_id := 4; rq_strategy_version := "1"; rq_side := "BUY"; rq_quantity := 10;
  rq_order_type := "MARKET"; rq_limit_price := None; rq_trading_mode := "paper";
  rq_risk_approval_id := "r-1"; rq_approval_expires_at := utc 1700000900000000;
  rq_binding_hash := "h"; rq_orchestration_id := "o" |}.

(** One stored order, submission requested. *)
Definition order : Order := {|
  or_id := 7; or_quantity := 10; or_status := "SUBMISSION_REQUESTED";
  or_filled_quantity := None; or_broker_order_id := None; or_acknowledged_at := None;
  or_filled_at := None; or_rejected_at := None; or_canceled_at := None |}.

Definition db : gmap N row := {[ 1%N := ROrder order ]}.

(** An adapter that answers from a script, then acknowledges. *)
Definition script := list (res ExecutionResponse).

Definition ack : ExecutionResponse := {|
  rs_status := ss_ACKNOWLEDGED; rs_reason := "ok"; rs_occurred_at := t0;
  rs_broker_order_id := Some "B7"%string; rs_failure_class := None |}.

#[local] Instance scripted : ExecutionAdapter script := {|
  capabilities := fun _ => {| cap_provider_name := "test"; cap_supports_live_trading := false;
                              cap_supports_cancellation := true; cap_supports_partial_fills := true |};
  adapter_submit := fun _ s => match s with [] => (Ok ack, []) | x :: s' => (x, s') end;
  adapter_cancel := fun _ s =>
    (Ok {| rs_status := ss_CANCELLED; rs_reason := "done"; rs_occurred_at := t0;
           rs_broker_order_id := None; rs_failure_class := None |}, s);
  adapter_health := fun _ => true |}.

Definition world (s : script) : World (gmap N row) script := {|
  w_repo := Some db; w_adapter := s; w_metrics := no_metrics; w_tick := 0; w_trace := [] |}.

Definition transient : res ExecutionResponse := raise ExecutionTransientError "busy".
Definition timeout : res ExecutionResponse := raise ExecutionTimeoutError "slow".

(** A plain submission is acknowledged, and the order is updated. *)
Example submit_ack :
  match engine_submit (cfg 1) req (world []) with
  | (Ok (Some o), w) => oc_submission_state o = ss_ACKNOWLEDGED /\
      exists m, w_repo w = Some m /\ (fun r => match r with ROrder x => or_status x | _ => "" end)
                                     <$> m !! 1%N = Some "BROKER_ACKNOWLEDGED"%string
  | _ => False
  end.
Proof. vm_compute. eauto. Qed.

Definition events : list op :=
  [OpSubmit req; OpSubmit req; OpCancel 7; OpSubmit req].

Lemma at_most_once_witness :
  let l := submits_of "x7" (run_ops (cfg 2) (world [transient; timeout]) events) in
  List.length l = 2%nat /\ Z.of_nat (List.length l) <= 1 + Z.max 0 2.
Proof.
  split; [vm_compute; reflexivity|].
  apply (at_most_once_dispatch (cfg 2) "x7" (world [transient; timeout]) events).
  - eexists. reflexivity.
  - reflexivity.
Defined.

(** An engine without a repository keeps no record of a submission: the same
    request submitted twice is dispatched twice. *)
Definition bare_world : World (gmap N row) script := {|
  w_repo := None; w_adapter := []; w_metrics := no_metrics; w_tick := 0; w_trace := [] |}.

Example no_repository_dispatches_twice :
  submits_of "x7" (run_ops (cfg 0) bare_world [OpSubmit req; OpSubmit req])
  = [(req, Ok ack); (req, Ok ack)].
Proof. vm_compute. reflexivity. Qed.

Lemma submit_terminates_witness :
  let r := engine_submit (cfg 2) req (world [timeout]) in
  fst r <> Ok None /\ exists l, submits (w_trace (snd r)) = submits (w_trace (world [timeout])) ++ l /\
    one_dispatch req l /\ reports (fst r) l.
Proof.
  destruct (submit_terminates_and_reports (cfg 2) req (world [timeout]) _ _
              (surjective_pairing _)) as (Hn & l & Hl & Hod & Hrep & _).
  split; [exact Hn|]. exists l. split; [exact Hl|]. split; [exact Hod|exact Hrep].
Defined.

(** A LIVE request. *)
Definition live_req : ExecutionRequest := {|
  rq_order_id := 7; rq_client_order_id := "c-7"; rq_execution_id := "x7";
  rq_correlation_id := None; rq_account_id := 1; rq_instrument_id := 2; rq_signal_id := 3;
  rq_strategy_id := 4; rq_strategy_version := "1"; rq_side := "BUY"; rq_quantity := 10;
  rq_order_type := "MARKET"; rq_limit_price := None; rq_trading_mode := "Live";
  rq_risk_approval_id := "r-1"; rq_approval_expires_at := utc 1700000900000000;
  rq_binding_hash := "h"; rq_orchestration_id := "o" |}.

Lemma submit_fails_closed_witness :
  let r := engine_submit (cfg 2) live_req (world []) in
  untouched (world []) (snd r) /\ exists e, fst r = Err e.
Proof.
  apply (submit_fails_closed (cfg 2) live_req (world []) _ _).
  - apply surjective_pairing.
  - vm_compute. reflexivity.
Defined.

Definition cancelled : ExecutionOutcome * World (gmap N row) script := Eval vm_compute in
  match engine_cancel (cfg 0) 7%N (world []) with
  | (Ok o, w) => (o, w)
  | (Err _, w) => (cancel_outcome 7 ss_UNKNOWN None None "", w)
  end.

Lemma cancel_witness :
  engine_cancel (cfg 0) 7%N (world []) = (Ok (fst cancelled), snd cancelled) /\
  oc_order_state (fst cancelled) = Some CANCELLED.
Proof.
  assert (engine_cancel (cfg 0) 7%N (world []) = (Ok (fst cancelled), snd cancelled)) as E
    by (vm_compute; reflexivity).
  split; [exact E|].
  apply (proj1 (cancel_only_if_confirmed (cfg 0) 7%N (world []) _ _ E)).
  eexists _, _. split; [reflexivity|]. split; reflexivity.
Defined.

(** An acknowledgement delivered twice. *)
Definition ack_event : BrokerOrderEvent := {|
  ev_order_id := 7; ev_event_type := ev_BROKER_ACKNOWLEDGED; ev_occurred_at := t0;
  ev_reason := "ok"; ev_broker_order_id := Some "B7"%string; ev_fill_quantity := dzero;
  ev_metadata := {[ "source_event_id"%string := PStr "e-1" ]} |}.

Definition after_ack : res OrderExecutionState * World (gmap N row) script := Eval vm_compute in
  engine_apply_event (cfg 0) ack_event (world []).

Definition replay : res OrderExecutionState * World (gmap N row) script := Eval vm_compute in
  engine_apply_event (cfg 0) ack_event (snd after_ack).

Lemma event_exactly_once_witness : exists s,
  fst after_ack = Ok s /\ fst replay = Ok (reloaded s) /\ w_repo (snd replay) = w_repo (snd after_ack).
Proof.
  destruct (event_exactly_once (cfg 0) ack_event (world []) db
    (match fst after_ack with Ok s => s | Err _ => {| xs_lifecycle := new_lifecycle 7;
       xs_order_quantity := dzero; xs_filled_quantity := dzero; xs_broker_order_id := None |} end)
    (snd after_ack) ack_event (fst replay) (snd replay)) as (Hrepo & _ & _ & Hs).
  - reflexivity.
  - intros k x Hx. change (({[ 1%N := ROrder order ]} : gmap N row) !! k = Some x) in Hx. apply lookup_singleton_Some in Hx as [<- <-]. reflexivity.
  - vm_compute. reflexivity.
  - reflexivity.
  - reflexivity.
  - vm_compute. reflexivity.
  - eexists. split; [vm_compute; reflexivity|]. split; [vm_compute; reflexivity | exact Hrepo].
Defined.

(** Transient failure, then acknowledged by the broker: the call raises. *)
Example retry_then_ack_raises :
  match engine_submit (cfg 1) req (world [transient]) with
  | (Err e, w) => exn_cls e = MultipleResultsFound /\
      (fun rx => is_ok rx.2) <$> submits (w_trace w) = [false; true]
  | _ => False
  end.
Proof. vm_compute. auto. Qed.

Definition retried : res (option ExecutionOutcome) * World (gmap N row) script := Eval vm_compute in
  engine_submit (cfg 1) req (world [transient]).

Lemma retried_submission_witness :
  (exists e, fst retried = Err e) \/
  (exists o, fst retried = Ok (Some o) /\ oc_duplicate o = true).
Proof.
  apply (retried_submission_outcome_lost (cfg 1) req (world [transient]) _ (snd retried)
           (submits (w_trace (snd retried)))).
  - eexists. reflexivity.
  - vm_compute. reflexivity.
  - reflexivity.
  - vm_compute. lia.
Defined.

End EngineSample.
