(* ===== verification/CircuitBreaker.v ===== *)
(** Circuit breaker
    (src/services/risk_engine/alpha_algo_risk_engine/circuit_breaker.py): one
    scoped breaker as a state machine, and the registry of named breakers.

    Every caller passes [now] or the registry's clock reading, so [now] is an
    argument.  A [timedelta] is a number of microseconds. *)

From stdpp Require Import base list strings gmap.
From Stdlib Require Import ZArith Lia String.
From S2P Require Import Prelude PyBase.

Open Scope Z_scope.

Inductive CircuitState := CLOSED | OPEN | HALF_OPEN.

#[export] Instance CircuitState_eq_dec : EqDecision CircuitState.
Proof. solve_decision. Defined.

Record CircuitBreakerConfig := {
  cb_failure_threshold : Z;
  cb_window : Z;
  cb_reset_after : Z;
  cb_half_open_probe_limit : Z;
}.

Definition CircuitBreakerConfig_post_init (c : CircuitBreakerConfig) : res unit :=
  raise_if (cb_failure_threshold c <=? 0) ValueError "failure_threshold must be positive" ;!
  raise_if (cb_window c <=? 0) ValueError "window must be positive" ;!
  raise_if (cb_reset_after c <=? 0) ValueError "reset_after must be positive" ;!
  raise_if (cb_half_open_probe_limit c <=? 0) ValueError "half_open_probe_limit must be positive".

Definition default_breaker_config : CircuitBreakerConfig := {|
  cb_failure_threshold := 5; cb_window := 60 * 1000000; cb_reset_after := 30 * 1000000;
  cb_half_open_probe_limit := 1 |}.

Record CircuitBreaker := {
  cb_state : CircuitState;
  cb_failures : list datetime;
  cb_opened_at : option datetime;
  cb_half_open_probes : Z;
}.

(** [CircuitBreaker(config)] *)
Definition new_breaker : CircuitBreaker :=
  {| cb_state := CLOSED; cb_failures := []; cb_opened_at := None; cb_half_open_probes := 0 |}.

(** The breakers of a registry, by scope key. *)
Abbreviation registry := (gmap string CircuitBreaker).

(** [[t for t in l if p(t)]] where [p] may raise *)
Fixpoint filter_res {T} (p : T -> res bool) (l : list T) : res (list T) :=
  match l with
  | [] => Ok []
  | t :: l' =>
      let! keep := p t in
      let! rest := filter_res p l' in
      Ok (if (keep : bool) then t :: rest else rest)
  end.

Section Breaker.
Context (cfg : CircuitBreakerConfig).

Definition set_failures (l : list datetime) (b : CircuitBreaker) : CircuitBreaker :=
  {| cb_state := cb_state b; cb_failures := l; cb_opened_at := cb_opened_at b;
     cb_half_open_probes := cb_half_open_probes b |}.

Definition prune (now : datetime) : M CircuitBreaker unit :=
  let cutoff := dt_add now (- cb_window cfg) in
  let* failures := gets cb_failures in
  let* kept := lift (filter_res (fun t => dt_gt t cutoff) failures) in
  modify (set_failures kept).

Definition cb_allows (now : datetime) : M CircuitBreaker bool :=
  prune now ;*
  let* b := gets id in
  match cb_state b with
  | CLOSED => ret true
  | OPEN =>
      match cb_opened_at b with
      | Some opened_at =>
          let* elapsed := lift (dt_sub now opened_at) in
          if cb_reset_after cfg <=? elapsed then
            modify (fun b => {| cb_state := HALF_OPEN; cb_failures := cb_failures b;
                                cb_opened_at := cb_opened_at b; cb_half_open_probes := 0 |}) ;*
            ret true
          else ret false
      | None => ret false
      end
  | HALF_OPEN => ret (cb_half_open_probes b <? cb_half_open_probe_limit cfg)
  end.

Definition cb_record_failure (now : datetime) : M CircuitBreaker unit :=
  prune now ;*
  modify (fun b => set_failures (cb_failures b ++ [now]) b) ;*
  let* b := gets id in
  match cb_state b with
  | HALF_OPEN =>
      modify (fun b => {| cb_state := OPEN; cb_failures := cb_failures b;
                          cb_opened_at := Some now; cb_half_open_probes := 0 |})
  | CLOSED =>
      if cb_failure_threshold cfg <=? Z.of_nat (List.length (cb_failures b)) then
        modify (fun b => {| cb_state := OPEN; cb_failures := cb_failures b;
                            cb_opened_at := Some now;
                            cb_half_open_probes := cb_half_open_probes b |})
      else ret tt
  | OPEN => ret tt
  end.

Definition cb_record_success (now : datetime) : M CircuitBreaker unit :=
  prune now ;*
  let* b := gets id in
  match cb_state b with
  | HALF_OPEN =>
      let probes := cb_half_open_probes b + 1 in
      if cb_half_open_probe_limit cfg <=? probes then
        modify (fun b => {| cb_state := CLOSED; cb_failures := []; cb_opened_at := None;
                            cb_half_open_probes := probes |})
      else
        modify (fun b => {| cb_state := HALF_OPEN; cb_failures := cb_failures b;
                            cb_opened_at := cb_opened_at b; cb_half_open_probes := probes |})
  | CLOSED => modify (set_failures [])
  | OPEN => ret tt
  end.

(** * CircuitBreakerRegistry *)

(** [self._breaker(scope_key)] followed by a method of the breaker: a missing
    breaker is created and stored first. *)
Definition on_breaker {T} (scope_key : string) (m : M CircuitBreaker T) : M registry T :=
  fun r => let '(x, b) := m (default new_breaker (r !! scope_key)) in (x, <[scope_key := b]> r).

Definition reg_allows (scope_key : string) (now : datetime) := on_breaker scope_key (cb_allows now).
Definition reg_record_failure (scope_key : string) (now : datetime) :=
  on_breaker scope_key (cb_record_failure now).
Definition reg_record_success (scope_key : string) (now : datetime) :=
  on_breaker scope_key (cb_record_success now).

(** * Behaviour on aware times *)

(** Times are instants when every datetime in play is aware. *)
Definition aware_breaker (b : CircuitBreaker) : Prop :=
  Forall (fun t => dt_aware t = true) (cb_failures b) /\
  (forall t, cb_opened_at b = Some t -> dt_aware t = true).

Definition in_window (now t : datetime) : bool :=
  dt_instant now - cb_window cfg <? dt_instant t.

Lemma filter_res_in_window now l :
  dt_aware now = true -> Forall (fun t => dt_aware t = true) l ->
  filter_res (fun t => dt_gt t (dt_add now (- cb_window cfg))) l
  = Ok (List.filter (in_window now) l).
Proof.
  intros Hn Hl. induction Hl as [|t l Ht Hl IH]; [done|]. cbn [filter_res List.filter].
  unfold dt_gt at 1. rewrite dt_cmp_aware; [|done|done]. simpl. rewrite IH. simpl.
  unfold in_window. replace (dt_instant t >? dt_instant now + - cb_window cfg)
    with (dt_instant now - cb_window cfg <? dt_instant t) by lia.
  done.
Qed.

Definition pruned (now : datetime) (b : CircuitBreaker) : CircuitBreaker :=
  set_failures (List.filter (in_window now) (cb_failures b)) b.

Lemma prune_aware now b : dt_aware now = true -> aware_breaker b ->
  prune now b = (Ok tt, pruned now b).
Proof.
  intros Hn [Hf _]. unfold prune, bind, gets, lift. by rewrite filter_res_in_window.
Qed.

Lemma pruned_aware now b : aware_breaker b -> aware_breaker (pruned now b).
Proof.
  intros [Hf Ho]. split; [|done]. simpl. induction Hf as [|t l Ht Hl IH]; simpl; [constructor|].
  destruct (in_window now t); [by constructor | done].
Qed.

Inductive breaker_op := Allows (now : datetime) | Failure (now : datetime) | Success (now : datetime).

Definition op_time (o : breaker_op) : datetime :=
  match o with Allows t | Failure t | Success t => t end.

(** An operation's answer ([true] for the recording methods) and its effect. *)
Definition run_breaker (o : breaker_op) : M CircuitBreaker bool :=
  match o with
  | Allows t => cb_allows t
  | Failure t => cb_record_failure t ;* ret true
  | Success t => cb_record_success t ;* ret true
  end.

Lemma aware_snoc l t : Forall (fun t => dt_aware t = true) l -> dt_aware t = true ->
  Forall (fun t => dt_aware t = true) (l ++ [t]).
Proof. intros. apply Forall_app. split; [done|]. by constructor. Qed.

Ltac answers :=
  eexists _, _; split; [reflexivity|]; split; simpl;
  [try done | intros ? Hx; simplify_eq; auto].

(** On aware times no operation raises, and the breaker stays aware. *)
Lemma run_breaker_aware o b : dt_aware (op_time o) = true -> aware_breaker b ->
  exists a b', run_breaker o b = (Ok a, b') /\ aware_breaker b'.
Proof.
  intros Ht Hb. pose proof (pruned_aware (op_time o) b Hb) as [Hpf Hpo].
  destruct o as [t|t|t]; simpl in Ht |- *;
    unfold cb_allows, cb_record_failure, cb_record_success, bind, gets, modify, ret, lift;
    rewrite prune_aware by done; simpl in *.
  - destruct (cb_state b); [by answers| |by answers].
    destruct (cb_opened_at b) as [o|] eqn:Eo; [|by answers].
    unfold dt_sub, dt_comparable. rewrite Ht, (Hpo o) by done. simpl.
    destruct (_ <=? _); by answers.
  - pose proof (aware_snoc _ _ Hpf Ht) as Hs.
    destruct (cb_state b); [destruct (_ <=? _)| |]; by answers.
  - destruct (cb_state b); [| |destruct (_ <=? _)]; by answers.
Qed.

(** Operations in sequence, with their answers. *)
Fixpoint run_breakers (ops : list breaker_op) (b : CircuitBreaker) : list (res bool) * CircuitBreaker :=
  match ops with
  | [] => ([], b)
  | o :: ops' => let '(a, b1) := run_breaker o b in
                 let '(l, b2) := run_breakers ops' b1 in (a :: l, b2)
  end.

(** One operation on an open breaker before [reset_after] has elapsed. *)
Lemma open_step o b t0 :
  aware_breaker b -> cb_state b = OPEN -> cb_opened_at b = Some t0 ->
  dt_aware (op_time o) = true -> dt_instant (op_time o) < dt_instant t0 + cb_reset_after cfg ->
  exists a b', run_breaker o b = (Ok a, b') /\ aware_breaker b' /\ cb_state b' = OPEN /\
    cb_opened_at b' = Some t0 /\ (match o with Allows _ => a = false | _ => True end).
Proof.
  intros Hb Hs Ho Ht Hlt. destruct (run_breaker_aware o b Ht Hb) as (a & b' & E & Hb').
  exists a, b'. split_and!; [done|done|..]; revert E;
    destruct o as [t|t|t]; simpl in *;
    unfold cb_allows, cb_record_failure, cb_record_success, bind, gets, modify, ret, lift;
    rewrite prune_aware by done; simpl; rewrite Hs; try (rewrite Ho; unfold dt_sub, dt_comparable;
    destruct Hb as [_ Hbo]; rewrite Ht, (Hbo t0 Ho); simpl;
    destruct (Z.leb_spec (cb_reset_after cfg) (dt_instant t - dt_instant t0)); [lia|]);
    intros E; by simplify_eq.
Qed.

(** an open breaker is fail-closed.  Until [reset_after] has elapsed since it
    opened, every [allows] answers False, whatever failures and successes are
    recorded in between, and it stays open. *)
Theorem breaker_open_until_reset b t0 ops :
  aware_breaker b -> cb_state b = OPEN -> cb_opened_at b = Some t0 ->
  Forall (fun o => dt_aware (op_time o) = true /\
                   dt_instant (op_time o) < dt_instant t0 + cb_reset_after cfg) ops ->
  cb_state (snd (run_breakers ops b)) = OPEN /\
  Forall2 (fun o a => match o with Allows _ => a = Ok false | _ => a = Ok true end)
    ops (fst (run_breakers ops b)).
Proof.
  intros Hb Hs Ho Hops. revert b Hb Hs Ho.
  induction Hops as [|o ops [Ht Hlt] Hops IH]; intros b Hb Hs Ho; simpl; [by split|].
  destruct (open_step o b t0 Hb Hs Ho Ht Hlt) as (a & b' & E & Hb' & Hs' & Ho' & Ha).
  assert (run_breaker o b = (Ok (match o with Allows _ => false | _ => true end), b')) as E'.
  { rewrite E. destruct o as [t|t|t]; [by rewrite Ha|..]; simpl in E; apply bind_ok in E as (? & ? & _ & E);
      by inv E. }
  rewrite E'. destruct (IH b' Hb' Hs' Ho') as [IHs IHf].
  destruct (run_breakers ops b') as [l b2]. simpl in *. split; [done|].
  constructor; [by destruct o | done].
Qed.

(** A failure recorded on a closed breaker trips it exactly when it makes
    [failure_threshold] failures within the window. *)
Lemma failure_closed_step t b : aware_breaker b -> dt_aware t = true -> cb_state b = CLOSED ->
  let kept := List.filter (in_window t) (cb_failures b) in
  let b' := snd (cb_record_failure t b) in
  cb_failures b' = kept ++ [t] /\ aware_breaker b' /\
  cb_state b' = (if cb_failure_threshold cfg <=? Z.of_nat (List.length kept) + 1 then OPEN else CLOSED).
Proof.
  intros Hb Ht Hs. cbn zeta.
  destruct (run_breaker_aware (Failure t) b Ht Hb) as (a & b' & E & Hb'). simpl in E.
  apply bind_ok in E as ([] & b1 & E & Er). inv Er. rewrite E. simpl.
  revert E. unfold cb_record_failure, bind, gets, modify, ret. rewrite prune_aware by done. simpl.
  rewrite Hs, length_app. simpl. rewrite Nat2Z.inj_add. 
  destruct (_ <=? _); intros E; by simplify_eq.
Qed.

Lemma failure_open_step t b : aware_breaker b -> dt_aware t = true -> cb_state b = OPEN ->
  aware_breaker (snd (cb_record_failure t b)) /\ cb_state (snd (cb_record_failure t b)) = OPEN.
Proof.
  intros Hb Ht Hs. destruct (run_breaker_aware (Failure t) b Ht Hb) as (a & b' & E & Hb'). simpl in E.
  apply bind_ok in E as ([] & b1 & E & Er). inv Er. rewrite E. split; [done|].
  revert E. unfold cb_record_failure, bind, gets, modify, ret. rewrite prune_aware by done. simpl.
  rewrite Hs. intros E. by simplify_eq.
Qed.

Lemma filter_all {T} (p : T -> bool) l : Forall (fun t => p t = true) l -> List.filter p l = l.
Proof. induction 1 as [|t l Ht Hl IH]; simpl; [done|]. by rewrite Ht, IH. Qed.

Lemma failure_burst_open ts : forall seen pre b,
  aware_breaker b ->
  (cb_state b = OPEN \/ cb_state b = CLOSED /\ cb_failures b = pre ++ seen) ->
  Forall (fun t => dt_aware t = true) ts ->
  Forall (fun t => Forall (fun t' => in_window t t' = true) (seen ++ ts)) ts ->
  cb_failure_threshold cfg <= Z.of_nat (List.length seen + List.length ts) -> ts <> [] ->
  cb_state (foldl (fun b t => snd (cb_record_failure t b)) b ts) = OPEN.
Proof.
  induction ts as [|t ts IH]; intros seen pre b Hb Hst Ha Hw Hn Hne; [done|]. clear Hne. simpl.
  inversion Ha as [|? ? Hta Hta']; subst. inversion Hw as [|? ? Hwt Hwts]; subst.
  apply Forall_app in Hwt as [Hws _].
  destruct Hst as [Hop|[Hcl Hf]].
  - destruct (failure_open_step t b Hb Hta Hop) as [Hb1 Hs1]. destruct ts as [|t2 ts]; [done|].
    apply (IH (seen ++ [t]) pre); try done; [by left| |].
    + eapply Forall_impl; [exact Hwts|]. intros x Hx. by rewrite <- app_assoc.
    + rewrite length_app. simpl in *. lia.
  - destruct (failure_closed_step t b Hb Hta Hcl) as (Hf1 & Hb1 & Hs1).
    rewrite Hf, List.filter_app, (filter_all _ seen Hws) in Hf1, Hs1.
    destruct ts as [|t2 ts].
    + simpl. rewrite Hs1. rewrite length_app. simpl in Hn.
      destruct (Z.leb_spec (cb_failure_threshold cfg)
        (Z.of_nat (List.length (List.filter (in_window t) pre) + List.length seen) + 1)); [done|lia].
    + apply (IH (seen ++ [t]) (List.filter (in_window t) pre)); try done.
      * destruct (_ <=? _); [by left|]. right. split; [done|]. by rewrite Hf1, app_assoc.
      * eapply Forall_impl; [exact Hwts|]. intros x Hx. by rewrite <- app_assoc.
      * rewrite length_app. simpl in *. lia.
Qed.

(** the breaker trips.  [failure_threshold] failures that lie within one
    window, recorded on a closed breaker without a success in between, leave it
    open, whatever older failures it remembered. *)
Theorem breaker_trips_on_burst b ts :
  aware_breaker b -> cb_state b = CLOSED -> 0 < cb_failure_threshold cfg ->
  Forall (fun t => dt_aware t = true) ts ->
  (forall t t', t ∈ ts -> t' ∈ ts -> in_window t t' = true) ->
  cb_failure_threshold cfg <= Z.of_nat (List.length ts) ->
  cb_state (foldl (fun b t => snd (cb_record_failure t b)) b ts) = OPEN.
Proof.
  intros Hb Hs Hpos Ha Hw Hn. apply (failure_burst_open ts [] (cb_failures b)); try done.
  - right. by rewrite app_nil_r.
  - apply Forall_forall. intros t Ht. apply Forall_forall. intros t' Ht'. by apply Hw.
  - intros ->. simpl in Hn. lia.
Qed.

(** in HALF_OPEN the number of probes is not bounded.  Probes are counted
    when a success is recorded, not when [allows] admits one, so any number of
    consecutive [allows] calls are admitted before the first result. *)
Theorem half_open_admits_unboundedly b ts :
  aware_breaker b -> cb_state b = HALF_OPEN ->
  cb_half_open_probes b < cb_half_open_probe_limit cfg ->
  Forall (fun t => dt_aware t = true) ts ->
  fst (run_breakers (Allows <$> ts) b) = replicate (List.length ts) (Ok true).
Proof.
  intros Hb Hs Hp Ha. revert b Hb Hs Hp. induction Ha as [|t ts Ht Ha IH]; intros b Hb Hs Hp; [done|].
  assert (cb_allows t b = (Ok true, pruned t b)) as E.
  { unfold cb_allows, bind, gets, ret. rewrite prune_aware by done. simpl. rewrite Hs.
    by rewrite (proj2 (Z.ltb_lt _ _) Hp). }
  specialize (IH (pruned t b) (pruned_aware _ _ Hb) Hs Hp).
  rewrite fmap_cons. cbn [run_breakers run_breaker]. rewrite E.
  destruct (run_breakers (Allows <$> ts) (pruned t b)) as [l b2]. simpl in *. by subst l.
Qed.

(** Operations on one scope leave the breakers of the others alone. *)
Lemma on_breaker_frame {T} k k' (m : M CircuitBreaker T) r :
  k' <> k -> snd (on_breaker k m r) !! k' = r !! k'.
Proof.
  intros Hne. unfold on_breaker. destruct (m _) as [x b]. simpl. by rewrite lookup_insert_ne.
Qed.

Lemma on_breaker_self {T} k (m : M CircuitBreaker T) r :
  snd (on_breaker k m r) !! k = Some (snd (m (default new_breaker (r !! k)))).
Proof. unfold on_breaker. destruct (m _) as [x b]. simpl. by rewrite lookup_insert_eq. Qed.

End Breaker.

(** * Witnesses *)

Module BreakerSample.

Definition cfg := default_breaker_config.
Definition at_ (s : Z) : datetime := utc (s * 1000000).

(** Tripped at second 10 by five failures. *)
Definition failures : list datetime := at_ <$> [2; 4; 6; 8; 10].
Definition tripped : CircuitBreaker := Eval vm_compute in
  foldl (fun b t => snd (cb_record_failure cfg t b)) new_breaker failures.
Definition half_open : CircuitBreaker := Eval vm_compute in snd (cb_allows cfg (at_ 41) tripped).

Definition ops : list breaker_op := [Allows (at_ 11); Failure (at_ 12); Success (at_ 20); Allows (at_ 39)].

Lemma breaker_open_witness :
  Forall2 (fun o a => match o with Allows _ => a = Ok false | _ => a = Ok true end)
    ops (fst (run_breakers cfg ops tripped)).
Proof.
  apply (breaker_open_until_reset cfg tripped (at_ 10) ops).
  - split; [repeat (apply Forall_cons; split; [reflexivity|]); apply Forall_nil; exact I|].
    intros t Ht. injection Ht as <-. reflexivity.
  - reflexivity.
  - reflexivity.
  - repeat (apply Forall_cons; split; [split; reflexivity|]). apply Forall_nil. exact I.
Defined.

Lemma breaker_trips_witness :
  cb_state (foldl (fun b t => snd (cb_record_failure cfg t b)) new_breaker failures) = OPEN.
Proof.
  apply (breaker_trips_on_burst cfg new_breaker failures).
  - split; [apply Forall_nil; exact I | intros t Ht; discriminate Ht].
  - reflexivity.
  - reflexivity.
  - repeat (apply Forall_cons; split; [reflexivity|]). apply Forall_nil. exact I.
  - intros t t' Ht Ht'. unfold failures in *.
    repeat (apply elem_of_cons in Ht as [->|Ht]); try (by apply not_elem_of_nil in Ht);
      repeat (apply elem_of_cons in Ht' as [->|Ht']); try (by apply not_elem_of_nil in Ht');
      reflexivity.
  - vm_compute. discriminate.
Defined.

Lemma half_open_witness :
  fst (run_breakers cfg (Allows <$> (at_ <$> [41; 42; 43; 44])) half_open) = replicate 4 (Ok true).
Proof.
  apply (half_open_admits_unboundedly cfg half_open).
  - split; [repeat (apply Forall_cons; split; [reflexivity|]); apply Forall_nil; exact I|].
    intros t Ht. injection Ht as <-. reflexivity.
  - reflexivity.
  - reflexivity.
  - repeat (apply Forall_cons; split; [reflexivity|]). apply Forall_nil. exact I.
Defined.

End BreakerSample.
