(* ===== verification/Gates.v ===== *)
(** LIVE safety gates
    (src/services/risk_engine/alpha_algo_risk_engine/gates.py): the kill switch,
    the seventeen LIVE gates and the staged release controller.

    Each method's clock readings are read from [clock] at the controller's
    call counter.  A [threading.Lock] makes each [with self._lock] block one
    atomic step; [advance_to_shadow] and [advance_to_full] have two such blocks,
    which the interleaving semantics at the end keeps apart. *)

From stdpp Require Import base list strings gmap.
From Stdlib Require Import ZArith Lia String.
From S2P Require Import Prelude PyBase CircuitBreaker.

Open Scope Z_scope.

(** * The gates *)

Inductive LiveSafetyGate :=
| MARKET_DATA_STABLE | BROKER_CONNECTION_STABLE | STRATEGY_TESTS_PASSING | RISK_TESTS_PASSING
| EXECUTION_TESTS_PASSING | RECONCILIATION_WORKING | PAPER_TRADING_VERIFIED
| EMERGENCY_STOP_VERIFIED | CIRCUIT_BREAKERS_VERIFIED | POSITION_CALCULATIONS_VERIFIED
| PNL_VERIFIED | DUPLICATE_ORDER_PROTECTION_VERIFIED | BROKER_FAILURE_HANDLING_VERIFIED
| DATABASE_PERSISTENCE_VERIFIED | AUDIT_LOGGING_VERIFIED | MONITORING_VERIFIED
| SECURITY_CHECKS_PASSED.

(** The members in definition order. *)
Definition all_gates : list LiveSafetyGate :=
  [MARKET_DATA_STABLE; BROKER_CONNECTION_STABLE; STRATEGY_TESTS_PASSING; RISK_TESTS_PASSING;
   EXECUTION_TESTS_PASSING; RECONCILIATION_WORKING; PAPER_TRADING_VERIFIED;
   EMERGENCY_STOP_VERIFIED; CIRCUIT_BREAKERS_VERIFIED; POSITION_CALCULATIONS_VERIFIED;
   PNL_VERIFIED; DUPLICATE_ORDER_PROTECTION_VERIFIED; BROKER_FAILURE_HANDLING_VERIFIED;
   DATABASE_PERSISTENCE_VERIFIED; AUDIT_LOGGING_VERIFIED; MONITORING_VERIFIED;
   SECURITY_CHECKS_PASSED].

Record LiveSafetyGateSnapshot := {
  market_data_stable : bool; broker_connection_stable : bool; strategy_tests_passing : bool;
  risk_tests_passing : bool; execution_tests_passing : bool; reconciliation_working : bool;
  paper_trading_verified : bool; emergency_stop_verified : bool;
  circuit_breakers_verified : bool; position_calculations_verified : bool;
  pnl_verified : bool; duplicate_order_protection_verified : bool;
  broker_failure_handling_verified : bool; database_persistence_verified : bool;
  audit_logging_verified : bool; monitoring_verified : bool; security_checks_passed : bool;
  gs_evaluated_source : string;
  gs_metadata : metadata;
}.

(** [getattr(snapshot, gate.value)] *)
Definition gate_attr (s : LiveSafetyGateSnapshot) (g : LiveSafetyGate) : bool :=
  match g with
  | MARKET_DATA_STABLE => market_data_stable s
  | BROKER_CONNECTION_STABLE => broker_connection_stable s
  | STRATEGY_TESTS_PASSING => strategy_tests_passing s
  | RISK_TESTS_PASSING => risk_tests_passing s
  | EXECUTION_TESTS_PASSING => execution_tests_passing s
  | RECONCILIATION_WORKING => reconciliation_working s
  | PAPER_TRADING_VERIFIED => paper_trading_verified s
  | EMERGENCY_STOP_VERIFIED => emergency_stop_verified s
  | CIRCUIT_BREAKERS_VERIFIED => circuit_breakers_verified s
  | POSITION_CALCULATIONS_VERIFIED => position_calculations_verified s
  | PNL_VERIFIED => pnl_verified s
  | DUPLICATE_ORDER_PROTECTION_VERIFIED => duplicate_order_protection_verified s
  | BROKER_FAILURE_HANDLING_VERIFIED => broker_failure_handling_verified s
  | DATABASE_PERSISTENCE_VERIFIED => database_persistence_verified s
  | AUDIT_LOGGING_VERIFIED => audit_logging_verified s
  | MONITORING_VERIFIED => monitoring_verified s
  | SECURITY_CHECKS_PASSED => security_checks_passed s
  end.

Definition failed_gates (s : LiveSafetyGateSnapshot) : list LiveSafetyGate :=
  List.filter (fun g => negb (gate_attr s g)) all_gates.

Definition is_nil {T} (l : list T) : bool := match l with [] => true | _ => false end.

Definition all_gates_passed (s : LiveSafetyGateSnapshot) : bool := is_nil (failed_gates s).

(** * The kill switch *)

Record GlobalHaltState := {
  gh_active : bool;
  gh_reason : string;
  gh_updated_at : datetime;
  gh_updated_by : string;
  gh_metadata : metadata;
}.

Definition mk_GlobalHaltState (active : bool) (reason : string) (updated_at : datetime)
    (updated_by : string) (meta : metadata) : res GlobalHaltState :=
  raise_if (negb (dt_aware updated_at)) ValueError "updated_at must be timezone-aware" ;!
  raise_if (active && is_blank reason) ValueError "active global halt requires reason" ;!
  raise_if (is_blank updated_by) ValueError "updated_by is required" ;!
  Ok {| gh_active := active; gh_reason := reason; gh_updated_at := updated_at;
        gh_updated_by := updated_by; gh_metadata := meta |}.

(** [GlobalHaltController(initial_active=..., initial_reason=...)] *)
Definition new_halt_controller (now : datetime) (initial_active : bool) (initial_reason : string)
    : res GlobalHaltState :=
  mk_GlobalHaltState initial_active (if initial_active then initial_reason else "") now "system" ∅.

Definition require_reason_and_actor (reason actor : string) : res unit :=
  raise_if (is_blank reason) ValueError "reason is required" ;!
  raise_if (is_blank actor) ValueError "actor is required".

(** [activate] and [deactivate] of the controller, whose state is its
    [GlobalHaltState]. *)
Definition activate (now : datetime) (reason actor : string) : M GlobalHaltState GlobalHaltState :=
  lift (require_reason_and_actor reason actor) ;*
  let* s := lift (mk_GlobalHaltState true reason now actor ∅) in
  modify (fun _ => s) ;* ret s.

Definition deactivate (now : datetime) (reason actor : string) : M GlobalHaltState GlobalHaltState :=
  lift (require_reason_and_actor reason actor) ;*
  let* s := lift (mk_GlobalHaltState false "" now actor
                    {[ "deactivate_reason"%string := PStr reason ]}) in
  modify (fun _ => s) ;* ret s.

Definition is_halted (s : GlobalHaltState) : bool := gh_active s.

(** * Gate evaluation *)

Record LiveSafetyGateDecision := {
  gd_can_enable_live : bool;
  gd_reason_code : string;
  gd_reason : string;
  gd_evaluated_at : datetime;
  gd_failed_gates : list LiveSafetyGate;
  gd_global_halt_active : bool;
  gd_metadata : metadata;
}.

Definition mk_LiveSafetyGateDecision (d : LiveSafetyGateDecision) : res LiveSafetyGateDecision :=
  raise_if (negb (dt_aware (gd_evaluated_at d))) ValueError "evaluated_at must be timezone-aware" ;!
  raise_if (gd_can_enable_live d && (negb (is_nil (gd_failed_gates d)) || gd_global_halt_active d))
    ValueError "LIVE cannot be enabled with failed gates or active global halt" ;!
  Ok d.

(** [LiveSafetyGateEvaluator.evaluate]; [now] is the clock's answer and
    [system_now] is [datetime.now(tz=UTC)], which stamps the default (active)
    halt state. *)
Definition evaluate_gates (now system_now : datetime) (snapshot : LiveSafetyGateSnapshot)
    (halt_state : option GlobalHaltState) : res LiveSafetyGateDecision :=
  raise_if (negb (dt_aware now)) ValueError "clock must return a timezone-aware datetime" ;!
  let! halt := match halt_state with
               | Some h => Ok h
               | None => mk_GlobalHaltState true "default safety halt" system_now "system" ∅
               end in
  let source := <["evaluated_source"%string := PStr (gs_evaluated_source snapshot)]> ∅ in
  if gh_active halt then
    mk_LiveSafetyGateDecision
      {| gd_can_enable_live := false; gd_reason_code := "GLOBAL_HALT_ACTIVE";
         gd_reason := gh_reason halt; gd_evaluated_at := now;
         gd_failed_gates := failed_gates snapshot; gd_global_halt_active := true;
         gd_metadata := {[ "halt_updated_at"%string := PDatetime (gh_updated_at halt);
                           "halt_updated_by"%string := PStr (gh_updated_by halt) ]} |}
  else if negb (is_nil (failed_gates snapshot)) then
    mk_LiveSafetyGateDecision
      {| gd_can_enable_live := false; gd_reason_code := "LIVE_SAFETY_GATES_FAILED";
         gd_reason := "one or more LIVE safety gates are incomplete"; gd_evaluated_at := now;
         gd_failed_gates := failed_gates snapshot; gd_global_halt_active := false;
         gd_metadata := gs_metadata snapshot ∪ source |}
  else
    mk_LiveSafetyGateDecision
      {| gd_can_enable_live := true; gd_reason_code := "LIVE_SAFETY_GATES_PASSED";
         gd_reason := "all LIVE safety gates passed and global halt is inactive";
         gd_evaluated_at := now; gd_failed_gates := []; gd_global_halt_active := false;
         gd_metadata := gs_metadata snapshot ∪ source |}.

(** * The release controller *)

Inductive LiveReleaseStage := DISABLED | SHADOW | FULL.

#[export] Instance LiveReleaseStage_eq_dec : EqDecision LiveReleaseStage.
Proof. solve_decision. Defined.

Definition stage_value (s : LiveReleaseStage) : string :=
  match s with DISABLED => "DISABLED" | SHADOW => "SHADOW" | FULL => "FULL" end.

Record LiveReleaseDecision := {
  ld_stage : LiveReleaseStage;
  ld_approved : bool;
  ld_reason_code : string;
  ld_reason : string;
  ld_evaluated_at : datetime;
  ld_failed_gates : list LiveSafetyGate;
  ld_global_halt_active : bool;
  ld_circuit_breaker_open : bool;
  ld_metadata : metadata;
}.

Definition mk_LiveReleaseDecision (d : LiveReleaseDecision) : res LiveReleaseDecision :=
  raise_if (negb (dt_aware (ld_evaluated_at d))) ValueError "evaluated_at must be timezone-aware" ;!
  raise_if (ld_approved d && (negb (is_nil (ld_failed_gates d)) || ld_global_halt_active d
                              || ld_circuit_breaker_open d)) ValueError
    "release cannot be approved with failed gates, an active global halt, or an open circuit breaker" ;!
  Ok d.

(** The controller with the halt controller and the breakers it refers to. *)
Record LiveReleaseController := {
  rc_stage : LiveReleaseStage;
  rc_halt : GlobalHaltState;
  rc_breakers : registry;
  rc_tick : nat;
}.

Section Release.
Context (clock : nat -> datetime) (bcfg : CircuitBreakerConfig).

Abbreviation RC := LiveReleaseController.

Definition read_clock : M RC datetime :=
  fun c => (Ok (clock (rc_tick c)),
            {| rc_stage := rc_stage c; rc_halt := rc_halt c; rc_breakers := rc_breakers c;
               rc_tick := S (rc_tick c) |}).

Definition set_stage (s : LiveReleaseStage) : M RC unit :=
  modify (fun c => {| rc_stage := s; rc_halt := rc_halt c; rc_breakers := rc_breakers c;
                      rc_tick := rc_tick c |}).

Definition breaker_open : M RC bool :=
  let* now := read_clock in
  let* allowed := zoom rc_breakers (fun r c => {| rc_stage := rc_stage c; rc_halt := rc_halt c;
                                                  rc_breakers := r; rc_tick := rc_tick c |})
                    (reg_allows bcfg "global" now) in
  ret (negb allowed).

Definition require_actor_reason (actor reason : string) : res unit :=
  raise_if (is_blank reason) ValueError "reason is required" ;!
  raise_if (is_blank actor) ValueError "actor is required".

Definition actor_meta (actor : string) : metadata := {[ "actor"%string := PStr actor ]}.

Definition current (stage : LiveReleaseStage) (reason_code reason actor : string)
    : M RC LiveReleaseDecision :=
  let* now := read_clock in
  let* halted := gets (fun c => is_halted (rc_halt c)) in
  let* open := breaker_open in
  lift (mk_LiveReleaseDecision
          {| ld_stage := stage; ld_approved := false; ld_reason_code := reason_code;
             ld_reason := reason; ld_evaluated_at := now; ld_failed_gates := [];
             ld_global_halt_active := halted; ld_circuit_breaker_open := open;
             ld_metadata := actor_meta actor |}).

Definition evaluate_release (target : LiveReleaseStage) (snapshot : LiveSafetyGateSnapshot)
    (actor : string) : M RC LiveReleaseDecision :=
  let* now := read_clock in
  let* halt := gets rc_halt in
  let failed := failed_gates snapshot in
  let* open := breaker_open in
  let sourced := <["evaluated_source"%string := PStr (gs_evaluated_source snapshot)]> (actor_meta actor) in
  let decide_ (approved : bool) code reason fg h b meta :=
    lift (mk_LiveReleaseDecision
            {| ld_stage := target; ld_approved := approved; ld_reason_code := code;
               ld_reason := reason; ld_evaluated_at := now; ld_failed_gates := fg;
               ld_global_halt_active := h; ld_circuit_breaker_open := b; ld_metadata := meta |}) in
  if gh_active halt then
    decide_ false "GLOBAL_HALT_ACTIVE"%string (gh_reason halt) failed true open (actor_meta actor)
  else if negb (is_nil failed) then
    decide_ false "LIVE_SAFETY_GATES_FAILED"%string "one or more LIVE safety gates are incomplete"%string
      failed false open sourced
  else if (open : bool) then
    decide_ false "CIRCUIT_BREAKER_OPEN"%string "circuit breaker is open"%string [] false true
      (actor_meta actor)
  else
    decide_ true "RELEASE_APPROVED"%string
      ("progression to " +:+ stage_value target +:+ " approved") [] false false sourced.

(** The first critical section of an advance: [Some] is an early return. *)
Definition advance_check (target : LiveReleaseStage) (actor : string)
    : M RC (option LiveReleaseDecision) :=
  let* stage := gets rc_stage in
  match target, stage with
  | SHADOW, SHADOW => let* d := current SHADOW "ALREADY_SHADOW" "already in SHADOW stage" actor in
                      ret (Some d)
  | SHADOW, FULL => let* d := current FULL "ALREADY_FULL" "already in FULL stage; disable() to pull back" actor in
                    ret (Some d)
  | FULL, DISABLED => let* d := current DISABLED "NOT_IN_SHADOW" "must advance to SHADOW before FULL" actor in
                      ret (Some d)
  | FULL, FULL => let* d := current FULL "ALREADY_FULL" "already in FULL stage" actor in
                  ret (Some d)
  | _, _ => ret None
  end.

(** [advance_to_shadow] ([target = SHADOW]) and [advance_to_full]
    ([target = FULL]), not interleaved with other calls. *)
Definition advance (target : LiveReleaseStage) (actor reason : string)
    (snapshot : LiveSafetyGateSnapshot) : M RC LiveReleaseDecision :=
  lift (require_actor_reason actor reason) ;*
  let* early := advance_check target actor in
  match early with
  | Some d => ret d
  | None =>
      let* decision := evaluate_release target snapshot actor in
      (if ld_approved decision then set_stage target else ret tt) ;*
      ret decision
  end.

Definition advance_to_shadow := advance SHADOW.
Definition advance_to_full := advance FULL.

Definition disable (actor reason : string) : M RC unit :=
  lift (require_actor_reason actor reason) ;* set_stage DISABLED.

Definition can_submit_live (live_trading_enabled : bool) : M RC bool :=
  let* c := gets id in
  if decide (rc_stage c = FULL) then
    if negb live_trading_enabled then ret false
    else if is_halted (rc_halt c) then ret false
    else let* open := breaker_open in ret (negb open)
  else ret false.

(** * Properties *)

Lemma failed_gates_nil s : failed_gates s = [] <-> forall g, gate_attr s g = true.
Proof.
  unfold failed_gates. split.
  - intros Hnil g. destruct (gate_attr s g) eqn:E; [done|exfalso].
    assert (In g (List.filter (fun g => negb (gate_attr s g)) all_gates)) as Hin.
    { apply filter_In. rewrite E. split; [|done]. destruct g; simpl; tauto. }
    by rewrite Hnil in Hin.
  - intros Hall. induction all_gates as [|g l IH]; simpl; [done|]. by rewrite (Hall g).
Qed.

Lemma is_nil_failed s : is_nil (failed_gates s) = true <-> forall g, gate_attr s g = true.
Proof. rewrite <- failed_gates_nil. by destruct (failed_gates s). Qed.

Lemma breaker_open_frame c x c' : breaker_open c = (x, c') ->
  rc_stage c' = rc_stage c /\ rc_halt c' = rc_halt c.
Proof.
  unfold breaker_open, bind, read_clock, zoom. simpl.
  destruct (reg_allows _ _ _ _) as [[b|e] r]; intros E; inv E; by split.
Qed.

(** The breaker's answer in an evaluation that starts at [c]. *)
Definition breaker_answer (c : RC) : res bool :=
  fst (reg_allows bcfg "global" (clock (S (rc_tick c))) (rc_breakers c)).

(** Everything an advance requires, at the moment it is evaluated. *)
Definition ready (c : RC) (snapshot : LiveSafetyGateSnapshot) : Prop :=
  is_halted (rc_halt c) = false /\ (forall g, gate_attr snapshot g = true) /\
  breaker_answer c = Ok true.

Lemma evaluate_release_spec target snapshot actor c d c' :
  evaluate_release target snapshot actor c = (Ok d, c') ->
  rc_stage c' = rc_stage c /\ rc_halt c' = rc_halt c /\ ld_stage d = target /\
  (ld_approved d = true <-> ready c snapshot).
Proof.
  unfold evaluate_release. unfold bind at 1, read_clock. unfold bind at 1, gets. unfold bind at 1.
  cbn [rc_halt].
  destruct (breaker_open _) as [[open|e] c1] eqn:Eb; [|done].
  assert (breaker_answer c = Ok (negb open)) as Hans.
  { revert Eb. unfold breaker_open, breaker_answer, bind, read_clock, zoom. simpl.
    destruct (reg_allows _ _ _ _) as [[[|]|e] r]; intros E; by inv E. }
  apply breaker_open_frame in Eb as [Es Eh]. simpl in Es, Eh. unfold ready. rewrite Hans.
  unfold lift, mk_LiveReleaseDecision, is_halted.
  pose proof (is_nil_failed snapshot) as Hnil.
  destruct (gh_active (rc_halt c)).
  { intros E. injection E as E ->. res_inv. split_and!; [done..|]. simpl. split; [done|by intros [? _]]. }
  destruct (is_nil (failed_gates snapshot)) eqn:En; cbn [negb].
  2: { intros E. injection E as E ->. res_inv. split_and!; [done..|]. simpl. split; [done|].
       intros (_ & Hg & _). by apply Hnil in Hg. }
  destruct open; cbn [negb].
  { intros E. injection E as E ->. res_inv. split_and!; [done..|]. simpl. split; [done|by intros (_ & _ & ?)]. }
  intros E. injection E as E ->. res_inv. split_and!; [done..|]. simpl. split; [|done].
  intros _. split_and!; [done| by apply Hnil | done].
Qed.

Lemma current_spec stage code reason actor c d c' :
  current stage code reason actor c = (Ok d, c') ->
  rc_stage c' = rc_stage c /\ rc_halt c' = rc_halt c /\ ld_approved d = false.
Proof.
  unfold current. unfold bind at 1, read_clock, bind at 1, gets, bind at 1.
  destruct (breaker_open _) as [[open|e] c1] eqn:Eb; [|done].
  apply breaker_open_frame in Eb as [Es Eh]. unfold lift, mk_LiveReleaseDecision.
  intros E. injection E as E ->. res_inv. by split_and!.
Qed.

(** The stage from which an advance to [target] starts. *)
Definition stage_before (target : LiveReleaseStage) : LiveReleaseStage :=
  match target with FULL => SHADOW | _ => DISABLED end.

(** controlled progression.  A completed [advance_to_shadow] or
    [advance_to_full] approves, and moves the stage, exactly when the controller
    is in the preceding stage (DISABLED before SHADOW, SHADOW before FULL), the
    kill switch is off, all seventeen gates hold and the global circuit breaker
    admits; otherwise the stage is unchanged.  The kill switch is never
    touched. *)
Theorem release_advances_iff_ready target actor reason snapshot c d c' :
  target <> DISABLED ->
  advance target actor reason snapshot c = (Ok d, c') ->
  rc_halt c' = rc_halt c /\
  (ld_approved d = true <-> rc_stage c = stage_before target /\ ready c snapshot) /\
  rc_stage c' = (if ld_approved d then target else rc_stage c).
Proof.
  intros Ht E. unfold advance in E. apply bind_ok in E as ([] & c1 & El & E).
  injection El as _ <-. apply bind_ok in E as (early & c2 & Ec & E).
  destruct early as [d0|].
  - inv E. assert (rc_stage c' = rc_stage c /\ rc_halt c' = rc_halt c /\ ld_approved d = false /\
                   rc_stage c <> stage_before target) as (Hs & Hh & Ha & Hne).
    { unfold advance_check in Ec. unfold bind at 1, gets in Ec.
      destruct target, (rc_stage c) eqn:Est; try done;
        apply bind_ok in Ec as (d1 & c3 & Ecur & Er); inv Er; apply current_spec in Ecur as (? & ? & ?);
        split_and!; simpl; congruence. }
    rewrite Ha. split_and!; [done| |done]. split; [done | by intros [? _]].
  - assert (c2 = c /\ rc_stage c = stage_before target) as [-> Hst].
    { unfold advance_check in Ec. unfold bind at 1, gets in Ec.
      destruct target, (rc_stage c) eqn:Est; try done;
        first [by injection Ec as <- | by apply bind_ok in Ec as (d1 & c3 & _ & Er)]. }
    apply bind_ok in E as (dec & c3 & Ee & E).
    apply evaluate_release_spec in Ee as (Hs & Hh & _ & Hap).
    apply bind_ok in E as ([] & c4 & Eset & E). inv E.
    destruct (ld_approved d) eqn:Ea; inv Eset; simpl; split_and!; try done.
    + split; [|done]. intros _. split; [done|]. by apply Hap.
    + split; [done|]. intros [_ Hr]. by apply Hap in Hr.
Qed.

(** C9: the readiness signal is fail-closed: [can_submit_live] answers True only
    in stage FULL with LIVE trading enabled, the kill switch off and the global
    breaker admitting, and it never changes the stage or the kill switch. *)
Theorem can_submit_live_sound enabled c b c' :
  can_submit_live enabled c = (Ok b, c') ->
  rc_stage c' = rc_stage c /\ rc_halt c' = rc_halt c /\
  (b = true -> rc_stage c = FULL /\ enabled = true /\ is_halted (rc_halt c) = false /\
    fst (reg_allows bcfg "global" (clock (rc_tick c)) (rc_breakers c)) = Ok true).
Proof.
  unfold can_submit_live. unfold bind at 1, gets, id. destruct (decide _) as [Hs|]; [|by intros [= <- <-]].
  destruct enabled; simpl; [|by intros [= <- <-]].
  destruct (is_halted (rc_halt c)) eqn:Eh; [by intros [= <- <-]|].
  intros E. apply bind_ok in E as (open & c1 & Eb & E). inv E.
  pose proof (breaker_open_frame _ _ _ Eb) as [-> ->]. split_and!; [done..|].
  intros Hb. split_and!; [done..|]. revert Eb. unfold breaker_open, bind, read_clock, zoom. simpl.
  destruct (reg_allows _ _ _ _) as [[[|]|e] r]; intros E; by inv E.
Qed.

(** ** Interleaved callers *)

(** A caller inside an advance holds no lock between its two critical sections. *)
Inductive in_flight :=
| Evaluating (target : LiveReleaseStage)   (* after the first block *)
| Approved (target : LiveReleaseStage).    (* before the second block *)

(** One atomic step of some caller, on the controller and the callers in
    flight. *)
Inductive concurrent_step : RC * list in_flight -> RC * list in_flight -> Prop :=
| cs_begin target actor reason c c' l :
    require_actor_reason actor reason = Ok tt ->
    advance_check target actor c = (Ok None, c') ->
    concurrent_step (c, l) (c', Evaluating target :: l)
| cs_evaluate target snapshot actor c d c' l1 l2 :
    evaluate_release target snapshot actor c = (Ok d, c') -> ld_approved d = true ->
    concurrent_step (c, l1 ++ Evaluating target :: l2) (c', l1 ++ Approved target :: l2)
| cs_commit target c l1 l2 :
    concurrent_step (c, l1 ++ Approved target :: l2) (snd (set_stage target c), l1 ++ l2)
| cs_disable actor reason c c' l :
    disable actor reason c = (Ok tt, c') ->
    concurrent_step (c, l) (c', l).

End Release.

Section Interleaving.
Context (clock : nat -> datetime) (bcfg : CircuitBreakerConfig).

(** a pull-back can be lost.  When a [disable] completes between the two
    critical sections of a concurrent [advance_to_full], the advance still
    writes FULL: from any ready controller in SHADOW there is an interleaving in
    which [disable] has returned, no new advance was started, and the stage
    ends as FULL. *)
Theorem concurrent_disable_is_lost c snapshot actor reason :
  rc_stage c = SHADOW -> require_actor_reason actor reason = Ok tt ->
  ready clock bcfg c snapshot -> dt_aware (clock (rc_tick c)) = true ->
  exists c1 c2 c3,
    concurrent_step clock bcfg (c, []) (c, [Evaluating FULL]) /\
    concurrent_step clock bcfg (c, [Evaluating FULL]) (c1, [Approved FULL]) /\
    disable actor reason c1 = (Ok tt, c2) /\ rc_stage c2 = DISABLED /\
    concurrent_step clock bcfg (c1, [Approved FULL]) (c2, [Approved FULL]) /\
    concurrent_step clock bcfg (c2, [Approved FULL]) (c3, []) /\ rc_stage c3 = FULL.
Proof.
  intros Hst Hreq (Hh & Hg & Hb) Haw.
  assert (exists d c1, evaluate_release clock bcfg FULL snapshot actor c = (Ok d, c1) /\
                       ld_approved d = true) as (d & c1 & Ee & Hd).
  { unfold evaluate_release. unfold bind at 1, read_clock. unfold bind at 1, gets. unfold bind at 1.
    unfold breaker_answer in Hb. unfold breaker_open, bind at 1, read_clock, bind at 1, zoom. cbn [rc_tick rc_breakers rc_halt].
    destruct (reg_allows _ _ _ _) as [r rb]. simpl in Hb. subst r. cbn [negb ret].
    unfold is_halted in Hh. rewrite Hh. apply is_nil_failed in Hg. rewrite Hg. cbn [negb].
    unfold lift, mk_LiveReleaseDecision. cbn. rewrite Haw. cbn. eauto. }
  exists c1, (snd (set_stage DISABLED c1)), (snd (set_stage FULL (snd (set_stage DISABLED c1)))).
  split_and!; try done.
  - eapply cs_begin; [done|]. unfold advance_check, bind, gets. by rewrite Hst.
  - by eapply (cs_evaluate _ _ FULL snapshot actor c d c1 [] []).
  - unfold disable, bind, lift. by rewrite Hreq.
  - eapply (cs_disable _ _ actor reason). unfold disable, bind, lift. by rewrite Hreq.
  - apply (cs_commit _ _ FULL _ [] []).
Qed.

End Interleaving.

(** * The kill switch and the evaluator *)

(** Calls of the halt controller, failed ones included. *)
Inductive halt_op := Activate (now : datetime) (reason actor : string)
                   | Deactivate (now : datetime) (reason actor : string).

Definition run_halt (s : GlobalHaltState) (o : halt_op) : GlobalHaltState :=
  match o with
  | Activate now reason actor => snd (activate now reason actor s)
  | Deactivate now reason actor => snd (deactivate now reason actor s)
  end.

Lemma run_halt_cases s o :
  run_halt s o = s \/ is_halted (run_halt s o) = true \/
  exists t why who, o = Deactivate t why who /\ is_blank why = false /\ is_blank who = false /\
    gh_updated_by (run_halt s o) = who /\
    gh_metadata (run_halt s o) !! "deactivate_reason"%string = Some (PStr why).
Proof.
  destruct o as [t why who|t why who]; simpl;
    unfold activate, deactivate, bind, lift, modify, ret, require_reason_and_actor, mk_GlobalHaltState,
      raise_if; simpl;
    destruct (is_blank why) eqn:Ew; simpl; try (by left); destruct (is_blank who) eqn:Eo; simpl;
    try (by left); destruct (dt_aware t); simpl; try (by left); right; [by left|right].
  by exists t, why, who.
Qed.

(** the kill switch is never lifted silently.  From a controller that starts
    halted, after any sequence of calls, failed ones included, trading is
    enabled only if the last effective call was a [deactivate] with a non-blank
    reason and actor, both of which are recorded in the state. *)
Theorem halt_lifted_only_audited now reason s0 ops :
  new_halt_controller now true reason = Ok s0 ->
  let s := foldl run_halt s0 ops in
  is_halted s = false ->
  exists t why who, Deactivate t why who ∈ ops /\ is_blank why = false /\ is_blank who = false /\
    gh_updated_by s = who /\ gh_metadata s !! "deactivate_reason"%string = Some (PStr why).
Proof.
  intros H0. cbn zeta.
  assert (is_halted s0 = true) as Hh0.
  { unfold new_halt_controller, mk_GlobalHaltState in H0. by res_inv. }
  induction ops as [|o ops IH] using rev_ind; simpl; [by rewrite Hh0|].
  rewrite foldl_app. simpl. set (s1 := foldl run_halt s0 ops) in *. intros Hs.
  destruct (run_halt_cases s1 o) as [E|[Ha|(t & why & who & -> & Hw & Ho & Hby & Hm)]].
  - rewrite E in *. destruct (IH Hs) as (t & why & who & Hin & Hrest).
    exists t, why, who. split; [apply elem_of_app; by left | done].
  - by rewrite Ha in Hs.
  - exists t, why, who. split; [apply elem_of_app; right; by apply list_elem_of_singleton | done].
Qed.

(** LIVE can be enabled only with an explicitly inactive halt state and all
    seventeen gates; with any other input the evaluator refuses, and it always
    answers when its clock is timezone-aware. *)
Theorem live_gates_fail_closed now system_now snapshot halt :
  dt_aware now = true -> dt_aware system_now = true ->
  exists d, evaluate_gates now system_now snapshot halt = Ok d /\
    (gd_can_enable_live d = true <->
     (exists h, halt = Some h /\ gh_active h = false) /\ forall g, gate_attr snapshot g = true).
Proof.
  intros Hn Hs. unfold evaluate_gates, mk_LiveSafetyGateDecision. rewrite Hn. simpl.
  pose proof (is_nil_failed snapshot) as Hnil.
  destruct halt as [h|]; simpl.
  - destruct (gh_active h) eqn:Eh; simpl.
    { rewrite Hn. simpl. eexists. split; [done|]. split; [done|]. intros [(h' & [= <-] & ?) _]. congruence. }
    destruct (is_nil (failed_gates snapshot)); simpl; rewrite Hn; simpl; eexists; (split; [done|]).
    + split; [|done]. intros _. split; [by exists h | by apply Hnil].
    + split; [done|]. intros [_ Hg]. by apply Hnil in Hg.
  - unfold mk_GlobalHaltState. rewrite Hs. simpl. rewrite Hn. simpl.
    eexists. split; [done|]. split; [done|]. by intros [(h & ? & _) _].
Qed.

(** * Witnesses *)

Module GateSample.

Definition clock (n : nat) : datetime := utc (1700000000000000 + Z.of_nat n).

Definition snapshot : LiveSafetyGateSnapshot := {|
  market_data_stable := true; broker_connection_stable := true; strategy_tests_passing := true;
  risk_tests_passing := true; execution_tests_passing := true; reconciliation_working := true;
  paper_trading_verified := true; emergency_stop_verified := true;
  circuit_breakers_verified := true; position_calculations_verified := true;
  pnl_verified := true; duplicate_order_protection_verified := true;
  broker_failure_handling_verified := true; database_persistence_verified := true;
  audit_logging_verified := true; monitoring_verified := true; security_checks_passed := true;
  gs_evaluated_source := "manual"; gs_metadata := ∅ |}.

Definition halted : GlobalHaltState := Eval vm_compute in
  match new_halt_controller (clock 0) true "default safety halt" with
  | Ok s => s
  | Err _ => {| gh_active := true; gh_reason := ""; gh_updated_at := clock 0; gh_updated_by := "";
                gh_metadata := ∅ |}
  end.

Definition lifted : GlobalHaltState := snd (deactivate (clock 1) "drill over" "ops" halted).

Definition shadow : LiveReleaseController :=
  {| rc_stage := SHADOW; rc_halt := lifted; rc_breakers := ∅; rc_tick := 0 |}.

Definition full : res LiveReleaseDecision * LiveReleaseController := Eval vm_compute in
  advance clock default_breaker_config FULL "ops" "go" snapshot shadow.

Definition decision : LiveReleaseDecision := Eval vm_compute in
  match fst full with
  | Ok d => d
  | Err _ => {| ld_stage := DISABLED; ld_approved := false; ld_reason_code := ""; ld_reason := "";
                ld_evaluated_at := clock 0; ld_failed_gates := []; ld_global_halt_active := true;
                ld_circuit_breaker_open := true; ld_metadata := ∅ |}
  end.

Lemma ready_shadow : ready clock default_breaker_config shadow snapshot.
Proof. split; [reflexivity|]. split; [intros g; destruct g; reflexivity | vm_compute; reflexivity]. Defined.

Lemma release_advances_witness :
  rc_stage (snd full) = FULL /\ ld_approved decision = true.
Proof.
  destruct (release_advances_iff_ready clock default_breaker_config FULL "ops" "go" snapshot shadow
              decision (snd full)) as (_ & H2 & H3).
  - discriminate.
  - vm_compute. reflexivity.
  - assert (ld_approved decision = true) as Ha.
    { apply H2. split; [reflexivity | exact ready_shadow]. }
    rewrite Ha in H3. split; assumption.
Defined.

Lemma can_submit_live_witness :
  fst (can_submit_live clock default_breaker_config true (snd full)) = Ok true /\
  is_halted (rc_halt (snd full)) = false.
Proof.
  split; [vm_compute; reflexivity|].
  apply (can_submit_live_sound clock default_breaker_config true (snd full) true
           (snd (can_submit_live clock default_breaker_config true (snd full)))).
  - vm_compute. reflexivity.
  - reflexivity.
Defined.

Lemma concurrent_disable_witness : exists c3,
  rtc (concurrent_step clock default_breaker_config) (shadow, []) (c3, []) /\ rc_stage c3 = FULL.
Proof.
  destruct (concurrent_disable_is_lost clock default_breaker_config shadow snapshot "ops" "stop")
    as (c1 & c2 & c3 & S1 & S2 & _ & _ & S3 & S4 & Hf).
  - reflexivity.
  - reflexivity.
  - exact ready_shadow.
  - reflexivity.
  - exists c3. split; [|exact Hf].
    exact (rtc_l _ _ _ _ S1 (rtc_l _ _ _ _ S2 (rtc_l _ _ _ _ S3 (rtc_l _ _ _ _ S4 (rtc_refl _ _))))).
Defined.

Lemma halt_lifted_witness :
  exists t why who, Deactivate t why who ∈ [Deactivate (clock 1) "drill over" "ops"] /\
    gh_updated_by lifted = who.
Proof.
  destruct (halt_lifted_only_audited (clock 0) "default safety halt" halted
              [Deactivate (clock 1) "drill over" "ops"]) as (t & why & who & Hin & _ & _ & Hby & _).
  - vm_compute. reflexivity.
  - vm_compute. reflexivity.
  - exists t, why, who. split; assumption.
Defined.

Lemma live_gates_witness : exists d,
  evaluate_gates (clock 0) (clock 0) snapshot (Some lifted) = Ok d /\ gd_can_enable_live d = true.
Proof.
  destruct (live_gates_fail_closed (clock 0) (clock 0) snapshot (Some lifted)) as (d & E & H).
  - reflexivity.
  - reflexivity.
  - exists d. split; [exact E|]. apply H.
    split; [exists lifted; split; vm_compute; reflexivity | intros g; destruct g; reflexivity].
Defined.

End GateSample.
