(* ===== verification/Contracts.v ===== *)
(** Shared contracts and the broker submission guard
    (src/packages/contracts/alpha_algo_contracts/signals.py and risk.py,
    src/services/signal_engine/alpha_algo_signal_engine/identity.py,
    src/services/execution_engine/alpha_algo_execution_engine/submission.py).

    The contract classes are pydantic models: constructing one checks the field
    constraints, then the validators; a violation raises [ValidationError], a
    [ValueError].  [mk_...] is that construction. *)

From stdpp Require Import base list strings gmap.
From Stdlib Require Import ZArith Lia String.
From S2P Require Import Prelude PyBase Hashing Decimal Lifecycle.

Open Scope Z_scope.

(** * signals.py *)

Inductive SignalAction := BUY | SELL | EXIT | HOLD.

#[export] Instance SignalAction_eq_dec : EqDecision SignalAction.
Proof. solve_decision. Defined.

Definition action_value (a : SignalAction) : string :=
  match a with BUY => "BUY" | SELL => "SELL" | EXIT => "EXIT" | HOLD => "HOLD" end.

Record StrategySignal := {
  sg_signal_id : UUID;
  sg_strategy_id : UUID;
  sg_strategy_version : string;
  sg_strategy_config_hash : string;
  sg_instrument_id : UUID;
  sg_action : SignalAction;
  sg_timestamp : datetime;
  sg_confidence : decimal;
  sg_reason : string;
  sg_metadata : metadata;
}.

(** [Field(min_length=lo, max_length=hi)] followed by [require_non_blank]. *)
Definition text_field (lo hi : nat) (s : string) : res unit :=
  raise_if ((String.length s <? lo)%nat || (hi <? String.length s)%nat) ValueError
    "String should have an admissible length" ;!
  raise_if (is_blank s) ValueError "value cannot be blank".

Definition mk_StrategySignal (s : StrategySignal) : res StrategySignal :=
  text_field 1 64 (sg_strategy_version s) ;!
  text_field 1 128 (sg_strategy_config_hash s) ;!
  raise_if (negb (dt_aware (sg_timestamp s))) ValueError "timestamp must be timezone-aware" ;!
  raise_if (dlt (sg_confidence s) dzero || dgt (sg_confidence s) (dec_of_Z 1)) ValueError
    "Input should be between 0 and 1" ;!
  text_field 1 500 (sg_reason s) ;!
  Ok s.

Definition audit_key (s : StrategySignal) : string :=
  uuid_str (sg_strategy_id s) +:+ ":" +:+ sg_strategy_version s +:+ ":" +:+
  sg_strategy_config_hash s +:+ ":" +:+ uuid_str (sg_signal_id s).

(** * risk.py *)

Inductive RiskDecisionResult := APPROVED | DECLINED.   (* the member REJECTED *)

#[export] Instance RiskDecisionResult_eq_dec : EqDecision RiskDecisionResult.
Proof. solve_decision. Defined.

Record RiskAssessmentRequest := {
  ra_request_id : UUID;
  ra_signal : StrategySignal;
  ra_requested_at : datetime;
  ra_metadata : metadata;
}.

Definition mk_RiskAssessmentRequest (request_id : UUID) (signal : StrategySignal)
    (requested_at : datetime) : res RiskAssessmentRequest :=
  raise_if (negb (dt_aware requested_at)) ValueError "requested_at must be timezone-aware" ;!
  Ok {| ra_request_id := request_id; ra_signal := signal; ra_requested_at := requested_at;
        ra_metadata := ∅ |}.

(** The metadata keys the risk engine writes on its decisions. *)
Record DecisionMeta := {
  dm_passed_rule_ids : option (list string);
  dm_context : option metadata;
  dm_trading_mode : option string;
  dm_error_type : option exn_class;
  dm_rule : metadata;
}.

Definition no_meta : DecisionMeta :=
  {| dm_passed_rule_ids := None; dm_context := None; dm_trading_mode := None;
     dm_error_type := None; dm_rule := ∅ |}.

Record RiskDecision := {
  rd_decision_id : UUID;
  rd_request_id : UUID;
  rd_signal_id : UUID;
  rd_strategy_id : UUID;
  rd_instrument_id : UUID;
  rd_decision : RiskDecisionResult;
  rd_reason_code : string;
  rd_reason : string;
  rd_rule_id : string;
  rd_evaluated_at : datetime;
  rd_approval_id : option UUID;
  rd_expires_at : option datetime;
  rd_binding_hash : option string;
  rd_snapshot_id : option UUID;
  rd_metadata : DecisionMeta;
}.

Definition validate_approval_state (d : RiskDecision) : res unit :=
  match rd_decision d with
  | APPROVED =>
      match rd_approval_id d, rd_expires_at d with
      | None, _ => raise ValueError "approved risk decisions require approval_id"
      | _, None => raise ValueError "approved risk decisions require expires_at"
      | Some _, Some expires =>
          let! early := dt_le expires (rd_evaluated_at d) in
          raise_if early ValueError "expires_at must be after evaluated_at"
      end
  | DECLINED =>
      raise_if (match rd_approval_id d, rd_expires_at d with None, None => false | _, _ => true end)
        ValueError "rejected risk decisions cannot carry approval fields"
  end.

Definition mk_RiskDecision (d : RiskDecision) : res RiskDecision :=
  text_field 1 100 (rd_reason_code d) ;!
  text_field 1 500 (rd_reason d) ;!
  text_field 1 100 (rd_rule_id d) ;!
  raise_if (negb (dt_aware (rd_evaluated_at d))) ValueError "timestamp values must be timezone-aware" ;!
  raise_if (match rd_expires_at d with Some t => negb (dt_aware t) | None => false end)
    ValueError "timestamp values must be timezone-aware" ;!
  validate_approval_state d ;!
  Ok d.

(** [and] evaluates its operands in order; both datetimes are aware when the
    comparison is reached on a constructed decision. *)
Definition is_valid_approval_at (d : RiskDecision) (value : datetime) : res bool :=
  raise_if (negb (dt_aware value)) ValueError "value must be timezone-aware" ;!
  match rd_decision d, rd_approval_id d, rd_expires_at d with
  | APPROVED, Some _, Some expires => dt_lt value expires
  | _, _, _ => Ok false
  end.

(** * identity.py of the signal engine *)

Section Identity.
(** [datetime.fromisoformat] *)
Context (fromisoformat : string -> res datetime).

Definition event_timestamp (s : StrategySignal) : res datetime :=
  match sg_metadata s !! "event_timestamp"%string with
  | None | Some PNone => Ok (sg_timestamp s)
  | Some (PDatetime d) => Ok d
  | Some raw => fromisoformat (py_str raw)
  end.

Definition compute_signal_identity_key (s : StrategySignal) : res string :=
  let! ts := event_timestamp s in
  Ok (sha256_hex (String.concat "|"
        [uuid_str (sg_strategy_id s); sg_strategy_version s; sg_strategy_config_hash s;
         uuid_str (sg_instrument_id s); action_value (sg_action s); isoformat ts])).
End Identity.

(** * submission.py *)

Record BrokerSubmissionIntent := {
  bi_order_id : UUID;
  bi_signal_id : UUID;
  bi_strategy_id : UUID;
  bi_instrument_id : UUID;
  bi_risk_approval_id : UUID;
  bi_requested_at : datetime;
  bi_metadata : metadata;
}.

Definition validate_risk_decision (risk_decision : option RiskDecision)
    (signal_id strategy_id instrument_id : UUID) (requested_at : datetime) : res unit :=
  match risk_decision with
  | None => raise RiskApprovalRequired "risk approval is required before broker submission"
  | Some d =>
      raise_if (negb (bool_decide (rd_decision d = APPROVED))) RiskApprovalRequired
        "risk decision is not approved" ;!
      let! valid := is_valid_approval_at d requested_at in
      raise_if (negb valid) RiskApprovalRequired "risk approval is expired or invalid" ;!
      raise_if (negb (rd_signal_id d =? signal_id)%N) RiskApprovalRequired
        "risk approval signal_id does not match order intent" ;!
      raise_if (negb (rd_strategy_id d =? strategy_id)%N) RiskApprovalRequired
        "risk approval strategy_id does not match order intent" ;!
      raise_if (negb (rd_instrument_id d =? instrument_id)%N) RiskApprovalRequired
        "risk approval instrument_id does not match order intent"
  end.

Definition request_submission (lc : OrderLifecycle) (risk_decision : option RiskDecision)
    (signal_id strategy_id instrument_id : UUID) (requested_at : datetime) (meta : metadata)
    (eid : UUID) : res (OrderLifecycle * BrokerSubmissionIntent) :=
  require_timezone requested_at "requested_at" ;!
  validate_risk_decision risk_decision signal_id strategy_id instrument_id requested_at ;!
  match risk_decision with
  | None => raise AssertionError ""
  | Some d =>
      match rd_approval_id d with
      | None => raise AssertionError ""
      | Some approval_id =>
          let! next_lifecycle := transition_to lc SUBMISSION_REQUESTED requested_at
            "valid risk approval accepted for broker submission request"
            (meta ∪ {[ "risk_decision_id"%string := PStr (uuid_str (rd_decision_id d));
                       "risk_approval_id"%string := PStr (uuid_str approval_id) ]}) eid in
          require_timezone requested_at "requested_at" ;!
          Ok (next_lifecycle,
              {| bi_order_id := lc_order_id lc; bi_signal_id := signal_id;
                 bi_strategy_id := strategy_id; bi_instrument_id := instrument_id;
                 bi_risk_approval_id := approval_id; bi_requested_at := requested_at;
                 bi_metadata := meta ∪ {[ "risk_decision_id"%string :=
                                            PStr (uuid_str (rd_decision_id d)) ]} |})
      end
  end.

(** * Properties *)

(** An approval that covers an order intent at a time. *)
Definition covers (d : RiskDecision) (signal_id strategy_id instrument_id : UUID) (at_ : datetime)
    : Prop :=
  rd_decision d = APPROVED /\ rd_signal_id d = signal_id /\ rd_strategy_id d = strategy_id /\
  rd_instrument_id d = instrument_id /\
  exists a t, rd_approval_id d = Some a /\ rd_expires_at d = Some t /\ dt_lt at_ t = Ok true.

Lemma validate_risk_decision_ok od sid stid iid at_ u :
  validate_risk_decision od sid stid iid at_ = Ok u ->
  exists d, od = Some d /\ covers d sid stid iid at_.
Proof.
  unfold validate_risk_decision, is_valid_approval_at. destruct od as [d|]; [|done]. intros H. res_inv.
  exists d. split; [done|]. unfold covers.
  repeat match goal with H : negb _ = false |- _ => apply negb_false_iff in H end.
  repeat match goal with H : (_ =? _)%N = true |- _ => apply N.eqb_eq in H end.
  match goal with H : bool_decide _ = true |- _ => apply bool_decide_eq_true in H; rewrite H in * end.
  destruct (rd_approval_id d) as [aid|]; [|simplify_eq].
  destruct (rd_expires_at d) as [t|]; [|simplify_eq]. subst. split_and!; try done. by exists aid, t.
Qed.

(** no submission without a matching, live risk approval.  The guard lets an
    order through exactly when the order is in INTERNAL_ORDER_CREATED, the
    request time is timezone-aware, and the decision is an approval for the same
    signal, strategy and instrument that has not expired at that time; the
    intent then names the order and that approval, and the order has moved to
    SUBMISSION_REQUESTED. *)
Theorem submission_requires_approval lc od sid stid iid at_ meta eid :
  dt_aware at_ = true ->
  (exists lc' i, request_submission lc od sid stid iid at_ meta eid = Ok (lc', i) /\
     lc_state lc' = SUBMISSION_REQUESTED /\ lc_order_id lc' = lc_order_id lc /\
     bi_order_id i = lc_order_id lc /\ bi_requested_at i = at_ /\
     (exists d, od = Some d /\ rd_approval_id d = Some (bi_risk_approval_id i)))
  <-> lc_state lc = INTERNAL_ORDER_CREATED /\ exists d, od = Some d /\ covers d sid stid iid at_.
Proof.
  intros Hat. split.
  - intros (lc' & i & E & _). unfold request_submission in E. res_inv.
    match goal with H : validate_risk_decision _ _ _ _ _ = _ |- _ =>
      apply validate_risk_decision_ok in H as (d & -> & Hc) end.
    destruct (rd_approval_id d); [|done]. res_inv.
    match goal with H : transition_to _ _ _ _ _ _ = _ |- _ =>
      apply transition_to_inv in H as (Hin & _) end.
    split; [|by exists d]. revert Hin.
    destruct (lc_state lc); vm_compute; try done; intros Hin;
      repeat (apply elem_of_cons in Hin as [Hin|Hin]; [done|]); by apply not_elem_of_nil in Hin.
  - intros (Hst & d & -> & (Hd & Hs & Hsi & Hi & a & t & Ha & Ht & Hlt)).
    unfold request_submission, validate_risk_decision, is_valid_approval_at, require_timezone.
    rewrite Hat, Hd, Ha, Ht, Hs, Hsi, Hi, !N.eqb_refl. simpl.
    unfold is_valid_approval_at. simpl. rewrite Hlt. simpl.
    destruct (transition_to_total lc SUBMISSION_REQUESTED at_
      "valid risk approval accepted for broker submission request"
      (meta ∪ {[ "risk_decision_id"%string := PStr (uuid_str (rd_decision_id d));
                 "risk_approval_id"%string := PStr (uuid_str a) ]}) eid)
      as (lc' & E & Hst' & Hid); [rewrite Hst; vm_compute; by left | done | by vm_compute |].
    rewrite E. simpl. eexists _, _. split; [done|]. simpl. by eauto 10.
Qed.

Module GuardSample.
Definition at_ (s : Z) : datetime := utc (s * 1000000).

Definition decision : RiskDecision := {|
  rd_decision_id := 1; rd_request_id := 2; rd_signal_id := 3; rd_strategy_id := 4;
  rd_instrument_id := 5; rd_decision := APPROVED; rd_reason_code := "ALL_RULES_PASSED";
  rd_reason := "ok"; rd_rule_id := "core"; rd_evaluated_at := at_ 10; rd_approval_id := Some 6%N;
  rd_expires_at := Some (at_ 40); rd_binding_hash := None; rd_snapshot_id := None;
  rd_metadata := no_meta |}.

Definition lc : OrderLifecycle :=
  {| lc_order_id := 7; lc_state := INTERNAL_ORDER_CREATED; lc_transitions := [] |}.

Lemma submission_witness : exists lc' i,
  request_submission lc (Some decision) 3 4 5 (at_ 20) ∅ 9 = Ok (lc', i) /\
  lc_state lc' = SUBMISSION_REQUESTED.
Proof.
  destruct (proj2 (submission_requires_approval lc (Some decision) 3 4 5 (at_ 20) ∅ 9 eq_refl))
    as (lc' & i & E & Hs & _).
  - split; [reflexivity|]. exists decision. split; [reflexivity|].
    repeat (split; [reflexivity|]). exists 6%N, (at_ 40). repeat split; reflexivity.
  - exists lc', i. split; assumption.
Defined.
End GuardSample.
