(* ===== verification/RiskRules.v ===== *)
(** Risk rules and the rule engine
    (src/services/risk_engine/alpha_algo_risk_engine/engine.py): the twenty core
    rules over a flat evaluation context, and the engine that runs an ordered
    set of rules, kill switch first. *)

From stdpp Require Import base list strings gmap.
From Stdlib Require Import ZArith QArith Qabs Lqa Lia String.
From S2P Require Import Prelude PyBase Decimal Contracts.

Open Scope Z_scope.

Inductive RiskTradingMode := tm_BACKTEST | tm_PAPER | tm_LIVE.

#[export] Instance RiskTradingMode_eq_dec : EqDecision RiskTradingMode.
Proof. solve_decision. Defined.

Definition mode_value (m : RiskTradingMode) : string :=
  match m with tm_BACKTEST => "BACKTEST" | tm_PAPER => "PAPER" | tm_LIVE => "LIVE" end.

Record RiskEvaluationContext := {
  cx_trading_mode : RiskTradingMode;
  cx_live_trading_enabled : bool;
  cx_global_halt_active : bool;
  cx_broker_connected : bool;
  cx_market_data_fresh : bool;
  cx_market_session_open : bool;
  cx_instrument_allowed : bool;
  cx_duplicate_signal : bool;
  cx_order_quantity : option decimal;
  cx_max_order_quantity : option decimal;
  cx_projected_position_quantity : option decimal;
  cx_max_position_quantity : option decimal;
  cx_projected_exposure : option decimal;
  cx_max_exposure : option decimal;
  cx_daily_realized_pnl : option decimal;
  cx_max_daily_loss : option decimal;
  cx_strategy_realized_pnl : option decimal;
  cx_max_strategy_loss : option decimal;
  cx_required_margin : option decimal;
  cx_available_margin : option decimal;
  cx_open_positions_count : option Z;
  cx_max_open_positions : option Z;
  cx_equity_value : option decimal;
  cx_high_water_mark : option decimal;
  cx_current_drawdown : option decimal;
  cx_max_drawdown : option decimal;
  cx_reference_price : option decimal;
  cx_current_price : option decimal;
  cx_max_price_deviation : option decimal;
  cx_recent_order_count : option Z;
  cx_max_orders_per_window : option Z;
  cx_order_window_seconds : option Z;
  cx_account_max_order_quantity : option decimal;
  cx_account_max_positions : option Z;
  cx_account_max_exposure : option decimal;
  cx_account_max_loss : option decimal;
  cx_account_max_order_rate : option Z;
  cx_account_daily_realized_pnl : option decimal;
  cx_pending_execution_count : option Z;
  cx_max_unresolved_executions : option Z;
  cx_retry_count : option Z;
  cx_max_retries_per_signal : option Z;
  cx_reserved_quantity : option decimal;
  cx_open_order_quantity : option decimal;
  cx_metadata : metadata;
}.

Record RuleEvaluation := {
  re_passed : bool;
  re_rule_id : string;
  re_reason_code : string;
  re_reason : string;
  re_metadata : metadata;
}.

Definition pass_ (rule_id : string) : RuleEvaluation :=
  {| re_passed := true; re_rule_id := rule_id; re_reason_code := "PASSED";
     re_reason := "rule passed"; re_metadata := ∅ |}.

Definition reject_ (rule_id reason_code reason : string) : RuleEvaluation :=
  {| re_passed := false; re_rule_id := rule_id; re_reason_code := reason_code;
     re_reason := reason; re_metadata := ∅ |}.

Definition require_positive_pair (rule_id : string) (current_value limit_value : option decimal)
    (current_name limit_name : string) : option RuleEvaluation :=
  match current_value, limit_value with
  | Some c, Some l =>
      if dlt c dzero || dle l dzero then
        Some (reject_ rule_id "RISK_CONTEXT_INVALID"
                (current_name +:+ " must be non-negative and " +:+ limit_name +:+ " must be positive"))
      else None
  | _, _ =>
      Some (reject_ rule_id "RISK_CONTEXT_MISSING"
              (current_name +:+ " and " +:+ limit_name +:+ " are required"))
  end.

(** A rule's [evaluate] may raise. *)
Abbreviation verdict := (res RuleEvaluation).

(** [a > b] where both were checked not to be [None] *)
Definition opt_gt (a b : option decimal) : bool :=
  match a, b with Some x, Some y => dgt x y | _, _ => false end.

(** * The core rules *)

Definition GlobalHaltRule (c : RiskEvaluationContext) : verdict :=
  let rule_id := "core.global-halt"%string in
  Ok (if cx_global_halt_active c then
        reject_ rule_id "GLOBAL_HALT_ACTIVE" "global trading halt is active"
      else pass_ rule_id).

Definition LiveModeRule (c : RiskEvaluationContext) : verdict :=
  let rule_id := "core.live-mode-gate"%string in
  Ok (if bool_decide (cx_trading_mode c = tm_LIVE) && negb (cx_live_trading_enabled c) then
        reject_ rule_id "LIVE_MODE_DISABLED" "LIVE trading is not explicitly enabled"
      else pass_ rule_id).

Definition BrokerHealthRule (c : RiskEvaluationContext) : verdict :=
  let rule_id := "core.broker-health"%string in
  Ok (if negb (cx_broker_connected c) then
        reject_ rule_id "BROKER_DISCONNECTED" "broker connection is not healthy"
      else pass_ rule_id).

Definition MarketDataFreshnessRule (c : RiskEvaluationContext) : verdict :=
  let rule_id := "core.market-data-freshness"%string in
  Ok (if negb (cx_market_data_fresh c) then
        reject_ rule_id "STALE_MARKET_DATA" "market data is stale or unavailable"
      else pass_ rule_id).

Definition MarketSessionRule (c : RiskEvaluationContext) : verdict :=
  let rule_id := "core.market-session"%string in
  Ok (if negb (cx_market_session_open c) then
        reject_ rule_id "MARKET_SESSION_CLOSED" "market session is closed"
      else pass_ rule_id).

Definition InstrumentRestrictionRule (c : RiskEvaluationContext) : verdict :=
  let rule_id := "core.instrument-restriction"%string in
  Ok (if negb (cx_instrument_allowed c) then
        reject_ rule_id "INSTRUMENT_BLOCKED" "instrument is not allowed"
      else pass_ rule_id).

Definition QuantityLimitRule (c : RiskEvaluationContext) : verdict :=
  let rule_id := "core.quantity-limit"%string in
  Ok (match require_positive_pair rule_id (cx_order_quantity c) (cx_max_order_quantity c)
              "order_quantity" "max_order_quantity" with
      | Some missing => missing
      | None =>
          if match cx_order_quantity c with Some q => deq q dzero | None => false end then
            reject_ rule_id "ZERO_QUANTITY" "order quantity must be positive"
          else if opt_gt (cx_order_quantity c) (cx_max_order_quantity c) then
            reject_ rule_id "QUANTITY_LIMIT_EXCEEDED" "order quantity exceeds limit"
          else pass_ rule_id
      end).

Definition PositionLimitRule (c : RiskEvaluationContext) : verdict :=
  let rule_id := "core.position-limit"%string in
  let projected := dabs <$> cx_projected_position_quantity c in
  Ok (match require_positive_pair rule_id projected (cx_max_position_quantity c)
              "projected_position_quantity" "max_position_quantity" with
      | Some missing => missing
      | None =>
          if opt_gt projected (cx_max_position_quantity c) then
            reject_ rule_id "POSITION_LIMIT_EXCEEDED" "projected position exceeds limit"
          else pass_ rule_id
      end).

Definition ExposureLimitRule (c : RiskEvaluationContext) : verdict :=
  let rule_id := "core.exposure-limit"%string in
  Ok (match require_positive_pair rule_id (cx_projected_exposure c) (cx_max_exposure c)
              "projected_exposure" "max_exposure" with
      | Some missing => missing
      | None =>
          if opt_gt (cx_projected_exposure c) (cx_max_exposure c) then
            reject_ rule_id "EXPOSURE_LIMIT_EXCEEDED" "projected exposure exceeds limit"
          else pass_ rule_id
      end).

Definition DailyLossLimitRule (c : RiskEvaluationContext) : verdict :=
  let rule_id := "core.daily-loss-limit"%string in
  Ok (match cx_daily_realized_pnl c, cx_max_daily_loss c with
      | Some pnl, Some limit =>
          if dle limit dzero then
            reject_ rule_id "RISK_CONTEXT_INVALID" "max_daily_loss must be positive"
          else if dle pnl (dminus limit) then
            reject_ rule_id "DAILY_LOSS_LIMIT_EXCEEDED" "daily loss limit reached"
          else pass_ rule_id
      | _, _ => reject_ rule_id "RISK_CONTEXT_MISSING"
                  "daily_realized_pnl and max_daily_loss are required"
      end).

Definition StrategyLossLimitRule (c : RiskEvaluationContext) : verdict :=
  let rule_id := "core.strategy-loss-limit"%string in
  Ok (match cx_strategy_realized_pnl c, cx_max_strategy_loss c with
      | Some pnl, Some limit =>
          if dle limit dzero then
            reject_ rule_id "RISK_CONTEXT_INVALID" "max_strategy_loss must be positive"
          else if dle pnl (dminus limit) then
            reject_ rule_id "STRATEGY_LOSS_LIMIT_EXCEEDED" "strategy loss limit reached"
          else pass_ rule_id
      | _, _ => reject_ rule_id "RISK_CONTEXT_MISSING"
                  "strategy_realized_pnl and max_strategy_loss are required"
      end).

Definition MarginAvailabilityRule (c : RiskEvaluationContext) : verdict :=
  let rule_id := "core.margin-availability"%string in
  Ok (match require_positive_pair rule_id (cx_required_margin c) (cx_available_margin c)
              "required_margin" "available_margin" with
      | Some missing => missing
      | None =>
          if opt_gt (cx_required_margin c) (cx_available_margin c) then
            reject_ rule_id "MARGIN_UNAVAILABLE" "required margin exceeds availability"
          else pass_ rule_id
      end).

Definition DuplicateOrderProtectionRule (c : RiskEvaluationContext) : verdict :=
  let rule_id := "core.duplicate-order-protection"%string in
  Ok (if cx_duplicate_signal c then
        reject_ rule_id "DUPLICATE_SIGNAL" "duplicate signal detected"
      else pass_ rule_id).

Definition MaximumOpenPositionsRule (c : RiskEvaluationContext) : verdict :=
  let rule_id := "core.maximum-open-positions"%string in
  Ok (match cx_open_positions_count c, cx_max_open_positions c with
      | Some n, Some limit =>
          if (n <? 0) || (limit <? 0) then
            reject_ rule_id "RISK_CONTEXT_INVALID" "open position counts must be non-negative"
          else if limit <=? n then
            reject_ rule_id "MAX_OPEN_POSITIONS_REACHED" "maximum simultaneous positions reached"
          else pass_ rule_id
      | _, _ => reject_ rule_id "RISK_CONTEXT_MISSING"
                  "open_positions_count and max_open_positions are required"
      end).

(** A sub-check of an optional limit: [Some] is an early return. *)
Definition sub_check {L V} (limit : option L) (value : option V) (missing : RuleEvaluation)
    (exceeded : V -> L -> bool) (rejected : RuleEvaluation) : option RuleEvaluation :=
  match limit with
  | None => None
  | Some l => match value with
              | None => Some missing
              | Some v => if exceeded v l then Some rejected else None
              end
  end.

Fixpoint first_some {T} (l : list (option T)) (d : T) : T :=
  match l with
  | [] => d
  | Some t :: _ => t
  | None :: l' => first_some l' d
  end.

Definition AccountLimitRule (c : RiskEvaluationContext) : verdict :=
  let rule_id := "core.account-limits"%string in
  let missing msg := reject_ rule_id "RISK_CONTEXT_MISSING" msg in
  Ok (first_some
    [sub_check (cx_account_max_order_quantity c) (cx_order_quantity c)
       (missing "order_quantity is required for the account quantity limit"%string) dgt
       (reject_ rule_id "ACCOUNT_ORDER_QUANTITY_LIMIT_EXCEEDED" "account order-quantity limit exceeded");
     sub_check (cx_account_max_positions c) (cx_open_positions_count c)
       (missing "open_positions_count is required for the account position limit"%string)
       (fun n l => l <=? n)
       (reject_ rule_id "ACCOUNT_POSITIONS_LIMIT_EXCEEDED" "account position limit reached");
     sub_check (cx_account_max_exposure c) (cx_projected_exposure c)
       (missing "projected_exposure is required for the account exposure limit"%string) dgt
       (reject_ rule_id "ACCOUNT_EXPOSURE_LIMIT_EXCEEDED" "account exposure limit exceeded");
     sub_check (cx_account_max_loss c) (cx_account_daily_realized_pnl c)
       (missing "account_daily_realized_pnl is required for the account loss limit"%string)
       (fun pnl l => dle pnl (dminus l))
       (reject_ rule_id "ACCOUNT_LOSS_LIMIT_EXCEEDED" "account loss limit reached");
     sub_check (cx_account_max_order_rate c) (cx_recent_order_count c)
       (missing "recent_order_count is required for the account order-rate limit"%string)
       (fun n l => l <=? n)
       (reject_ rule_id "ACCOUNT_ORDER_RATE_EXCEEDED" "account order-rate limit exceeded")]
    (pass_ rule_id)).

Definition MaximumDrawdownRule (c : RiskEvaluationContext) : verdict :=
  let rule_id := "core.maximum-drawdown"%string in
  Ok (match cx_max_drawdown c with
      | None => pass_ rule_id
      | Some limit =>
          match cx_current_drawdown c with
          | None => reject_ rule_id "RISK_CONTEXT_MISSING"
                      "current_drawdown is required when a drawdown limit is configured"
          | Some dd =>
              if dlt limit dzero || dlt dd dzero then
                reject_ rule_id "RISK_CONTEXT_INVALID" "drawdown values must be non-negative"
              else if dgt dd limit then
                reject_ rule_id "DRAWDOWN_LIMIT_EXCEEDED" "drawdown limit exceeded"
              else pass_ rule_id
          end
      end).

Definition PriceDeviationRule (c : RiskEvaluationContext) : verdict :=
  let rule_id := "core.price-deviation"%string in
  match cx_max_price_deviation c with
  | None => Ok (pass_ rule_id)
  | Some limit =>
      match cx_reference_price c, cx_current_price c with
      | Some reference, Some price =>
          if dle reference dzero then
            Ok (reject_ rule_id "RISK_CONTEXT_INVALID" "reference_price must be positive")
          else if dle price dzero then
            Ok (reject_ rule_id "PRICE_INVALID" "current price must be positive")
          else if dlt limit dzero then
            Ok (reject_ rule_id "RISK_CONTEXT_INVALID" "max_price_deviation must be non-negative")
          else
            let! deviation := ddiv (dabs (dsub price reference)) reference in
            Ok (if dgt deviation limit then
                  reject_ rule_id "PRICE_DEVIATION_EXCEEDED"
                    "price deviation from reference exceeds threshold"
                else pass_ rule_id)
      | _, _ => Ok (reject_ rule_id "RISK_CONTEXT_MISSING"
                  "reference_price and current_price are required when a price-deviation limit is configured")
      end
  end.

(** The common shape of the three counter limits. *)
Definition counter_rule (rule_id : string) (limit value : option Z) (missing invalid : string)
    (exceeded : Z -> Z -> bool) (code reason : string) : RuleEvaluation :=
  match limit with
  | None => pass_ rule_id
  | Some l =>
      match value with
      | None => reject_ rule_id "RISK_CONTEXT_MISSING" missing
      | Some n =>
          if (n <? 0) || (l <? 0) then reject_ rule_id "RISK_CONTEXT_INVALID" invalid
          else if exceeded n l then reject_ rule_id code reason
          else pass_ rule_id
      end
  end.

Definition OrderFrequencyRule (c : RiskEvaluationContext) : verdict :=
  Ok (counter_rule "core.order-frequency" (cx_max_orders_per_window c) (cx_recent_order_count c)
        "recent_order_count is required when an order-frequency limit is configured"
        "order counts must be non-negative" (fun n l => l <=? n)
        "ORDER_FREQUENCY_LIMIT_EXCEEDED" "order frequency limit reached").

Definition ExecutionTimeoutRule (c : RiskEvaluationContext) : verdict :=
  Ok (counter_rule "core.execution-timeout" (cx_max_unresolved_executions c)
        (cx_pending_execution_count c)
        "pending_execution_count is required when an execution-timeout limit is configured"
        "execution counts must be non-negative" (fun n l => l <=? n)
        "UNRESOLVED_EXECUTIONS_LIMIT_EXCEEDED" "too many unresolved executions").

Definition RetrySafetyRule (c : RiskEvaluationContext) : verdict :=
  Ok (counter_rule "core.retry-safety" (cx_max_retries_per_signal c) (cx_retry_count c)
        "retry_count is required when a retry limit is configured"
        "retry counts must be non-negative" (fun n l => l <? n)
        "MAX_RETRIES_EXCEEDED" "signal retry limit exceeded").

(** * The engine *)

(** An injected rule object: its [rule_id] (if it has one), whether it is an
    instance of [GlobalHaltRule], and its [evaluate]. *)
Record RiskRule := {
  rl_rule_id : option string;
  rl_is_global_halt : bool;
  rl_evaluate : RiskAssessmentRequest -> RiskEvaluationContext -> verdict;
}.

Definition core_rule (id : string) (f : RiskEvaluationContext -> verdict) : RiskRule :=
  {| rl_rule_id := Some id; rl_is_global_halt := false; rl_evaluate := fun _ => f |}.

Definition halt_rule : RiskRule :=
  {| rl_rule_id := Some "core.global-halt"%string; rl_is_global_halt := true;
     rl_evaluate := fun _ => GlobalHaltRule |}.

Definition default_risk_rules : list RiskRule :=
  [halt_rule;
   core_rule "core.live-mode-gate" LiveModeRule;
   core_rule "core.broker-health" BrokerHealthRule;
   core_rule "core.market-data-freshness" MarketDataFreshnessRule;
   core_rule "core.market-session" MarketSessionRule;
   core_rule "core.instrument-restriction" InstrumentRestrictionRule;
   core_rule "core.account-limits" AccountLimitRule;
   core_rule "core.quantity-limit" QuantityLimitRule;
   core_rule "core.position-limit" PositionLimitRule;
   core_rule "core.exposure-limit" ExposureLimitRule;
   core_rule "core.daily-loss-limit" DailyLossLimitRule;
   core_rule "core.strategy-loss-limit" StrategyLossLimitRule;
   core_rule "core.margin-availability" MarginAvailabilityRule;
   core_rule "core.maximum-drawdown" MaximumDrawdownRule;
   core_rule "core.price-deviation" PriceDeviationRule;
   core_rule "core.order-frequency" OrderFrequencyRule;
   core_rule "core.duplicate-order-protection" DuplicateOrderProtectionRule;
   core_rule "core.maximum-open-positions" MaximumOpenPositionsRule;
   core_rule "core.execution-timeout" ExecutionTimeoutRule;
   core_rule "core.retry-safety" RetrySafetyRule].

Definition with_global_halt_first (rules : option (list RiskRule)) : list RiskRule :=
  match rules with
  | None => default_risk_rules
  | Some [] => []
  | Some (r :: l) =>
      if rl_is_global_halt r then r :: l
      else halt_rule :: List.filter (fun x => negb (rl_is_global_halt x)) (r :: l)
  end.

Record RiskRuleEngine := {
  en_rules : list RiskRule;
  en_approval_ttl : Z;
}.

(** [RiskRuleEngine(rules, approval_ttl=...)] *)
Definition mk_RiskRuleEngine (rules : option (list RiskRule)) (approval_ttl : Z) : res RiskRuleEngine :=
  raise_if (approval_ttl <=? 0) ValueError "approval_ttl must be positive" ;!
  Ok {| en_rules := with_global_halt_first rules; en_approval_ttl := approval_ttl |}.

(** [_reject]; [did] is the id the id factory answers. *)
Definition engine_reject (request : RiskAssessmentRequest) (evaluated_at : datetime) (did : UUID)
    (rule_id reason_code reason : string) (meta : DecisionMeta) : res RiskDecision :=
  mk_RiskDecision
    {| rd_decision_id := did; rd_request_id := ra_request_id request;
       rd_signal_id := sg_signal_id (ra_signal request);
       rd_strategy_id := sg_strategy_id (ra_signal request);
       rd_instrument_id := sg_instrument_id (ra_signal request); rd_decision := DECLINED;
       rd_reason_code := reason_code; rd_reason := reason; rd_rule_id := rule_id;
       rd_evaluated_at := evaluated_at; rd_approval_id := None; rd_expires_at := None;
       rd_binding_hash := None; rd_snapshot_id := None; rd_metadata := meta |}.

Definition engine_approve (request : RiskAssessmentRequest) (context : RiskEvaluationContext)
    (evaluated_at : datetime) (did aid : UUID) (ttl : Z) (passed_rule_ids : list string)
    : res RiskDecision :=
  mk_RiskDecision
    {| rd_decision_id := did; rd_request_id := ra_request_id request;
       rd_signal_id := sg_signal_id (ra_signal request);
       rd_strategy_id := sg_strategy_id (ra_signal request);
       rd_instrument_id := sg_instrument_id (ra_signal request); rd_decision := APPROVED;
       rd_reason_code := "ALL_RULES_PASSED"; rd_reason := "all configured risk rules passed";
       rd_rule_id := "core.risk-rule-engine"; rd_evaluated_at := evaluated_at;
       rd_approval_id := Some aid; rd_expires_at := Some (dt_add evaluated_at ttl);
       rd_binding_hash := None; rd_snapshot_id := None;
       rd_metadata := {| dm_passed_rule_ids := Some passed_rule_ids;
                         dm_context := Some (cx_metadata context);
                         dm_trading_mode := Some (mode_value (cx_trading_mode context));
                         dm_error_type := None; dm_rule := ∅ |} |}.

(** The loop over the rules, with the rule ids passed so far. *)
Fixpoint evaluate_rules (rules : list RiskRule) (passed_rule_ids : list string)
    (request : RiskAssessmentRequest) (context : RiskEvaluationContext)
    (evaluated_at : datetime) (did aid : UUID) (ttl : Z) : res RiskDecision :=
  match rules with
  | [] => engine_approve request context evaluated_at did aid ttl passed_rule_ids
  | rule :: rules' =>
      match rl_evaluate rule request context with
      | Err exc =>
          engine_reject request evaluated_at did
            (default "core.unknown-rule"%string (rl_rule_id rule)) "RISK_RULE_ERROR"
            "risk rule raised an exception"
            {| dm_passed_rule_ids := None; dm_context := Some (cx_metadata context);
               dm_trading_mode := None; dm_error_type := Some (exn_cls exc); dm_rule := ∅ |}
      | Ok result =>
          if negb (re_passed result) then
            engine_reject request evaluated_at did (re_rule_id result) (re_reason_code result)
              (re_reason result)
              {| dm_passed_rule_ids := Some passed_rule_ids; dm_context := None;
                 dm_trading_mode := None; dm_error_type := None; dm_rule := re_metadata result |}
          else evaluate_rules rules' (passed_rule_ids ++ [re_rule_id result]) request context
                 evaluated_at did aid ttl
      end
  end.

(** [evaluate]; [now] is the clock's answer, [did] and [aid] the id factory's. *)
Definition engine_evaluate (en : RiskRuleEngine) (request : RiskAssessmentRequest)
    (context : RiskEvaluationContext) (now : datetime) (did aid : UUID) : res RiskDecision :=
  raise_if (negb (dt_aware now)) ValueError "clock must return a timezone-aware datetime" ;!
  match en_rules en with
  | [] => engine_reject request now did "core.fail-safe" "NO_RISK_RULES_CONFIGURED"
            "risk engine has no configured rules"
            {| dm_passed_rule_ids := None; dm_context := Some (cx_metadata context);
               dm_trading_mode := None; dm_error_type := None; dm_rule := ∅ |}
  | rules => evaluate_rules rules [] request context now did aid (en_approval_ttl en)
  end.

(** * Properties *)

Definition passes (request : RiskAssessmentRequest) (context : RiskEvaluationContext) (r : RiskRule)
    : bool :=
  match rl_evaluate r request context with Ok e => re_passed e | Err _ => false end.

(** What is reported for a rule that does not pass: its id and reason code. *)
Definition failure_report (request : RiskAssessmentRequest) (context : RiskEvaluationContext)
    (r : RiskRule) : string * string :=
  match rl_evaluate r request context with
  | Ok e => (re_rule_id e, re_reason_code e)
  | Err _ => (default "core.unknown-rule"%string (rl_rule_id r), "RISK_RULE_ERROR"%string)
  end.

(** The texts a rule can put on a decision satisfy the contract's constraints. *)
Definition rule_texts_ok (r : RiskRule) : Prop := forall request context,
  match rl_evaluate r request context with
  | Ok e => text_field 1 100 (re_reason_code e) = Ok tt /\ text_field 1 500 (re_reason e) = Ok tt /\
            text_field 1 100 (re_rule_id e) = Ok tt
  | Err _ => text_field 1 100 (default "core.unknown-rule"%string (rl_rule_id r)) = Ok tt
  end.

Lemma engine_reject_ok request now did rule_id code reason meta :
  dt_aware now = true -> text_field 1 100 code = Ok tt -> text_field 1 500 reason = Ok tt ->
  text_field 1 100 rule_id = Ok tt ->
  exists d, engine_reject request now did rule_id code reason meta = Ok d /\
    rd_decision d = DECLINED /\ rd_rule_id d = rule_id /\ rd_reason_code d = code /\
    rd_approval_id d = None /\ rd_evaluated_at d = now /\ rd_binding_hash d = None.
Proof.
  intros Hn Hc Hr Hi. unfold engine_reject, mk_RiskDecision.
  cbn [rd_reason_code rd_reason rd_rule_id rd_evaluated_at rd_expires_at]. rewrite Hc, Hr, Hi, Hn.
  simpl. eauto 10.
Qed.

Lemma engine_approve_ok request context now did aid ttl ids :
  dt_aware now = true -> 0 < ttl ->
  exists d, engine_approve request context now did aid ttl ids = Ok d /\
    rd_decision d = APPROVED /\ rd_approval_id d = Some aid /\
    rd_expires_at d = Some (dt_add now ttl) /\ rd_evaluated_at d = now /\
    rd_signal_id d = sg_signal_id (ra_signal request) /\
    rd_strategy_id d = sg_strategy_id (ra_signal request) /\
    rd_instrument_id d = sg_instrument_id (ra_signal request).
Proof.
  intros Hn Ht. unfold engine_approve, mk_RiskDecision, validate_approval_state.
  cbn [rd_reason_code rd_reason rd_rule_id rd_evaluated_at rd_expires_at rd_decision rd_approval_id].
  assert (dt_aware (dt_add now ttl) = true) as Ha by done. rewrite Hn, Ha.
  unfold dt_le. rewrite dt_cmp_aware by done. simpl.
  destruct (Z.leb_spec (dt_instant now + ttl) (dt_instant now)); [lia|]. simpl. eauto 12.
Qed.

Lemma evaluate_rules_spec request context now did aid ttl rules : forall ids,
  dt_aware now = true -> 0 < ttl -> Forall rule_texts_ok rules ->
  exists d, evaluate_rules rules ids request context now did aid ttl = Ok d /\
    ((Forall (fun r => passes request context r = true) rules /\
      rd_decision d = APPROVED /\ rd_approval_id d = Some aid /\
      rd_expires_at d = Some (dt_add now ttl) /\ rd_evaluated_at d = now /\
      rd_signal_id d = sg_signal_id (ra_signal request) /\
      rd_strategy_id d = sg_strategy_id (ra_signal request) /\
      rd_instrument_id d = sg_instrument_id (ra_signal request)) \/
     (exists l1 r l2, rules = l1 ++ r :: l2 /\
        Forall (fun r => passes request context r = true) l1 /\ passes request context r = false /\
        rd_decision d = DECLINED /\ rd_approval_id d = None /\
        (rd_rule_id d, rd_reason_code d) = failure_report request context r)).
Proof.
  induction rules as [|r rules IH]; intros ids Hn Ht Hok; simpl.
  { destruct (engine_approve_ok request context now did aid ttl ids Hn Ht) as (d & E & Hd).
    exists d. split; [done|]. left. split; [constructor|done]. }
  inversion Hok as [|? ? Hr Hrs]; subst. specialize (Hr request context).
  assert (passes request context r = false ->
    failure_report request context r = failure_report request context r) as _ by done.
  destruct (rl_evaluate r request context) as [e|x] eqn:Ee.
  - destruct Hr as (Hc & Hreason & Hid). destruct (re_passed e) eqn:Ep; simpl.
    + destruct (IH (ids ++ [re_rule_id e]) Hn Ht Hrs) as (d & E & [[Hall Hd]|(l1 & r' & l2 & -> & Hd)]);
        exists d; (split; [done|]).
      * left. split; [|done]. constructor; [|done]. unfold passes. by rewrite Ee.
      * right. exists (r :: l1), r', l2. split; [done|]. destruct Hd as [Hl1 Hd].
        split; [|done]. constructor; [|done]. unfold passes. by rewrite Ee.
    + destruct (engine_reject_ok request now did (re_rule_id e) (re_reason_code e) (re_reason e)
        {| dm_passed_rule_ids := Some ids; dm_context := None; dm_trading_mode := None;
           dm_error_type := None; dm_rule := re_metadata e |} Hn Hc Hreason Hid)
        as (d & E & Hdec & Hri & Hrc & Hap & _). exists d. split; [done|]. right.
      exists [], r, rules. split_and!; try done; unfold passes, failure_report; rewrite Ee; [done|congruence].
  - destruct (engine_reject_ok request now did (default "core.unknown-rule"%string (rl_rule_id r))
      "RISK_RULE_ERROR" "risk rule raised an exception"
      {| dm_passed_rule_ids := None; dm_context := Some (cx_metadata context);
         dm_trading_mode := None; dm_error_type := Some (exn_cls x); dm_rule := ∅ |} Hn)
      as (d & E & Hdec & Hri & Hrc & Hap & _); [by vm_compute|by vm_compute|done|].
    exists d. split; [done|]. right.
    exists [], r, rules. split_and!; try done; unfold passes, failure_report; rewrite Ee; [done|congruence].
Qed.

(** The texts of one evaluation, checked by computation. *)
Definition texts_ok (e : RuleEvaluation) : bool :=
  is_ok (text_field 1 100 (re_reason_code e)) && is_ok (text_field 1 500 (re_reason e)) &&
  is_ok (text_field 1 100 (re_rule_id e)).

Definition verdict_ok (v : verdict) : bool := match v with Ok e => texts_ok e | Err _ => true end.

Lemma is_ok_unit (r : res unit) : is_ok r = true -> r = Ok tt.
Proof. by destruct r as [[]|]. Qed.

Lemma core_rule_texts id f : is_ok (text_field 1 100 id) = true ->
  (forall c, verdict_ok (f c) = true) -> rule_texts_ok (core_rule id f).
Proof.
  intros Hid Hf request c. simpl. specialize (Hf c). destruct (f c) as [e|x]; [|by apply is_ok_unit].
  simpl in Hf. apply andb_prop in Hf as [[H1 H2]%andb_prop H3]. by split_and!; apply is_ok_unit.
Qed.

Lemma texts_first_some l d : Forall (fun o => match o with Some e => texts_ok e = true | None => True end) l ->
  texts_ok d = true -> texts_ok (first_some l d) = true.
Proof. intros Hl Hd. induction Hl as [|[e|] l He Hl IH]; simpl; done. Qed.

Lemma texts_sub_check {L V} (limit : option L) (v : option V) missing p rejected :
  texts_ok missing = true -> texts_ok rejected = true ->
  match sub_check limit v missing p rejected with Some e => texts_ok e = true | None => True end.
Proof. intros Hm Hr. unfold sub_check. by repeat case_match; simplify_eq. Qed.

Ltac texts_cases := repeat case_match; simplify_eq; vm_compute; reflexivity.

Lemma account_rule_texts c : verdict_ok (AccountLimitRule c) = true.
Proof.
  unfold AccountLimitRule. cbn [verdict_ok]. apply texts_first_some; [|by vm_compute].
  repeat (apply Forall_cons_2; [apply texts_sub_check; vm_compute; reflexivity|]). apply Forall_nil_2.
Qed.

Lemma default_rules_texts : Forall rule_texts_ok default_risk_rules.
Proof.
  apply Forall_cons_2.
  { intros request c. simpl. unfold GlobalHaltRule. destruct (cx_global_halt_active c); by vm_compute. }
  repeat (apply Forall_cons_2; [apply core_rule_texts; [vm_compute; reflexivity|intros c;
    first [apply account_rule_texts |
      unfold LiveModeRule, BrokerHealthRule, MarketDataFreshnessRule, MarketSessionRule,
        InstrumentRestrictionRule, QuantityLimitRule, PositionLimitRule, ExposureLimitRule,
        DailyLossLimitRule, StrategyLossLimitRule, MarginAvailabilityRule, MaximumDrawdownRule,
        PriceDeviationRule, OrderFrequencyRule, DuplicateOrderProtectionRule,
        MaximumOpenPositionsRule, ExecutionTimeoutRule, RetrySafetyRule, require_positive_pair,
        counter_rule, rbind; texts_cases]]|]).
  apply Forall_nil_2.
Qed.

(** ** The limits an approval guarantees *)

Lemma dabs_exact d : fits (dz d) -> (dval (dabs d) == Qabs (dval d))%Q.
Proof.
  intros Hf. unfold dabs. rewrite dfix_exact; unfold dval.
  - rewrite Qabs_Qmult, (Qabs_pos (pow10 (dexp d))) by apply Qlt_le_weak, pow10_pos.
    assert (dz (Dec false (dcoef d) (dexp d)) = Z.abs (dz d)) as ->.
    { unfold dz. simpl. destruct (dneg d); lia. }
    reflexivity.
  - unfold fits, dz in *. simpl. destruct (dneg d); lia.
Qed.

Lemma dminus_exact d : fits (dz d) -> (dval (dminus d) == - dval d)%Q.
Proof.
  intros Hf. unfold dminus. destruct (N.eqb_spec (dcoef d) 0) as [E|].
  - rewrite dfix_exact by by vm_compute. rewrite dval_coef0.
    destruct d as [sg c e]. simpl in E. subst c.
    assert (dval (Dec sg 0 e) == 0)%Q as -> by (destruct sg; apply dval_coef0). reflexivity.
  - rewrite dfix_exact; [apply copy_negate_val|]. unfold fits, dz, copy_negate in *. simpl.
    destruct (dneg d); simpl; lia.
Qed.

(** A measured value within a configured positive limit. *)
Definition within (v l : option decimal) : Prop :=
  exists a b, v = Some a /\ l = Some b /\ (0 <= dval a)%Q /\ (0 < dval b)%Q /\ (dval a <= dval b)%Q.

(** A P&L above the loss limit. *)
Definition above_loss (pnl l : option decimal) : Prop :=
  exists a b, pnl = Some a /\ l = Some b /\ (- dval b < dval a)%Q.

(** [P v l] whenever the optional limit [l] is configured; the value is then
    required. *)
Definition if_configured {L V} (limit : option L) (value : option V) (P : V -> L -> Prop) : Prop :=
  forall l, limit = Some l -> exists v, value = Some v /\ P v l.

(** The business meaning of "every core rule passes". *)
Record within_limits (c : RiskEvaluationContext) : Prop := {
  wl_not_halted : cx_global_halt_active c = false;
  wl_live_gate : cx_trading_mode c = tm_LIVE -> cx_live_trading_enabled c = true;
  wl_broker : cx_broker_connected c = true;
  wl_fresh : cx_market_data_fresh c = true;
  wl_session : cx_market_session_open c = true;
  wl_instrument : cx_instrument_allowed c = true;
  wl_not_duplicate : cx_duplicate_signal c = false;
  wl_quantity : within (cx_order_quantity c) (cx_max_order_quantity c) /\
    (forall q, cx_order_quantity c = Some q -> 0 < dval q)%Q;
  wl_position : exists p m, cx_projected_position_quantity c = Some p /\
    cx_max_position_quantity c = Some m /\ (0 < dval m)%Q /\ (Qabs (dval p) <= dval m)%Q;
  wl_exposure : within (cx_projected_exposure c) (cx_max_exposure c);
  wl_daily_loss : above_loss (cx_daily_realized_pnl c) (cx_max_daily_loss c) /\
    (forall l, cx_max_daily_loss c = Some l -> 0 < dval l)%Q;
  wl_strategy_loss : above_loss (cx_strategy_realized_pnl c) (cx_max_strategy_loss c) /\
    (forall l, cx_max_strategy_loss c = Some l -> 0 < dval l)%Q;
  wl_margin : within (cx_required_margin c) (cx_available_margin c);
  wl_open_positions : exists n m, cx_open_positions_count c = Some n /\
    cx_max_open_positions c = Some m /\ 0 <= n < m;
  wl_account_quantity : if_configured (cx_account_max_order_quantity c) (cx_order_quantity c)
    (fun v l => dval v <= dval l)%Q;
  wl_account_positions : if_configured (cx_account_max_positions c) (cx_open_positions_count c) Z.lt;
  wl_account_exposure : if_configured (cx_account_max_exposure c) (cx_projected_exposure c)
    (fun v l => dval v <= dval l)%Q;
  wl_account_loss : if_configured (cx_account_max_loss c) (cx_account_daily_realized_pnl c)
    (fun v l => - dval l < dval v)%Q;
  wl_account_rate : if_configured (cx_account_max_order_rate c) (cx_recent_order_count c) Z.lt;
  wl_drawdown : if_configured (cx_max_drawdown c) (cx_current_drawdown c)
    (fun v l => 0 <= dval v /\ dval v <= dval l)%Q;
  wl_frequency : if_configured (cx_max_orders_per_window c) (cx_recent_order_count c)
    (fun v l => 0 <= v < l);
  wl_unresolved : if_configured (cx_max_unresolved_executions c) (cx_pending_execution_count c)
    (fun v l => 0 <= v < l);
  wl_retries : if_configured (cx_max_retries_per_signal c) (cx_retry_count c)
    (fun v l => 0 <= v <= l);
  wl_deviation : forall l, cx_max_price_deviation c = Some l -> exists r p d,
    cx_reference_price c = Some r /\ cx_current_price c = Some p /\
    (0 < dval r)%Q /\ (0 < dval p)%Q /\
    ddiv (dabs (dsub p r)) r = Ok d /\ (dval d <= dval l)%Q;
}.

(** The quantities that are negated or taken absolute fit the 28 digits of the
    decimal context (money and quantity columns have 18). *)
Definition amounts_fit (c : RiskEvaluationContext) : Prop :=
  let fit o := forall d, o = Some d -> fits (dz d) in
  fit (cx_projected_position_quantity c) /\ fit (cx_max_daily_loss c) /\
  fit (cx_max_strategy_loss c) /\ fit (cx_account_max_loss c).

Definition vpass (v : verdict) : bool := match v with Ok e => re_passed e | Err _ => false end.

(** Comparisons in the context, as facts about rationals. *)
Ltac cmp_facts :=
  unfold dgt in *;
  repeat match goal with
  | H : _ || _ = false |- _ => apply orb_false_iff in H as [? ?]
  | H : dle _ _ = true |- _ => apply dle_spec in H
  | H : dle _ _ = false |- _ => apply dle_false in H
  | H : dlt _ _ = true |- _ => apply dlt_spec in H
  | H : dlt _ _ = false |- _ => apply dlt_false in H
  | H : deq _ _ = true |- _ => apply deq_spec in H
  | H : deq _ _ = false |- _ => apply deq_false in H
  | H : (_ <=? _) = true |- _ => apply Z.leb_le in H
  | H : (_ <=? _) = false |- _ => apply Z.leb_gt in H
  | H : (_ <? _) = true |- _ => apply Z.ltb_lt in H
  | H : (_ <? _) = false |- _ => apply Z.ltb_ge in H
  end;
  rewrite ?dval_zero in *.

Lemma pair_passes rule_id v l cn ln :
  require_positive_pair rule_id v l cn ln = None -> opt_gt v l = false -> within v l.
Proof.
  unfold require_positive_pair, opt_gt, within. destruct v as [a|], l as [b|]; try done.
  destruct (dlt a dzero || dle b dzero) eqn:E; [done|]. intros _ Hgt. exists a, b. by cmp_facts.
Qed.

Lemma quantity_rule_sound c : vpass (QuantityLimitRule c) = true ->
  within (cx_order_quantity c) (cx_max_order_quantity c) /\
  (forall q, cx_order_quantity c = Some q -> 0 < dval q)%Q.
Proof.
  unfold QuantityLimitRule. destruct (require_positive_pair _ _ _ _ _) eqn:Ep; simpl.
  { unfold require_positive_pair in Ep. repeat case_match; by simplify_eq. }
  destruct (cx_order_quantity c) as [q|] eqn:Eq; [|done].
  destruct (deq q dzero) eqn:Ez; [done|].
  destruct (opt_gt (Some q) (cx_max_order_quantity c)) eqn:Eg; [done|]. intros _.
  pose proof (pair_passes _ _ _ _ _ Ep Eg) as Hw. split; [done|]. intros q' [= <-].
  destruct Hw as (a & b & [= <-] & _ & Ha & _). cmp_facts.
  apply Qle_lteq in Ha as [|Ha]; [done|]. by rewrite <- Ha in Ez.
Qed.

Lemma position_rule_sound c : amounts_fit c -> vpass (PositionLimitRule c) = true ->
  exists p m, cx_projected_position_quantity c = Some p /\
    cx_max_position_quantity c = Some m /\ (0 < dval m)%Q /\ (Qabs (dval p) <= dval m)%Q.
Proof.
  intros Hfit. unfold PositionLimitRule. destruct (require_positive_pair _ _ _ _ _) eqn:Ep; simpl.
  { unfold require_positive_pair in Ep. repeat case_match; by simplify_eq. }
  destruct (opt_gt _ _) eqn:Eg; [done|]. intros _.
  destruct (pair_passes _ _ _ _ _ Ep Eg) as (a & b & Ha & Hb & _ & Hpos & Hle).
  destruct (cx_projected_position_quantity c) as [p|] eqn:Epq; [|done]. simplify_eq/=.
  exists p, b. split_and!; try done. rewrite dabs_exact in Hle; [done|]. by apply (proj1 Hfit).
Qed.

Lemma pair_rule_sound rule_id v l cn ln code reason :
  vpass (Ok (match require_positive_pair rule_id v l cn ln with
             | Some missing => missing
             | None => if opt_gt v l then reject_ rule_id code reason else pass_ rule_id
             end)) = true -> within v l.
Proof.
  destruct (require_positive_pair _ _ _ _ _) eqn:Ep; simpl.
  { unfold require_positive_pair in Ep. repeat case_match; by simplify_eq. }
  destruct (opt_gt _ _) eqn:Eg; [done|]. intros _. by eapply pair_passes.
Qed.

Lemma loss_sound pnl l : fits (dz l) -> dle pnl (dminus l) = false -> (- dval l < dval pnl)%Q.
Proof. intros Hf H. cmp_facts. by rewrite dminus_exact in H. Qed.

Lemma daily_loss_sound c : amounts_fit c -> vpass (DailyLossLimitRule c) = true ->
  above_loss (cx_daily_realized_pnl c) (cx_max_daily_loss c) /\
  (forall l, cx_max_daily_loss c = Some l -> 0 < dval l)%Q.
Proof.
  intros Hfit. unfold DailyLossLimitRule, above_loss.
  destruct (cx_daily_realized_pnl c) as [a|], (cx_max_daily_loss c) as [b|] eqn:El; try done.
  destruct (dle b dzero) eqn:E1; [done|]. destruct (dle a (dminus b)) eqn:E2; [done|]. intros _.
  split; [exists a, b; split_and!; try done; apply loss_sound; [|done] |].
  - by apply (proj1 (proj2 Hfit)).
  - intros l [= <-]. by cmp_facts.
Qed.

Lemma strategy_loss_sound c : amounts_fit c -> vpass (StrategyLossLimitRule c) = true ->
  above_loss (cx_strategy_realized_pnl c) (cx_max_strategy_loss c) /\
  (forall l, cx_max_strategy_loss c = Some l -> 0 < dval l)%Q.
Proof.
  intros Hfit. unfold StrategyLossLimitRule, above_loss.
  destruct (cx_strategy_realized_pnl c) as [a|], (cx_max_strategy_loss c) as [b|] eqn:El; try done.
  destruct (dle b dzero) eqn:E1; [done|]. destruct (dle a (dminus b)) eqn:E2; [done|]. intros _.
  split; [exists a, b; split_and!; try done; apply loss_sound; [|done] |].
  - by apply (proj1 (proj2 (proj2 Hfit))).
  - intros l [= <-]. by cmp_facts.
Qed.

Lemma first_some_passed l d :
  re_passed (first_some l d) = true ->
  Forall (fun o => match o with Some e => re_passed e = false | None => True end) l ->
  Forall (fun o => o = None) l.
Proof.
  intros H Hl. induction Hl as [|[e|] l He Hl IH]; simpl in *; [constructor|congruence|].
  constructor; auto.
Qed.

Lemma sub_check_rejects {L V} (limit : option L) (v : option V) rule_id m1 p c1 m2 :
  match sub_check limit v (reject_ rule_id "RISK_CONTEXT_MISSING" m1) p (reject_ rule_id c1 m2) with
  | Some e => re_passed e = false | None => True end.
Proof. unfold sub_check. by repeat case_match; simplify_eq. Qed.

Lemma sub_check_none {L V} (limit : option L) (v : option V) m p r :
  sub_check limit v m p r = None -> if_configured limit v (fun v l => p v l = false).
Proof.
  unfold sub_check, if_configured. intros H l ->. destruct v as [v|]; [|done].
  exists v. split; [done|]. by destruct (p v l).
Qed.

Lemma if_configured_impl {L V} (limit : option L) (v : option V) (P Q : V -> L -> Prop) :
  (forall x l, limit = Some l -> P x l -> Q x l) -> if_configured limit v P -> if_configured limit v Q.
Proof. intros HPQ H l Hl. destruct (H l Hl) as (x & Hx & HP). eauto. Qed.

Lemma account_rule_sound c : amounts_fit c -> vpass (AccountLimitRule c) = true ->
  if_configured (cx_account_max_order_quantity c) (cx_order_quantity c) (fun v l => dval v <= dval l)%Q /\
  if_configured (cx_account_max_positions c) (cx_open_positions_count c) Z.lt /\
  if_configured (cx_account_max_exposure c) (cx_projected_exposure c) (fun v l => dval v <= dval l)%Q /\
  if_configured (cx_account_max_loss c) (cx_account_daily_realized_pnl c) (fun v l => - dval l < dval v)%Q /\
  if_configured (cx_account_max_order_rate c) (cx_recent_order_count c) Z.lt.
Proof.
  intros (_ & _ & _ & Hfit) H. unfold AccountLimitRule, vpass in H.
  apply first_some_passed in H;
    [|repeat (apply Forall_cons_2; [apply sub_check_rejects|]); apply Forall_nil_2].
  repeat (apply Forall_cons in H as [?H0%sub_check_none H]).
  split_and!; (eapply if_configured_impl; [|eassumption]); cbn beta; intros x l Hl Hx;
    first [by apply loss_sound; [apply Hfit|] | by cmp_facts].
Qed.

Lemma counter_rule_sound rule_id l v m i p code reason :
  re_passed (counter_rule rule_id l v m i p code reason) = true ->
  if_configured l v (fun v l => 0 <= v /\ p v l = false).
Proof.
  unfold counter_rule, if_configured. intros H l' ->. destruct v as [v|]; [|done].
  destruct ((v <? 0) || (l' <? 0)) eqn:E; [done|]. destruct (p v l') eqn:Ep; [done|].
  exists v. by cmp_facts.
Qed.

Lemma drawdown_rule_sound c : vpass (MaximumDrawdownRule c) = true ->
  if_configured (cx_max_drawdown c) (cx_current_drawdown c)
    (fun v l => 0 <= dval v /\ dval v <= dval l)%Q.
Proof.
  unfold MaximumDrawdownRule, if_configured. intros H l Hl. rewrite Hl in H.
  destruct (cx_current_drawdown c) as [v|]; [|done]. simpl in H.
  destruct (dlt l dzero || dlt v dzero) eqn:E; [done|]. destruct (dgt v l) eqn:Eg; [done|].
  exists v. by cmp_facts.
Qed.

Lemma deviation_rule_sound c : vpass (PriceDeviationRule c) = true ->
  forall l, cx_max_price_deviation c = Some l -> exists r p d,
    cx_reference_price c = Some r /\ cx_current_price c = Some p /\
    (0 < dval r)%Q /\ (0 < dval p)%Q /\
    ddiv (dabs (dsub p r)) r = Ok d /\ (dval d <= dval l)%Q.
Proof.
  unfold PriceDeviationRule. intros H l Hl. rewrite Hl in H.
  destruct (cx_reference_price c) as [r|], (cx_current_price c) as [p|]; try done.
  destruct (dle r dzero) eqn:E1; [done|]. destruct (dle p dzero) eqn:E2; [done|].
  destruct (dlt l dzero); [done|].
  destruct (ddiv (dabs (dsub p r)) r) as [d|x] eqn:Ed; [|done]. simpl in H.
  destruct (dgt d l) eqn:Eg; [done|]. exists r, p, d. by cmp_facts.
Qed.

Lemma open_positions_sound c : vpass (MaximumOpenPositionsRule c) = true ->
  exists n m, cx_open_positions_count c = Some n /\ cx_max_open_positions c = Some m /\ 0 <= n < m.
Proof.
  unfold MaximumOpenPositionsRule.
  destruct (cx_open_positions_count c) as [n|], (cx_max_open_positions c) as [m|]; try done. simpl.
  destruct ((n <? 0) || (m <? 0)) eqn:E; [done|]. destruct (m <=? n) eqn:E2; [done|].
  intros _. exists n, m. by cmp_facts.
Qed.

(** The boolean rules, read back from their verdicts. *)
Lemma simple_rules_sound c :
  vpass (GlobalHaltRule c) = true -> vpass (LiveModeRule c) = true ->
  vpass (BrokerHealthRule c) = true -> vpass (MarketDataFreshnessRule c) = true ->
  vpass (MarketSessionRule c) = true -> vpass (InstrumentRestrictionRule c) = true ->
  vpass (DuplicateOrderProtectionRule c) = true ->
  cx_global_halt_active c = false /\
  (cx_trading_mode c = tm_LIVE -> cx_live_trading_enabled c = true) /\
  cx_broker_connected c = true /\ cx_market_data_fresh c = true /\
  cx_market_session_open c = true /\ cx_instrument_allowed c = true /\
  cx_duplicate_signal c = false.
Proof.
  unfold GlobalHaltRule, LiveModeRule, BrokerHealthRule, MarketDataFreshnessRule, MarketSessionRule,
    InstrumentRestrictionRule, DuplicateOrderProtectionRule, vpass.
  intros H1 H2 H3 H4 H5 H6 H7. split_and!.
  - by destruct (cx_global_halt_active c).
  - intros Hm. rewrite bool_decide_true in H2 by done. by destruct (cx_live_trading_enabled c).
  - by destruct (cx_broker_connected c).
  - by destruct (cx_market_data_fresh c).
  - by destruct (cx_market_session_open c).
  - by destruct (cx_instrument_allowed c).
  - by destruct (cx_duplicate_signal c).
Qed.

Lemma all_rules_within_limits request c : amounts_fit c ->
  Forall (fun r => passes request c r = true) default_risk_rules -> within_limits c.
Proof.
  intros Hfit H. unfold default_risk_rules in H.
  do 20 (apply Forall_cons in H as [?P H]). clear H.
  unfold passes in *. cbn [rl_evaluate core_rule halt_rule] in *.
  destruct (simple_rules_sound c) as (? & ? & ? & ? & ? & ? & ?); [done..|].
  destruct (account_rule_sound c) as (? & ? & ? & ? & ?); [done..|].
  constructor; try done.
  - by apply quantity_rule_sound.
  - by apply position_rule_sound.
  - match goal with H : context [ExposureLimitRule] |- _ => exact (pair_rule_sound _ _ _ _ _ _ _ H) end.
  - by apply daily_loss_sound.
  - by apply strategy_loss_sound.
  - match goal with H : context [MarginAvailabilityRule] |- _ => exact (pair_rule_sound _ _ _ _ _ _ _ H) end.
  - by apply open_positions_sound.
  - by apply drawdown_rule_sound.
  - match goal with H : context [OrderFrequencyRule] |- _ => apply counter_rule_sound in H;
      eapply if_configured_impl; [|exact H] end. intros ? ? _ [? ?]. cmp_facts. lia.
  - match goal with H : context [ExecutionTimeoutRule] |- _ => apply counter_rule_sound in H;
      eapply if_configured_impl; [|exact H] end. intros ? ? _ [? ?]. cmp_facts. lia.
  - match goal with H : context [RetrySafetyRule] |- _ => apply counter_rule_sound in H;
      eapply if_configured_impl; [|exact H] end. intros ? ? _ [? ?]. cmp_facts. lia.
  - by apply deviation_rule_sound.
Qed.

(** the default rule engine decides every request.  With a timezone-aware
    clock it always answers; it approves exactly when all twenty core rules
    pass, with a fresh approval bound to the request that expires [ttl] later,
    and otherwise it declines with the rule id and reason code of the first rule
    in order that does not pass, without approval fields. *)
Theorem default_engine_decides en ttl request context now did aid :
  mk_RiskRuleEngine None ttl = Ok en -> dt_aware now = true ->
  exists d, engine_evaluate en request context now did aid = Ok d /\
    ((Forall (fun r => passes request context r = true) default_risk_rules /\
      rd_decision d = APPROVED /\ rd_approval_id d = Some aid /\
      rd_expires_at d = Some (dt_add now ttl) /\ rd_evaluated_at d = now /\
      rd_signal_id d = sg_signal_id (ra_signal request) /\
      rd_strategy_id d = sg_strategy_id (ra_signal request) /\
      rd_instrument_id d = sg_instrument_id (ra_signal request)) \/
     (exists l1 r l2, default_risk_rules = l1 ++ r :: l2 /\
        Forall (fun r => passes request context r = true) l1 /\ passes request context r = false /\
        rd_decision d = DECLINED /\ rd_approval_id d = None /\
        (rd_rule_id d, rd_reason_code d) = failure_report request context r)).
Proof.
  intros Hen Hn. unfold mk_RiskRuleEngine in Hen. res_inv.
  match goal with H : (ttl <=? 0) = false |- _ => apply Z.leb_gt in H end.
  unfold engine_evaluate. rewrite Hn. cbn [negb raise_if rbind en_rules en_approval_ttl].
  change (match default_risk_rules with
          | [] => _ | _ => evaluate_rules default_risk_rules [] request context now did aid ttl end)
    with (evaluate_rules default_risk_rules [] request context now did aid ttl).
  apply evaluate_rules_spec; [done..|apply default_rules_texts].
Qed.

(** The default engine approves only if every core rule passes. *)
Lemma default_approval_passes en ttl request context now did aid d :
  mk_RiskRuleEngine None ttl = Ok en -> dt_aware now = true ->
  engine_evaluate en request context now did aid = Ok d -> rd_decision d = APPROVED ->
  Forall (fun r => passes request context r = true) default_risk_rules.
Proof.
  intros Hen Hn E Hd. unfold mk_RiskRuleEngine in Hen. res_inv.
  match goal with H : (ttl <=? 0) = false |- _ => apply Z.leb_gt in H; rename H into Httl end.
  unfold engine_evaluate in E. rewrite Hn in E.
  cbn [negb raise_if rbind en_rules en_approval_ttl with_global_halt_first] in E.
  destruct (evaluate_rules_spec request context now did aid ttl default_risk_rules [] Hn Httl
              default_rules_texts) as (d' & E' & Hcases).
  change (evaluate_rules default_risk_rules [] request context now did aid ttl = Ok d) in E.
  rewrite E' in E. injection E as ->.
  by destruct Hcases as [[Hall _]|(l1 & r & l2 & _ & _ & _ & Hdec & _)]; [|congruence].
Qed.

(** C3: an approval by the default engine, at an aware time and for amounts whose
    sums and products fit the 28 digits of the decimal context ([amounts_fit]),
    means the order is within every limit:
    kill switch off, LIVE only if enabled, connected, fresh, open, allowed, not a
    duplicate; a positive quantity, the absolute projected position, the exposure
    and the margin within their limits; daily and strategy P&L above the loss
    limits; fewer open positions than the maximum; and every optional limit that
    is configured is respected by a measured value (a missing one declines). *)
Theorem approval_implies_within_limits en ttl request context now did aid d :
  mk_RiskRuleEngine None ttl = Ok en -> dt_aware now = true -> amounts_fit context ->
  engine_evaluate en request context now did aid = Ok d -> rd_decision d = APPROVED ->
  within_limits context.
Proof.
  intros Hen Hn Hfit E Hd. eapply all_rules_within_limits; [done|].
  by eapply default_approval_passes.
Qed.

(** the kill switch cannot be configured away.  Whatever rules are injected
    (in any order, with or without a halt rule of the class [GlobalHaltRule]),
    an engine evaluating a context with the global halt active never approves. *)
Theorem halt_never_overridden rules ttl en request context now did aid d :
  mk_RiskRuleEngine rules ttl = Ok en ->
  (forall l r, rules = Some l -> r ∈ l -> rl_is_global_halt r = true -> r = halt_rule) ->
  cx_global_halt_active context = true ->
  engine_evaluate en request context now did aid = Ok d ->
  rd_decision d = DECLINED /\
  (rd_reason_code d = "GLOBAL_HALT_ACTIVE" \/ rd_reason_code d = "NO_RISK_RULES_CONFIGURED")%string.
Proof.
  intros Hen Hcls Hh E. unfold mk_RiskRuleEngine in Hen. res_inv.
  assert (with_global_halt_first rules = [] \/
          exists l, with_global_halt_first rules = halt_rule :: l) as Hr.
  { destruct rules as [[|r l]|]; simpl; [by left| |right; by eexists].
    destruct (rl_is_global_halt r) eqn:Er; [|right; by eexists].
    right. exists l. f_equal. eapply Hcls; [done|by apply elem_of_cons; left|done]. }
  unfold engine_evaluate in E. cbn [en_rules en_approval_ttl] in E. res_inv.
  destruct Hr as [Hr|[l Hr]]; rewrite Hr in *.
  - unfold engine_reject, mk_RiskDecision in *. res_inv. simpl. auto.
  - match goal with K : evaluate_rules _ _ _ _ _ _ _ _ = Ok d |- _ =>
      cbn [evaluate_rules rl_evaluate halt_rule] in K; unfold GlobalHaltRule in K;
      rewrite Hh in K; cbn [re_passed reject_ negb] in K; unfold engine_reject, mk_RiskDecision in K end.
    res_inv. simpl. auto.
Qed.

(** * Witnesses *)

Module RuleSample.

Definition now : datetime := utc 1700000000000000.

Definition signal : StrategySignal := {|
  sg_signal_id := 3; sg_strategy_id := 4; sg_strategy_version := "1";
  sg_strategy_config_hash := "h"; sg_instrument_id := 5; sg_action := BUY; sg_timestamp := now;
  sg_confidence := dec_of_Z 1; sg_reason := "breakout"; sg_metadata := ∅ |}.

Definition request : RiskAssessmentRequest :=
  {| ra_request_id := 2; ra_signal := signal; ra_requested_at := now; ra_metadata := ∅ |}.

Definition d (z : Z) : option decimal := Some (dec_of_Z z).

Definition context (halt : bool) : RiskEvaluationContext := {|
  cx_trading_mode := tm_PAPER; cx_live_trading_enabled := false; cx_global_halt_active := halt;
  cx_broker_connected := true; cx_market_data_fresh := true; cx_market_session_open := true;
  cx_instrument_allowed := true; cx_duplicate_signal := false; cx_order_quantity := d 10;
  cx_max_order_quantity := d 100; cx_projected_position_quantity := d 10;
  cx_max_position_quantity := d 100; cx_projected_exposure := d 1000; cx_max_exposure := d 100000;
  cx_daily_realized_pnl := d (-50); cx_max_daily_loss := d 500; cx_strategy_realized_pnl := d 0;
  cx_max_strategy_loss := d 500; cx_required_margin := d 1000; cx_available_margin := d 50000;
  cx_open_positions_count := Some 1; cx_max_open_positions := Some 5; cx_equity_value := None;
  cx_high_water_mark := None; cx_current_drawdown := d 0; cx_max_drawdown := d 1;
  cx_reference_price := d 100; cx_current_price := d 101; cx_max_price_deviation := d 1;
  cx_recent_order_count := Some 0; cx_max_orders_per_window := Some 3;
  cx_order_window_seconds := Some 60; cx_account_max_order_quantity := d 50;
  cx_account_max_positions := None; cx_account_max_exposure := None; cx_account_max_loss := d 900;
  cx_account_max_order_rate := None; cx_account_daily_realized_pnl := d (-50);
  cx_pending_execution_count := Some 0; cx_max_unresolved_executions := Some 2;
  cx_retry_count := Some 0; cx_max_retries_per_signal := Some 1; cx_reserved_quantity := None;
  cx_open_order_quantity := None; cx_metadata := ∅ |}.

Definition engine : RiskRuleEngine :=
  {| en_rules := default_risk_rules; en_approval_ttl := 30000000 |}.

Definition approved : RiskDecision := Eval vm_compute in
  match engine_evaluate engine request (context false) now 8 9 with
  | Ok x => x
  | Err _ => {| rd_decision_id := 0; rd_request_id := 0; rd_signal_id := 0; rd_strategy_id := 0;
      rd_instrument_id := 0; rd_decision := DECLINED; rd_reason_code := ""; rd_reason := "";
      rd_rule_id := ""; rd_evaluated_at := now; rd_approval_id := None; rd_expires_at := None;
      rd_binding_hash := None; rd_snapshot_id := None; rd_metadata := no_meta |}
  end.

Lemma default_engine_witness : exists x,
  engine_evaluate engine request (context false) now 8 9 = Ok x /\ rd_decision x = APPROVED.
Proof.
  destruct (default_engine_decides engine 30000000 request (context false) now 8 9 eq_refl eq_refl)
    as (x & E & _).
  exists x. split; [exact E|]. vm_compute in E. injection E as <-. reflexivity.
Defined.

Lemma within_limits_witness : within_limits (context false).
Proof.
  apply (approval_implies_within_limits engine 30000000 request (context false) now 8 9 approved).
  - reflexivity.
  - reflexivity.
  - repeat split; intros x Hx; injection Hx as <-; vm_compute; reflexivity.
  - vm_compute. reflexivity.
  - reflexivity.
Defined.

(** A single permissive rule is injected; the halt still wins. *)
Definition permissive : RiskRule :=
  {| rl_rule_id := Some "custom"%string; rl_is_global_halt := false;
     rl_evaluate := fun _ _ => Ok (pass_ "custom") |}.

Definition custom_engine : RiskRuleEngine :=
  {| en_rules := with_global_halt_first (Some [permissive]); en_approval_ttl := 1 |}.

Definition halted : RiskDecision := Eval vm_compute in
  match engine_evaluate custom_engine request (context true) now 8 9 with
  | Ok x => x | Err _ => approved end.

Lemma halt_never_overridden_witness : rd_decision halted = DECLINED.
Proof.
  apply (halt_never_overridden (Some [permissive]) 1 custom_engine request (context true) now 8 9).
  - reflexivity.
  - intros l r Hl Hr Hh. injection Hl as <-. apply list_elem_of_singleton in Hr. subst r. discriminate Hh.
  - reflexivity.
  - vm_compute. reflexivity.
Defined.

End RuleSample.
