(* ===== verification/RiskService.v ===== *)
(** Risk service
    (src/services/risk_engine/alpha_algo_risk_engine/snapshot.py, context.py,
    approval.py, state.py, repository.py, metrics.py and service.py): from a
    signal to a persisted, fanned-out risk decision.

    [RiskService] objects hold a re-entrant lock around [_evaluate_locked], so
    an evaluation is one atomic step of the service state.  The clock, the id
    source and the state provider are injected callables, read at a call
    counter; latency figures are not modelled. *)

From stdpp Require Import base list strings gmap.
From Stdlib Require Import ZArith Lia String Ascii.
From S2P Require Import Prelude PyBase Hashing Decimal DecimalText Sql Contracts CircuitBreaker RiskRules.

Open Scope Z_scope.

(** * snapshot.py *)

Record AccountSnapshot := {
  ac_account_id : option UUID;
  ac_available_funds : option decimal;
  ac_equity : option decimal;
  ac_high_water_mark : option decimal;
  ac_realized_pnl : option decimal;
  ac_unrealized_pnl : option decimal;
  ac_daily_realized_pnl : option decimal;
  ac_strategy_realized_pnl : option decimal;
  ac_current_drawdown : option decimal;
  ac_available_margin : option decimal;
  ac_used_margin : option decimal;
}.

Record MarketSnapshot := {
  mk_instrument_id : option UUID;
  mk_reference_price : option decimal;
  mk_current_price : option decimal;
  mk_market_data_fresh : bool;
  mk_broker_connected : bool;
  mk_market_session_open : bool;
  mk_instrument_allowed : bool;
  mk_last_update_at : option datetime;
}.

Record PositionSnapshot := {
  ps_open_positions_count : option Z;
  ps_position_quantity : option decimal;
  ps_projected_position_quantity : option decimal;
  ps_exposure : option decimal;
  ps_reserved_quantity : option decimal;
  ps_pending_order_count : option Z;
}.

Record LimitsSnapshot := {
  li_max_order_quantity : option decimal;
  li_max_position_quantity : option decimal;
  li_max_exposure : option decimal;
  li_max_daily_loss : option decimal;
  li_max_strategy_loss : option decimal;
  li_max_open_positions : option Z;
  li_max_drawdown : option decimal;
  li_max_price_deviation : option decimal;
  li_max_orders_per_window : option Z;
  li_order_window_seconds : option Z;
  li_account_max_order_quantity : option decimal;
  li_account_max_positions : option Z;
  li_account_max_exposure : option decimal;
  li_account_max_loss : option decimal;
  li_account_max_order_rate : option Z;
  li_max_unresolved_executions : option Z;
  li_max_retries_per_signal : option Z;
}.

Record RiskSnapshot := {
  sn_snapshot_id : UUID;
  sn_taken_at : datetime;
  sn_source : string;
  sn_state_available : bool;
  sn_max_age : option Z;
  sn_global_halt_active : bool;
  sn_trading_mode : string;
  sn_live_trading_enabled : bool;
  sn_duplicate_signal : bool;
  sn_account : AccountSnapshot;
  sn_market : MarketSnapshot;
  sn_positions : PositionSnapshot;
  sn_limits : LimitsSnapshot;
  sn_recent_order_count : option Z;        (* frequency.recent_order_count *)
  sn_window_started_at : option datetime;  (* frequency.window_started_at *)
  sn_metadata : metadata;
}.

Definition require_aware (d : datetime) : res unit :=
  raise_if (negb (dt_aware d)) ValueError "datetime must be timezone-aware".

(** Construction with [__post_init__]. *)
Definition mk_RiskSnapshot (s : RiskSnapshot) : res RiskSnapshot :=
  require_aware (sn_taken_at s) ;! Ok s.

Definition is_stale (s : RiskSnapshot) (now : datetime) : res bool :=
  require_aware now ;!
  match sn_max_age s with
  | None => Ok false
  | Some max_age =>
      let! age := dt_sub now (sn_taken_at s) in
      Ok ((max_age <? age) || (age <? 0))
  end.

(** * state.py *)

(** The snapshot of [UnavailableRiskStateProvider]; [sid] and [now] are the
    defaults' [uuid4()] and [datetime.now]. *)
Definition unavailable_snapshot (reason : string) (sid : UUID) (now : datetime) : res RiskSnapshot :=
  mk_RiskSnapshot {|
    sn_snapshot_id := sid; sn_taken_at := now; sn_source := "unavailable";
    sn_state_available := false; sn_max_age := None; sn_global_halt_active := true;
    sn_trading_mode := "PAPER"; sn_live_trading_enabled := false; sn_duplicate_signal := false;
    sn_account := {| ac_account_id := None; ac_available_funds := None; ac_equity := None;
      ac_high_water_mark := None; ac_realized_pnl := None; ac_unrealized_pnl := None;
      ac_daily_realized_pnl := None; ac_strategy_realized_pnl := None; ac_current_drawdown := None;
      ac_available_margin := None; ac_used_margin := None |};
    sn_market := {| mk_instrument_id := None; mk_reference_price := None; mk_current_price := None;
      mk_market_data_fresh := false; mk_broker_connected := false; mk_market_session_open := false;
      mk_instrument_allowed := false; mk_last_update_at := None |};
    sn_positions := {| ps_open_positions_count := None; ps_position_quantity := None;
      ps_projected_position_quantity := None; ps_exposure := None; ps_reserved_quantity := None;
      ps_pending_order_count := None |};
    sn_limits := {| li_max_order_quantity := None; li_max_position_quantity := None;
      li_max_exposure := None; li_max_daily_loss := None; li_max_strategy_loss := None;
      li_max_open_positions := None; li_max_drawdown := None; li_max_price_deviation := None;
      li_max_orders_per_window := None; li_order_window_seconds := None;
      li_account_max_order_quantity := None; li_account_max_positions := None;
      li_account_max_exposure := None; li_account_max_loss := None;
      li_account_max_order_rate := None; li_max_unresolved_executions := None;
      li_max_retries_per_signal := None |};
    sn_recent_order_count := None; sn_window_started_at := None;
    sn_metadata := {[ "reason"%string := PStr reason ]} |}.

(** * context.py *)

Record RiskOrderIntent := {
  in_quantity : option decimal;
  in_account_id : option UUID;
  in_order_type : string;
  in_metadata : metadata;
}.

(** [_mode]: an unknown mode is LIVE. *)
Definition mode_of (value : string) : RiskTradingMode :=
  let u := py_upper value in
  if String.eqb u "BACKTEST" then tm_BACKTEST
  else if String.eqb u "PAPER" then tm_PAPER
  else tm_LIVE.

Definition action_sign (a : SignalAction) : decimal :=
  match a with
  | BUY => dec_of_Z 1
  | SELL | EXIT => dec_of_Z (-1)
  | HOLD => dec_of_Z 0
  end.

Definition build_context (signal : StrategySignal) (intent : option RiskOrderIntent)
    (snapshot : RiskSnapshot) (trading_mode : string) (retry_count : Z) (now : datetime)
    : res RiskEvaluationContext :=
  raise_if (negb (sn_state_available snapshot)) RiskContextUnavailable
    "authoritative risk state is unavailable" ;!
  let! stale := is_stale snapshot now in
  raise_if stale RiskContextUnavailable "risk snapshot is stale" ;!
  let boundary_mode := mode_of trading_mode in
  let snapshot_mode := mode_of (sn_trading_mode snapshot) in
  raise_if (negb (bool_decide (snapshot_mode = boundary_mode))) RiskContextUnavailable
    ("snapshot trading mode " +:+ py_repr (sn_trading_mode snapshot) +:+ " does not match " +:+
     "requested mode " +:+ py_repr trading_mode) ;!
  raise_if (match intent with
            | Some i => match in_account_id i, ac_account_id (sn_account snapshot) with
                        | Some a, Some b => negb (a =? b)%N
                        | _, _ => false
                        end
            | None => false
            end) RiskContextUnavailable "snapshot account does not match intent account" ;!
  raise_if (match mk_instrument_id (sn_market snapshot) with
            | Some i => negb (i =? sg_instrument_id signal)%N
            | None => false
            end) RiskContextUnavailable "snapshot instrument does not match signal instrument" ;!
  let acc := sn_account snapshot in
  let mkt := sn_market snapshot in
  let pos := sn_positions snapshot in
  let lim := sn_limits snapshot in
  let sign := action_sign (sg_action signal) in
  let quantity := if decide (sg_action signal = HOLD) then None
                  else match intent with Some i => in_quantity i | None => None end in
  let base_position :=
    match ps_projected_position_quantity pos with
    | Some p => Some p
    | None => match ps_position_quantity pos with
              | Some p => Some (dadd p (default dzero (ps_reserved_quantity pos)))
              | None => None
              end
    end in
  let projected :=
    match base_position with
    | Some b => Some (dadd b (match quantity with Some q => dmul sign q | None => dzero end))
    | None => None
    end in
  let projected_exposure :=
    match ps_exposure pos with
    | Some x => match quantity with
                | Some q => match mk_current_price mkt with
                            | None => None
                            | Some p => Some (dadd x (dmul (dabs q) p))
                            end
                | None => Some x
                end
    | None => None
    end in
  let required_margin :=
    match quantity, mk_current_price mkt with
    | Some q, Some p => Some (dmul (dabs q) p)
    | _, _ => None
    end in
  let! current_drawdown :=
    match ac_current_drawdown acc, ac_equity acc, ac_high_water_mark acc with
    | Some d, _, _ => Ok (Some d)
    | None, Some equity, Some hwm =>
        if dgt hwm dzero then
          let! r := ddiv (dsub hwm equity) hwm in Ok (Some (dmax dzero r))
        else Ok None
    | _, _, _ => Ok None
    end in
  Ok {| cx_trading_mode := boundary_mode;
        cx_live_trading_enabled := sn_live_trading_enabled snapshot;
        cx_global_halt_active := sn_global_halt_active snapshot;
        cx_broker_connected := mk_broker_connected mkt;
        cx_market_data_fresh := mk_market_data_fresh mkt;
        cx_market_session_open := mk_market_session_open mkt;
        cx_instrument_allowed := mk_instrument_allowed mkt;
        cx_duplicate_signal := sn_duplicate_signal snapshot;
        cx_order_quantity := quantity;
        cx_max_order_quantity := li_max_order_quantity lim;
        cx_projected_position_quantity := projected;
        cx_max_position_quantity := li_max_position_quantity lim;
        cx_projected_exposure := projected_exposure;
        cx_max_exposure := li_max_exposure lim;
        cx_daily_realized_pnl := ac_daily_realized_pnl acc;
        cx_max_daily_loss := li_max_daily_loss lim;
        cx_strategy_realized_pnl := ac_strategy_realized_pnl acc;
        cx_max_strategy_loss := li_max_strategy_loss lim;
        cx_required_margin := required_margin;
        cx_available_margin := ac_available_margin acc;
        cx_open_positions_count := ps_open_positions_count pos;
        cx_max_open_positions := li_max_open_positions lim;
        cx_equity_value := ac_equity acc;
        cx_high_water_mark := ac_high_water_mark acc;
        cx_current_drawdown := current_drawdown;
        cx_max_drawdown := li_max_drawdown lim;
        cx_reference_price := mk_reference_price mkt;
        cx_current_price := mk_current_price mkt;
        cx_max_price_deviation := li_max_price_deviation lim;
        cx_recent_order_count := sn_recent_order_count snapshot;
        cx_max_orders_per_window := li_max_orders_per_window lim;
        cx_order_window_seconds := li_order_window_seconds lim;
        cx_account_max_order_quantity := li_account_max_order_quantity lim;
        cx_account_max_positions := li_account_max_positions lim;
        cx_account_max_exposure := li_account_max_exposure lim;
        cx_account_max_loss := li_account_max_loss lim;
        cx_account_max_order_rate := li_account_max_order_rate lim;
        cx_account_daily_realized_pnl := ac_daily_realized_pnl acc;
        cx_pending_execution_count := ps_pending_order_count pos;
        cx_max_unresolved_executions := li_max_unresolved_executions lim;
        cx_retry_count := Some retry_count;
        cx_max_retries_per_signal := li_max_retries_per_signal lim;
        cx_reserved_quantity := ps_reserved_quantity pos;
        cx_open_order_quantity := ps_reserved_quantity pos;
        cx_metadata := sn_metadata snapshot |}.

Definition negative_problem (name : string) (v : option decimal) : list string :=
  match v with
  | Some d => if dlt d dzero then [name +:+ " must be non-negative"] else []
  | None => []
  end.

Definition validate_context (c : RiskEvaluationContext) : list string :=
  negative_problem "equity_value" (cx_equity_value c) ++
  negative_problem "high_water_mark" (cx_high_water_mark c) ++
  negative_problem "current_price" (cx_current_price c) ++
  negative_problem "reference_price" (cx_reference_price c) ++
  negative_problem "order_quantity" (cx_order_quantity c) ++
  negative_problem "reserved_quantity" (cx_reserved_quantity c) ++
  negative_problem "open_order_quantity" (cx_open_order_quantity c).

(** * approval.py *)

Section Approval.
Context (fromisoformat : string -> res datetime).

Definition compute_risk_identity_key (signal : StrategySignal) (intent : option RiskOrderIntent)
    (trading_mode : string) : res string :=
  let! signal_identity := compute_signal_identity_key fromisoformat signal in
  let quantity := match intent with Some i => in_quantity i | None => None end in
  let account_id := match intent with Some i => in_account_id i | None => None end in
  let order_type := match intent with Some i => Some (in_order_type i) | None => None end in
  Ok (sha256_hex (json_compact
    [("signal_identity"%string, JStr signal_identity);
     ("quantity"%string, json_opt_str (dec_str <$> quantity));
     ("account_id"%string, json_opt_str (uuid_str <$> account_id));
     ("order_type"%string, json_opt_str order_type);
     ("trading_mode"%string, JStr (py_upper trading_mode))])).
End Approval.

Definition approval_is_usable (d : RiskDecision) (now : datetime) (binding_hash : option string)
    : res bool :=
  match rd_decision d with
  | DECLINED => Ok false
  | APPROVED =>
      let! valid := is_valid_approval_at d now in
      Ok (if negb valid then false
          else match rd_binding_hash d, binding_hash with
               | Some a, Some b => String.eqb a b
               | _, _ => false
               end)
  end.

(** * repository.py *)

Record RiskEvent := {
  ev_decision_id : UUID;
  ev_strategy_id : UUID;
  ev_signal_id : UUID;
  ev_instrument_id : UUID;
  ev_account_id : option UUID;
  ev_decision : RiskDecisionResult;
  ev_reason_code : string;
  ev_risk_reason : string;
  ev_approval_id : option string;
  ev_expires_at : option datetime;
  ev_evaluated_at : datetime;
  ev_trading_mode : option string;
  ev_rule_id : string;
  ev_binding_hash : option string;
  ev_identity_key : option string;
  ev_snapshot_id : option UUID;
  ev_risk_metadata : DecisionMeta;
}.

Definition to_orm_risk_event (d : RiskDecision) (account_id : option UUID)
    (trading_mode : option string) (snapshot_id : option UUID) (identity_key : option string)
    : RiskEvent := {|
  ev_decision_id := rd_decision_id d; ev_strategy_id := rd_strategy_id d;
  ev_signal_id := rd_signal_id d; ev_instrument_id := rd_instrument_id d;
  ev_account_id := account_id; ev_decision := rd_decision d; ev_reason_code := rd_reason_code d;
  ev_risk_reason := rd_reason d; ev_approval_id := uuid_str <$> rd_approval_id d;
  ev_expires_at := rd_expires_at d; ev_evaluated_at := rd_evaluated_at d;
  ev_trading_mode := trading_mode; ev_rule_id := rd_rule_id d;
  ev_binding_hash := rd_binding_hash d; ev_identity_key := identity_key;
  ev_snapshot_id := snapshot_id; ev_risk_metadata := rd_metadata d |}.

(** The unique constraints of [risk_events]. *)
Definition risk_constraint (m : gmap N RiskEvent) : bool :=
  let l := snd <$> map_to_list m in
  unique_on ev_identity_key l && unique_on ev_approval_id l &&
  unique_on (fun e => Some (ev_decision_id e)) l.

Inductive persist_outcome := OUTCOME_INSERTED | OUTCOME_DUPLICATE.

Section RiskEventRepository.
Context {DB : Type} `{Session DB RiskEvent risk_constraint}.

Definition find_by_identity_key (identity_key : option string) : M DB (option (N * RiskEvent)) :=
  match identity_key with
  | None => ret None
  | Some k => scalar_one_or_none (fun e => bool_decide (ev_identity_key e = Some k))
  end.

(** [persist]; the id of the row is the session's. *)
Definition risk_persist (event : RiskEvent) : M DB persist_outcome :=
  let* existing := find_by_identity_key (ev_identity_key event) in
  match existing with
  | Some _ => ret OUTCOME_DUPLICATE
  | None => commit [Add event] ;* ret OUTCOME_INSERTED
  end.
End RiskEventRepository.

(** * service.py *)

Record RiskMetrics := {
  rm_counts : gmap string Z;      (* the integer attributes, by name *)
  rm_by_rule : gmap string Z;
}.

Inductive outcome_status := st_APPROVED | st_REJECTED | st_DUPLICATE.

Record RiskEvaluationOutcome := {
  ro_decision : RiskDecision;
  ro_status : outcome_status;
  ro_persisted : bool;
  ro_snapshot_id : option UUID;
  ro_prior_decision_id : option UUID;
}.

(** [OrderedDict]: an association list in insertion order. *)
Fixpoint od_get {V} (k : string) (l : list (string * V)) : option V :=
  match l with
  | [] => None
  | (k', v) :: l' => if String.eqb k k' then Some v else od_get k l'
  end.

Fixpoint od_del {V} (k : string) (l : list (string * V)) : list (string * V) :=
  match l with
  | [] => []
  | (k', v) :: l' => if String.eqb k k' then l' else (k', v) :: od_del k l'
  end.

(** [d[k] = v; d.move_to_end(k)] *)
Definition od_put {V} (k : string) (v : V) (l : list (string * V)) : list (string * V) :=
  od_del k l ++ [(k, v)].

Record RiskServiceState (DB : Type) := {
  sv_repository : option DB;
  sv_breaker : registry;
  sv_metrics : RiskMetrics;
  sv_decisions : list (string * RiskDecision);
  sv_retries : list (string * Z);
  sv_tick : nat;
  sv_fanned_out : list RiskDecision;   (* decisions passed to the consumers, in order *)
}.
Arguments sv_repository {DB} _.
Arguments sv_breaker {DB} _.
Arguments sv_metrics {DB} _.
Arguments sv_decisions {DB} _.
Arguments sv_retries {DB} _.
Arguments sv_tick {DB} _.
Arguments sv_fanned_out {DB} _.

Record RiskServiceConfig := {
  sc_clock : nat -> datetime;
  sc_uuid4 : nat -> UUID;
  sc_engine : RiskRuleEngine;
  sc_breaker_config : CircuitBreakerConfig;
  sc_capacity : Z;
  sc_get_snapshot : nat -> option UUID -> UUID -> UUID -> res RiskSnapshot;
  sc_fromisoformat : string -> res datetime;
}.

Definition SERVICE_MODES : list string := ["BACKTEST"%string; "PAPER"%string].

Section Service.
Context {DB : Type} `{Session DB RiskEvent risk_constraint} (sc : RiskServiceConfig).
Abbreviation SV := (RiskServiceState DB).

Definition sv_call {T} (f : nat -> T) : M SV T :=
  fun s => (Ok (f (sv_tick s)),
            {| sv_repository := sv_repository s; sv_breaker := sv_breaker s;
               sv_metrics := sv_metrics s; sv_decisions := sv_decisions s;
               sv_retries := sv_retries s; sv_tick := S (sv_tick s);
               sv_fanned_out := sv_fanned_out s |}).

Definition on_metrics (f : RiskMetrics -> RiskMetrics) : M SV unit :=
  modify (fun s => {| sv_repository := sv_repository s; sv_breaker := sv_breaker s;
                      sv_metrics := f (sv_metrics s); sv_decisions := sv_decisions s;
                      sv_retries := sv_retries s; sv_tick := sv_tick s;
                      sv_fanned_out := sv_fanned_out s |}).

Definition inc (name : string) : M SV unit :=
  on_metrics (fun m => {| rm_counts := bump (rm_counts m) name; rm_by_rule := rm_by_rule m |}).
Definition inc_rule (rule_id : string) : M SV unit :=
  on_metrics (fun m => {| rm_counts := rm_counts m; rm_by_rule := bump (rm_by_rule m) rule_id |}).

Definition on_registry {T} (m : M registry T) : M SV T :=
  zoom sv_breaker
    (fun r s => {| sv_repository := sv_repository s; sv_breaker := r; sv_metrics := sv_metrics s;
                   sv_decisions := sv_decisions s; sv_retries := sv_retries s;
                   sv_tick := sv_tick s; sv_fanned_out := sv_fanned_out s |}) m.

Definition set_maps (dec : list (string * RiskDecision)) (ret_ : list (string * Z)) (s : SV) : SV :=
  {| sv_repository := sv_repository s; sv_breaker := sv_breaker s; sv_metrics := sv_metrics s;
     sv_decisions := dec; sv_retries := ret_; sv_tick := sv_tick s;
     sv_fanned_out := sv_fanned_out s |}.

(** The eviction loop of [_record_seen], on both maps. *)
Fixpoint evict (dec : list (string * RiskDecision)) (retries : list (string * Z))
    : list (string * RiskDecision) * list (string * Z) :=
  match dec with
  | [] => ([], retries)
  | (k, _) :: rest =>
      if sc_capacity sc <? Z.of_nat (List.length dec) then evict rest (od_del k retries)
      else (dec, retries)
  end.

(** With a negative capacity the loop ends in [popitem] of an empty dict. *)
Definition record_seen (identity_key : string) (decision : RiskDecision) : M SV unit :=
  let* s := gets id in
  let '(dec, retries) := evict (od_put identity_key decision (sv_decisions s)) (sv_retries s) in
  modify (set_maps dec retries) ;*
  lift (raise_if (sc_capacity sc <? 0) KeyError "dictionary is empty").

(** Every consumer is called, its exceptions are swallowed. *)
Definition fan_out (decision : RiskDecision) : M SV unit :=
  modify (fun s => {| sv_repository := sv_repository s; sv_breaker := sv_breaker s;
                      sv_metrics := sv_metrics s; sv_decisions := sv_decisions s;
                      sv_retries := sv_retries s; sv_tick := sv_tick s;
                      sv_fanned_out := sv_fanned_out s ++ [decision] |}).

Definition set_db (db : DB) (s : SV) : SV :=
  {| sv_repository := Some db; sv_breaker := sv_breaker s; sv_metrics := sv_metrics s;
     sv_decisions := sv_decisions s; sv_retries := sv_retries s; sv_tick := sv_tick s;
     sv_fanned_out := sv_fanned_out s |}.

Definition on_repository (m : M DB persist_outcome) : M SV bool :=
  fun s => match sv_repository s with
           | None => (Ok false, s)
           | Some db =>
               let '(r, db') := m db in
               match r with
               | Ok OUTCOME_INSERTED => (Ok true, set_db db' s)
               | Ok OUTCOME_DUPLICATE => (Ok false, set_db db' s)
               | Err _ => (inc "persistence_failures" ;* ret false) (set_db db' s)
               end
           end.

(** [_persist]; the record id is not returned. *)
Definition sv_persist (decision : RiskDecision) (intent : option RiskOrderIntent) (mode : string)
    (snapshot_id : option UUID) (identity_key : string) : M SV bool :=
  let event := to_orm_risk_event decision
                 (match intent with Some i => in_account_id i | None => None end)
                 (Some mode) snapshot_id (Some identity_key) in
  on_repository (risk_persist event).

Definition make_reject (request : RiskAssessmentRequest) (rule_id reason_code reason : string)
    (now : datetime) : M SV RiskDecision :=
  let* did := sv_call (sc_uuid4 sc) in
  lift (engine_reject request now did rule_id reason_code reason no_meta).

Definition finish_reject (decision : RiskDecision) (intent : option RiskOrderIntent) (mode : string)
    (snapshot_id : option UUID) (identity_key : string) : M SV RiskEvaluationOutcome :=
  record_seen identity_key decision ;*
  let* persisted := sv_persist decision intent mode snapshot_id identity_key in
  ret {| ro_decision := decision; ro_status := st_REJECTED; ro_persisted := persisted;
         ro_snapshot_id := snapshot_id; ro_prior_decision_id := None |}.

(** A boundary rejection: decision, counters, record, persist. *)
Definition reject_with (request : RiskAssessmentRequest) (intent : option RiskOrderIntent)
    (mode identity_key : string) (now : datetime) (rule_id reason_code reason : string)
    : M SV RiskEvaluationOutcome :=
  let* decision := make_reject request rule_id reason_code reason now in
  inc "rejections" ;*
  inc_rule rule_id ;*
  finish_reject decision intent mode None identity_key.

Definition scopes_of (signal : StrategySignal) : list string :=
  ["global"%string; "strategy:" +:+ uuid_str (sg_strategy_id signal);
   "instrument:" +:+ uuid_str (sg_instrument_id signal)].

(** The first scope whose breaker does not allow, if any. *)
Fixpoint first_blocked (scopes : list string) (now : datetime) : M SV (option string) :=
  match scopes with
  | [] => ret None
  | scope :: rest =>
      let* allowed := on_registry (reg_allows (sc_breaker_config sc) scope now) in
      if negb allowed then ret (Some scope) else first_blocked rest now
  end.

Fixpoint record_all (scopes : list string) (m : string -> M registry unit) : M SV unit :=
  match scopes with
  | [] => ret tt
  | scope :: rest => on_registry (m scope) ;* record_all rest m
  end.

Definition bind_approval (d : RiskDecision) (identity_key : string) (snapshot_id : UUID) : RiskDecision :=
  {| rd_decision_id := rd_decision_id d; rd_request_id := rd_request_id d;
     rd_signal_id := rd_signal_id d; rd_strategy_id := rd_strategy_id d;
     rd_instrument_id := rd_instrument_id d; rd_decision := rd_decision d;
     rd_reason_code := rd_reason_code d; rd_reason := rd_reason d; rd_rule_id := rd_rule_id d;
     rd_evaluated_at := rd_evaluated_at d; rd_approval_id := rd_approval_id d;
     rd_expires_at := rd_expires_at d; rd_binding_hash := Some identity_key;
     rd_snapshot_id := Some snapshot_id; rd_metadata := rd_metadata d |}.

(** Step 10: persist, then record and fan out. *)
Definition publish (approved : bool) (decision : RiskDecision) (intent : option RiskOrderIntent)
    (mode : string) (snapshot_id : UUID) (identity_key : string) : M SV bool :=
  let* persisted := sv_persist decision intent mode (Some snapshot_id) identity_key in
  let* durable := gets (fun s => match sv_repository s with Some _ => true | None => false end) in
  (if approved then
     if persisted || negb durable then record_seen identity_key decision ;* fan_out decision
     else ret tt
   else record_seen identity_key decision) ;*
  ret persisted.

(** Steps 6 to 10: run the rules, record the outcome, persist and fan out. *)
Definition decide_and_publish (request : RiskAssessmentRequest) (signal : StrategySignal)
    (intent : option RiskOrderIntent) (mode identity_key : string) (now : datetime)
    (snapshot : RiskSnapshot) (context : RiskEvaluationContext) : M SV RiskEvaluationOutcome :=
  let scopes := scopes_of signal in
  let* engine_now := sv_call (sc_clock sc) in
  let* did := sv_call (sc_uuid4 sc) in
  let* aid := sv_call (sc_uuid4 sc) in
  let* decision := lift (engine_evaluate (sc_engine sc) request context engine_now did aid) in
  let approved := bool_decide (rd_decision decision = APPROVED) in
  let decision := if approved then bind_approval decision identity_key (sn_snapshot_id snapshot)
                  else decision in
  (if approved then
     record_all scopes (fun k => reg_record_success (sc_breaker_config sc) k now) ;*
     inc "approvals"
   else
     record_all scopes (fun k => reg_record_failure (sc_breaker_config sc) k now) ;*
     inc "rejections" ;*
     inc_rule (rd_rule_id decision) ;*
     (if String.eqb (rd_rule_id decision) "core.global-halt" then inc "global_halt_rejections" else ret tt) ;*
     (if String.eqb (rd_reason_code decision) "STALE_MARKET_DATA" then inc "stale_data_rejections" else ret tt)) ;*
  modify (fun s => set_maps (sv_decisions s)
            (od_put identity_key (default 0 (od_get identity_key (sv_retries s)) + 1) (sv_retries s)) s) ;*
  let* persisted := publish approved decision intent mode (sn_snapshot_id snapshot) identity_key in
  ret {| ro_decision := decision; ro_status := if approved then st_APPROVED else st_REJECTED;
         ro_persisted := persisted; ro_snapshot_id := Some (sn_snapshot_id snapshot);
         ro_prior_decision_id := None |}.

Definition evaluate_locked (request : RiskAssessmentRequest) (signal : StrategySignal)
    (intent : option RiskOrderIntent) (mode identity_key : string) (now : datetime)
    : M SV RiskEvaluationOutcome :=
  let reject := reject_with request intent mode identity_key now in
  if negb (bool_decide (mode ∈ SERVICE_MODES)) then
    reject "core.live-mode-gate"%string "LIVE_MODE_BLOCKED"%string
      ("trading mode not allowed: " +:+ mode)
  else
    let* prior := gets (fun s => od_get identity_key (sv_decisions s)) in
    match prior with
    | Some prior =>
        inc "duplicates" ;*
        let* usable := match rd_decision prior with
                       | APPROVED => lift (approval_is_usable prior now (Some identity_key))
                       | DECLINED => ret true
                       end in
        if negb usable then
          reject "core.duplicate-order-protection"%string "PRIOR_APPROVAL_INVALID"%string
            "prior approval expired or unbound on replay"%string
        else
          ret {| ro_decision := prior; ro_status := st_DUPLICATE; ro_persisted := false;
                 ro_snapshot_id := None; ro_prior_decision_id := Some (rd_decision_id prior) |}
    | None =>
        let* blocked := first_blocked (scopes_of signal) now in
        match blocked with
        | Some scope =>
            inc "circuit_breaker_trips" ;*
            reject "core.circuit-breaker"%string "CIRCUIT_BREAKER_OPEN"%string
              ("circuit breaker open: " +:+ scope)
        | None =>
            let* got := fun s =>
              (* the try block around the provider and the builder *)
              let t := sv_tick s in
              let r := let! snapshot := sc_get_snapshot sc t
                         (match intent with Some i => in_account_id i | None => None end)
                         (sg_instrument_id signal) (sg_strategy_id signal) in
                       let! context := build_context signal intent snapshot mode
                         (default 0 (od_get identity_key (sv_retries s))) (sc_clock sc (S t)) in
                       Ok (snapshot, context) in
              (Ok r, {| sv_repository := sv_repository s; sv_breaker := sv_breaker s;
                        sv_metrics := sv_metrics s; sv_decisions := sv_decisions s;
                        sv_retries := sv_retries s; sv_tick := S (S t);
                        sv_fanned_out := sv_fanned_out s |}) in
            match got with
            | Err exc =>
                if isinstance exc RiskContextUnavailable then
                  inc "context_unavailable" ;*
                  reject "core.risk-context"%string "RISK_STATE_UNAVAILABLE"%string (exn_msg exc)
                else
                  inc "errors" ;*
                  reject "core.risk-context"%string "RISK_CONTEXT_ERROR"%string
                    ("context construction failed: " +:+ exn_name (exn_cls exc))
            | Ok (snapshot, context) =>
                match validate_context context with
                | [] => decide_and_publish request signal intent mode identity_key now snapshot context
                | problems =>
                    reject "core.risk-context"%string "RISK_CONTEXT_INVALID"%string
                      (String.concat "; " problems)
                end
            end
        end
    end.

(** [RiskService.evaluate] *)
Definition risk_evaluate (signal : StrategySignal) (intent : option RiskOrderIntent)
    (trading_mode : string) : M SV RiskEvaluationOutcome :=
  inc "evaluations" ;*
  let mode := py_upper trading_mode in
  let* now := sv_call (sc_clock sc) in
  let* identity_key := lift (compute_risk_identity_key (sc_fromisoformat sc) signal intent mode) in
  let* rid := sv_call (sc_uuid4 sc) in
  let* request := lift (mk_RiskAssessmentRequest rid signal now) in
  evaluate_locked request signal intent mode identity_key now.

(** ** Publication *)

(** Computations that neither persist nor fan out. *)
Definition silent {T} (m : M SV T) : Prop := forall s,
  sv_repository (snd (m s)) = sv_repository s /\ sv_fanned_out (snd (m s)) = sv_fanned_out s.

Lemma silent_ret {T} (a : T) : silent (ret a).
Proof. done. Qed.
Lemma silent_lift {T} (r : res T) : silent (lift r).
Proof. done. Qed.
Lemma silent_gets {T} (f : SV -> T) : silent (gets f).
Proof. done. Qed.
Lemma silent_call {T} (f : nat -> T) : silent (sv_call f).
Proof. done. Qed.
Lemma silent_metrics f : silent (on_metrics f).
Proof. done. Qed.
Lemma silent_set_maps f g : silent (modify (fun s => set_maps (f s) (g s) s)).
Proof. done. Qed.
Lemma silent_registry {T} (m : M registry T) : silent (on_registry m).
Proof. intros s. unfold on_registry, zoom. by destruct (m (sv_breaker s)). Qed.
Lemma silent_bind {T U} (m : M SV T) (k : T -> M SV U) :
  silent m -> (forall a, silent (k a)) -> silent (bind m k).
Proof.
  intros Hm Hk s. specialize (Hm s) as [H1 H2]. unfold bind.
  destruct (m s) as [[a|e] s1]; simpl in *; [|done]. specialize (Hk a s1) as [H3 H4]. split; congruence.
Qed.
Lemma silent_record_seen k d : silent (record_seen k d).
Proof.
  unfold record_seen. apply silent_bind; [apply silent_gets|]. intros s.
  destruct (evict _ _) as [dec retries]. apply silent_bind; [|intros; apply silent_lift].
  exact (silent_set_maps (fun _ => dec) (fun _ => retries)).
Qed.
Lemma silent_first_blocked scopes now : silent (first_blocked scopes now).
Proof.
  induction scopes as [|k l IH]; simpl; [apply silent_ret|].
  apply silent_bind; [apply silent_registry|]. intros [|]; [apply IH | apply silent_ret].
Qed.
Lemma silent_record_all scopes m : silent (record_all scopes m).
Proof.
  induction scopes as [|k l IH]; simpl; [apply silent_ret|].
  apply silent_bind; [apply silent_registry | done].
Qed.

(** A committed risk event for identity [k]. *)
Definition committed (k : string) (d : RiskDecision) (m : gmap N RiskEvent) : Prop :=
  exists i e, m !! i = Some e /\ ev_identity_key e = Some k /\ ev_decision e = rd_decision d /\
    ev_approval_id e = uuid_str <$> rd_approval_id d.

(** Everything fanned out is a bound approval with a committed event, and no
    identity was fanned out twice. *)
Definition published (s : SV) : Prop :=
  exists db, sv_repository s = Some db /\
    Forall (fun d => rd_decision d = APPROVED /\
              exists k, rd_binding_hash d = Some k /\ committed k d (rows db)) (sv_fanned_out s) /\
    NoDup (rd_binding_hash <$> sv_fanned_out s).

Lemma published_silent {T} (m : M SV T) : silent m -> preserves published m.
Proof. intros Hm s. unfold published. specialize (Hm s) as [-> ->]. done. Qed.

Lemma committed_add k d i e m : m !! i = None -> committed k d m -> committed k d (<[i := e]> m).
Proof.
  intros Hi (j & e' & Hj & Hrest). exists j, e'. split; [|done]. rewrite lookup_insert_ne; [done|congruence].
Qed.

Lemma find_reads_risk k : reads (find_by_identity_key (DB:=DB) k).
Proof. destruct k; [apply scalar_reads | done]. Qed.

(** Persisting: everything published stays so, and an insertion commits the
    event of an identity that had none. *)
Lemma sv_persist_spec d intent mode sid k s r s' :
  published s -> sv_persist d intent mode sid k s = (r, s') ->
  published s' /\ sv_fanned_out s' = sv_fanned_out s /\
  (exists b, r = Ok b /\ (b = true -> exists db, sv_repository s' = Some db /\ committed k d (rows db) /\
     Some k ∉ rd_binding_hash <$> sv_fanned_out s)).
Proof.
  intros (db & Hr & Hf & Hnd) E. unfold sv_persist, on_repository in E. rewrite Hr in E.
  set (e := to_orm_risk_event _ _ _ _ _) in E. unfold risk_persist, bind in E.
  pose proof (find_reads_risk (ev_identity_key e) db) as Hread.
  destruct (find_by_identity_key _ db) as [[[x|]|exc] db1] eqn:Ef; simpl in *; subst db1.
  - inv E. simpl. split; [by exists db|]. split; [done|]. eexists. split; done.
  - destruct (commit [Add e] db) as [[[]|exc] db2] eqn:Ec; inv E.
    + apply commit_ok in Ec as [Ha _]. inversion Ha as [|i ? ? ? ? Hi Hrest|]; subst.
      inversion Hrest; subst. simpl.
      match goal with H : _ = rows db2 |- _ => rename H into Hm2 end.
      assert (committed k d (rows db2)) as Hcom.
      { exists i, e. rewrite <- Hm2, lookup_insert_eq. done. }
      split_and!; [|done|].
      * exists db2. split_and!; [done| |done]. eapply Forall_impl; [exact Hf|].
        intros x (Hx & k' & Hk' & Hc). split; [done|]. exists k'. split; [done|].
        rewrite <- Hm2. by apply committed_add.
      * eexists. split; [done|]. intros _. exists db2. split_and!; [done..|].
        intros Hin. apply list_elem_of_fmap in Hin as (x & Hx & Hin).
        rewrite Forall_forall in Hf. destruct (Hf x Hin) as (_ & k' & Hk' & (j & ex & Hj & Hjk & _)).
        rewrite Hk' in Hx. injection Hx as <-. unfold find_by_identity_key in Ef. simpl in Ef.
        pose proof (scalar_none (fun e => bool_decide (ev_identity_key e = Some k)) db) as Hnone.
        rewrite Ef in Hnone. specialize (Hnone eq_refl _ _ Hj). simpl in Hnone.
        by rewrite bool_decide_true in Hnone.
    + apply commit_err in Ec. simpl. split_and!; [|done|].
      * exists db2. split_and!; [done| by rewrite Ec | done].
      * eexists. split; done.
  - inv E. simpl. split_and!; [by exists db|done|]. eexists. split; done.
Qed.

Lemma published_persist d intent mode sid k : preserves published (sv_persist d intent mode sid k).
Proof.
  intros s Hs. destruct (sv_persist d intent mode sid k s) as [r s'] eqn:E.
  by destruct (sv_persist_spec _ _ _ _ _ _ _ _ Hs E).
Qed.

Lemma published_publish approved d intent mode sid k :
  (approved = true -> rd_decision d = APPROVED /\ rd_binding_hash d = Some k) ->
  preserves published (publish approved d intent mode sid k).
Proof.
  intros Ha s Hs. unfold publish. unfold bind at 1.
  destruct (sv_persist d intent mode (Some sid) k s) as [r s1] eqn:E.
  destruct (sv_persist_spec _ _ _ _ _ _ _ _ Hs E) as (Hs1 & Hf1 & b & -> & Hb).
  unfold bind at 1, gets. destruct Hs1 as (db & Hr1 & Hfan & Hnd). rewrite Hr1.
  assert (published s1) as Hs1 by by exists db.
  assert (preserves published (record_seen k d ;* ret b)) as Hrec.
  { apply preserves_bind; [apply published_silent, silent_record_seen | intros; apply preserves_ret]. }
  destruct approved; [|by apply Hrec].
  rewrite orb_false_r. destruct b; [|done].
  destruct (Ha eq_refl) as [Hd Hk]. destruct (Hb eq_refl) as (db' & Hr' & Hcom & Hfresh).
  rewrite Hr1 in Hr'. injection Hr' as <-.
  unfold bind. pose proof (silent_record_seen k d s1) as [Hrs Hfs].
  destruct (record_seen k d s1) as [[[]|e] s2]; simpl in *; [|exists db; rewrite Hrs, Hfs; done].
  exists db. simpl. rewrite Hrs, Hfs. split_and!; [done| |].
  - apply Forall_app. split; [done|]. constructor; [|constructor]. split; [done|]. by exists k.
  - rewrite fmap_app. apply NoDup_app. split_and!; [done| |apply NoDup_singleton].
    intros x Hx Hin. simpl in Hin. apply list_elem_of_singleton in Hin. subst x. rewrite Hk in Hx.
    by rewrite Hf1 in Hx.
Qed.

Create HintDb silent.
#[local] Hint Resolve silent_ret silent_lift silent_gets silent_call silent_metrics silent_registry
  silent_bind silent_record_seen silent_first_blocked silent_record_all silent_set_maps : silent.

Ltac published_step :=
  match goal with
  | |- forall _, _ => intros ?
  | |- preserves _ (sv_persist _ _ _ _ _) => apply published_persist
  | |- preserves _ (bind _ _) => apply preserves_bind
  | |- preserves _ (if ?b then _ else _) => destruct b
  | |- preserves _ (match ?x with _ => _ end) => destruct x
  | |- preserves _ _ => solve [apply published_silent; auto with silent nocore
                              | auto with published nocore]
  end.
Ltac published_solve := repeat published_step.

Lemma published_finish d intent mode sid k : preserves published (finish_reject d intent mode sid k).
Proof. unfold finish_reject. published_solve. Qed.

Lemma published_reject request intent mode k now rule code reason :
  preserves published (reject_with request intent mode k now rule code reason).
Proof.
  unfold reject_with, make_reject, inc, inc_rule. published_solve. apply published_finish.
Qed.

Lemma published_decide request signal intent mode k now snapshot context :
  preserves published (decide_and_publish request signal intent mode k now snapshot context).
Proof.
  unfold decide_and_publish, inc, inc_rule.
  do 4 (apply preserves_bind; [apply published_silent; auto with silent nocore|intros ?]).
  cbn zeta.
  apply preserves_bind; [|intros _; apply preserves_bind;
    [apply published_silent, silent_set_maps|intros _; apply preserves_bind; [|published_solve]]].
  - published_solve.
  - apply published_publish. case_bool_decide; [|done]. by intros _.
Qed.

Lemma published_evaluate signal intent trading_mode :
  preserves published (risk_evaluate signal intent trading_mode).
Proof.
  unfold risk_evaluate, inc.
  do 5 (apply preserves_bind; [apply published_silent; auto with silent nocore|intros ?]).
  unfold evaluate_locked, inc. cbn zeta. published_solve; try apply published_reject.
  - intros s Hs. exact Hs.
  - apply published_decide.
Qed.

(** Calls of a service, whatever they return or raise. *)
Definition run_service (s : SV) (call : StrategySignal * option RiskOrderIntent * string) : SV :=
  snd (risk_evaluate (fst (fst call)) (snd (fst call)) (snd call) s).

(** C2: an approval is released at most once and only after its commit.  Over any
    sequence of evaluations, replays and evictions included, and whatever the
    database does, every decision passed to the consumers of a service with a
    repository is an APPROVED decision bound to its risk identity, whose risk
    event with that identity and approval id is committed, and no identity is
    released twice. *)
Theorem approvals_released_once s0 calls db :
  sv_repository s0 = Some db -> sv_fanned_out s0 = [] ->
  let s := foldl run_service s0 calls in
  exists db', sv_repository s = Some db' /\
    Forall (fun d => rd_decision d = APPROVED /\
              exists k, rd_binding_hash d = Some k /\ committed k d (rows db')) (sv_fanned_out s) /\
    NoDup (rd_binding_hash <$> sv_fanned_out s).
Proof.
  intros Hr Hf. cbn zeta. change (published (foldl run_service s0 calls)).
  assert (published s0) as H0.
  { exists db. rewrite Hf. split_and!; [done|constructor|constructor]. }
  clear Hr Hf. induction calls as [|c calls IH] using rev_ind; [done|].
  rewrite foldl_app. simpl. by apply published_evaluate.
Qed.

(** ** What an approval and a replay mean *)

Lemma reject_with_declined request intent mode k now rule code reason s o s' :
  reject_with request intent mode k now rule code reason s = (Ok o, s') ->
  ro_status o = st_REJECTED /\ rd_decision (ro_decision o) = DECLINED /\
  rd_reason_code (ro_decision o) = code.
Proof.
  unfold reject_with. intros E. apply bind_ok in E as (d & s1 & Ed & E).
  do 2 (apply bind_ok in E as (? & ? & _ & E)). unfold finish_reject in E.
  do 2 (apply bind_ok in E as (? & ? & _ & E)). inv E. simpl. split; [done|].
  unfold make_reject in Ed. apply bind_ok in Ed as (did & s2 & _ & Ed). unfold lift in Ed.
  injection Ed as Ed _. unfold engine_reject, mk_RiskDecision in Ed. res_inv. done.
Qed.

Lemma decide_and_publish_inv request signal intent mode k now snapshot context s o s' :
  decide_and_publish request signal intent mode k now snapshot context s = (Ok o, s') ->
  exists t did aid d, engine_evaluate (sc_engine sc) request context t did aid = Ok d /\
    (exists n, t = sc_clock sc n) /\
    ro_decision o = (if bool_decide (rd_decision d = APPROVED)
                     then bind_approval d k (sn_snapshot_id snapshot) else d) /\
    ro_status o = (if bool_decide (rd_decision d = APPROVED) then st_APPROVED else st_REJECTED).
Proof.
  unfold decide_and_publish. intros E. apply bind_ok in E as (t & s1 & Et & E). injection Et as <- <-.
  apply bind_ok in E as (did & s2 & _ & E). apply bind_ok in E as (aid & s3 & _ & E).
  apply bind_ok in E as (d & s4 & Ed & E). injection Ed as Ed <-.
  do 3 (apply bind_ok in E as (? & ? & _ & E)). inv E.
  exists (sc_clock sc (sv_tick s)), did, aid, d. split_and!; eauto.
Qed.

(** A snapshot on which a decision for [signal] and [intent] in [mode] may rest
    at [now]: the provider said its state is available; when it states a maximal
    age, it was taken at most that long ago and not in the future; it is of the
    same mode; and the account and the instrument it names, where it names one
    (and, for the account, where the intent does), are those asked for. *)
Record snapshot_backs (signal : StrategySignal) (intent : option RiskOrderIntent) (mode : string)
    (now : datetime) (snapshot : RiskSnapshot) : Prop := {
  sb_available : sn_state_available snapshot = true;
  sb_clock : dt_aware now = true;
  sb_fresh : forall max_age, sn_max_age snapshot = Some max_age ->
    exists age, dt_sub now (sn_taken_at snapshot) = Ok age /\ 0 <= age <= max_age;
  sb_mode : mode_of (sn_trading_mode snapshot) = mode_of mode;
  sb_account : forall i a b, intent = Some i -> in_account_id i = Some a ->
    ac_account_id (sn_account snapshot) = Some b -> a = b;
  sb_instrument : forall i, mk_instrument_id (sn_market snapshot) = Some i ->
    i = sg_instrument_id signal;
}.

(** The context states the snapshot's gates and the intent's quantity. *)
Record context_states (signal : StrategySignal) (intent : option RiskOrderIntent) (mode : string)
    (snapshot : RiskSnapshot) (c : RiskEvaluationContext) : Prop := {
  cs_mode : cx_trading_mode c = mode_of mode;
  cs_halt : cx_global_halt_active c = sn_global_halt_active snapshot;
  cs_duplicate : cx_duplicate_signal c = sn_duplicate_signal snapshot;
  cs_broker : cx_broker_connected c = mk_broker_connected (sn_market snapshot);
  cs_data : cx_market_data_fresh c = mk_market_data_fresh (sn_market snapshot);
  cs_session : cx_market_session_open c = mk_market_session_open (sn_market snapshot);
  cs_instrument : cx_instrument_allowed c = mk_instrument_allowed (sn_market snapshot);
  cs_quantity : sg_action signal <> HOLD ->
    cx_order_quantity c = (intent ≫= in_quantity);
  cs_max_quantity : cx_max_order_quantity c = li_max_order_quantity (sn_limits snapshot);
  cs_max_position : cx_max_position_quantity c = li_max_position_quantity (sn_limits snapshot);
  cs_max_exposure : cx_max_exposure c = li_max_exposure (sn_limits snapshot);
  cs_max_daily_loss : cx_max_daily_loss c = li_max_daily_loss (sn_limits snapshot);
  cs_daily_pnl : cx_daily_realized_pnl c = ac_daily_realized_pnl (sn_account snapshot);
}.

Lemma is_stale_fresh snapshot now : is_stale snapshot now = Ok false ->
  dt_aware now = true /\ forall max_age, sn_max_age snapshot = Some max_age ->
    exists age, dt_sub now (sn_taken_at snapshot) = Ok age /\ 0 <= age <= max_age.
Proof.
  unfold is_stale, require_aware. intros (? & Ha%raise_if_ok & E)%rbind_ok.
  split; [by apply negb_false_iff|]. intros max_age Hm. rewrite Hm in E.
  apply rbind_ok in E as (age & Hage & [= E]). exists age. split; [done|]. lia.
Qed.

(** A context is only built from a snapshot that backs it. *)
Lemma build_context_backed signal intent snapshot mode retries now c :
  build_context signal intent snapshot mode retries now = Ok c ->
  snapshot_backs signal intent mode now snapshot /\ context_states signal intent mode snapshot c.
Proof.
  unfold build_context. intros (? & Hav%raise_if_ok & E)%rbind_ok.
  apply rbind_ok in E as (stale & Hst & E).
  apply rbind_ok in E as (? & ->%raise_if_ok & E).
  apply rbind_ok in E as (? & Hmode%raise_if_ok & E).
  apply rbind_ok in E as (? & Hacc%raise_if_ok & E).
  apply rbind_ok in E as (? & Hins%raise_if_ok & E).
  apply rbind_ok in E as (dd & _ & [= <-]).
  apply is_stale_fresh in Hst as [Haw Hfresh].
  split; constructor; cbn; try done.
  - by apply negb_false_iff.
  - by apply negb_false_iff, bool_decide_eq_true in Hmode.
  - intros i a b -> Ha Hb. rewrite Ha, Hb in Hacc. by apply negb_false_iff, N.eqb_eq in Hacc.
  - intros i Hi. rewrite Hi in Hins. by apply negb_false_iff, N.eqb_eq in Hins.
  - intros Hh. rewrite decide_False by done. by destruct intent.
Qed.

(** C15: an APPROVED outcome is backed by the whole chain, under an engine with
    the default rules and an aware clock.  The trading mode is BACKTEST or PAPER;
    the provider returned a snapshot that says its state is available, is no
    older than the maximal age it states (if it states one) and not of the
    future, is of the requested mode, and is of the requested account and
    instrument wherever it names one (a snapshot that names no account or no
    instrument is accepted); the context is built from that snapshot, states its
    gates and limits and the intent's quantity, is consistent and, when its
    amounts fit the 28 digits of the decimal context, within every limit of the
    core rules; and the approval is bound to the risk identity of exactly this
    signal, intent and mode and to that snapshot. *)
Theorem service_approval_sound ttl signal intent trading_mode s o s' :
  mk_RiskRuleEngine None ttl = Ok (sc_engine sc) ->
  (forall n, dt_aware (sc_clock sc n) = true) ->
  risk_evaluate signal intent trading_mode s = (Ok o, s') -> ro_status o = st_APPROVED ->
  let mode := py_upper trading_mode in
  mode ∈ SERVICE_MODES /\
  exists snapshot context n1 n2 retries k,
    sc_get_snapshot sc n1 (match intent with Some i => in_account_id i | None => None end)
      (sg_instrument_id signal) (sg_strategy_id signal) = Ok snapshot /\
    snapshot_backs signal intent mode (sc_clock sc n2) snapshot /\
    build_context signal intent snapshot mode retries (sc_clock sc n2) = Ok context /\
    context_states signal intent mode snapshot context /\
    validate_context context = [] /\
    (amounts_fit context -> within_limits context) /\
    compute_risk_identity_key (sc_fromisoformat sc) signal intent mode = Ok k /\
    rd_decision (ro_decision o) = APPROVED /\ rd_binding_hash (ro_decision o) = Some k /\
    rd_snapshot_id (ro_decision o) = Some (sn_snapshot_id snapshot).
Proof.
  intros Hen Haw E Hst. cbn zeta. unfold risk_evaluate in E.
  apply bind_ok in E as (? & ? & _ & E). apply bind_ok in E as (now & ? & _ & E).
  apply bind_ok in E as (k & ? & Ek & E). injection Ek as Ek <-.
  apply bind_ok in E as (rid & ? & _ & E). apply bind_ok in E as (request & s1 & _ & E).
  unfold evaluate_locked in E. case_bool_decide as Hmode; cbn [negb] in E;
    [|apply reject_with_declined in E as [? _]; congruence].
  split; [done|].
  apply bind_ok in E as (prior & s2 & _ & E). destruct prior as [prior|].
  { apply bind_ok in E as (? & ? & _ & E). apply bind_ok in E as (usable & ? & _ & E).
    destruct usable; cbn [negb] in E; [inv E; done|].
    apply reject_with_declined in E as [? _]; congruence. }
  apply bind_ok in E as (blocked & s3 & _ & E). destruct blocked as [scope|].
  { apply bind_ok in E as (? & ? & _ & E). apply reject_with_declined in E as [? _]; congruence. }
  apply bind_ok in E as (got & s4 & Egot & E). injection Egot as Egot <-.
  destruct got as [[snapshot context]|exc].
  2: { destruct (isinstance exc RiskContextUnavailable); apply bind_ok in E as (? & ? & _ & E);
       apply reject_with_declined in E as [? _]; congruence. }
  res_inv.
  destruct (validate_context context) eqn:Ev;
    [|apply reject_with_declined in E as [? _]; congruence].
  apply decide_and_publish_inv in E as (t & did & aid & d & Ee & [n ->] & Hd & Hs).
  case_bool_decide as Hap; [|congruence].
  match goal with H : build_context _ _ _ _ _ _ = Ok _ |- _ =>
    destruct (build_context_backed _ _ _ _ _ _ _ H) end.
  eexists snapshot, context, _, _, _, k. split_and!; try done; try (by rewrite Hd).
  intros Hfit. eapply all_rules_within_limits; [done|].
  by eapply (default_approval_passes _ _ _ _ _ _ _ _ Hen (Haw n)).
Qed.

Lemma persist_keeps_released d intent mode sid k s :
  sv_fanned_out (snd (sv_persist d intent mode sid k s)) = sv_fanned_out s.
Proof.
  unfold sv_persist, on_repository. destruct (sv_repository s); [|done].
  destruct (risk_persist _ _) as [[[|]|e] db']; done.
Qed.

Lemma reject_keeps_released request intent mode k now rule code reason s :
  sv_fanned_out (snd (reject_with request intent mode k now rule code reason s)) = sv_fanned_out s.
Proof.
  unfold reject_with, make_reject, inc, inc_rule, finish_reject.
  assert (forall T U (m : M SV T) (q : T -> M SV U) w,
    (forall w, sv_fanned_out (snd (m w)) = sv_fanned_out w) ->
    (forall a w, sv_fanned_out (snd (q a w)) = sv_fanned_out w) ->
    sv_fanned_out (snd (bind m q w)) = sv_fanned_out w) as Hb.
  { intros T U m q w Hm Hq. unfold bind. specialize (Hm w).
    destruct (m w) as [[a|e] w1]; simpl in *; [by rewrite Hq | done]. }
  repeat (apply Hb; intros); try done; try apply persist_keeps_released.
  by destruct (evict _ _).
Qed.

(** Everything of the service but the metrics and the call counter. *)
Definition same_service (s s' : SV) : Prop :=
  sv_repository s' = sv_repository s /\ sv_breaker s' = sv_breaker s /\
  sv_decisions s' = sv_decisions s /\ sv_retries s' = sv_retries s /\
  sv_fanned_out s' = sv_fanned_out s.

(** replays are idempotent.  When a decision for the risk identity of a
    request is remembered and it is a rejection or a still usable approval, the
    service answers with that same decision as DUPLICATE and changes nothing: no
    new approval, no persistence, no release.  A remembered approval that is no
    longer usable is never returned: the answer is then a rejection. *)
Theorem replay_returns_prior signal intent trading_mode s k prior :
  let mode := py_upper trading_mode in
  mode ∈ SERVICE_MODES -> dt_aware (sc_clock sc (sv_tick s)) = true ->
  compute_risk_identity_key (sc_fromisoformat sc) signal intent mode = Ok k ->
  od_get k (sv_decisions s) = Some prior ->
  let '(r, s') := risk_evaluate signal intent trading_mode s in
  (rd_decision prior = DECLINED \/
   approval_is_usable prior (sc_clock sc (sv_tick s)) (Some k) = Ok true ->
   r = Ok {| ro_decision := prior; ro_status := st_DUPLICATE; ro_persisted := false;
             ro_snapshot_id := None; ro_prior_decision_id := Some (rd_decision_id prior) |} /\
   same_service s s') /\
  (rd_decision prior = APPROVED ->
   approval_is_usable prior (sc_clock sc (sv_tick s)) (Some k) = Ok false ->
   sv_fanned_out s' = sv_fanned_out s /\
   forall o, r = Ok o -> ro_status o = st_REJECTED /\ rd_decision (ro_decision o) = DECLINED).
Proof.
  intros mode Hmode Haw Hk Hprior. destruct (risk_evaluate signal intent trading_mode s) as [r s'] eqn:E.
  unfold risk_evaluate in E. unfold bind at 1 in E. simpl in E. unfold bind at 1, sv_call in E. simpl in E.
  unfold bind at 1, lift in E. fold mode in E. rewrite Hk in E.
  unfold bind at 1 in E. simpl in E. unfold bind at 1 in E.
  unfold mk_RiskAssessmentRequest in E. rewrite Haw in E. simpl in E.
  unfold evaluate_locked in E. rewrite bool_decide_true in E by done. simpl in E.
  unfold bind at 1, gets in E. simpl in E. rewrite Hprior in E.
  unfold bind at 1, inc, on_metrics, modify in E. simpl in E.
  split.
  - intros Hcase. unfold bind at 1 in E.
    assert (match rd_decision prior with
            | APPROVED => lift (approval_is_usable prior (sc_clock sc (sv_tick s)) (Some k))
            | DECLINED => ret true end = lift (S:=SV) (Ok true)) as Hu.
    { destruct Hcase as [->|Hus]; [done|]. destruct (rd_decision prior); [by rewrite Hus | done]. }
    rewrite Hu in E. simpl in E. inv E. done.
  - intros Hap Hus. rewrite Hap in E. unfold bind at 1, lift in E. rewrite Hus in E. simpl in E.
    split.
    + match type of E with reject_with ?a ?b ?c ?d ?e ?f ?g ?h ?w = _ =>
        pose proof (reject_keeps_released a b c d e f g h w) as Hf end.
      rewrite E in Hf. exact Hf.
    + intros o ->. apply reject_with_declined in E as (? & ? & _). done.
Qed.

End Service.

(** * Witnesses *)

Module ServiceSample.

Definition d (z : Z) : option decimal := Some (dec_of_Z z).
Definition clock (n : nat) : datetime := utc (1700000000000000 + 1000 * Z.of_nat n).

Definition snapshot : RiskSnapshot := {|
  sn_snapshot_id := 77; sn_taken_at := clock 0; sn_source := "test"; sn_state_available := true;
  sn_max_age := Some 60000000; sn_global_halt_active := false; sn_trading_mode := "PAPER";
  sn_live_trading_enabled := false; sn_duplicate_signal := false;
  sn_account := {| ac_account_id := Some 1%N; ac_available_funds := d 100000; ac_equity := d 90000;
    ac_high_water_mark := d 100000; ac_realized_pnl := None; ac_unrealized_pnl := None;
    ac_daily_realized_pnl := d (-50); ac_strategy_realized_pnl := d 0; ac_current_drawdown := None;
    ac_available_margin := d 50000; ac_used_margin := None |};
  sn_market := {| mk_instrument_id := Some 5%N; mk_reference_price := d 100;
    mk_current_price := d 101; mk_market_data_fresh := true; mk_broker_connected := true;
    mk_market_session_open := true; mk_instrument_allowed := true; mk_last_update_at := None |};
  sn_positions := {| ps_open_positions_count := Some 1; ps_position_quantity := d 5;
    ps_projected_position_quantity := None; ps_exposure := d 505; ps_reserved_quantity := None;
    ps_pending_order_count := Some 0 |};
  sn_limits := {| li_max_order_quantity := d 100; li_max_position_quantity := d 100;
    li_max_exposure := d 100000; li_max_daily_loss := d 500; li_max_strategy_loss := d 500;
    li_max_open_positions := Some 5; li_max_drawdown := d 1; li_max_price_deviation := d 1;
    li_max_orders_per_window := Some 3; li_order_window_seconds := Some 60;
    li_account_max_order_quantity := d 50; li_account_max_positions := None;
    li_account_max_exposure := None; li_account_max_loss := d 900;
    li_account_max_order_rate := None; li_max_unresolved_executions := Some 2;
    li_max_retries_per_signal := Some 1 |};
  sn_recent_order_count := Some 0; sn_window_started_at := None; sn_metadata := ∅ |}.

Definition config (capacity : Z) : RiskServiceConfig := {|
  sc_clock := clock; sc_uuid4 := fun n => N.of_nat (100 + n);
  sc_engine := RuleSample.engine; sc_breaker_config := default_breaker_config;
  sc_capacity := capacity; sc_get_snapshot := fun _ _ _ _ => Ok snapshot;
  sc_fromisoformat := fun s => raise ValueError "Invalid isoformat string" |}.

(** The same signal on different bars has different identities. *)
Definition signal (bar : Z) : StrategySignal := {|
  sg_signal_id := 3; sg_strategy_id := 4; sg_strategy_version := "1";
  sg_strategy_config_hash := "h"; sg_instrument_id := 5; sg_action := BUY;
  sg_timestamp := utc (1700000000000000 + bar); sg_confidence := dec_of_Z 1;
  sg_reason := "breakout"; sg_metadata := ∅ |}.

Definition intent : option RiskOrderIntent := Some
  {| in_quantity := d 10; in_account_id := Some 1%N; in_order_type := "MARKET"; in_metadata := ∅ |}.

Definition service {DB} (db : DB) : RiskServiceState DB := {|
  sv_repository := Some db; sv_breaker := ∅; sv_metrics := {| rm_counts := ∅; rm_by_rule := ∅ |};
  sv_decisions := []; sv_retries := []; sv_tick := 0; sv_fanned_out := [] |}.

Definition calls : list (StrategySignal * option RiskOrderIntent * string) :=
  [(signal 1, intent, "paper"%string); (signal 1, intent, "PAPER"%string);
   (signal 2, intent, "PAPER"%string); (signal 3, intent, "LIVE"%string)].

Definition final : RiskServiceState (gmap N RiskEvent) :=
  foldl (run_service (config 1)) (service (∅ : gmap N RiskEvent)) calls.

Example released_count : List.length (sv_fanned_out final) = 2%nat.
Proof. vm_compute. reflexivity. Qed.

Lemma approvals_released_witness : NoDup (rd_binding_hash <$> sv_fanned_out final).
Proof.
  destruct (approvals_released_once (config 1) (service (∅ : gmap N RiskEvent)) calls ∅)
    as (db' & _ & _ & H).
  - reflexivity.
  - reflexivity.
  - exact H.
Defined.

Definition first_run : res RiskEvaluationOutcome * RiskServiceState (gmap N RiskEvent) :=
  Eval vm_compute in risk_evaluate (config 8) (signal 1) intent "paper" (service (∅ : gmap N RiskEvent)).

Definition first_outcome : RiskEvaluationOutcome := Eval vm_compute in
  match fst first_run with
  | Ok o => o
  | Err _ => {| ro_decision := RuleSample.halted; ro_status := st_REJECTED; ro_persisted := false;
                ro_snapshot_id := None; ro_prior_decision_id := None |}
  end.

Lemma service_approval_witness :
  ro_status first_outcome = st_APPROVED /\ rd_decision (ro_decision first_outcome) = APPROVED.
Proof.
  split; [reflexivity|].
  destruct (service_approval_sound (config 8) 30000000 (signal 1) intent "paper"
              (service (∅ : gmap N RiskEvent)) first_outcome (snd first_run))
    as (_ & sn & cx & n1 & n2 & r & k & _ & _ & _ & _ & _ & _ & _ & H & _).
  - reflexivity.
  - intros n. reflexivity.
  - vm_compute. reflexivity.
  - reflexivity.
  - exact H.
Defined.

Definition prior_key : string := Eval vm_compute in
  match compute_risk_identity_key (sc_fromisoformat (config 8)) (signal 1) intent "PAPER" with
  | Ok k => k | Err _ => "" end.

Lemma replay_witness : exists o,
  fst (risk_evaluate (config 8) (signal 1) intent "PAPER" (snd first_run)) = Ok o /\
  ro_status o = st_DUPLICATE.
Proof.
  pose proof (replay_returns_prior (config 8) (signal 1) intent "PAPER" (snd first_run) prior_key
    (ro_decision first_outcome)) as H. cbv zeta in H.
  destruct (risk_evaluate (config 8) (signal 1) intent "PAPER" (snd first_run)) as [r s'].
  destruct H as [H _].
  - vm_compute. apply elem_of_cons. right. apply elem_of_cons. left. reflexivity.
  - reflexivity.
  - vm_compute. reflexivity.
  - vm_compute. reflexivity.
  - destruct H as [Hr _]; [right; vm_compute; reflexivity|].
    simpl. rewrite Hr. eexists. split; reflexivity.
Defined.

(** A database that is down: queries answer, every commit fails. *)
#[local] Program Instance DownDB : Session unit RiskEvent risk_constraint := {|
  rows _ := ∅;
  scalar_one_or_none _ := ret None;
  commit _ := throw Exception "connection refused";
|}.
Next Obligation. done. Qed.
Next Obligation. by intros p [] _ k r Hk. Qed.
Next Obligation. done. Qed.
Next Obligation. done. Qed.
Next Obligation. done. Qed.
Next Obligation. done. Qed.
Next Obligation. by intros cs [] e [= <-]. Qed.

(** The retry map is not bounded by the capacity: with an unavailable database
    an approval is not recorded in the dedup map, so its retry entry is never
    evicted.  Four signals, capacity one. *)
Example retries_exceed_capacity :
  let s := foldl (run_service (config 1)) (service tt)
             ((fun bar => (signal bar, intent, "PAPER"%string)) <$> [1; 2; 3; 4]) in
  List.length (sv_retries s) = 4%nat /\ sv_decisions s = [] /\ sv_fanned_out s = [].
Proof. vm_compute. auto. Qed.

End ServiceSample.
