(* ===== verification/Position.v ===== *)
(** The position engine (services/position_engine): arithmetic.py,
    contracts.py, identity.py, repository.py, metrics.py and engine.py, with
    the [positions] and [position_events] tables of db/models.

    Quantities are Python integers ([Z]), prices decimals.  The repository runs
    over the session interface of [Sql]; [uuid4] and the halt callable are
    indexed by the number of calls made so far.  [position_apply_fill] is
    written as the code runs it: a part that reads and computes
    ([apply_begin]) and a part that persists ([apply_commit]), so that two
    processes can be interleaved between them. *)

From stdpp Require Import base list strings gmap fin_maps.
From Stdlib Require Import ZArith Lia String Ascii QArith Qabs Lqa.
From S2P Require Import Prelude.
From S2P Require Import PyBase.
From S2P Require Import Hashing.
From S2P Require Import Decimal.
From S2P Require Import DecimalText.
From S2P Require Import Sql.
Open Scope Z_scope.

(** * contracts.py *)

Inductive PositionStatus := ps_FLAT | ps_OPEN | ps_CLOSED.
#[export] Instance PositionStatus_eq_dec : EqDecision PositionStatus.
Proof. solve_decision. Defined.

Definition position_status_value (s : PositionStatus) : string :=
  match s with ps_FLAT => "FLAT" | ps_OPEN => "OPEN" | ps_CLOSED => "CLOSED" end.

Definition position_status_of := enum_of [ps_FLAT; ps_OPEN; ps_CLOSED] position_status_value.

Inductive PositionSide := LONG | SHORT.

Inductive PositionEventType :=
| POSITION_OPENED | POSITION_INCREASED | POSITION_DECREASED | POSITION_CLOSED
| POSITION_CONFLICT | POSITION_ERROR.
#[export] Instance PositionEventType_eq_dec : EqDecision PositionEventType.
Proof. solve_decision. Defined.

Definition position_event_value (t : PositionEventType) : string :=
  match t with
  | POSITION_OPENED => "POSITION_OPENED"
  | POSITION_INCREASED => "POSITION_INCREASED"
  | POSITION_DECREASED => "POSITION_DECREASED"
  | POSITION_CLOSED => "POSITION_CLOSED"
  | POSITION_CONFLICT => "POSITION_CONFLICT"
  | POSITION_ERROR => "POSITION_ERROR"
  end.

Definition position_event_of := enum_of
  [POSITION_OPENED; POSITION_INCREASED; POSITION_DECREASED; POSITION_CLOSED; POSITION_CONFLICT;
   POSITION_ERROR] position_event_value.

Inductive PositionApplyStatus := pa_APPLIED | pa_DUPLICATE | pa_CONFLICT | pa_REJECTED.

Record PositionFill := {
  pf_execution_id : string;
  pf_order_id : UUID;
  pf_account_id : UUID;
  pf_instrument_id : UUID;
  pf_strategy_run_id : UUID;
  pf_trading_mode : string;
  pf_side : string;
  pf_quantity : decimal;
  pf_price : decimal;
  pf_occurred_at : datetime;
  pf_broker_order_id : option string;
  pf_fill_reference : option string;
}.

Definition SIDES : list string := ["BUY"%string; "SELL"%string].

Definition mk_PositionFill (f : PositionFill) : res PositionFill :=
  raise_if (is_blank (pf_execution_id f)) ValueError "execution_id is required" ;!
  raise_if (is_blank (pf_trading_mode f)) ValueError "trading_mode is required" ;!
  raise_if (negb (bool_decide (pf_side f ∈ SIDES))) ValueError
    ("side must be BUY or SELL, got " +:+ py_repr (pf_side f)) ;!
  raise_if (dle (pf_quantity f) dzero) ValueError "quantity must be positive" ;!
  raise_if (dle (pf_price f) dzero) ValueError "price must be positive" ;!
  require_timezone (pf_occurred_at f) "occurred_at" ;!
  Ok f.

Record PositionSnapshot := {
  pn_position_id : option UUID;
  pn_account_id : option UUID;
  pn_instrument_id : UUID;
  pn_strategy_run_id : UUID;
  pn_trading_mode : string;
  pn_side : option PositionSide;
  pn_quantity : Z;
  pn_average_price : option decimal;
  pn_status : PositionStatus;
  pn_opened_at : option datetime;
  pn_closed_at : option datetime;
  pn_last_execution_id : option string;
}.

Definition is_flat (s : PositionSnapshot) : bool := pn_quantity s =? 0.

Record PositionResult := {
  pr_status : PositionApplyStatus;
  pr_event_type : option PositionEventType;
  pr_snapshot : PositionSnapshot;
  pr_quantity_before : Z;
  pr_quantity_after : Z;
  pr_duplicate : bool;
  pr_conflict : bool;
}.

Record PositionIdentity := {
  pi_strategy_run_id : UUID;
  pi_instrument_id : UUID;
  pi_trading_mode : string;
}.

Definition as_tuple (i : PositionIdentity) : UUID * UUID * string :=
  (pi_strategy_run_id i, pi_instrument_id i, pi_trading_mode i).

Record PositionState := {
  po_position_id : option UUID;
  po_strategy_run_id : UUID;
  po_instrument_id : UUID;
  po_trading_mode : string;
  po_quantity : Z;
  po_average_price : option decimal;
  po_status : PositionStatus;
  po_opened_at : option datetime;
  po_closed_at : option datetime;
  po_last_execution_id : option string;
  po_account_id : option UUID;
}.

(** * arithmetic.py *)

Definition PRICE_QUANTUM : decimal := Dec false 1 (-4).

Definition round_price (value : decimal) : res decimal := quantize value PRICE_QUANTUM.

Definition weighted_average (previous_quantity : Z) (previous_average : option decimal)
    (fill_quantity : Z) (fill_price : decimal) : res decimal :=
  raise_if (fill_quantity <=? 0) ValueError "fill_quantity must be positive" ;!
  match previous_average with
  | Some avg =>
      if previous_quantity =? 0 then round_price fill_price else
      let total_notional := dadd (dmul (dec_of_Z previous_quantity) avg)
                                 (dmul (dec_of_Z fill_quantity) fill_price) in
      let! q := ddiv total_notional (dec_of_Z (previous_quantity + fill_quantity)) in
      round_price q
  | None => round_price fill_price
  end.

Record PositionDelta := {
  de_quantity : Z;
  de_average_price : option decimal;
  de_status : PositionStatus;
  de_opened_at : option datetime;
  de_closed_at : option datetime;
  de_event_type : string;
  de_side : string;
}.

Definition apply_buy (quantity : Z) (average_price : option decimal)
    (opened_at closed_at : option datetime) (fill_quantity : Z) (fill_price : decimal)
    (occurred_at : datetime) : res PositionDelta :=
  raise_if (fill_quantity <=? 0) ValueError "fill_quantity must be positive" ;!
  let was_flat := quantity =? 0 in
  let! next_average := weighted_average quantity average_price fill_quantity fill_price in
  Ok {| de_quantity := quantity + fill_quantity;
        de_average_price := Some next_average;
        de_status := ps_OPEN;
        de_opened_at := if was_flat then Some occurred_at else opened_at;
        de_closed_at := None;
        de_event_type := if was_flat then "POSITION_OPENED" else "POSITION_INCREASED";
        de_side := "LONG" |}.

Definition apply_sell (quantity : Z) (average_price : option decimal)
    (opened_at closed_at : option datetime) (fill_quantity : Z) (fill_price : decimal)
    (occurred_at : datetime) : res PositionDelta :=
  raise_if (fill_quantity <=? 0) ValueError "fill_quantity must be positive" ;!
  raise_if (quantity <? fill_quantity) ValueError
    "SELL fill exceeds open long quantity (over-close)" ;!
  let next_quantity := quantity - fill_quantity in
  if next_quantity =? 0 then
    Ok {| de_quantity := 0; de_average_price := None; de_status := ps_CLOSED;
          de_opened_at := opened_at; de_closed_at := Some occurred_at;
          de_event_type := "POSITION_CLOSED"; de_side := "LONG" |}
  else
    Ok {| de_quantity := next_quantity; de_average_price := average_price; de_status := ps_OPEN;
          de_opened_at := opened_at; de_closed_at := None;
          de_event_type := "POSITION_DECREASED"; de_side := "LONG" |}.

(** * identity.py *)

Definition compute_position_key (strategy_run_id instrument_id : UUID) (trading_mode : string)
    : string :=
  uuid_str strategy_run_id +:+ ":" +:+ uuid_str instrument_id +:+ ":" +:+ py_upper trading_mode.

Definition build_position_identity (strategy_run_id instrument_id : UUID) (trading_mode : string)
    : PositionIdentity :=
  {| pi_strategy_run_id := strategy_run_id; pi_instrument_id := instrument_id;
     pi_trading_mode := py_upper trading_mode |}.

Definition fill_content_hash (f : PositionFill) : string :=
  sha256_hex (json_compact
    [("side"%string, JStr (py_upper (pf_side f)));
     ("quantity"%string, JStr (dec_str (pf_quantity f)));
     ("price"%string, JStr (dec_str (pf_price f)));
     ("occurred_at"%string, JStr (isoformat (pf_occurred_at f)))]).

(** A fill without a strategy run has no position. *)
Definition normalize_fill (execution_id : string) (order_id account_id instrument_id : UUID)
    (strategy_run_id : option UUID) (trading_mode side : string) (quantity price : decimal)
    (occurred_at : datetime) (broker_order_id fill_reference : option string)
    : res PositionFill :=
  match strategy_run_id with
  | None => raise PositionIdentityError
              "cannot attribute fill to a position: strategy_run_id is missing"
  | Some run =>
      mk_PositionFill
        {| pf_execution_id := execution_id; pf_order_id := order_id; pf_account_id := account_id;
           pf_instrument_id := instrument_id; pf_strategy_run_id := run;
           pf_trading_mode := trading_mode; pf_side := side; pf_quantity := quantity;
           pf_price := price; pf_occurred_at := occurred_at;
           pf_broker_order_id := broker_order_id; pf_fill_reference := fill_reference |}
  end.

(** * The tables *)

Record Position := {
  pp_id : UUID;
  pp_strategy_run_id : UUID;
  pp_broker_account_id : option UUID;
  pp_instrument_id : UUID;
  pp_trading_mode : string;
  pp_quantity : Z;
  pp_average_price : option decimal;
  pp_realized_pnl : option decimal;
  pp_unrealized_pnl : option decimal;
  pp_opened_at : option datetime;
  pp_closed_at : option datetime;
  pp_status : string;
  pp_last_execution_id : option string;
}.

Record PositionEvent := {
  pe_position_id : UUID;
  pe_source_event_id : option string;
  pe_event_type : string;
  pe_quantity_before : option Z;
  pe_quantity_after : Z;
  pe_event_timestamp : datetime;
  pe_reason : option string;
  pe_event_payload : option metadata;
}.

Inductive prow :=
| RPosition (p : Position)
| RPositionEvent (e : PositionEvent).

Definition position_id_of (r : prow) : option UUID :=
  match r with RPosition p => Some (pp_id p) | _ => None end.
Definition position_key_of (r : prow) : option (UUID * UUID * string) :=
  match r with
  | RPosition p => Some (pp_strategy_run_id p, pp_instrument_id p, pp_trading_mode p)
  | _ => None
  end.
Definition source_event_of (r : prow) : option string :=
  match r with RPositionEvent e => pe_source_event_id e | _ => None end.

(** Primary key, unique key and unique event source; events belong to a
    position.  [refs] stands for the rows of [strategy_runs], [instruments]
    and [broker_accounts], which this component never writes. *)
Definition position_constraint (refs : UUID -> UUID -> option UUID -> bool) (m : gmap N prow)
    : bool :=
  let l := snd <$> map_to_list m in
  unique_on position_id_of l && unique_on position_key_of l && unique_on source_event_of l &&
  forallb (fun r =>
    match r with
    | RPositionEvent e => existsb (fun r' => bool_decide (position_id_of r' = Some (pe_position_id e))) l
    | RPosition p => refs (pp_strategy_run_id p) (pp_instrument_id p) (pp_broker_account_id p)
    end) l.

(** * repository.py *)

(** The event the engine computes for the repository (engine.py). *)
Record PositionEventData := {
  ed_event_type : PositionEventType;
  ed_quantity_before : Z;
  ed_quantity_after : Z;
  ed_execution_id : string;
  ed_content_hash : string;
  ed_occurred_at : datetime;
  ed_reason : string;
}.

Record PositionApplyPlan := {
  pl_new_state : PositionState;
  pl_event : PositionEventData;
}.

Definition position_where (i : PositionIdentity) (r : prow) : bool :=
  bool_decide (position_key_of r = Some (as_tuple i)).

Definition event_where (execution_id : string) (r : prow) : bool :=
  bool_decide (source_event_of r = Some execution_id).

Definition to_state (rec : Position) : res PositionState :=
  let status := if String.eqb (pp_status rec) "" then "FLAT"%string else pp_status rec in
  let! st := position_status_of (py_upper status) in
  Ok {| po_position_id := Some (pp_id rec);
        po_strategy_run_id := pp_strategy_run_id rec;
        po_instrument_id := pp_instrument_id rec;
        po_trading_mode := pp_trading_mode rec;
        po_quantity := pp_quantity rec;
        po_average_price := pp_average_price rec;
        po_status := st;
        po_opened_at := pp_opened_at rec;
        po_closed_at := pp_closed_at rec;
        po_last_execution_id := pp_last_execution_id rec;
        po_account_id := pp_broker_account_id rec |}.

(** [id=state.position_id or uuid4()]; [fresh] is the value of [uuid4()]. *)
Definition new_position_row (fresh : UUID) (state : PositionState) : Position := {|
  pp_id := default fresh (po_position_id state);
  pp_strategy_run_id := po_strategy_run_id state;
  pp_broker_account_id := po_account_id state;
  pp_instrument_id := po_instrument_id state;
  pp_trading_mode := po_trading_mode state;
  pp_quantity := po_quantity state;
  pp_average_price := po_average_price state;
  pp_realized_pnl := None;
  pp_unrealized_pnl := None;
  pp_opened_at := po_opened_at state;
  pp_closed_at := po_closed_at state;
  pp_status := position_status_value (po_status state);
  pp_last_execution_id := po_last_execution_id state;
|}.

Definition apply_state (position : Position) (state : PositionState) : Position := {|
  pp_id := pp_id position;
  pp_strategy_run_id := pp_strategy_run_id position;
  pp_broker_account_id := po_account_id state;
  pp_instrument_id := pp_instrument_id position;
  pp_trading_mode := pp_trading_mode position;
  pp_quantity := po_quantity state;
  pp_average_price := po_average_price state;
  pp_realized_pnl := pp_realized_pnl position;
  pp_unrealized_pnl := pp_unrealized_pnl position;
  pp_opened_at := po_opened_at state;
  pp_closed_at := po_closed_at state;
  pp_status := position_status_value (po_status state);
  pp_last_execution_id := po_last_execution_id state;
|}.

Definition new_event_row (position_id : UUID) (event : PositionEventData) : PositionEvent := {|
  pe_position_id := position_id;
  pe_source_event_id := Some (ed_execution_id event);
  pe_event_type := position_event_value (ed_event_type event);
  pe_quantity_before := Some (ed_quantity_before event);
  pe_quantity_after := ed_quantity_after event;
  pe_event_timestamp := ed_occurred_at event;
  pe_reason := Some (ed_reason event);
  pe_event_payload := Some {["_content_hash"%string := PStr (ed_content_hash event)]};
|}.

(** The evidence row of [record_conflict]. *)
Definition conflict_row (position_id : UUID) (fill : PositionFill) (original_hash : pyval)
    : PositionEvent := {|
  pe_position_id := position_id;
  pe_source_event_id := Some ("conflict-" +:+ pf_execution_id fill);
  pe_event_type := position_event_value POSITION_CONFLICT;
  pe_quantity_before := Some 0;
  pe_quantity_after := 0;
  pe_event_timestamp := pf_occurred_at fill;
  pe_reason := Some "same execution identity, different payload"%string;
  pe_event_payload := Some
    (<["execution_id"%string := PStr (pf_execution_id fill)]>
    (<["original_hash"%string := original_hash]>
    (<["conflicting_hash"%string := PStr (fill_content_hash fill)]>
    (<["side"%string := PStr (pf_side fill)]>
    (<["quantity"%string := PStr (dec_str (pf_quantity fill))]>
    (<["price"%string := PStr (dec_str (pf_price fill))]> ∅))))));
|}.

Section Repository.
Context {refs : UUID -> UUID -> option UUID -> bool}.
Context {DB : Type} `{Session DB prow (position_constraint refs)}.

Definition find_fill_hash (execution_id : string) : M DB (option pyval) :=
  let* rec := scalar_one_or_none (event_where execution_id) in
  ret (match rec with
       | Some (_, RPositionEvent e) =>
           match pe_event_payload e with
           | Some payload => match payload !! "_content_hash"%string with
                             | Some PNone => None
                             | v => v
                             end
           | None => None
           end
       | _ => None
       end).

Definition load_position (identity : PositionIdentity) : M DB (option PositionState) :=
  let* rec := scalar_one_or_none (position_where identity) in
  match rec with
  | Some (_, RPosition p) => let* s := lift (to_state p) in ret (Some s)
  | _ => ret None
  end.

Definition load_position_by_id (position_id : UUID) : M DB (option PositionState) :=
  let* rec := scalar_one_or_none (fun r => bool_decide (position_id_of r = Some position_id)) in
  match rec with
  | Some (_, RPosition p) => let* s := lift (to_state p) in ret (Some s)
  | _ => ret None
  end.

(** The handlers of [persist_apply]: a violated constraint means the fill was
    already applied, anything else is a persistence failure. *)
Definition apply_failure (exc : exn) : option (M DB unit) :=
  Some (if isinstance exc IntegrityError
        then throw DuplicateApplyError "duplicate apply (unique constraint)"
        else if isinstance exc DuplicateApplyError then lift (Err exc)
        else throw PositionPersistenceError "position apply failed").

Definition persist_apply (fresh : UUID) (identity : PositionIdentity) (state : PositionState)
    (event : PositionEventData) : M DB unit :=
  try_except
    (let* position := scalar_one_or_none (position_where identity) in
     match position with
     | Some (k, RPosition p) =>
         commit [Put k (RPosition (apply_state p state));
                 Add (RPositionEvent (new_event_row (pp_id p) event))]
     | _ =>
         let p := new_position_row fresh state in
         commit [Add (RPosition p); Add (RPositionEvent (new_event_row (pp_id p) event))]
     end)
    apply_failure.

(** Every exception is swallowed: the evidence is best effort. *)
Definition record_conflict (fill : PositionFill) (original_hash : pyval) : M DB unit :=
  try_except
    (let* original := scalar_one_or_none (event_where (pf_execution_id fill)) in
     let* position_id :=
       match original with
       | Some (_, RPositionEvent e) => ret (Some (pe_position_id e))
       | _ =>
           let* rec := scalar_one_or_none (position_where
             {| pi_strategy_run_id := pf_strategy_run_id fill;
                pi_instrument_id := pf_instrument_id fill;
                pi_trading_mode := pf_trading_mode fill |}) in
           ret (match rec with Some (_, r) => position_id_of r | None => None end)
       end in
     match position_id with
     | None => ret tt
     | Some pid => commit [Add (RPositionEvent (conflict_row pid fill original_hash))]
     end)
    (fun _ => Some (ret tt)).
End Repository.

(** * metrics.py *)

Inductive position_counter :=
| c_opened | c_increased | c_decreased | c_closed | c_duplicate | c_conflict | c_rejection.

Record PositionMetrics := {
  pm_opened : Z; pm_increased : Z; pm_decreased : Z; pm_closed : Z;
  pm_duplicate_fills : Z; pm_conflicting_fills : Z; pm_rejected_fills : Z;
}.

Definition position_record (c : position_counter) (m : PositionMetrics) : PositionMetrics :=
  let '(Build_PositionMetrics o i d cl du co r) := m in
  match c with
  | c_opened => Build_PositionMetrics (o + 1) i d cl du co r
  | c_increased => Build_PositionMetrics o (i + 1) d cl du co r
  | c_decreased => Build_PositionMetrics o i (d + 1) cl du co r
  | c_closed => Build_PositionMetrics o i d (cl + 1) du co r
  | c_duplicate => Build_PositionMetrics o i d cl (du + 1) co r
  | c_conflict => Build_PositionMetrics o i d cl du (co + 1) r
  | c_rejection => Build_PositionMetrics o i d cl du co (r + 1)
  end.

(** * engine.py *)

Definition POSITION_MODES : list string := ["BACKTEST"%string; "PAPER"%string].

(** The engine's collaborators; a repository is optional. *)
Record PositionEngine (DB : Type) := {
  pw_repository : option DB;
  pw_metrics : PositionMetrics;
  pw_tick : nat;
}.
Arguments pw_repository {DB} _.
Arguments pw_metrics {DB} _.
Arguments pw_tick {DB} _.

Record PositionEngineConfig := {
  pc_global_halt_active : nat -> bool;
  pc_uuid4 : nat -> UUID;
}.

Definition to_snapshot (state : PositionState) : PositionSnapshot := {|
  pn_position_id := po_position_id state;
  pn_account_id := po_account_id state;
  pn_instrument_id := po_instrument_id state;
  pn_strategy_run_id := po_strategy_run_id state;
  pn_trading_mode := po_trading_mode state;
  pn_side := if 0 <? po_quantity state then Some LONG else None;
  pn_quantity := po_quantity state;
  pn_average_price := po_average_price state;
  pn_status := po_status state;
  pn_opened_at := po_opened_at state;
  pn_closed_at := po_closed_at state;
  pn_last_execution_id := po_last_execution_id state;
|}.

Definition flat_snapshot (strategy_run_id instrument_id : UUID) (trading_mode : string)
    : PositionSnapshot := {|
  pn_position_id := None; pn_account_id := None;
  pn_instrument_id := instrument_id; pn_strategy_run_id := strategy_run_id;
  pn_trading_mode := py_upper trading_mode;
  pn_side := None; pn_quantity := 0; pn_average_price := None; pn_status := ps_FLAT;
  pn_opened_at := None; pn_closed_at := None; pn_last_execution_id := None;
|}.

Definition over_close_message (current requested : Z) : string :=
  "over-close rejected: current=" +:+ str_Z current +:+ ", requested=" +:+ str_Z requested
  +:+ " (flip/short unsupported)".

Section PositionEngine.
Context {refs : UUID -> UUID -> option UUID -> bool}.
Context {DB : Type} `{Session DB prow (position_constraint refs)}.
Context (pc : PositionEngineConfig).
Abbreviation PW := (PositionEngine DB).

Definition pmetric (c : position_counter) : M PW unit :=
  modify (fun w => {| pw_repository := pw_repository w;
                      pw_metrics := position_record c (pw_metrics w);
                      pw_tick := pw_tick w |}).

Definition pcall {T} (f : nat -> T) : M PW T :=
  fun w => (Ok (f (pw_tick w)),
            {| pw_repository := pw_repository w; pw_metrics := pw_metrics w;
               pw_tick := S (pw_tick w) |}).

Definition set_pdb (db : DB) (w : PW) : PW :=
  {| pw_repository := Some db; pw_metrics := pw_metrics w; pw_tick := pw_tick w |}.

(** A call of the configured repository; [apply_fill] raises before the first
    one when there is none. *)
Definition prepo {T} (m : M DB T) : M PW T :=
  fun w => match pw_repository w with
           | Some db => let '(r, db') := m db in (r, set_pdb db' w)
           | None => (raise PositionPersistenceError "no position repository configured", w)
           end.

Definition preject {T} (c : exn_class) (msg : string) : M PW T :=
  pmetric c_rejection ;* throw c msg.

Definition preject_if (b : bool) (c : exn_class) (msg : string) : M PW unit :=
  if b then preject c msg else ret tt.

Definition pvalidate (fill : PositionFill) : M PW unit :=
  let mode := py_upper (pf_trading_mode fill) in
  preject_if (String.eqb mode "LIVE") PositionModeError
    "LIVE trading is disabled (fail-closed)" ;*
  preject_if (negb (bool_decide (mode ∈ POSITION_MODES))) PositionModeError
    ("unknown trading mode: " +:+ pf_trading_mode fill) ;*
  let* halted := pcall (pc_global_halt_active pc) in
  preject_if halted PositionValidationError
    "global trading halt is active; position updates refused" ;*
  preject_if (negb (bool_decide (pf_side fill ∈ SIDES))) PositionValidationError
    ("unsupported side: " +:+ pf_side fill) ;*
  preject_if (dle (pf_quantity fill) dzero) PositionValidationError
    "fill quantity must be positive" ;*
  preject_if (negb (deq (pf_quantity fill) (to_integral_value (pf_quantity fill))))
    PositionValidationError "fill quantity must be a whole number" ;*
  preject_if (dle (pf_price fill) dzero) PositionValidationError
    "fill price must be positive".

Definition quantity_or_zero (state : option PositionState) : Z :=
  match state with Some s => po_quantity s | None => 0 end.

Definition event_data (fill : PositionFill) (before : Z) (delta : PositionDelta)
    : res PositionEventData :=
  let! t := position_event_of (de_event_type delta) in
  Ok {| ed_event_type := t;
        ed_quantity_before := before;
        ed_quantity_after := de_quantity delta;
        ed_execution_id := pf_execution_id fill;
        ed_content_hash := fill_content_hash fill;
        ed_occurred_at := pf_occurred_at fill;
        ed_reason := "fill " +:+ pf_side fill +:+ " " +:+ str_Z (int_of_dec (pf_quantity fill))
                     +:+ " @ " +:+ dec_str (pf_price fill) |}.

Definition compute_plan (current : option PositionState) (fill : PositionFill)
    : M PW PositionApplyPlan :=
  let fill_qty := int_of_dec (pf_quantity fill) in
  let at_ := pf_occurred_at fill in
  let* ds :=
    match current with
    | None =>
        if String.eqb (pf_side fill) "SELL" then
          preject PositionOverCloseError (over_close_message 0 fill_qty)
        else
          let* delta := lift (apply_buy 0 None None None fill_qty (pf_price fill) at_) in
          ret (delta,
            {| po_position_id := None;
               po_strategy_run_id := pf_strategy_run_id fill;
               po_instrument_id := pf_instrument_id fill;
               po_trading_mode := py_upper (pf_trading_mode fill);
               po_quantity := de_quantity delta;
               po_average_price := de_average_price delta;
               po_status := de_status delta;
               po_opened_at := de_opened_at delta;
               po_closed_at := de_closed_at delta;
               po_last_execution_id := Some (pf_execution_id fill);
               po_account_id := Some (pf_account_id fill) |})
    | Some s =>
        preject_if (match po_account_id s with
                    | Some a => negb (a =? pf_account_id fill)%N
                    | None => false
                    end)
          PositionIdentityError "fill account does not match existing position account" ;*
        let* delta :=
          if String.eqb (pf_side fill) "BUY" then
            lift (apply_buy (po_quantity s) (po_average_price s) (po_opened_at s) (po_closed_at s)
                    fill_qty (pf_price fill) at_)
          else
            try_except
              (lift (apply_sell (po_quantity s) (po_average_price s) (po_opened_at s)
                       (po_closed_at s) fill_qty (pf_price fill) at_))
              (fun exc =>
                 if isinstance exc ValueError && py_in "exceeds" (exn_msg exc) then
                   Some (preject PositionOverCloseError (over_close_message (po_quantity s) fill_qty))
                 else None) in
        ret (delta,
          {| po_position_id := po_position_id s;
             po_strategy_run_id := po_strategy_run_id s;
             po_instrument_id := po_instrument_id s;
             po_trading_mode := po_trading_mode s;
             po_quantity := de_quantity delta;
             po_average_price := de_average_price delta;
             po_status := de_status delta;
             po_opened_at := de_opened_at delta;
             po_closed_at := de_closed_at delta;
             po_last_execution_id := Some (pf_execution_id fill);
             po_account_id := Some (default (pf_account_id fill) (po_account_id s)) |})
    end in
  let* event := lift (event_data fill (quantity_or_zero current) ds.1) in
  ret {| pl_new_state := ds.2; pl_event := event |}.

Definition resolve_replay (fill : PositionFill) (identity : PositionIdentity)
    (stored_hash : option pyval) : M PW PositionResult :=
  if bool_decide (stored_hash = Some (PStr (fill_content_hash fill))) then
    pmetric c_duplicate ;*
    let* current := prepo (load_position identity) in
    ret {| pr_status := pa_DUPLICATE; pr_event_type := None;
           pr_snapshot := match current with
                          | None => flat_snapshot (pf_strategy_run_id fill)
                                      (pf_instrument_id fill) (pf_trading_mode fill)
                          | Some s => to_snapshot s
                          end;
           pr_quantity_before := quantity_or_zero current;
           pr_quantity_after := quantity_or_zero current;
           pr_duplicate := true; pr_conflict := false |}
  else
    prepo (record_conflict fill
             (if py_truthy stored_hash then default PNone stored_hash else PStr "")) ;*
    pmetric c_conflict ;*
    throw PositionConflictError
      ("position fill identity conflict for execution_id=" +:+ pf_execution_id fill).

Definition record_event (t : PositionEventType) : M PW unit :=
  match t with
  | POSITION_OPENED => pmetric c_opened
  | POSITION_INCREASED => pmetric c_increased
  | POSITION_DECREASED => pmetric c_decreased
  | POSITION_CLOSED => pmetric c_closed
  | _ => ret tt
  end.

(** [apply_fill] up to the plan: validation, the replay fast path, and the
    position as it was read. *)
Definition apply_begin (fill : PositionFill) : M PW (PositionResult + PositionApplyPlan) :=
  pvalidate fill ;*
  let identity := build_position_identity (pf_strategy_run_id fill) (pf_instrument_id fill)
                    (pf_trading_mode fill) in
  let* configured := gets (fun w => match pw_repository w with Some _ => true | None => false end) in
  if negb configured then
    throw PositionPersistenceError "no position repository configured"
  else
    let* existing_hash := prepo (find_fill_hash (pf_execution_id fill)) in
    match existing_hash with
    | Some h => let* r := resolve_replay fill identity (Some h) in ret (inl r)
    | None =>
        let* current := prepo (load_position identity) in
        let* plan := compute_plan current fill in
        ret (inr plan)
    end.

(** [apply_fill] from [persist_apply] on. *)
Definition apply_commit (fill : PositionFill) (plan : PositionApplyPlan) : M PW PositionResult :=
  let identity := build_position_identity (pf_strategy_run_id fill) (pf_instrument_id fill)
                    (pf_trading_mode fill) in
  let* fresh := pcall (pc_uuid4 pc) in
  let* lost :=
    try_except
      (prepo (persist_apply fresh identity (pl_new_state plan) (pl_event plan)) ;* ret false)
      (fun exc => if isinstance exc DuplicateApplyError then Some (ret true) else None) in
  if lost then
    let* stored_hash := prepo (find_fill_hash (pf_execution_id fill)) in
    resolve_replay fill identity stored_hash
  else
    record_event (ed_event_type (pl_event plan)) ;*
    ret {| pr_status := pa_APPLIED;
           pr_event_type := Some (ed_event_type (pl_event plan));
           pr_snapshot := to_snapshot (pl_new_state plan);
           pr_quantity_before := ed_quantity_before (pl_event plan);
           pr_quantity_after := ed_quantity_after (pl_event plan);
           pr_duplicate := false; pr_conflict := false |}.

Definition position_apply_fill (fill : PositionFill) : M PW PositionResult :=
  let* p := apply_begin fill in
  match p with
  | inl r => ret r
  | inr plan => apply_commit fill plan
  end.

Definition get_position (strategy_run_id instrument_id : UUID) (trading_mode : string)
    : M PW PositionSnapshot :=
  let* configured := gets (fun w => match pw_repository w with Some _ => true | None => false end) in
  if negb configured then ret (flat_snapshot strategy_run_id instrument_id trading_mode)
  else
    let* state := prepo (load_position
                           (build_position_identity strategy_run_id instrument_id trading_mode)) in
    ret (match state with
         | None => flat_snapshot strategy_run_id instrument_id trading_mode
         | Some s => to_snapshot s
         end).
End PositionEngine.

(** * Arithmetic *)

Lemma weighted_average_grid q avg fq fp a :
  weighted_average q avg fq fp = Ok a -> 0 <= q -> (0 <= dval fp)%Q ->
  (forall x, avg = Some x -> 0 <= dval x)%Q -> dexp a = -4 /\ (0 <= dval a)%Q.
Proof.
  unfold weighted_average. intros H Hq Hfp Havg. res_inv. apply Z.leb_gt in E.
  assert (forall v, round_price v = Ok a -> (0 <= dval v)%Q -> dexp a = -4 /\ (0 <= dval a)%Q) as Hr.
  { intros v Hv H0. split; [by destruct (quantize_err _ _ _ Hv)|]. by eapply quantize_nonneg. }
  destruct avg as [x|]; [|by apply (Hr fp)]. destruct (Z.eqb_spec q 0); [by apply (Hr fp)|].
  res_inv. eapply Hr; [done|]. eapply ddiv_nonneg; [done| |].
  - apply dadd_nonneg.
    assert (forall z y, 0 <= z -> (0 <= dval y)%Q -> (0 <= dval (dmul (dec_of_Z z) y))%Q) as Hm.
    { intros z y Hz Hy. apply dmul_nonneg; [|done]. rewrite dval_of_Z.
      change 0%Q with (inject_Z 0). by rewrite <- Zle_Qle. }
    pose proof (Hm q x Hq (Havg _ eq_refl)). pose proof (Hm fq fp ltac:(lia) Hfp). lra.
  - rewrite dval_of_Z. change 0%Q with (inject_Z 0). rewrite <- Zlt_Qlt. lia.
Qed.

(** A price on the persisted grid. *)
Definition on_grid (a : option decimal) : Prop :=
  exists x, a = Some x /\ dexp x = -4 /\ (0 <= dval x)%Q.

(** The shape of a position: open with shares and an average price, or closed
    with neither. *)
Definition position_shape (st : PositionStatus) (q : Z) (avg : option decimal)
    (opened closed : option datetime) : Prop :=
  (st = ps_OPEN /\ 0 < q /\ on_grid avg /\ is_Some opened /\ closed = None) \/
  (st = ps_CLOSED /\ q = 0 /\ avg = None /\ is_Some opened /\ is_Some closed).

Lemma shape_nonneg st q avg o c : position_shape st q avg o c -> 0 <= q.
Proof. intros [(_ & ? & _)|(_ & -> & _)]; lia. Qed.

Lemma shape_price st q avg o c x : position_shape st q avg o c -> avg = Some x -> (0 <= dval x)%Q.
Proof. intros [(_ & _ & (y & -> & _ & ?) & _)|(_ & _ & -> & _)] [=]. by subst. Qed.

Definition delta_shape (d : PositionDelta) : Prop :=
  position_shape (de_status d) (de_quantity d) (de_average_price d) (de_opened_at d)
    (de_closed_at d).

Lemma apply_buy_spec q avg o c fq fp t d :
  apply_buy q avg o c fq fp t = Ok d -> 0 <= q -> (0 <= dval fp)%Q ->
  (forall x, avg = Some x -> 0 <= dval x)%Q -> (q <> 0 -> is_Some o) ->
  de_quantity d = q + fq /\ 0 < fq /\ delta_shape d.
Proof.
  unfold apply_buy. intros H Hq Hfp Havg Ho. res_inv. apply Z.leb_gt in E.
  destruct (weighted_average_grid _ _ _ _ _ E0 Hq Hfp Havg) as [He Hn]. simpl.
  split_and!; [done..|]. left. split_and!; [done|simpl; lia|by eexists| |done]. simpl.
  destruct (Z.eqb_spec q 0); [done|by apply Ho].
Qed.

Lemma apply_sell_spec q avg o c fq fp t d st :
  apply_sell q avg o c fq fp t = Ok d -> position_shape st q avg o c ->
  de_quantity d = q - fq /\ 0 < fq /\ delta_shape d.
Proof.
  unfold apply_sell. intros H Hs. res_inv. apply Z.leb_gt in E. apply Z.ltb_ge in E0.
  destruct Hs as [(_ & Hq & Ha & Ho & ->)|(_ & -> & _)]; [|lia].
  destruct (Z.eqb_spec (q - fq) 0); res_inv; simpl; (split_and!; [lia|lia|]).
  - right. by split_and!.
  - left. split_and!; try done. simpl. lia.
Qed.

(** * The event ledger *)

(** What an event row says about the position [pid]: the change of quantity. *)
Definition event_delta (pid : UUID) (r : prow) : Z :=
  match r with
  | RPositionEvent e =>
      if (pe_position_id e =? pid)%N then pe_quantity_after e - default 0 (pe_quantity_before e) else 0
  | RPosition _ => 0
  end.

Definition sum_Z (l : list Z) : Z := foldr Z.add 0 l.

Definition event_total (pid : UUID) (m : gmap N prow) : Z :=
  sum_Z ((fun kr => event_delta pid kr.2) <$> map_to_list m).

#[export] Instance sum_Z_proper : Proper (Permutation ==> eq) sum_Z.
Proof. intros l l' Hl. unfold sum_Z. induction Hl; simpl; lia. Qed.

Lemma event_total_insert pid k r m :
  m !! k = None -> event_total pid (<[k := r]> m) = event_delta pid r + event_total pid m.
Proof.
  intros Hk. unfold event_total. rewrite (map_to_list_insert m k r Hk). done.
Qed.

Lemma event_total_put pid k r r' m :
  m !! k = Some r -> event_delta pid r' = event_delta pid r ->
  event_total pid (<[k := r']> m) = event_total pid m.
Proof.
  intros Hk Hd. rewrite <- (insert_delete_id m k r Hk) at 2.
  rewrite <- insert_delete_eq.
  by rewrite !event_total_insert, Hd by (by rewrite lookup_delete_eq).
Qed.

Lemma event_total_zero pid m :
  (forall k r, m !! k = Some r -> event_delta pid r = 0) -> event_total pid m = 0.
Proof.
  induction m as [|k r m Hk IH] using map_ind; [done|]. intros Hz.
  rewrite event_total_insert by done. rewrite (Hz k r) by (by rewrite lookup_insert_eq). rewrite IH; [done|].
  intros k' r' Hk'. apply (Hz k'). rewrite lookup_insert_ne; [done|congruence].
Qed.

Definition position_ok (p : Position) : Prop :=
  exists st, pp_status p = position_status_value st /\
    position_shape st (pp_quantity p) (pp_average_price p) (pp_opened_at p) (pp_closed_at p).

Section PositionInvariant.
Context {refs : UUID -> UUID -> option UUID -> bool}.

(** The tables satisfy their constraints; every position is well formed and
    its quantity is the sum of the changes its events record. *)
Definition ledger_inv (m : gmap N prow) : Prop :=
  position_constraint refs m = true /\
  forall k p, m !! k = Some (RPosition p) ->
    position_ok p /\ pp_quantity p = event_total (pp_id p) m.

Lemma constraint_parts m : position_constraint refs m = true ->
  unique_on position_id_of (snd <$> map_to_list m) = true /\
  unique_on position_key_of (snd <$> map_to_list m) = true /\
  unique_on source_event_of (snd <$> map_to_list m) = true /\
  (forall k e, m !! k = Some (RPositionEvent e) ->
     exists j p, m !! j = Some (RPosition p) /\ pp_id p = pe_position_id e).
Proof.
  unfold position_constraint. rewrite !andb_true_iff. intros (((H1 & H2) & H3) & H4).
  split_and!; [done..|]. intros k e Hk. rewrite forallb_forall in H4.
  assert (forall k r, m !! k = Some r -> In r (snd <$> map_to_list m)) as Hin.
  { intros i r Hi. apply list_elem_of_In. change r with ((i, r).2).
    by apply list_elem_of_fmap_2, elem_of_map_to_list. }
  specialize (H4 _ (Hin _ _ Hk)). simpl in H4. apply existsb_exists in H4 as (r' & Hr' & Hp).
  apply bool_decide_eq_true in Hp. apply list_elem_of_In, list_elem_of_fmap in Hr' as ([j r] & -> & Hj).
  apply elem_of_map_to_list in Hj. destruct r as [p|]; simplify_eq/=. by exists j, p.
Qed.

(** Adding an event that changes nothing (conflict evidence). *)
Lemma ledger_add_evidence m k e :
  ledger_inv m -> m !! k = None -> pe_quantity_after e - default 0 (pe_quantity_before e) = 0 ->
  position_constraint refs (<[k := RPositionEvent e]> m) = true ->
  ledger_inv (<[k := RPositionEvent e]> m).
Proof.
  intros [_ Hm] Hk Hz Hc. split; [done|]. intros j p Hj.
  destruct (decide (j = k)) as [->|Hne]; [by rewrite lookup_insert_eq in Hj; simplify_eq|].
  rewrite lookup_insert_ne in Hj by done. rewrite event_total_insert by done.
  destruct (Hm j p Hj) as [Hok Hq]. split; [done|]. simpl. case_match; lia.
Qed.

(** Applying a planned fill to an existing position. *)
Lemma ledger_update m k k2 p p' e :
  ledger_inv m -> m !! k = Some (RPosition p) ->
  pp_id p' = pp_id p -> position_ok p' -> pe_position_id e = pp_id p ->
  pe_quantity_before e = Some (pp_quantity p) -> pe_quantity_after e = pp_quantity p' ->
  <[k := RPosition p']> m !! k2 = None ->
  position_constraint refs (<[k2 := RPositionEvent e]> (<[k := RPosition p']> m)) = true ->
  ledger_inv (<[k2 := RPositionEvent e]> (<[k := RPosition p']> m)).
Proof.
  intros [Hc0 Hm] Hk Hid Hok He Hb Ha Hk2 Hc. split; [done|]. intros j q Hj.
  assert (j <> k2) as Hj2 by (intros ->; by rewrite lookup_insert_eq in Hj; simplify_eq).
  rewrite lookup_insert_ne in Hj by done.
  rewrite event_total_insert by done.
  rewrite (event_total_put _ k (RPosition p)) by done. simpl. rewrite He, Hb, Ha. simpl.
  destruct (Hm k p Hk) as [_ Hqp].
  destruct (decide (j = k)) as [->|Hne].
  - rewrite lookup_insert_eq in Hj. simplify_eq. split; [done|].
    rewrite Hid, N.eqb_refl. lia.
  - rewrite lookup_insert_ne in Hj by done. destruct (Hm j q Hj) as [Hok' Hq]. split; [done|].
    destruct (N.eqb_spec (pp_id p) (pp_id q)) as [Heq|]; [|lia].
    destruct (constraint_parts m Hc0) as (Hu & _). exfalso. apply Hne.
    eapply (unique_on_lookup position_id_of m (pp_id p)); [done..| |]; simpl; congruence.
Qed.

(** Opening a position with its first fill. *)
Lemma ledger_open m k k2 p e :
  ledger_inv m -> m !! k = None -> position_ok p -> pe_position_id e = pp_id p ->
  pe_quantity_before e = Some 0 -> pe_quantity_after e = pp_quantity p ->
  <[k := RPosition p]> m !! k2 = None ->
  position_constraint refs (<[k2 := RPositionEvent e]> (<[k := RPosition p]> m)) = true ->
  ledger_inv (<[k2 := RPositionEvent e]> (<[k := RPosition p]> m)).
Proof.
  intros [Hc0 Hm] Hk Hok He Hb Ha Hk2 Hc. split; [done|].
  assert (k2 <> k) as Hkk by (intros ->; by rewrite lookup_insert_eq in Hk2).
  assert (Hfresh : forall j q, m !! j = Some (RPosition q) -> pp_id q <> pp_id p).
  { intros j q Hj Heq. destruct (constraint_parts _ Hc) as (Hu & _).
    assert (j = k) as ->; [|congruence].
    apply (unique_on_lookup position_id_of _ (pp_id p) j k (RPosition q) (RPosition p) Hu);
      [| |by simpl; rewrite Heq|done].
    - rewrite !lookup_insert_ne; [exact Hj| |]; intros <-; [congruence|].
      rewrite lookup_insert_ne in Hk2 by done. congruence.
    - by rewrite lookup_insert_ne, lookup_insert_eq. }
  intros j q Hj.
  assert (j <> k2) as Hj2 by (intros ->; by rewrite lookup_insert_eq in Hj; simplify_eq).
  rewrite lookup_insert_ne in Hj by done.
  rewrite event_total_insert by done. rewrite event_total_insert by done. simpl. rewrite He, Hb, Ha. simpl.
  destruct (decide (j = k)) as [->|Hne].
  - rewrite lookup_insert_eq in Hj. simplify_eq. split; [done|]. rewrite N.eqb_refl.
    rewrite event_total_zero; [lia|]. intros i [q'|e'] Hi; [done|]. simpl.
    destruct (N.eqb_spec (pe_position_id e') (pp_id q)) as [Heq|]; [|done].
    destruct (constraint_parts m Hc0) as (_ & _ & _ & Hfk).
    destruct (Hfk i e' Hi) as (i' & q' & Hi' & Hid). destruct (Hfresh i' q' Hi'). congruence.
  - rewrite lookup_insert_ne in Hj by done. destruct (Hm j q Hj) as [Hok' Hq]. split; [done|].
    destruct (N.eqb_spec (pp_id p) (pp_id q)) as [Heq|]; [|lia].
    destruct (Hfresh j q Hj). congruence.
Qed.
End PositionInvariant.

(** ** Quantity held under an identity *)

Definition held_in (i : PositionIdentity) (r : prow) : Z :=
  match r with
  | RPosition p => if bool_decide (position_key_of r = Some (as_tuple i)) then pp_quantity p else 0
  | RPositionEvent _ => 0
  end.

Definition held (i : PositionIdentity) (m : gmap N prow) : Z :=
  sum_Z ((fun kr => held_in i kr.2) <$> map_to_list m).

Lemma held_insert i k r m : m !! k = None -> held i (<[k := r]> m) = held_in i r + held i m.
Proof. intros Hk. unfold held. by rewrite (map_to_list_insert m k r Hk). Qed.

Lemma held_put i k r r' m : m !! k = Some r ->
  held i (<[k := r']> m) = held i m - held_in i r + held_in i r'.
Proof.
  intros Hk. rewrite <- (insert_delete_id m k r Hk) at 2. rewrite <- insert_delete_eq.
  rewrite !held_insert by (by rewrite lookup_delete_eq). lia.
Qed.

Lemma held_none i m :
  (forall k r, m !! k = Some r -> position_key_of r <> Some (as_tuple i)) -> held i m = 0.
Proof.
  induction m as [|k r m Hk IH] using map_ind; [done|]. intros Hz.
  rewrite held_insert, IH by
    (done || (intros k' r' Hk'; apply (Hz k'); rewrite lookup_insert_ne; [done|congruence])).
  specialize (Hz k r (lookup_insert_eq _ _ _)). unfold held_in. destruct r; [|done].
  by rewrite bool_decide_false.
Qed.

Section PositionTheorems.
Context {refs : UUID -> UUID -> option UUID -> bool}.
Context {DB : Type} `{Session DB prow (position_constraint refs)}.
Context (pc : PositionEngineConfig).
Abbreviation PW := (PositionEngine DB).

Lemma held_found i k p m : position_constraint refs m = true ->
  m !! k = Some (RPosition p) -> position_key_of (RPosition p) = Some (as_tuple i) ->
  held i m = pp_quantity p.
Proof.
  intros Hc Hk Hi. destruct (constraint_parts m Hc) as (_ & Hu & _).
  rewrite <- (insert_delete_id m k _ Hk), held_insert by (by rewrite lookup_delete_eq).
  rewrite held_none.
  - unfold held_in. rewrite bool_decide_true by done. lia.
  - intros j r Hj Hr. destruct (decide (j = k)) as [->|Hne]; [by rewrite lookup_delete_eq in Hj|].
    rewrite lookup_delete_ne in Hj by done. apply Hne.
    exact (unique_on_lookup position_key_of m (as_tuple i) j k r (RPosition p) Hu Hj Hk Hr Hi).
Qed.

(** ** Repository operations *)

Lemma find_hash_reads x : reads (find_fill_hash (DB:=DB) x).
Proof. unfold find_fill_hash. apply reads_bind; [apply scalar_reads | done]. Qed.

Lemma load_reads i : reads (load_position (DB:=DB) i).
Proof.
  unfold load_position. apply reads_bind; [apply scalar_reads|].
  intros [[? [p|]]|] db; try done. unfold bind, lift. by destruct (to_state p).
Qed.

(** What a successful [load_position] saw. *)
Definition loaded (m : gmap N prow) (i : PositionIdentity) (cur : option PositionState) : Prop :=
  match cur with
  | Some s => exists k p, m !! k = Some (RPosition p) /\
                position_key_of (RPosition p) = Some (as_tuple i) /\ to_state p = Ok s
  | None => forall k r, m !! k = Some r -> position_key_of r <> Some (as_tuple i)
  end.

Lemma load_position_loaded i db cur :
  fst (load_position i db) = Ok cur -> loaded (rows db) i cur.
Proof.
  unfold load_position, bind. pose proof (scalar_none (position_where i) db) as Hn.
  pose proof (scalar_some (position_where i) db) as Hs.
  destruct (scalar_one_or_none (position_where i) db) as [[[[k r]|]|e] db'] eqn:E; simpl in *; [| |done].
  - destruct (Hs _ _ eq_refl) as (Hk & Hw & _). apply bool_decide_eq_true in Hw.
    destruct r as [p|e]; [|done]. unfold lift. destruct (to_state p) as [s|e] eqn:Es; [|done].
    intros [= <-]. by exists k, p.
  - intros [= <-] k r Hk. specialize (Hn eq_refl _ _ Hk). by apply bool_decide_eq_false in Hn.
Qed.

(** A committed application: the position row of the identity is rewritten or
    created, and one event row is added. *)
Inductive persisted_rows (fresh : UUID) (i : PositionIdentity) (st : PositionState)
    (ev : PositionEventData) (m : gmap N prow) : gmap N prow -> Prop :=
| pr_update k k2 p :
    m !! k = Some (RPosition p) -> position_key_of (RPosition p) = Some (as_tuple i) ->
    <[k := RPosition (apply_state p st)]> m !! k2 = None ->
    persisted_rows fresh i st ev m
      (<[k2 := RPositionEvent (new_event_row (pp_id p) ev)]>
         (<[k := RPosition (apply_state p st)]> m))
| pr_create k k2 :
    (forall k r, m !! k = Some r -> position_key_of r <> Some (as_tuple i)) ->
    m !! k = None -> <[k := RPosition (new_position_row fresh st)]> m !! k2 = None ->
    persisted_rows fresh i st ev m
      (<[k2 := RPositionEvent (new_event_row (pp_id (new_position_row fresh st)) ev)]>
         (<[k := RPosition (new_position_row fresh st)]> m)).

Lemma apply_failure_err e : exists h e', apply_failure (DB:=DB) e = Some h /\ forall d, h d = (Err e', d).
Proof.
  unfold apply_failure. destruct (isinstance e IntegrityError); [by do 2 eexists|].
  destruct (isinstance e DuplicateApplyError); by do 2 eexists.
Qed.

Lemma persist_apply_spec fresh i st ev db r db' :
  persist_apply fresh i st ev db = (r, db') ->
  match r with
  | Ok _ => persisted_rows fresh i st ev (rows db) (rows db') /\
            position_constraint refs (rows db') = true
  | Err _ => rows db' = rows db
  end.
Proof.
  unfold persist_apply, try_except. intros E.
  set (body := bind _ _) in E. destruct (body db) as [[[]|e] d] eqn:Eb.
  2: { destruct (apply_failure_err e) as (h & e' & Hh & Hd). rewrite Hh, Hd in E.
       injection E as <- <-.
       unfold body, bind in Eb. pose proof (scalar_reads (position_where i) db) as Hr.
       destruct (scalar_one_or_none _ db) as [[o|e1] d1]; simpl in Hr; subst d1; [|by simplify_eq].
       destruct o as [[k [p|ev0]]|]; by apply commit_err in Eb. }
  injection E as <- <-. apply bind_ok in Eb as (o & d1 & Es & Ec).
  pose proof (scalar_reads (position_where i) db) as Hr. rewrite Es in Hr. simpl in Hr. subst d1.
  pose proof (scalar_none (position_where i) db) as Hn.
  pose proof (scalar_some (position_where i) db) as Hs. rewrite Es in Hn, Hs. simpl in Hn, Hs.
  assert (forall a b, commit [a; Add (RPositionEvent b)] db = (Ok tt, d) ->
    position_constraint refs (rows d) = true) as Hcon by (by intros a b []%commit_ok).
  destruct o as [[k r]|].
  - destruct (Hs _ _ eq_refl) as (Hk & Hw & _). apply bool_decide_eq_true in Hw.
    destruct r as [p|]; [|done]. split; [|by eapply Hcon].
    apply commit_ok in Ec as [Ha _].
    inversion Ha as [| |? ? ? ? ? _ Hrest]; subst. inversion Hrest as [|k2 ? ? ? ? Hk2 Hrest2|]; subst.
    inversion Hrest2; subst. by constructor.
  - split; [|by eapply Hcon]. apply commit_ok in Ec as [Ha _].
    inversion Ha as [|k ? ? ? ? Hk Hrest|]; subst. inversion Hrest as [|k2 ? ? ? ? Hk2 Hrest2|]; subst.
    inversion Hrest2; subst. constructor; [|done..].
    intros j r Hj. specialize (Hn eq_refl _ _ Hj). by apply bool_decide_eq_false in Hn.
Qed.

(** Conflict evidence: at most one event row is added. *)
Definition evidence_rows (m m' : gmap N prow) : Prop :=
  m' = m \/ exists k pid f h, m !! k = None /\
    m' = <[k := RPositionEvent (conflict_row pid f h)]> m /\ position_constraint refs m' = true.

Lemma record_conflict_spec f h db r db' :
  record_conflict f h db = (r, db') -> r = Ok tt /\ evidence_rows (rows db) (rows db').
Proof.
  unfold record_conflict, try_except. set (body := bind _ _). intros E.
  assert (evidence_rows (rows db) (rows (snd (body db)))) as Hev.
  { unfold body, bind at 1. pose proof (scalar_reads (event_where (pf_execution_id f)) db) as Hr.
    destruct (scalar_one_or_none _ db) as [[o|e1] d1]; simpl in Hr; subst d1; [|by left].
    assert (forall pid, evidence_rows (rows db) (rows (snd
      (match pid with None => ret tt | Some p => commit [Add (RPositionEvent (conflict_row p f h))] end db))))
      as Hc.
    { intros [p|]; [|by left]. destruct (commit _ db) as [[[]|e] d] eqn:Ec; simpl.
      - apply commit_ok in Ec as [Ha Hc]. inversion Ha as [|k ? ? ? ? Hk Hrest|]; subst.
        inversion Hrest as [| |]; subst. right. exists k, p, f, h. split_and!; [done..|congruence].
      - left. by eapply commit_err. }
    match goal with |- context [position_where ?i] => pose proof (scalar_reads (position_where i) db) as Hr2 end.
    destruct o as [[k [p|e]]|]; simpl; unfold bind, ret;
      [| apply (Hc (Some (pe_position_id e))) |];
      (destruct (scalar_one_or_none _ db) as [[[[k2 r2]|]|e2] d2]; simpl in Hr2; subst d2;
       [apply (Hc (position_id_of r2)) | by left | by left]). }
  destruct (body db) as [[[]|e] d]; by injection E as <- <-.
Qed.
(** ** The engine *)

(** Steps that do not touch the repository. *)
Definition repo_kept {T} (m : M PW T) : Prop :=
  forall w, pw_repository (snd (m w)) = pw_repository w.

Lemma repo_kept_bind {A B} (m : M PW A) (k : A -> M PW B) :
  repo_kept m -> (forall a, repo_kept (k a)) -> repo_kept (bind m k).
Proof.
  intros Hm Hk w. unfold bind. specialize (Hm w). destruct (m w) as [[a|e] w1]; simpl in *; [|done].
  by rewrite Hk.
Qed.

Lemma repo_kept_if {A} (b : bool) (m m' : M PW A) :
  repo_kept m -> repo_kept m' -> repo_kept (if b then m else m').
Proof. by destruct b. Qed.

Lemma preject_if_kept b c msg : repo_kept (preject_if (DB:=DB) b c msg).
Proof. by destruct b. Qed.

Lemma preject_if_ok b c msg w u w' :
  preject_if (DB:=DB) b c msg w = (Ok u, w') -> b = false /\ w' = w.
Proof. destruct b; [done|]. by intros [= <- <-]. Qed.

(** A fill [validate] lets through when the engine has made [tick] calls. *)
Definition admitted_fill (fill : PositionFill) (tick : nat) : Prop :=
  py_upper (pf_trading_mode fill) ∈ POSITION_MODES /\
  pc_global_halt_active pc tick = false /\
  pf_side fill ∈ SIDES /\
  (0 < dval (pf_quantity fill))%Q /\ (0 < dval (pf_price fill))%Q.

Lemma pvalidate_kept fill : repo_kept (pvalidate (DB:=DB) pc fill).
Proof. unfold pvalidate. repeat (apply repo_kept_bind; [|intros ?]); by try apply preject_if_kept. Qed.

Lemma pvalidate_ok fill (w : PW) u w' :
  pvalidate pc fill w = (Ok u, w') -> admitted_fill fill (pw_tick w).
Proof.
  unfold pvalidate. intros E.
  repeat match goal with
  | H : bind _ _ _ = (Ok _, _) |- _ => apply bind_ok in H as (? & ? & ? & ?)
  | H : preject_if _ _ _ _ = (Ok _, _) |- _ => apply preject_if_ok in H as [? ->]
  | H : pcall _ _ = (Ok _, _) |- _ => injection H as <- <-
  end.
  repeat match goal with
  | H : negb (bool_decide _) = false |- _ => apply negb_false_iff, bool_decide_eq_true in H
  | H : dle _ dzero = false |- _ => rewrite dle_false, dval_zero in H
  end.
  by split_and!.
Qed.

(** The plan for a fill against the position [cur]. *)
Definition signed_quantity (fill : PositionFill) : Z :=
  if String.eqb (pf_side fill) "BUY" then int_of_dec (pf_quantity fill)
  else - int_of_dec (pf_quantity fill).

Definition state_shape (s : PositionState) : Prop :=
  position_shape (po_status s) (po_quantity s) (po_average_price s) (po_opened_at s) (po_closed_at s).

Record plan_ok (cur : option PositionState) (fill : PositionFill) (plan : PositionApplyPlan)
    : Prop := {
  plan_before : ed_quantity_before (pl_event plan) = quantity_or_zero cur;
  plan_after : ed_quantity_after (pl_event plan) = po_quantity (pl_new_state plan);
  plan_quantity : po_quantity (pl_new_state plan) = quantity_or_zero cur + signed_quantity fill;
  plan_positive : 0 < int_of_dec (pf_quantity fill);
  plan_shape : state_shape (pl_new_state plan);
  plan_source : ed_execution_id (pl_event plan) = pf_execution_id fill;
  plan_hash : ed_content_hash (pl_event plan) = fill_content_hash fill;
  plan_key : cur = None ->
    (po_strategy_run_id (pl_new_state plan), po_instrument_id (pl_new_state plan),
     po_trading_mode (pl_new_state plan)) =
    (pf_strategy_run_id fill, pf_instrument_id fill, py_upper (pf_trading_mode fill));
  plan_event : ed_event_type (pl_event plan) <> POSITION_CONFLICT;
}.

Lemma event_data_ok fill before d ev : event_data fill before d = Ok ev ->
  ed_quantity_before ev = before /\ ed_quantity_after ev = de_quantity d /\
  ed_execution_id ev = pf_execution_id fill /\ ed_content_hash ev = fill_content_hash fill /\
  position_event_value (ed_event_type ev) = de_event_type d.
Proof.
  unfold event_data. intros H0. res_inv. split_and!; try done. simpl.
  unfold position_event_of, enum_of in E.
  destruct (List.find _ _) as [t|] eqn:Ef; [|done]. injection E as ->.
  apply List.find_some in Ef as [_ Ef]. by apply String.eqb_eq in Ef.
Qed.

Lemma delta_event_buy q avg o c fq fp t d : apply_buy q avg o c fq fp t = Ok d ->
  de_event_type d <> position_event_value POSITION_CONFLICT.
Proof. unfold apply_buy. intros H0. res_inv. simpl. by case_match. Qed.

Lemma delta_event_sell q avg o c fq fp t d : apply_sell q avg o c fq fp t = Ok d ->
  de_event_type d <> position_event_value POSITION_CONFLICT.
Proof. unfold apply_sell. intros H0. res_inv. by case_match; res_inv. Qed.

Lemma side_not_buy fill : pf_side fill ∈ SIDES ->
  pf_side fill = "BUY"%string \/ pf_side fill = "SELL"%string.
Proof. unfold SIDES. rewrite !elem_of_cons. intros [?|[?|[]%not_elem_of_nil]]; auto. Qed.

Lemma compute_plan_spec cur fill (w : PW) plan w' tick :
  compute_plan cur fill w = (Ok plan, w') -> admitted_fill fill tick ->
  (forall s, cur = Some s -> state_shape s) -> plan_ok cur fill plan.
Proof.
  intros E (_ & _ & Hside & _ & Hp) Hcur. unfold compute_plan in E.
  apply bind_ok in E as ([d st] & w1 & E1 & E2). apply bind_ok in E2 as (ev & w2 & E2 & E3).
  injection E3 as <- <-. injection E2 as E2 _. simpl in E2.
  apply event_data_ok in E2 as (Hb & Ha & Hx & Hh & Ht). apply Qlt_le_weak in Hp.
  destruct cur as [s|].
  - apply bind_ok in E1 as (? & w3 & _ & E1). apply bind_ok in E1 as (d' & w4 & E1 & E4).
    injection E4 as <- <- _. specialize (Hcur s eq_refl).
    assert (de_quantity d' = po_quantity s + signed_quantity fill /\
            0 < int_of_dec (pf_quantity fill) /\ delta_shape d' /\
            de_event_type d' <> position_event_value POSITION_CONFLICT) as (Hq & H0 & Hs & Hne).
    { unfold signed_quantity. destruct (String.eqb (pf_side fill) "BUY").
      - injection E1 as E1 _.
        destruct (apply_buy_spec _ _ _ _ _ _ _ _ E1) as (? & ? & ?); try done.
        + by eapply shape_nonneg.
        + intros y. by eapply shape_price.
        + intros Hne. destruct Hcur as [(_ & _ & _ & ? & _)|(_ & ? & _)]; done.
        + split_and!; try done. by eapply delta_event_buy.
      - unfold try_except, lift in E1. destruct (apply_sell _ _ _ _ _ _ _) as [d0|e] eqn:Es.
        + injection E1 as -> _. destruct (apply_sell_spec _ _ _ _ _ _ _ _ _ Es Hcur) as (? & ? & ?).
          split_and!; try done. by eapply delta_event_sell.
        + by destruct (isinstance e ValueError && py_in "exceeds" (exn_msg e)). }
    split; simpl; try done. intros Hc. by rewrite Hc in Ht.
  - destruct (side_not_buy fill Hside) as [Hbuy|Hsell]; [|by rewrite Hsell in E1].
    rewrite Hbuy in E1. simpl in E1. apply bind_ok in E1 as (d' & w4 & E1 & E4).
    injection E4 as <- <- _. injection E1 as E1 _.
    destruct (apply_buy_spec _ _ _ _ _ _ _ _ E1) as (Hq & H0 & Hs); try done; [lia..|].
    pose proof (delta_event_buy _ _ _ _ _ _ _ _ E1) as Hne.
    split; simpl; try done; [by unfold signed_quantity; rewrite Hbuy|]. intros Hc. by rewrite Hc in Ht.
Qed.

Lemma compute_plan_kept cur fill : repo_kept (compute_plan (DB:=DB) cur fill).
Proof.
  unfold compute_plan. apply repo_kept_bind; [|by intros ds; apply repo_kept_bind].
  destruct cur as [s|].
  - apply repo_kept_bind; [apply preject_if_kept|]. intros _. apply repo_kept_bind; [|done].
    apply repo_kept_if; [done|]. intros w. unfold try_except, lift.
    destruct (apply_sell _ _ _ _ _ _ _) as [d|e]; [done|].
    by destruct (isinstance e ValueError && py_in "exceeds" (exn_msg e)).
  - apply repo_kept_if; [done|]. by apply repo_kept_bind.
Qed.

(** ** Applying a plan keeps the ledger *)

Definition fill_identity (fill : PositionFill) : PositionIdentity :=
  build_position_identity (pf_strategy_run_id fill) (pf_instrument_id fill) (pf_trading_mode fill).

Lemma to_state_shape p s : position_ok p -> to_state p = Ok s -> state_shape s /\ po_quantity s = pp_quantity p.
Proof.
  intros (st & Hst & Hs) E. unfold to_state in E. rewrite Hst in E.
  assert (po_status s = st /\ po_quantity s = pp_quantity p /\
          po_average_price s = pp_average_price p /\ po_opened_at s = pp_opened_at p /\
          po_closed_at s = pp_closed_at p) as (<- & Hq & Ha & Ho & Hc)
    by (destruct st; simpl in E; by injection E as <-).
  unfold state_shape. by rewrite Hq, Ha, Ho, Hc.
Qed.

Lemma loaded_quantity m i cur : ledger_inv (refs:=refs) m -> loaded m i cur ->
  held i m = quantity_or_zero cur /\ (forall s, cur = Some s -> state_shape s).
Proof.
  intros [Hc Hm] Hl. destruct cur as [s|]; simpl in Hl.
  - destruct Hl as (k & p & Hk & Hi & Hs). destruct (Hm k p Hk) as [Hok _].
    destruct (to_state_shape p s Hok Hs) as [? Hq]. split.
    + simpl. rewrite Hq. by eapply held_found.
    + by intros ? [= <-].
  - split; [by apply held_none | done].
Qed.

Lemma persisted_ledger m m' fresh cur fill plan :
  ledger_inv (refs:=refs) m -> loaded m (fill_identity fill) cur -> plan_ok cur fill plan ->
  persisted_rows fresh (fill_identity fill) (pl_new_state plan) (pl_event plan) m m' ->
  position_constraint refs m' = true -> ledger_inv (refs:=refs) m'.
Proof.
  intros Hinv Hl Hp Hr Hc. destruct Hp. pose proof (loaded_quantity _ _ _ Hinv Hl) as [Hq _].
  destruct Hr as [k k2 p Hk Hi Hk2|k k2 Hn Hk Hk2].
  - assert (pp_quantity p = quantity_or_zero cur) as Hpq
      by (rewrite <- Hq; symmetry; by apply (held_found _ k p m (proj1 Hinv))).
    apply (ledger_update _ _ _ p); try done; [by eexists|]. simpl. by rewrite plan_before0, Hpq.
  - assert (quantity_or_zero cur = 0) as H0 by (rewrite <- Hq; by apply held_none).
    apply ledger_open; try done; [by eexists|]. simpl. by rewrite plan_before0, H0.
Qed.

(** ** What one call of [apply_fill] does *)

Lemma prepo_reads {T} (m : M DB T) w db r w' : reads m -> pw_repository w = Some db ->
  prepo m w = (r, w') -> r = fst (m db) /\ pw_repository w' = Some db.
Proof.
  intros Hm Hw. unfold prepo. rewrite Hw. specialize (Hm db).
  destruct (m db) as [x db1]; simpl in *. intros [= <- <-]. by subst.
Qed.

(** An event row that records this very fill. *)
Definition recorded_fill (m : gmap N prow) (fill : PositionFill) : Prop :=
  exists k e payload, m !! k = Some (RPositionEvent e) /\
    pe_source_event_id e = Some (pf_execution_id fill) /\ pe_event_payload e = Some payload /\
    payload !! "_content_hash"%string = Some (PStr (fill_content_hash fill)).

Lemma find_hash_recorded fill db :
  fst (find_fill_hash (pf_execution_id fill) db) = Ok (Some (PStr (fill_content_hash fill))) ->
  recorded_fill (rows db) fill.
Proof.
  unfold find_fill_hash, bind, ret.
  pose proof (scalar_some (event_where (pf_execution_id fill)) db) as Hs.
  destruct (scalar_one_or_none _ db) as [[[[k [p|e]]|]|] db1]; simpl in *; try done.
  destruct (pe_event_payload e) as [pl|] eqn:Ep; [|done].
  destruct (pl !! _) as [v|] eqn:Ev; [|done]. intros Hv.
  destruct (Hs _ _ eq_refl) as (Hk & Hw & _). apply bool_decide_eq_true in Hw.
  exists k, e, pl. split_and!; try done. rewrite Ev. by destruct v; simplify_eq.
Qed.

Definition replayed (fill : PositionFill) (m : gmap N prow) (res : PositionResult) : Prop :=
  pr_status res = pa_DUPLICATE /\ recorded_fill m fill /\
  exists cur, loaded m (fill_identity fill) cur /\
    pr_quantity_before res = quantity_or_zero cur /\ pr_quantity_after res = quantity_or_zero cur.

Lemma resolve_replay_spec fill h w db r w' :
  pw_repository w = Some db -> fst (find_fill_hash (pf_execution_id fill) db) = Ok h ->
  resolve_replay fill (fill_identity fill) h w = (r, w') ->
  exists db', pw_repository w' = Some db' /\
    match r with
    | Ok res => db' = db /\ replayed fill (rows db) res
    | Err _ => evidence_rows (rows db) (rows db')
    end.
Proof.
  intros Hw Hh E. unfold resolve_replay in E. case_bool_decide as Hd.
  - subst h. unfold bind at 1, pmetric, modify in E.
    unfold bind at 1 in E. set (w1 := Build_PositionEngine _ _ _ _) in E.
    destruct (prepo (load_position _) w1) as [x w2] eqn:El.
    destruct (prepo_reads _ w1 db _ _ (load_reads _) Hw El) as [-> Hw2].
    exists db. destruct (fst (load_position (fill_identity fill) db)) as [cur|e] eqn:Ef;
      injection E as <- <-; split; try done; [|by left].
    split; [done|]. split_and!; [done|by apply find_hash_recorded|].
    exists cur. split_and!; try done. by apply load_position_loaded.
  - unfold bind at 1 in E. unfold prepo in E. rewrite Hw in E.
    destruct (record_conflict _ _ db) as [x db1] eqn:Ec.
    destruct (record_conflict_spec _ _ _ _ _ Ec) as [-> Hev].
    injection E as <- <-. by exists db1.
Qed.

Lemma apply_begin_spec fill w db r w' :
  pw_repository w = Some db -> ledger_inv (refs:=refs) (rows db) ->
  apply_begin pc fill w = (r, w') ->
  exists db', pw_repository w' = Some db' /\
    match r with
    | Ok (inl res) => db' = db /\ replayed fill (rows db) res
    | Ok (inr plan) => db' = db /\ admitted_fill fill (pw_tick w) /\
        exists cur, loaded (rows db) (fill_identity fill) cur /\ plan_ok cur fill plan
    | Err _ => evidence_rows (rows db) (rows db')
    end.
Proof.
  intros Hw Hinv E. unfold apply_begin in E. unfold bind at 1 in E.
  pose proof (pvalidate_kept fill w) as Hkeep. pose proof (pvalidate_ok fill w) as Hok.
  destruct (pvalidate pc fill w) as [[[]|e] w1] eqn:Ev; simpl in Hkeep;
    [|injection E as <- <-; exists db; split; [congruence|by left]].
  specialize (Hok _ _ eq_refl). rewrite Hw in Hkeep.
  unfold bind at 1, gets in E. rewrite Hkeep in E. simpl in E. unfold bind at 1 in E.
  destruct (prepo (find_fill_hash _) w1) as [x w2] eqn:Eh.
  destruct (prepo_reads _ _ db _ _ (find_hash_reads _) Hkeep Eh) as [-> Hw2].
  destruct (fst (find_fill_hash _ db)) as [[h|]|e] eqn:Ef.
  - unfold bind in E. destruct (resolve_replay _ _ _ w2) as [x w3] eqn:Er.
    destruct (resolve_replay_spec _ _ _ _ _ _ Hw2 Ef Er) as (db' & Hw3 & Hres).
    destruct x; injection E as <- <-; by exists db'.
  - unfold bind at 1 in E. destruct (prepo (load_position _) w2) as [x w3] eqn:El.
    destruct (prepo_reads _ _ db _ _ (load_reads _) Hw2 El) as [-> Hw3].
    destruct (fst (load_position _ db)) as [cur|e] eqn:Eld;
      [|injection E as <- <-; exists db; split; [done|by left]].
    apply load_position_loaded in Eld. destruct (loaded_quantity _ _ _ Hinv Eld) as [_ Hs].
    unfold bind in E. pose proof (compute_plan_kept cur fill w3) as Hk4.
    destruct (compute_plan cur fill w3) as [[plan|e] w4] eqn:Ep; simpl in Hk4;
      injection E as <- <-; (exists db; split; [congruence|]); [|by left].
    split_and!; [done..|]. exists cur. split; [done|]. by eapply compute_plan_spec.
  - injection E as <- <-. exists db. split; [done|by left].
Qed.

Lemma apply_commit_spec fill plan w db r w' :
  pw_repository w = Some db -> apply_commit pc fill plan w = (r, w') ->
  exists db', pw_repository w' = Some db' /\
    match r with
    | Ok res =>
        (pr_status res = pa_APPLIED /\ pr_quantity_before res = ed_quantity_before (pl_event plan) /\
         pr_quantity_after res = ed_quantity_after (pl_event plan) /\
         position_constraint refs (rows db') = true /\
         exists fresh, persisted_rows fresh (fill_identity fill) (pl_new_state plan) (pl_event plan)
           (rows db) (rows db')) \/
        (rows db' = rows db /\ replayed fill (rows db) res)
    | Err _ => evidence_rows (rows db) (rows db')
    end.
Proof.
  intros Hw E. unfold apply_commit in E. unfold bind at 1, pcall in E. set (w1 := Build_PositionEngine _ _ _ _) in E.
  unfold bind at 1, try_except, bind at 1 in E. unfold prepo at 1 in E. simpl in E. rewrite Hw in E.
  destruct (persist_apply _ _ _ _ db) as [x db1] eqn:Ep. apply persist_apply_spec in Ep.
  destruct x as [[]|e].
  - destruct Ep as [Hp Hc].
    assert (exists m, record_event (DB:=DB) (ed_event_type (pl_event plan)) (set_pdb db1 w1)
              = (Ok tt, {| pw_repository := Some db1; pw_metrics := m; pw_tick := pw_tick w1 |})) as [m Em]
      by (destruct (ed_event_type (pl_event plan)); by eexists).
    simpl in E. unfold bind in E. rewrite Em in E. injection E as <- <-. exists db1. split; [done|].
    left. split_and!; try done. by eexists.
  - simpl in E. destruct (isinstance e DuplicateApplyError).
    + simpl in E. unfold bind at 1 in E. destruct (prepo (find_fill_hash _) _) as [x w2] eqn:Eh.
      destruct (prepo_reads _ (set_pdb db1 w1) db1 _ _ (find_hash_reads _) eq_refl Eh) as [-> Hw2].
      destruct (fst (find_fill_hash _ db1)) as [h|e'] eqn:Ef.
      * destruct (resolve_replay_spec _ _ _ _ _ _ Hw2 Ef E) as (db' & Hw' & Hres).
        exists db'. split; [done|]. rewrite <- Ep. destruct r; [|done].
        destruct Hres as [-> Hres]. by right.
      * injection E as <- <-. exists db1. split; [done|]. by left.
    + injection E as <- <-. exists db1. split; [done|]. by left.
Qed.

(** ** Effects on the tables *)

Lemma evidence_held m m' i : evidence_rows m m' -> held i m' = held i m.
Proof.
  intros [->|(k & pid & f & h & Hk & -> & _)]; [done|]. by rewrite held_insert.
Qed.

Lemma evidence_ledger m m' :
  ledger_inv (refs:=refs) m -> evidence_rows m m' -> ledger_inv (refs:=refs) m'.
Proof.
  intros Hm [->|(k & pid & f & h & Hk & -> & Hc)]; [done|]. by apply ledger_add_evidence.
Qed.

Lemma persisted_recorded fresh cur fill plan m m' :
  plan_ok cur fill plan ->
  persisted_rows fresh (fill_identity fill) (pl_new_state plan) (pl_event plan) m m' ->
  recorded_fill m' fill.
Proof.
  intros Hp Hr. destruct Hp. destruct Hr as [k k2 p Hk Hi Hk2|k k2 Hn Hk Hk2];
    (eexists k2, _, _; split_and!; [by rewrite lookup_insert_eq| |done|]; simpl;
     [congruence | by rewrite lookup_singleton_eq, plan_hash0]).
Qed.

(** The unique event source: the fill had no event before. *)
Lemma persisted_unseen fresh cur fill plan m m' :
  plan_ok cur fill plan -> position_constraint refs m' = true ->
  persisted_rows fresh (fill_identity fill) (pl_new_state plan) (pl_event plan) m m' ->
  forall k r, m !! k = Some r -> source_event_of r <> Some (pf_execution_id fill).
Proof.
  intros Hp Hc Hr j r Hj Hs. destruct Hp. destruct (constraint_parts _ Hc) as (_ & _ & Hu & _).
  assert (exists k2 r2, m' !! k2 = Some r2 /\ source_event_of r2 = Some (pf_execution_id fill) /\
            m !! k2 = None) as (k2 & r2 & H2 & Hs2 & Hn2).
  { destruct Hr as [k k2 p Hk Hi Hk2|k k2 Hn Hk Hk2]; (eexists k2, _; split; [by rewrite lookup_insert_eq|]);
      (split; [simpl; congruence|]);
      (destruct (decide (k = k2)) as [->|]; [by rewrite lookup_insert_eq in Hk2|]);
      by rewrite lookup_insert_ne in Hk2. }
  assert (m' !! j = Some r) as Hj'.
  { destruct Hr as [k k3 p Hk Hi Hk3|k k3 Hn Hk Hk3];
      (rewrite lookup_insert_ne;
       [| intros ->; destruct (decide (k = j)) as [->|];
          [by rewrite lookup_insert_eq in Hk3 | by rewrite lookup_insert_ne, Hj in Hk3]]);
      (rewrite lookup_insert_ne; [done|]; intros ->; by simplify_eq). }
  rewrite (unique_on_lookup source_event_of m' _ j k2 r r2 Hu Hj' H2 Hs Hs2) in Hj. congruence.
Qed.

Lemma persisted_held fresh cur fill plan m m' :
  ledger_inv (refs:=refs) m -> loaded m (fill_identity fill) cur -> plan_ok cur fill plan ->
  persisted_rows fresh (fill_identity fill) (pl_new_state plan) (pl_event plan) m m' ->
  held (fill_identity fill) m = quantity_or_zero cur /\
  held (fill_identity fill) m' = po_quantity (pl_new_state plan) /\
  (forall j, as_tuple j <> as_tuple (fill_identity fill) -> held j m' = held j m).
Proof.
  intros Hinv Hl Hp Hr. destruct (loaded_quantity _ _ _ Hinv Hl) as [Hq _]. destruct Hp.
  split; [done|].
  destruct Hr as [k k2 p Hk Hi Hk2|k k2 Hn Hk Hk2].
  - assert (forall j, held_in j (RPosition (apply_state p (pl_new_state plan))) =
      if bool_decide (as_tuple (fill_identity fill) = as_tuple j)
      then po_quantity (pl_new_state plan) else 0) as Hin.
    { intros j. unfold held_in.
      change (position_key_of (RPosition (apply_state p (pl_new_state plan))))
        with (position_key_of (RPosition p)). rewrite Hi. by rewrite (bool_decide_ext _ _ (inj_iff Some _ _)). }
    assert (forall j, held_in j (RPosition p) =
      if bool_decide (as_tuple (fill_identity fill) = as_tuple j) then pp_quantity p else 0) as Hin0.
    { intros j. unfold held_in. rewrite Hi. by rewrite (bool_decide_ext _ _ (inj_iff Some _ _)). }
    split; [|intros j Hj]; rewrite held_insert, (held_put _ k (RPosition p)) by done;
      rewrite Hin, Hin0; simpl.
    + rewrite !bool_decide_true by done. rewrite (held_found _ k p m) by (done || apply Hinv). lia.
    + rewrite !bool_decide_false by congruence. lia.
  - assert (cur = None) as ->.
    { destruct cur as [s|]; [|done]. destruct Hl as (j & p & Hj & Hi & _). by destruct (Hn j _ Hj). }
    specialize (plan_key0 eq_refl).
    split; [|intros j Hj]; rewrite !held_insert by done; unfold held_in at 1; unfold held_in at 1; simpl;
      rewrite plan_key0.
    + rewrite bool_decide_true by done. rewrite (held_none (fill_identity fill) m) by done. lia.
    + rewrite bool_decide_false; [lia|]. intros [= H1 H2 H3]. apply Hj. unfold as_tuple. simpl. congruence.
Qed.

(** ** The engine's contract *)

(** What a call on the tables [m] leaves, by its result: an applied fill moves
    the position of its identity, and only that one, by its signed quantity
    and is recorded; a replay changes nothing; an error leaves the positions
    alone, conflict evidence apart. *)
Definition fill_outcome (fill : PositionFill) (tick : nat) (m : gmap N prow)
    (r : res PositionResult) (m' : gmap N prow) : Prop :=
  let i := fill_identity fill in
  match r with
  | Ok res =>
      match pr_status res with
      | pa_APPLIED =>
          admitted_fill fill tick /\ 0 < int_of_dec (pf_quantity fill) /\
          (forall k r, m !! k = Some r -> source_event_of r <> Some (pf_execution_id fill)) /\
          recorded_fill m' fill /\
          held i m' = held i m + signed_quantity fill /\ 0 <= held i m' /\
          (forall j, as_tuple j <> as_tuple i -> held j m' = held j m) /\
          pr_quantity_before res = held i m /\ pr_quantity_after res = held i m'
      | pa_DUPLICATE =>
          m' = m /\ recorded_fill m fill /\ pr_quantity_after res = held i m
      | _ => False
      end
  | Err _ => (forall j, held j m' = held j m) /\ evidence_rows m m'
  end.

Lemma replayed_outcome fill tick m res :
  ledger_inv (refs:=refs) m -> replayed fill m res -> fill_outcome fill tick m (Ok res) m.
Proof.
  intros Hinv (Hs & Hr & cur & Hl & _ & Ha). unfold fill_outcome. rewrite Hs.
  destruct (loaded_quantity _ _ _ Hinv Hl) as [-> _]. done.
Qed.

Lemma applied_outcome fill tick m m' res fresh cur plan :
  ledger_inv (refs:=refs) m -> admitted_fill fill tick -> loaded m (fill_identity fill) cur ->
  plan_ok cur fill plan -> pr_status res = pa_APPLIED ->
  pr_quantity_before res = ed_quantity_before (pl_event plan) ->
  pr_quantity_after res = ed_quantity_after (pl_event plan) ->
  position_constraint refs m' = true ->
  persisted_rows fresh (fill_identity fill) (pl_new_state plan) (pl_event plan) m m' ->
  fill_outcome fill tick m (Ok res) m'.
Proof.
  intros Hinv Hadm Hl Hp Hs Hb Ha Hc Hr. unfold fill_outcome. rewrite Hs.
  destruct (persisted_held _ _ _ _ _ _ Hinv Hl Hp Hr) as (H1 & H2 & H3).
  pose proof (persisted_unseen _ _ _ _ _ _ Hp Hc Hr) as Hun.
  pose proof (persisted_recorded _ _ _ _ _ _ Hp Hr) as Hrec. destruct Hp.
  cbv zeta. rewrite H1, H2, Hb, Ha, plan_before0, plan_after0, plan_quantity0.
  split_and!; try done. rewrite <- plan_quantity0. by eapply shape_nonneg.
Qed.

Lemma apply_fill_step fill w db r w' :
  pw_repository w = Some db -> ledger_inv (refs:=refs) (rows db) ->
  position_apply_fill pc fill w = (r, w') ->
  exists db', pw_repository w' = Some db' /\ ledger_inv (refs:=refs) (rows db') /\
    fill_outcome fill (pw_tick w) (rows db) r (rows db').
Proof.
  intros Hw Hinv E. unfold position_apply_fill, bind in E.
  assert (forall m', evidence_rows (rows db) m' -> forall e, ledger_inv (refs:=refs) m' /\
    fill_outcome fill (pw_tick w) (rows db) (Err e) m') as Herr.
  { intros m' Hev e. split; [by eapply evidence_ledger|]. split; [|done]. intros j. by apply evidence_held. }
  destruct (apply_begin pc fill w) as [x w1] eqn:Eb.
  destruct (apply_begin_spec _ _ _ _ _ Hw Hinv Eb) as (db1 & Hw1 & Hx).
  destruct x as [[res|plan]|e]; [| |injection E as <- <-; exists db1; by eauto].
  - injection E as <- <-. destruct Hx as [-> Hx]. exists db. split_and!; try done.
    by apply replayed_outcome.
  - destruct Hx as (-> & Hadm & cur & Hl & Hp).
    destruct (apply_commit_spec _ _ _ _ _ _ Hw1 E) as (db2 & Hw2 & Hres). exists db2. split; [done|].
    destruct r as [res|e]; [|by eauto].
    destruct Hres as [(Hs & Hb & Ha & Hc & fresh & Hr)|(Heq & Hrep)].
    + split; [by eapply persisted_ledger|]. by eapply applied_outcome.
    + rewrite Heq. split; [done|]. by apply replayed_outcome.
Qed.

(** The outcome of [PositionEngine.apply_fill], whatever the database
    does: an [APPLIED] result means the fill was admitted (simulation mode, no
    halt, positive whole quantity), had no event before, is now recorded, and
    moved its own position by exactly its signed quantity without going
    negative, every other position unchanged; a [DUPLICATE] result means the
    same fill was already recorded and nothing changed; an exception leaves
    every position as it was, at most one conflict-evidence row being added. *)
Theorem apply_fill_exactly_once fill w db r w' :
  pw_repository w = Some db -> ledger_inv (refs:=refs) (rows db) ->
  position_apply_fill pc fill w = (r, w') ->
  exists db', pw_repository w' = Some db' /\
    fill_outcome fill (pw_tick w) (rows db) r (rows db').
Proof.
  intros Hw Hinv E. destruct (apply_fill_step _ _ _ _ _ Hw Hinv E) as (db' & ? & _ & ?). by exists db'.
Qed.

Definition run_fill (w : PW) (fill : PositionFill) : PW := snd (position_apply_fill pc fill w).

(** C4: After any sequence of fills, accepted or not, the tables satisfy their
    constraints, every position is long-only and well formed (open with a
    positive quantity and an average price on the 0.0001 grid, or closed with
    quantity zero and no price), and its quantity is the sum of the changes
    its append-only events record. *)
Theorem positions_match_ledger fills : forall w db,
  pw_repository w = Some db -> ledger_inv (refs:=refs) (rows db) ->
  exists db', pw_repository (foldl run_fill w fills) = Some db' /\
    ledger_inv (refs:=refs) (rows db').
Proof.
  induction fills as [|f fills IH]; intros w db Hw Hinv; [by exists db|]. simpl.
  destruct (position_apply_fill pc f w) as [r w1] eqn:E.
  destruct (apply_fill_step _ _ _ _ _ Hw Hinv E) as (db1 & Hw1 & Hinv1 & _).
  apply (IH _ db1); [|done]. unfold run_fill. by rewrite E.
Qed.

(** ** Two processes *)

Lemma persisted_new_held fresh i st ev m m' k0 p0 :
  m !! k0 = Some (RPosition p0) -> position_key_of (RPosition p0) = Some (as_tuple i) ->
  position_constraint refs m' = true ->
  persisted_rows fresh i st ev m m' -> held i m' = po_quantity st.
Proof.
  intros H0 Hi0 Hc Hr. destruct Hr as [k k2 p Hk Hi Hk2|k k2 Hn Hk Hk2]; [|by destruct (Hn k0 _ H0)].
  rewrite (held_found i k (apply_state p st) _ Hc); [done| |done].
  rewrite lookup_insert_ne; [by rewrite lookup_insert_eq|]. intros ->. by rewrite lookup_insert_eq in Hk2.
Qed.

Lemma persisted_row fresh cur fill plan m m' :
  loaded m (fill_identity fill) cur -> plan_ok cur fill plan ->
  persisted_rows fresh (fill_identity fill) (pl_new_state plan) (pl_event plan) m m' ->
  exists k p, m' !! k = Some (RPosition p) /\
    position_key_of (RPosition p) = Some (as_tuple (fill_identity fill)).
Proof.
  intros Hl Hp [k k2 p Hk Hi Hk2|k k2 Hn Hk Hk2]; eexists k, _;
    (rewrite lookup_insert_ne; [rewrite lookup_insert_eq; split; [done|]
                               | intros ->; by rewrite lookup_insert_eq in Hk2]).
  - done.
  - destruct Hp. destruct cur as [s|]; [|by specialize (plan_key0 eq_refl); simpl; rewrite plan_key0].
    destruct Hl as (j & p & Hj & Hi & _). by destruct (Hn j _ Hj).
Qed.

Lemma persisted_keeps_events fresh i st ev m m' fill :
  persisted_rows fresh i st ev m m' -> recorded_fill m fill -> recorded_fill m' fill.
Proof.
  intros Hr (j & e & pl & Hj & Hrest). exists j, e, pl. split; [|done].
  destruct Hr as [k k3 p Hk Hi Hk3|k k3 Hn Hk Hk3];
    (rewrite lookup_insert_ne;
     [| intros ->; destruct (decide (k = j)) as [->|];
        [by rewrite lookup_insert_eq in Hk3 | by rewrite lookup_insert_ne, Hj in Hk3]]);
    (rewrite lookup_insert_ne; [done|]; intros ->; by simplify_eq).
Qed.

(** Two processes that apply two fills of one position, both reading the
    position before either writes: if both calls answer [APPLIED], both fills
    are recorded but the position moves by the second fill only.  The row lock
    [persist_apply] takes comes after the read the plan was computed from, so
    it does not serialise the two read-modify-write cycles. *)
Theorem concurrent_fills_lose_update fA fB wA wB wA1 wB1 wA2 wB2 planA planB resA resB db dbA :
  ledger_inv (refs:=refs) (rows db) ->
  pw_repository wA = Some db -> pw_repository wB = Some db ->
  fill_identity fA = fill_identity fB ->
  apply_begin pc fA wA = (Ok (inr planA), wA1) ->
  apply_begin pc fB wB = (Ok (inr planB), wB1) ->
  apply_commit pc fA planA wA1 = (Ok resA, wA2) -> pr_status resA = pa_APPLIED ->
  pw_repository wA2 = Some dbA ->
  apply_commit pc fB planB (set_pdb dbA wB1) = (Ok resB, wB2) -> pr_status resB = pa_APPLIED ->
  exists dbB, pw_repository wB2 = Some dbB /\
    recorded_fill (rows dbB) fA /\ recorded_fill (rows dbB) fB /\
    held (fill_identity fA) (rows dbA) = held (fill_identity fA) (rows db) + signed_quantity fA /\
    held (fill_identity fA) (rows dbB) = held (fill_identity fA) (rows db) + signed_quantity fB.
Proof.
  intros Hinv HwA HwB Hid EA EB CA SA HA CB SB.
  destruct (apply_begin_spec _ _ _ _ _ HwA Hinv EA) as (? & HwA1 & -> & _ & curA & HlA & HpA).
  destruct (apply_begin_spec _ _ _ _ _ HwB Hinv EB) as (? & HwB1 & -> & _ & curB & HlB & HpB).
  destruct (apply_commit_spec _ _ _ _ _ _ HwA1 CA) as (? & HA' & [HcA|(_ & Hdup & _)]); [|congruence].
  rewrite HA in HA'. injection HA' as <-. destruct HcA as (_ & _ & _ & HcA & frA & HrA).
  destruct (apply_commit_spec _ _ (set_pdb dbA wB1) dbA _ _ eq_refl CB) as (dbB & HwB2 & [HcB|(_ & Hdup & _)]); [|congruence].
  destruct HcB as (_ & _ & _ & HcB & frB & HrB). exists dbB. split; [done|].
  destruct (persisted_held _ _ _ _ _ _ Hinv HlA HpA HrA) as (H1 & H2 & _).
  destruct (persisted_row _ _ _ _ _ _ HlA HpA HrA) as (k & p & Hk & Hp).
  rewrite Hid in Hp. pose proof (persisted_new_held _ _ _ _ _ _ _ _ Hk Hp HcB HrB) as HB.
  split_and!.
  - eapply persisted_keeps_events; [done|]. by eapply persisted_recorded.
  - by eapply persisted_recorded.
  - rewrite H2, H1. apply HpA.
  - rewrite Hid, HB. rewrite (plan_quantity _ _ _ HpB).
    by destruct (loaded_quantity _ _ _ Hinv HlB) as [-> _].
Qed.
End PositionTheorems.

(** * The average price *)

Lemma dec_of_Z_pos z : 0 <= z -> dec_of_Z z = Dec false (Z.to_N z) 0.
Proof.
  intros Hz. unfold dec_of_Z. destruct (Z.ltb_spec z 0); [lia|]. f_equal.
  by destruct z.
Qed.

Lemma dmul_nat_price (z : Z) (c : N) e : 0 <= z -> (Z.to_N z * c < 10 ^ 28)%N ->
  dmul (dec_of_Z z) (Dec false c e) = Dec false (Z.to_N z * c) e.
Proof. intros Hz Hf. rewrite dec_of_Z_pos by done. unfold dmul. by rewrite dfix_id. Qed.

(** The notional of two lots, one priced on the 0.0001 grid and one on a coarser
    grid, is computed without rounding while it has at most 28 digits. *)
Lemma grid_notional q fq (a c : N) e : 0 <= q -> 0 <= fq -> -4 <= e ->
  let b := (c * 10 ^ Z.to_N (e + 4))%N in
  (Z.to_N q * a + Z.to_N fq * b < 10 ^ 28)%N ->
  dadd (dmul (dec_of_Z q) (Dec false a (-4))) (dmul (dec_of_Z fq) (Dec false c e)) =
  Dec false (Z.to_N q * a + Z.to_N fq * b) (-4).
Proof.
  intros Hq Hfq He b Hfit.
  assert (1 <= 10 ^ Z.to_N (e + 4))%N as Hp by (pose proof (pow10_N_pos (Z.to_N (e + 4))); lia).
  assert (c <= b)%N as Hcb by (unfold b; nia).
  rewrite !dmul_nat_price by (lia || nia). unfold dadd, scaled. cbn [dexp dneg dz dcoef andb].
  replace (Z.min (-4) e) with (-4) by lia. rewrite Z.sub_diag, Z.mul_1_r.
  replace (e - -4) with (e + 4) by lia.
  replace (Z.of_N (Z.to_N fq * c) * 10 ^ (e + 4)) with (Z.of_N (Z.to_N fq * b))
    by (unfold b; rewrite !N2Z.inj_mul, N2Z.inj_pow, (Z2N.id (e + 4)) by lia; change (Z.of_N 10) with 10; ring).
  rewrite <- N2Z.inj_add. set (total := (Z.to_N q * a + Z.to_N fq * b)%N) in *. clearbody total.
  unfold of_signed. rewrite dfix_id by (cbn [dcoef]; lia). f_equal; [|lia].
  destruct (Z.eqb_spec (Z.of_N total) 0); [done|]. lia.
Qed.

(** Averaging in a further buy: for an average price and a fill price on
    the 0.0001 grid (the fill price with any number of trailing zeros) whose
    total notional has at most 28 digits, [weighted_average] returns a price of
    the grid that lies between the two prices. *)
Theorem weighted_average_between q fq a f :
  0 < q -> 0 < fq -> dneg f = false -> (0 < dcoef f)%N -> -4 <= dexp f ->
  let b := (dcoef f * 10 ^ Z.to_N (dexp f + 4))%N in
  (Z.to_N q * a + Z.to_N fq * b < 10 ^ 28)%N ->
  exists c, weighted_average q (Some (Dec false a (-4))) fq f = Ok (Dec false c (-4)) /\
    (N.min a b <= c <= N.max a b)%N.
Proof.
  intros Hq Hfq Hn Hcf He b Hfit. destruct f as [s c e]. simpl in Hn, Hcf, He, b. subst s.
  assert (1 <= 10 ^ Z.to_N (e + 4))%N as Hp by (pose proof (pow10_N_pos (Z.to_N (e + 4))); lia).
  assert (c <= b)%N as Hcb by (unfold b; nia).
  set (total := (Z.to_N q * a + Z.to_N fq * b)%N) in *.
  pose proof (grid_notional q fq a c e ltac:(lia) ltac:(lia) He Hfit) as Hsum. fold b total in Hsum.
  assert (forall x, (x <= total)%N -> representable (Dec false x (-4))) as Hrep
    by (intros x Hx; split; [done|]; cbn [dcoef]; lia).
  assert (0 < total)%N as Htot by (unfold total; nia).
  pose proof (dec_of_Z_pos (q + fq) ltac:(lia)) as Hden.
  assert (forall x, (dval (Dec false x (-4)) * dval (dec_of_Z (q + fq)) ==
                     inject_Z (Z.of_N (x * Z.to_N (q + fq))) * pow10 (-4))%Q) as Hscale.
  { intros x. rewrite Hden. unfold dval. cbn [dz dneg dcoef dexp]. rewrite N2Z.inj_mul, inject_Z_mult.
    change (pow10 0) with 1%Q. ring. }
  assert (forall x y : N, (x <= y)%N ->
    (inject_Z (Z.of_N x) * pow10 (-4) <= inject_Z (Z.of_N y) * pow10 (-4))%Q) as Hmono.
  { intros x y Hxy. apply Qmult_le_compat_r; [|apply Qlt_le_weak, pow10_pos]. rewrite <- Zle_Qle. lia. }
  destruct (ddiv_between (Dec false total (-4)) (dec_of_Z (q + fq))
              (Dec false (N.min a b) (-4)) (Dec false (N.max a b) (-4)))
    as (r & Hr & Hnr & Hlo & Hhi); try done.
  - by rewrite Hden.
  - rewrite Hden. cbn [dcoef]. lia.
  - apply Hrep. unfold total. nia.
  - apply Hrep. unfold total. nia.
  - rewrite Hscale. rewrite (pos_val (Dec false total (-4))) by done. apply Hmono.
    cbn [dcoef]. unfold total. rewrite Z2N.inj_add by lia. nia.
  - rewrite Hscale. rewrite (pos_val (Dec false total (-4))) by done. apply Hmono.
    cbn [dcoef]. unfold total. rewrite Z2N.inj_add by lia. nia.
  - destruct (quantize_between r PRICE_QUANTUM (N.min a b) (N.max a b)) as (z & Hz & Hbnd); try done.
    + unfold total in *. nia.
    + exists z. split; [|done]. unfold weighted_average, raise_if.
      destruct (Z.leb_spec fq 0); [lia|]. destruct (Z.eqb_spec q 0); [lia|]. simpl.
      rewrite Hsum, Hr. exact Hz.
Qed.

(** * Concrete runs *)

Module PositionSample.
Open Scope string_scope.
Definition refs (_ _ : UUID) (_ : option UUID) : bool := true.
Definition pc : PositionEngineConfig :=
  {| pc_global_halt_active := fun _ => false; pc_uuid4 := fun n => N.of_nat (1000 + n) |}.

Definition fill_ (x side : string) (q : Z) (price : decimal) : PositionFill :=
  {| pf_execution_id := x; pf_order_id := 1; pf_account_id := 2; pf_instrument_id := 3;
     pf_strategy_run_id := 4; pf_trading_mode := "paper"; pf_side := side;
     pf_quantity := dec_of_Z q; pf_price := price; pf_occurred_at := utc 1000000;
     pf_broker_order_id := None; pf_fill_reference := None |}.

Definition w0 : PositionEngine (gmap N prow) :=
  {| pw_repository := Some ∅;
     pw_metrics := {| pm_opened := 0; pm_increased := 0; pm_decreased := 0; pm_closed := 0;
                      pm_duplicate_fills := 0; pm_conflicting_fills := 0; pm_rejected_fills := 0 |};
     pw_tick := 0 |}.

(** 10 @ 100.50, then 5 @ 101.25; a replay of the first, an over-close and a
    partial close. *)
Definition buy1 := fill_ "e1" "BUY" 10 (Dec false 10050 (-2)).
Definition buy2 := fill_ "e2" "BUY" 5 (Dec false 10125 (-2)).
Definition sell99 := fill_ "e3" "SELL" 99 (Dec false 10125 (-2)).
Definition sell4 := fill_ "e4" "SELL" 4 (Dec false 10125 (-2)).

#[local] Instance db_session : Session (gmap N prow) prow (position_constraint refs) :=
  MemDB (position_constraint refs).

Definition after (l : list PositionFill) : PositionEngine (gmap N prow) :=
  foldl (run_fill pc) w0 l.

Definition held_after (l : list PositionFill) : Z :=
  match pw_repository (after l) with Some m => held (fill_identity buy1) m | None => 0 end.

Example holds_eleven : held_after [buy1; buy2; buy1; sell99; sell4] = 11.
Proof. vm_compute. reflexivity. Qed.

Lemma empty_ledger : ledger_inv (refs:=refs) ∅.
Proof. split; [by vm_compute|]. intros k p Hk. by rewrite lookup_empty in Hk. Qed.

Lemma positions_match_ledger_witness :
  exists db', pw_repository (after [buy1; buy2; buy1; sell99; sell4]) = Some db' /\
    ledger_inv (refs:=refs) db'.
Proof.
  exact (positions_match_ledger (refs:=refs) pc [buy1; buy2; buy1; sell99; sell4] w0 ∅
           eq_refl empty_ledger).
Defined.

Definition first_run : res PositionResult * PositionEngine (gmap N prow) :=
  Eval vm_compute in position_apply_fill pc buy1 w0.

Lemma first_run_eq : position_apply_fill pc buy1 w0 = first_run.
Proof. vm_compute. reflexivity. Qed.

Lemma apply_fill_witness :
  (exists r, fst first_run = Ok r /\ pr_status r = pa_APPLIED) /\
  exists db', pw_repository (snd first_run) = Some db' /\
    fill_outcome (refs:=refs) pc buy1 0 ∅ (fst first_run) db'.
Proof.
  split; [by eexists|].
  exact (apply_fill_exactly_once (refs:=refs) pc buy1 w0 ∅ (fst first_run) (snd first_run)
           eq_refl empty_ledger first_run_eq).
Defined.

(** 15 shares: 10 @ 100.50 and 5 @ 101.25 average to 100.75. *)
Lemma weighted_average_witness :
  exists c, weighted_average 10 (Some (Dec false 1005000 (-4))) 5 (Dec false 10125 (-2))
              = Ok (Dec false c (-4)) /\ (N.min 1005000 1012500 <= c <= N.max 1005000 1012500)%N.
Proof.
  exact (weighted_average_between 10 5 1005000 (Dec false 10125 (-2)) eq_refl eq_refl eq_refl
           eq_refl ltac:(vm_compute; discriminate) eq_refl).
Defined.

(** Two processes buy 10 and 5 from the flat position: 5 are held. *)
Definition plan_of (r : res (PositionResult + PositionApplyPlan)) : option PositionApplyPlan :=
  match r with Ok (inr p) => Some p | _ => None end.
Definition beginA := Eval vm_compute in apply_begin pc buy1 w0.
Definition beginB := Eval vm_compute in apply_begin pc buy2 w0.
Definition planA := Eval vm_compute in default {| pl_new_state := {|
    po_position_id := None; po_strategy_run_id := 0; po_instrument_id := 0; po_trading_mode := "";
    po_quantity := 0; po_average_price := None; po_status := ps_FLAT; po_opened_at := None;
    po_closed_at := None; po_last_execution_id := None; po_account_id := None |};
  pl_event := {| ed_event_type := POSITION_ERROR; ed_quantity_before := 0; ed_quantity_after := 0;
    ed_execution_id := ""; ed_content_hash := ""; ed_occurred_at := utc 0; ed_reason := "" |} |}
  (plan_of (fst beginA)).
Definition planB := Eval vm_compute in default planA (plan_of (fst beginB)).
Definition doneA := Eval vm_compute in apply_commit pc buy1 planA (snd beginA).
Definition dbA : gmap N prow := Eval vm_compute in default ∅ (pw_repository (snd doneA)).
Definition doneB := Eval vm_compute in apply_commit pc buy2 planB (set_pdb dbA (snd beginB)).
Definition applied_result (r : res PositionResult) : PositionResult :=
  match r with
  | Ok x => x
  | Err _ => {| pr_status := pa_REJECTED; pr_event_type := None; pr_snapshot := flat_snapshot 0 0 "";
                pr_quantity_before := 0; pr_quantity_after := 0; pr_duplicate := false;
                pr_conflict := false |}
  end.
Definition resA := Eval vm_compute in applied_result (fst doneA).
Definition resB := Eval vm_compute in applied_result (fst doneB).

Lemma concurrent_fills_witness :
  exists dbB, pw_repository (snd doneB) = Some dbB /\
    recorded_fill dbB buy1 /\ recorded_fill dbB buy2 /\
    held (fill_identity buy1) dbA = held (fill_identity buy1) ∅ + signed_quantity buy1 /\
    held (fill_identity buy1) dbB = held (fill_identity buy1) ∅ + signed_quantity buy2.
Proof.
  exact (concurrent_fills_lose_update (refs:=refs) pc buy1 buy2 w0 w0 (snd beginA) (snd beginB)
           (snd doneA) (snd doneB) planA planB resA resB ∅ dbA empty_ledger eq_refl eq_refl eq_refl
           ltac:(vm_compute; reflexivity) ltac:(vm_compute; reflexivity)
           ltac:(vm_compute; reflexivity) eq_refl eq_refl ltac:(vm_compute; reflexivity) eq_refl).
Defined.
End PositionSample.
