(* ===== verification/Paper.v ===== *)
(** Paper trading, the broker side: the broker contracts
    (packages/broker_adapters/contracts.py) and
    services/paper_trading/alpha_algo_paper_trading: types.py, fill_policy.py,
    book.py and paper_broker.py, with the mode routing of
    alpha_algo_paper_runtime/routing.py.

    The injected clock is a function of the number of reads made so far.  The
    book is an object whose methods mutate it ([M Book]); its idempotency cache
    is a map keyed by account and client order id. *)

From stdpp Require Import base list strings gmap.
From Stdlib Require Import ZArith Lia String Ascii QArith Qabs Lqa.
From S2P Require Import Prelude.
From S2P Require Import PyBase.
From S2P Require Import Hashing.
From S2P Require Import Decimal.
From S2P Require Import DecimalText.
From S2P Require Import Lifecycle.
Open Scope Z_scope.

(** * Broker contracts *)

Inductive TradingMode := tm_BACKTEST | tm_PAPER | tm_LIVE.
#[export] Instance TradingMode_eq_dec : EqDecision TradingMode.
Proof. solve_decision. Defined.

Definition trading_mode_value (m : TradingMode) : string :=
  match m with tm_BACKTEST => "BACKTEST" | tm_PAPER => "PAPER" | tm_LIVE => "LIVE" end.

Inductive OrderSide := sd_BUY | sd_SELL.
#[export] Instance OrderSide_eq_dec : EqDecision OrderSide.
Proof. solve_decision. Defined.

Definition side_value (s : OrderSide) : string :=
  match s with sd_BUY => "BUY" | sd_SELL => "SELL" end.

Inductive OrderType := MARKET | LIMIT | STOP | STOP_LIMIT.
#[export] Instance OrderType_eq_dec : EqDecision OrderType.
Proof. solve_decision. Defined.

Definition order_type_value (t : OrderType) : string :=
  match t with
  | MARKET => "MARKET" | LIMIT => "LIMIT" | STOP => "STOP" | STOP_LIMIT => "STOP_LIMIT"
  end.

Inductive BrokerOrderStatus := bs_ACCEPTED | bs_REJECTED | bs_UNKNOWN.
#[export] Instance BrokerOrderStatus_eq_dec : EqDecision BrokerOrderStatus.
Proof. solve_decision. Defined.

Record BrokerOrderRequest := {
  rq_broker_account_id : UUID;
  rq_instrument_id : UUID;
  rq_trading_mode : TradingMode;
  rq_client_order_id : string;
  rq_side : OrderSide;
  rq_order_type : OrderType;
  rq_quantity : Z;
  rq_risk_approval_id : string;
  rq_limit_price : option decimal;
  rq_stop_price : option decimal;
  rq_metadata : metadata;
}.

Record BrokerOrderResponse := {
  bo_status : BrokerOrderStatus;
  bo_client_order_id : string;
  bo_broker_order_id : option string;
  bo_accepted_at : datetime;
  bo_reason : option string;
}.

(** * types.py *)

Definition AVERAGE_PRICE_QUANTUM : decimal := Dec false 1 (-8).

(** [now_from]: the clock's output must be timezone-aware. *)
Definition check_now (value : datetime) : res datetime :=
  raise_if (negb (dt_aware value)) PaperAdapterError "clock output must be timezone-aware" ;!
  Ok value.

Record PaperReferencePrice := {
  rp_instrument_id : UUID;
  rp_last : decimal;
  rp_bid : option decimal;
  rp_ask : option decimal;
  rp_reference_at : datetime;
}.

Definition not_positive (d : option decimal) : bool :=
  match d with Some x => dle x dzero | None => false end.

Definition mk_PaperReferencePrice (r : PaperReferencePrice) : res PaperReferencePrice :=
  raise_if (dle (rp_last r) dzero) ValueError "last must be positive" ;!
  raise_if (not_positive (rp_bid r)) ValueError "bid must be positive" ;!
  raise_if (not_positive (rp_ask r)) ValueError "ask must be positive" ;!
  match rp_bid r, rp_ask r with
  | Some bid, Some ask =>
      raise_if (dgt bid ask) ValueError "bid cannot exceed ask" ;!
      raise_if (negb (dle bid (rp_last r) && dle (rp_last r) ask)) ValueError
        "last must lie within the bid/ask spread when both legs are present"
  | _, _ => Ok tt
  end ;!
  require_timezone (rp_reference_at r) "reference_at" ;!
  Ok r.

Record FillDecision := {
  fd_fills : bool;
  fd_fill_price : option decimal;
  fd_fill_quantity : decimal;
  fd_reason : option string;
}.

Definition mk_FillDecision (d : FillDecision) : res FillDecision :=
  (if fd_fills d then
     raise_if (match fd_fill_price d with Some p => dle p dzero | None => true end) ValueError
       "fill decisions require a positive fill_price" ;!
     raise_if (dle (fd_fill_quantity d) dzero) ValueError
       "fill decisions require a positive fill_quantity"
   else
     raise_if (match fd_fill_price d with Some _ => true | None => false end) ValueError
       "rejection decisions must carry fill_price=None" ;!
     raise_if (negb (deq (fd_fill_quantity d) dzero)) ValueError
       "rejection decisions must carry zero fill_quantity") ;!
  Ok d.

Record PaperFillRecord := {
  fr_sequence : Z;
  fr_client_order_id : string;
  fr_broker_order_id : string;
  fr_order_id : UUID;
  fr_side : OrderSide;
  fr_instrument_id : UUID;
  fr_broker_account_id : UUID;
  fr_fill_quantity : decimal;
  fr_fill_price : decimal;
  fr_occurred_at : datetime;
}.

Definition mk_PaperFillRecord (f : PaperFillRecord) : res PaperFillRecord :=
  raise_if (fr_sequence f <? 0) ValueError "sequence cannot be negative" ;!
  raise_if (dle (fr_fill_quantity f) dzero) ValueError "fill_quantity must be positive" ;!
  raise_if (dle (fr_fill_price f) dzero) ValueError "fill_price must be positive" ;!
  require_timezone (fr_occurred_at f) "occurred_at" ;!
  Ok f.

Record PaperPosition := {
  pq_broker_account_id : UUID;
  pq_instrument_id : UUID;
  pq_trading_mode : TradingMode;
  pq_quantity : decimal;
  pq_average_price : option decimal;
  pq_captured_at : datetime;
}.

Definition mk_PaperPosition (p : PaperPosition) : res PaperPosition :=
  raise_if (negb (bool_decide (pq_trading_mode p = tm_PAPER))) ValueError
    ("paper positions must use TradingMode.PAPER, got " +:+ trading_mode_value (pq_trading_mode p)) ;!
  raise_if (not_positive (pq_average_price p)) ValueError
    "average_price must be positive when present" ;!
  require_timezone (pq_captured_at p) "captured_at" ;!
  Ok p.

(** * fill_policy.py *)

Definition full_quantity_decision (request : BrokerOrderRequest) (fill_price : decimal)
    : res FillDecision :=
  mk_FillDecision {| fd_fills := true; fd_fill_price := Some fill_price;
                     fd_fill_quantity := dec_of_Z (rq_quantity request); fd_reason := None |}.

Definition no_fill (reason : string) : res FillDecision :=
  mk_FillDecision {| fd_fills := false; fd_fill_price := None; fd_fill_quantity := dzero;
                     fd_reason := Some reason |}.

Definition decide_buy (request : BrokerOrderRequest) (reference : PaperReferencePrice)
    : res FillDecision :=
  if decide (rq_order_type request = MARKET) then full_quantity_decision request (rp_last reference)
  else
    match rp_ask reference with
    | None => no_fill "no executable quote: injected reference has no ask"
    | Some ask =>
        if match rq_limit_price request with Some l => dlt l ask | None => true end then
          no_fill "limit price not executable against injected ask"
        else full_quantity_decision request ask
    end.

Definition decide_sell (request : BrokerOrderRequest) (reference : PaperReferencePrice)
    : res FillDecision :=
  if decide (rq_order_type request = MARKET) then full_quantity_decision request (rp_last reference)
  else
    match rp_bid reference with
    | None => no_fill "no executable quote: injected reference has no bid"
    | Some bid =>
        if match rq_limit_price request with Some l => dgt l bid | None => true end then
          no_fill "limit price not executable against injected bid"
        else full_quantity_decision request bid
    end.

Definition decide_fill (request : BrokerOrderRequest) (reference : PaperReferencePrice)
    : res FillDecision :=
  if bool_decide (rq_order_type request ∈ [STOP; STOP_LIMIT]) then
    raise UnsupportedOrderTypeError
      ("unsupported order type in paper mode: " +:+ order_type_value (rq_order_type request))
  else
    match rq_side request with
    | sd_BUY => decide_buy request reference
    | sd_SELL => decide_sell request reference
    end.

(** * book.py *)

Definition ORDER_ID_NAMESPACE : UUID := 0x8f4e1a2b3c4d4e5f8a9b0c1d2e3f4a5b%N.

Definition paper_order_id (broker_account_id : UUID) (client_order_id : string) : UUID :=
  uuid5 ORDER_ID_NAMESPACE (uuid_str broker_account_id +:+ ":" +:+ client_order_id).

Record SubmissionRecord := {
  sr_request : BrokerOrderRequest;
  sr_response : BrokerOrderResponse;
  sr_events : list BrokerOrderEvent;
}.

Record PaperOrderBook := {
  bk_submissions : gmap (UUID * string) SubmissionRecord;
  bk_events : list BrokerOrderEvent;
  bk_fills : list PaperFillRecord;
  bk_pending_index : nat;
  bk_sequence : Z;
  bk_tick : nat;
}.

Definition empty_book : PaperOrderBook :=
  {| bk_submissions := ∅; bk_events := []; bk_fills := []; bk_pending_index := 0;
     bk_sequence := 0; bk_tick := 0 |}.

Definition request_key (r : BrokerOrderRequest) : UUID * string :=
  (rq_broker_account_id r, rq_client_order_id r).

Definition same_price (a b : option decimal) : bool :=
  match a, b with
  | Some x, Some y => deq x y
  | None, None => true
  | _, _ => false
  end.

(** The payload fields in the order of [_PAYLOAD_FIELDS]: the first that
    differs. *)
Definition payload_difference (prior request : BrokerOrderRequest) : option string :=
  let differs := List.find (fun fb => negb fb.2)
    [("broker_account_id"%string, (rq_broker_account_id prior =? rq_broker_account_id request)%N);
     ("instrument_id"%string, (rq_instrument_id prior =? rq_instrument_id request)%N);
     ("trading_mode"%string, bool_decide (rq_trading_mode prior = rq_trading_mode request));
     ("side"%string, bool_decide (rq_side prior = rq_side request));
     ("order_type"%string, bool_decide (rq_order_type prior = rq_order_type request));
     ("quantity"%string, rq_quantity prior =? rq_quantity request);
     ("risk_approval_id"%string,
        String.eqb (rq_risk_approval_id prior) (rq_risk_approval_id request));
     ("limit_price"%string, same_price (rq_limit_price prior) (rq_limit_price request));
     ("stop_price"%string, same_price (rq_stop_price prior) (rq_stop_price request))] in
  fst <$> differs.

Definition assert_identical_payload (prior request : BrokerOrderRequest) : res unit :=
  match payload_difference prior request with
  | None => Ok tt
  | Some field_name =>
      raise ClientOrderIdConflictError
        ("client_order_id " +:+ py_repr (rq_client_order_id request) +:+
         " reused with a different payload (" +:+ field_name +:+ " differs)")
  end.

Definition resolve_order_id (request : BrokerOrderRequest) : res UUID :=
  let expected := paper_order_id (rq_broker_account_id request) (rq_client_order_id request) in
  match rq_metadata request !! "order_id"%string with
  | None | Some PNone =>
      raise PaperAdapterError
        "metadata['order_id'] is required (must equal the deterministic paper order id)"
  | Some raw =>
      match uuid_parse (py_str raw) with
      | None => raise PaperAdapterError "metadata['order_id'] must be a valid UUID string"
      | Some provided =>
          if negb (provided =? expected)%N then
            raise PaperAdapterError
              ("metadata['order_id'] " +:+ uuid_str provided +:+ " does not match deterministic "
               +:+ "paper order id " +:+ uuid_str expected)
          else Ok expected
      end
  end.

Definition simulator_metadata (request : BrokerOrderRequest) : metadata :=
  {[ "trading_mode"%string := PStr "PAPER";
     "client_order_id"%string := PStr (rq_client_order_id request);
     "fill_source"%string := PStr "paper_simulator" ]}.

Definition record_submission (request : BrokerOrderRequest) (response : BrokerOrderResponse)
    (events : list BrokerOrderEvent) : M PaperOrderBook unit :=
  modify (fun b => {|
    bk_submissions :=
      <[request_key request := {| sr_request := request; sr_response := response; sr_events := events |}]>
        (bk_submissions b);
    bk_events := bk_events b ++ events;
    bk_fills := bk_fills b; bk_pending_index := bk_pending_index b;
    bk_sequence := bk_sequence b; bk_tick := bk_tick b |}).

(** [_reject]; the constant [raw_payload] of a response is left out. *)
Definition book_reject (request : BrokerOrderRequest) (order_id : UUID) (now : datetime)
    (reason : string) : M PaperOrderBook BrokerOrderResponse :=
  let* event := lift (mk_BrokerOrderEvent order_id ev_REJECTED now reason None dzero
                        (simulator_metadata request)) in
  let response := {| bo_status := bs_REJECTED; bo_client_order_id := rq_client_order_id request;
                     bo_broker_order_id := None; bo_accepted_at := now;
                     bo_reason := Some reason |} in
  record_submission request response [event] ;*
  ret response.

Definition append_fill (f : PaperFillRecord) : M PaperOrderBook unit :=
  modify (fun b => {|
    bk_submissions := bk_submissions b; bk_events := bk_events b; bk_fills := bk_fills b ++ [f];
    bk_pending_index := bk_pending_index b; bk_sequence := bk_sequence b + 1;
    bk_tick := bk_tick b |}).

Definition accept_and_fill (request : BrokerOrderRequest) (order_id : UUID) (now : datetime)
    (fill_price : decimal) : M PaperOrderBook BrokerOrderResponse :=
  let broker_order_id := "paper-" +:+ uuid_hex order_id in
  let* ack := lift (mk_BrokerOrderEvent order_id ev_BROKER_ACKNOWLEDGED now
                      "paper broker accepted order" (Some broker_order_id) dzero
                      (simulator_metadata request)) in
  let* fill := lift (mk_BrokerOrderEvent order_id ev_FILL now
                       "paper simulator-confirmed fill" (Some broker_order_id)
                       (dec_of_Z (rq_quantity request))
                       (<["paper_fill_price"%string := PStr (dec_str fill_price)]>
                          (simulator_metadata request))) in
  let* sequence := gets bk_sequence in
  let* fill_record := lift (mk_PaperFillRecord
    {| fr_sequence := sequence; fr_client_order_id := rq_client_order_id request;
       fr_broker_order_id := broker_order_id; fr_order_id := order_id;
       fr_side := rq_side request; fr_instrument_id := rq_instrument_id request;
       fr_broker_account_id := rq_broker_account_id request;
       fr_fill_quantity := dec_of_Z (rq_quantity request); fr_fill_price := fill_price;
       fr_occurred_at := now |}) in
  append_fill fill_record ;*
  let response := {| bo_status := bs_ACCEPTED; bo_client_order_id := rq_client_order_id request;
                     bo_broker_order_id := Some broker_order_id; bo_accepted_at := now;
                     bo_reason := None |} in
  record_submission request response [ack; fill] ;*
  ret response.

Section Book.
Context (clock : nat -> datetime).

Definition book_now : M PaperOrderBook datetime :=
  fun b => (check_now (clock (bk_tick b)),
            {| bk_submissions := bk_submissions b; bk_events := bk_events b;
               bk_fills := bk_fills b; bk_pending_index := bk_pending_index b;
               bk_sequence := bk_sequence b; bk_tick := S (bk_tick b) |}).

(** The outcome of the fill policy, once the request is new. *)
Definition fill_or_reject (request : BrokerOrderRequest) (order_id : UUID) (now : datetime)
    (reference : option PaperReferencePrice) : M PaperOrderBook BrokerOrderResponse :=
  match reference with
  | None => book_reject request order_id now "no reference price available for instrument"
  | Some reference =>
      if negb (rp_instrument_id reference =? rq_instrument_id request)%N then
        throw PaperAdapterError "injected reference price does not match request instrument"
      else
        match decide_fill request reference with
        | Err exc =>
            if isinstance exc UnsupportedOrderTypeError
            then book_reject request order_id now (exn_msg exc)
            else lift (Err exc)
        | Ok decision =>
            match fd_fills decision, fd_fill_price decision with
            | true, Some price => accept_and_fill request order_id now price
            | true, None => throw TypeError "fill decision without a price"
            | false, _ =>
                book_reject request order_id now
                  (default "order not executable"%string
                     (str_or (fd_reason decision) None))
            end
        end
  end.

Definition book_submit (request : BrokerOrderRequest) (reference : option PaperReferencePrice)
    : M PaperOrderBook BrokerOrderResponse :=
  if negb (bool_decide (rq_trading_mode request = tm_PAPER)) then
    throw PaperModeViolationError
      ("paper book accepts only TradingMode.PAPER orders, got " +:+
       trading_mode_value (rq_trading_mode request))
  else if is_blank (rq_client_order_id request) then
    throw PaperAdapterError "client_order_id is required"
  else if rq_quantity request <=? 0 then throw PaperAdapterError "quantity must be positive"
  else
    let* order_id := lift (resolve_order_id request) in
    let* recorded := gets (fun b => bk_submissions b !! request_key request) in
    match recorded with
    | Some recorded =>
        lift (assert_identical_payload (sr_request recorded) request) ;*
        ret (sr_response recorded)
    | None =>
        let* now := book_now in
        fill_or_reject request order_id now reference
    end.

(** [pending_events]: the drain. *)
Definition book_pending_events : M PaperOrderBook (list BrokerOrderEvent) :=
  fun b => (Ok (drop (bk_pending_index b) (bk_events b)),
            {| bk_submissions := bk_submissions b; bk_events := bk_events b;
               bk_fills := bk_fills b; bk_pending_index := List.length (bk_events b);
               bk_sequence := bk_sequence b; bk_tick := bk_tick b |}).

Definition book_events_for (account : UUID) (client_order_id : string) (b : PaperOrderBook)
    : list BrokerOrderEvent :=
  match bk_submissions b !! (account, client_order_id) with
  | Some r => sr_events r
  | None => []
  end.

(** ** Positions *)

Fixpoint insert_uuid (u : UUID) (l : list UUID) : list UUID :=
  match l with
  | [] => [u]
  | v :: l' => if (u <? v)%N then u :: l else if (u =? v)%N then l else v :: insert_uuid u l'
  end.

(** [sorted(set(l))] *)
Definition sorted_uuids (l : list UUID) : list UUID := foldr insert_uuid [] l.

Definition signed_fill (f : PaperFillRecord) : decimal :=
  match fr_side f with
  | sd_BUY => fr_fill_quantity f
  | sd_SELL => dminus (fr_fill_quantity f)
  end.

(** The position of one instrument; [None] when it is flat. *)
Definition instrument_position (account instrument : UUID) (captured_at : datetime)
    (fills : list PaperFillRecord) : res (option PaperPosition) :=
  let total_quantity := dsum (fr_fill_quantity <$> fills) in
  let signed_quantity := dsum (signed_fill <$> fills) in
  if deq signed_quantity dzero then Ok None
  else
    let total_cost := dsum ((fun f => dmul (fr_fill_price f) (fr_fill_quantity f)) <$> fills) in
    let! average_price :=
      (if dgt total_quantity dzero then
         let! q := ddiv total_cost total_quantity in
         let! a := quantize q AVERAGE_PRICE_QUANTUM in
         Ok (Some a)
       else Ok None) in
    let! p := mk_PaperPosition
      {| pq_broker_account_id := account; pq_instrument_id := instrument;
         pq_trading_mode := tm_PAPER; pq_quantity := signed_quantity;
         pq_average_price := average_price; pq_captured_at := captured_at |} in
    Ok (Some p).

Fixpoint collect_positions (account : UUID) (captured_at : datetime)
    (fills : list PaperFillRecord) (instruments : list UUID) : res (list PaperPosition) :=
  match instruments with
  | [] => Ok []
  | i :: rest =>
      let! p := instrument_position account i captured_at
                  (List.filter (fun f => (fr_instrument_id f =? i)%N) fills) in
      let! ps := collect_positions account captured_at fills rest in
      Ok (match p with Some p => p :: ps | None => ps end)
  end.

Definition book_positions (account : UUID) : M PaperOrderBook (list PaperPosition) :=
  let* fills := gets (fun b =>
    List.filter (fun f => (fr_broker_account_id f =? account)%N) (bk_fills b)) in
  let* captured_at := book_now in
  lift (collect_positions account captured_at fills (sorted_uuids (fr_instrument_id <$> fills))).
End Book.

(** * paper_broker.py *)

Record PaperBrokerAdapter := {
  br_book : PaperOrderBook;
  br_reference_prices : gmap UUID PaperReferencePrice;
  br_connected : bool;
  br_account_identifier : option string;
  br_account_by_client : gmap string UUID;
}.

Definition new_broker (prices : gmap UUID PaperReferencePrice) : PaperBrokerAdapter :=
  {| br_book := empty_book; br_reference_prices := prices; br_connected := false;
     br_account_identifier := None; br_account_by_client := ∅ |}.

Section Broker.
Context (clock : nat -> datetime).

Definition on_book {T} (m : M PaperOrderBook T) : M PaperBrokerAdapter T :=
  zoom br_book
    (fun b w => {| br_book := b; br_reference_prices := br_reference_prices w;
                   br_connected := br_connected w;
                   br_account_identifier := br_account_identifier w;
                   br_account_by_client := br_account_by_client w |}) m.

(** [connect]: the session's time stamp is returned; [secret_ref] is never
    read. *)
Definition broker_connect (broker_name account_identifier : string)
    : M PaperBrokerAdapter datetime :=
  if negb (String.eqb broker_name "paper") then
    throw PaperAdapterError
      ("paper broker accepts only broker_name='paper', got " +:+ py_repr broker_name)
  else if is_blank account_identifier then
    throw PaperAdapterError "account_identifier is required"
  else
    modify (fun w => {| br_book := br_book w; br_reference_prices := br_reference_prices w;
                        br_connected := true; br_account_identifier := Some account_identifier;
                        br_account_by_client := br_account_by_client w |}) ;*
    on_book (book_now clock).

Definition broker_disconnect : M PaperBrokerAdapter unit :=
  modify (fun w => {| br_book := br_book w; br_reference_prices := br_reference_prices w;
                      br_connected := false; br_account_identifier := br_account_identifier w;
                      br_account_by_client := br_account_by_client w |}).

Definition broker_set_reference_price (instrument_id : UUID) (reference : PaperReferencePrice)
    : M PaperBrokerAdapter unit :=
  modify (fun w => {| br_book := br_book w;
                      br_reference_prices := <[instrument_id := reference]> (br_reference_prices w);
                      br_connected := br_connected w;
                      br_account_identifier := br_account_identifier w;
                      br_account_by_client := br_account_by_client w |}).

Definition broker_submit_order (request : BrokerOrderRequest)
    : M PaperBrokerAdapter BrokerOrderResponse :=
  let* connected := gets br_connected in
  if negb connected then throw PaperAdapterError "paper broker is not connected"
  else
    let* reference := gets (fun w => br_reference_prices w !! rq_instrument_id request) in
    let* response := on_book (book_submit clock request reference) in
    modify (fun w => {| br_book := br_book w; br_reference_prices := br_reference_prices w;
                        br_connected := br_connected w;
                        br_account_identifier := br_account_identifier w;
                        br_account_by_client :=
                          <[rq_client_order_id request := rq_broker_account_id request]>
                            (br_account_by_client w) |}) ;*
    ret response.

Definition broker_cancel_order (broker_order_id : string) : M PaperBrokerAdapter BrokerOrderResponse :=
  throw PaperAdapterError "paper v1 simulator has no working orders; cancellation unsupported".

Definition broker_pending_events : M PaperBrokerAdapter (list BrokerOrderEvent) :=
  on_book book_pending_events.

Definition broker_events_for (client_order_id : string) (w : PaperBrokerAdapter)
    : list BrokerOrderEvent :=
  match br_account_by_client w !! client_order_id with
  | None => []
  | Some account => book_events_for account client_order_id (br_book w)
  end.

Fixpoint positions_of (accounts : list UUID) : M PaperBrokerAdapter (list PaperPosition) :=
  match accounts with
  | [] => ret []
  | a :: rest =>
      let* ps := on_book (book_positions clock a) in
      let* qs := positions_of rest in
      ret (ps ++ qs)
  end.

Definition broker_get_positions : M PaperBrokerAdapter (list PaperPosition) :=
  let* connected := gets br_connected in
  if negb connected then throw PaperAdapterError "paper broker is not connected"
  else
    let* accounts := gets (fun w =>
      sorted_uuids (fr_broker_account_id <$> bk_fills (br_book w))) in
    positions_of accounts.
End Broker.

(** * routing.py *)

Inductive ExecutionProvider := xp_BACKTEST | xp_PAPER | xp_LIVE.

Definition resolve_provider (trading_mode : option string) : res ExecutionProvider :=
  let mode := py_upper (default "" trading_mode) in
  if String.eqb mode "LIVE" then
    raise LiveTradingDisabledError "LIVE trading is disabled (fail-closed)"
  else if String.eqb mode "PAPER" then Ok xp_PAPER
  else if String.eqb mode "BACKTEST" then Ok xp_BACKTEST
  else raise UnknownTradingModeError
         ("unknown trading mode: " +:+
          match trading_mode with Some m => py_repr m | None => "None" end).

(** [TradingModeRouter.resolve], with the answers of its two hooks. *)
Definition router_resolve (halt_active live_enabled : bool) (trading_mode : option string)
    : res ExecutionProvider :=
  raise_if halt_active TradingHaltedError "global trading halt is active" ;!
  raise_if live_enabled LiveTradingDisabledError
    "LIVE trading cannot be routed while live_trading_enabled is true" ;!
  resolve_provider trading_mode.

(** * The fill policy *)

(** The price at which an order is executable against a reference. *)
Definition executable (request : BrokerOrderRequest) (reference : PaperReferencePrice)
    (p : decimal) : Prop :=
  match rq_order_type request, rq_side request with
  | MARKET, _ => p = rp_last reference
  | LIMIT, sd_BUY => rp_ask reference = Some p /\
      exists l, rq_limit_price request = Some l /\ (dval p <= dval l)%Q
  | LIMIT, sd_SELL => rp_bid reference = Some p /\
      exists l, rq_limit_price request = Some l /\ (dval l <= dval p)%Q
  | _, _ => False
  end.

Lemma reference_positive r : mk_PaperReferencePrice r = Ok r ->
  (0 < dval (rp_last r))%Q /\ (forall b, rp_bid r = Some b -> 0 < dval b)%Q /\
  (forall a, rp_ask r = Some a -> 0 < dval a)%Q.
Proof.
  unfold mk_PaperReferencePrice. intros H. res_inv.
  repeat match goal with H : dle _ dzero = false |- _ => rewrite dle_false, dval_zero in H end.
  split_and!; [done|..]; intros x Hx; rewrite Hx in *; simpl in *;
    match goal with H : dle x dzero = false |- _ => by rewrite dle_false, dval_zero in H end.
Qed.

Lemma full_quantity_ok request p : 0 < rq_quantity request -> (0 < dval p)%Q ->
  full_quantity_decision request p =
  Ok {| fd_fills := true; fd_fill_price := Some p;
        fd_fill_quantity := dec_of_Z (rq_quantity request); fd_reason := None |}.
Proof.
  intros Hq Hp. unfold full_quantity_decision, mk_FillDecision. simpl.
  assert (dle p dzero = false) as -> by (rewrite dle_false, dval_zero; done).
  assert (dle (dec_of_Z (rq_quantity request)) dzero = false) as ->; [|done].
  rewrite dle_false, dval_zero, dval_of_Z. change 0%Q with (inject_Z 0). by rewrite <- Zlt_Qlt.
Qed.

Ltac not_executable Hno H :=
  right; destruct (Hno _ H eq_refl) as [??]; split_and!; [done..|].

Lemma decide_fill_cases request reference d :
  decide_fill request reference = Ok d ->
  (fd_fills d = true /\ exists p, fd_fill_price d = Some p /\ executable request reference p /\
     fd_fill_quantity d = dec_of_Z (rq_quantity request) /\ full_quantity_decision request p = Ok d) \/
  (fd_fills d = false /\ (exists m, fd_reason d = Some m /\ is_blank m = false) /\
     forall p, ~ executable request reference p).
Proof.
  unfold decide_fill. case_bool_decide as Hs; [done|]. intros H.
  assert (forall p, full_quantity_decision request p = Ok d -> executable request reference p ->
    fd_fills d = true /\ exists p, fd_fill_price d = Some p /\ executable request reference p /\
     fd_fill_quantity d = dec_of_Z (rq_quantity request) /\ full_quantity_decision request p = Ok d) as Hfull.
  { intros p Hp He. pose proof Hp as Hp'. unfold full_quantity_decision, mk_FillDecision in Hp. simpl in Hp.
    res_inv. split; [done|]. by exists p. }
  assert (forall m, no_fill m = Ok d -> is_blank m = false ->
    fd_fills d = false /\ exists m, fd_reason d = Some m /\ is_blank m = false) as Hno.
  { intros m Hm Hb. unfold no_fill, mk_FillDecision in Hm. simpl in Hm. res_inv. eauto. }
  unfold decide_buy, decide_sell in H.
  destruct (rq_side request) eqn:Es; destruct (decide (rq_order_type request = MARKET)) as [Em|Em];
    try (left; apply (Hfull _ H); unfold executable; by rewrite Em).
  - assert (rq_order_type request = LIMIT) as El
      by (destruct (rq_order_type request); try done; destruct Hs; repeat constructor).
    unfold executable in *. rewrite El, Es in *. destruct (rp_ask reference) as [a|].
    + destruct (rq_limit_price request) as [l|].
      * destruct (dlt l a) eqn:E.
        -- not_executable Hno H.
           intros p [[= ->] (l' & [= <-] & Hl)]. apply dlt_spec in E. lra.
        -- left. apply (Hfull _ H). split; [done|]. exists l. split; [done|]. by apply dlt_false.
      * not_executable Hno H. by intros p [_ (l' & ? & _)].
    + not_executable Hno H. by intros p [? _].
  - assert (rq_order_type request = LIMIT) as El
      by (destruct (rq_order_type request); try done; destruct Hs; repeat constructor).
    unfold executable in *. rewrite El, Es in *. destruct (rp_bid reference) as [a|].
    + destruct (rq_limit_price request) as [l|].
      * destruct (dgt l a) eqn:E.
        -- not_executable Hno H.
           intros p [[= ->] (l' & [= <-] & Hl)]. apply dlt_spec in E. lra.
        -- left. apply (Hfull _ H). split; [done|]. exists l. split; [done|]. by apply dlt_false.
      * not_executable Hno H. by intros p [_ (l' & ? & _)].
    + not_executable Hno H. by intros p [? _].
Qed.

(** The fill policy on a valid reference price and a positive quantity: a
    MARKET or LIMIT order always gets a decision; it fills exactly when it is
    executable, then for its whole quantity at a positive price that is the
    last price for a MARKET order, and for a LIMIT order the opposite quote,
    never worse than the limit. *)
Theorem fill_policy_price_protection request reference :
  mk_PaperReferencePrice reference = Ok reference -> 0 < rq_quantity request ->
  rq_order_type request = MARKET \/ rq_order_type request = LIMIT ->
  exists d, decide_fill request reference = Ok d /\
    match fd_fill_price d with
    | Some p => fd_fills d = true /\ executable request reference p /\ (0 < dval p)%Q /\
                fd_fill_quantity d = dec_of_Z (rq_quantity request)
    | None => fd_fills d = false /\ forall p, ~ executable request reference p
    end.
Proof.
  intros Href Hq Ht. destruct (reference_positive _ Href) as (Hl & Hb & Ha).
  assert (exists d, decide_fill request reference = Ok d) as [d Hd].
  { unfold decide_fill. rewrite bool_decide_false by (rewrite !elem_of_cons, elem_of_nil; intros [?|[?|?]]; destruct Ht; congruence).
    unfold decide_buy, decide_sell. destruct (rq_side request), (decide (rq_order_type request = MARKET));
      try (rewrite full_quantity_ok by done; by eexists).
    - destruct (rp_ask reference) as [a|] eqn:E; [|by eexists]. case_match; [by eexists|].
      rewrite full_quantity_ok by auto. by eexists.
    - destruct (rp_bid reference) as [a|] eqn:E; [|by eexists]. case_match; [by eexists|].
      rewrite full_quantity_ok by auto. by eexists. }
  exists d. split; [done|]. destruct (decide_fill_cases _ _ _ Hd) as [(Hf & p & Hp & He & Hfq & Hfull)|(Hf & _ & Hn)].
  - rewrite Hp. split_and!; try done. unfold executable in He.
    destruct (rq_order_type request), (rq_side request); try done; try (by subst);
      destruct He as [He _]; auto.
  - assert (fd_fill_price d = None) as ->; [|done].
    unfold decide_fill in Hd. case_bool_decide; [done|].
    assert (forall p, full_quantity_decision request p = Ok d -> False) as Hnf.
    { intros p Hp. unfold full_quantity_decision, mk_FillDecision in Hp. simpl in Hp. by res_inv. }
    assert (forall m, no_fill m = Ok d -> fd_fill_price d = None) as Hno.
    { intros m Hm. unfold no_fill, mk_FillDecision in Hm. simpl in Hm. by res_inv. }
    unfold decide_buy, decide_sell in Hd.
    repeat case_match; first [exact (Hno _ Hd) | destruct (Hnf _ Hd)].
Qed.

(** * The order book *)

Definition fill_key (f : PaperFillRecord) : UUID * string :=
  (fr_broker_account_id f, fr_client_order_id f).

Definition fills_for (k : UUID * string) (b : PaperOrderBook) : list PaperFillRecord :=
  List.filter (fun f => bool_decide (fill_key f = k)) (bk_fills b).

(** A recorded fill is a fill of the request. *)
Definition fill_of_request (r : BrokerOrderRequest) (f : PaperFillRecord) : Prop :=
  fr_fill_quantity f = dec_of_Z (rq_quantity r) /\ fr_side f = rq_side r /\
  fr_instrument_id f = rq_instrument_id r /\ (0 < dval (fr_fill_price f))%Q.

Definition entry_ok (b : PaperOrderBook) (k : UUID * string) : Prop :=
  match bk_submissions b !! k with
  | None => fills_for k b = []
  | Some s =>
      request_key (sr_request s) = k /\ rq_trading_mode (sr_request s) = tm_PAPER /\
      0 < rq_quantity (sr_request s) /\
      ((bo_status (sr_response s) = bs_ACCEPTED /\
        exists f, fills_for k b = [f] /\ fill_of_request (sr_request s) f) \/
       (bo_status (sr_response s) = bs_REJECTED /\ fills_for k b = []))
  end.

(** One fill per accepted submission, none otherwise; fills are numbered in
    order; the drain never passes the end of the log. *)
Record book_inv (b : PaperOrderBook) : Prop := {
  inv_entries : forall k, entry_ok b k;
  inv_sequence : bk_sequence b = Z.of_nat (List.length (bk_fills b));
  inv_numbering : forall i f, bk_fills b !! i = Some f -> fr_sequence f = Z.of_nat i;
  inv_pending : (bk_pending_index b <= List.length (bk_events b))%nat;
}.

Lemma empty_book_inv : book_inv empty_book.
Proof. split; try done. Qed.

(** What the events of a submission look like. *)
Inductive simulator_events (request : BrokerOrderRequest) (oid : UUID) (now : datetime)
    : BrokerOrderStatus -> list BrokerOrderEvent -> Prop :=
| se_rejected e :
    ev_order_id e = oid -> ev_event_type e = ev_REJECTED -> ev_occurred_at e = now ->
    BrokerOrderEvent_post_init e = Ok tt ->
    simulator_events request oid now bs_REJECTED [e]
| se_accepted a f :
    ev_order_id a = oid -> ev_event_type a = ev_BROKER_ACKNOWLEDGED -> ev_occurred_at a = now ->
    BrokerOrderEvent_post_init a = Ok tt ->
    ev_order_id f = oid -> ev_event_type f = ev_FILL -> ev_occurred_at f = now ->
    BrokerOrderEvent_post_init f = Ok tt ->
    ev_fill_quantity f = dec_of_Z (rq_quantity request) ->
    simulator_events request oid now bs_ACCEPTED [a; f].

(** The fill event carries the fill price. *)
Definition priced (evs : list BrokerOrderEvent) (p : decimal) : Prop :=
  exists a f, evs = [a; f] /\ ev_metadata f !! "paper_fill_price"%string = Some (PStr (dec_str p)).

(** The fill policy's price for the request. *)
Definition decided (request : BrokerOrderRequest) (ref : option PaperReferencePrice) (p : decimal)
    : Prop :=
  exists rp d, ref = Some rp /\ decide_fill request rp = Ok d /\ fd_fills d = true /\
    fd_fill_price d = Some p.

(** The book after a new submission was recorded. *)
Definition recorded_book (request : BrokerOrderRequest) (s : SubmissionRecord)
    (new_fills : list PaperFillRecord) (b b' : PaperOrderBook) : Prop :=
  bk_submissions b' = <[request_key request := s]> (bk_submissions b) /\
  bk_events b' = bk_events b ++ sr_events s /\ bk_fills b' = bk_fills b ++ new_fills /\
  bk_pending_index b' = bk_pending_index b /\
  bk_sequence b' = bk_sequence b + Z.of_nat (List.length new_fills).

Lemma mk_event_ok oid t at_ reason bo q m e :
  mk_BrokerOrderEvent oid t at_ reason bo q m = Ok e ->
  ev_order_id e = oid /\ ev_event_type e = t /\ ev_occurred_at e = at_ /\
  ev_fill_quantity e = q /\ ev_metadata e = m /\ BrokerOrderEvent_post_init e = Ok tt.
Proof.
  unfold mk_BrokerOrderEvent. intros H. res_inv. destruct a. done.
Qed.

Lemma book_reject_spec request oid now reason b r b' :
  book_reject request oid now reason b = (r, b') ->
  match r with
  | Ok resp => exists s, recorded_book request s [] b b' /\ sr_request s = request /\
      sr_response s = resp /\ bo_status resp = bs_REJECTED /\
      simulator_events request oid now bs_REJECTED (sr_events s)
  | Err _ => b' = b
  end.
Proof.
  unfold book_reject, bind, lift. destruct (mk_BrokerOrderEvent _ _ _ _ _ _ _) as [e|x] eqn:E.
  - intros [= <- <-]. apply mk_event_ok in E as (? & ? & ? & _ & _ & ?).
    eexists. split_and!; [split_and!; simpl; [done|done|by rewrite app_nil_r|done|lia]|done..|by constructor].
  - by intros [= <- <-].
Qed.

Lemma accept_and_fill_spec request oid now p b r b' :
  accept_and_fill request oid now p b = (r, b') ->
  match r with
  | Ok resp => exists s f, recorded_book request s [f] b b' /\ sr_request s = request /\
      sr_response s = resp /\ bo_status resp = bs_ACCEPTED /\
      simulator_events request oid now bs_ACCEPTED (sr_events s) /\
      fill_key f = request_key request /\ fill_of_request request f /\
      fr_sequence f = bk_sequence b /\ priced (sr_events s) p /\ fr_fill_price f = p
  | Err _ => b' = b
  end.
Proof.
  unfold accept_and_fill, bind, lift.
  destruct (mk_BrokerOrderEvent _ ev_BROKER_ACKNOWLEDGED _ _ _ _ _) as [a|x] eqn:Ea; [|by intros [= <- <-]].
  destruct (mk_BrokerOrderEvent _ ev_FILL _ _ _ _ _) as [f|x] eqn:Ef; [|by intros [= <- <-]].
  unfold gets. destruct (mk_PaperFillRecord _) as [fr|x] eqn:Er; [|by intros [= <- <-]].
  intros [= <- <-]. apply mk_event_ok in Ea as (? & ? & ? & _ & _ & ?).
  apply mk_event_ok in Ef as (? & ? & ? & ? & Hmeta & ?).
  unfold mk_PaperFillRecord in Er. res_inv. simpl in *.
  eexists _, _. split_and!;
    [split_and!; simpl; done | done | done | done | by constructor | done | | done | | done];
    [|exists a, f; split; [done | by rewrite Hmeta, lookup_insert_eq]].
  split_and!; try done. simpl.
  match goal with H : dle p dzero = false |- _ => by rewrite dle_false, dval_zero in H end.
Qed.

Section BookTheorems.
Context (clock : nat -> datetime).

(** A book that only read the clock. *)
Definition same_book (b b' : PaperOrderBook) : Prop :=
  bk_submissions b' = bk_submissions b /\ bk_events b' = bk_events b /\
  bk_fills b' = bk_fills b /\ bk_pending_index b' = bk_pending_index b /\
  bk_sequence b' = bk_sequence b.

Lemma same_book_inv b b' : same_book b b' -> book_inv b -> book_inv b'.
Proof.
  intros (E1 & E2 & E3 & E4 & E5) [H1 H2 H3 H4].
  split; rewrite ?E2, ?E3, ?E4, ?E5; try done.
  intros k. specialize (H1 k). unfold entry_ok, fills_for in *. by rewrite E1, E3.
Qed.

Lemma recorded_after b0 b b' request s new :
  same_book b0 b -> recorded_book request s new b b' -> recorded_book request s new b0 b'.
Proof. intros (E1 & E2 & E3 & E4 & E5). unfold recorded_book. by rewrite E1, E2, E3, E4, E5. Qed.

(** A new submission, as the book records it. *)
Inductive submitted (request : BrokerOrderRequest) (ref : option PaperReferencePrice)
    (b b' : PaperOrderBook) : BrokerOrderResponse -> Prop :=
| sub_rejected s oid now :
    recorded_book request s [] b b' -> sr_request s = request ->
    bo_status (sr_response s) = bs_REJECTED ->
    oid = paper_order_id (rq_broker_account_id request) (rq_client_order_id request) ->
    dt_aware now = true -> simulator_events request oid now bs_REJECTED (sr_events s) ->
    submitted request ref b b' (sr_response s)
| sub_filled s f oid now :
    recorded_book request s [f] b b' -> sr_request s = request ->
    bo_status (sr_response s) = bs_ACCEPTED ->
    oid = paper_order_id (rq_broker_account_id request) (rq_client_order_id request) ->
    dt_aware now = true -> simulator_events request oid now bs_ACCEPTED (sr_events s) ->
    fill_key f = request_key request -> fill_of_request request f ->
    fr_sequence f = bk_sequence b -> priced (sr_events s) (fr_fill_price f) ->
    decided request ref (fr_fill_price f) ->
    submitted request ref b b' (sr_response s).

Lemma fill_or_reject_spec request now ref b r b' :
  let oid := paper_order_id (rq_broker_account_id request) (rq_client_order_id request) in
  dt_aware now = true -> fill_or_reject request oid now ref b = (r, b') ->
  match r with
  | Ok resp => submitted request ref b b' resp
  | Err _ => b' = b
  end.
Proof.
  intros oid Hnow E.
  assert (forall reason, book_reject request oid now reason b = (r, b') ->
    match r with Ok resp => submitted request ref b b' resp | Err _ => b' = b end) as Hrej.
  { intros reason Er. apply book_reject_spec in Er. destruct r as [resp|]; [|done].
    destruct Er as (s & Hb & Hs & <- & Hst & Hev). by eapply sub_rejected. }
  unfold fill_or_reject in E. destruct ref as [ref|]; [|by eapply Hrej].
  destruct (negb _); [by injection E as <- <-|].
  destruct (decide_fill request ref) as [d|e] eqn:Ed.
  - destruct (fd_fills d) eqn:Hfills; [|by eapply Hrej].
    destruct (fd_fill_price d) as [p|] eqn:Hprice; [|by injection E as <- <-].
    apply accept_and_fill_spec in E. destruct r as [resp|]; [|done].
    destruct E as (s & f & Hb & Hs & <- & Hst & Hev & Hk & Hf & Hq & Hpr & <-).
    eapply sub_filled; try done. by exists ref, d.
  - destruct (isinstance e UnsupportedOrderTypeError); [by eapply Hrej | by injection E as <- <-].
Qed.

Lemma resolve_order_id_ok request oid : resolve_order_id request = Ok oid ->
  oid = paper_order_id (rq_broker_account_id request) (rq_client_order_id request).
Proof.
  unfold resolve_order_id. intros Ho. repeat case_match; try done; by res_inv.
Qed.

(** Every call of [submit]. *)
Lemma book_submit_spec request ref b r b' :
  book_submit clock request ref b = (r, b') ->
  match r with
  | Ok resp =>
      rq_trading_mode request = tm_PAPER /\ 0 < rq_quantity request /\
      match bk_submissions b !! request_key request with
      | Some s => b' = b /\ resp = sr_response s /\ payload_difference (sr_request s) request = None
      | None => submitted request ref b b' resp
      end
  | Err _ => same_book b b'
  end.
Proof.
  unfold book_submit. intros E. assert (same_book b b) as Hsame by done.
  case_bool_decide as Hm; simpl in E; [|by injection E as <- <-].
  destruct (is_blank _); [by injection E as <- <-|].
  destruct (Z.leb_spec (rq_quantity request) 0); [by injection E as <- <-|].
  unfold bind at 1, lift in E. destruct (resolve_order_id request) as [oid|e] eqn:Eo; [|by injection E as <- <-].
  apply resolve_order_id_ok in Eo. unfold bind at 1, gets in E.
  destruct (bk_submissions b !! request_key request) as [s|] eqn:Es.
  - unfold bind, lift, assert_identical_payload in E.
    destruct (payload_difference (sr_request s) request) as [x|] eqn:Ep; by injection E as <- <-.
  - unfold bind, book_now, check_now in E. set (b1 := Build_PaperOrderBook _ _ _ _ _ _) in E.
    assert (same_book b b1) as Hb1 by done.
    destruct (dt_aware (clock (bk_tick b))) eqn:Ea; [|by injection E as <- <-]. cbn in E.
    rewrite Eo in E. pose proof (fill_or_reject_spec _ _ _ _ _ _ Ea E) as Hs.
    destruct r as [resp|e]; [|by rewrite Hs]. split_and!; [done..|].
    destruct Hs as [s oid' now Hb|s f oid' now Hb]; [eapply sub_rejected | eapply sub_filled];
      try done; by eapply recorded_after.
Qed.

Lemma fills_for_app k b b' new : bk_fills b' = bk_fills b ++ new ->
  fills_for k b' = fills_for k b ++ List.filter (fun f => bool_decide (fill_key f = k)) new.
Proof. intros E. unfold fills_for. by rewrite E, List.filter_app. Qed.

Lemma submitted_inv request ref b b' resp :
  book_inv b -> rq_trading_mode request = tm_PAPER -> 0 < rq_quantity request ->
  bk_submissions b !! request_key request = None -> submitted request ref b b' resp -> book_inv b'.
Proof.
  intros [He Hseq Hnum Hp] Hm Hq Hnone Hsub.
  assert (fills_for (request_key request) b = []) as Hno
    by (specialize (He (request_key request)); unfold entry_ok in He; by rewrite Hnone in He).
  destruct Hsub as [s oid now (E1 & E2 & E3 & E4 & E5) Hs Hst _ _ _
                   |s f oid now (E1 & E2 & E3 & E4 & E5) Hs Hst _ _ _ Hk Hf Hfs].
  - split; rewrite ?E2, ?E3, ?E4, ?E5, ?app_nil_r; try done; [| simpl; lia | rewrite length_app; lia].
    intros k. unfold entry_ok. rewrite E1, (fills_for_app _ b b' _ E3). simpl. rewrite app_nil_r.
    destruct (decide (k = request_key request)) as [->|Hne].
    + rewrite lookup_insert_eq. rewrite Hs. split_and!; [done..|]. by right.
    + rewrite lookup_insert_ne by done. exact (He k).
  - split; rewrite ?E2, ?E3, ?E4, ?E5; rewrite ?length_app; simpl; [| lia | | lia].
    + intros k. unfold entry_ok. rewrite E1, (fills_for_app _ b b' _ E3). simpl.
      destruct (decide (k = request_key request)) as [->|Hne].
      * rewrite lookup_insert_eq, Hno, bool_decide_true by done. simpl. rewrite Hs.
        split_and!; [done..|]. left. split; [done|]. by exists f.
      * rewrite lookup_insert_ne by done. rewrite bool_decide_false by congruence.
        rewrite app_nil_r. exact (He k).
    + intros i g Hi. apply lookup_app_Some in Hi as [Hi|[Hle Hi]]; [by apply Hnum|].
      apply list_lookup_singleton_Some in Hi as [Hi <-]. rewrite Hfs, Hseq. lia.
Qed.

Lemma book_submit_inv request ref : preserves book_inv (book_submit clock request ref).
Proof.
  intros b Hb. destruct (book_submit clock request ref b) as [r b'] eqn:E.
  apply book_submit_spec in E. simpl. destruct r as [resp|e]; [|by eapply same_book_inv].
  destruct E as (Hm & Hq & E). destruct (bk_submissions b !! request_key request) as [s|] eqn:Es.
  - by destruct E as [-> _].
  - by eapply submitted_inv.
Qed.

Definition run_submit (b : PaperOrderBook) (call : BrokerOrderRequest * option PaperReferencePrice)
    : PaperOrderBook := snd (book_submit clock call.1 call.2 b).

(** After any sequence of submissions to the paper book, accepted, refused
    or raising, and whatever the clock returns: every accepted submission has
    exactly one fill, of its own quantity, side and instrument and at a
    positive price; a rejected or unknown client order id has none; every
    recorded order is a PAPER order; and the fill trail is numbered without
    gaps. *)
Theorem paper_fills_once calls : book_inv (foldl run_submit empty_book calls).
Proof.
  assert (forall b, book_inv b -> book_inv (foldl run_submit b calls)) as H
    by (induction calls as [|c calls IH]; intros b Hb; [done|]; apply IH; by apply book_submit_inv).
  apply H, empty_book_inv.
Qed.

Definition answered (k : UUID * string) (resp : BrokerOrderResponse) (b : PaperOrderBook) : Prop :=
  exists s, bk_submissions b !! k = Some s /\ sr_response s = resp /\ request_key (sr_request s) = k.

Lemma answered_first request ref b resp b1 : book_inv b ->
  book_submit clock request ref b = (Ok resp, b1) -> answered (request_key request) resp b1.
Proof.
  intros [He _ _ _] E. apply book_submit_spec in E as (_ & _ & E).
  specialize (He (request_key request)). unfold entry_ok in He.
  destruct (bk_submissions b !! request_key request) as [s|] eqn:Es.
  - destruct E as (-> & -> & _). exists s. by destruct He as [? _].
  - destruct E as [s ? ? [E _] Hs|s f ? ? [E _] Hs]; exists s;
      (split_and!; [by rewrite E, lookup_insert_eq | done | by rewrite Hs]).
Qed.

Lemma answered_kept k resp b c : answered k resp b -> answered k resp (run_submit b c).
Proof.
  intros (s & Hs & Hr). exists s. split; [|done]. unfold run_submit.
  destruct (book_submit clock c.1 c.2 b) as [x b'] eqn:E. apply book_submit_spec in E. simpl.
  destruct x as [y|]; [|by destruct E as [-> _]]. destruct E as (_ & _ & E).
  destruct (bk_submissions b !! request_key c.1) eqn:Ec; [by destruct E as [-> _]|].
  destruct E as [s' ? ? [E _]|s' f ? ? [E _]]; rewrite E; rewrite lookup_insert_ne; congruence.
Qed.

(** Client order ids are idempotency keys: once a submission was answered,
    any later submission under the same account and client order id, after any
    other traffic, leaves the book as it is, and either returns the recorded
    response, in which case its payload is that of the original, or raises. *)
Theorem paper_submit_idempotent request ref b resp b1 calls request2 ref2 r b2 :
  book_inv b -> book_submit clock request ref b = (Ok resp, b1) ->
  request_key request2 = request_key request ->
  book_submit clock request2 ref2 (foldl run_submit b1 calls) = (r, b2) ->
  same_book (foldl run_submit b1 calls) b2 /\
  match r with
  | Ok resp2 => resp2 = resp /\ exists original, request_key original = request_key request /\
      payload_difference original request2 = None
  | Err _ => True
  end.
Proof.
  intros Hb E1 Hk E2. apply (answered_first _ _ _ _ _ Hb) in E1.
  assert (answered (request_key request) resp (foldl run_submit b1 calls)) as (s & Hs & Hr & Hkey).
  { revert b1 E1 E2. induction calls as [|c calls IH]; intros b1 E1 E2; [done|].
    apply IH; [by apply answered_kept | done]. }
  apply book_submit_spec in E2. destruct r as [resp2|e]; [|done].
  destruct E2 as (_ & _ & E2). rewrite Hk, Hs in E2. destruct E2 as (-> & -> & Hp).
  split; [done|]. split; [done|]. by exists (sr_request s).
Qed.

(** ** The book drives the execution engine's order state *)

Definition order_progress (s : OrderExecutionState) (st : OrderState) (q f : decimal) : Prop :=
  lc_state (xs_lifecycle s) = st /\ xs_order_quantity s = q /\ xs_filled_quantity s = f.

Lemma event_reason_ok e : BrokerOrderEvent_post_init e = Ok tt ->
  dt_aware (ev_occurred_at e) = true /\ is_blank (ev_reason e) = false.
Proof.
  unfold BrokerOrderEvent_post_init, require_timezone. intros Hp. res_inv. split; [|done].
  by apply negb_false_iff.
Qed.

Lemma with_transition_ok s e to filled eid :
  to ∈ ALLOWED_TRANSITIONS (lc_state (xs_lifecycle s)) ->
  BrokerOrderEvent_post_init e = Ok tt -> (0 < dval (xs_order_quantity s))%Q ->
  let f := default (xs_filled_quantity s) filled in
  (0 <= dval f)%Q -> (dval f <= dval (xs_order_quantity s))%Q ->
  exists s', with_transition s e to filled eid = Ok s' /\
    order_progress s' to (xs_order_quantity s) f /\
    lc_order_id (xs_lifecycle s') = lc_order_id (xs_lifecycle s).
Proof.
  intros Hin Hp Hq f Hf0 Hfq. apply event_reason_ok in Hp as [Ha Hr]. unfold with_transition.
  destruct (transition_to_total (xs_lifecycle s) to (ev_occurred_at e) (ev_reason e)
              (transition_metadata e) eid Hin Ha Hr) as (lc' & E & Hst & _).
  pose proof (transition_to_inv _ _ _ _ _ _ _ E) as (_ & Hoid & _).
  rewrite E. simpl. unfold mk_OrderExecutionState, OrderExecutionState_post_init. simpl.
  fold f.
  assert (dle (xs_order_quantity s) dzero = false) as -> by (rewrite dle_false, dval_zero; done).
  assert (dlt f dzero = false) as -> by (rewrite dlt_false, dval_zero; done).
  assert (dgt f (xs_order_quantity s) = false) as -> by (by apply dlt_false).
  simpl. by eexists.
Qed.

(** A rejection or an acknowledgement moves a pending order without a fill. *)
Lemma apply_plain_event s e eid (ty : OrderEventType) to :
  (ty = ev_REJECTED /\ to = REJECTED) \/ (ty = ev_BROKER_ACKNOWLEDGED /\ to = BROKER_ACKNOWLEDGED) ->
  BrokerOrderEvent_post_init e = Ok tt -> ev_event_type e = ty ->
  ev_order_id e = lc_order_id (xs_lifecycle s) ->
  lc_state (xs_lifecycle s) = SUBMISSION_REQUESTED ->
  (0 < dval (xs_order_quantity s))%Q -> xs_filled_quantity s = dzero ->
  exists s', apply_event s e eid = Ok s' /\
    order_progress s' to (xs_order_quantity s) dzero /\
    lc_order_id (xs_lifecycle s') = lc_order_id (xs_lifecycle s).
Proof.
  intros Hty Hp He Hid Hst Hq Hf. unfold apply_event. rewrite Hid, N.eqb_refl, He. simpl.
  destruct (with_transition_ok s e to None eid) as (s1 & E1 & P1 & P2); simpl; rewrite ?Hst, ?Hf, ?dval_zero;
    try done; try lra.
  - destruct Hty as [[_ ->]|[_ ->]]; repeat constructor.
  - exists s1. simpl in P1. rewrite Hf in P1. by destruct Hty as [[-> ->]|[-> ->]].
Qed.

(** A fill of the whole quantity completes an acknowledged order. *)
Lemma apply_whole_fill s e eid q : 0 < q < 10 ^ 28 ->
  BrokerOrderEvent_post_init e = Ok tt -> ev_event_type e = ev_FILL ->
  ev_fill_quantity e = dec_of_Z q ->
  ev_order_id e = lc_order_id (xs_lifecycle s) ->
  order_progress s BROKER_ACKNOWLEDGED (dec_of_Z q) dzero ->
  exists s', apply_event s e eid = Ok s' /\ lc_state (xs_lifecycle s') = FILLED /\
    (dval (xs_filled_quantity s') == inject_Z q)%Q.
Proof.
  intros Hq Hp He Hfill Hid (P1 & P2 & P3). unfold apply_event. rewrite Hid, N.eqb_refl, He. simpl.
  unfold apply_fill. rewrite Hfill, P3. simpl.
  assert (dval (dadd dzero (dec_of_Z q)) == inject_Z q)%Q as Hsum.
  { change dzero with (dec_of_Z 0). rewrite dadd_of_Z; [done|]. unfold fits. lia. }
  assert (0 < inject_Z q)%Q as Hpos by (change 0%Q with (inject_Z 0); rewrite <- Zlt_Qlt; lia).
  assert (deq (dadd dzero (dec_of_Z q)) (xs_order_quantity s) = true) as ->.
  { apply deq_spec. by rewrite Hsum, P2, dval_of_Z. }
  simpl. destruct (with_transition_ok s e FILLED (Some (dadd dzero (dec_of_Z q))) eid)
    as (s2 & E2 & (Q1 & Q2 & Q3) & _); rewrite ?P1, ?P2; try done; simpl.
  - repeat constructor.
  - by rewrite dval_of_Z.
  - rewrite Hsum. lra.
  - rewrite Hsum, dval_of_Z. lra.
  - exists s2. split; [done|]. split; [done|]. by rewrite Q3.
Qed.

(** C17: The paper book refines the order lifecycle: the events it emits for a
    new submission, applied in order to an order of the same id and quantity
    that awaits its broker (any quantity below 10^28), are all accepted and
    take it to a terminal state: FILLED with exactly the order quantity for an
    ACCEPTED response, REJECTED with no fill for a REJECTED one. *)
Theorem paper_events_complete_order request ref b resp b' lc s0 e1 e2 :
  bk_submissions b !! request_key request = None ->
  book_submit clock request ref b = (Ok resp, b') ->
  rq_quantity request < 10 ^ 28 ->
  lc_order_id lc = paper_order_id (rq_broker_account_id request) (rq_client_order_id request) ->
  lc_state lc = SUBMISSION_REQUESTED ->
  mk_OrderExecutionState lc (dec_of_Z (rq_quantity request)) dzero None = Ok s0 ->
  let evs := book_events_for (rq_broker_account_id request) (rq_client_order_id request) b' in
  bk_events b' = bk_events b ++ evs /\
  exists s, apply_events s0 (zip evs [e1; e2]) = Ok s /\ is_terminal (xs_lifecycle s) = true /\
    match bo_status resp with
    | bs_ACCEPTED => lc_state (xs_lifecycle s) = FILLED /\
        (dval (xs_filled_quantity s) == inject_Z (rq_quantity request))%Q
    | _ => lc_state (xs_lifecycle s) = REJECTED /\ (dval (xs_filled_quantity s) == 0)%Q
    end.
Proof.
  intros Hnone E Hbig Hoid Hst Hmk evs.
  apply book_submit_spec in E as (_ & Hq & E). rewrite Hnone in E.
  assert (order_progress s0 SUBMISSION_REQUESTED (dec_of_Z (rq_quantity request)) dzero /\
          lc_order_id (xs_lifecycle s0) = lc_order_id lc) as [(H1 & H2 & H3) H4].
  { unfold mk_OrderExecutionState in Hmk. res_inv. by split. }
  assert (0 < dval (dec_of_Z (rq_quantity request)))%Q as Hpos
    by (rewrite dval_of_Z; change 0%Q with (inject_Z 0); by rewrite <- Zlt_Qlt).
  assert (forall s, bk_submissions b' = <[request_key request := s]> (bk_submissions b) ->
    evs = sr_events s) as Hevs.
  { intros s Es. unfold evs, book_events_for.
    change (rq_broker_account_id request, rq_client_order_id request) with (request_key request).
    by rewrite Es, lookup_insert_eq. }
  destruct E as [s oid now (Es & Ee & _) _ Hsta -> Haw Hev|s f oid now (Es & Ee & _) _ Hsta -> Haw Hev _ _ _];
    rewrite Hsta, (Hevs s Es); (split; [done|]); rewrite <- Hoid in Hev; inversion Hev; subst.
  - destruct (apply_plain_event s0 e e1 ev_REJECTED REJECTED) as (s1 & E1 & (P1 & P2 & P3) & _);
      rewrite ?H2; try done; [by left | congruence|].
    simpl. rewrite apply_events_cons. simpl. rewrite E1. exists s1. unfold is_terminal. by rewrite P1, P3.
  - destruct (apply_plain_event s0 a e1 ev_BROKER_ACKNOWLEDGED BROKER_ACKNOWLEDGED) as (s1 & E1 & P1 & P2);
      rewrite ?H2; try done; [by right | congruence|]. rewrite H2 in P1.
    destruct (apply_whole_fill s1 f0 e2 (rq_quantity request)) as (s2 & E2 & Q1 & Q2);
      try done; [congruence|].
    simpl. rewrite apply_events_cons. simpl. rewrite E1. simpl. rewrite apply_events_cons. simpl. rewrite E2.
    exists s2. unfold is_terminal. by rewrite Q1.
Qed.
End BookTheorems.

(** The mode router answers exactly for PAPER and BACKTEST while no halt is
    active and live trading is off: LIVE is never a result, and every other
    mode, a halt, or the live flag raise. *)
Theorem router_never_selects_live halt live mode p :
  router_resolve halt live mode = Ok p <->
  halt = false /\ live = false /\
  ((py_upper (default "" mode) = "PAPER"%string /\ p = xp_PAPER) \/
   (py_upper (default "" mode) = "BACKTEST"%string /\ p = xp_BACKTEST)).
Proof.
  unfold router_resolve, resolve_provider. set (m := py_upper (default "" mode)).
  destruct halt; [split; [done | by intros [? _]]|]. destruct live; [split; [done | by intros (_ & ? & _)]|].
  simpl. destruct (String.eqb_spec m "LIVE") as [->|]; [split; [done | by intros (_ & _ & [[? _]|[? _]])]|].
  destruct (String.eqb_spec m "PAPER") as [->|].
  { split; [intros [= <-]; by auto | intros (_ & _ & [[_ ->]|[? _]]); done]. }
  destruct (String.eqb_spec m "BACKTEST") as [->|].
  { split; [intros [= <-]; by auto | intros (_ & _ & [[? _]|[_ ->]]); done]. }
  split; [done|]. by intros (_ & _ & [[? _]|[? _]]).
Qed.

Module PaperSample.
Open Scope string_scope.
Definition clock (n : nat) : datetime := utc (1000000 * Z.of_nat n).
Definition account : UUID := 7.

Definition reference : PaperReferencePrice :=
  {| rp_instrument_id := 3; rp_last := Dec false 10050 (-2); rp_bid := Some (Dec false 10045 (-2));
     rp_ask := Some (Dec false 10055 (-2)); rp_reference_at := utc 0 |}.

Definition order (x : string) (side : OrderSide) (t : OrderType) (q : Z) (limit : option decimal)
    : BrokerOrderRequest :=
  {| rq_broker_account_id := account; rq_instrument_id := 3; rq_trading_mode := tm_PAPER;
     rq_client_order_id := x; rq_side := side; rq_order_type := t; rq_quantity := q;
     rq_risk_approval_id := "r"; rq_limit_price := limit; rq_stop_price := None;
     rq_metadata := {["order_id" := PStr (uuid_str (paper_order_id account x))]} |}.

Definition buy_limit := order "c1" sd_BUY LIMIT 10 (Some (Dec false 101 0)).

Lemma fill_policy_witness :
  exists d, decide_fill buy_limit reference = Ok d /\
    match fd_fill_price d with
    | Some p => fd_fills d = true /\ executable buy_limit reference p /\ (0 < dval p)%Q /\
                fd_fill_quantity d = dec_of_Z 10
    | None => fd_fills d = false /\ forall p, ~ executable buy_limit reference p
    end.
Proof.
  exact (fill_policy_price_protection buy_limit reference eq_refl eq_refl (or_intror eq_refl)).
Defined.

Definition first_run : res BrokerOrderResponse * PaperOrderBook :=
  Eval vm_compute in book_submit clock buy_limit (Some reference) empty_book.
Definition first_response : BrokerOrderResponse :=
  Eval vm_compute in match fst first_run with
                     | Ok r => r
                     | Err _ => {| bo_status := bs_UNKNOWN; bo_client_order_id := "";
                                   bo_broker_order_id := None; bo_accepted_at := utc 0;
                                   bo_reason := None |}
                     end.

Lemma paper_first_run_eq :
  book_submit clock buy_limit (Some reference) empty_book = (Ok first_response, snd first_run).
Proof. vm_compute. reflexivity. Qed.

(** A retry after a refused order of another id. *)
Definition traffic : list (BrokerOrderRequest * option PaperReferencePrice) :=
  [(order "c2" sd_SELL STOP 5 None, Some reference)].
Definition second_run : res BrokerOrderResponse * PaperOrderBook :=
  Eval vm_compute in book_submit clock buy_limit None
                       (foldl (run_submit clock) (snd first_run) traffic).

Lemma idempotent_witness :
  same_book (foldl (run_submit clock) (snd first_run) traffic) (snd second_run) /\
  match fst second_run with
  | Ok resp2 => resp2 = first_response /\
      exists original, request_key original = request_key buy_limit /\
        payload_difference original buy_limit = None
  | Err _ => True
  end.
Proof.
  exact (paper_submit_idempotent clock buy_limit (Some reference) empty_book first_response
           (snd first_run) traffic buy_limit None (fst second_run) (snd second_run)
           empty_book_inv paper_first_run_eq eq_refl ltac:(vm_compute; reflexivity)).
Defined.

Definition lc : OrderLifecycle :=
  {| lc_order_id := paper_order_id account "c1"; lc_state := SUBMISSION_REQUESTED;
     lc_transitions := [] |}.
Definition s0 : OrderExecutionState :=
  {| xs_lifecycle := lc; xs_order_quantity := dec_of_Z 10; xs_filled_quantity := dzero;
     xs_broker_order_id := None |}.

Lemma paper_events_witness :
  exists s, apply_events s0 (zip (book_events_for account "c1" (snd first_run)) [21%N; 22%N]) = Ok s /\
    lc_state (xs_lifecycle s) = FILLED.
Proof.
  destruct (paper_events_complete_order clock buy_limit (Some reference) empty_book first_response
              (snd first_run) lc s0 21 22 eq_refl paper_first_run_eq ltac:(vm_compute; reflexivity)
              ltac:(vm_compute; reflexivity) eq_refl ltac:(vm_compute; reflexivity))
    as (_ & s & Hs & _ & Hf & _).
  exists s. split; [exact Hs | exact Hf].
Defined.
End PaperSample.
