(* ===== verification/PaperService.v ===== *)
(** Paper trading, the account side
    (services/paper_trading/alpha_algo_paper_runtime): costs.py, funds.py,
    account.py, run.py and service.py over the paper broker of [Paper].

    The repository that makes the funds durable is an interface
    ([PaperRepository]); the service reads its own injected clock.  The
    coroutines of the source run to completion one after another, so they are
    ordinary calls here. *)

From stdpp Require Import base list strings gmap.
From Stdlib Require Import ZArith Lia String Ascii QArith Qabs Lqa.
From S2P Require Import Prelude.
From S2P Require Import PyBase.
From S2P Require Import Hashing.
From S2P Require Import Decimal.
From S2P Require Import DecimalText.
From S2P Require Import Lifecycle.
From S2P Require Import Paper.
Open Scope Z_scope.

(** * costs.py *)

Definition PRICE_QUANTUM : decimal := Dec false 1 (-4).
Definition MONEY_QUANTUM : decimal := Dec false 1 (-2).

Inductive SlippageModel := sl_ZERO | sl_FIXED_BPS.
Inductive CommissionModel := cm_ZERO | cm_FIXED_PER_TRADE.

Record PaperCostModel := {
  co_slippage : SlippageModel;
  co_slippage_bps : decimal;
  co_commission : CommissionModel;
  co_commission_per_trade : decimal;
}.

Definition mk_PaperCostModel (c : PaperCostModel) : res PaperCostModel :=
  raise_if (dlt (co_slippage_bps c) dzero) ValueError "slippage_bps cannot be negative" ;!
  raise_if (dlt (co_commission_per_trade c) dzero) ValueError
    "commission_per_trade cannot be negative" ;!
  raise_if (match co_slippage c with
            | sl_ZERO => negb (deq (co_slippage_bps c) dzero)
            | sl_FIXED_BPS => false
            end) ValueError "ZERO slippage model cannot carry a non-zero bps" ;!
  raise_if (match co_commission c with
            | cm_ZERO => negb (deq (co_commission_per_trade c) dzero)
            | cm_FIXED_PER_TRADE => false
            end) ValueError "ZERO commission model cannot carry a non-zero per-trade fee" ;!
  Ok c.

Definition apply_slippage (price : decimal) (side : string) (model : PaperCostModel)
    : res decimal :=
  match co_slippage model with
  | sl_ZERO => Ok price
  | sl_FIXED_BPS =>
      let! rate := ddiv (co_slippage_bps model) (dec_of_Z 10000) in
      let factor := if String.eqb side "SELL" then dsub (dec_of_Z 1) rate
                    else dadd (dec_of_Z 1) rate in
      quantize (dmul price factor) PRICE_QUANTUM
  end.

Definition commission_amount (notional : decimal) (model : PaperCostModel) : res decimal :=
  match co_commission model with
  | cm_ZERO => Ok dzero
  | cm_FIXED_PER_TRADE => quantize (co_commission_per_trade model) MONEY_QUANTUM
  end.

(** * funds.py *)

Record PaperFunds := {
  fu_account_id : UUID;
  fu_available_cash : decimal;
  fu_reserved_cash : decimal;
  fu_currency : string;
}.

Definition mk_PaperFunds (account_id : UUID) (available_cash reserved_cash : decimal)
    (currency : string) : res PaperFunds :=
  raise_if (dlt available_cash dzero) ValueError "available_cash cannot be negative" ;!
  raise_if (dlt reserved_cash dzero) ValueError "reserved_cash cannot be negative" ;!
  Ok {| fu_account_id := account_id; fu_available_cash := available_cash;
        fu_reserved_cash := reserved_cash; fu_currency := currency |}.

Definition total_cash (f : PaperFunds) : decimal := dadd (fu_available_cash f) (fu_reserved_cash f).

Definition reserve (f : PaperFunds) (amount : decimal) : res PaperFunds :=
  raise_if (dle amount dzero) ValueError "reserve amount must be positive" ;!
  raise_if (dgt amount (fu_available_cash f)) ValueError "insufficient available cash to reserve" ;!
  mk_PaperFunds (fu_account_id f) (dsub (fu_available_cash f) amount)
    (dadd (fu_reserved_cash f) amount) (fu_currency f).

Definition release (f : PaperFunds) (amount : decimal) : res PaperFunds :=
  raise_if (dle amount dzero) ValueError "release amount must be positive" ;!
  raise_if (dgt amount (fu_reserved_cash f)) ValueError "release exceeds reserved cash" ;!
  mk_PaperFunds (fu_account_id f) (dadd (fu_available_cash f) amount)
    (dsub (fu_reserved_cash f) amount) (fu_currency f).

Definition settle_buy (f : PaperFunds) (amount : decimal) : res PaperFunds :=
  raise_if (dle amount dzero) ValueError "buy settlement amount must be positive" ;!
  raise_if (dgt amount (fu_reserved_cash f)) ValueError "buy settlement exceeds reserved cash" ;!
  mk_PaperFunds (fu_account_id f) (fu_available_cash f)
    (dsub (fu_reserved_cash f) amount) (fu_currency f).

Definition credit_sell (f : PaperFunds) (amount : decimal) : res PaperFunds :=
  raise_if (dle amount dzero) ValueError "sell proceeds must be positive" ;!
  mk_PaperFunds (fu_account_id f) (dadd (fu_available_cash f) amount)
    (fu_reserved_cash f) (fu_currency f).

(** * account.py and run.py *)

Inductive PaperAccountStatus := as_ACTIVE | as_SUSPENDED | as_RESET.
#[export] Instance PaperAccountStatus_eq_dec : EqDecision PaperAccountStatus.
Proof. solve_decision. Defined.

Definition account_status_value (s : PaperAccountStatus) : string :=
  match s with as_ACTIVE => "ACTIVE" | as_SUSPENDED => "SUSPENDED" | as_RESET => "RESET" end.

Record PaperAccount := {
  ac_account_id : UUID;
  ac_paper_run_id : UUID;
  ac_trading_mode : TradingMode;
  ac_starting_capital : decimal;
  ac_status : PaperAccountStatus;
  ac_created_at : datetime;
  ac_reset_at : option datetime;
}.

Definition mk_PaperAccount (a : PaperAccount) : res PaperAccount :=
  raise_if (negb (bool_decide (ac_trading_mode a = tm_PAPER))) ValueError
    ("paper accounts must use TradingMode.PAPER, got " +:+ trading_mode_value (ac_trading_mode a)) ;!
  raise_if (dle (ac_starting_capital a) dzero) ValueError "starting_capital must be positive" ;!
  require_timezone (ac_created_at a) "created_at" ;!
  match ac_reset_at a with Some t => require_timezone t "reset_at" | None => Ok tt end ;!
  Ok a.

Definition PAPER_RUN_NAMESPACE : UUID := 0x7d1f2c3b4a5e4f6b8c9d0e1f2a3b4c5d%N.

(** [new_paper_run_id]; [fresh] is the value of [uuid4()]. *)
Definition new_paper_run_id (fresh : UUID) (seed : option string) : UUID :=
  match seed with None => fresh | Some s => uuid5 PAPER_RUN_NAMESPACE s end.

(** * service.py *)

Record PaperFillOutcome := {
  fo_client_order_id : string;
  fo_order_id : UUID;
  fo_side : OrderSide;
  fo_instrument_id : UUID;
  fo_quantity : Z;
  fo_fill_price : option decimal;
  fo_effective_price : option decimal;
  fo_commission : decimal;
  fo_net_cash : decimal;
  fo_accepted : bool;
  fo_reason : option string;
  fo_occurred_at : datetime;
}.

Definition mk_PaperFillOutcome (o : PaperFillOutcome) : res PaperFillOutcome :=
  raise_if (negb (dt_aware (fo_occurred_at o))) ValueError "occurred_at must be timezone-aware" ;!
  (if fo_accepted o then
     raise_if (match fo_fill_price o with Some p => dle p dzero | None => true end) ValueError
       "accepted outcome requires a positive fill_price" ;!
     raise_if (match fo_effective_price o with Some p => dle p dzero | None => true end) ValueError
       "accepted outcome requires a positive effective_price"
   else Ok tt) ;!
  Ok o.

(** The durable store of the funds, as the service uses it. *)
Class PaperRepository (R : Type) := {
  save_funds : PaperFunds -> M R unit;
  load_funds : UUID -> M R (option PaperFunds);
}.

Record PaperTradingService (R : Type) := {
  ps_account : PaperAccount;
  ps_broker : PaperBrokerAdapter;
  ps_reference_prices : gmap UUID PaperReferencePrice;
  ps_cost_model : PaperCostModel;
  ps_repository : option R;
  ps_funds : PaperFunds;
  ps_outcomes : list PaperFillOutcome;
  ps_sequence : Z;
  ps_tick : nat;
}.
Arguments ps_account {R} _.
Arguments ps_broker {R} _.
Arguments ps_reference_prices {R} _.
Arguments ps_cost_model {R} _.
Arguments ps_repository {R} _.
Arguments ps_funds {R} _.
Arguments ps_outcomes {R} _.
Arguments ps_sequence {R} _.
Arguments ps_tick {R} _.

Section Service.
Context {R : Type} `{PaperRepository R}.
(** The service's clock and the broker's. *)
Context (clock broker_clock : nat -> datetime).
Abbreviation PS := (PaperTradingService R).

Definition new_service (account : PaperAccount) (broker : PaperBrokerAdapter)
    (prices : gmap UUID PaperReferencePrice) (cost_model : PaperCostModel)
    (repository : option R) : res PS :=
  raise_if (negb (bool_decide (ac_trading_mode account = tm_PAPER))) PaperAdapterError
    "PaperTradingService requires a PAPER account" ;!
  let! restored := match repository with
                   | Some r => fst (load_funds (ac_account_id account) r)
                   | None => Ok None
                   end in
  let! funds := match restored with
                | Some f => Ok f
                | None => mk_PaperFunds (ac_account_id account) (ac_starting_capital account)
                            dzero "INR"
                end in
  Ok {| ps_account := account; ps_broker := broker; ps_reference_prices := prices;
        ps_cost_model := cost_model; ps_repository := repository; ps_funds := funds;
        ps_outcomes := []; ps_sequence := 0; ps_tick := 0 |}.

Definition set_broker (b : PaperBrokerAdapter) (s : PS) : PS :=
  {| ps_account := ps_account s; ps_broker := b; ps_reference_prices := ps_reference_prices s;
     ps_cost_model := ps_cost_model s; ps_repository := ps_repository s; ps_funds := ps_funds s;
     ps_outcomes := ps_outcomes s; ps_sequence := ps_sequence s; ps_tick := ps_tick s |}.

Definition on_broker {T} (m : M PaperBrokerAdapter T) : M PS T := zoom ps_broker set_broker m.

Definition set_funds (f : PaperFunds) : M PS unit :=
  modify (fun s => {|
    ps_account := ps_account s; ps_broker := ps_broker s;
    ps_reference_prices := ps_reference_prices s; ps_cost_model := ps_cost_model s;
    ps_repository := ps_repository s; ps_funds := f; ps_outcomes := ps_outcomes s;
    ps_sequence := ps_sequence s; ps_tick := ps_tick s |}).

Definition append_outcome (o : PaperFillOutcome) : M PS unit :=
  modify (fun s => {|
    ps_account := ps_account s; ps_broker := ps_broker s;
    ps_reference_prices := ps_reference_prices s; ps_cost_model := ps_cost_model s;
    ps_repository := ps_repository s; ps_funds := ps_funds s;
    ps_outcomes := ps_outcomes s ++ [o]; ps_sequence := ps_sequence s; ps_tick := ps_tick s |}).

(** [self._clock()] *)
Definition service_clock : M PS datetime :=
  fun s => (Ok (clock (ps_tick s)),
            {| ps_account := ps_account s; ps_broker := ps_broker s;
               ps_reference_prices := ps_reference_prices s; ps_cost_model := ps_cost_model s;
               ps_repository := ps_repository s; ps_funds := ps_funds s;
               ps_outcomes := ps_outcomes s; ps_sequence := ps_sequence s;
               ps_tick := S (ps_tick s) |}).

Definition next_client_order_id : M PS string :=
  fun s => (Ok ("paper-" +:+ uuid_str (ac_account_id (ps_account s)) +:+ "-" +:+
                str_Z (ps_sequence s + 1)),
            {| ps_account := ps_account s; ps_broker := ps_broker s;
               ps_reference_prices := ps_reference_prices s; ps_cost_model := ps_cost_model s;
               ps_repository := ps_repository s; ps_funds := ps_funds s;
               ps_outcomes := ps_outcomes s; ps_sequence := ps_sequence s + 1;
               ps_tick := ps_tick s |}).

(** [client_order_id or self._next_client_order_id()] *)
Definition or_next_id (client_order_id : option string) : M PS string :=
  match str_or client_order_id None with
  | Some c => ret c
  | None => next_client_order_id
  end.

Definition persist_funds : M PS unit :=
  fun s => match ps_repository s with
           | None => (Ok tt, s)
           | Some r =>
               let '(x, r') := save_funds (ps_funds s) r in
               (x, {| ps_account := ps_account s; ps_broker := ps_broker s;
                      ps_reference_prices := ps_reference_prices s;
                      ps_cost_model := ps_cost_model s; ps_repository := Some r';
                      ps_funds := ps_funds s; ps_outcomes := ps_outcomes s;
                      ps_sequence := ps_sequence s; ps_tick := ps_tick s |})
           end.

Definition service_set_reference_price (instrument_id : UUID) (reference : PaperReferencePrice)
    : M PS unit :=
  modify (fun s => {|
    ps_account := ps_account s; ps_broker := ps_broker s;
    ps_reference_prices := <[instrument_id := reference]> (ps_reference_prices s);
    ps_cost_model := ps_cost_model s; ps_repository := ps_repository s; ps_funds := ps_funds s;
    ps_outcomes := ps_outcomes s; ps_sequence := ps_sequence s; ps_tick := ps_tick s |}) ;*
  on_broker (broker_set_reference_price instrument_id reference).

Definition reject_without_fill (instrument_id : UUID) (side : OrderSide) (quantity : Z)
    (client_order_id : option string) (reason : string) : M PS PaperFillOutcome :=
  let* client_order_id := or_next_id client_order_id in
  let* account := gets ps_account in
  let* occurred_at := service_clock in
  let* outcome := lift (mk_PaperFillOutcome
    {| fo_client_order_id := client_order_id;
       fo_order_id := paper_order_id (ac_account_id account) client_order_id;
       fo_side := side; fo_instrument_id := instrument_id; fo_quantity := quantity;
       fo_fill_price := None; fo_effective_price := None; fo_commission := dzero;
       fo_net_cash := dzero; fo_accepted := false; fo_reason := Some reason;
       fo_occurred_at := occurred_at |}) in
  append_outcome outcome ;*
  ret outcome.

(** What a buy would cost now; no commitment when the broker will reject. *)
Definition can_afford (request : BrokerOrderRequest) (reference : PaperReferencePrice)
    (quantity : Z) (funds : PaperFunds) (cost_model : PaperCostModel) : res bool :=
  match decide_fill request reference with
  | Err exc => if isinstance exc PaperAdapterError then Ok true else Err exc
  | Ok decision =>
      match fd_fills decision, fd_fill_price decision with
      | true, Some fill_price =>
          let! effective := apply_slippage fill_price "BUY" cost_model in
          let notional := dmul effective (dec_of_Z quantity) in
          let! commission := commission_amount notional cost_model in
          Ok (dle (dadd notional commission) (fu_available_cash funds))
      | _, _ => Ok true
      end
  end.

(** The loop of [_submit_and_collect] over the drained events. *)
Fixpoint collect_events (events : list BrokerOrderEvent) (fill_price : option decimal)
    (reason : option string) (occurred_at : datetime)
    : res (option decimal * option string * datetime) :=
  match events with
  | [] => Ok (fill_price, reason, occurred_at)
  | ev :: rest =>
      match ev_event_type ev with
      | ev_FILL =>
          match ev_metadata ev !! "paper_fill_price"%string with
          | None | Some PNone => collect_events rest fill_price reason (ev_occurred_at ev)
          | Some raw =>
              match dec_parse (py_str raw) with
              | Some p => collect_events rest (Some p) reason (ev_occurred_at ev)
              | None => raise InvalidOperation "[<class 'decimal.ConversionSyntax'>]"
              end
          end
      | ev_REJECTED => collect_events rest fill_price (Some (ev_reason ev)) (ev_occurred_at ev)
      | _ => collect_events rest fill_price reason (ev_occurred_at ev)
      end
  end.

Definition submit_and_collect (request : BrokerOrderRequest)
    : M PS (option decimal * option string * datetime) :=
  let* response := on_broker (broker_submit_order broker_clock request) in
  let* events := on_broker broker_pending_events in
  let* now := service_clock in
  let* collected := lift (collect_events events None None now) in
  let '(fill_price, reason, occurred_at) := collected in
  let reason := match fill_price, reason with
                | None, None => Some (default "order rejected"%string (str_or (bo_reason response) None))
                | _, _ => reason
                end in
  ret (fill_price, reason, occurred_at).

(** The cash side of a fill: [Some reason] when a buy cannot be settled. *)
Definition settle (side : OrderSide) (notional commission : decimal)
    : M PS (decimal * option string) :=
  match side with
  | sd_BUY =>
      let total_debit := dadd notional commission in
      let* funds := gets ps_funds in
      match rbind (reserve funds total_debit) (fun f => settle_buy f total_debit) with
      | Ok f => set_funds f ;* persist_funds ;* ret (dminus total_debit, None)
      | Err exc => if isinstance exc ValueError then ret (dminus total_debit, Some (exn_msg exc))
                   else lift (Err exc)
      end
  | sd_SELL =>
      let net_cash := dsub notional commission in
      let* funds := gets ps_funds in
      let* f := lift (credit_sell funds net_cash) in
      set_funds f ;* persist_funds ;* ret (net_cash, None)
  end.

Definition paper_request (account : PaperAccount) (instrument_id : UUID) (side : OrderSide)
    (quantity : Z) (order_type : OrderType) (limit_price : option decimal)
    (client_order_id : string) : BrokerOrderRequest := {|
  rq_broker_account_id := ac_account_id account;
  rq_instrument_id := instrument_id;
  rq_trading_mode := tm_PAPER;
  rq_client_order_id := client_order_id;
  rq_side := side;
  rq_order_type := order_type;
  rq_quantity := quantity;
  rq_risk_approval_id := "paper-" +:+ uuid_str (ac_paper_run_id account);
  rq_limit_price := limit_price;
  rq_stop_price := None;
  rq_metadata :=
    {["order_id"%string := PStr (uuid_str (paper_order_id (ac_account_id account) client_order_id))]};
|}.

(** [submit] from the broker call on. *)
Definition submit_to_broker (request : BrokerOrderRequest) : M PS PaperFillOutcome :=
  let instrument_id := rq_instrument_id request in
  let side := rq_side request in
  let quantity := rq_quantity request in
  let client_order_id := rq_client_order_id request in
  let order_id := paper_order_id (rq_broker_account_id request) client_order_id in
  let* collected := submit_and_collect request in
  let '(fill_price, reason, occurred_at) := collected in
  match fill_price with
  | None =>
      let* outcome := lift (mk_PaperFillOutcome
        {| fo_client_order_id := client_order_id; fo_order_id := order_id; fo_side := side;
           fo_instrument_id := instrument_id; fo_quantity := quantity; fo_fill_price := None;
           fo_effective_price := None; fo_commission := dzero; fo_net_cash := dzero;
           fo_accepted := false;
           fo_reason := Some (default "order rejected by paper broker"%string (str_or reason None));
           fo_occurred_at := occurred_at |}) in
      append_outcome outcome ;*
      ret outcome
  | Some fill_price =>
      let* cost_model := gets ps_cost_model in
      let* effective := lift (apply_slippage fill_price (side_value side) cost_model) in
      let notional := dmul effective (dec_of_Z quantity) in
      let* commission := lift (commission_amount notional cost_model) in
      let* settled := settle side notional commission in
      let '(net_cash, failed) := settled in
      match failed with
      | Some reason => reject_without_fill instrument_id side quantity (Some client_order_id) reason
      | None =>
          let* outcome := lift (mk_PaperFillOutcome
            {| fo_client_order_id := client_order_id; fo_order_id := order_id; fo_side := side;
               fo_instrument_id := instrument_id; fo_quantity := quantity;
               fo_fill_price := Some fill_price; fo_effective_price := Some effective;
               fo_commission := commission; fo_net_cash := net_cash; fo_accepted := true;
               fo_reason := None; fo_occurred_at := occurred_at |}) in
          append_outcome outcome ;*
          ret outcome
      end
  end.

(** [submit]; a side is always BUY or SELL. *)
Definition service_submit (instrument_id : UUID) (side : OrderSide) (quantity : Z)
    (order_type : OrderType) (limit_price : option decimal) (client_order_id : option string)
    : M PS PaperFillOutcome :=
  let* account := gets ps_account in
  lift (raise_if (negb (bool_decide (ac_status account = as_ACTIVE))) PaperAdapterError
          ("paper account is not active: " +:+ account_status_value (ac_status account))) ;*
  if quantity <=? 0 then
    reject_without_fill instrument_id side quantity client_order_id "quantity must be positive"
  else
    let* client_order_id := or_next_id client_order_id in
    let request := paper_request account instrument_id side quantity order_type limit_price
                     client_order_id in
    let* affordable :=
      fun s => (match side, ps_reference_prices s !! instrument_id with
                | sd_BUY, Some reference =>
                    can_afford request reference quantity (ps_funds s) (ps_cost_model s)
                | _, _ => Ok true
                end, s) in
    if affordable then submit_to_broker request
    else reject_without_fill instrument_id side quantity (Some client_order_id)
           "insufficient available funds".
End Service.

(** * Cash amounts *)

Lemma dfix_coef d : (dcoef (dfix d) < 10 ^ 28)%N.
Proof.
  destruct (N.lt_ge_cases (dcoef d) (10 ^ 28)) as [Hd|Hd]; [by rewrite dfix_id|].
  destruct (dfix_big d Hd) as (c & k & -> & [_ Hc] & _). exact Hc.
Qed.

Lemma dminus_val d : (dcoef d < 10 ^ 28)%N -> (dval (dminus d) == - dval d)%Q.
Proof.
  intros Hd. unfold dminus. destruct (N.eqb_spec (dcoef d) 0) as [E|E].
  - assert (dval d == 0)%Q as -> by (unfold dval, dz; rewrite E; destruct (dneg d); reflexivity).
    rewrite dfix_id by by vm_compute. reflexivity.
  - rewrite dfix_id by done. apply copy_negate_val.
Qed.

(** Amounts of at most eight decimals below 10^19 add up exactly. *)
Definition LIMIT_CASH : Q := inject_Z (10 ^ 19).

Definition cash (d : decimal) : Prop :=
  -8 <= dexp d /\ (- LIMIT_CASH <= dval d <= LIMIT_CASH)%Q.

Lemma scaled_cash d e : cash d -> -8 <= e <= dexp d -> Z.abs (scaled d e) <= 10 ^ 27.
Proof.
  intros [_ [Hlo Hhi]] [He Hed]. pose proof (scaled_val d e Hed) as Hv.
  assert (pow10 (-8) <= pow10 e)%Q as Hp.
  { rewrite (pow10_split e (-8)) by done. rewrite <- (Qmult_1_l (pow10 (-8))) at 1.
    apply Qmult_le_compat_r; [|apply Qlt_le_weak, pow10_pos]. change 1%Q with (inject_Z 1).
    rewrite <- Zle_Qle. pose proof (Z.pow_pos_nonneg 10 (e - -8)). lia. }
  assert (LIMIT_CASH == inject_Z (10 ^ 27) * pow10 (-8))%Q as HL by (vm_compute; reflexivity).
  assert (0 < pow10 (-8))%Q by apply pow10_pos. rewrite Hv, HL in Hlo, Hhi.
  set (z := scaled d e) in *. set (k := 10 ^ 27) in *.
  assert (0 < k) by (subst k; vm_compute; reflexivity).
  assert (~ k < z) as H1.
  { intros Hz. rewrite Zlt_Qlt in Hz. assert (0 < inject_Z k)%Q by (change 0%Q with (inject_Z 0); by rewrite <- Zlt_Qlt). nra. }
  assert (~ z < - k) as H2.
  { intros Hz. rewrite Zlt_Qlt, inject_Z_opp in Hz.
    assert (0 < inject_Z k)%Q by (change 0%Q with (inject_Z 0); by rewrite <- Zlt_Qlt). nra. }
  lia.
Qed.

Lemma cash_sum_fits a b : cash a -> cash b -> sum_fits a b.
Proof.
  intros Ha Hb. unfold sum_fits. set (e := Z.min (dexp a) (dexp b)).
  assert (-8 <= e <= dexp a /\ -8 <= e <= dexp b) as [H1 H2].
  { destruct Ha as [Ha _], Hb as [Hb _]. subst e. lia. }
  pose proof (scaled_cash a e Ha H1). pose proof (scaled_cash b e Hb H2).
  unfold fits. change (10 ^ 28) with (10 * 10 ^ 27). set (k := 10 ^ 27) in *.
  assert (0 < k) by (subst k; vm_compute; reflexivity). lia.
Qed.

Lemma cash_negate d : cash d -> cash (copy_negate d).
Proof. intros [He Hv]. split; [done|]. rewrite copy_negate_val. lra. Qed.

Lemma cash_add a b : cash a -> cash b ->
  (dval (dadd a b) == dval a + dval b)%Q /\ -8 <= dexp (dadd a b).
Proof.
  intros Ha Hb. pose proof (cash_sum_fits a b Ha Hb) as Hf. split; [by apply dadd_exact|].
  unfold dadd. rewrite dfix_exact by (by rewrite of_signed_dz). simpl. destruct Ha, Hb. lia.
Qed.

Lemma cash_sub a b : cash a -> cash b ->
  (dval (dsub a b) == dval a - dval b)%Q /\ -8 <= dexp (dsub a b).
Proof.
  intros Ha Hb. unfold dsub. destruct (cash_add a (copy_negate b) Ha (cash_negate b Hb)) as [H1 H2].
  split; [|done]. rewrite H1, copy_negate_val. lra.
Qed.

(** * The funds ledger *)

Section ServiceTheorems.
Context {R : Type} `{PaperRepository R} (clock broker_clock : nat -> datetime).
Abbreviation PS := (PaperTradingService R).

(** The parts of the service an order attempt settles on at its end. *)
Definition ledger_of (s : PS) :=
  (ps_account s, ps_funds s, ps_outcomes s, ps_cost_model s, ps_reference_prices s).

Definition ledger_kept {T} (m : M PS T) : Prop := forall s, ledger_of (snd (m s)) = ledger_of s.

Lemma ledger_kept_bind {A B} (m : M PS A) (k : A -> M PS B) :
  ledger_kept m -> (forall a, ledger_kept (k a)) -> ledger_kept (bind m k).
Proof.
  intros Hm Hk s. unfold bind. specialize (Hm s). destruct (m s) as [[a|e] s1]; simpl in *; [|done].
  by rewrite Hk.
Qed.

Lemma ledger_kept_lift {A} (r : res A) : ledger_kept (lift r).
Proof. done. Qed.

Lemma ledger_kept_broker {A} (m : M PaperBrokerAdapter A) : ledger_kept (on_broker m).
Proof. intros s. unfold on_broker, zoom. by destruct (m (ps_broker s)). Qed.

Lemma ledger_kept_next o : ledger_kept (or_next_id (R:=R) o).
Proof. intros s. unfold or_next_id. by destruct (str_or o None). Qed.

Lemma ledger_kept_collect request : ledger_kept (submit_and_collect clock broker_clock request).
Proof.
  unfold submit_and_collect. repeat (apply ledger_kept_bind; [|intros ?]);
    try apply ledger_kept_broker; try done.
  intros s. by destruct a2 as [[? ?] ?].
Qed.

Lemma persist_funds_kept s x s' : persist_funds s = (x, s') -> ledger_of s' = ledger_of s.
Proof.
  unfold persist_funds. destruct (ps_repository s); [|by intros [= _ <-]].
  destruct (save_funds _ _). by intros [= _ <-].
Qed.

(** What an order attempt did to the funds. *)
Inductive cash_step (f : PaperFunds) (o : PaperFillOutcome) : PaperFunds -> Prop :=
| cs_refused : fo_accepted o = false -> fo_net_cash o = dzero -> cash_step f o f
| cs_buy t f1 f2 :
    fo_accepted o = true -> fo_side o = sd_BUY -> (dcoef t < 10 ^ 28)%N ->
    fo_net_cash o = dminus t -> reserve f t = Ok f1 -> settle_buy f1 t = Ok f2 -> cash_step f o f2
| cs_sell f2 :
    fo_accepted o = true -> fo_side o = sd_SELL -> credit_sell f (fo_net_cash o) = Ok f2 ->
    cash_step f o f2.

Definition step_done (s s' : PS) (o : PaperFillOutcome) : Prop :=
  cash_step (ps_funds s) o (ps_funds s') /\ ps_outcomes s' = ps_outcomes s ++ [o] /\
  ps_account s' = ps_account s.

Lemma step_done_after s s1 s' o : ledger_of s1 = ledger_of s -> step_done s1 s' o -> step_done s s' o.
Proof. unfold ledger_of, step_done. intros [= -> -> -> _ _]. done. Qed.

Lemma mk_outcome_ok x o : mk_PaperFillOutcome x = Ok o -> o = x.
Proof. unfold mk_PaperFillOutcome. intros E. by res_inv. Qed.

Lemma reject_without_fill_step i side q c reason s o s' :
  reject_without_fill clock i side q c reason s = (Ok o, s') -> step_done s s' o.
Proof.
  unfold reject_without_fill. intros E. apply bind_ok in E as (c' & s1 & Ec & E).
  pose proof (ledger_kept_next c s) as Hk. rewrite Ec in Hk. simpl in Hk.
  eapply step_done_after; [exact Hk|]. apply bind_ok in E as (a & s2 & [= <- <-] & E).
  apply bind_ok in E as (t & s3 & Et & E). apply bind_ok in E as (o' & s4 & Eo & E).
  injection Et as <- <-. injection Eo as Eo <-. apply mk_outcome_ok in Eo. injection E as <- <-. subst o'.
  split_and!; try done. by constructor.
Qed.

Lemma settle_step side n c s p s' :
  settle side n c s = (Ok p, s') ->
  ps_outcomes s' = ps_outcomes s /\ ps_account s' = ps_account s /\
  (match p.2 with
   | Some _ => ps_funds s' = ps_funds s
   | None =>
       match side with
       | sd_BUY => exists t f1, (dcoef t < 10 ^ 28)%N /\ p.1 = dminus t /\ t = dadd n c /\
                     reserve (ps_funds s) t = Ok f1 /\ settle_buy f1 t = Ok (ps_funds s')
       | sd_SELL => p.1 = dsub n c /\ credit_sell (ps_funds s) p.1 = Ok (ps_funds s')
       end
   end).
Proof.
  unfold settle. destruct side; intros E; apply bind_ok in E as (f & s1 & [= <- <-] & E).
  - destruct (rbind _ _) as [f2|e] eqn:Er.
    + apply rbind_ok in Er as (f1 & E1 & E2).
      apply bind_ok in E as ([] & s2 & [= <-] & E). apply bind_ok in E as ([] & s3 & Ep & E).
      injection E as <- <-. apply persist_funds_kept in Ep. unfold ledger_of in Ep. simpl in Ep.
      injection Ep as -> -> -> _ _. split_and!; try done. simpl.
      exists (dadd n c), f1. split_and!; try done. apply dfix_coef.
    + destruct (isinstance e ValueError); [|done]. by injection E as <- <-.
  - apply bind_ok in E as (f2 & s2 & E2 & E). injection E2 as E2 <-.
    apply bind_ok in E as ([] & s3 & [= <-] & E). apply bind_ok in E as ([] & s4 & Ep & E).
    injection E as <- <-. apply persist_funds_kept in Ep. unfold ledger_of in Ep. simpl in Ep.
    injection Ep as -> -> -> _ _. by split_and!.
Qed.

Lemma submit_to_broker_step request s o s' :
  submit_to_broker clock broker_clock request s = (Ok o, s') -> step_done s s' o.
Proof.
  unfold submit_to_broker. intros E. apply bind_ok in E as ([[fp reason] at_] & s1 & Ec & E).
  pose proof (ledger_kept_collect request s) as Hk. rewrite Ec in Hk. simpl in Hk.
  eapply step_done_after; [exact Hk|]. clear Hk Ec s. destruct fp as [fp|].
  - apply bind_ok in E as (cm & s2 & [= <- <-] & E). apply bind_ok in E as (eff & s3 & E3 & E).
    injection E3 as E3 <-. apply bind_ok in E as (com & s4 & E4 & E). injection E4 as E4 <-.
    apply bind_ok in E as ([net failed] & s5 & E5 & E). apply settle_step in E5 as (Ho & Ha & Hf).
    simpl in Hf. destruct failed as [m|].
    + apply reject_without_fill_step in E. unfold step_done in *. by rewrite Ho, Ha, Hf in E.
    + apply bind_ok in E as (o' & s6 & E6 & E). injection E6 as E6 <-.
      apply mk_outcome_ok in E6. injection E as <- <-. subst o'.
      split_and!; [|by simpl; rewrite Ho|done]. simpl.
      destruct (rq_side request) eqn:Es.
      * destruct Hf as (t & f1 & Ht & Hn & _ & Hr & Hs). by eapply cs_buy.
      * destruct Hf as (Hn & Hs). by apply cs_sell.
  - apply bind_ok in E as (o' & s6 & E6 & E). injection E6 as E6 <-.
    apply mk_outcome_ok in E6. injection E as <- <-. subst o'. split_and!; try done. by constructor.
Qed.

Lemma service_submit_step i side q t l c s o s' :
  service_submit clock broker_clock i side q t l c s = (Ok o, s') -> step_done s s' o.
Proof.
  unfold service_submit. intros E. apply bind_ok in E as (a & s1 & [= <- <-] & E).
  apply bind_ok in E as (u & s2 & E2 & E). injection E2 as _ <-.
  destruct (q <=? 0); [by eapply reject_without_fill_step|].
  apply bind_ok in E as (c' & s3 & Ec & E).
  pose proof (ledger_kept_next c s) as Hk. rewrite Ec in Hk. simpl in Hk.
  eapply step_done_after; [exact Hk|]. apply bind_ok in E as (aff & s4 & E4 & E).
  injection E4 as _ <-. destruct aff; [by eapply submit_to_broker_step | by eapply reject_without_fill_step].
Qed.

(** Funds with no order outstanding, in amounts that add up exactly. *)
Definition settled_funds (f : PaperFunds) : Prop :=
  -8 <= dexp (fu_available_cash f) /\ (0 <= dval (fu_available_cash f) <= LIMIT_CASH)%Q /\
  -8 <= dexp (fu_reserved_cash f) /\ (dval (fu_reserved_cash f) == 0)%Q.

Lemma limit_cash_pos : (0 < LIMIT_CASH)%Q.
Proof. by vm_compute. Qed.

Lemma dminus_exp t : (dcoef t < 10 ^ 28)%N -> dexp (dminus t) = dexp t.
Proof.
  intros Ht. unfold dminus. destruct (dcoef t =? 0)%N; rewrite dfix_id; try done.
Qed.

Lemma mk_funds_ok a x y c f : mk_PaperFunds a x y c = Ok f ->
  fu_available_cash f = x /\ fu_reserved_cash f = y /\ (0 <= dval x)%Q /\ (0 <= dval y)%Q.
Proof.
  unfold mk_PaperFunds. intros E. res_inv. simpl.
  repeat match goal with H : dlt _ dzero = false |- _ => rewrite dlt_false, dval_zero in H end. done.
Qed.

Lemma reserve_ok f t f1 : reserve f t = Ok f1 ->
  (0 < dval t)%Q /\ (dval t <= dval (fu_available_cash f))%Q /\
  fu_available_cash f1 = dsub (fu_available_cash f) t /\
  fu_reserved_cash f1 = dadd (fu_reserved_cash f) t.
Proof.
  unfold reserve. intros E. res_inv.
  match goal with H : mk_PaperFunds _ _ _ _ = _ |- _ => apply mk_funds_ok in H as (? & ? & _) end.
  match goal with H : dle t dzero = false |- _ => rewrite dle_false, dval_zero in H end.
  match goal with H : dgt t _ = false |- _ => apply dlt_false in H end. done.
Qed.

Lemma settle_buy_ok f t f1 : settle_buy f t = Ok f1 ->
  fu_available_cash f1 = fu_available_cash f /\ fu_reserved_cash f1 = dsub (fu_reserved_cash f) t.
Proof.
  unfold settle_buy. intros E. res_inv.
  match goal with H : mk_PaperFunds _ _ _ _ = _ |- _ => by apply mk_funds_ok in H as (? & ? & _) end.
Qed.

(** Reserving a positive amount within the available cash and settling it
    always succeeds, and takes exactly the amount. *)
Lemma reserve_settle f t : settled_funds f -> -8 <= dexp t -> (0 < dval t)%Q ->
  (dval t <= dval (fu_available_cash f))%Q ->
  exists f1 f2, reserve f t = Ok f1 /\ settle_buy f1 t = Ok f2 /\ settled_funds f2 /\
    (dval (fu_available_cash f2) == dval (fu_available_cash f) - dval t)%Q.
Proof.
  intros (He & [H0 Hl] & Her & Hr) Ht Hpos Hle. pose proof limit_cash_pos as HL.
  assert (cash t) as Ct by (split; [done|lra]).
  assert (cash (fu_available_cash f)) as Ca by (split; [done|lra]).
  assert (cash (fu_reserved_cash f)) as Cr by (split; [done|rewrite Hr; lra]).
  destruct (cash_sub _ _ Ca Ct) as [V1 X1]. destruct (cash_add _ _ Cr Ct) as [V2 X2].
  assert (cash (dadd (fu_reserved_cash f) t)) as C2 by (split; [done|rewrite V2, Hr; lra]).
  destruct (cash_sub _ _ C2 Ct) as [V3 X3].
  assert (forall x, (0 <= dval x)%Q -> dlt x dzero = false) as Hnn
    by (intros x Hx; rewrite dlt_false, dval_zero; done).
  assert (dle t dzero = false) as Hz by (rewrite dle_false, dval_zero; done).
  assert (reserve f t = Ok {| fu_account_id := fu_account_id f;
            fu_available_cash := dsub (fu_available_cash f) t;
            fu_reserved_cash := dadd (fu_reserved_cash f) t; fu_currency := fu_currency f |}) as E1.
  { unfold reserve, mk_PaperFunds. rewrite Hz.
    assert (dgt t (fu_available_cash f) = false) as -> by (by apply dlt_false).
    rewrite !Hnn by (rewrite ?V1, ?V2, ?Hr; lra). done. }
  eexists _, _. split; [exact E1|]. split.
  - unfold settle_buy, mk_PaperFunds. simpl. rewrite Hz.
    assert (dgt t (dadd (fu_reserved_cash f) t) = false) as -> by (apply dlt_false; rewrite V2, Hr; lra).
    rewrite !Hnn by (rewrite ?V1, ?V3, ?V2, ?Hr; lra). done.
  - split; [|simpl; exact V1]. split_and!; simpl; try done; rewrite ?V1, ?V3, ?V2, ?Hr; lra.
Qed.

Lemma cash_step_conserves f o f' :
  cash_step f o f' -> settled_funds f -> -8 <= dexp (fo_net_cash o) ->
  (dval (fu_available_cash f) + Qabs (dval (fo_net_cash o)) <= LIMIT_CASH)%Q ->
  settled_funds f' /\
  (dval (fu_available_cash f') == dval (fu_available_cash f) + dval (fo_net_cash o))%Q.
Proof.
  intros Hs Hf He Hb. pose proof Hf as (Hea & [H0 Hl] & Her & Hr).
  destruct Hs as [_ Hn|t f1 f2 _ _ Ht Hn E1 E2|f2 _ _ E].
  - rewrite Hn, dval_zero. split; [done|lra].
  - rewrite Hn, dminus_exp in He by done. rewrite Hn, (dminus_val t Ht).
    destruct (reserve_ok _ _ _ E1) as (Hp & Hle & _ & _).
    destruct (reserve_settle f t Hf He Hp Hle) as (f1' & f2' & E1' & E2' & Hs & Hv).
    rewrite E1 in E1'. injection E1' as <-. rewrite E2 in E2'. injection E2' as <-.
    split; [done|]. rewrite Hv. lra.
  - unfold credit_sell in E. res_inv.
    match goal with H : mk_PaperFunds _ _ _ _ = _ |- _ => apply mk_funds_ok in H as (Ha & Hre & _) end.
    match goal with H : dle _ dzero = false |- _ => rewrite dle_false, dval_zero in H; rename H into Hp end.
    rewrite (Qabs_pos _ (Qlt_le_weak _ _ Hp)) in Hb.
    destruct (cash_add (fu_available_cash f) (fo_net_cash o)) as [V X]; [split; [done|lra]..|].
    rewrite Ha. split; [|done]. unfold settled_funds. rewrite Ha, Hre. split_and!; try done; rewrite V; lra.
Qed.

(** ** Sequences of orders *)

Record paper_order := {
  or_instrument : UUID;
  or_side : OrderSide;
  or_quantity : Z;
  or_type : OrderType;
  or_limit : option decimal;
  or_client_id : option string;
}.

Fixpoint run_orders (orders : list paper_order) : M PS (list PaperFillOutcome) :=
  match orders with
  | [] => ret []
  | x :: rest =>
      let* o := service_submit clock broker_clock (or_instrument x) (or_side x) (or_quantity x)
                  (or_type x) (or_limit x) (or_client_id x) in
      let* os := run_orders rest in
      ret (o :: os)
  end.

Fixpoint net_total (os : list PaperFillOutcome) : Q :=
  match os with [] => 0 | o :: rest => dval (fo_net_cash o) + net_total rest end.
Fixpoint gross_total (os : list PaperFillOutcome) : Q :=
  match os with [] => 0 | o :: rest => Qabs (dval (fo_net_cash o)) + gross_total rest end.

Lemma gross_total_nonneg os : (0 <= gross_total os)%Q.
Proof. induction os as [|o os IH]; cbn [gross_total]; [lra|]. pose proof (Qabs_nonneg (dval (fo_net_cash o))). lra. Qed.

(** C16: Conservation of cash: after any sequence of paper orders that were
    answered, buys and sells, filled or refused, the available cash is exactly
    the initial cash plus the net cash of the reported outcomes, it is not
    negative, and nothing stays reserved.  Amounts have at most eight decimals
    and their sum stays below 10^19, so that 28-digit arithmetic is exact. *)
Theorem paper_cash_conserved orders : forall s outs s',
  settled_funds (ps_funds s) -> run_orders orders s = (Ok outs, s') ->
  Forall (fun o => -8 <= dexp (fo_net_cash o)) outs ->
  (dval (fu_available_cash (ps_funds s)) + gross_total outs <= LIMIT_CASH)%Q ->
  ps_outcomes s' = ps_outcomes s ++ outs /\ settled_funds (ps_funds s') /\
  (dval (fu_available_cash (ps_funds s')) ==
   dval (fu_available_cash (ps_funds s)) + net_total outs)%Q.
Proof.
  induction orders as [|x orders IH]; intros s outs s' Hf E He Hb; simpl in E.
  - injection E as <- <-. simpl. rewrite app_nil_r. split_and!; try done. lra.
  - apply bind_ok in E as (o & s1 & E1 & E). apply bind_ok in E as (os & s2 & E2 & E).
    injection E as <- <-. apply service_submit_step in E1 as (Hs & Ho & _). cbn [gross_total net_total] in *.
    apply Forall_cons in He as [He1 He]. pose proof (gross_total_nonneg os) as Hg.
    destruct (cash_step_conserves _ _ _ Hs Hf He1) as [Hf1 Hv]; [lra|].
    pose proof (Qle_Qabs (dval (fo_net_cash o))) as Habs.
    destruct (IH s1 os s2 Hf1 E2 He) as (Ho2 & Hf2 & Hv2); [rewrite Hv; lra|].
    split_and!; [by rewrite Ho2, Ho, <- app_assoc | done | rewrite Hv2, Hv; lra].
Qed.
End ServiceTheorems.

(** * Fills and cash *)

Section ServiceFills.
Context {R : Type} `{PaperRepository R} (clock broker_clock : nat -> datetime).
Abbreviation PS := (PaperTradingService R).

Definition book_of (s : PS) : PaperOrderBook := br_book (ps_broker s).
Definition after_drain (b : PaperOrderBook) : PaperOrderBook := snd (book_pending_events b).
Definition drained (b : PaperOrderBook) : Prop := bk_pending_index b = List.length (bk_events b).

(** The reference price the broker would use. *)
Definition quote (s : PS) (request : BrokerOrderRequest) : option PaperReferencePrice :=
  br_reference_prices (ps_broker s) !! rq_instrument_id request.

Lemma submit_and_collect_inv request s fp reason at_ s1 :
  submit_and_collect clock broker_clock request s = (Ok (fp, reason, at_), s1) ->
  exists resp b1 now reason',
    book_submit broker_clock request (quote s request) (book_of s) = (Ok resp, b1) /\
    book_of s1 = after_drain b1 /\
    collect_events (drop (bk_pending_index b1) (bk_events b1)) None None now = Ok (fp, reason', at_).
Proof.
  unfold submit_and_collect. intros E. apply bind_ok in E as (resp & s2 & E1 & E).
  apply bind_ok in E as (evs & s3 & E2 & E). apply bind_ok in E as (now & s4 & E3 & E).
  apply bind_ok in E as ([[fp' r'] at'] & s5 & E4 & E). injection E4 as E4 <-. injection E as <- _ <- <-.
  injection E3 as <- <-. unfold on_broker, zoom in E1, E2.
  destruct (broker_submit_order broker_clock request (ps_broker s)) as [x w] eqn:Eb.
  injection E1 as -> <-. cbn [ps_broker set_broker] in E2. destruct (broker_pending_events w) as [y w'] eqn:Ep.
  injection E2 as -> <-. unfold broker_submit_order in Eb.
  apply bind_ok in Eb as (c & w1 & [= <- <-] & Eb). destruct (negb (br_connected (ps_broker s))); [done|].
  apply bind_ok in Eb as (rf & w2 & [= <- <-] & Eb). apply bind_ok in Eb as (resp' & w3 & E5 & Eb).
  unfold bind, modify, ret in Eb. injection Eb as -> <-.
  unfold on_book, zoom in E5. fold (quote s request) in E5.
  destruct (book_submit broker_clock request (quote s request) (br_book (ps_broker s))) as [z b1] eqn:Es.
  injection E5 as -> <-. unfold broker_pending_events, on_book, zoom in Ep. simpl in Ep.
  injection Ep as Ep1 Ep2. subst w' evs. exists resp, b1, (clock (ps_tick s)), r'. split_and!; [done|done|].
  exact E4.
Qed.

Lemma after_drain_drained b : drained (after_drain b).
Proof. done. Qed.

Lemma drained_next b evs b' : drained b -> bk_events b' = bk_events b ++ evs ->
  bk_pending_index b' = bk_pending_index b -> drop (bk_pending_index b') (bk_events b') = evs.
Proof. unfold drained. intros Hd -> ->. rewrite Hd. apply drop_app_length. Qed.

Lemma simulator_event_types request oid now st evs : simulator_events request oid now st evs ->
  match st with
  | bs_REJECTED => exists e, evs = [e] /\ ev_event_type e = ev_REJECTED
  | bs_ACCEPTED => exists a f, evs = [a; f] /\ ev_event_type a = ev_BROKER_ACKNOWLEDGED /\
                     ev_event_type f = ev_FILL
  | bs_UNKNOWN => False
  end.
Proof. intros []; eauto 6. Qed.

(** A drained broker asked for a new order: the collected fill price is that of
    the one fill the book recorded, and comes from the fill policy. *)
Lemma collect_new request s fp reason at_ s1 :
  drained (book_of s) -> book_inv (book_of s) ->
  bk_submissions (book_of s) !! request_key request = None ->
  submit_and_collect clock broker_clock request s = (Ok (fp, reason, at_), s1) ->
  drained (book_of s1) /\
  match fp with
  | Some p => decided request (quote s request) p /\
      exists f, fills_for (request_key request) (book_of s1) = [f] /\ fr_fill_price f = p /\
        fill_of_request request f
  | None => fills_for (request_key request) (book_of s1) = []
  end.
Proof.
  intros Hd Hinv Hnone E.
  apply submit_and_collect_inv in E as (resp & b1 & now & r' & Es & -> & Ec).
  split; [apply after_drain_drained|]. apply book_submit_spec in Es as (_ & _ & Es). rewrite Hnone in Es.
  assert (fills_for (request_key request) (book_of s) = []) as Hno
    by (pose proof (inv_entries _ Hinv (request_key request)) as He; unfold entry_ok in He; by rewrite Hnone in He).
  change (fills_for (request_key request) (after_drain b1)) with (fills_for (request_key request) b1).
  destruct Es as [x oid n (_ & E2 & E3 & E4 & _) _ _ _ _ Hev
                 |x f oid n (_ & E2 & E3 & E4 & _) _ _ _ _ Hev Hk Hf _ (a & fe & Hab & Hm) Hdec].
  - rewrite (drained_next _ _ _ Hd E2 E4) in Ec. destruct (simulator_event_types _ _ _ _ _ Hev) as (e & Eq & Ht).
    rewrite Eq in Ec. simpl in Ec. rewrite Ht in Ec. injection Ec as <- _ _.
    rewrite (fills_for_app _ _ _ _ E3), Hno. done.
  - rewrite (drained_next _ _ _ Hd E2 E4) in Ec.
    destruct (simulator_event_types _ _ _ _ _ Hev) as (a' & fe' & Eq & Hta & Htf).
    rewrite Eq in Hab. injection Hab as -> ->. rewrite Eq in Ec. simpl in Ec. rewrite Hta, Htf, Hm in Ec. simpl in Ec.
    rewrite dec_roundtrip in Ec. injection Ec as <- _ _. split; [done|].
    exists f. split; [|done]. rewrite (fills_for_app _ _ _ _ E3), Hno. simpl.
    by rewrite bool_decide_true.
Qed.

(** An order id the broker already answered: no event is collected. *)
Lemma collect_known request s x fp reason at_ s1 :
  drained (book_of s) -> bk_submissions (book_of s) !! request_key request = Some x ->
  submit_and_collect clock broker_clock request s = (Ok (fp, reason, at_), s1) ->
  fp = None /\ bk_fills (book_of s1) = bk_fills (book_of s).
Proof.
  intros Hd Hx E. apply submit_and_collect_inv in E as (resp & b1 & now & r' & Es & -> & Ec).
  apply book_submit_spec in Es as (_ & _ & Es). rewrite Hx in Es. destruct Es as (-> & _ & _).
  unfold drained in Hd. rewrite Hd, drop_all in Ec. by injection Ec as <- _ _.
Qed.

(** ** Costs *)

Lemma dfix_exp_ge d : dexp d <= dexp (dfix d).
Proof. destruct (dfix_cases d) as [->|(c & k & -> & _)]; simpl; lia. Qed.

(** A price of at most eight decimals and at least one tick of 0.0001. *)
Definition tick_price (p : decimal) : Prop :=
  -8 <= dexp p /\ (dval PRICE_QUANTUM <= dval p)%Q.

Lemma tick_val : (0 < dval PRICE_QUANTUM)%Q.
Proof. by vm_compute. Qed.

Lemma slippage_buy p model eff :
  mk_PaperCostModel model = Ok model -> tick_price p -> apply_slippage p "BUY" model = Ok eff ->
  -8 <= dexp eff /\ (0 < dval eff)%Q.
Proof.
  intros Hm [He Hp] E. pose proof tick_val as Ht. unfold apply_slippage in E.
  destruct (co_slippage model); [injection E as <-; split; [done|lra]|].
  apply rbind_ok in E as (rate & Er & E). simpl in E.
  assert (0 <= dval rate)%Q as Hr.
  { eapply ddiv_nonneg; [exact Er| |by vm_compute]. unfold mk_PaperCostModel in Hm. res_inv.
    match goal with H : dlt (co_slippage_bps _) dzero = false |- _ => by rewrite dlt_false, dval_zero in H end. }
  set (factor := dadd (dec_of_Z 1) rate) in E.
  assert (1 <= dval factor)%Q as Hf.
  { unfold factor, dadd. apply (dfix_ge_repr _ (Dec false 1 0)).
    - assert (0 < scaled (dec_of_Z 1) (Z.min (dexp (dec_of_Z 1)) (dexp rate)) +
                scaled rate (Z.min (dexp (dec_of_Z 1)) (dexp rate))) as Hpos.
      { rewrite Zlt_Qlt. change (inject_Z 0) with 0%Q.
        pose proof (aligned_sum (dec_of_Z 1) rate) as Ha. simpl in Ha. rewrite dval_of_Z in Ha.
        pose proof (pow10_pos (Z.min 0 (dexp rate))) as Hpp. change (dexp (dec_of_Z 1)) with 0.
        apply Qnot_le_lt. intros Hn. change (inject_Z 1) with 1%Q in Ha. nra. }
      unfold of_signed. destruct (Z.eqb_spec (scaled (dec_of_Z 1) (Z.min (dexp (dec_of_Z 1)) (dexp rate)) +
                scaled rate (Z.min (dexp (dec_of_Z 1)) (dexp rate))) 0); simpl in *; lia.
    - by split.
    - rewrite of_signed_val, aligned_sum, dval_of_Z. change (dval (Dec false 1 0)) with (1 * 1)%Q.
      change (inject_Z 1) with 1%Q. lra. }
  assert (dval PRICE_QUANTUM <= dval (dmul p factor))%Q as Hmul.
  { assert (dneg p = false /\ dneg factor = false) as [Hnp Hnf].
    { split; apply dz_pos_inv, dval_pos; lra. }
    unfold dmul. apply (dfix_ge_repr _ PRICE_QUANTUM); [by simpl; rewrite Hnp, Hnf|by split|].
    rewrite dmul_pre. nra. }
  destruct (quantize_err _ _ _ E) as [Hexp _]. simpl in Hexp. split; [lia|].
  apply quantize_inv in E as [-> _]. apply dval_pos. unfold dz. simpl.
  assert (dneg (dmul p factor) = false) as Hn by (apply dz_pos_inv, dval_pos; lra). rewrite Hn.
  assert (1 <= rescale_coef (dmul p factor) (-4))%N; [|lia].
  apply rescale_coef_ge. rewrite <- (pos_val _ Hn). exact Hmul.
Qed.

Lemma commission_ok n model com : mk_PaperCostModel model = Ok model ->
  commission_amount n model = Ok com -> -8 <= dexp com /\ (0 <= dval com)%Q.
Proof.
  intros Hm E. unfold commission_amount in E. destruct (co_commission model).
  - injection E as <-. split; [done|]. by vm_compute.
  - split; [destruct (quantize_err _ _ _ E) as [-> _]; simpl; lia|].
    eapply quantize_nonneg; [done|]. unfold mk_PaperCostModel in Hm. res_inv.
    match goal with H : dlt (co_commission_per_trade _) dzero = false |- _ =>
      by rewrite dlt_false, dval_zero in H end.
Qed.

Lemma total_debit_ok eff com q : -8 <= dexp eff -> (0 < dval eff)%Q -> -8 <= dexp com ->
  (0 <= dval com)%Q -> 0 < q ->
  -8 <= dexp (dadd (dmul eff (dec_of_Z q)) com) /\ (0 < dval (dadd (dmul eff (dec_of_Z q)) com))%Q.
Proof.
  intros He Hp Hc Hc0 Hq. split.
  - pose proof (dfix_exp_ge (Dec (xorb (dneg eff) (dneg (dec_of_Z q)))
                  (dcoef eff * dcoef (dec_of_Z q)) (dexp eff + dexp (dec_of_Z q)))) as H1.
    change (dfix (Dec (xorb (dneg eff) (dneg (dec_of_Z q))) (dcoef eff * dcoef (dec_of_Z q))
                    (dexp eff + dexp (dec_of_Z q)))) with (dmul eff (dec_of_Z q)) in H1. simpl in H1.
    unfold dadd. eapply Z.le_trans; [|apply dfix_exp_ge]. simpl. lia.
  - apply dadd_pos. assert (0 < dval (dmul eff (dec_of_Z q)))%Q; [|lra].
    apply dmul_pos; [done|]. rewrite dval_of_Z. change 0%Q with (inject_Z 0). by rewrite <- Zlt_Qlt.
Qed.

(** ** Every filled buy is paid for *)

(** The service and its broker see the same prices, nothing is left to drain. *)
Record in_sync (s : PS) : Prop := {
  sync_prices : ps_reference_prices s = br_reference_prices (ps_broker s);
  sync_drained : drained (book_of s);
  sync_book : book_inv (book_of s);
  sync_funds : settled_funds (ps_funds s);
  sync_costs : mk_PaperCostModel (ps_cost_model s) = Ok (ps_cost_model s);
}.

Definition ticked (s : PS) (i : UUID) : Prop :=
  forall r, ps_reference_prices s !! i = Some r ->
    tick_price (rp_last r) /\ (forall a, rp_ask r = Some a -> tick_price a).

Lemma decided_buy_tick (s : PS) request p : ps_reference_prices s = br_reference_prices (ps_broker s) ->
  ticked s (rq_instrument_id request) -> rq_side request = sd_BUY ->
  decided request (quote s request) p -> tick_price p.
Proof.
  intros Hs Ht Hside (r & d & Hr & Hd & Hf & Hp). unfold quote in Hr. rewrite <- Hs in Hr.
  destruct (Ht r Hr) as [Hl Ha]. destruct (decide_fill_cases _ _ _ Hd) as [(_ & p' & Hp' & He & _)|[Hff _]];
    [|congruence]. rewrite Hp in Hp'. injection Hp' as <-. unfold executable in He. rewrite Hside in He.
  destruct (rq_order_type request); try done; [by subst|]. destruct He as [He _]. auto.
Qed.

Lemma afforded request r p q f model eff com :
  decide_fill request r = Ok {| fd_fills := true; fd_fill_price := Some p;
    fd_fill_quantity := dec_of_Z (rq_quantity request); fd_reason := None |} ->
  can_afford request r q f model = Ok true -> apply_slippage p "BUY" model = Ok eff ->
  commission_amount (dmul eff (dec_of_Z q)) model = Ok com ->
  (dval (dadd (dmul eff (dec_of_Z q)) com) <= dval (fu_available_cash f))%Q.
Proof.
  intros Hd Ha He Hc. unfold can_afford in Ha. rewrite Hd in Ha. simpl in Ha. rewrite He in Ha.
  simpl in Ha. rewrite Hc in Ha. injection Ha as Ha. by apply dle_spec.
Qed.

Lemma decided_full request ref p : decided request ref p -> exists r, ref = Some r /\
  decide_fill request r = Ok {| fd_fills := true; fd_fill_price := Some p;
    fd_fill_quantity := dec_of_Z (rq_quantity request); fd_reason := None |}.
Proof.
  intros (r & d & -> & Hd & Hf & Hp). exists r. split; [done|]. rewrite Hd.
  destruct (decide_fill_cases _ _ _ Hd) as [(_ & p' & Hp' & _ & _ & Hfull)|[Hff _]]; [|congruence].
  rewrite Hp in Hp'. injection Hp' as <-.
  unfold full_quantity_decision, mk_FillDecision in Hfull. simpl in Hfull. by res_inv.
Qed.

Definition paid_or_refused (k : UUID * string) (s s' : PS) (o : PaperFillOutcome) : Prop :=
  (fo_accepted o = true /\ (dval (fo_net_cash o) < 0)%Q /\
   (dval (fu_available_cash (ps_funds s')) ==
    dval (fu_available_cash (ps_funds s)) + dval (fo_net_cash o))%Q /\
   exists f, fills_for k (book_of s') = [f] /\ fo_fill_price o = Some (fr_fill_price f)) \/
  (fo_accepted o = false /\ ps_funds s' = ps_funds s /\ fills_for k (book_of s') = []).

Lemma reject_keeps_book i side q c reason s o s' :
  reject_without_fill clock i side q c reason s = (Ok o, s') ->
  fo_accepted o = false /\ ps_funds s' = ps_funds s /\ book_of s' = book_of s.
Proof.
  unfold reject_without_fill. intros E. apply bind_ok in E as (c' & s1 & Ec & E).
  assert (book_of s1 = book_of s /\ ps_funds s1 = ps_funds s) as [<- <-].
  { unfold or_next_id in Ec. destruct (str_or c None); by injection Ec as _ <-. }
  apply bind_ok in E as (a & s2 & [= <- <-] & E). apply bind_ok in E as (t & s3 & Et & E).
  apply bind_ok in E as (o' & s4 & Eo & E). injection Et as <- <-. injection Eo as Eo <-.
  apply mk_outcome_ok in Eo. injection E as <- <-. by subst o'.
Qed.

Lemma persist_keeps_book (s : PS) x s' : persist_funds s = (x, s') -> book_of s' = book_of s.
Proof.
  unfold persist_funds. destruct (ps_repository s); [|by intros [= _ <-]].
  destruct (save_funds _ _). by intros [= _ <-].
Qed.

(** Settling an affordable buy always takes the money. *)
Lemma settle_buy_pays n c (s : PS) p s' : settled_funds (ps_funds s) -> -8 <= dexp (dadd n c) ->
  (0 < dval (dadd n c))%Q -> (dval (dadd n c) <= dval (fu_available_cash (ps_funds s)))%Q ->
  settle sd_BUY n c s = (Ok p, s') ->
  p.2 = None /\ (dval p.1 < 0)%Q /\ book_of s' = book_of s /\
  (dval (fu_available_cash (ps_funds s')) == dval (fu_available_cash (ps_funds s)) + dval p.1)%Q.
Proof.
  intros Hf He Hp Hl E. destruct (reserve_settle _ _ Hf He Hp Hl) as (f1 & f2 & E1 & E2 & _ & Hv).
  unfold settle in E. apply bind_ok in E as (f & s1 & [= <- <-] & E). rewrite E1 in E. simpl in E.
  rewrite E2 in E. apply bind_ok in E as ([] & s2 & [= <-] & E). apply bind_ok in E as ([] & s3 & Ep & E).
  injection E as <- <-. pose proof (persist_keeps_book _ _ _ Ep) as Hb.
  apply persist_funds_kept in Ep. unfold ledger_of in Ep. simpl in Ep. injection Ep as _ -> _ _ _.
  assert (dcoef (dadd n c) < 10 ^ 28)%N as Hc by apply dfix_coef.
  cbn [fst snd]. rewrite (dminus_val _ Hc). split_and!; [done|lra|done|]. rewrite Hv. lra.
Qed.

Lemma buy_at_broker request s o s' : in_sync s -> ticked s (rq_instrument_id request) ->
  rq_side request = sd_BUY -> 0 < rq_quantity request ->
  bk_submissions (book_of s) !! request_key request = None ->
  (forall r, ps_reference_prices s !! rq_instrument_id request = Some r ->
     can_afford request r (rq_quantity request) (ps_funds s) (ps_cost_model s) = Ok true) ->
  submit_to_broker clock broker_clock request s = (Ok o, s') ->
  paid_or_refused (request_key request) s s' o.
Proof.
  intros [Hpr Hdr Hbk Hfu Hco] Htick Hside Hq Hnone Haff E. unfold submit_to_broker in E.
  apply bind_ok in E as ([[fp reason] at_] & s1 & Ec & E).
  pose proof (ledger_kept_collect clock broker_clock request s) as Hk. rewrite Ec in Hk.
  unfold ledger_of in Hk. simpl in Hk. injection Hk as Hacc Hfund Hout Hcost Href.
  destruct (collect_new _ _ _ _ _ _ Hdr Hbk Hnone Ec) as [_ Hnew]. destruct fp as [p|].
  - destruct Hnew as (Hdec & f & Hfills & Hfp & _). rewrite Hside in E.
    apply bind_ok in E as (cm & s2 & [= <- <-] & E). rewrite Hcost in E.
    apply bind_ok in E as (eff & s3 & E3 & E). injection E3 as E3 <-.
    apply bind_ok in E as (com & s4 & E4 & E). injection E4 as E4 <-.
    apply bind_ok in E as (pp & s5 & E5 & E).
    destruct (slippage_buy _ _ _ Hco (decided_buy_tick s request p Hpr Htick Hside Hdec) E3) as [He0 He1].
    destruct (commission_ok _ _ _ Hco E4) as [Hc0 Hc1].
    destruct (total_debit_ok eff com (rq_quantity request) He0 He1 Hc0 Hc1 Hq) as [Ht0 Ht1].
    destruct (decided_full _ _ _ Hdec) as (r & Hr & Hd). unfold quote in Hr. rewrite <- Hpr in Hr.
    pose proof (afforded _ _ _ _ _ _ _ _ Hd (Haff r Hr) E3 E4) as Hle.
    rewrite <- Hfund in Hle, Hfu.
    destruct (settle_buy_pays _ _ _ _ _ Hfu Ht0 Ht1 Hle E5) as (Hnone2 & Hneg & Hbk5 & Hav).
    destruct pp as [net failed]. cbn [fst snd] in *. subst failed.
    apply bind_ok in E as (o' & s6 & E6 & E). injection E6 as E6 <-. apply mk_outcome_ok in E6.
    injection E as <- <-. subst o'. left. split_and!; [done|exact Hneg|by rewrite <- Hfund|].
    exists f. split; [|by simpl; rewrite Hfp]. rewrite <- Hfills. unfold book_of in *. simpl. by rewrite Hbk5.
  - apply bind_ok in E as (o' & s6 & E6 & E). injection E6 as E6 <-. apply mk_outcome_ok in E6.
    injection E as <- <-. subst o'. right. split_and!; try done.
Qed.

(** No unpaid fills: a buy with a new client order id that the service
    answers (service and broker in sync, prices of at least one tick) is
    either accepted, and then the broker recorded exactly one fill at the
    reported price and the available cash went down by exactly the reported
    net amount; or refused, and then nothing was filled and no cash moved.
    The pre-submission affordability check is therefore sound: settlement
    never fails after the broker filled. *)
Theorem buy_fills_are_paid i q t l c s o s' :
  in_sync s -> ticked s i -> c <> ""%string ->
  bk_submissions (book_of s) !! (ac_account_id (ps_account s), c) = None ->
  service_submit clock broker_clock i sd_BUY q t l (Some c) s = (Ok o, s') ->
  paid_or_refused (ac_account_id (ps_account s), c) s s' o.
Proof.
  intros Hsync Htick Hc Hnone E. unfold service_submit in E.
  assert (fills_for (ac_account_id (ps_account s), c) (book_of s) = []) as Hno.
  { pose proof (inv_entries _ (sync_book _ Hsync) (ac_account_id (ps_account s), c)) as He.
    unfold entry_ok in He. by rewrite Hnone in He. }
  assert (forall reason, reject_without_fill clock i sd_BUY q (Some c) reason s = (Ok o, s') ->
    paid_or_refused (ac_account_id (ps_account s), c) s s' o) as Hrej.
  { intros reason Er. apply reject_keeps_book in Er as (Ha & Hf & Hb). right. by rewrite Hb. }
  apply bind_ok in E as (a & s1 & [= <- <-] & E). apply bind_ok in E as (u & s2 & E2 & E).
  injection E2 as _ <-. destruct (Z.leb_spec q 0) as [Hq|Hq]; [by eapply Hrej|].
  assert (or_next_id (R:=R) (Some c) s = (Ok c, s)) as Hid
    by (unfold or_next_id, str_or; destruct c; done).
  unfold bind at 1 in E. rewrite Hid in E. apply bind_ok in E as (aff & s4 & E4 & E).
  injection E4 as E4 <-. destruct aff; [|by eapply Hrej].
  refine (buy_at_broker _ _ _ _ Hsync _ _ _ _ _ E); try done.
  intros r Hr. simpl in Hr. by rewrite Hr in E4.
Qed.

(** ** A repeated order, and a sale below its commission *)

Lemma settle_keeps_book side n c (s : PS) r s' : settle side n c s = (r, s') -> book_of s' = book_of s.
Proof.
  unfold settle, bind at 1, gets. destruct side.
  - destruct (rbind _ _) as [f2|e].
    + unfold bind at 1, set_funds, modify. unfold bind. set (s1 := Build_PaperTradingService _ _ _ _ _ _ _ _ _ _).
      destruct (persist_funds s1) as [[[]|e] s2] eqn:E; intros [= <- <-]; exact (persist_keeps_book _ _ _ E).
    + destruct (isinstance e ValueError); by intros [= <- <-].
  - unfold bind at 1, lift. destruct (credit_sell _ _) as [f2|e]; [|by intros [= <- <-]].
    unfold bind at 1, set_funds, modify. unfold bind. set (s1 := Build_PaperTradingService _ _ _ _ _ _ _ _ _ _).
    destruct (persist_funds s1) as [[[]|e] s2] eqn:E; intros [= <- <-]; exact (persist_keeps_book _ _ _ E).
Qed.

Lemma accepted_collects request s o s' :
  submit_to_broker clock broker_clock request s = (Ok o, s') -> fo_accepted o = true ->
  exists p reason at_ s1, submit_and_collect clock broker_clock request s = (Ok (Some p, reason, at_), s1) /\
    book_of s' = book_of s1.
Proof.
  unfold submit_to_broker. intros E Ha. apply bind_ok in E as ([[fp reason] at_] & s1 & Ec & E).
  destruct fp as [p|].
  - apply bind_ok in E as (cm & s2 & [= <- <-] & E).
    apply bind_ok in E as (eff & s3 & E3 & E). injection E3 as E3 <-.
    apply bind_ok in E as (com & s4 & E4 & E). injection E4 as E4 <-.
    apply bind_ok in E as ([net failed] & s5 & E5 & E). apply settle_keeps_book in E5.
    destruct failed as [m|].
    + apply reject_keeps_book in E as (Hf & _). congruence.
    + apply bind_ok in E as (o' & s6 & E6 & E). injection E6 as E6 <-. injection E as <- <-.
      exists p, reason, at_, s1. split; [done|exact E5].
  - apply bind_ok in E as (o' & s6 & E6 & E). injection E6 as E6 <-. apply mk_outcome_ok in E6.
    injection E as <- <-. by subst o'.
Qed.

Lemma no_fill_collected request s fp reason at_ s1 o s' :
  submit_and_collect clock broker_clock request s = (Ok (fp, reason, at_), s1) -> fp = None ->
  submit_to_broker clock broker_clock request s = (Ok o, s') ->
  fo_accepted o = false /\ book_of s' = book_of s1.
Proof.
  intros Ec -> E. unfold submit_to_broker, bind at 1 in E. rewrite Ec in E.
  apply bind_ok in E as (o' & s6 & E6 & E). injection E6 as E6 <-. apply mk_outcome_ok in E6.
  injection E as <- <-. by subst o'.
Qed.

(** The order a call of [submit] with an explicit client order id places. *)
Lemma service_submit_named i side q t l c s o s' : c <> ""%string ->
  service_submit clock broker_clock i side q t l (Some c) s = (Ok o, s') ->
  let request := paper_request (ps_account s) i side q t l c in
  (fo_accepted o = false /\ book_of s' = book_of s) \/
  submit_to_broker clock broker_clock request s = (Ok o, s').
Proof.
  intros Hc E request. unfold service_submit in E.
  apply bind_ok in E as (a & s1 & [= <- <-] & E). apply bind_ok in E as (u & s2 & E2 & E).
  injection E2 as _ <-.
  destruct (q <=? 0); [left; apply reject_keeps_book in E as (? & _ & ?); done|].
  assert (or_next_id (R:=R) (Some c) s = (Ok c, s)) as Hid
    by (unfold or_next_id, str_or; destruct c; done).
  unfold bind at 1 in E. rewrite Hid in E. apply bind_ok in E as (aff & s4 & E4 & E).
  injection E4 as _ <-. destruct aff; [by right|].
  left. apply reject_keeps_book in E as (? & _ & ?). done.
Qed.

(** The service is not idempotent where its broker is: an order that was
    accepted and filled, sent again under the same client order id with the
    same arguments, is answered with a rejected outcome, although the fill is
    still on the book.  The broker returns its recorded ACCEPTED response, but
    the service looks only at newly drained events. *)
Theorem repeated_order_reported_rejected i side q t l c s o s1 o2 s2 :
  c <> ""%string -> drained (book_of s) -> book_inv (book_of s) ->
  service_submit clock broker_clock i side q t l (Some c) s = (Ok o, s1) -> fo_accepted o = true ->
  service_submit clock broker_clock i side q t l (Some c) s1 = (Ok o2, s2) ->
  let k := (ac_account_id (ps_account s), c) in
  fo_accepted o2 = false /\ fills_for k (book_of s2) = fills_for k (book_of s1) /\
  exists f, fills_for k (book_of s1) = [f].
Proof.
  intros Hc Hd Hinv E1 Ha E2 k.
  pose proof (service_submit_step clock broker_clock _ _ _ _ _ _ _ _ _ E1) as (_ & _ & Hacc).
  apply (service_submit_named _ _ _ _ _ _ _ _ _ Hc) in E1 as [[? _]|E1]; [congruence|].
  set (request := paper_request (ps_account s) i side q t l c) in E1.
  destruct (accepted_collects _ _ _ _ E1 Ha) as (p & reason & at_ & s1' & Ec & Hb1).
  destruct (bk_submissions (book_of s) !! request_key request) as [x|] eqn:Ex.
  { destruct (collect_known _ _ _ _ _ _ _ Hd Ex Ec) as [? _]. congruence. }
  destruct (collect_new _ _ _ _ _ _ Hd Hinv Ex Ec) as (Hd1 & _ & f & Hf & _).
  rewrite <- Hb1 in Hd1, Hf.
  apply (service_submit_named _ _ _ _ _ _ _ _ _ Hc) in E2 as [[? Hb]|E2]; [rewrite Hb; eauto|].
  rewrite Hacc in E2. fold request in E2.
  assert (exists x, bk_submissions (book_of s1) !! request_key request = Some x) as [x Hx].
  { apply submit_and_collect_inv in Ec as (resp & b1 & now & r' & Es & Hb & _).
    apply (answered_first _ _ _ _ _ _ Hinv) in Es as (x & Hx & _). exists x. by rewrite Hb1, Hb. }
  pose proof E2 as E2'. unfold submit_to_broker in E2'.
  apply bind_ok in E2' as ([[fp reason2] at2] & s3 & Ec2 & _).
  destruct (collect_known _ _ _ _ _ _ _ Hd1 Hx Ec2) as [Hfp Hfills].
  destruct (no_fill_collected _ _ _ _ _ _ _ _ Ec2 Hfp E2) as [Hacc2 Hb2].
  split; [done|]. split; [unfold fills_for; by rewrite Hb2, Hfills|]. by exists f.
Qed.

(** A sale whose commission reaches its proceeds: the broker fills it, then
    crediting the non-positive amount raises [ValueError] out of [submit]; the
    fill stays on the book, while no outcome is recorded and no cash moves. *)
Theorem sale_below_commission_raises request s p reason at_ s1 eff com :
  drained (book_of s) -> book_inv (book_of s) ->
  bk_submissions (book_of s) !! request_key request = None -> rq_side request = sd_SELL ->
  submit_and_collect clock broker_clock request s = (Ok (Some p, reason, at_), s1) ->
  apply_slippage p "SELL" (ps_cost_model s) = Ok eff ->
  commission_amount (dmul eff (dec_of_Z (rq_quantity request))) (ps_cost_model s) = Ok com ->
  (dval (dmul eff (dec_of_Z (rq_quantity request))) <= dval com)%Q ->
  exists e s', submit_to_broker clock broker_clock request s = (Err e, s') /\
    exn_cls e = ValueError /\ ps_funds s' = ps_funds s /\ ps_outcomes s' = ps_outcomes s /\
    exists f, fills_for (request_key request) (book_of s') = [f].
Proof.
  intros Hd Hinv Hnone Hside Ec He Hcom Hle.
  destruct (collect_new _ _ _ _ _ _ Hd Hinv Hnone Ec) as (_ & _ & f & Hf & _).
  pose proof (ledger_kept_collect clock broker_clock request s) as Hk. rewrite Ec in Hk.
  unfold ledger_of in Hk. simpl in Hk. injection Hk as _ Hfund Hout Hcost _.
  eexists _, s1. unfold submit_to_broker, bind at 1. rewrite Ec. rewrite Hside.
  unfold bind at 1, gets. rewrite Hcost. unfold bind at 1, lift. cbn [side_value]. rewrite He.
  unfold bind at 1, lift. rewrite Hcom. unfold bind at 1, settle, bind at 1, gets, bind at 1, lift, credit_sell.
  assert (dle (dsub (dmul eff (dec_of_Z (rq_quantity request))) com) dzero = true) as ->.
  { apply dle_spec. rewrite dval_zero. apply Qnot_lt_le. rewrite dsub_pos. lra. }
  cbn. split_and!; try done. by exists f.
Qed.
End ServiceFills.

(** * Concrete runs *)

Module PaperServiceSample.
Open Scope string_scope.

(** A repository that keeps the last funds. *)
#[local] Instance last_funds : PaperRepository (option PaperFunds) := {|
  save_funds f := fun _ => (Ok tt, Some f);
  load_funds _ := fun r => (Ok r, r);
|}.

Definition clock (n : nat) : datetime := utc (1000000 * Z.of_nat n).

Definition account : PaperAccount :=
  {| ac_account_id := 7; ac_paper_run_id := 8; ac_trading_mode := tm_PAPER;
     ac_starting_capital := dec_of_Z 100000; ac_status := as_ACTIVE; ac_created_at := utc 0;
     ac_reset_at := None |}.

Definition prices : gmap UUID PaperReferencePrice := {[ 3%N := PaperSample.reference ]}.

Definition costs (fee : Z) : PaperCostModel :=
  {| co_slippage := sl_FIXED_BPS; co_slippage_bps := dec_of_Z 5;
     co_commission := cm_FIXED_PER_TRADE; co_commission_per_trade := dec_of_Z fee |}.

Definition broker : PaperBrokerAdapter := Eval vm_compute in
  snd (broker_connect clock "paper" "acc" (new_broker prices)).

Definition start (fee : Z) : PaperTradingService (option PaperFunds) :=
  {| ps_account := account; ps_broker := broker; ps_reference_prices := prices;
     ps_cost_model := costs fee; ps_repository := Some None;
     ps_funds := {| fu_account_id := 7; fu_available_cash := dec_of_Z 100000;
                    fu_reserved_cash := dzero; fu_currency := "INR" |};
     ps_outcomes := []; ps_sequence := 0; ps_tick := 0 |}.

Definition orders : list paper_order :=
  [ {| or_instrument := 3; or_side := sd_BUY; or_quantity := 100; or_type := MARKET;
       or_limit := None; or_client_id := None |};
    {| or_instrument := 3; or_side := sd_BUY; or_quantity := 100000; or_type := MARKET;
       or_limit := None; or_client_id := None |};
    {| or_instrument := 3; or_side := sd_SELL; or_quantity := 40; or_type := MARKET;
       or_limit := None; or_client_id := None |} ].

Definition run : res (list PaperFillOutcome) * PaperTradingService (option PaperFunds) :=
  Eval vm_compute in run_orders clock clock orders (start 20).
Definition outs : list PaperFillOutcome :=
  Eval vm_compute in match fst run with Ok l => l | Err _ => [] end.

Example run_outcomes : fo_accepted <$> outs = [true; false; true].
Proof. reflexivity. Qed.

Lemma start_settled fee : settled_funds (ps_funds (start fee)).
Proof. unfold settled_funds. split_and!; by vm_compute. Qed.

Lemma paper_cash_witness :
  ps_outcomes (snd run) = ([] ++ outs)%list /\ settled_funds (ps_funds (snd run)) /\
  (dval (fu_available_cash (ps_funds (snd run))) == dval (dec_of_Z 100000) + net_total outs)%Q.
Proof.
  apply (paper_cash_conserved clock clock orders (start 20) outs (snd run)).
  - apply start_settled.
  - vm_compute. reflexivity.
  - repeat (apply Forall_cons; split; [vm_compute; discriminate|]). apply Forall_nil. exact I.
  - vm_compute. discriminate.
Defined.

Lemma start_book fee : book_inv (book_of (start fee)).
Proof. apply (same_book_inv empty_book); [by split_and! | exact empty_book_inv]. Qed.

Lemma start_sync : in_sync (start 20).
Proof.
  split; [done|done|exact (start_book 20)|apply start_settled|]. vm_compute. reflexivity.
Qed.

Lemma start_ticked : ticked (start 20) 3.
Proof.
  intros r [= <-]. split; [split; by vm_compute|]. intros a [= <-]. split; by vm_compute.
Qed.

Definition buy : res PaperFillOutcome * PaperTradingService (option PaperFunds) :=
  Eval vm_compute in service_submit clock clock 3 sd_BUY 100 MARKET None (Some "c1") (start 20).
Definition refused : PaperFillOutcome :=
  {| fo_client_order_id := ""; fo_order_id := 0; fo_side := sd_BUY; fo_instrument_id := 0;
     fo_quantity := 0; fo_fill_price := None; fo_effective_price := None; fo_commission := dzero;
     fo_net_cash := dzero; fo_accepted := false; fo_reason := None; fo_occurred_at := utc 0 |}.
Definition outcome_of (r : res PaperFillOutcome) : PaperFillOutcome :=
  match r with Ok o => o | Err _ => refused end.
Definition bought : PaperFillOutcome := Eval vm_compute in outcome_of (fst buy).

Lemma buy_eq :
  service_submit clock clock 3 sd_BUY 100 MARKET None (Some "c1") (start 20) = (Ok bought, snd buy).
Proof. vm_compute. reflexivity. Qed.

Lemma buy_paid_witness :
  fo_accepted bought = true /\ paid_or_refused (7%N, "c1") (start 20) (snd buy) bought.
Proof.
  split; [reflexivity|].
  exact (buy_fills_are_paid clock clock 3 100 MARKET None "c1" (start 20) bought (snd buy)
           start_sync start_ticked ltac:(discriminate) eq_refl buy_eq).
Defined.

Definition again : res PaperFillOutcome * PaperTradingService (option PaperFunds) :=
  Eval vm_compute in service_submit clock clock 3 sd_BUY 100 MARKET None (Some "c1") (snd buy).
Definition repeated : PaperFillOutcome := Eval vm_compute in outcome_of (fst again).

Lemma repeated_order_witness :
  fo_accepted repeated = false /\
  fills_for (7%N, "c1") (book_of (snd again)) = fills_for (7%N, "c1") (book_of (snd buy)) /\
  exists f, fills_for (7%N, "c1") (book_of (snd buy)) = [f].
Proof.
  exact (repeated_order_reported_rejected clock clock 3 sd_BUY 100 MARKET None "c1" (start 20)
           bought (snd buy) repeated (snd again) ltac:(discriminate) eq_refl (start_book 20) buy_eq
           eq_refl ltac:(vm_compute; reflexivity)).
Defined.

(** One share at 100.45 with a commission of 200. *)
Definition sale : BrokerOrderRequest := paper_request account 3 sd_SELL 1 MARKET None "c9".
Definition collected : res (option decimal * option string * datetime) *
                       PaperTradingService (option PaperFunds) :=
  Eval vm_compute in submit_and_collect clock clock sale (start 200).

Lemma sale_witness :
  exists e s', submit_to_broker clock clock sale (start 200) = (Err e, s') /\
    exn_cls e = ValueError /\ ps_funds s' = ps_funds (start 200) /\ ps_outcomes s' = [] /\
    exists f, fills_for (request_key sale) (book_of s') = [f].
Proof.
  apply (sale_below_commission_raises clock clock sale (start 200) (Dec false 10050 (-2)) None
           (clock 1) (snd collected) (Dec false 1004498 (-4)) (Dec false 20000 (-2))).
  - vm_compute. reflexivity.
  - exact (start_book 200).
  - vm_compute. reflexivity.
  - reflexivity.
  - vm_compute. reflexivity.
  - vm_compute. reflexivity.
  - vm_compute. reflexivity.
  - vm_compute. discriminate.
Defined.
End PaperServiceSample.
