(* ===== verification/Money.v ===== *)
(** Money on the 0.0001 grid.

    The accounting services round every amount with
    [value.quantize(Decimal("0.0001"), rounding=ROUND_HALF_EVEN)] and store it in
    [Numeric(18, 4)] columns.  A decimal with at most four fractional digits is
    a whole number of ten-thousandths, its [amount]; while the amounts stay
    below 10^28 the context never rounds, so that sums, differences and products
    with whole quantities can be read as integer arithmetic on amounts. *)

From stdpp Require Import base list strings.
From Stdlib Require Import ZArith Lia QArith Qabs Lqa.
From S2P Require Import Prelude PyBase Decimal.

Open Scope Z_scope.

(** [MONEY_QUANTUM] and [round_money] of the accounting services. *)
Definition QUANTUM : decimal := Dec false 1 (-4).

Definition round_money (value : decimal) : res decimal := quantize value QUANTUM.

(** At most four fractional digits. *)
Definition money (d : decimal) : Prop := -4 <= dexp d.

(** The value in ten-thousandths. *)
Definition amount (d : decimal) : Z := scaled d (-4).

Lemma amount_val d : money d -> (dval d == inject_Z (amount d) * pow10 (-4))%Q.
Proof. intros H. by apply scaled_val. Qed.

Lemma amount_eq a b : money a -> money b -> (dval a == dval b)%Q <-> amount a = amount b.
Proof.
  intros Ha Hb. rewrite !amount_val by done. split; [|by intros ->].
  intros E. apply Qmult_inj_r in E; [by apply inject_Z_injective|].
  pose proof (pow10_pos (-4)) as Hp. intros H0. rewrite H0 in Hp. by apply Qlt_irrefl in Hp.
Qed.

Lemma scaled_split d e : -4 <= e <= dexp d -> scaled d (-4) = scaled d e * 10 ^ (e + 4).
Proof.
  intros H. unfold scaled. rewrite <- Z.mul_assoc, <- Z.pow_add_r by lia. do 2 f_equal. lia.
Qed.

Lemma fits_scale z k : 0 <= k -> fits (z * 10 ^ k) -> fits z.
Proof.
  unfold fits. intros Hk H. rewrite Z.abs_mul in H.
  assert (1 <= 10 ^ k) by (apply (Z.pow_le_mono_r 10 0 k); lia). nia.
Qed.

Lemma dz_fits_amount d : money d -> fits (amount d) -> fits (dz d).
Proof.
  intros Hm Hf. unfold amount, scaled in Hf. eapply fits_scale; [|exact Hf]. unfold money in Hm. lia.
Qed.

Lemma amount_dadd a b : money a -> money b -> fits (amount a + amount b) ->
  money (dadd a b) /\ amount (dadd a b) = amount a + amount b.
Proof.
  intros Ha Hb Hf. unfold money, amount in *. set (e := Z.min (dexp a) (dexp b)).
  rewrite (scaled_split a e), (scaled_split b e), <- Z.mul_add_distr_r in Hf |- * by lia.
  assert (dadd a b = of_signed (dneg a && dneg b) (scaled a e + scaled b e) e) as ->.
  { unfold dadd. fold e. apply dfix_exact. rewrite of_signed_dz. eapply fits_scale; [|exact Hf]. lia. }
  split; [simpl; lia|]. rewrite (scaled_split _ e) by (simpl; lia). f_equal.
  unfold scaled at 1. rewrite of_signed_dz. cbn [of_signed dexp]. by rewrite Z.sub_diag, Z.mul_1_r.
Qed.

Lemma dz_copy_negate d : dz (copy_negate d) = - dz d.
Proof. unfold dz. simpl. destruct (dneg d); simpl; lia. Qed.

Lemma amount_negate d : amount (copy_negate d) = - amount d.
Proof. unfold amount, scaled. rewrite dz_copy_negate. simpl. lia. Qed.

Lemma amount_dsub a b : money a -> money b -> fits (amount a - amount b) ->
  money (dsub a b) /\ amount (dsub a b) = amount a - amount b.
Proof.
  intros Ha Hb Hf. unfold dsub.
  destruct (amount_dadd a (copy_negate b)) as [H1 H2]; rewrite ?amount_negate in *; try done.
  all: rewrite ?Z.add_opp_r in *; done.
Qed.

Lemma dz_mul a b : dz (Dec (xorb (dneg a) (dneg b)) (dcoef a * dcoef b) (dexp a + dexp b)) = dz a * dz b.
Proof. unfold dz. simpl. destruct (dneg a), (dneg b); simpl; lia. Qed.

(** A product with a whole number. *)
Lemma amount_scale d z : money d -> fits (amount d * z) ->
  money (dmul d (dec_of_Z z)) /\ amount (dmul d (dec_of_Z z)) = amount d * z.
Proof.
  intros Hd Hf. unfold money in Hd.
  assert (dmul d (dec_of_Z z) =
    Dec (xorb (dneg d) (dneg (dec_of_Z z))) (dcoef d * dcoef (dec_of_Z z)) (dexp d + 0)) as ->.
  { unfold dmul. apply dfix_exact. change (dexp (dec_of_Z z)) with 0.
    pose proof (dz_mul d (dec_of_Z z)) as E. change (dexp (dec_of_Z z)) with 0 in E. rewrite E.
    rewrite dec_of_Z_dz. unfold amount, scaled in Hf. apply (fits_scale _ (dexp d + 4)); [lia|].
    replace (dz d * z * 10 ^ (dexp d + 4)) with (dz d * 10 ^ (dexp d - -4) * z); [done|].
    replace (dexp d - -4) with (dexp d + 4) by lia. ring. }
  split; [unfold money; simpl; lia|]. unfold amount, scaled.
  pose proof (dz_mul d (dec_of_Z z)) as E. change (dexp (dec_of_Z z)) with 0 in E.
  rewrite E, dec_of_Z_dz. cbn [dexp]. rewrite Z.add_0_r. ring.
Qed.

Lemma dmul_comm a b : dmul a b = dmul b a.
Proof. unfold dmul. by rewrite xorb_comm, N.mul_comm, Z.add_comm. Qed.

(** Rounding money changes nothing but the exponent. *)
Lemma round_money_exact d : money d -> fits (amount d) ->
  exists r, round_money d = Ok r /\ dexp r = -4 /\ amount r = amount d.
Proof.
  intros Hm Hf. unfold money in Hm. unfold round_money.
  assert (Z.of_N (rescale_coef d (-4)) = Z.abs (amount d)) as E.
  { unfold rescale_coef. destruct (Z.leb_spec (-4) (dexp d)); [|lia].
    rewrite N2Z.inj_mul, N2Z.inj_pow, Z2N.id by lia. change (Z.of_N 10) with 10.
    unfold amount, scaled. rewrite Z.abs_mul, (Z.abs_eq (10 ^ _)) by (apply Z.pow_nonneg; lia).
    f_equal. unfold dz. destruct (dneg d); lia. }
  rewrite quantize_ok by (change (dexp QUANTUM) with (-4); unfold fits in Hf; lia).
  eexists. split; [done|]. split; [done|]. change (dexp QUANTUM) with (-4).
  unfold amount at 1, scaled. cbn [dexp]. rewrite Z.sub_diag, Z.mul_1_r.
  assert (amount d = (if dneg d then -1 else 1) * Z.abs (amount d)) as ->.
  { unfold amount, scaled, dz. assert (0 <= 10 ^ (dexp d - -4)) by (apply Z.pow_nonneg; lia).
    destruct (dneg d); nia. }
  unfold dz. cbn [dneg dcoef]. rewrite <- E. destruct (dneg d); lia.
Qed.

(** The result of a rounding is money. *)
Lemma round_money_inv d r : round_money d = Ok r -> dexp r = -4 /\ fits (amount r).
Proof.
  intros [-> H]%quantize_inv. split; [done|]. change (dexp QUANTUM) with (-4) in *.
  unfold amount, scaled, fits, dz. cbn [dexp dneg dcoef]. rewrite Z.sub_diag, Z.mul_1_r.
  destruct (dneg d); lia.
Qed.

Lemma exp4_money d : dexp d = -4 -> money d.
Proof. unfold money. lia. Qed.

Lemma amount_dzero : amount dzero = 0.
Proof. done. Qed.

(** ** Sums *)

Definition amounts (l : list decimal) : Z := foldr (fun d z => amount d + z) 0 l.

Lemma amounts_app l1 l2 : amounts (l1 ++ l2) = amounts l1 + amounts l2.
Proof. induction l1; simpl; lia. Qed.

Lemma amounts_perm l1 l2 : l1 ≡ₚ l2 -> amounts l1 = amounts l2.
Proof. induction 1; simpl; lia. Qed.

(** The sum of the magnitudes bounds every partial sum. *)
Definition magnitude (l : list decimal) : Z := foldr (fun d z => Z.abs (amount d) + z) 0 l.

Lemma magnitude_nonneg l : 0 <= magnitude l.
Proof. induction l; simpl; lia. Qed.

Lemma amounts_magnitude l : Z.abs (amounts l) <= magnitude l.
Proof. induction l; simpl; lia. Qed.

Lemma magnitude_app l1 l2 : magnitude (l1 ++ l2) = magnitude l1 + magnitude l2.
Proof. induction l1; simpl; lia. Qed.

Lemma magnitude_perm l1 l2 : l1 ≡ₚ l2 -> magnitude l1 = magnitude l2.
Proof. induction 1; simpl; lia. Qed.

Lemma fold_dadd l : forall a, money a -> Forall money l ->
  Z.abs (amount a) + magnitude l < 10 ^ 28 ->
  money (foldl dadd a l) /\ amount (foldl dadd a l) = amount a + amounts l.
Proof.
  induction l as [|d l IH]; intros a Ha Hl Hb; simpl in *; [split; [done|lia]|].
  apply Forall_cons in Hl as [Hd Hl]. pose proof (magnitude_nonneg l).
  destruct (amount_dadd a d) as [H1 H2]; [done..|unfold fits; lia|].
  destruct (IH (dadd a d)) as [H3 H4]; [done..|lia|]. split; [done|]. lia.
Qed.

Lemma dsum_amounts l : Forall money l -> magnitude l < 10 ^ 28 ->
  money (dsum l) /\ amount (dsum l) = amounts l.
Proof.
  intros Hl Hb. destruct (fold_dadd l dzero) as [H1 H2]; [done|done|by rewrite amount_dzero|].
  split; [done|]. unfold dsum. by rewrite H2, amount_dzero.
Qed.

(** ** Signs *)

Lemma amount_sgn d : money d -> Z.sgn (amount d) = Z.sgn (dz d).
Proof.
  intros Hm. unfold amount, scaled. rewrite Z.sgn_mul.
  rewrite (Z.sgn_pos (10 ^ _)); [lia|]. apply Z.pow_pos_nonneg; unfold money in Hm; lia.
Qed.

Lemma amount_nonneg d : money d -> (0 <= dval d)%Q <-> 0 <= amount d.
Proof. intros Hm. rewrite dval_nonneg. pose proof (amount_sgn d Hm). lia. Qed.

Lemma amount_gt_zero d : money d -> dgt d dzero = (0 <? amount d).
Proof.
  intros Hm. unfold dgt. pose proof (amount_sgn d Hm) as Hs. destruct (Z.ltb_spec 0 (amount d)) as [H|H].
  - rewrite dlt_spec, dval_zero, dval_pos. lia.
  - rewrite dlt_false, dval_zero. apply Qnot_lt_le. rewrite dval_pos. lia.
Qed.

Lemma amount_dabs d : money d -> fits (amount d) ->
  money (dabs d) /\ amount (dabs d) = Z.abs (amount d).
Proof.
  intros Hm Hf. unfold dabs. rewrite dfix_exact.
  2: { apply (dz_fits_amount _ Hm) in Hf. revert Hf. unfold fits, dz. simpl. destruct (dneg d); lia. }
  split; [done|]. unfold amount, scaled. rewrite Z.abs_mul, (Z.abs_eq (10 ^ _)) by (apply Z.pow_nonneg; lia).
  f_equal. unfold dz. simpl. destruct (dneg d); lia.
Qed.

Lemma amount_dminus d : money d -> fits (amount d) ->
  money (dminus d) /\ amount (dminus d) = - amount d.
Proof.
  intros Hm Hf. pose proof (dz_fits_amount _ Hm Hf) as Hz. unfold dminus.
  destruct (N.eqb_spec (dcoef d) 0) as [E|E]; rewrite dfix_exact.
  - split; [done|]. unfold amount, scaled, dz. simpl. rewrite E. by destruct (dneg d).
  - done.
  - split; [done|]. apply amount_negate.
  - rewrite dz_copy_negate. unfold fits in *. lia.
Qed.

(** A whole quantity at a price. *)
Lemma notional_exact q p : money p -> fits (q * amount p) ->
  exists r, round_money (dmul (dec_of_Z q) p) = Ok r /\ dexp r = -4 /\ amount r = q * amount p.
Proof.
  intros Hp Hf. rewrite dmul_comm. rewrite Z.mul_comm in Hf.
  destruct (amount_scale p q Hp Hf) as [Hm Ha].
  destruct (round_money_exact _ Hm) as (r & Hr & He & Hv); [by rewrite Ha|].
  exists r. split_and!; [done..|]. rewrite Hv, Ha. lia.
Qed.

(** ** Order *)

Lemma amount_lt a b : money a -> money b -> dlt a b = (amount a <? amount b).
Proof.
  intros Ha Hb. pose proof (pow10_pos (-4)) as Hp. destruct (Z.ltb_spec (amount a) (amount b)) as [H|H].
  - apply dlt_spec. rewrite !amount_val by done. apply Qmult_lt_compat_r; [done|]. by rewrite <- Zlt_Qlt.
  - apply dlt_false. rewrite !amount_val by done. apply Qmult_le_compat_r; [|by apply Qlt_le_weak].
    by rewrite <- Zle_Qle.
Qed.

Lemma amount_le a b : money a -> money b -> dle a b = (amount a <=? amount b).
Proof.
  intros Ha Hb. pose proof (amount_lt b a Hb Ha) as H. destruct (Z.leb_spec (amount a) (amount b)).
  - apply dle_spec, dlt_false. rewrite H. lia.
  - apply dle_false, dlt_spec. rewrite H. lia.
Qed.

Lemma amount_deq a b : money a -> money b -> deq a b = (amount a =? amount b).
Proof.
  intros Ha Hb. destruct (Z.eqb_spec (amount a) (amount b)) as [H|H].
  - by apply deq_spec, amount_eq.
  - apply deq_false. rewrite amount_eq by done. done.
Qed.

(** * Numeric columns

    A [Numeric(p, s)] column of PostgreSQL rounds the value it is given to [s]
    decimals, ties away from zero, refuses it ("numeric field overflow") when
    the result has more than [p] digits, has no negative zero, and gives its
    value back with exactly [s] decimals. *)

(** [n / d] to the nearest integer, ties up. *)
Definition div_half_up (n d : N) : N := ((2 * n + d) / (2 * d))%N.

Definition numeric_coef (s : Z) (d : decimal) : N :=
  if - s <=? dexp d then (dcoef d * 10 ^ Z.to_N (dexp d + s))%N
  else div_half_up (dcoef d) (10 ^ Z.to_N (- s - dexp d)).

(** The value the column holds. *)
Definition numeric (s : Z) (d : decimal) : decimal :=
  let c := numeric_coef s d in
  Dec (negb (c =? 0)%N && dneg d) c (- s).

(** The column has room for it. *)
Definition numeric_fits (p s : Z) (d : decimal) : bool := (Z.of_N (numeric_coef s d) <? 10 ^ p)%Z.

Lemma div_half_up_err n d : (0 < d)%N ->
  2 * Z.abs (Z.of_N (div_half_up n d) * Z.of_N d - Z.of_N n) <= Z.of_N d.
Proof.
  intros Hd. unfold div_half_up. set (x := (2 * n + d)%N). set (q := (x / (2 * d))%N).
  pose proof (N.div_mod x (2 * d) ltac:(lia)) as E. pose proof (N.mod_lt x (2 * d) ltac:(lia)) as Hr.
  fold q in E. unfold x in E, Hr. replace (2 * d * q)%N with (2 * (q * d))%N in E by lia.
  rewrite <- N2Z.inj_mul. generalize dependent (q * d)%N. intros t E.
  set (r := ((2 * n + d) mod (2 * d))%N) in *. lia.
Qed.

(** The column moves a value by at most half a unit of its last decimal. *)
Lemma numeric_err s d : (Qabs (dval (numeric s d) - dval d) <= (1 # 2) * pow10 (- s))%Q.
Proof.
  pose proof (pow10_pos (- s)) as Hp. unfold dval, numeric, dz. cbn [dneg dcoef dexp].
  set (c := numeric_coef s d).
  assert (Qabs (inject_Z (Z.of_N c) * pow10 (- s) - inject_Z (Z.of_N (dcoef d)) * pow10 (dexp d))
          <= (1 # 2) * pow10 (- s))%Q as H.
  { unfold c, numeric_coef. destruct (Z.leb_spec (- s) (dexp d)) as [H|H].
    - rewrite (pow10_split (dexp d) (- s) H). rewrite N2Z.inj_mul, N2Z.inj_pow, Z2N.id by lia.
      rewrite inject_Z_mult. change (Z.of_N 10) with 10. replace (dexp d - - s) with (dexp d + s) by lia.
      match goal with |- (Qabs ?x <= _)%Q => assert (x == 0)%Q as -> by ring end.
      change (Qabs 0) with 0%Q. lra.
    - set (p := (10 ^ Z.to_N (- s - dexp d))%N).
      pose proof (div_half_up_err (dcoef d) p (pow10_N_pos _)) as Herr.
      assert (pow10 (- s) == inject_Z (Z.of_N p) * pow10 (dexp d))%Q as Hpe.
      { rewrite (pow10_split (- s) (dexp d)) by lia. subst p. by rewrite N2Z.inj_pow, Z2N.id by lia. }
      rewrite Hpe. rewrite Zle_Qle, inject_Z_mult in Herr. change (inject_Z 2) with (2 # 1)%Q in Herr.
      set (q := Z.of_N (div_half_up (dcoef d) p)) in *.
      assert (inject_Z q * (inject_Z (Z.of_N p) * pow10 (dexp d))
              - inject_Z (Z.of_N (dcoef d)) * pow10 (dexp d)
              == inject_Z (q * Z.of_N p - Z.of_N (dcoef d)) * pow10 (dexp d))%Q as ->.
      { unfold Z.sub. rewrite inject_Z_plus, inject_Z_mult, inject_Z_opp. ring. }
      rewrite Qabs_Qmult, (Qabs_pos (pow10 (dexp d))) by apply Qlt_le_weak, pow10_pos.
      change (Qabs (inject_Z ?x)) with (inject_Z (Z.abs x)).
      pose proof (pow10_pos (dexp d)). nra. }
  destruct (N.eqb_spec c 0) as [E|E]; cbn [negb andb]; destruct (dneg d); try done.
  - rewrite E in *. rewrite !inject_Z_opp, <- Qabs_opp in *. cbn [Z.of_N] in *.
    match goal with |- (Qabs ?x <= _)%Q => match type of H with (Qabs ?y <= _)%Q =>
      assert (x == - y)%Q as -> by (change (inject_Z 0) with 0%Q; ring) end end.
    by rewrite Qabs_opp.
  - rewrite !inject_Z_opp, <- Qabs_opp.
    match goal with |- (Qabs ?x <= _)%Q => match type of H with (Qabs ?y <= _)%Q =>
      assert (x == y)%Q as -> by ring end end. done.
Qed.

(** A value on the column's grid is held as it is. *)
Lemma numeric_exact s d : - s <= dexp d -> (dval (numeric s d) == dval d)%Q.
Proof.
  intros H. unfold dval, numeric, numeric_coef, dz. cbn [dneg dcoef dexp].
  rewrite (proj2 (Z.leb_le _ _)) by done. rewrite (pow10_split (dexp d) (- s) H).
  replace (dexp d - - s) with (dexp d + s) by lia. set (k := dexp d + s).
  assert (Z.of_N (dcoef d * 10 ^ Z.to_N k) = Z.of_N (dcoef d) * 10 ^ k) as Hc
    by (rewrite N2Z.inj_mul, N2Z.inj_pow, Z2N.id by lia; done).
  destruct (N.eqb_spec (dcoef d * 10 ^ Z.to_N k) 0) as [E|E]; cbn [negb andb].
  - assert (dcoef d = 0%N) as -> by (pose proof (pow10_N_pos (Z.to_N k)); nia).
    rewrite N.mul_0_l. destruct (dneg d); unfold Qeq, Qmult, inject_Z; cbn; lia.
  - destruct (dneg d); rewrite Hc, ?inject_Z_opp, inject_Z_mult; ring.
Qed.

Lemma numeric_amount d : money d -> amount (numeric 4 d) = amount d.
Proof.
  intros H. apply amount_eq; [unfold money; simpl; lia|done|]. apply (numeric_exact 4). unfold money in H. lia.
Qed.

(** What a [Numeric(_, 4)] column makes of an amount: four decimals, at most
    half a ten-thousandth away, and the same value when it was on the grid. *)
Definition column_keeps (given kept : decimal) : Prop :=
  dexp kept = -4 /\ (Qabs (dval kept - dval given) <= 1 # 20000)%Q /\
  (money given -> (dval kept == dval given)%Q).

Lemma numeric_keeps d : column_keeps d (numeric 4 d).
Proof.
  split; [done|]. split; [|intros H; apply (numeric_exact 4); unfold money in H; lia].
  eapply Qle_trans; [apply numeric_err|]. by vm_compute.
Qed.

Lemma numeric_nonneg s d : dlt d dzero = false -> dlt (numeric s d) dzero = false.
Proof.
  rewrite !dlt_false, dval_zero, !dval_nonneg. unfold numeric, dz. cbn [dneg dcoef].
  destruct (dneg d); [|rewrite andb_false_r; lia]. intros H. assert (dcoef d = 0%N) as E by lia.
  assert (numeric_coef s d = 0%N) as ->; [|done]. unfold numeric_coef. rewrite E.
  destruct (_ <=? _); [lia|]. unfold div_half_up. pose proof (pow10_N_pos (Z.to_N (- s - dexp d))).
  apply N.div_small. lia.
Qed.
