(* ===== verification/Service.v ===== *)
(** The shape the accounting services share: an engine object holds an optional
    repository, a metrics object of integer counters, and injected callables
    ([clock], [uuid4], the halt flag), which are functions of the number of
    calls made so far. *)

From stdpp Require Import base list strings gmap.
From Stdlib Require Import ZArith Lia String.
From S2P Require Import Prelude PyBase.

Open Scope Z_scope.

Record Service (DB : Type) := {
  sw_repository : option DB;
  sw_metrics : gmap string Z;    (* the counters, by attribute name *)
  sw_tick : nat;
}.
Arguments sw_repository {DB} _.
Arguments sw_metrics {DB} _.
Arguments sw_tick {DB} _.

Definition SIMULATED : list string := ["BACKTEST"%string; "PAPER"%string].

(** [_guard_mode]: LIVE and unknown modes raise. *)
Definition guard_mode (cls : exn_class) (live : string) (trading_mode : string) : res unit :=
  let mode := py_upper trading_mode in
  raise_if (String.eqb mode "LIVE") cls live ;!
  raise_if (negb (bool_decide (mode ∈ SIMULATED))) cls ("unknown trading mode: " +:+ trading_mode).

Lemma guard_mode_ok cls live m : guard_mode cls live m = Ok tt <-> py_upper m ∈ SIMULATED.
Proof.
  unfold guard_mode. split.
  - intros H. res_inv. by rewrite negb_false_iff, bool_decide_eq_true in K.
  - intros H. rewrite (bool_decide_eq_true_2 _ H).
    destruct (String.eqb_spec (py_upper m) "LIVE") as [E|]; [|done].
    rewrite E in H. unfold SIMULATED in H. set_solver.
Qed.

Section Service.
Context {DB : Type}.
Abbreviation SW := (Service DB).

Definition metric (name : string) : M SW unit :=
  modify (fun w => {| sw_repository := sw_repository w; sw_metrics := bump (sw_metrics w) name;
                      sw_tick := sw_tick w |}).

Definition scall {T} (f : nat -> T) : M SW T :=
  fun w => (Ok (f (sw_tick w)),
            {| sw_repository := sw_repository w; sw_metrics := sw_metrics w;
               sw_tick := S (sw_tick w) |}).

Definition set_db (db : DB) (w : SW) : SW :=
  {| sw_repository := Some db; sw_metrics := sw_metrics w; sw_tick := sw_tick w |}.

(** [self._repository.method(...)] *)
Definition repo_call {T} (m : M DB T) : M SW T :=
  fun w => match sw_repository w with
           | Some db => let '(r, db') := m db in (r, set_db db' w)
           | None => (raise AttributeError "'NoneType' object has no attribute", w)
           end.

(** [self._repository is None] *)
Definition no_repository : M SW bool :=
  gets (fun w => match sw_repository w with Some _ => false | None => true end).

(** ** What the steps do to the repository *)

(** [m] keeps the repository, whether it returns or raises. *)
Definition keeps_repo {T} (m : M SW T) : Prop := forall w, sw_repository (snd (m w)) = sw_repository w.

Lemma keeps_metric n : keeps_repo (metric n).
Proof. done. Qed.
Lemma keeps_scall {T} (f : nat -> T) : keeps_repo (scall f).
Proof. done. Qed.
Lemma keeps_ret {T} (a : T) : keeps_repo (ret a).
Proof. done. Qed.
Lemma keeps_lift {T} (r : res T) : keeps_repo (lift r).
Proof. done. Qed.
Lemma keeps_no_repository : keeps_repo no_repository.
Proof. done. Qed.

Lemma keeps_bind {A B} (m : M SW A) (k : A -> M SW B) :
  keeps_repo m -> (forall a, keeps_repo (k a)) -> keeps_repo (bind m k).
Proof.
  intros Hm Hk w. unfold bind. specialize (Hm w).
  destruct (m w) as [[a|e] w1]; simpl in *; [by rewrite Hk|done].
Qed.

Lemma keeps_if {A} (b : bool) (m1 m2 : M SW A) :
  keeps_repo m1 -> keeps_repo m2 -> keeps_repo (if b then m1 else m2).
Proof. by destruct b. Qed.

Lemma repo_call_reads {T} (m : M DB T) : reads m -> keeps_repo (repo_call m).
Proof.
  intros Hm w. unfold repo_call. destruct (sw_repository w) as [db|] eqn:E; [|done].
  specialize (Hm db). destruct (m db) as [r db']. simpl in *. by subst.
Qed.

Lemma repo_call_inv {T} (m : M DB T) w db r w' :
  sw_repository w = Some db -> repo_call m w = (r, w') ->
  exists db', m db = (r, db') /\ w' = set_db db' w.
Proof.
  intros Hw. unfold repo_call. rewrite Hw. destruct (m db) as [r1 db1].
  intros [= <- <-]. eauto.
Qed.
End Service.

Create HintDb svc.
#[export] Hint Resolve keeps_metric keeps_scall keeps_ret keeps_lift keeps_no_repository keeps_bind
  keeps_if repo_call_reads : svc.

(** Split a run of [let* x := m in k]: the failure of [m], or its value and the
    rest. *)
Lemma bind_run {S A B} (m : M S A) (k : A -> M S B) s r s' :
  bind m k s = (r, s') ->
  (exists e, m s = (Err e, s') /\ r = Err e) \/
  (exists a s1, m s = (Ok a, s1) /\ k a s1 = (r, s')).
Proof.
  unfold bind. destruct (m s) as [[a|e] s1]; [eauto|]. intros [= <- <-]. eauto.
Qed.

(** The same for a guard that only reads. *)
Lemma lift_run {S A B} (x : res A) (k : A -> M S B) s r s' :
  bind (lift x) k s = (r, s') ->
  (exists e, x = Err e /\ r = Err e /\ s' = s) \/ (exists a, x = Ok a /\ k a s = (r, s')).
Proof.
  unfold bind, lift. destruct x as [a|e]; [eauto|]. intros [= <- <-]. eauto.
Qed.

Lemma try_run {S A} (m : M S A) h s r s' :
  try_except m h s = (r, s') ->
  (exists a, m s = (Ok a, s') /\ r = Ok a) \/
  (exists e s1, m s = (Err e, s1) /\
     match h e with Some k => k s1 = (r, s') | None => r = Err e /\ s' = s1 end).
Proof.
  unfold try_except. destruct (m s) as [[a|e] s1].
  - intros [= <- <-]. eauto.
  - intros E. right. exists e, s1. split; [done|]. destruct (h e); [done|]. by injection E as <- <-.
Qed.

Lemma reads_run {S A} (m : M S A) s r s' : reads m -> m s = (r, s') -> s' = s.
Proof. intros Hm E. specialize (Hm s). by rewrite E in Hm. Qed.

Lemma mapM_res_total {A B} (f : A -> res B) l :
  (forall a, a ∈ l -> exists b, f a = Ok b) -> exists bs, mapM_res f l = Ok bs.
Proof.
  induction l as [|a l IH]; intros H; simpl; [eauto|].
  destruct (H a ltac:(by left)) as [b ->]. destruct IH as [bs ->]; [|by eexists].
  intros x Hx. apply H. by right.
Qed.

(** A loop whose body can raise. *)
Fixpoint foldM {A B} (f : A -> B -> res A) (a : A) (l : list B) : res A :=
  match l with
  | [] => Ok a
  | b :: l' => let! a' := f a b in foldM f a' l'
  end.

Lemma foldM_app {A B} (f : A -> B -> res A) a l1 l2 :
  foldM f a (l1 ++ l2) = (let! b := foldM f a l1 in foldM f b l2).
Proof. revert a. induction l1 as [|x l1 IH]; intros a; [done|]. cbn. destruct (f a x); [cbn; apply IH|done]. Qed.

(** An invariant of the steps of a loop that knows which items were passed. *)
Lemma foldM_inv {A B} (f : A -> B -> res A) (I : list B -> A -> Prop) l :
  (forall past b a a', past ++ [b] `prefix_of` l -> I past a -> f a b = Ok a' -> I (past ++ [b]) a') ->
  forall a a', I [] a -> foldM f a l = Ok a' -> I l a'.
Proof.
  intros Hstep. assert (forall l2 past a a', past ++ l2 = l -> I past a -> foldM f a l2 = Ok a' -> I l a') as H.
  { induction l2 as [|b l2 IH]; intros past a a' Hl Ha E; cbn in E.
    - rewrite app_nil_r in Hl. by simplify_eq.
    - apply rbind_ok in E as (a1 & E1 & E2). apply (IH (past ++ [b]) a1); [by rewrite <- app_assoc| |done].
      apply (Hstep past b a); [|done..]. exists l2. by rewrite <- app_assoc. }
  intros a a'. by apply (H l []).
Qed.

(** Progress of a loop whose steps cannot fail under an invariant. *)
Lemma foldM_total {A B} (f : A -> B -> res A) (I : list B -> A -> Prop) l :
  (forall past b a, past ++ [b] `prefix_of` l -> I past a -> exists a', f a b = Ok a' /\ I (past ++ [b]) a') ->
  forall a, I [] a -> exists a', foldM f a l = Ok a' /\ I l a'.
Proof.
  intros Hstep. assert (forall l2 past a, past ++ l2 = l -> I past a -> exists a', foldM f a l2 = Ok a' /\ I l a') as H.
  { induction l2 as [|b l2 IH]; intros past a Hl Ha; cbn.
    - rewrite app_nil_r in Hl. subst. eauto.
    - destruct (Hstep past b a) as (a1 & E1 & H1); [exists l2; by rewrite <- app_assoc|done|]. rewrite E1. cbn.
      apply (IH (past ++ [b])); [by rewrite <- app_assoc|done]. }
  intros a. by apply (H l []).
Qed.
