(* ===== verification/Pnl.v ===== *)
(** The P&L engine (services/pnl_engine): contracts.py, accounting.py,
    identity.py, unrealized.py, aggregation.py, repository.py and engine.py,
    with the [pnl_events] and [pnl_snapshots] tables.

    The engine consumes the position engine's fills and snapshots ([Position]).
    Its repository runs over the session interface of [Sql]; its [Numeric(18, 4)]
    columns round what they are given ([Money.numeric]): the engine rounds the
    amounts it computes, but not the price of the fill.  [occurred_at]
    and [snapshot_at] are compared as instants, as PostgreSQL does. *)

From stdpp Require Import base list strings gmap fin_maps.
From Stdlib Require Import ZArith Lia String Ascii QArith Sorted.
From S2P Require Import Prelude PyBase Hashing Decimal DecimalText Money Sql Service Position.
Open Scope Z_scope.

(** * contracts.py *)

Inductive PnlStatus := gs_READY | gs_DEGRADED | gs_UNAVAILABLE | gs_CONFLICT.
#[export] Instance PnlStatus_eq_dec : EqDecision PnlStatus.
Proof. solve_decision. Defined.

Definition pnl_status_value (s : PnlStatus) : string :=
  match s with
  | gs_READY => "READY" | gs_DEGRADED => "DEGRADED"
  | gs_UNAVAILABLE => "UNAVAILABLE" | gs_CONFLICT => "CONFLICT"
  end.

Definition pnl_status_of :=
  enum_of [gs_READY; gs_DEGRADED; gs_UNAVAILABLE; gs_CONFLICT] pnl_status_value.

Inductive PnlEventType := REALIZED_PNL | COST_APPLIED | PNL_CONFLICT | PNL_REJECTED.
#[export] Instance PnlEventType_eq_dec : EqDecision PnlEventType.
Proof. solve_decision. Defined.

Definition pnl_event_value (t : PnlEventType) : string :=
  match t with
  | REALIZED_PNL => "REALIZED_PNL" | COST_APPLIED => "COST_APPLIED"
  | PNL_CONFLICT => "PNL_CONFLICT" | PNL_REJECTED => "PNL_REJECTED"
  end.

Definition pnl_event_of :=
  enum_of [REALIZED_PNL; COST_APPLIED; PNL_CONFLICT; PNL_REJECTED] pnl_event_value.

Inductive PnlApplyStatus := ga_APPLIED | ga_DUPLICATE | ga_CONFLICT | ga_REJECTED.

Inductive PriceState := FRESH | STALE | MISSING.
#[export] Instance PriceState_eq_dec : EqDecision PriceState.
Proof. solve_decision. Defined.

Record CostComponent := {
  cc_amount : decimal;
  cc_kind : string;
  cc_source : string;
}.

Definition mk_CostComponent (c : CostComponent) : res CostComponent :=
  raise_if (dlt (cc_amount c) dzero) ValueError "cost amount must be non-negative" ;!
  raise_if (is_blank (cc_kind c)) ValueError "cost kind is required" ;!
  Ok c.

Record RealizedPnl := {
  rz_execution_id : string;
  rz_account_id : UUID;
  rz_strategy_run_id : UUID;
  rz_instrument_id : UUID;
  rz_trading_mode : string;
  rz_closed_quantity : Z;
  rz_sell_price : option decimal;
  rz_average_cost : option decimal;
  rz_gross_pnl : decimal;
  rz_costs : decimal;
  rz_net_pnl : decimal;
  rz_occurred_at : datetime;
}.

Record UnrealizedPnl := {
  uz_position_id : option UUID;
  uz_instrument_id : UUID;
  uz_quantity : Z;
  uz_average_cost : option decimal;
  uz_reference_price : option decimal;
  uz_unrealized_pnl : option decimal;
  uz_price_state : PriceState;
  uz_status : PnlStatus;
}.

Record PositionPnl := {
  pz_position_id : option UUID;
  pz_account_id : option UUID;
  pz_strategy_run_id : UUID;
  pz_instrument_id : UUID;
  pz_trading_mode : string;
  pz_quantity : Z;
  pz_average_cost : option decimal;
  pz_reference_price : option decimal;
  pz_market_value : option decimal;
  pz_unrealized_pnl : option decimal;
  pz_realized_pnl : decimal;
  pz_status : PnlStatus;
}.

Record PnlEvent := {
  ge_id : option UUID;
  ge_execution_id : string;
  ge_event_type : PnlEventType;
  ge_account_id : UUID;
  ge_strategy_run_id : UUID;
  ge_instrument_id : UUID;
  ge_position_id : option UUID;
  ge_trading_mode : string;
  ge_side : string;
  ge_quantity : Z;
  ge_price : option decimal;
  ge_average_cost : option decimal;
  ge_gross_pnl : decimal;
  ge_costs : decimal;
  ge_net_pnl : decimal;
  ge_occurred_at : datetime;
  ge_content_hash : string;
}.

Record PnlSnapshot := {
  gn_snapshot_id : option UUID;
  gn_account_id : UUID;
  gn_trading_mode : string;
  gn_snapshot_at : datetime;
  gn_realized_pnl : decimal;
  gn_unrealized_pnl : option decimal;
  gn_gross_pnl : decimal;
  gn_costs : decimal;
  gn_net_pnl : decimal;
  gn_position_count : Z;
  gn_status : PnlStatus;
}.

Record PnlResult := {
  gt_status : PnlApplyStatus;
  gt_event : option PnlEvent;
  gt_realized : option RealizedPnl;
  gt_conflict_original : option PnlEvent;
}.

Record AggregatedPnl := {
  ag_key : string;
  ag_realized_gross : decimal;
  ag_realized_costs : decimal;
  ag_realized_net : decimal;
  ag_unrealized_pnl : option decimal;
  ag_gross_pnl : decimal;
  ag_net_pnl : decimal;
  ag_trade_count : Z;
}.

(** * accounting.py *)

Definition realized_pnl_long (sell_price average_cost : decimal) (closed_quantity : Z) : res decimal :=
  raise_if (closed_quantity <=? 0) ValueError "closed_quantity must be positive" ;!
  round_money (dmul (dsub sell_price average_cost) (dec_of_Z closed_quantity)).

Definition net_pnl (gross costs : decimal) : res decimal := round_money (dsub gross costs).

Definition costs_total (costs : list CostComponent) : res decimal :=
  round_money (dsum (cc_amount <$> costs)).

Definition unrealized_pnl_long (reference_price average_cost : decimal) (open_quantity : Z)
    : res decimal :=
  raise_if (open_quantity <=? 0) ValueError "open_quantity must be positive" ;!
  round_money (dmul (dsub reference_price average_cost) (dec_of_Z open_quantity)).

(** * identity.py *)

Definition pnl_content_hash (execution_id event_type : string)
    (account_id strategy_run_id instrument_id : UUID) (trading_mode side : string) (quantity : Z)
    (price average_cost : option string) (gross_pnl costs net_pnl : string)
    (occurred_at : datetime) : string :=
  sha256_hex (json_compact
    [("execution_id"%string, JStr execution_id);
     ("event_type"%string, JStr event_type);
     ("account_id"%string, JStr (uuid_str account_id));
     ("strategy_run_id"%string, JStr (uuid_str strategy_run_id));
     ("instrument_id"%string, JStr (uuid_str instrument_id));
     ("trading_mode"%string, JStr (py_upper trading_mode));
     ("side"%string, JStr side);
     ("quantity"%string, JInt quantity);
     ("price"%string, json_opt_str price);
     ("average_cost"%string, json_opt_str average_cost);
     ("gross_pnl"%string, JStr gross_pnl);
     ("costs"%string, JStr costs);
     ("net_pnl"%string, JStr net_pnl);
     ("occurred_at"%string, JStr (isoformat occurred_at))]).

Definition pnl_snapshot_key (account_id : UUID) (trading_mode : string) (snapshot_at : datetime)
    : string :=
  uuid_str account_id +:+ ":" +:+ py_upper trading_mode +:+ ":" +:+ isoformat snapshot_at.

(** * unrealized.py *)

(** A reference price as the engine reads it: its price and when it was seen
    ([ReferencePrice] of the portfolio engine). *)
Record RefPrice := {
  rp_instrument_id : UUID;
  rp_price : decimal;
  rp_observed_at : datetime;
}.

Definition SECOND : Z := 1000000.

Definition pnl_classify_price (price : option RefPrice) (now : datetime)
    (max_age_seconds : option Z) : res (option decimal * PriceState) :=
  match price with
  | None => Ok (None, MISSING)
  | Some p =>
      if dle (rp_price p) dzero then Ok (None, MISSING) else
      match max_age_seconds with
      | None => Ok (Some (rp_price p), FRESH)
      | Some max_age =>
          let! future := dt_gt (rp_observed_at p) now in
          if (future : bool) then Ok (Some (rp_price p), STALE) else
          let! age := dt_sub now (rp_observed_at p) in
          if max_age * SECOND <? age then Ok (Some (rp_price p), STALE)
          else Ok (Some (rp_price p), FRESH)
      end
  end.

Definition mark_to_market (quantity : Z) (average_cost : option decimal)
    (position_id : option UUID) (instrument_id : UUID) (price : option RefPrice) (now : datetime)
    (max_age_seconds : option Z) : res UnrealizedPnl :=
  if quantity =? 0 then
    Ok {| uz_position_id := position_id; uz_instrument_id := instrument_id; uz_quantity := 0;
          uz_average_cost := average_cost; uz_reference_price := None;
          uz_unrealized_pnl := Some dzero; uz_price_state := FRESH; uz_status := gs_READY |}
  else
  match average_cost with
  | None =>
      Ok {| uz_position_id := position_id; uz_instrument_id := instrument_id;
            uz_quantity := quantity; uz_average_cost := None; uz_reference_price := None;
            uz_unrealized_pnl := None; uz_price_state := MISSING; uz_status := gs_UNAVAILABLE |}
  | Some avg =>
      let! ps := pnl_classify_price price now max_age_seconds in
      let '(ref_price, state) := ps in
      match ref_price with
      | None =>
          Ok {| uz_position_id := position_id; uz_instrument_id := instrument_id;
                uz_quantity := quantity; uz_average_cost := average_cost;
                uz_reference_price := None; uz_unrealized_pnl := None;
                uz_price_state := MISSING; uz_status := gs_UNAVAILABLE |}
      | Some p =>
          let! u := unrealized_pnl_long p avg quantity in
          Ok {| uz_position_id := position_id; uz_instrument_id := instrument_id;
                uz_quantity := quantity; uz_average_cost := average_cost;
                uz_reference_price := Some p; uz_unrealized_pnl := Some u;
                uz_price_state := state;
                uz_status := if decide (state = FRESH) then gs_READY else gs_DEGRADED |}
      end
  end.

(** * aggregation.py *)

Definition sum_step (acc : decimal * decimal * decimal * Z) (e : PnlEvent)
    : decimal * decimal * decimal * Z :=
  let '(gross, costs, net, count) := acc in
  if decide (ge_event_type e = REALIZED_PNL) then
    (dadd gross (ge_gross_pnl e), dadd costs (ge_costs e), dadd net (ge_net_pnl e), count + 1)
  else acc.

Definition sum_realized (events : list PnlEvent) : res AggregatedPnl :=
  let '(gross, costs, net, count) := foldl sum_step (dzero, dzero, dzero, 0) events in
  let! g := round_money gross in
  let! c := round_money costs in
  let! n := round_money net in
  Ok {| ag_key := ""; ag_realized_gross := g; ag_realized_costs := c; ag_realized_net := n;
        ag_unrealized_pnl := None; ag_gross_pnl := dzero; ag_net_pnl := dzero;
        ag_trade_count := count |}.

(** [buckets.setdefault(key, []).append(e)] on a dict in insertion order. *)
Fixpoint bucket_add (key : string) (e : PnlEvent) (b : list (string * list PnlEvent))
    : list (string * list PnlEvent) :=
  match b with
  | [] => [(key, [e])]
  | (k, es) :: b' => if String.eqb k key then (k, es ++ [e]) :: b' else (k, es) :: bucket_add key e b'
  end.

Definition buckets_of (key_fn : PnlEvent -> string) (events : list PnlEvent)
    : list (string * list PnlEvent) :=
  foldl (fun b e => bucket_add (key_fn e) e b) [] events.

Definition aggregate_realized (events : list PnlEvent) (key_fn : PnlEvent -> string)
    : res (list AggregatedPnl) :=
  mapM_res (fun kb =>
    let! agg := sum_realized kb.2 in
    Ok {| ag_key := kb.1;
          ag_realized_gross := ag_realized_gross agg;
          ag_realized_costs := ag_realized_costs agg;
          ag_realized_net := ag_realized_net agg;
          ag_unrealized_pnl := None; ag_gross_pnl := dzero; ag_net_pnl := dzero;
          ag_trade_count := ag_trade_count agg |})
    (sort_keys (buckets_of key_fn events)).

Definition strategy_aggregation (events : list PnlEvent) : res (list AggregatedPnl) :=
  aggregate_realized events (fun e => uuid_str (ge_strategy_run_id e)).

Definition account_aggregation (events : list PnlEvent) : res (list AggregatedPnl) :=
  aggregate_realized events (fun e => uuid_str (ge_account_id e)).

(** [dt.astimezone(tz).date().isoformat()] for a fixed-offset [tz]; a naive
    datetime is taken in the system's zone. *)
Definition day_key (system tz : Z) (d : datetime) : string :=
  let instant := match dt_offset d with Some _ => dt_instant d | None => dt_instant d - system end in
  let '(y, m, dd) := civil_of_days ((instant + tz) / SECOND / 86400) in
  pad 4 y +:+ "-" +:+ pad 2 m +:+ "-" +:+ pad 2 dd.

Definition daily_aggregation (system tz : Z) (events : list PnlEvent) : res (list AggregatedPnl) :=
  aggregate_realized events (fun e => day_key system tz (ge_occurred_at e)).

(** [x or Decimal("0")] *)
Definition or_zero (x : option decimal) : decimal :=
  match x with Some d => if (dcoef d =? 0)%N then dzero else d | None => dzero end.

Definition combine_unrealized (agg : AggregatedPnl) (unrealized : option decimal)
    : res AggregatedPnl :=
  let! u := match unrealized with
            | Some d => let! r := round_money d in Ok (Some r)
            | None => Ok None
            end in
  let! g := round_money (dadd (ag_realized_gross agg) (or_zero u)) in
  let! n := round_money (dadd (ag_realized_net agg) (or_zero u)) in
  Ok {| ag_key := ag_key agg; ag_realized_gross := ag_realized_gross agg;
        ag_realized_costs := ag_realized_costs agg; ag_realized_net := ag_realized_net agg;
        ag_unrealized_pnl := u; ag_gross_pnl := g; ag_net_pnl := n;
        ag_trade_count := ag_trade_count agg |}.

(** * The tables *)

Record PnlEventRow := {
  gr_execution_id : string;
  gr_event_type : string;
  gr_account_id : UUID;
  gr_strategy_run_id : UUID;
  gr_instrument_id : UUID;
  gr_position_id : option UUID;
  gr_trading_mode : string;
  gr_side : string;
  gr_quantity : Z;
  gr_price : option decimal;
  gr_average_cost : option decimal;
  gr_gross_pnl : decimal;
  gr_costs : decimal;
  gr_net_pnl : decimal;
  gr_occurred_at : datetime;
  gr_content_hash : string;
}.

Record PnlSnapshotRow := {
  gp_account_id : UUID;
  gp_trading_mode : string;
  gp_snapshot_at : datetime;
  gp_realized_pnl : decimal;
  gp_unrealized_pnl : option decimal;
  gp_gross_pnl : decimal;
  gp_costs : decimal;
  gp_net_pnl : decimal;
  gp_position_count : Z;
  gp_status : string;
}.

Inductive grow :=
| RPnlEvent (e : PnlEventRow)
| RPnlSnapshot (s : PnlSnapshotRow).

Definition pnl_execution_of (r : grow) : option string :=
  match r with RPnlEvent e => Some (gr_execution_id e) | _ => None end.

Definition pnl_snapshot_of (r : grow) : option (UUID * string * Z) :=
  match r with
  | RPnlSnapshot s => Some (gp_account_id s, gp_trading_mode s, dt_instant (gp_snapshot_at s))
  | _ => None
  end.

(** The unique constraints; [positions] stands for the rows of the table the
    event's [position_id] refers to. *)
Definition pnl_constraint (positions : UUID -> bool) (m : gmap N grow) : bool :=
  let l := snd <$> map_to_list m in
  unique_on pnl_execution_of l && unique_on pnl_snapshot_of l &&
  forallb (fun r => match r with
                    | RPnlEvent e => match gr_position_id e with Some p => positions p | None => true end
                    | RPnlSnapshot _ => true
                    end) l.

(** What the [Numeric(18, 4)] columns hold of a row, and whether they have room
    for it. *)
Definition event_columns (r : PnlEventRow) : PnlEventRow := {|
  gr_execution_id := gr_execution_id r;
  gr_event_type := gr_event_type r;
  gr_account_id := gr_account_id r;
  gr_strategy_run_id := gr_strategy_run_id r;
  gr_instrument_id := gr_instrument_id r;
  gr_position_id := gr_position_id r;
  gr_trading_mode := gr_trading_mode r;
  gr_side := gr_side r;
  gr_quantity := gr_quantity r;
  gr_price := numeric 4 <$> gr_price r;
  gr_average_cost := numeric 4 <$> gr_average_cost r;
  gr_gross_pnl := numeric 4 (gr_gross_pnl r);
  gr_costs := numeric 4 (gr_costs r);
  gr_net_pnl := numeric 4 (gr_net_pnl r);
  gr_occurred_at := gr_occurred_at r;
  gr_content_hash := gr_content_hash r;
|}.

Definition event_fits (r : PnlEventRow) : bool :=
  forallb (numeric_fits 18 4)
    (option_list (gr_price r) ++ option_list (gr_average_cost r) ++
     [gr_gross_pnl r; gr_costs r; gr_net_pnl r]).

Definition snapshot_columns (r : PnlSnapshotRow) : PnlSnapshotRow := {|
  gp_account_id := gp_account_id r;
  gp_trading_mode := gp_trading_mode r;
  gp_snapshot_at := gp_snapshot_at r;
  gp_realized_pnl := numeric 4 (gp_realized_pnl r);
  gp_unrealized_pnl := numeric 4 <$> gp_unrealized_pnl r;
  gp_gross_pnl := numeric 4 (gp_gross_pnl r);
  gp_costs := numeric 4 (gp_costs r);
  gp_net_pnl := numeric 4 (gp_net_pnl r);
  gp_position_count := gp_position_count r;
  gp_status := gp_status r;
|}.

Definition snapshot_fits (r : PnlSnapshotRow) : bool :=
  forallb (numeric_fits 18 4)
    (gp_realized_pnl r :: option_list (gp_unrealized_pnl r) ++
     [gp_gross_pnl r; gp_costs r; gp_net_pnl r]).

(** * repository.py *)

Definition to_orm_event (e : PnlEvent) : PnlEventRow := {|
  gr_execution_id := ge_execution_id e;
  gr_event_type := pnl_event_value (ge_event_type e);
  gr_account_id := ge_account_id e;
  gr_strategy_run_id := ge_strategy_run_id e;
  gr_instrument_id := ge_instrument_id e;
  gr_position_id := ge_position_id e;
  gr_trading_mode := ge_trading_mode e;
  gr_side := ge_side e;
  gr_quantity := ge_quantity e;
  gr_price := ge_price e;
  gr_average_cost := ge_average_cost e;
  gr_gross_pnl := ge_gross_pnl e;
  gr_costs := ge_costs e;
  gr_net_pnl := ge_net_pnl e;
  gr_occurred_at := ge_occurred_at e;
  gr_content_hash := ge_content_hash e;
|}.

Definition from_orm_event (id : UUID) (rec : PnlEventRow) : res PnlEvent :=
  let! t := pnl_event_of (gr_event_type rec) in
  Ok {| ge_id := Some id;
        ge_execution_id := gr_execution_id rec;
        ge_event_type := t;
        ge_account_id := gr_account_id rec;
        ge_strategy_run_id := gr_strategy_run_id rec;
        ge_instrument_id := gr_instrument_id rec;
        ge_position_id := gr_position_id rec;
        ge_trading_mode := gr_trading_mode rec;
        ge_side := gr_side rec;
        ge_quantity := gr_quantity rec;
        ge_price := gr_price rec;
        ge_average_cost := gr_average_cost rec;
        ge_gross_pnl := gr_gross_pnl rec;
        ge_costs := gr_costs rec;
        ge_net_pnl := gr_net_pnl rec;
        ge_occurred_at := gr_occurred_at rec;
        ge_content_hash := gr_content_hash rec |}.

Definition pnl_to_orm_snapshot (s : PnlSnapshot) : PnlSnapshotRow := {|
  gp_account_id := gn_account_id s;
  gp_trading_mode := gn_trading_mode s;
  gp_snapshot_at := gn_snapshot_at s;
  gp_realized_pnl := gn_realized_pnl s;
  gp_unrealized_pnl := gn_unrealized_pnl s;
  gp_gross_pnl := gn_gross_pnl s;
  gp_costs := gn_costs s;
  gp_net_pnl := gn_net_pnl s;
  gp_position_count := gn_position_count s;
  gp_status := pnl_status_value (gn_status s);
|}.

Definition pnl_from_orm_snapshot (id : UUID) (rec : PnlSnapshotRow) : res PnlSnapshot :=
  let! st := pnl_status_of (gp_status rec) in
  Ok {| gn_snapshot_id := Some id;
        gn_account_id := gp_account_id rec;
        gn_trading_mode := gp_trading_mode rec;
        gn_snapshot_at := gp_snapshot_at rec;
        gn_realized_pnl := gp_realized_pnl rec;
        gn_unrealized_pnl := gp_unrealized_pnl rec;
        gn_gross_pnl := gp_gross_pnl rec;
        gn_costs := gp_costs rec;
        gn_net_pnl := gp_net_pnl rec;
        gn_position_count := gp_position_count rec;
        gn_status := st |}.

(** The conversions on rows of the two tables; a query for one table never
    answers a row of the other. *)
Definition event_of_row (kr : N * grow) : res PnlEvent :=
  match kr.2 with
  | RPnlEvent e => from_orm_event kr.1 e
  | RPnlSnapshot _ => raise TypeError "not a P&L event"
  end.

Definition snapshot_of_row (kr : N * grow) : res PnlSnapshot :=
  match kr.2 with
  | RPnlSnapshot s => pnl_from_orm_snapshot kr.1 s
  | RPnlEvent _ => raise TypeError "not a P&L snapshot"
  end.

Definition pnl_event_where (execution_id : string) (r : grow) : bool :=
  bool_decide (pnl_execution_of r = Some execution_id).

Definition pnl_snapshot_where (account_id : UUID) (trading_mode : string) (snapshot_at : datetime)
    (r : grow) : bool :=
  bool_decide (pnl_snapshot_of r = Some (account_id, trading_mode, dt_instant snapshot_at)).

Definition eq_filter (wanted : option UUID) (v : option UUID) : bool :=
  match wanted with Some u => bool_decide (v = Some u) | None => true end.

(** An exact sum, as SQL adds [numeric] values. *)
Definition dadd_sql (a b : decimal) : decimal :=
  let e := Z.min (dexp a) (dexp b) in of_signed false (scaled a e + scaled b e) e.

Section PnlRepository.
Context {positions : UUID -> bool}.
Context {DB : Type} `{ListSession DB grow (pnl_constraint positions)}.

(** A value that overflows its column makes the commit fail like any other
    database error. *)
Definition pnl_save_event (event : PnlEvent) : M DB PnlEvent :=
  if negb (event_fits (to_orm_event event)) then throw PnlPersistenceError "P&L event write failed"
  else
    add_and_refresh (pnl_event_where (ge_execution_id event))
      (RPnlEvent (event_columns (to_orm_event event))) event_of_row
      (mk_exn PnlDuplicateExecutionError
         ("duplicate P&L event for execution " +:+ ge_execution_id event))
      (mk_exn PnlPersistenceError "P&L event write failed").

Definition pnl_load_event (execution_id : string) : M DB (option PnlEvent) :=
  let* rec := scalar_one_or_none (pnl_event_where execution_id) in
  match rec with
  | Some kr => let* e := lift (event_of_row kr) in ret (Some e)
  | None => ret None
  end.

Definition pnl_list_events (account_id strategy_run_id instrument_id position_id : option UUID)
    : M DB (list PnlEvent) :=
  let* recs := scalars_all
    (fun r => match r with
              | RPnlEvent e =>
                  eq_filter account_id (Some (gr_account_id e)) &&
                  eq_filter strategy_run_id (Some (gr_strategy_run_id e)) &&
                  eq_filter instrument_id (Some (gr_instrument_id e)) &&
                  eq_filter position_id (gr_position_id e)
              | RPnlSnapshot _ => false
              end)
    (fun r => match r with RPnlEvent e => dt_instant (gr_occurred_at e) | _ => 0 end) in
  lift (mapM_res event_of_row recs).

Definition realized_row (position_id : UUID) (r : grow) : bool :=
  match r with
  | RPnlEvent e => bool_decide (gr_position_id e = Some position_id) &&
                   String.eqb (gr_event_type e) (pnl_event_value REALIZED_PNL)
  | RPnlSnapshot _ => false
  end.

Definition net_of_row (r : grow) : decimal :=
  match r with RPnlEvent e => gr_net_pnl e | RPnlSnapshot _ => dzero end.

Definition realized_pnl_for_position (position_id : UUID) : M DB decimal :=
  let* recs := scalars_all (realized_row position_id) (fun _ => 0) in
  ret (foldr dadd_sql dzero ((fun kr => net_of_row kr.2) <$> recs)).

Definition pnl_save_snapshot (s : PnlSnapshot) : M DB PnlSnapshot :=
  if negb (snapshot_fits (pnl_to_orm_snapshot s))
  then throw PnlPersistenceError "P&L snapshot write failed"
  else
    add_and_refresh (pnl_snapshot_where (gn_account_id s) (gn_trading_mode s) (gn_snapshot_at s))
      (RPnlSnapshot (snapshot_columns (pnl_to_orm_snapshot s))) snapshot_of_row
      (mk_exn PnlDuplicateExecutionError "duplicate P&L snapshot")
      (mk_exn PnlPersistenceError "P&L snapshot write failed").

Definition pnl_load_snapshot (account_id : UUID) (trading_mode : string) (snapshot_at : datetime)
    : M DB (option PnlSnapshot) :=
  let* rec := scalar_one_or_none
    (pnl_snapshot_where account_id (py_upper trading_mode) snapshot_at) in
  match rec with
  | Some kr => let* s := lift (snapshot_of_row kr) in ret (Some s)
  | None => ret None
  end.

(** [order_by(snapshot_at.desc()).limit(1)] *)
Definition pnl_load_latest_snapshot (account_id : UUID) (trading_mode : string)
    : M DB (option PnlSnapshot) :=
  let* recs := scalars_all
    (fun r => match r with
              | RPnlSnapshot s => bool_decide (gp_account_id s = account_id) &&
                                  String.eqb (gp_trading_mode s) (py_upper trading_mode)
              | RPnlEvent _ => false
              end)
    (fun r => match r with RPnlSnapshot s => - dt_instant (gp_snapshot_at s) | _ => 0 end) in
  match recs with
  | kr :: _ => let* s := lift (snapshot_of_row kr) in ret (Some s)
  | [] => ret None
  end.
End PnlRepository.

(** * engine.py *)

Record PnlEngineConfig := {
  gc_global_halt_active : nat -> bool;
  gc_max_age_seconds : option Z;
  gc_now : nat -> datetime;     (* [datetime.now(tz=UTC)] *)
}.

Definition pnl_guard_mode : string -> res unit :=
  guard_mode PnlModeError "LIVE trading is disabled (fail-closed)".

Definition build_event (fill : PositionFill) (position_id : option UUID) (event_type : PnlEventType)
    (closed_qty : Z) (average_cost gross costs net : decimal) : PnlEvent := {|
  ge_id := None;
  ge_execution_id := pf_execution_id fill;
  ge_event_type := event_type;
  ge_account_id := pf_account_id fill;
  ge_strategy_run_id := pf_strategy_run_id fill;
  ge_instrument_id := pf_instrument_id fill;
  ge_position_id := position_id;
  ge_trading_mode := py_upper (pf_trading_mode fill);
  ge_side := pf_side fill;
  ge_quantity := closed_qty;
  ge_price := Some (pf_price fill);
  ge_average_cost := Some average_cost;
  ge_gross_pnl := gross;
  ge_costs := costs;
  ge_net_pnl := net;
  ge_occurred_at := pf_occurred_at fill;
  ge_content_hash :=
    pnl_content_hash (pf_execution_id fill) (pnl_event_value event_type) (pf_account_id fill)
      (pf_strategy_run_id fill) (pf_instrument_id fill) (pf_trading_mode fill) (pf_side fill)
      closed_qty (Some (dec_str (pf_price fill))) (Some (dec_str average_cost))
      (dec_str gross) (dec_str costs) (dec_str net) (pf_occurred_at fill);
|}.

Definition to_realized (e : PnlEvent) : RealizedPnl := {|
  rz_execution_id := ge_execution_id e;
  rz_account_id := ge_account_id e;
  rz_strategy_run_id := ge_strategy_run_id e;
  rz_instrument_id := ge_instrument_id e;
  rz_trading_mode := ge_trading_mode e;
  rz_closed_quantity := ge_quantity e;
  rz_sell_price := ge_price e;
  rz_average_cost := ge_average_cost e;
  rz_gross_pnl := ge_gross_pnl e;
  rz_costs := ge_costs e;
  rz_net_pnl := ge_net_pnl e;
  rz_occurred_at := ge_occurred_at e;
|}.

(** The event of a closing fill: [record_fill] from the over-close checks to
    [_build_event]. *)
Definition close_event (fill : PositionFill) (position_before : option PositionSnapshot)
    (costs : list CostComponent) : res PnlEvent :=
  match position_before with
  | None => raise PnlOverCloseError "SELL on a flat/unknown position"
  | Some p =>
      raise_if (pn_quantity p <=? 0) PnlOverCloseError "SELL on a flat/unknown position" ;!
      raise_if (pn_quantity p <? int_of_dec (pf_quantity fill)) PnlOverCloseError
        "SELL exceeds open long quantity" ;!
      match pn_average_price p with
      | None => raise PnlDataError "cannot realize P&L without a cost basis"
      | Some avg =>
          let closed_qty := int_of_dec (pf_quantity fill) in
          let! gross := realized_pnl_long (pf_price fill) avg closed_qty in
          let! total_costs := costs_total costs in
          let! net := net_pnl gross total_costs in
          Ok (build_event fill (pn_position_id p) REALIZED_PNL closed_qty avg gross total_costs net)
      end
  end.

Section PnlEngine.
Context {positions : UUID -> bool}.
Context {DB : Type} `{ListSession DB grow (pnl_constraint positions)}.
Context (gc : PnlEngineConfig).
Abbreviation GW := (Service DB).

Definition pnl_validate (fill : PositionFill) : M GW unit :=
  lift (pnl_guard_mode (pf_trading_mode fill)) ;*
  let* halted := scall (gc_global_halt_active gc) in
  if (halted : bool) then throw PnlValidationError "global trading halt is active; P&L refused"
  else ret tt.

(** The inner [try]: persist, or resolve a duplicate execution. *)
Definition persist_event (fill : PositionFill) (event : PnlEvent) : M GW (PnlEvent + PnlResult) :=
  try_except
    (let* persisted := repo_call (pnl_save_event event) in ret (inl persisted))
    (fun exc =>
       if isinstance exc PnlDuplicateExecutionError then Some (
         let* existing := repo_call (pnl_load_event (pf_execution_id fill)) in
         match existing with
         | None => throw PnlPersistenceError "duplicate but no existing event"
         | Some x =>
             if negb (String.eqb (ge_content_hash x) (ge_content_hash event)) then
               metric "conflicts" ;*
               ret (inr {| gt_status := ga_CONFLICT; gt_event := None; gt_realized := None;
                           gt_conflict_original := Some x |})
             else
               metric "duplicates" ;*
               ret (inr {| gt_status := ga_DUPLICATE; gt_event := Some x;
                           gt_realized := Some (to_realized x); gt_conflict_original := None |})
         end)
       else None).

Definition pnl_record_fill (fill : PositionFill) (position_before : option PositionSnapshot)
    (costs : list CostComponent) : M GW PnlResult :=
  pnl_validate fill ;*
  try_except
    (if String.eqb (pf_side fill) "BUY" then
       ret {| gt_status := ga_APPLIED; gt_event := None; gt_realized := None;
              gt_conflict_original := None |}
     else
       let* event := lift (close_event fill position_before costs) in
       let* p := persist_event fill event in
       match p with
       | inr result => ret result
       | inl persisted =>
           metric "realized_events" ;*
           (if (dcoef (ge_costs event) =? 0)%N then ret tt else metric "cost_applications") ;*
           ret {| gt_status := ga_APPLIED; gt_event := Some persisted;
                  gt_realized := Some (to_realized persisted); gt_conflict_original := None |}
       end)
    (fun exc => if isinstance exc PnlError then Some (metric "rejections" ;* lift (Err exc)) else None).

Definition pnl_mark_to_market (position : PositionSnapshot) (price : option RefPrice)
    (now : option datetime) (max_age_seconds : option Z) : M GW UnrealizedPnl :=
  let* at_ := match now with Some t => ret t | None => scall (gc_now gc) end in
  let* result := lift (mark_to_market (pn_quantity position) (pn_average_price position)
    (pn_position_id position) (pn_instrument_id position) price at_
    (match max_age_seconds with Some m => Some m | None => gc_max_age_seconds gc end)) in
  metric "unrealized_calculations" ;*
  (if decide (uz_status result = gs_DEGRADED) then metric "stale_price_calculations"
   else if decide (uz_status result = gs_UNAVAILABLE) then metric "unavailable_price_calculations"
   else ret tt) ;*
  ret result.

Definition pnl_position_pnl (position : PositionSnapshot) (price : option RefPrice)
    (realized_pnl : decimal) (now : option datetime) (max_age_seconds : option Z)
    : M GW PositionPnl :=
  let* u := pnl_mark_to_market position price now max_age_seconds in
  ret {| pz_position_id := pn_position_id position;
         pz_account_id := pn_account_id position;
         pz_strategy_run_id := pn_strategy_run_id position;
         pz_instrument_id := pn_instrument_id position;
         pz_trading_mode := pn_trading_mode position;
         pz_quantity := pn_quantity position;
         pz_average_cost := pn_average_price position;
         pz_reference_price := uz_reference_price u;
         pz_market_value := match uz_reference_price u with
                            | Some p => if 0 <? uz_quantity u
                                        then Some (dmul p (dec_of_Z (uz_quantity u))) else None
                            | None => None
                            end;
         pz_unrealized_pnl := uz_unrealized_pnl u;
         pz_realized_pnl := realized_pnl;
         pz_status := uz_status u |}.

Definition pnl_snapshot (account_id : UUID) (trading_mode : string) (snapshot_at : datetime)
    (realized_pnl : decimal) (unrealized_pnl : option decimal) (costs : decimal)
    (position_count : Z) (status : PnlStatus) : M GW PnlSnapshot :=
  let* missing := no_repository in
  if (missing : bool) then throw PnlPersistenceError "no P&L repository configured" else
  lift (pnl_guard_mode trading_mode) ;*
  let snap := {|
    gn_snapshot_id := None; gn_account_id := account_id; gn_trading_mode := py_upper trading_mode;
    gn_snapshot_at := snapshot_at; gn_realized_pnl := realized_pnl;
    gn_unrealized_pnl := unrealized_pnl;
    gn_gross_pnl := dadd realized_pnl (or_zero unrealized_pnl);
    gn_costs := costs;
    gn_net_pnl := dadd (dsub realized_pnl costs) (or_zero unrealized_pnl);
    gn_position_count := position_count; gn_status := status |} in
  let* p := try_except
    (let* s := repo_call (pnl_save_snapshot snap) in ret (inl s))
    (fun exc =>
       if isinstance exc PnlDuplicateExecutionError then Some (
         let* existing := repo_call (pnl_load_snapshot account_id trading_mode snapshot_at) in
         match existing with
         | None => throw PnlPersistenceError "snapshot duplicate but none found"
         | Some s => ret (inr s)
         end)
       else None) in
  match p with
  | inr existing => ret existing
  | inl persisted => metric "snapshot_writes" ;* ret persisted
  end.

Definition pnl_get_latest_snapshot (account_id : UUID) (trading_mode : string)
    : M GW (option PnlSnapshot) :=
  let* missing := no_repository in
  if (missing : bool) then ret None else repo_call (pnl_load_latest_snapshot account_id trading_mode).
End PnlEngine.

(** * Accounting on the grid *)

Lemma pnl_long_exact p a q : money p -> money a ->
  fits (amount p - amount a) -> fits ((amount p - amount a) * q) ->
  exists g, round_money (dmul (dsub p a) (dec_of_Z q)) = Ok g /\ dexp g = -4 /\
            amount g = (amount p - amount a) * q.
Proof.
  intros Hp Ha H1 H2. destruct (amount_dsub p a) as [Hm Hd]; [done..|].
  destruct (amount_scale (dsub p a) q) as [Hm' Hd']; [done|by rewrite Hd|].
  destruct (round_money_exact _ Hm') as (g & Hg & He & Hv); [by rewrite Hd', Hd|].
  exists g. split; [done|]. split; [done|]. by rewrite Hv, Hd', Hd.
Qed.

(** Closing fills of one position: each sell is applied by the position engine's
    arithmetic and realized against the average cost it leaves. *)
Fixpoint close_out (quantity : Z) (average : option decimal) (sells : list (Z * decimal * datetime))
    : res (Z * list decimal) :=
  match sells, average with
  | [], _ => Ok (quantity, [])
  | (q, price, at_) :: rest, Some avg =>
      let! delta := apply_sell quantity average None None q price at_ in
      let! g := realized_pnl_long price avg q in
      let! r := close_out (de_quantity delta) (de_average_price delta) rest in
      Ok (r.1, g :: r.2)
  | _ :: _, None => raise PnlDataError "cannot realize P&L without a cost basis"
  end.

Definition sold (sells : list (Z * decimal * datetime)) : Z :=
  foldr (fun s z => s.1.1 + z) 0 sells.

Definition proceeds (sells : list (Z * decimal * datetime)) : Z :=
  foldr (fun s z => amount s.1.2 * s.1.1 + z) 0 sells.

(** A sell of a positive quantity at a grid price below [B] ten-thousandths. *)
Definition grid_sell (B : Z) (s : Z * decimal * datetime) : Prop :=
  0 < s.1.1 /\ money s.1.2 /\ 0 <= amount s.1.2 < B.

Lemma sold_nonneg B l : Forall (grid_sell B) l -> 0 <= sold l.
Proof. induction 1 as [|s l (Hs & _) _ IH]; simpl; lia. Qed.

Lemma sold_none B l : Forall (grid_sell B) l -> sold l <= 0 -> l = [].
Proof.
  destruct l as [|s l]; [done|]. intros [(Hs & _) Hl]%Forall_cons. simpl.
  pose proof (sold_nonneg _ _ Hl). lia.
Qed.

(** Realized P&L is proceeds minus cost: sells of a position at its average
    cost, in any number of parts that do not exceed the position, are all
    accepted and recorded, and their realized amounts add up to exactly what
    the sales brought in minus the average cost of what was sold; the rest of
    the position stays open (prices and average cost on the 0.0001 grid below
    [B] ten-thousandths, and the position's notional within 28 digits). *)
Theorem realized_is_proceeds_minus_cost B avg : money avg -> 0 <= amount avg < B ->
  forall sells q, Forall (grid_sell B) sells -> sold sells <= q -> q * B <= 10 ^ 28 - 1 ->
  exists gs, close_out q (Some avg) sells = Ok (q - sold sells, gs) /\
    Forall (fun g => dexp g = -4) gs /\
    amounts gs = proceeds sells - amount avg * sold sells.
Proof.
  intros Hm Ha. induction sells as [|[[n price] at_] rest IH]; intros q Hs Hq HB.
  { exists []. simpl. rewrite Z.sub_0_r. split_and!; [done|constructor|lia]. }
  apply Forall_cons in Hs as [(Hn & Hpm & Hp) Hrest]. cbn [fst snd] in *. simpl in Hq.
  pose proof (sold_nonneg _ _ Hrest) as H0.
  destruct (pnl_long_exact price avg n) as (g & Hg & Hge & Hgv); [done..|unfold fits; nia|unfold fits; nia|].
  unfold close_out; fold close_out. unfold apply_sell, realized_pnl_long.
  rewrite (proj2 (Z.leb_gt n 0)), (proj2 (Z.ltb_ge q n)) by lia. cbn [rbind raise_if].
  destruct (Z.eqb_spec (q - n) 0) as [E|E]; cbn [rbind raise_if]; rewrite Hg; cbn [rbind de_quantity de_average_price].
  - assert (rest = []) as -> by (eapply sold_none; [done|lia]). exists [g]. simpl.
    split_and!; [do 2 f_equal; lia | by repeat constructor | lia].
  - destruct (IH (q - n)) as (gs & Hc & Hge' & Hv); [done|lia|nia|].
    rewrite Hc. exists (g :: gs). simpl. split_and!; [do 2 f_equal; lia | by constructor | lia].
Qed.

(** * The ledger of realized P&L *)

(** An event as the ledger gives it back: under its key, with the amounts its
    columns hold. *)
Definition reloaded (k : N) (e : PnlEvent) : PnlEvent := {|
  ge_id := Some k; ge_execution_id := ge_execution_id e; ge_event_type := ge_event_type e;
  ge_account_id := ge_account_id e; ge_strategy_run_id := ge_strategy_run_id e;
  ge_instrument_id := ge_instrument_id e; ge_position_id := ge_position_id e;
  ge_trading_mode := ge_trading_mode e; ge_side := ge_side e; ge_quantity := ge_quantity e;
  ge_price := numeric 4 <$> ge_price e; ge_average_cost := numeric 4 <$> ge_average_cost e;
  ge_gross_pnl := numeric 4 (ge_gross_pnl e); ge_costs := numeric 4 (ge_costs e);
  ge_net_pnl := numeric 4 (ge_net_pnl e); ge_occurred_at := ge_occurred_at e;
  ge_content_hash := ge_content_hash e |}.

Lemma event_of_row_to_orm k e :
  event_of_row (k, RPnlEvent (event_columns (to_orm_event e))) = Ok (reloaded k e).
Proof. unfold event_of_row, from_orm_event. simpl. unfold reloaded. by destruct (ge_event_type e). Qed.

Lemma from_orm_event_inv k rec e : from_orm_event k rec = Ok e ->
  ge_execution_id e = gr_execution_id rec /\ ge_content_hash e = gr_content_hash rec.
Proof. unfold from_orm_event. intros H. by res_inv. Qed.

Lemma event_where_row x r : pnl_event_where x r = true ->
  exists e, r = RPnlEvent e /\ gr_execution_id e = x.
Proof.
  unfold pnl_event_where. rewrite bool_decide_eq_true. destruct r as [e|]; simpl; [|done].
  intros [= <-]. eauto.
Qed.

Section Ledger.
Context {positions : UUID -> bool}.
Context {DB : Type} `{ListSession DB grow (pnl_constraint positions)}.

(** The execution has an event in the ledger. *)
Definition recorded (x : string) (m : gmap N grow) : Prop :=
  exists k r, m !! k = Some r /\ pnl_execution_of r = Some x.

Lemma pnl_unique m x i j r r' : pnl_constraint positions m = true ->
  m !! i = Some r -> m !! j = Some r' ->
  pnl_execution_of r = Some x -> pnl_execution_of r' = Some x -> i = j.
Proof.
  unfold pnl_constraint. rewrite !andb_true_iff. intros [[Hu _] _]. by apply unique_on_lookup.
Qed.

Lemma save_event_spec e db r db' : pnl_save_event e db = (r, db') ->
  (exists k, added (RPnlEvent (event_columns (to_orm_event e))) db db' k /\ r = Ok (reloaded k e)) \/
  (exists x, r = Err x /\ exn_cls x = PnlDuplicateExecutionError /\ rows db' = rows db) \/
  (exists x, r = Err x /\ exn_cls x = PnlPersistenceError /\
     (rows db' = rows db \/ exists k, added (RPnlEvent (event_columns (to_orm_event e))) db db' k)).
Proof.
  unfold pnl_save_event. destruct (event_fits (to_orm_event e)); cbn [negb].
  2: { intros [= <- <-]. right; right. eauto. }
  intros E. apply add_and_refresh_spec in E.
  - destruct E as [(k & t & Ha & -> & Ht)|[[-> Hr]|[-> Hr]]]; [|right; left; eauto..|right; right; eauto].
    rewrite event_of_row_to_orm in Ht. injection Ht as <-. left. eauto.
  - unfold pnl_event_where. by apply bool_decide_eq_true.
  - intros k. rewrite event_of_row_to_orm. eauto.
  - by intros [].
Qed.

(** A new event's execution was not in the ledger. *)
Lemma added_unrecorded e db db' k : added (RPnlEvent (event_columns (to_orm_event e))) db db' k ->
  ~ recorded (ge_execution_id e) (rows db).
Proof.
  intros (Hk & Hr & Hc) (j & r & Hj & Hx).
  assert (j = k) as ->; [|congruence].
  apply (pnl_unique (rows db') (ge_execution_id e) j k r (RPnlEvent (event_columns (to_orm_event e)))); try done.
  - rewrite Hr, lookup_insert_ne; [done|]. intros ->. congruence.
  - by rewrite Hr, lookup_insert_eq.
Qed.

Lemma load_event_reads x : reads (pnl_load_event x).
Proof.
  apply reads_bind; [apply scalar_reads|]. intros [kr|]; [|done].
  apply reads_bind; [apply reads_lift|done].
Qed.

Lemma load_event_spec x db r : fst (pnl_load_event x db) = Ok r ->
  match r with
  | Some e => exists k rec, rows db !! k = Some (RPnlEvent rec) /\
                from_orm_event k rec = Ok e /\ gr_execution_id rec = x
  | None => ~ recorded x (rows db)
  end.
Proof.
  unfold pnl_load_event, bind. pose proof (scalar_none (pnl_event_where x) db) as Hn.
  pose proof (scalar_some (pnl_event_where x) db) as Hs.
  destruct (scalar_one_or_none (pnl_event_where x) db) as [[[[k rec]|]|e] db1]; simpl in *; [| |done].
  - destruct (Hs _ _ eq_refl) as (Hk & Hw & _). apply event_where_row in Hw as (e & -> & Hx).
    unfold event_of_row. simpl. destruct (from_orm_event k e) eqn:Ee; [|done].
    intros [= <-]. eauto 10.
  - intros [= <-] (k & rec & Hk & Hx). specialize (Hn eq_refl _ _ Hk).
    unfold pnl_event_where in Hn. rewrite Hx in Hn. by apply bool_decide_eq_false in Hn.
Qed.




End Ledger.

(** * One accounting event per execution *)

Section Recording.
Context {positions : UUID -> bool}.
Context {DB : Type} `{ListSession DB grow (pnl_constraint positions)}.
Context (gc : PnlEngineConfig).

Lemma close_event_inv fill p costs ev : close_event fill p costs = Ok ev ->
  ge_execution_id ev = pf_execution_id fill /\
  exists pos avg gross total, p = Some pos /\ pn_average_price pos = Some avg /\
    0 < int_of_dec (pf_quantity fill) <= pn_quantity pos /\
    realized_pnl_long (pf_price fill) avg (int_of_dec (pf_quantity fill)) = Ok gross /\
    costs_total costs = Ok total /\ ge_quantity ev = int_of_dec (pf_quantity fill) /\
    ge_gross_pnl ev = gross /\ ge_costs ev = total /\ net_pnl gross total = Ok (ge_net_pnl ev).
Proof.
  unfold close_event. destruct p as [pos|]; [|done]. intros E. res_inv.
  destruct (pn_average_price pos) as [avg|] eqn:Ea; [|done]. res_inv. simpl. split; [done|].
  assert (0 < int_of_dec (pf_quantity fill)).
  { match goal with H : realized_pnl_long _ _ _ = Ok _ |- _ => unfold realized_pnl_long in H end.
    res_inv. lia. }
  eexists pos, avg, _, _. split_and!; try done. lia.
Qed.

Lemma validate_keeps fill : keeps_repo (pnl_validate (DB:=DB) gc fill).
Proof. unfold pnl_validate, throw. auto 10 with svc. Qed.

(** The inner [try] of [record_fill]. *)
Lemma persist_event_spec fill ev (w : Service DB) db r w' :
  ge_execution_id ev = pf_execution_id fill ->
  sw_repository w = Some db -> persist_event fill ev w = (r, w') ->
  exists db', sw_repository w' = Some db' /\
    match r with
    | Ok (inl e) => exists k, added (RPnlEvent (event_columns (to_orm_event ev))) db db' k /\ e = reloaded k ev
    | Ok (inr result) => rows db' = rows db /\
        exists k rec x, rows db !! k = Some (RPnlEvent rec) /\
          gr_execution_id rec = pf_execution_id fill /\ from_orm_event k rec = Ok x /\
          if String.eqb (gr_content_hash rec) (ge_content_hash ev)
          then gt_status result = ga_DUPLICATE /\ gt_event result = Some x
          else gt_status result = ga_CONFLICT /\ gt_conflict_original result = Some x
    | Err _ => rows db' = rows db \/ exists k, added (RPnlEvent (event_columns (to_orm_event ev))) db db' k
    end.
Proof.
  intros Hx Hw. unfold persist_event, try_except.
  destruct (repo_call (pnl_save_event ev) w) as [r1 w1] eqn:E1.
  destruct (repo_call_inv _ _ _ _ _ Hw E1) as (db1 & Es & ->).
  unfold bind at 1. rewrite E1. apply save_event_spec in Es as
    [(k & Ha & ->)|[([c msg f] & -> & Hc & Hr)|([c msg f] & -> & Hc & Hr)]]; simpl in *; subst.
  - intros [= <- <-]. exists db1. split; [done|]. eauto.
  - destruct (repo_call (pnl_load_event (pf_execution_id fill)) (set_db db1 w)) as [r2 w2] eqn:E2.
    unfold bind. simpl. rewrite E2.
    destruct (repo_call_inv _ (set_db db1 w) db1 _ _ eq_refl E2) as (db2 & El & ->).
    pose proof (load_event_reads (pf_execution_id fill) db1) as Hrd. rewrite El in Hrd. simpl in Hrd.
    subst db2. pose proof (load_event_spec (pf_execution_id fill) db1) as Hl. rewrite El in Hl.
    destruct r2 as [[x|]|e].
    + destruct (Hl _ eq_refl) as (k & rec & Hk & Hf & Hrx). rewrite Hr in Hk.
      destruct (from_orm_event_inv _ _ _ Hf) as [_ Hh]. unfold bind. simpl.
      rewrite Hh. destruct (String.eqb (gr_content_hash rec) (ge_content_hash ev)) eqn:Eh; simpl; intros [= <- <-]; exists db1; (split; [done|]);
        (split; [done|]); exists k, rec, x; rewrite Eh; done.
    + intros [= <- <-]. exists db1. split; [done|]. by left.
    + intros [= <- <-]. exists db1. split; [done|]. by left.
  - intros [= <- <-]. exists db1. split; [done|]. destruct Hr; eauto.
Qed.

(** [record_fill], whatever the database does.  APPLIED for a buy writes
    nothing; APPLIED for a sell means that the execution had no event and now
    has exactly one, whose quantity, gross and net amounts are those computed
    from the position before the fill.  DUPLICATE and CONFLICT write nothing
    and report the recorded event, with the same or another content hash.  A
    call that raises leaves the ledger as it was, or (when the failure came
    after the commit) with exactly the event of this fill. *)
Theorem pnl_fill_recorded_once fill before costs (w : Service DB) db r w' :
  sw_repository w = Some db -> pnl_record_fill gc fill before costs w = (r, w') ->
  exists db', sw_repository w' = Some db' /\
    match r with
    | Ok res =>
        match gt_status res with
        | ga_APPLIED =>
            (pf_side fill = "BUY"%string /\ rows db' = rows db /\ gt_event res = None) \/
            (pf_side fill <> "BUY"%string /\ ~ recorded (pf_execution_id fill) (rows db) /\
             exists ev k, close_event fill before costs = Ok ev /\
               added (RPnlEvent (event_columns (to_orm_event ev))) db db' k /\ gt_event res = Some (reloaded k ev))
        | ga_DUPLICATE | ga_CONFLICT =>
            rows db' = rows db /\ recorded (pf_execution_id fill) (rows db)
        | ga_REJECTED => False
        end
    | Err _ => rows db' = rows db \/
        exists ev k, close_event fill before costs = Ok ev /\
          added (RPnlEvent (event_columns (to_orm_event ev))) db db' k
    end.
Proof.
  intros Hw E. unfold pnl_record_fill in E. apply bind_run in E as
    [(e & Ev & ->)|([] & w1 & Ev & E)]; pose proof (validate_keeps fill w) as Hk; rewrite Ev in Hk;
    simpl in Hk; rewrite Hw in Hk; [exists db; eauto|].
  unfold try_except in E. destruct (String.eqb_spec (pf_side fill) "BUY") as [Hb|Hb].
  { injection E as <- <-. exists db. split; [done|]. simpl. by left. }
  unfold bind at 1 in E. unfold lift in E. destruct (close_event fill before costs) as [ev|e] eqn:Ec.
  2: { exists db. destruct (isinstance e PnlError); injection E as <- <-; (split; [done|]); by left. }
  pose proof (close_event_inv _ _ _ _ Ec) as (Hx & _).
  unfold bind at 1 in E. destruct (persist_event fill ev w1) as [rp w2] eqn:Ep.
  apply (persist_event_spec _ _ _ _ _ _ Hx Hk) in Ep as (db' & Hw2 & Hp). exists db'.
  destruct rp as [[e|result]|e].
  - destruct Hp as (k & Ha & ->). split; [by destruct (dcoef (ge_costs ev) =? 0)%N; injection E as <- <-|].
    assert (r = Ok {| gt_status := ga_APPLIED; gt_event := Some (reloaded k ev);
      gt_realized := Some (to_realized (reloaded k ev)); gt_conflict_original := None |}) as ->
      by (destruct (dcoef (ge_costs ev) =? 0)%N; by injection E as <- <-).
    simpl. right. split; [done|]. split; [|by exists ev, k]. rewrite <- Hx. by eapply added_unrecorded.
  - destruct Hp as (Hr & k & rec & x & Hl & Hrx & Hf & Hs). injection E as <- <-.
    split; [done|].
    assert (recorded (pf_execution_id fill) (rows db)) as Hrec
      by (exists k, (RPnlEvent rec); split; [done|]; simpl; by rewrite Hrx).
    destruct (String.eqb _ _); destruct Hs as [-> _]; done.
  - split; [by destruct (isinstance e PnlError); injection E as <- <-|].
    assert (exists e', r = Err e') as [e' ->] by (destruct (isinstance e PnlError); injection E as <- <-; eauto).
    destruct Hp as [Hp|[k Hp]]; eauto 10.
Qed.
End Recording.

(** * Aggregation *)

Definition is_realized (e : PnlEvent) : bool := bool_decide (ge_event_type e = REALIZED_PNL).

Definition realized_of (l : list PnlEvent) : list PnlEvent := List.filter is_realized l.

Lemma sum_step_fold l : forall g c n k,
  foldl sum_step (g, c, n, k) l =
  (foldl dadd g (ge_gross_pnl <$> realized_of l), foldl dadd c (ge_costs <$> realized_of l),
   foldl dadd n (ge_net_pnl <$> realized_of l), k + Z.of_nat (List.length (realized_of l))).
Proof.
  induction l as [|e l IH]; intros g c n k; simpl; [by rewrite Z.add_0_r|].
  unfold is_realized. destruct (decide (ge_event_type e = REALIZED_PNL)) as [E|E];
    [rewrite bool_decide_eq_true_2 by done|rewrite bool_decide_eq_false_2 by done]; rewrite IH; [|done].
  rewrite !fmap_cons. simpl. f_equal. unfold realized_of. lia.
Qed.

(** The facts of an event are money. *)
Definition event_money (e : PnlEvent) : Prop :=
  money (ge_gross_pnl e) /\ money (ge_costs e) /\ money (ge_net_pnl e).

(** The sums of an aggregation stay within the context's 28 digits. *)
Definition summable (l : list PnlEvent) : Prop :=
  Forall event_money l /\ magnitude (ge_gross_pnl <$> l) < 10 ^ 28 /\
  magnitude (ge_costs <$> l) < 10 ^ 28 /\ magnitude (ge_net_pnl <$> l) < 10 ^ 28.

Lemma summable_sub l1 l2 : l1 ⊆+ l2 -> summable l2 -> summable l1.
Proof.
  intros [k Hp]%submseteq_Permutation (Hm & H1 & H2 & H3).
  rewrite Hp in Hm. apply Forall_app in Hm as [Hm _].
  rewrite (magnitude_perm _ (ge_gross_pnl <$> (l1 ++ k))) in H1 by (by rewrite Hp).
  rewrite (magnitude_perm _ (ge_costs <$> (l1 ++ k))) in H2 by (by rewrite Hp).
  rewrite (magnitude_perm _ (ge_net_pnl <$> (l1 ++ k))) in H3 by (by rewrite Hp).
  rewrite fmap_app, magnitude_app in H1, H2, H3.
  pose proof (magnitude_nonneg (ge_gross_pnl <$> k)). pose proof (magnitude_nonneg (ge_costs <$> k)).
  pose proof (magnitude_nonneg (ge_net_pnl <$> k)). split_and!; [done|lia..].
Qed.

Lemma realized_of_sub l : realized_of l ⊆+ l.
Proof.
  induction l as [|e l IH]; simpl; [done|].
  destruct (is_realized e); [by constructor | by apply submseteq_cons].
Qed.

Lemma round_sum l : Forall money l -> magnitude l < 10 ^ 28 ->
  exists r, round_money (dsum l) = Ok r /\ amount r = amounts l.
Proof.
  intros Hl Hb. destruct (dsum_amounts l Hl Hb) as [Hm Ha].
  destruct (round_money_exact _ Hm) as (r & Hr & _ & Hv).
  - rewrite Ha. pose proof (amounts_magnitude l). unfold fits. lia.
  - exists r. by rewrite Hv, Ha.
Qed.

(** What the bucket of the events [l] must hold. *)
Definition bucket_sums (l : list PnlEvent) (a : AggregatedPnl) : Prop :=
  amount (ag_realized_gross a) = amounts (ge_gross_pnl <$> realized_of l) /\
  amount (ag_realized_costs a) = amounts (ge_costs <$> realized_of l) /\
  amount (ag_realized_net a) = amounts (ge_net_pnl <$> realized_of l) /\
  ag_trade_count a = Z.of_nat (List.length (realized_of l)).

Lemma sum_realized_spec l : summable l -> exists a, sum_realized l = Ok a /\ bucket_sums l a.
Proof.
  intros Hs. pose proof (summable_sub _ _ (realized_of_sub l) Hs) as (Hm & H1 & H2 & H3).
  assert (Forall money (ge_gross_pnl <$> realized_of l) /\ Forall money (ge_costs <$> realized_of l) /\
          Forall money (ge_net_pnl <$> realized_of l)) as (M1 & M2 & M3).
  { rewrite !Forall_fmap. split_and!; (eapply Forall_impl; [exact Hm|]); by intros e (?&?&?). }
  destruct (round_sum _ M1 H1) as (g & Hg & Ag), (round_sum _ M2 H2) as (c & Hc & Ac),
    (round_sum _ M3 H3) as (n & Hn & An).
  unfold sum_realized. rewrite sum_step_fold. unfold dsum in Hg, Hc, Hn. rewrite Hg, Hc, Hn. simpl.
  eexists. split; [done|]. unfold bucket_sums. simpl. split_and!; [done..|lia].
Qed.

Section Buckets.
Context (key_fn : PnlEvent -> string).

Definition of_key (k : string) (l : list PnlEvent) : list PnlEvent :=
  List.filter (fun e => String.eqb (key_fn e) k) l.

Lemma of_key_snoc k l e :
  of_key k (l ++ [e]) = if String.eqb (key_fn e) k then of_key k l ++ [e] else of_key k l.
Proof.
  unfold of_key. rewrite List.filter_app. simpl. destruct (String.eqb _ _); [done|apply app_nil_r].
Qed.

Fixpoint bget (k : string) (b : list (string * list PnlEvent)) : list PnlEvent :=
  match b with
  | [] => []
  | (k', l) :: b' => if String.eqb k' k then l else bget k b'
  end.

Lemma bucket_add_get k k' e b :
  bget k (bucket_add k' e b) = if String.eqb k' k then bget k b ++ [e] else bget k b.
Proof.
  induction b as [|[x l] b IH]; simpl.
  - by destruct (String.eqb k' k).
  - destruct (String.eqb_spec x k') as [->|Hx]; simpl.
    + by destruct (String.eqb k' k).
    + destruct (String.eqb_spec x k) as [->|]; [|done].
      by destruct (String.eqb_spec k' k) as [->|].
Qed.

Lemma bucket_add_keys k e b :
  fst <$> bucket_add k e b = if bool_decide (k ∈ fst <$> b) then fst <$> b else (fst <$> b) ++ [k].
Proof.
  induction b as [|[x l] b IH]; [done|]. cbn [bucket_add]. rewrite fmap_cons. cbn [fst].
  destruct (String.eqb_spec x k) as [->|Hx].
  - rewrite bool_decide_eq_true_2; [done|]. by left.
  - rewrite fmap_cons. cbn [fst]. rewrite IH.
    rewrite (bool_decide_ext (k ∈ x :: (fst <$> b)) (k ∈ fst <$> b)).
    + by case_bool_decide.
    + rewrite elem_of_cons. split; [by intros [->|?]|by right].
Qed.

Lemma bucket_add_concat k e b : List.concat (snd <$> bucket_add k e b) ≡ₚ e :: List.concat (snd <$> b).
Proof.
  induction b as [|[x l] b IH]; simpl; [done|]. destruct (String.eqb x k); simpl.
  - rewrite <- app_assoc. simpl. by rewrite Permutation_middle.
  - rewrite IH. by rewrite Permutation_middle.
Qed.

Lemma buckets_of_snoc l e : buckets_of key_fn (l ++ [e]) = bucket_add (key_fn e) e (buckets_of key_fn l).
Proof. unfold buckets_of. by rewrite foldl_app. Qed.

Lemma buckets_get l : forall k, bget k (buckets_of key_fn l) = of_key k l.
Proof.
  induction l as [|e l IH] using rev_ind; intros k; [done|].
  by rewrite buckets_of_snoc, bucket_add_get, of_key_snoc, IH.
Qed.

Lemma buckets_keys l : NoDup (fst <$> buckets_of key_fn l) /\
  forall k, k ∈ fst <$> buckets_of key_fn l <-> k ∈ key_fn <$> l.
Proof.
  induction l as [|e l [IH1 IH2]] using rev_ind; [split; [constructor|done]|].
  rewrite buckets_of_snoc, bucket_add_keys. split.
  - case_bool_decide; [done|]. apply NoDup_app. split_and!; [done| |apply NoDup_singleton].
    intros x Hx ->%list_elem_of_singleton. done.
  - intros k. rewrite fmap_app, elem_of_app, <- IH2. simpl. rewrite list_elem_of_singleton.
    case_bool_decide as Hk.
    + split; [by left|]. intros [?| ->]; done.
    + by rewrite elem_of_app, list_elem_of_singleton.
Qed.

Lemma buckets_concat l : List.concat (snd <$> buckets_of key_fn l) ≡ₚ l.
Proof.
  induction l as [|e l IH] using rev_ind; [done|].
  rewrite buckets_of_snoc, bucket_add_concat, IH. by rewrite <- Permutation_cons_append.
Qed.

Lemma bget_elem k l b : NoDup (fst <$> b) -> (k, l) ∈ b -> bget k b = l.
Proof.
  induction b as [|[x y] b IH]; intros Hd Hin; [by apply not_elem_of_nil in Hin|].
  simpl in Hd. apply NoDup_cons in Hd as [Hx Hd]. simpl.
  apply elem_of_cons in Hin as [[= <- <-]|Hin]; [by rewrite String.eqb_refl|].
  destruct (String.eqb_spec x k) as [->|]; [|by apply IH].
  exfalso. apply Hx. apply list_elem_of_fmap. by exists (k, l).
Qed.
End Buckets.

Lemma realized_of_app l1 l2 : realized_of (l1 ++ l2) = realized_of l1 ++ realized_of l2.
Proof. apply List.filter_app. Qed.

Lemma realized_of_perm l1 l2 : l1 ≡ₚ l2 -> realized_of l1 ≡ₚ realized_of l2.
Proof.
  induction 1 as [|e l1 l2 _ IH|e1 e2 l|l1 l2 l3 _ IH1 _ IH2]; simpl; [done| | |by rewrite IH1].
  - destruct (is_realized e); [by rewrite IH|done].
  - destruct (is_realized e1), (is_realized e2); try done. apply Permutation_swap.
Qed.

Lemma fold_bucket_net (b : list (string * list PnlEvent)) : forall aggs,
  Forall2 (fun kb a => bucket_sums kb.2 a) b aggs ->
  foldr (fun a z => amount (ag_realized_net a) + z) 0 aggs =
    amounts (ge_net_pnl <$> realized_of (List.concat (snd <$> b))) /\
  foldr (fun a z => ag_trade_count a + z) 0 aggs =
    Z.of_nat (List.length (realized_of (List.concat (snd <$> b)))).
Proof.
  induction 1 as [|kb a b aggs (_ & _ & Hn & Hc) _ [IH1 IH2]]; simpl; [done|].
  rewrite Hn, IH1, Hc, IH2, realized_of_app, fmap_app, amounts_app, length_app, Nat2Z.inj_add. done.
Qed.

Section Aggregation.
Context (key_fn : PnlEvent -> string) (events : list PnlEvent).
#[local] Abbreviation sorted := (sort_keys (buckets_of key_fn events)).

Lemma sorted_bucket kb : kb ∈ sorted -> kb.2 = of_key key_fn kb.1 events.
Proof.
  destruct kb as [k l]. intros Hin. rewrite sort_keys_perm in Hin. simpl. rewrite <- buckets_get.
  symmetry. eapply bget_elem; [apply buckets_keys|done].
Qed.

Lemma of_key_sub k : of_key key_fn k events ⊆+ events.
Proof.
  apply sublist_submseteq. unfold of_key. clear.
  induction events as [|e l IH]; simpl; [done|]. destruct (String.eqb _ _); by constructor.
Qed.

(** Every sorted bucket gets its aggregate. *)
Lemma aggregate_buckets : summable events ->
  exists aggs, aggregate_realized events key_fn = Ok aggs /\
    Forall2 (fun kb a => ag_key a = kb.1 /\ bucket_sums kb.2 a) sorted aggs.
Proof.
  intros Hs.
  assert (forall kb, kb ∈ sorted -> exists a, sum_realized kb.2 = Ok a /\ bucket_sums kb.2 a) as Hsum.
  { intros kb Hin. apply sum_realized_spec. rewrite (sorted_bucket _ Hin).
    eapply summable_sub; [apply of_key_sub|done]. }
  unfold aggregate_realized. induction sorted as [|kb b IH]; simpl.
  - exists []. split; [done|constructor].
  - destruct (Hsum kb) as (a & -> & Ha); [by left|]. simpl.
    destruct IH as (aggs & -> & HF); [intros x Hx; apply Hsum; by right|]. simpl.
    eexists. split; [done|]. constructor; [done|exact HF].
Qed.
End Aggregation.

(** C11: Aggregation neither loses nor double-counts: grouping the realized
    events by any key gives one bucket per key that occurs, and each bucket's
    gross, costs, net and trade count are exactly the sums over the realized
    events of that key; over all buckets the net results and counts add up to
    those of the whole ledger (events on the 0.0001 grid whose sums fit 28
    digits). *)
Theorem aggregation_partitions_ledger key_fn events : summable events ->
  exists aggs, aggregate_realized events key_fn = Ok aggs /\
    NoDup (ag_key <$> aggs) /\
    (forall k, k ∈ ag_key <$> aggs <-> k ∈ key_fn <$> events) /\
    Forall (fun a => bucket_sums (of_key key_fn (ag_key a) events) a) aggs /\
    foldr (fun a z => amount (ag_realized_net a) + z) 0 aggs =
      amounts (ge_net_pnl <$> realized_of events) /\
    foldr (fun a z => ag_trade_count a + z) 0 aggs = Z.of_nat (List.length (realized_of events)).
Proof.
  intros Hs. destruct (aggregate_buckets key_fn events Hs) as (aggs & Ha & H2).
  destruct (buckets_keys key_fn events) as [Hd Hk].
  pose proof (sort_keys_perm (buckets_of key_fn events)) as Hb.
  pose proof (sorted_bucket key_fn events) as Hget.
  set (b := sort_keys (buckets_of key_fn events)) in *. clearbody b.
  assert (ag_key <$> aggs = fst <$> b) as Hkeys.
  { clear -H2. induction H2 as [|kb a b aggs [E _] _ IH]; [done|]. rewrite !fmap_cons, E. by f_equal. }
  assert (Forall2 (fun kb a => bucket_sums kb.2 a) b aggs) as Hsums
    by (eapply Forall2_impl; [exact H2|]; by intros kb a [_ ?]).
  assert (realized_of (List.concat (snd <$> b)) ≡ₚ realized_of events) as Hp
    by (apply realized_of_perm; rewrite Hb; apply buckets_concat).
  destruct (fold_bucket_net b aggs Hsums) as [Hnet Hcount].
  exists aggs. split_and!; [done|by rewrite Hkeys, Hb|intros k; rewrite Hkeys, Hb; apply Hk| | |].
  - apply Forall_lookup. intros i a Hi. apply Forall2_same_length_lookup in H2 as [Hl H2].
    destruct (lookup_lt_is_Some_2 b i) as [kb Hkb]; [rewrite Hl; by eapply lookup_lt_Some|].
    destruct (H2 _ _ _ Hkb Hi) as (-> & Hbs).
    by rewrite <- (Hget kb) by (by eapply list_elem_of_lookup_2).
  - rewrite Hnet. by apply amounts_perm, fmap_Permutation.
  - rewrite Hcount. f_equal. by apply Permutation_length.
Qed.

(** * Mark to market *)

(** The price is positive and, where an age limit applies, neither from the
    future nor older than the limit. *)
Definition usable_price (p : RefPrice) (now : datetime) (max_age : option Z) : Prop :=
  (0 < dval (rp_price p))%Q /\
  forall m, max_age = Some m ->
    dt_comparable (rp_observed_at p) now = true /\
    dt_instant (rp_observed_at p) <= dt_instant now <= dt_instant (rp_observed_at p) + m * SECOND.

Lemma classify_fresh price now age p :
  pnl_classify_price price now age = Ok (Some p, FRESH) ->
  exists rp, price = Some rp /\ rp_price rp = p /\ usable_price rp now age.
Proof.
  unfold pnl_classify_price. destruct price as [rp|]; [|done].
  destruct (dle (rp_price rp) dzero) eqn:Hp; [done|].
  assert (0 < dval (rp_price rp))%Q as Hpos by (apply dle_false in Hp; by rewrite dval_zero in Hp).
  destruct age as [m|]; [|intros [= <-]; exists rp; done].
  unfold dt_gt, dt_cmp, dt_sub. destruct (dt_comparable (rp_observed_at rp) now) eqn:Hc; [|done].
  assert (dt_comparable now (rp_observed_at rp) = true) as ->.
  { unfold dt_comparable in *. by destruct (dt_aware now), (dt_aware (rp_observed_at rp)). }
  simpl. destruct (_ >? _)%Z eqn:Hf; [done|]. destruct (_ <? _) eqn:Ha; [done|]. intros [= <-].
  exists rp. split_and!; [done..|]. split; [done|]. intros m' [= <-]. split; [done|].
  rewrite Z.gtb_ltb, Z.ltb_ge in Hf. apply Z.ltb_ge in Ha. lia.
Qed.

(** A mark-to-market result marked READY for an open position rests on a
    usable price: the position is long with a known average cost, the price is
    present and positive and, under an age limit, neither from the future nor
    too old; the unrealized amount is the rounded difference to the average
    cost times the quantity. *)
Theorem mark_to_market_ready_is_fresh q avg pid iid price now age u :
  mark_to_market q avg pid iid price now age = Ok u -> q <> 0 -> uz_status u = gs_READY ->
  exists rp cost amt, price = Some rp /\ avg = Some cost /\ 0 < q /\ usable_price rp now age /\
    uz_reference_price u = Some (rp_price rp) /\ uz_unrealized_pnl u = Some amt /\
    unrealized_pnl_long (rp_price rp) cost q = Ok amt /\ uz_price_state u = FRESH.
Proof.
  unfold mark_to_market. intros E Hq Hst. destruct (Z.eqb_spec q 0) as [|_]; [done|].
  destruct avg as [cost|]; [|by injection E as <-]. res_inv. destruct a as [[p|] st].
  2: { by injection K as <-. }
  res_inv. simpl in Hst. destruct (decide (st = FRESH)) as [->|]; [|done].
  match goal with H : pnl_classify_price _ _ _ = _ |- _ => apply classify_fresh in H as (rp & -> & <- & Hu) end.
  match goal with H : unrealized_pnl_long _ _ _ = Ok ?x |- _ => exists rp, cost, x; pose proof H as Hl end.
  unfold unrealized_pnl_long in Hl. res_inv. split_and!; try done. lia.
Qed.

(** * Concrete runs *)

Module PnlSample.
Open Scope string_scope.
Definition refs (_ : UUID) : bool := true.
#[local] Instance pnl_session : Session (gmap N grow) grow (pnl_constraint refs) :=
  MemDB (pnl_constraint refs).

Definition gc : PnlEngineConfig :=
  {| gc_global_halt_active := fun _ => false; gc_max_age_seconds := Some 60; gc_now := fun _ => utc 0 |}.

Definition price (c : N) : decimal := Dec false c (-2).

Definition sell (x : string) (q : Z) (c : N) : PositionFill :=
  {| pf_execution_id := x; pf_order_id := 1; pf_account_id := 2; pf_instrument_id := 3;
     pf_strategy_run_id := 4; pf_trading_mode := "paper"; pf_side := "SELL";
     pf_quantity := dec_of_Z q; pf_price := price c; pf_occurred_at := utc 1000000;
     pf_broker_order_id := None; pf_fill_reference := None |}.

Definition before : PositionSnapshot :=
  {| pn_position_id := Some 9%N; pn_account_id := Some 2%N; pn_instrument_id := 3;
     pn_strategy_run_id := 4; pn_trading_mode := "PAPER"; pn_side := Some LONG; pn_quantity := 10;
     pn_average_price := Some (Dec false 1000000 (-4)); pn_status := ps_OPEN;
     pn_opened_at := Some (utc 0); pn_closed_at := None; pn_last_execution_id := None |}.

Definition fee : CostComponent := {| cc_amount := Dec false 150 (-2); cc_kind := "commission"; cc_source := "broker" |}.

Definition w0 : Service (gmap N grow) := {| sw_repository := Some ∅; sw_metrics := ∅; sw_tick := 0 |}.

(** 4 sold at 101.25 against 100: gross 5.00, fee 1.50; then a replay, the same
    execution with another price, and an over-close. *)
Definition first_sale := pnl_record_fill gc (sell "e1" 4 10125) (Some before) [fee] w0.

Example sale_amounts : match fst first_sale with
  | Ok r => (amount <$> (rz_gross_pnl <$> gt_realized r), amount <$> (rz_net_pnl <$> gt_realized r))
            = (Some 50000, Some 35000)
  | Err _ => False end.
Proof. vm_compute. reflexivity. Qed.

Definition status_of (m : res PnlResult * Service (gmap N grow)) : option PnlApplyStatus :=
  match fst m with Ok r => Some (gt_status r) | Err _ => None end.

Example sale_replays :
  status_of (pnl_record_fill gc (sell "e1" 4 10125) (Some before) [fee] (snd first_sale)) = Some ga_DUPLICATE /\
  status_of (pnl_record_fill gc (sell "e1" 4 10200) (Some before) [fee] (snd first_sale)) = Some ga_CONFLICT /\
  status_of (pnl_record_fill gc (sell "e2" 11 10125) (Some before) [fee] (snd first_sale)) = None.
Proof. vm_compute. auto. Qed.

Lemma first_sale_eq :
  pnl_record_fill gc (sell "e1" 4 10125) (Some before) [fee] w0 = (fst first_sale, snd first_sale).
Proof. unfold first_sale. apply surjective_pairing. Qed.

Lemma first_sale_applied : option_map gt_status (match fst first_sale with Ok r => Some r | Err _ => None end)
  = Some ga_APPLIED.
Proof. vm_compute. reflexivity. Qed.

Lemma fill_recorded_witness : exists db', sw_repository (snd first_sale) = Some db' /\
  exists ev k, close_event (sell "e1" 4 10125) (Some before) [fee] = Ok ev /\
    added (C := pnl_constraint refs) (RPnlEvent (event_columns (to_orm_event ev))) (∅ : gmap N grow) db' k.
Proof.
  destruct (pnl_fill_recorded_once gc (sell "e1" 4 10125) (Some before) [fee] w0 ∅ _ _ eq_refl first_sale_eq) as (db' & Hw & Hr).
  exists db'. split; [exact Hw|]. pose proof first_sale_applied as Hs.
  destruct (fst first_sale) as [r|]; [|discriminate Hs]. injection Hs as Hs. rewrite Hs in Hr.
  destruct Hr as [[Hb _]|(_ & _ & ev & k & Hc & Ha & _)]; [discriminate Hb|].
  exists ev, k. split; [exact Hc|exact Ha].
Defined.

Definition event1 : PnlEvent :=
  build_event (sell "e1" 4 10125) (Some 9%N) REALIZED_PNL 4 (Dec false 1000000 (-4))
    (Dec false 50000 (-4)) (Dec false 15000 (-4)) (Dec false 35000 (-4)).
Definition event2 : PnlEvent :=
  build_event (sell "e2" 1 9900) (Some 9%N) REALIZED_PNL 1 (Dec false 1000000 (-4))
    (Dec true 10000 (-4)) (Dec false 0 (-4)) (Dec true 10000 (-4)).




(** A price with five decimals is stored rounded: a fill at 100.00005 is
    reloaded with the price 100.0001. *)
Example price_rounded_in_ledger :
  match pnl_save_event (build_event
          {| pf_execution_id := "e9"; pf_order_id := 5%N; pf_account_id := 1%N; pf_strategy_run_id := 2%N;
             pf_instrument_id := 3%N; pf_trading_mode := "PAPER"; pf_side := "SELL";
             pf_quantity := dec_of_Z 4; pf_price := Dec false 10000005 (-5);
             pf_occurred_at := utc 0; pf_broker_order_id := None; pf_fill_reference := None |}
          (Some 9%N) REALIZED_PNL 4 (Dec false 1000000 (-4)) (Dec false 50000 (-4))
          (Dec false 15000 (-4)) (Dec false 35000 (-4))) ∅ with
  | (Ok e, _) => ge_price e = Some (Dec false 1000001 (-4))
  | _ => False
  end.
Proof. vm_compute. reflexivity. Qed.

Lemma aggregation_witness : exists aggs,
  aggregate_realized [event1; event2; event1] (fun e => uuid_str (ge_account_id e)) = Ok aggs /\
  foldr (fun a z => amount (ag_realized_net a) + z) 0 aggs = 60000.
Proof.
  destruct (aggregation_partitions_ledger (fun e => uuid_str (ge_account_id e)) [event1; event2; event1])
    as (aggs & Ha & _ & _ & _ & Hn & _).
  - unfold summable. split; [|vm_compute; auto].
    repeat (apply Forall_cons; split; [unfold event_money, money; vm_compute; split_and!; discriminate|]).
    apply Forall_nil. exact I.
  - exists aggs. split; [exact Ha|]. rewrite Hn. vm_compute. reflexivity.
Defined.

Definition sells : list (Z * decimal * datetime) := [(4, price 10125, utc 0); (6, price 9900, utc 1)].

Lemma proceeds_witness : exists gs, close_out 10 (Some (Dec false 1000000 (-4))) sells = Ok (0, gs) /\
  amounts gs = -10000.
Proof.
  destruct (realized_is_proceeds_minus_cost 2000000 (Dec false 1000000 (-4))
    ltac:(unfold money; simpl; lia) ltac:(vm_compute; split; [discriminate|reflexivity]) sells 10)
    as (gs & Hc & _ & Ha).
  - unfold sells. repeat (apply Forall_cons; split;
      [unfold grid_sell, money; vm_compute; split_and!; (reflexivity || discriminate)|]).
    apply Forall_nil. exact I.
  - vm_compute. discriminate.
  - vm_compute. discriminate.
  - exists gs. split; [exact Hc|]. rewrite Ha. vm_compute. reflexivity.
Defined.

Definition seen : RefPrice := {| rp_instrument_id := 3; rp_price := price 10125; rp_observed_at := utc 1000000 |}.

Lemma ready_witness : exists u,
  mark_to_market 10 (Some (Dec false 1000000 (-4))) None 3 (Some seen) (utc 2000000) (Some 60) = Ok u /\
  usable_price seen (utc 2000000) (Some 60).
Proof.
  eexists. split; [vm_compute; reflexivity|].
  edestruct (mark_to_market_ready_is_fresh 10 (Some (Dec false 1000000 (-4))) None 3 (Some seen)
    (utc 2000000) (Some 60)) as (rp & cost & amt & Hp & _ & _ & Hu & _);
    [vm_compute; reflexivity | discriminate | vm_compute; reflexivity |].
  injection Hp as <-. exact Hu.
Defined.
End PnlSample.
