(* ===== verification/Portfolio.v ===== *)
(** The portfolio engine (services/portfolio_engine): contracts.py,
    aggregation.py, identity.py, adapters.py, repository.py and engine.py, with
    the [portfolio_snapshots] table.

    Positions come from the position engine ([Position]), reference prices are
    [RefPrice] of [Pnl], funds are optional throughout.  Money is rounded to the
    0.0001 grid ([Money]). *)

From stdpp Require Import base list strings gmap fin_maps.
From Stdlib Require Import ZArith Lia String Ascii QArith.
From S2P Require Import Prelude PyBase Hashing Decimal DecimalText Money Sql Service Position Pnl.
Open Scope Z_scope.

(** * contracts.py *)

Inductive PortfolioStatus := fs_UNINITIALIZED | fs_READY | fs_DEGRADED | fs_ERROR.
#[export] Instance PortfolioStatus_eq_dec : EqDecision PortfolioStatus.
Proof. solve_decision. Defined.

Definition portfolio_status_value (s : PortfolioStatus) : string :=
  match s with
  | fs_UNINITIALIZED => "UNINITIALIZED" | fs_READY => "READY"
  | fs_DEGRADED => "DEGRADED" | fs_ERROR => "ERROR"
  end.

Definition portfolio_status_of :=
  enum_of [fs_UNINITIALIZED; fs_READY; fs_DEGRADED; fs_ERROR] portfolio_status_value.

Inductive PortfolioCompleteness := COMPLETE | PARTIAL.
#[export] Instance PortfolioCompleteness_eq_dec : EqDecision PortfolioCompleteness.
Proof. solve_decision. Defined.

Definition completeness_value (c : PortfolioCompleteness) : string :=
  match c with COMPLETE => "COMPLETE" | PARTIAL => "PARTIAL" end.

Definition completeness_of := enum_of [COMPLETE; PARTIAL] completeness_value.

Record PortfolioIdentity := {
  fi_account_id : UUID;
  fi_trading_mode : string;
}.

Definition portfolio_tuple (i : PortfolioIdentity) : UUID * string :=
  (fi_account_id i, py_upper (fi_trading_mode i)).

Record PositionInput := {
  ip_position_id : option UUID;
  ip_instrument_id : UUID;
  ip_strategy_run_id : UUID;
  ip_quantity : Z;
  ip_average_price : option decimal;
  ip_status : string;
}.

Definition is_open (p : PositionInput) : bool := negb (ip_quantity p =? 0).

(** [ReferencePrice.__post_init__] *)
Definition mk_ReferencePrice (p : RefPrice) : res RefPrice :=
  raise_if (dle (rp_price p) dzero) ValueError "reference price must be positive" ;!
  require_timezone (rp_observed_at p) "observed_at" ;!
  Ok p.

Record FundsState := {
  fu_available_cash : option decimal;
  fu_available_margin : option decimal;
  fu_used_margin : option decimal;
  fu_captured_at : option datetime;
}.

Record PositionExposure := {
  xp_position_id : option UUID;
  xp_instrument_id : UUID;
  xp_strategy_run_id : UUID;
  xp_quantity : Z;
  xp_reference_price : option decimal;
  xp_market_value : option decimal;
  xp_price_state : PriceState;
}.

Record StrategyBreakdown := {
  sb_strategy_run_id : UUID;
  sb_position_count : Z;
  sb_market_value : option decimal;
  sb_gross_exposure : decimal;
}.

Record PortfolioInputs := {
  fp_account_id : UUID;
  fp_trading_mode : string;
  fp_positions : list PositionInput;
  fp_funds : option FundsState;
  fp_prices : gmap UUID RefPrice;
}.

Record PortfolioComputation := {
  fc_identity : PortfolioIdentity;
  fc_status : PortfolioStatus;
  fc_completeness : PortfolioCompleteness;
  fc_position_count : Z;
  fc_gross_exposure : decimal;
  fc_net_exposure : decimal;
  fc_long_exposure : decimal;
  fc_short_exposure : decimal;
  fc_market_value : option decimal;
  fc_cash_balance : option decimal;
  fc_equity_value : option decimal;
  fc_available_margin : option decimal;
  fc_used_margin : option decimal;
  fc_funds_available : bool;
  fc_missing_instrument_ids : list UUID;
  fc_stale_instrument_ids : list UUID;
  fc_positions : list PositionExposure;
  fc_strategy_breakdown : list StrategyBreakdown;
  fc_snapshot_at : datetime;
}.

Record PortfolioSnapshot := {
  fn_snapshot_id : option UUID;
  fn_account_id : UUID;
  fn_trading_mode : string;
  fn_status : PortfolioStatus;
  fn_completeness : PortfolioCompleteness;
  fn_position_count : Z;
  fn_gross_exposure : decimal;
  fn_net_exposure : decimal;
  fn_long_exposure : decimal;
  fn_short_exposure : decimal;
  fn_market_value : option decimal;
  fn_cash_balance : option decimal;
  fn_equity_value : option decimal;
  fn_available_margin : option decimal;
  fn_used_margin : option decimal;
  fn_snapshot_at : datetime;
}.

Record PortfolioResult := {
  ft_status : PortfolioStatus;
  ft_snapshot : PortfolioSnapshot;
  ft_duplicate : bool;
  ft_computation : option PortfolioComputation;
}.

(** * adapters.py *)

Definition position_input_from_snapshot (s : PositionSnapshot) : PositionInput := {|
  ip_position_id := pn_position_id s;
  ip_instrument_id := pn_instrument_id s;
  ip_strategy_run_id := pn_strategy_run_id s;
  ip_quantity := pn_quantity s;
  ip_average_price := pn_average_price s;
  ip_status := position_status_value (pn_status s);
|}.

(** * aggregation.py *)

Definition classify_price (instrument_id : UUID) (prices : gmap UUID RefPrice) (now : datetime)
    (max_age_seconds : option Z) : res (option RefPrice * PriceState) :=
  match prices !! instrument_id with
  | None => Ok (None, MISSING)
  | Some price =>
      match max_age_seconds with
      | None => Ok (Some price, FRESH)
      | Some max_age =>
          let! age := dt_sub now (rp_observed_at price) in
          if max_age * SECOND <? age then Ok (Some price, STALE) else
          let! future := dt_gt (rp_observed_at price) now in
          Ok (Some price, if (future : bool) then STALE else FRESH)
      end
  end.

Definition signed_exposure (quantity : Z) (price : decimal) : res decimal :=
  round_money (dmul (dec_of_Z quantity) price).

(** The local variables of the loop of [aggregate_positions]. *)
Record Totals := {
  to_exposures : list PositionExposure;
  to_gross : decimal;
  to_net : decimal;
  to_long : decimal;
  to_short : decimal;
  to_missing_ids : list UUID;
  to_stale_ids : list UUID;
  to_any_priced : bool;
  to_open_count : Z;
}.

Definition no_totals : Totals :=
  {| to_exposures := []; to_gross := dzero; to_net := dzero; to_long := dzero; to_short := dzero;
     to_missing_ids := []; to_stale_ids := []; to_any_priced := false; to_open_count := 0 |}.

(** One iteration. *)
Definition add_position (prices : gmap UUID RefPrice) (now : datetime) (max_age_seconds : option Z)
    (t : Totals) (pos : PositionInput) : res Totals :=
  if negb (is_open pos) then Ok t else
  let! ps := classify_price (ip_instrument_id pos) prices now max_age_seconds in
  let '(price, state) := ps in
  match price with
  | None =>
      Ok {| to_exposures := to_exposures t ++
              [{| xp_position_id := ip_position_id pos; xp_instrument_id := ip_instrument_id pos;
                  xp_strategy_run_id := ip_strategy_run_id pos; xp_quantity := ip_quantity pos;
                  xp_reference_price := None; xp_market_value := None; xp_price_state := state |}];
            to_gross := to_gross t; to_net := to_net t; to_long := to_long t; to_short := to_short t;
            to_missing_ids := to_missing_ids t ++ [ip_instrument_id pos];
            to_stale_ids := to_stale_ids t;
            to_any_priced := to_any_priced t; to_open_count := to_open_count t + 1 |}
  | Some p =>
      let! exposure := signed_exposure (ip_quantity pos) (rp_price p) in
      Ok {| to_exposures := to_exposures t ++
              [{| xp_position_id := ip_position_id pos; xp_instrument_id := ip_instrument_id pos;
                  xp_strategy_run_id := ip_strategy_run_id pos; xp_quantity := ip_quantity pos;
                  xp_reference_price := Some (rp_price p); xp_market_value := Some exposure;
                  xp_price_state := state |}];
            to_gross := dadd (to_gross t) (dabs exposure);
            to_net := dadd (to_net t) exposure;
            to_long := if dgt exposure dzero then dadd (to_long t) exposure else to_long t;
            to_short := if dgt exposure dzero then to_short t
                        else dadd (to_short t) (dminus exposure);
            to_missing_ids := to_missing_ids t;
            to_stale_ids := if decide (state = STALE) then to_stale_ids t ++ [ip_instrument_id pos]
                            else to_stale_ids t;
            to_any_priced := true; to_open_count := to_open_count t + 1 |}
  end.

Record Aggregate := {
  gg_exposures : list PositionExposure;
  gg_gross : decimal;
  gg_net : decimal;
  gg_long : decimal;
  gg_short : decimal;
  gg_market_value : option decimal;
  gg_missing_ids : list UUID;
  gg_stale_ids : list UUID;
}.

Definition aggregate_positions (positions : list PositionInput) (prices : gmap UUID RefPrice)
    (now : datetime) (max_age_seconds : option Z) : res Aggregate :=
  let! t := foldM (add_position prices now max_age_seconds) no_totals positions in
  let! market_value :=
    if to_open_count t =? 0 then Ok (Some dzero)
    else if to_any_priced t then let! m := round_money (to_net t) in Ok (Some m)
    else Ok None in
  let! gross := round_money (to_gross t) in
  let! net := round_money (to_net t) in
  let! long := round_money (to_long t) in
  let! short := round_money (to_short t) in
  Ok {| gg_exposures := to_exposures t; gg_gross := gross; gg_net := net; gg_long := long;
        gg_short := short; gg_market_value := market_value;
        gg_missing_ids := to_missing_ids t; gg_stale_ids := to_stale_ids t |}.

(** The bucket of a strategy: ["count"], ["gross"], ["priced"]. *)
Record bucket := {
  bk_count : Z;
  bk_gross : decimal;
  bk_priced : bool;
}.

Definition add_exposure (b : bucket) (e : PositionExposure) : bucket :=
  match xp_market_value e with
  | Some v => {| bk_count := bk_count b + 1; bk_gross := dadd (bk_gross b) (dabs v);
                 bk_priced := bk_priced b |}
  | None => {| bk_count := bk_count b + 1; bk_gross := bk_gross b; bk_priced := false |}
  end.

Fixpoint strategy_bucket (e : PositionExposure) (bs : list (UUID * bucket)) : list (UUID * bucket) :=
  match bs with
  | [] => [(xp_strategy_run_id e,
            add_exposure {| bk_count := 0; bk_gross := dzero; bk_priced := true |} e)]
  | (sid, b) :: bs' =>
      if (sid =? xp_strategy_run_id e)%N then (sid, add_exposure b e) :: bs'
      else (sid, b) :: strategy_bucket e bs'
  end.

Definition strategy_breakdown (exposures : list PositionExposure) : res (list StrategyBreakdown) :=
  let buckets := foldl (fun bs e => strategy_bucket e bs) [] exposures in
  mapM_res (fun kb =>
    let '(sid, b) := kb.2 in
    let! market_value := if bk_priced b then let! m := round_money (bk_gross b) in Ok (Some m)
                         else Ok None in
    let! gross := round_money (bk_gross b) in
    Ok {| sb_strategy_run_id := sid; sb_position_count := bk_count b;
          sb_market_value := market_value; sb_gross_exposure := gross |})
    (sort_keys ((fun sb => (uuid_str sb.1, sb)) <$> buckets)).

Definition compute_portfolio (inputs : PortfolioInputs) (now : datetime)
    (max_age_seconds : option Z) : res PortfolioComputation :=
  let identity := {| fi_account_id := fp_account_id inputs;
                     fi_trading_mode := py_upper (fp_trading_mode inputs) |} in
  let! a := aggregate_positions (fp_positions inputs) (fp_prices inputs) now max_age_seconds in
  let cash_balance := match fp_funds inputs with Some f => fu_available_cash f | None => None end in
  let funds_available := match cash_balance with Some _ => true | None => false end in
  let has_missing := negb (bool_decide (gg_missing_ids a = [])) in
  let has_stale := negb (bool_decide (gg_stale_ids a = [])) in
  let completeness := if negb has_missing && funds_available then COMPLETE else PARTIAL in
  let! equity_value :=
    match completeness, cash_balance, gg_market_value a with
    | COMPLETE, Some cash, Some mv => let! e := round_money (dadd cash mv) in Ok (Some e)
    | _, _, _ => Ok None
    end in
  let! breakdown := strategy_breakdown (gg_exposures a) in
  Ok {| fc_identity := identity;
        fc_status := if negb has_missing && negb has_stale && funds_available then fs_READY
                     else fs_DEGRADED;
        fc_completeness := completeness;
        fc_position_count := Z.of_nat (List.length (List.filter is_open (fp_positions inputs)));
        fc_gross_exposure := gg_gross a; fc_net_exposure := gg_net a;
        fc_long_exposure := gg_long a; fc_short_exposure := gg_short a;
        fc_market_value := gg_market_value a;
        fc_cash_balance := cash_balance;
        fc_equity_value := equity_value;
        fc_available_margin := match fp_funds inputs with Some f => fu_available_margin f | None => None end;
        fc_used_margin := match fp_funds inputs with Some f => fu_used_margin f | None => None end;
        fc_funds_available := funds_available;
        fc_missing_instrument_ids := gg_missing_ids a;
        fc_stale_instrument_ids := gg_stale_ids a;
        fc_positions := gg_exposures a;
        fc_strategy_breakdown := breakdown;
        fc_snapshot_at := now |}.

(** * identity.py *)

Definition compute_portfolio_key (account_id : UUID) (trading_mode : string) : string :=
  uuid_str account_id +:+ ":" +:+ py_upper trading_mode.

Definition build_portfolio_identity (account_id : UUID) (trading_mode : string) : PortfolioIdentity :=
  {| fi_account_id := account_id; fi_trading_mode := py_upper trading_mode |}.

Definition portfolio_snapshot_key (account_id : UUID) (trading_mode : string)
    (snapshot_at : datetime) : string :=
  uuid_str account_id +:+ ":" +:+ py_upper trading_mode +:+ ":" +:+ isoformat snapshot_at.

Definition snapshot_content_hash (account_id : UUID) (trading_mode : string) (snapshot_at : datetime)
    (gross net long short : string) (market_value cash_balance : option string)
    (position_count : Z) : string :=
  sha256_hex (json_compact
    [("account_id"%string, JStr (uuid_str account_id));
     ("trading_mode"%string, JStr (py_upper trading_mode));
     ("snapshot_at"%string, JStr (isoformat snapshot_at));
     ("gross_exposure"%string, JStr gross);
     ("net_exposure"%string, JStr net);
     ("long_exposure"%string, JStr long);
     ("short_exposure"%string, JStr short);
     ("market_value"%string, json_opt_str market_value);
     ("cash_balance"%string, json_opt_str cash_balance);
     ("position_count"%string, JInt position_count)]).

(** * The table and repository.py *)

Record PortfolioSnapshotRow := {
  fr_broker_account_id : UUID;
  fr_trading_mode : string;
  fr_snapshot_at : datetime;
  fr_equity_value : option decimal;
  fr_cash_balance : option decimal;
  fr_market_value : option decimal;
  fr_gross_exposure : option decimal;
  fr_net_exposure : option decimal;
  fr_long_exposure : option decimal;
  fr_short_exposure : option decimal;
  fr_position_count : option Z;
  fr_available_margin : option decimal;
  fr_used_margin : option decimal;
  fr_status : option string;
  fr_snapshot_payload : option (list (string * json));
}.

Definition portfolio_key_of (r : PortfolioSnapshotRow) : option (UUID * string * Z) :=
  Some (fr_broker_account_id r, fr_trading_mode r, dt_instant (fr_snapshot_at r)).

(** The unique constraint, and the reference to [broker_accounts]. *)
Definition portfolio_constraint (accounts : UUID -> bool) (m : gmap N PortfolioSnapshotRow) : bool :=
  let l := snd <$> map_to_list m in
  unique_on portfolio_key_of l && forallb (fun r => accounts (fr_broker_account_id r)) l.

Definition breakdown_payload (c : PortfolioComputation) : json :=
  JArr ((fun b => JObj
    [("strategy_run_id"%string, JStr (uuid_str (sb_strategy_run_id b)));
     ("position_count"%string, JInt (sb_position_count b));
     ("market_value"%string, json_opt_str (dec_str <$> sb_market_value b));
     ("gross_exposure"%string, JStr (dec_str (sb_gross_exposure b)))]) <$> fc_strategy_breakdown c).

Definition portfolio_to_orm (s : PortfolioSnapshot) (c : PortfolioComputation) (content_hash : string)
    : PortfolioSnapshotRow := {|
  fr_broker_account_id := fn_account_id s;
  fr_trading_mode := fn_trading_mode s;
  fr_snapshot_at := fn_snapshot_at s;
  fr_equity_value := fn_equity_value s;
  fr_cash_balance := fn_cash_balance s;
  fr_market_value := fn_market_value s;
  fr_gross_exposure := Some (fn_gross_exposure s);
  fr_net_exposure := Some (fn_net_exposure s);
  fr_long_exposure := Some (fn_long_exposure s);
  fr_short_exposure := Some (fn_short_exposure s);
  fr_position_count := Some (fn_position_count s);
  fr_available_margin := fn_available_margin s;
  fr_used_margin := fn_used_margin s;
  fr_status := Some (portfolio_status_value (fn_status s));
  fr_snapshot_payload := Some
    [("_content_hash"%string, JStr content_hash);
     ("_completeness"%string, JStr (completeness_value (fc_completeness c)));
     ("missing_instrument_ids"%string,
        JArr ((fun i => JStr (uuid_str i)) <$> fc_missing_instrument_ids c));
     ("stale_instrument_ids"%string,
        JArr ((fun i => JStr (uuid_str i)) <$> fc_stale_instrument_ids c));
     ("strategy_breakdown"%string, breakdown_payload c)];
|}.

Fixpoint payload_get (k : string) (l : list (string * json)) : option json :=
  match l with
  | [] => None
  | (k', v) :: l' => if String.eqb k k' then Some v else payload_get k l'
  end.

Definition portfolio_from_orm (kr : N * PortfolioSnapshotRow) : res PortfolioSnapshot :=
  let '(id, rec) := kr in
  let payload := default [] (fr_snapshot_payload rec) in
  let! completeness :=
    match default (JStr (completeness_value COMPLETE)) (payload_get "_completeness" payload) with
    | JStr s => completeness_of s
    | _ => raise ValueError "not a valid PortfolioCompleteness"
    end in
  let raw := match fr_status rec with
             | Some s => if String.eqb s "" then portfolio_status_value fs_UNINITIALIZED else s
             | None => portfolio_status_value fs_UNINITIALIZED
             end in
  let! status := portfolio_status_of (py_upper raw) in
  Ok {| fn_snapshot_id := Some id;
        fn_account_id := fr_broker_account_id rec;
        fn_trading_mode := fr_trading_mode rec;
        fn_status := status;
        fn_completeness := completeness;
        fn_position_count := default 0 (fr_position_count rec);
        fn_gross_exposure := or_zero (fr_gross_exposure rec);
        fn_net_exposure := or_zero (fr_net_exposure rec);
        fn_long_exposure := or_zero (fr_long_exposure rec);
        fn_short_exposure := or_zero (fr_short_exposure rec);
        fn_market_value := fr_market_value rec;
        fn_cash_balance := fr_cash_balance rec;
        fn_equity_value := fr_equity_value rec;
        fn_available_margin := fr_available_margin rec;
        fn_used_margin := fr_used_margin rec;
        fn_snapshot_at := fr_snapshot_at rec |}.

Definition portfolio_where (account_id : UUID) (trading_mode : string) (snapshot_at : datetime)
    (r : PortfolioSnapshotRow) : bool :=
  bool_decide (portfolio_key_of r = Some (account_id, trading_mode, dt_instant snapshot_at)).

Section PortfolioRepository.
Context {accounts : UUID -> bool}.
Context {DB : Type} `{ListSession DB PortfolioSnapshotRow (portfolio_constraint accounts)}.

Definition portfolio_save_snapshot (s : PortfolioSnapshot) (c : PortfolioComputation)
    (content_hash : string) : M DB PortfolioSnapshot :=
  add_and_refresh (portfolio_where (fn_account_id s) (fn_trading_mode s) (fn_snapshot_at s))
    (portfolio_to_orm s c content_hash) portfolio_from_orm
    (mk_exn DuplicateSnapshotError "duplicate snapshot (unique constraint)")
    (mk_exn PortfolioPersistenceError "portfolio snapshot write failed").

Definition portfolio_load_snapshot (account_id : UUID) (trading_mode : string)
    (snapshot_at : datetime) : M DB (option PortfolioSnapshot) :=
  let* rec := scalar_one_or_none (portfolio_where account_id (py_upper trading_mode) snapshot_at) in
  match rec with
  | Some kr => let* s := lift (portfolio_from_orm kr) in ret (Some s)
  | None => ret None
  end.

Definition of_account (account_id : UUID) (trading_mode : string) (r : PortfolioSnapshotRow) : bool :=
  bool_decide (fr_broker_account_id r = account_id) &&
  String.eqb (fr_trading_mode r) (py_upper trading_mode).

Definition portfolio_load_latest (account_id : UUID) (trading_mode : string)
    : M DB (option PortfolioSnapshot) :=
  let* recs := scalars_all (of_account account_id trading_mode)
                 (fun r => - dt_instant (fr_snapshot_at r)) in
  match recs with
  | kr :: _ => let* s := lift (portfolio_from_orm kr) in ret (Some s)
  | [] => ret None
  end.

Definition portfolio_list_snapshots (account_id : UUID) (trading_mode : string) (limit : nat)
    : M DB (list PortfolioSnapshot) :=
  let* recs := scalars_all (of_account account_id trading_mode)
                 (fun r => - dt_instant (fr_snapshot_at r)) in
  lift (mapM_res portfolio_from_orm (take limit recs)).
End PortfolioRepository.

(** * engine.py *)

Record PortfolioEngineConfig := {
  fg_global_halt_active : nat -> bool;
  fg_max_age_seconds : option Z;
  fg_now : nat -> datetime;
}.

Definition to_portfolio_snapshot (c : PortfolioComputation) : PortfolioSnapshot := {|
  fn_snapshot_id := None;
  fn_account_id := fi_account_id (fc_identity c);
  fn_trading_mode := fi_trading_mode (fc_identity c);
  fn_status := fc_status c;
  fn_completeness := fc_completeness c;
  fn_position_count := fc_position_count c;
  fn_gross_exposure := fc_gross_exposure c;
  fn_net_exposure := fc_net_exposure c;
  fn_long_exposure := fc_long_exposure c;
  fn_short_exposure := fc_short_exposure c;
  fn_market_value := fc_market_value c;
  fn_cash_balance := fc_cash_balance c;
  fn_equity_value := fc_equity_value c;
  fn_available_margin := fc_available_margin c;
  fn_used_margin := fc_used_margin c;
  fn_snapshot_at := fc_snapshot_at c;
|}.

Section PortfolioEngine.
Context {accounts : UUID -> bool}.
Context {DB : Type} `{ListSession DB PortfolioSnapshotRow (portfolio_constraint accounts)}.
Context (fg : PortfolioEngineConfig).
Abbreviation FW := (Service DB).

Definition portfolio_validate (inputs : PortfolioInputs) : M FW unit :=
  lift (guard_mode PortfolioModeError "LIVE trading is disabled (fail-closed)"
          (fp_trading_mode inputs)) ;*
  let* halted := scall (fg_global_halt_active fg) in
  if (halted : bool) then throw PortfolioValidationError
    "global trading halt is active; portfolio computation refused"
  else ret tt.

Definition portfolio_compute (inputs : PortfolioInputs) (now : option datetime)
    (max_age_seconds : option Z) : M FW PortfolioComputation :=
  portfolio_validate inputs ;*
  let* at_ := match now with Some t => ret t | None => scall (fg_now fg) end in
  let* c := lift (compute_portfolio inputs at_
              (match max_age_seconds with Some m => Some m | None => fg_max_age_seconds fg end)) in
  metric "recalculations" ;*
  ret c.

Definition record_quality (c : PortfolioComputation) : M FW unit :=
  (if decide (fc_completeness c = PARTIAL) then metric "incomplete_snapshots" else ret tt) ;*
  (if bool_decide (fc_status c = fs_DEGRADED) && negb (bool_decide (fc_stale_instrument_ids c = []))
   then metric "stale_snapshots" else ret tt).

Definition computation_hash (c : PortfolioComputation) (snapshot_at : datetime) : string :=
  snapshot_content_hash (fi_account_id (fc_identity c)) (fi_trading_mode (fc_identity c)) snapshot_at
    (dec_str (fc_gross_exposure c)) (dec_str (fc_net_exposure c)) (dec_str (fc_long_exposure c))
    (dec_str (fc_short_exposure c)) (dec_str <$> fc_market_value c) (dec_str <$> fc_cash_balance c)
    (fc_position_count c).

Definition portfolio_snapshot (inputs : PortfolioInputs) (snapshot_at : datetime)
    (max_age_seconds : option Z) : M FW PortfolioResult :=
  let* missing := no_repository in
  if (missing : bool) then throw PortfolioPersistenceError "no portfolio repository configured" else
  let* c := portfolio_compute inputs (Some snapshot_at) max_age_seconds in
  let* p := try_except
    (let* s := repo_call (portfolio_save_snapshot (to_portfolio_snapshot c) c
                            (computation_hash c snapshot_at)) in
     ret (inl s))
    (fun exc =>
       if isinstance exc DuplicateSnapshotError then Some (
         metric "duplicate_snapshots" ;*
         let* existing := repo_call (portfolio_load_snapshot (fp_account_id inputs)
                                       (fp_trading_mode inputs) snapshot_at) in
         match existing with
         | None => throw PortfolioPersistenceError "snapshot duplicate but no existing snapshot found"
         | Some s => ret (inr s)
         end)
       else None) in
  match p with
  | inr existing =>
      ret {| ft_status := fn_status existing; ft_snapshot := existing; ft_duplicate := true;
             ft_computation := Some c |}
  | inl persisted =>
      metric "snapshot_writes" ;*
      record_quality c ;*
      ret {| ft_status := fc_status c; ft_snapshot := persisted; ft_duplicate := false;
             ft_computation := Some c |}
  end.

Definition portfolio_get_latest (account_id : UUID) (trading_mode : string)
    : M FW (option PortfolioSnapshot) :=
  let* missing := no_repository in
  if (missing : bool) then ret None else repo_call (portfolio_load_latest account_id trading_mode).

Definition engine_list_snapshots (account_id : UUID) (trading_mode : string) (limit : nat)
    : M FW (list PortfolioSnapshot) :=
  let* missing := no_repository in
  if (missing : bool) then ret []
  else repo_call (portfolio_list_snapshots account_id trading_mode limit).
End PortfolioEngine.

(** * Exposure arithmetic *)

Section Exposures.
Context (prices : gmap UUID RefPrice) (now : datetime) (age : option Z).

(** Reference prices on the grid, with comparable times where an age limit
    applies. *)
Definition prices_ok : Prop := forall i p, prices !! i = Some p ->
  money (rp_price p) /\ (age <> None -> dt_comparable (rp_observed_at p) now = true).

(** The signed exposure of a position in ten-thousandths; a position without a
    price has none. *)
Definition exposure_of (pos : PositionInput) : Z :=
  match prices !! ip_instrument_id pos with
  | Some p => ip_quantity pos * amount (rp_price p)
  | None => 0
  end.

Definition gross_of (l : list PositionInput) : Z := foldr (fun p z => Z.abs (exposure_of p) + z) 0 l.
Definition net_of (l : list PositionInput) : Z := foldr (fun p z => exposure_of p + z) 0 l.

Lemma gross_of_nonneg l : 0 <= gross_of l.
Proof. induction l; simpl; lia. Qed.

Lemma net_of_bound l : Z.abs (net_of l) <= gross_of l.
Proof. induction l; simpl; lia. Qed.

(** The running totals: gross is long plus short, net their difference. *)
Definition totals_hold (t : Totals) (g n : Z) : Prop :=
  money (to_gross t) /\ money (to_net t) /\ money (to_long t) /\ money (to_short t) /\
  amount (to_gross t) = g /\ amount (to_net t) = n /\
  0 <= amount (to_long t) /\ 0 <= amount (to_short t) /\
  g = amount (to_long t) + amount (to_short t) /\ n = amount (to_long t) - amount (to_short t).

(** The market value of an exposure entry, in ten-thousandths. *)
Definition value_of (e : PositionExposure) : Z :=
  match xp_market_value e with Some v => Z.abs (amount v) | None => 0 end.

Definition values_of (l : list PositionExposure) : Z := foldr (fun e z => value_of e + z) 0 l.

Lemma values_of_app l1 l2 : values_of (l1 ++ l2) = values_of l1 + values_of l2.
Proof. induction l1; simpl; lia. Qed.

Definition values_money (l : list PositionExposure) : Prop :=
  Forall (fun e => match xp_market_value e with Some v => money v | None => True end) l.

Lemma classify_total i : prices_ok -> exists st,
  classify_price i prices now age = Ok (prices !! i, st).
Proof.
  intros Hp. unfold classify_price. destruct (prices !! i) as [p|] eqn:E; [|eauto].
  destruct age as [m|] eqn:Ea; [|eauto]. destruct (Hp _ _ E) as [_ Hc].
  rewrite Ea in Hc. specialize (Hc ltac:(done)). unfold dt_sub, dt_gt, dt_cmp.
  assert (dt_comparable now (rp_observed_at p) = true) as ->.
  { unfold dt_comparable in *. by destruct (dt_aware now), (dt_aware (rp_observed_at p)). }
  rewrite Hc. simpl. destruct (_ <? _); [eauto|]. eauto.
Qed.

Lemma add_position_totals t pos g n : prices_ok -> totals_hold t g n -> values_money (to_exposures t) ->
  g + Z.abs (exposure_of pos) < 10 ^ 28 ->
  exists t', add_position prices now age t pos = Ok t' /\
    totals_hold t' (g + Z.abs (exposure_of pos)) (n + exposure_of pos) /\
    values_money (to_exposures t') /\
    values_of (to_exposures t') = values_of (to_exposures t) + Z.abs (exposure_of pos).
Proof.
  intros Hp (M1 & M2 & M3 & M4 & <- & <- & HL & HS & HG & HN) Hv Hb. unfold add_position, is_open.
  destruct (Z.eqb_spec (ip_quantity pos) 0) as [E|E]; simpl.
  { exists t. assert (exposure_of pos = 0) as -> by (unfold exposure_of; destruct (prices !! _); lia).
    rewrite Z.abs_0, !Z.add_0_r. done. }
  destruct (classify_total (ip_instrument_id pos) Hp) as [st ->]. simpl. unfold exposure_of in *.
  destruct (prices !! ip_instrument_id pos) as [p|] eqn:Ep.
  2: { eexists. split; [done|]. rewrite Z.abs_0, !Z.add_0_r in *.
       unfold totals_hold, values_money; simpl. rewrite values_of_app, Forall_app, Forall_singleton. unfold values_of at 2, value_of. simpl.
       split_and!; try done; lia. }
  destruct (Hp _ _ Ep) as [Hm _]. set (x := ip_quantity pos * amount (rp_price p)) in *.
  unfold signed_exposure.
  destruct (notional_exact (ip_quantity pos) (rp_price p)) as (e & -> & He & Hx); [done|unfold fits; lia|].
  fold x in Hx. simpl. pose proof (exp4_money _ He) as Hem.
  destruct (amount_dabs e) as [A1 A2]; [done|unfold fits; lia|].
  destruct (amount_dminus e) as [B1 B2]; [done|unfold fits; lia|].
  destruct (amount_dadd (to_gross t) (dabs e)) as [C1 C2]; [done..|unfold fits; lia|].
  destruct (amount_dadd (to_net t) e) as [D1 D2]; [done..|unfold fits; lia|].
  eexists. split; [done|]. unfold totals_hold, values_money. cbn [to_gross to_net to_long to_short to_exposures].
  rewrite values_of_app, Forall_app, Forall_singleton. unfold values_of at 2, value_of. simpl.
  rewrite (amount_gt_zero e) by done. rewrite Hx in *.
  destruct (Z.ltb_spec 0 x) as [Hpos|Hneg].
  - destruct (amount_dadd (to_long t) e) as [F1 F2]; [done..|unfold fits; lia|].
    rewrite Hx in F2. split_and!; try done; lia.
  - destruct (amount_dadd (to_short t) (dminus e)) as [F1 F2]; [done..|unfold fits; lia|].
    split_and!; try done; lia.
Qed.

Lemma fold_positions l : forall t g n, prices_ok -> totals_hold t g n -> values_money (to_exposures t) ->
  g + gross_of l < 10 ^ 28 ->
  exists t', foldM (add_position prices now age) t l = Ok t' /\
    totals_hold t' (g + gross_of l) (n + net_of l) /\
    values_money (to_exposures t') /\
    values_of (to_exposures t') = values_of (to_exposures t) + gross_of l.
Proof.
  induction l as [|pos l IH]; intros t g n Hp Ht Hv Hb; simpl in *.
  { exists t. by rewrite !Z.add_0_r. }
  pose proof (gross_of_nonneg l).
  destruct (add_position_totals t pos g n) as (t1 & -> & Ht1 & Hv1 & E1); [done..|lia|]. simpl.
  destruct (IH t1 _ _ Hp Ht1 Hv1) as (t' & -> & Ht' & Hv' & E'); [lia|].
  exists t'. rewrite !Z.add_assoc. split_and!; [done..|]. lia.
Qed.
End Exposures.

Lemma open_count_fold prices now age l : forall t t',
  foldM (add_position prices now age) t l = Ok t' ->
  to_open_count t' = to_open_count t + Z.of_nat (List.length (List.filter is_open l)).
Proof.
  induction l as [|pos l IH]; intros t t' E; simpl in *; [injection E as <-; lia|].
  destruct (add_position prices now age t pos) as [t1|] eqn:Ea; [|done]. apply IH in E. rewrite E.
  unfold add_position in Ea. destruct (is_open pos); simpl in *; [|by res_inv].
  destruct (classify_price _ _ _ _) as [[[p|] st]|]; simpl in Ea; res_inv; simpl; lia.
Qed.

Lemma all_closed_net prices l : List.filter is_open l = [] -> net_of prices l = 0.
Proof.
  induction l as [|pos l IH]; simpl; [done|]. unfold is_open at 1. destruct (Z.eqb_spec (ip_quantity pos) 0) as [E|];
    simpl; [|done]. intros Hl. rewrite (IH Hl). unfold exposure_of. rewrite E. by destruct (prices !! _).
Qed.

Lemma aggregate_exact positions prices now age : prices_ok prices now age ->
  gross_of prices positions < 10 ^ 28 ->
  exists a, aggregate_positions positions prices now age = Ok a /\
    dexp (gg_gross a) = -4 /\ amount (gg_gross a) = gross_of prices positions /\
    dexp (gg_net a) = -4 /\ amount (gg_net a) = net_of prices positions /\
    amount (gg_gross a) = amount (gg_long a) + amount (gg_short a) /\
    amount (gg_net a) = amount (gg_long a) - amount (gg_short a) /\
    0 <= amount (gg_long a) /\ 0 <= amount (gg_short a) /\
    (forall m, gg_market_value a = Some m -> money m /\ amount m = net_of prices positions) /\
    values_money (gg_exposures a) /\ values_of (gg_exposures a) = gross_of prices positions.
Proof.
  intros Hp Hb. unfold aggregate_positions.
  destruct (fold_positions prices now age positions no_totals 0 0)
    as (t & Hf & (M1 & M2 & M3 & M4 & E1 & E2 & HL & HS & HG & HN) & Hv & Ev);
    [done| by unfold totals_hold | constructor | lia |]. simpl in Ev, E1, E2. rewrite Hf. simpl.
  pose proof (net_of_bound prices positions).
  destruct (round_money_exact (to_gross t)) as (g & Hg & Xg & Vg); [done|unfold fits; lia|].
  destruct (round_money_exact (to_net t)) as (n & Hn & Xn & Vn); [done|unfold fits; lia|].
  destruct (round_money_exact (to_long t)) as (lo & Hl & Xl & Vl); [done|unfold fits; lia|].
  destruct (round_money_exact (to_short t)) as (sh & Hs & Xs & Vs); [done|unfold fits; lia|].
  rewrite Hg, Hn, Hl, Hs.
  assert (exists mv, (if to_open_count t =? 0 then Ok (Some dzero)
            else if to_any_priced t then let! m := Ok n in Ok (Some m) else Ok None) = Ok mv /\
          forall m, mv = Some m -> money m /\ amount m = net_of prices positions) as (mv & -> & Hmv).
  { apply open_count_fold in Hf. simpl in Hf. destruct (Z.eqb_spec (to_open_count t) 0) as [E|].
    - eexists. split; [done|]. intros m [= <-]. split; [done|].
      rewrite all_closed_net; [done|]. destruct (List.filter is_open positions); [done|simpl in *; lia].
    - destruct (to_any_priced t); (eexists; split; [done|]); [|done].
      intros m [= <-]. split; [by apply exp4_money|lia]. }
  simpl. eexists. split; [done|]. simpl. rewrite Vg, Vn, Vl, Vs.
  split_and!; try done; lia.
Qed.

(** * The strategy breakdown *)

Definition bucket_ok (sb : UUID * bucket) : Prop :=
  money (bk_gross sb.2) /\ 0 <= amount (bk_gross sb.2).

Definition buckets_gross (bs : list (UUID * bucket)) : Z :=
  foldr (fun sb z => amount (bk_gross sb.2) + z) 0 bs.

Lemma buckets_gross_nonneg bs : Forall bucket_ok bs -> 0 <= buckets_gross bs.
Proof. induction 1 as [|sb bs [_ H] _ IH]; simpl; lia. Qed.

Lemma bucket_in_gross sb bs : Forall bucket_ok bs -> sb ∈ bs ->
  amount (bk_gross sb.2) <= buckets_gross bs.
Proof.
  induction 1 as [|x bs [_ Hx] Hbs IH]; intros Hin; [by apply not_elem_of_nil in Hin|].
  pose proof (buckets_gross_nonneg _ Hbs). simpl.
  apply elem_of_cons in Hin as [->|Hin]; [lia|]. specialize (IH Hin). lia.
Qed.

Lemma add_exposure_ok sid b e : bucket_ok (sid, b) ->
  match xp_market_value e with Some v => money v | None => True end ->
  amount (bk_gross b) + value_of e < 10 ^ 28 ->
  bucket_ok (sid, add_exposure b e) /\
  amount (bk_gross (add_exposure b e)) = amount (bk_gross b) + value_of e.
Proof.
  intros [Hm H0] Hv Hb. unfold add_exposure, value_of, bucket_ok in *. simpl in *.
  destruct (xp_market_value e) as [v|]; simpl; [|split; [done|lia]].
  destruct (amount_dabs v) as [A1 A2]; [done|unfold fits; lia|].
  destruct (amount_dadd (bk_gross b) (dabs v)) as [B1 B2]; [done..|unfold fits; lia|].
  rewrite B2, A2. split; [split; [done|lia]|done].
Qed.

Lemma strategy_bucket_ok e bs : Forall bucket_ok bs ->
  match xp_market_value e with Some v => money v | None => True end ->
  buckets_gross bs + value_of e < 10 ^ 28 ->
  Forall bucket_ok (strategy_bucket e bs) /\
  buckets_gross (strategy_bucket e bs) = buckets_gross bs + value_of e.
Proof.
  induction 1 as [|[sid b] bs Hb Hbs IH]; intros Hv Hf; simpl in *.
  - destruct (add_exposure_ok (xp_strategy_run_id e) {| bk_count := 0; bk_gross := dzero; bk_priced := true |} e)
      as [H1 H2]; [done|done|simpl bk_gross; rewrite amount_dzero; lia|].
    simpl in H2. rewrite amount_dzero in H2. simpl in *. rewrite H2. split; [by constructor|]. lia.
  - pose proof (buckets_gross_nonneg _ Hbs). pose proof Hb as [_ H0]. simpl in H0.
    assert (0 <= value_of e) by (unfold value_of; destruct (xp_market_value e); lia).
    destruct (N.eqb_spec sid (xp_strategy_run_id e)) as [->|].
    + destruct (add_exposure_ok (xp_strategy_run_id e) b e Hb Hv) as [A1 A2]; [lia|].
      simpl. rewrite A2. split; [by constructor|lia].
    + destruct IH as [A1 A2]; [done|lia|]. simpl. split; [by constructor|lia].
Qed.

Lemma fold_strategies l : forall bs, Forall bucket_ok bs -> values_money l ->
  buckets_gross bs + values_of l < 10 ^ 28 ->
  Forall bucket_ok (foldl (fun bs e => strategy_bucket e bs) bs l) /\
  buckets_gross (foldl (fun bs e => strategy_bucket e bs) bs l) = buckets_gross bs + values_of l.
Proof.
  induction l as [|e l IH]; intros bs Hbs Hv Hf; simpl in *; [split; [done|lia]|].
  apply Forall_cons in Hv as [He Hv].
  assert (0 <= values_of l).
  { clear. induction l; simpl; [lia|]. unfold value_of at 1. destruct (xp_market_value _); lia. }
  destruct (strategy_bucket_ok e bs) as [A1 A2]; [done..|lia|].
  destruct (IH (strategy_bucket e bs)) as [A3 A4]; [done..|lia|]. split; [done|lia].
Qed.

Lemma breakdown_total l : values_money l -> values_of l < 10 ^ 28 ->
  exists bd, strategy_breakdown l = Ok bd.
Proof.
  intros Hv Hf. unfold strategy_breakdown.
  destruct (fold_strategies l []) as [H1 H2]; [constructor|done|simpl; lia|]. simpl in H2.
  set (bs := foldl _ _ _) in *. apply mapM_res_total.
  intros [k [sid b]] Hin. rewrite sort_keys_perm in Hin. apply list_elem_of_fmap in Hin as (sb & [= _ <-] & Hin).
  pose proof (bucket_in_gross _ _ H1 Hin) as Hle. rewrite Forall_forall in H1.
  destruct (H1 _ Hin) as [Hm H0]. simpl in *.
  destruct (round_money_exact (bk_gross b) Hm) as (r & -> & _); [unfold fits; lia|].
  destruct (bk_priced b); simpl; eauto.
Qed.

(** The breakdown reports the sum of the absolute values as market value, also
    for short positions. *)
Theorem breakdown_market_value_is_gross l bd : strategy_breakdown l = Ok bd ->
  Forall (fun b => forall m, sb_market_value b = Some m -> m = sb_gross_exposure b) bd.
Proof.
  unfold strategy_breakdown. rewrite mapM_res_ok. intros H. apply Forall_forall.
  intros b Hb. apply list_elem_of_lookup in Hb as [i Hi].
  apply Forall2_same_length_lookup in H as [Hl H].
  destruct (lookup_lt_is_Some_2 (sort_keys ((fun sb => (uuid_str sb.1, sb)) <$>
    foldl (fun bs e => strategy_bucket e bs) [] l)) i) as [[k [sid bk]] Hk];
    [rewrite Hl; by eapply lookup_lt_Some|].
  specialize (H _ _ _ Hk Hi). simpl in H. intros m Hm.
  destruct (bk_priced bk); res_inv; simpl in *; congruence.
Qed.

(** * The computation *)

Definition cash_of (inputs : PortfolioInputs) : option decimal :=
  match fp_funds inputs with Some f => fu_available_cash f | None => None end.

(** The inputs are money and the totals fit into 28 digits. *)
Definition computable (inputs : PortfolioInputs) (now : datetime) (age : option Z) : Prop :=
  prices_ok (fp_prices inputs) now age /\
  gross_of (fp_prices inputs) (fp_positions inputs) < 10 ^ 28 /\
  forall cash, cash_of inputs = Some cash -> money cash /\
    Z.abs (amount cash) + gross_of (fp_prices inputs) (fp_positions inputs) < 10 ^ 28.

(** Exposure identities: on money inputs whose totals fit 28 digits the
    portfolio computation always answers; gross exposure is the sum of the
    absolute position values, net exposure and market value their signed sum,
    gross is long plus short and net is long minus short, exactly; and equity,
    where it is reported, is the cash balance plus the net position value. *)
Theorem portfolio_exposure_identities inputs now age : computable inputs now age ->
  exists c, compute_portfolio inputs now age = Ok c /\
    amount (fc_gross_exposure c) = gross_of (fp_prices inputs) (fp_positions inputs) /\
    amount (fc_net_exposure c) = net_of (fp_prices inputs) (fp_positions inputs) /\
    amount (fc_gross_exposure c) = amount (fc_long_exposure c) + amount (fc_short_exposure c) /\
    amount (fc_net_exposure c) = amount (fc_long_exposure c) - amount (fc_short_exposure c) /\
    (forall m, fc_market_value c = Some m -> amount m = amount (fc_net_exposure c)) /\
    (forall e, fc_equity_value c = Some e ->
       exists cash, cash_of inputs = Some cash /\ amount e = amount cash + amount (fc_net_exposure c)).
Proof.
  intros (Hp & Hb & Hcash). unfold compute_portfolio. fold (cash_of inputs).
  destruct (aggregate_exact _ _ _ _ Hp Hb)
    as (a & -> & Xg & Vg & Xn & Vn & HG & HN & _ & _ & Hmv & Hv & Ev). simpl.
  destruct (breakdown_total (gg_exposures a)) as [bd Hbd]; [done|lia|]. rewrite Hbd.
  pose proof (net_of_bound (fp_prices inputs) (fp_positions inputs)) as Hnb.
  assert (exists eq, match (if negb (negb (bool_decide (gg_missing_ids a = []))) &&
              match cash_of inputs with Some _ => true | None => false end then COMPLETE else PARTIAL),
              cash_of inputs, gg_market_value a with
            | COMPLETE, Some cash, Some mv => let! e := round_money (dadd cash mv) in Ok (Some e)
            | _, _, _ => Ok None end = Ok eq /\
          forall e, eq = Some e -> exists cash, cash_of inputs = Some cash /\
            amount e = amount cash + amount (gg_net a)) as (eq & -> & He).
  { destruct (cash_of inputs) as [cash|]; [|exists None; destruct (negb _); by simpl].
    destruct (Hcash _ eq_refl) as [Hcm Hcb].
    destruct (negb _) eqn:Ene; simpl; [|exists None; by simpl].
    destruct (gg_market_value a) as [mv|]; [|by exists None].
    destruct (Hmv _ eq_refl) as [Hmm Hma].
    destruct (amount_dadd cash mv) as [S1 S2]; [done..|unfold fits; lia|].
    destruct (round_money_exact (dadd cash mv)) as (e & -> & _ & Ve); [done|unfold fits; lia|].
    exists (Some e). split; [done|]. intros e' [= <-]. exists cash. split; [done|]. lia. }
  simpl. eexists. split; [done|]. simpl. rewrite Vg, Vn. split_and!; try done; try lia.
  - intros m Hm. destruct (Hmv _ Hm). lia.
  - intros e Hq. destruct (He _ Hq) as (cash & Hc & Ha). exists cash. split; [done|]. lia.
Qed.

(** * Status *)

Section Quality.
Context (prices : gmap UUID RefPrice) (now : datetime) (age : option Z).

Definition in_state (st : PriceState) (pos : PositionInput) : Prop :=
  exists p, classify_price (ip_instrument_id pos) prices now age = Ok (p, st).

Lemma in_state_missing pos : in_state MISSING pos <-> prices !! ip_instrument_id pos = None.
Proof.
  unfold in_state, classify_price. destruct (prices !! ip_instrument_id pos) as [p|]; [|naive_solver].
  split; [|done]. intros [q Hq]. destruct age as [m|]; [|done].
  unfold dt_sub, dt_gt, dt_cmp in Hq. destruct (dt_comparable now _); [|done]. simpl in Hq.
  destruct (_ <? _); [done|]. destruct (dt_comparable _ now); [|done]. simpl in Hq.
  by destruct (_ >? _).
Qed.

(** Every open position seen so far is fresh or listed by its defect. *)
Definition listed (t : Totals) (l : list PositionInput) : Prop :=
  (to_missing_ids t = [] <-> forall pos, pos ∈ l -> ip_quantity pos <> 0 -> ~ in_state MISSING pos) /\
  (to_stale_ids t = [] <-> forall pos, pos ∈ l -> ip_quantity pos <> 0 -> ~ in_state STALE pos) /\
  (forall pos, pos ∈ l -> ip_quantity pos <> 0 -> exists st, in_state st pos).

Lemma snoc_not_nil {A} (l : list A) x : l ++ [x] <> [].
Proof. by destruct l. Qed.

Lemma in_state_det pos a b : in_state a pos -> in_state b pos -> a = b.
Proof. intros [p Hp] [q Hq]. congruence. Qed.

Lemma forall_snoc {A} (P : A -> Prop) l x :
  (forall y, y ∈ l ++ [x] -> P y) <-> (forall y, y ∈ l -> P y) /\ P x.
Proof.
  split.
  - intros H. split; [intros y Hy|]; apply H; rewrite elem_of_app; [by left|right; by left].
  - intros [H1 H2] y. rewrite elem_of_app, list_elem_of_singleton. intros [?| ->]; auto.
Qed.

Lemma add_position_listed t t' pos l : listed t l ->
  add_position prices now age t pos = Ok t' -> listed t' (l ++ [pos]).
Proof.
  intros (Hm & Hs & Ht) E. unfold listed. rewrite !forall_snoc.
  unfold add_position, is_open in E. destruct (Z.eqb_spec (ip_quantity pos) 0) as [E0|E0]; simpl in E.
  { injection E as <-. split_and!; [rewrite Hm|rewrite Hs|done|done]; naive_solver. }
  destruct (classify_price (ip_instrument_id pos) prices now age) as [[p st]|] eqn:Ec; [|done]. simpl in E.
  assert (in_state st pos) as Hst by (by exists p).
  assert (p = prices !! ip_instrument_id pos) as ->.
  { unfold classify_price in Ec. destruct (prices !! _) as [q|]; [|naive_solver].
    destruct age as [m|]; [|naive_solver]. destruct (dt_sub _ _); [|done]. simpl in Ec.
    destruct (_ <? _); [naive_solver|]. destruct (dt_gt _ _); [|done]. simpl in Ec. naive_solver. }
  pose proof (in_state_missing pos) as Hmi. pose proof (in_state_det pos) as Hdet.
  destruct (prices !! ip_instrument_id pos) as [p|].
  - res_inv. simpl. split_and!; [| |done|by eauto].
    + rewrite Hm. split; [|by intros []]. intros H. split; [done|]. intros _ H2%Hmi. done.
    + destruct (decide (st = STALE)) as [->|Hne].
      * split; [by intros ?%snoc_not_nil|]. intros [_ H]. by destruct (H E0).
      * rewrite Hs. split; [|by intros []]. intros H. split; [done|]. intros _ H2. by apply Hne, Hdet.
  - injection E as <-. simpl. assert (st = MISSING) as -> by (apply Hdet; [done|by apply Hmi]).
    split_and!; [| |done|by eauto].
    + split; [by intros ?%snoc_not_nil|]. intros [_ H]. by destruct (H E0).
    + rewrite Hs. split; [|by intros []]. intros H. split; [done|]. intros _ H2. by pose proof (Hdet _ _ Hst H2).
Qed.

Lemma fold_listed l : forall t t' l0, listed t l0 ->
  foldM (add_position prices now age) t l = Ok t' -> listed t' (l0 ++ l).
Proof.
  induction l as [|pos l IH]; intros t t' l0 Ht E; simpl in E.
  - injection E as <-. by rewrite app_nil_r.
  - destruct (add_position prices now age t pos) as [t1|] eqn:Ea; [|done].
    rewrite cons_middle, app_assoc. eapply IH; [|exact E]. by eapply add_position_listed.
Qed.

Lemma aggregate_listed positions a : aggregate_positions positions prices now age = Ok a ->
  (gg_missing_ids a = [] <-> forall pos, pos ∈ positions -> ip_quantity pos <> 0 ->
     is_Some (prices !! ip_instrument_id pos)) /\
  (gg_missing_ids a = [] /\ gg_stale_ids a = [] <->
     forall pos, pos ∈ positions -> ip_quantity pos <> 0 -> in_state FRESH pos).
Proof.
  intros E. unfold aggregate_positions in E. res_inv. simpl.
  match goal with H : foldM _ _ _ = Ok _ |- _ => apply (fold_listed _ _ _ []) in H as (Hm & Hs & Ht) end.
  2: { unfold listed. split_and!; [split; [intros _ pos Hp; by apply not_elem_of_nil in Hp|done]..|].
       intros pos Hp. by apply not_elem_of_nil in Hp. }
  simpl in *. rewrite Hm, Hs. split.
  - split; intros H pos Hin Hq; specialize (H pos Hin Hq).
    + rewrite in_state_missing in H. destruct (prices !! _); [by eexists|done].
    + rewrite in_state_missing. intros Hn. rewrite Hn in H. by destruct H.
  - split.
    + intros [H1 H2] pos Hin Hq. destruct (Ht pos Hin Hq) as [[] Hst]; [done| |].
      * by destruct (H2 pos Hin Hq).
      * by destruct (H1 pos Hin Hq).
    + intros H. split; intros pos Hin Hq Hst; by pose proof (in_state_det _ _ _ Hst (H pos Hin Hq)).
Qed.
End Quality.

(** The portfolio never reports more than its data support: a computed
    portfolio is READY exactly when the cash balance is known and every open
    position has a fresh reference price, COMPLETE exactly when the cash
    balance is known and every open position has a price at all, and an equity
    value is given only for a COMPLETE portfolio. *)
Theorem portfolio_status_faithful inputs now age c : compute_portfolio inputs now age = Ok c ->
  (fc_status c = fs_READY <-> is_Some (cash_of inputs) /\
     forall pos, pos ∈ fp_positions inputs -> ip_quantity pos <> 0 ->
       in_state (fp_prices inputs) now age FRESH pos) /\
  (fc_completeness c = COMPLETE <-> is_Some (cash_of inputs) /\
     forall pos, pos ∈ fp_positions inputs -> ip_quantity pos <> 0 ->
       is_Some (fp_prices inputs !! ip_instrument_id pos)) /\
  (is_Some (fc_equity_value c) -> fc_completeness c = COMPLETE).
Proof.
  unfold compute_portfolio. fold (cash_of inputs). intros E. res_inv. simpl.
  match goal with H : aggregate_positions _ _ _ _ = Ok _ |- _ => apply aggregate_listed in H as [Hc Hr] end.
  rewrite <- Hc, <- Hr. clear Hc Hr. rewrite !negb_involutive.
  do 2 case_bool_decide; destruct (cash_of inputs) as [cash|]; simpl in *;
    (split_and!; [split; [done|]|split; [done|]|]); try (by intros [? [? ?]]); try (by intros [? ?]);
    try (intros [[? ?] ?]; done); try done; try (split; [by eexists|done]).
  all: res_inv; by intros [? ?].
Qed.

(** * Concrete runs *)

Module PortfolioSample.
Open Scope string_scope.

Definition pos (sid iid : UUID) (q : Z) : PositionInput :=
  {| ip_position_id := None; ip_instrument_id := iid; ip_strategy_run_id := sid; ip_quantity := q;
     ip_average_price := None; ip_status := "OPEN" |}.

Definition quote_ (iid : UUID) (c : N) : RefPrice :=
  {| rp_instrument_id := iid; rp_price := Dec false c (-2); rp_observed_at := utc 0 |}.

Definition funds : FundsState :=
  {| fu_available_cash := Some (Dec false 100000 (-2)); fu_available_margin := None;
     fu_used_margin := None; fu_captured_at := None |}.

(** 10 long at 100.50 and 4 short at 20.25 of one strategy. *)
Definition book : PortfolioInputs :=
  {| fp_account_id := 1; fp_trading_mode := "paper"; fp_positions := [pos 7 3 10; pos 7 4 (-4); pos 8 5 0];
     fp_funds := Some funds; fp_prices := {[ 3%N := quote_ 3 10050; 4%N := quote_ 4 2025 ]} |}.

Definition computed := compute_portfolio book (utc 1000000) (Some 60).

Example computed_amounts : match computed with
  | Ok c => (amount (fc_gross_exposure c), amount (fc_net_exposure c), amount (fc_long_exposure c),
             amount (fc_short_exposure c), amount <$> fc_equity_value c)
            = (10860000, 9240000, 10050000, 810000, Some 19240000)
  | Err _ => False end.
Proof. vm_compute. reflexivity. Qed.

(** The strategy's market value is reported as 1086, its positions are worth 924. *)
Example breakdown_of_short : match computed with
  | Ok c => (fun b => amount <$> sb_market_value b) <$> fc_strategy_breakdown c = [Some 10860000]
  | Err _ => False end.
Proof. vm_compute. reflexivity. Qed.

Lemma book_computable : computable book (utc 1000000) (Some 60).
Proof.
  split_and!.
  - intros i p Hp. simpl in Hp. apply lookup_insert_Some in Hp as [[<- <-]|[_ Hp]];
      [by vm_compute|]. apply lookup_singleton_Some in Hp as [<- <-]. by vm_compute.
  - by vm_compute.
  - intros cash [= <-]. by vm_compute.
Qed.

Lemma exposure_witness : exists c, computed = Ok c /\ amount (fc_net_exposure c) = 9240000.
Proof.
  destruct (portfolio_exposure_identities book (utc 1000000) (Some 60) book_computable)
    as (c & Hc & _ & Hn & _).
  exists c. split; [exact Hc|]. rewrite Hn. vm_compute. reflexivity.
Defined.

Definition computed_value : PortfolioComputation := Eval vm_compute in
  match computed with Ok c => c | Err _ =>
    {| fc_identity := build_portfolio_identity 0 ""; fc_status := fs_ERROR; fc_completeness := PARTIAL;
       fc_position_count := 0; fc_gross_exposure := dzero; fc_net_exposure := dzero;
       fc_long_exposure := dzero; fc_short_exposure := dzero; fc_market_value := None;
       fc_cash_balance := None; fc_equity_value := None; fc_available_margin := None;
       fc_used_margin := None; fc_funds_available := false; fc_missing_instrument_ids := [];
       fc_stale_instrument_ids := []; fc_positions := []; fc_strategy_breakdown := [];
       fc_snapshot_at := utc 0 |} end.

Lemma status_witness : fc_status computed_value = fs_READY /\
  in_state (fp_prices book) (utc 1000000) (Some 60) FRESH (pos 7 3 10).
Proof.
  destruct (portfolio_status_faithful book (utc 1000000) (Some 60) computed_value
              ltac:(vm_compute; reflexivity)) as [[Hr _] _].
  split; [reflexivity|]. apply (proj2 (Hr eq_refl)); [|discriminate].
  simpl. apply elem_of_cons. left. reflexivity.
Defined.

(** Two minutes later the prices are stale and the status is DEGRADED. *)
Example stale_book : match compute_portfolio book (utc 121000000) (Some 60) with
  | Ok c => (fc_status c, fc_stale_instrument_ids c) = (fs_DEGRADED, [3%N; 4%N])
  | Err _ => False end.
Proof. vm_compute. reflexivity. Qed.
End PortfolioSample.
