(* ===== verification/Reconciliation.v ===== *)
(** The reconciliation engine (services/reconciliation_engine): contracts.py,
    tolerance.py, identity.py, matching.py, adapters.py, repository.py and
    engine.py, with the [reconciliation_runs] and
    [reconciliation_discrepancies] tables.

    Evidence dictionaries ([internal_state], [broker_state]) are JSON objects in
    insertion order.  The matching of orders and of executions is the same code
    in the source up to the observation type, the identity, the compared fields
    and two labels; [reconcile_keyed] is that code, instantiated twice. *)

From stdpp Require Import base list strings gmap fin_maps.
From Stdlib Require Import ZArith Lia String Ascii QArith.
From S2P Require Import Prelude PyBase Hashing Decimal DecimalText Sql Service Position Pnl Portfolio.
Open Scope Z_scope.

(** * contracts.py *)

Inductive RunStatus := run_PENDING | run_RUNNING | run_COMPLETED | run_PARTIAL | run_FAILED.
#[export] Instance RunStatus_eq_dec : EqDecision RunStatus.
Proof. solve_decision. Defined.

Definition run_status_value (s : RunStatus) : string :=
  match s with
  | run_PENDING => "PENDING" | run_RUNNING => "RUNNING" | run_COMPLETED => "COMPLETED"
  | run_PARTIAL => "PARTIAL" | run_FAILED => "FAILED"
  end.

Definition run_status_of :=
  enum_of [run_PENDING; run_RUNNING; run_COMPLETED; run_PARTIAL; run_FAILED] run_status_value.

Inductive Severity := sev_INFO | sev_WARNING | sev_HIGH | sev_CRITICAL.
#[export] Instance Severity_eq_dec : EqDecision Severity.
Proof. solve_decision. Defined.

Definition severity_value (s : Severity) : string :=
  match s with
  | sev_INFO => "INFO" | sev_WARNING => "WARNING" | sev_HIGH => "HIGH" | sev_CRITICAL => "CRITICAL"
  end.

Definition severity_of := enum_of [sev_INFO; sev_WARNING; sev_HIGH; sev_CRITICAL] severity_value.

Inductive ResolutionStatus :=
| DETECTED | CLASSIFIED | OPEN | INVESTIGATING | RESOLVED | ACKNOWLEDGED | ESCALATED.
#[export] Instance ResolutionStatus_eq_dec : EqDecision ResolutionStatus.
Proof. solve_decision. Defined.

Definition resolution_value (s : ResolutionStatus) : string :=
  match s with
  | DETECTED => "DETECTED" | CLASSIFIED => "CLASSIFIED" | OPEN => "OPEN"
  | INVESTIGATING => "INVESTIGATING" | RESOLVED => "RESOLVED" | ACKNOWLEDGED => "ACKNOWLEDGED"
  | ESCALATED => "ESCALATED"
  end.

Definition resolution_of := enum_of
  [DETECTED; CLASSIFIED; OPEN; INVESTIGATING; RESOLVED; ACKNOWLEDGED; ESCALATED] resolution_value.

Inductive EntityType := et_ORDER | et_EXECUTION | et_POSITION | et_FUNDS.
#[export] Instance EntityType_eq_dec : EqDecision EntityType.
Proof. solve_decision. Defined.

Definition entity_value (t : EntityType) : string :=
  match t with
  | et_ORDER => "ORDER" | et_EXECUTION => "EXECUTION" | et_POSITION => "POSITION" | et_FUNDS => "FUNDS"
  end.

Definition entity_of := enum_of [et_ORDER; et_EXECUTION; et_POSITION; et_FUNDS] entity_value.

Inductive DiscrepancyKind :=
| dk_MATCH | dk_INTERNAL_ONLY | dk_BROKER_ONLY | dk_STATUS_MISMATCH | dk_QUANTITY_MISMATCH
| dk_PRICE_MISMATCH | dk_FEE_MISMATCH | dk_AVERAGE_PRICE_MISMATCH | dk_SIDE_MISMATCH
| dk_ORDER_TYPE_MISMATCH | dk_ACCOUNT_MISMATCH | dk_INSTRUMENT_MISMATCH | dk_CASH_MISMATCH
| dk_MARGIN_MISMATCH | dk_ORDER_LINK_MISMATCH | dk_DUPLICATE_EXECUTION | dk_ROUNDING_DIFFERENCE
| dk_CONFLICT | dk_UNKNOWN | dk_STALE.
#[export] Instance DiscrepancyKind_eq_dec : EqDecision DiscrepancyKind.
Proof. solve_decision. Defined.

Definition kind_value (k : DiscrepancyKind) : string :=
  match k with
  | dk_MATCH => "MATCH" | dk_INTERNAL_ONLY => "INTERNAL_ONLY" | dk_BROKER_ONLY => "BROKER_ONLY"
  | dk_STATUS_MISMATCH => "STATUS_MISMATCH" | dk_QUANTITY_MISMATCH => "QUANTITY_MISMATCH"
  | dk_PRICE_MISMATCH => "PRICE_MISMATCH" | dk_FEE_MISMATCH => "FEE_MISMATCH"
  | dk_AVERAGE_PRICE_MISMATCH => "AVERAGE_PRICE_MISMATCH" | dk_SIDE_MISMATCH => "SIDE_MISMATCH"
  | dk_ORDER_TYPE_MISMATCH => "ORDER_TYPE_MISMATCH" | dk_ACCOUNT_MISMATCH => "ACCOUNT_MISMATCH"
  | dk_INSTRUMENT_MISMATCH => "INSTRUMENT_MISMATCH" | dk_CASH_MISMATCH => "CASH_MISMATCH"
  | dk_MARGIN_MISMATCH => "MARGIN_MISMATCH" | dk_ORDER_LINK_MISMATCH => "ORDER_LINK_MISMATCH"
  | dk_DUPLICATE_EXECUTION => "DUPLICATE_EXECUTION"
  | dk_ROUNDING_DIFFERENCE => "ROUNDING_DIFFERENCE" | dk_CONFLICT => "CONFLICT"
  | dk_UNKNOWN => "UNKNOWN" | dk_STALE => "STALE"
  end.

Definition kind_of := enum_of
  [dk_MATCH; dk_INTERNAL_ONLY; dk_BROKER_ONLY; dk_STATUS_MISMATCH; dk_QUANTITY_MISMATCH;
   dk_PRICE_MISMATCH; dk_FEE_MISMATCH; dk_AVERAGE_PRICE_MISMATCH; dk_SIDE_MISMATCH;
   dk_ORDER_TYPE_MISMATCH; dk_ACCOUNT_MISMATCH; dk_INSTRUMENT_MISMATCH; dk_CASH_MISMATCH;
   dk_MARGIN_MISMATCH; dk_ORDER_LINK_MISMATCH; dk_DUPLICATE_EXECUTION; dk_ROUNDING_DIFFERENCE;
   dk_CONFLICT; dk_UNKNOWN; dk_STALE] kind_value.

Record OrderObservation := {
  oo_source : string;
  oo_broker_order_id : option string;
  oo_client_order_id : option string;
  oo_account_id : option UUID;
  oo_instrument_id : option UUID;
  oo_side : option string;
  oo_quantity : option Z;
  oo_order_type : option string;
  oo_status : option string;
  oo_observed_at : option datetime;
}.

Record ExecutionObservation := {
  xo_source : string;
  xo_broker_execution_id : option string;
  xo_execution_id : option string;
  xo_order_id : option UUID;
  xo_broker_order_id : option string;
  xo_account_id : option UUID;
  xo_instrument_id : option UUID;
  xo_side : option string;
  xo_quantity : option decimal;
  xo_price : option decimal;
  xo_fees : option decimal;
  xo_status : option string;
  xo_observed_at : option datetime;
}.

Record PositionObservation := {
  bo_source : string;
  bo_account_id : option UUID;
  bo_instrument_id : option UUID;
  bo_quantity : Z;
  bo_side : string;
  bo_average_price : option decimal;
  bo_observed_at : option datetime;
}.

Record FundsObservation := {
  uo_source : string;
  uo_account_id : option UUID;
  uo_available_cash : option decimal;
  uo_available_margin : option decimal;
  uo_used_margin : option decimal;
  uo_currency : string;
  uo_observed_at : option datetime;
}.

Record ReconciliationRun := {
  rr_run_id : UUID;
  rr_account_id : UUID;
  rr_broker : string;
  rr_trading_mode : string;
  rr_scope : string;
  rr_status : RunStatus;
  rr_started_at : datetime;
  rr_completed_at : option datetime;
  rr_matched : Z;
  rr_mismatched : Z;
  rr_internal_only : Z;
  rr_broker_only : Z;
  rr_unknown : Z;
  rr_unavailable : Z;
  rr_skipped : Z;
  rr_conflicts : Z;
  rr_error : option string;
}.

(** An evidence dictionary. *)
Abbreviation evidence := (list (string * json)).

Record Discrepancy := {
  dc_id : option UUID;
  dc_discrepancy_key : string;
  dc_run_id : UUID;
  dc_account_id : UUID;
  dc_broker : string;
  dc_trading_mode : string;
  dc_entity_type : EntityType;
  dc_entity_id : string;
  dc_kind : DiscrepancyKind;
  dc_severity : Severity;
  dc_internal_state : evidence;
  dc_broker_state : evidence;
  dc_resolution_status : ResolutionStatus;
  dc_content_hash : string;
  dc_observed_at : option datetime;
}.

Record RecoveryAction := {
  rv_discrepancy_id : option UUID;
  rv_action_type : string;
  rv_target_boundary : string;
  rv_normalized_fill : option evidence;
  rv_note : string;
}.

Record RunResult := {
  rs_status : RunStatus;
  rs_run : ReconciliationRun;
  rs_discrepancies : list Discrepancy;
  rs_recovery_actions : list RecoveryAction;
}.

Record ReconciliationScope := {
  sc_account_id : UUID;
  sc_broker : string;
  sc_trading_mode : string;
  sc_domains : list string;     (* a set *)
}.

Record ReconciliationInputs := {
  ri_orders_internal : list OrderObservation;
  ri_orders_broker : list OrderObservation;
  ri_executions_internal : list ExecutionObservation;
  ri_executions_broker : list ExecutionObservation;
  ri_positions_internal : list PositionObservation;
  ri_positions_broker : list PositionObservation;
  ri_funds_internal : option FundsObservation;
  ri_funds_broker : option FundsObservation;
}.

(** * tolerance.py *)

Record Tolerance := {
  tl_price_epsilon : decimal;
  tl_fee_epsilon : decimal;
  tl_funds_epsilon : decimal;
}.

Definition default_tolerance : Tolerance :=
  {| tl_price_epsilon := Dec false 1 (-4); tl_fee_epsilon := Dec false 1 (-2);
     tl_funds_epsilon := Dec false 1 (-2) |}.

Definition within (a b : option decimal) (epsilon : decimal) : bool :=
  match a, b with
  | Some x, Some y => dle (dabs (dsub x y)) epsilon
  | None, None => true
  | _, _ => false
  end.

(** [skew] in microseconds *)
Definition timestamps_close (a b : option datetime) (skew : Z) : res bool :=
  match a, b with
  | Some x, Some y => let! d := dt_sub x y in Ok (Z.abs d <=? skew)
  | None, None => Ok true
  | _, _ => Ok false
  end.

(** * identity.py *)

Definition compute_discrepancy_key (account_id : UUID) (entity_type entity_id kind : string) : string :=
  sha256_hex (json_compact
    [("account_id"%string, JStr (uuid_str account_id));
     ("entity_type"%string, JStr entity_type);
     ("entity_id"%string, JStr entity_id);
     ("kind"%string, JStr kind)]).

Definition discrepancy_content_hash (internal_state broker_state : evidence)
    (observed_at : option datetime) : string :=
  sha256_hex (json_compact
    [("internal_state"%string, JObj internal_state);
     ("broker_state"%string, JObj broker_state);
     ("observed_at"%string, json_opt_str (isoformat <$> observed_at))]).

(** * matching.py *)

Record MatchContext := {
  mc_run_id : UUID;
  mc_account_id : UUID;
  mc_broker : string;
  mc_trading_mode : string;
}.

Record ComparisonResult := {
  cr_discrepancies : list Discrepancy;
  cr_matched : Z;
  cr_internal_only : Z;
  cr_broker_only : Z;
  cr_unknown : Z;
  cr_unavailable : Z;
  cr_skipped : Z;
}.

Definition severity (kind : DiscrepancyKind) (entity_type : EntityType) : Severity :=
  match kind with
  | dk_ROUNDING_DIFFERENCE => sev_INFO
  | dk_UNKNOWN | dk_STALE => sev_WARNING
  | dk_INTERNAL_ONLY => sev_WARNING
  | dk_BROKER_ONLY => if decide (entity_type = et_EXECUTION) then sev_CRITICAL else sev_WARNING
  | dk_DUPLICATE_EXECUTION => sev_HIGH
  | dk_CONFLICT => sev_HIGH
  | dk_CASH_MISMATCH | dk_MARGIN_MISMATCH => sev_WARNING
  | _ => sev_HIGH
  end.

Definition mk_discrepancy (ctx : MatchContext) (entity_type : EntityType) (entity_id : string)
    (kind : DiscrepancyKind) (internal_state broker_state : evidence)
    (observed_at : option datetime) : Discrepancy := {|
  dc_id := None;
  dc_discrepancy_key := compute_discrepancy_key (mc_account_id ctx) (entity_value entity_type)
                          entity_id (kind_value kind);
  dc_run_id := mc_run_id ctx;
  dc_account_id := mc_account_id ctx;
  dc_broker := mc_broker ctx;
  dc_trading_mode := mc_trading_mode ctx;
  dc_entity_type := entity_type;
  dc_entity_id := entity_id;
  dc_kind := kind;
  dc_severity := severity kind entity_type;
  dc_internal_state := internal_state;
  dc_broker_state := broker_state;
  dc_resolution_status := OPEN;
  dc_content_hash := discrepancy_content_hash internal_state broker_state observed_at;
  dc_observed_at := observed_at;
|}.

(** [a is not None and b is not None and a != b] *)
Definition differ {T} (neq : T -> T -> bool) (a b : option T) : bool :=
  match a, b with Some x, Some y => neq x y | _, _ => false end.

Definition str_neq (a b : string) : bool := negb (String.eqb a b).
Definition uuid_neq (a b : UUID) : bool := negb (a =? b)%N.

(** [kinds.append(kind)] under a condition *)
Definition kind_if (b : bool) (kind : DiscrepancyKind) : list DiscrepancyKind :=
  if b then [kind] else [].

(** [key or default] *)
Definition key_or (key : option string) (d : string) : string :=
  match key with Some k => if String.eqb k "" then d else k | None => d end.

Definition json_opt_uuid (u : option UUID) : json := json_opt_str (uuid_str <$> u).
Definition json_opt_int (z : option Z) : json := match z with Some n => JInt n | None => JNull end.

(** ** The common matching of orders and executions *)

Section Keyed.
Context {Obs : Type} (entity : EntityType) (duplicate_kind : DiscrepancyKind)
  (match_key : Obs -> option string) (compare : Obs -> Obs -> list DiscrepancyKind)
  (state : Obs -> evidence) (observed : Obs -> option datetime)
  (broker_only_id : string -> Obs -> string).
Context (ctx : MatchContext).

(** [broker_index.setdefault(key, []).append(o)] *)
Fixpoint index_add (key : string) (o : Obs) (ix : list (string * list Obs)) : list (string * list Obs) :=
  match ix with
  | [] => [(key, [o])]
  | (k, g) :: ix' => if String.eqb k key then (k, g ++ [o]) :: ix' else (k, g) :: index_add key o ix'
  end.

Definition broker_index (broker : list Obs) : list (string * list Obs) :=
  foldl (fun ix o => match match_key o with Some key => index_add key o ix | None => ix end) [] broker.

Fixpoint index_get (key : string) (ix : list (string * list Obs)) : option (list Obs) :=
  match ix with
  | [] => None
  | (k, g) :: ix' => if String.eqb k key then Some g else index_get key ix'
  end.

(** The first member of the group whose position is not in [consumed]. *)
Fixpoint first_free (consumed : list nat) (j : nat) (group : list Obs) : option (nat * Obs) :=
  match group with
  | [] => None
  | o :: g => if bool_decide (j ∈ consumed) then first_free consumed (S j) g else Some (j, o)
  end.

Record loop := {
  lp_discrepancies : list Discrepancy;
  lp_consumed : list nat;
  lp_matched : Z;
  lp_internal_only : Z;
}.

(** One internal observation; [i] is its position in the list. *)
Definition match_internal (ix : list (string * list Obs)) (lp : loop) (i : nat) (o : Obs) : loop :=
  let key := match_key o in
  let counterpart := match key with
                     | Some k => match index_get k ix with
                                 | Some g => first_free (lp_consumed lp) 0 g
                                 | None => None
                                 end
                     | None => None
                     end in
  match counterpart with
  | None =>
      {| lp_discrepancies := lp_discrepancies lp ++
           [mk_discrepancy ctx entity (key_or key (str_Z (Z.of_nat i))) dk_INTERNAL_ONLY
              (state o) [] (observed o)];
         lp_consumed := lp_consumed lp; lp_matched := lp_matched lp;
         lp_internal_only := lp_internal_only lp + 1 |}
  | Some (cidx, b) =>
      let kinds := compare o b in
      {| lp_discrepancies := lp_discrepancies lp ++
           ((fun kind => mk_discrepancy ctx entity (key_or key (str_Z (Z.of_nat i))) kind
                           (state o) (state b) (observed b)) <$> kinds);
         lp_consumed := cidx :: lp_consumed lp;
         lp_matched := lp_matched lp + (if decide (kinds = []) then 1 else 0);
         lp_internal_only := lp_internal_only lp |}
  end.

Fixpoint match_all (ix : list (string * list Obs)) (lp : loop) (i : nat) (internal : list Obs) : loop :=
  match internal with
  | [] => lp
  | o :: rest => match_all ix (match_internal ix lp i o) (S i) rest
  end.

Definition duplicates (ix : list (string * list Obs)) : list Discrepancy :=
  ix ≫= fun kg => match kg.2 with
                  | o :: _ :: _ =>
                      [mk_discrepancy ctx entity kg.1 duplicate_kind []
                         [("duplicate_count"%string, JInt (Z.of_nat (List.length kg.2)))] (observed o)]
                  | _ => []
                  end.

Definition unconsumed (consumed : list nat) (ix : list (string * list Obs)) : list Discrepancy :=
  ix ≫= fun kg =>
    imap (fun j o => (j, o)) kg.2 ≫= fun jo =>
      if bool_decide (jo.1 ∈ consumed) then []
      else [mk_discrepancy ctx entity (broker_only_id kg.1 jo.2) dk_BROKER_ONLY [] (state jo.2)
              (observed jo.2)].

Definition reconcile_keyed (internal broker : list Obs) : ComparisonResult :=
  let ix := broker_index broker in
  let lp := match_all ix {| lp_discrepancies := duplicates ix; lp_consumed := [];
                            lp_matched := 0; lp_internal_only := 0 |} 0 internal in
  let rest := unconsumed (lp_consumed lp) ix in
  {| cr_discrepancies := lp_discrepancies lp ++ rest;
     cr_matched := lp_matched lp;
     cr_internal_only := lp_internal_only lp;
     cr_broker_only := Z.of_nat (List.length rest);
     cr_unknown := 0; cr_unavailable := 0; cr_skipped := 0 |}.
End Keyed.

(** ** Orders *)

Definition order_match_key (o : OrderObservation) : option string :=
  str_or (oo_broker_order_id o) (oo_client_order_id o).

Definition compare_order_fields (i b : OrderObservation) : list DiscrepancyKind :=
  kind_if (differ str_neq (oo_status i) (oo_status b)) dk_STATUS_MISMATCH ++
  kind_if (differ (fun x y => negb (x =? y)) (oo_quantity i) (oo_quantity b)) dk_QUANTITY_MISMATCH ++
  kind_if (differ str_neq (oo_side i) (oo_side b)) dk_SIDE_MISMATCH ++
  kind_if (differ str_neq (oo_order_type i) (oo_order_type b)) dk_ORDER_TYPE_MISMATCH ++
  kind_if (differ uuid_neq (oo_instrument_id i) (oo_instrument_id b)) dk_INSTRUMENT_MISMATCH ++
  kind_if (differ uuid_neq (oo_account_id i) (oo_account_id b)) dk_ACCOUNT_MISMATCH.

Definition order_state (o : OrderObservation) : evidence :=
  [("broker_order_id"%string, json_opt_str (oo_broker_order_id o));
   ("client_order_id"%string, json_opt_str (oo_client_order_id o));
   ("status"%string, json_opt_str (oo_status o));
   ("quantity"%string, json_opt_int (oo_quantity o));
   ("side"%string, json_opt_str (oo_side o));
   ("order_type"%string, json_opt_str (oo_order_type o));
   ("instrument_id"%string, json_opt_uuid (oo_instrument_id o));
   ("account_id"%string, json_opt_uuid (oo_account_id o))].

Definition reconcile_orders (ctx : MatchContext) (internal broker : list OrderObservation)
    : ComparisonResult :=
  reconcile_keyed et_ORDER dk_CONFLICT order_match_key compare_order_fields order_state oo_observed_at
    (fun key o => key_or (Some key) (default ""%string (oo_client_order_id o))) ctx internal broker.

(** ** Executions *)

Definition execution_match_key (o : ExecutionObservation) : option string :=
  str_or (str_or (xo_broker_execution_id o) (xo_execution_id o)) (xo_broker_order_id o).

Definition compare_execution_fields (tol : Tolerance) (i b : ExecutionObservation)
    : list DiscrepancyKind :=
  kind_if (differ (fun x y => negb (deq x y)) (xo_quantity i) (xo_quantity b)) dk_QUANTITY_MISMATCH ++
  kind_if (differ (fun x y => negb (within (Some x) (Some y) (tl_price_epsilon tol)))
             (xo_price i) (xo_price b)) dk_PRICE_MISMATCH ++
  kind_if (differ (fun x y => negb (within (Some x) (Some y) (tl_fee_epsilon tol)))
             (xo_fees i) (xo_fees b)) dk_FEE_MISMATCH ++
  kind_if (differ uuid_neq (xo_order_id i) (xo_order_id b)) dk_ORDER_LINK_MISMATCH ++
  kind_if (differ str_neq (xo_side i) (xo_side b)) dk_SIDE_MISMATCH.

Definition exec_state (o : ExecutionObservation) : evidence :=
  [("broker_execution_id"%string, json_opt_str (xo_broker_execution_id o));
   ("execution_id"%string, json_opt_str (xo_execution_id o));
   ("order_id"%string, json_opt_uuid (xo_order_id o));
   ("quantity"%string, json_opt_str (dec_str <$> xo_quantity o));
   ("price"%string, json_opt_str (dec_str <$> xo_price o));
   ("fees"%string, json_opt_str (dec_str <$> xo_fees o));
   ("side"%string, json_opt_str (xo_side o));
   ("status"%string, json_opt_str (xo_status o))].

Definition reconcile_executions (ctx : MatchContext) (tol : Tolerance)
    (internal broker : list ExecutionObservation) : ComparisonResult :=
  reconcile_keyed et_EXECUTION dk_DUPLICATE_EXECUTION execution_match_key
    (compare_execution_fields tol) exec_state xo_observed_at (fun key _ => key) ctx internal broker.

(** ** Positions *)

(** An f-string of an optional UUID *)
Definition str_opt_uuid (u : option UUID) : string :=
  match u with Some x => uuid_str x | None => "None" end.

Definition position_match_key (o : PositionObservation) : string :=
  str_opt_uuid (bo_account_id o) +:+ ":" +:+ str_opt_uuid (bo_instrument_id o).

Definition compare_position_fields (tol : Tolerance) (i b : PositionObservation) : list DiscrepancyKind :=
  kind_if (negb (bo_quantity i =? bo_quantity b)) dk_QUANTITY_MISMATCH ++
  kind_if (str_neq (bo_side i) (bo_side b)) dk_SIDE_MISMATCH ++
  kind_if (differ (fun x y => negb (within (Some x) (Some y) (tl_price_epsilon tol)))
             (bo_average_price i) (bo_average_price b)) dk_AVERAGE_PRICE_MISMATCH.

Definition position_state (o : PositionObservation) : evidence :=
  [("account_id"%string, json_opt_uuid (bo_account_id o));
   ("instrument_id"%string, json_opt_uuid (bo_instrument_id o));
   ("quantity"%string, JInt (bo_quantity o));
   ("side"%string, JStr (bo_side o));
   ("average_price"%string, json_opt_str (dec_str <$> bo_average_price o))].

(** [{key(o): o for o in broker}]: a later observation replaces an earlier one
    of the same key, in the earlier one's place. *)
Fixpoint dict_set {V} (key : string) (v : V) (d : list (string * V)) : list (string * V) :=
  match d with
  | [] => [(key, v)]
  | (k, w) :: d' => if String.eqb k key then (k, v) :: d' else (k, w) :: dict_set key v d'
  end.

Fixpoint dict_get {V} (key : string) (d : list (string * V)) : option V :=
  match d with
  | [] => None
  | (k, w) :: d' => if String.eqb k key then Some w else dict_get key d'
  end.

Definition position_index (broker : list PositionObservation) : list (string * PositionObservation) :=
  foldl (fun d o => dict_set (position_match_key o) o d) [] broker.

(** The staleness test shared by positions and funds. *)
Definition is_stale (observed_at now : option datetime) (stale_seconds : option Z) : res bool :=
  match observed_at, now, stale_seconds with
  | Some t, Some n, Some s => let! d := dt_sub n t in Ok (s * 1000000 <? d)
  | _, _, _ => Ok false
  end.

Record position_loop := {
  pl_discrepancies : list Discrepancy;
  pl_consumed : list string;
  pl_matched : Z;
  pl_internal_only : Z;
  pl_unknown : Z;
}.

Section Positions.
Context (ctx : MatchContext) (tol : Tolerance) (stale_seconds : option Z) (now : option datetime).

(** The verdict on one internal position. *)
Definition position_found (key : string) (kind : DiscrepancyKind) (i b : PositionObservation)
    : Discrepancy :=
  mk_discrepancy ctx et_POSITION key kind (position_state i) (position_state b) (bo_observed_at b).

Definition match_position (ix : list (string * PositionObservation)) (pl : position_loop)
    (i : PositionObservation) : res position_loop :=
  let key := position_match_key i in
  match dict_get key ix with
  | None =>
      Ok {| pl_discrepancies := pl_discrepancies pl ++
              [mk_discrepancy ctx et_POSITION key dk_INTERNAL_ONLY (position_state i) []
                 (bo_observed_at i)];
            pl_consumed := pl_consumed pl; pl_matched := pl_matched pl;
            pl_internal_only := pl_internal_only pl + 1; pl_unknown := pl_unknown pl |}
  | Some b =>
      let! stale := is_stale (bo_observed_at b) now stale_seconds in
      if (stale : bool) then
        Ok {| pl_discrepancies := pl_discrepancies pl ++ [position_found key dk_STALE i b];
              pl_consumed := key :: pl_consumed pl; pl_matched := pl_matched pl;
              pl_internal_only := pl_internal_only pl; pl_unknown := pl_unknown pl + 1 |}
      else
        let kinds := compare_position_fields tol i b in
        Ok {| pl_discrepancies := pl_discrepancies pl ++
                ((fun kind => position_found key kind i b) <$> kinds);
              pl_consumed := key :: pl_consumed pl;
              pl_matched := pl_matched pl + (if decide (kinds = []) then 1 else 0);
              pl_internal_only := pl_internal_only pl; pl_unknown := pl_unknown pl |}
  end.

Definition broker_only_position (consumed : list string) (kb : string * PositionObservation)
    : list Discrepancy :=
  if bool_decide (kb.1 ∈ consumed) then []
  else [mk_discrepancy ctx et_POSITION kb.1 dk_BROKER_ONLY [] (position_state kb.2)
          (bo_observed_at kb.2)].

Definition reconcile_positions (internal broker : list PositionObservation) : res ComparisonResult :=
  let ix := position_index broker in
  let! pl := foldM (match_position ix)
               {| pl_discrepancies := []; pl_consumed := []; pl_matched := 0; pl_internal_only := 0;
                  pl_unknown := 0 |} internal in
  let rest := ix ≫= broker_only_position (pl_consumed pl) in
  Ok {| cr_discrepancies := pl_discrepancies pl ++ rest;
        cr_matched := pl_matched pl;
        cr_internal_only := pl_internal_only pl;
        cr_broker_only := Z.of_nat (List.length rest);
        cr_unknown := pl_unknown pl; cr_unavailable := 0; cr_skipped := 0 |}.
End Positions.

(** ** Funds *)

Definition funds_state (o : FundsObservation) : evidence :=
  [("account_id"%string, json_opt_uuid (uo_account_id o));
   ("available_cash"%string, json_opt_str (dec_str <$> uo_available_cash o));
   ("available_margin"%string, json_opt_str (dec_str <$> uo_available_margin o));
   ("used_margin"%string, json_opt_str (dec_str <$> uo_used_margin o));
   ("currency"%string, JStr (uo_currency o))].

(** A comparison result with the given discrepancies and counts. *)
Definition funds_result (ds : list Discrepancy) (matched unknown unavailable : Z) : ComparisonResult :=
  {| cr_discrepancies := ds; cr_matched := matched; cr_internal_only := 0; cr_broker_only := 0;
     cr_unknown := unknown; cr_unavailable := unavailable; cr_skipped := 0 |}.

Definition reconcile_funds (ctx : MatchContext) (internal broker : option FundsObservation)
    (tol : Tolerance) (stale_seconds : option Z) (now : option datetime) : res ComparisonResult :=
  let found := mk_discrepancy ctx et_FUNDS (uuid_str (mc_account_id ctx)) in
  match broker, internal with
  | None, _ =>
      Ok (funds_result
            [found dk_UNKNOWN (match internal with Some i => funds_state i | None => [] end) [] None] 0 0 1)
  | Some b, None => Ok (funds_result [found dk_UNKNOWN [] (funds_state b) (uo_observed_at b)] 0 1 0)
  | Some b, Some i =>
      let! stale := is_stale (uo_observed_at b) now stale_seconds in
      if (stale : bool) then
        Ok (funds_result [found dk_STALE (funds_state i) (funds_state b) (uo_observed_at b)] 0 1 0)
      else
        let kinds :=
          kind_if (negb (within (uo_available_cash i) (uo_available_cash b) (tl_funds_epsilon tol)))
            dk_CASH_MISMATCH ++
          kind_if (negb (within (uo_available_margin i) (uo_available_margin b) (tl_funds_epsilon tol)))
            dk_MARGIN_MISMATCH ++
          kind_if (negb (within (uo_used_margin i) (uo_used_margin b) (tl_funds_epsilon tol)))
            dk_MARGIN_MISMATCH in
        Ok (funds_result ((fun kind => found kind (funds_state i) (funds_state b) (uo_observed_at b))
                            <$> kinds) (if decide (kinds = []) then 1 else 0) 0 0)
  end.

(** * adapters.py *)

(** The broker read models of alpha_algo_broker_integration. *)
Record BrokerPositionSnapshot := {
  bps_broker_account_id : UUID;
  bps_instrument_id : UUID;
  bps_trading_mode : string;
  bps_quantity : decimal;
  bps_average_price : option decimal;
  bps_exchange : string;
  bps_symbol : string;
  bps_captured_at : option datetime;
}.

Record BrokerFundsSnapshot := {
  bfs_broker_account_id : UUID;
  bfs_available_margin : option decimal;
  bfs_used_margin : option decimal;
  bfs_available_cash : option decimal;
  bfs_currency : string;
  bfs_captured_at : option datetime;
}.

Definition position_side_value (s : PositionSide) : string :=
  match s with LONG => "LONG" | SHORT => "SHORT" end.

Definition position_observation_from_internal (snap : PositionSnapshot) : PositionObservation := {|
  bo_source := "internal";
  bo_account_id := pn_account_id snap;
  bo_instrument_id := Some (pn_instrument_id snap);
  bo_quantity := pn_quantity snap;
  bo_side := match pn_side snap with Some s => position_side_value s | None => "LONG" end;
  bo_average_price := pn_average_price snap;
  bo_observed_at := None;
|}.

Definition position_observation_from_broker (snap : BrokerPositionSnapshot) : PositionObservation :=
  let qty := int_of_dec (bps_quantity snap) in {|
  bo_source := "broker";
  bo_account_id := Some (bps_broker_account_id snap);
  bo_instrument_id := Some (bps_instrument_id snap);
  bo_quantity := qty;
  bo_side := if 0 <=? qty then "LONG" else "SHORT";
  bo_average_price := bps_average_price snap;
  bo_observed_at := bps_captured_at snap;
|}.

Definition funds_observation_from_broker (snap : BrokerFundsSnapshot) : FundsObservation := {|
  uo_source := "broker";
  uo_account_id := Some (bfs_broker_account_id snap);
  uo_available_cash := bfs_available_cash snap;
  uo_available_margin := bfs_available_margin snap;
  uo_used_margin := bfs_used_margin snap;
  uo_currency := bfs_currency snap;
  uo_observed_at := bfs_captured_at snap;
|}.

(** The portfolio engine's adapter for the same read model. *)
Definition funds_from_broker_snapshot (snap : BrokerFundsSnapshot) : FundsState := {|
  fu_available_cash := bfs_available_cash snap;
  fu_available_margin := bfs_available_margin snap;
  fu_used_margin := bfs_used_margin snap;
  fu_captured_at := bfs_captured_at snap;
|}.

(** Any object with these attributes; [None] is an attribute that is missing
    (or, but for the currency, one whose value is None). *)
Record FundsObject := {
  fo_account_id : option UUID;
  fo_available_cash : option decimal;
  fo_available_margin : option decimal;
  fo_used_margin : option decimal;
  fo_currency : option string;
}.

Definition funds_observation_from_internal (funds : option FundsObject) : option FundsObservation :=
  match funds with
  | None => None
  | Some f => Some {|
      uo_source := "internal";
      uo_account_id := fo_account_id f;
      uo_available_cash := fo_available_cash f;
      uo_available_margin := fo_available_margin f;
      uo_used_margin := fo_used_margin f;
      uo_currency := default "INR"%string (fo_currency f);
      uo_observed_at := None |}
  end.

(** * Tables and repository.py *)

Record ReconciliationRunRow := {
  qr_id : UUID;
  qr_account_id : UUID;
  qr_broker : string;
  qr_trading_mode : string;
  qr_scope : string;
  qr_status : string;
  qr_started_at : datetime;
  qr_completed_at : option datetime;
  qr_matched : Z;
  qr_mismatched : Z;
  qr_internal_only : Z;
  qr_broker_only : Z;
  qr_unknown : Z;
  qr_unavailable : Z;
  qr_skipped : Z;
  qr_conflicts : Z;
  qr_error : option string;
}.

Record ReconciliationDiscrepancyRow := {
  qd_discrepancy_key : string;
  qd_run_id : UUID;
  qd_account_id : UUID;
  qd_broker : string;
  qd_trading_mode : string;
  qd_entity_type : string;
  qd_entity_id : string;
  qd_kind : string;
  qd_severity : string;
  qd_internal_state : evidence;
  qd_broker_state : evidence;
  qd_resolution_status : string;
  qd_content_hash : string;
  qd_observed_at : option datetime;
}.

(** The two tables of one database. *)
Inductive ReconciliationRow :=
| RRun (r : ReconciliationRunRow)
| RDisc (r : ReconciliationDiscrepancyRow).

Definition run_pk (r : ReconciliationRow) : option UUID :=
  match r with RRun r => Some (qr_id r) | RDisc _ => None end.
Definition disc_key_of (r : ReconciliationRow) : option string :=
  match r with RDisc r => Some (qd_discrepancy_key r) | RRun _ => None end.

(** The foreign key [reconciliation_discrepancies.run_id] holds for [r]. *)
Definition run_exists (rs : list ReconciliationRow) (r : ReconciliationRow) : bool :=
  match r with
  | RDisc r => existsb (fun r' => bool_decide (run_pk r' = Some (qd_run_id r))) rs
  | RRun _ => true
  end.

(** The primary key of the runs, the unique discrepancy key, the foreign key. *)
Definition reconciliation_constraint (m : gmap N ReconciliationRow) : bool :=
  let rs := snd <$> map_to_list m in
  unique_on run_pk rs && unique_on disc_key_of rs && forallb (run_exists rs) rs.

Definition to_orm_run (run : ReconciliationRun) : ReconciliationRunRow := {|
  qr_id := rr_run_id run;
  qr_account_id := rr_account_id run;
  qr_broker := rr_broker run;
  qr_trading_mode := rr_trading_mode run;
  qr_scope := rr_scope run;
  qr_status := run_status_value (rr_status run);
  qr_started_at := rr_started_at run;
  qr_completed_at := rr_completed_at run;
  qr_matched := rr_matched run;
  qr_mismatched := rr_mismatched run;
  qr_internal_only := rr_internal_only run;
  qr_broker_only := rr_broker_only run;
  qr_unknown := rr_unknown run;
  qr_unavailable := rr_unavailable run;
  qr_skipped := rr_skipped run;
  qr_conflicts := rr_conflicts run;
  qr_error := rr_error run;
|}.

Definition from_orm_run (rec : ReconciliationRunRow) : res ReconciliationRun :=
  let! status := run_status_of (qr_status rec) in
  Ok {| rr_run_id := qr_id rec;
        rr_account_id := qr_account_id rec;
        rr_broker := qr_broker rec;
        rr_trading_mode := qr_trading_mode rec;
        rr_scope := qr_scope rec;
        rr_status := status;
        rr_started_at := qr_started_at rec;
        rr_completed_at := qr_completed_at rec;
        rr_matched := qr_matched rec;
        rr_mismatched := qr_mismatched rec;
        rr_internal_only := qr_internal_only rec;
        rr_broker_only := qr_broker_only rec;
        rr_unknown := qr_unknown rec;
        rr_unavailable := qr_unavailable rec;
        rr_skipped := qr_skipped rec;
        rr_conflicts := qr_conflicts rec;
        rr_error := qr_error rec |}.

Definition to_orm_discrepancy (d : Discrepancy) : ReconciliationDiscrepancyRow := {|
  qd_discrepancy_key := dc_discrepancy_key d;
  qd_run_id := dc_run_id d;
  qd_account_id := dc_account_id d;
  qd_broker := dc_broker d;
  qd_trading_mode := dc_trading_mode d;
  qd_entity_type := entity_value (dc_entity_type d);
  qd_entity_id := dc_entity_id d;
  qd_kind := kind_value (dc_kind d);
  qd_severity := severity_value (dc_severity d);
  qd_internal_state := dc_internal_state d;
  qd_broker_state := dc_broker_state d;
  qd_resolution_status := resolution_value (dc_resolution_status d);
  qd_content_hash := dc_content_hash d;
  qd_observed_at := dc_observed_at d;
|}.

Definition from_orm_discrepancy (id : UUID) (rec : ReconciliationDiscrepancyRow) : res Discrepancy :=
  let! entity_type := entity_of (qd_entity_type rec) in
  let! kind := kind_of (qd_kind rec) in
  let! severity := severity_of (qd_severity rec) in
  let! resolution_status := resolution_of (qd_resolution_status rec) in
  Ok {| dc_id := Some id;
        dc_discrepancy_key := qd_discrepancy_key rec;
        dc_run_id := qd_run_id rec;
        dc_account_id := qd_account_id rec;
        dc_broker := qd_broker rec;
        dc_trading_mode := qd_trading_mode rec;
        dc_entity_type := entity_type;
        dc_entity_id := qd_entity_id rec;
        dc_kind := kind;
        dc_severity := severity;
        dc_internal_state := qd_internal_state rec;
        dc_broker_state := qd_broker_state rec;
        dc_resolution_status := resolution_status;
        dc_content_hash := qd_content_hash rec;
        dc_observed_at := qd_observed_at rec |}.

(** A row of the table a statement selects from. *)
Definition as_run (kr : N * ReconciliationRow) : res ReconciliationRun :=
  match kr.2 with
  | RRun rec => from_orm_run rec
  | RDisc _ => raise TypeError "not a reconciliation run"
  end.

Definition as_discrepancy (kr : N * ReconciliationRow) : res Discrepancy :=
  match kr.2 with
  | RDisc rec => from_orm_discrepancy kr.1 rec
  | RRun _ => raise TypeError "not a discrepancy"
  end.

Definition is_run (run_id : UUID) (r : ReconciliationRow) : bool :=
  bool_decide (run_pk r = Some run_id).
Definition is_discrepancy (key : string) (r : ReconciliationRow) : bool :=
  bool_decide (disc_key_of r = Some key).

Section ReconciliationRepository.
Context {DB : Type} `{ListSession DB ReconciliationRow reconciliation_constraint}.
(** The server default of [created_at], in microseconds. *)
Context (created_at : ReconciliationRow -> Z).

Definition save_run (run : ReconciliationRun) : M DB ReconciliationRun :=
  let failed := mk_exn ReconciliationPersistenceError "reconciliation run write failed" in
  add_and_refresh (is_run (rr_run_id run)) (RRun (to_orm_run run)) as_run failed failed.

Definition rec_load_run (run_id : UUID) : M DB (option ReconciliationRun) :=
  let* rec := scalar_one_or_none (is_run run_id) in
  match rec with
  | Some kr => let* r := lift (as_run kr) in ret (Some r)
  | None => ret None
  end.

Definition save_discrepancy (d : Discrepancy) : M DB Discrepancy :=
  add_and_refresh (is_discrepancy (dc_discrepancy_key d)) (RDisc (to_orm_discrepancy d)) as_discrepancy
    (mk_exn DuplicateDiscrepancyError ("duplicate discrepancy " +:+ dc_discrepancy_key d))
    (mk_exn ReconciliationPersistenceError "discrepancy write failed").

Definition load_discrepancy (key : string) : M DB (option Discrepancy) :=
  let* rec := scalar_one_or_none (is_discrepancy key) in
  match rec with
  | Some kr => let* d := lift (as_discrepancy kr) in ret (Some d)
  | None => ret None
  end.

Definition repo_list_discrepancies (run_id account_id : option UUID) : M DB (list Discrepancy) :=
  let* recs := scalars_all
    (fun r => match r with
              | RDisc rec =>
                  match run_id with Some u => bool_decide (qd_run_id rec = u) | None => true end &&
                  match account_id with Some u => bool_decide (qd_account_id rec = u) | None => true end
              | RRun _ => false
              end) created_at in
  lift (mapM_res as_discrepancy recs).
End ReconciliationRepository.

(** * engine.py and metrics.py *)

Record ReconciliationEngineConfig := {
  rg_global_halt_active : nat -> bool;
  rg_tolerance : Tolerance;
  rg_now : nat -> datetime;
  rg_uuid4 : nat -> UUID;
}.

Definition conflict_discrepancy (original : Discrepancy) (existing : option Discrepancy) : Discrepancy := {|
  dc_id := None;
  dc_discrepancy_key := compute_discrepancy_key (dc_account_id original)
    (entity_value (dc_entity_type original)) (dc_entity_id original) (kind_value dk_CONFLICT);
  dc_run_id := dc_run_id original;
  dc_account_id := dc_account_id original;
  dc_broker := dc_broker original;
  dc_trading_mode := dc_trading_mode original;
  dc_entity_type := dc_entity_type original;
  dc_entity_id := dc_entity_id original;
  dc_kind := dk_CONFLICT;
  dc_severity := sev_HIGH;
  dc_internal_state :=
    [("original_discrepancy_key"%string, JStr (dc_discrepancy_key original));
     ("original_content_hash"%string, json_opt_str (dc_content_hash <$> existing))];
  dc_broker_state := [("new_content_hash"%string, JStr (dc_content_hash original))];
  dc_resolution_status := OPEN;
  dc_content_hash := dc_content_hash original;
  dc_observed_at := dc_observed_at original;
|}.

(** [d.get(key)] *)
Definition state_get (key : string) (st : evidence) : json := default JNull (dict_get key st).

Definition recovery_action (d : Discrepancy) : list RecoveryAction :=
  if decide (dc_entity_type d = et_EXECUTION /\ dc_kind d = dk_BROKER_ONLY) then
    [{| rv_discrepancy_id := dc_id d;
        rv_action_type := "ROUTE_BROKER_FILL";
        rv_target_boundary := "execution_engine";
        rv_normalized_fill := Some
          [("broker_execution_id"%string, state_get "broker_execution_id" (dc_broker_state d));
           ("quantity"%string, state_get "quantity" (dc_broker_state d));
           ("price"%string, state_get "price" (dc_broker_state d));
           ("side"%string, state_get "side" (dc_broker_state d));
           ("order_id"%string, state_get "order_id" (dc_broker_state d))];
        rv_note := "route via trusted execution boundary; do not mutate positions/pnl/portfolio directly" |}]
  else if bool_decide (dc_kind d ∈ [dk_STALE; dk_UNKNOWN; dk_ROUNDING_DIFFERENCE]) then []
  else
    [{| rv_discrepancy_id := dc_id d;
        rv_action_type := "ESCALATE";
        rv_target_boundary := "none";
        rv_normalized_fill := None;
        rv_note := "manual review required; no automatic correction" |}].

Definition recovery_actions (persisted : list Discrepancy) : list RecoveryAction :=
  persisted ≫= recovery_action.

(** The result of a domain that is out of scope. *)
Definition no_comparison : ComparisonResult := funds_result [] 0 0 0.

(** The comparisons of the domains in scope, in the order the code runs them. *)
Definition compare_domains (ctx : MatchContext) (domains : list string) (inputs : ReconciliationInputs)
    (tol : Tolerance) (stale_seconds : option Z) (now : datetime) : res (list ComparisonResult) :=
  let selected (name : string) (r : res ComparisonResult) :=
    if bool_decide (name ∈ domains) then r else Ok no_comparison in
  let! o := selected "ORDERS"%string
              (Ok (reconcile_orders ctx (ri_orders_internal inputs) (ri_orders_broker inputs))) in
  let! x := selected "EXECUTIONS"%string
              (Ok (reconcile_executions ctx tol (ri_executions_internal inputs)
                     (ri_executions_broker inputs))) in
  let! p := selected "POSITIONS"%string
              (reconcile_positions ctx tol stale_seconds (Some now) (ri_positions_internal inputs)
                 (ri_positions_broker inputs)) in
  let! f := selected "FUNDS"%string
              (reconcile_funds ctx (ri_funds_internal inputs) (ri_funds_broker inputs) tol stale_seconds
                 (Some now)) in
  Ok [o; x; p; f].

(** [counts[name] += r.name] over the domains *)
Definition count (f : ComparisonResult -> Z) (rs : list ComparisonResult) : Z :=
  foldr (fun r n => f r + n) 0 rs.

Definition mismatched (ds : list Discrepancy) : Z :=
  Z.of_nat (List.length (List.filter
    (fun d => negb (bool_decide (dc_kind d ∈ [dk_STALE; dk_UNKNOWN]))) ds)).

(** [",".join(sorted(domains))] *)
Definition scope_text (domains : list string) : string :=
  String.concat "," (fst <$> sort_keys ((fun d => (d, tt)) <$> domains)).

Section ReconciliationEngine.
Context {DB : Type} `{ListSession DB ReconciliationRow reconciliation_constraint}.
Context (created_at : ReconciliationRow -> Z) (rg : ReconciliationEngineConfig).
Abbreviation RW := (Service DB).

(** A UUID is never falsy, so the account test of the guard always passes. *)
Definition rec_guard (scope : ReconciliationScope) : M RW unit :=
  lift (guard_mode ReconciliationModeError "LIVE reconciliation is disabled (fail-closed)"
          (sc_trading_mode scope)) ;*
  let* halted := scall (rg_global_halt_active rg) in
  if (halted : bool) then throw ReconciliationValidationError
    "global trading halt is active; reconciliation refused"
  else ret tt.

Definition record_run (status : RunStatus) : M RW unit :=
  metric "runs" ;*
  match status with
  | run_COMPLETED => metric "completed_runs"
  | run_PARTIAL => metric "partial_runs"
  | run_FAILED => metric "failed_runs"
  | _ => ret tt
  end.

(** One iteration of [_persist_discrepancies]: what it appends, and whether it
    counts a conflict. *)
Definition persist_discrepancy (d : Discrepancy) : M RW (list Discrepancy * Z) :=
  try_except
    (let* saved := repo_call (save_discrepancy d) in ret ([saved], 0))
    (fun exc =>
       if isinstance exc DuplicateDiscrepancyError then Some (
         let* existing := repo_call (load_discrepancy (dc_discrepancy_key d)) in
         if match existing with
            | Some e => String.eqb (dc_content_hash e) (dc_content_hash d)
            | None => false
            end
         then ret ([], 0)
         else
           metric "conflicts" ;*
           try_except
             (let* saved := repo_call (save_discrepancy (conflict_discrepancy d existing)) in
              ret ([saved], 1))
             (fun exc2 => if isinstance exc2 DuplicateDiscrepancyError then Some (ret ([], 1)) else None))
       else None).

Fixpoint persist_discrepancies (ds : list Discrepancy) : M RW (list Discrepancy * Z) :=
  match ds with
  | [] => ret ([], 0)
  | d :: ds' =>
      let* p := persist_discrepancy d in
      let* q := persist_discrepancies ds' in
      ret (p.1 ++ q.1, p.2 + q.2)
  end.

Definition rec_run (scope : ReconciliationScope) (inputs : ReconciliationInputs)
    (tolerance : option Tolerance) (stale_seconds : option Z) (now : option datetime) : M RW RunResult :=
  let* missing := no_repository in
  if (missing : bool) then throw ReconciliationPersistenceError "no reconciliation repository configured" else
  rec_guard scope ;*
  let* now := match now with Some t => ret t | None => scall (rg_now rg) end in
  let tol := default (rg_tolerance rg) tolerance in
  let* run_id := scall (rg_uuid4 rg) in
  let ctx := {| mc_run_id := run_id; mc_account_id := sc_account_id scope; mc_broker := sc_broker scope;
                mc_trading_mode := py_upper (sc_trading_mode scope) |} in
  let* rs := lift (compare_domains ctx (sc_domains scope) inputs tol stale_seconds now) in
  let discrepancies := rs ≫= cr_discrepancies in
  let* pc := persist_discrepancies discrepancies in
  let '(persisted, conflicts) := pc in
  let unknown := count cr_unknown rs in
  let unavailable := count cr_unavailable rs in
  let status := if (0 <? unavailable) || (0 <? unknown) then run_PARTIAL else run_COMPLETED in
  let run := {|
    rr_run_id := run_id;
    rr_account_id := sc_account_id scope;
    rr_broker := sc_broker scope;
    rr_trading_mode := py_upper (sc_trading_mode scope);
    rr_scope := scope_text (sc_domains scope);
    rr_status := status;
    rr_started_at := now;
    rr_completed_at := Some now;
    rr_matched := count cr_matched rs;
    rr_mismatched := mismatched discrepancies;
    rr_internal_only := count cr_internal_only rs;
    rr_broker_only := count cr_broker_only rs;
    rr_unknown := unknown;
    rr_unavailable := unavailable;
    rr_skipped := conflicts;
    rr_conflicts := conflicts;
    rr_error := None |} in
  let* saved_run := repo_call (save_run run) in
  record_run status ;*
  ret {| rs_status := status; rs_run := saved_run; rs_discrepancies := persisted;
         rs_recovery_actions := recovery_actions persisted |}.

Definition load_run (run_id : UUID) : M RW (option ReconciliationRun) :=
  let* missing := no_repository in
  if (missing : bool) then ret None else repo_call (rec_load_run run_id).

Definition list_discrepancies (account_id : option UUID) : M RW (list Discrepancy) :=
  let* missing := no_repository in
  if (missing : bool) then ret [] else repo_call (repo_list_discrepancies created_at None account_id).
End ReconciliationEngine.

(** * Matching by key *)

Section KeyedFacts.
Context {Obs : Type} (entity : EntityType) (duplicate_kind : DiscrepancyKind)
  (match_key : Obs -> option string) (compare : Obs -> Obs -> list DiscrepancyKind)
  (state : Obs -> evidence) (observed : Obs -> option datetime)
  (broker_only_id : string -> Obs -> string) (ctx : MatchContext).

(** Every key of the index has one observation. *)
Definition singletons (ix : list (string * list Obs)) : Prop :=
  Forall (fun kg => exists o, kg.2 = [o]) ix.

Lemma index_add_fresh key (o : Obs) ix : key ∉ ix.*1 -> index_add key o ix = ix ++ [(key, [o])].
Proof.
  induction ix as [|[k g] ix IH]; [done|]. cbn [fmap list_fmap fst]. rewrite not_elem_of_cons.
  intros [Hne Hni]. simpl. destruct (String.eqb_spec k key); [congruence|]. by rewrite IH.
Qed.

Lemma broker_index_distinct broker : NoDup (omap match_key broker) ->
  singletons (broker_index match_key broker) /\
  (broker_index match_key broker).*1 = omap match_key broker.
Proof.
  unfold broker_index. induction broker as [|o broker IH] using rev_ind; [intros _; split; [constructor|done]|].
  rewrite omap_app, foldl_app. simpl. destruct (match_key o) as [k|] eqn:Ek; simpl.
  - rewrite NoDup_app. intros (Hd & Hk & _). destruct (IH Hd) as [H1 H2].
    rewrite index_add_fresh, fmap_app, H2.
    + split; [|done]. apply Forall_app. split; [done|]. constructor; [by exists o|constructor].
    + rewrite H2. intros Hin. apply (Hk _ Hin). by left.
  - rewrite !app_nil_r. apply IH.
Qed.

Lemma index_get_in key (ix : list (string * list Obs)) : key ∈ ix.*1 -> is_Some (index_get key ix).
Proof.
  induction ix as [|[k g] ix IH]; cbn [fmap list_fmap fst]; [by intros ?%not_elem_of_nil|].
  rewrite elem_of_cons. simpl. destruct (String.eqb_spec k key) as [->|]; [by eexists|].
  intros [?|?]; [congruence|auto].
Qed.

Lemma index_get_single key ix g : singletons ix -> index_get key ix = Some g -> exists o : Obs, g = [o].
Proof.
  induction ix as [|[k g'] ix IH]; [done|]. intros Hs%Forall_cons. destruct Hs as [Ho Hs]. simpl.
  destruct (String.eqb k key); [intros [= <-]; exact Ho|by apply IH].
Qed.

(** The counterpart the loop would take with nothing consumed. *)
Definition has_counterpart (ix : list (string * list Obs)) (o : Obs) : Prop :=
  exists k, match_key o = Some k /\ k ∈ ix.*1.

Lemma match_after_first ix i : forall l lp, singletons ix -> (0%nat ∈ lp_consumed lp) ->
  let lp' := match_all entity match_key compare state observed ctx ix lp i l in
  0%nat ∈ lp_consumed lp' /\ lp_matched lp' = lp_matched lp /\
  lp_internal_only lp' = lp_internal_only lp + Z.of_nat (List.length l).
Proof.
  intros l. revert i. induction l as [|o l IH]; intros i lp Hs H0; simpl; [split_and!; [done..|lia]|].
  assert (match_internal entity match_key compare state observed ctx ix lp i o =
          {| lp_discrepancies := lp_discrepancies lp ++
               [mk_discrepancy ctx entity (key_or (match_key o) (str_Z (Z.of_nat i))) dk_INTERNAL_ONLY
                  (state o) [] (observed o)];
             lp_consumed := lp_consumed lp; lp_matched := lp_matched lp;
             lp_internal_only := lp_internal_only lp + 1 |}) as ->.
  { unfold match_internal. destruct (match_key o) as [k|]; [|done].
    destruct (index_get k ix) as [g|] eqn:E; [|done].
    destruct (index_get_single _ _ _ Hs E) as [b ->]. simpl. by rewrite bool_decide_eq_true_2. }
  match goal with |- context [match_all _ _ _ _ _ _ _ ?lp1 _ _] =>
    destruct (IH (S i) lp1 Hs H0) as (H1 & H2 & H3) end.
  simpl in *. split_and!; [done..|]. rewrite H3. lia.
Qed.

Lemma match_some_counterpart ix : forall l i lp, singletons ix -> lp_consumed lp = [] ->
  (exists o, o ∈ l /\ has_counterpart ix o) ->
  let lp' := match_all entity match_key compare state observed ctx ix lp i l in
  0%nat ∈ lp_consumed lp' /\ lp_matched lp' <= lp_matched lp + 1 /\
  lp_internal_only lp' = lp_internal_only lp + Z.of_nat (List.length l) - 1.
Proof.
  intros l. induction l as [|o l IH]; intros i lp Hs H0 (x & Hx & Hc); [by apply not_elem_of_nil in Hx|].
  cbn [match_all List.length]. unfold match_internal. rewrite H0.
  destruct (match_key o) as [k|] eqn:Ek; [destruct (index_get k ix) as [g|] eqn:Eg|].
  - destruct (index_get_single _ _ _ Hs Eg) as [b ->]. simpl.
    match goal with |- context [match_all _ _ _ _ _ _ _ ?lp1 _ _] =>
      destruct (match_after_first ix (S i) l lp1 Hs) as (H1 & H2 & H3); [by left|] end.
    simpl in *. split; [exact H1|]. rewrite H2, H3. destruct (decide _); lia.
  - assert (exists y, y ∈ l /\ has_counterpart ix y) as Hl.
    { apply elem_of_cons in Hx as [->|Hx]; [|by exists x]. destruct Hc as (k' & Hk & Hin).
      rewrite Ek in Hk. injection Hk as <-. destruct (index_get_in _ _ Hin) as [? H]. congruence. }
    match goal with |- context [match_all _ _ _ _ _ _ _ ?lp1 _ _] =>
      destruct (IH (S i) lp1 Hs eq_refl Hl) as (H1 & H2 & H3) end.
    simpl in *. split; [exact H1|]. lia.
  - assert (exists y, y ∈ l /\ has_counterpart ix y) as Hl.
    { apply elem_of_cons in Hx as [->|Hx]; [|by exists x]. destruct Hc as (k' & Hk & _). congruence. }
    match goal with |- context [match_all _ _ _ _ _ _ _ ?lp1 _ _] =>
      destruct (IH (S i) lp1 Hs eq_refl Hl) as (H1 & H2 & H3) end.
    simpl in *. split; [exact H1|]. lia.
Qed.

Lemma unconsumed_none ix consumed : singletons ix -> 0%nat ∈ consumed ->
  unconsumed entity state observed broker_only_id ctx consumed ix = [].
Proof.
  intros Hs H0. unfold unconsumed. induction Hs as [|[k g] ix [o Ho] Hs IH]; [done|].
  rewrite bind_cons, IH, app_nil_r. simpl in *. subst g. simpl. by rewrite bool_decide_eq_true_2.
Qed.

(** One common key hides every other observation of both sides. *)
Lemma keyed_counts internal broker : NoDup (omap match_key broker) ->
  (exists o k, o ∈ internal /\ match_key o = Some k /\ k ∈ omap match_key broker) ->
  let r := reconcile_keyed entity duplicate_kind match_key compare state observed broker_only_id ctx
             internal broker in
  cr_broker_only r = 0 /\ cr_matched r <= 1 /\
  cr_internal_only r = Z.of_nat (List.length internal) - 1.
Proof.
  intros Hd (o & k & Ho & Hk & Hin). destruct (broker_index_distinct _ Hd) as [Hs Hix].
  unfold reconcile_keyed. cbn zeta. cbn [cr_broker_only cr_matched cr_internal_only].
  match goal with |- context [match_all _ _ _ _ _ _ _ ?lp1 _ _] =>
    destruct (match_some_counterpart _ internal 0 lp1 Hs eq_refl) as (H1 & H2 & H3) end.
  - exists o. split; [exact Ho|]. exists k. by rewrite Hix.
  - rewrite unconsumed_none; [|exact Hs|exact H1]. simpl in *. split; [done|]. lia.
Qed.
End KeyedFacts.

(** One fill that both sides know hides every other fill: where the
    broker's fills have distinct identities and at least one of them is in the
    books, no broker fill is reported as missing from the books, at most one
    fill is counted as matched, and all the internal fills but one are
    reported as unknown to the broker, whatever the broker reported. *)
Theorem executions_hide_broker_fills ctx tol internal broker :
  NoDup (omap execution_match_key broker) ->
  (exists o k, o ∈ internal /\ execution_match_key o = Some k /\ k ∈ omap execution_match_key broker) ->
  cr_broker_only (reconcile_executions ctx tol internal broker) = 0 /\
  cr_matched (reconcile_executions ctx tol internal broker) <= 1 /\
  cr_internal_only (reconcile_executions ctx tol internal broker) = Z.of_nat (List.length internal) - 1.
Proof. intros Hd Hc. unfold reconcile_executions. by apply keyed_counts. Qed.

Theorem orders_hide_broker_orders ctx internal broker :
  NoDup (omap order_match_key broker) ->
  (exists o k, o ∈ internal /\ order_match_key o = Some k /\ k ∈ omap order_match_key broker) ->
  cr_broker_only (reconcile_orders ctx internal broker) = 0 /\
  cr_matched (reconcile_orders ctx internal broker) <= 1 /\
  cr_internal_only (reconcile_orders ctx internal broker) = Z.of_nat (List.length internal) - 1.
Proof. intros Hd Hc. unfold reconcile_orders. by apply keyed_counts. Qed.

(** * Positions: a clean report *)

Lemma fmap_nil {A B} (f : A -> B) l : f <$> l = [] <-> l = [].
Proof. by destruct l. Qed.

Lemma dict_get_set {V} key key' (v : V) d :
  dict_get key' (dict_set key v d) = if decide (key' = key) then Some v else dict_get key' d.
Proof.
  induction d as [|[k w] d IH]; simpl.
  - destruct (String.eqb_spec key key'), (decide (key' = key)); congruence.
  - destruct (String.eqb_spec k key) as [->|Hk]; simpl.
    + destruct (String.eqb_spec key key'), (decide (key' = key)); congruence.
    + rewrite IH. destruct (String.eqb_spec k key') as [->|]; [|done].
      by destruct (decide (key' = key)).
Qed.

Lemma dict_set_keys {V} key (v : V) d k : k ∈ (dict_set key v d).*1 <-> k = key \/ k ∈ d.*1.
Proof.
  induction d as [|[k' w] d IH]; simpl; [set_solver|].
  destruct (String.eqb_spec k' key) as [->|]; cbn [fmap list_fmap fst]; set_solver.
Qed.

(** The broker observation a key stands for: the last one reported. *)
Definition last_of (key : string) (broker : list PositionObservation) : option PositionObservation :=
  last (filter (fun b => position_match_key b = key) broker).

Lemma position_index_get key broker : dict_get key (position_index broker) = last_of key broker.
Proof.
  unfold position_index, last_of. induction broker as [|b broker IH] using rev_ind; [done|].
  rewrite foldl_app, filter_app. simpl. rewrite dict_get_set, IH. rewrite filter_cons, filter_nil.
  destruct (decide (key = position_match_key b)) as [->|Hne].
  - rewrite decide_True by done. by rewrite last_snoc.
  - rewrite decide_False by congruence. by rewrite app_nil_r.
Qed.

Lemma position_index_keys key broker :
  key ∈ (position_index broker).*1 <-> exists b, b ∈ broker /\ position_match_key b = key.
Proof.
  unfold position_index. induction broker as [|b broker IH] using rev_ind; simpl.
  - split; [by intros ?%not_elem_of_nil|]. intros (b & Hb & _). by apply not_elem_of_nil in Hb.
  - rewrite foldl_app. simpl. rewrite dict_set_keys, IH. split.
    + intros [->|(x & Hx & Hk)]; [exists b|exists x]; rewrite elem_of_app; split; auto. right. by left.
    + intros (x & Hx & Hk). apply elem_of_app in Hx as [Hx| ->%list_elem_of_singleton]; [right; eauto|by left].
Qed.

Section PositionFacts.
Context (ctx : MatchContext) (tol : Tolerance) (stale_seconds : option Z) (now : option datetime)
  (broker : list PositionObservation).

(** The broker's last report for the position is fresh and agrees with it. *)
Definition confirmed (i : PositionObservation) : Prop :=
  exists b, last_of (position_match_key i) broker = Some b /\
    is_stale (bo_observed_at b) now stale_seconds = Ok false /\
    bo_quantity i = bo_quantity b /\ bo_side i = bo_side b /\
    (forall x y, bo_average_price i = Some x -> bo_average_price b = Some y ->
       within (Some x) (Some y) (tl_price_epsilon tol) = true).

Lemma compare_position_nil i b : compare_position_fields tol i b = [] <->
  bo_quantity i = bo_quantity b /\ bo_side i = bo_side b /\
  (forall x y, bo_average_price i = Some x -> bo_average_price b = Some y ->
     within (Some x) (Some y) (tl_price_epsilon tol) = true).
Proof.
  unfold compare_position_fields, str_neq, differ.
  destruct (Z.eqb_spec (bo_quantity i) (bo_quantity b)), (String.eqb_spec (bo_side i) (bo_side b)); simpl;
    [|naive_solver..].
  destruct (bo_average_price i) as [x|], (bo_average_price b) as [y|]; simpl; [|naive_solver..].
  destruct (dle _ _) eqn:E; simpl; (split; [try done|]); [intros _|done|intros (_ & _ & H)].
  - split_and!; [done..|]. by intros ? ? [= <-] [= <-].
  - specialize (H x y eq_refl eq_refl). congruence.
Qed.

(** What the loop over the internal positions has established after [l]. *)
Definition position_inv (l : list PositionObservation) (pl : position_loop) : Prop :=
  (pl_discrepancies pl = [] <-> Forall confirmed l) /\
  (forall key, key ∈ pl_consumed pl <-> key ∈ position_match_key <$> l /\ is_Some (last_of key broker)) /\
  (pl_discrepancies pl = [] -> pl_matched pl = Z.of_nat (List.length l) /\ pl_internal_only pl = 0).

Lemma match_position_inv l pl i pl' : position_inv l pl ->
  match_position ctx tol stale_seconds now (position_index broker) pl i = Ok pl' ->
  position_inv (l ++ [i]) pl'.
Proof.
  intros (Hd & Hc & Hm) E. unfold match_position in E. rewrite position_index_get in E.
  unfold position_inv. rewrite Forall_app, Forall_singleton, fmap_app, length_app. simpl.
  assert (forall key, key ∈ (position_match_key <$> l) ++ [position_match_key i] /\ is_Some (last_of key broker)
    <-> (key ∈ position_match_key <$> l /\ is_Some (last_of key broker)) \/
        (key = position_match_key i /\ is_Some (last_of key broker))) as Hk.
  { intros key. rewrite elem_of_app, list_elem_of_singleton. tauto. }
  destruct (last_of (position_match_key i) broker) as [b|] eqn:El.
  2: { injection E as <-. simpl. split_and!; [| |by intros [_ ?]%app_nil].
       - rewrite app_nil. split; [by intros []|]. intros [_ (b & Hb & _)]. congruence.
       - intros key. rewrite Hk, <- Hc. split; [by left|]. intros [?|[-> H]]; [done|].
         rewrite El in H. by destruct H. }
  destruct (is_stale _ _ _) as [st|] eqn:Es; [|done]. cbn [rbind] in E.
  assert (forall key, key ∈ position_match_key i :: pl_consumed pl <->
    key ∈ (position_match_key <$> l) ++ [position_match_key i] /\ is_Some (last_of key broker)) as Hcons.
  { intros key. rewrite Hk, elem_of_cons, Hc. split; [|tauto].
    intros [->|]; [right; split; [done|by rewrite El]|by left]. }
  assert (forall kinds, (compare_position_fields tol i b = [] /\ st = false <-> kinds = @nil DiscrepancyKind) ->
    kinds = [] <-> confirmed i) as Hconf.
  { intros kinds <-. rewrite compare_position_nil. unfold confirmed. split.
    - intros [(? & ? & ?) ->]. exists b. split_and!; auto.
    - intros (b' & Hb & Hs & ? & ? & ?). rewrite El in Hb. injection Hb as <-.
      split; [done|congruence]. }
  destruct st; injection E as <-; simpl; split_and!; try exact Hcons.
  - rewrite app_nil, Hd. split; [by intros []|]. intros [_ Hi].
    apply (Hconf [dk_STALE]) in Hi; [done|]. split; [by intros []|done].
  - by intros [_ ?]%app_nil.
  - rewrite app_nil, Hd, fmap_nil. rewrite (Hconf (compare_position_fields tol i b)); [done|]. tauto.
  - intros [H1 H2%fmap_nil]%app_nil. rewrite decide_True by done. destruct (Hm H1). lia.
Qed.

Lemma match_positions_inv l : forall l0 pl pl', position_inv l0 pl ->
  foldM (match_position ctx tol stale_seconds now (position_index broker)) pl l = Ok pl' ->
  position_inv (l0 ++ l) pl'.
Proof.
  induction l as [|i l IH]; intros l0 pl pl' Hi E; simpl in E.
  - injection E as <-. by rewrite app_nil_r.
  - destruct (match_position _ _ _ _ _ _ _) as [pl1|] eqn:E1; [|done].
    rewrite cons_middle, app_assoc. eapply IH; [|exact E]. by eapply match_position_inv.
Qed.

Lemma broker_only_nil consumed d :
  d ≫= broker_only_position ctx consumed = [] <-> forall k, k ∈ d.*1 -> k ∈ consumed.
Proof.
  induction d as [|[k b] d IH]; simpl; [split; [by intros _ k ?%not_elem_of_nil|done]|].
  rewrite app_nil, IH. unfold broker_only_position. simpl. case_bool_decide; set_solver.
Qed.
End PositionFacts.

(** C13: A position reconciliation that answers reports nothing exactly when
    the books and the broker agree: every internal position has a fresh broker
    report (the last one for its account and instrument; a report that does not
    say when it was observed counts as fresh) with the same
    quantity and side and, where both report one, an average price within the
    tolerance; and every position the broker reports occurs internally.  A
    clean report counts every internal position as matched. *)
Theorem positions_clean_iff_agree ctx tol stale_seconds now internal broker r :
  reconcile_positions ctx tol stale_seconds now internal broker = Ok r ->
  (cr_discrepancies r = [] <->
     Forall (confirmed tol stale_seconds now broker) internal /\
     forall b, b ∈ broker -> exists i, i ∈ internal /\ position_match_key i = position_match_key b) /\
  (cr_discrepancies r = [] -> cr_matched r = Z.of_nat (List.length internal) /\
     cr_internal_only r = 0 /\ cr_broker_only r = 0).
Proof.
  intros E. unfold reconcile_positions in E.
  destruct (foldM _ _ _) as [pl|] eqn:Ef; [|done]. injection E as <-. simpl.
  apply (match_positions_inv ctx tol stale_seconds now broker internal []) in Ef as (Hd & Hc & Hm).
  2: { split_and!; [by split; [constructor|]| |done]. intros k. simpl.
       split; [by intros ?%not_elem_of_nil|]. by intros [?%not_elem_of_nil _]. }
  rewrite app_nil, Hd, broker_only_nil. simpl in *. split.
  - split; (intros [H1 H2]; split; [done|]).
    + intros b Hb. destruct (Hc (position_match_key b)) as [Hk _]. destruct Hk as [Hk _].
      { apply H2, position_index_keys. eauto. }
      apply list_elem_of_fmap in Hk as (i & -> & Hi). eauto.
    + intros k (b & Hb & <-)%position_index_keys. destruct (H2 b Hb) as (i & Hi & Hk).
      apply Hc. split; [rewrite <- Hk; by apply list_elem_of_fmap_2|].
      rewrite Forall_forall in H1. destruct (H1 i Hi) as (b' & Hl & _). rewrite <- Hk, Hl. by eexists.
  - intros [H1 H2]. apply Hd in H1. destruct (Hm H1) as [-> ->].
    split_and!; [done..|]. apply (broker_only_nil ctx) in H2. by rewrite H2.
Qed.

(** * Evidence *)

(** No run of the table has this id. *)
Definition run_absent (u : UUID) (m : gmap N ReconciliationRow) : Prop :=
  forall k r, m !! k = Some r -> run_pk r <> Some u.

Lemma foreign_key_holds m k d : reconciliation_constraint m = true -> m !! k = Some (RDisc d) ->
  exists k' r', m !! k' = Some r' /\ run_pk r' = Some (qd_run_id d).
Proof.
  unfold reconciliation_constraint. intros Hc Hk. apply andb_true_iff in Hc as [_ Hc].
  rewrite forallb_forall in Hc. specialize (Hc (RDisc d)). simpl in Hc. rewrite existsb_exists in Hc.
  destruct Hc as (r' & Hin & Hr).
  - apply list_elem_of_In. change (RDisc d) with ((k, RDisc d).2). apply list_elem_of_fmap_2.
    by apply elem_of_map_to_list.
  - apply bool_decide_eq_true in Hr. apply list_elem_of_In, list_elem_of_fmap in Hin as ([k' r] & -> & Hin).
    apply elem_of_map_to_list in Hin. eauto.
Qed.

Lemma entity_roundtrip t : entity_of (entity_value t) = Ok t.
Proof. by destruct t. Qed.
Lemma kind_roundtrip t : kind_of (kind_value t) = Ok t.
Proof. by destruct t. Qed.
Lemma severity_roundtrip t : severity_of (severity_value t) = Ok t.
Proof. by destruct t. Qed.
Lemma resolution_roundtrip t : resolution_of (resolution_value t) = Ok t.
Proof. by destruct t. Qed.
Lemma run_status_roundtrip t : run_status_of (run_status_value t) = Ok t.
Proof. by destruct t. Qed.

Section Evidence.
Context {DB : Type} `{ListSession DB ReconciliationRow reconciliation_constraint}.
Abbreviation RW := (Service DB).


Lemma as_discrepancy_total k d : exists t, as_discrepancy (k, RDisc (to_orm_discrepancy d)) = Ok t.
Proof.
  unfold as_discrepancy, from_orm_discrepancy. simpl.
  rewrite entity_roundtrip, kind_roundtrip, severity_roundtrip, resolution_roundtrip. simpl. eauto.
Qed.

(** The foreign key refuses a discrepancy whose run is not stored yet. *)
Lemma save_discrepancy_refused d db r db' : run_absent (dc_run_id d) (rows db) ->
  save_discrepancy d db = (r, db') -> rows db' = rows db /\ exists e, r = Err e.
Proof.
  intros Ha E. unfold save_discrepancy in E.
  assert (forall k, added (RDisc (to_orm_discrepancy d)) db db' k -> False) as Hno.
  { intros k (Hn & Hr & Hc). rewrite Hr in Hc.
    destruct (foreign_key_holds _ k (to_orm_discrepancy d) Hc) as (k' & r' & Hk & Hp);
      [by rewrite lookup_insert_eq|].
    apply lookup_insert_Some in Hk as [[_ <-]|[_ Hk]]; [done|]. by apply (Ha k' r' Hk). }
  apply add_and_refresh_spec in E.
  - destruct E as [(k & t & Hk & _)|[[-> ->]|[-> [->|[k Hk]]]]]; [by destruct (Hno k)|eauto|eauto|].
    by destruct (Hno k).
  - unfold is_discrepancy. simpl. by apply bool_decide_eq_true_2.
  - intros k. apply as_discrepancy_total.
  - by intros [].
Qed.

(** [m], started on a database without the run [u], leaves the rows as they
    are; a value it returns satisfies [Q]. *)
Definition stores_nothing {T} (u : UUID) (m : M RW T) (Q : T -> Prop) : Prop :=
  forall w db r w', sw_repository w = Some db -> run_absent u (rows db) -> m w = (r, w') ->
    (exists db', sw_repository w' = Some db' /\ rows db' = rows db) /\ forall a, r = Ok a -> Q a.

Lemma sn_bind {A B} u (m : M RW A) (k : A -> M RW B) P Q :
  stores_nothing u m P -> (forall a, P a -> stores_nothing u (k a) Q) -> stores_nothing u (bind m k) Q.
Proof.
  intros Hm Hk w db r w' Hw Ha E. apply bind_run in E as [(e & E & ->)|(a & s1 & E & E2)].
  - destruct (Hm _ _ _ _ Hw Ha E) as [Hdb _]. by split.
  - destruct (Hm _ _ _ _ Hw Ha E) as [(db1 & Hw1 & Hr1) Hp].
    destruct (Hk a (Hp a eq_refl) s1 db1 r w' Hw1) as [(db2 & Hw2 & Hr2) Hq]; [by rewrite Hr1|done|].
    split; [|done]. exists db2. by rewrite Hr2.
Qed.

Lemma sn_try {A} u (m : M RW A) h Q : stores_nothing u m Q ->
  (forall e m', h e = Some m' -> stores_nothing u m' Q) -> stores_nothing u (try_except m h) Q.
Proof.
  intros Hm Hh w db r w' Hw Ha E. unfold try_except in E.
  destruct (m w) as [[a|e] w1] eqn:E1; [injection E as <- <-; by apply (Hm _ _ _ _ Hw Ha E1)|].
  destruct (Hm _ _ _ _ Hw Ha E1) as [(db1 & Hw1 & Hr1) _].
  destruct (h e) as [m'|] eqn:Eh.
  - destruct (Hh _ _ Eh w1 db1 r w' Hw1) as [(db2 & Hw2 & Hr2) Hq]; [by rewrite Hr1|done|].
    split; [|done]. exists db2. by rewrite Hr2.
  - injection E as <- <-. split; [by exists db1|done].
Qed.

Lemma sn_keeps {A} u (m : M RW A) : keeps_repo m -> stores_nothing u m (fun _ => True).
Proof.
  intros Hk w db r w' Hw _ E. split; [|done]. exists db. split; [|done].
  specialize (Hk w). rewrite E in Hk. simpl in Hk. by rewrite Hk.
Qed.

Lemma sn_ret {A} u (a : A) (Q : A -> Prop) : Q a -> stores_nothing u (ret a) Q.
Proof. intros Hq w db r w' Hw _ [= <- <-]. split; [by exists db|]. by intros ? [= <-]. Qed.

Lemma sn_save u d (Q : Discrepancy -> Prop) : dc_run_id d = u ->
  stores_nothing u (repo_call (save_discrepancy d)) Q.
Proof.
  intros <- w db r w' Hw Ha E. destruct (repo_call_inv _ _ _ _ _ Hw E) as (db' & E' & ->).
  destruct (save_discrepancy_refused _ _ _ _ Ha E') as [Hr [e ->]]. split; [|done]. by exists db'.
Qed.

Lemma load_discrepancy_reads key : reads (load_discrepancy (DB:=DB) key).
Proof.
  apply reads_bind; [apply scalar_reads|]. intros [kr|]; [|done].
  apply reads_bind; [apply reads_lift|done].
Qed.

(** Before the run row exists no discrepancy can be persisted. *)
Lemma persist_refused u d : dc_run_id d = u ->
  stores_nothing u (persist_discrepancy d) (fun p => p.1 = []).
Proof.
  intros Hd. apply sn_try; [by eapply sn_bind; [apply (sn_save u d (fun _ => False))|]|].
  intros e m'. destruct (isinstance e _); [|done]. intros [= <-].
  eapply sn_bind; [apply sn_keeps, repo_call_reads, load_discrepancy_reads|]. intros existing _.
  match goal with |- stores_nothing _ (if ?b then _ else _) _ => destruct b end; [by apply sn_ret|].
  eapply sn_bind; [apply sn_keeps, keeps_metric|]. intros _ _. apply sn_try.
  - by eapply sn_bind; [apply (sn_save u _ (fun _ => False))|].
  - intros e2 m2. destruct (isinstance e2 _); [|done]. intros [= <-]. by apply sn_ret.
Qed.

Lemma persist_all_refused u ds : Forall (fun d => dc_run_id d = u) ds ->
  stores_nothing u (persist_discrepancies ds) (fun p => p.1 = []).
Proof.
  induction 1 as [|d ds Hd Hds IH]; [by apply sn_ret|]. simpl.
  eapply sn_bind; [by apply persist_refused|]. intros [p1 p2] Hp.
  eapply sn_bind; [exact IH|]. intros [q1 q2] Hq. apply sn_ret. simpl in *. by subst.
Qed.
End Evidence.

(** Every discrepancy carries the id of the run that found it. *)
Definition of_run (u : UUID) (d : Discrepancy) : Prop := dc_run_id d = u.

Lemma keyed_of_run {Obs} en dk mk cmp st ob bid ctx (internal broker : list Obs) :
  Forall (of_run (mc_run_id ctx))
    (cr_discrepancies (reconcile_keyed en dk mk cmp st ob bid ctx internal broker)).
Proof.
  unfold reconcile_keyed. simpl. apply Forall_app. split.
  - set (lp0 := {| lp_discrepancies := _ |}).
    assert (Forall (of_run (mc_run_id ctx)) (lp_discrepancies lp0)) as H.
    { simpl. unfold duplicates. apply Forall_bind, Forall_true. intros [k [|o [|o' g]]]; repeat constructor. }
    generalize 0%nat. generalize dependent lp0. intros lp. generalize (broker_index mk broker) as ix. intros ix.
    revert lp. induction internal as [|o l IH]; intros lp H i; simpl; [done|]. apply IH.
    unfold match_internal. set (cp := match mk o with Some _ => _ | None => _ end). destruct cp as [[c b]|]; simpl; apply Forall_app; (split; [done|]).
    + apply Forall_fmap, Forall_true. done.
    + by repeat constructor.
  - unfold unconsumed. apply Forall_bind, Forall_true. intros kg. apply Forall_bind, Forall_true.
    intros [j o]. simpl. case_bool_decide; by repeat constructor.
Qed.

Lemma positions_of_run ctx tol s now internal broker r :
  reconcile_positions ctx tol s now internal broker = Ok r ->
  Forall (of_run (mc_run_id ctx)) (cr_discrepancies r).
Proof.
  unfold reconcile_positions. destruct (foldM _ _ _) as [pl|] eqn:E; [|done]. intros [= <-]. simpl.
  apply Forall_app. split.
  - set (pl0 := {| pl_discrepancies := _ |}) in E.
    assert (Forall (of_run (mc_run_id ctx)) (pl_discrepancies pl0)) as H by constructor.
    generalize dependent pl0. intros p. generalize (position_index broker) as ix. intros ix. revert p.
    induction internal as [|o l IH]; intros p E H; simpl in E; [by injection E as <-|].
    destruct (match_position _ _ _ _ _ _ _) as [p1|] eqn:E1; [|done]. apply (IH _ E). clear E IH.
    unfold match_position in E1. destruct (dict_get _ _) as [b|].
    + destruct (is_stale _ _ _) as [[]|]; [| |done]; injection E1 as <-; simpl;
        apply Forall_app; (split; [done|]); [by repeat constructor|]. apply Forall_fmap, Forall_true. done.
    + injection E1 as <-. simpl. apply Forall_app. split; [done|]. by repeat constructor.
  - apply Forall_bind, Forall_true. intros [k b]. unfold broker_only_position. simpl.
    case_bool_decide; by repeat constructor.
Qed.

Lemma funds_of_run ctx i b tol s now r : reconcile_funds ctx i b tol s now = Ok r ->
  Forall (of_run (mc_run_id ctx)) (cr_discrepancies r).
Proof.
  unfold reconcile_funds. destruct b as [b|]; [destruct i as [i|]|].
  2, 3: intros [= <-]; by repeat constructor.
  destruct (is_stale _ _ _) as [[]|]; [| |done]; intros [= <-]; simpl; [by repeat constructor|].
  apply Forall_fmap, Forall_true. done.
Qed.

Lemma selected_of_run u (b : bool) r x : (forall y, r = Ok y -> Forall (of_run u) (cr_discrepancies y)) ->
  (if b then r else Ok no_comparison) = Ok x -> Forall (of_run u) (cr_discrepancies x).
Proof. intros Hr. destruct b; [apply Hr|]. intros [= <-]. constructor. Qed.

Lemma domains_of_run ctx domains inputs tol s now rs :
  compare_domains ctx domains inputs tol s now = Ok rs ->
  Forall (of_run (mc_run_id ctx)) (rs ≫= cr_discrepancies).
Proof.
  unfold compare_domains. cbn zeta. intros E.
  apply rbind_ok in E as (o & Eo & E). apply rbind_ok in E as (x & Ex & E).
  apply rbind_ok in E as (p & Ep & E). apply rbind_ok in E as (f & Ef & E). injection E as <-.
  apply Forall_bind. repeat constructor.
  - eapply selected_of_run; [|exact Eo]. intros y [= <-]. unfold reconcile_orders. apply keyed_of_run.
  - eapply selected_of_run; [|exact Ex]. intros y [= <-]. unfold reconcile_executions. apply keyed_of_run.
  - eapply selected_of_run; [|exact Ep]. intros y Hy. by eapply positions_of_run.
  - eapply selected_of_run; [|exact Ef]. intros y Hy. by eapply funds_of_run.
Qed.

(** The discrepancy table. *)
Definition evidence_rows (m : gmap N ReconciliationRow) : gmap N ReconciliationRow :=
  filter (fun kr => run_pk kr.2 = None) m.

Section EvidenceLost.
Context {DB : Type} `{ListSession DB ReconciliationRow reconciliation_constraint}.
Context (rg : ReconciliationEngineConfig).

Lemma save_run_evidence run db r db' : save_run run db = (r, db') ->
  evidence_rows (rows db') = evidence_rows (rows db).
Proof.
  intros E. unfold save_run in E.
  assert (forall k, added (RRun (to_orm_run run)) db db' k -> evidence_rows (rows db') = evidence_rows (rows db))
    as Hadd.
  { intros k (Hn & -> & _). unfold evidence_rows. apply map_filter_insert_not'; [done|]. intros y Hy. congruence. }
  apply add_and_refresh_spec in E.
  - destruct E as [(k & t & Hk & _)|[[_ ->]|[_ [->|[k Hk]]]]]; eauto.
  - by apply bool_decide_eq_true_2.
  - intros k. unfold as_run, from_orm_run. simpl. rewrite run_status_roundtrip. simpl. eauto.
  - by intros [].
Qed.

(** No reconciliation evidence is ever stored: the engine saves the
    discrepancies before the run they reference, so the foreign key refuses
    each of them, the refusal is taken for a duplicate, and the conflict
    record is refused in the same way.  Whatever a run finds and whether it
    returns or raises, it leaves the discrepancy table as it was, and a run
    that returns reports no discrepancy and no recovery action (uuid4 giving
    an id no stored run has). *)
Theorem reconciliation_evidence_never_stored scope inputs tol stale now w db r w' :
  sw_repository w = Some db ->
  (forall n, run_absent (rg_uuid4 rg n) (rows db)) ->
  rec_run rg scope inputs tol stale now w = (r, w') ->
  (exists db', sw_repository w' = Some db' /\ evidence_rows (rows db') = evidence_rows (rows db)) /\
  (forall res, r = Ok res -> rs_discrepancies res = [] /\ rs_recovery_actions res = []).
Proof.
  intros Hw Hu E. unfold rec_run, no_repository in E. unfold bind at 1, gets in E. rewrite Hw in E.
  assert (keeps_repo (rec_guard (DB:=DB) rg scope)) as Hg.
  { apply keeps_bind; [apply keeps_lift|]. intros _. apply keeps_bind; [apply keeps_scall|].
    intros []; [apply keeps_lift|apply keeps_ret]. }
  apply bind_run in E as [(e & E & ->)|([] & w1 & E & E1)]; specialize (Hg w); rewrite E in Hg; simpl in Hg.
  { rewrite Hg, Hw. split; [by exists db|done]. }
  apply bind_run in E1 as [(e & E1 & ->)|(t & w2 & E1 & E2)].
  { by destruct now. }
  assert (sw_repository w2 = Some db) as Hw2.
  { rewrite <- Hw, <- Hg. destruct now; by injection E1 as _ <-. }
  clear E E1 Hg w1 w Hw. unfold bind at 1, scall in E2. cbn beta iota in E2.
  set (u := rg_uuid4 rg (sw_tick w2)) in *. specialize (Hu (sw_tick w2)). fold u in Hu.
  match type of E2 with bind _ _ ?w0 = _ => set (w3 := w0) in *; assert (sw_repository w3 = Some db) as Hw3 by done end.
  apply lift_run in E2 as [(e & _ & -> & ->)|(rs & Ec & E2)]; [split; [by exists db|done]|].
  apply domains_of_run in Ec. simpl in Ec.
  apply bind_run in E2 as [(e & E & ->)|([ps cs] & w4 & E & E3)];
    destruct (persist_all_refused u _ Ec _ _ _ _ Hw3 Hu E) as [(db1 & Hw4 & Hr1) Hp].
  { split; [|done]. exists db1. by rewrite Hr1. }
  specialize (Hp _ eq_refl). simpl in Hp. subst ps.
  apply bind_run in E3 as [(e & E3 & ->)|(sv & w5 & E3 & E4)];
    destruct (repo_call_inv _ _ _ _ _ Hw4 E3) as (db2 & Es & ->); apply save_run_evidence in Es; rewrite Hr1 in Es.
  { split; [|done]. by exists db2. }
  apply bind_run in E4 as [(e & E4 & ->)|([] & w6 & E4 & E5)].
  all: assert (forall st, keeps_repo (record_run (DB:=DB) st)) as Hk
    by (intros st; apply keeps_bind; [apply keeps_metric|]; intros _; destruct st; auto with svc).
  all: match type of E4 with record_run ?st ?w0 = _ => specialize (Hk st w0) end; rewrite E4 in Hk; simpl in Hk.
  - split; [|done]. exists db2. by rewrite Hk.
  - injection E5 as <- <-. split; [exists db2; by rewrite Hk|]. by intros ? [= <-].
Qed.
End EvidenceLost.

(** * Concrete runs *)

Module ReconciliationSample.
Open Scope string_scope.

Definition ctx : MatchContext :=
  {| mc_run_id := 99; mc_account_id := 1; mc_broker := "PAPER"; mc_trading_mode := "PAPER" |}.

Definition fill (source id : string) (q : N) : ExecutionObservation :=
  {| xo_source := source; xo_broker_execution_id := Some id; xo_execution_id := None; xo_order_id := None;
     xo_broker_order_id := None; xo_account_id := Some 1%N; xo_instrument_id := Some 3%N;
     xo_side := Some "BUY"; xo_quantity := Some (Dec false q 0); xo_price := Some (Dec false 10050 (-2));
     xo_fees := None; xo_status := Some "FILLED"; xo_observed_at := Some (utc 0) |}.

Definition held (source : string) (q : Z) (t : option datetime) : PositionObservation :=
  {| bo_source := source; bo_account_id := Some 1%N; bo_instrument_id := Some 3%N; bo_quantity := q;
     bo_side := "LONG"; bo_average_price := Some (Dec false 10050 (-2)); bo_observed_at := t |}.

(** The broker filled E1 and E2, the books know E1: nothing is reported. *)
Lemma hidden_fill_witness :
  cr_broker_only (reconcile_executions ctx default_tolerance [fill "internal" "E1" 10]
                    [fill "broker" "E1" 10; fill "broker" "E2" 5]) = 0.
Proof.
  apply (executions_hide_broker_fills ctx default_tolerance [fill "internal" "E1" 10]
           [fill "broker" "E1" 10; fill "broker" "E2" 5]).
  - vm_compute. repeat constructor; set_solver.
  - exists (fill "internal" "E1" 10), "E1". split; [by left|]. split; [reflexivity|]. simpl. by left.
Defined.

Definition clean := reconcile_positions ctx default_tolerance (Some 60) (Some (utc 1000000))
  [held "internal" 10 None] [held "broker" 12 (Some (utc 0)); held "broker" 10 (Some (utc 500000))].

(** The later broker report counts. *)
Lemma clean_witness : exists r, clean = Ok r /\ cr_matched r = 1.
Proof.
  eexists. split; [vm_compute; reflexivity|].
  refine (proj1 (proj2 (positions_clean_iff_agree ctx default_tolerance (Some 60) (Some (utc 1000000))
    [held "internal" 10 None] [held "broker" 12 (Some (utc 0)); held "broker" 10 (Some (utc 500000))]
    _ _) _)); vm_compute; reflexivity.
Defined.

Definition config : ReconciliationEngineConfig :=
  {| rg_global_halt_active := fun _ => false; rg_tolerance := default_tolerance;
     rg_now := fun _ => utc 1000000; rg_uuid4 := fun n => (1000 + N.of_nat n)%N |}.

Definition store : Service (gmap N ReconciliationRow) :=
  {| sw_repository := Some ∅; sw_metrics := ∅; sw_tick := 0 |}.

Definition scope : ReconciliationScope :=
  {| sc_account_id := 1; sc_broker := "PAPER"; sc_trading_mode := "paper"; sc_domains := ["EXECUTIONS"] |}.

(** One broker fill the books do not know. *)
Definition inputs : ReconciliationInputs :=
  {| ri_orders_internal := []; ri_orders_broker := []; ri_executions_internal := [];
     ri_executions_broker := [fill "broker" "E1" 10]; ri_positions_internal := [];
     ri_positions_broker := []; ri_funds_internal := None; ri_funds_broker := None |}.

Definition outcome := rec_run config scope inputs None None None store.

(** It completes with one broker-only fill, counted as a conflict, and proposes
    no recovery. *)
Example unexpected_fill_lost : match fst outcome with
  | Ok r => (rs_status r, rr_broker_only (rs_run r), rr_conflicts (rs_run r),
             List.length (rs_discrepancies r), List.length (rs_recovery_actions r))
            = (run_COMPLETED, 1, 1, 0%nat, 0%nat)
  | Err _ => False end.
Proof. vm_compute. reflexivity. Qed.

Lemma evidence_witness : exists db', sw_repository (snd outcome) = Some db' /\ evidence_rows db' = ∅.
Proof.
  destruct (reconciliation_evidence_never_stored config scope inputs None None None store ∅
              (fst outcome) (snd outcome)) as [(db' & Hw & Hr) _].
  - reflexivity.
  - intros n k r Hk. simpl in Hk. by rewrite lookup_empty in Hk.
  - unfold outcome. by destruct (rec_run _ _ _ _ _ _ _).
  - exists db'. split; [exact Hw|]. etrans; [exact Hr|]. vm_compute. reflexivity.
Defined.
End ReconciliationSample.
