(* ===== verification/TradingDb.v ===== *)
(** The tables the signal engine, the trading orchestrator and the order
    management system share in one database
    (src/packages/shared/alpha_algo_shared/db/models/trading.py and safety.py):
    [signals], [trading_intents], [orders] and [order_events].

    [id] columns the code fills in itself ([signals], [orders]) are columns of
    the row; the others are the key SQLAlchemy generates.  Foreign keys to
    tables outside this model (instruments, broker accounts, strategy runs) are
    the parameter [refs]. *)

From stdpp Require Import base list strings gmap fin_maps.
From Stdlib Require Import ZArith Lia String.
From S2P Require Import Prelude PyBase Decimal Sql.
Open Scope Z_scope.

Record SignalRow := {
  sr_id : UUID;
  sr_signal_id : UUID;
  sr_identity_key : string;
  sr_content_hash : string;
  sr_strategy_id : UUID;
  sr_strategy_version : string;
  sr_config_hash : string;
  sr_code_hash : option string;
  sr_run_id : option UUID;
  sr_instrument_id : UUID;
  sr_signal_timestamp : datetime;
  sr_action : string;
  sr_confidence : decimal;
  sr_reason : string;
  sr_metadata : metadata;
  sr_state : string;
  sr_processed_at : option datetime;
}.

Record TradingIntentRecord := {
  tr_orchestration_id : string;
  tr_correlation_id : option string;
  tr_signal_id : option UUID;
  tr_strategy_id : option UUID;
  tr_strategy_version : option string;
  tr_strategy_config_hash : option string;
  tr_strategy_run_id : option UUID;
  tr_account_id : option UUID;
  tr_instrument_id : option UUID;
  tr_action : option string;
  tr_order_type : option string;
  tr_quantity : option decimal;
  tr_limit_price : option decimal;
  tr_trading_mode : option string;
  tr_risk_decision_id : option UUID;
  tr_approval_id : option string;
  tr_approval_expires_at : option datetime;
  tr_binding_hash : option string;
  tr_state : string;
  tr_reason_code : option string;
  tr_reason : option string;
  tr_intent_metadata : option metadata;
}.

(** The columns of [orders] the order management system reads or writes. *)
Record OrderRow := {
  or_id : UUID;
  or_orchestration_id : option string;
  or_order_identity_key : option string;
  or_correlation_id : option string;
  or_strategy_id : option UUID;
  or_strategy_version : option string;
  or_strategy_run_id : option UUID;
  or_risk_approval_id : option string;
  or_approval_expires_at : option datetime;
  or_signal_id : option UUID;
  or_instrument_id : UUID;
  or_broker_account_id : option UUID;
  or_trading_mode : string;
  or_client_order_id : string;
  or_broker_order_id : option string;
  or_side : string;
  or_order_type : string;
  or_quantity : Z;
  or_limit_price : option decimal;
  or_stop_price : option decimal;
  or_status : string;
}.

Record OrderEventRow := {
  oe_order_id : UUID;
  oe_source_event_id : option string;
  oe_event_type : string;
  oe_previous_status : option string;
  oe_new_status : string;
  oe_broker_order_id : option string;
  oe_event_timestamp : datetime;
  oe_reason : string;
}.

Inductive DomainRow :=
| RSignal (r : SignalRow)
| RIntent (r : TradingIntentRecord)
| ROrder (r : OrderRow)
| REvent (r : OrderEventRow).

(** ** Columns *)

Definition as_signal (r : DomainRow) : option SignalRow :=
  match r with RSignal s => Some s | _ => None end.
Definition as_intent (r : DomainRow) : option TradingIntentRecord :=
  match r with RIntent s => Some s | _ => None end.
Definition as_order (r : DomainRow) : option OrderRow :=
  match r with ROrder s => Some s | _ => None end.
Definition as_event (r : DomainRow) : option OrderEventRow :=
  match r with REvent s => Some s | _ => None end.

Definition signal_pk (r : DomainRow) : option UUID := sr_id <$> as_signal r.
Definition signal_identity (r : DomainRow) : option string := sr_identity_key <$> as_signal r.
Definition intent_orchestration (r : DomainRow) : option string := tr_orchestration_id <$> as_intent r.
Definition intent_approval (r : DomainRow) : option string := as_intent r ≫= tr_approval_id.
Definition order_pk (r : DomainRow) : option UUID := or_id <$> as_order r.
Definition order_orchestration (r : DomainRow) : option string := as_order r ≫= or_orchestration_id.
Definition order_identity (r : DomainRow) : option string := as_order r ≫= or_order_identity_key.
Definition order_approval (r : DomainRow) : option string := as_order r ≫= or_risk_approval_id.
Definition order_client (r : DomainRow) : option string := or_client_order_id <$> as_order r.
Definition event_source_id (r : DomainRow) : option string := as_event r ≫= oe_source_event_id.

(** The column with a foreign key to [signals.id]. *)
Definition signal_ref (r : DomainRow) : option UUID :=
  match r with
  | RIntent t => tr_signal_id t
  | ROrder o => or_signal_id o
  | _ => None
  end.

(** The column with a foreign key to [orders.id]. *)
Definition order_ref (r : DomainRow) : option UUID := oe_order_id <$> as_event r.

(** [ref r], if not NULL, is the primary key of a row. *)
Definition references (ref pk : DomainRow -> option UUID) (rs : list DomainRow) (r : DomainRow) : bool :=
  match ref r with
  | Some u => existsb (fun r' => bool_decide (pk r' = Some u)) rs
  | None => true
  end.

Definition domain_constraint (refs : DomainRow -> bool) (m : gmap N DomainRow) : bool :=
  let rs := snd <$> map_to_list m in
  unique_on signal_pk rs && unique_on (fun r => sr_signal_id <$> as_signal r) rs &&
  unique_on signal_identity rs &&
  unique_on intent_orchestration rs && unique_on intent_approval rs &&
  unique_on order_pk rs && unique_on order_orchestration rs && unique_on order_identity rs &&
  unique_on order_approval rs && unique_on order_client rs &&
  unique_on (fun r => as_order r ≫= or_broker_order_id) rs && unique_on event_source_id rs &&
  forallb (references signal_ref signal_pk rs) rs && forallb (references order_ref order_pk rs) rs &&
  forallb refs rs.

(** ** What the constraint gives *)

Section Constraint.
Context (refs : DomainRow -> bool).

Lemma foreign_key ref pk (m : gmap N DomainRow) k r u :
  forallb (references ref pk (snd <$> map_to_list m)) (snd <$> map_to_list m) = true ->
  m !! k = Some r -> ref r = Some u -> exists k' r', m !! k' = Some r' /\ pk r' = Some u.
Proof.
  intros Hc Hk Hr. rewrite forallb_forall in Hc. specialize (Hc r). unfold references in Hc.
  rewrite Hr, existsb_exists in Hc. destruct Hc as (r' & Hin & Hb).
  - apply list_elem_of_In. change r with ((k, r).2). apply list_elem_of_fmap_2. by apply elem_of_map_to_list.
  - apply bool_decide_eq_true in Hb. apply list_elem_of_In, list_elem_of_fmap in Hin as ([k' r1] & -> & Hin).
    apply elem_of_map_to_list in Hin. eauto.
Qed.

Lemma signal_ref_exists m k r u : domain_constraint refs m = true -> m !! k = Some r ->
  signal_ref r = Some u -> exists k' r', m !! k' = Some r' /\ signal_pk r' = Some u.
Proof.
  unfold domain_constraint. rewrite !andb_true_iff. intros Hc. apply foreign_key. tauto.
Qed.

(** The unique columns. *)
Inductive unique_column : (DomainRow -> option string) -> Prop :=
| uc_identity : unique_column signal_identity
| uc_orchestration : unique_column intent_orchestration
| uc_order_orchestration : unique_column order_orchestration
| uc_order_identity : unique_column order_identity
| uc_order_approval : unique_column order_approval
| uc_source : unique_column event_source_id.

Lemma column_unique col m x i j r r' : unique_column col -> domain_constraint refs m = true ->
  m !! i = Some r -> m !! j = Some r' -> col r = Some x -> col r' = Some x -> i = j.
Proof.
  intros Hcol Hc. apply (unique_on_lookup col). unfold domain_constraint in Hc.
  rewrite !andb_true_iff in Hc. destruct Hcol; tauto.
Qed.

Lemma order_pk_unique m x i j r r' : domain_constraint refs m = true ->
  m !! i = Some r -> m !! j = Some r' -> order_pk r = Some x -> order_pk r' = Some x -> i = j.
Proof.
  intros Hc. apply (unique_on_lookup order_pk). unfold domain_constraint in Hc.
  rewrite !andb_true_iff in Hc. tauto.
Qed.

(** A row added with a unique value: no earlier row has it. *)
Lemma added_fresh {DB} `{Session DB DomainRow (domain_constraint refs)} col row db db' k x j r :
  unique_column col -> added row db db' k -> col row = Some x ->
  rows db !! j = Some r -> col r <> Some x.
Proof.
  intros Hcol (Hn & Hr & Hc) Hx Hj Hrx.
  assert (j <> k) as Hne by congruence. apply Hne.
  apply (column_unique col (rows db') x j k r row Hcol Hc); [|by rewrite Hr, lookup_insert_eq|done..].
  by rewrite Hr, lookup_insert_ne.
Qed.
End Constraint.
