(* ===== verification/Signal.v ===== *)
(** The signal engine (services/signal_engine): state.py, directory.py,
    identity.py, validation.py, idempotency.py, repository.py and service.py.

    A signal is validated, identified by hashes of its immutable attributes,
    deduplicated in memory and in the database, committed, and only then passed
    to the consumers.  The consumers are observed as the list of the records
    passed to them. *)

From stdpp Require Import base list strings gmap fin_maps.
From Stdlib Require Import ZArith Lia String.
From S2P Require Import Prelude PyBase Hashing Decimal DecimalText Contracts Sql Service RiskService TradingDb.
Open Scope Z_scope.

(** * state.py *)

Inductive SignalState :=
| ss_RECEIVED | ss_VALIDATED | ss_ACCEPTED | ss_PERSISTED | ss_REJECTED | ss_DUPLICATE
| ss_CONFLICT | ss_EXPIRED.

#[export] Instance SignalState_eq_dec : EqDecision SignalState.
Proof. solve_decision. Defined.

Definition signal_state_value (s : SignalState) : string :=
  match s with
  | ss_RECEIVED => "received" | ss_VALIDATED => "validated" | ss_ACCEPTED => "accepted"
  | ss_PERSISTED => "persisted" | ss_REJECTED => "rejected" | ss_DUPLICATE => "duplicate"
  | ss_CONFLICT => "conflict" | ss_EXPIRED => "expired"
  end.

Definition signal_transitions (s : SignalState) : list SignalState :=
  match s with
  | ss_RECEIVED => [ss_VALIDATED; ss_REJECTED; ss_EXPIRED]
  | ss_VALIDATED => [ss_ACCEPTED; ss_REJECTED; ss_DUPLICATE; ss_CONFLICT; ss_EXPIRED]
  | ss_ACCEPTED => [ss_PERSISTED; ss_DUPLICATE; ss_CONFLICT]
  | _ => []
  end.

(** [SignalStateMachine.transition]; the machine is its state. *)
Definition signal_transition (machine to : SignalState) : res SignalState :=
  if bool_decide (to ∈ signal_transitions machine) then Ok to
  else raise RuntimeError ("illegal signal transition: " +:+ signal_state_value machine +:+ " -> " +:+
                           signal_state_value to).

Definition signal_terminal (s : SignalState) : bool :=
  bool_decide (s ∈ [ss_PERSISTED; ss_REJECTED; ss_DUPLICATE; ss_CONFLICT; ss_EXPIRED]).

(** * directory.py *)

Record StrategyRecord := {
  sd_strategy_id : UUID;
  sd_version : string;
  sd_config_hash : string;
  sd_code_hash : option string;
  sd_enabled : bool;
  sd_instruments : option (list UUID);
}.

(** * identity.py *)

Definition meta_json (v : pyval) : json :=
  match v with
  | PNone => JNull
  | PBool b => JBool b
  | PInt z => JInt z
  | PStr s => JStr s
  | PDatetime _ => JStr (py_str v)
  end.

Definition canonical_json (m : metadata) : string :=
  json_compact ((fun kv => (kv.1, meta_json kv.2)) <$> map_to_list m).

(** [metadata.get(key)] as a string, None if missing or None *)
Definition meta_str (m : metadata) (key : string) : option string :=
  match m !! key with
  | None | Some PNone => None
  | Some v => Some (py_str v)
  end.

Definition code_hash_from (s : StrategySignal) : option string :=
  meta_str (sg_metadata s) "strategy_code_hash".
Definition run_id_from (s : StrategySignal) : option string :=
  meta_str (sg_metadata s) "strategy_run_id".

Definition parse_run_id (value : option string) : option UUID :=
  match value with Some v => uuid_parse v | None => None end.

Section SignalEngine.
(** [datetime.fromisoformat] *)
Context (fromisoformat : string -> res datetime).

Definition compute_signal_content_hash (s : StrategySignal) : res string :=
  let! ts := event_timestamp fromisoformat s in
  Ok (sha256_hex (json_compact
    [("confidence"%string, JStr (dec_str (sg_confidence s)));
     ("reason"%string, JStr (sg_reason s));
     ("timestamp"%string, JStr (isoformat ts));
     ("metadata"%string, JStr (canonical_json (sg_metadata s)))])).

(** * validation.py *)

Record SignalEngineConfig := {
  se_lookup : UUID -> option StrategyRecord;    (* the strategy directory *)
  se_clock : nat -> datetime;
  se_uuid4 : nat -> UUID;
  se_future_skew : Z;                           (* microseconds *)
  se_max_signal_age : option Z;
  se_maxsize : Z;                               (* of the in-memory table *)
}.
Context (se : SignalEngineConfig).

Definition reject_signal (b : bool) (reason : string) : res unit :=
  raise_if b SignalRejectedError reason.

(** [validate]; [now1] and [now2] are its two readings of the clock. *)
Definition validate_signal (s : StrategySignal) (trading_mode : string) (now1 now2 : datetime) : res unit :=
  let mode := py_upper trading_mode in
  raise_if (negb (bool_decide (mode ∈ SIMULATED))) SignalTradingModeError
    ("trading mode not allowed: " +:+ mode) ;!
  match se_lookup se (sg_strategy_id s) with
  | None => raise SignalRejectedError "unknown_strategy"
  | Some record =>
      reject_signal (negb (sd_enabled record)) "disabled_strategy" ;!
      reject_signal (negb (String.eqb (sg_strategy_version s) (sd_version record)))
        "strategy_version_mismatch" ;!
      reject_signal (negb (String.eqb (sg_strategy_config_hash s) (sd_config_hash record)))
        "config_hash_mismatch" ;!
      reject_signal (match sg_metadata s !! "event_timestamp"%string with None => true | _ => false end)
        "missing_traceability" ;!
      reject_signal (match sd_code_hash record with
                     | Some h => negb (bool_decide (code_hash_from s = Some h))
                     | None => false
                     end) "code_hash_mismatch" ;!
      reject_signal (match sd_instruments record with
                     | Some l => negb (bool_decide (sg_instrument_id s ∈ l))
                     | None => false
                     end) "invalid_instrument" ;!
      reject_signal (negb (dle dzero (sg_confidence s) && dle (sg_confidence s) (dec_of_Z 1)))
        "invalid_confidence" ;!
      reject_signal (negb (dt_aware (sg_timestamp s))) "invalid_timestamp" ;!
      let! future := dt_gt (sg_timestamp s) (dt_add now1 (se_future_skew se)) in
      reject_signal future "future_timestamp" ;!
      let! ts := event_timestamp fromisoformat s in
      let! future := dt_gt ts (dt_add now2 (se_future_skew se)) in
      reject_signal future "future_timestamp"
  end.

(** * repository.py *)

Inductive signal_outcome := so_INSERTED | so_DUPLICATE | so_CONFLICT.

#[export] Instance signal_outcome_eq_dec : EqDecision signal_outcome.
Proof. solve_decision. Defined.

Definition to_orm_signal (id : UUID) (s : StrategySignal) (identity_key content_hash state : string)
    (processed_at : datetime) : SignalRow := {|
  sr_id := id;
  sr_signal_id := sg_signal_id s;
  sr_identity_key := identity_key;
  sr_content_hash := content_hash;
  sr_strategy_id := sg_strategy_id s;
  sr_strategy_version := sg_strategy_version s;
  sr_config_hash := sg_strategy_config_hash s;
  sr_code_hash := code_hash_from s;
  sr_run_id := parse_run_id (run_id_from s);
  sr_instrument_id := sg_instrument_id s;
  sr_signal_timestamp := sg_timestamp s;
  sr_action := action_value (sg_action s);
  sr_confidence := sg_confidence s;
  sr_reason := sg_reason s;
  sr_metadata := sg_metadata s;
  sr_state := state;
  sr_processed_at := Some processed_at;
|}.

Context {refs : DomainRow -> bool} {DB : Type} `{Session DB DomainRow (domain_constraint refs)}.

Definition find_by_identity (identity_key : string) : M DB (option SignalRow) :=
  let* rec := scalar_one_or_none (fun r => bool_decide (signal_identity r = Some identity_key)) in
  ret (match rec with Some kr => as_signal kr.2 | None => None end).

Definition same_content (existing signal : SignalRow) : signal_outcome :=
  if String.eqb (sr_content_hash existing) (sr_content_hash signal) then so_DUPLICATE else so_CONFLICT.

Definition signal_persist (signal : SignalRow) : M DB signal_outcome :=
  let* existing := find_by_identity (sr_identity_key signal) in
  match existing with
  | Some e => ret (same_content e signal)
  | None =>
      try_except
        (commit [Add (RSignal signal)] ;* ret so_INSERTED)
        (fun exc =>
           if isinstance exc IntegrityError then Some (
             let* existing := find_by_identity (sr_identity_key signal) in
             match existing with
             | None => lift (Err exc)
             | Some e => ret (same_content e signal)
             end)
           else None)
  end.

(** * idempotency.py and service.py *)

Record SignalRecord := {
  sl_signal : StrategySignal;
  sl_record_id : UUID;
  sl_identity_key : string;
  sl_state : SignalState;
}.

Record SignalIngestResult := {
  si_state : SignalState;
  si_persisted : bool;
  si_reason : string;
  si_signal_id : option UUID;
  si_identity_key : option string;
  si_record_id : option UUID;
}.

Record SignalEngine := {
  sx_db : DB;
  sx_metrics : gmap string Z;
  sx_per_strategy : gmap string Z;
  sx_per_instrument : gmap string Z;
  sx_seen : list (string * string);       (* identity key, content hash *)
  sx_tick : nat;
  sx_fanned_out : list SignalRecord;
}.

Abbreviation XW := SignalEngine.

Definition sx_call {T} (f : nat -> T) : M XW T :=
  fun w => (Ok (f (sx_tick w)),
            {| sx_db := sx_db w; sx_metrics := sx_metrics w; sx_per_strategy := sx_per_strategy w;
               sx_per_instrument := sx_per_instrument w; sx_seen := sx_seen w;
               sx_tick := S (sx_tick w); sx_fanned_out := sx_fanned_out w |}).

Definition sx_inc (name : string) : M XW unit :=
  modify (fun w =>
    {| sx_db := sx_db w; sx_metrics := bump (sx_metrics w) name; sx_per_strategy := sx_per_strategy w;
       sx_per_instrument := sx_per_instrument w; sx_seen := sx_seen w; sx_tick := sx_tick w;
       sx_fanned_out := sx_fanned_out w |}).

Definition sx_record_keys (s : StrategySignal) : M XW unit :=
  modify (fun w =>
    {| sx_db := sx_db w; sx_metrics := sx_metrics w;
       sx_per_strategy := bump (sx_per_strategy w) (uuid_str (sg_strategy_id s));
       sx_per_instrument := bump (sx_per_instrument w) (uuid_str (sg_instrument_id s));
       sx_seen := sx_seen w; sx_tick := sx_tick w; sx_fanned_out := sx_fanned_out w |}).

Definition sx_set_seen (seen : list (string * string)) : M XW unit :=
  modify (fun w =>
    {| sx_db := sx_db w; sx_metrics := sx_metrics w; sx_per_strategy := sx_per_strategy w;
       sx_per_instrument := sx_per_instrument w; sx_seen := seen; sx_tick := sx_tick w;
       sx_fanned_out := sx_fanned_out w |}).

Definition sx_fan_out (record : SignalRecord) : M XW unit :=
  modify (fun w =>
    {| sx_db := sx_db w; sx_metrics := sx_metrics w; sx_per_strategy := sx_per_strategy w;
       sx_per_instrument := sx_per_instrument w; sx_seen := sx_seen w; sx_tick := sx_tick w;
       sx_fanned_out := sx_fanned_out w ++ [record] |}).

Definition on_db {T} (m : M DB T) : M XW T :=
  zoom sx_db (fun db w =>
    {| sx_db := db; sx_metrics := sx_metrics w; sx_per_strategy := sx_per_strategy w;
       sx_per_instrument := sx_per_instrument w; sx_seen := sx_seen w; sx_tick := sx_tick w;
       sx_fanned_out := sx_fanned_out w |}) m.

(** [check]: the entry found moves to the end. *)
Definition seen_check (identity_key content_hash : string) : M XW (option signal_outcome) :=
  let* seen := gets sx_seen in
  match od_get identity_key seen with
  | None => ret None
  | Some h =>
      sx_set_seen (od_put identity_key h seen) ;*
      ret (Some (if String.eqb h content_hash then so_DUPLICATE else so_CONFLICT))
  end.

(** [record]: at most one entry is evicted. *)
Definition seen_record (identity_key content_hash : string) : M XW unit :=
  let* seen := gets sx_seen in
  let seen' := od_put identity_key content_hash seen in
  sx_set_seen (if se_maxsize se <? Z.of_nat (List.length seen') then drop 1 seen' else seen').

Definition ingest_result (state : SignalState) (persisted : bool) (reason : string) (s : StrategySignal)
    (identity_key : option string) (record_id : option UUID) : SignalIngestResult :=
  {| si_state := state; si_persisted := persisted; si_reason := reason;
     si_signal_id := Some (sg_signal_id s); si_identity_key := identity_key; si_record_id := record_id |}.

(** Step 2: expiry. *)
Definition is_expired (s : StrategySignal) : M XW bool :=
  match se_max_signal_age se with
  | None => ret false
  | Some age =>
      let* now := sx_call (se_clock se) in
      let* ts := lift (event_timestamp fromisoformat s) in
      let* d := lift (dt_sub now ts) in
      ret (age <? d)
  end.

(** Step 4: persist, record, fan out. *)
Definition accept_signal (s : StrategySignal) (machine : SignalState) (identity_key content_hash : string)
    : M XW SignalIngestResult :=
  let* machine := lift (signal_transition machine ss_ACCEPTED) in
  let* now := sx_call (se_clock se) in
  let* id := sx_call (se_uuid4 se) in
  let orm := to_orm_signal id s identity_key content_hash (signal_state_value ss_PERSISTED) now in
  let* outcome := try_except (let* o := on_db (signal_persist orm) in ret (Some o))
                    (fun _ => Some (ret None)) in
  match outcome with
  | None =>
      sx_inc "persistence_failures" ;*
      ret (ingest_result ss_ACCEPTED false "persistence_failure" s (Some identity_key) None)
  | Some so_INSERTED =>
      let* machine := lift (signal_transition machine ss_PERSISTED) in
      seen_record identity_key content_hash ;*
      sx_inc "signals_persisted" ;*
      sx_inc "signals_accepted" ;*
      sx_fan_out {| sl_signal := s; sl_record_id := sr_id orm; sl_identity_key := identity_key;
                    sl_state := machine |} ;*
      ret (ingest_result machine true "" s (Some identity_key) (Some (sr_id orm)))
  | Some so_DUPLICATE =>
      let* machine := lift (signal_transition machine ss_DUPLICATE) in
      seen_record identity_key content_hash ;*
      sx_inc "signals_duplicate" ;*
      ret (ingest_result machine false "duplicate" s (Some identity_key) None)
  | Some so_CONFLICT =>
      let* machine := lift (signal_transition machine ss_CONFLICT) in
      sx_inc "signals_conflict" ;*
      ret (ingest_result machine false "conflict" s (Some identity_key) None)
  end.

(** After validation. *)
Definition ingest_valid (s : StrategySignal) (machine : SignalState) : M XW SignalIngestResult :=
  let* identity_key := lift (compute_signal_identity_key fromisoformat s) in
  let* content_hash := lift (compute_signal_content_hash s) in
  let* expired := is_expired s in
  if (expired : bool) then
    let* machine := lift (signal_transition machine ss_EXPIRED) in
    sx_inc "signals_expired" ;*
    ret (ingest_result machine false "expired" s (Some identity_key) None)
  else
    let* seen := seen_check identity_key content_hash in
    match seen with
    | Some so_DUPLICATE =>
        let* machine := lift (signal_transition machine ss_DUPLICATE) in
        sx_inc "signals_duplicate" ;*
        ret (ingest_result machine false "duplicate" s (Some identity_key) None)
    | Some so_CONFLICT =>
        let* machine := lift (signal_transition machine ss_CONFLICT) in
        sx_inc "signals_conflict" ;*
        ret (ingest_result machine false "conflict" s (Some identity_key) None)
    | _ => accept_signal s machine identity_key content_hash
    end.

Definition ingest (s : StrategySignal) (trading_mode : string) : M XW SignalIngestResult :=
  sx_inc "signals_received" ;*
  sx_record_keys s ;*
  let* now1 := sx_call (se_clock se) in
  let* now2 := sx_call (se_clock se) in
  let* valid := try_except
    (lift (validate_signal s trading_mode now1 now2) ;*
     let* machine := lift (signal_transition ss_RECEIVED ss_VALIDATED) in
     ret (inl machine))
    (fun exc =>
       if isinstance exc SignalTradingModeError then None
       else if isinstance exc SignalRejectedError then Some (ret (inr exc))
       else None) in
  match valid with
  | inr exc =>
      let* machine := lift (signal_transition ss_RECEIVED ss_REJECTED) in
      sx_inc "signals_rejected" ;*
      ret (ingest_result machine false (exn_msg exc) s None None)
  | inl machine => ingest_valid s machine
  end.

Definition ingest_isolated (s : StrategySignal) (trading_mode : string) : M XW SignalIngestResult :=
  try_except (ingest s trading_mode)
    (fun exc =>
       if isinstance exc SignalTradingModeError then None
       else Some (
         sx_inc "signals_rejected" ;*
         ret (ingest_result ss_REJECTED false "unexpected_error" s None None))).

Fixpoint ingest_many (signals : list StrategySignal) (trading_mode : string)
    : M XW (list SignalIngestResult) :=
  match signals with
  | [] => ret []
  | s :: rest =>
      let* r := ingest_isolated s trading_mode in
      let* rs := ingest_many rest trading_mode in
      ret (r :: rs)
  end.
End SignalEngine.
Arguments SignalEngine : clear implicits.
Arguments sx_db {DB} _.
Arguments sx_metrics {DB} _.
Arguments sx_per_strategy {DB} _.
Arguments sx_per_instrument {DB} _.
Arguments sx_seen {DB} _.
Arguments sx_tick {DB} _.
Arguments sx_fanned_out {DB} _.

(** * Correctness *)

Section SignalFacts.
Context (fromisoformat : string -> res datetime) (se : SignalEngineConfig).
Context {refs : DomainRow -> bool} {DB : Type} `{Session DB DomainRow (domain_constraint refs)}.
Abbreviation XW := (SignalEngine DB).

(** A committed signal with this identity and content. *)
Definition stored (db : DB) (key hash : string) : Prop :=
  exists j r, rows db !! j = Some (RSignal r) /\ sr_identity_key r = key /\ sr_content_hash r = hash.

(** The committed row behind a record passed to the consumers. *)
Definition backed (db : DB) (rec : SignalRecord) : Prop :=
  sl_state rec = ss_PERSISTED /\
  compute_signal_identity_key fromisoformat (sl_signal rec) = Ok (sl_identity_key rec) /\
  exists j r, rows db !! j = Some (RSignal r) /\ sr_id r = sl_record_id rec /\
    sr_identity_key r = sl_identity_key rec /\ sr_signal_id r = sg_signal_id (sl_signal rec).

Definition signal_inv (w : XW) : Prop :=
  Forall (fun kh => stored (sx_db w) kh.1 kh.2) (sx_seen w) /\
  Forall (backed (sx_db w)) (sx_fanned_out w) /\
  NoDup (sl_identity_key <$> sx_fanned_out w).

Lemma find_by_identity_spec key db r db' : find_by_identity key db = (r, db') ->
  db' = db /\
  match r with
  | Ok (Some e) => exists j, rows db !! j = Some (RSignal e) /\ sr_identity_key e = key
  | Ok None => forall j e, rows db !! j = Some (RSignal e) -> sr_identity_key e <> key
  | Err _ => True
  end.
Proof.
  unfold find_by_identity, bind. set (p := fun r => bool_decide _).
  pose proof (scalar_reads p db) as Hr. pose proof (scalar_none p db) as Hn. pose proof (scalar_some p db) as Hs.
  destruct (scalar_one_or_none p db) as [[[[k x]|]|e] db1]; simpl in *; intros [= <- <-]; (split; [done|]); [| |done].
  - destruct (Hs k x eq_refl) as (Hk & Hp & _). unfold p, signal_identity in Hp. apply bool_decide_eq_true in Hp.
    destruct x as [x| | |]; try done. injection Hp as <-. by exists k.
  - intros j e Hj He. specialize (Hn eq_refl _ _ Hj). unfold p, signal_identity in Hn. simpl in Hn.
    rewrite bool_decide_eq_true_2 in Hn; [done|congruence].
Qed.

Lemma same_content_spec db row e j : rows db !! j = Some (RSignal e) -> sr_identity_key e = sr_identity_key row ->
  match same_content e row with
  | so_DUPLICATE => stored db (sr_identity_key row) (sr_content_hash row)
  | so_CONFLICT => exists h, h <> sr_content_hash row /\ stored db (sr_identity_key row) h
  | so_INSERTED => False
  end.
Proof.
  intros Hj Hk. unfold same_content.
  destruct (String.eqb_spec (sr_content_hash e) (sr_content_hash row)); [by exists j, e|].
  exists (sr_content_hash e). split; [done|]. by exists j, e.
Qed.

(** What [persist] reports is what the table holds. *)
Lemma signal_persist_spec row db r db' : signal_persist row db = (r, db') ->
  match r with
  | Ok so_INSERTED => exists j, added (RSignal row) db db' j
  | Ok so_DUPLICATE => rows db' = rows db /\ stored db' (sr_identity_key row) (sr_content_hash row)
  | Ok so_CONFLICT => rows db' = rows db /\
      exists h, h <> sr_content_hash row /\ stored db' (sr_identity_key row) h
  | Err _ => rows db' = rows db
  end.
Proof.
  unfold signal_persist. intros E. apply bind_run in E as [(e & E & ->)|([e|] & db1 & E & E1)];
    apply find_by_identity_spec in E as [-> He]; [done| |].
  - injection E1 as <- <-. destruct He as (j & Hj & Hk). pose proof (same_content_spec _ _ _ _ Hj Hk) as Hc.
    by destruct (same_content e row).
  - clear He. unfold try_except, bind in E1. destruct (commit [Add (RSignal row)] db) as [[[]|e] db1] eqn:Ec.
    { apply commit_added in Ec as [j Hj]. injection E1 as <- <-. eauto. }
    apply commit_err in Ec. destruct (isinstance e IntegrityError); [|by injection E1 as <- <-].
    fold (bind (find_by_identity (DB:=DB) (sr_identity_key row))
      (fun existing => match existing with None => lift (Err e) | Some e0 => ret (same_content e0 row) end) db1) in E1.
    apply bind_run in E1 as [(e' & E & ->)|([e'|] & db2 & E & E1)];
      apply find_by_identity_spec in E as [-> He]; [done| |by injection E1 as <- <-].
    injection E1 as <- <-. destruct He as (j & Hj & Hk). pose proof (same_content_spec _ _ _ _ Hj Hk) as Hc.
    by destruct (same_content e' row).
Qed.

(** Rows are never changed or removed. *)
Lemma signal_persist_grows row db r db' : signal_persist row db = (r, db') -> rows db ⊆ rows db'.
Proof.
  intros E. apply signal_persist_spec in E. destruct r as [[]|].
  - destruct E as (j & Hn & -> & _). by apply insert_subseteq.
  - by destruct E as [-> _].
  - by destruct E as [-> _].
  - by rewrite E.
Qed.

Lemma stored_grows db db' k h : rows db ⊆ rows db' -> stored db k h -> stored db' k h.
Proof. intros Hs (j & r & Hj & ?). exists j, r. split; [by eapply lookup_weaken|done]. Qed.

Lemma backed_grows db db' rec : rows db ⊆ rows db' -> backed db rec -> backed db' rec.
Proof.
  intros Hs (H1 & H2 & j & r & Hj & ?). split_and!; [done..|]. exists j, r.
  split; [by eapply lookup_weaken|done].
Qed.

(** ** Steps that leave the database and the consumers alone *)

Definition inert {T} (m : M XW T) : Prop := forall w,
  sx_db (snd (m w)) = sx_db w /\ sx_fanned_out (snd (m w)) = sx_fanned_out w /\
  sx_seen (snd (m w)) ⊆ sx_seen w.

Lemma inert_ret {T} (a : T) : inert (ret a).
Proof. done. Qed.
Lemma inert_lift {T} (r : res T) : inert (lift r).
Proof. done. Qed.
Lemma inert_call {T} (f : nat -> T) : inert (sx_call f).
Proof. done. Qed.
Lemma inert_inc n : inert (sx_inc n).
Proof. done. Qed.
Lemma inert_keys s : inert (sx_record_keys s).
Proof. done. Qed.

Lemma inert_bind {A B} (m : M XW A) (k : A -> M XW B) :
  inert m -> (forall a, inert (k a)) -> inert (bind m k).
Proof.
  intros Hm Hk w. unfold bind. destruct (Hm w) as (H1 & H2 & H3). destruct (m w) as [[a|e] w1]; simpl in *; [|done].
  destruct (Hk a w1) as (K1 & K2 & K3). rewrite K1, K2. split_and!; [done..|]. set_solver.
Qed.

Lemma od_get_in {V} k (v : V) l : od_get k l = Some v -> (k, v) ∈ l.
Proof.
  induction l as [|[k' v'] l IH]; simpl; [done|]. destruct (String.eqb_spec k k') as [->|].
  - intros [= ->]. by left.
  - intros E. right. auto.
Qed.

Lemma od_del_sub {V} k (l : list (string * V)) : od_del k l ⊆ l.
Proof.
  induction l as [|[k' v'] l IH]; simpl; [done|]. destruct (String.eqb k k'); intros x; rewrite ?elem_of_cons;
    [tauto|]. specialize (IH x). tauto.
Qed.

Lemma inert_check k h : inert (seen_check k h).
Proof.
  intros w. unfold seen_check, bind, gets. simpl. destruct (od_get k (sx_seen w)) as [h'|] eqn:E; simpl; [|done].
  split_and!; [done..|]. intros x. unfold od_put. rewrite elem_of_app, list_elem_of_singleton.
  intros [Hx| ->]; [by eapply od_del_sub|]. by apply od_get_in.
Qed.

Lemma inert_expired s : inert (is_expired fromisoformat se s).
Proof.
  unfold is_expired. destruct (se_max_signal_age se); [|apply inert_ret].
  repeat (apply inert_bind; [apply inert_call||apply inert_lift|intros ?]). apply inert_ret.
Qed.

Lemma inert_inv {T} (m : M XW T) w : inert m -> signal_inv w ->
  signal_inv (snd (m w)) /\ rows (sx_db (snd (m w))) = rows (sx_db w).
Proof.
  intros Hq (H1 & H2 & H3). destruct (Hq w) as (E1 & E2 & E3). rewrite E1. split; [|done].
  unfold signal_inv. rewrite E1, E2. split_and!; [|done..]. rewrite Forall_forall in *. intros x Hx. apply H1. by apply E3.
Qed.

(** ** One call *)

(** What a result says about the committed signals. *)
Definition answer_holds (s : StrategySignal) (w w' : XW) (o : SignalIngestResult) : Prop :=
  match si_state o with
  | ss_PERSISTED => exists key hash, compute_signal_identity_key fromisoformat s = Ok key /\
      compute_signal_content_hash fromisoformat s = Ok hash /\
      ~ (exists h, stored (sx_db w) key h) /\ stored (sx_db w') key hash
  | ss_DUPLICATE => exists key hash, compute_signal_identity_key fromisoformat s = Ok key /\
      compute_signal_content_hash fromisoformat s = Ok hash /\ stored (sx_db w') key hash
  | ss_CONFLICT => exists key hash h', compute_signal_identity_key fromisoformat s = Ok key /\
      compute_signal_content_hash fromisoformat s = Ok hash /\ h' <> hash /\ stored (sx_db w') key h'
  | _ => rows (sx_db w') = rows (sx_db w)
  end.

(** The outcome of a call: the invariant is kept, rows are only added, only a
    PERSISTED answer adds one, under an id of its own, and the answer is true. *)
Definition call_ok (s : StrategySignal) (w : XW) (r : res SignalIngestResult) (w' : XW) : Prop :=
  signal_inv w' /\ rows (sx_db w) ⊆ rows (sx_db w') /\
  (forall o, r = Ok o -> answer_holds s w w' o) /\
  ((forall o, r = Ok o -> si_state o <> ss_PERSISTED) -> rows (sx_db w') = rows (sx_db w)) /\
  (forall j x, rows (sx_db w') !! j = Some x -> rows (sx_db w) !! j = Some x \/
     exists n y, x = RSignal y /\ sr_id y = se_uuid4 se n).

Lemma seen_record_spec k h (w : XW) r w' : seen_record se k h w = (r, w') ->
  r = Ok tt /\ sx_db w' = sx_db w /\ sx_fanned_out w' = sx_fanned_out w /\
  forall x, x ∈ sx_seen w' -> x ∈ sx_seen w \/ x = (k, h).
Proof.
  unfold seen_record, bind, gets, sx_set_seen, modify. cbn beta iota zeta. intros [= <- <-]. simpl. split_and!; [done..|].
  assert (forall x, x ∈ od_put k h (sx_seen w) -> x ∈ sx_seen w \/ x = (k, h)) as Hp.
  { intros x. unfold od_put. rewrite elem_of_app, list_elem_of_singleton.
    intros [Hx|]; [left; by eapply od_del_sub|by right]. }
  intros x. destruct (_ <? _); [|apply Hp]. intros Hx. apply Hp. by eapply subseteq_drop.
Qed.

Lemma inv_seen w w' k h : signal_inv w -> rows (sx_db w) ⊆ rows (sx_db w') ->
  stored (sx_db w') k h -> sx_fanned_out w' = sx_fanned_out w ->
  (forall x, x ∈ sx_seen w' -> x ∈ sx_seen w \/ x = (k, h)) -> signal_inv w'.
Proof.
  intros (H1 & H2 & H3) Hg Hs Hf Hx. unfold signal_inv. rewrite Hf. split_and!; [| |done].
  - rewrite Forall_forall in *. intros x [Hin| ->]%Hx; [|done]. eapply stored_grows; [done|]. by apply H1.
  - eapply Forall_impl; [exact H2|]. intros rec. by apply backed_grows.
Qed.

Lemma added_stored row db db' j : added (RSignal row) db db' j ->
  stored db' (sr_identity_key row) (sr_content_hash row) /\
  ~ (exists h, stored db (sr_identity_key row) h).
Proof.
  intros Hadd. split.
  - destruct Hadd as (_ & Hr & _). exists j, row. by rewrite Hr, lookup_insert_eq.
  - intros (h & i & x & Hx & Hk & _).
    eapply (added_fresh refs signal_identity); [constructor|exact Hadd|done|exact Hx|].
    unfold signal_identity. simpl. by rewrite Hk.
Qed.

Lemma inv_inserted w w' row j rec : signal_inv w -> added (RSignal row) (sx_db w) (sx_db w') j ->
  sx_fanned_out w' = sx_fanned_out w ++ [rec] ->
  (forall x, x ∈ sx_seen w' -> x ∈ sx_seen w \/ x = (sr_identity_key row, sr_content_hash row)) ->
  sl_state rec = ss_PERSISTED -> sl_identity_key rec = sr_identity_key row -> sl_record_id rec = sr_id row ->
  sr_signal_id row = sg_signal_id (sl_signal rec) ->
  compute_signal_identity_key fromisoformat (sl_signal rec) = Ok (sr_identity_key row) -> signal_inv w'.
Proof.
  intros (H1 & H2 & H3) Hadd Hf Hs Est Ek Eid Esid Ec.
  destruct (added_stored _ _ _ _ Hadd) as [Hst Hno].
  assert (rows (sx_db w) ⊆ rows (sx_db w')) as Hg
    by (destruct Hadd as (Hn & -> & _); by apply insert_subseteq).
  unfold signal_inv. rewrite Hf, Forall_app, Forall_singleton, fmap_app. split_and!.
  - rewrite Forall_forall in *. intros x [Hin| ->]%Hs; [|done]. eapply stored_grows; [done|]. by apply H1.
  - eapply Forall_impl; [exact H2|]. intros x. by apply backed_grows.
  - unfold backed. rewrite Ek. split_and!; [done..|]. exists j, row.
    destruct Hadd as (_ & Hr & _). by rewrite Hr, lookup_insert_eq.
  - apply NoDup_app. split_and!; [done| |apply NoDup_singleton].
    intros x Hx ->%list_elem_of_singleton. apply list_elem_of_fmap in Hx as (x & Hrk & Hx).
    rewrite Forall_forall in H2. destruct (H2 _ Hx) as (_ & _ & i & r & Hr & _ & Hkey & _).
    apply Hno. exists (sr_content_hash r), i, r. split_and!; [done| |done]. congruence.
Qed.

Lemma accept_ok s k h w r w' : signal_inv w ->
  compute_signal_identity_key fromisoformat s = Ok k -> compute_signal_content_hash fromisoformat s = Ok h ->
  accept_signal se s ss_VALIDATED k h w = (r, w') -> call_ok s w r w'.
Proof.
  intros Hi Hk Hh E. unfold accept_signal in E.
  apply lift_run in E as [(e & [=] & _)|(m1 & [= <-] & E)]. unfold bind at 1, sx_call in E. cbn beta iota in E.
  unfold bind at 1 in E. cbn beta iota zeta in E.
  set (w1 := {| sx_tick := S (sx_tick {| sx_tick := _ |}) |}) in E. simpl in w1.
  match type of E with context [to_orm_signal ?i _ _ _ _ ?n] =>
    set (orm := to_orm_signal i s k h (signal_state_value ss_PERSISTED) n) in E end.
  assert (sx_db w1 = sx_db w /\ sx_seen w1 = sx_seen w /\ sx_fanned_out w1 = sx_fanned_out w) as (D1 & S1 & F1) by done.
  clearbody w1. unfold bind at 1, try_except, on_db, zoom, bind at 1 in E. rewrite D1 in E.
  destruct (signal_persist orm (sx_db w)) as [ro db'] eqn:Ep.
  pose proof (signal_persist_grows _ _ _ _ Ep) as Hg. apply signal_persist_spec in Ep.

  destruct ro as [[]|e]; cbn beta iota zeta in E.
  - destruct Ep as (j & Hadd). apply lift_run in E as [(e & [=] & _)|(m2 & [= <-] & E)].
    unfold bind at 1 in E. match type of E with context [seen_record se k h ?w0] =>
      destruct (seen_record se k h w0) as [rr w3] eqn:Es end.
    apply seen_record_spec in Es as (-> & D3 & F3 & Hs3). simpl in D3, F3, Hs3. injection E as <- <-.
    destruct (added_stored _ _ _ _ Hadd) as [Hst Hno]. simpl in Hst, Hno.
    unfold call_ok. simpl. rewrite D3. split_and!; [|done| | |].
    + eapply (inv_inserted w _ orm j); simpl; [done|by rewrite ?D3|by rewrite F3, F1| |done..].
      rewrite <- S1. exact Hs3.
    + intros o [= <-]. simpl. exists k, h. by rewrite ?D3.
    + intros Hne. by destruct (Hne _ eq_refl).
    + destruct Hadd as (_ & -> & _). intros i x [[<- <-]|[_ Hx]]%lookup_insert_Some; [right|by left]. by eexists _, orm.
  - destruct Ep as [Er Hst]. apply lift_run in E as [(e & [=] & _)|(m2 & [= <-] & E)].
    unfold bind at 1 in E. match type of E with context [seen_record se k h ?w0] =>
      destruct (seen_record se k h w0) as [rr w3] eqn:Es end.
    apply seen_record_spec in Es as (-> & D3 & F3 & Hs3). simpl in D3, F3, Hs3. injection E as <- <-.
    unfold call_ok. simpl. rewrite D3. split_and!; [|done| |done|rewrite Er; by left].
    + eapply (inv_seen w _ k h); [done|by rewrite ?D3|by rewrite ?D3|by rewrite F3|].
      simpl. rewrite <- S1. exact Hs3.
    + intros o [= <-]. simpl. exists k, h. by rewrite ?D3.
  - destruct Ep as (Er & h' & Hne & Hst). apply lift_run in E as [(e & [=] & _)|(m2 & [= <-] & E)].
    injection E as <- <-. unfold call_ok. simpl. split_and!; [|done| |done|rewrite Er; by left].
    + eapply (inv_seen w _ k h'); [done..|]. simpl. rewrite S1. auto.
    + intros o [= <-]. simpl. exists k, h, h'. done.
  - injection E as <- <-. unfold call_ok. simpl. split_and!; [|done| |done|rewrite Ep; by left].
    + destruct Hi as (H1 & H2 & H3). unfold signal_inv. simpl. rewrite S1, F1. split_and!; [| |done].
      * eapply Forall_impl; [exact H1|]. intros x. by apply stored_grows.
      * eapply Forall_impl; [exact H2|]. intros x. by apply backed_grows.
    + intros o [= <-]. simpl. exact Ep.
Qed.

Lemma same_rows_ok s (w w1 w' : XW) r : signal_inv w1 -> rows (sx_db w1) = rows (sx_db w) ->
  call_ok s w1 r w' -> call_ok s w r w'.
Proof.
  intros Hi Hr (H1 & H2 & H3 & H4 & H5). unfold call_ok. rewrite <- Hr. split_and!; [done|done| |done|done]. intros o Ho.
  specialize (H3 o Ho). unfold answer_holds in *. destruct (si_state o); try (by rewrite <- Hr).
  - destruct H3 as (k & h & ? & ? & Hno & ?). exists k, h. split_and!; [done..| |done].
    intros (h' & j & x & Hx & ?). apply Hno. exists h', j, x. by rewrite Hr.
  - done.
  - done.
Qed.

Lemma same_row_answer s w (w' : XW) r : signal_inv w' -> rows (sx_db w') = rows (sx_db w) ->
  (forall o, r = Ok o -> answer_holds s w w' o) -> call_ok s w r w'.
Proof. intros Hi Hr Ha. unfold call_ok. rewrite Hr. split_and!; auto. Qed.

(** The answer from the in-memory table. *)
Lemma seen_check_spec k h (w : XW) r w' : signal_inv w -> seen_check k h w = (r, w') ->
  match r with
  | Ok None => True
  | Ok (Some so_DUPLICATE) => stored (sx_db w) k h
  | Ok (Some so_CONFLICT) => exists h', h' <> h /\ stored (sx_db w) k h'
  | Ok (Some so_INSERTED) => False
  | Err _ => False
  end.
Proof.
  intros (H1 & _) E. unfold seen_check, bind, gets in E. simpl in E.
  destruct (od_get k (sx_seen w)) as [h'|] eqn:Eg; [|by injection E as <- _].
  apply od_get_in in Eg. rewrite Forall_forall in H1. specialize (H1 _ Eg). simpl in H1.
  unfold bind, sx_set_seen, modify, ret in E. injection E as <- _.
  destruct (String.eqb_spec h' h) as [->|]; [done|]. eauto.
Qed.

Lemma ingest_valid_ok s w r w' : signal_inv w ->
  ingest_valid fromisoformat se s ss_VALIDATED w = (r, w') -> call_ok s w r w'.
Proof.
  intros Hi E. unfold ingest_valid in E.
  apply lift_run in E as [(e & _ & -> & ->)|(k & Hk & E)]; [by apply same_row_answer|].
  apply lift_run in E as [(e & _ & -> & ->)|(h & Hh & E)]; [by apply same_row_answer|].
  destruct (inert_inv (is_expired fromisoformat se s) w (inert_expired s) Hi) as [Hi1 Hr1].
  apply bind_run in E as [(e & E1 & ->)|([] & w1 & E1 & E)]; rewrite E1 in Hi1, Hr1; simpl in Hi1, Hr1.
  - by apply same_row_answer.
  - apply lift_run in E as [(e & [=] & _)|(m & [= <-] & E)]. injection E as <- <-.
    apply same_row_answer; [exact Hi1|exact Hr1|]. by intros o [= <-].
  - apply (same_rows_ok s w w1); [done..|]. clear E1 Hr1 Hi w.
    destruct (inert_inv (seen_check k h) w1 (inert_check k h) Hi1) as [Hi2 Hr2].
    apply bind_run in E as [(e & E2 & ->)|(o & w2 & E2 & E)]; pose proof (seen_check_spec _ _ _ _ _ Hi1 E2) as Hsc;
      rewrite E2 in Hi2, Hr2; simpl in Hi2, Hr2; [done|].
    apply (same_rows_ok s w1 w2); [done..|].
    assert (forall x, stored (sx_db w1) k x -> stored (sx_db w2) k x) as Hst
      by (intros x; apply stored_grows; by rewrite Hr2).
    destruct o as [[]|]; [done| | |by eapply accept_ok].
    + apply lift_run in E as [(e & [=] & _)|(m & [= <-] & E)]. injection E as <- <-.
      apply same_row_answer; [exact Hi2|done|]. intros o [= <-]. exists k, h. split_and!; [done..|]. by apply Hst.
    + apply lift_run in E as [(e & [=] & _)|(m & [= <-] & E)]. injection E as <- <-.
      destruct Hsc as (h' & Hne & Hs').
      apply same_row_answer; [exact Hi2|done|]. intros o [= <-]. exists k, h, h'. split_and!; [done..|]. by apply Hst.
Qed.

Lemma ingest_call_ok s mode (w : XW) r w' : signal_inv w ->
  ingest fromisoformat se s mode w = (r, w') -> call_ok s w r w'.
Proof.
  intros Hi E. unfold ingest in E.
  unfold bind at 1, sx_inc at 1, modify in E. unfold bind at 1, sx_record_keys, modify in E.
  unfold bind at 1, sx_call in E. unfold bind at 1 in E. cbn beta iota zeta in E. simpl in E.
  match type of E with bind _ _ ?w0 = _ => set (w1 := w0) in E end.
  assert (signal_inv w1) as Hi1 by done.
  apply (same_rows_ok s w w1); [done..|]. clearbody w1. clear Hi.
  apply bind_run in E as [(e & E1 & ->)|(v & w2 & E1 & E)]; unfold try_except, bind, lift in E1.
  - assert (w' = w1) as ->.
    { destruct (validate_signal _ _ _ _ _ _) as [[]|x]; simpl in E1; [done|].
      destruct (isinstance x SignalTradingModeError); [by injection E1 as _ <-|].
      destruct (isinstance x SignalRejectedError); [done|by injection E1 as _ <-]. }
    by apply same_row_answer.
  - assert (w2 = w1 /\ (v = inl ss_VALIDATED \/ exists x, v = inr x)) as [-> Hv].
    { destruct (validate_signal _ _ _ _ _ _) as [[]|x]; simpl in E1; [injection E1 as <- <-; eauto|].
      destruct (isinstance x SignalTradingModeError); [done|].
      destruct (isinstance x SignalRejectedError); [|done]. injection E1 as <- <-. eauto. }
    destruct Hv as [->|[x ->]]; [by apply ingest_valid_ok|].
    apply lift_run in E as [(e & [=] & _)|(m & [= <-] & E)]. injection E as <- <-.
    apply same_row_answer; [done..|]. by intros o [= <-].
Qed.

(** The signal engine's answers are true and its table is append-only.
    Whatever the database does, a call of [ingest] keeps the engine consistent
    and never changes or removes a stored signal; PERSISTED means that the
    signal's identity was not stored before and is now, DUPLICATE that a
    signal with the same identity and content is stored, CONFLICT that one
    with the same identity and another content is, and every other answer and
    every exception that nothing was stored. *)
Theorem signal_answers_are_true s mode (w : XW) r w' : signal_inv w ->
  ingest fromisoformat se s mode w = (r, w') -> call_ok s w r w'.
Proof. apply ingest_call_ok. Qed.

(** ** Sequences of calls *)

Definition run_ingest (w : XW) (call : StrategySignal * string) : XW :=
  snd (ingest fromisoformat se call.1 call.2 w).

(** The primary key of every signal row is one of the engine's ids. *)
Definition own_ids (w : XW) : Prop := forall j x u, rows (sx_db w) !! j = Some x ->
  signal_pk x = Some u -> exists n, u = se_uuid4 se n.

Lemma run_own_ids calls : forall w, signal_inv w -> own_ids w -> own_ids (foldl run_ingest w calls).
Proof.
  induction calls as [|[s mode] calls IH]; intros w Hi Ho; [done|]. simpl. unfold run_ingest at 2. simpl.
  destruct (ingest fromisoformat se s mode w) as [r w'] eqn:E.
  destruct (ingest_call_ok s mode w r w' Hi E) as (Hi' & _ & _ & _ & Hn). apply (IH w' Hi').
  intros j x u Hx Hu. destruct (Hn j x Hx) as [Hx'|(n & y & -> & Hy)]; [by eapply Ho|].
  exists n. by injection Hu as <-.
Qed.

Lemma run_ingests calls : forall w, signal_inv w ->
  signal_inv (foldl run_ingest w calls) /\ rows (sx_db w) ⊆ rows (sx_db (foldl run_ingest w calls)).
Proof.
  induction calls as [|[s mode] calls IH]; intros w Hi; [done|]. simpl. unfold run_ingest at 2 4. simpl.
  destruct (ingest fromisoformat se s mode w) as [r w'] eqn:E.
  destruct (ingest_call_ok s mode w r w' Hi E) as (Hi' & Hg & _). destruct (IH w' Hi') as [H1 H2].
  split; [done|]. by etrans.
Qed.

(** A signal reaches the consumers at most once and only after its
    commit.  Over any sequence of [ingest] calls of a new engine, and whatever
    the database does, every record passed to the consumers is PERSISTED,
    carries the identity of its signal, and points to a stored signal row with
    that identity; no identity is passed twice, and every row stored at the
    start is still there. *)
Theorem signals_released_once calls (w0 : XW) : sx_seen w0 = [] -> sx_fanned_out w0 = [] ->
  let w := foldl run_ingest w0 calls in
  Forall (backed (sx_db w)) (sx_fanned_out w) /\ NoDup (sl_identity_key <$> sx_fanned_out w) /\
  rows (sx_db w0) ⊆ rows (sx_db w).
Proof.
  intros Hs Hf w. destruct (run_ingests calls w0) as [(_ & H1 & H2) Hg]; [|done].
  unfold signal_inv. rewrite Hs, Hf. split_and!; constructor.
Qed.

(** ** Batches *)

(** No mode error is raised. *)
Definition mode_safe {T} (r : res T) : Prop := forall e, r = Err e -> isinstance e SignalTradingModeError = false.
Definition no_mode_error {T} (m : M XW T) : Prop := forall w, mode_safe (fst (m w)).

Lemma ms_ok {T} (a : T) : mode_safe (Ok a).
Proof. done. Qed.
Lemma ms_rbind {A B} (m : res A) (k : A -> res B) :
  mode_safe m -> (forall a, mode_safe (k a)) -> mode_safe (rbind m k).
Proof. intros Hm Hk. destruct m as [a|e]; simpl; [apply Hk|]. intros x [= <-]. by apply Hm. Qed.
Lemma ms_raise {T} c msg : isinstance (mk_exn c msg) SignalTradingModeError = false -> mode_safe (@raise T c msg).
Proof. by intros H1 e [= <-]. Qed.
Lemma ms_raise_if b c msg : isinstance (mk_exn c msg) SignalTradingModeError = false -> mode_safe (raise_if b c msg).
Proof. intros H1. destruct b; [by apply ms_raise|done]. Qed.

Lemma nm_bind {A B} (m : M XW A) (k : A -> M XW B) :
  no_mode_error m -> (forall a, no_mode_error (k a)) -> no_mode_error (bind m k).
Proof.
  intros Hm Hk w. unfold bind. specialize (Hm w). destruct (m w) as [[a|e] w1]; [apply Hk|].
  intros x [= <-]. by apply Hm.
Qed.
Lemma nm_ret {A} (a : A) : no_mode_error (ret a).
Proof. done. Qed.
Lemma nm_lift {A} (r : res A) : mode_safe r -> no_mode_error (lift r).
Proof. by intros Hr w. Qed.

Context (iso_errors : forall text, mode_safe (fromisoformat text)).

Lemma ms_event_timestamp s : mode_safe (event_timestamp fromisoformat s).
Proof. unfold event_timestamp. destruct (sg_metadata s !! _) as [[]|]; try done; apply iso_errors. Qed.

Lemma ms_transition a b : mode_safe (signal_transition a b).
Proof. unfold signal_transition. case_bool_decide; [done|]. by apply ms_raise. Qed.

Lemma ms_dt_gt a b : mode_safe (dt_gt a b).
Proof. unfold dt_gt, dt_cmp. destruct (dt_comparable a b); [done|]. by apply ms_raise. Qed.

Lemma ms_validate s mode n1 n2 : py_upper mode ∈ SIMULATED ->
  mode_safe (validate_signal fromisoformat se s mode n1 n2).
Proof.
  intros Hm. unfold validate_signal. rewrite (bool_decide_eq_true_2 _ Hm). simpl.
  destruct (se_lookup se _) as [record|]; [|by apply ms_raise].
  repeat first [apply ms_rbind; [first [by apply ms_raise_if | apply ms_dt_gt | apply ms_event_timestamp]|intros ?]
               | by apply ms_raise_if].
Qed.

Lemma nm_accept s machine k h : no_mode_error (accept_signal se s machine k h).
Proof.
  unfold accept_signal. apply nm_bind; [apply nm_lift, ms_transition|]. intros m.
  apply nm_bind; [done|]. intros now. apply nm_bind; [done|]. intros id. cbn zeta. apply nm_bind.
  - intros w. unfold try_except. destruct (bind _ _ w) as [[a|e] w1]; done.
  - intros [[]|]; repeat (apply nm_bind; [first [apply nm_lift, ms_transition | done]|intros ?]); apply nm_ret.
Qed.

Lemma nm_ingest s mode : py_upper mode ∈ SIMULATED -> no_mode_error (ingest fromisoformat se s mode).
Proof.
  intros Hm. unfold ingest. do 2 (apply nm_bind; [done|intros ?]).
  apply nm_bind; [done|]. intros n1. apply nm_bind; [done|]. intros n2. apply nm_bind.
  { intros w. unfold try_except. pose proof (ms_validate s mode n1 n2 Hm) as Hv.
    unfold bind, lift. destruct (validate_signal _ _ _ _ _ _) as [[]|x]; [done|]. specialize (Hv x eq_refl).
    rewrite Hv. destruct (isinstance x SignalRejectedError); [done|]. by intros e [= <-]. }
  intros [m|x]; [|apply nm_bind; [apply nm_lift, ms_transition|]; by intros ? w]. unfold ingest_valid.
  apply nm_bind; [apply nm_lift, ms_rbind; [apply ms_event_timestamp|done]|]. intros k.
  apply nm_bind; [apply nm_lift, ms_rbind; [apply ms_event_timestamp|done]|]. intros h.
  apply nm_bind.
  { unfold is_expired. destruct (se_max_signal_age se); [|done]. apply nm_bind; [done|]. intros now.
    apply nm_bind; [apply nm_lift, ms_event_timestamp|]. intros ts. apply nm_bind; [|done].
    apply nm_lift. unfold dt_sub. destruct (dt_comparable now ts); [done|]. by apply ms_raise. }
  intros []; [apply nm_bind; [apply nm_lift, ms_transition|]; by intros ? w|]. apply nm_bind.
  { intros w. unfold seen_check, bind, gets. simpl. by destruct (od_get k (sx_seen w)). }
  intros [[]|]; try apply nm_accept; (apply nm_bind; [apply nm_lift, ms_transition|]; by intros ? w).
Qed.

Lemma ingest_isolated_total s mode (w : XW) : py_upper mode ∈ SIMULATED ->
  exists o, fst (ingest_isolated fromisoformat se s mode w) = Ok o.
Proof.
  intros Hm. unfold ingest_isolated, try_except. pose proof (nm_ingest s mode Hm w) as Hn.
  destruct (ingest fromisoformat se s mode w) as [[o|e] w1]; [by eexists|]. rewrite (Hn e eq_refl). by eexists.
Qed.

(** A batch loses nothing: in a simulated mode [ingest_many] always
    returns, with one result per signal, whatever the signals contain and
    whatever the database does. *)
Theorem batch_answers_every_signal signals mode (w : XW) : py_upper mode ∈ SIMULATED ->
  exists rs, fst (ingest_many fromisoformat se signals mode w) = Ok rs /\
    List.length rs = List.length signals.
Proof.
  intros Hm. revert w. induction signals as [|s rest IH]; intros w; [by exists []|]. simpl. unfold bind at 1.
  destruct (ingest_isolated_total s mode w Hm) as [o Ho].
  destruct (ingest_isolated fromisoformat se s mode w) as [r w1]. simpl in Ho. subst r.
  destruct (IH w1) as (rs & Hrs & Hl). unfold bind.
  destruct (ingest_many fromisoformat se rest mode w1) as [r w2]. simpl in Hrs. subst r.
  exists (o :: rs). simpl. by rewrite Hl.
Qed.
End SignalFacts.

(** * Concrete runs *)

Module SignalSample.
Open Scope string_scope.

Definition iso (text : string) : res datetime := raise ValueError "Invalid isoformat string".

Definition signal (id : UUID) (reason : string) : StrategySignal :=
  {| sg_signal_id := id; sg_strategy_id := 7; sg_strategy_version := "1.0"; sg_strategy_config_hash := "cfg";
     sg_instrument_id := 3; sg_action := BUY; sg_timestamp := utc 1000000; sg_confidence := Dec false 8 (-1);
     sg_reason := reason; sg_metadata := {[ "event_timestamp" := PDatetime (utc 1000000) ]} |}.

Definition config : SignalEngineConfig :=
  {| se_lookup := fun sid => if (sid =? 7)%N then Some
       {| sd_strategy_id := 7; sd_version := "1.0"; sd_config_hash := "cfg"; sd_code_hash := None;
          sd_enabled := true; sd_instruments := None |} else None;
     se_clock := fun n => utc (2000000 + Z.of_nat n); se_uuid4 := fun n => (500 + N.of_nat n)%N;
     se_future_skew := 5000000; se_max_signal_age := None; se_maxsize := 100000 |}.

Abbreviation db := (gmap N DomainRow).
Abbreviation refs := (fun _ : DomainRow => true).

Definition engine : SignalEngine db :=
  {| sx_db := ∅; sx_metrics := ∅; sx_per_strategy := ∅; sx_per_instrument := ∅; sx_seen := [];
     sx_tick := 0; sx_fanned_out := [] |}.

Abbreviation run := (ingest (refs:=refs) (DB:=db) iso config).

Lemma engine_inv : signal_inv (refs:=refs) iso engine.
Proof. unfold signal_inv, engine. split_and!; constructor. Qed.

(** Stored, repeated, contradicted. *)
Definition calls : list (StrategySignal * string) :=
  [(signal 11 "cross", "PAPER"); (signal 12 "cross", "PAPER"); (signal 13 "other", "PAPER")].

Example states : si_state <$> match fst (ingest_many (refs:=refs) iso config (fst <$> calls) "PAPER" engine) with
  | Ok rs => rs | Err _ => [] end = [ss_PERSISTED; ss_DUPLICATE; ss_CONFLICT].
Proof. vm_compute. reflexivity. Qed.

Lemma released_witness :
  List.length (sx_fanned_out (foldl (run_ingest (refs:=refs) iso config) engine calls)) = 1%nat /\
  NoDup (sl_identity_key <$> sx_fanned_out (foldl (run_ingest (refs:=refs) iso config) engine calls)).
Proof.
  split; [vm_compute; reflexivity|].
  exact (proj1 (proj2 (signals_released_once (refs:=refs) iso config calls engine eq_refl eq_refl))).
Defined.

Lemma answers_witness : call_ok (refs:=refs) iso config (signal 11 "cross") engine
  (fst (run (signal 11 "cross") "paper" engine)) (snd (run (signal 11 "cross") "paper" engine)).
Proof.
  apply (signal_answers_are_true (refs:=refs) iso config (signal 11 "cross") "paper"); [exact engine_inv|].
  apply surjective_pairing.
Defined.

Lemma batch_witness : exists rs,
  fst (ingest_many (refs:=refs) iso config (fst <$> calls) "PAPER" engine) = Ok rs /\ List.length rs = 3%nat.
Proof.
  apply (batch_answers_every_signal (refs:=refs) iso config).
  - intros text e [= <-]. reflexivity.
  - vm_compute. apply list_elem_of_further, list_elem_of_here.
Defined.
End SignalSample.
