(* ===== verification/Trading.v ===== *)
(** The trading orchestrator (services/trading_engine): state.py, intent.py,
    identity.py, oms_port.py, repository.py and service.py.

    The orchestrator runs on top of the risk service ([RiskService]) and of the
    signal records the signal engine ([Signal]) passes on.  Its order-intent
    resolver, its clock and the port to the order management system are
    parameters; the port's calls are observed as a list.  The id of a stored
    record is not part of the results here. *)

From stdpp Require Import base list strings gmap fin_maps.
From Stdlib Require Import ZArith Lia String.
From S2P Require Import Prelude PyBase Hashing Decimal DecimalText Contracts Sql Service RiskRules RiskService TradingDb Signal.
Open Scope Z_scope.

(** * state.py *)

Inductive OrchestrationState :=
| os_RECEIVED | os_VALIDATED | os_RISK_EVALUATED | os_APPROVED | os_OMS_HANDOFF_READY
| os_REJECTED | os_FAILED | os_DUPLICATE.

#[export] Instance OrchestrationState_eq_dec : EqDecision OrchestrationState.
Proof. solve_decision. Defined.

Definition orchestration_value (s : OrchestrationState) : string :=
  match s with
  | os_RECEIVED => "received" | os_VALIDATED => "validated" | os_RISK_EVALUATED => "risk_evaluated"
  | os_APPROVED => "approved" | os_OMS_HANDOFF_READY => "oms_handoff_ready" | os_REJECTED => "rejected"
  | os_FAILED => "failed" | os_DUPLICATE => "duplicate"
  end.

Definition TERMINAL_STATES : list OrchestrationState :=
  [os_REJECTED; os_FAILED; os_DUPLICATE; os_OMS_HANDOFF_READY].

Definition orchestration_transitions (s : OrchestrationState) : list OrchestrationState :=
  match s with
  | os_RECEIVED => [os_VALIDATED; os_REJECTED]
  | os_VALIDATED => [os_RISK_EVALUATED; os_REJECTED]
  | os_RISK_EVALUATED => [os_APPROVED; os_REJECTED]
  | os_APPROVED => [os_OMS_HANDOFF_READY; os_FAILED]
  | _ => []
  end.

(** [OrchestrationStateMachine.transition]; the machine is its state. *)
Definition orchestrate_to (machine to : OrchestrationState) : res OrchestrationState :=
  if bool_decide (to ∈ orchestration_transitions machine) then Ok to
  else raise OrchestrationStateError ("illegal transition " +:+ orchestration_value machine +:+ " -> " +:+
                                      orchestration_value to).

(** * intent.py and oms_port.py *)

Record TradingIntent := {
  ti_correlation_id : UUID;
  ti_orchestration_id : string;
  ti_account_id : option UUID;
  ti_strategy_id : UUID;
  ti_strategy_version : string;
  ti_strategy_config_hash : string;
  ti_strategy_run_id : option UUID;
  ti_signal_id : UUID;
  ti_signal_identity_key : string;
  ti_instrument_id : UUID;
  ti_action : string;
  ti_quantity : decimal;
  ti_order_type : string;
  ti_limit_price : option decimal;
  ti_trading_mode : string;
  ti_risk_decision_id : UUID;
  ti_approval_id : option UUID;
  ti_approval_expires_at : option datetime;
  ti_binding_hash : string;
  ti_metadata : metadata;
}.

Record HandoffResult := { hr_delivered : bool; hr_reason : string }.

(** [NoOpOmsPort.handoff] *)
Definition noop_port (_ : nat) (_ : TradingIntent) : res HandoffResult :=
  Ok {| hr_delivered := true; hr_reason := "" |}.

(** [UnavailableOrderIntentResolver.resolve] *)
Definition unavailable_resolver (_ : StrategySignal) (_ : string) : res (option RiskOrderIntent) := Ok None.

(** * identity.py *)

Definition compute_orchestration_identity_key (fromisoformat : string -> res datetime)
    (signal : StrategySignal) (intent : option RiskOrderIntent) (trading_mode : string) : res string :=
  let! signal_identity := compute_signal_identity_key fromisoformat signal in
  let quantity := match intent with Some i => in_quantity i | None => None end in
  let account_id := match intent with Some i => in_account_id i | None => None end in
  let order_type := match intent with Some i => Some (in_order_type i) | None => None end in
  Ok (sha256_hex (json_compact
    [("signal_identity"%string, JStr signal_identity);
     ("strategy_run_id"%string, json_opt_str (run_id_from signal));
     ("quantity"%string, json_opt_str (dec_str <$> quantity));
     ("account_id"%string, json_opt_str (uuid_str <$> account_id));
     ("order_type"%string, json_opt_str order_type);
     ("trading_mode"%string, JStr (py_upper trading_mode))])).

(** * repository.py *)

Definition str_opt {T} (f : T -> string) (v : option T) : string :=
  match v with Some x => f x | None => "None" end.

Definition to_orm_trading_intent (i : TradingIntent) (state : OrchestrationState)
    (reason_code reason : option string) : TradingIntentRecord := {|
  tr_orchestration_id := ti_orchestration_id i;
  tr_correlation_id := Some (uuid_str (ti_correlation_id i));
  tr_signal_id := Some (ti_signal_id i);
  tr_strategy_id := Some (ti_strategy_id i);
  tr_strategy_version := Some (ti_strategy_version i);
  tr_strategy_config_hash := Some (ti_strategy_config_hash i);
  tr_strategy_run_id := ti_strategy_run_id i;
  tr_account_id := ti_account_id i;
  tr_instrument_id := Some (ti_instrument_id i);
  tr_action := Some (ti_action i);
  tr_order_type := Some (ti_order_type i);
  tr_quantity := Some (ti_quantity i);
  tr_limit_price := ti_limit_price i;
  tr_trading_mode := Some (ti_trading_mode i);
  tr_risk_decision_id := Some (ti_risk_decision_id i);
  tr_approval_id := Some (str_opt uuid_str (ti_approval_id i));
  tr_approval_expires_at := ti_approval_expires_at i;
  tr_binding_hash := Some (ti_binding_hash i);
  tr_state := orchestration_value state;
  tr_reason_code := reason_code;
  tr_reason := reason;
  tr_intent_metadata := Some (ti_metadata i);
|}.

Definition to_orm_rejection (signal : StrategySignal) (intent : option RiskOrderIntent)
    (trading_mode orchestration_id reason_code reason : string) (decision : option RiskDecision)
    : TradingIntentRecord := {|
  tr_orchestration_id := orchestration_id;
  tr_correlation_id := None;
  tr_signal_id := Some (sg_signal_id signal);
  tr_strategy_id := Some (sg_strategy_id signal);
  tr_strategy_version := Some (sg_strategy_version signal);
  tr_strategy_config_hash := Some (sg_strategy_config_hash signal);
  tr_strategy_run_id := parse_run_id (run_id_from signal);
  tr_account_id := match intent with Some i => in_account_id i | None => None end;
  tr_instrument_id := Some (sg_instrument_id signal);
  tr_action := Some (action_value (sg_action signal));
  tr_order_type := in_order_type <$> intent;
  tr_quantity := match intent with Some i => in_quantity i | None => None end;
  tr_limit_price := None;
  tr_trading_mode := Some trading_mode;
  tr_risk_decision_id := rd_decision_id <$> decision;
  tr_approval_id := None;
  tr_approval_expires_at := None;
  tr_binding_hash := None;
  tr_state := orchestration_value os_REJECTED;
  tr_reason_code := Some reason_code;
  tr_reason := Some reason;
  tr_intent_metadata := None;
|}.

Inductive intent_outcome := io_INSERTED | io_DUPLICATE.

Section IntentRepository.
Context {refs : DomainRow -> bool} {DB : Type} `{Session DB DomainRow (domain_constraint refs)}.

Definition is_intent (orchestration_id : string) (r : DomainRow) : bool :=
  bool_decide (intent_orchestration r = Some orchestration_id).

Definition intent_persist (record : TradingIntentRecord) : M DB intent_outcome :=
  let* existing := scalar_one_or_none (is_intent (tr_orchestration_id record)) in
  match existing with
  | Some _ => ret io_DUPLICATE
  | None => commit [Add (RIntent record)] ;* ret io_INSERTED
  end.
End IntentRepository.

(** * service.py *)

Definition TRADABLE_ACTIONS : list SignalAction := [BUY; SELL; EXIT].

Record OrchestrationResult := {
  ot_state : OrchestrationState;
  ot_intent : option TradingIntent;
  ot_risk_decision : option RiskDecision;
  ot_persisted : bool;
  ot_handoff_delivered : bool;
  ot_reason_code : option string;
  ot_reason : string;
}.

Record OrchestratorConfig := {
  tg_clock : nat -> datetime;
  tg_uuid4 : nat -> UUID;
  tg_capacity : Z;
  tg_resolve : StrategySignal -> string -> res (option RiskOrderIntent);
  tg_port : nat -> TradingIntent -> res HandoffResult;
}.

(** The orchestrator with its risk service (database [RDB]) and its repository
    (database [DB]). *)
Record Orchestrator (RDB DB : Type) := {
  tw_risk : RiskServiceState RDB;
  tw_repository : option DB;
  tw_handed_off : list (string * TradingIntent);
  tw_metrics : gmap string Z;
  tw_by_state : gmap string Z;
  tw_tick : nat;
  tw_delivered : list TradingIntent;       (* the intents the port was called with *)
}.
Arguments tw_risk {RDB DB} _.
Arguments tw_repository {RDB DB} _.
Arguments tw_handed_off {RDB DB} _.
Arguments tw_metrics {RDB DB} _.
Arguments tw_by_state {RDB DB} _.
Arguments tw_tick {RDB DB} _.
Arguments tw_delivered {RDB DB} _.

(** A price given as text or number in the metadata. *)
Definition extract_limit_price (i : RiskOrderIntent) : option decimal :=
  match in_metadata i !! "limit_price"%string with
  | None | Some PNone => None
  | Some v => dec_parse (py_str v)
  end.

Definition build_intent (correlation_id : UUID) (orchestration_id : string) (signal : StrategySignal)
    (record : SignalRecord) (i : RiskOrderIntent) (quantity : decimal) (mode : string)
    (decision : RiskDecision) (binding : string) : TradingIntent := {|
  ti_correlation_id := correlation_id;
  ti_orchestration_id := orchestration_id;
  ti_account_id := in_account_id i;
  ti_strategy_id := sg_strategy_id signal;
  ti_strategy_version := sg_strategy_version signal;
  ti_strategy_config_hash := sg_strategy_config_hash signal;
  ti_strategy_run_id := parse_run_id (run_id_from signal);
  ti_signal_id := sg_signal_id signal;
  ti_signal_identity_key := sl_identity_key record;
  ti_instrument_id := sg_instrument_id signal;
  ti_action := action_value (sg_action signal);
  ti_quantity := quantity;
  ti_order_type := in_order_type i;
  ti_limit_price := extract_limit_price i;
  ti_trading_mode := mode;
  ti_risk_decision_id := rd_decision_id decision;
  ti_approval_id := rd_approval_id decision;
  ti_approval_expires_at := rd_expires_at decision;
  ti_binding_hash := binding;
  ti_metadata := in_metadata i;
|}.

Section Orchestrator.
Context {RDB : Type} `{RS : Session RDB RiskEvent risk_constraint}.
Context {refs : DomainRow -> bool} {DB : Type} `{TS : Session DB DomainRow (domain_constraint refs)}.
Context (sc : RiskServiceConfig) (tg : OrchestratorConfig).
Abbreviation TW := (Orchestrator RDB DB).

Definition tw_set (risk : RiskServiceState RDB) (repository : option DB)
    (handed : list (string * TradingIntent)) (delivered : list TradingIntent) (w : TW) : TW :=
  {| tw_risk := risk; tw_repository := repository; tw_handed_off := handed;
     tw_metrics := tw_metrics w; tw_by_state := tw_by_state w; tw_tick := tw_tick w;
     tw_delivered := delivered |}.

Definition tw_call {T} (f : nat -> T) : M TW T :=
  fun w => (Ok (f (tw_tick w)),
            {| tw_risk := tw_risk w; tw_repository := tw_repository w; tw_handed_off := tw_handed_off w;
               tw_metrics := tw_metrics w; tw_by_state := tw_by_state w; tw_tick := S (tw_tick w);
               tw_delivered := tw_delivered w |}).

Definition tw_inc (name : string) : M TW unit :=
  modify (fun w =>
    {| tw_risk := tw_risk w; tw_repository := tw_repository w; tw_handed_off := tw_handed_off w;
       tw_metrics := bump (tw_metrics w) name; tw_by_state := tw_by_state w; tw_tick := tw_tick w;
       tw_delivered := tw_delivered w |}).

Definition record_state (s : OrchestrationState) : M TW unit :=
  modify (fun w =>
    {| tw_risk := tw_risk w; tw_repository := tw_repository w; tw_handed_off := tw_handed_off w;
       tw_metrics := tw_metrics w; tw_by_state := bump (tw_by_state w) (orchestration_value s);
       tw_tick := tw_tick w; tw_delivered := tw_delivered w |}).

Definition on_risk {T} (m : M (RiskServiceState RDB) T) : M TW T :=
  zoom tw_risk (fun r w => tw_set r (tw_repository w) (tw_handed_off w) (tw_delivered w) w) m.

(** [self._repository.persist(record)] where there is a repository; an
    exception is caught and is [None] here. *)
Definition try_persist (record : TradingIntentRecord) : M TW (option intent_outcome) :=
  fun w => match tw_repository w with
           | None => (Ok None, w)
           | Some db =>
               let '(r, db') := intent_persist record db in
               (Ok (match r with Ok o => Some o | Err _ => None end),
                tw_set (tw_risk w) (Some db') (tw_handed_off w) (tw_delivered w) w)
           end.

Definition remember_handed_off (identity : string) (i : TradingIntent) : M TW unit :=
  modify (fun w =>
    let l := od_put identity i (tw_handed_off w) in
    tw_set (tw_risk w) (tw_repository w)
      (drop (List.length l - Z.to_nat (tg_capacity tg)) l) (tw_delivered w) w) ;*
  lift (raise_if (tg_capacity tg <? 0) KeyError "dictionary is empty").

(** [self._oms_port.handoff(intent)] *)
Definition call_port (i : TradingIntent) : M TW HandoffResult :=
  let* w := gets id in
  modify (fun w => tw_set (tw_risk w) (tw_repository w) (tw_handed_off w) (tw_delivered w ++ [i]) w) ;*
  lift (tg_port tg (List.length (tw_delivered w)) i).

Definition orch_reject (signal : StrategySignal) (intent : option RiskOrderIntent) (mode : string)
    (machine : OrchestrationState) (reason_code reason : string) (persist : bool)
    (decision : option RiskDecision) : M TW OrchestrationResult :=
  lift (orchestrate_to machine os_REJECTED) ;*
  tw_inc "signals_rejected" ;*
  record_state os_REJECTED ;*
  let* durable := gets (fun w => match tw_repository w with Some _ => true | None => false end) in
  let* persisted :=
    if persist && durable then
      let* orchestration_id :=
        lift (compute_orchestration_identity_key (sc_fromisoformat sc) signal intent mode) in
      let* outcome := try_persist
        (to_orm_rejection signal intent mode orchestration_id reason_code reason decision) in
      match outcome with
      | Some io_INSERTED => ret true
      | Some io_DUPLICATE => ret false
      | None => tw_inc "persistence_failures" ;* ret false
      end
    else ret false in
  ret {| ot_state := os_REJECTED; ot_intent := None; ot_risk_decision := decision;
         ot_persisted := persisted; ot_handoff_delivered := false;
         ot_reason_code := Some reason_code; ot_reason := reason |}.

(** Step 9: whether the intent was claimed for this call. *)
Inductive claim := cl_DUPLICATE | cl_CLAIMED (persisted : bool) | cl_FAILED.

Definition claim_intent (machine : OrchestrationState) (i : TradingIntent) : M TW claim :=
  let identity := ti_orchestration_id i in
  let* w := gets id in
  match od_get identity (tw_handed_off w), tw_repository w with
  | Some _, _ => ret cl_DUPLICATE
  | None, Some _ =>
      let* outcome := try_persist (to_orm_trading_intent i os_OMS_HANDOFF_READY None None) in
      match outcome with
      | Some io_DUPLICATE => ret cl_DUPLICATE
      | Some io_INSERTED =>
          remember_handed_off identity i ;*
          lift (orchestrate_to machine os_OMS_HANDOFF_READY) ;*
          ret (cl_CLAIMED true)
      | None => tw_inc "persistence_failures" ;* record_state os_FAILED ;* ret cl_FAILED
      end
  | None, None =>
      remember_handed_off identity i ;*
      lift (orchestrate_to machine os_OMS_HANDOFF_READY) ;*
      ret (cl_CLAIMED false)
  end.

(** Steps 9 and 10. *)
Definition hand_off (machine : OrchestrationState) (i : TradingIntent) (decision : RiskDecision)
    : M TW OrchestrationResult :=
  let* c := claim_intent machine i in
  match c with
  | cl_FAILED =>
      ret {| ot_state := os_FAILED; ot_intent := Some i; ot_risk_decision := Some decision;
             ot_persisted := false; ot_handoff_delivered := false;
             ot_reason_code := Some "PERSISTENCE_FAILED"%string;
             ot_reason := "failed to durably persist the trading intent" |}
  | cl_DUPLICATE =>
      tw_inc "duplicates" ;*
      record_state os_DUPLICATE ;*
      ret {| ot_state := os_DUPLICATE; ot_intent := Some i; ot_risk_decision := Some decision;
             ot_persisted := false; ot_handoff_delivered := false;
             ot_reason_code := Some "DUPLICATE_ORCHESTRATION"%string;
             ot_reason := "signal already produced a trading intent" |}
  | cl_CLAIMED persisted =>
      let* handoff := call_port i in
      (if hr_delivered handoff then ret tt else tw_inc "oms_handoff_failures") ;*
      record_state os_OMS_HANDOFF_READY ;*
      ret {| ot_state := os_OMS_HANDOFF_READY; ot_intent := Some i; ot_risk_decision := Some decision;
             ot_persisted := persisted; ot_handoff_delivered := hr_delivered handoff;
             ot_reason_code := None; ot_reason := "" |}
  end.

(** Steps 6 to 8: risk evaluation, approval validation, normalisation. *)
Definition evaluate_and_hand_off (record : SignalRecord) (i : RiskOrderIntent) (quantity : decimal)
    (mode : string) (machine : OrchestrationState) (now : datetime) : M TW OrchestrationResult :=
  let signal := sl_signal record in
  tw_inc "risk_calls" ;*
  let* outcome := on_risk (risk_evaluate sc signal (Some i) mode) in
  let* machine := lift (orchestrate_to machine os_RISK_EVALUATED) in
  let decision := ro_decision outcome in
  match rd_decision decision with
  | DECLINED =>
      tw_inc "risk_rejections" ;*
      orch_reject signal (Some i) mode machine (rd_reason_code decision) (rd_reason decision) true
        (Some decision)
  | APPROVED =>
      tw_inc "risk_approvals" ;*
      let* binding := lift (compute_risk_identity_key (sc_fromisoformat sc) signal (Some i) mode) in
      let* usable := lift (approval_is_usable decision now (Some binding)) in
      if negb usable then
        orch_reject signal (Some i) mode machine "PRIOR_APPROVAL_INVALID" "approval expired or unbound"
          true (Some decision)
      else
        let* machine := lift (orchestrate_to machine os_APPROVED) in
        let* correlation_id := tw_call (tg_uuid4 tg) in
        let* identity :=
          lift (compute_orchestration_identity_key (sc_fromisoformat sc) signal (Some i) mode) in
        hand_off machine (build_intent correlation_id identity signal record i quantity mode decision binding)
          decision
  end.

Definition process_signal (record : SignalRecord) (trading_mode : string) (intent : option RiskOrderIntent)
    : M TW OrchestrationResult :=
  tw_inc "signals_received" ;*
  let* now := tw_call (tg_clock tg) in
  let mode := py_upper trading_mode in
  let signal := sl_signal record in
  let reject (machine : OrchestrationState) (intent : option RiskOrderIntent) (code reason : string) :=
    orch_reject signal intent mode machine code reason false None in
  if negb (bool_decide (mode ∈ SIMULATED)) then
    reject os_RECEIVED intent "LIVE_MODE_BLOCKED"%string ("trading mode not allowed: " +:+ mode)
  else if negb (bool_decide (sl_state record = ss_PERSISTED)) then
    reject os_RECEIVED intent "SIGNAL_NOT_ACCEPTED"%string
      ("signal not accepted (state=" +:+ signal_state_value (sl_state record) +:+ ")")
  else
    let* key := lift (compute_signal_identity_key (sc_fromisoformat sc) signal) in
    if negb (String.eqb (sl_identity_key record) key) then
      reject os_RECEIVED intent "SIGNAL_IDENTITY_MISMATCH"%string
        "signal record identity does not match the signal"
    else
      let* machine := lift (orchestrate_to os_RECEIVED os_VALIDATED) in
      if negb (bool_decide (sg_action signal ∈ TRADABLE_ACTIONS)) then
        reject machine intent "ACTION_NOT_TRADABLE"%string
          ("action " +:+ action_value (sg_action signal) +:+ " does not create a trading intent")
      else
        let* intent := match intent with
                       | Some i => ret (Some i)
                       | None => lift (tg_resolve tg signal mode)
                       end in
        match intent, intent ≫= in_quantity with
        | Some i, Some quantity =>
            if dle quantity dzero then
              reject machine intent "INTENT_UNAVAILABLE"%string "no valid order quantity resolved"
            else evaluate_and_hand_off record i quantity mode machine now
        | _, _ => reject machine intent "INTENT_UNAVAILABLE"%string "no valid order quantity resolved"
        end.

Definition process_isolated (record : SignalRecord) (trading_mode : string) : M TW OrchestrationResult :=
  try_except (process_signal record trading_mode None)
    (fun exc => Some (
       tw_inc "errors" ;*
       ret {| ot_state := os_FAILED; ot_intent := None; ot_risk_decision := None; ot_persisted := false;
              ot_handoff_delivered := false; ot_reason_code := Some "UNEXPECTED_ERROR"%string;
              ot_reason := exn_name (exn_cls exc) |})).

Fixpoint process_signal_many (records : list SignalRecord) (trading_mode : string)
    : M TW (list OrchestrationResult) :=
  match records with
  | [] => ret []
  | record :: rest =>
      let* r := process_isolated record trading_mode in
      let* rs := process_signal_many rest trading_mode in
      ret (r :: rs)
  end.
End Orchestrator.

(** * Correctness *)

Section OrchestratorFacts.
Context {RDB : Type} `{RS : Session RDB RiskEvent risk_constraint}.
Context {refs : DomainRow -> bool} {DB : Type} `{TS : Session DB DomainRow (domain_constraint refs)}.
Context (sc : RiskServiceConfig) (tg : OrchestratorConfig).
Abbreviation TW := (Orchestrator RDB DB).

(** ** Rows are only added *)

Definition grown (w w' : TW) : Prop :=
  match tw_repository w, tw_repository w' with
  | Some db, Some db' => rows db ⊆ rows db'
  | None, None => True
  | _, _ => False
  end.

#[local] Instance grown_preorder : PreOrder grown.
Proof.
  split.
  - intros w. unfold grown. by destruct (tw_repository w).
  - intros w1 w2 w3. unfold grown. destruct (tw_repository w1), (tw_repository w2), (tw_repository w3); try done.
    by intros ->.
Qed.

(** [m] calls no port and only adds rows. *)
Definition adds_rows {T} (m : M TW T) : Prop := forall w,
  tw_delivered (snd (m w)) = tw_delivered w /\ grown w (snd (m w)).

Lemma ar_ret {T} (a : T) : adds_rows (ret a).
Proof. done. Qed.
Lemma ar_lift {T} (r : res T) : adds_rows (lift r).
Proof. done. Qed.
Lemma ar_gets {T} (f : TW -> T) : adds_rows (gets f).
Proof. done. Qed.
Lemma ar_inc n : adds_rows (tw_inc n).
Proof. intros w. split; [done|]. unfold grown. simpl. by destruct (tw_repository w). Qed.
Lemma ar_state s : adds_rows (record_state s).
Proof. intros w. split; [done|]. unfold grown. simpl. by destruct (tw_repository w). Qed.
Lemma ar_call {T} (f : nat -> T) : adds_rows (tw_call f).
Proof. intros w. split; [done|]. unfold grown. simpl. by destruct (tw_repository w). Qed.
Lemma ar_risk {T} (m : M (RiskServiceState RDB) T) : adds_rows (on_risk m).
Proof.
  intros w. unfold on_risk, zoom. destruct (m (tw_risk w)) as [r s]. split; [done|].
  unfold grown. simpl. by destruct (tw_repository w).
Qed.
Lemma ar_bind {A B} (m : M TW A) (k : A -> M TW B) :
  adds_rows m -> (forall a, adds_rows (k a)) -> adds_rows (bind m k).
Proof.
  intros Hm Hk w. unfold bind. destruct (Hm w) as [H1 H2]. destruct (m w) as [[a|e] w1]; simpl in *; [|done].
  destruct (Hk a w1) as [H3 H4]. rewrite H3. split; [done|]. by etrans.
Qed.

Lemma intent_persist_spec record db r db' : intent_persist record db = (r, db') ->
  match r with
  | Ok io_INSERTED => exists j, added (RIntent record) db db' j
  | Ok io_DUPLICATE => rows db' = rows db /\
      exists j t, rows db !! j = Some (RIntent t) /\ tr_orchestration_id t = tr_orchestration_id record
  | Err _ => rows db' = rows db
  end.
Proof.
  unfold intent_persist. set (p := is_intent (tr_orchestration_id record)). intros E.
  pose proof (scalar_reads p db) as Hr. pose proof (scalar_some p db) as Hs.
  apply bind_run in E as [(e & E & ->)|([[k x]|] & db1 & E & E1)]; rewrite E in Hr, Hs; simpl in Hr, Hs; subst.
  - done.
  - injection E1 as <- <-. split; [done|]. destruct (Hs k x eq_refl) as (Hk & Hp & _).
    unfold p, is_intent, intent_orchestration in Hp. apply bool_decide_eq_true in Hp.
    destruct x as [|x| |]; try done. exists k, x. split; [done|]. by injection Hp.
  - apply bind_run in E1 as [(e & E1 & ->)|([] & db2 & E1 & E2)]; [by apply commit_err in E1|].
    apply commit_added in E1 as [j Hj]. injection E2 as <- <-. eauto.
Qed.

Lemma ar_persist record : adds_rows (try_persist record).
Proof.
  intros w. unfold try_persist, grown. destruct (tw_repository w) as [db|] eqn:E; [|simpl; by rewrite E].
  destruct (intent_persist record db) as [r db'] eqn:Ep. simpl. split; [done|].
  apply intent_persist_spec in Ep. destruct r as [[]|].
  - destruct Ep as (j & Hn & -> & _). by apply insert_subseteq.
  - by destruct Ep as [-> _].
  - by rewrite Ep.
Qed.

Lemma ar_remember k i : adds_rows (remember_handed_off tg k i).
Proof.
  apply ar_bind; [|intros _; apply ar_lift]. intros w. split; [done|]. unfold grown. simpl.
  by destruct (tw_repository w).
Qed.

Create HintDb orch.
#[local] Hint Resolve ar_ret ar_lift ar_gets ar_inc ar_state ar_call ar_risk ar_persist ar_remember : orch.
#[local] Ltac adds := repeat (apply ar_bind; [solve [auto with orch]|intros ?]); auto with orch.

Lemma ar_reject s i mode m c r p d : adds_rows (orch_reject sc s i mode m c r p d).
Proof.
  unfold orch_reject. adds. apply ar_bind; [|auto with orch].
  destruct (p && _); [|auto with orch]. adds.
  match goal with |- adds_rows (match ?o with _ => _ end) => destruct o as [[]|] end; adds.
Qed.
#[local] Hint Resolve ar_reject : orch.

Lemma ar_claim m i : adds_rows (claim_intent tg m i).
Proof.
  unfold claim_intent. adds. destruct (od_get _ _); [auto with orch|].
  destruct (tw_repository _); [|adds]. adds.
  match goal with |- adds_rows (match ?o with _ => _ end) => destruct o as [[]|] end; adds.
Qed.
#[local] Hint Resolve ar_claim : orch.

(** The intent of this call is stored, and was not before; the signal it
    references is stored under that primary key. *)
Definition newly_stored (w w' : TW) (i : TradingIntent) : Prop :=
  match tw_repository w, tw_repository w' with
  | Some db, Some db' =>
      (exists j, rows db' !! j = Some (RIntent (to_orm_trading_intent i os_OMS_HANDOFF_READY None None))) /\
      (forall j t, rows db !! j = Some (RIntent t) -> tr_orchestration_id t <> ti_orchestration_id i) /\
      (exists j x, rows db !! j = Some x /\ signal_pk x = Some (ti_signal_id i))
  | None, None => True
  | _, _ => False
  end.

Lemma claimed_repository k i m b (w w' : TW) c :
  (remember_handed_off tg k i ;* lift (orchestrate_to m os_OMS_HANDOFF_READY) ;* ret (cl_CLAIMED b)) w
    = (Ok c, w') -> tw_repository w' = tw_repository w.
Proof.
  intros E. apply bind_ok in E as ([] & w1 & E1 & E2). apply bind_ok in E2 as (m2 & w2 & E2 & E3).
  injection E3 as _ <-. injection E2 as _ <-.
  assert (tw_repository (snd (remember_handed_off tg k i w)) = tw_repository w) as Hr by done.
  by rewrite E1 in Hr.
Qed.

Lemma claim_spec m i w r w' : claim_intent tg m i w = (r, w') ->
  forall b, r = Ok (cl_CLAIMED b) -> newly_stored w w' i.
Proof.
  unfold claim_intent. unfold bind at 1, gets. intros E b ->. cbn zeta beta iota in E.
  destruct (od_get _ _); [done|]. unfold newly_stored. destruct (tw_repository (id w)) as [db|] eqn:Ew;
    change (id w) with w in Ew; rewrite Ew.
  - unfold bind at 1, try_persist in E. rewrite Ew in E.
    destruct (intent_persist _ db) as [ro db'] eqn:Ep. apply intent_persist_spec in Ep.
    destruct ro as [[]|]; [|done..]. destruct Ep as (j & Hadd).
    assert (tw_repository w' = Some db') as ->.
    { by apply claimed_repository in E. }
    split_and!.
    + exists j. destruct Hadd as (_ & -> & _). by rewrite lookup_insert_eq.
    + intros j' t Ht Hk. eapply (added_fresh refs intent_orchestration); [constructor|exact Hadd|done|exact Ht|].
      unfold intent_orchestration. simpl. by rewrite Hk.
    + destruct Hadd as (_ & Hr & Hcs). destruct (signal_ref_exists refs (rows db') j
        (RIntent (to_orm_trading_intent i os_OMS_HANDOFF_READY None None)) (ti_signal_id i) Hcs) as (j' & x & Hx & Hp);
        [by rewrite Hr, lookup_insert_eq|done|].
      exists j', x. split; [|done]. rewrite Hr in Hx. by apply lookup_insert_Some in Hx as [[_ <-]|[_ Hx]].
  - apply claimed_repository in E. by rewrite E, Ew.
Qed.

(** What one call does: no port call, or one, for an intent it stored. *)
Definition delivers (w w' : TW) (P : TradingIntent -> Prop) : Prop :=
  grown w w' /\
  (tw_delivered w' = tw_delivered w \/
   exists i, tw_delivered w' = tw_delivered w ++ [i] /\ newly_stored w w' i /\ P i).

Lemma adds_delivers {T} (m : M TW T) w r w' P : adds_rows m -> m w = (r, w') -> delivers w w' P.
Proof. intros Hm E. specialize (Hm w). rewrite E in Hm. destruct Hm. split; [done|by left]. Qed.

Lemma hand_off_spec m i d w r w' : hand_off tg m i d w = (r, w') -> delivers w w' (fun i' => i' = i).
Proof.
  unfold hand_off. intros E. apply bind_run in E as [(e & E & ->)|(c & w1 & E & E1)].
  { eapply adds_delivers; [apply ar_claim|exact E]. }
  pose proof (claim_spec _ _ _ _ _ E) as Hc. pose proof (ar_claim m i w) as Ha. rewrite E in Ha.
  destruct Ha as [Hd Hg]. simpl in Hd, Hg.
  destruct c as [|b|].
  - assert (adds_rows (T:=OrchestrationResult) (tw_inc "duplicates" ;* record_state os_DUPLICATE ;*
      ret {| ot_state := os_DUPLICATE; ot_intent := Some i; ot_risk_decision := Some d;
             ot_persisted := false; ot_handoff_delivered := false;
             ot_reason_code := Some "DUPLICATE_ORCHESTRATION"%string;
             ot_reason := "signal already produced a trading intent" |})) as Hm by adds.
    specialize (Hm w1). rewrite E1 in Hm. destruct Hm as [Hd2 Hg2]. simpl in Hd2, Hg2.
    split; [by etrans|]. left. congruence.
  - specialize (Hc b eq_refl). unfold call_port in E1. unfold bind at 1, bind at 1, gets in E1.
    unfold bind at 1, modify in E1. cbn beta iota in E1.
    match type of E1 with context [lift _ ?w0] => set (w2 := w0) in E1 end.
    assert (tw_repository w2 = tw_repository w1 /\ tw_delivered w2 = tw_delivered w1 ++ [i]) as [Hr2 Hd2] by done.
    assert (tw_repository w' = tw_repository w1 /\ tw_delivered w' = tw_delivered w1 ++ [i]) as [Hr3 Hd3].
    { clearbody w2. destruct (lift _ w2) as [[h|e] w3] eqn:El; unfold lift in El; injection El as El <-.
      - destruct (hr_delivered h); unfold bind, tw_inc, record_state, ret, modify in E1; simpl in E1;
          by injection E1 as _ <-.
      - by injection E1 as _ <-. }
    split.
    + unfold grown in *. by rewrite Hr3.
    + right. exists i. rewrite Hd3, Hd. split_and!; [done| |done]. unfold newly_stored in *. by rewrite Hr3.
  - injection E1 as _ <-. split; [done|by left].
Qed.

(** ** One call *)

(** A usable approval: unexpired at [now] and bound. *)
Lemma approval_usable_inv d now binding : approval_is_usable d now (Some binding) = Ok true ->
  rd_decision d = APPROVED /\ is_Some (rd_approval_id d) /\ rd_binding_hash d = Some binding /\
  exists expires, rd_expires_at d = Some expires /\ dt_aware now = true /\ dt_lt now expires = Ok true.
Proof.
  unfold approval_is_usable, is_valid_approval_at. destruct (rd_decision d); [|done].
  destruct (dt_aware now) eqn:Ea; simpl; [|done].
  destruct (rd_approval_id d); [|done]. destruct (rd_expires_at d) as [x|]; [|done].
  destruct (dt_lt now x) as [[]|] eqn:El; simpl; [|done..].
  destruct (rd_binding_hash d) as [b|]; [|done]. intros Hb. injection Hb as Hb. apply String.eqb_eq in Hb as ->.
  split_and!; try done; eauto.
Qed.

(** The intent [i] comes from an accepted signal, a resolved positive quantity
    and an approval of the risk service, bound to exactly this request and
    unexpired at the call's clock reading. *)
Definition justified (record : SignalRecord) (mode : string) (given : option RiskOrderIntent) (w : TW)
    (i : TradingIntent) : Prop :=
  let signal := sl_signal record in
  mode ∈ SIMULATED /\ sl_state record = ss_PERSISTED /\
  compute_signal_identity_key (sc_fromisoformat sc) signal = Ok (sl_identity_key record) /\
  sg_action signal ∈ TRADABLE_ACTIONS /\
  exists oi q outcome risk' binding cid orch expires,
    (given = Some oi \/ given = None /\ tg_resolve tg signal mode = Ok (Some oi)) /\
    in_quantity oi = Some q /\ dle q dzero = false /\
    risk_evaluate sc signal (Some oi) mode (tw_risk w) = (Ok outcome, risk') /\
    rd_decision (ro_decision outcome) = APPROVED /\ is_Some (rd_approval_id (ro_decision outcome)) /\
    compute_risk_identity_key (sc_fromisoformat sc) signal (Some oi) mode = Ok binding /\
    rd_binding_hash (ro_decision outcome) = Some binding /\
    rd_expires_at (ro_decision outcome) = Some expires /\
    dt_lt (tg_clock tg (tw_tick w)) expires = Ok true /\
    compute_orchestration_identity_key (sc_fromisoformat sc) signal (Some oi) mode = Ok orch /\
    i = build_intent cid orch signal record oi q mode (ro_decision outcome) binding.

Lemma delivers_trans (w w1 w' : TW) P : tw_delivered w1 = tw_delivered w -> tw_repository w1 = tw_repository w ->
  delivers w1 w' P -> delivers w w' P.
Proof.
  intros Hd Hr [Hg Hc]. unfold delivers, grown, newly_stored in *. by rewrite <- Hd, <- Hr.
Qed.

Lemma delivers_mono (w w' : TW) (P Q : TradingIntent -> Prop) : (forall i, P i -> Q i) -> delivers w w' P -> delivers w w' Q.
Proof. intros Hpq [Hg [?|(i & ? & ? & ?)]]; (split; [done|]); [by left|right; exists i; auto]. Qed.

Lemma evaluate_spec record oi q mode m now (w : TW) r w' :
  evaluate_and_hand_off sc tg record oi q mode m now w = (r, w') ->
  delivers w w' (fun i => exists outcome risk' binding cid orch expires,
    risk_evaluate sc (sl_signal record) (Some oi) mode (tw_risk w) = (Ok outcome, risk') /\
    rd_decision (ro_decision outcome) = APPROVED /\ is_Some (rd_approval_id (ro_decision outcome)) /\
    compute_risk_identity_key (sc_fromisoformat sc) (sl_signal record) (Some oi) mode = Ok binding /\
    rd_binding_hash (ro_decision outcome) = Some binding /\
    rd_expires_at (ro_decision outcome) = Some expires /\ dt_lt now expires = Ok true /\
    compute_orchestration_identity_key (sc_fromisoformat sc) (sl_signal record) (Some oi) mode = Ok orch /\
    i = build_intent cid orch (sl_signal record) record oi q mode (ro_decision outcome) binding).
Proof.
  unfold evaluate_and_hand_off. unfold bind at 1, tw_inc at 1, modify. cbn beta iota zeta. intros E.
  match type of E with bind _ _ ?w0 = _ => set (w1 := w0) in E end.
  assert (tw_delivered w1 = tw_delivered w /\ tw_repository w1 = tw_repository w /\ tw_risk w1 = tw_risk w)
    as (D1 & R1 & K1) by done.
  apply (delivers_trans w w1); [done..|]. rewrite <- K1. clearbody w1. clear D1 R1 K1 w.
  unfold bind at 1, on_risk, zoom in E. destruct (risk_evaluate sc _ _ _ _) as [[outcome|e] risk'] eqn:Er.
  2: { injection E as _ <-. split; [unfold grown; simpl; by destruct (tw_repository w1)|by left]. }
  match type of E with bind _ _ ?w0 = _ => set (w2 := w0) in E end.
  assert (tw_delivered w2 = tw_delivered w1 /\ tw_repository w2 = tw_repository w1) as (D2 & R2) by done.
  apply (delivers_trans w1 w2); [done..|]. clearbody w2.
  apply lift_run in E as [(e & _ & _ & ->)|(m1 & Em & E)]; [split; [done|by left]|].
  destruct (rd_decision (ro_decision outcome)) eqn:Ed.
  2: { eapply adds_delivers; [|exact E]. apply ar_bind; [apply ar_inc|]. intros _. apply ar_reject. }
  unfold bind at 1, tw_inc at 1, modify in E. cbn beta iota in E.
  match type of E with bind _ _ ?w0 = _ => set (w3 := w0) in E end.
  apply (delivers_trans w2 w3); [done..|]. clearbody w3. clear D2 R2 w2.
  apply lift_run in E as [(e & _ & _ & ->)|(binding & Eb & E)]; [split; [done|by left]|].
  apply lift_run in E as [(e & _ & _ & ->)|([] & Eu & E)]; [split; [done|by left]| |].
  2: { eapply adds_delivers; [apply ar_reject|exact E]. }
  apply approval_usable_inv in Eu as (_ & Hap & Hb & expires & He & _ & Hlt).
  apply lift_run in E as [(e & _ & _ & ->)|(m2 & _ & E)]; [split; [done|by left]|].
  unfold bind at 1, tw_call in E. cbn beta iota in E.
  match type of E with bind _ _ ?w0 = _ => set (w4 := w0) in E end.
  apply (delivers_trans w3 w4); [done..|]. clearbody w4.
  apply lift_run in E as [(e & _ & _ & ->)|(orch & Eo & E)]; [split; [done|by left]|].
  apply hand_off_spec in E. eapply delivers_mono; [|exact E]. intros i ->.
  eexists outcome, risk', binding, _, orch, expires. split_and!; done.
Qed.

Lemma process_spec record trading_mode given (w : TW) r w' :
  process_signal sc tg record trading_mode given w = (r, w') ->
  delivers w w' (justified record (py_upper trading_mode) given w).
Proof.
  unfold process_signal. unfold bind at 1, tw_inc at 1, modify. unfold bind at 1, tw_call. cbn beta iota zeta. intros E.
  match type of E with (if _ then _ else _) ?w0 = _ => set (w1 := w0) in E end.
  assert (tw_delivered w1 = tw_delivered w /\ tw_repository w1 = tw_repository w /\ tw_risk w1 = tw_risk w)
    as (D1 & R1 & K1) by done.
  apply (delivers_trans w w1); [done..|].
  assert (forall s i m c x p d, orch_reject sc s i (py_upper trading_mode) m c x p d w1 = (r, w') ->
    delivers w1 w' (justified record (py_upper trading_mode) given w)) as Hrej
    by (intros * Hx; eapply adds_delivers; [apply ar_reject|exact Hx]).
  case_bool_decide as Hmode; simpl negb in E; cbv iota in E; [|exact (Hrej _ _ _ _ _ _ _ E)].
  case_bool_decide as Hst; simpl negb in E; cbv iota in E; [|exact (Hrej _ _ _ _ _ _ _ E)].
  apply lift_run in E as [(e & _ & _ & ->)|(key & Hk & E)]; [split; [done|by left]|].
  destruct (String.eqb_spec (sl_identity_key record) key) as [Hkey|]; simpl negb in E; cbv iota in E; [|exact (Hrej _ _ _ _ _ _ _ E)].
  apply lift_run in E as [(e & _ & _ & ->)|(m & _ & E)]; [split; [done|by left]|].
  case_bool_decide as Hact; simpl negb in E; cbv iota in E; [|exact (Hrej _ _ _ _ _ _ _ E)].
  apply bind_run in E as [(e & E0 & ->)|(intent & w2 & E0 & E)].
  { destruct given; [done|]. unfold lift in E0. injection E0 as _ <-. split; [done|by left]. }
  assert (w2 = w1 /\ (given = intent \/ given = None /\ tg_resolve tg (sl_signal record) (py_upper trading_mode) = Ok intent))
    as [-> Hint].
  { destruct given; [injection E0 as <- <-; auto|]. unfold lift in E0. injection E0 as <- <-. auto. }
  destruct intent as [oi|]; simpl in E; [|exact (Hrej _ _ _ _ _ _ _ E)].
  destruct (in_quantity oi) as [q|] eqn:Eq; [|exact (Hrej _ _ _ _ _ _ _ E)].
  destruct (dle q dzero) eqn:Ez; [exact (Hrej _ _ _ _ _ _ _ E)|].
  apply evaluate_spec in E. rewrite K1 in E. eapply delivers_mono; [|exact E].
  intros i (outcome & risk' & binding & cid & orch & expires & H1 & H2 & H2' & H3 & H4 & H5 & H6 & H7 & H8).
  unfold justified. cbn zeta. split_and!; [done|done|by subst|done|].
  exists oi, q, outcome, risk', binding, cid, orch, expires. split_and!; done.
Qed.

(** C5: Nothing reaches the order management system without an approval.
    Whatever the databases do, a call of [process_signal] calls the port at
    most once, and then with an intent built from an accepted, PERSISTED
    signal whose identity matches, a tradable action, a positive quantity, a
    BACKTEST or PAPER mode, and a decision of the risk service that is
    APPROVED, bound to exactly this signal, order intent and mode, and not
    expired at the orchestrator's clock; with a repository the intent is then
    stored and no intent with its orchestration id was. *)
Theorem handoff_backed_by_approval record trading_mode given (w : TW) r w' :
  process_signal sc tg record trading_mode given w = (r, w') ->
  delivers w w' (justified record (py_upper trading_mode) given w).
Proof. apply process_spec. Qed.

(** ** Sequences of calls *)

Definition run_orchestrator (w : TW) (call : SignalRecord * string * option RiskOrderIntent) : TW :=
  snd (process_signal sc tg call.1.1 call.1.2 call.2 w).

(** Every intent the port was called with is stored, each id once. *)
Definition orch_inv (w : TW) : Prop :=
  match tw_repository w with
  | Some db =>
      Forall (fun i => exists j,
        rows db !! j = Some (RIntent (to_orm_trading_intent i os_OMS_HANDOFF_READY None None))) (tw_delivered w) /\
      NoDup (ti_orchestration_id <$> tw_delivered w)
  | None => False
  end.

Lemma orch_inv_step w w' P : orch_inv w -> delivers w w' P -> orch_inv w'.
Proof.
  unfold orch_inv, delivers, grown, newly_stored. destruct (tw_repository w) as [db|]; [|done].
  intros [H1 H2] [Hg Hd]. destruct (tw_repository w') as [db'|]; [|done].
  assert (Forall (fun i => exists j, rows db' !! j = Some (RIntent (to_orm_trading_intent i os_OMS_HANDOFF_READY None None)))
    (tw_delivered w)) as H1'.
  { eapply Forall_impl; [exact H1|]. intros i (j & Hj). exists j. by eapply lookup_weaken. }
  destruct Hd as [->|(i & -> & (Hst & Hno & _) & _)]; [done|].
  rewrite Forall_app, Forall_singleton, fmap_app. split; [done|]. apply NoDup_app.
  split_and!; [done| |apply NoDup_singleton]. intros x Hx ->%list_elem_of_singleton.
  apply list_elem_of_fmap in Hx as (i' & Hi & Hin). rewrite Forall_forall in H1. destruct (H1 _ Hin) as (j & Hj).
  by apply (Hno _ _ Hj).
Qed.

(** A trading intent is handed off at most once and only after its
    commit.  Over any sequence of [process_signal] calls of an orchestrator
    with a repository (replays, changed order intents, expired approvals,
    evictions from its table), and whatever the databases do, every intent the
    port was called with is stored in state oms_handoff_ready, and no two of
    them have the same orchestration id. *)
Theorem intents_handed_off_once calls (w0 : TW) db :
  tw_repository w0 = Some db -> tw_delivered w0 = [] ->
  exists db', tw_repository (foldl run_orchestrator w0 calls) = Some db' /\
    Forall (fun i => exists j,
      rows db' !! j = Some (RIntent (to_orm_trading_intent i os_OMS_HANDOFF_READY None None)))
      (tw_delivered (foldl run_orchestrator w0 calls)) /\
    NoDup (ti_orchestration_id <$> tw_delivered (foldl run_orchestrator w0 calls)).
Proof.
  intros Hr Hd. assert (orch_inv w0) as Hi by (unfold orch_inv; rewrite Hr, Hd; split; constructor).
  clear Hr Hd db. assert (orch_inv (foldl run_orchestrator w0 calls)) as H.
  { revert w0 Hi. induction calls as [|[[rec mode] given] calls IH]; intros w Hi; [done|]. simpl. apply IH.
    unfold run_orchestrator. simpl. destruct (process_signal sc tg rec mode given w) as [r w'] eqn:E.
    apply process_spec in E. by eapply orch_inv_step. }
  unfold orch_inv in H. destruct (tw_repository _) as [db|]; [eauto|done].
Qed.

(** A stored record of the orchestration id, a rejection included, stops every
    later handoff of it: the id is unique and rejections occupy it. *)
Theorem stored_rejection_blocks_handoff record trading_mode oi (w : TW) db j t r w' :
  tw_repository w = Some db -> rows db !! j = Some (RIntent t) ->
  compute_orchestration_identity_key (sc_fromisoformat sc) (sl_signal record) (Some oi) (py_upper trading_mode)
    = Ok (tr_orchestration_id t) ->
  process_signal sc tg record trading_mode (Some oi) w = (r, w') -> tw_delivered w' = tw_delivered w.
Proof.
  intros Hw Hj Hk E. apply process_spec in E as [_ [E|(i & _ & Hn & Hi)]]; [done|exfalso].
  unfold newly_stored in Hn. rewrite Hw in Hn. destruct (tw_repository w') as [db'|]; [|done].
  destruct Hn as (_ & Hno & _). apply (Hno j t Hj).
  destruct Hi as (_ & _ & _ & _ & oi' & q & o & rk & b & cid & orch & x & Hg & _ & _ & _ & _ & _ & _ & _ & _ & _ & Ho & ->).
  destruct Hg as [Hg|[Hg _]]; [|done]. injection Hg as <-. simpl. congruence.
Qed.

Lemma process_isolated_total record mode (w : TW) : exists o, fst (process_isolated sc tg record mode w) = Ok o.
Proof.
  unfold process_isolated, try_except. destruct (process_signal _ _ _ _ _ _) as [[o|e] w1]; by eexists.
Qed.

(** A batch gets one result per record. *)
Theorem batch_answers_every_record records mode (w : TW) : exists rs,
  fst (process_signal_many sc tg records mode w) = Ok rs /\ List.length rs = List.length records.
Proof.
  revert w. induction records as [|rec rest IH]; intros w; [by exists []|]. simpl. unfold bind at 1.
  destruct (process_isolated_total rec mode w) as [o Ho]. destruct (process_isolated sc tg rec mode w) as [r w1].
  simpl in Ho. subst r. destruct (IH w1) as (rs & Hrs & Hl). unfold bind.
  destruct (process_signal_many sc tg rest mode w1) as [r w2]. simpl in Hrs. subst r.
  exists (o :: rs). simpl. by rewrite Hl.
Qed.

(** The signal engine and the orchestrator do not fit together on one
    database: the engine stores a signal under a primary key of its own, while
    the intent's foreign key to that primary key is filled with the signal's
    domain id.  Take any record the engine passed on, stored in the database
    the orchestrator uses, where uuid4 never returned the signal's own id:
    however the call of [process_signal] ends, the signal is not handed to the
    order management system. *)
Theorem signal_key_mismatch_blocks_handoff (se : SignalEngineConfig) calls (x0 : SignalEngine DB) record
    trading_mode given (w : TW) r w' :
  sx_seen x0 = [] -> sx_fanned_out x0 = [] -> rows (sx_db x0) = ∅ ->
  record ∈ sx_fanned_out (foldl (run_ingest (sc_fromisoformat sc) se) x0 calls) ->
  (forall n, se_uuid4 se n <> sg_signal_id (sl_signal record)) ->
  tw_repository w = Some (sx_db (foldl (run_ingest (sc_fromisoformat sc) se) x0 calls)) ->
  process_signal sc tg record trading_mode given w = (r, w') -> tw_delivered w' = tw_delivered w.
Proof.
  intros Hs Hf H0 _ Hu Hw E. assert (own_ids se (foldl (run_ingest (sc_fromisoformat sc) se) x0 calls)) as Ho.
  { apply run_own_ids.
    - unfold signal_inv. rewrite Hs, Hf. split_and!; constructor.
    - intros j x u Hx. by rewrite H0, lookup_empty in Hx. }
  apply process_spec in E as [_ [E|(i & _ & Hn & Hi)]]; [done|exfalso].
  unfold newly_stored in Hn. rewrite Hw in Hn. destruct (tw_repository w') as [db'|]; [|done].
  destruct Hn as (_ & _ & j & x & Hx & Hp).
  destruct Hi as (_ & _ & _ & _ & oi & q & o & rk & b & cid & orch & y & Hi). decompose [and] Hi; subst i.
  destruct (Ho _ _ _ Hx Hp) as [n Hn]. by apply (Hu n).
Qed.
End OrchestratorFacts.

(** * Concrete runs *)

Module TradingSample.
Import RiskService.ServiceSample.
Open Scope string_scope.

Abbreviation rdb := (gmap N RiskEvent).
Abbreviation ddb := (gmap N DomainRow).
Abbreviation all_refs := (fun _ : DomainRow => true).

(** A signal as the strategy runtime enriches it. *)
Definition entry (id : UUID) : StrategySignal := {|
  sg_signal_id := id; sg_strategy_id := 4; sg_strategy_version := "1";
  sg_strategy_config_hash := "h"; sg_instrument_id := 5; sg_action := BUY;
  sg_timestamp := utc 1700000000000001; sg_confidence := dec_of_Z 1; sg_reason := "breakout";
  sg_metadata := {[ "event_timestamp" := PDatetime (utc 1700000000000001) ]} |}.

Definition signals : SignalEngineConfig :=
  {| se_lookup := fun sid => if (sid =? 4)%N then Some
       {| sd_strategy_id := 4; sd_version := "1"; sd_config_hash := "h"; sd_code_hash := None;
          sd_enabled := true; sd_instruments := None |} else None;
     se_clock := clock; se_uuid4 := fun n => (500 + N.of_nat n)%N; se_future_skew := 5000000;
     se_max_signal_age := None; se_maxsize := 100000 |}.

Definition iso := sc_fromisoformat (config 8).

Definition ingested : SignalEngine ddb := Eval vm_compute in
  foldl (run_ingest (refs:=all_refs) iso signals)
    {| sx_db := ∅; sx_metrics := ∅; sx_per_strategy := ∅; sx_per_instrument := ∅; sx_seen := [];
       sx_tick := 0; sx_fanned_out := [] |} [(entry 3, "PAPER")].

Definition record : SignalRecord := Eval vm_compute in
  default {| sl_signal := entry 3; sl_record_id := 0; sl_identity_key := ""; sl_state := ss_RECEIVED |}
    (head (sx_fanned_out ingested)).

Definition orchestration : OrchestratorConfig :=
  {| tg_clock := clock; tg_uuid4 := fun n => (900 + N.of_nat n)%N; tg_capacity := 4096;
     tg_resolve := unavailable_resolver; tg_port := noop_port |}.

Definition orchestrator (db : option ddb) : Orchestrator rdb ddb :=
  {| tw_risk := service (∅ : rdb); tw_repository := db; tw_handed_off := []; tw_metrics := ∅;
     tw_by_state := ∅; tw_tick := 0; tw_delivered := [] |}.

(** A database in which the signal has the domain id as its primary key. *)
Definition matching_db : ddb := {[ 1%N := RSignal (to_orm_signal 3 (entry 3) (sl_identity_key record) "c" "persisted" (clock 0)) ]}.

Abbreviation run := (process_signal (refs:=all_refs) (config 8) orchestration).

Definition once := Eval vm_compute in run record "PAPER" intent (orchestrator (Some matching_db)).
Lemma once_run : run record "PAPER" intent (orchestrator (Some matching_db)) = (fst once, snd once).
Proof. vm_compute. reflexivity. Qed.

Example handed_off : match fst once with
  | Ok r => (ot_state r, ot_persisted r, ot_handoff_delivered r) = (os_OMS_HANDOFF_READY, true, true)
  | Err _ => False end.
Proof. vm_compute. reflexivity. Qed.

(** On the database of the signal engine the foreign key refuses the intent. *)
Definition blocked := Eval vm_compute in run record "PAPER" intent (orchestrator (Some (sx_db ingested))).
Lemma blocked_run : run record "PAPER" intent (orchestrator (Some (sx_db ingested))) = (fst blocked, snd blocked).
Proof. vm_compute. reflexivity. Qed.

Example refused : match fst blocked with
  | Ok r => (ot_state r, ot_reason_code r) = (os_FAILED, Some "PERSISTENCE_FAILED")
  | Err _ => False end.
Proof. vm_compute. reflexivity. Qed.

(** With the risk database down the approval is neither stored nor released by
    the risk service, and the intent is handed off all the same. *)
Definition undurable : Orchestrator unit ddb :=
  {| tw_risk := service tt; tw_repository := Some matching_db; tw_handed_off := []; tw_metrics := ∅;
     tw_by_state := ∅; tw_tick := 0; tw_delivered := [] |}.

Example unstored_approval_handed_off :
  let '(r, w) := process_signal (RS:=DownDB) (refs:=all_refs) (config 8) orchestration record "PAPER" intent undurable in
  match r with
  | Ok o => (ot_state o, List.length (tw_delivered w), List.length (sv_fanned_out (tw_risk w)))
            = (os_OMS_HANDOFF_READY, 1%nat, 0%nat)
  | Err _ => False end.
Proof. vm_compute. reflexivity. Qed.

Lemma backed_witness : delivers (refs:=all_refs) (orchestrator (Some matching_db)) (snd once)
  (justified (config 8) orchestration record "PAPER" intent (orchestrator (Some matching_db))).
Proof.
  apply (handoff_backed_by_approval (refs:=all_refs) (config 8) orchestration record "PAPER" intent
           (orchestrator (Some matching_db)) (fst once) (snd once) once_run).
Defined.

Definition two_calls : list (SignalRecord * string * option RiskOrderIntent) :=
  [(record, "PAPER", intent); (record, "PAPER", intent)].

Lemma once_witness : List.length (tw_delivered (foldl (run_orchestrator (refs:=all_refs) (config 8) orchestration)
    (orchestrator (Some matching_db)) two_calls)) = 1%nat /\
  NoDup (ti_orchestration_id <$> tw_delivered (foldl (run_orchestrator (refs:=all_refs) (config 8) orchestration)
    (orchestrator (Some matching_db)) two_calls)).
Proof.
  split; [vm_compute; reflexivity|].
  destruct (intents_handed_off_once (refs:=all_refs) (config 8) orchestration two_calls
              (orchestrator (Some matching_db)) matching_db eq_refl eq_refl) as (db' & _ & _ & H). exact H.
Defined.

Definition engine0 : SignalEngine ddb :=
  {| sx_db := ∅; sx_metrics := ∅; sx_per_strategy := ∅; sx_per_instrument := ∅; sx_seen := [];
     sx_tick := 0; sx_fanned_out := [] |}.

Lemma mismatch_witness : tw_delivered (snd blocked) = tw_delivered (orchestrator (Some (sx_db ingested))).
Proof.
  refine (signal_key_mismatch_blocks_handoff (refs:=all_refs) (config 8) orchestration signals
            [(entry 3, "PAPER")] engine0 record "PAPER" intent (orchestrator (Some (sx_db ingested)))
            (fst blocked) (snd blocked) eq_refl eq_refl eq_refl _ _ _ _).
  - vm_compute. apply list_elem_of_here.
  - intros n. change (sg_signal_id (sl_signal record)) with 3%N. unfold signals. cbn [se_uuid4]. lia.
  - vm_compute. reflexivity.
  - exact blocked_run.
Defined.
End TradingSample.
