(* ===== verification/Oms.v ===== *)
(** The order management system (services/oms): validation.py, identity.py,
    repository.py, boundary.py, metrics.py and service.py.

    A trading intent becomes an order row with its events; the order is driven
    to SUBMISSION_REQUESTED and passed to the execution port.  The port is a
    parameter whose calls are observed as a list. *)

From stdpp Require Import base list strings gmap fin_maps.
From Stdlib Require Import ZArith Lia String.
From S2P Require Import Prelude PyBase Hashing Decimal DecimalText Lifecycle ExecModel Contracts Sql Service RiskRules RiskService TradingDb Signal Trading.
Open Scope Z_scope.

(** * validation.py *)

Definition ALLOWED_ACTIONS : list string := ["BUY"; "SELL"; "EXIT"]%string.
Definition ALLOWED_ORDER_TYPES : list string := ["MARKET"; "LIMIT"; "STOP"; "STOP_LIMIT"]%string.

Record OrderSpec := {
  sp_orchestration_id : string;
  sp_correlation_id : option string;
  sp_signal_id : UUID;
  sp_strategy_id : UUID;
  sp_strategy_version : string;
  sp_strategy_run_id : option UUID;
  sp_account_id : option UUID;
  sp_instrument_id : UUID;
  sp_side : string;
  sp_quantity : Z;
  sp_order_type : string;
  sp_limit_price : option decimal;
  sp_trading_mode : string;
  sp_risk_decision_id : UUID;
  sp_risk_approval_id : string;
  sp_approval_expires_at : datetime;
  sp_binding_hash : string;
  sp_metadata : metadata;
}.

Definition refuse (b : bool) (msg : string) : res unit := raise_if b OrderValidationError msg.

Definition to_quantity (value : decimal) : res Z :=
  refuse (dle value dzero) "quantity must be positive" ;!
  refuse (negb (deq value (to_integral_value value))) "quantity must be a whole number" ;!
  Ok (int_of_dec value).

(** [_require_timezone]; None has no [tzinfo]. *)
Definition require_expiry (value : option datetime) : res datetime :=
  match value with
  | None => raise AttributeError "'NoneType' object has no attribute 'tzinfo'"
  | Some d => refuse (negb (dt_aware d)) "approval_expires_at must be timezone-aware" ;! Ok d
  end.

Definition validate_intent (i : TradingIntent) (now : datetime) (global_halt_active : bool) : res OrderSpec :=
  refuse (is_blank (ti_orchestration_id i)) "orchestration_id is required" ;!
  guard_mode TradingModeError "LIVE trading is disabled (fail-closed)" (ti_trading_mode i) ;!
  refuse global_halt_active "global trading halt is active; order creation refused" ;!
  let action := py_upper (ti_action i) in
  refuse (negb (bool_decide (action ∈ ALLOWED_ACTIONS))) ("unsupported action: " +:+ ti_action i) ;!
  let order_type := py_upper (ti_order_type i) in
  refuse (negb (bool_decide (order_type ∈ ALLOWED_ORDER_TYPES)))
    ("unsupported order type: " +:+ ti_order_type i) ;!
  let! quantity := to_quantity (ti_quantity i) in
  let! expires := require_expiry (ti_approval_expires_at i) in
  let! expired := dt_le expires now in
  refuse expired "risk approval is expired" ;!
  refuse (match ti_approval_id i with None => true | Some _ => false end) "approval_id is required" ;!
  refuse (match ti_account_id i with None => true | Some _ => false end) "account_id is required" ;!
  Ok {| sp_orchestration_id := ti_orchestration_id i;
        sp_correlation_id := Some (uuid_str (ti_correlation_id i));
        sp_signal_id := ti_signal_id i;
        sp_strategy_id := ti_strategy_id i;
        sp_strategy_version := ti_strategy_version i;
        sp_strategy_run_id := ti_strategy_run_id i;
        sp_account_id := ti_account_id i;
        sp_instrument_id := ti_instrument_id i;
        sp_side := action;
        sp_quantity := quantity;
        sp_order_type := order_type;
        sp_limit_price := ti_limit_price i;
        sp_trading_mode := py_upper (ti_trading_mode i);
        sp_risk_decision_id := ti_risk_decision_id i;
        sp_risk_approval_id := str_opt uuid_str (ti_approval_id i);
        sp_approval_expires_at := expires;
        sp_binding_hash := ti_binding_hash i;
        sp_metadata := ti_metadata i |}.

(** * identity.py *)

Definition compute_order_identity_key (orchestration_id : string) (signal_id strategy_id : UUID)
    (account_id : option UUID) (instrument_id : UUID) (side : string) (quantity : Z)
    (order_type trading_mode risk_approval_id : string) : string :=
  sha256_hex (json_compact
    [("orchestration_id"%string, JStr orchestration_id);
     ("signal_id"%string, JStr (uuid_str signal_id));
     ("strategy_id"%string, JStr (uuid_str strategy_id));
     ("account_id"%string, json_opt_str (uuid_str <$> account_id));
     ("instrument_id"%string, JStr (uuid_str instrument_id));
     ("side"%string, JStr (py_upper side));
     ("quantity"%string, JInt quantity);
     ("order_type"%string, JStr (py_upper order_type));
     ("trading_mode"%string, JStr (py_upper trading_mode));
     ("risk_approval_id"%string, JStr risk_approval_id)]).

Definition make_client_order_id (orchestration_id : string) : string := "ord-" +:+ orchestration_id.

Record OrderIdentity := {
  oi_internal_order_id : UUID;
  oi_client_order_id : string;
  oi_correlation_id : option string;
  oi_order_identity_key : string;
}.

Definition build_order_identity (i : TradingIntent) (internal_order_id : UUID) (quantity : Z) : OrderIdentity := {|
  oi_internal_order_id := internal_order_id;
  oi_client_order_id := make_client_order_id (ti_orchestration_id i);
  oi_correlation_id := Some (uuid_str (ti_correlation_id i));
  oi_order_identity_key := compute_order_identity_key (ti_orchestration_id i) (ti_signal_id i)
    (ti_strategy_id i) (ti_account_id i) (ti_instrument_id i) (ti_action i) quantity (ti_order_type i)
    (ti_trading_mode i) (str_opt uuid_str (ti_approval_id i));
|}.

(** * repository.py *)

Definition to_orm_order (spec : OrderSpec) (identity : OrderIdentity) : OrderRow := {|
  or_id := oi_internal_order_id identity;
  or_orchestration_id := Some (sp_orchestration_id spec);
  or_order_identity_key := Some (oi_order_identity_key identity);
  or_correlation_id := oi_correlation_id identity;
  or_strategy_id := Some (sp_strategy_id spec);
  or_strategy_version := Some (sp_strategy_version spec);
  or_strategy_run_id := sp_strategy_run_id spec;
  or_risk_approval_id := Some (sp_risk_approval_id spec);
  or_approval_expires_at := Some (sp_approval_expires_at spec);
  or_signal_id := Some (sp_signal_id spec);
  or_instrument_id := sp_instrument_id spec;
  or_broker_account_id := sp_account_id spec;
  or_trading_mode := sp_trading_mode spec;
  or_client_order_id := oi_client_order_id identity;
  or_broker_order_id := None;
  or_side := sp_side spec;
  or_order_type := sp_order_type spec;
  or_quantity := sp_quantity spec;
  or_limit_price := sp_limit_price spec;
  or_stop_price := None;
  or_status := order_state_value INTENT_CREATED;
|}.

(** The broker order id and the payload of the service's events are empty. *)
Definition to_orm_order_event (order_id : UUID) (event_type : string) (previous_status : option OrderState)
    (new_status : OrderState) (event_timestamp : datetime) (reason source_event_id : string)
    : OrderEventRow := {|
  oe_order_id := order_id;
  oe_source_event_id := Some source_event_id;
  oe_event_type := event_type;
  oe_previous_status := order_state_value <$> previous_status;
  oe_new_status := order_state_value new_status;
  oe_broker_order_id := None;
  oe_event_timestamp := event_timestamp;
  oe_reason := reason;
|}.

Inductive create_outcome := co_CREATED (id : UUID) | co_DUPLICATE (id : option UUID).

Definition with_status (status : string) (o : OrderRow) : OrderRow := {|
  or_id := or_id o; or_orchestration_id := or_orchestration_id o;
  or_order_identity_key := or_order_identity_key o; or_correlation_id := or_correlation_id o;
  or_strategy_id := or_strategy_id o; or_strategy_version := or_strategy_version o;
  or_strategy_run_id := or_strategy_run_id o; or_risk_approval_id := or_risk_approval_id o;
  or_approval_expires_at := or_approval_expires_at o; or_signal_id := or_signal_id o;
  or_instrument_id := or_instrument_id o; or_broker_account_id := or_broker_account_id o;
  or_trading_mode := or_trading_mode o; or_client_order_id := or_client_order_id o;
  or_broker_order_id := or_broker_order_id o; or_side := or_side o; or_order_type := or_order_type o;
  or_quantity := or_quantity o; or_limit_price := or_limit_price o; or_stop_price := or_stop_price o;
  or_status := status;
|}.

Section OrderRepository.
Context {refs : DomainRow -> bool} {DB : Type} `{ListSession DB DomainRow (domain_constraint refs)}.

Definition find_order (p : DomainRow -> bool) : M DB (option (N * OrderRow)) :=
  let* rec := scalar_one_or_none p in
  ret (match rec with
       | Some (k, r) => match as_order r with Some o => Some (k, o) | None => None end
       | None => None
       end).

Definition has_orchestration (orchestration_id : string) (r : DomainRow) : bool :=
  bool_decide (order_orchestration r = Some orchestration_id).
Definition has_order_id (order_id : UUID) (r : DomainRow) : bool :=
  bool_decide (order_pk r = Some order_id).

Definition find_by_orchestration_id (orchestration_id : string) : M DB (option OrderRow) :=
  let* o := find_order (has_orchestration orchestration_id) in ret (snd <$> o).

(** [session.get] finds nothing under the key None. *)
Definition find_by_id (order_id : option UUID) : M DB (option OrderRow) :=
  match order_id with
  | Some u => let* o := find_order (has_order_id u) in ret (snd <$> o)
  | None => ret None
  end.

Definition find_by_client_order_id (client_order_id : string) : M DB (option OrderRow) :=
  let* o := find_order (fun r => bool_decide (order_client r = Some client_order_id)) in ret (snd <$> o).

(** No order is requested. *)
Definition repo_list_orders (limit : nat) : M DB (list OrderRow) :=
  let* recs := scalars_all (fun r => match as_order r with Some _ => true | None => false end)
                 (fun _ => 0) in
  ret (omap (fun kr => as_order kr.2) (take limit recs)).

Definition get_events (order_id : UUID) : M DB (list OrderEventRow) :=
  let* recs := scalars_all (fun r => bool_decide (order_ref r = Some order_id))
                 (fun r => match as_event r with Some e => dt_instant (oe_event_timestamp e) | None => 0 end) in
  ret (omap (fun kr => as_event kr.2) recs).

(** The lookup [create_order] makes before it inserts and again after an
    integrity error: the id of the order of an orchestration. *)
Definition order_id_of (orchestration_id : string) : M DB (option UUID) :=
  let* o := find_by_orchestration_id orchestration_id in ret (or_id <$> o).

Definition repo_create_order (order : OrderRow) (initial_event : OrderEventRow) : M DB create_outcome :=
  try_except
    (let* existing := order_id_of (default ""%string (or_orchestration_id order)) in
     match existing with
     | Some u => ret (co_DUPLICATE (Some u))
     | None => commit [Add (ROrder order); Add (REvent initial_event)] ;* ret (co_CREATED (or_id order))
     end)
    (fun exc =>
       if isinstance exc IntegrityError then Some (
         let* existing := order_id_of (default ""%string (or_orchestration_id order)) in
         ret (co_DUPLICATE existing))
       else None).

Definition append_event (order_id : UUID) (event : OrderEventRow) (new_status : OrderState) : M DB unit :=
  let* o := find_order (has_order_id order_id) in
  match o with
  | None => throw KeyError ("order not found: " +:+ uuid_str order_id)
  | Some (k, order) =>
      commit [Put k (ROrder (with_status (order_state_value new_status) order)); Add (REvent event)]
  end.
End OrderRepository.

(** * boundary.py *)

Record SubmissionHandoff := {
  sh_order_id : UUID;
  sh_intent : BrokerSubmissionIntent;
}.

(** [NoOpExecutionPort.submit] *)
Definition noop_execution_port (_ : nat) (_ : SubmissionHandoff) : res unit := Ok tt.

(** * service.py *)

Record OrderResult := {
  ol_order_id : UUID;
  ol_client_order_id : string;
  ol_orchestration_id : string;
  ol_status : OrderState;
  ol_duplicate : bool;
  ol_created : bool;
  ol_reason : string;
}.

Record OmsConfig := {
  oc_clock : nat -> datetime;
  oc_uuid4 : nat -> UUID;
  oc_global_halt_active : nat -> bool;
  oc_port : nat -> SubmissionHandoff -> res unit;
}.

Record OmsWorld (DB : Type) := {
  ow_service : Service DB;
  ow_handed : list SubmissionHandoff;      (* the handoffs the port was called with *)
}.
Arguments ow_service {DB} _.
Arguments ow_handed {DB} _.

Section OmsService.
Context {refs : DomainRow -> bool} {DB : Type} `{ListSession DB DomainRow (domain_constraint refs)}.
Context (oc : OmsConfig).
Abbreviation OW := (OmsWorld DB).

Definition svc {T} (m : M (Service DB) T) : M OW T :=
  zoom ow_service (fun s w => {| ow_service := s; ow_handed := ow_handed w |}) m.

Definition om_metric (name : string) : M OW unit := svc (metric name).
Definition om_clock : M OW datetime := svc (scall (oc_clock oc)).
Definition om_uuid4 : M OW UUID := svc (scall (oc_uuid4 oc)).
Definition om_repo {T} (m : M DB T) : M OW T := svc (repo_call m).

(** [self._boundary.submit(handoff)] *)
Definition boundary_submit (h : SubmissionHandoff) : M OW unit :=
  let* w := gets id in
  modify (fun w => {| ow_service := ow_service w; ow_handed := ow_handed w ++ [h] |}) ;*
  lift (oc_port oc (List.length (ow_handed w)) h).

Definition request_submission (lc : OrderLifecycle) (spec : OrderSpec) : M OW OrderLifecycle :=
  let* now := om_clock in
  let* expired := lift (dt_le (sp_approval_expires_at spec) now) in
  if (expired : bool) then
    om_metric "rejections" ;* throw RiskApprovalError "risk approval is expired"
  else if is_blank (sp_risk_approval_id spec) then throw RiskApprovalError "risk approval id is missing"
  else
    let* at_ := om_clock in
    let* eid := om_uuid4 in
    try_except
      (lift (transition_to lc SUBMISSION_REQUESTED at_ "risk approval re-validated; submission requested"
               {[ "risk_approval_id"%string := PStr (sp_risk_approval_id spec) ]} eid))
      (fun exc => Some (throw InvalidStateTransitionError (exn_msg exc))).

Definition append_transition (order_id : UUID) (event_type : string) (previous new : OrderState)
    (reason source_event_id : string) (timestamp : datetime) : M OW unit :=
  let event := to_orm_order_event order_id event_type (Some previous) new timestamp reason source_event_id in
  try_except (om_repo (append_event order_id event new))
    (fun _ => Some (
       om_metric "persistence_failures" ;*
       throw PersistenceError ("failed to persist " +:+ event_type))) ;*
  om_metric "state_transitions".

Definition created_result (order_id : UUID) (identity : OrderIdentity) (spec : OrderSpec)
    (lc : OrderLifecycle) : OrderResult :=
  {| ol_order_id := order_id; ol_client_order_id := oi_client_order_id identity;
     ol_orchestration_id := sp_orchestration_id spec; ol_status := lc_state lc;
     ol_duplicate := false; ol_created := true; ol_reason := "" |}.

(** The payload handed to the execution boundary. *)
Definition build_handoff (order_id : UUID) (spec : OrderSpec) (approval : UUID) (requested_at : datetime)
    : res SubmissionHandoff :=
  require_timezone requested_at "requested_at" ;!
  Ok {| sh_order_id := order_id;
        sh_intent := {| bi_order_id := order_id; bi_signal_id := sp_signal_id spec;
                        bi_strategy_id := sp_strategy_id spec; bi_instrument_id := sp_instrument_id spec;
                        bi_risk_approval_id := approval; bi_requested_at := requested_at;
                        bi_metadata := {[ "orchestration_id"%string := PStr (sp_orchestration_id spec) ]} |} |}.

Definition advance_to_submission (order_id : UUID) (identity : OrderIdentity) (spec : OrderSpec)
    : M OW OrderResult :=
  let* now := om_clock in
  let* eid := om_uuid4 in
  let* lc := lift (transition_to (new_lifecycle order_id) INTERNAL_ORDER_CREATED now
                     "internal order identity established" ∅ eid) in
  append_transition order_id "INTERNAL_ORDER_CREATED" INTENT_CREATED INTERNAL_ORDER_CREATED
    "internal order created" (sp_orchestration_id spec +:+ "-internal") now ;*
  let* lc := request_submission lc spec in
  let* at_ := om_clock in
  append_transition order_id "SUBMISSION_REQUESTED" INTERNAL_ORDER_CREATED SUBMISSION_REQUESTED
    "risk approval re-validated; submission requested" (sp_orchestration_id spec +:+ "-submission") at_ ;*
  let* approval := lift (match uuid_parse (sp_risk_approval_id spec) with
                         | Some u => Ok u
                         | None => raise ValueError "badly formed hexadecimal UUID string"
                         end) in
  let* requested_at := om_clock in
  let* h := lift (build_handoff order_id spec approval requested_at) in
  boundary_submit h ;*
  ret (created_result order_id identity spec lc).

Definition resolve_existing (existing : option OrderRow) (identity : OrderIdentity) : M OW OrderResult :=
  match existing with
  | None => throw OrderValidationError "order not found during duplicate resolution"
  | Some o =>
      if bool_decide (or_order_identity_key o = Some (oi_order_identity_key identity)) then
        om_metric "duplicate_intents" ;*
        let* status := lift (order_state_of_value (or_status o)) in
        ret {| ol_order_id := or_id o; ol_client_order_id := or_client_order_id o;
               ol_orchestration_id := default ""%string (or_orchestration_id o); ol_status := status;
               ol_duplicate := true; ol_created := false; ol_reason := "" |}
      else
        om_metric "conflicts" ;*
        throw IntentConflictError "same orchestration_id with a different immutable payload"
  end.

Definition create_in_memory (spec : OrderSpec) (identity : OrderIdentity) : M OW OrderResult :=
  om_metric "orders_created" ;*
  let* now := om_clock in
  let* eid := om_uuid4 in
  let* lc := lift (transition_to (new_lifecycle (oi_internal_order_id identity)) INTERNAL_ORDER_CREATED now
                     "internal order created" ∅ eid) in
  let* lc := request_submission lc spec in
  ret (created_result (oi_internal_order_id identity) identity spec lc).

Definition create_with_persistence (spec : OrderSpec) (identity : OrderIdentity) : M OW OrderResult :=
  let* existing := om_repo (find_by_orchestration_id (sp_orchestration_id spec)) in
  match existing with
  | Some o => resolve_existing (Some o) identity
  | None =>
      let order := to_orm_order spec identity in
      let* now := om_clock in
      let initial_event := to_orm_order_event (oi_internal_order_id identity) "ORDER_CREATED" None
        INTENT_CREATED now "internal order created from validated intent"
        ("create-" +:+ sp_orchestration_id spec) in
      let* outcome := try_except (om_repo (repo_create_order order initial_event))
        (fun exc =>
           if isinstance exc PersistenceError then None
           else Some (
             om_metric "persistence_failures" ;*
             throw PersistenceError "order creation failed")) in
      match outcome with
      | co_DUPLICATE u =>
          om_metric "duplicate_orders" ;*
          let* raced := om_repo (find_by_id u) in
          resolve_existing raced identity
      | co_CREATED order_id =>
          om_metric "orders_created" ;*
          advance_to_submission order_id identity spec
      end
  end.

Definition create_order (i : TradingIntent) : M OW OrderResult :=
  let* now := om_clock in
  let* halted := svc (scall (oc_global_halt_active oc)) in
  let* spec := lift (validate_intent i now halted) in
  let* internal_order_id := om_uuid4 in
  let identity := build_order_identity i internal_order_id (sp_quantity spec) in
  let* missing := svc no_repository in
  if (missing : bool) then create_in_memory spec identity else create_with_persistence spec identity.

Definition CANCELLABLE : list OrderState := [SUBMISSION_REQUESTED; BROKER_ACKNOWLEDGED; PARTIALLY_FILLED].

Definition request_cancellation (order_id : UUID) : M OW OrderResult :=
  let* missing := svc no_repository in
  if (missing : bool) then throw OrderNotFoundError "no repository configured" else
  let* order := om_repo (find_by_id (Some order_id)) in
  match order with
  | None => throw OrderNotFoundError "order not found"
  | Some o =>
      let* current := lift (order_state_of_value (or_status o)) in
      if negb (bool_decide (current ∈ CANCELLABLE)) then
        throw InvalidStateTransitionError ("cannot request cancellation from " +:+ order_state_value current)
      else
        let* now := om_clock in
        let event := to_orm_order_event order_id "CANCEL_REQUESTED" (Some current) CANCEL_REQUESTED now
          "cancellation requested"
          (default (uuid_str order_id) (str_or (or_order_identity_key o) (Some (uuid_str order_id))) +:+ "-cancel") in
        try_except (om_repo (append_event order_id event CANCEL_REQUESTED))
          (fun _ => Some (
             om_metric "persistence_failures" ;*
             throw PersistenceError "failed to persist cancellation")) ;*
        om_metric "cancellation_requests" ;*
        ret {| ol_order_id := order_id; ol_client_order_id := or_client_order_id o;
               ol_orchestration_id := default ""%string (or_orchestration_id o);
               ol_status := CANCEL_REQUESTED; ol_duplicate := false; ol_created := false;
               ol_reason := "cancellation requested" |}
  end.

Definition get_order (order_id : UUID) : M OW (option OrderResult) :=
  let* missing := svc no_repository in
  if (missing : bool) then ret None else
  let* order := om_repo (find_by_id (Some order_id)) in
  match order with
  | None => ret None
  | Some o =>
      let* status := lift (order_state_of_value (or_status o)) in
      ret (Some {| ol_order_id := or_id o; ol_client_order_id := or_client_order_id o;
                   ol_orchestration_id := default ""%string (or_orchestration_id o); ol_status := status;
                   ol_duplicate := false; ol_created := false; ol_reason := "" |})
  end.

Definition list_orders (limit : nat) : M OW (list OrderRow) :=
  let* missing := svc no_repository in
  if (missing : bool) then ret [] else om_repo (repo_list_orders limit).

Definition get_order_events (order_id : UUID) : M OW (list OrderEventRow) :=
  let* missing := svc no_repository in
  if (missing : bool) then ret [] else om_repo (get_events order_id).
End OmsService.

(** * Correctness *)

(** ** How rows change *)

(** A row stays as it is, but for the status of an order. *)
Definition row_evolves (r r' : DomainRow) : Prop :=
  r' = r \/ exists o st, r = ROrder o /\ r' = ROrder (with_status st o).

Definition evolves (m m' : gmap N DomainRow) : Prop :=
  forall j r, m !! j = Some r -> exists r', m' !! j = Some r' /\ row_evolves r r'.

Lemma with_status_twice a b o : with_status a (with_status b o) = with_status a o.
Proof. done. Qed.

#[export] Instance evolves_preorder : PreOrder evolves.
Proof.
  split.
  - intros m j r Hj. exists r. split; [done|by left].
  - intros m1 m2 m3 H12 H23 j r Hj. destruct (H12 j r Hj) as (r2 & Hj2 & E2).
    destruct (H23 j r2 Hj2) as (r3 & Hj3 & E3). exists r3. split; [done|].
    destruct E2 as [->|(o & st & -> & ->)]; [done|]. destruct E3 as [->|(o' & st' & [= <-] & ->)]; right; eauto.
Qed.

Lemma evolves_insert m j r : m !! j = None -> evolves m (<[j := r]> m).
Proof.
  intros Hn i x Hi. exists x. split; [|by left]. rewrite lookup_insert_ne; [done|congruence].
Qed.

(** Columns that never change. *)
Lemma evolves_column {T} (col : DomainRow -> option T) m m' j r :
  (forall o st, col (ROrder (with_status st o)) = col (ROrder o)) ->
  evolves m m' -> m !! j = Some r -> exists r', m' !! j = Some r' /\ col r' = col r.
Proof.
  intros Hc He Hj. destruct (He j r Hj) as (r' & Hj' & [->|(o & st & -> & ->)]); eauto.
Qed.

Section OrderFacts.
Context {refs : DomainRow -> bool} {DB : Type} `{ListSession DB DomainRow (domain_constraint refs)}.

Lemma find_order_spec p db r db' : (forall x, p x = true -> is_Some (as_order x)) ->
  find_order p db = (r, db') ->
  db' = db /\
  match r with
  | Ok (Some (k, o)) => rows db !! k = Some (ROrder o) /\ p (ROrder o) = true /\
      forall k' x, rows db !! k' = Some x -> p x = true -> k' = k
  | Ok None => forall k x, rows db !! k = Some x -> p x = false
  | Err e => db_error (exn_cls e) = true /\ exn_cls e <> IntegrityError
  end.
Proof.
  intros Hp. unfold find_order, bind.
  pose proof (scalar_reads p db) as Hr. pose proof (scalar_none p db) as Hn. pose proof (scalar_some p db) as Hs.
  pose proof (scalar_error p db) as He.
  destruct (scalar_one_or_none p db) as [[[[k x]|]|e] db1]; simpl in *; intros [= <- <-]; (split; [done|]).
  - destruct (Hs k x eq_refl) as (Hk & Hx & Hu). destruct (Hp x Hx) as [o Ho]. rewrite Ho.
    destruct x; try done. injection Ho as ->. done.
  - by apply Hn.
  - by apply He.
Qed.

Lemma has_orchestration_order k x : has_orchestration k x = true -> is_Some (as_order x).
Proof. unfold has_orchestration, order_orchestration. rewrite bool_decide_eq_true. by destruct x. Qed.
Lemma has_order_id_order k x : has_order_id k x = true -> is_Some (as_order x).
Proof. unfold has_order_id, order_pk. rewrite bool_decide_eq_true. by destruct x. Qed.

(** [append_event] changes one order's status and adds one event, or nothing. *)
Lemma append_event_spec u event st db r db' : append_event u event st db = (r, db') ->
  match r with
  | Ok _ => exists j o i, rows db !! j = Some (ROrder o) /\ or_id o = u /\
      (forall j' x, rows db !! j' = Some x -> order_pk x = Some u -> j' = j) /\
      <[j := ROrder (with_status (order_state_value st) o)]> (rows db) !! i = None /\
      rows db' = <[i := REvent event]> (<[j := ROrder (with_status (order_state_value st) o)]> (rows db)) /\
      evolves (rows db) (rows db')
  | Err _ => rows db' = rows db
  end.
Proof.
  unfold append_event. intros E. apply bind_run in E as [(e & E & ->)|(o & db1 & E & E1)];
    apply (find_order_spec _ _ _ _ (has_order_id_order u)) in E as [-> Ho]; [done|].
  destruct o as [[j o]|]; [|by injection E1 as <- <-]. destruct Ho as (Hj & Hid & Hu).
  destruct r as [[]|e]; [|by apply commit_err in E1].
  apply commit_ok in E1 as [Ha _]. inversion Ha as [| |? ? ? ? ? Hs Ha2]; subst.
  inversion Ha2 as [|i ? ? ? ? Hn Ha3|]; subst. inversion Ha3; subst.
  unfold has_order_id, order_pk in Hid. apply bool_decide_eq_true in Hid. simpl in Hid. injection Hid as Hid.
  exists j, o, i. split_and!; try done.
  - intros j' x Hx Hp. apply (Hu j' x Hx). unfold has_order_id. by apply bool_decide_eq_true_2.
  - etrans; [|apply evolves_insert; exact Hn]. intros i' x Hx. destruct (decide (i' = j)) as [->|Hne].
    + rewrite Hj in Hx. injection Hx as <-. rewrite lookup_insert_eq. eexists. split; [done|]. right. eauto.
    + rewrite lookup_insert_ne by done. exists x. split; [done|by left].
Qed.

Lemma find_by_orchestration_spec orch db r db' : find_by_orchestration_id orch db = (r, db') ->
  db' = db /\
  match r with
  | Ok (Some o) => exists k, rows db !! k = Some (ROrder o) /\ or_orchestration_id o = Some orch /\
      forall k' x, rows db !! k' = Some x -> order_orchestration x = Some orch -> k' = k
  | Ok None => forall k x, rows db !! k = Some x -> order_orchestration x <> Some orch
  | Err e => db_error (exn_cls e) = true /\ exn_cls e <> IntegrityError
  end.
Proof.
  unfold find_by_orchestration_id. intros E. apply bind_run in E as [(e & E & ->)|(o & db1 & E & E1)];
    apply (find_order_spec _ _ _ _ (has_orchestration_order orch)) in E as [-> Ho]; [done|].
  injection E1 as <- <-. split; [done|]. destruct o as [[k o]|]; simpl.
  - destruct Ho as (Hk & Hp & Hu). exists k. split_and!; [done|by apply bool_decide_eq_true in Hp|].
    intros k' x Hx Hp'. apply (Hu k' x Hx). by apply bool_decide_eq_true_2.
  - intros k x Hx Hk. specialize (Ho k x Hx). unfold has_orchestration in Ho.
    by apply bool_decide_eq_false in Ho.
Qed.

Lemma order_id_of_reads orch : reads (order_id_of orch).
Proof.
  intros db. unfold order_id_of. destruct (bind _ _ db) as [r db'] eqn:E. simpl.
  apply bind_run in E as [(e & E & ->)|(o & db1 & E & E1)];
    apply find_by_orchestration_spec in E as [-> _]; [done|by injection E1].
Qed.

(** The rows a committed order and its first event leave. *)
Definition order_added (order : OrderRow) (event : OrderEventRow) (db db' : DB) : Prop :=
  exists j i, rows db !! j = None /\ rows db !! i = None /\ i <> j /\
    rows db' = <[i := REvent event]> (<[j := ROrder order]> (rows db)) /\
    domain_constraint refs (rows db') = true.

Lemma commit_order order event db db' :
  commit [Add (ROrder order); Add (REvent event)] db = (Ok tt, db') -> order_added order event db db'.
Proof.
  intros E. apply commit_ok in E as [Ha Hc]. inversion Ha as [|j ? ? ? ? Hn Ha2|]; subst.
  inversion Ha2 as [|i ? ? ? ? Hn2 Ha3|]; subst. inversion Ha3; subst.
  assert (i <> j) as Hij. { intros ->. by rewrite lookup_insert_eq in Hn2. }
  rewrite lookup_insert_ne in Hn2 by done. exists j, i. by split_and!.
Qed.

Lemma order_added_evolves order event db db' : order_added order event db db' -> evolves (rows db) (rows db').
Proof.
  intros (j & i & Hj & Hi & Hne & -> & _).
  trans (<[j := ROrder order]> (rows db)); [by apply evolves_insert|].
  apply evolves_insert. by rewrite lookup_insert_ne.
Qed.

Lemma order_added_order order event db db' : order_added order event db db' ->
  exists j, rows db' !! j = Some (ROrder order).
Proof.
  intros (j & i & Hj & Hi & Hne & -> & _). exists j. rewrite lookup_insert_ne by done. by rewrite lookup_insert_eq.
Qed.

Lemma order_added_fresh order event db db' col x : unique_column col -> order_added order event db db' ->
  col (ROrder order) = Some x -> forall k r, rows db !! k = Some r -> col r <> Some x.
Proof.
  intros Hcol (j & i & Hj & Hi & Hne & Hr & Hc) Hx k r Hk Hkx.
  assert (k <> j) as Hkj by congruence. assert (k <> i) as Hki by congruence.
  apply Hkj, (column_unique refs col (rows db') x k j r (ROrder order)); try done; rewrite Hr.
  - by rewrite !lookup_insert_ne.
  - rewrite lookup_insert_ne by done. by rewrite lookup_insert_eq.
Qed.

Lemma order_added_new_id order event db db' : order_added order event db db' ->
  forall k r, rows db !! k = Some r -> order_pk r <> Some (or_id order).
Proof.
  intros (j & i & Hj & Hi & Hne & Hr & Hc) k r Hk Hkx.
  assert (k <> j) as Hkj by congruence. assert (k <> i) as Hki by congruence.
  apply Hkj, (order_pk_unique refs (rows db') (or_id order) k j r (ROrder order)); try done; rewrite Hr.
  - by rewrite !lookup_insert_ne.
  - rewrite lookup_insert_ne by done. by rewrite lookup_insert_eq.
Qed.

(** [create_order] of the repository: the order and its event, or nothing. *)
Lemma repo_create_spec order event db r db' :
  repo_create_order order event db = (r, db') ->
  match r with
  | Ok (co_CREATED u) => u = or_id order /\ order_added order event db db'
  | _ => rows db' = rows db
  end.
Proof.
  unfold repo_create_order. set (lookup := order_id_of _).
  assert (reads lookup) as Hl by apply order_id_of_reads. clearbody lookup.
  intros E. apply try_run in E as [(a & E & ->)|(e & db1 & E & Eh)].
  - apply bind_ok in E as (ex & db1 & E & E1). apply (reads_run _ _ _ _ Hl) in E as ->.
    destruct ex as [u|]; [by injection E1 as <- <-|]. apply bind_ok in E1 as ([] & db2 & E1 & E2).
    injection E2 as <- <-. split; [done|]. by apply commit_order.
  - assert (rows db1 = rows db) as Hd.
    { apply bind_run in E as [(e' & E & _)|(ex & db2 & E & E1)]; apply (reads_run _ _ _ _ Hl) in E as ->; [done|].
      destruct ex; [done|]. apply bind_run in E1 as [(e' & E1 & _)|([] & db2' & _ & E2)]; [|done].
      by apply commit_err in E1. }
    destruct (isinstance e IntegrityError); [|by destruct Eh as [-> ->]].
    apply bind_run in Eh as [(e' & E2 & ->)|(ex & db2 & E2 & E3)]; apply (reads_run _ _ _ _ Hl) in E2 as ->; [done|].
    by injection E3 as <- <-.
Qed.

(** A transition of a stored order: its status changes, nothing else of it. *)
Lemma append_stored order event st s db db' j : rows db !! j = Some (ROrder (with_status s order)) ->
  append_event (or_id order) event st db = (Ok tt, db') ->
  rows db' !! j = Some (ROrder (with_status (order_state_value st) order)) /\
  exists i, rows db' !! i = Some (REvent event).
Proof.
  intros Hj E. apply append_event_spec in E as (j' & o & i & Hj' & Hid & Hu & Hi & Hr & _).
  assert (j' = j) as -> by (symmetry; by apply (Hu j _ Hj)).
  rewrite Hj in Hj'. injection Hj' as <-. rewrite with_status_twice in *.
  assert (i <> j) by (intros ->; by rewrite lookup_insert_eq in Hi). split.
  - rewrite Hr, lookup_insert_ne by done. by rewrite lookup_insert_eq.
  - exists i. by rewrite Hr, lookup_insert_eq.
Qed.
End OrderFacts.
(** ** Validation *)

(** Exactly the intents the service accepts. *)
Lemma validate_intent_iff i now halted : (exists spec, validate_intent i now halted = Ok spec) <->
  is_blank (ti_orchestration_id i) = false /\ py_upper (ti_trading_mode i) ∈ SIMULATED /\ halted = false /\
  py_upper (ti_action i) ∈ ALLOWED_ACTIONS /\ py_upper (ti_order_type i) ∈ ALLOWED_ORDER_TYPES /\
  dle (ti_quantity i) dzero = false /\ deq (ti_quantity i) (to_integral_value (ti_quantity i)) = true /\
  (exists expires, ti_approval_expires_at i = Some expires /\ dt_aware expires = true /\ dt_le expires now = Ok false) /\
  is_Some (ti_approval_id i) /\ is_Some (ti_account_id i).
Proof.
  unfold validate_intent, to_quantity, require_expiry. split.
  - intros [spec Hs]. destruct (is_blank _); [done|]. simpl in Hs.
    destruct (guard_mode _ _ _) as [[]|] eqn:Hm; [|done]. apply guard_mode_ok in Hm. simpl in Hs.
    destruct halted; [done|]. simpl in Hs. do 2 (case_bool_decide; [|done]). simpl in Hs.
    destruct (dle _ _); [done|]. simpl in Hs. destruct (deq _ _); [|done]. simpl in Hs.
    destruct (ti_approval_expires_at i) as [x|]; [|done]. destruct (dt_aware x) eqn:Hx; [|done]. simpl in Hs.
    destruct (dt_le x now) as [[]|] eqn:Hl; [done| |done]. simpl in Hs.
    destruct (ti_approval_id i), (ti_account_id i); try done. split_and!; eauto.
  - intros (-> & Hm & -> & Ha & Ht & -> & -> & (x & -> & Hx & Hl) & [u ->] & [v ->]). simpl.
    apply (guard_mode_ok TradingModeError "LIVE trading is disabled (fail-closed)") in Hm as ->. simpl.
    rewrite !bool_decide_eq_true_2 by done. simpl. rewrite Hx. simpl. rewrite Hl. simpl. by eexists.
Qed.

Lemma validate_intent_spec i now halted spec : validate_intent i now halted = Ok spec ->
  sp_orchestration_id spec = ti_orchestration_id i /\ sp_quantity spec = int_of_dec (ti_quantity i).
Proof.
  unfold validate_intent, to_quantity. intros Hs. res_inv. by split.
Qed.


(** ** The service *)

Section OmsFacts.
Context {refs : DomainRow -> bool} {DB : Type} `{ListSession DB DomainRow (domain_constraint refs)}.
Context (oc : OmsConfig).
Abbreviation OW := (OmsWorld DB).

Definition ow_db (w : OW) : option DB := sw_repository (ow_service w).

Definition changes (w w' : OW) : Prop :=
  match ow_db w, ow_db w' with
  | Some db, Some db' => evolves (rows db) (rows db')
  | None, None => True
  | _, _ => False
  end.

#[local] Instance changes_preorder : PreOrder changes.
Proof.
  split.
  - intros w. unfold changes. by destruct (ow_db w).
  - intros w1 w2 w3. unfold changes. destruct (ow_db w1), (ow_db w2), (ow_db w3); try done.
    intros. by etrans.
Qed.

(** [m] leaves the port and the repository alone. *)
Definition still {T} (m : M OW T) : Prop := forall w,
  ow_handed (snd (m w)) = ow_handed w /\ ow_db (snd (m w)) = ow_db w.
(** [m] leaves the port alone and only adds rows and changes statuses. *)
Definition quiet {T} (m : M OW T) : Prop := forall w,
  ow_handed (snd (m w)) = ow_handed w /\ changes w (snd (m w)).

Lemma still_ret {T} (a : T) : still (ret a).
Proof. done. Qed.
Lemma still_throw {T} c msg : still (T:=T) (throw c msg).
Proof. done. Qed.
Lemma still_lift {T} (r : res T) : still (lift r).
Proof. done. Qed.
Lemma still_svc {T} (m : M (Service DB) T) : keeps_repo m -> still (svc m).
Proof.
  intros Hm w. unfold svc, zoom. specialize (Hm (ow_service w)). destruct (m (ow_service w)) as [r s].
  split; [done|]. unfold ow_db. simpl in *. done.
Qed.
Lemma still_bind {A B} (m : M OW A) (k : A -> M OW B) : still m -> (forall a, still (k a)) -> still (bind m k).
Proof.
  intros Hm Hk w. unfold bind. destruct (Hm w) as [H1 H2]. destruct (m w) as [[a|e] w1]; simpl in *; [|done].
  destruct (Hk a w1) as [H3 H4]. split; congruence.
Qed.
Lemma still_try {A} (m : M OW A) h : still m -> (forall e k, h e = Some k -> still k) -> still (try_except m h).
Proof.
  intros Hm Hh w. unfold try_except. destruct (Hm w) as [H1 H2]. destruct (m w) as [[a|e] w1]; simpl in *; [done|].
  destruct (h e) as [k|] eqn:E; [|done]. destruct (Hh e k E w1) as [H3 H4]. split; congruence.
Qed.

Lemma still_quiet {T} (m : M OW T) : still m -> quiet m.
Proof. intros Hm w. destruct (Hm w) as [H1 H2]. split; [done|]. unfold changes. rewrite H2. by destruct (ow_db w). Qed.
Lemma oms_quiet_bind {A B} (m : M OW A) (k : A -> M OW B) : quiet m -> (forall a, quiet (k a)) -> quiet (bind m k).
Proof.
  intros Hm Hk w. unfold bind. destruct (Hm w) as [H1 H2]. destruct (m w) as [[a|e] w1]; simpl in *; [|done].
  destruct (Hk a w1) as [H3 H4]. split; [congruence|by etrans].
Qed.
Lemma oms_quiet_try {A} (m : M OW A) h : quiet m -> (forall e k, h e = Some k -> quiet k) -> quiet (try_except m h).
Proof.
  intros Hm Hh w. unfold try_except. destruct (Hm w) as [H1 H2]. destruct (m w) as [[a|e] w1]; simpl in *; [done|].
  destruct (h e) as [k|] eqn:E; [|done]. destruct (Hh e k E w1) as [H3 H4]. split; [congruence|by etrans].
Qed.

(** A repository call that adds rows and changes statuses. *)
Lemma quiet_repo {T} (m : M DB T) : (forall db r db', m db = (r, db') -> evolves (rows db) (rows db')) ->
  quiet (om_repo m).
Proof.
  intros Hm w. unfold om_repo, svc, zoom, repo_call, changes, ow_db.
  destruct (sw_repository (ow_service w)) as [db|] eqn:E; simpl; [|by rewrite E].
  destruct (m db) as [r db'] eqn:Em. simpl. split; [done|]. by eapply Hm.
Qed.
Lemma still_repo {T} (m : M DB T) : reads m -> still (om_repo m).
Proof. intros Hm. apply still_svc. by apply repo_call_reads. Qed.

Lemma om_repo_run {T} (m : M DB T) w db r w' : ow_db w = Some db -> om_repo m w = (r, w') ->
  exists db', m db = (r, db') /\ ow_db w' = Some db' /\ ow_handed w' = ow_handed w.
Proof.
  intros Hw. unfold om_repo, svc, zoom. destruct (repo_call m (ow_service w)) as [r1 s] eqn:E.
  intros [= <- <-]. destruct (repo_call_inv _ _ _ _ _ Hw E) as (db' & Hm & ->). by exists db'.
Qed.

Lemma find_order_reads p : (forall x, p x = true -> is_Some (as_order x)) -> reads (find_order p).
Proof.
  intros Hp db. destruct (find_order p db) as [r db'] eqn:E. by apply find_order_spec in E as [-> _].
Qed.
Lemma find_by_id_reads u : reads (find_by_id u).
Proof.
  destruct u as [u|]; [|done]. intros db. unfold find_by_id, bind.
  pose proof (find_order_reads (has_order_id u) (has_order_id_order u) db) as Hr.
  by destruct (find_order _ db) as [[]].
Qed.
Lemma find_by_id_some u db o db' : find_by_id (Some u) db = (Ok o, db') ->
  match o with
  | Some o => exists k, rows db !! k = Some (ROrder o) /\ or_id o = u
  | None => forall k x, rows db !! k = Some x -> order_pk x <> Some u
  end.
Proof.
  unfold find_by_id. intros E. apply bind_ok in E as (ko & db1 & E & E1). injection E1 as <- _.
  apply find_order_spec in E as [_ E]; [|apply has_order_id_order].
  destruct ko as [[k o]|]; simpl.
  - destruct E as (Hk & Hp & _). exists k. split; [done|]. apply bool_decide_eq_true in Hp. by injection Hp.
  - intros k x Hx Hu. specialize (E k x Hx). by apply bool_decide_eq_false in E.
Qed.
Lemma find_by_orch_reads k : reads (find_by_orchestration_id k).
Proof. intros db. destruct (find_by_orchestration_id k db) as [r db'] eqn:E. by apply find_by_orchestration_spec in E as [-> _]. Qed.

Lemma quiet_append u e st : quiet (om_repo (append_event u e st)).
Proof.
  apply quiet_repo. intros db r db' E. apply append_event_spec in E. destruct r as [[]|]; [|by rewrite E].
  by destruct E as (? & ? & ? & _ & _ & _ & _ & _ & He).
Qed.
Lemma quiet_create o e : quiet (om_repo (repo_create_order o e)).
Proof.
  apply quiet_repo. intros db r db' E. apply repo_create_spec in E. destruct r as [[]|]; [|by rewrite E..].
  destruct E as [_ E]. by eapply order_added_evolves.
Qed.

Create HintDb oms.
#[local] Hint Resolve still_ret still_throw still_lift still_svc still_bind still_quiet still_repo find_by_id_reads
  find_by_orch_reads quiet_append quiet_create : oms.
#[local] Hint Extern 1 (still (om_clock _)) => apply still_svc, keeps_scall : oms.
#[local] Hint Extern 1 (still (om_uuid4 _)) => apply still_svc, keeps_scall : oms.
#[local] Hint Extern 1 (still (om_metric _)) => apply still_svc, keeps_metric : oms.
#[local] Hint Extern 1 (still (svc _)) => apply still_svc; auto with svc : oms.

Ltac quiet_steps := repeat first
  [ solve [auto with oms]
  | apply oms_quiet_bind; [|intros ?]
  | apply oms_quiet_try; [|intros ? ? [= <-]] ].

Lemma still_request lc spec : still (request_submission oc lc spec).
Proof.
  unfold request_submission. apply still_bind; [auto with oms|intros now].
  apply still_bind; [auto with oms|intros []]; [auto with oms|]. destruct (is_blank _); [auto with oms|].
  apply still_bind; [auto with oms|intros at_]. apply still_bind; [auto with oms|intros eid].
  apply still_try; [auto with oms|]. intros e k [= <-]. auto with oms.
Qed.

(** The approval is re-checked at the clock reading of this call. *)
Lemma request_ok lc spec (w : OW) lc' w' : request_submission oc lc spec w = (Ok lc', w') ->
  dt_le (sp_approval_expires_at spec) (oc_clock oc (sw_tick (ow_service w))) = Ok false /\
  is_blank (sp_risk_approval_id spec) = false.
Proof.
  unfold request_submission. intros E. apply bind_ok in E as (now & w1 & E & E1). injection E as <- <-.
  apply lift_run in E1 as [(e & _ & E1 & _)|(b & Hb & E1)]; [done|]. destruct b; [done|].
  by destruct (is_blank _).
Qed.

Lemma quiet_transition u t a b r s at_ : quiet (append_transition u t a b r s at_).
Proof. unfold append_transition. quiet_steps. Qed.

Lemma transition_stored order s j t a b r src at_ w db w' : ow_db w = Some db ->
  rows db !! j = Some (ROrder (with_status s order)) ->
  append_transition (or_id order) t a b r src at_ w = (Ok tt, w') ->
  exists db', ow_db w' = Some db' /\ ow_handed w' = ow_handed w /\
    rows db' !! j = Some (ROrder (with_status (order_state_value b) order)) /\
    (exists i, rows db' !! i = Some (REvent (to_orm_order_event (or_id order) t (Some a) b at_ r src))).
Proof.
  intros Hw Hj E. unfold append_transition in E. apply bind_ok in E as ([] & w1 & E & E1).
  apply try_run in E as [([] & E & _)|(e & w2 & _ & E)]; [|done].
  apply (om_repo_run _ _ _ _ _ Hw) in E as (db' & E & Hw1 & Hh).
  destruct (append_stored _ _ _ _ _ _ _ Hj E) as [Hj' Hi].
  destruct (still_svc (metric "state_transitions") ltac:(auto with svc) w1) as [H3 H4].
  unfold om_metric in E1. rewrite E1 in H3, H4. simpl in H3, H4. exists db'. split_and!; [congruence..|done|done].
Qed.

#[local] Hint Resolve still_request quiet_transition : oms.

(** What a call does: no port call, or one with [P]. *)
Definition hands (w w' : OW) (P : SubmissionHandoff -> Prop) : Prop :=
  changes w w' /\
  (ow_handed w' = ow_handed w \/ exists h, ow_handed w' = ow_handed w ++ [h] /\ P h).

Lemma quiet_hands {T} (m : M OW T) w r w' P : quiet m -> m w = (r, w') -> hands w w' P.
Proof. intros Hm E. destruct (Hm w) as [H1 H2]. rewrite E in H1, H2. split; [done|by left]. Qed.

(** A quiet step before a call. *)
Lemma bind_hands {A B} (m : M OW A) (k : A -> M OW B) w r w' P : quiet m -> bind m k w = (r, w') ->
  (forall a w1, m w = (Ok a, w1) -> k a w1 = (r, w') -> hands w1 w' P) -> hands w w' P.
Proof.
  intros Hm E Hk. apply bind_run in E as [(e & E & ->)|(a & w1 & E & E1)]; [by eapply quiet_hands|].
  destruct (Hm w) as [H1 H2]. rewrite E in H1, H2. destruct (Hk a w1 E E1) as [H3 H4]. simpl in *.
  split; [by etrans|]. by rewrite <- H1.
Qed.
#[local] Ltac quiet_step E a w Ew :=
  let E' := fresh "E'" in
  rename E into E'; eapply bind_hands; [|exact E'|]; [solve [auto with oms]|intros a w Ew E; clear E'].
Lemma still_run {A} (m : M OW A) w r w' : still m -> m w = (r, w') -> ow_db w' = ow_db w.
Proof. intros Hm E. destruct (Hm w) as [_ H2]. by rewrite E in H2. Qed.

(** The handoff [h] carries the stored order [order] of [spec], in status
    SUBMISSION_REQUESTED, with an approval unexpired at a clock reading of this
    call. *)
Definition submitted (spec : OrderSpec) (order : OrderRow) (w' : OW) (h : SubmissionHandoff) : Prop :=
  exists db' j i at_ n approval requested_at,
    ow_db w' = Some db' /\
    rows db' !! j = Some (ROrder (with_status "SUBMISSION_REQUESTED" order)) /\
    rows db' !! i = Some (REvent (to_orm_order_event (or_id order) "SUBMISSION_REQUESTED"
      (Some INTERNAL_ORDER_CREATED) SUBMISSION_REQUESTED at_
      "risk approval re-validated; submission requested" (sp_orchestration_id spec +:+ "-submission"))) /\
    dt_le (sp_approval_expires_at spec) (oc_clock oc n) = Ok false /\
    uuid_parse (sp_risk_approval_id spec) = Some approval /\
    build_handoff (or_id order) spec approval requested_at = Ok h.

Lemma boundary_run h w r w' : boundary_submit oc h w = (r, w') ->
  ow_handed w' = ow_handed w ++ [h] /\ ow_db w' = ow_db w.
Proof.
  unfold boundary_submit, bind, gets, modify, lift. simpl. destruct (oc_port oc _ h); intros [= _ <-]; done.
Qed.

Lemma advance_spec order j s identity spec (w : OW) db r w' : ow_db w = Some db ->
  rows db !! j = Some (ROrder (with_status s order)) ->
  advance_to_submission oc (or_id order) identity spec w = (r, w') ->
  hands w w' (submitted spec order w').
Proof.
  intros Hw Hj E. unfold advance_to_submission in E.
  quiet_step E now w1 E1. apply still_run in E1; [|auto with oms].
  quiet_step E eid w2 E2. apply still_run in E2; [|auto with oms].
  quiet_step E lc w3 E3. apply still_run in E3; [|auto with oms].
  quiet_step E done4 w4 E4. destruct done4.
  eapply transition_stored in E4 as (db4 & Hw4 & _ & Hj4 & _); [|by rewrite E3, E2, E1|exact Hj].
  quiet_step E lc2 w5 E5. pose proof (request_ok _ _ _ _ _ E5) as [Hexp _]. apply still_run in E5; [|auto with oms].
  quiet_step E at_ w6 E6. apply still_run in E6; [|auto with oms].
  quiet_step E done7 w7 E7. destruct done7.
  eapply transition_stored in E7 as (db7 & Hw7 & _ & Hj7 & i & Hi7); [|by rewrite E6, E5|exact Hj4].
  quiet_step E approval w8 E8. apply still_run in E8 as E8'; [|auto with oms].
  quiet_step E at8 w9 E9. apply still_run in E9; [|auto with oms].
  quiet_step E h w10 E10. apply still_run in E10 as E10'; [|auto with oms]. injection E10 as Hh _.
  assert (ow_handed w' = ow_handed w10 ++ [h] /\ ow_db w' = ow_db w10) as [Hd Hb].
  { apply bind_run in E as [(e & E & _)|([] & w11 & E & E11)]; apply boundary_run in E; [done|].
    by injection E11 as _ <-. }
  split; [unfold changes; rewrite Hb; by destruct (ow_db w10)|]. right. exists h. split; [done|].
  exists db7, j, i, at_, (sw_tick (ow_service w4)), approval, at8. split_and!; [congruence|exact Hj7|exact Hi7|exact Hexp| |exact Hh].
  injection E8 as E8 _. by destruct (uuid_parse _); simplify_eq/=.
Qed.

(** ** Creating an order *)

(** No stored order has this id or this orchestration id. *)
Definition new_order (order : OrderRow) (w : OW) : Prop :=
  exists db, ow_db w = Some db /\ forall k r, rows db !! k = Some r ->
    order_pk r <> Some (or_id order) /\ order_orchestration r <> or_orchestration_id order.

Lemma still_resolve o identity : still (resolve_existing (DB:=DB) o identity).
Proof.
  destruct o as [o|]; simpl; [|auto with oms]. destruct (bool_decide _); auto 10 with oms.
Qed.

Lemma still_memory spec identity : still (create_in_memory (DB:=DB) oc spec identity).
Proof.
  unfold create_in_memory. apply still_bind; [auto with oms|intros _].
  do 3 (apply still_bind; [auto with oms|intros ?]). apply still_bind; auto with oms.
Qed.
#[local] Hint Resolve still_resolve still_memory : oms.

Lemma new_order_still order w w1 db event db' : ow_db w1 = ow_db w -> ow_db w1 = Some db ->
  order_added order event db db' -> is_Some (or_orchestration_id order) -> new_order order w.
Proof.
  intros Hw H1 Ha [x Hx]. exists db. split; [congruence|]. intros k r Hk. split.
  - eapply order_added_new_id; [exact Ha|exact Hk].
  - rewrite Hx. eapply (order_added_fresh _ _ _ _ order_orchestration); [constructor|exact Ha|done|exact Hk].
Qed.

Lemma persisted_spec spec identity w r w' : create_with_persistence oc spec identity w = (r, w') ->
  hands w w' (fun h => new_order (to_orm_order spec identity) w /\ submitted spec (to_orm_order spec identity) w' h).
Proof.
  unfold create_with_persistence. intros E.
  quiet_step E existing w1 E1. apply still_run in E1; [|auto with oms].
  destruct existing as [o|]; [by eapply quiet_hands; [apply still_quiet, still_resolve|]|].
  quiet_step E now w2 E2. apply still_run in E2; [|auto with oms].
  cbv beta zeta in E. match type of E with bind ?m _ _ = _ => assert (quiet m) as Hq end.
  { apply oms_quiet_try; [auto with oms|]. intros e k. destruct (isinstance e _); [done|]. intros [= <-]. auto with oms. }
  eapply bind_hands; [exact Hq|exact E|]. clear Hq. intros outcome w3 E3 E4. clear E.
  apply try_run in E3 as [(a & E3 & [= <-])|(e & w0 & _ & E3)]; [|destruct (isinstance e _); [by destruct E3|done]].
  destruct outcome as [u|u].
  2: { eapply quiet_hands; [|exact E4]. apply still_quiet. apply still_bind; [auto with oms|intros _].
       apply still_bind; auto with oms. }
  destruct (ow_db w2) as [db|] eqn:Ew2.
  2: { unfold om_repo, svc, zoom, repo_call in E3. unfold ow_db in Ew2. by rewrite Ew2 in E3. }
  destruct (om_repo_run _ _ _ _ _ Ew2 E3) as (db3 & Ec & Hw3 & _). apply repo_create_spec in Ec as [-> Ha].
  assert (new_order (to_orm_order spec identity) w) as Hnew.
  { eapply (new_order_still _ w w2); [congruence|exact Ew2|exact Ha|by eexists]. }
  quiet_step E4 z w4 E5. apply still_run in E5; [|auto with oms].
  destruct (order_added_order _ _ _ _ Ha) as [j Hj].
  destruct (advance_spec (to_orm_order spec identity) j (order_state_value INTENT_CREATED) identity spec w4 db3 r w')
    as [Hc Hh]; [by rewrite E5|done|done|].
  split; [done|]. destruct Hh as [?|(h & ? & ?)]; [by left|right; eauto].
Qed.

Lemma create_spec i w r w' : create_order oc i w = (r, w') ->
  hands w w' (fun h => exists spec id,
    let order := to_orm_order spec (build_order_identity i id (sp_quantity spec)) in
    validate_intent i (oc_clock oc (sw_tick (ow_service w)))
      (oc_global_halt_active oc (S (sw_tick (ow_service w)))) = Ok spec /\
    new_order order w /\ submitted spec order w' h).
Proof.
  unfold create_order. intros E.
  quiet_step E now w1 E1. injection E1 as <- <-. quiet_step E halted w2 E2. injection E2 as <- <-.
  quiet_step E spec w3 E3. injection E3 as E3 <-. quiet_step E oid w4 E4. injection E4 as _ <-.
  quiet_step E missing w5 E5. injection E5 as <- <-.
  match type of E with (if ?b then _ else _) ?w0 = _ => assert (ow_db w0 = ow_db w) as Hw by done;
    destruct b; [by eapply quiet_hands; [apply still_quiet, still_memory|]|] end.
  apply persisted_spec in E as [Hc Hh]. split; [done|].
  destruct Hh as [?|(h & ? & Hnew & ?)]; [by left|right]. exists h. split; [done|].
  exists spec, oid. split_and!; [done| |done]. unfold new_order in *. by rewrite Hw in Hnew.
Qed.

(** C6: An order reaches the execution boundary only through every check of
    the order management system.  Whatever the database does, a call of
    [create_order] calls the boundary at most once; then the intent passed
    validation at the call's clock reading and halt flag, its approval was
    unexpired when checked again, no stored order had its order id or its
    orchestration id, and the order row, in status SUBMISSION_REQUESTED with
    the event saying so, is committed; the handoff names that order and that
    approval.  Without a repository nothing is handed on. *)
Theorem submission_backed_by_stored_order i w r w' : create_order oc i w = (r, w') ->
  hands w w' (fun h => exists spec id,
    let order := to_orm_order spec (build_order_identity i id (sp_quantity spec)) in
    validate_intent i (oc_clock oc (sw_tick (ow_service w)))
      (oc_global_halt_active oc (S (sw_tick (ow_service w)))) = Ok spec /\
    new_order order w /\ submitted spec order w' h).
Proof. apply create_spec. Qed.

(** ** Sequences of calls and of other writers *)

Lemma cancel_quiet u : quiet (request_cancellation oc u).
Proof.
  unfold request_cancellation. apply oms_quiet_bind; [auto with oms|intros []]; [auto with oms|].
  apply oms_quiet_bind; [auto with oms|intros [o|]]; [|auto with oms].
  apply oms_quiet_bind; [auto with oms|intros st]. destruct (negb _); [auto with oms|]. quiet_steps.
Qed.

(** The calls of the service in any order, and other processes that add rows
    and change the status of orders (the execution engine). *)
Inductive oms_step : OW -> OW -> Prop :=
| step_create i w r w' : create_order oc i w = (r, w') -> oms_step w w'
| step_cancel u w r w' : request_cancellation oc u w = (r, w') -> oms_step w w'
| step_other w db db' : ow_db w = Some db -> evolves (rows db) (rows db') ->
    oms_step w {| ow_service := Service.set_db db' (ow_service w); ow_handed := ow_handed w |}.

Definition handoff_orchestration (h : SubmissionHandoff) : option pyval :=
  bi_metadata (sh_intent h) !! "orchestration_id"%string.

(** The order of a handoff is stored. *)
Definition order_of_handoff (db : DB) (h : SubmissionHandoff) : Prop := exists j o x,
  rows db !! j = Some (ROrder o) /\ or_id o = sh_order_id h /\
  or_orchestration_id o = Some x /\ handoff_orchestration h = Some (PStr x).

Definition oms_inv (w : OW) : Prop := exists db, ow_db w = Some db /\
  Forall (order_of_handoff db) (ow_handed w) /\
  NoDup (sh_order_id <$> ow_handed w) /\ NoDup (handoff_orchestration <$> ow_handed w).

Lemma order_of_handoff_evolves db db' h : evolves (rows db) (rows db') ->
  order_of_handoff db h -> order_of_handoff db' h.
Proof.
  intros He (j & o & x & Hj & Hi & Hx & Ho). destruct (He j _ Hj) as (r' & Hj' & [->|(o' & st & [= <-] & ->)]).
  - by exists j, o, x.
  - exists j, (with_status st o), x. done.
Qed.

Lemma NoDup_snoc_fmap {A B} (f : A -> B) (l : list A) (a : A) : NoDup (f <$> l) ->
  (forall b, b ∈ l -> f b <> f a) -> NoDup (f <$> l ++ [a]).
Proof.
  intros Hl Ha. rewrite fmap_app. apply NoDup_app. split_and!; [done| |apply NoDup_singleton].
  intros x (b & -> & Hb)%list_elem_of_fmap Hx%list_elem_of_singleton. by apply (Ha b).
Qed.

Lemma oms_inv_hands w w' P : oms_inv w -> hands w w' P ->
  (forall h, P h -> exists spec id, new_order (to_orm_order spec id) w /\ submitted spec (to_orm_order spec id) w' h) ->
  oms_inv w'.
Proof.
  intros (db & Hw & H1 & H2 & H3) [Hc Hh] HP. unfold changes in Hc. rewrite Hw in Hc.
  destruct (ow_db w') as [db'|] eqn:Hw'; [|done]. exists db'. split; [done|].
  assert (Forall (order_of_handoff db') (ow_handed w)) as H1'.
  { eapply Forall_impl; [exact H1|]. intros h. by apply order_of_handoff_evolves. }
  destruct Hh as [->|(h & -> & Hp)]; [done|].
  destruct (HP h Hp) as (spec & id & (db0 & Hw0 & Hnew) & Hs). rewrite Hw in Hw0. injection Hw0 as <-.
  destruct Hs as (db1 & j & i & at_ & n & ap & rq & Hw1 & Hj & _ & _ & _ & Hb).
  rewrite Hw' in Hw1. injection Hw1 as <-.
  assert (sh_order_id h = oi_internal_order_id id /\ handoff_orchestration h = Some (PStr (sp_orchestration_id spec)))
    as [Hid Ho].
  { unfold build_handoff in Hb. destruct (require_timezone rq "requested_at"); [|done].
    injection Hb as <-. split; [done|]. unfold handoff_orchestration. simpl. by rewrite lookup_singleton_eq. }
  split_and!.
  - apply Forall_app. split; [done|]. apply Forall_singleton. exists j, (with_status "SUBMISSION_REQUESTED" (to_orm_order spec id)).
    eexists. split_and!; [exact Hj|by rewrite Hid|done|done].
  - apply NoDup_snoc_fmap; [done|]. intros b Hb' Heq. rewrite Forall_forall in H1.
    destruct (H1 b Hb') as (k & o & x & Hk & Hi' & _). destruct (Hnew k _ Hk) as [Hn _]. apply Hn.
    change (Some (or_id o) = Some (oi_internal_order_id id)). congruence.
  - apply NoDup_snoc_fmap; [done|]. intros b Hb' Heq. rewrite Forall_forall in H1.
    destruct (H1 b Hb') as (k & o & x & Hk & _ & Hx & Hox). destruct (Hnew k _ Hk) as [_ Hn]. apply Hn.
    change (or_orchestration_id o = Some (sp_orchestration_id spec)). congruence.
Qed.

Lemma oms_inv_step w w' : oms_inv w -> oms_step w w' -> oms_inv w'.
Proof.
  intros Hi Hs. destruct Hs as [i w r w' E|u w r w' E|w db db' Hw He].
  - apply create_spec in E. eapply oms_inv_hands; [exact Hi|exact E|]. intros h (spec & id & _ & ? & ?). eauto.
  - eapply oms_inv_hands; [exact Hi|eapply (quiet_hands _ _ _ _ (fun _ => False)); [apply cancel_quiet|exact E]|done].
  - destruct Hi as (db0 & Hw0 & H1 & H2 & H3). rewrite Hw in Hw0. injection Hw0 as <-.
    exists db'. split_and!; [done| |done|done]. eapply Forall_impl; [exact H1|].
    intros h. by apply order_of_handoff_evolves.
Qed.

(** C7: An intent becomes at most one order at the execution boundary.  In
    every state reachable by calls of [create_order] and [request_cancellation]
    in any order, with other processes adding rows and moving orders on in
    between, and whatever each commit does, every handoff's order is stored
    with its orchestration id, and no order id and no orchestration id was
    handed over twice. *)
Theorem orders_submitted_once w0 db w : ow_db w0 = Some db -> ow_handed w0 = [] -> rtc oms_step w0 w ->
  oms_inv w.
Proof.
  intros Hw Hh Hr. assert (oms_inv w0) as Hi.
  { exists db. rewrite Hh. split_and!; [done|constructor..]. }
  clear Hw Hh db. induction Hr as [w|w w1 w2 Hs _ IH]; [done|]. apply IH. by eapply oms_inv_step.
Qed.

(** A repeated intent changes nothing.  If the order of an orchestration
    id is stored, [create_order] of an intent with that id leaves the database
    and the execution boundary as they are; it answers, if it answers, with
    that order as a duplicate, and only when every immutable field of the
    request has the identity of the stored order (a conflict raises). *)
Theorem repeated_intent_changes_nothing i w r w' db j o :
  ow_db w = Some db -> rows db !! j = Some (ROrder o) ->
  or_orchestration_id o = Some (ti_orchestration_id i) ->
  create_order oc i w = (r, w') ->
  ow_handed w' = ow_handed w /\ ow_db w' = Some db /\
  match r with
  | Ok res => ol_order_id res = or_id o /\ ol_duplicate res = true /\ ol_created res = false /\
      order_state_of_value (or_status o) = Ok (ol_status res) /\
      or_order_identity_key o = Some (compute_order_identity_key (ti_orchestration_id i) (ti_signal_id i)
        (ti_strategy_id i) (ti_account_id i) (ti_instrument_id i) (ti_action i) (int_of_dec (ti_quantity i))
        (ti_order_type i) (ti_trading_mode i) (str_opt uuid_str (ti_approval_id i)))
  | Err _ => True
  end.
Proof.
  intros Hw Hj Ho E. unfold create_order in E.
  unfold bind at 1, om_clock, svc, zoom, scall in E. simpl in E. unfold bind at 1 in E. simpl in E.
  apply lift_run in E as [(e & _ & -> & ->)|(spec & Hv & E)]; [done|].
  apply validate_intent_spec in Hv as [Hso Hsq].
  unfold bind at 1, om_uuid4, svc, zoom, scall in E. simpl in E.
  unfold bind at 1, svc, zoom, no_repository, gets in E. simpl in E.
  match type of E with _ ?w0 = _ => assert (ow_db w0 = Some db /\ ow_handed w0 = ow_handed w) as [Hw0 Hh0] by done;
    generalize dependent w0 end.
  intros w0 E Hw0 Hh0. unfold ow_db in Hw. rewrite Hw in E. rewrite <- Hh0. clear Hh0.
  unfold create_with_persistence in E. rewrite Hso in E.
  apply bind_run in E as [(e & E & ->)|(ex & w1 & E & E1)];
    apply (om_repo_run _ _ _ _ _ Hw0) in E as (db1 & E & Hw1 & Hh1);
    apply find_by_orchestration_spec in E as [-> Hf]; [done|].
  destruct ex as [o'|]; [|by destruct (Hf j _ Hj)].
  destruct Hf as (k & Hk & _ & Hu). rewrite <- (Hu j _ Hj Ho), Hj in Hk. injection Hk as <-.
  pose proof (still_resolve (Some o) (build_order_identity i (oc_uuid4 oc (S (S (sw_tick (ow_service w))))) (sp_quantity spec)) w1) as [H1 H2].
  rewrite E1 in H1, H2. simpl in H1, H2. rewrite H1, H2. split_and!; [done..|].
  unfold resolve_existing in E1. case_bool_decide as Hkey.
  2: { by apply bind_run in E1 as [(e & _ & ->)|([] & w2 & _ & [= <- _])]. }
  apply bind_run in E1 as [(e & _ & ->)|([] & w2 & _ & E1)]; [done|].
  apply lift_run in E1 as [(e & _ & -> & _)|(st & Hst & E1)]; [done|].
  injection E1 as <- _. cbn [ol_order_id ol_duplicate ol_created ol_status].
  split_and!; [reflexivity..|exact Hst|]. rewrite Hkey, Hsq. unfold build_order_identity.
  cbn [oi_order_identity_key]. reflexivity.
Qed.

(** ** Cancellation *)

(** Cancellation is asked only of orders it can reach, and all or nothing.
    A successful [request_cancellation] found the order in a cancellable
    status, set it to CANCEL_REQUESTED, recorded the event with the status it
    left, and changed no other row; a failure leaves every row as it was.  The
    execution boundary is not called either way. *)
Theorem cancellation_from_cancellable u w r w' db : ow_db w = Some db ->
  request_cancellation oc u w = (r, w') ->
  ow_handed w' = ow_handed w /\ exists db', ow_db w' = Some db' /\
  match r with
  | Ok res => exists j o i event st, rows db !! j = Some (ROrder o) /\ or_id o = u /\
      st ∈ CANCELLABLE /\ order_state_of_value (or_status o) = Ok st /\
      rows db' = <[i := REvent event]> (<[j := ROrder (with_status "CANCEL_REQUESTED" o)]> (rows db)) /\
      oe_order_id event = u /\ oe_previous_status event = Some (order_state_value st) /\
      oe_new_status event = "CANCEL_REQUESTED"%string /\ rows db !! i = None /\
      ol_order_id res = u /\ ol_status res = CANCEL_REQUESTED
  | Err _ => rows db' = rows db
  end.
Proof.
  intros Hw E. unfold request_cancellation in E. unfold bind at 1, svc, zoom, no_repository, gets in E.
  simpl in E. match type of E with _ ?w0 = _ => assert (ow_db w0 = Some db /\ ow_handed w0 = ow_handed w) as [Hw0 Hh0] by done;
    generalize dependent w0 end.
  intros w0 E Hw0 Hh0. unfold ow_db in Hw. rewrite Hw in E. rewrite <- Hh0. clear Hh0 Hw.
  apply bind_run in E as [(e & E & ->)|(o & w1 & E & E1)];
    apply (om_repo_run _ _ _ _ _ Hw0) in E as (db1 & E & Hw1 & Hh1);
    pose proof (reads_run _ _ _ _ (find_by_id_reads (Some u)) E) as ->; [eauto|].
  apply find_by_id_some in E. destruct o as [o|]; [|injection E1 as <- <-; split; [done|]; by exists db].
  apply lift_run in E1 as [(e & _ & -> & ->)|(st & Hst & E1)]; [eauto|].
  case_bool_decide as Hc; simpl in E1; [|injection E1 as <- <-; split; [done|]; by exists db].
  unfold bind at 1, om_clock, svc, zoom, scall in E1. simpl in E1.
  match type of E1 with _ ?w2 = _ => assert (ow_db w2 = Some db /\ ow_handed w2 = ow_handed w1) as [Hw2 Hh2] by done;
    generalize dependent w2 end.
  intros w2 E1 Hw2 Hh2. rewrite <- Hh1, <- Hh2.
  apply bind_run in E1 as [(e & E1 & ->)|([] & w3 & E1 & E3)].
  - apply try_run in E1 as [(a & _ & [=])|(e' & w3 & E1 & E2)].
    apply (om_repo_run _ _ _ _ _ Hw2) in E1 as (db3 & E1 & Hw3 & Hh3). apply append_event_spec in E1.
    unfold bind, om_metric, svc, zoom, metric, modify, throw in E2. simpl in E2. injection E2 as _ <-. eauto.
  - apply try_run in E1 as [(a & E1 & _)|(e' & w4 & _ & E2)]; [|done].
    apply (om_repo_run _ _ _ _ _ Hw2) in E1 as (db3 & E1 & Hw3 & Hh3).
    destruct a. apply append_event_spec in E1 as (j & o' & i & Hj & Hid & Hu & Hi & Hr & _).
    destruct E as (k & Hk & Ho). assert (k = j) as ->.
    { apply (Hu k _ Hk). unfold order_pk. simpl. by rewrite Ho. }
    rewrite Hk in Hj. injection Hj as <-.
    assert (rows db !! i = None) as Hi'.
    { destruct (decide (i = j)) as [->|]; [by rewrite lookup_insert_eq in Hi|by rewrite lookup_insert_ne in Hi]. }
    unfold bind, om_metric, svc, zoom, metric, modify, ret in E3. simpl in E3. injection E3 as <- <-.
    split; [done|]. exists db3. split; [done|]. eexists j, o, i, _, st. split_and!; done.
Qed.
End OmsFacts.

(** ** From the orchestrator to the order management system *)

Lemma action_value_allowed a : a ∈ TRADABLE_ACTIONS -> py_upper (action_value a) ∈ ALLOWED_ACTIONS.
Proof.
  rewrite <- (bool_decide_eq_true (a ∈ _)), <- (bool_decide_eq_true (_ ∈ ALLOWED_ACTIONS)). by destruct a.
Qed.

(** C14: What the orchestrator hands over, the order management system
    understands.  An intent the orchestrator hands off, while its approval is
    unexpired at the order management system's clock and no halt is active, is
    accepted exactly when three facts hold that the orchestrator does not
    check: its quantity is a whole number, its order type is one of the four
    supported ones, and it names an account.  Everything else (mode, action,
    sign of the quantity, approval, orchestration id) the orchestrator already
    guarantees. *)
Theorem orchestrated_intents_accepted {RDB DB} `{Session RDB RiskEvent risk_constraint} sc tg record mode given
    (w : Orchestrator RDB DB) i now expires :
  justified sc tg record mode given w i ->
  ti_approval_expires_at i = Some expires -> dt_aware now = true -> dt_le expires now = Ok false ->
  (exists spec, validate_intent i now false = Ok spec) <->
  deq (ti_quantity i) (to_integral_value (ti_quantity i)) = true /\
  py_upper (ti_order_type i) ∈ ALLOWED_ORDER_TYPES /\ is_Some (ti_account_id i).
Proof.
  intros (Hm & _ & _ & Ha & oi & q & o & rk & b & cid & orch & x & Hi) Hx Hnow Hle.
  destruct Hi as (_ & _ & Hq & _ & _ & Hap & _ & _ & Hexp & _ & Horch & ->). rewrite validate_intent_iff.
  cbn [build_intent ti_orchestration_id ti_trading_mode ti_action ti_order_type ti_quantity ti_approval_expires_at
    ti_approval_id ti_account_id] in *.
  assert (is_blank orch = false) as Hb by (unfold compute_orchestration_identity_key in Horch;
    destruct (compute_signal_identity_key _ _); [|done]; injection Horch as <-; apply sha256_hex_nonblank).
  assert (py_upper mode ∈ SIMULATED) as Hmode.
  { unfold SIMULATED in Hm. apply elem_of_cons in Hm as [->|Hm]; [left|].
    apply list_elem_of_singleton in Hm as ->. right. left. }
  assert (dt_aware expires = true) as He.
  { unfold dt_le, dt_cmp, dt_comparable in Hle. destruct (dt_aware expires), (dt_aware now); done. }
  pose proof (action_value_allowed _ Ha) as Hact. split; [tauto|]. intros (H1 & H2 & H3).
  split_and!; eauto.
Qed.

(** * Concrete runs *)

Module OmsSample.
Import RiskService.ServiceSample TradingSample.
Open Scope string_scope.

(** The intent the orchestrator handed off in its sample run. *)
Definition handed : list TradingIntent := Eval vm_compute in tw_delivered (snd TradingSample.once).
Definition order_intent : TradingIntent := Eval vm_compute in
  match handed as l return match l with [] => unit | _ => TradingIntent end with [] => tt | i :: _ => i end.

Definition oms : OmsConfig :=
  {| oc_clock := ServiceSample.clock; oc_uuid4 := fun n => (700 + N.of_nat n)%N;
     oc_global_halt_active := fun _ => false; oc_port := noop_execution_port |}.

Definition world : OmsWorld ddb :=
  {| ow_service := {| sw_repository := Some matching_db; sw_metrics := ∅; sw_tick := 0 |}; ow_handed := [] |}.

Abbreviation create := (create_order (refs:=all_refs) oms).
Definition created := Eval vm_compute in create order_intent world.
Lemma created_run : create order_intent world = (fst created, snd created).
Proof. vm_compute. reflexivity. Qed.

Example created_and_handed : match fst created with
  | Ok r => (ol_status r, ol_created r, List.length (ow_handed (snd created))) = (SUBMISSION_REQUESTED, true, 1%nat)
  | Err _ => False end.
Proof. vm_compute. reflexivity. Qed.

Definition again := Eval vm_compute in create order_intent (snd created).
Lemma again_run : create order_intent (snd created) = (fst again, snd again).
Proof. vm_compute. reflexivity. Qed.

Example duplicate_reported : match fst again with
  | Ok r => (ol_duplicate r, ol_created r, List.length (ow_handed (snd again))) = (true, false, 1%nat)
  | Err _ => False end.
Proof. vm_compute. reflexivity. Qed.

(** Where the signal is not stored under its domain id, the foreign key is
    reported as a duplicate order that does not exist. *)
Example missing_signal : match fst (create order_intent
    {| ow_service := {| sw_repository := Some ∅; sw_metrics := ∅; sw_tick := 0 |}; ow_handed := [] |}) with
  | Err e => (exn_cls e, exn_msg e) = (OrderValidationError, "order not found during duplicate resolution")
  | Ok _ => False end.
Proof. vm_compute. reflexivity. Qed.

Definition cancelled := Eval vm_compute in request_cancellation (refs:=all_refs) oms 702 (snd again).
Lemma cancelled_run : request_cancellation (refs:=all_refs) oms 702 (snd again) = (fst cancelled, snd cancelled).
Proof. vm_compute. reflexivity. Qed.

Example cancellation : match fst cancelled with
  | Ok r => ol_status r = CANCEL_REQUESTED | Err _ => False end.
Proof. vm_compute. reflexivity. Qed.

Lemma stored_submission_witness : exists h, ow_handed (snd created) = [h] /\ sh_order_id h = 702%N /\
  hands (refs:=all_refs) world (snd created) (fun h => exists spec id,
    let order := to_orm_order spec (build_order_identity order_intent id (sp_quantity spec)) in
    validate_intent order_intent (ServiceSample.clock 0) false = Ok spec /\
    new_order (refs:=all_refs) order world /\ submitted (refs:=all_refs) oms spec order (snd created) h).
Proof.
  eexists. split; [vm_compute; reflexivity|]. split; [reflexivity|].
  exact (submission_backed_by_stored_order (refs:=all_refs) oms order_intent world (fst created) (snd created) created_run).
Defined.

Lemma submitted_once_witness : List.length (ow_handed (snd cancelled)) = 1%nat /\ oms_inv (refs:=all_refs) (snd cancelled).
Proof.
  split; [vm_compute; reflexivity|].
  refine (orders_submitted_once (refs:=all_refs) oms world matching_db (snd cancelled) eq_refl eq_refl _).
  eapply rtc_l; [eapply (step_create _ order_intent _ (fst created) (snd created)), created_run|].
  eapply rtc_l; [eapply (step_create _ order_intent _ (fst again) (snd again)), again_run|].
  eapply rtc_l; [eapply (step_cancel _ 702 _ (fst cancelled) (snd cancelled)), cancelled_run|].
  apply rtc_refl.
Defined.

Definition after_create : ddb := Eval vm_compute in default ∅ (ow_db (snd created)).
Definition stored_order : OrderRow := Eval vm_compute in
  match after_create !! 2%N as r return match r with Some (ROrder _) => OrderRow | _ => unit end with
  | Some (ROrder o) => o
  | _ => tt
  end.

Lemma repeated_witness : ow_handed (snd again) = ow_handed (snd created) /\ ow_db (snd again) = Some after_create.
Proof.
  assert (forall r w', create order_intent (snd created) = (r, w') ->
    ow_handed w' = ow_handed (snd created) /\ ow_db w' = Some after_create) as H.
  { intros r w' E.
    destruct (repeated_intent_changes_nothing (refs:=all_refs) oms order_intent (snd created) r w'
      after_create 2 stored_order) as (H1 & H2 & _).
    - vm_compute. reflexivity.
    - vm_compute. reflexivity.
    - vm_compute. reflexivity.
    - exact E.
    - split; assumption. }
  apply (H (fst again) (snd again)). apply again_run.
Defined.

Lemma cancellation_witness : ow_handed (snd cancelled) = ow_handed (snd again).
Proof.
  exact (proj1 (cancellation_from_cancellable (refs:=all_refs) oms 702 (snd again) (fst cancelled) (snd cancelled)
    after_create eq_refl cancelled_run)).
Defined.

Lemma handed_by_run : tw_delivered (snd TradingSample.once) = handed.
Proof. vm_compute. reflexivity. Qed.

Lemma order_intent_justified : justified (RS:=MemDB risk_constraint) (config 8) orchestration record "PAPER" intent
  (orchestrator (Some matching_db)) order_intent.
Proof.
  pose proof (process_spec (refs:=all_refs) (config 8) orchestration record "PAPER" intent
    (orchestrator (Some matching_db)) (fst TradingSample.once) (snd TradingSample.once)
    once_run) as [_ [E|(i & E & _ & Hi)]];
    rewrite handed_by_run in E; [done|]. injection E as <-. exact Hi.
Qed.

Lemma accepted_witness : exists spec, validate_intent order_intent (ServiceSample.clock 0) false = Ok spec.
Proof.
  refine (proj2 (orchestrated_intents_accepted (config 8) orchestration record "PAPER" intent
    (orchestrator (Some matching_db)) order_intent (ServiceSample.clock 0) (utc 1700000030004000)
    order_intent_justified _ _ _) _).
  - reflexivity.
  - reflexivity.
  - reflexivity.
  - split_and!; [reflexivity|vm_compute; left|by eexists].
Defined.
End OmsSample.
