(* ===== verification/Market.v ===== *)
(** Market-data contracts
    (src/packages/contracts/alpha_algo_contracts/market_data.py): ticks and
    candles with the checks their construction makes. *)

From stdpp Require Import base list strings gmap.
From Stdlib Require Import ZArith Lia String.
From S2P Require Import Prelude PyBase Decimal.

Open Scope Z_scope.

Inductive CandleTimeframe := ONE_MINUTE | FIVE_MINUTES | FIFTEEN_MINUTES | ONE_HOUR | ONE_DAY.

#[export] Instance CandleTimeframe_eq_dec : EqDecision CandleTimeframe.
Proof. solve_decision. Defined.

Definition timeframe_value (t : CandleTimeframe) : string :=
  match t with
  | ONE_MINUTE => "1m" | FIVE_MINUTES => "5m" | FIFTEEN_MINUTES => "15m" | ONE_HOUR => "1h"
  | ONE_DAY => "1d"
  end.

Record MarketTick := {
  tk_instrument_id : UUID;
  tk_exchange : string;
  tk_symbol : string;
  tk_timestamp : datetime;
  tk_ltp : decimal;
  tk_volume : option Z;
  tk_bid : option decimal;
  tk_ask : option decimal;
  tk_bid_quantity : option Z;
  tk_ask_quantity : option Z;
  tk_source_broker : string;
  tk_source_sequence : string;
  tk_received_at : datetime;
}.

(** [Field(min_length=1, max_length=hi)] *)
Definition bounded_text (hi : nat) (s : string) : res unit :=
  raise_if ((String.length s <? 1)%nat || (hi <? String.length s)%nat) ValueError
    "String should have an admissible length".
(** [Field(gt=Decimal("0"))] *)
Definition positive_price (d : decimal) : res unit :=
  raise_if (dle d dzero) ValueError "Input should be greater than 0".
(** [Field(default=None, ...)] *)
Definition optional {A} (check : A -> res unit) (o : option A) : res unit :=
  match o with Some a => check a | None => Ok tt end.
(** [Field(default=None, ge=0)] *)
Definition non_negative (z : Z) : res unit :=
  raise_if (z <? 0) ValueError "Input should be greater than or equal to 0".
Definition timestamp_aware (d : datetime) : res unit :=
  raise_if (negb (dt_aware d)) ValueError "timestamp values must be timezone-aware".

Definition mk_MarketTick (t : MarketTick) : res MarketTick :=
  bounded_text 32 (tk_exchange t) ;!
  bounded_text 100 (tk_symbol t) ;!
  timestamp_aware (tk_timestamp t) ;!
  positive_price (tk_ltp t) ;!
  optional non_negative (tk_volume t) ;!
  optional positive_price (tk_bid t) ;!
  optional positive_price (tk_ask t) ;!
  optional non_negative (tk_bid_quantity t) ;!
  optional non_negative (tk_ask_quantity t) ;!
  bounded_text 50 (tk_source_broker t) ;!
  bounded_text 150 (tk_source_sequence t) ;!
  timestamp_aware (tk_received_at t) ;!
  Ok t.

Record MarketCandle := {
  cd_instrument_id : UUID;
  cd_exchange : string;
  cd_symbol : string;
  cd_timeframe : CandleTimeframe;
  cd_candle_start : datetime;
  cd_open_price : decimal;
  cd_high_price : decimal;
  cd_low_price : decimal;
  cd_close_price : decimal;
  cd_volume : option Z;
  cd_source_broker : string;
  cd_generated_at : datetime;
}.

Definition validate_price_range (c : MarketCandle) : res unit :=
  raise_if (dgt (cd_low_price c) (cd_high_price c)) ValueError "low_price cannot exceed high_price" ;!
  raise_if (negb (dle (cd_low_price c) (cd_open_price c) && dle (cd_open_price c) (cd_high_price c)))
    ValueError "open_price must be within candle range" ;!
  raise_if (negb (dle (cd_low_price c) (cd_close_price c) && dle (cd_close_price c) (cd_high_price c)))
    ValueError "close_price must be within candle range".

Definition mk_MarketCandle (c : MarketCandle) : res MarketCandle :=
  bounded_text 32 (cd_exchange c) ;!
  bounded_text 100 (cd_symbol c) ;!
  timestamp_aware (cd_candle_start c) ;!
  positive_price (cd_open_price c) ;!
  positive_price (cd_high_price c) ;!
  positive_price (cd_low_price c) ;!
  positive_price (cd_close_price c) ;!
  optional non_negative (cd_volume c) ;!
  bounded_text 50 (cd_source_broker c) ;!
  timestamp_aware (cd_generated_at c) ;!
  validate_price_range c ;!
  Ok c.
