(* ===== verification/Indicators.v ===== *)
(** Moving averages
    (src/packages/indicators/alpha_algo_indicators/moving_average.py). *)

From stdpp Require Import base list strings.
From Stdlib Require Import ZArith Lia QArith Lqa String.
From S2P Require Import Prelude PyBase Decimal Money Service.

Open Scope Z_scope.

Definition validate_period (period : Z) : res unit :=
  raise_if (period <=? 0) ValueError "period must be positive".

(** [series[index + 1 - period : index + 1]] for [period <= index + 1] *)
Definition window (series : list decimal) (period index : nat) : list decimal :=
  take period (drop (S index - period) series).

(** [sum(window) / Decimal(period)] *)
Definition mean (w : list decimal) (period : nat) : res decimal :=
  ddiv (dsum w) (dec_of_Z (Z.of_nat period)).

Definition simple_moving_average (values : list decimal) (period : Z) : res (list (option decimal)) :=
  validate_period period ;!
  let p := Z.to_nat period in
  mapM_res (fun index => if (S index <? p)%nat then Ok None
                         else let! m := mean (window values p index) p in Ok (Some m))
    (seq 0 (List.length values)).

(** The loop of [exponential_moving_average]: [previous] is carried along. *)
Fixpoint ema_loop (series : list decimal) (period : nat) (multiplier : decimal) (previous : option decimal)
    (index : nat) (rest : list decimal) : res (list (option decimal)) :=
  match rest with
  | [] => Ok []
  | value :: rest' =>
      if (S index <? period)%nat then
        let! out := ema_loop series period multiplier previous (S index) rest' in Ok (None :: out)
      else
        let! previous := match previous with
                         | None => mean (window series period index) period
                         | Some p => Ok (dadd (dmul (dsub value p) multiplier) p)
                         end in
        let! out := ema_loop series period multiplier (Some previous) (S index) rest' in
        Ok (Some previous :: out)
  end.

Definition exponential_moving_average (values : list decimal) (period : Z) : res (list (option decimal)) :=
  validate_period period ;!
  let! multiplier := ddiv (dec_of_Z 2) (dec_of_Z (period + 1)) in
  ema_loop values (Z.to_nat period) multiplier None 0 values.

(** ** Facts *)

Lemma mean_total w p : (0 < p)%nat -> exists m, mean w p = Ok m.
Proof.
  intros Hp. unfold mean, ddiv.
  assert ((dcoef (dec_of_Z (Z.of_nat p)) =? 0)%N = false) as ->.
  { apply N.eqb_neq. unfold dec_of_Z. simpl. lia. }
  destruct (dcoef (dsum w) =? 0)%N; [by eexists|]. cbv zeta.
  match goal with |- context [let '(_, _) := ?x in _] => destruct x end. by eexists.
Qed.

Lemma amounts_bounds lo hi l : Forall (fun d => lo <= amount d <= hi) l ->
  lo * Z.of_nat (List.length l) <= amounts l <= hi * Z.of_nat (List.length l).
Proof. induction 1 as [|d l Hd Hl IH]; simpl; lia. Qed.

Lemma grid_val c : (dval (Dec false (Z.to_N c) (-4)) == inject_Z (Z.of_N (Z.to_N c)) * pow10 (-4))%Q.
Proof. by rewrite pos_val. Qed.

(** The mean of prices on the money grid lies between any bounds of them. *)
Lemma mean_between w p lo hi : (0 < p)%nat -> List.length w = p -> Forall money w ->
  Forall (fun d => lo <= amount d <= hi) w -> 0 < lo -> Z.of_nat p * hi < 10 ^ 28 ->
  exists m, mean w p = Ok m /\ (inject_Z lo * pow10 (-4) <= dval m <= inject_Z hi * pow10 (-4))%Q.
Proof.
  intros Hp Hl Hm Hb Hlo Hhi. pose proof (amounts_bounds _ _ _ Hb) as Hs. rewrite Hl in Hs.
  assert (magnitude w = amounts w) as Hmag.
  { clear Hl Hs Hm. induction Hb as [|d l Hd Hb IH]; simpl; [done|]. lia. }
  destruct (dsum_amounts w Hm) as [Hms Ha]; [lia|].
  assert (lo <= hi) as Hlh by nia.
  destruct (dz_pos_inv (dsum w)) as [Hn Hc].
  { pose proof (amount_sgn _ Hms) as Hg. rewrite Ha in Hg. assert (0 < amounts w) by nia. lia. }
  assert (dec_of_Z (Z.of_nat p) = Dec false (N.of_nat p) 0) as Hd.
  { unfold dec_of_Z. f_equal; [|lia]. destruct (Z.ltb_spec (Z.of_nat p) 0); lia. }
  assert (dval (dsum w) == inject_Z (amounts w) * pow10 (-4))%Q as Hv by (rewrite amount_val, Ha by done; done).
  assert (dval (dec_of_Z (Z.of_nat p)) == inject_Z (Z.of_nat p))%Q as Hvp by apply dval_of_Z.
  assert (forall z, 0 < z < 10 ^ 28 -> representable (Dec false (Z.to_N z) (-4))) as Hrep
    by (intros z Hz; split; [done|]; cbn [dcoef]; lia).
  assert (forall x y, x <= y -> (inject_Z x * pow10 (-4) <= inject_Z y * pow10 (-4))%Q) as Hmono.
  { intros x y Hxy. apply Qmult_le_compat_r; [by rewrite <- Zle_Qle|apply Qlt_le_weak, pow10_pos]. }
  assert (forall z, 0 < z -> (dval (Dec false (Z.to_N z) (-4)) * dval (dec_of_Z (Z.of_nat p)) ==
      inject_Z (z * Z.of_nat p) * pow10 (-4))%Q) as Hscale.
  { intros z Hz. rewrite Hvp, grid_val, Z2N.id, inject_Z_mult by lia. ring. }
  destruct (ddiv_between (dsum w) (dec_of_Z (Z.of_nat p)) (Dec false (Z.to_N lo) (-4)) (Dec false (Z.to_N hi) (-4)))
    as (r & Hr & _ & H1 & H2); try done.
  - by rewrite Hd.
  - rewrite Hd. simpl. lia.
  - apply Hrep. nia.
  - apply Hrep. nia.
  - rewrite Hscale, Hv by lia. apply Hmono. lia.
  - rewrite Hscale, Hv by lia. apply Hmono. lia.
  - exists r. rewrite grid_val, Z2N.id in H1, H2 by lia. done.
Qed.

Lemma window_length series p i : (p <= S i)%nat -> (i < List.length series)%nat ->
  List.length (window series p i) = p.
Proof. intros Hp Hi. unfold window. rewrite length_take, length_drop. lia. Qed.

(** A moving average stays inside its window: [simple_moving_average] of
    [n] prices never fails for a positive period, has one entry per price, no
    value before the window is full, and from then on a value between any bounds
    of the prices of that window (positive prices of four decimals whose sums
    have at most 28 digits), rounding included. *)
Theorem moving_average_within_window values period : 0 < period -> Forall money values ->
  exists out, simple_moving_average values period = Ok out /\ List.length out = List.length values /\
  forall i, (i < List.length values)%nat ->
    (Z.of_nat i + 1 < period -> out !! i = Some None) /\
    (period <= Z.of_nat i + 1 -> forall lo hi, 0 < lo -> period * hi < 10 ^ 28 ->
       Forall (fun d => lo <= amount d <= hi) (window values (Z.to_nat period) i) ->
       exists m, out !! i = Some (Some m) /\ (inject_Z lo * pow10 (-4) <= dval m <= inject_Z hi * pow10 (-4))%Q).
Proof.
  intros Hp Hm. unfold simple_moving_average, validate_period, raise_if.
  destruct (Z.leb_spec period 0); [lia|]. cbn [rbind]. set (p := Z.to_nat period).
  set (f := fun index : nat => _). destruct (mapM_res_total f (seq 0 (List.length values))) as [out Hout].
  { intros i _. unfold f. destruct (S i <? p)%nat; [by eexists|].
    destruct (mean_total (window values p i) p) as [m ->]; [lia|]. by eexists. }
  exists out. split; [exact Hout|]. apply mapM_res_ok in Hout.
  split; [by rewrite <- (Forall2_length _ _ _ Hout), length_seq|]. intros i Hi.
  destruct (Forall2_lookup_l _ _ _ i i Hout) as (o & Ho & Hf); [by apply lookup_seq|].
  unfold f in Hf. destruct (Nat.ltb_spec (S i) p).
  - injection Hf as <-. split; [done|]. lia.
  - split; [lia|]. intros _ lo hi Hlo Hhi Hb.
    destruct (mean_between (window values p i) p lo hi) as (m & Hmean & Hbnd); [lia|by apply window_length| |done|done|lia|].
    + unfold window. apply Forall_take, Forall_drop, Hm.
    + rewrite Hmean in Hf. injection Hf as <-. eauto.
Qed.

Module IndicatorSample.
Definition prices : list decimal := (fun z => Dec false z (-2)) <$> [10000; 10150; 9975; 10200]%N.

Example averages : simple_moving_average prices 3 =
  Ok [None; None; Some (Dec false 1004166666666666666666666667 (-25)); Some (Dec false 1010833333333333333333333333 (-25))].
Proof. vm_compute. reflexivity. Qed.

Lemma average_witness : exists m out, simple_moving_average prices 3 = Ok out /\ out !! 2%nat = Some (Some m) /\
  (inject_Z 997500 * pow10 (-4) <= dval m <= inject_Z 1015000 * pow10 (-4))%Q.
Proof.
  destruct (moving_average_within_window prices 3 eq_refl
    ltac:(repeat constructor; vm_compute; discriminate)) as (out & Hout & _ & Hw).
  assert (Forall (fun d => 997500 <= amount d <= 1015000) (window prices (Z.to_nat 3) 2)) as Hb
    by (repeat constructor; vm_compute; discriminate).
  destruct (proj2 (Hw 2%nat ltac:(vm_compute; lia)) ltac:(discriminate) 997500 1015000 eq_refl eq_refl Hb)
    as (m & Hm & Hbnd).
  exists m, out. split; [exact Hout|]. split; [exact Hm|exact Hbnd].
Defined.
End IndicatorSample.
