(* ===== verification/Strategy.v ===== *)
(** The strategy engine (services/strategy_engine) with the strategy contracts
    (packages/strategies): state.py, identity.py, config.py, duplicate.py,
    signal_validation.py, registry.py, dispatcher.py, instance.py, run_record.py,
    runtime.py, the reference strategy sma_cross.py, and the directory adapter of
    signal_engine/boundary.py.

    A strategy is user code: its callbacks are arbitrary computations on the
    strategy context (its private state, of type [St], and the list of emitted
    signals), so the theorems hold for every strategy.  The runtime runs the
    callbacks of one event on a thread pool and collects them as they complete;
    which complete, in which order, is the parameter [Schedule]. *)

From stdpp Require Import base list strings gmap fin_maps.
From Stdlib Require Import ZArith Lia String Ascii.
From S2P Require Import Prelude PyBase Hashing Decimal DecimalText Money Service Contracts Market Indicators RiskService Signal.
Open Scope Z_scope.

(** * state.py *)

Inductive StrategyMode := sm_BACKTEST | sm_PAPER | sm_LIVE.   (* TradingMode *)

#[export] Instance StrategyMode_eq_dec : EqDecision StrategyMode.
Proof. solve_decision. Defined.

Definition strategy_mode_value (m : StrategyMode) : string :=
  match m with sm_BACKTEST => "BACKTEST" | sm_PAPER => "PAPER" | sm_LIVE => "LIVE" end.

(** [TradingMode(value)] *)
Definition strategy_mode_of := enum_of [sm_BACKTEST; sm_PAPER; sm_LIVE] strategy_mode_value.

Inductive StrategyRunState :=
| run_CREATED | run_INITIALIZING | run_RUNNING | run_PAUSED | run_STOPPING | run_STOPPED | run_FAILED.

#[export] Instance StrategyRunState_eq_dec : EqDecision StrategyRunState.
Proof. solve_decision. Defined.

Definition run_state_value (s : StrategyRunState) : string :=
  match s with
  | run_CREATED => "created" | run_INITIALIZING => "initializing" | run_RUNNING => "running"
  | run_PAUSED => "paused" | run_STOPPING => "stopping" | run_STOPPED => "stopped" | run_FAILED => "failed"
  end.

Definition run_transitions (s : StrategyRunState) : list StrategyRunState :=
  match s with
  | run_CREATED => [run_INITIALIZING; run_RUNNING; run_FAILED]
  | run_INITIALIZING => [run_CREATED; run_FAILED]
  | run_RUNNING => [run_PAUSED; run_STOPPING; run_FAILED]
  | run_PAUSED => [run_RUNNING; run_STOPPING; run_FAILED]
  | run_STOPPING => [run_STOPPED; run_FAILED]
  | run_STOPPED | run_FAILED => []
  end.

Definition run_terminal (s : StrategyRunState) : bool := bool_decide (s ∈ [run_STOPPED; run_FAILED]).

Definition run_transition (s to : StrategyRunState) : res StrategyRunState :=
  if bool_decide (to ∈ run_transitions s) then Ok to
  else raise RuntimeError ("illegal state transition: " +:+ run_state_value s +:+ " -> " +:+ run_state_value to).

(** * identity.py and config.py *)

Definition compute_config_hash (config : metadata) : string := sha256_hex (canonical_json config).
Definition compute_code_hash (code_source : string) : string := sha256_hex code_source.

Record StrategyIdentity := {
  id_strategy_id : UUID;
  id_code : string;
  id_name : string;
  id_version : string;
  id_config_hash : string;
  id_code_hash : option string;
  id_created_at : option datetime;
}.

Definition require_non_blank (value field : string) : res unit :=
  raise_if (is_blank value) ValueError (field +:+ " cannot be blank").

Definition mk_StrategyIdentity (i : StrategyIdentity) : res StrategyIdentity :=
  require_non_blank (id_code i) "code" ;!
  require_non_blank (id_name i) "name" ;!
  require_non_blank (id_version i) "version" ;!
  require_non_blank (id_config_hash i) "config_hash" ;!
  match id_code_hash i with Some h => require_non_blank h "code_hash" | None => Ok tt end ;!
  Ok i.

(** [json.dumps(value)] accepts every scalar of the model but a time stamp. *)
Definition json_serializable (v : pyval) : bool :=
  match v with PDatetime _ => false | _ => true end.

(** [validate_config(values)], no keys required; the frozen copy is the value
    itself. *)
Definition validate_config (values : metadata) : res unit :=
  foldM (fun _ kv => raise_if (negb (json_serializable kv.2)) ConfigValidationError
                       ("config value for '" +:+ kv.1 +:+ "' is not serializable"))
    tt (map_to_list values).

(** [StrategyConfig(values, config_hash=...)] *)
Definition mk_StrategyConfig (values : metadata) (config_hash : string) : res unit :=
  validate_config values ;!
  raise_if (is_blank config_hash) ConfigValidationError "config_hash cannot be blank".

(** * duplicate.py *)

Definition signal_dedup_key (s : StrategySignal) (event_timestamp : datetime) : string :=
  sha256_hex (String.concat "|"
    [uuid_str (sg_strategy_id s); sg_strategy_version s; sg_strategy_config_hash s;
     uuid_str (sg_instrument_id s); action_value (sg_action s); isoformat event_timestamp]).

(** The keys of the ordered dictionary, oldest first. *)
Definition forget (key : string) (seen : list string) : list string :=
  filter (fun k => k <> key) seen.

Definition dedup_maxsize : nat := Z.to_nat 100000.

(** [is_duplicate]: the answer and the new table. *)
Definition dedup (maxsize : nat) (seen : list string) (key : string) : bool * list string :=
  if bool_decide (key ∈ seen) then (true, forget key seen ++ [key])
  else
    let seen' := seen ++ [key] in
    (false, if (maxsize <? List.length seen')%nat then drop 1 seen' else seen').

(** * lifecycle.py of the strategies package *)

Record OrderUpdate := {
  ou_order_id : UUID;
  ou_instrument_id : UUID;
  ou_status : string;
  ou_timestamp : datetime;
  ou_metadata : metadata;
}.

Definition mk_OrderUpdate (u : OrderUpdate) : res OrderUpdate :=
  require_timezone (ou_timestamp u) "timestamp" ;!
  raise_if (is_blank (ou_status u)) ValueError "status is required" ;!
  Ok u.

Record PositionUpdate := {
  pu_position_id : UUID;
  pu_instrument_id : UUID;
  pu_quantity : decimal;
  pu_timestamp : datetime;
  pu_metadata : metadata;
}.

Definition mk_PositionUpdate (u : PositionUpdate) : res PositionUpdate :=
  require_timezone (pu_timestamp u) "timestamp" ;! Ok u.

Record StrategyContext (St : Type) := {
  kx_strategy_id : UUID;
  kx_strategy_version : string;
  kx_strategy_config_hash : string;
  kx_config : metadata;
  kx_state : St;                       (* [state], and the attributes of the strategy object *)
  kx_emitted : list StrategySignal;
}.
Arguments kx_strategy_id {St} _.
Arguments kx_strategy_version {St} _.
Arguments kx_strategy_config_hash {St} _.
Arguments kx_config {St} _.
Arguments kx_state {St} _.
Arguments kx_emitted {St} _.

Definition mk_StrategyContext {St} (c : StrategyContext St) : res (StrategyContext St) :=
  raise_if (is_blank (kx_strategy_version c)) ValueError "strategy_version is required" ;!
  raise_if (is_blank (kx_strategy_config_hash c)) ValueError "strategy_config_hash is required" ;!
  Ok c.

Definition set_context {St} (state : St) (emitted : list StrategySignal) (c : StrategyContext St)
    : StrategyContext St :=
  {| kx_strategy_id := kx_strategy_id c; kx_strategy_version := kx_strategy_version c;
     kx_strategy_config_hash := kx_strategy_config_hash c; kx_config := kx_config c;
     kx_state := state; kx_emitted := emitted |}.

Definition emit_signal {St} (s : StrategySignal) : M (StrategyContext St) unit :=
  let* c := gets id in
  lift (raise_if (negb (sg_strategy_id s =? kx_strategy_id c)%N) ValueError
          "signal strategy_id does not match context") ;*
  lift (raise_if (negb (String.eqb (sg_strategy_version s) (kx_strategy_version c))) ValueError
          "signal strategy_version does not match context") ;*
  lift (raise_if (negb (String.eqb (sg_strategy_config_hash s) (kx_strategy_config_hash c))) ValueError
          "signal strategy_config_hash does not match context") ;*
  modify (fun c => set_context (kx_state c) (kx_emitted c ++ [s]) c).

(** The protocol a strategy implements. *)
Record StrategyLifecycle (St : Type) := {
  lf_state : St;                        (* the state of a fresh object *)
  lf_initialize : M (StrategyContext St) unit;
  lf_on_start : M (StrategyContext St) unit;
  lf_on_tick : MarketTick -> M (StrategyContext St) unit;
  lf_on_candle : MarketCandle -> M (StrategyContext St) unit;
  lf_on_order_update : OrderUpdate -> M (StrategyContext St) unit;
  lf_on_position_update : PositionUpdate -> M (StrategyContext St) unit;
  lf_on_stop : M (StrategyContext St) unit;
}.
Arguments lf_state {St} _.
Arguments lf_initialize {St} _.
Arguments lf_on_start {St} _.
Arguments lf_on_tick {St} _ _.
Arguments lf_on_candle {St} _ _.
Arguments lf_on_order_update {St} _ _.
Arguments lf_on_position_update {St} _ _.
Arguments lf_on_stop {St} _.

(** * signal_validation.py *)

Definition DEFAULT_SKEW : Z := 5000000.       (* timedelta(seconds=5) *)

(** [validate]: None is valid, Some reason is not; [event_timestamp] is given. *)
Definition validate_emitted (s : StrategySignal) (identity : StrategyIdentity)
    (allowed_instruments : option (list UUID)) (event_timestamp : datetime)
    (future_skew : Z) (max_age : option Z) : res (option string) :=
  if negb (sg_strategy_id s =? id_strategy_id identity)%N then Ok (Some "strategy_id_mismatch"%string)
  else if negb (String.eqb (sg_strategy_version s) (id_version identity)) then
    Ok (Some "strategy_version_mismatch"%string)
  else if negb (String.eqb (sg_strategy_config_hash s) (id_config_hash identity)) then
    Ok (Some "config_hash_mismatch"%string)
  else if negb (dle dzero (sg_confidence s) && dle (sg_confidence s) (dec_of_Z 1)) then
    Ok (Some "confidence_out_of_range"%string)
  else if is_blank (sg_reason s) then Ok (Some "missing_reason"%string)
  else if match allowed_instruments with
          | Some l => negb (bool_decide (sg_instrument_id s ∈ l))
          | None => false
          end then Ok (Some "instrument_not_subscribed"%string)
  else
    let! ahead := dt_sub (sg_timestamp s) event_timestamp in
    if future_skew <? ahead then Ok (Some "future_timestamp"%string)
    else match max_age with
         | None => Ok None
         | Some age =>
             let! behind := dt_sub event_timestamp (sg_timestamp s) in
             Ok (if age <? behind then Some "stale_timestamp"%string else None)
         end.

(** * registry.py *)

Record StrategyDefinition (St : Type) := {
  df_identity : StrategyIdentity;
  df_factory : res (StrategyLifecycle St);
  df_enabled : bool;
  df_instruments : list UUID;              (* empty: all instruments *)
  df_timeframes : list CandleTimeframe;    (* empty: all timeframes *)
  df_config : metadata;
}.
Arguments df_identity {St} _.
Arguments df_factory {St} _.
Arguments df_enabled {St} _.
Arguments df_instruments {St} _.
Arguments df_timeframes {St} _.
Arguments df_config {St} _.

(** [replace(definition, enabled=...)] *)
Definition with_enabled {St} (enabled : bool) (d : StrategyDefinition St) : StrategyDefinition St :=
  {| df_identity := df_identity d; df_factory := df_factory d; df_enabled := enabled;
     df_instruments := df_instruments d; df_timeframes := df_timeframes d; df_config := df_config d |}.

(** Dictionaries by id, in insertion order. *)
Fixpoint by_id {V} (k : UUID) (d : list (UUID * V)) : option V :=
  match d with
  | [] => None
  | (k', v) :: d' => if (k' =? k)%N then Some v else by_id k d'
  end.
Fixpoint put_id {V} (k : UUID) (v : V) (d : list (UUID * V)) : list (UUID * V) :=
  match d with
  | [] => [(k, v)]
  | (k', v') :: d' => if (k' =? k)%N then (k', v) :: d' else (k', v') :: put_id k v d'
  end.
Definition pop_id {V} (k : UUID) (d : list (UUID * V)) : list (UUID * V) := filter (fun kv => kv.1 <> k) d.

Record StrategyRegistry (St : Type) := {
  rg_by_id : list (UUID * StrategyDefinition St);
  rg_by_code : gmap string UUID;
}.
Arguments rg_by_id {St} _.
Arguments rg_by_code {St} _.

Section Registry.
Context {St : Type}.
Abbreviation RG := (StrategyRegistry St).

Definition registry_register (d : StrategyDefinition St) : M RG unit :=
  let* r := gets id in
  let i := df_identity d in
  lift (raise_if (bool_decide (is_Some (by_id (id_strategy_id i) (rg_by_id r)))) DuplicateRegistrationError
          ("strategy_id already registered: " +:+ uuid_str (id_strategy_id i))) ;*
  lift (raise_if (bool_decide (is_Some (rg_by_code r !! id_code i))) DuplicateRegistrationError
          ("strategy code already registered: '" +:+ id_code i +:+ "'")) ;*
  modify (fun r => {| rg_by_id := put_id (id_strategy_id i) d (rg_by_id r);
                      rg_by_code := <[id_code i := id_strategy_id i]> (rg_by_code r) |}).

Definition registry_unregister (strategy_id : UUID) : M RG unit :=
  let* r := gets id in
  match by_id strategy_id (rg_by_id r) with
  | None => throw StrategyNotFoundError ("strategy not registered: " +:+ uuid_str strategy_id)
  | Some d =>
      modify (fun r => {| rg_by_id := pop_id strategy_id (rg_by_id r);
                          rg_by_code := delete (id_code (df_identity d)) (rg_by_code r) |})
  end.

Definition registry_get (r : RG) (strategy_id : UUID) : res (StrategyDefinition St) :=
  match by_id strategy_id (rg_by_id r) with
  | Some d => Ok d
  | None => raise StrategyNotFoundError ("strategy not registered: " +:+ uuid_str strategy_id)
  end.

Definition registry_get_by_code (r : RG) (code : string) : res (StrategyDefinition St) :=
  match rg_by_code r !! code with
  | None => raise StrategyNotFoundError ("strategy not registered: '" +:+ code +:+ "'")
  | Some u => match by_id u (rg_by_id r) with
              | Some d => Ok d
              | None => raise KeyError (uuid_str u)
              end
  end.

Definition registry_set_enabled (strategy_id : UUID) (enabled : bool) : M RG unit :=
  let* r := gets id in
  let* d := lift (registry_get r strategy_id) in
  modify (fun r => {| rg_by_id := put_id strategy_id (with_enabled enabled d) (rg_by_id r);
                      rg_by_code := rg_by_code r |}).

Definition registry_clear : M RG unit := modify (fun _ => {| rg_by_id := []; rg_by_code := ∅ |}).
End Registry.

(** * instance.py *)

Record StrategyInstance (St : Type) := {
  ii_identity : StrategyIdentity;
  ii_strategy : StrategyLifecycle St;
  ii_state : StrategyRunState;
  ii_initialized : bool;
  ii_fail_reason : option string;
  ii_seen : list string;                     (* the deduplicator *)
  ii_context : StrategyContext St;
  ii_allowed_instruments : option (list UUID);
}.
Arguments ii_identity {St} _.
Arguments ii_strategy {St} _.
Arguments ii_state {St} _.
Arguments ii_initialized {St} _.
Arguments ii_fail_reason {St} _.
Arguments ii_seen {St} _.
Arguments ii_context {St} _.
Arguments ii_allowed_instruments {St} _.

(** An instance together with the counters it shares with the runtime. *)
Record InstanceWorld (St : Type) := {
  iw_instance : StrategyInstance St;
  iw_metrics : gmap string Z;
}.
Arguments iw_instance {St} _.
Arguments iw_metrics {St} _.

(** The events a strategy receives. *)
Inductive strategy_event :=
| ev_tick (t : MarketTick)
| ev_candle (c : MarketCandle)
| ev_order (u : OrderUpdate)
| ev_position (u : PositionUpdate).

Definition event_time (e : strategy_event) : datetime :=
  match e with
  | ev_tick t => tk_timestamp t
  | ev_candle c => cd_candle_start c
  | ev_order u => ou_timestamp u
  | ev_position u => pu_timestamp u
  end.
Definition event_instrument (e : strategy_event) : UUID :=
  match e with
  | ev_tick t => tk_instrument_id t
  | ev_candle c => cd_instrument_id c
  | ev_order u => ou_instrument_id u
  | ev_position u => pu_instrument_id u
  end.
Definition event_timeframe (e : strategy_event) : option CandleTimeframe :=
  match e with ev_candle c => Some (cd_timeframe c) | _ => None end.

Section Instance.
Context {St : Type}.
Abbreviation IW := (InstanceWorld St).

(** [StrategyInstance.__init__]; [config_values=None] takes the definition's. *)
Definition mk_StrategyInstance (d : StrategyDefinition St) (impl : StrategyLifecycle St)
    (config_values : option metadata) : res (StrategyInstance St) :=
  let i := df_identity d in
  let values := default (df_config d) config_values in
  let actual_hash := compute_config_hash values in
  raise_if (negb (String.eqb actual_hash (id_config_hash i))) ConfigValidationError
    ("config hash mismatch: " +:+ actual_hash +:+ " != " +:+ id_config_hash i) ;!
  mk_StrategyConfig values (id_config_hash i) ;!
  let! context := mk_StrategyContext
    {| kx_strategy_id := id_strategy_id i; kx_strategy_version := id_version i;
       kx_strategy_config_hash := id_config_hash i; kx_config := values; kx_state := lf_state impl;
       kx_emitted := [] |} in
  Ok {| ii_identity := i; ii_strategy := impl; ii_state := run_CREATED; ii_initialized := false;
        ii_fail_reason := None; ii_seen := []; ii_context := context;
        ii_allowed_instruments := match df_instruments d with [] => None | l => Some l end |}.

Definition ii_set (state : StrategyRunState) (initialized : bool) (fail_reason : option string)
    (seen : list string) (context : StrategyContext St) (i : StrategyInstance St) : StrategyInstance St :=
  {| ii_identity := ii_identity i; ii_strategy := ii_strategy i; ii_state := state;
     ii_initialized := initialized; ii_fail_reason := fail_reason; ii_seen := seen;
     ii_context := context; ii_allowed_instruments := ii_allowed_instruments i |}.

Definition iw_update (f : StrategyInstance St -> StrategyInstance St) : M IW unit :=
  modify (fun w => {| iw_instance := f (iw_instance w); iw_metrics := iw_metrics w |}).
Definition iw_inc (name : string) : M IW unit :=
  modify (fun w => {| iw_instance := iw_instance w; iw_metrics := bump (iw_metrics w) name |}).

Definition move_to (to : StrategyRunState) : M IW unit :=
  let* i := gets iw_instance in
  let* st := lift (run_transition (ii_state i) to) in
  iw_update (fun i => ii_set st (ii_initialized i) (ii_fail_reason i) (ii_seen i) (ii_context i) i).

(** [_fail] and [mark_failed] *)
Definition instance_fail (reason : string) : M IW unit :=
  let* i := gets iw_instance in
  if run_terminal (ii_state i) then ret tt
  else
    move_to run_FAILED ;*
    iw_update (fun i => ii_set (ii_state i) (ii_initialized i) (Some reason) (ii_seen i) (ii_context i) i) ;*
    iw_inc "strategies_failed".

Definition run_callback (m : M (StrategyContext St) unit) : M IW unit :=
  zoom (fun w => ii_context (iw_instance w))
    (fun c w => {| iw_instance := ii_set (ii_state (iw_instance w)) (ii_initialized (iw_instance w))
                     (ii_fail_reason (iw_instance w)) (ii_seen (iw_instance w)) c (iw_instance w);
                   iw_metrics := iw_metrics w |}) m.

(** A lifecycle callback: a fault fails the instance and is reported. *)
Definition guarded (what : string) (m : M (StrategyContext St) unit) : M IW unit :=
  try_except (run_callback m)
    (fun exc => Some (
       instance_fail (exn_msg exc) ;*
       throw LifecycleError (what +:+ " failed: " +:+ exn_msg exc))).

Definition require_state (ok : StrategyInstance St -> bool) (msg : string) : M IW unit :=
  let* i := gets iw_instance in lift (raise_if (negb (ok i)) LifecycleError msg).

Definition instance_initialize : M IW unit :=
  require_state (fun i => negb (ii_initialized i)) "strategy already initialized" ;*
  require_state (fun i => bool_decide (ii_state i = run_CREATED)) "initialize only allowed from CREATED" ;*
  move_to run_INITIALIZING ;*
  let* i := gets iw_instance in
  guarded "initialize" (lf_initialize (ii_strategy i)) ;*
  move_to run_CREATED ;*
  iw_update (fun i => ii_set (ii_state i) true (ii_fail_reason i) (ii_seen i) (ii_context i) i).

Definition instance_start : M IW unit :=
  require_state ii_initialized "must initialize before start" ;*
  require_state (fun i => bool_decide (ii_state i = run_CREATED)) "start only allowed once from CREATED" ;*
  move_to run_RUNNING ;*
  let* i := gets iw_instance in
  guarded "on_start" (lf_on_start (ii_strategy i)) ;*
  iw_inc "strategies_started".

Definition instance_pause : M IW unit :=
  require_state (fun i => bool_decide (ii_state i = run_RUNNING)) "pause only allowed from RUNNING" ;*
  move_to run_PAUSED ;*
  iw_inc "strategies_paused".

Definition instance_resume : M IW unit :=
  require_state (fun i => bool_decide (ii_state i = run_PAUSED)) "resume only allowed from PAUSED" ;*
  move_to run_RUNNING ;*
  iw_inc "strategies_resumed".

Definition instance_stop : M IW unit :=
  require_state (fun i => bool_decide (ii_state i ∈ [run_RUNNING; run_PAUSED]))
    "stop only allowed from RUNNING/PAUSED" ;*
  move_to run_STOPPING ;*
  let* i := gets iw_instance in
  guarded "on_stop" (lf_on_stop (ii_strategy i)) ;*
  move_to run_STOPPED ;*
  iw_inc "strategies_stopped".

Definition event_callback (impl : StrategyLifecycle St) (e : strategy_event) : M (StrategyContext St) unit :=
  match e with
  | ev_tick t => lf_on_tick impl t
  | ev_candle c => lf_on_candle impl c
  | ev_order u => lf_on_order_update impl u
  | ev_position u => lf_on_position_update impl u
  end.

(** The loop over the signals the callback emitted. *)
Fixpoint accept_emitted (signals : list StrategySignal) (event_timestamp : datetime) : M IW (list StrategySignal) :=
  match signals with
  | [] => ret []
  | s :: rest =>
      let* i := gets iw_instance in
      let* verdict := lift (validate_emitted s (ii_identity i) (ii_allowed_instruments i) event_timestamp
                              DEFAULT_SKEW (Some DEFAULT_SKEW)) in
      match verdict with
      | Some _ => iw_inc "signals_rejected" ;* accept_emitted rest event_timestamp
      | None =>
          let '(dup, seen) := dedup dedup_maxsize (ii_seen i) (signal_dedup_key s event_timestamp) in
          iw_update (fun i => ii_set (ii_state i) (ii_initialized i) (ii_fail_reason i) seen (ii_context i) i) ;*
          if dup then iw_inc "signals_duplicate" ;* accept_emitted rest event_timestamp
          else
            iw_inc "signals_generated" ;*
            let* accepted := accept_emitted rest event_timestamp in
            ret (s :: accepted)
      end
  end.

(** [_dispatch_locked]: None if the callback raised. *)
Definition on_event (e : strategy_event) : M IW (list StrategySignal) :=
  let* i := gets iw_instance in
  lift (raise_if (negb (bool_decide (ii_state i = run_RUNNING))) LifecycleError
          ("callback not allowed in state " +:+ run_state_value (ii_state i))) ;*
  let before := List.length (kx_emitted (ii_context i)) in
  let* ok := try_except (run_callback (event_callback (ii_strategy i) e) ;* ret true)
               (fun exc => Some (instance_fail (exn_msg exc) ;* ret false)) in
  iw_inc "callback_count" ;*
  if (ok : bool) then
    let* i := gets iw_instance in
    let* accepted := accept_emitted (drop before (kx_emitted (ii_context i))) (event_time e) in
    iw_update (fun i => ii_set (ii_state i) (ii_initialized i) (ii_fail_reason i) (ii_seen i)
                 (set_context (kx_state (ii_context i)) (drop before (kx_emitted (ii_context i))) (ii_context i)) i) ;*
    ret accepted
  else ret [].
End Instance.

(** * run_record.py, dispatcher.py and runtime.py *)

Record StrategyRunRecord := {
  rn_strategy_id : UUID;
  rn_version : string;
  rn_config_hash : string;
  rn_code_hash : option string;
  rn_trading_mode : StrategyMode;
  rn_run_id : UUID;
  rn_started_at : option datetime;
  rn_stopped_at : option datetime;
  rn_state : StrategyRunState;
  rn_reason : option string;
}.

Record StrategyRuntime (St : Type) := {
  rw_registry : StrategyRegistry St;
  rw_instances : list (UUID * StrategyInstance St);         (* the dispatcher's two dictionaries *)
  rw_definitions : list (UUID * StrategyDefinition St);
  rw_runs : list (UUID * StrategyRunRecord);
  rw_metrics : gmap string Z;
  rw_tick : nat;
  rw_fanned_out : list StrategySignal;                      (* signals passed to the consumers *)
}.
Arguments rw_registry {St} _.
Arguments rw_instances {St} _.
Arguments rw_definitions {St} _.
Arguments rw_runs {St} _.
Arguments rw_metrics {St} _.
Arguments rw_tick {St} _.
Arguments rw_fanned_out {St} _.

Record StrategyRuntimeConfig := {
  rc_clock : nat -> datetime;
  rc_uuid4 : nat -> UUID;
}.

(** The callbacks of one event: those collected, in the order they completed;
    those that completed after the wait timed out and before their [done] test;
    every other one is still pending at that test. *)
Record Schedule := {
  sched_collected : list UUID;
  sched_late : list UUID;
}.

Section Runtime.
Context {St : Type} (rc : StrategyRuntimeConfig).
Abbreviation RW := (StrategyRuntime St).

Definition rw_set (instances : list (UUID * StrategyInstance St)) (definitions : list (UUID * StrategyDefinition St))
    (runs : list (UUID * StrategyRunRecord)) (metrics : gmap string Z) (fanned : list StrategySignal) (w : RW) : RW :=
  {| rw_registry := rw_registry w; rw_instances := instances; rw_definitions := definitions; rw_runs := runs;
     rw_metrics := metrics; rw_tick := rw_tick w; rw_fanned_out := fanned |}.

Definition rw_call {T} (f : nat -> T) : M RW T :=
  fun w => (Ok (f (rw_tick w)),
            {| rw_registry := rw_registry w; rw_instances := rw_instances w; rw_definitions := rw_definitions w;
               rw_runs := rw_runs w; rw_metrics := rw_metrics w; rw_tick := S (rw_tick w);
               rw_fanned_out := rw_fanned_out w |}).

Definition rw_inc (name : string) : M RW unit :=
  modify (fun w => rw_set (rw_instances w) (rw_definitions w) (rw_runs w) (bump (rw_metrics w) name)
                     (rw_fanned_out w) w).

Definition on_registry {T} (m : M (StrategyRegistry St) T) : M RW T :=
  zoom rw_registry (fun r w =>
    {| rw_registry := r; rw_instances := rw_instances w; rw_definitions := rw_definitions w;
       rw_runs := rw_runs w; rw_metrics := rw_metrics w; rw_tick := rw_tick w;
       rw_fanned_out := rw_fanned_out w |}) m.

(** A method of an instance, on the shared counters. *)
Definition on_instance {T} (i : StrategyInstance St) (m : M (InstanceWorld St) T)
    : M RW (res T * StrategyInstance St) :=
  fun w =>
    let '(r, iw) := m {| iw_instance := i; iw_metrics := rw_metrics w |} in
    (Ok (r, iw_instance iw),
     rw_set (rw_instances w) (rw_definitions w) (rw_runs w) (iw_metrics iw) (rw_fanned_out w) w).

(** The same for the instance registered under an id. *)
Definition at_instance {T} (strategy_id : UUID) (m : M (InstanceWorld St) T) : M RW (res T) :=
  let* w := gets id in
  match by_id strategy_id (rw_instances w) with
  | None => throw StrategyNotFoundError ("strategy not running: " +:+ uuid_str strategy_id)
  | Some i =>
      let* ri := on_instance i m in
      modify (fun w => rw_set (put_id strategy_id (snd ri) (rw_instances w)) (rw_definitions w) (rw_runs w)
                         (rw_metrics w) (rw_fanned_out w) w) ;*
      ret (fst ri)
  end.
Definition run_instance {T} (strategy_id : UUID) (m : M (InstanceWorld St) T) : M RW T :=
  let* r := at_instance strategy_id m in lift r.

Definition dispatcher_register (i : StrategyInstance St) (d : StrategyDefinition St) : M RW unit :=
  let u := id_strategy_id (df_identity d) in
  modify (fun w => rw_set (put_id u i (rw_instances w)) (put_id u d (rw_definitions w)) (rw_runs w)
                     (rw_metrics w) (rw_fanned_out w) w).

Definition dispatcher_unregister (u : UUID) : M RW unit :=
  modify (fun w => rw_set (pop_id u (rw_instances w)) (pop_id u (rw_definitions w)) (rw_runs w)
                     (rw_metrics w) (rw_fanned_out w) w).

Definition dispatcher_set_enabled (u : UUID) (enabled : bool) : M RW unit :=
  modify (fun w => match by_id u (rw_definitions w) with
                   | Some d => rw_set (rw_instances w) (put_id u (with_enabled enabled d) (rw_definitions w))
                                 (rw_runs w) (rw_metrics w) (rw_fanned_out w) w
                   | None => w
                   end).

(** [_matches] *)
Definition matches (w : RW) (u instrument_id : UUID) (timeframe : option CandleTimeframe) : bool :=
  match by_id u (rw_definitions w), by_id u (rw_instances w) with
  | Some d, Some i =>
      df_enabled d && bool_decide (ii_state i = run_RUNNING) &&
      match df_instruments d with [] => true | l => bool_decide (instrument_id ∈ l) end &&
      match timeframe with
      | None => true
      | Some t => match df_timeframes d with [] => true | l => bool_decide (t ∈ l) end
      end
  | _, _ => false
  end.

(** [match_tick], [match_candle], [match_order_update], [match_position_update] *)
Definition matching (w : RW) (e : strategy_event) : list UUID :=
  filter (fun u => matches w u (event_instrument e) (event_timeframe e) = true) (fst <$> rw_instances w).

Definition runtime_register (d : StrategyDefinition St) : M RW unit := on_registry (registry_register d).

Definition runtime_unregister (u : UUID) : M RW unit :=
  on_registry (registry_unregister u) ;*
  dispatcher_unregister u ;*
  modify (fun w => rw_set (rw_instances w) (rw_definitions w) (pop_id u (rw_runs w)) (rw_metrics w)
                     (rw_fanned_out w) w).

Definition put_run (u : UUID) (r : StrategyRunRecord) : M RW unit :=
  modify (fun w => rw_set (rw_instances w) (rw_definitions w) (put_id u r (rw_runs w)) (rw_metrics w)
                     (rw_fanned_out w) w).

Definition runtime_start (u : UUID) (trading_mode : string) (config_values : option metadata) : M RW UUID :=
  let* mode := lift (strategy_mode_of trading_mode) in
  lift (raise_if (bool_decide (mode = sm_LIVE)) StrategyTradingModeError
          ("trading mode not allowed: " +:+ strategy_mode_value mode)) ;*
  let* w := gets id in
  let* d := lift (registry_get (rw_registry w) u) in
  let* impl := lift (df_factory d) in
  let* i := lift (mk_StrategyInstance d impl config_values) in
  let* ri := on_instance i (instance_initialize ;* instance_start) in
  lift (fst ri) ;*
  let i := snd ri in
  dispatcher_register i d ;*
  let* now := rw_call (rc_clock rc) in
  let* run_id := rw_call (rc_uuid4 rc) in
  put_run u {| rn_strategy_id := u; rn_version := id_version (df_identity d);
               rn_config_hash := id_config_hash (df_identity d); rn_code_hash := id_code_hash (df_identity d);
               rn_trading_mode := mode; rn_run_id := run_id; rn_started_at := Some now; rn_stopped_at := None;
               rn_state := ii_state i; rn_reason := None |} ;*
  ret run_id.

Definition close_run (r : StrategyRunRecord) (state : StrategyRunState) (reason : option string)
    (now : datetime) : StrategyRunRecord :=
  {| rn_strategy_id := rn_strategy_id r; rn_version := rn_version r; rn_config_hash := rn_config_hash r;
     rn_code_hash := rn_code_hash r; rn_trading_mode := rn_trading_mode r; rn_run_id := rn_run_id r;
     rn_started_at := rn_started_at r; rn_stopped_at := Some now; rn_state := state; rn_reason := reason |}.

Definition runtime_stop (u : UUID) : M RW unit :=
  run_instance u instance_stop ;*
  dispatcher_set_enabled u false ;*
  let* w := gets id in
  match by_id u (rw_runs w), by_id u (rw_instances w) with
  | Some r, Some i =>
      let* now := rw_call (rc_clock rc) in put_run u (close_run r (ii_state i) (rn_reason r) now)
  | _, _ => ret tt
  end.

Definition runtime_pause (u : UUID) : M RW unit := run_instance u instance_pause.
Definition runtime_resume (u : UUID) : M RW unit := run_instance u instance_resume.

Definition record_failure (u : UUID) : M RW unit :=
  let* w := gets id in
  match by_id u (rw_runs w), by_id u (rw_instances w) with
  | Some r, Some i =>
      let* now := rw_call (rc_clock rc) in put_run u (close_run r (ii_state i) (ii_fail_reason i) now)
  | _, _ => ret tt
  end.

Definition enrich (s : StrategySignal) (code_hash : option string) (run_id : option UUID)
    (event_timestamp : datetime) : StrategySignal :=
  {| sg_signal_id := sg_signal_id s; sg_strategy_id := sg_strategy_id s;
     sg_strategy_version := sg_strategy_version s; sg_strategy_config_hash := sg_strategy_config_hash s;
     sg_instrument_id := sg_instrument_id s; sg_action := sg_action s; sg_timestamp := sg_timestamp s;
     sg_confidence := sg_confidence s; sg_reason := sg_reason s;
     sg_metadata := <[ "event_timestamp"%string := PStr (isoformat event_timestamp) ]>
       (<[ "strategy_run_id"%string := match run_id with Some u => PStr (uuid_str u) | None => PNone end ]>
       (<[ "strategy_code_hash"%string := match code_hash with Some h => PStr h | None => PNone end ]>
          (sg_metadata s))) |}.

(** [_collect]: each signal is enriched, returned and passed to the consumers. *)
Definition collect (u : UUID) (signals : list StrategySignal) (event_timestamp : datetime)
    : M RW (list StrategySignal) :=
  let* w := gets id in
  let run_id := rn_run_id <$> by_id u (rw_runs w) in
  let code_hash := by_id u (rw_instances w) ≫= (fun i => id_code_hash (ii_identity i)) in
  let enriched := (fun s => enrich s code_hash run_id event_timestamp) <$> signals in
  modify (fun w => rw_set (rw_instances w) (rw_definitions w) (rw_runs w) (rw_metrics w)
                     (rw_fanned_out w ++ enriched) w) ;*
  ret enriched.

Definition drop_instance (u : UUID) (reason : string) : M RW unit :=
  run_instance u (instance_fail reason) ;*
  rw_inc "events_dropped" ;*
  record_failure u.

(** A completed callback whose result is collected. *)
Definition collect_one (e : strategy_event) (u : UUID) : M RW (list StrategySignal) :=
  let* r := at_instance u (on_event e) in
  match r with
  | Err exc => drop_instance u (exn_msg exc) ;* ret []
  | Ok signals =>
      let* out := collect u signals (event_time e) in
      let* w := gets id in
      (match by_id u (rw_instances w) with
       | Some i => if bool_decide (ii_state i = run_FAILED) then record_failure u else ret tt
       | None => ret tt
       end) ;*
      ret out
  end.

(** The callback ran, its result is not looked at. *)
Definition late_one (e : strategy_event) (u : UUID) : M RW unit := at_instance u (on_event e) ;* ret tt.

Fixpoint each {A} (f : UUID -> M RW (list A)) (us : list UUID) : M RW (list A) :=
  match us with
  | [] => ret []
  | u :: us' => let* a := f u in let* b := each f us' in ret (a ++ b)
  end.

(** [_dispatch] *)
Definition runtime_on_event (e : strategy_event) (schedule : Schedule) : M RW (list StrategySignal) :=
  let* w := gets id in
  let instances := matching w e in
  each (fun _ => rw_inc "events_dispatched" ;* ret ([] : list unit)) instances ;*
  match instances with
  | [] => ret []
  | _ =>
      let* now := rw_call (rc_clock rc) in
      lift (dt_sub now (event_time e)) ;*
      let collected := filter (fun u => u ∈ instances) (sched_collected schedule) in
      let late := filter (fun u => u ∈ instances) (sched_late schedule) in
      let* accepted := each (collect_one e) collected in
      each (fun u => late_one e u ;* ret ([] : list unit)) late ;*
      each (fun u => drop_instance u "callback_timeout" ;* ret ([] : list unit))
        (filter (fun u => u ∉ collected ++ late) instances) ;*
      ret accepted
  end.

(** [shutdown]: every run is stopped as far as it can be. *)
Definition runtime_shutdown : M RW unit :=
  let* w := gets id in
  each (fun u => try_except (runtime_stop u ;* ret ([] : list unit)) (fun _ => Some (ret [])))
    (fst <$> rw_runs w) ;*
  ret tt.

(** [status] *)
Definition runtime_status (w : RW) (u : UUID) : list (string * option string) :=
  let record := by_id u (rw_runs w) in
  [("strategy_id"%string, Some (uuid_str u));
   ("state"%string, Some (match by_id u (rw_instances w) with
                          | Some i => run_state_value (ii_state i)
                          | None => "not_started" end));
   ("run_id"%string, (fun r => uuid_str (rn_run_id r)) <$> record);
   ("trading_mode"%string, (fun r => strategy_mode_value (rn_trading_mode r)) <$> record);
   ("reason"%string, record ≫= rn_reason)].
End Runtime.

(** * signal_engine/boundary.py *)

(** [RuntimeStrategyDirectory.lookup] *)
Definition runtime_directory {St} (r : StrategyRegistry St) (strategy_id : UUID) : option StrategyRecord :=
  match registry_get r strategy_id with
  | Err _ => None
  | Ok d => Some {| sd_strategy_id := id_strategy_id (df_identity d); sd_version := id_version (df_identity d);
                    sd_config_hash := id_config_hash (df_identity d); sd_code_hash := id_code_hash (df_identity d);
                    sd_enabled := df_enabled d;
                    sd_instruments := match df_instruments d with [] => None | l => Some l end |}
  end.

(** [_run_mode] *)
Definition run_mode {St} (w : StrategyRuntime St) (s : StrategySignal) : string :=
  match by_id (sg_strategy_id s) (rw_runs w) with
  | Some r => strategy_mode_value (rn_trading_mode r)
  | None => "PAPER"
  end.

(** * strategies/sma_cross.py *)

Definition int_of_pyval (v : pyval) : res Z :=
  match v with
  | PInt z => Ok z
  | PBool b => Ok (if b then 1 else 0)
  | PStr s => int_text s
  | PNone => raise TypeError "int() argument must be a string, a bytes-like object or a real number, not 'NoneType'"
  | PDatetime _ =>
      raise TypeError "int() argument must be a string, a bytes-like object or a real number, not 'datetime.datetime'"
  end.

(** [l[-1]] *)
Definition last_of {A} (l : list A) : res A :=
  match last l with Some a => Ok a | None => raise IndexError "list index out of range" end.

Definition average_now (closes : list decimal) (period : Z) : res (option decimal) :=
  let! l := simple_moving_average closes period in last_of l.

(** The crossing test of [on_candle]. *)
Definition cross_action (fast_now slow_now fast_prev slow_prev : option decimal) : SignalAction :=
  match fast_now, slow_now with
  | Some f, Some s =>
      let before p := match fast_prev, slow_prev with Some f', Some s' => p f' s' | _, _ => true end in
      if dgt f s && before dle then BUY
      else if dlt f s && before dge then SELL
      else HOLD
  | _, _ => HOLD
  end.

Section SmaCross.
(** [uuid4] gives the signal its id; the strategy's state is the list of
    closing prices, the value of [context.state["closes"]], absent before
    [initialize]. *)
Context (uuid4 : nat -> UUID).
Abbreviation SX := (StrategyContext (option (list decimal))).

Definition sma_signal (c : SX) (signal_id : UUID) (candle : MarketCandle) (action : SignalAction) (fast slow : Z)
    : StrategySignal :=
  {| sg_signal_id := signal_id; sg_strategy_id := kx_strategy_id c; sg_strategy_version := kx_strategy_version c;
     sg_strategy_config_hash := kx_strategy_config_hash c; sg_instrument_id := cd_instrument_id candle;
     sg_action := action; sg_timestamp := cd_candle_start candle; sg_confidence := Dec false 8 (-1);
     sg_reason := "SMA " +:+ str_Z fast +:+ "/" +:+ str_Z slow +:+ " crossover"; sg_metadata := ∅ |}.

Definition sma_on_candle (candle : MarketCandle) : M SX unit :=
  let* c := gets id in
  let* fast := lift (int_of_pyval (default (PInt 5) (kx_config c !! "fast_period"%string))) in
  let* slow := lift (int_of_pyval (default (PInt 20) (kx_config c !! "slow_period"%string))) in
  let closes := default [] (kx_state c) ++ [cd_close_price candle] in
  modify (fun c => set_context (Some closes) (kx_emitted c) c) ;*
  if Z.of_nat (List.length closes) <? slow + 1 then ret tt
  else
    let previous := take (List.length closes - 1) closes in
    let* fast_now := lift (average_now closes fast) in
    let* slow_now := lift (average_now closes slow) in
    let* fast_prev := lift (average_now previous fast) in
    let* slow_prev := lift (average_now previous slow) in
    let* signal := lift (mk_StrategySignal (sma_signal c (uuid4 (List.length closes)) candle
                           (cross_action fast_now slow_now fast_prev slow_prev) fast slow)) in
    emit_signal signal.

Definition SmaCrossStrategy : StrategyLifecycle (option (list decimal)) := {|
  lf_state := None;
  lf_initialize := modify (fun c => set_context (Some []) (kx_emitted c) c);
  lf_on_start := ret tt;
  lf_on_tick := fun _ => ret tt;
  lf_on_candle := sma_on_candle;
  lf_on_order_update := fun _ => ret tt;
  lf_on_position_update := fun _ => ret tt;
  lf_on_stop := ret tt;
|}.
End SmaCross.

(** * Correctness *)

(** ** The deduplicator *)

Lemma dedup_spec maxsize seen key dup seen' : dedup maxsize seen key = (dup, seen') ->
  (dup = true /\ (key ∈ seen) /\ (NoDup seen -> seen' ≡ₚ seen)) \/
  (dup = false /\ (key ∉ seen) /\ ((List.length seen < maxsize)%nat -> (seen' = seen ++ [key]))).
Proof.
  unfold dedup. case_bool_decide as Hk; intros [= <- <-].
  - left. split_and!; [done..|]. intros Hnd. unfold forget.
    apply list_elem_of_split in Hk as (l1 & l2 & ->). rewrite NoDup_app, NoDup_cons in Hnd.
    destruct Hnd as (_ & H1 & H2 & _).
    assert (forall l : list string, key ∉ l -> filter (fun k : string => k <> key) l = l) as Hf.
    { intros l. induction l as [|x l IH]; intros Hl; [done|]. apply not_elem_of_cons in Hl as [Hne Hl].
      rewrite filter_cons_True by congruence. by rewrite IH. }
    rewrite filter_app, filter_cons_False, !Hf; [|done| |naive_solver].
    + solve_Permutation.
    + intros Hin. by apply (H1 key Hin), list_elem_of_here.
  - right. split_and!; [done..|]. intros Hl. rewrite length_app. simpl.
    destruct (Nat.ltb_spec maxsize (List.length seen + 1)); [lia|done].
Qed.

Lemma dedup_bounded maxsize seen key : (0 < maxsize)%nat -> (List.length seen <= maxsize)%nat -> NoDup seen ->
  (List.length (snd (dedup maxsize seen key)) <= maxsize)%nat /\ NoDup (snd (dedup maxsize seen key)).
Proof.
  intros Hm Hl Hnd. destruct (dedup maxsize seen key) as [dup seen'] eqn:E. simpl.
  pose proof E as E0. apply dedup_spec in E as [(-> & Hk & Hp)|(-> & Hk & _)].
  - specialize (Hp Hnd). split; [by rewrite Hp|by rewrite Hp].
  - unfold dedup in E0. rewrite bool_decide_eq_false_2 in E0 by done. injection E0 as <-.
    assert (NoDup (seen ++ [key])) as Hnd2.
    { apply NoDup_app. split_and!; [done| |apply NoDup_singleton].
      intros x Hx ->%list_elem_of_singleton. done. }
    rewrite length_app. simpl. destruct (Nat.ltb_spec maxsize (List.length seen + 1)).
    + rewrite length_drop, length_app. simpl. split; [lia|].
      destruct (seen ++ [key]) as [|x l]; [constructor|]. by apply NoDup_cons in Hnd2 as [_ Hnd2].
    + rewrite length_app. simpl. split; [lia|done].
Qed.

(** ** What an instance accepts *)

(** [s] carries the identity of the instance, concerns an instrument it may
    trade and lies within five seconds of the event. *)
Record traceable (identity : StrategyIdentity) (allowed : option (list UUID)) (ts : datetime)
    (s : StrategySignal) : Prop := {
  tr_id : sg_strategy_id s = id_strategy_id identity;
  tr_version : sg_strategy_version s = id_version identity;
  tr_hash : sg_strategy_config_hash s = id_config_hash identity;
  tr_confidence : dle dzero (sg_confidence s) = true /\ dle (sg_confidence s) (dec_of_Z 1) = true;
  tr_reason : is_blank (sg_reason s) = false;
  tr_instrument : match allowed with Some l => sg_instrument_id s ∈ l | None => True end;
  tr_comparable : dt_comparable (sg_timestamp s) ts = true;
  tr_time : Z.abs (dt_instant (sg_timestamp s) - dt_instant ts) <= DEFAULT_SKEW;
}.

Lemma validate_emitted_ok s identity allowed ts :
  validate_emitted s identity allowed ts DEFAULT_SKEW (Some DEFAULT_SKEW) = Ok None ->
  traceable identity allowed ts s.
Proof.
  unfold validate_emitted.
  destruct (N.eqb_spec (sg_strategy_id s) (id_strategy_id identity)); [|done]. simpl.
  destruct (String.eqb_spec (sg_strategy_version s) (id_version identity)); [|done]. simpl.
  destruct (String.eqb_spec (sg_strategy_config_hash s) (id_config_hash identity)); [|done]. simpl.
  destruct (dle dzero (sg_confidence s)) eqn:Hc1; [|done]. destruct (dle (sg_confidence s) _) eqn:Hc2; [|done]. simpl.
  destruct (is_blank _) eqn:Hb; [done|].
  destruct allowed as [l|]; [case_bool_decide; [|done]|]; simpl;
    unfold dt_sub; destruct (dt_comparable (sg_timestamp s) ts) eqn:Hcmp; [|done| |done];
    simpl;
    (destruct (Z.ltb_spec DEFAULT_SKEW (dt_instant (sg_timestamp s) - dt_instant ts)); [done|]);
    (destruct (dt_comparable ts (sg_timestamp s)) eqn:Hcmp2; [|done]); simpl;
    (destruct (Z.ltb_spec DEFAULT_SKEW (dt_instant ts - dt_instant (sg_timestamp s))); [done|]); intros _;
    constructor; try done; lia.
Qed.

Section InstanceFacts.
Context {St : Type}.
Abbreviation IW := (InstanceWorld St).

Definition with_seen (seen : list string) (i : StrategyInstance St) : StrategyInstance St :=
  ii_set (ii_state i) (ii_initialized i) (ii_fail_reason i) seen (ii_context i) i.

Lemma with_seen_id i : with_seen (ii_seen i) i = i.
Proof. by destruct i. Qed.

(** The table of an instance: bounded and without repetitions. *)
Definition table_ok (seen : list string) : Prop := (List.length seen <= dedup_maxsize)%nat /\ NoDup seen.

Lemma dedup_maxsize_pos : (0 < dedup_maxsize)%nat.
Proof. unfold dedup_maxsize. lia. Qed.

(** What the loop over emitted signals does. *)
Lemma accept_emitted_spec signals ts : forall (w : IW) r w', accept_emitted signals ts w = (r, w') ->
  table_ok (ii_seen (iw_instance w)) ->
  exists seen, iw_instance w' = with_seen seen (iw_instance w) /\ table_ok seen /\
  match r with
  | Ok out => out ⊆ signals /\
      Forall (traceable (ii_identity (iw_instance w)) (ii_allowed_instruments (iw_instance w)) ts) out /\
      ((List.length (ii_seen (iw_instance w)) + List.length out <= dedup_maxsize)%nat ->
       (seen ≡ₚ ii_seen (iw_instance w) ++ ((fun s => signal_dedup_key s ts) <$> out)))
  | Err _ => True
  end.
Proof.
  induction signals as [|s rest IH]; intros w r w' E Ht.
  - injection E as <- <-. exists (ii_seen (iw_instance w)). rewrite with_seen_id. split_and!; try done.
    intros _. by rewrite app_nil_r.
  - cbn [accept_emitted] in E. unfold bind at 1, gets in E.
    apply lift_run in E as [(e & _ & -> & ->)|(v & Hv & E)].
    { exists (ii_seen (iw_instance w)). by rewrite with_seen_id. }
    destruct v as [reason|].
    { unfold bind at 1, iw_inc, modify in E. apply IH in E as (seen & H1 & H2 & H3); [|done].
      exists seen. split_and!; [done..|]. destruct r as [out|]; [|done].
      destruct H3 as (H3 & H4 & H5). split_and!; [intros x Hx; right; by apply H3|done..]. }
    apply validate_emitted_ok in Hv.
    set (key := signal_dedup_key s ts) in *.
    destruct (dedup dedup_maxsize (ii_seen (iw_instance w)) key) as [dup seen1] eqn:Ed.
    assert (table_ok seen1) as Ht1.
    { destruct Ht as [Hl Hn]. pose proof (dedup_bounded _ _ key dedup_maxsize_pos Hl Hn) as Hb.
      by rewrite Ed in Hb. }
    unfold bind at 1, iw_update, modify in E. destruct dup.
    + unfold bind at 1, iw_inc, modify in E. apply IH in E as (seen & H1 & H2 & H3); [|done].
      exists seen. split_and!; [done..|]. destruct r as [out|]; [|done].
      destruct H3 as (H3 & H4 & H5). split_and!; [intros x Hx; right; by apply H3|done|]. simpl in H5.
      apply dedup_spec in Ed as [(_ & _ & Hp)|(? & _)]; [|done].
      destruct Ht as [_ Hn]. specialize (Hp Hn). rewrite Hp in H5. exact H5.
    + unfold bind at 1, iw_inc, modify in E.
      apply bind_run in E as [(e & E & ->)|(out & w1 & E & E1)].
      { apply IH in E as (seen & H1 & H2 & _); [|done]. by exists seen. }
      injection E1 as <- <-. apply IH in E as (seen & H1 & H2 & H3 & H4 & H5); [|done].
      exists seen. split_and!; [done|done| |by constructor|].
      { intros x Hx. apply elem_of_cons in Hx as [->|Hx]; [left|right; by apply H3]. } simpl in H5 |- *. intros Hlen.
      apply dedup_spec in Ed as [(? & _)|(_ & _ & Hp)]; [done|]. rewrite Hp in H5 by lia.
      rewrite H5 by (rewrite length_app; simpl; lia). by rewrite <- app_assoc.
Qed.

(** The parts of an instance no event changes. *)
Definition same_instance (i i' : StrategyInstance St) : Prop :=
  ii_identity i' = ii_identity i /\ ii_allowed_instruments i' = ii_allowed_instruments i /\
  ii_strategy i' = ii_strategy i.

#[local] Instance same_instance_preorder : PreOrder same_instance.
Proof. split; [done|]. intros i1 i2 i3 (? & ? & ?) (? & ? & ?). split_and!; congruence. Qed.

Lemma run_fail_allowed s : run_terminal s = false -> run_transition s run_FAILED = Ok run_FAILED.
Proof. by destruct s. Qed.

Lemma instance_fail_run reason (w : IW) : exists m, instance_fail reason w = (Ok tt,
    {| iw_instance := if run_terminal (ii_state (iw_instance w)) then iw_instance w else
         ii_set run_FAILED (ii_initialized (iw_instance w)) (Some reason) (ii_seen (iw_instance w))
         (ii_context (iw_instance w)) (iw_instance w); iw_metrics := m |}).
Proof.
  unfold instance_fail, bind, gets. destruct (run_terminal _) eqn:Hs.
  - exists (iw_metrics w). by destruct w.
  - unfold move_to, bind, gets, lift. rewrite (run_fail_allowed _ Hs). simpl. eexists. reflexivity.
Qed.

(** A callback only changes the context. *)
Lemma run_callback_run m (w : IW) : exists c, run_callback m w = (fst (m (ii_context (iw_instance w))),
  {| iw_instance := ii_set (ii_state (iw_instance w)) (ii_initialized (iw_instance w))
       (ii_fail_reason (iw_instance w)) (ii_seen (iw_instance w)) c (iw_instance w); iw_metrics := iw_metrics w |}) /\
  c = snd (m (ii_context (iw_instance w))).
Proof. unfold run_callback, zoom. destruct (m _) as [r c]. by exists c. Qed.

(** The guarded callback of an event: whether it returned, and the instance. *)
Lemma event_callback_run e (w : IW) : ii_state (iw_instance w) = run_RUNNING -> exists ok i m,
  try_except (run_callback (event_callback (ii_strategy (iw_instance w)) e) ;* ret true)
    (fun exc => Some (instance_fail (exn_msg exc) ;* ret false)) w = (Ok ok, {| iw_instance := i; iw_metrics := m |}) /\
  same_instance (iw_instance w) i /\ ii_seen i = ii_seen (iw_instance w) /\
  ii_state i = (if ok then run_RUNNING else run_FAILED).
Proof.
  intros Hs. unfold try_except, bind.
  destruct (run_callback_run (event_callback (ii_strategy (iw_instance w)) e) w) as (c & -> & _).
  destruct (fst _) as [[]|x].
  - eexists true, _, _. split; [reflexivity|]. split_and!; done.
  - match goal with |- context [instance_fail ?r ?w0] => destruct (instance_fail_run r w0) as [m ->] end.
    simpl. rewrite Hs. eexists false, _, _. split; [reflexivity|]. split_and!; done.
Qed.

(** One event: refused unless the instance is running; a fault fails it; else
    the accepted signals are traceable and new. *)
Lemma on_event_spec e (w : IW) r w' : on_event e w = (r, w') -> table_ok (ii_seen (iw_instance w)) ->
  same_instance (iw_instance w) (iw_instance w') /\ table_ok (ii_seen (iw_instance w')) /\
  (ii_state (iw_instance w) <> run_RUNNING -> w' = w /\ exists msg, r = raise LifecycleError msg) /\
  (ii_state (iw_instance w) = run_RUNNING ->
     ii_state (iw_instance w') = run_RUNNING \/ r = Ok [] /\ ii_state (iw_instance w') = run_FAILED) /\
  match r with
  | Ok out =>
      ii_state (iw_instance w) = run_RUNNING /\
      Forall (traceable (ii_identity (iw_instance w)) (ii_allowed_instruments (iw_instance w)) (event_time e)) out /\
      ((List.length (ii_seen (iw_instance w)) + List.length out <= dedup_maxsize)%nat ->
       (ii_seen (iw_instance w') ≡ₚ
          ii_seen (iw_instance w) ++ ((fun s => signal_dedup_key s (event_time e)) <$> out)))
  | Err _ => True
  end.
Proof.
  unfold on_event. unfold bind at 1, gets. intros E Ht. unfold raise_if in E.
  case_bool_decide as Hs; simpl negb in E; cbv iota in E.
  2: { injection E as <- <-. split_and!; try done. intros _. split; [done|]. by eexists. }
  unfold bind at 1, lift in E. cbv beta iota zeta in E.
  destruct (event_callback_run e w Hs) as (ok & i & m & Hcb & Hsame & Hseen & Hst).
  unfold bind at 1 in E. rewrite Hcb in E. unfold bind at 1, iw_inc, modify in E.
  destruct ok.
  - unfold bind at 1, gets in E. cbn [iw_instance iw_metrics] in E.
    destruct Hsame as (S1 & S2 & S3).
    apply bind_run in E as [(x & E & ->)|(out & w1 & E & E1)];
      apply accept_emitted_spec in E as (seen & H1 & H2 & H3); cbn [iw_instance] in *; try by rewrite Hseen.
    + rewrite H1. split_and!; try done. intros _. left. by rewrite <- Hst.
    + unfold bind, iw_update, modify, ret in E1. injection E1 as <- <-. cbn [iw_instance]. rewrite H1.
      destruct H3 as (_ & H3 & H4). rewrite Hseen in H4. rewrite S1, S2 in H3.
      split_and!; try done. intros _. left. by rewrite <- Hst.
  - injection E as <- <-. cbn [iw_instance]. split_and!; try done.
    + by rewrite Hseen.
    + intros _. right. by rewrite <- Hst.
    + intros _. by rewrite Hseen, fmap_nil, app_nil_r.
Qed.

(** ** Lifecycle operations *)

(** Lifecycle operations keep the identity and the table, and a failed or
    stopped instance stays as it is. *)
Definition moves (i i' : StrategyInstance St) : Prop :=
  same_instance i i' /\ ii_seen i' = ii_seen i /\ (run_terminal (ii_state i) = true -> ii_state i' = ii_state i).

#[local] Instance moves_preorder : PreOrder moves.
Proof.
  split; [done|]. intros i1 i2 i3 (H1 & H2 & H3) (H4 & H5 & H6). split_and!; [by etrans|congruence|].
  intros Ht. specialize (H3 Ht). rewrite H6; [done|]. by rewrite H3.
Qed.

Definition lifecycle_op {T} (m : M IW T) : Prop := forall w, moves (iw_instance w) (iw_instance (snd (m w))).

Lemma lo_ret {T} (a : T) : lifecycle_op (ret a).
Proof. by intros w. Qed.
Lemma lo_throw {T} c msg : lifecycle_op (T:=T) (throw c msg).
Proof. by intros w. Qed.
Lemma lo_lift {T} (r : res T) : lifecycle_op (lift r).
Proof. by intros w. Qed.
Lemma lo_gets {T} (f : IW -> T) : lifecycle_op (gets f).
Proof. by intros w. Qed.
Lemma lo_inc n : lifecycle_op (iw_inc n).
Proof. by intros w. Qed.
Lemma lo_update f : (forall i, moves i (f i)) -> lifecycle_op (iw_update f).
Proof. intros Hf w. apply Hf. Qed.
Lemma lo_bind {A B} (m : M IW A) (k : A -> M IW B) :
  lifecycle_op m -> (forall a, lifecycle_op (k a)) -> lifecycle_op (bind m k).
Proof.
  intros Hm Hk w. unfold bind. specialize (Hm w). destruct (m w) as [[a|e] w1]; simpl in *; [|done].
  etrans; [exact Hm|apply Hk].
Qed.
Lemma lo_if {A} (b : bool) (m1 m2 : M IW A) : lifecycle_op m1 -> lifecycle_op m2 -> lifecycle_op (if b then m1 else m2).
Proof. by destruct b. Qed.
Lemma lo_try {A} (m : M IW A) h : lifecycle_op m -> (forall e, lifecycle_op (h e)) ->
  lifecycle_op (try_except m (fun e => Some (h e))).
Proof.
  intros Hm Hh w. unfold try_except. specialize (Hm w). destruct (m w) as [[a|e] w1]; simpl in *; [done|].
  etrans; [exact Hm|apply Hh].
Qed.
Lemma lo_require ok msg : lifecycle_op (require_state ok msg).
Proof. apply lo_bind; [apply lo_gets|intros ?; apply lo_lift]. Qed.
Lemma lo_move to : lifecycle_op (move_to to).
Proof.
  intros w. unfold move_to, bind, gets, lift, run_transition. case_bool_decide as Ht; [|done]. simpl.
  split_and!; try done. cbn [ii_set ii_state]. intros Hterm.
  by destruct (ii_state (iw_instance w)); try done; apply not_elem_of_nil in Ht.
Qed.
Lemma lo_callback m : lifecycle_op (run_callback m).
Proof. intros w. destruct (run_callback_run m w) as (c & -> & _). done. Qed.
Lemma lo_fail reason : lifecycle_op (instance_fail reason).
Proof.
  intros w. destruct (instance_fail_run reason w) as [m ->]. cbn [snd iw_instance].
  destruct (run_terminal _) eqn:Ht; [done|]. split_and!; try done. by rewrite Ht.
Qed.

Create HintDb lifecycle.
#[local] Hint Resolve lo_ret lo_throw lo_lift lo_gets lo_inc lo_bind lo_if lo_try lo_require lo_move lo_callback lo_fail
  : lifecycle.

Lemma lo_guarded what m : lifecycle_op (guarded what m).
Proof. unfold guarded. auto with lifecycle. Qed.
#[local] Hint Resolve lo_guarded : lifecycle.

(** The operations of the runtime on an instance. *)
Inductive instance_operation : M IW unit -> Prop :=
| op_initialize : instance_operation instance_initialize
| op_start : instance_operation instance_start
| op_pause : instance_operation instance_pause
| op_resume : instance_operation instance_resume
| op_stop : instance_operation instance_stop
| op_fail reason : instance_operation (instance_fail reason).

Lemma instance_operation_moves m : instance_operation m -> lifecycle_op m.
Proof.
  intros [| | | | |reason]; [..|apply lo_fail];
    unfold instance_initialize, instance_start, instance_pause, instance_resume, instance_stop;
    repeat (apply lo_bind; [auto with lifecycle|intros ?]); auto with lifecycle.
  by apply lo_update.
Qed.
(** ** Sequences of events and lifecycle operations *)

(** An instance in operation, with the signals it accepted so far, each with
    the time of its event.  A dispatch that raises fails the instance, as the
    runtime does. *)
Inductive instance_step : IW * list (StrategySignal * datetime) -> IW * list (StrategySignal * datetime) -> Prop :=
| step_accept e w out w' l : on_event e w = (Ok out, w') ->
    instance_step (w, l) (w', l ++ ((fun s => (s, event_time e)) <$> out))
| step_raise e w x w' l : on_event e w = (Err x, w') ->
    instance_step (w, l) (snd (instance_fail (exn_msg x) w'), l)
| step_operation m w r w' l : instance_operation m -> m w = (r, w') -> instance_step (w, l) (w', l).

Definition dedup_key (p : StrategySignal * datetime) : string := signal_dedup_key p.1 p.2.

Definition step_inv (i0 : StrategyInstance St) (acc : IW * list (StrategySignal * datetime)) : Prop :=
  same_instance i0 (iw_instance acc.1) /\ table_ok (ii_seen (iw_instance acc.1)) /\
  Forall (fun p => traceable (ii_identity i0) (ii_allowed_instruments i0) p.2 p.1) acc.2 /\
  ((List.length acc.2 <= dedup_maxsize)%nat -> NoDup (dedup_key <$> acc.2)) /\
  (run_terminal (ii_state (iw_instance acc.1)) = false -> (List.length acc.2 <= dedup_maxsize)%nat ->
     (ii_seen (iw_instance acc.1) ≡ₚ dedup_key <$> acc.2)).

Lemma step_inv_accept i0 e w out w' l : on_event e w = (Ok out, w') -> step_inv i0 (w, l) ->
  step_inv i0 (w', l ++ ((fun s => (s, event_time e)) <$> out)).
Proof.
  intros E (H1 & H2 & H3 & _ & H5). cbn [fst snd] in *.
  pose proof (on_event_spec _ _ _ _ E H2) as (K1 & K2 & _ & _ & Hrun & Htr & Hperm).
  assert ((List.length l + List.length out <= dedup_maxsize)%nat ->
    ii_seen (iw_instance w') ≡ₚ dedup_key <$> l ++ ((fun s => (s, event_time e)) <$> out)) as Hp.
  { intros Hl. rewrite Hrun in H5. specialize (H5 eq_refl ltac:(lia)).
    assert (List.length (ii_seen (iw_instance w)) = List.length l) as Hlen by (rewrite H5; by rewrite length_fmap).
    rewrite Hperm, H5 by lia. by rewrite fmap_app, <- list_fmap_compose. }
  unfold step_inv. cbn [fst snd]. rewrite length_app, length_fmap. split_and!.
  - by etrans.
  - done.
  - apply Forall_app. split; [done|]. apply Forall_fmap. destruct H1 as (E1 & E2 & _).
    rewrite E1, E2 in Htr. exact Htr.
  - intros Hl. rewrite <- Hp by done. apply K2.
  - intros _ Hl. by apply Hp.
Qed.

Lemma step_inv_moves i0 (w w' : IW) l : moves (iw_instance w) (iw_instance w') -> step_inv i0 (w, l) -> step_inv i0 (w', l).
Proof.
  intros (M1 & M2 & M3) (H1 & H2 & H3 & H4 & H5). unfold step_inv in *. cbn [fst snd] in *. rewrite M2.
  split_and!; [by etrans|done..|]. intros Ht. apply H5.
  destruct (run_terminal (ii_state (iw_instance w))) eqn:E; [|done]. by rewrite (M3 eq_refl), E in Ht.
Qed.

Lemma step_inv_step i0 a b : step_inv i0 a -> instance_step a b -> step_inv i0 b.
Proof.
  intros Hi Hs. destruct Hs as [e w out w' l E|e w x w' l E|m w r w' l Hm E].
  - by eapply step_inv_accept.
  - destruct Hi as (H1 & H2 & H3 & H4 & H5). cbn [fst snd] in *.
    pose proof (on_event_spec _ _ _ _ E H2) as (K1 & K2 & K3 & K4 & _).
    destruct (instance_fail_run (exn_msg x) w') as [m ->]. cbn [fst snd iw_instance].
    unfold step_inv. cbn [fst snd iw_instance]. split_and!; [| |done|done|].
    + etrans; [exact H1|]. etrans; [exact K1|]. destruct (run_terminal (ii_state (iw_instance w'))); done.
    + destruct (run_terminal (ii_state (iw_instance w'))); done.
    + destruct (run_terminal (ii_state (iw_instance w'))) eqn:Ht; [|done]. by rewrite ?Ht.
  - eapply step_inv_moves; [|exact Hi]. specialize (instance_operation_moves m Hm w). by rewrite E.
Qed.

Lemma step_inv_new i m : ii_seen i = [] -> step_inv i ({| iw_instance := i; iw_metrics := m |}, []).
Proof.
  intros Hs. unfold step_inv, table_ok. cbn [fst snd iw_instance]. rewrite Hs.
  split_and!; [reflexivity|apply Nat.le_0_l|constructor|constructor|intros _; constructor|intros _ _; reflexivity].
Qed.

Lemma step_inv_reachable i m acc : ii_seen i = [] ->
  rtc instance_step ({| iw_instance := i; iw_metrics := m |}, []) acc -> step_inv i acc.
Proof. intros Hs Hr. eapply rtc_preserved; [apply step_inv_step|exact Hr|by apply step_inv_new]. Qed.

(** C18: A strategy instance passes on only its own, fresh, timely signals.
    Whatever the strategy's code does, over any sequence of events and
    lifecycle operations from a new instance, every signal it accepted carries
    the instance's identity, a subscribed instrument, a valid confidence and
    reason and a time within five seconds of its event; no two accepted signals
    have the same deduplication key while at most 100000 were accepted; and the
    table of keys never holds more than 100000. *)
Theorem accepted_signals_traceable_once i m w l : ii_seen i = [] ->
  rtc instance_step ({| iw_instance := i; iw_metrics := m |}, []) (w, l) ->
  Forall (fun p => traceable (ii_identity i) (ii_allowed_instruments i) p.2 p.1) l /\
  ((List.length l <= dedup_maxsize)%nat -> NoDup (dedup_key <$> l)) /\
  (List.length (ii_seen (iw_instance w)) <= dedup_maxsize)%nat.
Proof.
  intros Hs Hr. by destruct (step_inv_reachable i m (w, l) Hs Hr) as (H1 & [H2 _] & H3 & H4 & _).
Qed.

(** A failed or stopped instance stays so, and runs no callback any more. *)
Theorem terminal_instance_is_final a b : instance_step a b ->
  run_terminal (ii_state (iw_instance a.1)) = true ->
  ii_state (iw_instance b.1) = ii_state (iw_instance a.1) /\ b.2 = a.2.
Proof.
  intros Hs Ht. destruct Hs as [e w out w' l E|e w x w' l E|m w r w' l Hm E]; cbn [fst snd] in *.
  - exfalso. unfold on_event, bind, gets, lift, raise_if in E. case_bool_decide as Hr; [by rewrite Hr in Ht|done].
  - assert (w' = w) as ->.
    { unfold on_event, bind, gets, lift, raise_if in E. case_bool_decide as Hr; [by rewrite Hr in Ht|].
      simpl in E. congruence. }
    destruct (instance_fail_run (exn_msg x) w) as [m ->]. cbn [fst snd iw_instance]. by rewrite Ht.
  - destruct (instance_operation_moves m Hm w) as (_ & _ & H3). rewrite E in H3. split; [by apply H3|done].
Qed.
End InstanceFacts.

(** ** Dictionaries by id *)

Section Dictionaries.
Context {V : Type}.
Implicit Types d : list (UUID * V).

Lemma by_id_put k v d k' : by_id k' (put_id k v d) = if (k =? k')%N then Some v else by_id k' d.
Proof.
  induction d as [|[k0 v0] d IH]; simpl; [done|].
  destruct (N.eqb_spec k0 k) as [->|]; simpl; [by destruct (k =? k')%N|].
  rewrite IH. destruct (N.eqb_spec k0 k'), (N.eqb_spec k k'); congruence.
Qed.

Lemma by_id_pop k d k' : by_id k' (pop_id k d) = if (k =? k')%N then None else by_id k' d.
Proof.
  unfold pop_id. induction d as [|[k0 v0] d IH]; simpl; [by destruct (k =? k')%N|].
  destruct (decide (k0 <> k)) as [Hne|Heq].
  - rewrite filter_cons_True by done. simpl. rewrite IH.
    destruct (N.eqb_spec k0 k'), (N.eqb_spec k k'); congruence.
  - rewrite filter_cons_False by done. rewrite IH. apply dec_stable in Heq as ->. by destruct (N.eqb_spec k k').
Qed.

Lemma by_id_keys k d : is_Some (by_id k d) <-> k ∈ fst <$> d.
Proof.
  induction d as [|[k0 v0] d IH]; simpl; [by split; [intros []|intros ?%not_elem_of_nil]|].
  rewrite elem_of_cons. destruct (N.eqb_spec k0 k) as [->|]; [by split; [left|eexists]|].
  rewrite IH. naive_solver.
Qed.
End Dictionaries.

(** ** Isolation of the strategies *)

Section Isolation.
Context {St : Type} (rc : StrategyRuntimeConfig).
Abbreviation IW := (InstanceWorld St).
Abbreviation RW := (StrategyRuntime St).

(** A computation on an instance that does not look at the shared counters and
    keeps the identity. *)
Definition blind {T} (m : M IW T) : Prop := forall i c1 c2,
  fst (m {| iw_instance := i; iw_metrics := c1 |}) = fst (m {| iw_instance := i; iw_metrics := c2 |}) /\
  iw_instance (snd (m {| iw_instance := i; iw_metrics := c1 |})) =
  iw_instance (snd (m {| iw_instance := i; iw_metrics := c2 |})) /\
  ii_identity (iw_instance (snd (m {| iw_instance := i; iw_metrics := c1 |}))) = ii_identity i.

Lemma blind_ret {T} (a : T) : blind (ret a).
Proof. done. Qed.
Lemma blind_lift {T} (r : res T) : blind (lift r).
Proof. done. Qed.
Lemma blind_gets : blind (gets iw_instance).
Proof. done. Qed.
Lemma blind_inc n : blind (iw_inc n).
Proof. done. Qed.
Lemma blind_update f : (forall i, ii_identity (f i) = ii_identity i) -> blind (iw_update f).
Proof. intros Hf i c1 c2. split_and!; [done..|apply Hf]. Qed.
Lemma blind_bind {A B} (m : M IW A) (k : A -> M IW B) : blind m -> (forall a, blind (k a)) -> blind (bind m k).
Proof.
  intros Hm Hk i c1 c2. destruct (Hm i c1 c2) as (H1 & H2 & H3). unfold bind.
  destruct (m {| iw_instance := i; iw_metrics := c1 |}) as [r1 [i1 d1]],
    (m {| iw_instance := i; iw_metrics := c2 |}) as [r2 [i2 d2]]. simpl in H1, H2, H3. subst r2 i2.
  destruct r1; [|done]. rewrite <- H3. apply Hk.
Qed.
Lemma blind_try {A} (m : M IW A) h : blind m -> (forall e, blind (h e)) -> blind (try_except m (fun e => Some (h e))).
Proof.
  intros Hm Hk i c1 c2. destruct (Hm i c1 c2) as (H1 & H2 & H3). unfold try_except.
  destruct (m {| iw_instance := i; iw_metrics := c1 |}) as [r1 [i1 d1]],
    (m {| iw_instance := i; iw_metrics := c2 |}) as [r2 [i2 d2]]. simpl in H1, H2, H3. subst r2 i2.
  destruct r1; [done|]. rewrite <- H3. apply Hk.
Qed.
Lemma blind_callback m : blind (run_callback m).
Proof. intros i c1 c2. unfold run_callback, zoom. simpl. by destruct (m _). Qed.
Lemma blind_if {A} (b : bool) (m1 m2 : M IW A) : blind m1 -> blind m2 -> blind (if b then m1 else m2).
Proof. by destruct b. Qed.

Create HintDb blind.
#[local] Hint Resolve blind_ret blind_lift blind_gets blind_inc blind_update blind_bind blind_try blind_callback blind_if
  : blind.

Lemma blind_fail reason : blind (instance_fail reason).
Proof. unfold instance_fail, move_to. auto 10 with blind. Qed.
#[local] Hint Resolve blind_fail : blind.

Lemma blind_accept signals ts : blind (accept_emitted signals ts).
Proof.
  induction signals as [|s rest IH]; cbn [accept_emitted]; [apply blind_ret|].
  apply blind_bind; [apply blind_gets|]. intros i. apply blind_bind; [apply blind_lift|]. intros [reason|].
  - auto with blind.
  - destruct (dedup _ _ _) as [dup seen]. auto 10 with blind.
Qed.
#[local] Hint Resolve blind_accept : blind.

Lemma blind_on_event e : blind (on_event e).
Proof. unfold on_event. auto 20 with blind. Qed.

(** What one event makes of one instance, by itself. *)
Definition on_event_alone (e : strategy_event) (i : StrategyInstance St)
    : res (list StrategySignal) * StrategyInstance St :=
  let '(r, w) := on_event e {| iw_instance := i; iw_metrics := ∅ |} in (r, iw_instance w).

Definition fail_alone (reason : string) (i : StrategyInstance St) : StrategyInstance St :=
  if run_terminal (ii_state i) then i
  else ii_set run_FAILED (ii_initialized i) (Some reason) (ii_seen i) (ii_context i) i.

(** Its state after a dispatch that collects it, finds it late, or times out. *)
Definition after_collected (e : strategy_event) (i : StrategyInstance St) : StrategyInstance St :=
  match on_event_alone e i with (Ok _, i') => i' | (Err x, i') => fail_alone (exn_msg x) i' end.
Definition after_late (e : strategy_event) (i : StrategyInstance St) : StrategyInstance St := snd (on_event_alone e i).

(** The signals it contributes to the answer. *)
Definition contribution (e : strategy_event) (w : RW) (u : UUID) : list StrategySignal :=
  match by_id u (rw_instances w) with
  | Some i =>
      match fst (on_event_alone e i) with
      | Ok signals => (fun s => enrich s (id_code_hash (ii_identity i)) (rn_run_id <$> by_id u (rw_runs w)) (event_time e))
                        <$> signals
      | Err _ => []
      end
  | None => []
  end.

(** [w'] is [w] with instance [u] replaced by [i'] (its run record may be
    closed), [out] passed to the consumers. *)
Record only_touches (u : UUID) (i' : StrategyInstance St) (out : list StrategySignal) (w w' : RW) : Prop := {
  ot_instances v : by_id v (rw_instances w') = if (u =? v)%N then Some i' else by_id v (rw_instances w);
  ot_runs v : v <> u -> by_id v (rw_runs w') = by_id v (rw_runs w);
  ot_run_id v : rn_run_id <$> by_id v (rw_runs w') = rn_run_id <$> by_id v (rw_runs w);
  ot_fanned : rw_fanned_out w' = rw_fanned_out w ++ out;
}.

Lemma only_touches_trans u i1 i2 o1 o2 w1 w2 w3 :
  only_touches u i1 o1 w1 w2 -> only_touches u i2 o2 w2 w3 -> only_touches u i2 (o1 ++ o2) w1 w3.
Proof.
  intros [A1 A2 A3 A4] [B1 B2 B3 B4]. constructor.
  - intros v. rewrite B1, A1. by destruct (u =? v)%N.
  - intros v Hv. by rewrite B2, A2.
  - intros v. by rewrite B3.
  - by rewrite B4, A4, app_assoc.
Qed.

Lemma at_instance_run {T} u (m : M IW T) i (w : RW) : by_id u (rw_instances w) = Some i ->
  exists w', at_instance u m w = (Ok (fst (m {| iw_instance := i; iw_metrics := rw_metrics w |})), w') /\
  only_touches u (iw_instance (snd (m {| iw_instance := i; iw_metrics := rw_metrics w |}))) [] w w'.
Proof.
  intros Hi. unfold at_instance, bind, gets, id. rewrite Hi. unfold on_instance.
  destruct (m _) as [r iw]. eexists. split; [reflexivity|]. constructor; simpl; [|done..|by rewrite app_nil_r].
  intros v. apply by_id_put.
Qed.

Lemma record_failure_run u i (w : RW) : by_id u (rw_instances w) = Some i ->
  exists w', record_failure rc u w = (Ok tt, w') /\ only_touches u i [] w w'.
Proof.
  intros Hi. assert (only_touches u i [] w w) as Hsame.
  { constructor; [|done..|by rewrite app_nil_r]. intros v. destruct (N.eqb_spec u v) as [<-|]; [|done]. by rewrite Hi. }
  unfold record_failure, bind at 1, gets, id. destruct (by_id u (rw_runs w)) as [r|] eqn:Hr; [|by exists w].
  rewrite Hi. eexists. split; [reflexivity|]. constructor; simpl.
  - intros v. destruct (N.eqb_spec u v) as [<-|]; [|done]. by rewrite Hi.
  - intros v Hv. rewrite by_id_put. by destruct (N.eqb_spec u v) as [<-|].
  - intros v. rewrite by_id_put. destruct (N.eqb_spec u v) as [<-|]; [|done]. by rewrite Hr.
  - by rewrite app_nil_r.
Qed.

Lemma drop_instance_run u reason i (w : RW) : by_id u (rw_instances w) = Some i ->
  exists w', drop_instance rc u reason w = (Ok tt, w') /\ only_touches u (fail_alone reason i) [] w w'.
Proof.
  intros Hi. unfold drop_instance, run_instance.
  destruct (at_instance_run u (instance_fail reason) i w Hi) as (w1 & E1 & T1).
  destruct (instance_fail_run reason {| iw_instance := i; iw_metrics := rw_metrics w |}) as [c Hc].
  rewrite Hc in E1, T1. cbn [fst snd iw_instance] in E1, T1. change (if run_terminal _ then _ else _) with (fail_alone reason i) in T1.
  destruct T1 as [A1 A2 A3 A4].
  pose (w2 := rw_set (rw_instances w1) (rw_definitions w1) (rw_runs w1) (bump (rw_metrics w1) "events_dropped") (rw_fanned_out w1) w1).
  destruct (record_failure_run u (fail_alone reason i) w2) as (w3 & E3 & T3).
  { simpl. rewrite A1. by rewrite N.eqb_refl. }
  exists w3. split.
  - unfold bind at 1. unfold bind at 1. rewrite E1. unfold lift, bind, rw_inc, modify. exact E3.
  - apply (only_touches_trans u (fail_alone reason i) _ [] [] w w2 w3); [|done]. by constructor.
Qed.

Lemma on_event_run e i c : exists c',
  on_event e {| iw_instance := i; iw_metrics := c |} =
    (fst (on_event_alone e i), {| iw_instance := snd (on_event_alone e i); iw_metrics := c' |}).
Proof.
  destruct (blind_on_event e i c ∅) as (H1 & H2 & _). unfold on_event_alone.
  destruct (on_event e _) as [r1 [i1 c1]], (on_event e _) as [r2 [i2 c2]]. simpl in H1, H2. subst. by exists c1.
Qed.

Lemma on_event_alone_identity e i : ii_identity (snd (on_event_alone e i)) = ii_identity i.
Proof.
  destruct (blind_on_event e i ∅ ∅) as (_ & _ & H). unfold on_event_alone. by destruct (on_event e _) as [r [i1 c1]].
Qed.

Lemma collect_one_run e u i (w : RW) : by_id u (rw_instances w) = Some i ->
  exists w', collect_one rc e u w = (Ok (contribution e w u), w') /\
  only_touches u (after_collected e i) (contribution e w u) w w'.
Proof.
  intros Hi. unfold collect_one, contribution, after_collected. rewrite Hi.
  destruct (at_instance_run u (on_event e) i w Hi) as (w1 & E1 & T1).
  destruct (on_event_run e i (rw_metrics w)) as [c Hc]. rewrite Hc in E1, T1. cbn [fst snd iw_instance] in E1, T1.
  pose proof (on_event_alone_identity e i) as Hid.
  unfold bind at 1. rewrite E1. destruct (on_event_alone e i) as [[signals|x] i1]; cbn [fst snd] in *.
  - set (out := _ <$> signals). unfold collect, bind at 1, gets, id, bind at 1. simpl.
    destruct T1 as [A1 A2 A3 A4]. pose proof (A1 u) as Hu. rewrite N.eqb_refl in Hu. rewrite Hu. simpl. rewrite A3, Hid.
    fold out. unfold bind at 1, gets, id, modify, ret.
    set (w2 := rw_set _ _ _ _ _ _). change (rw_instances w2) with (rw_instances w1). rewrite Hu.
    assert (only_touches u i1 out w w2) as T2.
    { constructor; simpl; try done. by rewrite A4, app_nil_r. }
    case_bool_decide.
    + destruct (record_failure_run u i1 w2 Hu) as (w3 & E3 & T3). exists w3. unfold bind. rewrite E3. split; [done|].
      rewrite <- (app_nil_r out). by eapply only_touches_trans.
    + exists w2. done.
  - destruct (drop_instance_run u (exn_msg x) i1 w1) as (w2 & E2 & T2).
    { rewrite (ot_instances _ _ _ _ _ T1). by rewrite N.eqb_refl. }
    exists w2. unfold bind. rewrite E2. split; [done|]. exact (only_touches_trans u _ _ [] [] _ _ _ T1 T2).
Qed.

Lemma late_one_run e u i (w : RW) : by_id u (rw_instances w) = Some i ->
  exists w', late_one e u w = (Ok tt, w') /\ only_touches u (after_late e i) [] w w'.
Proof.
  intros Hi. destruct (at_instance_run u (on_event e) i w Hi) as (w1 & E1 & T1).
  destruct (on_event_run e i (rw_metrics w)) as [c Hc]. rewrite Hc in T1.
  exists w1. unfold late_one, bind. by rewrite E1.
Qed.

(** The same over a list of instances, each visited once. *)
Record all_touched (us : list UUID) (after : StrategyInstance St -> StrategyInstance St) (out : list StrategySignal)
    (w w' : RW) : Prop := {
  at_instances v : by_id v (rw_instances w') =
    if bool_decide (v ∈ us) then after <$> by_id v (rw_instances w) else by_id v (rw_instances w);
  at_runs v : v ∉ us -> by_id v (rw_runs w') = by_id v (rw_runs w);
  at_run_id v : rn_run_id <$> by_id v (rw_runs w') = rn_run_id <$> by_id v (rw_runs w);
  at_fanned : rw_fanned_out w' = rw_fanned_out w ++ out;
}.

Lemma each_run {A} (f : UUID -> M RW (list A)) (value : RW -> UUID -> list A) (fan : RW -> UUID -> list StrategySignal)
    after us : forall w,
  (forall u i (w : RW), by_id u (rw_instances w) = Some i -> exists w', f u w = (Ok (value w u), w') /\
     only_touches u (after i) (fan w u) w w') ->
  (forall u i o (w w' : RW), only_touches u i o w w' -> forall v, v <> u -> value w' v = value w v /\ fan w' v = fan w v) ->
  NoDup us -> Forall (fun u => is_Some (by_id u (rw_instances w))) us ->
  exists w', each f us w = (Ok (mjoin (value w <$> us)), w') /\
    all_touched us after (mjoin (fan w <$> us)) w w'.
Proof.
  induction us as [|u us IH]; intros w Hf Hframe Hnd Hall.
  - exists w. split; [done|]. constructor; try done. simpl. by rewrite app_nil_r.
  - apply NoDup_cons in Hnd as [Hu Hnd]. apply Forall_cons in Hall as [[i Hi] Hall].
    destruct (Hf u i w Hi) as (w1 & E1 & T1). cbn [each]. unfold bind. rewrite E1.
    destruct (IH w1 Hf Hframe Hnd) as (w2 & E2 & T2).
    { eapply Forall_impl; [exact Hall|]. intros v [j Hj]. simpl. rewrite (ot_instances _ _ _ _ _ T1).
      by destruct (u =? v)%N; eexists. }
    assert (forall v, v ∈ us -> value w1 v = value w v /\ fan w1 v = fan w v) as Hsame.
    { intros v Hv. apply (Hframe _ _ _ _ _ T1). by intros ->. }
    rewrite E2. unfold ret. exists w2. split.
    + change (mjoin (value w <$> u :: us)) with (value w u ++ mjoin (value w <$> us)).
      do 4 f_equal. apply list_fmap_ext. intros ? v Hv. apply Hsame.
      by eapply list_elem_of_lookup_2.
    + destruct T1 as [A1 A2 A3 A4], T2 as [B1 B2 B3 B4]. constructor.
      * intros v. rewrite B1, A1. destruct (N.eqb_spec u v) as [<-|Hne].
        -- rewrite bool_decide_eq_false_2, bool_decide_eq_true_2 by (done || left). by rewrite Hi.
        -- assert (v ∈ u :: us <-> v ∈ us) as Heq by (rewrite elem_of_cons; naive_solver).
           by rewrite (bool_decide_ext _ _ Heq).
      * intros v Hv. apply not_elem_of_cons in Hv as [Hv1 Hv2]. by rewrite B2, A2.
      * intros v. by rewrite B3.
      * change (mjoin (fan w <$> u :: us)) with (fan w u ++ mjoin (fan w <$> us)).
        rewrite B4, A4, <- app_assoc. do 3 f_equal. apply list_fmap_ext.
        intros ? v Hv. apply Hsame. by eapply list_elem_of_lookup_2.
Qed.

Lemma contribution_frame e u i o (w w' : RW) : only_touches u i o w w' -> forall v, v <> u ->
  contribution e w' v = contribution e w v.
Proof.
  intros [A1 A2 A3 _] v Hv. unfold contribution. rewrite A1, A2 by done.
  by destruct (N.eqb_spec u v) as [<-|].
Qed.

(** Counting the dispatched events changes the counters only. *)
Lemma count_events_run n us (w : RW) : exists w',
  each (fun _ => rw_inc n ;* ret ([] : list unit)) us w = (Ok [], w') /\
  rw_instances w' = rw_instances w /\ rw_runs w' = rw_runs w /\ rw_fanned_out w' = rw_fanned_out w /\ rw_tick w' = rw_tick w.
Proof.
  revert w. induction us as [|u us IH]; intros w; [by exists w|]. cbn [each]. unfold bind, rw_inc at 1, modify, ret.
  match goal with |- context [each _ us ?w0] => destruct (IH w0) as (w' & E & H) end.
  unfold bind, modify, ret in E. rewrite E. by exists w'.
Qed.

Lemma matching_present e (w : RW) u : u ∈ matching w e -> is_Some (by_id u (rw_instances w)).
Proof. intros [_ H]%list_elem_of_filter. by apply by_id_keys. Qed.

(** What one event makes of the instance [u], from the schedule and its own
    state. *)
Definition outcome (e : strategy_event) (schedule : Schedule) (w : RW) (u : UUID) : option (StrategyInstance St) :=
  (if bool_decide (u ∈ matching w e) then
     if bool_decide (u ∈ sched_collected schedule) then after_collected e
     else if bool_decide (u ∈ sched_late schedule) then after_late e
     else fail_alone "callback_timeout"
   else id) <$> by_id u (rw_instances w).

(** Three visits of disjoint groups of instances. *)
Lemma all_touched_three us1 us2 us3 f1 f2 f3 out w1 w2 w3 w4 :
  all_touched us1 f1 out w1 w2 -> all_touched us2 f2 [] w2 w3 -> all_touched us3 f3 [] w3 w4 ->
  us1 ## us2 -> us3 ## us1 ++ us2 ->
  (forall u, by_id u (rw_instances w4) =
     (if bool_decide (u ∈ us1) then f1 else if bool_decide (u ∈ us2) then f2
      else if bool_decide (u ∈ us3) then f3 else id) <$> by_id u (rw_instances w1)) /\
  (forall u, u ∉ us1 ++ us2 ++ us3 -> by_id u (rw_runs w4) = by_id u (rw_runs w1)) /\
  rw_fanned_out w4 = rw_fanned_out w1 ++ out.
Proof.
  intros [A1 A2 _ A4] [B1 B2 _ B4] [C1 C2 _ C4] D1 D2. split_and!.
  - intros u. rewrite C1, B1, A1. specialize (D1 u). specialize (D2 u). rewrite elem_of_app in D2.
    repeat case_bool_decide; try reflexivity; try tauto; by rewrite option_fmap_id.
  - intros u. rewrite !elem_of_app. intros Hu. rewrite C2, B2, A2 by tauto. done.
  - by rewrite C4, B4, A4, !app_nil_r.
Qed.

Lemma all_touched_present us f out (w w' : RW) u : all_touched us f out w w' ->
  is_Some (by_id u (rw_instances w)) -> is_Some (by_id u (rw_instances w')).
Proof. intros [A1 _ _ _] [i Hi]. rewrite A1, Hi. by case_bool_decide; eexists. Qed.

Lemma mjoin_nil {A B} (l : list A) : mjoin ((fun _ => ([] : list B)) <$> l) = [].
Proof. by induction l. Qed.

(** The three groups of a dispatch: collected, late, timed out. *)
Lemma dispatch_run e (col late rest : list UUID) (w : RW) :
  NoDup (col ++ late) -> NoDup rest -> rest ## col ++ late ->
  (forall u, u ∈ col ++ late ++ rest -> is_Some (by_id u (rw_instances w))) ->
  exists w', (let* accepted := each (collect_one rc e) col in
    each (fun u => late_one e u ;* ret ([] : list unit)) late ;*
    each (fun u => drop_instance rc u "callback_timeout" ;* ret ([] : list unit)) rest ;*
    ret accepted) w = (Ok (mjoin (contribution e w <$> col)), w') /\
  (forall u, by_id u (rw_instances w') =
     (if bool_decide (u ∈ col) then after_collected e else if bool_decide (u ∈ late) then after_late e
      else if bool_decide (u ∈ rest) then fail_alone "callback_timeout" else id) <$> by_id u (rw_instances w)) /\
  (forall u, u ∉ col ++ late ++ rest -> by_id u (rw_runs w') = by_id u (rw_runs w)) /\
  rw_fanned_out w' = rw_fanned_out w ++ mjoin (contribution e w <$> col).
Proof.
  intros (N1 & Hdis & N2)%NoDup_app N3 D Hp. unfold bind.
  destruct (each_run (collect_one rc e) (contribution e) (contribution e) (after_collected e) col w) as (w1 & E1 & A1).
  { apply collect_one_run. }
  { intros u i o w0 w' Ho v Hv. split; by eapply contribution_frame. }
  { done. }
  { apply Forall_forall. intros u Hu. apply Hp. rewrite !elem_of_app. tauto. }
  rewrite E1.
  destruct (each_run (fun u => late_one e u ;* ret ([] : list unit)) (fun _ _ => []) (fun _ _ => []) (after_late e) late w1)
    as (w2 & E2 & A2); [|done|done| |].
  { intros u i w0 Hi. unfold bind. destruct (late_one_run e u i w0 Hi) as (w' & -> & ?). by exists w'. }
  { apply Forall_forall. intros u Hu. eapply all_touched_present; [exact A1|]. apply Hp. rewrite !elem_of_app. tauto. }
  unfold bind in E2. rewrite E2.
  destruct (each_run (fun u => drop_instance rc u "callback_timeout" ;* ret ([] : list unit)) (fun _ _ => [])
    (fun _ _ => []) (fail_alone "callback_timeout") rest w2) as (w3 & E3 & A3); [|done|done| |].
  { intros u i w0 Hi. unfold bind. destruct (drop_instance_run u "callback_timeout" i w0 Hi) as (w' & -> & ?). by exists w'. }
  { apply Forall_forall. intros u Hu. do 2 (eapply all_touched_present; [eassumption|]). apply Hp. rewrite !elem_of_app. tauto. }
  unfold bind in E3. rewrite E3. exists w3. rewrite mjoin_nil in A2, A3.
  pose proof (all_touched_three _ _ _ _ _ _ _ _ _ _ _ A1 A2 A3 Hdis D) as (H1 & H2 & H3). done.
Qed.

(** A strategy's fate depends on itself alone.  Dispatching an event never
    fails, whatever the strategies do and in whatever order their callbacks
    complete or time out.  The answer, also what the consumers receive, is the
    concatenation, in order of completion, of each collected strategy's own
    signals; every instance ends as its own run of the event makes it (failed,
    when it raised or timed out); strategies the event does not concern keep
    instance and run record. *)
Theorem strategies_isolated e schedule (w : RW) :
  NoDup (fst <$> rw_instances w) -> NoDup (sched_collected schedule ++ sched_late schedule) ->
  dt_comparable (rc_clock rc (rw_tick w)) (event_time e) = true ->
  exists w', runtime_on_event rc e schedule w =
    (Ok (mjoin (contribution e w <$> filter (fun u => u ∈ matching w e) (sched_collected schedule))), w') /\
  rw_fanned_out w' = rw_fanned_out w ++
    mjoin (contribution e w <$> filter (fun u => u ∈ matching w e) (sched_collected schedule)) /\
  (forall u, by_id u (rw_instances w') = outcome e schedule w u) /\
  (forall u, u ∉ matching w e -> by_id u (rw_runs w') = by_id u (rw_runs w)).
Proof.
  intros Hkeys Hsched Hcmp. unfold runtime_on_event. unfold bind at 1, gets, id at 1.
  destruct (count_events_run "events_dispatched" (matching w e) w) as (w1 & E1 & I1 & R1 & F1 & T1).
  pose proof (NoDup_filter (fun u => matches w u (event_instrument e) (event_timeframe e) = true) _ Hkeys) as Hmnd.
  pose proof (matching_present e w) as Hpresent. fold (matching w e) in Hmnd. unfold outcome.
  change (@id RW w) with w. unfold bind at 1. rewrite E1. clear E1. revert Hmnd Hpresent. generalize (matching w e). intros us Hmnd Hpresent.
  destruct us as [|u0 us0] eqn:Eus.
  { assert (forall l, filter (fun u : UUID => u ∈ []) l = []) as ->.
    { intros l. induction l as [|x l IH]; [done|]. rewrite filter_cons_False by apply not_elem_of_nil. done. }
    exists w1. split_and!; [done|by rewrite F1, app_nil_r| |by rewrite R1]. intros u. rewrite I1.
    rewrite bool_decide_eq_false_2 by apply not_elem_of_nil. by rewrite option_fmap_id. }
  rewrite <- Eus in *. clear u0 us0 Eus.
  set (col := filter _ (sched_collected schedule)). set (late := filter _ (sched_late schedule)).
  set (rest := filter (fun u => u ∉ col ++ late) us).
  unfold bind at 1, rw_call. set (w2 := {| rw_tick := _ |}).
  unfold bind at 1, lift. rewrite T1. unfold dt_sub. rewrite Hcmp. cbv beta iota.
  destruct (dispatch_run e col late rest w2) as (w3 & E3 & H1 & H2 & H3).
  { apply (sublist_NoDup _ _ Hsched). apply sublist_app; apply sublist_filter. }
  { by apply NoDup_filter. }
  { intros u [Hu _]%list_elem_of_filter Hu2. done. }
  { intros u Hu. simpl. rewrite I1. apply Hpresent. unfold rest, col, late in Hu.
    rewrite !elem_of_app, !list_elem_of_filter in Hu. tauto. }
  assert (contribution e w2 = contribution e w) as Hc.
  { unfold contribution. simpl. by rewrite I1, R1. }
  rewrite Hc in E3, H3. simpl in H1, H2, H3. rewrite F1 in H3. rewrite I1 in H1. rewrite R1 in H2.
  exists w3. split_and!; [exact E3|exact H3| |].
  - intros u. rewrite H1. f_equal. unfold rest, col, late.
    repeat case_bool_decide; try reflexivity; repeat rewrite ?elem_of_app, ?list_elem_of_filter in *; tauto.
  - intros u Hu. apply H2. unfold rest, col, late. rewrite !elem_of_app, !list_elem_of_filter. tauto.
Qed.
End Isolation.

(** ** Well-formed runtimes *)

Lemma put_id_keys {V} k v (d : list (UUID * V)) :
  fst <$> put_id k v d = if bool_decide (k ∈ fst <$> d) then fst <$> d else (fst <$> d) ++ [k].
Proof.
  induction d as [|[k0 v0] d IH]; [done|]. cbn [put_id]. destruct (N.eqb_spec k0 k) as [->|Hne]; rewrite !fmap_cons; cbn [fst].
  - rewrite bool_decide_eq_true_2 by left. done.
  - rewrite IH.
    assert (k ∈ k0 :: (fst <$> d) <-> k ∈ fst <$> d) as Heq by (rewrite elem_of_cons; naive_solver).
    rewrite (bool_decide_ext _ _ Heq). by case_bool_decide.
Qed.

Lemma nodup_put {V} k v (d : list (UUID * V)) : NoDup (fst <$> d) -> NoDup (fst <$> put_id k v d).
Proof.
  intros Hd. rewrite put_id_keys. case_bool_decide as Hk; [done|]. apply NoDup_app. split_and!; [done| |apply NoDup_singleton].
  intros x Hx ->%list_elem_of_singleton. done.
Qed.

Lemma nodup_pop {V} k (d : list (UUID * V)) : NoDup (fst <$> d) -> NoDup (fst <$> pop_id k d).
Proof. intros H. apply (sublist_NoDup _ _ H). apply fmap_sublist, sublist_filter. Qed.

Section RuntimeFacts.
Context {St : Type} (rc : StrategyRuntimeConfig).
Abbreviation IW := (InstanceWorld St).
Abbreviation RW := (StrategyRuntime St).
Abbreviation RG := (StrategyRegistry St).

(** The two tables of the registry agree. *)
Record registry_wf (r : RG) : Prop := {
  wf_keys : NoDup (fst <$> rg_by_id r);
  wf_by_id u d : by_id u (rg_by_id r) = Some d ->
    id_strategy_id (df_identity d) = u /\ rg_by_code r !! id_code (df_identity d) = Some u;
  wf_by_code c u : rg_by_code r !! c = Some u ->
    exists d, by_id u (rg_by_id r) = Some d /\ id_code (df_identity d) = c;
}.

Lemma registry_register_wf d : preserves registry_wf (registry_register d).
Proof.
  intros r [K1 K2 K3]. unfold registry_register, bind, gets, lift, raise_if, id.
  case_bool_decide as Hid; [by constructor|]. case_bool_decide as Hcode; [by constructor|].
  apply eq_None_not_Some in Hid, Hcode. constructor; simpl.
  - by apply nodup_put.
  - intros u d'. rewrite by_id_put. destruct (N.eqb_spec (id_strategy_id (df_identity d)) u) as [<-|Hne].
    + intros [= <-]. by rewrite lookup_insert_eq.
    + intros [H1 H2]%K2. split; [done|]. rewrite lookup_insert_ne; [done|]. intros Heq. congruence.
  - intros c u. destruct (decide (id_code (df_identity d) = c)) as [<-|Hc].
    + rewrite lookup_insert_eq. intros [= <-]. rewrite by_id_put, N.eqb_refl. by exists d.
    + rewrite lookup_insert_ne by done. intros (d' & H1 & H2)%K3. exists d'. split; [|done].
      rewrite by_id_put. destruct (N.eqb_spec (id_strategy_id (df_identity d)) u) as [<-|]; congruence.
Qed.

Lemma registry_unregister_wf u : preserves registry_wf (registry_unregister u).
Proof.
  intros r [K1 K2 K3]. unfold registry_unregister, bind, gets, id.
  destruct (by_id u (rg_by_id r)) as [d|] eqn:Hd; [|by constructor]. apply K2 in Hd as Hd'. destruct Hd' as [Hu Hc].
  constructor; simpl.
  - by apply nodup_pop.
  - intros v d'. rewrite by_id_pop. destruct (N.eqb_spec u v) as [|Hne]; [done|]. intros Hv.
    apply K2 in Hv as [H1 H2]. split; [done|]. rewrite lookup_delete_ne; [done|]. intros Heq. congruence.
  - intros c v. rewrite lookup_delete_Some. intros [Hne (d' & H1 & H2)%K3]. exists d'. split; [|done].
    rewrite by_id_pop. destruct (N.eqb_spec u v) as [<-|]; [|done]. congruence.
Qed.

Lemma registry_set_enabled_wf u b : preserves registry_wf (registry_set_enabled u b).
Proof.
  intros r [K1 K2 K3]. unfold registry_set_enabled, bind, gets, lift, id, registry_get.
  destruct (by_id u (rg_by_id r)) as [d|] eqn:Hd; [|by constructor]. constructor; simpl.
  - by apply nodup_put.
  - intros v d'. rewrite by_id_put. destruct (N.eqb_spec u v) as [<-|Hne]; [|apply K2]. intros [= <-]. by apply K2 in Hd.
  - intros c v (d' & H1 & H2)%K3. rewrite by_id_put. destruct (N.eqb_spec u v) as [<-|]; [|by exists d'].
    exists (with_enabled b d). split; [done|]. simpl. congruence.
Qed.

Lemma registry_clear_wf : preserves registry_wf registry_clear.
Proof. intros r _. constructor; simpl; [constructor|done|]. intros c u. by rewrite lookup_empty. Qed.

(** Dispatcher and run table agree with each other, every instance is filed
    under its own identity, and no run is a live one. *)
Record runtime_wf (w : RW) : Prop := {
  wf_registry : registry_wf (rw_registry w);
  wf_instances : NoDup (fst <$> rw_instances w);
  wf_instance u i : by_id u (rw_instances w) = Some i -> id_strategy_id (ii_identity i) = u /\ table_ok (ii_seen i);
  wf_definitions u : is_Some (by_id u (rw_instances w)) <-> is_Some (by_id u (rw_definitions w));
  wf_run u r : by_id u (rw_runs w) = Some r ->
    rn_strategy_id r = u /\ rn_trading_mode r <> sm_LIVE /\ is_Some (by_id u (rw_instances w));
}.

(** The operations of an instance that keep it well-formed. *)
Definition keeps_instance {T} (m : M IW T) : Prop := forall w, table_ok (ii_seen (iw_instance w)) ->
  ii_identity (iw_instance (snd (m w))) = ii_identity (iw_instance w) /\ table_ok (ii_seen (iw_instance (snd (m w)))).

Lemma keeps_lifecycle {T} (m : M IW T) : lifecycle_op m -> keeps_instance m.
Proof. intros Hm w Ht. destruct (Hm w) as ((H1 & _) & H2 & _). by rewrite H2. Qed.

Lemma keeps_on_event e : keeps_instance (on_event e).
Proof.
  intros w Ht. destruct (on_event e w) as [r w'] eqn:E. destruct (on_event_spec _ _ _ _ E Ht) as ((H1 & _) & H2 & _). done.
Qed.

Lemma at_instance_wf {T} u (m : M IW T) : keeps_instance m -> preserves runtime_wf (at_instance u m).
Proof.
  intros Hm w [K1 K2 K3 K4 K5]. unfold at_instance, bind, gets, id.
  destruct (by_id u (rw_instances w)) as [i|] eqn:Hi; [|by constructor]. unfold on_instance.
  destruct (K3 u i Hi) as [Hu Ht]. specialize (Hm {| iw_instance := i; iw_metrics := rw_metrics w |} Ht).
  destruct (m _) as [r iw]. simpl in Hm. destruct Hm as [Hid Ht']. constructor; simpl; [done|by apply nodup_put|..].
  - intros v i'. rewrite by_id_put. destruct (N.eqb_spec u v) as [<-|]; [|apply K3]. intros [= <-]. by rewrite Hid.
  - intros v. rewrite <- K4, by_id_put. destruct (N.eqb_spec u v) as [<-|]; [|done]. by rewrite Hi.
  - intros v r' (H1 & H2 & H3)%K5. split_and!; [done..|]. rewrite by_id_put. destruct (N.eqb_spec u v); [by eexists|done].
Qed.

Lemma run_instance_wf {T} u (m : M IW T) : keeps_instance m -> preserves runtime_wf (run_instance u m).
Proof. intros Hm. apply preserves_bind; [by apply at_instance_wf|]. intros r. apply preserves_lift. Qed.

(** Only the run table changes, to records of the same kind. *)
Lemma put_run_wf u r : preserves (fun w => runtime_wf w /\ rn_strategy_id r = u /\ rn_trading_mode r <> sm_LIVE /\
  is_Some (by_id u (rw_instances w))) (put_run u r).
Proof.
  intros w ([K1 K2 K3 K4 K5] & H1 & H2 & H3). split; [|done]. constructor; simpl; try done.
  intros v r'. rewrite by_id_put. destruct (N.eqb_spec u v) as [<-|]; [|apply K5]. by intros [= <-].
Qed.

Lemma close_run_wf u r i state reason (w : RW) : runtime_wf w -> by_id u (rw_runs w) = Some r ->
  by_id u (rw_instances w) = Some i ->
  runtime_wf (snd ((let* now := rw_call (rc_clock rc) in put_run u (close_run r state reason now)) w)).
Proof.
  intros [K1 K2 K3 K4 K5] Hr Hi. destruct (K5 u r Hr) as (H1 & H2 & H3).
  apply (put_run_wf u (close_run r state reason _)). by split.
Qed.

Lemma record_failure_wf u : preserves runtime_wf (record_failure rc u).
Proof.
  intros w Hw. unfold record_failure. unfold bind at 1, gets, id.
  destruct (by_id u (rw_runs w)) eqn:Hr; [|done]. destruct (by_id u (rw_instances w)) eqn:Hi; [|done].
  by eapply close_run_wf.
Qed.

Lemma rw_inc_wf n : preserves runtime_wf (rw_inc n).
Proof. intros w [K1 K2 K3 K4 K5]. by constructor. Qed.

Lemma rw_call_wf {T} (f : nat -> T) : preserves runtime_wf (rw_call f).
Proof. intros w [K1 K2 K3 K4 K5]. by constructor. Qed.

Lemma each_wf {A} (f : UUID -> M RW (list A)) us :
  (forall u, preserves runtime_wf (f u)) -> preserves runtime_wf (each f us).
Proof. intros Hf. induction us as [|u us IH]; simpl; auto with pres. Qed.

Lemma drop_instance_wf u reason : preserves runtime_wf (drop_instance rc u reason).
Proof.
  apply preserves_bind; [apply run_instance_wf, keeps_lifecycle, lo_fail|intros _].
  apply preserves_bind; [apply rw_inc_wf|intros _; apply record_failure_wf].
Qed.

Lemma collect_wf u signals ts : preserves runtime_wf (collect u signals ts).
Proof. intros w [K1 K2 K3 K4 K5]. by constructor. Qed.

Lemma collect_one_wf e u : preserves runtime_wf (collect_one rc e u).
Proof.
  apply preserves_bind; [apply at_instance_wf, keeps_on_event|]. intros [signals|x].
  - apply preserves_bind; [apply collect_wf|intros out]. apply preserves_bind; [apply preserves_gets|intros w].
    apply preserves_bind; [|intros _; apply preserves_ret]. destruct (by_id u (rw_instances w)) as [i|]; [|apply preserves_ret].
    apply preserves_if; [apply record_failure_wf|apply preserves_ret].
  - apply preserves_bind; [apply drop_instance_wf|intros _; apply preserves_ret].
Qed.

Lemma runtime_on_event_wf e schedule : preserves runtime_wf (runtime_on_event rc e schedule).
Proof.
  apply preserves_bind; [apply preserves_gets|intros w]. apply preserves_bind.
  { apply each_wf. intros u. apply preserves_bind; [apply rw_inc_wf|intros _; apply preserves_ret]. }
  intros _. destruct (matching w e); [apply preserves_ret|].
  apply preserves_bind; [apply rw_call_wf|intros now]. apply preserves_bind; [apply preserves_lift|intros _].
  apply preserves_bind; [apply each_wf, collect_one_wf|intros accepted].
  apply preserves_bind.
  { apply each_wf. intros v. apply preserves_bind; [|intros _; apply preserves_ret].
    apply preserves_bind; [apply at_instance_wf, keeps_on_event|intros _; apply preserves_ret]. }
  intros _. apply preserves_bind; [|intros _; apply preserves_ret].
  apply each_wf. intros v. apply preserves_bind; [apply drop_instance_wf|intros _; apply preserves_ret].
Qed.

Lemma on_registry_wf {T} (m : M RG T) : preserves registry_wf m -> preserves runtime_wf (on_registry m).
Proof.
  intros Hm w [K1 K2 K3 K4 K5]. unfold on_registry, zoom. specialize (Hm _ K1). destruct (m _) as [r t]. by constructor.
Qed.

Lemma runtime_unregister_wf u : preserves runtime_wf (runtime_unregister u).
Proof.
  apply preserves_bind; [apply on_registry_wf, registry_unregister_wf|intros _].
  intros w [K1 K2 K3 K4 K5]. constructor; simpl; [done|by apply nodup_pop|..].
  - intros v i. rewrite by_id_pop. destruct (u =? v)%N; [done|apply K3].
  - intros v. rewrite !by_id_pop. destruct (u =? v)%N; [done|apply K4].
  - intros v r. rewrite !by_id_pop. destruct (u =? v)%N; [done|apply K5].
Qed.

Lemma mk_StrategyInstance_ok d impl values (i : StrategyInstance St) : mk_StrategyInstance d impl values = Ok i ->
  ii_identity i = df_identity d /\ ii_seen i = [] /\
  ii_allowed_instruments i = match df_instruments d with [] => None | l => Some l end.
Proof. unfold mk_StrategyInstance. intros H. res_inv. done. Qed.

Lemma dispatcher_register_wf i d (w : RW) : runtime_wf w -> ii_identity i = df_identity d -> table_ok (ii_seen i) ->
  runtime_wf (snd (dispatcher_register i d w)).
Proof.
  intros [K1 K2 K3 K4 K5] Hid Ht. constructor; simpl; [done|by apply nodup_put|..].
  - intros v i'. rewrite by_id_put. destruct (N.eqb_spec (id_strategy_id (df_identity d)) v) as [<-|]; [|apply K3].
    intros [= <-]. by rewrite Hid.
  - intros v. rewrite !by_id_put. destruct (N.eqb _ v); [|apply K4]. by split; eexists.
  - intros v r (H1 & H2 & H3)%K5. split_and!; [done..|]. rewrite by_id_put. destruct (N.eqb _ v); [by eexists|done].
Qed.

Lemma on_instance_wf {T} i (m : M IW T) : preserves runtime_wf (on_instance i m).
Proof. intros w [K1 K2 K3 K4 K5]. unfold on_instance. destruct (m _). by constructor. Qed.

Lemma lo_startup : lifecycle_op (St:=St) (instance_initialize ;* instance_start).
Proof.
  apply lo_bind; [|intros _]; apply instance_operation_moves; constructor.
Qed.

Lemma table_ok_nil : table_ok [].
Proof. split; [apply Nat.le_0_l|constructor]. Qed.

Lemma runtime_start_wf u mode values : preserves runtime_wf (runtime_start rc u mode values).
Proof.
  intros w Hw. unfold runtime_start. unfold bind at 1, lift at 1.
  destruct (strategy_mode_of mode) as [md|]; [|done]. unfold bind at 1, lift at 1, raise_if.
  case_bool_decide as Hlive; [done|]. unfold bind at 1, gets, id. unfold bind at 1, lift at 1, registry_get.
  destruct (by_id u (rg_by_id (rw_registry w))) as [d|] eqn:Hd; [|done].
  destruct (wf_by_id _ (wf_registry _ Hw) u d Hd) as [Hu _].
  unfold bind at 1, lift at 1. destruct (df_factory d) as [impl|]; [|done].
  unfold bind at 1, lift at 1. destruct (mk_StrategyInstance d impl values) as [i|] eqn:Hi; [|done].
  apply mk_StrategyInstance_ok in Hi as (Hid & Hseen & _).
  pose proof (on_instance_wf i (instance_initialize ;* instance_start) w Hw) as Hw1.
  destruct (lo_startup {| iw_instance := i; iw_metrics := rw_metrics w |}) as ((S1 & _) & S2 & _).
  unfold bind at 1. unfold on_instance in Hw1 |- *.
  destruct ((instance_initialize ;* instance_start) _) as [r iw]. cbn [fst snd iw_instance] in *.
  unfold bind at 1, lift. destruct r as [[]|x]; [|done].
  unfold bind at 1. set (w1 := rw_set _ _ _ _ _ w) in *.
  pose proof (dispatcher_register_wf (iw_instance iw) d w1 Hw1) as Hw2.
  rewrite S1, S2, Hseen in Hw2. specialize (Hw2 Hid table_ok_nil). unfold dispatcher_register, modify in Hw2 |- *.
  cbn [snd] in Hw2. set (w2 := rw_set _ _ _ _ _ w1) in *. unfold bind at 1. unfold rw_call at 1.
  unfold bind at 1. unfold rw_call at 1. unfold bind. cbn [snd].
  match goal with |- context [put_run u ?r ?w3] => destruct (put_run_wf u r w3) as [Hw4 _]; [|exact Hw4] end.
  split_and!; [by destruct Hw2; constructor|done|done|]. simpl. rewrite by_id_put, Hu, N.eqb_refl. by eexists.
Qed.

Lemma dispatcher_set_enabled_wf u b : preserves runtime_wf (dispatcher_set_enabled u b).
Proof.
  intros w [K1 K2 K3 K4 K5]. unfold dispatcher_set_enabled, modify. simpl.
  destruct (by_id u (rw_definitions w)) as [d|] eqn:Hd; [|by constructor]. constructor; simpl; try done.
  intros v. rewrite by_id_put, K4. destruct (N.eqb_spec u v) as [<-|]; [|done]. by rewrite Hd.
Qed.

Lemma runtime_stop_wf u : preserves runtime_wf (runtime_stop rc u).
Proof.
  apply preserves_bind; [apply run_instance_wf, keeps_lifecycle, instance_operation_moves; constructor|intros _].
  apply preserves_bind; [apply dispatcher_set_enabled_wf|intros _].
  intros w Hw. unfold bind at 1, gets, id.
  destruct (by_id u (rw_runs w)) eqn:Hr; [|done]. destruct (by_id u (rw_instances w)) eqn:Hi; [|done].
  by eapply close_run_wf.
Qed.

Lemma runtime_shutdown_wf : preserves runtime_wf (runtime_shutdown rc).
Proof.
  apply preserves_bind; [apply preserves_gets|intros w]. apply preserves_bind; [|intros _; apply preserves_ret].
  apply each_wf. intros u. apply preserves_try; [|intros ?; apply preserves_ret].
  apply preserves_bind; [apply runtime_stop_wf|intros _; apply preserves_ret].
Qed.

(** What a runtime and its registry may be asked to do. *)
Inductive runtime_operation : forall T, M RW T -> Prop :=
| ro_register d : runtime_operation unit (runtime_register d)
| ro_unregister u : runtime_operation unit (runtime_unregister u)
| ro_enabled u b : runtime_operation unit (on_registry (registry_set_enabled u b))
| ro_clear : runtime_operation unit (on_registry registry_clear)
| ro_start u mode values : runtime_operation UUID (runtime_start rc u mode values)
| ro_stop u : runtime_operation unit (runtime_stop rc u)
| ro_pause u : runtime_operation unit (runtime_pause u)
| ro_resume u : runtime_operation unit (runtime_resume u)
| ro_event e schedule : runtime_operation (list StrategySignal) (runtime_on_event rc e schedule)
| ro_shutdown : runtime_operation unit (runtime_shutdown rc).

Definition runtime_step (w w' : RW) : Prop := exists T (m : M RW T), runtime_operation T m /\ w' = snd (m w).

Lemma runtime_operation_wf T (m : M RW T) : runtime_operation T m -> preserves runtime_wf m.
Proof.
  intros []; first [apply on_registry_wf; auto using registry_register_wf, registry_set_enabled_wf, registry_clear_wf
    | apply runtime_unregister_wf | apply runtime_start_wf | apply runtime_stop_wf | apply runtime_on_event_wf
    | apply runtime_shutdown_wf | apply run_instance_wf, keeps_lifecycle, instance_operation_moves; constructor].
Qed.

(** [StrategyRuntime()] *)
Definition new_runtime : RW :=
  {| rw_registry := {| rg_by_id := []; rg_by_code := ∅ |}; rw_instances := []; rw_definitions := []; rw_runs := [];
     rw_metrics := ∅; rw_tick := 0; rw_fanned_out := [] |}.

Lemma new_runtime_wf : runtime_wf new_runtime.
Proof.
  split; simpl; [|constructor|done|by intros u; split|done].
  constructor; simpl; [constructor|done|]. intros c u. by rewrite lookup_empty.
Qed.

(** C20: The tables of the strategy runtime always agree.  After any sequence of
    operations, successful or not, the registry's index by code and its table
    by id are inverse to each other (so a lookup by code is answered by the
    definition of that code or by [StrategyNotFoundError], never by a dangling
    id); every instance is filed under the id in its own identity, next to its
    definition, with a deduplication table within its bound; and every run
    record belongs to an instance and is not in LIVE mode. *)
Theorem runtime_well_formed w : rtc runtime_step new_runtime w ->
  runtime_wf w /\
  forall code, match registry_get_by_code (rw_registry w) code with
               | Ok d => id_code (df_identity d) = code /\
                         registry_get (rw_registry w) (id_strategy_id (df_identity d)) = Ok d
               | Err x => exn_cls x = StrategyNotFoundError
               end.
Proof.
  intros Hr. assert (runtime_wf w) as Hw.
  { eapply rtc_preserved; [|exact Hr|apply new_runtime_wf]. intros a b Ha (T & m & Hm & ->).
    by apply runtime_operation_wf. }
  split; [done|]. intros code. destruct (wf_registry w Hw) as [K1 K2 K3]. unfold registry_get_by_code, registry_get.
  destruct (rg_by_code (rw_registry w) !! code) as [u|] eqn:Hc; [|done].
  apply K3 in Hc as (d & Hd & Hcode). rewrite Hd. split; [done|]. destruct (K2 u d Hd) as [-> _]. by rewrite Hd.
Qed.
End RuntimeFacts.

(** ** From a strategy to the signal engine *)

Section ToSignalEngine.
Context {St : Type} (rc : StrategyRuntimeConfig) (fromisoformat : string -> res datetime) (se : SignalEngineConfig).

(** The part of the history of an instance a client relies on. *)
Lemma history_traceable (i : StrategyInstance St) m iw l s ts : ii_seen i = [] ->
  rtc instance_step ({| iw_instance := i; iw_metrics := m |}, []) (iw, l) -> (s, ts) ∈ l ->
  traceable (ii_identity i) (ii_allowed_instruments i) ts s.
Proof.
  intros Hs Hr Hin. destruct (step_inv_reachable i m (iw, l) Hs Hr) as (_ & _ & H3 & _).
  by apply (proj1 (Forall_forall _ _) H3 (s, ts)).
Qed.

Lemma run_mode_simulated (w : StrategyRuntime St) s : runtime_wf w -> py_upper (run_mode w s) ∈ SIMULATED.
Proof.
  intros Hw. unfold run_mode. destruct (by_id _ (rw_runs w)) as [r|] eqn:Hr; [|by apply (bool_decide_unpack _)].
  apply (wf_run _ Hw) in Hr as (_ & Hm & _). destruct (rn_trading_mode r); [by apply (bool_decide_unpack _)..|done].
Qed.

Lemma enriched_event_time s h run ts : fromisoformat (isoformat ts) = Ok ts ->
  event_timestamp fromisoformat (enrich s h run ts) = Ok ts.
Proof. intros H. unfold event_timestamp, enrich. cbn [sg_metadata]. by rewrite lookup_insert_eq. Qed.

Lemma enriched_code_hash s h run ts : code_hash_from (enrich s h run ts) = h.
Proof.
  unfold code_hash_from, meta_str, enrich. cbn [sg_metadata].
  rewrite !lookup_insert_ne, lookup_insert_eq by done. by destruct h.
Qed.

(** C19: What the strategy engine fans out, the signal engine accepts, under the
    same identity.  Take an instance of a registered, enabled definition and any
    signal it ever accepted, enriched as the runtime does.  With the registry as
    directory, clocks not before the event and a tolerance of at least the
    strategy engine's five seconds, the signal engine's validation passes, in
    whatever mode the strategy runs, and its identity key is the key under which
    the strategy engine deduplicated the signal. *)
Theorem fanned_out_signals_accepted (w : StrategyRuntime St) d impl values i m iw l s ts run now1 now2 :
  runtime_wf w -> registry_get (rw_registry w) (id_strategy_id (df_identity d)) = Ok d -> df_enabled d = true ->
  mk_StrategyInstance d impl values = Ok i ->
  rtc instance_step ({| iw_instance := i; iw_metrics := m |}, []) (iw, l) -> (s, ts) ∈ l ->
  (forall u, se_lookup se u = runtime_directory (rw_registry w) u) -> DEFAULT_SKEW <= se_future_skew se ->
  fromisoformat (isoformat ts) = Ok ts -> dt_aware ts = true ->
  dt_aware now1 = true -> dt_instant ts <= dt_instant now1 ->
  dt_aware now2 = true -> dt_instant ts <= dt_instant now2 ->
  let out := enrich s (id_code_hash (df_identity d)) run ts in
  validate_signal fromisoformat se out (run_mode w out) now1 now2 = Ok tt /\
  compute_signal_identity_key fromisoformat out = Ok (signal_dedup_key s ts).
Proof.
  intros Hw Hd Hen Hi Hr Hin Hlook Hskew Hiso Hts Ha1 Hn1 Ha2 Hn2 out.
  apply mk_StrategyInstance_ok in Hi as (Hid & Hseen & Hallow).
  destruct (history_traceable i m iw l s ts Hseen Hr Hin) as [T1 T2 T3 [T4 T4'] T5 T6 T7 T8].
  rewrite Hid in T1, T2, T3. rewrite Hallow in T6.
  pose proof (enriched_event_time s (id_code_hash (df_identity d)) run ts Hiso) as Hev. fold out in Hev.
  assert (match id_code_hash (df_identity d) with
          | Some h => negb (bool_decide (code_hash_from out = Some h))
          | None => false
          end = false) as Hcode.
  { pose proof (enriched_code_hash s (id_code_hash (df_identity d)) run ts) as Hc. fold out in Hc. clearbody out.
    destruct (id_code_hash (df_identity d)); [|done]. by rewrite bool_decide_eq_true_2. }
  split.
  - unfold validate_signal, raise_if. rewrite bool_decide_eq_true_2 by by apply run_mode_simulated. cbn [negb rbind].
    rewrite Hlook. unfold runtime_directory. change (sg_strategy_id out) with (sg_strategy_id s). rewrite T1, Hd.
    cbn [sd_enabled sd_version sd_config_hash sd_code_hash sd_instruments].
    rewrite Hen. change (sg_strategy_version out) with (sg_strategy_version s). rewrite T2, String.eqb_refl.
    change (sg_strategy_config_hash out) with (sg_strategy_config_hash s). rewrite T3, String.eqb_refl.
    unfold out at 1. unfold enrich at 1. cbn [sg_metadata]. rewrite lookup_insert_eq. cbn [negb rbind reject_signal raise_if].
    rewrite Hcode. change (sg_confidence out) with (sg_confidence s). rewrite T4, T4'.
    change (sg_timestamp out) with (sg_timestamp s).
    change (sg_instrument_id out) with (sg_instrument_id s).
    assert (dt_aware (sg_timestamp s) = true) as Hsts.
    { unfold dt_comparable in T7. rewrite Hts in T7. by destruct (dt_aware (sg_timestamp s)). }
    rewrite Hsts. unfold dt_gt. rewrite Hev. rewrite !dt_cmp_aware by done. unfold DEFAULT_SKEW in *.
    assert (dt_instant (sg_timestamp s) >? dt_instant (dt_add now1 (se_future_skew se)) = false) as ->.
    { simpl. rewrite Z.gtb_ltb. apply Z.ltb_ge. lia. }
    cbn [rbind]. rewrite !dt_cmp_aware by done.
    assert (dt_instant ts >? dt_instant (dt_add now2 (se_future_skew se)) = false) as ->.
    { simpl. rewrite Z.gtb_ltb. apply Z.ltb_ge. lia. }
    destruct (df_instruments d) as [|x xs]; [|rewrite bool_decide_eq_true_2 by done]; done.
  - unfold compute_signal_identity_key. rewrite Hev. done.
Qed.
End ToSignalEngine.

(** What the reference strategy does on a candle that it survives: the close is
    recorded, and nothing is emitted before [slow_period + 1] closes, one signal
    of the context's identity for the candle's instrument and time after. *)
Theorem sma_on_candle_spec uuid4 candle (c c' : StrategyContext (option (list decimal))) :
  sma_on_candle uuid4 candle c = (Ok tt, c') ->
  kx_state c' = Some (default [] (kx_state c) ++ [cd_close_price candle]) /\
  (kx_emitted c' = kx_emitted c \/
   exists s, kx_emitted c' = kx_emitted c ++ [s] /\ sg_timestamp s = cd_candle_start candle /\
     sg_instrument_id s = cd_instrument_id candle /\ sg_strategy_id s = kx_strategy_id c /\
     sg_strategy_version s = kx_strategy_version c /\ sg_strategy_config_hash s = kx_strategy_config_hash c).
Proof.
  unfold sma_on_candle, bind, gets, lift, id. intros E.
  destruct (int_of_pyval _) as [fast|]; [|done]. destruct (int_of_pyval _) as [slow|]; [|done].
  unfold modify in E. destruct (_ <? slow + 1); [injection E as <-; auto|].
  do 4 (destruct (average_now _ _); [|done]).
  destruct (mk_StrategySignal _) as [s|] eqn:Hs; [|done].
  unfold mk_StrategySignal in Hs. res_inv.
  unfold emit_signal, bind, gets, lift, id, modify in E. repeat (destruct (raise_if _ _ _); [|done]).
  injection E as <-. split; [done|]. right. eexists. split; [reflexivity|done].
Qed.

Module StrategySample.
Open Scope string_scope.

Definition settings : metadata := {[ "fast_period" := PInt 1; "slow_period" := PInt 2 ]}.
Definition settings_hash : string := Eval vm_compute in compute_config_hash settings.

Definition identity : StrategyIdentity :=
  {| id_strategy_id := 7; id_code := "sma"; id_name := "SMA cross"; id_version := "1.0";
     id_config_hash := settings_hash; id_code_hash := Some "code"; id_created_at := None |}.

Definition definition : StrategyDefinition (option (list decimal)) :=
  {| df_identity := identity; df_factory := Ok (SmaCrossStrategy N.of_nat); df_enabled := true;
     df_instruments := [3%N]; df_timeframes := []; df_config := settings |}.

Definition candle_of (at_ close : Z) : MarketCandle :=
  {| cd_instrument_id := 3; cd_exchange := "NSE"; cd_symbol := "INFY"; cd_timeframe := ONE_MINUTE;
     cd_candle_start := utc at_; cd_open_price := dec_of_Z close; cd_high_price := dec_of_Z close;
     cd_low_price := dec_of_Z close; cd_close_price := dec_of_Z close; cd_volume := None; cd_source_broker := "paper";
     cd_generated_at := utc at_ |}.
Definition candle (at_ close : Z) : strategy_event := ev_candle (candle_of at_ close).

Definition rc : StrategyRuntimeConfig :=
  {| rc_clock := fun n => utc (1000000000 + Z.of_nat n); rc_uuid4 := fun n => (900 + N.of_nat n)%N |}.

Abbreviation RW := (StrategyRuntime (option (list decimal))).

(** Registered and started, two candles seen. *)
Definition sched (l late : list UUID) : Schedule := {| sched_collected := l; sched_late := late |}.
Definition warm_up : M RW UUID :=
  runtime_register definition ;*
  let* run := runtime_start rc 7 "PAPER" None in
  runtime_on_event rc (candle 60000000 12) (sched [7%N] []) ;*
  runtime_on_event rc (candle 120000000 10) (sched [7%N] []) ;*
  ret run.
Definition warm : RW := snd (warm_up new_runtime).

Example warmed_up : fst (warm_up new_runtime) = Ok 901%N.
Proof. vm_compute. reflexivity. Qed.

(** The third candle crosses: one BUY, enriched with the run. *)
Example crossing : match fst (runtime_on_event rc (candle 180000000 13) (sched [7%N] []) warm) with
  | Ok [s] => sg_action s = BUY /\ code_hash_from s = Some "code" /\ parse_run_id (run_id_from s) = Some 901%N
  | _ => False
  end.
Proof. vm_compute. done. Qed.

(** A callback that completes after the wait and before its test: the signal is
    recorded as seen and never passed on, also when the event comes again. *)
Example late_signal_lost :
  let '(r1, w1) := runtime_on_event rc (candle 180000000 13) (sched [] [7%N]) warm in
  r1 = Ok [] /\ rw_fanned_out w1 = rw_fanned_out warm /\
  option_map (fun i => (ii_state i, List.length (ii_seen i))) (by_id 7%N (rw_instances w1)) = Some (run_RUNNING, 1%nat).
Proof. vm_compute. done. Qed.

(** A callback that is still pending is failed. *)
Example pending_fails :
  let '(r1, w1) := runtime_on_event rc (candle 180000000 13) (sched [] []) warm in
  r1 = Ok [] /\ option_map (fun i => (ii_state i, ii_fail_reason i)) (by_id 7%N (rw_instances w1))
                = Some (run_FAILED, Some "callback_timeout").
Proof. vm_compute. done. Qed.

(** *** Witnesses *)

(** A new instance, and what the steps of its life make of it. *)
Definition fresh : StrategyInstance (option (list decimal)) :=
  {| ii_identity := identity; ii_strategy := SmaCrossStrategy N.of_nat; ii_state := run_CREATED; ii_initialized := false;
     ii_fail_reason := None; ii_seen := [];
     ii_context := {| kx_strategy_id := 7; kx_strategy_version := "1.0"; kx_strategy_config_hash := settings_hash;
                      kx_config := settings; kx_state := None; kx_emitted := [] |};
     ii_allowed_instruments := Some [3%N] |}.

Lemma fresh_run : mk_StrategyInstance definition (SmaCrossStrategy N.of_nat) None = Ok fresh.
Proof.
  unfold mk_StrategyInstance. cbn [df_config default definition].
  replace (compute_config_hash settings) with settings_hash by (vm_compute; reflexivity).
  reflexivity.
Qed.

Abbreviation IW := (InstanceWorld (option (list decimal))).
Definition third : strategy_event := candle 180000000 13.
Definition world0 : IW := {| iw_instance := fresh; iw_metrics := ∅ |}.
Definition world1 : IW := snd (instance_initialize world0).
Definition world2 : IW := snd (instance_start world1).
Definition world3 : IW := snd (on_event (candle 60000000 12) world2).
Definition world4 : IW := snd (on_event (candle 120000000 10) world3).
Definition final : IW := snd (on_event third world4).
Definition bought : StrategySignal := Eval vm_compute in
  match fst (on_event third world4) with
  | Ok [s] => s
  | _ => enrich (sma_signal (ii_context fresh) 0 (candle_of 0 0) HOLD 1 2) None None (utc 0)
  end.

Lemma run_of {S A} (m : M S A) w r : fst (m w) = r -> m w = (r, snd (m w)).
Proof. intros <-. apply surjective_pairing. Qed.

Lemma lived : rtc instance_step (world0, []) (final, [(bought, utc 180000000)]).
Proof.
  eapply rtc_l; [eapply (step_operation _ world0 (Ok tt) world1); [exact op_initialize|apply run_of; vm_compute; reflexivity]|].
  eapply rtc_l; [eapply (step_operation _ world1 (Ok tt) world2); [exact op_start|apply run_of; vm_compute; reflexivity]|].
  eapply rtc_l; [eapply (step_accept (candle 60000000 12) world2 [] world3); apply run_of; vm_compute; reflexivity|].
  eapply rtc_l; [eapply (step_accept (candle 120000000 10) world3 [] world4); apply run_of; vm_compute; reflexivity|].
  eapply rtc_l; [eapply (step_accept third world4 [bought] final); apply run_of; vm_compute; reflexivity|].
  apply rtc_refl.
Qed.

Lemma traceable_witness : sg_action bought = BUY /\ sg_strategy_config_hash bought = settings_hash /\
  traceable identity (Some [3%N]) (utc 180000000) bought.
Proof.
  split; [reflexivity|]. split; [reflexivity|].
  destruct (accepted_signals_traceable_once fresh ∅ final [(bought, utc 180000000)] eq_refl lived) as [H _].
  exact (Forall_inv H).
Defined.

Lemma warm_keys : fst <$> rw_instances warm = [7%N].
Proof. vm_compute. reflexivity. Qed.

Lemma isolated_witness :
  sg_action <$> mjoin (contribution third warm <$> filter (fun u => u ∈ matching warm third) [7%N]) = [BUY] /\
  exists w', runtime_on_event rc third (sched [7%N] []) warm =
    (Ok (mjoin (contribution third warm <$> filter (fun u => u ∈ matching warm third) [7%N])), w') /\
  by_id 7%N (rw_instances w') = outcome third (sched [7%N] []) warm 7%N.
Proof.
  split; [vm_compute; reflexivity|].
  destruct (strategies_isolated rc third (sched [7%N] []) warm) as (w' & H1 & _ & H2 & _).
  - rewrite warm_keys. apply NoDup_singleton.
  - apply NoDup_singleton.
  - vm_compute. reflexivity.
  - exists w'. split; [exact H1|exact (H2 7%N)].
Defined.

Definition registered : RW := snd (runtime_register definition new_runtime).
Definition started : RW := snd (runtime_start rc 7 "PAPER" None registered).

Lemma started_registry : rw_registry started = rw_registry registered.
Proof.
  unfold started. set (P := fun w : RW => rw_registry w = rw_registry registered).
  enough (preserves P (runtime_start rc 7 "PAPER" None)) as H by exact (H registered eq_refl).
  unfold runtime_start. repeat (apply preserves_bind; [auto with pres|intros ?]); try by apply preserves_modify.
  all: intros w Hw; first [done|unfold on_instance; by destruct (bind _ _ _)].
Qed.

Lemma started_reachable : rtc (runtime_step rc) new_runtime started.
Proof.
  eapply rtc_l; [exists unit, (runtime_register definition); split; [apply ro_register|reflexivity]|].
  eapply rtc_once. exists UUID, (runtime_start rc 7 "PAPER" None). split; [apply ro_start|reflexivity].
Qed.

Lemma well_formed_witness : runtime_wf started /\ rn_trading_mode <$> by_id 7%N (rw_runs started) = Some sm_PAPER /\
  exists d, registry_get_by_code (rw_registry started) "sma" = Ok d /\
            registry_get (rw_registry started) (id_strategy_id (df_identity d)) = Ok d.
Proof.
  destruct (runtime_well_formed rc started started_reachable) as [H1 H2]. split; [exact H1|].
  split; [vm_compute; reflexivity|]. 
  assert (registry_get_by_code (rw_registry started) "sma" = Ok definition) as E.
  { rewrite started_registry. reflexivity. }
  exists definition. split; [exact E|].
  specialize (H2 "sma"). rewrite E in H2. exact (proj2 H2).
Defined.

Definition iso (text : string) : res datetime :=
  if String.eqb text (isoformat (utc 180000000)) then Ok (utc 180000000) else raise ValueError "Invalid isoformat string".

Definition directory : SignalEngineConfig :=
  {| se_lookup := runtime_directory (rw_registry started); se_clock := fun n => utc (180000000 + Z.of_nat n);
     se_uuid4 := N.of_nat; se_future_skew := 5000000; se_max_signal_age := None; se_maxsize := 100000 |}.

Lemma started_wf : runtime_wf started.
Proof.
  unfold started, registered. eapply runtime_operation_wf; [apply (ro_start rc)|].
  eapply runtime_operation_wf; [apply (ro_register rc)|apply new_runtime_wf].
Qed.

Lemma downstream_witness : exists out, sg_action out = BUY /\
  validate_signal iso directory out (run_mode started out) (utc 180000000) (utc 180000001) = Ok tt /\
  compute_signal_identity_key iso out = Ok (signal_dedup_key bought (utc 180000000)).
Proof.
  exists (enrich bought (Some "code") (Some 901%N) (utc 180000000)). split; [reflexivity|].
  apply (fanned_out_signals_accepted iso directory started definition (SmaCrossStrategy N.of_nat) None fresh ∅ final [(bought, utc 180000000)]).
  - exact started_wf.
  - rewrite started_registry. reflexivity.
  - reflexivity.
  - exact fresh_run.
  - exact lived.
  - apply list_elem_of_here.
  - intros u. reflexivity.
  - vm_compute. discriminate.
  - unfold iso. rewrite String.eqb_refl. reflexivity.
  - reflexivity.
  - reflexivity.
  - vm_compute. discriminate.
  - reflexivity.
  - vm_compute. discriminate.
Defined.
End StrategySample.
