(* ===== verification/Broker.v ===== *)
(** The broker integration layer (services/broker_adapters/alpha_algo_broker_integration):
    errors.py, contracts.py, mapping.py, events.py, ratelimit.py, connection.py,
    transport.py and base.py.

    The adapter of one broker is an instance of the class [Provider]: its
    requests, parsers and error mapping.  The network is the class [Transport],
    on which no law is assumed.  The adapter of base.py is a computation on
    [BrokerWorld]: transport, connection, session, buckets of the rate limiter.
    Everything runs in one task; a caller that loses patience cancels it, so the
    polling loop of the rate limiter ends with [CancelledError] after
    [bc_patience] polls.  Rates and the monotonic clock, floats in the code, are
    rationals; the back-off between attempts only waits and is left out. *)

From stdpp Require Import base list strings gmap.
From Stdlib Require Import ZArith QArith Lqa Lia String Ascii.
From S2P Require Import Prelude PyBase Hashing Decimal DecimalText Float64 Service Reconciliation.
Open Scope Z_scope.

(** * errors.py *)

Definition broker_class_value (c : BrokerErrorClass) : string :=
  match c with
  | bx_AUTHENTICATION => "AUTHENTICATION" | bx_AUTHORIZATION => "AUTHORIZATION" | bx_RATE_LIMIT => "RATE_LIMIT"
  | bx_VALIDATION => "VALIDATION" | bx_ORDER_REJECTED => "ORDER_REJECTED" | bx_TIMEOUT => "TIMEOUT"
  | bx_NETWORK => "NETWORK" | bx_PROVIDER_UNAVAILABLE => "PROVIDER_UNAVAILABLE" | bx_NOT_FOUND => "NOT_FOUND"
  | bx_UNSUPPORTED => "UNSUPPORTED" | bx_DUPLICATE => "DUPLICATE" | bx_UNKNOWN => "UNKNOWN"
  end.

Definition RETRYABLE : list BrokerErrorClass :=
  [bx_RATE_LIMIT; bx_TIMEOUT; bx_NETWORK; bx_PROVIDER_UNAVAILABLE].

(** [BrokerError(error_class, message)]; [retryable] follows from the class. *)
Definition broker_error (c : BrokerErrorClass) (msg : string) : exn := mk_exn (BrokerError c None None) msg.
Definition is_safe_to_retry (c : BrokerErrorClass) : bool := bool_decide (c ∈ RETRYABLE).

(** [isinstance(exc, BrokerError)], with its class *)
Definition broker_error_class (e : exn) : option BrokerErrorClass :=
  match exn_cls e with BrokerError c _ _ => Some c | _ => None end.

(** * contracts.py *)

Inductive BrokerName := ZERODHA | UPSTOX | ANGEL_ONE.
Inductive ConnectionState := DISCONNECTED | CONNECTING | CONNECTED | DEGRADED | RECONNECTING.
Inductive BrokerMode := bm_BACKTEST | bm_PAPER | bm_LIVE.      (* TradingMode *)
Inductive BrokerSide := bs_BUY | bs_SELL.                      (* OrderSide *)
Inductive UniversalOrderType := ot_MARKET | ot_LIMIT | ot_STOP | ot_STOP_LIMIT.
Inductive UniversalProductType := CNC | MIS | NRML.
Inductive BrokerOrderStatus :=
| st_SUBMISSION_REQUESTED | st_BROKER_ACKNOWLEDGED | st_OPEN | st_PENDING | st_PARTIALLY_FILLED | st_FILLED
| st_CANCELLED | st_REJECTED | st_UNKNOWN.
Inductive OrderValidity := DAY | IOC | GTC.

#[export] Instance ConnectionState_eq_dec : EqDecision ConnectionState.
Proof. solve_decision. Defined.
#[export] Instance BrokerMode_eq_dec : EqDecision BrokerMode.
Proof. solve_decision. Defined.
#[export] Instance BrokerOrderStatus_eq_dec : EqDecision BrokerOrderStatus.
Proof. solve_decision. Defined.

Definition broker_side_value (s : BrokerSide) : string := match s with bs_BUY => "BUY" | bs_SELL => "SELL" end.
Definition order_type_text (t : UniversalOrderType) : string :=
  match t with ot_MARKET => "MARKET" | ot_LIMIT => "LIMIT" | ot_STOP => "STOP" | ot_STOP_LIMIT => "STOP_LIMIT" end.
Definition product_type_value (p : UniversalProductType) : string :=
  match p with CNC => "CNC" | MIS => "MIS" | NRML => "NRML" end.
Definition validity_value (v : OrderValidity) : string := match v with DAY => "DAY" | IOC => "IOC" | GTC => "GTC" end.

Record BrokerCapabilities := {
  cp_broker_name : BrokerName;
  cp_supports_order_submission : bool;
  cp_supports_modify : bool;
  cp_supports_cancel : bool;
  cp_supports_positions : bool;
  cp_supports_holdings : bool;
  cp_supports_funds : bool;
  cp_supports_live_trading : bool;
  cp_supported_exchanges : list string;
  cp_supported_order_types : list string;
  cp_supported_products : list string;
  cp_supported_modes : list string;
}.

Record BrokerCredentialsRef := {
  cr_broker_name : BrokerName;
  cr_account_identifier : string;
  cr_secret_ref : string;
}.

Record BrokerSessionState := {
  ses_broker_name : BrokerName;
  ses_account_identifier : string;
  ses_connected : bool;
  ses_authenticated : bool;
  ses_checked_at : datetime;
  ses_expires_at : option datetime;
  ses_state : ConnectionState;
}.

Record BrokerOrderRequest := {
  rq_broker_account_id : UUID;
  rq_instrument_id : UUID;
  rq_client_order_id : string;
  rq_side : BrokerSide;
  rq_order_type : UniversalOrderType;
  rq_product_type : UniversalProductType;
  rq_quantity : Z;
  rq_trading_mode : BrokerMode;
  rq_exchange : string;
  rq_symbol : string;
  rq_validity : OrderValidity;
  rq_limit_price : option decimal;
  rq_stop_price : option decimal;
  rq_risk_approval_id : string;
}.

(** ** Values of a JSON document

    An object is the list of its items.  [VFloat d] is the double nearest to
    [d]; one that was received is given by the decimal its [repr] shows. *)
Inductive jv :=
| VNone
| VBool (b : bool)
| VInt (z : Z)
| VFloat (d : decimal)
| VStr (s : string)
| VList (l : list jv)
| VDict (d : list (string * jv)).

Record BrokerOrderResponse := {
  rp_status : BrokerOrderStatus;
  rp_client_order_id : string;
  rp_broker_order_id : option string;
  rp_message : jv;                       (* what the provider sent, None by default *)
  rp_error_code : option string;
  rp_timestamp : option datetime;
  rp_correlation_id : option string;
  rp_filled_quantity : decimal;
  rp_average_price : option decimal;
  rp_raw_reference : option string;
}.

Record BrokerHoldingSnapshot := {
  bhs_broker_account_id : UUID;
  bhs_instrument_id : UUID;
  bhs_quantity : decimal;
  bhs_average_price : option decimal;
  bhs_exchange : string;
  bhs_symbol : string;
  bhs_captured_at : option datetime;
}.

(** * mapping.py *)

Inductive InstrumentSecurityType := EQUITY | FUTURE | OPTION | INDEX.

Record BrokerInstrument := {
  bi_internal_instrument_id : UUID;
  bi_exchange : string;
  bi_symbol : string;
  bi_broker_token : string;
  bi_instrument_key : string;
  bi_security_type : InstrumentSecurityType;
  bi_expiry : option string;
  bi_strike : option decimal;
  bi_option_type : option string;
  bi_lot_size : Z;
  bi_tick_size : decimal;
}.

Definition validate_contract (i : BrokerInstrument) (exchange symbol : string) : bool :=
  String.eqb (bi_exchange i) exchange && String.eqb (bi_symbol i) symbol.

(** The dictionary of [InstrumentMapping], in insertion order. *)
Abbreviation InstrumentMapping := (list (UUID * BrokerInstrument)).

Fixpoint find_id {V} (k : UUID) (d : list (UUID * V)) : option V :=
  match d with
  | [] => None
  | (k', v) :: d' => if (k' =? k)%N then Some v else find_id k d'
  end.
Fixpoint set_id {V} (k : UUID) (v : V) (d : list (UUID * V)) : list (UUID * V) :=
  match d with
  | [] => [(k, v)]
  | (k', v') :: d' => if (k' =? k)%N then (k', v) :: d' else (k', v') :: set_id k v d'
  end.

Definition mapping_register (i : BrokerInstrument) (m : InstrumentMapping) : InstrumentMapping :=
  set_id (bi_internal_instrument_id i) i m.

Definition mapping_resolve (m : InstrumentMapping) (instrument_id : UUID) (exchange symbol : string)
    : res BrokerInstrument :=
  match find_id instrument_id m with
  | None => Err (broker_error bx_VALIDATION ("no broker mapping for instrument " +:+ uuid_str instrument_id))
  | Some i =>
      if negb (validate_contract i exchange symbol) then
        Err (broker_error bx_VALIDATION "instrument mapping mismatch (exchange/symbol/contract)")
      else Ok i
  end.

Definition find_by_symbol (m : InstrumentMapping) (exchange symbol : string) : option BrokerInstrument :=
  List.find (fun i => validate_contract i exchange symbol) (snd <$> m).

Definition broker_fail (b : bool) (c : BrokerErrorClass) (msg : string) : res unit :=
  if b then Err (broker_error c msg) else Ok tt.

(** [validate_quantity]; a lot size of zero divides by zero. *)
Definition validate_quantity (quantity lot_size min_quantity : Z) (max_quantity : option Z) : res unit :=
  broker_fail (quantity <=? 0) bx_VALIDATION "quantity must be positive" ;!
  raise_if (lot_size =? 0) ZeroDivisionError "integer modulo by zero" ;!
  broker_fail (negb (quantity mod lot_size =? 0)) bx_VALIDATION
    ("quantity " +:+ str_Z quantity +:+ " is not a multiple of lot size " +:+ str_Z lot_size) ;!
  broker_fail (quantity <? min_quantity) bx_VALIDATION "quantity below minimum" ;!
  broker_fail (match max_quantity with Some m => m <? quantity | None => false end) bx_VALIDATION
    "quantity above maximum".

Definition require_supported (value : string) (supported : list string) (what : string) : res unit :=
  broker_fail (negb (bool_decide (value ∈ supported))) bx_UNSUPPORTED ("unsupported " +:+ what +:+ ": " +:+ value).

(** * events.py *)

Inductive BrokerEventType :=
| be_ORDER_UPDATE | be_TRADE | be_FILL | be_PARTIAL_FILL | be_CANCELLED | be_REJECTED | be_UNKNOWN.

#[export] Instance BrokerEventType_eq_dec : EqDecision BrokerEventType.
Proof. solve_decision. Defined.

Definition broker_event_value (t : BrokerEventType) : string :=
  match t with
  | be_ORDER_UPDATE => "ORDER_UPDATE" | be_TRADE => "TRADE" | be_FILL => "FILL" | be_PARTIAL_FILL => "PARTIAL_FILL"
  | be_CANCELLED => "CANCELLED" | be_REJECTED => "REJECTED" | be_UNKNOWN => "UNKNOWN"
  end.

Record NormalizedBrokerEvent := {
  nb_order_id : UUID;
  nb_event_type : BrokerEventType;
  nb_broker_order_id : option string;
  nb_fill_quantity : decimal;
  nb_occurred_at : datetime;
  nb_reason : string;
  nb_source_event_id : option string;
}.

Definition broker_event_identity (e : NormalizedBrokerEvent) : string :=
  match nb_source_event_id e with
  | Some (String _ _ as source) => uuid_str (nb_order_id e) +:+ ":" +:+ source
  | _ => sha256_hex (json_default
           [("order_id"%string, JStr (uuid_str (nb_order_id e)));
            ("type"%string, JStr (broker_event_value (nb_event_type e)));
            ("broker_order_id"%string, json_opt_str (nb_broker_order_id e));
            ("fill_quantity"%string, JStr (dec_str (nb_fill_quantity e)))])
  end.

Definition broker_event_hash (e : NormalizedBrokerEvent) : string :=
  sha256_hex (json_default
    [("type"%string, JStr (broker_event_value (nb_event_type e)));
     ("broker_order_id"%string, json_opt_str (nb_broker_order_id e));
     ("fill_quantity"%string, JStr (dec_str (nb_fill_quantity e)));
     ("reason"%string, JStr (nb_reason e))]).

(** The table of [EventDeduplicator]: identity to content hash. *)
Definition event_seen (seen : gmap string string) (e : NormalizedBrokerEvent) : bool :=
  bool_decide (is_Some (seen !! broker_event_identity e)).

Definition event_apply (e : NormalizedBrokerEvent) : M (gmap string string) bool :=
  let* seen := gets id in
  let identity := broker_event_identity e in
  let content := broker_event_hash e in
  match seen !! identity with
  | Some existing =>
      if negb (String.eqb existing content) then
        throw DuplicateEventError ("event identity conflict for " +:+ identity)
      else ret false
  | None => modify (fun seen => <[identity := content]> seen) ;* ret true
  end.

(** * ratelimit.py *)

Inductive RateLimitScope := ORDERS | QUOTES | ACCOUNT | AUTH.

#[export] Instance RateLimitScope_eq_dec : EqDecision RateLimitScope.
Proof. solve_decision. Defined.

Record RateLimitPolicy := {
  pl_scope : RateLimitScope;
  pl_requests_per_second : Q;
  pl_burst : Z;
}.

Record TokenBucket := {
  tb_rate : Q;
  tb_burst : Z;
  tb_tokens : Q;
  tb_last : Q;
}.

(** [TokenBucket(rate_per_second, burst)] at the time [now]; rates, times and
    tokens are floats *)
Definition new_bucket (rate : Q) (burst : Z) (now : Q) : TokenBucket :=
  let b := Z.max 1 burst in {| tb_rate := rate; tb_burst := b; tb_tokens := float_of_int b; tb_last := now |}.

(** [acquire] at the time [now].  [min] answers the [int] burst unless the other
    argument is smaller, and [-= 1.0] converts it. *)
Definition acquire (now : Q) (b : TokenBucket) : bool * TokenBucket :=
  let filled := fadd (tb_tokens b) (fmul (fsub now (tb_last b)) (tb_rate b)) in
  let capped := Qle_bool (inject_Z (tb_burst b)) filled in
  let tokens := if capped then inject_Z (tb_burst b) else filled in
  let set t := {| tb_rate := tb_rate b; tb_burst := tb_burst b; tb_tokens := t; tb_last := now |} in
  if Qle_bool 1 tokens
  then (true, set (fsub (if capped then float_of_int (tb_burst b) else filled) 1))
  else (false, set tokens).

Abbreviation RateLimiter := (list (RateLimitScope * TokenBucket)).

Fixpoint bucket_of (s : RateLimitScope) (l : RateLimiter) : option TokenBucket :=
  match l with
  | [] => None
  | (s', b) :: l' => if decide (s' = s) then Some b else bucket_of s l'
  end.
Fixpoint set_bucket (s : RateLimitScope) (b : TokenBucket) (l : RateLimiter) : RateLimiter :=
  match l with
  | [] => [(s, b)]
  | (s', b') :: l' => if decide (s' = s) then (s', b) :: l' else (s', b') :: set_bucket s b l'
  end.

(** [add(policy)] at the time [now] *)
Definition limiter_add (p : RateLimitPolicy) (now : Q) (l : RateLimiter) : RateLimiter :=
  set_bucket (pl_scope p) (new_bucket (pl_requests_per_second p) (pl_burst p) now) l.

(** [check(scope)] at the time [now] *)
Definition limiter_check (s : RateLimitScope) (now : Q) (l : RateLimiter) : bool * RateLimiter :=
  match bucket_of s l with
  | None => (true, l)
  | Some b => let '(ok, b') := acquire now b in (ok, set_bucket s b' l)
  end.

(** * transport.py *)

Record TransportResponse := {
  tp_status_code : Z;
  tp_body : option (list (string * jv));
  tp_text : option string;
  tp_headers : list (string * string);
}.

Definition resp_ok (r : TransportResponse) : bool := (200 <=? tp_status_code r) && (tp_status_code r <? 300).

(** [BrokerHttpTransport]: method, path, params, json, headers. *)
Class Transport (T : Type) := {
  request : string -> string -> option (list (string * jv)) -> option (list (string * jv)) ->
            list (string * string) -> M T TransportResponse;
}.

(** [FakeTransport]: the calls made, scripted responses, the default one. *)
Record FakeTransport := {
  fk_calls : list (string * string * option (list (string * jv)) * option (list (string * jv)));
  fk_responses : list (string * string * TransportResponse);
  fk_default : TransportResponse;
}.

Definition fk_script (method path : string) (r : TransportResponse) (t : FakeTransport) : FakeTransport :=
  {| fk_calls := fk_calls t; fk_responses := (py_upper method, path, r) :: fk_responses t; fk_default := fk_default t |}.

Definition fk_request (method path : string) (params json : option (list (string * jv)))
    (headers : list (string * string)) : M FakeTransport TransportResponse :=
  modify (fun t => {| fk_calls := fk_calls t ++ [(py_upper method, path, params, json)];
                      fk_responses := fk_responses t; fk_default := fk_default t |}) ;*
  gets (fun t => match List.find (fun x => String.eqb (fst (fst x)) (py_upper method) && String.eqb (snd (fst x)) path)
                         (fk_responses t) with
                 | Some x => snd x
                 | None => fk_default t
                 end).

#[export] Instance FakeTransport_transport : Transport FakeTransport := {| request := fk_request |}.

(** * The state of an adapter *)

(** [BaseBrokerAdapter.__init__] and the adapters' own attributes: [_api_key]
    and the token ([_access_token], [_jwt_token]). *)
Record BrokerWorld (T : Type) := {
  bw_transport : T;
  bw_mapping : InstrumentMapping;
  bw_limiter : RateLimiter;
  bw_state : ConnectionState;
  bw_reconnects : Z;
  bw_last_change : option datetime;
  bw_session : option BrokerSessionState;
  bw_credentials : option BrokerCredentialsRef;
  bw_api_key : option string;
  bw_token : jv;
  bw_tick : nat;
}.
Arguments bw_transport {T} _.
Arguments bw_mapping {T} _.
Arguments bw_limiter {T} _.
Arguments bw_state {T} _.
Arguments bw_reconnects {T} _.
Arguments bw_last_change {T} _.
Arguments bw_session {T} _.
Arguments bw_credentials {T} _.
Arguments bw_api_key {T} _.
Arguments bw_token {T} _.
Arguments bw_tick {T} _.

Record BrokerConfig := {
  bc_capabilities : BrokerCapabilities;
  bc_account_reference : string;
  bc_max_attempts : Z;                                        (* of the retry policy *)
  bc_global_halt_active : option (nat -> bool);
  bc_credential_resolver : option (string -> res (list (string * string)));
  bc_broker_account_id : UUID;
  bc_order_id_resolver : option (string -> res (option UUID));
  bc_clock : nat -> datetime;
  bc_monotonic : nat -> Q;
  bc_patience : nat;
}.

Section World.
Context {T : Type}.
Abbreviation BW := (BrokerWorld T).

Definition bw_set (transport : T) (limiter : RateLimiter) (tick : nat) (w : BW) : BW :=
  {| bw_transport := transport; bw_mapping := bw_mapping w; bw_limiter := limiter; bw_state := bw_state w;
     bw_reconnects := bw_reconnects w; bw_last_change := bw_last_change w; bw_session := bw_session w;
     bw_credentials := bw_credentials w; bw_api_key := bw_api_key w; bw_token := bw_token w; bw_tick := tick |}.

Definition bw_connection (state : ConnectionState) (reconnects : Z) (last_change : option datetime)
    (session : option BrokerSessionState) (credentials : option BrokerCredentialsRef) (w : BW) : BW :=
  {| bw_transport := bw_transport w; bw_mapping := bw_mapping w; bw_limiter := bw_limiter w; bw_state := state;
     bw_reconnects := reconnects; bw_last_change := last_change; bw_session := session;
     bw_credentials := credentials; bw_api_key := bw_api_key w; bw_token := bw_token w; bw_tick := bw_tick w |}.

Definition bw_auth (api_key : option string) (token : jv) (w : BW) : BW :=
  {| bw_transport := bw_transport w; bw_mapping := bw_mapping w; bw_limiter := bw_limiter w; bw_state := bw_state w;
     bw_reconnects := bw_reconnects w; bw_last_change := bw_last_change w; bw_session := bw_session w;
     bw_credentials := bw_credentials w; bw_api_key := api_key; bw_token := token; bw_tick := bw_tick w |}.

(** A call of an injected function. *)
Definition bw_call {A} (f : nat -> A) : M BW A :=
  fun w => (Ok (f (bw_tick w)), bw_set (bw_transport w) (bw_limiter w) (S (bw_tick w)) w).

Definition bw_request `{Transport T} (method path : string) (params json : option (list (string * jv)))
    (headers : list (string * string)) : M BW TransportResponse :=
  zoom bw_transport (fun t w => bw_set t (bw_limiter w) (bw_tick w) w) (request method path params json headers).
End World.

(** What a concrete adapter supplies to [BaseBrokerAdapter]. *)
Class Provider (T : Type) := {
  authenticate : BrokerCredentialsRef -> M (BrokerWorld T) BrokerSessionState;
  do_submit : list (string * jv) -> M (BrokerWorld T) TransportResponse;
  do_modify : list (string * jv) -> string -> M (BrokerWorld T) TransportResponse;
  do_cancel : string -> M (BrokerWorld T) TransportResponse;
  do_get_order : string -> M (BrokerWorld T) TransportResponse;
  do_get_orders : M (BrokerWorld T) TransportResponse;
  do_get_trades : M (BrokerWorld T) TransportResponse;
  do_get_positions : M (BrokerWorld T) TransportResponse;
  do_get_holdings : M (BrokerWorld T) TransportResponse;
  do_get_funds : M (BrokerWorld T) TransportResponse;
  build_order_payload : BrokerOrderRequest -> M (BrokerWorld T) (list (string * jv));
  build_modify_payload : BrokerOrderRequest -> string -> M (BrokerWorld T) (list (string * jv));
  parse_order_response : TransportResponse -> option BrokerOrderRequest -> M (BrokerWorld T) BrokerOrderResponse;
  parse_cancel_response : TransportResponse -> string -> M (BrokerWorld T) BrokerOrderResponse;
  parse_orders_response : TransportResponse -> M (BrokerWorld T) (list BrokerOrderResponse);
  parse_positions_response : TransportResponse -> M (BrokerWorld T) (list BrokerPositionSnapshot);
  parse_holdings_response : TransportResponse -> M (BrokerWorld T) (list BrokerHoldingSnapshot);
  parse_funds_response : TransportResponse -> M (BrokerWorld T) BrokerFundsSnapshot;
  map_error : TransportResponse -> res exn;
}.

Section Base.
Context {T : Type} `{Provider T} (bc : BrokerConfig).
Abbreviation BW := (BrokerWorld T).

(** ** ratelimit.py: [throttle] *)

Fixpoint throttle_loop (patience : nat) (scope : RateLimitScope) : M BW unit :=
  match patience with
  | O => throw CancelledError ""
  | S n =>
      let* now := bw_call (bc_monotonic bc) in
      let* w := gets id in
      let '(ok, limiter) := limiter_check scope now (bw_limiter w) in
      modify (fun w => bw_set (bw_transport w) limiter (bw_tick w) w) ;*
      if (ok : bool) then ret tt else throttle_loop n scope
  end.

Definition throttle (scope : RateLimitScope) : M BW unit :=
  let* w := gets id in
  match bucket_of scope (bw_limiter w) with
  | None => ret tt
  | Some _ => throttle_loop (bc_patience bc) scope
  end.

(** ** connection.py *)

Definition set_state (s : ConnectionState) : M BW unit :=
  modify (fun w => bw_connection s (bw_reconnects w) (bw_last_change w) (bw_session w) (bw_credentials w) w).

Definition connection_transition (s : ConnectionState) : M BW unit :=
  let* w := gets id in
  if bool_decide (s = bw_state w) then ret tt
  else
    set_state s ;*
    let* now := bw_call (bc_clock bc) in
    modify (fun w => bw_connection (bw_state w) (bw_reconnects w) (Some now) (bw_session w) (bw_credentials w) w).

(** The attempts of [ConnectionStateMachine.reconnect] that are left. *)
Fixpoint reconnect_loop (attempts : nat) (connect_fn : M BW unit) : M BW unit :=
  match attempts with
  | O => set_state DEGRADED
  | S n =>
      try_except
        (connect_fn ;*
         modify (fun w => bw_connection (bw_state w) (bw_reconnects w + 1) (bw_last_change w) (bw_session w)
                            (bw_credentials w) w) ;*
         set_state CONNECTED)
        (fun exc => match broker_error_class exc with
                    | Some _ => Some (reconnect_loop n connect_fn)
                    | None => None
                    end)
  end.

Definition machine_reconnect (connect_fn : M BW unit) : M BW unit :=
  set_state RECONNECTING ;* reconnect_loop (Z.to_nat (bc_max_attempts bc)) connect_fn.

Definition is_recoverable (c : BrokerErrorClass) : bool :=
  bool_decide (c ∈ [bx_NETWORK; bx_TIMEOUT; bx_PROVIDER_UNAVAILABLE; bx_RATE_LIMIT]).

(** ** base.py: guards *)

Definition guard_live (mode : BrokerMode) : M BW unit :=
  lift (broker_fail (bool_decide (mode = bm_LIVE)) bx_UNSUPPORTED "LIVE trading is disabled (fail-closed)").

Definition guard_halt : M BW unit :=
  let* active := match bc_global_halt_active bc with Some f => bw_call f | None => ret true end in
  lift (broker_fail active bx_ORDER_REJECTED "global trading halt is active; submission refused").

Definition guard_supported (r : BrokerOrderRequest) : M BW unit :=
  lift (require_supported (order_type_text (rq_order_type r)) (cp_supported_order_types (bc_capabilities bc)) "order type") ;*
  lift (require_supported (product_type_value (rq_product_type r)) (cp_supported_products (bc_capabilities bc)) "product type").

Definition guard_connection : M BW unit :=
  let* w := gets id in
  lift (broker_fail (negb (bool_decide (bw_state w = CONNECTED))) bx_NETWORK "broker not connected").

Definition unsupported (supported : bool) (msg : string) : M BW unit :=
  lift (broker_fail (negb supported) bx_UNSUPPORTED msg).

(** [if not resp.ok: raise self.map_error(resp)] *)
Definition check_response (r : TransportResponse) : M BW unit :=
  if resp_ok r then ret tt else lift (let! e := map_error r in Err e).

(** ** Connectivity *)

Definition set_session (s : option BrokerSessionState) : M BW unit :=
  modify (fun w => bw_connection (bw_state w) (bw_reconnects w) (bw_last_change w) s (bw_credentials w) w).

Definition adapter_connect (creds : BrokerCredentialsRef) : M BW BrokerSessionState :=
  connection_transition CONNECTING ;*
  modify (fun w => bw_connection (bw_state w) (bw_reconnects w) (bw_last_change w) (bw_session w) (Some creds) w) ;*
  try_except
    (let* session := authenticate creds in
     set_session (Some session) ;*
     connection_transition CONNECTED ;*
     ret session)
    (fun exc => match broker_error_class exc with
                | Some _ => Some (connection_transition DISCONNECTED ;* lift (Err exc))
                | None => None
                end).

Definition logout : M BW unit := set_session None.

Definition adapter_disconnect : M BW unit :=
  logout ;* connection_transition DISCONNECTED ;* set_session None.

Definition adapter_health (w : BW) : bool := bool_decide (bw_state w = CONNECTED).

Definition adapter_reconnect : M BW BrokerSessionState :=
  let* w := gets id in
  match bw_credentials w with
  | None => lift (Err (broker_error bx_AUTHENTICATION "no credentials to reconnect with"))
  | Some creds =>
      machine_reconnect (let* session := authenticate creds in set_session (Some session)) ;*
      let* w := gets id in
      match bw_session w with
      | Some session => ret session
      | None =>
          let* now := bw_call (bc_clock bc) in
          let* w := gets id in
          ret {| ses_broker_name := cp_broker_name (bc_capabilities bc);
                 ses_account_identifier := bc_account_reference bc; ses_connected := false;
                 ses_authenticated := false; ses_checked_at := now; ses_expires_at := None;
                 ses_state := bw_state w |}
      end
  end.

(** ** Orders *)

Definition submit_order (r : BrokerOrderRequest) : M BW BrokerOrderResponse :=
  guard_live (rq_trading_mode r) ;*
  guard_halt ;*
  guard_supported r ;*
  guard_connection ;*
  unsupported (cp_supports_order_submission (bc_capabilities bc)) "order submission not supported" ;*
  throttle ORDERS ;*
  let* payload := build_order_payload r in
  let* resp := do_submit payload in
  check_response resp ;*
  parse_order_response resp (Some r).

Definition modify_order (r : BrokerOrderRequest) (broker_order_id : string) : M BW BrokerOrderResponse :=
  guard_live (rq_trading_mode r) ;*
  guard_halt ;*
  guard_supported r ;*
  guard_connection ;*
  unsupported (cp_supports_modify (bc_capabilities bc)) "modify not supported" ;*
  throttle ORDERS ;*
  let* payload := build_modify_payload r broker_order_id in
  let* resp := do_modify payload broker_order_id in
  check_response resp ;*
  parse_order_response resp (Some r).

Definition cancel_order (broker_order_id : string) : M BW BrokerOrderResponse :=
  guard_halt ;*
  guard_connection ;*
  unsupported (cp_supports_cancel (bc_capabilities bc)) "cancel not supported" ;*
  throttle ORDERS ;*
  let* resp := do_cancel broker_order_id in
  check_response resp ;*
  parse_cancel_response resp broker_order_id.

Definition get_order (broker_order_id : string) : M BW BrokerOrderResponse :=
  guard_connection ;*
  let* resp := do_get_order broker_order_id in
  check_response resp ;*
  parse_order_response resp None.

Definition get_orders : M BW (list BrokerOrderResponse) :=
  guard_connection ;*
  let* resp := do_get_orders in check_response resp ;* parse_orders_response resp.

Definition get_trades : M BW (list BrokerOrderResponse) :=
  guard_connection ;*
  let* resp := do_get_trades in check_response resp ;* parse_orders_response resp.

(** ** Account *)

Definition get_positions : M BW (list BrokerPositionSnapshot) :=
  guard_connection ;*
  unsupported (cp_supports_positions (bc_capabilities bc)) "positions not supported" ;*
  let* resp := do_get_positions in check_response resp ;* parse_positions_response resp.

Definition get_holdings : M BW (list BrokerHoldingSnapshot) :=
  guard_connection ;*
  unsupported (cp_supports_holdings (bc_capabilities bc)) "holdings not supported" ;*
  let* resp := do_get_holdings in check_response resp ;* parse_holdings_response resp.

Definition get_funds : M BW BrokerFundsSnapshot :=
  guard_connection ;*
  unsupported (cp_supports_funds (bc_capabilities bc)) "funds not supported" ;*
  let* resp := do_get_funds in check_response resp ;* parse_funds_response resp.
End Base.

(** * Correctness *)

(** ** The event table *)

Lemma event_apply_run e seen : event_apply e seen =
  match seen !! broker_event_identity e with
  | Some c => ((if String.eqb c (broker_event_hash e) then Ok false
                else raise DuplicateEventError ("event identity conflict for " +:+ broker_event_identity e)), seen)
  | None => (Ok true, <[broker_event_identity e := broker_event_hash e]> seen)
  end.
Proof.
  unfold event_apply, bind, gets, id. destruct (seen !! broker_event_identity e); [|done]. by destruct (String.eqb _ _).
Qed.

(** Events delivered one after the other, each with its answer. *)
Fixpoint deliver (es : list NormalizedBrokerEvent) (seen : gmap string string)
    : list (NormalizedBrokerEvent * res bool) * gmap string string :=
  match es with
  | [] => ([], seen)
  | e :: es' =>
      let '(r, seen1) := event_apply e seen in
      let '(rest, seen2) := deliver es' seen1 in ((e, r) :: rest, seen2)
  end.

Definition is_new (p : NormalizedBrokerEvent * res bool) : bool :=
  match p.2 with Ok true => true | _ => false end.

(** [accepted] are the events taken so far: one per key of the table. *)
Definition table_of (accepted : list NormalizedBrokerEvent) (seen : gmap string string) : Prop :=
  NoDup (broker_event_identity <$> accepted) /\
  forall k c, seen !! k = Some c <->
    exists e, e ∈ accepted /\ broker_event_identity e = k /\ broker_event_hash e = c.

(** What the answer to [e] says, [accepted] being the events taken before. *)
Definition answer_ok (accepted : list NormalizedBrokerEvent) (e : NormalizedBrokerEvent) (r : res bool) : Prop :=
  match r with
  | Ok true => forall e0, e0 ∈ accepted -> broker_event_identity e0 <> broker_event_identity e
  | Ok false => exists e0, e0 ∈ accepted /\ broker_event_identity e0 = broker_event_identity e /\
                  broker_event_hash e0 = broker_event_hash e
  | Err x => exn_cls x = DuplicateEventError /\
      exists e0, e0 ∈ accepted /\ broker_event_identity e0 = broker_event_identity e /\
                 broker_event_hash e0 <> broker_event_hash e
  end.

Lemma event_apply_spec accepted e seen r seen' : table_of accepted seen -> event_apply e seen = (r, seen') ->
  answer_ok accepted e r /\ table_of (accepted ++ (if is_new (e, r) then [e] else [])) seen'.
Proof.
  rewrite event_apply_run. intros [Hnd Ht] E. destruct (seen !! broker_event_identity e) as [c|] eqn:Hs.
  - apply Ht in Hs as Hs'. destruct Hs' as (e0 & He0 & Hid & Hc). injection E as <- <-.
    destruct (String.eqb_spec c (broker_event_hash e)) as [Heq|Hne];
      unfold answer_ok, is_new; cbn [snd raise exn_cls mk_exn]; rewrite app_nil_r; (split; [|done]).
    + exists e0. split_and!; [done|done|by rewrite Hc].
    + split; [done|]. exists e0. split_and!; [done|done|by rewrite Hc].
  - injection E as <- <-. unfold answer_ok, is_new. cbn [snd]. assert (forall e0, e0 ∈ accepted -> broker_event_identity e0 <> broker_event_identity e) as Hnew.
    { intros e0 He0 Hid. assert (seen !! broker_event_identity e = Some (broker_event_hash e0)) as H by (apply Ht; eauto).
      congruence. }
    split; [done|]. split.
    + rewrite fmap_app, NoDup_app. split_and!; [done| |apply NoDup_singleton].
      intros k (e0 & -> & He0)%list_elem_of_fmap Hk. apply list_elem_of_singleton in Hk. by apply (Hnew e0).
    + intros k c. rewrite lookup_insert_Some. setoid_rewrite elem_of_app. setoid_rewrite list_elem_of_singleton. rewrite Ht.
      split.
      * intros [[<- <-]|[_ (e0 & ? & ? & ?)]]; [exists e; auto|exists e0; auto].
      * intros (e0 & [He0| ->] & <- & <-); [right|left; auto]. split; [intros Heq; by apply (Hnew e0)|eauto].
Qed.

Lemma deliver_spec es : forall accepted seen out seen', table_of accepted seen -> deliver es seen = (out, seen') ->
  table_of (accepted ++ (fst <$> filter (fun p => is_new p = true) out)) seen' /\
  forall out1 e r out2, out = out1 ++ (e, r) :: out2 ->
    answer_ok (accepted ++ (fst <$> filter (fun p => is_new p = true) out1)) e r.
Proof.
  induction es as [|e es IH]; intros accepted seen out seen' Ht E; simpl in E.
  - injection E as <- <-. rewrite app_nil_r. split; [done|]. intros out1 e r out2 H. by destruct out1.
  - destruct (event_apply e seen) as [r seen1] eqn:Ea. destruct (deliver es seen1) as [rest seen2] eqn:Ed.
    injection E as <- <-. destruct (event_apply_spec _ _ _ _ _ Ht Ea) as [Hans Ht1].
    destruct (IH _ _ _ _ Ht1 Ed) as [Ht2 Hrest].
    assert (forall l, accepted ++ (fst <$> filter (fun p => is_new p = true) ((e, r) :: l)) =
      (accepted ++ (if is_new (e, r) then [e] else [])) ++ (fst <$> filter (fun p => is_new p = true) l)) as Hcons.
    { intros l. rewrite filter_cons. rewrite <- app_assoc. by destruct (is_new (e, r)). }
    split; [by rewrite Hcons|]. intros out1 e' r' out2 H. destruct out1 as [|p out1].
    + injection H as <- <- _. by rewrite app_nil_r.
    + injection H as <- H. rewrite Hcons. by eapply Hrest.
Qed.

(** Broker events are taken once.  Over any sequence of deliveries to a new
    deduplicator, the events reported as new have pairwise different
    identities; an event is answered [False] exactly when an event of the same
    identity and content was taken before, and [DuplicateEventError] exactly
    when the content differs from that of the event taken before, which stays
    recorded. *)
Theorem broker_events_taken_once es out seen : deliver es ∅ = (out, seen) ->
  NoDup (broker_event_identity <$> (fst <$> filter (fun p => is_new p = true) out)) /\
  (forall out1 e r out2, out = out1 ++ (e, r) :: out2 ->
     answer_ok (fst <$> filter (fun p => is_new p = true) out1) e r) /\
  (forall e, e ∈ fst <$> filter (fun p => is_new p = true) out ->
     seen !! broker_event_identity e = Some (broker_event_hash e)).
Proof.
  intros E. destruct (deliver_spec es [] ∅ out seen) as [[Hnd Ht] Hans].
  - split; [constructor|]. intros k c. rewrite lookup_empty. split; [done|]. by intros (e & He%not_elem_of_nil & _).
  - done.
  - split_and!; [done|done|]. intros e He. apply Ht. by exists e.
Qed.

(** ** What reaches the broker *)

Section BaseFacts.
Context {T : Type} `{Provider T} (bc : BrokerConfig).
Abbreviation BW := (BrokerWorld T).

(** The conditions under which an order may be sent. *)
Record cleared (r : BrokerOrderRequest) (w : BW) : Prop := {
  cl_mode : rq_trading_mode r <> bm_LIVE;
  cl_halt : exists f, bc_global_halt_active bc = Some f /\ f (bw_tick w) = false;
  cl_type : order_type_text (rq_order_type r) ∈ cp_supported_order_types (bc_capabilities bc);
  cl_product : product_type_value (rq_product_type r) ∈ cp_supported_products (bc_capabilities bc);
  cl_connected : bw_state w = CONNECTED;
}.

(** A refusal: a broker error, and the network was not used. *)
Definition refused {A} (w : BW) (out : res A * BW) : Prop :=
  exists x c, fst out = Err x /\ broker_error_class x = Some c /\ bw_transport (snd out) = bw_transport w.

Lemma broker_fail_cases {A} b c msg (k : M BW A) (w : BW) :
  (b = true /\ (lift (broker_fail b c msg) ;* k) w = (Err (broker_error c msg), w)) \/
  (b = false /\ (lift (broker_fail b c msg) ;* k) w = k w).
Proof. destruct b; [by left|by right]. Qed.

Lemma guard_halt_cases {A} (k : M BW A) (w : BW) :
  refused w ((guard_halt bc ;* k) w) \/
  (exists f, bc_global_halt_active bc = Some f /\ f (bw_tick w) = false) /\
  (guard_halt bc ;* k) w = k (bw_set (bw_transport w) (bw_limiter w) (S (bw_tick w)) w).
Proof.
  unfold guard_halt. destruct (bc_global_halt_active bc) as [f|].
  - unfold bind, bw_call, lift, broker_fail. destruct (f (bw_tick w)) eqn:Hf.
    + left. by eexists _, _.
    + right. split; [eauto|done].
  - left. by eexists _, _.
Qed.

Lemma guard_connection_cases {A} (k : M BW A) (w : BW) :
  refused w ((guard_connection ;* k) w) \/ bw_state w = CONNECTED /\ (guard_connection ;* k) w = k w.
Proof.
  unfold guard_connection, bind, gets, id, lift, broker_fail. case_bool_decide; [by right|]. left. by eexists _, _.
Qed.

Lemma guard_supported_cases {A} r (k : M BW A) (w : BW) :
  refused w ((guard_supported bc r ;* k) w) \/
  (order_type_text (rq_order_type r) ∈ cp_supported_order_types (bc_capabilities bc) /\
   product_type_value (rq_product_type r) ∈ cp_supported_products (bc_capabilities bc)) /\
  (guard_supported bc r ;* k) w = k w.
Proof.
  unfold guard_supported, require_supported, broker_fail, bind, lift.
  case_bool_decide; [|left; by eexists _, _]. case_bool_decide; [by right|]. left. by eexists _, _.
Qed.

(** The guards in front of an order. *)
Lemma order_guards {A} r (k : M BW A) (w : BW) :
  cleared r w \/ refused w ((guard_live (rq_trading_mode r) ;* guard_halt bc ;* guard_supported bc r ;* guard_connection ;* k) w).
Proof.
  unfold guard_live at 1.
  match goal with |- context [broker_fail ?b ?c ?msg] =>
    destruct (broker_fail_cases b c msg (guard_halt bc ;* guard_supported bc r ;* guard_connection ;* k) w) as [[Hb ->]|[Hb ->]] end.
  { right. by eexists _, _. }
  apply bool_decide_eq_false in Hb.
  destruct (guard_halt_cases (guard_supported bc r ;* guard_connection ;* k) w) as [Hr|[Hh ->]]; [by right|].
  match goal with |- context [refused w (_ ?w1)] => set (w2 := w1) end.
  destruct (guard_supported_cases r (guard_connection ;* k) w2) as [Hr|[[H1 H2] ->]]; [by right|].
  destruct (guard_connection_cases k w2) as [Hr|[Hc ->]]; [by right|]. left. by constructor.
Qed.

(** C21: Nothing reaches a broker but cleared orders.  Whatever the broker's
    adapter does, [submit_order] and [modify_order] use the network only if the
    order is not a live one, a halt provider is configured and says that trading
    is not halted, order type and product are among the broker's capabilities,
    and the adapter is connected; otherwise they raise a broker error and the
    transport is as it was. *)
Theorem orders_sent_only_when_cleared r broker_order_id (w : BW) :
  cleared r w \/ (refused w (submit_order bc r w) /\ refused w (modify_order bc r broker_order_id w)).
Proof.
  unfold submit_order, modify_order.
  match goal with |- _ \/ refused w ((_ ;* _ ;* _ ;* _ ;* ?k1) w) /\ refused w ((_ ;* _ ;* _ ;* _ ;* ?k2) w) =>
    destruct (order_guards r k1 w) as [Hc|Hr1]; [by left|]; destruct (order_guards r k2 w) as [Hc|Hr2]; [by left|] end.
  by right.
Qed.

(** A halt also stops cancellations: no open order can be withdrawn. *)
Theorem halt_blocks_cancellation broker_order_id (w : BW) :
  (forall f, bc_global_halt_active bc = Some f -> f (bw_tick w) = true) -> refused w (cancel_order bc broker_order_id w).
Proof.
  intros Hh. unfold cancel_order.
  match goal with |- refused w ((_ ;* ?k) w) => destruct (guard_halt_cases k w) as [Hr|[(f & Hf & Ht) _]]; [exact Hr|] end.
  by rewrite (Hh f Hf) in Ht.
Qed.
End BaseFacts.

(** ** The rate limit *)

(** Attempts at the times [times]: the number granted, and the bucket. *)
Fixpoint attempts (times : list Q) (b : TokenBucket) : Z * TokenBucket :=
  match times with
  | [] => (0, b)
  | t :: times' =>
      let '(ok, b1) := acquire t b in
      let '(n, b2) := attempts times' b1 in ((if ok : bool then 1 else 0) + n, b2)
  end.

Fixpoint times_from (start : Q) (times : list Q) : Prop :=
  match times with [] => True | t :: times' => (start <= t)%Q /\ times_from t times' end.

Record bucket_ok (b : TokenBucket) : Prop := {
  bk_rate : (0 <= tb_rate b)%Q;
  bk_burst : 1 <= tb_burst b;
  bk_tokens : (0 <= tb_tokens b)%Q;
}.

Lemma new_bucket_ok rate burst now : (0 <= rate)%Q -> bucket_ok (new_bucket rate burst now).
Proof.
  intros Hr. constructor; simpl; [done|lia|]. pose proof (float_of_int_ge_one (Z.max 1 burst) ltac:(lia)). lra.
Qed.

(** The refill: what is gained is at most rate times time, up to rounding. *)
Lemma refill_bound tokens elapsed rate : (0 <= tokens)%Q -> (0 <= elapsed)%Q -> (0 <= rate)%Q ->
  let gain := fmul (binary64 elapsed) rate in let filled := fadd tokens gain in
  (0 <= gain /\ gain <= elapsed * rate * (1 + 3 * ULP) /\
   0 <= filled /\ filled <= (tokens + gain) * (1 + ULP) /\ (tokens + gain) * (1 - ULP) <= filled)%Q.
Proof.
  intros Ht He Hr. cbv zeta. destruct ULP_bounds as [U1 U2].
  destruct (binary64_nonneg elapsed He) as (E1 & E2 & _).
  assert (0 <= binary64 elapsed * rate)%Q as H0 by (by apply Qmult_le_0_compat).
  unfold fmul, fadd. destruct (binary64_nonneg _ H0) as (G1 & G2 & _). set (g := binary64 (binary64 elapsed * rate)) in *.
  assert (0 <= tokens + g)%Q as H1 by lra. destruct (binary64_nonneg _ H1) as (F1 & F2 & F3).
  split_and!; try done.
  assert (binary64 elapsed * rate <= elapsed * (1 + ULP) * rate)%Q as H2 by (by apply Qmult_le_compat_r).
  assert (0 <= elapsed * rate)%Q as H3 by (by apply Qmult_le_0_compat).
  assert (g <= elapsed * rate * ((1 + ULP) * (1 + ULP)))%Q as H4 by nra.
  assert ((1 + ULP) * (1 + ULP) <= 1 + 3 * ULP)%Q as H5 by nra. nra.
Qed.

(** One attempt: a token is gained per unit of time and rate at most, and
    granting takes one, up to rounding errors of 2^-53. *)
Lemma acquire_spec now b ok b' : bucket_ok b -> (tb_last b <= now)%Q -> acquire now b = (ok, b') ->
  bucket_ok b' /\ tb_rate b' = tb_rate b /\ tb_burst b' = tb_burst b /\ tb_last b' = now /\
  (tb_tokens b' + inject_Z (if ok : bool then 1 else 0) <=
   tb_tokens b + (now - tb_last b) * tb_rate b * (1 + 3 * ULP) + 4 * ULP * inject_Z (tb_burst b))%Q.
Proof.
  intros [Hr Hb Ht] Hnow E. unfold acquire in E. cbv zeta in E.
  change (fsub now (tb_last b)) with (binary64 (now - tb_last b)) in E. destruct ULP_bounds as [U1 U2].
  destruct (refill_bound (tb_tokens b) (now - tb_last b) (tb_rate b) Ht ltac:(lra) Hr) as (G1 & G2 & F1 & F2 & F3).
  set (gain := fmul (binary64 (now - tb_last b)) (tb_rate b)) in *. set (filled := fadd (tb_tokens b) gain) in *.
  pose proof (float_of_int_ge_one _ Hb) as Hf.
  assert (1 <= inject_Z (tb_burst b))%Q as Hb' by (change 1%Q with (inject_Z 1); by rewrite <- Zle_Qle).
  destruct (binary64_nonneg (inject_Z (tb_burst b)) ltac:(lra)) as (_ & Hf2 & _). fold (float_of_int (tb_burst b)) in Hf2.
  set (B := inject_Z (tb_burst b)) in *. set (fB := float_of_int (tb_burst b)) in *.
  destruct (Qle_bool B filled) eqn:Ec.
  - apply Qle_bool_iff in Ec. rewrite (proj2 (Qle_bool_iff 1 B) Hb') in E. injection E as <- <-.
    destruct (binary64_nonneg (fB - 1) ltac:(lra)) as (N1 & N2 & _).
    split_and!; [constructor; [done..|exact N1]|done..|]. cbn [tb_tokens]. unfold fsub. change (inject_Z 1) with 1%Q.
    assert (B <= tb_tokens b + gain + ULP * B)%Q as H1 by nra.
    assert ((fB - 1) * (1 + ULP) <= (B * (1 + ULP) - 1) * (1 + ULP))%Q as H2 by (apply Qmult_le_compat_r; lra).
    assert (0 <= ULP * B)%Q as H3 by (apply Qmult_le_0_compat; lra).
    assert (ULP * (ULP * B) <= 1 * (ULP * B))%Q as H4 by (apply Qmult_le_compat_r; lra). lra.
  - assert (filled < B)%Q as Hlt by (apply Qnot_le_lt; intros H; apply Qle_bool_iff in H; congruence).
    assert ((tb_tokens b + gain) * (1 # 2) <= B)%Q as H1 by nra.
    assert (filled <= tb_tokens b + gain + 2 * ULP * B)%Q as H2 by nra.
    destruct (Qle_bool 1 filled) eqn:Hk; injection E as <- <-.
    + apply Qle_bool_iff in Hk. destruct (binary64_nonneg (filled - 1) ltac:(lra)) as (N1 & N2 & _).
      split_and!; [constructor; [done..|exact N1]|done..|]. cbn [tb_tokens]. unfold fsub. change (inject_Z 1) with 1%Q.
      assert (ULP * filled <= ULP * B)%Q as H3 by (rewrite !(Qmult_comm ULP); apply Qmult_le_compat_r; lra).
      assert (0 <= ULP * B)%Q as H4 by (apply Qmult_le_0_compat; lra). lra.
    + split_and!; [by constructor|done..|]. cbn [tb_tokens]. change (inject_Z 0) with 0%Q. nra.
Qed.

(** Attempts from a bucket on. *)
Lemma attempts_bound t times : forall b0 n b, bucket_ok b0 -> times_from (tb_last b0) times -> (tb_last b0 <= t)%Q ->
  Forall (fun x => (x <= t)%Q) times -> attempts times b0 = (n, b) ->
  (inject_Z n <= tb_tokens b0 + (t - tb_last b0) * tb_rate b0 * (1 + 3 * ULP) +
     4 * ULP * inject_Z (tb_burst b0) * inject_Z (Z.of_nat (List.length times)))%Q /\ bucket_ok b.
Proof.
  destruct ULP_bounds as [U1 U2].
  induction times as [|t1 times IH]; intros b0 n b Hb Hts H0 Hle E; simpl in E.
  - injection E as <- <-. split; [|done]. destruct Hb as [Hr Hb Ht]. change (inject_Z (Z.of_nat (List.length []))) with 0%Q.
    change (inject_Z 0) with 0%Q.
    assert (0 <= (t - tb_last b0) * tb_rate b0)%Q by (apply Qmult_le_0_compat; [lra|done]). nra.
  - destruct (acquire t1 b0) as [ok b1] eqn:Ea. destruct (attempts times b1) as [m b2] eqn:Em. injection E as <- <-.
    destruct Hts as [Hts1 Hts2]. apply Forall_cons in Hle as [Hle1 Hle2].
    destruct (acquire_spec _ _ _ _ Hb Hts1 Ea) as (Hb1 & Hr1 & Hb1' & Hl1 & Hstep). rewrite <- Hl1 in Hts2, Hle1.
    destruct (IH b1 m b2 Hb1 Hts2 Hle1 Hle2 Em) as [Hm Hb2]. split; [|done].
    rewrite Hr1, Hl1, Hb1' in Hm. rewrite inject_Z_plus. cbn [List.length]. rewrite Nat2Z.inj_succ, <- Z.add_1_l, inject_Z_plus.
    change (inject_Z 1) with 1%Q in *. lra.
Qed.

(** C22: The rate limit holds, up to the rounding of floats.  In whatever rhythm a
    bucket is asked, and however often it refuses, the number of requests granted
    up to time [t] is at most the burst plus rate times elapsed time, plus 2^-53
    times the sum of the burst, three times rate times elapsed time, and four
    bursts per request: the tokens are binary64 numbers and every operation on them is
    rounded, so that the exact bound can be missed by that much
    ([BrokerSample.exact_bound_missed]).  The tokens are never negative.  This is
    for a clock that does not go back and a rate that is not negative, the limits
    of the exponent of binary64 aside. *)
Theorem requests_within_rate rate burst start times n b t : (0 <= rate)%Q -> times_from start times ->
  Forall (fun x => (x <= t)%Q) (start :: times) ->
  attempts times (new_bucket rate burst start) = (n, b) ->
  let B := inject_Z (Z.max 1 burst) in let earned := ((t - start) * rate)%Q in
  (inject_Z n <= B + earned + ULP * (B + 3 * earned + 4 * B * inject_Z (Z.of_nat (List.length times))))%Q /\
  (0 <= tb_tokens b)%Q.
Proof.
  intros Hr Hts Hle E. cbv zeta. apply Forall_cons in Hle as [H0 Hle].
  destruct (attempts_bound t times (new_bucket rate burst start) n b (new_bucket_ok rate burst start Hr) Hts H0 Hle E) as [Hn [_ _ Hb]].
  split; [|done]. cbn [new_bucket tb_tokens tb_last tb_rate tb_burst] in Hn.
  assert (0 <= inject_Z (Z.max 1 burst))%Q as HB by (change 0%Q with (inject_Z 0); rewrite <- Zle_Qle; lia).
  destruct (binary64_nonneg _ HB) as (_ & Hf & _). unfold float_of_int in Hn. lra.
Qed.

(** ** Reconnection *)

Section ReconnectFacts.
Context {T : Type} `{Provider T} (bc : BrokerConfig).
Abbreviation BW := (BrokerWorld T).
Context (connect_fn : M BW unit).

(** [k] attempts in a row that failed with a broker error. *)
Inductive failed_attempts : nat -> BW -> BW -> Prop :=
| no_attempt w : failed_attempts 0 w w
| one_more k w x w1 w2 : connect_fn w = (Err x, w1) -> is_Some (broker_error_class x) ->
    failed_attempts k w1 w2 -> failed_attempts (S k) w w2.

Lemma reconnect_loop_spec n : forall w, exists k w1, failed_attempts k w w1 /\ (k <= n)%nat /\
  ((k = n /\ reconnect_loop n connect_fn w = set_state DEGRADED w1) \/
   (k < n)%nat /\
   match connect_fn w1 with
   | (Ok tt, w2) => exists w3, reconnect_loop n connect_fn w = (Ok tt, w3) /\ bw_state w3 = CONNECTED /\
                      bw_reconnects w3 = bw_reconnects w2 + 1 /\ bw_session w3 = bw_session w2
   | (Err x, w2) => broker_error_class x = None /\ reconnect_loop n connect_fn w = (Err x, w2)
   end).
Proof.
  induction n as [|n IH]; intros w.
  - exists 0%nat, w. split; [constructor|]. split; [done|]. by left.
  - cbn [reconnect_loop]. unfold try_except, bind, modify, set_state at 2. destruct (connect_fn w) as [[[]|x] w1] eqn:E.
    + exists 0%nat, w. split; [constructor|]. split; [lia|]. right. split; [lia|]. rewrite E. eexists. split; [reflexivity|done].
    + destruct (broker_error_class x) eqn:Hc.
      * destruct (IH w1) as (k & w2 & Hf & Hk & Hout). exists (S k), w2. split; [by econstructor|]. split; [lia|].
        destruct Hout as [[-> ->]|[Hlt Hout]]; [by left|right]. split; [lia|exact Hout].
      * exists 0%nat, w. split; [constructor|]. split; [lia|]. right. split; [lia|]. rewrite E. done.
Qed.

(** Reconnection is bounded and its outcome is what happened.  It tries at
    most [max_attempts] times; broker errors never escape: either one attempt
    succeeded, the state is CONNECTED and the counter one higher, or all of them
    failed and the state is DEGRADED; only an exception that is not a broker
    error ends it earlier. *)
Theorem reconnect_is_bounded (w : BW) : exists k w0 w1,
  set_state RECONNECTING w = (Ok tt, w0) /\ failed_attempts k w0 w1 /\ Z.of_nat k <= Z.max 0 (bc_max_attempts bc) /\
  match machine_reconnect bc connect_fn w with
  | (Ok tt, w') =>
      (Z.of_nat k = Z.max 0 (bc_max_attempts bc) /\ bw_state w' = DEGRADED /\ bw_reconnects w' = bw_reconnects w1) \/
      (Z.of_nat k < bc_max_attempts bc /\ bw_state w' = CONNECTED /\
       exists w2, connect_fn w1 = (Ok tt, w2) /\ bw_reconnects w' = bw_reconnects w2 + 1)
  | (Err x, w') => Z.of_nat k < bc_max_attempts bc /\ broker_error_class x = None /\ connect_fn w1 = (Err x, w')
  end.
Proof.
  unfold machine_reconnect, bind. unfold set_state at 1 2, modify.
  match goal with |- context [reconnect_loop _ _ ?v] => set (w0 := v) end.
  destruct (reconnect_loop_spec (Z.to_nat (bc_max_attempts bc)) w0) as (k & w1 & Hf & Hk & Hout).
  exists k, w0, w1. split; [done|]. split; [done|]. split; [lia|].
  destruct Hout as [[-> ->]|[Hlt Hout]].
  - left. split; [lia|done].
  - destruct (connect_fn w1) as [[[]|x] w2] eqn:E.
    + destruct Hout as (w3 & -> & Hs & Hr & _). right. split_and!; [lia|done|]. by exists w2.
    + destruct Hout as [Hx ->]. split_and!; [lia|done|done].
Qed.
End ReconnectFacts.

Module BrokerSample.
Open Scope string_scope.

Definition fill (q : Z) (reason : string) : NormalizedBrokerEvent :=
  {| nb_order_id := 42; nb_event_type := be_PARTIAL_FILL; nb_broker_order_id := Some "O1"; nb_fill_quantity := dec_of_Z q;
     nb_occurred_at := utc 1000000; nb_reason := reason; nb_source_event_id := Some ("E" +:+ str_Z q) |}.

(** New, repeated, another one, and a contradiction. *)
Definition delivered := Eval vm_compute in deliver [fill 4 ""; fill 4 ""; fill 6 ""; fill 4 "other"] ∅.

Lemma delivered_run : deliver [fill 4 ""; fill 4 ""; fill 6 ""; fill 4 "other"] ∅ = (fst delivered, snd delivered).
Proof. vm_compute. reflexivity. Qed.

Example answers : (fun p => match p.2 with Ok b => Some b | Err _ => None end) <$> fst delivered =
  [Some true; Some false; Some true; None].
Proof. reflexivity. Qed.

Lemma taken_once_witness : List.length (filter (fun p => is_new p = true) (fst delivered)) = 2%nat /\
  NoDup (broker_event_identity <$> (fst <$> filter (fun p => is_new p = true) (fst delivered))).
Proof.
  split; [reflexivity|]. exact (proj1 (broker_events_taken_once _ (fst delivered) (snd delivered) delivered_run)).
Defined.

(** Two per second, burst of three, asked ten times within the first second. *)
Definition rhythm : list Q := (fun n => Z.of_nat n # 10)%Q <$> seq 1 10.
Definition granted := Eval vm_compute in attempts rhythm (new_bucket 2 3 0).

Lemma granted_run : attempts rhythm (new_bucket 2 3 0) = (fst granted, snd granted).
Proof. vm_compute. reflexivity. Qed.

Lemma rate_witness : fst granted = 4 /\
  (inject_Z (fst granted) <= inject_Z 3 + (1 - 0) * 2 + ULP * (inject_Z 3 + 3 * ((1 - 0) * 2) + 4 * inject_Z 3 * inject_Z 10))%Q.
Proof.
  split; [reflexivity|].
  apply (requests_within_rate 2 3 0 rhythm (fst granted) (snd granted) 1).
  - discriminate.
  - repeat split; discriminate.
  - repeat constructor; discriminate.
  - exact granted_run.
Defined.

(** Three per second, burst of one, asked at 0.0 and at the double nearest to a
    third, which is a little less than a third: the product rounds up to 1.0, and
    both requests are granted although less than two tokens were earned. *)
Definition third : Q := 6004799503160661 # 18014398509481984.

Example exact_bound_missed : fst (attempts [0%Q; third] (new_bucket 3 1 0)) = 2 /\ (inject_Z 1 + (third - 0) * 3 < 2)%Q.
Proof. vm_compute. done. Qed.
End BrokerSample.
