(* ===== verification/BrokerAdapters.v ===== *)
(** The three broker adapters (services/broker_adapters: zerodha, upstox and
    angel_one, each adapter.py and mapping.py) as instances of [Provider].

    A response body is a JSON document whose shape the provider decides, so the
    parsers work on [jv] with Python's dynamic operations: [get], truth,
    iteration, [int], [str], [Decimal(str(...))], raising what they raise on an
    unexpected shape.  A number is below 2^53; NaN and infinities are not
    numbers here.  A reason that is not text is kept as its text. *)

From stdpp Require Import base list strings gmap.
From Stdlib Require Import ZArith QArith Lia String Ascii.
From S2P Require Import Prelude PyBase Hashing Decimal DecimalText Service Reconciliation Broker.
Open Scope Z_scope.

(** * Dynamic values *)

Definition vtruthy (v : jv) : bool :=
  match v with
  | VNone => false
  | VBool b => b
  | VInt z => negb (z =? 0)
  | VFloat d => negb (dcoef d =? 0)%N
  | VStr s => negb (String.eqb s "")
  | VList l => match l with [] => false | _ => true end
  | VDict d => match d with [] => false | _ => true end
  end.

(** [a or b] *)
Definition v_or (a b : jv) : jv := if vtruthy a then a else b.

Definition type_name (v : jv) : string :=
  match v with
  | VNone => "NoneType" | VBool _ => "bool" | VInt _ => "int" | VFloat _ => "float" | VStr _ => "str"
  | VList _ => "list" | VDict _ => "dict"
  end.

Definition no_attribute {A} (v : jv) (name : string) : res A :=
  raise AttributeError ("'" +:+ type_name v +:+ "' object has no attribute '" +:+ name +:+ "'").

Fixpoint item (key : string) (d : list (string * jv)) : jv :=
  match d with
  | [] => VNone
  | (k, v) :: d' => if String.eqb k key then v else item key d'
  end.

(** [v.get(key)] *)
Definition vget (v : jv) (key : string) : res jv :=
  match v with VDict d => Ok (item key d) | _ => no_attribute v "get" end.

Fixpoint vrepr (v : jv) : string :=
  match v with
  | VNone => "None"
  | VBool b => if b then "True" else "False"
  | VInt z => str_Z z
  | VFloat d => dec_str d
  | VStr s => py_repr s
  | VList l => "[" +:+ String.concat ", " (List.map vrepr l) +:+ "]"
  | VDict d => "{" +:+ String.concat ", " (List.map (fun kv => py_repr kv.1 +:+ ": " +:+ vrepr kv.2) d) +:+ "}"
  end.
(** [str(v)] *)
Definition vstr (v : jv) : string := match v with VStr s => s | _ => vrepr v end.

(** [int(v)] *)
Definition vint (v : jv) : res Z :=
  match v with
  | VInt z => Ok z
  | VBool b => Ok (if b then 1 else 0)
  | VFloat d => Ok (int_of_dec d)
  | VStr s => int_text s
  | _ => raise TypeError ("int() argument must be a string, a bytes-like object or a real number, not '" +:+
                          type_name v +:+ "'")
  end.

(** [Decimal(text)] *)
Definition decimal_text (s : string) : option decimal := dec_parse (str_remove "_" (py_strip s)).

(** [Decimal(str(v))] *)
Definition vdecimal (v : jv) : res decimal :=
  match v with
  | VFloat d => Ok d
  | _ => match decimal_text (vstr v) with
         | Some d => Ok d
         | None => raise InvalidOperation "[<class 'decimal.ConversionSyntax'>]"
         end
  end.

(** [_dec(value)] of the three adapters *)
Definition dec_or_none (v : jv) : option decimal :=
  match v with
  | VNone => None
  | VStr EmptyString => None
  | _ => match vdecimal v with Ok d => Some d | Err _ => None end
  end.

(** [v.strip()], [v.lower()], [v.upper()] *)
Definition on_text (name : string) (f : string -> string) (v : jv) : res string :=
  match v with VStr s => Ok (f s) | _ => no_attribute v name end.

Fixpoint characters (s : string) : list jv :=
  match s with EmptyString => [] | String c s' => VStr (String c "") :: characters s' end.

(** [for row in v] *)
Definition viter (v : jv) : res (list jv) :=
  match v with
  | VList l => Ok l
  | VDict d => Ok ((fun kv => VStr kv.1) <$> d)
  | VStr s => Ok (characters s)
  | _ => raise TypeError ("'" +:+ type_name v +:+ "' object is not iterable")
  end.

(** [table.get(v)] of a table with text keys *)
Fixpoint table_get {A} (key : string) (t : list (string * A)) : option A :=
  match t with
  | [] => None
  | (k, a) :: t' => if String.eqb k key then Some a else table_get key t'
  end.
Definition table_find {A} (v : jv) (t : list (string * A)) : res (option A) :=
  match v with
  | VStr s => Ok (table_get s t)
  | VList _ | VDict _ => raise TypeError ("unhashable type: '" +:+ type_name v +:+ "'")
  | _ => Ok None
  end.
(** [table[key]] *)
Definition table_item (key : string) (t : list (string * string)) : res string :=
  match table_get key t with Some v => Ok v | None => raise KeyError key end.

Definition is_str (v : jv) (s : string) : bool := match v with VStr t => String.eqb t s | _ => false end.

(** [body = resp.body or {}] *)
Definition body_of (r : TransportResponse) : jv :=
  v_or (match tp_body r with Some d => VDict d | None => VNone end) (VDict []).

(** [body.get(key) or default], [v.get(key) or default] *)
Definition get_or (v : jv) (key : string) (default : jv) : res jv :=
  let! x := vget v key in Ok (v_or x default).

(** [str(v) if v else None] *)
Definition text_or_none (v : jv) : option string := if vtruthy v then Some (vstr v) else None.

Definition SENTINEL : UUID := 0%N.

(** * What the three adapters share *)

(** [map_status] on a table, after [status.upper()] or [status.lower()] *)
Definition status_of (table : list (string * BrokerOrderStatus)) (name : string) (norm : string -> string)
    (status : jv) (filled quantity : Z) : res BrokerOrderStatus :=
  match status with
  | VNone => Ok st_UNKNOWN
  | _ =>
      let! s := on_text name norm status in
      let normalized := default st_UNKNOWN (table_get s table) in
      Ok (if bool_decide (normalized = st_OPEN) && (0 <? quantity) && (0 <? filled) && (filled <? quantity)
          then st_PARTIALLY_FILLED else normalized)
  end.

(** [_http_error_class]; Zerodha has no entry for 404. *)
Definition http_error_class (not_found : bool) (code : Z) : BrokerErrorClass :=
  if code =? 429 then bx_RATE_LIMIT
  else if code =? 401 then bx_AUTHENTICATION
  else if code =? 403 then bx_AUTHORIZATION
  else if (code =? 400) || (code =? 422) then bx_VALIDATION
  else if not_found && (code =? 404) then bx_NOT_FOUND
  else if (code =? 502) || (code =? 503) || (code =? 504) then bx_PROVIDER_UNAVAILABLE
  else bx_UNKNOWN.

(** [BrokerError(error_class, message, provider_code, provider_message=message)] *)
Definition provider_error (c : BrokerErrorClass) (message : jv) (code : string) : exn :=
  mk_exn (BrokerError c (Some code) (Some (vstr message))) (vstr message).

(** [body.get("message") or resp.text or "provider error"] *)
Definition error_message (body : jv) (r : TransportResponse) : res jv :=
  let! m := vget body "message" in
  Ok (v_or m (v_or (match tp_text r with Some t => VStr t | None => VNone end) (VStr "provider error"))).

(** The event type of [parse_event], [s] being the normalised status. *)
Definition event_type_of (complete rejected cancelled : bool) (filled quantity : Z) : BrokerEventType :=
  if complete || (negb (quantity =? 0) && (quantity <=? filled)) then be_FILL
  else if 0 <? filled then be_PARTIAL_FILL
  else if rejected then be_REJECTED
  else if cancelled then be_CANCELLED
  else be_ORDER_UPDATE.

Definition capabilities_of (name : BrokerName) (exchanges products : list string) : BrokerCapabilities :=
  {| cp_broker_name := name; cp_supports_order_submission := true; cp_supports_modify := true;
     cp_supports_cancel := true; cp_supports_positions := true; cp_supports_holdings := true;
     cp_supports_funds := true; cp_supports_live_trading := false; cp_supported_exchanges := exchanges;
     cp_supported_order_types := ["MARKET"; "LIMIT"; "STOP"; "STOP_LIMIT"]%string;
     cp_supported_products := products; cp_supported_modes := ["BACKTEST"; "PAPER"]%string |}.

Definition float_or (price : option decimal) (default : jv) : jv :=
  match price with Some d => VFloat d | None => default end.

Section Shared.
Context {T : Type} `{Transport T} (bc : BrokerConfig).
Abbreviation BW := (BrokerWorld T).

Definition now : M BW datetime := bw_call (bc_clock bc).

(** [_resolve_credentials] *)
Definition resolve_credentials (secret_ref : string) : res (list (string * string)) :=
  match bc_credential_resolver bc with
  | None => Err (broker_error bx_AUTHENTICATION "no credential resolver configured")
  | Some f => f secret_ref
  end.

(** [resolved.get(key) or ""] *)
Definition secret (resolved : list (string * string)) (key : string) : string := default ""%string (table_get key resolved).

(** [_resolve_instrument] *)
Definition resolve_instrument (r : BrokerOrderRequest) : M BW BrokerInstrument :=
  let* w := gets id in
  lift (mapping_resolve (bw_mapping w) (rq_instrument_id r) (rq_exchange r) (rq_symbol r)).

(** [_instrument_id_for] of Zerodha and Angel One *)
Definition instrument_id_for (m : InstrumentMapping) (exchange symbol : string) : UUID :=
  match find_by_symbol m exchange symbol with Some i => bi_internal_instrument_id i | None => SENTINEL end.

(** [_order_id_for] *)
Definition order_id_for (broker_order_id : string) : res UUID :=
  match bc_order_id_resolver bc with
  | None => Ok SENTINEL
  | Some f => let! u := f broker_order_id in Ok (default SENTINEL u)
  end.

Definition session_of (name : BrokerName) (account : string) : M BW BrokerSessionState :=
  let* t := now in
  ret {| ses_broker_name := name; ses_account_identifier := account; ses_connected := true;
         ses_authenticated := true; ses_checked_at := t; ses_expires_at := None; ses_state := DISCONNECTED |}.

(** The order id of a response: [data.get(key) if isinstance(data, dict) else None]. *)
Definition response_order_id (key : string) (r : TransportResponse) : res jv :=
  let! data := get_or (body_of r) "data" (VDict []) in
  Ok (match data with VDict d => item key d | _ => VNone end).

Definition order_response (key : string) (r : TransportResponse) (request : option BrokerOrderRequest)
    : M BW BrokerOrderResponse :=
  let* order_id := lift (response_order_id key r) in
  let* message := lift (vget (body_of r) "message") in
  let* t := now in
  ret {| rp_status := st_BROKER_ACKNOWLEDGED;
         rp_client_order_id := match request with Some q => rq_client_order_id q | None => "" end;
         rp_broker_order_id := text_or_none order_id; rp_message := message; rp_error_code := None;
         rp_timestamp := Some t; rp_correlation_id := None; rp_filled_quantity := dzero; rp_average_price := None;
         rp_raw_reference := text_or_none order_id |}.

Definition cancel_response (key : string) (r : TransportResponse) (broker_order_id : string)
    : M BW BrokerOrderResponse :=
  let* order_id := lift (response_order_id key r) in
  let* message := lift (vget (body_of r) "message") in
  let* t := now in
  ret {| rp_status := st_CANCELLED; rp_client_order_id := "";
         rp_broker_order_id := Some (default broker_order_id (text_or_none order_id)); rp_message := message;
         rp_error_code := None; rp_timestamp := Some t; rp_correlation_id := None; rp_filled_quantity := dzero;
         rp_average_price := None; rp_raw_reference := text_or_none order_id |}.

(** A loop over rows that collects one result per kept row. *)
Fixpoint each_row {A} (f : jv -> M BW (option A)) (rows : list jv) : M BW (list A) :=
  match rows with
  | [] => ret []
  | row :: rest =>
      let* a := f row in
      let* more := each_row f rest in
      ret (match a with Some x => x :: more | None => more end)
  end.

(** The rows of an order book: a single object counts as one row. *)
Definition order_rows (r : TransportResponse) : res (list jv) :=
  let! rows := get_or (body_of r) "data" (VList []) in
  match rows with VDict _ => Ok [rows] | _ => viter rows end.

Definition listed_order (status : BrokerOrderStatus) (client_order_id : string) (order_id : jv) (filled : Z)
    (average : jv) : M BW (option BrokerOrderResponse) :=
  let* t := now in
  ret (Some {| rp_status := status; rp_client_order_id := client_order_id;
               rp_broker_order_id := text_or_none order_id; rp_message := VNone; rp_error_code := None;
               rp_timestamp := Some t; rp_correlation_id := None; rp_filled_quantity := dec_of_Z filled;
               rp_average_price := dec_or_none average; rp_raw_reference := None |}).

(** A row of the order book as Zerodha and Upstox send it. *)
Definition parse_order_row (map_status : jv -> Z -> Z -> res BrokerOrderStatus) (row : jv)
    : M BW (option BrokerOrderResponse) :=
  let* quantity := lift (let! v := get_or row "quantity" (VInt 0) in vint v) in
  let* filled := lift (let! v := get_or row "filled_quantity" (VInt 0) in vint v) in
  let* status := lift (let! v := vget row "status" in map_status v filled quantity) in
  let* tag := lift (get_or row "tag" (VStr "")) in
  let* order_id := lift (vget row "order_id") in
  let* average := lift (vget row "average_price") in
  listed_order status (vstr tag) order_id filled average.

Definition position_of (instrument_id : UUID) (quantity : decimal) (average : jv) (exchange symbol : string)
    : M BW (option BrokerPositionSnapshot) :=
  let* t := now in
  ret (Some {| bps_broker_account_id := bc_broker_account_id bc; bps_instrument_id := instrument_id;
               bps_trading_mode := "PAPER"; bps_quantity := quantity; bps_average_price := dec_or_none average;
               bps_exchange := exchange; bps_symbol := symbol; bps_captured_at := Some t |}).

Definition holding_of (instrument_id : UUID) (quantity : decimal) (average : jv) (exchange symbol : string)
    : M BW (option BrokerHoldingSnapshot) :=
  let* t := now in
  ret (Some {| bhs_broker_account_id := bc_broker_account_id bc; bhs_instrument_id := instrument_id;
               bhs_quantity := quantity; bhs_average_price := dec_or_none average; bhs_exchange := exchange;
               bhs_symbol := symbol; bhs_captured_at := Some t |}).

Definition funds_of (margin used cash : jv) : M BW BrokerFundsSnapshot :=
  let* t := now in
  ret {| bfs_broker_account_id := bc_broker_account_id bc; bfs_available_margin := dec_or_none margin;
         bfs_used_margin := dec_or_none used; bfs_available_cash := dec_or_none cash; bfs_currency := "INR";
         bfs_captured_at := Some t |}.

(** The normalised event of [parse_event]. *)
Definition event_of (event_type : BrokerEventType) (order_id : jv) (filled : Z) (reason : jv)
    : M BW NormalizedBrokerEvent :=
  let* internal := lift (match text_or_none order_id with Some s => order_id_for s | None => Ok SENTINEL end) in
  let* t := now in
  ret {| nb_order_id := internal; nb_event_type := event_type; nb_broker_order_id := text_or_none order_id;
         nb_fill_quantity := dec_of_Z filled; nb_occurred_at := t; nb_reason := vstr reason;
         nb_source_event_id := text_or_none order_id |}.
End Shared.

(** * zerodha *)

Module Zerodha.
Open Scope string_scope.
Open Scope list_scope.

Definition ZERODHA_STATUS_MAP : list (string * BrokerOrderStatus) :=
  [("OPEN", st_OPEN); ("PENDING", st_PENDING); ("COMPLETE", st_FILLED); ("CANCELLED", st_CANCELLED);
   ("CANCEL PENDING", st_CANCELLED); ("REJECTED", st_REJECTED); ("TRIGGER PENDING", st_PENDING);
   ("AMO REQ RECEIVED", st_PENDING); ("PUT ORDER REQ RECEIVED", st_PENDING)].
Definition zerodha_map_status := status_of ZERODHA_STATUS_MAP "upper" py_upper.

Definition ZERODHA_ORDER_TYPE_MAP : list (string * string) :=
  [("MARKET", "MARKET"); ("LIMIT", "LIMIT"); ("STOP", "SL"); ("STOP_LIMIT", "SL-M")].
Definition ZERODHA_PRODUCT_MAP : list (string * string) := [("CNC", "CNC"); ("MIS", "MIS"); ("NRML", "NRML")].
Definition ZERODHA_VALIDITY_MAP : list (string * string) := [("DAY", "DAY"); ("IOC", "IOC"); ("GTC", "GTC")].

Definition ZERODHA_ERROR_TYPE_MAP : list (string * BrokerErrorClass) :=
  [("InputException", bx_VALIDATION); ("DataException", bx_VALIDATION); ("TokenException", bx_AUTHENTICATION);
   ("PermissionException", bx_AUTHORIZATION); ("OrderException", bx_ORDER_REJECTED);
   ("RateLimitException", bx_RATE_LIMIT); ("NetworkException", bx_NETWORK); ("GeneralException", bx_UNKNOWN)].

Definition zerodha_error (r : TransportResponse) : res exn :=
  let body := body_of r in
  let! error_type := (let! v := get_or body "error_type" (VStr "") in on_text "strip" py_strip v) in
  let! message := error_message body r in
  let c := default (http_error_class false (tp_status_code r)) (table_get error_type ZERODHA_ERROR_TYPE_MAP) in
  Ok (provider_error c message (if String.eqb error_type "" then str_Z (tp_status_code r) else error_type)).

Definition zerodha_capabilities : BrokerCapabilities :=
  capabilities_of ZERODHA ["NSE"; "BSE"; "NFO"; "MCX"] ["CNC"; "MIS"; "NRML"].

Section Adapter.
Context {T : Type} `{Transport T} (bc : BrokerConfig).
Abbreviation BW := (BrokerWorld T).

Definition zerodha_headers (w : BW) : list (string * string) :=
  [("X-Kite-Version", "3");
   ("Authorization", "token " +:+ default "None" (bw_api_key w) +:+ ":" +:+ vstr (bw_token w))].

Definition zerodha_send (method path : string) (params json : option (list (string * jv))) : M BW TransportResponse :=
  let* w := gets id in bw_request method path params json (zerodha_headers w).

Definition zerodha_authenticate (creds : BrokerCredentialsRef) : M BW BrokerSessionState :=
  let* resolved := lift (resolve_credentials bc (cr_secret_ref creds)) in
  let api_key := secret resolved "api_key" in
  let access_token := secret resolved "access_token" in
  modify (bw_auth (Some api_key) (VStr access_token)) ;*
  lift (broker_fail (String.eqb api_key "" || String.eqb access_token "") bx_AUTHENTICATION
          "missing Zerodha api_key/access_token") ;*
  let* resp := zerodha_send "GET" "/user/profile" None None in
  (if (tp_status_code resp =? 401)%Z
   then throw (BrokerError bx_AUTHENTICATION (Some "401") None) "invalid Zerodha access token" else ret tt) ;*
  (if resp_ok resp then ret tt else lift (let! e := zerodha_error resp in Err e)) ;*
  session_of bc ZERODHA (cr_account_identifier creds).

Definition zerodha_validate_session : M BW BrokerSessionState :=
  let* resp := zerodha_send "GET" "/user/profile" None None in
  let* w := gets id in
  let* t := now bc in
  ret {| ses_broker_name := ZERODHA; ses_account_identifier := bc_account_reference bc;
         ses_connected := bool_decide (bw_state w = CONNECTED);
         ses_authenticated := resp_ok resp && negb (tp_status_code resp =? 401)%Z; ses_checked_at := t;
         ses_expires_at := None; ses_state := DISCONNECTED |}.

Definition zerodha_order_payload (r : BrokerOrderRequest) : M BW (list (string * jv)) :=
  let* instrument := resolve_instrument r in
  let* product := lift (table_item (product_type_value (rq_product_type r)) ZERODHA_PRODUCT_MAP) in
  let* order_type := lift (table_item (order_type_text (rq_order_type r)) ZERODHA_ORDER_TYPE_MAP) in
  let* validity := lift (table_item (validity_value (rq_validity r)) ZERODHA_VALIDITY_MAP) in
  ret ([("exchange", VStr (rq_exchange r)); ("tradingsymbol", VStr (bi_symbol instrument));
        ("transaction_type", VStr (broker_side_value (rq_side r))); ("quantity", VInt (rq_quantity r));
        ("product", VStr product); ("order_type", VStr order_type); ("validity", VStr validity);
        ("tag", VStr (rq_client_order_id r))] ++
       match rq_limit_price r with Some p => [("price", VFloat p)] | None => [] end ++
       match rq_stop_price r with Some p => [("trigger_price", VFloat p)] | None => [] end).

Definition zerodha_position_row (m : InstrumentMapping) (row : jv) : M BW (option BrokerPositionSnapshot) :=
  let* q := lift (vget row "quantity") in
  if negb (vtruthy q) then ret None
  else
    let* exchange := lift (get_or row "exchange" (VStr "")) in
    let* symbol := lift (get_or row "tradingsymbol" (VStr "")) in
    let* quantity := lift (vdecimal q) in
    let* average := lift (vget row "average_price") in
    position_of bc (instrument_id_for m (vstr exchange) (vstr symbol)) quantity average (vstr exchange) (vstr symbol).

Definition zerodha_positions (r : TransportResponse) : M BW (list BrokerPositionSnapshot) :=
  let* data := lift (get_or (body_of r) "data" (VDict [])) in
  let* net := lift (match data with VDict d => Ok (v_or (item "net" d) (VList [])) | _ => Ok (VList []) end) in
  let* rows := lift (viter net) in
  let* w := gets id in
  each_row (zerodha_position_row (bw_mapping w)) rows.

Definition zerodha_holding_row (m : InstrumentMapping) (row : jv) : M BW (option BrokerHoldingSnapshot) :=
  let* exchange := lift (get_or row "exchange" (VStr "")) in
  let* symbol := lift (get_or row "tradingsymbol" (VStr "")) in
  let* quantity := lift (let! v := get_or row "quantity" (VInt 0) in vdecimal v) in
  let* average := lift (vget row "average_price") in
  holding_of bc (instrument_id_for m (vstr exchange) (vstr symbol)) quantity average (vstr exchange) (vstr symbol).

Definition zerodha_holdings (r : TransportResponse) : M BW (list BrokerHoldingSnapshot) :=
  let* data := lift (get_or (body_of r) "data" (VList [])) in
  let* rows := lift (viter data) in
  let* w := gets id in
  each_row (zerodha_holding_row (bw_mapping w)) rows.

Definition zerodha_funds (r : TransportResponse) : M BW BrokerFundsSnapshot :=
  let* data := lift (get_or (body_of r) "data" (VDict [])) in
  let* equity := lift (get_or data "equity" (VDict [])) in
  let* available := lift (get_or equity "available" (VDict [])) in
  let* cash := lift (vget available "cash") in
  let* margin := lift (vget available "adhoc_margin") in
  funds_of bc margin VNone cash.

Definition zerodha_event (raw : jv) : M BW NormalizedBrokerEvent :=
  let* status := lift (vget raw "status") in
  let* order_id := lift (vget raw "order_id") in
  let* filled := lift (let! v := get_or raw "filled_quantity" (VInt 0) in vint v) in
  let* quantity := lift (let! v := get_or raw "quantity" (VInt 0) in vint v) in
  let* reason := lift (get_or raw "status_message" (VStr "")) in
  event_of bc (event_type_of (is_str status "COMPLETE") (is_str status "REJECTED") (is_str status "CANCELLED")
                 filled quantity) order_id filled reason.

Definition zerodha_modify_payload (r : BrokerOrderRequest) (broker_order_id : string) : M BW (list (string * jv)) :=
  zerodha_order_payload r.

Definition zerodha_parse_order := order_response bc "order_id" (T:=T).
Definition zerodha_parse_cancel := cancel_response bc "order_id" (T:=T).
Definition zerodha_parse_orders (r : TransportResponse) : M BW (list BrokerOrderResponse) :=
  let* rows := lift (order_rows r) in each_row (parse_order_row bc zerodha_map_status) rows.

#[export] Instance ZerodhaAdapter : Provider T := {|
  authenticate := zerodha_authenticate;
  do_submit := fun payload => zerodha_send "POST" "/orders" None (Some payload);
  do_modify := fun payload id => zerodha_send "PUT" ("/orders/" +:+ id) None (Some payload);
  do_cancel := fun id => zerodha_send "DELETE" ("/orders/" +:+ id) None None;
  do_get_order := fun id => zerodha_send "GET" ("/orders/" +:+ id) None None;
  do_get_orders := zerodha_send "GET" "/orders" None None;
  do_get_trades := zerodha_send "GET" "/trades" None None;
  do_get_positions := zerodha_send "GET" "/portfolio/positions" None None;
  do_get_holdings := zerodha_send "GET" "/portfolio/holdings" None None;
  do_get_funds := zerodha_send "GET" "/user/margins" None None;
  build_order_payload := zerodha_order_payload;
  build_modify_payload := zerodha_modify_payload;
  parse_order_response := zerodha_parse_order;
  parse_cancel_response := zerodha_parse_cancel;
  parse_orders_response := zerodha_parse_orders;
  parse_positions_response := zerodha_positions;
  parse_holdings_response := zerodha_holdings;
  parse_funds_response := zerodha_funds;
  map_error := zerodha_error;
|}.
End Adapter.
End Zerodha.

(** * upstox *)

Module Upstox.
Open Scope string_scope.
Open Scope list_scope.

Definition UPSTOX_STATUS_MAP : list (string * BrokerOrderStatus) :=
  [("open", st_OPEN); ("complete", st_FILLED); ("cancelled", st_CANCELLED); ("rejected", st_REJECTED);
   ("pending", st_PENDING); ("trigger pending", st_PENDING); ("put order req received", st_PENDING);
   ("validation pending", st_PENDING); ("modify pending", st_PENDING);
   ("after market order req received", st_PENDING)].
Definition upstox_map_status := status_of UPSTOX_STATUS_MAP "lower" py_lower.

Definition UPSTOX_ORDER_TYPE_MAP : list (string * string) :=
  [("MARKET", "MARKET"); ("LIMIT", "LIMIT"); ("STOP", "SL"); ("STOP_LIMIT", "SL-M")].
Definition UPSTOX_PRODUCT_MAP : list (string * string) := [("CNC", "D"); ("MIS", "I")].
Definition UPSTOX_VALIDITY_MAP : list (string * string) := [("DAY", "DAY"); ("IOC", "IOC"); ("GTC", "GTC")].

Definition UPSTOX_ERROR_CODE_MAP : list (string * BrokerErrorClass) :=
  [("UDAPI100001", bx_VALIDATION); ("UDAPI100010", bx_AUTHENTICATION); ("UDAPI100011", bx_AUTHORIZATION);
   ("UDAPI100113", bx_RATE_LIMIT); ("UDAPI100105", bx_ORDER_REJECTED); ("UDAPI100100", bx_NOT_FOUND)].

Definition upstox_error (r : TransportResponse) : res exn :=
  let body := body_of r in
  let! errors := get_or body "errors" (VList []) in
  let! message := error_message body r in
  let '(error_code, message) :=
    match errors with
    | VList (first :: _) =>
        let d := match first with VDict d => d | _ => [] end in
        (item "errorCode" d, v_or (item "message" d) message)
    | _ => (VNone, message)
    end in
  let! c := table_find error_code UPSTOX_ERROR_CODE_MAP in
  Ok (provider_error (default (http_error_class true (tp_status_code r)) c) message
        (vstr (v_or error_code (VStr (str_Z (tp_status_code r)))))).

Definition upstox_capabilities : BrokerCapabilities :=
  capabilities_of UPSTOX ["NSE"; "BSE"; "NSE_FO"; "MCX"] ["CNC"; "MIS"].

Section Adapter.
Context {T : Type} `{Transport T} (bc : BrokerConfig).
Abbreviation BW := (BrokerWorld T).

Definition upstox_headers (w : BW) : list (string * string) :=
  [("Authorization", "Bearer " +:+ vstr (bw_token w)); ("Accept", "application/json")].

Definition upstox_send (method path : string) (params json : option (list (string * jv))) : M BW TransportResponse :=
  let* w := gets id in bw_request method path params json (upstox_headers w).

Definition upstox_authenticate (creds : BrokerCredentialsRef) : M BW BrokerSessionState :=
  let* resolved := lift (resolve_credentials bc (cr_secret_ref creds)) in
  let access_token := secret resolved "access_token" in
  modify (fun w => bw_auth (bw_api_key w) (VStr access_token) w) ;*
  lift (broker_fail (String.eqb access_token "") bx_AUTHENTICATION "missing Upstox access_token") ;*
  let* resp := upstox_send "GET" "/user/profile" None None in
  (if ((tp_status_code resp =? 401) || (tp_status_code resp =? 403))%Z
   then throw (BrokerError bx_AUTHENTICATION (Some (str_Z (tp_status_code resp))) None) "invalid Upstox access token"
   else ret tt) ;*
  (if resp_ok resp then ret tt else lift (let! e := upstox_error resp in Err e)) ;*
  session_of bc UPSTOX (cr_account_identifier creds).

Definition upstox_validate_session : M BW BrokerSessionState :=
  let* resp := upstox_send "GET" "/user/profile" None None in
  let* w := gets id in
  let* t := now bc in
  ret {| ses_broker_name := UPSTOX; ses_account_identifier := bc_account_reference bc;
         ses_connected := bool_decide (bw_state w = CONNECTED);
         ses_authenticated := resp_ok resp && negb ((tp_status_code resp =? 401) || (tp_status_code resp =? 403))%Z;
         ses_checked_at := t; ses_expires_at := None; ses_state := DISCONNECTED |}.

(** [instrument.broker_token or instrument.instrument_key] *)
Definition token_of (i : BrokerInstrument) : string :=
  if String.eqb (bi_broker_token i) "" then bi_instrument_key i else bi_broker_token i.

Definition upstox_order_payload (r : BrokerOrderRequest) : M BW (list (string * jv)) :=
  let* instrument := resolve_instrument r in
  let* product := lift (table_item (product_type_value (rq_product_type r)) UPSTOX_PRODUCT_MAP) in
  let* validity := lift (table_item (validity_value (rq_validity r)) UPSTOX_VALIDITY_MAP) in
  let* order_type := lift (table_item (order_type_text (rq_order_type r)) UPSTOX_ORDER_TYPE_MAP) in
  ret [("quantity", VInt (rq_quantity r)); ("product", VStr product); ("validity", VStr validity);
       ("price", float_or (rq_limit_price r) (VFloat dzero)); ("tag", VStr (rq_client_order_id r));
       ("instrument_token", VStr (token_of instrument)); ("order_type", VStr order_type);
       ("transaction_type", VStr (broker_side_value (rq_side r))); ("disclosed_quantity", VInt 0);
       ("trigger_price", float_or (rq_stop_price r) (VFloat dzero)); ("is_amo", VBool false)].

Definition upstox_modify_payload (r : BrokerOrderRequest) (broker_order_id : string) : M BW (list (string * jv)) :=
  let* payload := upstox_order_payload r in ret (payload ++ [("order_id", VStr broker_order_id)]).

(** [_instrument_id_for]: by symbol, else by token. *)
Definition upstox_instrument_id (m : InstrumentMapping) (exchange symbol : string) : UUID :=
  match find_by_symbol m exchange symbol with
  | Some i => bi_internal_instrument_id i
  | None =>
      match List.find (fun i => String.eqb (bi_broker_token i) symbol || String.eqb (bi_instrument_key i) symbol)
              (snd <$> m) with
      | Some i => bi_internal_instrument_id i
      | None => SENTINEL
      end
  end.

Definition row_symbol (row : jv) : res string :=
  let! s := vget row "tradingsymbol" in
  let! t := vget row "instrument_token" in
  Ok (vstr (v_or s (v_or t (VStr "")))).

Definition upstox_position_row (m : InstrumentMapping) (row : jv) : M BW (option BrokerPositionSnapshot) :=
  let* q := lift (vget row "quantity") in
  if negb (vtruthy q) then ret None
  else
    let* symbol := lift (row_symbol row) in
    let* quantity := lift (vdecimal q) in
    let* average := lift (vget row "average_price") in
    let* exchange := lift (get_or row "exchange" (VStr "")) in
    position_of bc (upstox_instrument_id m "" symbol) quantity average (vstr exchange) symbol.

Definition upstox_positions (r : TransportResponse) : M BW (list BrokerPositionSnapshot) :=
  let* data := lift (get_or (body_of r) "data" (VList [])) in
  let* rows := lift (viter data) in
  let* w := gets id in
  each_row (upstox_position_row (bw_mapping w)) rows.

Definition upstox_holding_row (m : InstrumentMapping) (row : jv) : M BW (option BrokerHoldingSnapshot) :=
  let* symbol := lift (row_symbol row) in
  let* quantity := lift (let! v := get_or row "quantity" (VInt 0) in vdecimal v) in
  let* average := lift (vget row "average_price") in
  let* exchange := lift (get_or row "exchange" (VStr "")) in
  holding_of bc (upstox_instrument_id m "" symbol) quantity average (vstr exchange) symbol.

Definition upstox_holdings (r : TransportResponse) : M BW (list BrokerHoldingSnapshot) :=
  let* data := lift (get_or (body_of r) "data" (VList [])) in
  let* rows := lift (viter data) in
  let* w := gets id in
  each_row (upstox_holding_row (bw_mapping w)) rows.

Definition upstox_funds (r : TransportResponse) : M BW BrokerFundsSnapshot :=
  let* data := lift (get_or (body_of r) "data" (VDict [])) in
  let* equity := lift (get_or data "equity" (VDict [])) in
  let* margin := lift (vget equity "available_margin") in
  let* used := lift (vget equity "used_margin") in
  let* cash := lift (vget equity "available_cash") in
  funds_of bc margin used cash.

Definition upstox_event (raw : jv) : M BW NormalizedBrokerEvent :=
  let* status := lift (let! v := get_or raw "status" (VStr "") in on_text "lower" py_lower v) in
  let* order_id := lift (vget raw "order_id") in
  let* filled := lift (let! v := get_or raw "filled_quantity" (VInt 0) in vint v) in
  let* quantity := lift (let! v := get_or raw "quantity" (VInt 0) in vint v) in
  let* reason := lift (get_or raw "status_message" (VStr "")) in
  event_of bc (event_type_of (String.eqb status "complete") (String.eqb status "rejected")
                 (String.eqb status "cancelled") filled quantity) order_id filled reason.

Definition upstox_parse_order := order_response bc "order_id" (T:=T).
Definition upstox_parse_cancel := cancel_response bc "order_id" (T:=T).
Definition upstox_parse_orders (r : TransportResponse) : M BW (list BrokerOrderResponse) :=
  let* rows := lift (order_rows r) in each_row (parse_order_row bc upstox_map_status) rows.

#[export] Instance UpstoxAdapter : Provider T := {|
  authenticate := upstox_authenticate;
  do_submit := fun payload => upstox_send "POST" "/order/place" None (Some payload);
  do_modify := fun payload id =>
    upstox_send "PUT" "/order/modify" None
      (Some (filter (fun kv => kv.1 <> "order_id") payload ++ [("order_id", VStr id)]));
  do_cancel := fun id => upstox_send "DELETE" "/order/cancel" None (Some [("order_id", VStr id)]);
  do_get_order := fun id => upstox_send "GET" "/order/history" (Some [("order_id", VStr id)]) None;
  do_get_orders := upstox_send "GET" "/order/retrieve-all" None None;
  do_get_trades := upstox_send "GET" "/order/trades/get-trades-for-day" None None;
  do_get_positions := upstox_send "GET" "/portfolio/short-term-positions" None None;
  do_get_holdings := upstox_send "GET" "/portfolio/long-term-holdings" None None;
  do_get_funds := upstox_send "GET" "/user/get-funds-and-margin" None None;
  build_order_payload := upstox_order_payload;
  build_modify_payload := upstox_modify_payload;
  parse_order_response := upstox_parse_order;
  parse_cancel_response := upstox_parse_cancel;
  parse_orders_response := upstox_parse_orders;
  parse_positions_response := upstox_positions;
  parse_holdings_response := upstox_holdings;
  parse_funds_response := upstox_funds;
  map_error := upstox_error;
|}.
End Adapter.
End Upstox.

(** * angel_one *)

Module AngelOne.
Open Scope string_scope.
Open Scope list_scope.

Definition ANGEL_STATUS_MAP : list (string * BrokerOrderStatus) :=
  [("complete", st_FILLED); ("rejected", st_REJECTED); ("cancelled", st_CANCELLED); ("open", st_OPEN);
   ("pending", st_PENDING); ("trigger pending", st_PENDING); ("amo", st_PENDING)].
Definition angel_map_status := status_of ANGEL_STATUS_MAP "lower" py_lower.

Definition ANGEL_ORDER_TYPE_MAP : list (string * string) :=
  [("MARKET", "MARKET"); ("LIMIT", "LIMIT"); ("STOP", "STOPLOSS_MARKET"); ("STOP_LIMIT", "STOPLOSS_LIMIT")].
Definition ANGEL_PRODUCT_MAP : list (string * string) :=
  [("CNC", "DELIVERY"); ("MIS", "INTRADAY"); ("NRML", "CARRYFORWARD")].
Definition ANGEL_VALIDITY_MAP : list (string * string) := [("DAY", "DAY"); ("IOC", "IOC"); ("GTC", "DAY")].

Definition variety_for (order_type : string) : string :=
  if bool_decide (order_type ∈ ["STOP"; "STOP_LIMIT"]) then "STOPLOSS" else "NORMAL".

Definition ANGEL_ERROR_CODE_MAP : list (string * BrokerErrorClass) :=
  [("AG8001", bx_AUTHENTICATION); ("AG8002", bx_AUTHENTICATION); ("AG8003", bx_AUTHORIZATION);
   ("AB1004", bx_RATE_LIMIT); ("AB1005", bx_VALIDATION)].

Definition classify_message (message : jv) (default : BrokerErrorClass) : res BrokerErrorClass :=
  let! lowered := on_text "lower" py_lower message in
  Ok (if py_in "token" lowered || py_in "login" lowered || py_in "session" lowered then bx_AUTHENTICATION
      else if py_in "rate" lowered || py_in "limit" lowered then bx_RATE_LIMIT
      else if py_in "reject" lowered then bx_ORDER_REJECTED
      else if py_in "invalid" lowered || py_in "required" lowered then bx_VALIDATION
      else default).

(** [v is False] *)
Definition is_false (v : jv) : bool := match v with VBool false => true | _ => false end.

Definition angel_error (r : TransportResponse) : res exn :=
  let body := body_of r in
  let! status_flag := vget body "status" in
  let! error_code :=
    (let! a := vget body "errorcode" in
     let! b := vget body "code" in
     on_text "strip" py_strip (v_or a (v_or b (VStr "")))) in
  let! message := error_message body r in
  let code := tp_status_code r in
  let! c :=
    (if (code =? 200)%Z && is_false status_flag then
       let! d := classify_message message bx_UNKNOWN in Ok (default d (table_get error_code ANGEL_ERROR_CODE_MAP))
     else Ok (default (http_error_class true code) (table_get error_code ANGEL_ERROR_CODE_MAP))) in
  Ok (provider_error c message (if String.eqb error_code "" then str_Z code else error_code)).

Definition angel_capabilities : BrokerCapabilities :=
  capabilities_of ANGEL_ONE ["NSE"; "BSE"; "NFO"; "MCX"] ["CNC"; "MIS"; "NRML"].

Definition ORDER_V1 : string := "/rest/secure/angelbroking/order/v1".

Section Adapter.
Context {T : Type} `{Transport T} (bc : BrokerConfig).
Abbreviation BW := (BrokerWorld T).

Definition angel_headers (w : BW) : list (string * string) :=
  [("Authorization", "Bearer " +:+ vstr (bw_token w)); ("X-PrivateKey", default "" (bw_api_key w));
   ("Content-Type", "application/json")].

Definition angel_send (method path : string) (params json : option (list (string * jv))) : M BW TransportResponse :=
  let* w := gets id in bw_request method path params json (angel_headers w).

Definition angel_authenticate (creds : BrokerCredentialsRef) : M BW BrokerSessionState :=
  let* resolved := lift (resolve_credentials bc (cr_secret_ref creds)) in
  let api_key := secret resolved "api_key" in
  modify (fun w => bw_auth (Some api_key) (bw_token w) w) ;*
  let client_code := if String.eqb (secret resolved "client_code") "" then cr_account_identifier creds
                     else secret resolved "client_code" in
  let password := secret resolved "password" in
  let totp := secret resolved "totp" in
  lift (broker_fail (String.eqb api_key "" || String.eqb client_code "" || String.eqb password "")
          bx_AUTHENTICATION "missing Angel One api_key/client_code/password") ;*
  let* resp := bw_request "POST" "/rest/auth/angelbroking/user/v1/loginByPassword" None
                 (Some [("clientcode", VStr client_code); ("password", VStr password); ("totp", VStr totp)]) [] in
  let* flag := lift (vget (body_of resp) "status") in
  (if is_false flag || negb ((tp_status_code resp =? 200) || (tp_status_code resp =? 201))%Z
   then lift (let! e := angel_error resp in Err e) else ret tt) ;*
  let* data := lift (get_or (body_of resp) "data" (VDict [])) in
  let* jwt := lift (vget data "jwtToken") in
  modify (fun w => bw_auth (bw_api_key w) jwt w) ;*
  lift (broker_fail (negb (vtruthy jwt)) bx_AUTHENTICATION "login returned no JWT token") ;*
  session_of bc ANGEL_ONE (cr_account_identifier creds).

(** [resp.body.get("status") is not False]: a missing body raises. *)
Definition angel_validate_session : M BW BrokerSessionState :=
  let* resp := angel_send "GET" "/rest/secure/angelbroking/user/v1/getProfile" None None in
  let* w := gets id in
  let* authenticated :=
    (if resp_ok resp then
       let* flag := lift (vget (match tp_body resp with Some d => VDict d | None => VNone end) "status") in
       ret (negb (is_false flag))
     else ret false) in
  let* t := now bc in
  ret {| ses_broker_name := ANGEL_ONE; ses_account_identifier := bc_account_reference bc;
         ses_connected := bool_decide (bw_state w = CONNECTED); ses_authenticated := authenticated;
         ses_checked_at := t; ses_expires_at := None; ses_state := DISCONNECTED |}.

Definition price_text (price : option decimal) : string := match price with Some p => dec_str p | None => "0" end.

Definition angel_order_payload (r : BrokerOrderRequest) : M BW (list (string * jv)) :=
  let* instrument := resolve_instrument r in
  let order_type := order_type_text (rq_order_type r) in
  let* ordertype := lift (table_item order_type ANGEL_ORDER_TYPE_MAP) in
  let* producttype := lift (table_item (product_type_value (rq_product_type r)) ANGEL_PRODUCT_MAP) in
  let* duration := lift (table_item (validity_value (rq_validity r)) ANGEL_VALIDITY_MAP) in
  ret [("variety", VStr (variety_for order_type)); ("tradingsymbol", VStr (bi_symbol instrument));
       ("symboltoken", VStr (Upstox.token_of instrument)); ("transactiontype", VStr (broker_side_value (rq_side r)));
       ("exchange", VStr (rq_exchange r)); ("ordertype", VStr ordertype); ("producttype", VStr producttype);
       ("duration", VStr duration); ("price", VStr (price_text (rq_limit_price r)));
       ("triggerprice", VStr (price_text (rq_stop_price r))); ("squareoff", VStr "0"); ("stoploss", VStr "0");
       ("quantity", VStr (str_Z (rq_quantity r)))].

Definition angel_modify_payload (r : BrokerOrderRequest) (broker_order_id : string) : M BW (list (string * jv)) :=
  let* payload := angel_order_payload r in ret (payload ++ [("orderid", VStr broker_order_id)]).

(** [row.get(a) or row.get(b) or default] *)
Definition get_either (row : jv) (a b : string) (default : jv) : res jv :=
  let! x := vget row a in let! y := vget row b in Ok (v_or x (v_or y default)).

Definition angel_order_row (row : jv) : M BW (option BrokerOrderResponse) :=
  let* quantity := lift (let! v := get_or row "quantity" (VInt 0) in vint v) in
  let* filled := lift (let! v := get_either row "filledquantity" "filledQuantity" (VInt 0) in vint v) in
  let* status := lift (let! a := vget row "orderstatus" in let! b := vget row "status" in
                       angel_map_status (v_or a b) filled quantity) in
  let* client := lift (get_or row "clientorderid" (VStr "")) in
  let* order_id := lift (vget row "orderid") in
  let* average := lift (vget row "averageprice") in
  listed_order bc status (vstr client) order_id filled average.

Definition angel_orders (r : TransportResponse) : M BW (list BrokerOrderResponse) :=
  let* rows := lift (order_rows r) in each_row angel_order_row rows.

Definition angel_position_row (m : InstrumentMapping) (row : jv) : M BW (option BrokerPositionSnapshot) :=
  let* net_qty := lift (let! v := get_or row "netqty" (VInt 0) in vint v) in
  if (net_qty =? 0)%Z then ret None
  else
    let* symbol := lift (get_or row "tradingsymbol" (VStr "")) in
    let* exchange := lift (get_or row "exchange" (VStr "")) in
    let* average := lift (vget row "netavgprice") in
    position_of bc (instrument_id_for m (vstr exchange) (vstr symbol)) (dec_of_Z net_qty) average (vstr exchange)
      (vstr symbol).

Definition angel_positions (r : TransportResponse) : M BW (list BrokerPositionSnapshot) :=
  let* data := lift (get_or (body_of r) "data" (VList [])) in
  let* rows := lift (viter data) in
  let* w := gets id in
  each_row (angel_position_row (bw_mapping w)) rows.

Definition angel_holding_row (m : InstrumentMapping) (row : jv) : M BW (option BrokerHoldingSnapshot) :=
  let* symbol := lift (get_or row "tradingsymbol" (VStr "")) in
  let* exchange := lift (get_or row "exchange" (VStr "")) in
  let* quantity := lift (let! v := get_or row "quantity" (VInt 0) in vdecimal v) in
  let* average := lift (vget row "averageprice") in
  holding_of bc (instrument_id_for m (vstr exchange) (vstr symbol)) quantity average (vstr exchange) (vstr symbol).

Definition angel_holdings (r : TransportResponse) : M BW (list BrokerHoldingSnapshot) :=
  let* data := lift (get_or (body_of r) "data" (VList [])) in
  let* rows := lift (viter data) in
  let* w := gets id in
  each_row (angel_holding_row (bw_mapping w)) rows.

Definition angel_funds (r : TransportResponse) : M BW BrokerFundsSnapshot :=
  let* data := lift (get_or (body_of r) "data" (VDict [])) in
  let* cash := lift (vget data "availablecash") in
  let* used := lift (vget data "usedmargin") in
  funds_of bc cash used cash.

Definition angel_event (raw : jv) : M BW NormalizedBrokerEvent :=
  let* status := lift (let! v := get_either raw "orderstatus" "status" (VStr "") in on_text "lower" py_lower v) in
  let* order_id := lift (let! a := vget raw "orderid" in let! b := vget raw "order_id" in Ok (v_or a b)) in
  let* filled := lift (let! v := get_either raw "filledquantity" "filledQuantity" (VInt 0) in vint v) in
  let* quantity := lift (let! v := get_or raw "quantity" (VInt 0) in vint v) in
  let* reason := lift (get_or raw "statusmessage" (VStr "")) in
  event_of bc (event_type_of (String.eqb status "complete") (String.eqb status "rejected")
                 (String.eqb status "cancelled") filled quantity) order_id filled reason.

Definition angel_parse_order := order_response bc "orderid" (T:=T).
Definition angel_parse_cancel := cancel_response bc "orderid" (T:=T).

#[export] Instance AngelOneAdapter : Provider T := {|
  authenticate := angel_authenticate;
  do_submit := fun payload => angel_send "POST" (ORDER_V1 +:+ "/placeOrder") None (Some payload);
  do_modify := fun payload id =>
    angel_send "POST" (ORDER_V1 +:+ "/modifyOrder") None
      (Some (filter (fun kv => kv.1 <> "orderid") payload ++ [("orderid", VStr id)]));
  do_cancel := fun id =>
    angel_send "POST" (ORDER_V1 +:+ "/cancelOrder") None (Some [("orderid", VStr id); ("variety", VStr "NORMAL")]);
  do_get_order := fun _ => angel_send "GET" (ORDER_V1 +:+ "/getOrderBook") None None;
  do_get_orders := angel_send "GET" (ORDER_V1 +:+ "/getOrderBook") None None;
  do_get_trades := angel_send "GET" (ORDER_V1 +:+ "/getTradeBook") None None;
  do_get_positions := angel_send "GET" "/rest/secure/angelbroking/portfolio/v1/getPosition" None None;
  do_get_holdings := angel_send "GET" "/rest/secure/angelbroking/portfolio/v1/getHolding" None None;
  do_get_funds := angel_send "GET" "/rest/secure/angelbroking/user/v1/getRMS" None None;
  build_order_payload := angel_order_payload;
  build_modify_payload := angel_modify_payload;
  parse_order_response := angel_parse_order;
  parse_cancel_response := angel_parse_cancel;
  parse_orders_response := angel_orders;
  parse_positions_response := angel_positions;
  parse_holdings_response := angel_holdings;
  parse_funds_response := angel_funds;
  map_error := angel_error;
|}.

(** Angel One overrides [get_order]: it searches the order book. *)
Definition angel_get_order (broker_order_id : string) : M BW BrokerOrderResponse :=
  guard_connection ;*
  let* resp := do_get_order broker_order_id in
  check_response resp ;*
  let* orders := parse_orders_response resp in
  match List.find (fun o => bool_decide (rp_broker_order_id o = Some broker_order_id)) orders with
  | Some o => ret o
  | None => lift (Err (broker_error bx_NOT_FOUND ("order " +:+ broker_order_id +:+ " not found")))
  end.
End Adapter.
End AngelOne.

(** * Correctness *)

Section AdapterFacts.
Context {T : Type} `{Transport T} (bc : BrokerConfig).
Abbreviation BW := (BrokerWorld T).

(** ** Events of one order *)

(** The event parsers of the three adapters. *)
Definition event_parsers : list (jv -> M BW NormalizedBrokerEvent) :=
  [Zerodha.zerodha_event bc; Upstox.upstox_event bc; AngelOne.angel_event bc].

Lemma lift_ok {S A} (r : res A) (s : S) a s' : lift r s = (Ok a, s') -> r = Ok a /\ s' = s.
Proof. unfold lift. by intros [= -> ->]. Qed.

Ltac steps E := repeat (apply bind_ok in E as (? & ? & ?%lift_ok & E)).

Lemma event_parser_ends p raw (w : BW) e w' : p ∈ event_parsers -> p raw w = (Ok e, w') ->
  exists t o f r w0, event_of bc t o f r w0 = (Ok e, w').
Proof.
  unfold event_parsers. rewrite !elem_of_cons, elem_of_nil.
  intros [->|[->|[->|[]]]] E; unfold Zerodha.zerodha_event, Upstox.upstox_event, AngelOne.angel_event in E;
    do 5 (apply bind_ok in E as (? & ? & ?%lift_ok & E)); eexists _, _, _, _, _; exact E.
Qed.

Lemma event_of_spec t o f r (w : BW) e w' : event_of bc t o f r w = (Ok e, w') ->
  nb_source_event_id e = nb_broker_order_id e /\
  match nb_broker_order_id e with Some s => order_id_for bc s = Ok (nb_order_id e) | None => True end.
Proof.
  unfold event_of. intros E. apply bind_ok in E as (u & w1 & [Hu ->]%lift_ok & E).
  unfold bind, now, bw_call, ret in E. injection E as <- _. cbn. by destruct (text_or_none o).
Qed.

(** An order can report only one event.  All three adapters use the broker's
    order id as the id of each event, so every event of an order has the same
    identity: once one of them was taken, any other one, such as the fill that
    completes a partial fill, is refused as a conflict and changes nothing. *)
Theorem later_events_of_order_refused p raw1 raw2 (w1 w2 : BW) e1 e2 w1' w2' broker_id seen seen1 :
  p ∈ event_parsers -> p raw1 w1 = (Ok e1, w1') -> p raw2 w2 = (Ok e2, w2') ->
  nb_broker_order_id e1 = Some broker_id -> nb_broker_order_id e2 = Some broker_id -> broker_id <> ""%string ->
  broker_event_hash e1 <> broker_event_hash e2 -> event_apply e1 seen = (Ok true, seen1) ->
  exists x, event_apply e2 seen1 = (Err x, seen1) /\ exn_cls x = DuplicateEventError.
Proof.
  intros Hp E1 E2 H1 H2 Hne Hh Ha. destruct (event_parser_ends _ _ _ _ _ Hp E1) as (? & ? & ? & ? & ? & F1%event_of_spec).
  destruct (event_parser_ends _ _ _ _ _ Hp E2) as (? & ? & ? & ? & ? & F2%event_of_spec).
  rewrite H1 in F1. rewrite H2 in F2. destruct F1 as [S1 O1], F2 as [S2 O2].
  assert (broker_event_identity e1 = broker_event_identity e2) as Hid.
  { unfold broker_event_identity. rewrite S1, S2. destruct broker_id; [done|]. do 2 f_equal. congruence. }
  rewrite event_apply_run in Ha. destruct (seen !! broker_event_identity e1) eqn:Hs.
  { destruct (String.eqb _ _); discriminate Ha. }
  injection Ha as <-. rewrite event_apply_run, <- Hid, lookup_insert_eq.
  destruct (String.eqb_spec (broker_event_hash e1) (broker_event_hash e2)); [done|]. by eexists.
Qed.

(** ** Orders *)

Lemma order_response_status key r q (w : BW) o w' : order_response bc key r q w = (Ok o, w') ->
  rp_status o = st_BROKER_ACKNOWLEDGED.
Proof. unfold order_response. intros E. steps E. unfold bind, now, bw_call, ret in E. by injection E as <- _. Qed.

Lemma get_order_ends `{Provider T} bid (w : BW) o w' : get_order bid w = (Ok o, w') ->
  exists r w1, parse_order_response r None w1 = (Ok o, w').
Proof.
  unfold get_order. intros E. apply bind_ok in E as (? & ? & _ & E). apply bind_ok in E as (r & ? & _ & E).
  apply bind_ok in E as (? & w1 & _ & E). eauto.
Qed.

(** With Zerodha and Upstox, asking for an order never tells its state: the
    answer is BROKER_ACKNOWLEDGED for a filled, rejected or cancelled order
    too. *)
Theorem get_order_never_reports_status bid (w : BW) o w' :
  get_order (H:=Zerodha.ZerodhaAdapter bc) bid w = (Ok o, w') \/ get_order (H:=Upstox.UpstoxAdapter bc) bid w = (Ok o, w') ->
  rp_status o = st_BROKER_ACKNOWLEDGED.
Proof. by intros [(r & w1 & E)%get_order_ends|(r & w1 & E)%get_order_ends]; apply order_response_status in E. Qed.

(** Angel One's refusals count as accepted orders.  Angel One reports failures
    as HTTP 200 with [status: false], which the adapter's own error mapping
    classifies as an error; but the base class asks the mapping only after a
    failing HTTP status, so the refused order is answered
    BROKER_ACKNOWLEDGED. *)
Theorem angel_refusal_acknowledged resp d q (w : BW) : tp_status_code resp = 200 -> tp_body resp = Some d ->
  item "status" d = VBool false ->
  exists o w', (check_response (H:=AngelOne.AngelOneAdapter bc) resp ;*
                parse_order_response (Provider:=AngelOne.AngelOneAdapter bc) resp (Some q)) w = (Ok o, w') /\
    rp_status o = st_BROKER_ACKNOWLEDGED /\ rp_client_order_id o = rq_client_order_id q.
Proof.
  intros Hcode Hbody Hflag. unfold check_response, resp_ok. rewrite Hcode. cbn [Z.leb Z.ltb Z.compare andb Pos.compare Pos.compare_cont].
  unfold bind at 1, ret at 1. cbn [parse_order_response AngelOne.AngelOneAdapter].
  assert (body_of resp = VDict d) as Hb by (unfold body_of; rewrite Hbody; by destruct d).
  unfold AngelOne.angel_parse_order, order_response, response_order_id, get_or. rewrite Hb. cbn [vget rbind].
  unfold bind, lift, now, bw_call, ret. eexists _, _. split; [reflexivity|done].
Qed.

(** ** Payloads *)

(** The three adapters with their capabilities. *)
Definition adapters : list (BrokerCapabilities * Provider T) :=
  [(Zerodha.zerodha_capabilities, Zerodha.ZerodhaAdapter bc); (Upstox.upstox_capabilities, Upstox.UpstoxAdapter bc);
   (AngelOne.angel_capabilities, AngelOne.AngelOneAdapter bc)].

(** Every supported order can be written for the broker.  For each adapter, an
    order whose type and product are among its capabilities and whose instrument
    is mapped becomes a payload that carries the order's quantity and side and
    the broker's names for the rest; no table lookup fails, and nothing else
    changes. *)
Theorem supported_orders_translate cap (p : Provider T) r i (w : BW) : (cap, p) ∈ adapters ->
  order_type_text (rq_order_type r) ∈ cp_supported_order_types cap ->
  product_type_value (rq_product_type r) ∈ cp_supported_products cap ->
  mapping_resolve (bw_mapping w) (rq_instrument_id r) (rq_exchange r) (rq_symbol r) = Ok i ->
  exists payload, build_order_payload r w = (Ok payload, w) /\
    (item "quantity" payload = VInt (rq_quantity r) \/ item "quantity" payload = VStr (str_Z (rq_quantity r))) /\
    (item "transaction_type" payload = VStr (broker_side_value (rq_side r)) \/
     item "transactiontype" payload = VStr (broker_side_value (rq_side r))).
Proof.
  unfold adapters. rewrite !elem_of_cons, elem_of_nil. intros Hp _ Hprod Hi.
  assert (resolve_instrument r w = (Ok i, w)) as Hr by (unfold resolve_instrument, bind, gets, lift, id; by rewrite Hi).
  destruct Hp as [[= -> ->]|[[= -> ->]|[[= -> ->]|[]]]];
    cbn [build_order_payload Zerodha.ZerodhaAdapter Upstox.UpstoxAdapter AngelOne.AngelOneAdapter];
    unfold Zerodha.zerodha_order_payload, Upstox.upstox_order_payload, AngelOne.angel_order_payload, bind;
    rewrite Hr.
  - destruct (rq_product_type r), (rq_order_type r), (rq_validity r); (eexists; split; [reflexivity|]); auto.
  - destruct (rq_product_type r); [| |by apply (bool_decide_pack _) in Hprod];
      destruct (rq_order_type r), (rq_validity r); (eexists; split; [reflexivity|]); auto.
  - destruct (rq_product_type r), (rq_order_type r), (rq_validity r); (eexists; split; [reflexivity|]); auto.
Qed.
End AdapterFacts.

Module AdapterSample.
Open Scope string_scope.
Open Scope list_scope.

Definition answer (code : Z) (body : list (string * jv)) : TransportResponse :=
  {| tp_status_code := code; tp_body := Some body; tp_text := None; tp_headers := [] |}.

Definition network (r : TransportResponse) : FakeTransport := {| fk_calls := []; fk_responses := []; fk_default := r |}.

Definition infy : BrokerInstrument :=
  {| bi_internal_instrument_id := 3; bi_exchange := "NSE"; bi_symbol := "INFY"; bi_broker_token := "1594";
     bi_instrument_key := "NSE_EQ|INE009A01021"; bi_security_type := EQUITY; bi_expiry := None; bi_strike := None;
     bi_option_type := None; bi_lot_size := 1; bi_tick_size := Dec false 5 (-2) |}.

Definition world (r : TransportResponse) : BrokerWorld FakeTransport :=
  {| bw_transport := network r; bw_mapping := mapping_register infy []; bw_limiter := []; bw_state := CONNECTED;
     bw_reconnects := 0; bw_last_change := None; bw_session := None; bw_credentials := None; bw_api_key := Some "k";
     bw_token := VStr "t"; bw_tick := 0 |}.

Definition config (cap : BrokerCapabilities) (halted : bool) : BrokerConfig :=
  {| bc_capabilities := cap; bc_account_reference := ""; bc_max_attempts := 3;
     bc_global_halt_active := Some (fun _ => halted);
     bc_credential_resolver := Some (fun _ => Ok [("api_key", "k"); ("access_token", "t"); ("password", "p")]);
     bc_broker_account_id := 5; bc_order_id_resolver := Some (fun _ => Ok (Some 42%N));
     bc_clock := fun n => utc (1000000 + Z.of_nat n); bc_monotonic := fun n => inject_Z (Z.of_nat n);
     bc_patience := 10 |}.

Definition order (mode : BrokerMode) (validity : OrderValidity) : BrokerOrderRequest :=
  {| rq_broker_account_id := 5; rq_instrument_id := 3; rq_client_order_id := "c1"; rq_side := bs_BUY;
     rq_order_type := ot_LIMIT; rq_product_type := CNC; rq_quantity := 10; rq_trading_mode := mode;
     rq_exchange := "NSE"; rq_symbol := "INFY"; rq_validity := validity; rq_limit_price := Some (Dec false 15005 (-1));
     rq_stop_price := None; rq_risk_approval_id := "" |}.

Abbreviation zc := (config Zerodha.zerodha_capabilities).
Abbreviation ac := (config AngelOne.angel_capabilities).

(** An order goes out once; a live one, or one during a halt, does not. *)
Example sent : let '(r, w) := submit_order (H:=Zerodha.ZerodhaAdapter (zc false)) (zc false) (order bm_PAPER DAY)
                                (world (answer 200 [("data", VDict [("order_id", VStr "O1")])])) in
  match r with Ok o => rp_broker_order_id o = Some "O1" | Err _ => False end /\
  List.length (fk_calls (bw_transport w)) = 1%nat.
Proof. vm_compute. done. Qed.

Example not_sent : (fun p => List.length (fk_calls (bw_transport (snd (submit_order
    (H:=Zerodha.ZerodhaAdapter (zc p.2)) (zc p.2) (order p.1 DAY) (world (answer 200 []))))))) <$>
  [(bm_LIVE, false); (bm_PAPER, true)] = [0%nat; 0%nat].
Proof. vm_compute. reflexivity. Qed.

(** Angel One's error mapping and its answer to the same response. *)
Definition denied : TransportResponse :=
  answer 200 [("status", VBool false); ("errorcode", VStr "AB1004"); ("message", VStr "order refused")].

Example denied_is_an_error : match AngelOne.angel_error denied with
  | Ok x => broker_error_class x = Some bx_RATE_LIMIT
  | Err _ => False
  end.
Proof. vm_compute. reflexivity. Qed.

Lemma refusal_witness : exists o w', submit_order (H:=AngelOne.AngelOneAdapter (ac false)) (ac false)
    (order bm_PAPER DAY) (world denied) = (Ok o, w') /\ rp_status o = st_BROKER_ACKNOWLEDGED.
Proof.
  pose (w1 := snd ((guard_halt (ac false) ;* @do_submit _ (AngelOne.AngelOneAdapter (ac false))
    match fst (AngelOne.angel_order_payload (order bm_PAPER DAY) (world denied)) with Ok p => p | Err _ => [] end)
    (world denied))).
  destruct (angel_refusal_acknowledged (ac false) denied
    [("status", VBool false); ("errorcode", VStr "AB1004"); ("message", VStr "order refused")]
    (order bm_PAPER DAY) w1 eq_refl eq_refl eq_refl) as (o & w' & E & Ho & _).
  exists o, w'. split; [|exact Ho]. rewrite <- E. vm_compute. reflexivity.
Defined.

(** The order of a GTC request is written as a DAY order. *)
Example gtc_becomes_day : match fst (AngelOne.angel_order_payload (order bm_PAPER GTC) (world denied)) with
  | Ok p => item "duration" p = VStr "DAY"
  | Err _ => False
  end.
Proof. vm_compute. reflexivity. Qed.

(** After a reconnection that failed three times the old session is returned as
    connected. *)
Definition login : M (BrokerWorld FakeTransport) BrokerSessionState :=
  adapter_connect (H:=Zerodha.ZerodhaAdapter (zc false)) (zc false)
    {| cr_broker_name := ZERODHA; cr_account_identifier := "a"; cr_secret_ref := "s" |} ;*
  modify (fun w => bw_set (network (answer 503 [])) (bw_limiter w) (bw_tick w) w) ;*
  adapter_reconnect (H:=Zerodha.ZerodhaAdapter (zc false)) (zc false).

Example stale_session : let '(r, w) := login (world (answer 200 [])) in
  match r with Ok s => ses_connected s = true | Err _ => False end /\ bw_state w = DEGRADED.
Proof. vm_compute. done. Qed.

(** A partial fill and the fill that completes the order. *)
Definition update (filled : Z) (status : string) : jv :=
  VDict [("order_id", VStr "O1"); ("status", VStr status); ("quantity", VInt 10); ("filled_quantity", VInt filled)].
Definition parsed (filled : Z) (status : string) : NormalizedBrokerEvent :=
  {| nb_order_id := 42; nb_event_type := if (filled <? 10)%Z then be_PARTIAL_FILL else be_FILL;
     nb_broker_order_id := Some "O1"; nb_fill_quantity := dec_of_Z filled; nb_occurred_at := utc 1000000;
     nb_reason := ""; nb_source_event_id := Some "O1" |}.

Lemma parsed_run filled status : In (filled, status) [(4, "OPEN"); (10, "COMPLETE")] ->
  exists w', Zerodha.zerodha_event (zc false) (update filled status) (world denied) = (Ok (parsed filled status), w').
Proof. intros [[= <- <-]|[[= <- <-]|[]]]; eexists; vm_compute; reflexivity. Qed.

Lemma collision_witness : exists x seen, snd (event_apply (parsed 4 "OPEN") ∅) = seen /\
  event_apply (parsed 10 "COMPLETE") seen = (Err x, seen) /\ exn_cls x = DuplicateEventError.
Proof.
  destruct (parsed_run 4 "OPEN") as [w1 E1]; [left; reflexivity|].
  destruct (parsed_run 10 "COMPLETE") as [w2 E2]; [right; left; reflexivity|].
  destruct (later_events_of_order_refused (T:=FakeTransport) (zc false) (Zerodha.zerodha_event (zc false))
    (update 4 "OPEN") (update 10 "COMPLETE") (world denied) (world denied) (parsed 4 "OPEN") (parsed 10 "COMPLETE")
    w1 w2 "O1" ∅ (snd (event_apply (parsed 4 "OPEN") ∅))) as (x & Hx & Hc).
  - apply list_elem_of_here.
  - exact E1.
  - exact E2.
  - reflexivity.
  - reflexivity.
  - discriminate.
  - vm_compute. discriminate.
  - vm_compute. reflexivity.
  - exists x, (snd (event_apply (parsed 4 "OPEN") ∅)). split; [reflexivity|]. split; [exact Hx|exact Hc].
Defined.

Lemma translate_witness : exists payload,
  @build_order_payload _ (Upstox.UpstoxAdapter (zc false)) (order bm_PAPER DAY) (world denied) = (Ok payload, world denied) /\
  item "quantity" payload = VInt 10.
Proof.
  destruct (supported_orders_translate (T:=FakeTransport) (zc false) Upstox.upstox_capabilities
    (Upstox.UpstoxAdapter (zc false)) (order bm_PAPER DAY) infy (world denied)) as (payload & E & _).
  - right. left.
  - right. left.
  - left.
  - reflexivity.
  - exists payload. split; [exact E|].
    assert (Ok payload = fst (@build_order_payload _ (Upstox.UpstoxAdapter (zc false)) (order bm_PAPER DAY) (world denied)))
      as Hp by (rewrite E; reflexivity).
    vm_compute in Hp. injection Hp as ->. reflexivity.
Defined.
End AdapterSample.
