(* ===== verification/Backtest.v ===== *)
(** The backtesting foundation (src/backtesting/alpha_algo_backtesting): the
    deterministic clock (clock.py), the canonical text and digest of history
    (hashing.py), the checked input (input_data.py), forward replay (replay.py)
    and the session that ties them together (session.py).

    Records are candles or ticks; their time stamps are checked to be aware when
    an input is built, so that comparing them never raises. *)

From stdpp Require Import base list strings gmap sorting.
From Stdlib Require Import ZArith Lia String Ascii.
From S2P Require Import Prelude PyBase Hashing Decimal DecimalText Market.
Open Scope Z_scope.

(** * Records *)

Inductive market_record := rec_candle (c : MarketCandle) | rec_tick (t : MarketTick).

Definition record_timestamp (r : market_record) : datetime :=
  match r with rec_candle c => cd_candle_start c | rec_tick t => tk_timestamp t end.
Definition record_symbol (r : market_record) : string :=
  match r with rec_candle c => cd_symbol c | rec_tick t => tk_symbol t end.
Definition record_exchange (r : market_record) : string :=
  match r with rec_candle c => cd_exchange c | rec_tick t => tk_exchange t end.
Definition record_instrument (r : market_record) : UUID :=
  match r with rec_candle c => cd_instrument_id c | rec_tick t => tk_instrument_id t end.
Definition is_candle (r : market_record) : bool := match r with rec_candle _ => true | rec_tick _ => false end.

(** The order of aware time stamps. *)
Definition ts_le (a b : datetime) : bool := dt_instant a <=? dt_instant b.
Definition ts_lt (a b : datetime) : bool := dt_instant a <? dt_instant b.

(** * clock.py *)

Record SimulationClock := {
  sk_current : datetime;
  sk_step : Z;                      (* microseconds *)
}.

Definition mk_SimulationClock (c : SimulationClock) : res SimulationClock :=
  raise_if (negb (dt_aware (sk_current c))) ValueError "current must be timezone-aware" ;!
  raise_if (sk_step c <=? 0) ValueError "step must be positive" ;!
  Ok c.

Definition clock_advance (c : SimulationClock) (times : Z) : res SimulationClock :=
  raise_if (times <? 1) ValueError "times must be a positive integer" ;!
  mk_SimulationClock {| sk_current := dt_add (sk_current c) (sk_step c * times); sk_step := sk_step c |}.

Definition steps_until (c : SimulationClock) (target : datetime) : res Z :=
  raise_if (negb (dt_aware target)) ValueError "target must be timezone-aware" ;!
  raise_if (ts_lt target (sk_current c)) ValueError "target must not be before current" ;!
  let delta := dt_instant target - dt_instant (sk_current c) in
  raise_if (negb (delta mod sk_step c =? 0)) ValueError "target must be aligned to the step grid" ;!
  Ok (delta / sk_step c).

(** * hashing.py *)

(** [value.astimezone(UTC).isoformat(timespec="microseconds")] *)
Definition canonical_time (d : datetime) : string :=
  let u := utc (dt_instant d) in
  let text := isoformat u in
  if dt_instant d mod 1000000 =? 0 then
    (* isoformat leaves out zero microseconds *)
    str_take 19 text +:+ ".000000" +:+ str_drop 19 text
  else text.

Definition canonical_opt {A} (f : A -> string) (o : option A) : string := match o with Some a => f a | None => "None" end.

Definition canonical_serialize (r : market_record) : string :=
  String.concat "|"
    match r with
    | rec_candle c =>
        [uuid_str (cd_instrument_id c); cd_exchange c; cd_symbol c; timeframe_value (cd_timeframe c);
         canonical_time (cd_candle_start c); dec_str (cd_open_price c); dec_str (cd_high_price c);
         dec_str (cd_low_price c); dec_str (cd_close_price c); canonical_opt str_Z (cd_volume c);
         cd_source_broker c; canonical_time (cd_generated_at c)]
    | rec_tick t =>
        [uuid_str (tk_instrument_id t); tk_exchange t; tk_symbol t; canonical_time (tk_timestamp t);
         dec_str (tk_ltp t); canonical_opt str_Z (tk_volume t); canonical_opt dec_str (tk_bid t);
         canonical_opt dec_str (tk_ask t); canonical_opt str_Z (tk_bid_quantity t);
         canonical_opt str_Z (tk_ask_quantity t); tk_source_broker t; tk_source_sequence t;
         canonical_time (tk_received_at t)]
    end.

Definition newline : string := String (ascii_of_N 10) "".

Definition canonical_bytes (records : list market_record) : string :=
  String.concat newline (canonical_serialize <$> records).
Definition content_sha256 (records : list market_record) : string := sha256_hex (canonical_bytes records).

(** * input_data.py *)

Record BacktestInput := {
  bt_dataset_id : string;
  bt_source : string;
  bt_records : list market_record;
  bt_metadata : metadata;
}.

Definition check_record (first : market_record) (previous : option market_record) (index : nat) (r : market_record)
    : res unit :=
  raise_if (negb (Bool.eqb (is_candle r) (is_candle first))) ValueError
    "records must all be the same kind (all candles or all ticks)" ;!
  raise_if (negb (dt_aware (record_timestamp r))) ValueError "record timestamps must be timezone-aware" ;!
  raise_if (negb (record_instrument r =? record_instrument first)%N) ValueError "records must share a single instrument" ;!
  raise_if (negb (String.eqb (record_exchange r) (record_exchange first))) ValueError
    "records must share a single exchange" ;!
  raise_if (negb (String.eqb (record_symbol r) (record_symbol first))) ValueError "records must share a single symbol" ;!
  raise_if (match r, first with
            | rec_candle c, rec_candle f => negb (bool_decide (cd_timeframe c = cd_timeframe f))
            | _, _ => false
            end) ValueError "candles must share a single timeframe" ;!
  match previous with
  | Some p =>
      raise_if (ts_lt (record_timestamp r) (record_timestamp p)) ValueError
        ("records must be sorted ascending by timestamp (index " +:+ str_Z (Z.of_nat index) +:+ ")") ;!
      raise_if (dt_instant (record_timestamp r) =? dt_instant (record_timestamp p)) ValueError
        ("duplicate record timestamp at index " +:+ str_Z (Z.of_nat index))
  | None => Ok tt
  end ;!
  match r with
  | rec_tick t =>
      match tk_bid t, tk_ask t with
      | Some b, Some a => raise_if (dgt b a) ValueError ("tick bid cannot exceed ask (index " +:+ str_Z (Z.of_nat index) +:+ ")")
      | _, _ => Ok tt
      end
  | rec_candle _ => Ok tt
  end.

Fixpoint check_records (first : market_record) (previous : option market_record) (index : nat)
    (records : list market_record) : res unit :=
  match records with
  | [] => Ok tt
  | r :: rest => check_record first previous index r ;! check_records first (Some r) (S index) rest
  end.

Definition mk_BacktestInput (i : BacktestInput) : res BacktestInput :=
  raise_if (is_blank (bt_dataset_id i)) ValueError "dataset_id is required" ;!
  raise_if (is_blank (bt_source i)) ValueError "source is required" ;!
  match bt_records i with
  | [] => raise ValueError "backtest requires at least one data record"
  | first :: _ => check_records first None 0 (bt_records i) ;! Ok i
  end.

Definition record_count (i : BacktestInput) : Z := Z.of_nat (List.length (bt_records i)).

(** [records[0]] and [records[-1]] *)
Definition first_timestamp (i : BacktestInput) : res datetime :=
  match head (bt_records i) with
  | Some r => Ok (record_timestamp r)
  | None => raise IndexError "tuple index out of range"
  end.
Definition last_timestamp (i : BacktestInput) : res datetime :=
  match last (bt_records i) with
  | Some r => Ok (record_timestamp r)
  | None => raise IndexError "tuple index out of range"
  end.
Definition records_kind (i : BacktestInput) : res string :=
  match head (bt_records i) with
  | Some r => Ok (if is_candle r then "candles" else "ticks")
  | None => raise IndexError "tuple index out of range"
  end.

(** [counts[symbol] = counts.get(symbol, 0) + 1], in insertion order *)
Fixpoint count_symbol (symbol : string) (counts : list (string * Z)) : list (string * Z) :=
  match counts with
  | [] => [(symbol, 1)]
  | (s, n) :: rest => if String.eqb s symbol then (s, n + 1) :: rest else (s, n) :: count_symbol symbol rest
  end.
Definition symbol_counts (i : BacktestInput) : list (string * Z) :=
  sort_keys (foldl (fun counts r => count_symbol (record_symbol r) counts) [] (bt_records i)).

(** * replay.py *)

Record DataReplayCursor := {
  rpc_records : list market_record;
  rpc_index : nat;
}.

Definition mk_DataReplayCursor (records : list market_record) : res DataReplayCursor :=
  match records with
  | [] => raise ValueError "replay requires at least one record"
  | _ => Ok {| rpc_records := records; rpc_index := 0 |}
  end.

Definition cursor_peek (c : DataReplayCursor) : option market_record := rpc_records c !! rpc_index c.
Definition cursor_next : M DataReplayCursor (option market_record) :=
  fun c => match rpc_records c !! rpc_index c with
           | Some r => (Ok (Some r), {| rpc_records := rpc_records c; rpc_index := S (rpc_index c) |})
           | None => (Ok None, c)
           end.
Definition is_exhausted (c : DataReplayCursor) : bool := (List.length (rpc_records c) <=? rpc_index c)%nat.


(** * session.py *)

Definition MANIFEST_SCHEMA_VERSION : string := "1".
Definition CANONICAL_SERIALIZER_VERSION : string := "1".

Record InputManifest := {
  im_schema_version : string;
  im_serializer_version : string;
  im_dataset_id : string;
  im_source : string;
  im_record_count : Z;
  im_records_kind : string;
  im_first_timestamp : datetime;
  im_last_timestamp : datetime;
  im_content_sha256 : string;
  im_per_symbol_counts : list (string * Z);
}.

Definition mk_InputManifest (m : InputManifest) : res InputManifest :=
  raise_if (negb (dt_aware (im_first_timestamp m))) ValueError "first_timestamp must be timezone-aware" ;!
  raise_if (negb (dt_aware (im_last_timestamp m))) ValueError "last_timestamp must be timezone-aware" ;!
  Ok m.

(** [BacktestTradingMode] has one member. *)
Inductive BacktestTradingMode := BACKTEST.

Record BacktestAuditRecord := {
  au_run_id : UUID;
  au_created_at : datetime;
  au_mode : BacktestTradingMode;
  au_input_manifest : InputManifest;
  au_start_at : datetime;
  au_end_at : datetime;
  au_step : Z;
  au_caller_metadata : metadata;
}.

Definition mk_BacktestAuditRecord (a : BacktestAuditRecord) : res BacktestAuditRecord :=
  raise_if (negb (dt_aware (au_created_at a))) ValueError "created_at must be timezone-aware" ;!
  raise_if (negb (dt_aware (au_start_at a))) ValueError "start_at must be timezone-aware" ;!
  raise_if (negb (dt_aware (au_end_at a))) ValueError "end_at must be timezone-aware" ;!
  Ok a.

Record BacktestSession := {
  ss_inputs : BacktestInput;
  ss_step : Z;
  ss_run_id : UUID;
  ss_created_at : datetime;
  ss_clock : SimulationClock;
  ss_cursor : DataReplayCursor;
  ss_manifest : InputManifest;
  ss_audit : BacktestAuditRecord;
}.

(** [__init__]: [created_at] is what the audit clock returns and [uuid4] what a
    fresh identifier would be. *)
Definition mk_BacktestSession (inputs : BacktestInput) (step : Z) (run_id : option UUID) (created_at : datetime)
    (uuid4 : UUID) : res BacktestSession :=
  raise_if (step <=? 0) ValueError "step must be positive" ;!
  raise_if (negb (dt_aware created_at)) ValueError "audit clock must return a timezone-aware datetime" ;!
  let id := default uuid4 run_id in
  let! first := first_timestamp inputs in
  let! clock := mk_SimulationClock {| sk_current := first; sk_step := step |} in
  let! cursor := mk_DataReplayCursor (bt_records inputs) in
  let! kind := records_kind inputs in
  let! final := last_timestamp inputs in
  let! manifest := mk_InputManifest
    {| im_schema_version := MANIFEST_SCHEMA_VERSION; im_serializer_version := CANONICAL_SERIALIZER_VERSION;
       im_dataset_id := bt_dataset_id inputs; im_source := bt_source inputs; im_record_count := record_count inputs;
       im_records_kind := kind; im_first_timestamp := first; im_last_timestamp := final;
       im_content_sha256 := content_sha256 (bt_records inputs); im_per_symbol_counts := symbol_counts inputs |} in
  let! audit := mk_BacktestAuditRecord
    {| au_run_id := id; au_created_at := created_at; au_mode := BACKTEST; au_input_manifest := manifest;
       au_start_at := first; au_end_at := final; au_step := step; au_caller_metadata := bt_metadata inputs |} in
  Ok {| ss_inputs := inputs; ss_step := step; ss_run_id := id; ss_created_at := created_at; ss_clock := clock;
        ss_cursor := cursor; ss_manifest := manifest; ss_audit := audit |}.

Definition session_with (clock : SimulationClock) (cursor : DataReplayCursor) (s : BacktestSession) : BacktestSession :=
  {| ss_inputs := ss_inputs s; ss_step := ss_step s; ss_run_id := ss_run_id s; ss_created_at := ss_created_at s;
     ss_clock := clock; ss_cursor := cursor; ss_manifest := ss_manifest s; ss_audit := ss_audit s |}.

Definition session_current_time (s : BacktestSession) : datetime := sk_current (ss_clock s).
Definition session_advance (times : Z) : M BacktestSession unit :=
  fun s => match clock_advance (ss_clock s) times with
           | Ok c => (Ok tt, session_with c (ss_cursor s) s)
           | Err e => (Err e, s)
           end.
Definition session_peek_next (s : BacktestSession) : option market_record := cursor_peek (ss_cursor s).
Definition session_next_record : M BacktestSession (option market_record) :=
  zoom ss_cursor (fun c s => session_with (ss_clock s) c s) cursor_next.
Definition session_exhausted (s : BacktestSession) : bool := is_exhausted (ss_cursor s).
Definition records_consumed (s : BacktestSession) : nat := rpc_index (ss_cursor s).

(** * Ordered history *)

Definition instant (r : market_record) : Z := dt_instant (record_timestamp r).

Definition alike (first r : market_record) : Prop :=
  is_candle r = is_candle first /\ dt_aware (record_timestamp r) = true /\
  record_instrument r = record_instrument first /\ record_exchange r = record_exchange first /\
  record_symbol r = record_symbol first.

Lemma check_record_ok first previous index r : check_record first previous index r = Ok tt ->
  alike first r /\ forall p, previous = Some p -> instant p < instant r.
Proof.
  unfold check_record. intros H. res_inv. unfold alike, instant.
  repeat match goal with
  | H : negb _ = false |- _ => apply negb_false_iff in H
  | H : Bool.eqb _ _ = true |- _ => apply Bool.eqb_prop in H
  | H : N.eqb _ _ = true |- _ => apply N.eqb_eq in H
  | H : String.eqb _ _ = true |- _ => apply String.eqb_eq in H
  end.
  split; [done|]. intros p ->. cbn iota in *. res_inv. unfold ts_lt in *. lia.
Qed.

Lemma check_records_ok first records : forall previous index,
  check_records first previous index records = Ok tt ->
  Forall (alike first) records /\ StronglySorted Z.lt (instant <$> records) /\
  forall p, previous = Some p -> Forall (fun r => instant p < instant r) records.
Proof.
  induction records as [|r rest IH]; intros previous index H; simpl in *.
  { split_and!; [constructor|constructor|]. intros. constructor. }
  res_inv. destruct a. apply check_record_ok in E as [Ha Hp]. apply IH in K as (Hall & Hs & Hr).
  specialize (Hr r eq_refl). split_and!.
  - by constructor.
  - constructor; [done|]. apply Forall_fmap. exact Hr.
  - intros p ->. specialize (Hp p eq_refl). constructor; [done|].
    eapply Forall_impl; [exact Hr|]. simpl. lia.
Qed.

(** What building an input establishes. *)
Definition coherent_history (i : BacktestInput) : Prop :=
  exists first rest, bt_records i = first :: rest /\ Forall (alike first) (bt_records i) /\
    StronglySorted Z.lt (instant <$> bt_records i).

Lemma input_coherent i i' : mk_BacktestInput i = Ok i' -> i' = i /\ coherent_history i.
Proof.
  unfold mk_BacktestInput. intros H. res_inv.
  destruct (bt_records i) as [|first rest] eqn:Er; [done|]. res_inv.
  destruct a1. apply check_records_ok in E1 as (Ha & Hs & _). split; [done|]. exists first, rest. by rewrite Er.
Qed.

(** * Replay *)

(** [n] calls of [next_record]. *)
Fixpoint next_records (n : nat) : M BacktestSession (list (option market_record)) :=
  match n with
  | O => ret []
  | S n => let* r := session_next_record in let* rest := next_records n in ret (r :: rest)
  end.

(** Everything of a session but the place of its cursor. *)
Definition same_session (s s' : BacktestSession) : Prop :=
  s' = session_with (ss_clock s) (ss_cursor s') s /\ rpc_records (ss_cursor s') = rpc_records (ss_cursor s).

Lemma same_session_trans a b c : same_session a b -> same_session b c -> same_session a c.
Proof.
  unfold same_session. destruct a, b, c. cbn. intros [H1 H2] [H3 H4]. injection H1. injection H3. intros.
  subst. split; [done|by rewrite H4].
Qed.

Lemma session_next_run s :
  session_next_record s = (Ok (session_peek_next s), snd (session_next_record s)) /\
  same_session s (snd (session_next_record s)) /\
  records_consumed (snd (session_next_record s)) =
    Nat.max (records_consumed s) (Nat.min (S (records_consumed s)) (List.length (rpc_records (ss_cursor s)))).
Proof.
  unfold session_next_record, zoom, cursor_next, session_peek_next, cursor_peek, same_session, records_consumed.
  destruct s as [inp st id cr ck [rs ix] mf au]; cbn -[Nat.max Nat.min].
  destruct (rs !! ix) as [r|] eqn:E; cbn -[Nat.max Nat.min]; split_and!; try done.
  - apply lookup_lt_Some in E. lia.
  - apply lookup_ge_None in E. lia.
Qed.

Lemma next_records_run n : forall s, (records_consumed s <= List.length (rpc_records (ss_cursor s)))%nat ->
  let s' := snd (next_records n s) in
  fst (next_records n s) = Ok ((fun k => rpc_records (ss_cursor s) !! (records_consumed s + k)%nat) <$> seq 0 n) /\
  same_session s s' /\
  records_consumed s' = Nat.min (records_consumed s + n) (List.length (rpc_records (ss_cursor s))).
Proof.
  induction n as [|n IH]; intros s Hs; cbn zeta.
  - cbn. split_and!; [done|by destruct s|lia].
  - cbn [next_records]. destruct (session_next_run s) as (E & [H1 H2] & H3).
    unfold bind at 1 3 5. rewrite E. set (s1 := snd (session_next_record s)) in *.
    destruct (IH s1) as (F & [G1 G2] & G3); [rewrite H3, H2; lia|].
    unfold bind. destruct (next_records n s1) as [q s2]. cbn in F, G1, G2, G3. subst q. cbn.
    split; [|split].
    + unfold session_peek_next, cursor_peek. f_equal. f_equal; [by rewrite Nat.add_0_r|].
      rewrite <- fmap_S_seq, <- list_fmap_compose. apply list_fmap_ext. intros j k Hk. cbn. rewrite H2, H3.
      destruct (decide (records_consumed s < List.length (rpc_records (ss_cursor s)))%nat).
      * f_equal. lia.
      * rewrite !lookup_ge_None_2 by lia. done.
    + exact (same_session_trans _ _ _ (conj H1 H2) (conj G1 G2)).
    + rewrite G3, H3, H2. lia.
Qed.

(** A fresh session replays the history it was given, in order and without
    gaps, then answers that nothing is left; replay touches neither the clock,
    the manifest nor the audit record. *)
Theorem replay_is_the_history inputs step run_id created_at uuid4 s n :
  mk_BacktestSession inputs step run_id created_at uuid4 = Ok s ->
  let s' := snd (next_records n s) in
  fst (next_records n s) = Ok ((fun k => bt_records inputs !! k) <$> seq 0 n) /\
  ss_clock s' = ss_clock s /\ ss_manifest s' = ss_manifest s /\ ss_audit s' = ss_audit s /\
  session_exhausted s' = (List.length (bt_records inputs) <=? n)%nat.
Proof.
  intros H. unfold mk_BacktestSession in H. res_inv.
  unfold mk_DataReplayCursor in *. destruct (bt_records inputs) eqn:Er; [done|]. rewrite <- Er in *. res_inv.
  match goal with |- context [next_records n ?s0] => set (s := s0) end.
  destruct (next_records_run n s) as (F & [G1 G2] & G3); [cbn; lia|]. cbn zeta.
  set (s' := snd (next_records n s)) in *. split_and!.
  - rewrite F. done.
  - by rewrite G1.
  - by rewrite G1.
  - by rewrite G1.
  - unfold session_exhausted, is_exhausted. fold (records_consumed s'). rewrite G2, G3. cbn.
    set (len := List.length _). destruct (Nat.leb_spec len n); [apply Nat.leb_le|apply Nat.leb_gt]; lia.
Qed.

(** * The clock *)

(** Counting the steps to where [advance] leads gives back their number. *)
Lemma clock_steps_roundtrip c n c' : mk_SimulationClock c = Ok c -> clock_advance c n = Ok c' ->
  steps_until c (sk_current c') = Ok n /\ mk_SimulationClock c' = Ok c'.
Proof.
  destruct c as [[i o] st]. unfold clock_advance, mk_SimulationClock, steps_until, ts_lt. cbn. intros Hc H.
  res_inv. cbn. destruct o as [o|]; [|done]. cbn in *.
  destruct (Z.ltb_spec (i + st * n) i); [nia|]. cbn.
  replace (i + st * n - i) with (n * st) by lia. rewrite Z.mod_mul, Z.div_mul by lia. cbn.
  split; [done|]. destruct (Z.leb_spec st 0); [lia|done].
Qed.

(** * Identity of history *)

Module HistorySample.

Definition candle (exchange symbol : string) : MarketCandle :=
  {| cd_instrument_id := 7; cd_exchange := exchange; cd_symbol := symbol; cd_timeframe := ONE_MINUTE;
     cd_candle_start := utc 1700000000000000; cd_open_price := dec_of_Z 100; cd_high_price := dec_of_Z 100;
     cd_low_price := dec_of_Z 100; cd_close_price := dec_of_Z 100; cd_volume := None; cd_source_broker := "file";
     cd_generated_at := utc 1700000060000000 |}.

(** The canonical text of a record. *)
Example canonical_text : canonical_serialize (rec_candle (candle "NSE" "INFY")) =
  "00000000-0000-0000-0000-000000000007|NSE|INFY|1m|2023-11-14T22:13:20.000000+00:00|100|100|100|100|None|file|2023-11-14T22:14:20.000000+00:00".
Proof. vm_compute. reflexivity. Qed.

(** The separator is not escaped: two valid candles that differ in exchange and
    symbol have the same canonical text, and so the same digest. *)
Theorem digest_not_injective :
  let a := candle "NSE|FO" "INFY" in let b := candle "NSE" "FO|INFY" in
  mk_MarketCandle a = Ok a /\ mk_MarketCandle b = Ok b /\ a <> b /\
  content_sha256 [rec_candle a] = content_sha256 [rec_candle b].
Proof. cbn zeta. split_and!; [vm_compute; reflexivity..|discriminate|]. unfold content_sha256. by f_equal. Qed.

Definition input : BacktestInput :=
  {| bt_dataset_id := "sample"; bt_source := "file"; bt_metadata := ∅; bt_records := [rec_candle (candle "NSE" "INFY")] |}.

Definition session : BacktestSession :=
  match mk_BacktestSession input 60000000 (Some 1%N) (utc 0) 2%N with
  | Ok s => s
  | Err _ =>
      {| ss_inputs := input; ss_step := 0; ss_run_id := 0; ss_created_at := utc 0;
         ss_clock := {| sk_current := utc 0; sk_step := 0 |}; ss_cursor := {| rpc_records := []; rpc_index := 0 |};
         ss_manifest := {| im_schema_version := ""; im_serializer_version := ""; im_dataset_id := ""; im_source := "";
                           im_record_count := 0; im_records_kind := ""; im_first_timestamp := utc 0;
                           im_last_timestamp := utc 0; im_content_sha256 := ""; im_per_symbol_counts := [] |};
         ss_audit := {| au_run_id := 0; au_created_at := utc 0; au_mode := BACKTEST;
                        au_input_manifest := {| im_schema_version := ""; im_serializer_version := ""; im_dataset_id := "";
                           im_source := ""; im_record_count := 0; im_records_kind := ""; im_first_timestamp := utc 0;
                           im_last_timestamp := utc 0; im_content_sha256 := ""; im_per_symbol_counts := [] |};
                        au_start_at := utc 0; au_end_at := utc 0; au_step := 0; au_caller_metadata := ∅ |} |}
  end.

Lemma session_made : mk_BacktestSession input 60000000 (Some 1%N) (utc 0) 2%N = Ok session.
Proof. vm_compute. reflexivity. Qed.

Lemma history_witness :
  fst (next_records 2 session) = Ok [Some (rec_candle (candle "NSE" "INFY")); None].
Proof. exact (proj1 (replay_is_the_history input 60000000 (Some 1%N) (utc 0) 2%N session 2 session_made)). Defined.

End HistorySample.
