(* ===== verification/BacktestEngine.v ===== *)
(** The single-instrument backtest (src/backtesting/alpha_algo_backtest_engine):
    order intents (intents.py), costs (costs.py), fill resolution (fills.py), the
    FIFO lot ledger (ledger.py), the simulation (engine.py) and its metrics
    (metrics.py).

    A run is a pure function of the history, the intents, the cost model and the
    capital.  The context precision of 28 digits the code pins is the one the
    decimal model has, so that every operation rounds as the code's does.  The
    source's [isinstance] and [is_finite] guards hold of every value of the
    model's types. *)

From stdpp Require Import base list strings gmap sorting.
From Stdlib Require Import ZArith QArith Lqa Lia String Ascii.
From S2P Require Import Prelude PyBase Decimal DecimalText Money Service Market Backtest.
Open Scope Z_scope.

(** * intents.py *)

Inductive IntentSide := it_BUY | it_SELL.
Inductive IntentType := it_MARKET | it_LIMIT.

#[export] Instance IntentSide_eq_dec : EqDecision IntentSide.
Proof. solve_decision. Defined.
#[export] Instance IntentType_eq_dec : EqDecision IntentType.
Proof. solve_decision. Defined.

Record OrderIntent := {
  oi_side : IntentSide;
  oi_order_type : IntentType;
  oi_quantity : decimal;
  oi_decided_at : datetime;
  oi_limit_price : option decimal;
  oi_label : option string;
}.

Definition refuse (b : bool) (msg : string) : res unit := raise_if b BacktestEngineError msg.

Definition mk_OrderIntent (i : OrderIntent) : res OrderIntent :=
  refuse (dle (oi_quantity i) dzero) "quantity must be positive" ;!
  refuse (negb (dt_aware (oi_decided_at i))) "decided_at must be timezone-aware" ;!
  match oi_order_type i with
  | it_LIMIT =>
      match oi_limit_price i with
      | None => raise BacktestEngineError "limit orders require a positive limit_price"
      | Some p => refuse (dle p dzero) "limit_price must be positive"
      end
  | it_MARKET =>
      refuse (match oi_limit_price i with Some _ => true | None => false end) "market orders must not carry a limit_price"
  end ;!
  Ok i.

(** * costs.py *)

Record CostModel := {
  cm_commission_per_fill : decimal;
  cm_slippage_bps : decimal;
}.

Definition mk_CostModel (c : CostModel) : res CostModel :=
  refuse (dlt (cm_commission_per_fill c) dzero) "commission_per_fill must be non-negative" ;!
  refuse (dlt (cm_slippage_bps c) dzero) "slippage_bps must be non-negative" ;!
  refuse (dge (cm_slippage_bps c) (dec_of_Z 10000))
    "slippage_bps must be below 10000 (a 100%+ sell slippage would produce a non-positive fill price)" ;!
  Ok c.

Definition apply_slippage (anchor : decimal) (side : IntentSide) (bps : decimal) : res decimal :=
  refuse (dle anchor dzero) "anchor_price must be positive" ;!
  refuse (dlt bps dzero || dge bps (dec_of_Z 10000)) "slippage_bps must be in [0, 10000)" ;!
  if deq bps dzero then Ok anchor
  else
    let! part := ddiv bps (dec_of_Z 10000) in
    let factor := match side with it_BUY => dadd (dec_of_Z 1) part | it_SELL => dsub (dec_of_Z 1) part end in
    Ok (dmul anchor factor).

Definition commission_for (commission_per_fill : decimal) : res decimal :=
  refuse (dlt commission_per_fill dzero) "commission_per_fill must be non-negative" ;!
  Ok commission_per_fill.

(** * fills.py *)

Inductive UnfilledReason :=
| NO_RECORD_AFTER_DECISION | INSUFFICIENT_CASH | INSUFFICIENT_POSITION | LIMIT_NOT_EXECUTABLE
| NO_EXECUTABLE_ASK | NO_EXECUTABLE_BID.

Definition unfilled_value (r : UnfilledReason) : string :=
  match r with
  | NO_RECORD_AFTER_DECISION => "NO_RECORD_AFTER_DECISION" | INSUFFICIENT_CASH => "INSUFFICIENT_CASH"
  | INSUFFICIENT_POSITION => "INSUFFICIENT_POSITION" | LIMIT_NOT_EXECUTABLE => "LIMIT_NOT_EXECUTABLE"
  | NO_EXECUTABLE_ASK => "NO_EXECUTABLE_ASK" | NO_EXECUTABLE_BID => "NO_EXECUTABLE_BID"
  end.

Record FillRecord := {
  fi_sequence : Z;
  fi_intent_index : nat;
  fi_side : IntentSide;
  fi_quantity : decimal;
  fi_anchor_price : decimal;
  fi_slippage_per_share : decimal;
  fi_fill_price : decimal;
  fi_commission_amount : decimal;
  fi_gross_value : decimal;
  fi_cash_flow : decimal;
  fi_record_index : nat;
  fi_filled_at : datetime;
}.

Record FillOutcome := {
  fo_intent_index : nat;
  fo_filled : bool;
  fo_fill : option FillRecord;
  fo_reason : option string;
}.

Record FillEvaluation := {
  fe_outcome : FillOutcome;
  fe_fill : option FillRecord;
  fe_cash : decimal;
  fe_position : decimal;
}.

Definition no_fill (index : nat) (reason : UnfilledReason) : FillOutcome :=
  {| fo_intent_index := index; fo_filled := false; fo_fill := None; fo_reason := Some (unfilled_value reason) |}.

Definition unfilled (index : nat) (reason : UnfilledReason) (cash position : decimal) : FillEvaluation :=
  {| fe_outcome := no_fill index reason; fe_fill := None; fe_cash := cash; fe_position := position |}.

(** The anchor price, or why there is none. *)
Definition executable_anchor (intent : OrderIntent) (record : market_record) : res (decimal + UnfilledReason) :=
  match record with
  | rec_candle c =>
      match oi_order_type intent with
      | it_LIMIT =>
          match oi_limit_price intent with
          | None => raise BacktestEngineError "limit intents require a limit_price"
          | Some limit =>
              if match oi_side intent with
                 | it_BUY => dlt limit (cd_open_price c)
                 | it_SELL => dgt limit (cd_open_price c)
                 end then Ok (inr LIMIT_NOT_EXECUTABLE) else Ok (inl (cd_open_price c))
          end
      | it_MARKET => Ok (inl (cd_open_price c))
      end
  | rec_tick t =>
      match oi_order_type intent, oi_side intent with
      | it_LIMIT, it_BUY =>
          match tk_ask t with
          | None => Ok (inr NO_EXECUTABLE_ASK)
          | Some ask =>
              match oi_limit_price intent with
              | None => raise BacktestEngineError "limit intents require a limit_price"
              | Some limit => if dlt limit ask then Ok (inr LIMIT_NOT_EXECUTABLE) else Ok (inl ask)
              end
          end
      | it_LIMIT, it_SELL =>
          match tk_bid t with
          | None => Ok (inr NO_EXECUTABLE_BID)
          | Some bid =>
              match oi_limit_price intent with
              | None => raise BacktestEngineError "limit intents require a limit_price"
              | Some limit => if dgt limit bid then Ok (inr LIMIT_NOT_EXECUTABLE) else Ok (inl bid)
              end
          end
      | it_MARKET, it_BUY => Ok (inl (default (tk_ltp t) (tk_ask t)))
      | it_MARKET, it_SELL => Ok (inl (default (tk_ltp t) (tk_bid t)))
      end
  end.

Definition evaluate_fill (intent : OrderIntent) (record : market_record) (record_index : nat)
    (cash position : decimal) (cost_model : CostModel) (sequence : Z) (intent_index : nat) : res FillEvaluation :=
  refuse (dlt position dzero) "position must be non-negative" ;!
  let! anchored := executable_anchor intent record in
  match anchored with
  | inr reason => Ok (unfilled intent_index reason cash position)
  | inl anchor =>
      refuse (dle anchor dzero) ("anchor price must be strictly positive (got " +:+ dec_str anchor +:+ ")") ;!
      let! fill_price := match oi_order_type intent with
                         | it_MARKET => apply_slippage anchor (oi_side intent) (cm_slippage_bps cost_model)
                         | it_LIMIT => Ok anchor
                         end in
      let slippage_per_share := dabs (dsub fill_price anchor) in
      let! commission := commission_for (cm_commission_per_fill cost_model) in
      let gross_value := dmul (oi_quantity intent) fill_price in
      let fill cash_flow new_cash new_position :=
        let f := {| fi_sequence := sequence; fi_intent_index := intent_index; fi_side := oi_side intent;
                    fi_quantity := oi_quantity intent; fi_anchor_price := anchor;
                    fi_slippage_per_share := slippage_per_share; fi_fill_price := fill_price;
                    fi_commission_amount := commission; fi_gross_value := gross_value; fi_cash_flow := cash_flow;
                    fi_record_index := record_index; fi_filled_at := record_timestamp record |} in
        {| fe_outcome := {| fo_intent_index := intent_index; fo_filled := true; fo_fill := Some f; fo_reason := None |};
           fe_fill := Some f; fe_cash := new_cash; fe_position := new_position |} in
      match oi_side intent with
      | it_SELL =>
          if dlt position (oi_quantity intent) then Ok (unfilled intent_index INSUFFICIENT_POSITION cash position)
          else
            let cash_flow := dsub gross_value commission in
            if dlt (dadd cash cash_flow) dzero then Ok (unfilled intent_index INSUFFICIENT_CASH cash position)
            else Ok (fill cash_flow (dadd cash cash_flow) (dsub position (oi_quantity intent)))
      | it_BUY =>
          let cash_flow := dminus (dadd gross_value commission) in
          if dlt (dadd cash cash_flow) dzero then Ok (unfilled intent_index INSUFFICIENT_CASH cash position)
          else Ok (fill cash_flow (dadd cash cash_flow) (dadd position (oi_quantity intent)))
      end
  end.

(** * ledger.py *)

Record TradeRecord := {
  tr_sequence : Z;
  tr_entry_fill_sequence : Z;
  tr_exit_fill_sequences : list Z;
  tr_quantity : decimal;
  tr_entry_price : decimal;
  tr_exit_price : decimal;
  tr_entry_cost : decimal;
  tr_exit_cost : decimal;
  tr_realized_pnl : decimal;
}.

Record Lot := {
  lt_entry_fill_sequence : Z;
  lt_entry_price : decimal;
  lt_total_quantity : decimal;
  lt_remaining_quantity : decimal;
  lt_entry_cost : decimal;
  lt_exit_fill_sequences : list Z;
  lt_weighted_exit_sum : decimal;
  lt_entry_cost_used : decimal;
  lt_exit_cost_used : decimal;
  lt_realized_total : decimal;
}.

Record FifoLedger := {
  lg_lots : list Lot;
  lg_trade_sequence : Z;
}.

Definition open_lot (f : FillRecord) (l : FifoLedger) : res FifoLedger :=
  refuse (negb (bool_decide (fi_side f = it_BUY))) "only BUY fills open lots" ;!
  Ok {| lg_lots := lg_lots l ++
          [{| lt_entry_fill_sequence := fi_sequence f; lt_entry_price := fi_fill_price f;
              lt_total_quantity := fi_quantity f; lt_remaining_quantity := fi_quantity f;
              lt_entry_cost := fi_commission_amount f; lt_exit_fill_sequences := [];
              lt_weighted_exit_sum := dzero; lt_entry_cost_used := dzero; lt_exit_cost_used := dzero;
              lt_realized_total := dzero |}];
        lg_trade_sequence := lg_trade_sequence l |}.

(** [min(a, b)] *)
Definition dmin (a b : decimal) : decimal := if dlt b a then b else a.

(** One lot met by a sale of [remaining]. *)
Definition match_lot (f : FillRecord) (remaining : decimal) (lot : Lot) : res Lot :=
  let matched := dmin remaining (lt_remaining_quantity lot) in
  let! entry_share := ddiv (dmul (lt_entry_cost lot) matched) (lt_total_quantity lot) in
  let! exit_share := ddiv (dmul (fi_commission_amount f) matched) (fi_quantity f) in
  let realized_share :=
    dsub (dsub (dmul (dsub (fi_fill_price f) (lt_entry_price lot)) matched) entry_share) exit_share in
  Ok {| lt_entry_fill_sequence := lt_entry_fill_sequence lot; lt_entry_price := lt_entry_price lot;
        lt_total_quantity := lt_total_quantity lot;
        lt_remaining_quantity := dsub (lt_remaining_quantity lot) matched;
        lt_entry_cost := lt_entry_cost lot;
        lt_exit_fill_sequences := lt_exit_fill_sequences lot ++ [fi_sequence f];
        lt_weighted_exit_sum := dadd (lt_weighted_exit_sum lot) (dmul (fi_fill_price f) matched);
        lt_entry_cost_used := dadd (lt_entry_cost_used lot) entry_share;
        lt_exit_cost_used := dadd (lt_exit_cost_used lot) exit_share;
        lt_realized_total := dadd (lt_realized_total lot) realized_share |}.

Definition complete_lot (sequence : Z) (lot : Lot) : res TradeRecord :=
  let! exit_price := ddiv (lt_weighted_exit_sum lot) (lt_total_quantity lot) in
  Ok {| tr_sequence := sequence; tr_entry_fill_sequence := lt_entry_fill_sequence lot;
        tr_exit_fill_sequences := lt_exit_fill_sequences lot; tr_quantity := lt_total_quantity lot;
        tr_entry_price := lt_entry_price lot; tr_exit_price := exit_price;
        tr_entry_cost := lt_entry_cost_used lot; tr_exit_cost := lt_exit_cost_used lot;
        tr_realized_pnl := lt_realized_total lot |}.

(** The loop of [close_lots]: the lots, the completed trades, the next trade
    number and what is left to sell. *)
Fixpoint close_loop (f : FillRecord) (remaining : decimal) (sequence : Z) (lots : list Lot)
    : res (list Lot * list TradeRecord * Z * decimal) :=
  match lots with
  | [] => Ok ([], [], sequence, remaining)
  | lot :: rest =>
      if dle remaining dzero then Ok (lots, [], sequence, remaining)
      else if dle (lt_remaining_quantity lot) dzero then
        let! r := close_loop f remaining sequence rest in
        let '(rest', completed, sequence', unsold) := r in Ok (lot :: rest', completed, sequence', unsold)
      else
        let! lot' := match_lot f remaining lot in
        let remaining' := dsub remaining (dmin remaining (lt_remaining_quantity lot)) in
        if deq (lt_remaining_quantity lot') dzero then
          let! trade := complete_lot sequence lot' in
          let! r := close_loop f remaining' (sequence + 1) rest in
          let '(rest', completed, sequence', unsold) := r in Ok (lot' :: rest', trade :: completed, sequence', unsold)
        else
          let! r := close_loop f remaining' sequence rest in
          let '(rest', completed, sequence', unsold) := r in Ok (lot' :: rest', completed, sequence', unsold)
  end.

Definition close_lots (f : FillRecord) (l : FifoLedger) : res (list TradeRecord * FifoLedger) :=
  refuse (negb (bool_decide (fi_side f = it_SELL))) "only SELL fills close lots" ;!
  let! r := close_loop f (fi_quantity f) (lg_trade_sequence l) (lg_lots l) in
  let '(lots, completed, sequence, unsold) := r in
  refuse (dgt unsold dzero) "SELL fill exceeded open position (ledger invariant violated)" ;!
  Ok (completed, {| lg_lots := filter (fun lot => dgt (lt_remaining_quantity lot) dzero = true) lots;
                    lg_trade_sequence := sequence |}).

(** * engine.py *)

Definition mark_price (r : market_record) : res decimal :=
  let price := match r with rec_candle c => cd_close_price c | rec_tick t => tk_ltp t end in
  refuse (dle price dzero) "mark price must be a positive finite Decimal" ;!
  Ok price.

Record EquityPoint := {
  ep_timestamp : datetime;
  ep_equity : decimal;
}.

Record BacktestRun := {
  br_input_sha256 : string;
  br_dataset_id : string;
  br_source : string;
  br_initial_capital : decimal;
  br_cost_model : CostModel;
  br_intents : list OrderIntent;
  br_outcomes : list FillOutcome;
  br_trades : list TradeRecord;
  br_equity_curve : list EquityPoint;
}.

(** [BacktestRun.__post_init__] *)
Definition mk_BacktestRun (r : BacktestRun) : res BacktestRun :=
  refuse (dle (br_initial_capital r) dzero) "initial_capital must be a positive finite Decimal" ;!
  refuse (negb (List.length (br_outcomes r) =? List.length (br_intents r))%nat)
    "outcomes must be 1:1 with intents (nothing silently dropped)" ;!
  refuse (match br_equity_curve r with [] => true | _ => false end)
    "equity_curve must be a non-empty tuple of EquityPoint" ;!
  Ok r.

Definition outcome_fill (o : FillOutcome) : option FillRecord := if fo_filled o then fo_fill o else None.
Definition run_fills (r : BacktestRun) : list FillRecord := omap outcome_fill (br_outcomes r).
Definition final_equity (r : BacktestRun) : res decimal :=
  match last (br_equity_curve r) with
  | Some p => Ok (ep_equity p)
  | None => raise IndexError "tuple index out of range"
  end.
Definition total_commission (r : BacktestRun) : decimal := dsum (fi_commission_amount <$> run_fills r).
Definition total_slippage_cost (r : BacktestRun) : decimal :=
  dsum ((fun f => dmul (fi_slippage_per_share f) (fi_quantity f)) <$> run_fills r).

(** The guard on the order of intents. *)
Fixpoint check_ascending (intents : list OrderIntent) : res unit :=
  match intents with
  | a :: (b :: _) as rest =>
      refuse (ts_le (oi_decided_at b) (oi_decided_at a))
        "intents must be sorted by strictly ascending decided_at (ties rejected; never reordered)" ;!
      check_ascending rest
  | _ => Ok tt
  end.

(** [while cursor < record_count and _record_timestamp(records[cursor]) <= decided_at: cursor += 1],
    as the number of records the cursor passes. *)
Fixpoint skip_past (decided_at : datetime) (records : list market_record) : nat :=
  match records with
  | r :: rest => if ts_le (record_timestamp r) decided_at then S (skip_past decided_at rest) else 0
  | [] => 0
  end.

(** The cursor, the intents anchored at each record and the outcomes so far. *)
Definition Anchors : Type := nat * list (list nat) * list (option FillOutcome).

Definition anchor_step (records : list market_record) (st : Anchors) (entry : nat * OrderIntent) : Anchors :=
  let '(cursor, anchored, outcomes) := st in
  let '(index, intent) := entry in
  let cursor := (cursor + skip_past (oi_decided_at intent) (drop cursor records))%nat in
  if (cursor <? List.length records)%nat then (cursor, alter (fun l => l ++ [index]) cursor anchored, outcomes)
  else (cursor, anchored, <[index := Some (no_fill index NO_RECORD_AFTER_DECISION)]> outcomes).

(** The anchoring loop over [(index, intent)] entries, from an empty table. *)
Definition anchor_intents (records : list market_record) (entries : list (nat * OrderIntent))
    (outcomes : list (option FillOutcome)) : Anchors :=
  foldl (anchor_step records) (0%nat, replicate (List.length records) [], outcomes) entries.

Definition enumerate {A} (l : list A) : list (nat * A) := imap pair l.

Record Sim := {
  sm_cash : decimal;
  sm_position : decimal;
  sm_sequence : Z;
  sm_trades : list TradeRecord;
  sm_ledger : FifoLedger;
  sm_outcomes : list (option FillOutcome);
}.

(** One anchored intent at its record. *)
Definition apply_intent (intents : list OrderIntent) (cost_model : CostModel) (record_index : nat)
    (record : market_record) (s : Sim) (intent_index : nat) : res Sim :=
  match intents !! intent_index with
  | None => raise IndexError "tuple index out of range"
  | Some intent =>
      let! evaluation := evaluate_fill intent record record_index (sm_cash s) (sm_position s) cost_model
                           (sm_sequence s) intent_index in
      let outcomes := <[intent_index := Some (fe_outcome evaluation)]> (sm_outcomes s) in
      match fe_fill evaluation with
      | None =>
          Ok {| sm_cash := fe_cash evaluation; sm_position := fe_position evaluation; sm_sequence := sm_sequence s;
                sm_trades := sm_trades s; sm_ledger := sm_ledger s; sm_outcomes := outcomes |}
      | Some fill =>
          let! booked := match oi_side intent with
                         | it_BUY => let! l := open_lot fill (sm_ledger s) in Ok ([], l)
                         | it_SELL => close_lots fill (sm_ledger s)
                         end in
          Ok {| sm_cash := fe_cash evaluation; sm_position := fe_position evaluation;
                sm_sequence := sm_sequence s + 1; sm_trades := sm_trades s ++ fst booked;
                sm_ledger := snd booked; sm_outcomes := outcomes |}
      end
  end.

(** One record: its fills, then the mark. *)
Definition record_step (intents : list OrderIntent) (cost_model : CostModel) (anchored : list (list nat))
    (acc : Sim * list EquityPoint) (entry : nat * market_record) : res (Sim * list EquityPoint) :=
  let '(s, curve) := acc in
  let '(record_index, record) := entry in
  let! s := foldM (apply_intent intents cost_model record_index record) s (default [] (anchored !! record_index)) in
  let! mark := mark_price record in
  Ok (s, curve ++ [{| ep_timestamp := record_timestamp record;
                      ep_equity := dadd (sm_cash s) (dmul (sm_position s) mark) |}]).

Definition start_sim (initial_capital : decimal) (outcomes : list (option FillOutcome)) : Sim :=
  {| sm_cash := initial_capital; sm_position := dzero; sm_sequence := 0; sm_trades := [];
     sm_ledger := {| lg_lots := []; lg_trade_sequence := 0 |}; sm_outcomes := outcomes |}.

(** The outcomes once every intent has one. *)
Definition settle_outcomes (cls : exn_class) (outcomes : list (option FillOutcome)) : res (list FillOutcome) :=
  match mapM id outcomes with
  | Some l => Ok l
  | None => raise cls "internal error: every intent must have exactly one outcome"
  end.

Definition run_backtest (inputs : BacktestInput) (intents : list OrderIntent) (cost_model : CostModel)
    (initial_capital : decimal) : res BacktestRun :=
  refuse (dle initial_capital dzero) "initial_capital must be a positive finite Decimal" ;!
  check_ascending intents ;!
  let records := bt_records inputs in
  let '(_, anchored, outcomes) :=
    anchor_intents records (enumerate intents) (replicate (List.length intents) None) in
  let! done := foldM (record_step intents cost_model anchored) (start_sim initial_capital outcomes, [])
                 (enumerate records) in
  let! final_outcomes := settle_outcomes BacktestEngineError (sm_outcomes (fst done)) in
  mk_BacktestRun
    {| br_input_sha256 := content_sha256 records; br_dataset_id := bt_dataset_id inputs;
       br_source := bt_source inputs; br_initial_capital := initial_capital; br_cost_model := cost_model;
       br_intents := intents; br_outcomes := final_outcomes; br_trades := sm_trades (fst done);
       br_equity_curve := snd done |}.

(** * metrics.py *)

Record BacktestMetrics := {
  bm_initial_capital : decimal;
  bm_final_equity : decimal;
  bm_total_return : decimal;
  bm_trade_count : Z;
  bm_wins : Z;
  bm_losses : Z;
  bm_breakevens : Z;
  bm_win_rate : option decimal;
  bm_gross_profit : decimal;
  bm_gross_loss : decimal;
  bm_profit_factor : option decimal;
  bm_max_drawdown : decimal;
  bm_sharpe_ratio : option decimal;
  bm_risk_free_rate_per_period : decimal;
}.

(** [Decimal.sqrt] of a non-negative number: one digit more than the precision
    is computed, made inexact in its last place where the root is not exact, and
    rounded. *)
Definition dsqrt (d : decimal) : res decimal :=
  if (dcoef d =? 0)%N then Ok (dfix (Dec (dneg d) 0 (dexp d / 2)))
  else if dneg d then raise InvalidOperation "sqrt(-x), x > 0"
  else
    let digits := Z.of_nat (ndigits (dcoef d)) in
    let odd := Z.odd (dexp d) in
    let c := if odd then (dcoef d * 10)%N else dcoef d in
    let l := if odd then digits / 2 + 1 else (digits + 1) / 2 in
    let shift := Z.of_nat PREC + 1 - l in
    let c' := if 0 <=? shift then (c * 100 ^ Z.to_N shift)%N else (c / 100 ^ Z.to_N (- shift))%N in
    let exact := if 0 <=? shift then true else (c mod 100 ^ Z.to_N (- shift) =? 0)%N in
    let n := N.sqrt c' in
    if exact && (n * n =? c')%N then
      Ok (dfix (Dec false (if 0 <=? shift then (n / 10 ^ Z.to_N shift)%N else (n * 10 ^ Z.to_N (- shift))%N)
                  (dexp d / 2)))
    else Ok (dfix (Dec false (if (n mod 5 =? 0)%N then (n + 1)%N else n) (dexp d / 2 - shift))).

(** One value of the drawdown loop: the peak and the deepest drawdown so far. *)
Definition drawdown_step (acc : decimal * decimal) (value : decimal) : res (decimal * decimal) :=
  let '(peak, deepest) := acc in
  let peak := if dgt value peak then value else peak in
  let! drawdown := ddiv (dsub peak value) peak in
  Ok (peak, if dgt drawdown deepest then drawdown else deepest).

Definition max_drawdown (curve : list decimal) : res decimal :=
  match curve with
  | [] => raise IndexError "list index out of range"
  | first :: _ => let! r := foldM drawdown_step (first, dzero) curve in Ok (snd r)
  end.

(** [(curve[k] - curve[k - 1]) / curve[k - 1]] *)
Fixpoint period_returns (curve : list decimal) : res (list decimal) :=
  match curve with
  | a :: (b :: _) as rest =>
      let! r := ddiv (dsub b a) a in
      let! others := period_returns rest in
      Ok (r :: others)
  | _ => Ok []
  end.

Definition sharpe (returns : list decimal) (risk_free : decimal) : res (option decimal) :=
  if (List.length returns <? 2)%nat then Ok None
  else
    let count := dec_of_Z (Z.of_nat (List.length returns)) in
    let! mean := ddiv (dsum returns) count in
    let! variance := ddiv (dsum ((fun r => let d := dsub r mean in dmul d d) <$> returns)) count in
    let! std := dsqrt variance in
    if deq std dzero then Ok None else let! s := ddiv (dsub mean risk_free) std in Ok (Some s).

Definition count_trades (p : decimal -> bool) (trades : list TradeRecord) : Z :=
  Z.of_nat (List.length (filter (fun t => p (tr_realized_pnl t) = true) trades)).

Definition compute_metrics (run : BacktestRun) (risk_free_rate_per_period : decimal) : res BacktestMetrics :=
  refuse (dlt risk_free_rate_per_period dzero) "risk_free_rate_per_period must be a non-negative finite Decimal" ;!
  let curve := ep_equity <$> br_equity_curve run in
  raise_if (existsb (fun v => dle v dzero) curve) BacktestMetricsError
    "marked equity must stay positive to compute honest metrics" ;!
  let! final := final_equity run in
  let! total_return := ddiv (dsub final (br_initial_capital run)) (br_initial_capital run) in
  let trades := br_trades run in
  let trade_count := Z.of_nat (List.length trades) in
  let wins := count_trades (fun p => dgt p dzero) trades in
  let losses := count_trades (fun p => dlt p dzero) trades in
  let breakevens := count_trades (fun p => deq p dzero) trades in
  let! win_rate := if 0 <? trade_count
                   then let! r := ddiv (dec_of_Z wins) (dec_of_Z trade_count) in Ok (Some r) else Ok None in
  let pnls := tr_realized_pnl <$> trades in
  let gross_profit := dsum (filter (fun p => dgt p dzero = true) pnls) in
  let gross_loss := dsum (dminus <$> filter (fun p => dlt p dzero = true) pnls) in
  let! profit_factor := if dgt gross_loss dzero
                        then let! r := ddiv gross_profit gross_loss in Ok (Some r) else Ok None in
  let! deepest := max_drawdown curve in
  let! returns := period_returns curve in
  let! sharpe_ratio := sharpe returns risk_free_rate_per_period in
  Ok {| bm_initial_capital := br_initial_capital run; bm_final_equity := final; bm_total_return := total_return;
        bm_trade_count := trade_count; bm_wins := wins; bm_losses := losses; bm_breakevens := breakevens;
        bm_win_rate := win_rate; bm_gross_profit := gross_profit; bm_gross_loss := gross_loss;
        bm_profit_factor := profit_factor; bm_max_drawdown := deepest; bm_sharpe_ratio := sharpe_ratio;
        bm_risk_free_rate_per_period := risk_free_rate_per_period |}.

(** * Anchoring *)

(** The record an intent is anchored at: the first one strictly after its
    decision. *)
Definition anchor_of (records : list market_record) (i : OrderIntent) : nat := skip_past (oi_decided_at i) records.

(** The indices of the entries anchored at record [j], in order. *)
Definition anchored_at (records : list market_record) (entries : list (nat * OrderIntent)) (j : nat) : list nat :=
  fst <$> filter (fun e => anchor_of records (snd e) = j) entries.

Lemma anchored_at_cons records i it rest j : anchored_at records ((i, it) :: rest) j =
  (if decide (anchor_of records it = j) then [i] else []) ++ anchored_at records rest j.
Proof.
  unfold anchored_at. destruct (decide (anchor_of records it = j)).
  - by rewrite filter_cons_True.
  - by rewrite filter_cons_False.
Qed.

Lemma skip_past_le d records : (skip_past d records <= List.length records)%nat.
Proof. induction records as [|r l IH]; simpl; [lia|]. destruct (ts_le _ _); lia. Qed.

(** Every record passed is not after [d]; the one reached is. *)
Lemma skip_past_passed d records k r : records !! k = Some r -> (k < skip_past d records)%nat ->
  instant r <= dt_instant d.
Proof.
  revert k. induction records as [|r0 l IH]; intros k Hk Hlt; [done|]. simpl in Hlt.
  unfold ts_le in Hlt. destruct (Z.leb_spec (dt_instant (record_timestamp r0)) (dt_instant d)); [|lia].
  destruct k as [|k]; simpl in Hk; [by simplify_eq|]. apply (IH k); [done|lia].
Qed.

Lemma skip_past_reached d records r : records !! skip_past d records = Some r -> dt_instant d < instant r.
Proof.
  induction records as [|r0 l IH]; simpl; [done|]. unfold ts_le.
  destruct (Z.leb_spec (dt_instant (record_timestamp r0)) (dt_instant d)); simpl; [done|]. by intros [= <-].
Qed.

(** Starting at a cursor whose passed records are not after [d] changes nothing. *)
Lemma skip_past_resume d d' records : dt_instant d' <= dt_instant d ->
  (skip_past d' records + skip_past d (drop (skip_past d' records) records))%nat = skip_past d records.
Proof.
  intros Hd. induction records as [|r l IH]; [done|]. simpl. unfold ts_le at 1 2.
  destruct (Z.leb_spec (dt_instant (record_timestamp r)) (dt_instant d')) as [H|H]; [|done].
  simpl. unfold ts_le. destruct (Z.leb_spec (dt_instant (record_timestamp r)) (dt_instant d)); [|lia].
  f_equal. exact IH.
Qed.

(** Later decisions are anchored no earlier. *)
Lemma skip_past_mono d d' records : dt_instant d' <= dt_instant d -> (skip_past d' records <= skip_past d records)%nat.
Proof. intros H. rewrite <- (skip_past_resume d d' records H). lia. Qed.

Lemma skip_past_local d records k : (skip_past d records < k)%nat ->
  forall records', take k records' = take k records -> (k <= List.length records')%nat ->
  skip_past d records' = skip_past d records.
Proof.
  revert k. induction records as [|r l IH]; intros k Hk records' Ht Hlen; simpl in Hk.
  - destruct k as [|k]; [lia|]. destruct records'; [done|]. done.
  - destruct k as [|k]; [lia|]. destruct records' as [|r' l']; [simpl in Hlen; lia|].
    simpl in Ht. injection Ht as -> Ht. simpl in *. destruct (ts_le (record_timestamp r) d); [|done].
    f_equal. apply (IH k); [lia|done|lia].
Qed.

Definition decided (e : nat * OrderIntent) : Z := dt_instant (oi_decided_at (snd e)).

(** The outcome an intent that is never evaluated keeps. *)
Definition preset (records : list market_record) (outcomes : list (option FillOutcome)) (e : nat * OrderIntent)
    : list (option FillOutcome) :=
  if (anchor_of records (snd e) <? List.length records)%nat then outcomes
  else <[e.1 := Some (no_fill e.1 NO_RECORD_AFTER_DECISION)]> outcomes.

(** The single forward pass of the cursor anchors every entry where a search
    from the start would. *)
Lemma anchor_loop_spec records entries : forall c anchored outcomes,
  StronglySorted Z.lt (decided <$> entries) ->
  Forall (fun e => (c + skip_past (oi_decided_at (snd e)) (drop c records))%nat = anchor_of records (snd e)) entries ->
  List.length anchored = List.length records ->
  exists c', foldl (anchor_step records) (c, anchored, outcomes) entries =
    (c', imap (fun j l => l ++ anchored_at records entries j) anchored, foldl (preset records) outcomes entries).
Proof.
  induction entries as [|[i it] rest IH]; intros c anchored outcomes Hs Hd Hlen; cbn [foldl].
  - exists c. do 2 f_equal. apply list_eq. intros j. rewrite list_lookup_imap.
    destruct (anchored !! j); [|done]. cbn. by rewrite app_nil_r.
  - apply Forall_cons in Hd as [Hd Hrest]. cbn in Hs. inversion Hs as [|? ? Hs' Hall]; subst.
    unfold anchor_of in Hd; cbn [snd] in Hd. unfold anchor_step at 2. rewrite Hd.
    assert (Forall (fun e => (skip_past (oi_decided_at it) records + skip_past (oi_decided_at e.2)
        (drop (skip_past (oi_decided_at it) records) records))%nat = anchor_of records e.2) rest) as Hnext.
    { rewrite Forall_fmap in Hall. eapply Forall_impl; [exact Hall|]. unfold decided. cbn. intros e He.
      apply skip_past_resume. lia. }
    unfold preset at 2. cbn [snd fst]. unfold anchor_of at 1.
    destruct (Nat.ltb_spec (skip_past (oi_decided_at it) records) (List.length records)) as [Hlt|Hge].
    + destruct (IH (skip_past (oi_decided_at it) records)
        (alter (fun l => l ++ [i]) (skip_past (oi_decided_at it) records) anchored) outcomes)
        as [c' E]; [done..|by rewrite length_alter|]. exists c'. rewrite E. f_equal. f_equal.
      apply list_eq. intros j. rewrite !list_lookup_imap.
      destruct (decide (j = skip_past (oi_decided_at it) records)) as [->|Hj].
      * rewrite list_lookup_alter_eq. destruct (anchored !! _) as [l|]; [|done]. cbn -[anchored_at].
        rewrite anchored_at_cons, decide_True by done. by rewrite <- app_assoc.
      * rewrite list_lookup_alter_ne by done. destruct (anchored !! j) as [l|]; [|done]. cbn -[anchored_at].
        rewrite anchored_at_cons, decide_False by (unfold anchor_of; congruence). done.
    + destruct (IH (skip_past (oi_decided_at it) records) anchored
        (<[i:=Some (no_fill i NO_RECORD_AFTER_DECISION)]> outcomes)) as [c' E]; [done..|].
      exists c'. rewrite E. f_equal. f_equal. apply list_eq. intros j. rewrite !list_lookup_imap.
      destruct (anchored !! j) as [l|] eqn:Ej; [|done]. cbn -[anchored_at].
      rewrite anchored_at_cons, decide_False; [done|]. unfold anchor_of. apply lookup_lt_Some in Ej. lia.
Qed.

(** The table the simulation uses. *)
Lemma anchor_intents_spec records entries outcomes : StronglySorted Z.lt (decided <$> entries) ->
  exists c, anchor_intents records entries outcomes =
    (c, (fun j => anchored_at records entries j) <$> seq 0 (List.length records), foldl (preset records) outcomes entries).
Proof.
  intros Hs. unfold anchor_intents.
  destruct (anchor_loop_spec records entries 0 (replicate (List.length records) []) outcomes) as [c E]; [done| |
    by rewrite length_replicate|].
  { apply Forall_forall. intros e _. by rewrite drop_0. }
  exists c. rewrite E. do 2 f_equal. apply list_eq. intros j. rewrite list_lookup_imap, list_lookup_fmap.
  destruct (decide (j < List.length records)%nat).
  - rewrite lookup_replicate_2, lookup_seq_lt by done. done.
  - rewrite !lookup_ge_None_2; [done|rewrite length_seq; lia|rewrite length_replicate; lia].
Qed.

Lemma check_ascending_ok intents : check_ascending intents = Ok tt ->
  StronglySorted Z.lt ((fun i => dt_instant (oi_decided_at i)) <$> intents).
Proof.
  intros H. apply Sorted_StronglySorted; [intros ???; lia|].
  induction intents as [|a [|b rest] IH]; [constructor|repeat constructor|].
  cbn [check_ascending] in H. unfold refuse in H. res_inv. unfold ts_le in *. constructor; [by apply IH|].
  constructor. lia.
Qed.

Lemma enumerate_lookup {A} (l : list A) k : enumerate l !! k = pair k <$> l !! k.
Proof. unfold enumerate. apply list_lookup_imap. Qed.

Lemma fmap_enumerate {A B} (f : nat * A -> B) (l : list A) : f <$> enumerate l = imap (fun k a => f (k, a)) l.
Proof. apply list_eq. intros k. rewrite list_lookup_fmap, enumerate_lookup, list_lookup_imap. by destruct (l !! k). Qed.

Lemma enumerate_decided intents : decided <$> enumerate intents = (fun i => dt_instant (oi_decided_at i)) <$> intents.
Proof. rewrite fmap_enumerate. apply (imap_const (fun i => dt_instant (oi_decided_at i))). Qed.

(** * One evaluation *)

(** What a fill records, and what it does to the account. *)
Definition filled_by (it : OrderIntent) (r : market_record) (j : nat) (cash position : decimal) (cm : CostModel)
    (seq : Z) (i : nat) (ev : FillEvaluation) (f : FillRecord) : Prop :=
  fe_outcome ev = {| fo_intent_index := i; fo_filled := true; fo_fill := Some f; fo_reason := None |} /\
  fe_fill ev = Some f /\ fi_sequence f = seq /\ fi_intent_index f = i /\ fi_side f = oi_side it /\
  fi_quantity f = oi_quantity it /\ fi_record_index f = j /\ fi_filled_at f = record_timestamp r /\
  executable_anchor it r = Ok (inl (fi_anchor_price f)) /\ (0 < dval (fi_anchor_price f))%Q /\
  match oi_order_type it with
  | it_MARKET => apply_slippage (fi_anchor_price f) (oi_side it) (cm_slippage_bps cm) = Ok (fi_fill_price f)
  | it_LIMIT => fi_fill_price f = fi_anchor_price f
  end /\
  fi_gross_value f = dmul (oi_quantity it) (fi_fill_price f) /\ fi_commission_amount f = cm_commission_per_fill cm /\
  fe_cash ev = dadd cash (fi_cash_flow f) /\ (0 <= dval (fe_cash ev))%Q /\
  match oi_side it with
  | it_BUY => fi_cash_flow f = dminus (dadd (fi_gross_value f) (fi_commission_amount f)) /\
              fe_position ev = dadd position (oi_quantity it)
  | it_SELL => fi_cash_flow f = dsub (fi_gross_value f) (fi_commission_amount f) /\
               (dval (oi_quantity it) <= dval position)%Q /\ fe_position ev = dsub position (oi_quantity it)
  end.

Lemma evaluate_fill_cases it r j cash position cm seq i ev :
  evaluate_fill it r j cash position cm seq i = Ok ev ->
  (exists reason, ev = unfilled i reason cash position) \/
  (exists f, filled_by it r j cash position cm seq i ev f).
Proof.
  unfold evaluate_fill, refuse, commission_for. intros H. res_inv. rename a0 into anchored.
  destruct anchored as [anchor|reason]; [|left; exists reason; by simplify_eq]. unfold refuse in *. res_inv.
  apply dle_false in E1. rewrite dval_zero in E1.
  destruct (oi_side it) eqn:Es.
  - destruct (dlt (dadd cash _) dzero) eqn:Hc; res_inv; [by left; eexists|].
    right. apply dlt_false in Hc. rewrite dval_zero in Hc. eexists. unfold filled_by. rewrite Es.
    cbn [fe_outcome fe_fill fe_cash fe_position fi_sequence fi_intent_index fi_side fi_quantity fi_record_index fi_filled_at
      fi_anchor_price fi_fill_price fi_gross_value fi_commission_amount fi_cash_flow].
    split_and!; first [assumption|reflexivity|idtac]. destruct (oi_order_type it); [done|by res_inv].
  - destruct (dlt position (oi_quantity it)) eqn:Hq; res_inv; [by left; eexists|].
    destruct (dlt (dadd cash _) dzero) eqn:Hc; res_inv; [by left; eexists|].
    right. apply dlt_false in Hc, Hq. rewrite dval_zero in Hc. eexists. unfold filled_by. rewrite Es.
    cbn [fe_outcome fe_fill fe_cash fe_position fi_sequence fi_intent_index fi_side fi_quantity fi_record_index fi_filled_at
      fi_anchor_price fi_fill_price fi_gross_value fi_commission_amount fi_cash_flow].
    split_and!; first [assumption|reflexivity|idtac]. destruct (oi_order_type it); [done|by res_inv].
Qed.

(** The account is never overdrawn, the position never short. *)
Definition solvent (cash position : decimal) : Prop := (0 <= dval cash)%Q /\ (0 <= dval position)%Q.

Lemma evaluate_fill_solvent it r j cash position cm seq i ev :
  evaluate_fill it r j cash position cm seq i = Ok ev -> (0 <= dval (oi_quantity it))%Q ->
  solvent cash position -> solvent (fe_cash ev) (fe_position ev).
Proof.
  intros E Hq [Hc Hp]. destruct (evaluate_fill_cases _ _ _ _ _ _ _ _ _ E) as [[reason ->]|[f H]]; [done|].
  unfold filled_by in H. destruct_and! H. split; [done|]. destruct (oi_side it); destruct_and!.
  - match goal with H : fe_position ev = _ |- _ => rewrite H end. apply dadd_nonneg. lra.
  - match goal with H : fe_position ev = _ |- _ => rewrite H end. by apply dsub_nonneg.
Qed.

(** * One intent in the simulation *)

Definition same_book (s s' : Sim) : Prop :=
  sm_cash s = sm_cash s' /\ sm_position s = sm_position s' /\ sm_sequence s = sm_sequence s' /\
  sm_trades s = sm_trades s' /\ sm_ledger s = sm_ledger s'.

(** Where an outcome comes from. *)
Definition outcome_from (it : OrderIntent) (r : market_record) (j : nat) (cm : CostModel) (i : nat) (o : FillOutcome)
    : Prop :=
  exists cash position seq ev, evaluate_fill it r j cash position cm seq i = Ok ev /\ fe_outcome ev = o.

Lemma apply_intent_run intents cm j r s i s' : apply_intent intents cm j r s i = Ok s' ->
  exists it ev, intents !! i = Some it /\
    evaluate_fill it r j (sm_cash s) (sm_position s) cm (sm_sequence s) i = Ok ev /\
    sm_cash s' = fe_cash ev /\ sm_position s' = fe_position ev /\
    sm_outcomes s' = <[i := Some (fe_outcome ev)]> (sm_outcomes s).
Proof.
  unfold apply_intent. destruct (intents !! i) as [it|]; [|done]. intros H. res_inv. exists it, a.
  destruct (fe_fill a); res_inv; done.
Qed.

(** The books do not depend on the outcomes recorded so far. *)
Lemma apply_intent_book intents intents' cm j r s1 s2 i s1' : intents !! i = intents' !! i ->
  same_book s1 s2 -> apply_intent intents cm j r s1 i = Ok s1' ->
  exists s2' o, apply_intent intents' cm j r s2 i = Ok s2' /\ same_book s1' s2' /\
    sm_outcomes s1' = <[i := Some o]> (sm_outcomes s1) /\ sm_outcomes s2' = <[i := Some o]> (sm_outcomes s2).
Proof.
  intros Hi (H1 & H2 & H3 & H4 & H5). unfold apply_intent, same_book. rewrite <- Hi, <- H1, <- H2, <- H3, <- H4, <- H5.
  destruct (intents !! i) as [it|]; [|done]. intros H. res_inv. rewrite E. cbn. exists
    {| sm_cash := sm_cash s1'; sm_position := sm_position s1'; sm_sequence := sm_sequence s1'; sm_trades := sm_trades s1';
       sm_ledger := sm_ledger s1'; sm_outcomes := <[i := Some (fe_outcome a)]> (sm_outcomes s2) |}, (fe_outcome a).
  destruct (fe_fill a); res_inv; cbn; [|done]. rewrite E0. done.
Qed.

(** * A whole run *)

Lemma anchored_at_in records intents i j :
  i ∈ anchored_at records (enumerate intents) j <-> exists it, intents !! i = Some it /\ anchor_of records it = j.
Proof.
  unfold anchored_at. rewrite list_elem_of_fmap. split.
  - intros ([k it] & -> & H). apply list_elem_of_filter in H as [Ha Hin]. cbn in *.
    apply list_elem_of_lookup in Hin as [m Hm]. rewrite enumerate_lookup in Hm.
    destruct (intents !! m) eqn:E; [|done]. cbn in Hm. injection Hm as -> ->. eauto.
  - intros (it & Hi & Ha). exists (i, it). split; [done|]. apply list_elem_of_filter. split; [done|].
    apply list_elem_of_lookup. exists i. by rewrite enumerate_lookup, Hi.
Qed.

Definition anchor_table (records : list market_record) (intents : list OrderIntent) : list (list nat) :=
  (fun j => anchored_at records (enumerate intents) j) <$> seq 0 (List.length records).

Lemma anchor_table_lookup records intents j : (j < List.length records)%nat ->
  default [] (anchor_table records intents !! j) = anchored_at records (enumerate intents) j.
Proof. intros H. unfold anchor_table. by rewrite list_lookup_fmap, lookup_seq_lt. Qed.

(** The outcomes before the first record. *)
Definition preset_outcomes (records : list market_record) (intents : list OrderIntent) : list (option FillOutcome) :=
  foldl (preset records) (replicate (List.length intents) None) (enumerate intents).

Definition unanchored (records : list market_record) (i : nat) (it : OrderIntent) : option FillOutcome :=
  if (anchor_of records it <? List.length records)%nat then None
  else Some (no_fill i NO_RECORD_AFTER_DECISION).

Lemma preset_length records outs e : List.length (preset records outs e) = List.length outs.
Proof. unfold preset. case_match; [done|apply length_insert]. Qed.

Lemma preset_lookup records intents : forall n outs i it,
  intents !! i = Some it -> outs !! (n + i)%nat = Some None ->
  foldl (preset records) outs (imap (fun k a => ((n + k)%nat, a)) intents) !! (n + i)%nat
  = Some (unanchored records (n + i) it).
Proof.
  assert (forall l outs i, (forall e, e ∈ l -> e.1 <> i) -> foldl (preset records) outs l !! i = outs !! i) as Hout.
  { induction l as [|e l IH]; intros outs i Hl; [done|]. cbn. rewrite IH by set_solver. unfold preset.
    case_match; [done|]. apply list_lookup_insert_ne. apply Hl. set_solver. }
  induction intents as [|a l IH]; intros n outs i it Hi Ho; [done|]. cbn -[preset].
  destruct i as [|i].
  - cbn in Hi. injection Hi as ->. rewrite Nat.add_0_r in *. rewrite Hout.
    + unfold preset, unanchored. cbn. case_match; [done|].
      rewrite ?Nat.add_0_r. rewrite list_lookup_insert_eq; [done|by eapply lookup_lt_Some].
    + intros [m b] Hin. apply elem_of_lookup_imap in Hin as (k & y & [= -> _] & _). cbn. lia.
  - cbn in Hi. rewrite Nat.add_succ_r. rewrite <- Nat.add_succ_l. erewrite <- IH; [|exact Hi|].
    + f_equal. f_equal. apply imap_ext. intros. cbn. f_equal. lia.
    + assert ((S n + i)%nat = (n + S i)%nat) as -> by lia. unfold preset. cbn [fst snd].
      case_match; [done|]. rewrite list_lookup_insert_ne by lia. done.
Qed.

Lemma preset_outcomes_lookup records intents i it : intents !! i = Some it ->
  preset_outcomes records intents !! i = Some (unanchored records i it).
Proof.
  intros Hi. unfold preset_outcomes, enumerate. apply (preset_lookup records intents 0); [done|].
  apply lookup_replicate_2. by eapply lookup_lt_Some.
Qed.

Lemma preset_outcomes_length records intents : List.length (preset_outcomes records intents) = List.length intents.
Proof.
  unfold preset_outcomes. generalize (enumerate intents). intros l.
  rewrite <- (length_replicate (List.length intents) (@None FillOutcome)) at 2.
  generalize (replicate (List.length intents) (@None FillOutcome)). induction l as [|e l IH]; intros outs; [done|].
  cbn. by rewrite IH, preset_length.
Qed.

Lemma run_backtest_inv inputs intents cm capital run : run_backtest inputs intents cm capital = Ok run ->
  let records := bt_records inputs in
  exists s, StronglySorted Z.lt ((fun i => dt_instant (oi_decided_at i)) <$> intents) /\ (0 < dval capital)%Q /\
    foldM (record_step intents cm (anchor_table records intents))
      (start_sim capital (preset_outcomes records intents), []) (enumerate records)
      = Ok (s, br_equity_curve run) /\
    mapM id (sm_outcomes s) = Some (br_outcomes run) /\ br_intents run = intents /\
    br_trades run = sm_trades s /\ List.length (br_outcomes run) = List.length intents.
Proof.
  unfold run_backtest, refuse. intros H. res_inv. destruct a0. pose proof (check_ascending_ok _ E0) as Hs.
  destruct (anchor_intents_spec (bt_records inputs) (enumerate intents) (replicate (List.length intents) None))
    as [c Ea]; [by rewrite enumerate_decided|]. rewrite Ea in K0. res_inv.
  unfold settle_outcomes in *. destruct (mapM id _) as [outs|] eqn:Em; [|done]. res_inv.
  unfold mk_BacktestRun, refuse in *. res_inv. cbn in *. exists (fst a0). destruct a0 as [s curve]. cbn in *.
  apply dle_false in E. rewrite dval_zero in E.
  split_and!; try done. apply negb_false_iff, Nat.eqb_eq in E3. done.
Qed.

(** The outcomes after the records before [p]. *)
Definition outcomes_upto (records : list market_record) (intents : list OrderIntent) (cm : CostModel) (p : nat)
    (outs : list (option FillOutcome)) : Prop :=
  List.length outs = List.length intents /\
  forall i it, intents !! i = Some it ->
    if decide (anchor_of records it < p)%nat then
      exists r o, records !! anchor_of records it = Some r /\ outs !! i = Some (Some o) /\
        outcome_from it r (anchor_of records it) cm i o
    else outs !! i = Some (unanchored records i it).

(** One record evaluates the intents anchored at it and no others. *)
Lemma record_outcomes intents cm j r l s s' :
  (forall i, i ∈ l -> (i < List.length (sm_outcomes s))%nat) ->
  foldM (apply_intent intents cm j r) s l = Ok s' ->
  List.length (sm_outcomes s') = List.length (sm_outcomes s) /\
  (forall i, i ∉ l -> sm_outcomes s' !! i = sm_outcomes s !! i) /\
  (forall i, i ∈ l -> exists it o, intents !! i = Some it /\ sm_outcomes s' !! i = Some (Some o) /\ outcome_from it r j cm i o).
Proof.
  intros Hl Hrun. refine (foldM_inv _ (fun past s' =>
    List.length (sm_outcomes s') = List.length (sm_outcomes s) /\
    (forall i : nat, i ∉ past -> sm_outcomes s' !! i = sm_outcomes s !! i) /\
    (forall i, i ∈ past -> exists it o, intents !! i = Some it /\ sm_outcomes s' !! i = Some (Some o) /\
      outcome_from it r j cm i o)) l _ s s' _ Hrun).
  - intros past i a a' [rest Hp] (H1 & H2 & H3) E. apply apply_intent_run in E as (it & ev & Hi & Ev & _ & _ & Ho).
    assert (i < List.length (sm_outcomes a))%nat as Hlt.
    { rewrite H1. apply Hl. rewrite Hp. set_solver. }
    rewrite Ho. split_and!.
    + by rewrite length_insert.
    + intros k Hk. rewrite list_lookup_insert_ne by set_solver. apply H2. set_solver.
    + intros k Hk. destruct (decide (k = i)) as [->|Hne].
      * exists it, (fe_outcome ev). rewrite list_lookup_insert_eq by done. split_and!; [done..|].
        unfold outcome_from. eauto 10.
      * rewrite list_lookup_insert_ne by done. apply H3. set_solver.
  - split_and!; [done..|]. set_solver.
Qed.

Lemma enumerate_prefix {A} (l : list A) past k a : past ++ [(k, a)] `prefix_of` enumerate l ->
  k = List.length past /\ l !! k = Some a.
Proof.
  intros [rest E]. assert (enumerate l !! List.length past = Some (k, a)) as H.
  { rewrite E, <- app_assoc. by rewrite lookup_app_r, Nat.sub_diag by lia. }
  rewrite enumerate_lookup in H. destruct (l !! List.length past) eqn:El; [|done]. cbn in H. by simplify_eq.
Qed.

Lemma enumerate_length {A} (l : list A) : List.length (enumerate l) = List.length l.
Proof. unfold enumerate. apply length_imap. Qed.

Lemma enumerate_snd {A} (l : list A) : (enumerate l).*2 = l.
Proof. rewrite fmap_enumerate. cbn. rewrite (imap_const (fun a : A => a)). apply list_fmap_id. Qed.

(** The loop invariant of a run: outcomes, the account, and the curve. *)
Definition run_inv (records : list market_record) (intents : list OrderIntent) (cm : CostModel)
    (past : list (nat * market_record)) (acc : Sim * list EquityPoint) : Prop :=
  outcomes_upto records intents cm (List.length past) (sm_outcomes acc.1) /\
  (Forall (fun it => (0 <= dval (oi_quantity it))%Q) intents ->
    solvent (sm_cash acc.1) (sm_position acc.1) /\ Forall (fun p => (0 <= dval (ep_equity p))%Q) acc.2) /\
  ep_timestamp <$> acc.2 = record_timestamp <$> past.*2.

Lemma apply_intents_solvent intents cm j r l s s' : Forall (fun it => (0 <= dval (oi_quantity it))%Q) intents ->
  solvent (sm_cash s) (sm_position s) -> foldM (apply_intent intents cm j r) s l = Ok s' ->
  solvent (sm_cash s') (sm_position s').
Proof.
  intros Hq Hs Hrun. refine (foldM_inv _ (fun _ s' => solvent (sm_cash s') (sm_position s')) l _ s s' Hs Hrun).
  intros past i a a' _ Ha E. apply apply_intent_run in E as (it & ev & Hi & Ev & -> & -> & _).
  eapply evaluate_fill_solvent; [exact Ev| |exact Ha]. rewrite Forall_lookup in Hq. eauto.
Qed.

Lemma mark_price_ok r p : mark_price r = Ok p -> (0 < dval p)%Q.
Proof. unfold mark_price, refuse. intros H. res_inv. apply dle_false in E. by rewrite dval_zero in E. Qed.

Lemma record_step_inv records intents cm past b acc acc' : past ++ [b] `prefix_of` enumerate records ->
  run_inv records intents cm past acc ->
  record_step intents cm (anchor_table records intents) acc b = Ok acc' -> run_inv records intents cm (past ++ [b]) acc'.
Proof.
  destruct b as [k r], acc as [s curve]. intros Hp [[Hlen Hout] [Hsol Hts]] H.
  apply enumerate_prefix in Hp as [-> Hr]. set (k := List.length past) in *. pose proof (lookup_lt_Some _ _ _ Hr) as Hk.
  cbn in H. rewrite (anchor_table_lookup records intents k Hk) in H. res_inv. rename a into s', a0 into mark.
  cbn in Hlen, Hout, Hsol, Hts.
  assert (forall i, i ∈ anchored_at records (enumerate intents) k -> (i < List.length (sm_outcomes s))%nat) as Hin.
  { intros i Hi. apply anchored_at_in in Hi as (it & Hi & _). rewrite Hlen. by eapply lookup_lt_Some. }
  destruct (record_outcomes _ _ _ _ _ _ _ Hin E) as (L1 & L2 & L3).
  unfold run_inv. cbn. rewrite length_app. cbn. fold k. split_and!.
  - split; [lia|]. intros i it Hi. specialize (Hout i it Hi).
    destruct (decide (anchor_of records it = k)) as [Ha|Ha].
    + rewrite decide_True by lia. destruct (L3 i) as (it' & o & Hi' & Ho & Hf); [apply anchored_at_in; eauto|].
      exists r, o. rewrite Ha. by simplify_eq.
    + assert (i ∉ anchored_at records (enumerate intents) k) as Hn.
      { rewrite anchored_at_in. intros (it' & Hi' & Ha'). by simplify_eq. }
      rewrite (L2 i Hn). destruct (decide (anchor_of records it < k)%nat).
      * by rewrite decide_True by lia.
      * by rewrite decide_False by lia.
  - intros Hq. destruct (Hsol Hq) as [Hs Hc]. pose proof (apply_intents_solvent _ _ _ _ _ _ _ Hq Hs E) as [Hs1 Hs2].
    split; [done|]. apply Forall_app. split; [done|]. constructor; [|done]. cbn.
    apply mark_price_ok in E0. assert (0 <= dval (dmul (sm_position s') mark))%Q by (apply dmul_nonneg; [done|lra]).
    apply dadd_nonneg. lra.
  - by rewrite !fmap_app, Hts.
Qed.

Lemma run_inv_start records intents cm capital : (0 < dval capital)%Q ->
  run_inv records intents cm [] (start_sim capital (preset_outcomes records intents), []).
Proof.
  intros H. split_and!; [split|..].
  - apply preset_outcomes_length.
  - intros i it Hi. rewrite decide_False by (cbn; lia). by apply preset_outcomes_lookup.
  - intros _. split; [split; cbn; [lra|rewrite dval_zero; lra]|constructor].
  - done.
Qed.

Lemma run_invariant inputs intents cm capital run : run_backtest inputs intents cm capital = Ok run ->
  exists s, run_inv (bt_records inputs) intents cm (enumerate (bt_records inputs)) (s, br_equity_curve run) /\
    mapM id (sm_outcomes s) = Some (br_outcomes run) /\ br_trades run = sm_trades s.
Proof.
  intros H. apply run_backtest_inv in H as (s & _ & Hc & Hf & Hm & _ & Ht & _). exists s. split; [|done].
  refine (foldM_inv _ (run_inv (bt_records inputs) intents cm) _ _ _ _ (run_inv_start _ _ _ _ Hc) Hf).
  intros past b a a'. apply record_step_inv.
Qed.

Lemma mapM_id_lookup {A} (l : list (option A)) k i : mapM id l = Some k -> k !! i = mjoin (l !! i).
Proof.
  intros H. apply mapM_Some in H. destruct (l !! i) as [o|] eqn:E.
  - destruct (Forall2_lookup_l _ _ _ _ _ H E) as (a & -> & Ha). done.
  - apply lookup_ge_None in E. rewrite (Forall2_length _ _ _ H) in E. by apply lookup_ge_None_2.
Qed.

(** A run accounts for every intent exactly once, and never with hindsight:
    the outcome at an intent's index is the evaluation of that intent at the
    first record strictly after its decision (no record before that one is after
    the decision), so that a fill happens strictly after the decision, at a time
    and an index of the history; an intent with no later record is recorded as
    such. *)
Theorem outcomes_after_decision inputs intents cm capital run i it :
  run_backtest inputs intents cm capital = Ok run -> intents !! i = Some it ->
  let records := bt_records inputs in let j := anchor_of records it in
  List.length (br_outcomes run) = List.length intents /\
  (forall k r, records !! k = Some r -> (k < j)%nat -> instant r <= dt_instant (oi_decided_at it)) /\
  match records !! j with
  | Some r => dt_instant (oi_decided_at it) < instant r /\
      exists o, br_outcomes run !! i = Some o /\ outcome_from it r j cm i o /\
        forall f, fo_fill o = Some f ->
          fi_record_index f = j /\ fi_filled_at f = record_timestamp r /\ fi_side f = oi_side it /\
          fi_quantity f = oi_quantity it
  | None => br_outcomes run !! i = Some (no_fill i NO_RECORD_AFTER_DECISION)
  end.
Proof.
  intros H Hi. cbn zeta. pose proof H as (_ & _ & _ & _ & _ & _ & _ & Hlen)%run_backtest_inv.
  apply run_invariant in H as (s & ((Hl & Hout) & _ & _) & Hm & _). cbn in *.
  specialize (Hout i it Hi). rewrite enumerate_length in Hout. split_and!; [done| |].
  { intros k r Hr Hk. by eapply skip_past_passed. }
  rewrite (mapM_id_lookup _ _ i Hm). destruct (decide _) as [Hlt|Hge].
  - destruct Hout as (r & o & Hr & Ho & Hf). rewrite Hr, Ho. split; [by apply skip_past_reached in Hr|].
    exists o. split_and!; [done..|]. destruct Hf as (cash & pos & seq & ev & Ev & <-). intros f Ef.
    destruct (evaluate_fill_cases _ _ _ _ _ _ _ _ _ Ev) as [[reason ->]|[f' Hf]]; [done|].
    unfold filled_by in Hf. destruct_and! Hf.
    match goal with H : fe_outcome ev = _ |- _ => rewrite H in Ef end. cbn in Ef. simplify_eq. done.
  - rewrite lookup_ge_None_2 by lia. rewrite Hout. unfold unanchored.
    by destruct (Nat.ltb_spec (anchor_of (bt_records inputs) it) (List.length (bt_records inputs))); [lia|].
Qed.

(** A run never overdraws: when no intent asks for a negative quantity, every
    equity point is non-negative, and the curve has exactly one point per record,
    at the record's time. *)
Theorem equity_never_negative inputs intents cm capital run :
  run_backtest inputs intents cm capital = Ok run ->
  Forall (fun it => (0 <= dval (oi_quantity it))%Q) intents ->
  Forall (fun p => (0 <= dval (ep_equity p))%Q) (br_equity_curve run) /\
  ep_timestamp <$> br_equity_curve run = record_timestamp <$> bt_records inputs.
Proof.
  intros H Hq. apply run_invariant in H as (s & (_ & Hs & Ht) & _). cbn in *. split; [by apply Hs|].
  by rewrite Ht, enumerate_snd.
Qed.

(** * No look-ahead *)

Lemma anchored_at_app records l1 l2 j : anchored_at records (l1 ++ l2) j = anchored_at records l1 j ++ anchored_at records l2 j.
Proof. unfold anchored_at. by rewrite filter_app, fmap_app. Qed.

Lemma anchored_at_none records l j : Forall (fun e => anchor_of records e.2 <> j) l -> anchored_at records l j = [].
Proof.
  induction 1 as [|[i it] l Hx Hl IH]; [done|]. rewrite anchored_at_cons, decide_False by done. exact IH.
Qed.

Lemma anchored_at_ext records records' l j :
  Forall (fun e => anchor_of records e.2 = j <-> anchor_of records' e.2 = j) l ->
  anchored_at records l j = anchored_at records' l j.
Proof.
  induction 1 as [|[i it] l Hx Hl IH]; [done|]. rewrite !anchored_at_cons, IH. cbn in Hx. f_equal.
  destruct (decide (anchor_of records it = j)) as [E|E].
  - by rewrite decide_True by (by apply Hx).
  - rewrite decide_False; [done|]. intros E'. by apply E, Hx.
Qed.

(** Two histories that agree on their first [k] records anchor there alike. *)
Lemma anchor_agree records records' it k j : take k records = take k records' ->
  (k <= List.length records)%nat -> (k <= List.length records')%nat -> (j < k)%nat ->
  anchor_of records it = j <-> anchor_of records' it = j.
Proof.
  intros Ht H1 H2 Hj. unfold anchor_of. split; intros E.
  - rewrite (skip_past_local (oi_decided_at it) records k); [done|lia|done|done].
  - rewrite (skip_past_local (oi_decided_at it) records' k); [done|lia|done|done].
Qed.

(** Two situations that agree up to record [k]: the records before [k], and the
    intents but for some decided no earlier than the last of these records. *)
Record agree_upto (k : nat) (records records' : list market_record) (post post' : list OrderIntent) : Prop := {
  ag_records : take k records = take k records';
  ag_length : (k <= List.length records)%nat;
  ag_length' : (k <= List.length records')%nat;
  ag_post : forall j r it, (j < k)%nat -> records !! j = Some r -> it ∈ post ++ post' ->
              instant r <= dt_instant (oi_decided_at it);
}.

Section NoLookAhead.
Context (k : nat) (records records' : list market_record) (pre post post' : list OrderIntent) (cm : CostModel).
Hypothesis Hag : agree_upto k records records' post post'.

Lemma agree_lookup j : (j < k)%nat -> records !! j = records' !! j.
Proof. intros Hj. rewrite <- (lookup_take_lt records k), <- (lookup_take_lt records' k) by done. by rewrite (ag_records _ _ _ _ _ Hag). Qed.

(** The late intents are anchored later, under either history. *)
Lemma post_later (rs : list market_record) j it : (rs = records \/ rs = records') -> (j < k)%nat -> it ∈ post ++ post' ->
  anchor_of rs it <> j.
Proof.
  intros Hrs Hj Hit E. assert (exists r, records !! j = Some r /\ rs !! j = Some r) as (r & Hr & Hr').
  { destruct (lookup_lt_is_Some_2 records j) as [r Hr]; [pose proof (ag_length _ _ _ _ _ Hag); lia|].
    exists r. split; [done|]. destruct Hrs as [->| ->]; [done|]. by rewrite <- agree_lookup. }
  pose proof (ag_post _ _ _ _ _ Hag j r it Hj Hr Hit). unfold anchor_of in E. rewrite <- E in Hr'.
  apply skip_past_reached in Hr'. lia.
Qed.

Lemma enumerate_app_split (l1 l2 : list OrderIntent) :
  enumerate (l1 ++ l2) = enumerate l1 ++ imap (fun n a => ((List.length l1 + n)%nat, a)) l2.
Proof. unfold enumerate. rewrite imap_app. done. Qed.

Lemma agree_anchored j : (j < k)%nat ->
  anchored_at records (enumerate (pre ++ post)) j = anchored_at records' (enumerate (pre ++ post')) j /\
  Forall (fun i => (i < List.length pre)%nat) (anchored_at records (enumerate (pre ++ post)) j).
Proof.
  intros Hj. rewrite !enumerate_app_split, !anchored_at_app.
  assert (forall rs l, (rs = records \/ rs = records') -> (forall it, it ∈ l -> it ∈ post ++ post') ->
    anchored_at rs (imap (fun n a => ((List.length pre + n)%nat, a)) l) j = []) as Hnone.
  { intros rs l Hrs Hl. apply anchored_at_none, Forall_forall. intros e He.
    apply elem_of_lookup_imap in He as (n & it & -> & Hn). apply post_later; [done..|].
    apply Hl. by eapply list_elem_of_lookup_2. }
  rewrite !Hnone by (auto; set_solver). rewrite !app_nil_r. split.
  - apply anchored_at_ext, Forall_forall. intros e _.
    destruct Hag. by apply (anchor_agree _ _ _ k).
  - apply Forall_forall. intros i Hi. apply anchored_at_in in Hi as (it & Hi & _). by eapply lookup_lt_Some.
Qed.

(** The simulations have the same books, and the same outcomes of the intents
    anchored before [p]. *)
Definition in_step (p : nat) (s s' : Sim) : Prop :=
  same_book s s' /\ List.length (sm_outcomes s) = List.length (pre ++ post) /\
  List.length (sm_outcomes s') = List.length (pre ++ post') /\
  forall i it, pre !! i = Some it -> (anchor_of records it < p)%nat -> sm_outcomes s !! i = sm_outcomes s' !! i.

Lemma same_book_fold j r l : Forall (fun i => (i < List.length pre)%nat) l -> forall s1 s2 s1',
  same_book s1 s2 -> foldM (apply_intent (pre ++ post) cm j r) s1 l = Ok s1' ->
  List.length (sm_outcomes s1) = List.length (pre ++ post) -> List.length (sm_outcomes s2) = List.length (pre ++ post') ->
  exists s2', foldM (apply_intent (pre ++ post') cm j r) s2 l = Ok s2' /\ same_book s1' s2' /\
    List.length (sm_outcomes s1') = List.length (pre ++ post) /\ List.length (sm_outcomes s2') = List.length (pre ++ post') /\
    (forall i, i ∈ l \/ sm_outcomes s1 !! i = sm_outcomes s2 !! i -> sm_outcomes s1' !! i = sm_outcomes s2' !! i).
Proof.
  induction 1 as [|i l Hi Hl IH]; intros s1 s2 s1' Hb H L1 L2; cbn in H |- *.
  - simplify_eq. exists s2. split_and!; [done..|]. intros i [Hi|Hi]; [set_solver|done].
  - apply rbind_ok in H as (m1 & E1 & E2).
    destruct (apply_intent_book (pre ++ post) (pre ++ post') cm j r s1 s2 i m1) as (m2 & o & F1 & Hb' & O1 & O2);
      [by rewrite !lookup_app_l|done|done|]. rewrite F1. cbn.
    assert (List.length (pre ++ post) >= List.length pre /\ List.length (pre ++ post') >= List.length pre)%nat
      by (rewrite !length_app; lia).
    destruct (IH m1 m2 s1' Hb' E2) as (s2' & G1 & G2 & G3 & G4 & G5); [by rewrite O1, length_insert|
      by rewrite O2, length_insert|]. exists s2'. split_and!; [done..|].
    intros x Hx. apply G5. rewrite O1, O2. destruct (decide (x = i)) as [->|Hne].
    + right. rewrite !list_lookup_insert_eq by lia. done.
    + rewrite !list_lookup_insert_ne by done. destruct Hx as [Hx|Hx]; [left; set_solver|by right].
Qed.
Lemma record_step_agree j r s s' curve s1 c1 : (j < k)%nat -> records !! j = Some r -> in_step j s s' ->
  record_step (pre ++ post) cm (anchor_table records (pre ++ post)) (s, curve) (j, r) = Ok (s1, c1) ->
  exists s1', record_step (pre ++ post') cm (anchor_table records' (pre ++ post')) (s', curve) (j, r) = Ok (s1', c1) /\
    in_step (S j) s1 s1'.
Proof.
  intros Hj Hr (Hb & L & L' & Ho) H. unfold record_step in *.
  rewrite anchor_table_lookup in H |- * by (destruct Hag; lia).
  destruct (agree_anchored j Hj) as [Ea Hall].
  apply rbind_ok in H as (a & E & H). apply rbind_ok in H as (mark & E0 & [= -> <-]).
  destruct (same_book_fold j r _ Hall s s' s1 Hb E L L') as (s2 & G1 & G2 & G3 & G4 & G5).
  rewrite <- Ea, G1. cbn. rewrite E0. cbn. pose proof G2 as (-> & -> & _). exists s2. split; [done|].
  split_and!; [done..|]. intros i it Hi Ha. apply G5.
  destruct (decide (anchor_of records it = j)) as [E1|E1].
  - left. apply anchored_at_in. exists it. split; [|done]. rewrite lookup_app_l by (by eapply lookup_lt_Some). done.
  - right. apply (Ho i it); [done|lia].
Qed.

Lemma prefix_agree capital p : (p <= k)%nat -> forall s c,
  foldM (record_step (pre ++ post) cm (anchor_table records (pre ++ post)))
    (start_sim capital (preset_outcomes records (pre ++ post)), []) (take p (enumerate records)) = Ok (s, c) ->
  exists s', foldM (record_step (pre ++ post') cm (anchor_table records' (pre ++ post')))
    (start_sim capital (preset_outcomes records' (pre ++ post')), []) (take p (enumerate records')) = Ok (s', c) /\
    in_step p s s' /\ List.length c = p.
Proof.
  induction p as [|p IH]; intros Hp s c H.
  - rewrite take_0 in *. cbn in *. simplify_eq. eexists. split; [done|]. split; [|done].
    split_and!; [done|apply preset_outcomes_length..|]. intros; lia.
  - destruct (lookup_lt_is_Some_2 records p) as [r Hr]; [destruct Hag; lia|].
    pose proof Hr as Hr'. rewrite agree_lookup in Hr' by lia.
    rewrite (take_S_r (enumerate records) _ (p, r)) in H by (by rewrite enumerate_lookup, Hr).
    rewrite (take_S_r (enumerate records') _ (p, r)) by (by rewrite enumerate_lookup, Hr').
    rewrite foldM_app in H |- *. apply rbind_ok in H as ([s1 c1] & E1 & E2).
    destruct (IH ltac:(lia) s1 c1 E1) as (s1' & -> & Hin & Hc). cbn [rbind foldM] in *.
    apply rbind_ok in E2 as ([s2 c2] & E2 & [= <- <-]).
    destruct (record_step_agree p r s1 s1' c1 s2 c2 ltac:(lia) Hr Hin E2) as (s2' & E2' & Hin').
    rewrite E2'. cbn. exists s2'. split_and!; [done..|]. cbn in E2.
    apply rbind_ok in E2 as (? & _ & E2). apply rbind_ok in E2 as (? & _ & [= _ <-]). rewrite length_app. cbn. lia.
Qed.
End NoLookAhead.

(** Later records only extend the curve, and leave the outcomes of intents
    anchored earlier alone. *)
Lemma later_records intents cm records k s c s' c' :
  List.length (sm_outcomes s) = List.length intents ->
  foldM (record_step intents cm (anchor_table records intents)) (s, c) (drop k (enumerate records)) = Ok (s', c') ->
  c `prefix_of` c' /\
  forall i it, intents !! i = Some it -> (anchor_of records it < k)%nat -> sm_outcomes s' !! i = sm_outcomes s !! i.
Proof.
  intros Hlen H.
  pose (I (_ : list (nat * market_record)) (acc : Sim * list EquityPoint) :=
    c `prefix_of` acc.2 /\ List.length (sm_outcomes acc.1) = List.length intents /\
    forall i it, intents !! i = Some it -> (anchor_of records it < k)%nat -> sm_outcomes acc.1 !! i = sm_outcomes s !! i).
  assert (I (drop k (enumerate records)) (s', c')) as (G1 & _ & G2); [|by split].
  refine (foldM_inv _ I _ _ (s, c) (s', c') _ H); [|by split_and!]. clear s' c' H.
  intros past [j r] [s1 c1] [s2 c2] [rest Hp] (P1 & P2 & P3) E.
  assert (records !! j = Some r /\ (k <= j)%nat) as [Hr Hk].
  { assert (drop k (enumerate records) !! List.length past = Some (j, r)) as Hl.
    { rewrite Hp, <- app_assoc. by rewrite lookup_app_r, Nat.sub_diag by lia. }
    rewrite lookup_drop, enumerate_lookup in Hl. destruct (records !! _) eqn:Er; [|done]. cbn in Hl. simplify_eq.
    split; [done|lia]. }
  unfold record_step in E. rewrite anchor_table_lookup in E by (by eapply lookup_lt_Some).
  apply rbind_ok in E as (? & E0 & E). apply rbind_ok in E as (? & _ & [= -> <-]).
  assert (forall i, i ∈ anchored_at records (enumerate intents) j -> (i < List.length (sm_outcomes s1))%nat) as Hin.
  { intros i Hi. apply anchored_at_in in Hi as (it & Hi & _). cbn in P2. rewrite P2. by eapply lookup_lt_Some. }
  destruct (record_outcomes _ _ _ _ _ _ _ Hin E0) as (L1 & L2 & _). unfold I. cbn in *. split_and!.
  - by apply prefix_app_r.
  - by rewrite L1.
  - intros i it Hi Ha. rewrite <- (P3 i it Hi Ha). apply L2. rewrite anchored_at_in. intros (it' & Hi' & Ha').
    simplify_eq. lia.
Qed.

(** A run is a run over its first [k] records, then over the rest. *)
Lemma run_split inputs intents cm capital run k : run_backtest inputs intents cm capital = Ok run ->
  let records := bt_records inputs in
  exists s c, foldM (record_step intents cm (anchor_table records intents))
      (start_sim capital (preset_outcomes records intents), []) (take k (enumerate records)) = Ok (s, c) /\
    (List.length (sm_outcomes s) = List.length intents ->
     c `prefix_of` br_equity_curve run /\
     forall i it, intents !! i = Some it -> (anchor_of records it < k)%nat ->
       br_outcomes run !! i = mjoin (sm_outcomes s !! i)).
Proof.
  intros H. apply run_backtest_inv in H as (s & _ & _ & Hf & Hm & _). cbn zeta.
  rewrite <- (take_drop k (enumerate (bt_records inputs))), foldM_app in Hf.
  apply rbind_ok in Hf as ([s1 c1] & E1 & E2). exists s1, c1. split; [done|]. intros Hlen.
  destruct (later_records _ _ _ _ _ _ _ _ Hlen E2) as [Hc Ho]. split; [done|].
  intros i it Hi Ha. by rewrite (mapM_id_lookup _ _ i Hm), (Ho i it).
Qed.

(** C23: A backtest does not look ahead.  Take two runs whose histories agree on
    their first [k] records and whose intents agree but for ones decided no
    earlier than these records: however the rest of the histories and the later
    intents differ, the equity curves agree on the first [k] points, and every
    common intent that is anchored at one of these records has the same
    outcome. *)
Theorem no_look_ahead k inputs inputs' pre post post' cm capital run run' :
  run_backtest inputs (pre ++ post) cm capital = Ok run ->
  run_backtest inputs' (pre ++ post') cm capital = Ok run' ->
  agree_upto k (bt_records inputs) (bt_records inputs') post post' ->
  take k (br_equity_curve run) = take k (br_equity_curve run') /\
  forall i it, pre !! i = Some it -> (anchor_of (bt_records inputs) it < k)%nat ->
    br_outcomes run !! i = br_outcomes run' !! i.
Proof.
  intros H H' Hag. destruct (run_split _ _ _ _ _ k H) as (s & c & E & Hs).
  destruct (run_split _ _ _ _ _ k H') as (s' & c' & E' & Hs').
  destruct (prefix_agree _ _ _ pre _ _ cm Hag capital k ltac:(lia) s c E) as (s2 & E2 & (Hb & L & L' & Ho) & Hc).
  rewrite E' in E2. simplify_eq. destruct (Hs L) as [[t ->] F]. destruct (Hs' L') as [[t' ->] F'].
  split; [by rewrite !take_app_length|]. intros i it Hi Ha.
  assert (forall l : list OrderIntent, (pre ++ l) !! i = Some it) as Hl
    by (intros l; rewrite lookup_app_l by (by eapply lookup_lt_Some); done).
  rewrite (F i it (Hl post) Ha), (F' i it (Hl post')); [by rewrite (Ho i it)|].
  destruct Hag as [Ht Hl1 Hl2 _]. destruct (anchor_agree _ _ it _ (anchor_of (bt_records inputs) it) Ht Hl1 Hl2 Ha) as [Hx _].
  by rewrite Hx.
Qed.

(** * Prices *)

Lemma one_representable : representable (dec_of_Z 1).
Proof. split; [done|]. by vm_compute. Qed.

(** Slippage works against the order. *)
Lemma apply_slippage_adverse anchor side bps p : representable anchor -> apply_slippage anchor side bps = Ok p ->
  match side with
  | it_BUY => (dval anchor <= dval p)%Q
  | it_SELL => (dval p <= dval anchor)%Q
  end.
Proof.
  intros Hr H. unfold apply_slippage, refuse in H. res_inv. apply orb_false_iff in E0 as [E0 E1].
  unfold dge in E1. apply dle_false in E, E1. apply dlt_false in E0. rewrite dval_zero in E, E0. rewrite dval_of_Z in E1.
  destruct (deq bps dzero); res_inv; [destruct side; apply Qle_refl|].
  rename a1 into part. assert (0 < dval (dec_of_Z 10000))%Q as Hd by (rewrite dval_of_Z; reflexivity).
  pose proof (ddiv_nonneg _ _ _ E2 E0 Hd) as P0.
  assert (dval part <= dval (dec_of_Z 1))%Q as P1.
  { apply (ddiv_le_repr _ _ (dec_of_Z 1) _ E2); [apply one_representable|done..|]. rewrite !dval_of_Z. unfold inject_Z in *. lra. }
  rewrite dval_of_Z in P1. change (inject_Z 1) with 1%Q in P1.
  destruct side.
  - assert (dval (dec_of_Z 1) <= dval (dadd (dec_of_Z 1) part))%Q as F
      by (apply dadd_ge_repr; [apply one_representable|..]; rewrite dval_of_Z; change (inject_Z 1) with 1%Q; lra).
    rewrite dval_of_Z in F. change (inject_Z 1) with 1%Q in F. apply dmul_ge_repr; [done|nra|nra].
  - unfold dsub. set (m := copy_negate part).
    assert (dval m == - dval part)%Q as Em by apply copy_negate_val.
    assert (dval (dadd (dec_of_Z 1) m) <= dval (dec_of_Z 1))%Q as F
      by (apply dadd_le_repr; [apply one_representable|..]; rewrite dval_of_Z, Em; change (inject_Z 1) with 1%Q; lra).
    assert (0 <= dval (dadd (dec_of_Z 1) m))%Q as F0
      by (apply dadd_nonneg; rewrite dval_of_Z, Em; change (inject_Z 1) with 1%Q; lra).
    rewrite dval_of_Z in F. change (inject_Z 1) with 1%Q in F. apply dmul_le_repr; [done|nra|nra].
Qed.

(** The quoted price an order is anchored at. *)
Definition quoted (record : market_record) (side : IntentSide) : list decimal :=
  match record with
  | rec_candle c => [cd_open_price c]
  | rec_tick t => tk_ltp t :: match side with it_BUY => option_list (tk_ask t) | it_SELL => option_list (tk_bid t) end
  end.

Lemma executable_anchor_ok it r p : executable_anchor it r = Ok (inl p) ->
  p ∈ quoted r (oi_side it) /\
  forall limit, oi_order_type it = it_LIMIT -> oi_limit_price it = Some limit ->
    match oi_side it with it_BUY => (dval p <= dval limit)%Q | it_SELL => (dval limit <= dval p)%Q end.
Proof.
  unfold executable_anchor, quoted. destruct r as [c|t].
  - destruct (oi_order_type it); [by intros [= <-]; split; [set_solver|]|].
    destruct (oi_limit_price it) as [limit|]; [|done]. unfold dgt.
    destruct (oi_side it); (destruct (dlt _ _) eqn:E; [done|]); intros [= <-]; (split; [set_solver|]);
      intros l _ [= <-]; by apply dlt_false in E.
  - destruct (oi_order_type it), (oi_side it).
    + intros [= <-]. split; [destruct (tk_ask t); set_solver|done].
    + intros [= <-]. split; [destruct (tk_bid t); set_solver|done].
    + destruct (tk_ask t) as [ask|]; [|done]. destruct (oi_limit_price it) as [limit|]; [|done].
      destruct (dlt limit ask) eqn:E; [done|]. intros [= <-]. split; [set_solver|]. intros l _ [= <-]. by apply dlt_false in E.
    + destruct (tk_bid t) as [bid|]; [|done]. destruct (oi_limit_price it) as [limit|]; [|done].
      destruct (dgt limit bid) eqn:E; [done|]. intros [= <-]. split; [set_solver|]. intros l _ [= <-]. by apply dlt_false in E.
Qed.

(** Fills are made at quoted prices and never flatter the result: the anchor
    of a fill is a price of the record (for a candle its open); a limit order
    fills at exactly that price, never beyond its limit; a market order fills at
    or on the wrong side of it. *)
Theorem fills_never_flatter it r j cash position cm seq i ev f :
  evaluate_fill it r j cash position cm seq i = Ok ev -> fe_fill ev = Some f ->
  Forall representable (quoted r (oi_side it)) ->
  fi_anchor_price f ∈ quoted r (oi_side it) /\
  match oi_order_type it with
  | it_LIMIT => fi_fill_price f = fi_anchor_price f /\
      forall limit, oi_limit_price it = Some limit ->
        match oi_side it with
        | it_BUY => (dval (fi_fill_price f) <= dval limit)%Q
        | it_SELL => (dval limit <= dval (fi_fill_price f))%Q
        end
  | it_MARKET =>
      match oi_side it with
      | it_BUY => (dval (fi_anchor_price f) <= dval (fi_fill_price f))%Q
      | it_SELL => (dval (fi_fill_price f) <= dval (fi_anchor_price f))%Q
      end
  end.
Proof.
  intros E Hf Hq. destruct (evaluate_fill_cases _ _ _ _ _ _ _ _ _ E) as [[reason ->]|[f' H]]; [done|].
  unfold filled_by in H. destruct_and! H. assert (f' = f) as -> by congruence.
  match goal with H : executable_anchor _ _ = _ |- _ => apply executable_anchor_ok in H as [Hin Hlim] end.
  split; [done|]. rewrite Forall_forall in Hq. specialize (Hq _ Hin). destruct (oi_order_type it).
  - by eapply apply_slippage_adverse.
  - match goal with H : fi_fill_price f = _ |- _ => rewrite H end. split; [done|]. intros limit Hl. by apply Hlim.
Qed.

(** * Valid runs complete *)

Definition valid_record (r : market_record) : Prop :=
  match r with rec_candle c => mk_MarketCandle c = Ok c | rec_tick t => mk_MarketTick t = Ok t end.
Definition valid_intent (it : OrderIntent) : Prop := mk_OrderIntent it = Ok it.
Definition valid_costs (cm : CostModel) : Prop := mk_CostModel cm = Ok cm.

Lemma positive_price_ok d u : positive_price d = Ok u -> (0 < dval d)%Q.
Proof. unfold positive_price. intros H. res_inv. apply dle_false in H. by rewrite dval_zero in H. Qed.

(** The quotes and the mark of a valid record are positive. *)
Lemma valid_record_positive r : valid_record r ->
  (forall side, Forall (fun p => (0 < dval p)%Q) (quoted r side)) /\ exists m, mark_price r = Ok m.
Proof.
  destruct r as [c|t]; cbn; unfold mk_MarketCandle, mk_MarketTick; intros H; res_inv;
    repeat match goal with E : positive_price _ = Ok _ |- _ => apply positive_price_ok in E end.
  - split; [intros side; by repeat constructor|]. unfold mark_price, refuse.
    rewrite (proj2 (dle_false (cd_close_price c) dzero)) by (by rewrite dval_zero). eexists. done.
  - split.
    + intros side. constructor; [done|].
      destruct side; [destruct (tk_ask t)|destruct (tk_bid t)]; cbn in *;
        repeat match goal with E : positive_price _ = Ok _ |- _ => apply positive_price_ok in E end; by repeat constructor.
    + unfold mark_price, refuse. rewrite (proj2 (dle_false (tk_ltp t) dzero)) by (by rewrite dval_zero). eexists. done.
Qed.

Lemma valid_intent_facts it : valid_intent it ->
  (0 < dval (oi_quantity it))%Q /\ (oi_order_type it = it_LIMIT -> is_Some (oi_limit_price it)).
Proof.
  unfold valid_intent, mk_OrderIntent, refuse. intros H. res_inv. apply dle_false in E. rewrite dval_zero in E.
  split; [done|]. intros Ho. rewrite Ho in *. by destruct (oi_limit_price it).
Qed.

Lemma executable_anchor_total it r : valid_intent it -> exists a, executable_anchor it r = Ok a.
Proof.
  intros [_ H]%valid_intent_facts. unfold executable_anchor.
  destruct r as [c|t], (oi_order_type it); try (by eexists); try destruct (H eq_refl) as [limit ->].
  - destruct (match oi_side it with it_BUY => _ | it_SELL => _ end); eauto.
  - destruct (oi_side it); eauto.
  - destruct (oi_side it); (case_match; [case_match; eauto|eauto]).
Qed.

Lemma apply_slippage_total anchor side cm : valid_costs cm -> (0 < dval anchor)%Q ->
  exists p, apply_slippage anchor side (cm_slippage_bps cm) = Ok p.
Proof.
  unfold valid_costs, mk_CostModel, apply_slippage, refuse. intros H Ha. res_inv.
  rewrite (proj2 (dle_false anchor dzero)) by (by rewrite dval_zero). rewrite E0, E1. cbn [raise_if rbind orb].
  destruct (deq _ _); [eauto|].
  destruct (ddiv_total (cm_slippage_bps cm) (dec_of_Z 10000)) as [q ->]; [rewrite dval_of_Z; reflexivity|]. cbn [rbind]. eauto.
Qed.

Lemma evaluate_fill_total it r j cash position cm seq i : valid_intent it -> valid_record r -> valid_costs cm ->
  (0 <= dval position)%Q -> exists ev, evaluate_fill it r j cash position cm seq i = Ok ev.
Proof.
  intros Hi Hr Hc Hp. unfold evaluate_fill, refuse.
  rewrite (proj2 (dlt_false position dzero)) by (by rewrite dval_zero). cbn.
  destruct (executable_anchor_total it r Hi) as [a Ea]. rewrite Ea. cbn. destruct a as [anchor|reason]; [|eauto].
  apply executable_anchor_ok in Ea as [Hin _]. destruct (valid_record_positive r Hr) as [Hq _].
  specialize (Hq (oi_side it)). rewrite Forall_forall in Hq. specialize (Hq _ Hin). cbn in Hq.
  rewrite (proj2 (dle_false anchor dzero)) by (by rewrite dval_zero). cbn.
  assert (exists p, match oi_order_type it with
    | it_MARKET => apply_slippage anchor (oi_side it) (cm_slippage_bps cm) | it_LIMIT => Ok anchor end = Ok p) as [p ->].
  { destruct (oi_order_type it); [by apply apply_slippage_total|eauto]. }
  cbn. unfold valid_costs, mk_CostModel, refuse in Hc. unfold commission_for, refuse. res_inv. rewrite E. cbn.
  destruct (oi_side it); repeat case_match; eauto.
Qed.

(** ** The ledger carries the position *)

Definition lot_ok (lot : Lot) : Prop :=
  money (lt_remaining_quantity lot) /\ 0 <= amount (lt_remaining_quantity lot) /\ (0 < dval (lt_total_quantity lot))%Q.

Definition open_quantity (lots : list Lot) : Z := amounts (lt_remaining_quantity <$> lots).

Lemma open_quantity_cons lot lots :
  open_quantity (lot :: lots) = amount (lt_remaining_quantity lot) + open_quantity lots.
Proof. done. Qed.

Lemma open_quantity_nonneg lots : Forall lot_ok lots -> 0 <= open_quantity lots.
Proof. induction 1 as [|lot lots (_ & H & _) _ IH]; [done|]. rewrite open_quantity_cons. lia. Qed.

Lemma dmin_amount a b : money a -> money b -> money (dmin a b) /\ amount (dmin a b) = Z.min (amount a) (amount b).
Proof. intros Ha Hb. unfold dmin. rewrite (amount_lt b a) by done. destruct (Z.ltb_spec (amount b) (amount a)); split; done || lia. Qed.

Lemma match_lot_total f remaining lot : lot_ok lot -> (0 < dval (fi_quantity f))%Q -> money remaining ->
  0 <= amount remaining < 10 ^ 28 -> amount (lt_remaining_quantity lot) < 10 ^ 28 ->
  exists lot', match_lot f remaining lot = Ok lot' /\ lot_ok lot' /\
    amount (lt_remaining_quantity lot') =
      amount (lt_remaining_quantity lot) - Z.min (amount remaining) (amount (lt_remaining_quantity lot)).
Proof.
  intros (H1 & H2 & H3) Hq Hr Hb Hb'. unfold match_lot. cbn zeta.
  destruct (ddiv_total (dmul (lt_entry_cost lot) (dmin remaining (lt_remaining_quantity lot))) _ H3) as [e ->].
  destruct (ddiv_total (dmul (fi_commission_amount f) (dmin remaining (lt_remaining_quantity lot))) _ Hq) as [x ->]. cbn.
  eexists. split; [done|]. unfold lot_ok. cbn.
  destruct (dmin_amount remaining (lt_remaining_quantity lot) Hr H1) as [M1 M2].
  destruct (amount_dsub (lt_remaining_quantity lot) (dmin remaining (lt_remaining_quantity lot)) H1 M1)
    as [N1 N2]; [unfold fits; lia|]. rewrite N2, M2. split_and!; try done; lia.
Qed.

(** A sale takes what it asks for from the open lots, as far as they go. *)
Lemma close_loop_total f lots : Forall lot_ok lots -> (0 < dval (fi_quantity f))%Q -> open_quantity lots < 10 ^ 28 ->
  forall remaining seq, money remaining -> 0 <= amount remaining < 10 ^ 28 ->
  exists lots' completed seq' unsold, close_loop f remaining seq lots = Ok (lots', completed, seq', unsold) /\
    Forall lot_ok lots' /\ money unsold /\ amount unsold = Z.max 0 (amount remaining - open_quantity lots) /\
    open_quantity lots' = Z.max 0 (open_quantity lots - amount remaining).
Proof.
  induction 1 as [|lot lots Hlot Hlots IH]; intros Hq Hb remaining seq Hr Hrb.
  { exists [], [], seq, remaining. split_and!; [done|constructor|done|cbn; lia|cbn; lia]. }
  pose proof (open_quantity_nonneg _ Hlots) as Hopen. pose proof Hlot as (L1 & L2 & L3).
  rewrite open_quantity_cons in *. specialize (IH Hq ltac:(lia)). cbn [close_loop].
  rewrite !amount_le by done. rewrite amount_dzero.
  destruct (Z.leb_spec (amount remaining) 0) as [Hz|Hz].
  { exists (lot :: lots), [], seq, remaining. split_and!; [done|by constructor|done|lia|rewrite open_quantity_cons; lia]. }
  destruct (Z.leb_spec (amount (lt_remaining_quantity lot)) 0) as [Hl|Hl].
  { destruct (IH remaining seq Hr Hrb) as (lots' & c & s' & u & -> & A & B & C & D). cbn.
    exists (lot :: lots'), c, s', u. split_and!; [done|by constructor|done|lia|].
    rewrite open_quantity_cons. lia. }
  destruct (match_lot_total f remaining lot Hlot Hq Hr Hrb ltac:(lia)) as (lot' & -> & Hlot' & Hrem). cbn [rbind].
  destruct (dmin_amount remaining (lt_remaining_quantity lot) Hr L1) as [M1 M2].
  destruct (amount_dsub remaining (dmin remaining (lt_remaining_quantity lot)) Hr M1) as [N1 N2]; [unfold fits; lia|].
  set (remaining' := dsub remaining (dmin remaining (lt_remaining_quantity lot))) in *.
  pose proof Hlot' as (K1 & K2 & K3). rewrite (amount_deq _ _ K1) by done. rewrite amount_dzero.
  destruct (IH remaining' (if amount (lt_remaining_quantity lot') =? 0 then seq + 1 else seq) N1 ltac:(lia))
    as (lots' & c & s' & u & E & A & B & C & D).
  destruct (amount (lt_remaining_quantity lot') =? 0).
  - unfold complete_lot. destruct (ddiv_total (lt_weighted_exit_sum lot') _ K3) as [x ->]. cbn [rbind]. rewrite E. cbn.
    eexists (lot' :: lots'), _, s', u. split_and!; [done|by constructor|done|lia|].
    rewrite open_quantity_cons. lia.
  - rewrite E. cbn. exists (lot' :: lots'), c, s', u. split_and!; [done|by constructor|done|lia|].
    rewrite open_quantity_cons. lia.
Qed.

Lemma open_quantity_filter lots : Forall lot_ok lots ->
  Forall lot_ok (filter (fun lot => dgt (lt_remaining_quantity lot) dzero = true) lots) /\
  open_quantity (filter (fun lot => dgt (lt_remaining_quantity lot) dzero = true) lots) = open_quantity lots.
Proof.
  induction 1 as [|lot lots (H1 & H2 & H3) Hl [IH1 IH2]]; [done|]. 
  rewrite open_quantity_cons.
  destruct (dgt (lt_remaining_quantity lot) dzero) eqn:E.
  - rewrite filter_cons_True by done. split; [by constructor|]. rewrite <- IH2. done.
  - rewrite filter_cons_False by (by rewrite E). split; [done|].
    rewrite (amount_gt_zero _ H1) in E. rewrite IH2. lia.
Qed.

(** The open lots add up to the position. *)
Definition ledger_carries (l : FifoLedger) (position : decimal) : Prop :=
  Forall lot_ok (lg_lots l) /\ money position /\ amount position = open_quantity (lg_lots l).

Lemma open_lot_carries f l position : fi_side f = it_BUY -> ledger_carries l position -> money (fi_quantity f) ->
  0 < amount (fi_quantity f) -> amount position + amount (fi_quantity f) < 10 ^ 28 ->
  exists l', open_lot f l = Ok l' /\ ledger_carries l' (dadd position (fi_quantity f)).
Proof.
  intros Hs (H1 & H2 & H3) Hm Hp Hb. unfold open_lot, refuse. rewrite bool_decide_eq_true_2 by done. cbn.
  eexists. split; [done|]. pose proof (open_quantity_nonneg _ H1).
  destruct (amount_dadd position (fi_quantity f) H2 Hm) as [N1 N2]; [unfold fits; lia|].
  unfold ledger_carries. cbn. split_and!; [|done|].
  - apply Forall_app. split; [done|]. constructor; [|done]. unfold lot_ok. cbn. split_and!; [done|lia|].
    pose proof (amount_sgn _ Hm). apply dval_pos. lia.
  - unfold open_quantity in *. rewrite fmap_app, amounts_app, N2, H3. cbn. lia.
Qed.

Lemma close_lots_carries f l position : fi_side f = it_SELL -> ledger_carries l position -> money (fi_quantity f) ->
  0 < amount (fi_quantity f) <= amount position -> amount position < 10 ^ 28 ->
  exists trades l', close_lots f l = Ok (trades, l') /\ ledger_carries l' (dsub position (fi_quantity f)).
Proof.
  intros Hs (H1 & H2 & H3) Hm Hp Hb. unfold close_lots, refuse. rewrite bool_decide_eq_true_2 by done.
  cbn [negb raise_if rbind].
  assert (0 < dval (fi_quantity f))%Q as Hq by (pose proof (amount_sgn _ Hm); apply dval_pos; lia).
  destruct (close_loop_total f _ H1 Hq ltac:(lia) (fi_quantity f) (lg_trade_sequence l) Hm ltac:(lia))
    as (lots' & c & s' & u & -> & A & B & C & D).
  cbn [rbind]. rewrite (amount_gt_zero _ B). destruct (Z.ltb_spec 0 (amount u)); [lia|]. cbn [raise_if rbind].
  eexists _, _. split; [done|]. destruct (open_quantity_filter _ A) as [F1 F2].
  destruct (amount_dsub position (fi_quantity f) H2 Hm) as [N1 N2]; [unfold fits; lia|].
  unfold ledger_carries. cbn [lg_lots]. rewrite N2, F2. split_and!; [done..|lia].
Qed.

(** ** The run *)

Definition quantity_of (intents : list OrderIntent) (i : nat) : Z :=
  match intents !! i with Some it => amount (oi_quantity it) | None => 0 end.

(** What the listed intents ask for in total. *)
Definition asked (intents : list OrderIntent) (l : list nat) : Z := foldr (fun i z => quantity_of intents i + z) 0 l.

Lemma asked_cons intents i l : asked intents (i :: l) = quantity_of intents i + asked intents l.
Proof. done. Qed.

Lemma asked_app intents l1 l2 : asked intents (l1 ++ l2) = asked intents l1 + asked intents l2.
Proof. induction l1; [done|]. cbn [app]. rewrite !asked_cons. lia. Qed.

(** Intents whose quantities are money and small enough in total. *)
Definition moderate (intents : list OrderIntent) : Prop :=
  Forall (fun it => valid_intent it /\ money (oi_quantity it)) intents /\
  magnitude (oi_quantity <$> intents) < 10 ^ 28.

Lemma moderate_quantity intents i it : moderate intents -> intents !! i = Some it ->
  valid_intent it /\ money (oi_quantity it) /\ 0 < amount (oi_quantity it) /\ quantity_of intents i = amount (oi_quantity it).
Proof.
  intros [H _] Hi. rewrite Forall_lookup in H. destruct (H i it Hi) as [Hv Hm]. split_and!; [done..| |].
  - apply valid_intent_facts in Hv as [Hp _]. apply dval_pos in Hp. pose proof (amount_sgn _ Hm). lia.
  - unfold quantity_of. by rewrite Hi.
Qed.

Lemma asked_nonneg intents l : moderate intents -> 0 <= asked intents l.
Proof.
  intros H. induction l as [|i l IH]; [done|]. rewrite asked_cons. unfold quantity_of.
  destruct (intents !! i) as [it|] eqn:E; [|lia]. destruct (moderate_quantity _ _ _ H E) as (_ & _ & Hq & _). lia.
Qed.

Lemma asked_filter_cons intents (P : nat * OrderIntent -> Prop) `{!forall e, Decision (P e)} e es :
  asked intents (fst <$> filter P (e :: es)) =
  (if decide (P e) then quantity_of intents e.1 else 0) + asked intents (fst <$> filter P es).
Proof.
  destruct (decide (P e)).
  - by rewrite filter_cons_True, fmap_cons, asked_cons.
  - by rewrite filter_cons_False.
Qed.

(** The intents anchored before [p], and at [p]. *)
Definition asked_before (records : list market_record) (intents : list OrderIntent) (p : nat) : Z :=
  asked intents (fst <$> filter (fun e => (anchor_of records (snd e) < p)%nat) (enumerate intents)).

Lemma asked_before_S records intents p :
  asked_before records intents (S p) =
  asked_before records intents p + asked intents (anchored_at records (enumerate intents) p).
Proof.
  unfold asked_before, anchored_at. induction (enumerate intents) as [|e l IH]; [done|].
  rewrite !asked_filter_cons. repeat destruct (decide _); lia.
Qed.

Lemma asked_before_bound records intents p : moderate intents ->
  asked_before records intents p <= magnitude (oi_quantity <$> intents).
Proof.
  intros Hm. unfold asked_before.
  assert (forall es : list (nat * OrderIntent), Forall (fun e => intents !! e.1 = Some e.2) es ->
    asked intents (fst <$> filter (fun e => (anchor_of records (snd e) < p)%nat) es) <= magnitude (oi_quantity <$> es.*2)) as H.
  { induction 1 as [|[i it] es He Hes IH]; [done|]. cbn in He.
    destruct (moderate_quantity _ _ _ Hm He) as (_ & _ & Hq & Eq).
    rewrite asked_filter_cons. cbn [fst snd]. rewrite Eq.
    change (magnitude (oi_quantity <$> ((i, it) :: es).*2))
      with (Z.abs (amount (oi_quantity it)) + magnitude (oi_quantity <$> es.*2)).
    destruct (decide _); lia. }
  specialize (H (enumerate intents)). rewrite enumerate_snd in H. apply H.
  apply Forall_lookup. intros k [i it] Hk. rewrite enumerate_lookup in Hk. destruct (intents !! k) eqn:E; [|done].
  cbn in Hk. by simplify_eq.
Qed.

(** A state whose books are in order, with a position of at most [bound]. *)
Definition books_ok (bound : Z) (s : Sim) : Prop :=
  ledger_carries (sm_ledger s) (sm_position s) /\ amount (sm_position s) <= bound.

Lemma apply_intent_total intents cm j r s i bound : moderate intents -> valid_record r -> valid_costs cm ->
  (i < List.length intents)%nat -> books_ok bound s -> bound + quantity_of intents i < 10 ^ 28 ->
  exists s', apply_intent intents cm j r s i = Ok s' /\ books_ok (bound + quantity_of intents i) s'.
Proof.
  intros Hm Hr Hc Hi [Hl Hb] Hbound. destruct (lookup_lt_is_Some_2 _ _ Hi) as [it Hit]. unfold apply_intent. rewrite Hit.
  destruct (moderate_quantity _ _ _ Hm Hit) as (Hv & Hmo & Hq & Eq). rewrite Eq in *.
  pose proof Hl as (Hlots & Hpm & Hpa). pose proof (open_quantity_nonneg _ Hlots) as Hopen.
  assert (0 <= dval (sm_position s))%Q as Hpos by (apply amount_nonneg; [done|lia]).
  destruct (evaluate_fill_total it r j (sm_cash s) (sm_position s) cm (sm_sequence s) i Hv Hr Hc Hpos) as [ev Ev].
  rewrite Ev. cbn [rbind]. destruct (evaluate_fill_cases _ _ _ _ _ _ _ _ _ Ev) as [[reason ->]|[f H]].
  { cbn. eexists. split; [done|]. split; [done|]. cbn. lia. }
  unfold filled_by in H. destruct_and! H.
  match goal with H : fe_fill ev = Some f |- _ => rewrite H end.
  assert (money (fi_quantity f) /\ amount (fi_quantity f) = amount (oi_quantity it)) as [Fm Fa] by (split; congruence).
  destruct (oi_side it) eqn:Es; destruct_and!.
  - destruct (open_lot_carries f (sm_ledger s) (sm_position s)) as (l' & -> & Hl'); try done; [lia|lia|]. cbn.
    eexists. split; [done|]. assert (fe_position ev = dadd (sm_position s) (fi_quantity f)) as -> by congruence.
    split; [done|]. cbn. destruct (amount_dadd (sm_position s) (fi_quantity f)) as [_ ->]; [done..|unfold fits; lia|lia].
  - assert (amount (oi_quantity it) <= amount (sm_position s)) as Hle.
    { apply Z.leb_le. rewrite <- amount_le by done. by apply dle_spec. }
    destruct (close_lots_carries f (sm_ledger s) (sm_position s)) as (t & l' & -> & Hl'); try done; [lia|lia|]. cbn.
    eexists. split; [done|]. assert (fe_position ev = dsub (sm_position s) (fi_quantity f)) as -> by congruence.
    split; [done|]. cbn. destruct (amount_dsub (sm_position s) (fi_quantity f)) as [_ ->]; [done..|unfold fits; lia|lia].
Qed.

Lemma record_step_total records intents cm past k r acc : moderate intents -> valid_costs cm -> valid_record r ->
  past ++ [(k, r)] `prefix_of` enumerate records -> books_ok (asked_before records intents (List.length past)) acc.1 ->
  exists acc', record_step intents cm (anchor_table records intents) acc (k, r) = Ok acc' /\
    books_ok (asked_before records intents (List.length (past ++ [(k, r)]))) acc'.1.
Proof.
  intros Hm Hc Hr Hp Hb. apply enumerate_prefix in Hp as [-> Hrec]. set (p := List.length past) in *.
  destruct acc as [s curve]. cbn in Hb. unfold record_step. rewrite anchor_table_lookup by (by eapply lookup_lt_Some).
  rewrite length_app. cbn [List.length]. rewrite Nat.add_1_r. fold p.
  pose proof (asked_before_bound records intents (S p) Hm) as Htot. rewrite asked_before_S in Htot |- *.
  destruct (foldM_total (apply_intent intents cm p r) (fun l s => books_ok (asked_before records intents p + asked intents l) s)
    (anchored_at records (enumerate intents) p)) with (a := s) as (s' & E & Hs').
  - intros l i a [rest Hl] Ha. rewrite asked_app. cbn [asked foldr]. rewrite Z.add_0_r, Z.add_assoc.
    apply apply_intent_total; try done.
    + assert (i ∈ anchored_at records (enumerate intents) p) as Hin by (rewrite Hl; set_solver).
      apply anchored_at_in in Hin as (it & Hi & _). by eapply lookup_lt_Some.
    + destruct Hm as [Hm1 Hm2]. rewrite Hl, !asked_app in Htot. cbn [asked foldr] in Htot.
      pose proof (asked_nonneg intents rest (conj Hm1 Hm2)). lia.
  - cbn [asked foldr]. by rewrite Z.add_0_r.
  - rewrite E. cbn [rbind]. destruct (valid_record_positive r Hr) as [_ [mark ->]]. cbn [rbind]. eexists. split; [done|]. done.
Qed.

(** C24: Valid simulations complete.  For a checked history of valid records, valid
    costs, positive capital and valid intents in ascending order, whose quantities
    are whole multiples of 0.0001 and add up to less than 10^24, the run returns a
    result: the internal ledger never contradicts the position it carries, no
    division fails and every intent has an outcome. *)
Theorem valid_backtests_complete inputs intents cm capital :
  mk_BacktestInput inputs = Ok inputs -> Forall valid_record (bt_records inputs) -> valid_costs cm ->
  moderate intents -> check_ascending intents = Ok tt -> (0 < dval capital)%Q ->
  exists run, run_backtest inputs intents cm capital = Ok run /\ br_intents run = intents /\
    List.length (br_outcomes run) = List.length intents /\
    List.length (br_equity_curve run) = List.length (bt_records inputs).
Proof.
  intros Hin Hrecs Hc Hm Hasc Hcap. unfold run_backtest, refuse.
  rewrite (proj2 (dle_false capital dzero)) by (by rewrite dval_zero). rewrite Hasc. cbn [raise_if rbind].
  set (records := bt_records inputs) in *.
  destruct (anchor_intents_spec records (enumerate intents) (replicate (List.length intents) None)) as [c ->];
    [rewrite enumerate_decided; by apply check_ascending_ok|].
  fold (anchor_table records intents) (preset_outcomes records intents).
  set (start := (start_sim capital (preset_outcomes records intents), [] : list EquityPoint)).
  destruct (foldM_total (record_step intents cm (anchor_table records intents)) (fun past acc =>
     run_inv records intents cm past acc /\ books_ok (asked_before records intents (List.length past)) acc.1)
     (enumerate records)) with (a := start) as ([s curve] & -> & [(Ho & _ & Ht) _]).
  - intros past [k r] acc Hp [H1 H2]. pose proof Hp as [_ Hr]%enumerate_prefix. rewrite Forall_lookup in Hrecs.
    destruct (record_step_total records intents cm past k r acc) as (acc' & E & H3); try done; [by apply (Hrecs k)|].
    exists acc'. split; [done|]. split; [|done]. by eapply record_step_inv.
  - split; [by apply run_inv_start|]. split.
    + split_and!; [constructor|done|done].
    + cbn. apply asked_nonneg. done.
  - cbn [rbind fst snd] in *. destruct Ho as [Hlen Hout].
    assert (exists outs, mapM id (sm_outcomes s) = Some outs) as [outs Hm'].
    { apply mapM_is_Some, Forall_lookup. intros i o Hi. cbn.
      destruct (lookup_lt_is_Some_2 intents i) as [it Hit]; [rewrite <- Hlen; by eapply lookup_lt_Some|].
      specialize (Hout i it Hit). rewrite enumerate_length in Hout. destruct (decide _).
      - destruct Hout as (r & o' & _ & Ho' & _). simplify_eq. eauto.
      - unfold unanchored in Hout. destruct (Nat.ltb_spec (anchor_of records it) (List.length records)); [lia|].
        rewrite Hi in Hout. simplify_eq. eauto. }
    unfold settle_outcomes. rewrite Hm'. cbn [rbind]. unfold mk_BacktestRun, refuse. cbn.
    rewrite (proj2 (dle_false capital dzero)) by (by rewrite dval_zero). cbn [raise_if rbind].
    assert (List.length outs = List.length intents) as Hl.
    { apply mapM_Some in Hm'. rewrite <- Hlen. symmetry. by eapply Forall2_length. }
    assert (List.length curve = List.length records) as Hl'.
    { rewrite <- (length_fmap ep_timestamp), Ht, length_fmap, enumerate_snd. done. }
    rewrite Hl, Nat.eqb_refl. cbn. apply input_coherent in Hin as [_ (first & rest & Er & _)].
    destruct curve; [by unfold records in Hl'; rewrite Er in Hl'|]. cbn. eexists. split; [done|]. done.
Qed.

(** * Metrics *)

(** A value of the curve: positive and within the precision. *)
Definition curve_value (v : decimal) : Prop := representable v /\ (0 < dval v)%Q.

Lemma drawdown_step_bounds peak deepest v : curve_value peak -> curve_value v -> (0 <= dval deepest <= 1)%Q ->
  exists peak' deepest', drawdown_step (peak, deepest) v = Ok (peak', deepest') /\
    curve_value peak' /\ (dval v <= dval peak')%Q /\ (0 <= dval deepest' <= 1)%Q.
Proof.
  intros Hp Hv Hd. unfold drawdown_step. set (peak' := if dgt v peak then v else peak).
  assert (curve_value peak' /\ (dval v <= dval peak')%Q) as [[Hr Hpos] Hle].
  { subst peak'. unfold dgt. destruct (dlt peak v) eqn:E; [by split; [|apply Qle_refl]|]. apply dlt_false in E. done. }
  destruct (ddiv_total (dsub peak' v) peak' Hpos) as [q Eq]. rewrite Eq. cbn [rbind].
  assert (0 <= dval (dsub peak' v))%Q as H0 by (by apply dsub_nonneg).
  assert (dval (dsub peak' v) <= dval peak')%Q as H1.
  { unfold dsub. apply dadd_le_repr; [done|..]; rewrite copy_negate_val; destruct Hv; lra. }
  pose proof (ddiv_nonneg _ _ _ Eq H0 Hpos) as Q0.
  assert (dval q <= 1)%Q as Q1.
  { change 1%Q with (inject_Z 1). rewrite <- dval_of_Z.
    apply (ddiv_le_repr _ _ _ _ Eq); [apply one_representable|done..|]. rewrite dval_of_Z. change (inject_Z 1) with 1%Q. lra. }
  eexists _, _. split; [done|]. split; [by split|]. split; [done|]. destruct (dgt q deepest); [by split|done].
Qed.

(** The largest drawdown of a curve of positive values exists and is a fraction
    of the peak. *)
Lemma max_drawdown_bounds curve : curve <> [] -> Forall curve_value curve ->
  exists d, max_drawdown curve = Ok d /\ (0 <= dval d <= 1)%Q.
Proof.
  destruct curve as [|first rest]; [done|]. intros _ H. unfold max_drawdown.
  destruct (foldM_total drawdown_step (fun _ acc => curve_value acc.1 /\ (0 <= dval acc.2 <= 1)%Q) (first :: rest))
    with (a := (first, dzero)) as ([peak d] & -> & _ & Hd).
  - intros past v [peak deepest] [l Hl] [H1 H2].
    destruct (drawdown_step_bounds peak deepest v H1) as (p' & d' & E & A & _ & B); [|done|].
    + rewrite Forall_forall in H. apply H. rewrite Hl. set_solver.
    + eexists. split; [exact E|done].
  - split; [by inversion H|]. cbn [snd]. rewrite dval_zero. lra.
  - cbn. eauto.
Qed.

(** Sums are within the precision. *)
Lemma dadd_representable a b : (0 < dval (dadd a b))%Q -> representable (dadd a b).
Proof.
  intros [Hn _]%dval_pos%dz_pos_inv. split; [done|]. revert Hn. unfold dadd.
  generalize (of_signed (dneg a && dneg b) (scaled a (Z.min (dexp a) (dexp b)) + scaled b (Z.min (dexp a) (dexp b)))
    (Z.min (dexp a) (dexp b))). intros d _.
  destruct (N.lt_ge_cases (dcoef d) (10 ^ 28)) as [H|H]; [by rewrite dfix_id|].
  destruct (dfix_big d H) as (c & k & -> & Hc & _). cbn. apply Hc.
Qed.

Lemma mk_BacktestRun_curve r run : mk_BacktestRun r = Ok run -> br_equity_curve run <> [].
Proof. unfold mk_BacktestRun, refuse. intros H. res_inv. by destruct (br_equity_curve _). Qed.

(** Every point of a run's curve is a rounded sum. *)
Lemma run_curve_sums inputs intents cm capital run : run_backtest inputs intents cm capital = Ok run ->
  Forall (fun p => exists a b, ep_equity p = dadd a b) (br_equity_curve run) /\ br_equity_curve run <> [].
Proof.
  intros H. pose proof H as H'. apply run_backtest_inv in H as (s & _ & _ & Hf & _). split.
  - refine (foldM_inv _ (fun _ acc => Forall (fun p => exists a b, ep_equity p = dadd a b) acc.2) _ _ _ _ _ Hf); [|constructor].
    intros past [k r] [s1 c1] [s2 c2] _ Hc E. cbn in *. apply rbind_ok in E as (? & _ & E).
    apply rbind_ok in E as (? & _ & [= _ <-]). apply Forall_app. split; [done|]. constructor; [|done]. cbn. eauto.
  - unfold run_backtest in H'. res_inv. destruct (anchor_intents _ _ _) as [[? ?] ?]. res_inv.
    by match goal with H : mk_BacktestRun _ = Ok _ |- _ => apply mk_BacktestRun_curve in H end.
Qed.

Lemma period_returns_total curve : Forall curve_value curve -> exists l, period_returns curve = Ok l.
Proof.
  induction 1 as [|a l Ha Hl IH]; [eauto|]. destruct l as [|b l]; [eauto|]. destruct IH as [k Hk].
  cbn [period_returns] in *. destruct Ha as [_ Ha]. destruct (ddiv_total (dsub b a) a Ha) as [q ->]. rewrite Hk. cbn. eauto.
Qed.

(** Squares and their sums are not negative, so that the deviation exists. *)
Lemma dsum_nonneg l : Forall (fun d => (0 <= dval d)%Q) l -> (0 <= dval (dsum l))%Q.
Proof.
  intros H. unfold dsum. assert (0 <= dval dzero)%Q as H0 by (rewrite dval_zero; lra). revert H0.
  generalize dzero. induction H as [|d l Hd Hl IH]; intros a Ha; [done|]. cbn. apply IH. apply dadd_nonneg. lra.
Qed.

Lemma dmul_square d : (0 <= dval (dmul d d))%Q.
Proof. unfold dmul. apply dfix_nonneg. rewrite dmul_pre. nra. Qed.

Lemma dsqrt_total d : (0 <= dval d)%Q -> exists r, dsqrt d = Ok r /\ (0 <= dval r)%Q.
Proof.
  intros H%dval_nonneg. unfold dsqrt. destruct (N.eqb_spec (dcoef d) 0) as [E|E].
  - eexists. split; [done|]. apply dfix_nonneg, dval_nonneg. unfold dz. cbn. by case_match.
  - assert (dneg d = false) as -> by (unfold dz in H; destruct (dneg d); [lia|done]).
    destruct (_ && _); (eexists; split; [done|]; apply dfix_nonneg, dval_nonneg; unfold dz; cbn [dneg dcoef]; lia).
Qed.

Lemma sharpe_total returns risk_free : exists s, sharpe returns risk_free = Ok s.
Proof.
  unfold sharpe. destruct (Nat.ltb_spec (List.length returns) 2) as [H|H]; [eauto|].
  assert (0 < dval (dec_of_Z (Z.of_nat (List.length returns))))%Q as Hc.
  { rewrite dval_of_Z. change 0%Q with (inject_Z 0). rewrite <- Zlt_Qlt. lia. }
  destruct (ddiv_total (dsum returns) _ Hc) as [mean ->]. cbn [rbind].
  match goal with |- context [ddiv (dsum ?l) ?c] => destruct (ddiv_total (dsum l) c Hc) as [v Ev]; rewrite Ev end. cbn [rbind].
  assert (0 <= dval v)%Q as Hv.
  { apply (ddiv_nonneg _ _ _ Ev); [|done]. apply dsum_nonneg, Forall_fmap, Forall_forall. intros r _. apply dmul_square. }
  destruct (dsqrt_total v Hv) as (sd & -> & Hs). cbn [rbind]. destruct (deq sd dzero) eqn:E; [eauto|].
  apply deq_false in E. rewrite dval_zero in E.
  destruct (ddiv_total (dsub mean risk_free) sd) as [x ->]; [|cbn; eauto].
  destruct (Qlt_le_dec 0 (dval sd)) as [|Hle]; [done|]. exfalso. apply E. by apply Qle_antisym.
Qed.

Lemma final_equity_total run : br_equity_curve run <> [] -> exists v, final_equity run = Ok v.
Proof.
  intros H. unfold final_equity. destruct (last (br_equity_curve run)) eqn:E; [eauto|]. by apply last_None in E.
Qed.

Lemma run_capital inputs intents cm capital run : run_backtest inputs intents cm capital = Ok run ->
  br_initial_capital run = capital.
Proof.
  unfold run_backtest. intros H. res_inv. destruct (anchor_intents _ _ _) as [[? ?] ?]. res_inv.
  unfold mk_BacktestRun, refuse in *. by res_inv.
Qed.

Lemma win_rate_total wins n : exists w,
  (if 0 <? Z.of_nat n then let! r := ddiv (dec_of_Z wins) (dec_of_Z (Z.of_nat n)) in Ok (Some r) else Ok None) = Ok w.
Proof.
  destruct (Z.ltb_spec 0 (Z.of_nat n)) as [H|H]; [|eauto].
  destruct (ddiv_total (dec_of_Z wins) (dec_of_Z (Z.of_nat n))) as [r ->]; [|cbn; eauto].
  rewrite dval_of_Z. change 0%Q with (inject_Z 0). by rewrite <- Zlt_Qlt.
Qed.

Lemma profit_factor_total profit loss : exists f,
  (if dgt loss dzero then let! r := ddiv profit loss in Ok (Some r) else Ok None) = Ok f.
Proof.
  destruct (dgt loss dzero) eqn:E; [|eauto]. unfold dgt in E. apply dlt_spec in E. rewrite dval_zero in E.
  destruct (ddiv_total profit loss E) as [r ->]. cbn. eauto.
Qed.

Lemma count_trades_split trades :
  count_trades (fun p => dgt p dzero) trades + count_trades (fun p => dlt p dzero) trades +
  count_trades (fun p => deq p dzero) trades = Z.of_nat (List.length trades).
Proof.
  unfold count_trades. induction trades as [|t l IH]; [done|]. rewrite !filter_cons. cbn [List.length].
  unfold dgt in *. pose proof (dcmp_spec dzero (tr_realized_pnl t)) as E1. pose proof (dcmp_spec (tr_realized_pnl t) dzero) as E2.
  rewrite <- Qcompare_antisym in E2. rewrite <- E1 in E2. unfold dlt, deq in *. rewrite E2.
  destruct (dcmp dzero (tr_realized_pnl t)); cbn [CompOpp]; repeat case_decide; try (exfalso; congruence);
    cbn [List.length]; lia.
Qed.

(** The metrics of a run are defined exactly when they make sense: for a
    non-negative risk-free rate they are computed if and only if every marked
    equity of the run is positive, and otherwise the dedicated error is raised.
    When they are, the trades split into wins, losses and break-evens, and the
    maximal drawdown lies between 0 and 1. *)
Theorem metrics_defined_iff_equity_positive inputs intents cm capital run rate :
  run_backtest inputs intents cm capital = Ok run -> (0 <= dval rate)%Q ->
  if decide (Forall (fun p => dgt (ep_equity p) dzero = true) (br_equity_curve run)) then
    exists m, compute_metrics run rate = Ok m /\ bm_wins m + bm_losses m + bm_breakevens m = bm_trade_count m /\
      (0 <= dval (bm_max_drawdown m) <= 1)%Q
  else compute_metrics run rate =
    raise BacktestMetricsError "marked equity must stay positive to compute honest metrics".
Proof.
  intros H Hr. unfold compute_metrics, refuse. rewrite (proj2 (dlt_false rate dzero)) by (by rewrite dval_zero).
  cbn [raise_if rbind]. set (curve := ep_equity <$> br_equity_curve run).
  destruct (run_curve_sums _ _ _ _ _ H) as [Hsums Hne]. destruct (decide _) as [Hpos|Hneg].
  - assert (Forall curve_value curve) as Hcv.
    { apply Forall_fmap. rewrite Forall_forall in Hpos, Hsums |- *. intros p Hp. specialize (Hpos p Hp).
      destruct (Hsums p Hp) as (a & b & E). unfold dgt in Hpos. apply dlt_spec in Hpos. rewrite dval_zero in Hpos.
      split; [|done]. cbn in *. rewrite E in Hpos |- *. by apply dadd_representable. }
    assert (existsb (fun v => dle v dzero) curve = false) as ->.
    { apply not_true_iff_false. rewrite existsb_exists. intros (v & Hin & Hv). rewrite Forall_forall in Hcv.
      destruct (Hcv v) as [_ Hp]; [by apply list_elem_of_In|]. apply dle_spec in Hv. rewrite dval_zero in Hv. lra. }
    cbn [raise_if rbind].
    destruct (final_equity_total run Hne) as [final ->]. cbn [rbind].
    pose proof H as (_ & _ & Hcap & _ & _ & _ & _)%run_backtest_inv.
    assert (br_initial_capital run = capital) as -> by (by eapply run_capital).
    destruct (ddiv_total (dsub final capital) capital Hcap) as [ret' ->]. cbn [rbind].
    destruct (win_rate_total (count_trades (fun p => dgt p dzero) (br_trades run)) (List.length (br_trades run))) as [w ->].
    cbn [rbind]. destruct (profit_factor_total (dsum (filter (fun p => dgt p dzero = true) (tr_realized_pnl <$> br_trades run)))
      (dsum (dminus <$> filter (fun p => dlt p dzero = true) (tr_realized_pnl <$> br_trades run)))) as [pf ->]. cbn [rbind].
    destruct (max_drawdown_bounds curve) as (d & -> & Hd); [by intros E%fmap_nil_inv|done|]. cbn [rbind].
    destruct (period_returns_total curve Hcv) as [rs ->]. cbn [rbind].
    destruct (sharpe_total rs rate) as [sh ->]. cbn [rbind]. eexists. split; [done|]. cbn [bm_max_drawdown bm_wins bm_losses
      bm_breakevens bm_trade_count]. split; [apply count_trades_split|done].
  - assert (existsb (fun v => dle v dzero) curve = true) as ->; [|done].
    apply not_Forall_Exists in Hneg; [|intros p; apply _]. apply Exists_exists in Hneg as (p & Hp & Hv).
    apply existsb_exists. exists (ep_equity p). split; [apply list_elem_of_In, list_elem_of_fmap; eauto|].
    apply dle_spec, dlt_false. by destruct (dlt dzero (ep_equity p)) eqn:E; [exfalso; apply Hv|].
Qed.

(** * A small history *)

Module BacktestSample.

Definition at_ (minute : Z) : datetime := utc (1700000000000000 + minute * 60000000).

Definition price (cents : Z) : decimal := Dec false (Z.to_N cents) (-2).

Definition candle (minute open close : Z) : market_record :=
  rec_candle {| cd_instrument_id := 7; cd_exchange := "NSE"; cd_symbol := "INFY"; cd_timeframe := ONE_MINUTE;
                cd_candle_start := at_ minute; cd_open_price := price open; cd_high_price := price (Z.max open close);
                cd_low_price := price (Z.min open close); cd_close_price := price close; cd_volume := Some 10;
                cd_source_broker := "file"; cd_generated_at := at_ (minute + 1) |}.

Definition history (tail : list market_record) : BacktestInput :=
  {| bt_dataset_id := "sample"; bt_source := "file"; bt_metadata := ∅;
     bt_records := [candle 0 10000 10100; candle 1 10200 10300] ++ tail |}.

Definition rising : BacktestInput := history [candle 2 10400 10500].
Definition falling : BacktestInput := history [candle 2 9000 8000; candle 3 8000 7000].

Definition order (side : IntentSide) (quantity second : Z) : OrderIntent :=
  {| oi_side := side; oi_order_type := it_MARKET; oi_quantity := dec_of_Z quantity;
     oi_decided_at := utc (1700000000000000 + second * 1000000); oi_limit_price := None; oi_label := None |}.

Definition limit_order : OrderIntent :=
  {| oi_side := it_BUY; oi_order_type := it_LIMIT; oi_quantity := dec_of_Z 1; oi_decided_at := at_ 0;
     oi_limit_price := Some (price 10250); oi_label := None |}.

Definition costs : CostModel := {| cm_commission_per_fill := dec_of_Z 1; cm_slippage_bps := dec_of_Z 10 |}.
Definition capital : decimal := dec_of_Z 1000.

Definition early : list OrderIntent := [order it_BUY 2 30].
Definition late : list OrderIntent := [order it_SELL 1 90].

Definition run_of (i : BacktestInput) (intents : list OrderIntent) : BacktestRun :=
  match run_backtest i intents costs capital with
  | Ok r => r
  | Err _ => {| br_input_sha256 := ""; br_dataset_id := ""; br_source := ""; br_initial_capital := capital;
                br_cost_model := costs; br_intents := intents; br_outcomes := []; br_trades := [];
                br_equity_curve := [] |}
  end.

Lemma run_of_ok i intents : is_ok (run_backtest i intents costs capital) = true ->
  run_backtest i intents costs capital = Ok (run_of i intents).
Proof. unfold run_of. by destruct (run_backtest i intents costs capital). Qed.

Lemma rising_ok : run_backtest rising (early ++ late) costs capital = Ok (run_of rising (early ++ late)).
Proof. apply run_of_ok. vm_compute. reflexivity. Qed.
Lemma falling_ok : run_backtest falling (early ++ []) costs capital = Ok (run_of falling (early ++ [])).
Proof. apply run_of_ok. vm_compute. reflexivity. Qed.

(** Two shares are bought at the second candle's open with slippage, one of them
    sold at the third's; the lot stays open. *)
Example rising_curve :
  ((fun p => dec_str (ep_equity p)) <$> br_equity_curve (run_of rising (early ++ late)),
   (fun f => (fi_record_index f, dec_str (fi_fill_price f), dec_str (fi_cash_flow f))) <$> run_fills (run_of rising (early ++ late)),
   List.length (br_trades (run_of rising (early ++ late)))) =
  (["1000.00"; "1000.79600"; "1002.69200"]%string,
   [(1%nat, "102.10200"%string, "-205.20400"%string); (2%nat, "103.89600"%string, "102.89600"%string)], 0%nat).
Proof. vm_compute. reflexivity. Qed.

Lemma outcome_witness : exists r, bt_records rising !! 1%nat = Some r /\
  exists o, br_outcomes (run_of rising (early ++ late)) !! 0%nat = Some o /\ outcome_from (order it_BUY 2 30) r 1 costs 0 o.
Proof.
  destruct (outcomes_after_decision rising (early ++ late) costs capital _ 0 (order it_BUY 2 30) rising_ok eq_refl)
    as (_ & _ & _ & o & Ho & Hf & _).
  exists (candle 1 10200 10300). split; [reflexivity|]. exists o. split; [exact Ho|exact Hf].
Defined.

Lemma equity_witness : Forall (fun p => (0 <= dval (ep_equity p))%Q) (br_equity_curve (run_of rising (early ++ late))).
Proof.
  apply (equity_never_negative rising (early ++ late) costs capital _ rising_ok).
  repeat constructor; vm_compute; discriminate.
Defined.

Lemma agree_sample : agree_upto 2 (bt_records rising) (bt_records falling) late [].
Proof.
  split; [reflexivity|vm_compute; lia|vm_compute; lia|].
  intros j r it Hj Hr Hit. rewrite app_nil_r in Hit. apply list_elem_of_singleton in Hit as ->.
  destruct j as [|[|j]]; [| |lia]; injection Hr as <-; vm_compute; discriminate.
Qed.

Lemma look_ahead_witness :
  take 2 (br_equity_curve (run_of rising (early ++ late))) = take 2 (br_equity_curve (run_of falling (early ++ []))).
Proof.
  exact (proj1 (no_look_ahead 2 rising falling early late [] costs capital _ _ rising_ok falling_ok agree_sample)).
Defined.

Definition limit_evaluation : FillEvaluation :=
  match evaluate_fill limit_order (candle 1 10200 10300) 1 capital dzero costs 0 0 with
  | Ok ev => ev
  | Err _ => unfilled 0 INSUFFICIENT_CASH capital dzero
  end.

Lemma limit_fill_exists : exists f, fe_fill limit_evaluation = Some f.
Proof. vm_compute. eauto. Qed.

Lemma fills_witness : exists f, fe_fill limit_evaluation = Some f /\ (dval (fi_fill_price f) <= dval (price 10250))%Q.
Proof.
  destruct limit_fill_exists as [f Hf]. exists f. split; [exact Hf|].
  destruct (fills_never_flatter limit_order (candle 1 10200 10300) 1 capital dzero costs 0 0 limit_evaluation f)
    as [_ [_ H]].
  - vm_compute. reflexivity.
  - exact Hf.
  - repeat constructor; vm_compute; reflexivity.
  - exact (H (price 10250) eq_refl).
Defined.

Lemma completes_witness : exists run, run_backtest rising (early ++ late) costs capital = Ok run.
Proof.
  destruct (valid_backtests_complete rising (early ++ late) costs capital) as (run & H & _).
  - vm_compute. reflexivity.
  - repeat constructor; vm_compute; reflexivity.
  - vm_compute. reflexivity.
  - split; [|vm_compute; reflexivity]. repeat constructor; vm_compute; (reflexivity || discriminate).
  - vm_compute. reflexivity.
  - vm_compute. reflexivity.
  - exists run. exact H.
Defined.

Lemma rising_positive :
  Forall (fun p => dgt (ep_equity p) dzero = true) (br_equity_curve (run_of rising (early ++ late))).
Proof.
  apply Forall_forall. intros p Hp. apply list_elem_of_In in Hp. revert p Hp. apply forallb_forall.
  vm_compute. reflexivity.
Qed.

Lemma metrics_witness : exists m, compute_metrics (run_of rising (early ++ late)) dzero = Ok m /\
  (0 <= dval (bm_max_drawdown m) <= 1)%Q.
Proof.
  pose proof (metrics_defined_iff_equity_positive rising (early ++ late) costs capital _ dzero rising_ok
    ltac:(vm_compute; discriminate)) as H.
  destruct (decide _) as [_|n]; [|destruct (n rising_positive)].
  destruct H as (m & E & _ & D). exists m. split; [exact E|exact D].
Defined.

End BacktestSample.
