(* ===== verification/BacktestPortfolio.v ===== *)
(** The multi-symbol backtest (src/backtesting/alpha_algo_backtest_portfolio):
    capital allocation (capital.py), the universe (inputs.py) and the simulation
    over one global time line with one cash pool (engine.py).

    Each member of a universe is a checked input, which has a first record; the
    dictionaries the engine keys by symbol are finite maps that hold every symbol
    of the universe, so that its look-ups never fail. *)

From stdpp Require Import base list strings gmap sorting.
From Stdlib Require Import ZArith QArith Lqa Lia String.
From S2P Require Import Prelude PyBase Hashing Decimal DecimalText Service Market Backtest BacktestEngine.
Open Scope Z_scope.

(** * capital.py *)

Record CapitalAllocation := {
  ca_initial_capital : decimal;
  ca_reserved_cash : decimal;
  ca_per_symbol_budget : list (string * decimal);
}.

Definition refuse_pf (b : bool) (msg : string) : res unit := raise_if b PortfolioBacktestError msg.

Fixpoint check_budgets (seen : list string) (budgets : list (string * decimal)) : res unit :=
  match budgets with
  | [] => Ok tt
  | (symbol, budget) :: rest =>
      refuse_pf (String.eqb symbol "") "budget symbol must be a non-empty string" ;!
      refuse_pf (bool_decide (symbol ∈ seen)) "per_symbol_budget symbols must be unique" ;!
      refuse_pf (dle budget dzero) "budget must be a positive finite Decimal" ;!
      check_budgets (symbol :: seen) rest
  end.

Definition mk_CapitalAllocation (a : CapitalAllocation) : res CapitalAllocation :=
  refuse_pf (dle (ca_initial_capital a) dzero) "initial_capital must be a positive finite Decimal" ;!
  refuse_pf (dlt (ca_reserved_cash a) dzero) "reserved_cash must be a non-negative finite Decimal" ;!
  refuse_pf (dgt (ca_reserved_cash a) (ca_initial_capital a)) "reserved_cash must not exceed initial_capital" ;!
  check_budgets [] (ca_per_symbol_budget a) ;!
  Ok a.

Definition budget_for (a : CapitalAllocation) (symbol : string) : option decimal :=
  (fun found => snd (snd found)) <$> list_find (fun pair => fst pair = symbol) (ca_per_symbol_budget a).

(** * inputs.py *)

Definition input_symbol (i : BacktestInput) : string := default "" (record_symbol <$> head (bt_records i)).
Definition input_instrument (i : BacktestInput) : UUID := default 0%N (record_instrument <$> head (bt_records i)).

Definition PortfolioInput : Type := list BacktestInput.

Definition mk_PortfolioInput (inputs : PortfolioInput) : res PortfolioInput :=
  refuse_pf (match inputs with [] => true | _ => false end) "inputs must be a non-empty tuple of BacktestInput" ;!
  refuse_pf (negb (bool_decide (NoDup (input_symbol <$> inputs)))) "portfolio symbols must be unique" ;!
  refuse_pf (negb (bool_decide (NoDup (input_instrument <$> inputs)))) "portfolio instruments must be unique" ;!
  Ok inputs.

Definition pf_symbols (p : PortfolioInput) : list string := sorted_strings (input_symbol <$> p).
(** A later entry of the comprehension replaces an earlier one. *)
Definition symbol_inputs (p : PortfolioInput) : gmap string BacktestInput :=
  list_to_map (reverse ((fun i => (input_symbol i, i)) <$> p)).
Definition pf_content_sha256 (p : PortfolioInput) : string :=
  sha256_hex (String.concat newline
    (sorted_strings ((fun i => input_symbol i +:+ "=" +:+ content_sha256 (bt_records i)) <$> p))).
Definition pf_dataset_id (p : PortfolioInput) : string :=
  "portfolio:" +:+ String.concat "," (sorted_strings (bt_dataset_id <$> p)).
Definition pf_source (p : PortfolioInput) : string :=
  "portfolio:" +:+ String.concat "," (sorted_strings (remove_dups (bt_source <$> p))).

(** * engine.py *)

Definition pf_mark_price (r : market_record) : res decimal :=
  let price := match r with rec_candle c => cd_close_price c | rec_tick t => tk_ltp t end in
  refuse_pf (dle price dzero) "mark price must be a positive finite Decimal" ;!
  Ok price.

Record PortfolioIntent := {
  pi_symbol : string;
  pi_intent : OrderIntent;
}.

Definition mk_PortfolioIntent (i : PortfolioIntent) : res PortfolioIntent :=
  refuse_pf (String.eqb (pi_symbol i) "") "symbol must be a non-empty string" ;!
  Ok i.

Record PortfolioTrade := {
  pt_symbol : string;
  pt_trade : TradeRecord;
}.

Record PortfolioEquityPoint := {
  pe_timestamp : datetime;
  pe_equity : decimal;
}.

Record PortfolioResult := {
  pr_input_sha256 : string;
  pr_dataset_id : string;
  pr_source : string;
  pr_initial_capital : decimal;
  pr_reserved_cash : decimal;
  pr_cost_model : CostModel;
  pr_symbols : list string;
  pr_intents : list PortfolioIntent;
  pr_outcomes : list FillOutcome;
  pr_trades : list PortfolioTrade;
  pr_equity_curve : list PortfolioEquityPoint;
}.

Definition mk_PortfolioResult (r : PortfolioResult) : res PortfolioResult :=
  refuse_pf (dle (pr_initial_capital r) dzero) "initial_capital must be a positive finite Decimal" ;!
  refuse_pf (dlt (pr_reserved_cash r) dzero) "reserved_cash must be a non-negative finite Decimal" ;!
  refuse_pf (match pr_symbols r with [] => true | _ => false end) "symbols must be a non-empty tuple" ;!
  refuse_pf (negb (List.length (pr_outcomes r) =? List.length (pr_intents r))%nat) "outcomes must be 1:1 with intents" ;!
  refuse_pf (match pr_equity_curve r with [] => true | _ => false end)
    "equity_curve must be a non-empty tuple of PortfolioEquityPoint" ;!
  Ok r.

Definition pr_fills (r : PortfolioResult) : list FillRecord := omap outcome_fill (pr_outcomes r).
Definition pr_final_equity (r : PortfolioResult) : res decimal :=
  match last (pr_equity_curve r) with
  | Some p => Ok (pe_equity p)
  | None => raise IndexError "tuple index out of range"
  end.
Definition pr_total_commission (r : PortfolioResult) : decimal := dsum (fi_commission_amount <$> pr_fills r).
Definition pr_total_slippage_cost (r : PortfolioResult) : decimal :=
  dsum ((fun f => dmul (fi_slippage_per_share f) (fi_quantity f)) <$> pr_fills r).

Definition records_of (p : PortfolioInput) (symbol : string) : list market_record :=
  default [] (bt_records <$> symbol_inputs p !! symbol).

Fixpoint check_known (p : PortfolioInput) (intents : list PortfolioIntent) : res unit :=
  match intents with
  | [] => Ok tt
  | i :: rest =>
      refuse_pf (match symbol_inputs p !! pi_symbol i with Some _ => false | None => true end)
        ("intent references unknown symbol " +:+ py_repr (pi_symbol i)) ;!
      check_known p rest
  end.

(** The intents of a symbol with their places, by decision. *)
Definition group_of (intents : list PortfolioIntent) (symbol : string) : list (nat * OrderIntent) :=
  stable_sort (fun a b => ts_le (oi_decided_at (snd a)) (oi_decided_at (snd b)))
    ((fun e => (fst e, pi_intent (snd e))) <$> filter (fun e => pi_symbol (snd e) = symbol) (enumerate intents)).

Fixpoint check_group (symbol : string) (group : list (nat * OrderIntent)) : res unit :=
  match group with
  | a :: (b :: _) as rest =>
      refuse_pf (ts_le (oi_decided_at (snd b)) (oi_decided_at (snd a)))
        ("intents for symbol " +:+ py_repr symbol +:+ " must be sorted by strictly ascending decided_at") ;!
      check_group symbol rest
  | _ => Ok tt
  end.

Fixpoint check_groups (intents : list PortfolioIntent) (symbols : list string) : res unit :=
  match symbols with
  | [] => Ok tt
  | s :: rest => check_group s (group_of intents s) ;! check_groups intents rest
  end.

(** The anchors of every symbol, one symbol after the other. *)
Fixpoint anchor_symbols (p : PortfolioInput) (intents : list PortfolioIntent) (symbols : list string)
    (anchored : gmap string (list (list nat))) (outcomes : list (option FillOutcome))
    : gmap string (list (list nat)) * list (option FillOutcome) :=
  match symbols with
  | [] => (anchored, outcomes)
  | s :: rest =>
      let '(_, table, outcomes') := anchor_intents (records_of p s) (group_of intents s) outcomes in
      anchor_symbols p intents rest (<[s := table]> anchored) outcomes'
  end.

(** An entry of the time line: symbol, place in its history, record. *)
Definition TimelineEntry : Type := string * nat * market_record.
Definition entry_le (a b : TimelineEntry) : bool :=
  let '(sa, _, ra) := a in
  let '(sb, _, rb) := b in
  if dt_instant (record_timestamp ra) =? dt_instant (record_timestamp rb) then String.leb sa sb
  else dt_instant (record_timestamp ra) <? dt_instant (record_timestamp rb).

Definition timeline (p : PortfolioInput) (symbols : list string) : list TimelineEntry :=
  stable_sort entry_le (s ← symbols; (fun e => (s, fst e, snd e)) <$> enumerate (records_of p s)).

Record PfSim := {
  ps_cash : decimal;
  ps_position : gmap string decimal;
  ps_last_mark : gmap string decimal;
  ps_sequence : Z;
  ps_trades : list PortfolioTrade;
  ps_ledgers : gmap string FifoLedger;
  ps_outcomes : list (option FillOutcome);
}.

Definition pos_of (s : PfSim) (symbol : string) : decimal := default dzero (ps_position s !! symbol).
Definition ledger_of (s : PfSim) (symbol : string) : FifoLedger :=
  default {| lg_lots := []; lg_trade_sequence := 0 |} (ps_ledgers s !! symbol).

Definition set_mark (symbol : string) (mark : decimal) (s : PfSim) : PfSim :=
  {| ps_cash := ps_cash s; ps_position := ps_position s; ps_last_mark := <[symbol := mark]> (ps_last_mark s);
     ps_sequence := ps_sequence s; ps_trades := ps_trades s; ps_ledgers := ps_ledgers s; ps_outcomes := ps_outcomes s |}.

(** The capital rules on top of the account rules. *)
Definition capital_rules (a : CapitalAllocation) (symbol : string) (index : nat) (cash position : decimal)
    (evaluation : FillEvaluation) : FillEvaluation :=
  let refused := unfilled index INSUFFICIENT_CASH cash position in
  let evaluation :=
    match fe_fill evaluation with
    | Some _ => if dlt (fe_cash evaluation) (ca_reserved_cash a) then refused else evaluation
    | None => evaluation
    end in
  match fe_fill evaluation with
  | Some f =>
      match fi_side f, budget_for a symbol with
      | it_BUY, Some budget => if dgt (fi_gross_value f) budget then refused else evaluation
      | _, _ => evaluation
      end
  | None => evaluation
  end.

Definition pf_apply_intent (intents : list PortfolioIntent) (cost_model : CostModel) (a : CapitalAllocation)
    (symbol : string) (record_index : nat) (record : market_record) (s : PfSim) (index : nat) : res PfSim :=
  match intents !! index with
  | None => raise IndexError "tuple index out of range"
  | Some i =>
      let! raw := evaluate_fill (pi_intent i) record record_index (ps_cash s) (pos_of s symbol) cost_model
                    (ps_sequence s) index in
      let evaluation := capital_rules a symbol index (ps_cash s) (pos_of s symbol) raw in
      let outcomes := <[index := Some (fe_outcome evaluation)]> (ps_outcomes s) in
      match fe_fill evaluation with
      | None =>
          Ok {| ps_cash := ps_cash s; ps_position := ps_position s; ps_last_mark := ps_last_mark s;
                ps_sequence := ps_sequence s; ps_trades := ps_trades s; ps_ledgers := ps_ledgers s;
                ps_outcomes := outcomes |}
      | Some fill =>
          let! booked := match fi_side fill with
                         | it_BUY => let! l := open_lot fill (ledger_of s symbol) in Ok ([], l)
                         | it_SELL => close_lots fill (ledger_of s symbol)
                         end in
          Ok {| ps_cash := fe_cash evaluation; ps_position := <[symbol := fe_position evaluation]> (ps_position s);
                ps_last_mark := ps_last_mark s; ps_sequence := ps_sequence s + 1;
                ps_trades := ps_trades s ++ ((fun t => {| pt_symbol := symbol; pt_trade := t |}) <$> fst booked);
                ps_ledgers := <[symbol := snd booked]> (ps_ledgers s); ps_outcomes := outcomes |}
      end
  end.

(** [market_value += position[s] * mark] over the symbols held. *)
Definition add_market_value (s : PfSim) (value : decimal) (symbol : string) : res decimal :=
  if deq (pos_of s symbol) dzero then Ok value
  else match ps_last_mark s !! symbol with
       | None => raise PortfolioBacktestError "internal error: position without a mark"
       | Some mark => Ok (dadd value (dmul (pos_of s symbol) mark))
       end.

Definition timeline_step (intents : list PortfolioIntent) (cost_model : CostModel) (a : CapitalAllocation)
    (symbols : list string) (anchored : gmap string (list (list nat)))
    (acc : PfSim * list PortfolioEquityPoint) (entry : nat * TimelineEntry) : res (PfSim * list PortfolioEquityPoint) :=
  let '(s, curve) := acc in
  let '(record_index, (symbol, local_index, record)) := entry in
  let! mark := pf_mark_price record in
  let! s := foldM (pf_apply_intent intents cost_model a symbol record_index record) (set_mark symbol mark s)
              (default [] (default [] (anchored !! symbol) !! local_index)) in
  let! market_value := foldM (add_market_value s) dzero symbols in
  Ok (s, curve ++ [{| pe_timestamp := record_timestamp record; pe_equity := dadd (ps_cash s) market_value |}]).

Definition pf_start (a : CapitalAllocation) (symbols : list string) (outcomes : list (option FillOutcome)) : PfSim :=
  {| ps_cash := ca_initial_capital a; ps_position := list_to_map ((fun s => (s, dzero)) <$> symbols);
     ps_last_mark := ∅; ps_sequence := 0; ps_trades := [];
     ps_ledgers := list_to_map ((fun s => (s, {| lg_lots := []; lg_trade_sequence := 0 |})) <$> symbols);
     ps_outcomes := outcomes |}.

Definition run_portfolio_backtest (p : PortfolioInput) (intents : list PortfolioIntent) (cost_model : CostModel)
    (a : CapitalAllocation) : res PortfolioResult :=
  let symbols := pf_symbols p in
  check_known p intents ;!
  check_groups intents symbols ;!
  let '(anchored, outcomes) := anchor_symbols p intents symbols ∅ (replicate (List.length intents) None) in
  let! done := foldM (timeline_step intents cost_model a symbols anchored) (pf_start a symbols outcomes, [])
                 (enumerate (timeline p symbols)) in
  let! final_outcomes := settle_outcomes PortfolioBacktestError (ps_outcomes (fst done)) in
  mk_PortfolioResult
    {| pr_input_sha256 := pf_content_sha256 p; pr_dataset_id := pf_dataset_id p; pr_source := pf_source p;
       pr_initial_capital := ca_initial_capital a; pr_reserved_cash := ca_reserved_cash a;
       pr_cost_model := cost_model; pr_symbols := symbols; pr_intents := intents; pr_outcomes := final_outcomes;
       pr_trades := ps_trades (fst done); pr_equity_curve := snd done |}.

(** * The cash floor *)

(** What survives the capital rules is the account's own evaluation, above the
    floor; everything else leaves the account alone. *)
Lemma capital_rules_cases a symbol i cash position raw :
  let ev := capital_rules a symbol i cash position raw in
  (fe_fill ev = None /\ (ev = raw \/ ev = unfilled i INSUFFICIENT_CASH cash position)) \/
  (ev = raw /\ exists f, fe_fill ev = Some f /\ (dval (ca_reserved_cash a) <= dval (fe_cash ev))%Q /\
    forall budget, fi_side f = it_BUY -> budget_for a symbol = Some budget -> (dval (fi_gross_value f) <= dval budget)%Q).
Proof.
  cbn zeta. unfold capital_rules. destruct (fe_fill raw) as [f|] eqn:E; [|rewrite E; left; auto].
  destruct (dlt (fe_cash raw) (ca_reserved_cash a)) eqn:Hc; cbn [fe_fill unfilled]; [left; auto|].
  rewrite E. apply dlt_false in Hc.
  destruct (fi_side f) eqn:Es; [|right; split; [done|]; exists f; split_and!; [done..|intros; congruence]].
  destruct (budget_for a symbol) as [budget|] eqn:Eb; [|right; split; [done|]; exists f; split_and!; [done..|intros; congruence]].
  unfold dgt. destruct (dlt budget (fi_gross_value f)) eqn:Hg; [left; auto|].
  right. split; [done|]. exists f. apply dlt_false in Hg. split_and!; [done..|]. by intros ? _ [= <-].
Qed.

(** The pool stays above the floor, no position is short, every mark is positive. *)
Definition pool_ok (a : CapitalAllocation) (s : PfSim) : Prop :=
  (dval (ca_reserved_cash a) <= dval (ps_cash s))%Q /\ (forall symbol, (0 <= dval (pos_of s symbol))%Q) /\
  (forall symbol mark, ps_last_mark s !! symbol = Some mark -> (0 < dval mark)%Q).

Lemma pf_apply_intent_pool intents cm a symbol j r s i s' :
  Forall (fun p => (0 <= dval (oi_quantity (pi_intent p)))%Q) intents -> (0 <= dval (ca_reserved_cash a))%Q ->
  pool_ok a s -> pf_apply_intent intents cm a symbol j r s i = Ok s' -> pool_ok a s'.
Proof.
  intros Hq H0 (Hc & Hp & Hm) H. unfold pf_apply_intent in H. destruct (intents !! i) as [p|] eqn:Ei; [|done]. res_inv.
  rename a0 into raw. pose proof (capital_rules_cases a symbol i (ps_cash s) (pos_of s symbol) raw) as Hcases. cbn zeta in Hcases.
  set (ev := capital_rules a symbol i (ps_cash s) (pos_of s symbol) raw) in *.
  destruct Hcases as [[Hn _]|[Hev (f & Hf & Hfloor & _)]].
  - rewrite Hn in K. res_inv. by split_and!.
  - rewrite Hf in K. rewrite Hev in Hf, Hfloor, K. clear Hev ev. res_inv.
    rewrite Forall_lookup in Hq. specialize (Hq i p Ei).
    assert (solvent (fe_cash raw) (fe_position raw)) as [_ Hpos].
    { eapply evaluate_fill_solvent; [exact E|exact Hq|]. split; [lra|apply Hp]. }
    split_and!; cbn; [exact Hfloor| |exact Hm]. intros sym. unfold pos_of. cbn. destruct (decide (sym = symbol)) as [->|Hne].
    + by rewrite lookup_insert_eq.
    + rewrite lookup_insert_ne by done. apply Hp.
Qed.

Lemma market_value_nonneg a s symbols v : pool_ok a s -> foldM (add_market_value s) dzero symbols = Ok v -> (0 <= dval v)%Q.
Proof.
  intros (_ & Hp & Hm) H. refine (foldM_inv _ (fun _ v => (0 <= dval v)%Q) _ _ _ _ _ H).
  - intros past sym x y _ Hx E. unfold add_market_value in E. destruct (deq _ _); [by simplify_eq|].
    destruct (ps_last_mark s !! sym) as [mark|] eqn:Em; [|done]. simplify_eq. specialize (Hm _ _ Em).
    assert (0 <= dval (dmul (pos_of s sym) mark))%Q by (apply dmul_nonneg; [apply Hp|lra]). apply dadd_nonneg. lra.
  - rewrite dval_zero. lra.
Qed.

(** C25: The reserved cash is never spent.  In every portfolio run that completes,
    under a checked allocation whose reserved cash has at most 28 digits
    ([representable]) and with orders of quantities that are not negative,
    whatever the symbols' orders compete for, every point of the portfolio's
    equity curve is at least the reserved cash (and so never negative). *)
Theorem reserved_cash_never_spent p intents cm a result :
  mk_CapitalAllocation a = Ok a -> representable (ca_reserved_cash a) ->
  Forall (fun p => (0 <= dval (oi_quantity (pi_intent p)))%Q) intents ->
  run_portfolio_backtest p intents cm a = Ok result ->
  Forall (fun e => (dval (ca_reserved_cash a) <= dval (pe_equity e))%Q) (pr_equity_curve result).
Proof.
  intros Ha Hr Hq H. unfold mk_CapitalAllocation, refuse_pf in Ha. res_inv.
  unfold dgt in *. apply dlt_false in E0, E1. rewrite dval_zero in E0.
  unfold run_portfolio_backtest in H. res_inv. destruct (anchor_symbols _ _ _ _ _) as [anchored outcomes]. res_inv.
  unfold mk_PortfolioResult, refuse_pf in *. res_inv. cbn [pr_equity_curve].
  match goal with H : foldM (timeline_step _ _ _ _ _) _ _ = Ok ?x |- _ => rename H into Hf; destruct x as [s curve] end.
  cbn [snd].
  refine (proj2 (foldM_inv _ (fun _ acc => pool_ok a acc.1 /\
    Forall (fun e => (dval (ca_reserved_cash a) <= dval (pe_equity e))%Q) acc.2) _ _ _ _ _ Hf)).
  - clear Hf. intros past [k [[sym j] r]] [s1 c1] [s2 c2] _ [Hok Hc] E'. cbn in Hok, Hc. unfold timeline_step in E'.
    apply rbind_ok in E' as (mark & Em & E'). apply rbind_ok in E' as (s3 & Efold & E').
    apply rbind_ok in E' as (mv & Emv & [= <- <-]). cbn.
    assert (pool_ok a s3) as Hok3.
    { refine (foldM_inv _ (fun _ s => pool_ok a s) _ _ _ _ _ Efold).
      - intros past' i x y _ Hx Ex. by eapply pf_apply_intent_pool.
      - destruct Hok as (H1 & H2 & H3). split_and!; [done|done|]. intros sym' m. cbn.
        destruct (decide (sym' = sym)) as [->|]; [rewrite lookup_insert_eq; intros [= <-]|rewrite lookup_insert_ne by done; apply H3].
        unfold pf_mark_price, refuse_pf in Em. res_inv. 
        match goal with H : dle _ dzero = false |- _ => apply dle_false in H; by rewrite dval_zero in H end. }
    split; [done|]. apply Forall_app. split; [done|]. constructor; [|done]. cbn.
    pose proof (market_value_nonneg _ _ _ _ Hok3 Emv). destruct Hok3 as (H1 & _). apply dadd_ge_repr; [done|lra|lra].
  - cbn. split; [|constructor]. split_and!; [done| |].
    + intros sym. unfold pos_of. cbn. destruct (list_to_map _ !! sym) as [d|] eqn:El; cbn; [|rewrite dval_zero; lra].
      apply elem_of_list_to_map_2 in El. apply list_elem_of_fmap in El as (x & [= _ ->] & _). rewrite dval_zero. lra.
    + intros sym m. cbn. by rewrite lookup_empty.
Qed.

(** * The order of the universe does not matter *)

Lemma stable_insert_perm {A} (le : A -> A -> bool) x l : stable_insert le x l ≡ₚ x :: l.
Proof. induction l as [|y l IH]; cbn; [done|]. destruct (le x y); [done|]. rewrite IH. apply Permutation_swap. Qed.

Lemma stable_sort_perm {A} (le : A -> A -> bool) l : stable_sort le l ≡ₚ l.
Proof. induction l as [|x l IH]; cbn; [done|]. by rewrite stable_insert_perm, IH. Qed.

Lemma insert_string_sorted x k : Sorted String.le k -> Sorted String.le (stable_insert String.leb x k).
Proof.
  induction 1 as [|y k Hk IHk Hy]; cbn; [by repeat constructor|]. destruct (String.leb x y) eqn:E.
  - constructor; [by constructor|]. constructor. unfold String.le. by rewrite E.
  - constructor; [done|]. destruct (String.leb_total x y) as [E'|E']; [congruence|].
    destruct k as [|z k]; cbn; [constructor; unfold String.le; by rewrite E'|].
    destruct (String.leb x z); constructor; [unfold String.le; by rewrite E'|by inversion Hy].
Qed.

Lemma sorted_strings_sorted l : Sorted String.le (sorted_strings l).
Proof. induction l as [|x l IH]; [constructor|]. by apply insert_string_sorted. Qed.

Lemma sorted_strings_unique l1 l2 : l1 ≡ₚ l2 -> sorted_strings l1 = sorted_strings l2.
Proof.
  intros H. apply (Sorted_unique String.le); [apply sorted_strings_sorted..|].
  unfold sorted_strings. by rewrite !stable_sort_perm.
Qed.

Lemma symbol_inputs_perm p p' : p ≡ₚ p' -> NoDup (input_symbol <$> p) -> symbol_inputs p = symbol_inputs p'.
Proof.
  intros Hp Hn. unfold symbol_inputs. apply list_to_map_proper.
  - rewrite reverse_Permutation, <- list_fmap_compose. exact Hn.
  - rewrite !reverse_Permutation. by apply Permutation_map.
Qed.

Section SameUniverse.
Context (p p' : PortfolioInput).
Hypothesis Hmap : symbol_inputs p = symbol_inputs p'.

Lemma records_of_same s : records_of p s = records_of p' s.
Proof. unfold records_of. by rewrite Hmap. Qed.

Lemma check_known_same intents : check_known p intents = check_known p' intents.
Proof. induction intents as [|i l IH]; [done|]. cbn [check_known]. by rewrite IH, Hmap. Qed.

Lemma anchor_symbols_same intents symbols : forall anchored outcomes,
  anchor_symbols p intents symbols anchored outcomes = anchor_symbols p' intents symbols anchored outcomes.
Proof.
  induction symbols as [|s l IH]; intros anchored outcomes; [done|]. cbn [anchor_symbols].
  rewrite records_of_same. destruct (anchor_intents _ _ _) as [[? ?] ?]. apply IH.
Qed.

Lemma timeline_same symbols : timeline p symbols = timeline p' symbols.
Proof.
  unfold timeline. f_equal. induction symbols as [|s l IH]; [done|]. cbn. rewrite records_of_same. by f_equal.
Qed.
End SameUniverse.

(** The result of a portfolio run does not depend on the order in which the
    universe is listed: permuting the members of a checked universe changes
    neither the simulation nor the identity of the run (digest, data set and
    source names). *)
Theorem universe_order_irrelevant p p' intents cm a :
  mk_PortfolioInput p = Ok p -> p ≡ₚ p' -> run_portfolio_backtest p intents cm a = run_portfolio_backtest p' intents cm a.
Proof.
  intros Hp Hperm. unfold mk_PortfolioInput, refuse_pf in Hp. res_inv.
  apply negb_false_iff, bool_decide_eq_true in E0. pose proof (symbol_inputs_perm p p' Hperm E0) as Hmap.
  assert (forall f : BacktestInput -> string, sorted_strings (f <$> p) = sorted_strings (f <$> p')) as Hs
    by (intros f; apply sorted_strings_unique; by apply Permutation_map).
  unfold run_portfolio_backtest. assert (pf_symbols p = pf_symbols p') as -> by apply Hs.
  rewrite (check_known_same p p' Hmap), (anchor_symbols_same p p' Hmap), (timeline_same p p' Hmap).
  assert (pf_content_sha256 p = pf_content_sha256 p') as -> by (unfold pf_content_sha256; by rewrite Hs).
  assert (pf_dataset_id p = pf_dataset_id p') as -> by (unfold pf_dataset_id; by rewrite Hs).
  assert (pf_source p = pf_source p') as ->; [|done].
  unfold pf_source. do 2 f_equal. apply sorted_strings_unique, NoDup_Permutation; [apply NoDup_remove_dups..|].
  intros x. rewrite !elem_of_remove_dups. assert (bt_source <$> p ≡ₚ bt_source <$> p') as -> by (by apply Permutation_map).
  done.
Qed.

(** * A two-symbol universe *)

Module PortfolioBacktestSample.
Import BacktestSample.

Definition tcs_candle (minute open close : Z) : market_record :=
  rec_candle {| cd_instrument_id := 8; cd_exchange := "NSE"; cd_symbol := "TCS"; cd_timeframe := ONE_MINUTE;
                cd_candle_start := at_ minute; cd_open_price := price open; cd_high_price := price (Z.max open close);
                cd_low_price := price (Z.min open close); cd_close_price := price close; cd_volume := Some 10;
                cd_source_broker := "file"; cd_generated_at := at_ (minute + 1) |}.

Definition tcs : BacktestInput :=
  {| bt_dataset_id := "tcs"; bt_source := "file"; bt_metadata := ∅;
     bt_records := [tcs_candle 1 20000 20100; tcs_candle 2 20100 20500] |}.

Definition universe : PortfolioInput := [tcs; rising].

Definition buy (symbol : string) (quantity second : Z) : PortfolioIntent :=
  {| pi_symbol := symbol; pi_intent := order it_BUY quantity second |}.

Definition orders : list PortfolioIntent := [buy "TCS" 1 20; buy "INFY" 2 30; buy "INFY" 2 90].

Definition allocation (budget : Z) : CapitalAllocation :=
  {| ca_initial_capital := capital; ca_reserved_cash := dec_of_Z 100;
     ca_per_symbol_budget := [("INFY"%string, dec_of_Z budget)] |}.

Definition result_of (p : PortfolioInput) (intents : list PortfolioIntent) (a : CapitalAllocation) : PortfolioResult :=
  match run_portfolio_backtest p intents costs a with
  | Ok r => r
  | Err _ => {| pr_input_sha256 := ""; pr_dataset_id := ""; pr_source := ""; pr_initial_capital := capital;
                pr_reserved_cash := dzero; pr_cost_model := costs; pr_symbols := []; pr_intents := intents;
                pr_outcomes := []; pr_trades := []; pr_equity_curve := [] |}
  end.

Lemma result_of_ok p intents a : is_ok (run_portfolio_backtest p intents costs a) = true ->
  run_portfolio_backtest p intents costs a = Ok (result_of p intents a).
Proof. unfold result_of. by destruct (run_portfolio_backtest p intents costs a). Qed.

Lemma universe_ok : run_portfolio_backtest universe orders costs (allocation 300) = Ok (result_of universe orders (allocation 300)).
Proof. apply result_of_ok. vm_compute. reflexivity. Qed.

(** The time line interleaves the symbols, simultaneous records by name. *)
Example interleaved :
  (fun e : TimelineEntry => fst e) <$> timeline universe (pf_symbols universe) =
  [("INFY"%string, 0%nat); ("INFY"%string, 1%nat); ("TCS"%string, 0%nat); ("INFY"%string, 2%nat); ("TCS"%string, 1%nat)].
Proof. vm_compute. reflexivity. Qed.

Lemma reserved_witness :
  Forall (fun e => (dval (ca_reserved_cash (allocation 300)) <= dval (pe_equity e))%Q)
    (pr_equity_curve (result_of universe orders (allocation 300))).
Proof.
  apply (reserved_cash_never_spent universe orders costs (allocation 300)).
  - vm_compute. reflexivity.
  - split; vm_compute; reflexivity.
  - repeat constructor; vm_compute; discriminate.
  - exact universe_ok.
Defined.

Lemma order_witness : run_portfolio_backtest universe orders costs (allocation 300) =
  run_portfolio_backtest [rising; tcs] orders costs (allocation 300).
Proof.
  apply (universe_order_irrelevant universe [rising; tcs]).
  - vm_compute. reflexivity.
  - apply Permutation_swap.
Defined.

Definition infy_fills : list FillRecord := Eval vm_compute in
  filter (fun f => fi_intent_index f <> 0%nat) (pr_fills (result_of universe orders (allocation 300))).

Lemma infy_fills_eq :
  filter (fun f => fi_intent_index f <> 0%nat) (pr_fills (result_of universe orders (allocation 300))) = infy_fills.
Proof. vm_compute. reflexivity. Qed.

(** The per-symbol budget does not cap what a symbol carries.  It is compared
    with the gross value of the single fill: under a checked allocation whose
    budget for a symbol is 300, a run buys that symbol twice for a little over
    204 each and sells nothing, so that the symbol carries more than 400, with the
    bought quantity marked above the budget as well. *)
Theorem budget_caps_single_fills_only :
  mk_PortfolioInput universe = Ok universe /\ mk_CapitalAllocation (allocation 300) = Ok (allocation 300) /\
  budget_for (allocation 300) "INFY" = Some (dec_of_Z 300) /\
  exists result, run_portfolio_backtest universe orders costs (allocation 300) = Ok result /\
    let infy := filter (fun f => fi_intent_index f <> 0%nat) (pr_fills result) in
    (fi_side <$> infy) = [it_BUY; it_BUY] /\
    Forall (fun f => (dval (fi_gross_value f) <= dval (dec_of_Z 300))%Q) infy /\
    (dval (dec_of_Z 400) < dval (dsum (fi_gross_value <$> infy)))%Q.
Proof.
  split_and!; [vm_compute; reflexivity..|]. exists (result_of universe orders (allocation 300)).
  split; [exact universe_ok|]. cbn zeta.
  rewrite infy_fills_eq.
  split_and!; [reflexivity|repeat constructor; vm_compute; discriminate|vm_compute; reflexivity].
Qed.

End PortfolioBacktestSample.
