(* ===== verification/MarketData.v ===== *)
(** The market-data engine (src/services/market_data/alpha_algo_market_data):
    validation.py, normalization.py, safety.py, backpressure.py, metrics.py,
    repository.py with the tables [ticks] and [candles], engine.py.

    A payload is a dictionary of dynamically typed values.  What pydantic reads
    as an integer is the parameter [lax_int], [datetime.fromisoformat] the
    parameter [fromisoformat].  Consumers are arbitrary functions of the number
    of calls made so far.  The engine consumes one event at a time.

    What the pipeline does to its counters, its duplicate detector, its deliveries
    and its queue is abstracted by a ledger, the relation [tally_step]; the
    operations refine it, and the invariants are proved of the ledger. *)

From stdpp Require Import base list strings gmap sorting.
From Stdlib Require Import ZArith QArith Lia String Ascii.
From S2P Require Import Prelude PyBase Decimal DecimalText Sql Service Market.
Open Scope Z_scope.

(** * provider.py *)

Inductive EventKind := ek_TICK | ek_CANDLE.
Definition kind_value (k : EventKind) : string := match k with ek_TICK => "tick" | ek_CANDLE => "candle" end.

(** The values of a payload; a float is its [repr]. *)
Inductive raw_value :=
| RNone
| RBool (b : bool)
| RInt (z : Z)
| RFloat (text : string)
| RDec (d : decimal)
| RStr (s : string)
| RTime (d : datetime)
| RUuid (u : UUID)
| RTimeframe (t : CandleTimeframe).

Definition payload : Type := gmap string raw_value.

Record RawMarketEvent := {
  rm_provider : string;
  rm_kind : EventKind;
  rm_payload : payload;
  rm_received_at : datetime;
}.

Inductive MdConnectionState := md_DISCONNECTED | md_CONNECTING | md_CONNECTED | md_RECONNECTING | md_FAILED | md_CLOSED.
#[export] Instance MdConnectionState_eq_dec : EqDecision MdConnectionState.
Proof. solve_decision. Defined.

(** * validation.py *)

(** The required keys, in sorted order. *)
Definition TICK_REQUIRED_KEYS : list string :=
  ["exchange"; "instrument_id"; "ltp"; "source_broker"; "source_sequence"; "symbol"; "timestamp"].
Definition CANDLE_REQUIRED_KEYS : list string :=
  ["candle_start"; "close_price"; "exchange"; "generated_at"; "high_price"; "instrument_id"; "low_price"; "open_price";
   "source_broker"; "symbol"; "timeframe"].

Definition required_keys (k : EventKind) : list string :=
  match k with ek_TICK => TICK_REQUIRED_KEYS | ek_CANDLE => CANDLE_REQUIRED_KEYS end.

Definition missing_keys (e : RawMarketEvent) : list string :=
  filter (fun k => rm_payload e !! k = None) (required_keys (rm_kind e)).

(** Kinds and payloads of other types do not occur here. *)
Definition validate_raw_event (e : RawMarketEvent) : res unit :=
  raise_if (match missing_keys e with [] => false | _ => true end) RawEventValidationError
    ("missing payload keys: [" +:+ String.concat ", " (py_repr <$> missing_keys e) +:+ "]").

Definition check_supported_symbol (symbol : string) (allowed : option (list string)) : res unit :=
  match allowed with
  | Some l => raise_if (negb (bool_decide (symbol ∈ l))) TickRejectedError "unsupported_instrument"
  | None => Ok tt
  end.

(** * normalization.py *)

Section Normalization.
Context (fromisoformat : string -> res datetime) (lax_int : raw_value -> option Z).

Definition coerce_datetime (v : raw_value) (field : string) : res datetime :=
  match v with
  | RTime d => Ok d
  | RStr s =>
      match fromisoformat s with
      | Ok d => Ok d
      | Err exc => if isinstance exc ValueError then raise RawEventValidationError (field +:+ " is not a valid datetime")
                   else Err exc
      end
  | _ => raise RawEventValidationError (field +:+ " must be a datetime")
  end.

(** [str(value)] of the values whose text can be a number. *)
Definition number_text (v : raw_value) : option string :=
  match v with RInt z => Some (str_Z z) | RFloat t => Some t | RStr s => Some s | _ => None end.

(** Infinities and NaNs, with an optional sign and payload. *)
Definition nonfinite_text (s : string) : bool :=
  let t := py_lower (snd (parse_sign s)) in
  let digits := fun u => all_digits u in
  String.eqb t "inf" || String.eqb t "infinity" ||
  (is_prefix "nan" t && digits (str_drop 3 t)) || (is_prefix "snan" t && digits (str_drop 4 t)).

Definition coerce_decimal (v : raw_value) (field : string) : res decimal :=
  match v with
  | RDec d => Ok d
  | _ =>
      let text := (fun s => str_remove "_" (py_strip s)) <$> number_text v in
      match text ≫= dec_parse with
      | Some d => Ok d
      | None =>
          if match text with Some t => nonfinite_text t | None => false end
          then raise RawEventValidationError (field +:+ " must be a finite number")
          else raise RawEventValidationError (field +:+ " is not a valid number")
      end
  end.

Definition coerce_optional_decimal (v : option raw_value) (field : string) : res (option decimal) :=
  match v with
  | None | Some RNone => Ok None
  | Some v => let! d := coerce_decimal v field in Ok (Some d)
  end.

Definition coerce_uuid (v : raw_value) (field : string) : res UUID :=
  match v with
  | RUuid u => Ok u
  | RStr s => match uuid_parse s with
              | Some u => Ok u
              | None => raise RawEventValidationError (field +:+ " is not a valid UUID")
              end
  | _ => raise RawEventValidationError (field +:+ " must be a UUID")
  end.

(** [payload[key]] *)
Definition item (p : payload) (key : string) : res raw_value :=
  match p !! key with Some v => Ok v | None => raise KeyError (py_repr key) end.

(** A [ValidationError] of the contract becomes a [RawEventValidationError]. *)
Definition validation_error {A} (what : string) : res A := raise RawEventValidationError ("validation error for " +:+ what).
Definition checked {A} (what : string) (r : res A) : res A :=
  match r with Ok a => Ok a | Err _ => validation_error what end.
Definition text_field (what : string) (v : raw_value) : res string :=
  match v with RStr s => Ok s | _ => validation_error what end.
Definition int_field (what : string) (v : option raw_value) : res (option Z) :=
  match v with
  | None | Some RNone => Ok None
  | Some v => match lax_int v with Some z => Ok (Some z) | None => validation_error what end
  end.

Definition normalize_tick (e : RawMarketEvent) : res MarketTick :=
  let p := rm_payload e in
  let! raw_instrument := item p "instrument_id" in
  let! instrument_id := coerce_uuid raw_instrument "instrument_id" in
  let! exchange := item p "exchange" in
  let! symbol := item p "symbol" in
  let! raw_timestamp := item p "timestamp" in
  let! timestamp := coerce_datetime raw_timestamp "timestamp" in
  let! raw_ltp := item p "ltp" in
  let! ltp := coerce_decimal raw_ltp "ltp" in
  let! bid := coerce_optional_decimal (p !! "bid") "bid" in
  let! ask := coerce_optional_decimal (p !! "ask") "ask" in
  let! source_broker := item p "source_broker" in
  let! source_sequence := item p "source_sequence" in
  (* the contract's own checks *)
  let! exchange := text_field "MarketTick" exchange in
  let! symbol := text_field "MarketTick" symbol in
  let! volume := int_field "MarketTick" (p !! "volume") in
  let! bid_quantity := int_field "MarketTick" (p !! "bid_quantity") in
  let! ask_quantity := int_field "MarketTick" (p !! "ask_quantity") in
  let! source_broker := text_field "MarketTick" source_broker in
  let! source_sequence := text_field "MarketTick" source_sequence in
  checked "MarketTick"
    (mk_MarketTick {| tk_instrument_id := instrument_id; tk_exchange := exchange; tk_symbol := symbol;
                      tk_timestamp := timestamp; tk_ltp := ltp; tk_volume := volume; tk_bid := bid; tk_ask := ask;
                      tk_bid_quantity := bid_quantity; tk_ask_quantity := ask_quantity;
                      tk_source_broker := source_broker; tk_source_sequence := source_sequence;
                      tk_received_at := rm_received_at e |}).

(** [repr(value)] (a datetime by its ISO text). *)
Definition raw_repr (v : raw_value) : string :=
  match v with
  | RNone => "None" | RBool b => if b then "True" else "False" | RInt z => str_Z z | RFloat t => t
  | RDec d => "Decimal('" +:+ dec_str d +:+ "')" | RStr s => py_repr s | RTime d => isoformat d
  | RUuid u => "UUID('" +:+ uuid_str u +:+ "')" | RTimeframe t => timeframe_value t
  end.

Definition timeframe_of : string -> res CandleTimeframe :=
  enum_of [ONE_MINUTE; FIVE_MINUTES; FIFTEEN_MINUTES; ONE_HOUR; ONE_DAY] timeframe_value.

Definition coerce_timeframe (v : raw_value) : res CandleTimeframe :=
  let invalid := raise RawEventValidationError ("timeframe is not valid: " +:+ raw_repr v) in
  match v with
  | RTimeframe t => Ok t
  | RStr s => match timeframe_of s with Ok t => Ok t | Err _ => invalid end
  | _ => invalid
  end.

Definition normalize_candle (e : RawMarketEvent) : res MarketCandle :=
  let p := rm_payload e in
  let! raw_timeframe := item p "timeframe" in
  let! timeframe := coerce_timeframe raw_timeframe in
  let! raw_instrument := item p "instrument_id" in
  let! instrument_id := coerce_uuid raw_instrument "instrument_id" in
  let! exchange := item p "exchange" in
  let! symbol := item p "symbol" in
  let! raw_start := item p "candle_start" in
  let! candle_start := coerce_datetime raw_start "candle_start" in
  let! raw_open := item p "open_price" in
  let! open_price := coerce_decimal raw_open "open_price" in
  let! raw_high := item p "high_price" in
  let! high_price := coerce_decimal raw_high "high_price" in
  let! raw_low := item p "low_price" in
  let! low_price := coerce_decimal raw_low "low_price" in
  let! raw_close := item p "close_price" in
  let! close_price := coerce_decimal raw_close "close_price" in
  let! source_broker := item p "source_broker" in
  let! generated_at := coerce_datetime (default RNone (p !! "generated_at")) "generated_at" in
  let! exchange := text_field "MarketCandle" exchange in
  let! symbol := text_field "MarketCandle" symbol in
  let! volume := int_field "MarketCandle" (p !! "volume") in
  let! source_broker := text_field "MarketCandle" source_broker in
  checked "MarketCandle"
    (mk_MarketCandle {| cd_instrument_id := instrument_id; cd_exchange := exchange; cd_symbol := symbol;
                        cd_timeframe := timeframe; cd_candle_start := candle_start; cd_open_price := open_price;
                        cd_high_price := high_price; cd_low_price := low_price; cd_close_price := close_price;
                        cd_volume := volume; cd_source_broker := source_broker; cd_generated_at := generated_at |}).

Definition normalize (e : RawMarketEvent) : res (MarketTick + MarketCandle) :=
  match rm_kind e with
  | ek_TICK => let! t := normalize_tick e in Ok (inl t)
  | ek_CANDLE => let! c := normalize_candle e in Ok (inr c)
  end.
End Normalization.

(** * safety.py *)

Inductive staleness := FRESH_TICK | STALE_TICK | FUTURE_TICK.

(** [evaluate_staleness]: the age of a tick against [max_age], in microseconds. *)
Definition evaluate_staleness (tick : MarketTick) (now : datetime) (max_age : Z) : res staleness :=
  raise_if (negb (dt_aware now)) ValueError "now must be timezone-aware" ;!
  raise_if (max_age <=? 0) ValueError "max_age must be positive" ;!
  let! age := dt_sub now (tk_timestamp tick) in
  Ok (if age <? 0 then FUTURE_TICK else if max_age <? age then STALE_TICK else FRESH_TICK).

(** [DuplicateTickDetector]: its keys, oldest first. *)
Definition tick_key (t : MarketTick) : string * string := (tk_source_broker t, tk_source_sequence t).

Definition is_duplicate (maxsize : option nat) (seen : list (string * string)) (t : MarketTick)
    : bool * list (string * string) :=
  let key := tick_key t in
  if bool_decide (key ∈ seen) then (true, filter (fun k => k <> key) seen ++ [key])
  else
    let seen' := seen ++ [key] in
    (false, match maxsize with
            | Some m => if (m <? List.length seen')%nat then drop 1 seen' else seen'
            | None => seen'
            end).

Definition new_detector (maxsize : option Z) : res (option nat) :=
  match maxsize with
  | Some m => raise_if (m <? 1) ValueError "maxsize must be >= 1 or None" ;! Ok (Some (Z.to_nat m))
  | None => Ok None
  end.

(** * backpressure.py *)

Inductive DropPolicy := drop_newest | drop_oldest.

Record BoundedQueue := {
  bq_items : list RawMarketEvent;
  bq_maxsize : nat;
  bq_drop_policy : DropPolicy;
  bq_dropped_count : Z;
}.

Definition new_queue (maxsize : Z) (drop_policy : string) : res BoundedQueue :=
  raise_if (maxsize <? 1) ValueError "maxsize must be >= 1" ;!
  let queue p := {| bq_items := []; bq_maxsize := Z.to_nat maxsize; bq_drop_policy := p; bq_dropped_count := 0 |} in
  if String.eqb drop_policy "drop_newest" then Ok (queue drop_newest)
  else if String.eqb drop_policy "drop_oldest" then Ok (queue drop_oldest)
  else raise ValueError "drop_policy must be 'drop_newest' or 'drop_oldest'".

Definition queue_with (items : list RawMarketEvent) (dropped : Z) (q : BoundedQueue) : BoundedQueue :=
  {| bq_items := items; bq_maxsize := bq_maxsize q; bq_drop_policy := bq_drop_policy q; bq_dropped_count := dropped |}.

Definition queue_full (q : BoundedQueue) : bool := (bq_maxsize q <=? List.length (bq_items q))%nat.

Definition put_nowait (item : RawMarketEvent) (q : BoundedQueue) : bool * BoundedQueue :=
  if queue_full q then
    match bq_drop_policy q with
    | drop_oldest => (true, queue_with (drop 1 (bq_items q) ++ [item]) (bq_dropped_count q + 1) q)
    | drop_newest => (false, queue_with (bq_items q) (bq_dropped_count q + 1) q)
    end
  else (true, queue_with (bq_items q ++ [item]) (bq_dropped_count q) q).

(** [get] of a non-empty queue. *)
Definition queue_get (q : BoundedQueue) : option (RawMarketEvent * BoundedQueue) :=
  match bq_items q with
  | [] => None
  | e :: rest => Some (e, queue_with rest (bq_dropped_count q) q)
  end.

(** * repository.py and db/models/market_data.py *)

Inductive MarketRow := RowTick (t : MarketTick) | RowCandle (c : MarketCandle).

(** [to_orm_tick] and [to_orm_candle] copy the columns; a candle's row has no
    exchange and symbol. *)
Definition to_orm_tick (t : MarketTick) : MarketRow := RowTick t.
Definition to_orm_candle (c : MarketCandle) : MarketRow :=
  RowCandle {| cd_instrument_id := cd_instrument_id c; cd_exchange := ""; cd_symbol := ""; cd_timeframe := cd_timeframe c;
               cd_candle_start := cd_candle_start c; cd_open_price := cd_open_price c; cd_high_price := cd_high_price c;
               cd_low_price := cd_low_price c; cd_close_price := cd_close_price c; cd_volume := cd_volume c;
               cd_source_broker := cd_source_broker c; cd_generated_at := cd_generated_at c |}.

Definition tick_unique (r : MarketRow) : option (string * string * Z) :=
  match r with
  | RowTick t => Some (tk_source_broker t, tk_source_sequence t, dt_instant (tk_timestamp t))
  | RowCandle _ => None
  end.
Definition candle_unique (r : MarketRow) : option (UUID * CandleTimeframe * Z) :=
  match r with
  | RowCandle c => Some (cd_instrument_id c, cd_timeframe c, dt_instant (cd_candle_start c))
  | RowTick _ => None
  end.
Definition market_constraint (m : gmap N MarketRow) : bool :=
  unique_on tick_unique (snd <$> map_to_list m) && unique_on candle_unique (snd <$> map_to_list m).

(** * engine.py *)

Inductive IngestStatus := in_ACCEPTED | in_DUPLICATE | in_STALE | in_FUTURE | in_REJECTED.

Record IngestResult := {
  ig_status : IngestStatus;
  ig_reason : string;
  ig_tick : option MarketTick;
  ig_candle : option MarketCandle;
}.

Record EngineSettings := {
  es_allowed_symbols : option (list string);
  es_max_age : Z;                                  (* microseconds *)
  es_persist_enabled : bool;
  es_clock : nat -> datetime;
  es_dedupe_maxsize : option nat;
  es_tick_consumers : list (nat -> MarketTick -> res unit);
  es_candle_consumers : list (nat -> MarketCandle -> res unit);
  es_fromisoformat : string -> res datetime;
  es_lax_int : raw_value -> option Z;
}.

Record MdEngine (DB : Type) := {
  me_repository : option DB;
  me_metrics : gmap string Z;
  me_seen : list (string * string);
  me_queue : BoundedQueue;
  me_calls : nat;
  me_ticks : list (MarketTick * datetime);     (* ticks handed to the consumers, with the time they were judged at *)
  me_candles : list MarketCandle;              (* candles handed to the consumers *)
}.
Arguments me_repository {DB} _.
Arguments me_metrics {DB} _.
Arguments me_seen {DB} _.
Arguments me_queue {DB} _.
Arguments me_calls {DB} _.
Arguments me_ticks {DB} _.
Arguments me_candles {DB} _.

Definition new_engine {DB} (repository : option DB) (seen : list (string * string)) (queue : BoundedQueue) : MdEngine DB :=
  {| me_repository := repository; me_metrics := ∅; me_seen := seen; me_queue := queue; me_calls := 0; me_ticks := [];
     me_candles := [] |}.

(** [MarketDataEngine(...)].  An injected detector, its limit and keys, is used
    when it is true, that is when it is not empty; [max_age] is in
    microseconds. *)
Definition new_market_data_engine {DB} (repository : option DB) (allowed_symbols : option (list string)) (max_age : Z)
    (queue_size : Z) (drop_policy : string) (persist_enabled : bool) (clock : nat -> datetime)
    (duplicate_detector : option (option nat * list (string * string))) (dedupe_maxsize : Z)
    (fromisoformat : string -> res datetime) (lax_int : raw_value -> option Z) : res (EngineSettings * MdEngine DB) :=
  let! detector := (match duplicate_detector with
                    | Some (m, k :: keys) => Ok (m, k :: keys)
                    | _ => let! m := new_detector (Some dedupe_maxsize) in Ok (m, [])
                    end) in
  let! queue := new_queue queue_size drop_policy in
  Ok ({| es_allowed_symbols := allowed_symbols; es_max_age := max_age; es_persist_enabled := persist_enabled;
         es_clock := clock; es_dedupe_maxsize := fst detector; es_tick_consumers := []; es_candle_consumers := [];
         es_fromisoformat := fromisoformat; es_lax_int := lax_int |},
      new_engine repository (snd detector) queue).

Definition add_tick_consumer (c : nat -> MarketTick -> res unit) (es : EngineSettings) : EngineSettings :=
  {| es_allowed_symbols := es_allowed_symbols es; es_max_age := es_max_age es; es_persist_enabled := es_persist_enabled es;
     es_clock := es_clock es; es_dedupe_maxsize := es_dedupe_maxsize es;
     es_tick_consumers := es_tick_consumers es ++ [c]; es_candle_consumers := es_candle_consumers es;
     es_fromisoformat := es_fromisoformat es; es_lax_int := es_lax_int es |}.
Definition add_candle_consumer (c : nat -> MarketCandle -> res unit) (es : EngineSettings) : EngineSettings :=
  {| es_allowed_symbols := es_allowed_symbols es; es_max_age := es_max_age es; es_persist_enabled := es_persist_enabled es;
     es_clock := es_clock es; es_dedupe_maxsize := es_dedupe_maxsize es; es_tick_consumers := es_tick_consumers es;
     es_candle_consumers := es_candle_consumers es ++ [c];
     es_fromisoformat := es_fromisoformat es; es_lax_int := es_lax_int es |}.

Section Engine.
Context {DB : Type} `{!Session DB MarketRow market_constraint} (es : EngineSettings).
Abbreviation ME := (MdEngine DB).

Definition me_set (repository : option DB) (metrics : gmap string Z) (seen : list (string * string)) (queue : BoundedQueue)
    (calls : nat) (w : ME) : ME :=
  {| me_repository := repository; me_metrics := metrics; me_seen := seen; me_queue := queue; me_calls := calls;
     me_ticks := me_ticks w; me_candles := me_candles w |}.

(** [self._metrics.name += 1] *)
Definition md_inc (name : string) : M ME unit :=
  modify (fun w => me_set (me_repository w) (bump (me_metrics w) name) (me_seen w) (me_queue w) (me_calls w) w).

Definition md_call {A} (f : nat -> A) : M ME A :=
  fun w => (Ok (f (me_calls w)), me_set (me_repository w) (me_metrics w) (me_seen w) (me_queue w) (S (me_calls w)) w).

(** [session.add(...)] for each row, then [commit] *)
Definition commit_rows (l : list MarketRow) : M DB unit := commit (Add <$> l).
Definition persist_tick (t : MarketTick) : M DB unit := commit_rows [to_orm_tick t].
Definition persist_candle (c : MarketCandle) : M DB unit := commit_rows [to_orm_candle c].
Definition persist_tick_batch (l : list MarketTick) : M DB unit := commit_rows (to_orm_tick <$> l).
Definition persist_candle_batch (l : list MarketCandle) : M DB unit := commit_rows (to_orm_candle <$> l).

(** [except Exception] *)
Definition on_exception {A} (m : M ME A) (handler : M ME A) : M ME A :=
  try_except m (fun exc => if isinstance exc Exception then Some handler else None).

Definition in_repository (m : M DB unit) : M ME unit :=
  fun w => match me_repository w with
           | Some db => let '(r, db') := m db in
                        (r, me_set (Some db') (me_metrics w) (me_seen w) (me_queue w) (me_calls w) w)
           | None => (Ok tt, w)
           end.

Definition store (counter : string) (m : M DB unit) : M ME unit :=
  fun w => match me_repository w with
           | Some _ =>
               (if es_persist_enabled es
                then on_exception (in_repository m ;* md_inc counter) (md_inc "persistence_failures") else ret tt) w
           | None => (Ok tt, w)
           end.

(** [_safe_dispatch] *)
Definition safe_dispatch {V} (consumer : nat -> V -> res unit) (v : V) : M ME unit :=
  on_exception (let* r := md_call (fun n => consumer n v) in lift r) (md_inc "consumer_failures").

Fixpoint dispatch_all {V} (consumers : list (nat -> V -> res unit)) (v : V) : M ME unit :=
  match consumers with
  | [] => ret tt
  | c :: rest => safe_dispatch c v ;* dispatch_all rest v
  end.

Definition fan_out_tick (t : MarketTick) (now : datetime) : M ME unit :=
  modify (fun w => {| me_repository := me_repository w; me_metrics := me_metrics w; me_seen := me_seen w;
                      me_queue := me_queue w; me_calls := me_calls w; me_ticks := me_ticks w ++ [(t, now)];
                      me_candles := me_candles w |}) ;*
  dispatch_all (es_tick_consumers es) t.

Definition fan_out_candle (c : MarketCandle) : M ME unit :=
  modify (fun w => {| me_repository := me_repository w; me_metrics := me_metrics w; me_seen := me_seen w;
                      me_queue := me_queue w; me_calls := me_calls w; me_ticks := me_ticks w;
                      me_candles := me_candles w ++ [c] |}) ;*
  dispatch_all (es_candle_consumers es) c.

Definition outcome (status : IngestStatus) (reason : string) : IngestResult :=
  {| ig_status := status; ig_reason := reason; ig_tick := None; ig_candle := None |}.

Definition detect_duplicate (t : MarketTick) : M ME bool :=
  fun w => let '(dup, seen) := is_duplicate (es_dedupe_maxsize es) (me_seen w) t in
           (Ok dup, me_set (me_repository w) (me_metrics w) seen (me_queue w) (me_calls w) w).

Definition ingest_tick (t : MarketTick) : M ME IngestResult :=
  let* dup := detect_duplicate t in
  if (dup : bool) then md_inc "duplicates" ;* ret (outcome in_DUPLICATE "duplicate")
  else
    let* now := md_call (es_clock es) in
    let* decision := lift (evaluate_staleness t now (es_max_age es)) in
    match decision with
    | FUTURE_TICK => md_inc "future_timestamps" ;* ret (outcome in_FUTURE "future_timestamp")
    | STALE_TICK => md_inc "stale_events" ;* ret (outcome in_STALE "stale")
    | FRESH_TICK =>
        fan_out_tick t now ;*
        store "persisted_ticks" (persist_tick t) ;*
        ret {| ig_status := in_ACCEPTED; ig_reason := "accepted"; ig_tick := Some t; ig_candle := None |}
    end.

Definition ingest_candle (c : MarketCandle) : M ME IngestResult :=
  fan_out_candle c ;*
  store "persisted_candles" (persist_candle c) ;*
  ret {| ig_status := in_ACCEPTED; ig_reason := "accepted"; ig_tick := None; ig_candle := Some c |}.

(** The classes the normalization step catches. *)
Definition normalization_error (exc : exn) : bool :=
  isinstance exc RawEventValidationError || isinstance exc KeyError || isinstance exc TypeError || isinstance exc ValueError.

Definition ingest_raw (e : RawMarketEvent) : M ME IngestResult :=
  match validate_raw_event e with
  | Err exc => md_inc "rejected_events" ;* ret (outcome in_REJECTED ("malformed: " +:+ exn_msg exc))
  | Ok _ =>
      match normalize (es_fromisoformat es) (es_lax_int es) e with
      | Err exc =>
          if normalization_error exc then
            md_inc "normalization_failures" ;* md_inc "rejected_events" ;*
            ret (outcome in_REJECTED ("normalization: " +:+ exn_msg exc))
          else lift (Err exc)
      | Ok normalized =>
          let symbol := match normalized with inl t => tk_symbol t | inr c => cd_symbol c end in
          match check_supported_symbol symbol (es_allowed_symbols es) with
          | Err exc => md_inc "rejected_events" ;* ret (outcome in_REJECTED (exn_msg exc))
          | Ok _ =>
              match normalized with
              | inl t => md_inc "ticks_received" ;* ingest_tick t
              | inr c => md_inc "candles_received" ;* ingest_candle c
              end
          end
      end
  end.

Definition enqueue (e : RawMarketEvent) : M ME bool :=
  let* accepted := (fun w => let '(ok, q) := put_nowait e (me_queue w) in
                             (Ok ok, me_set (me_repository w) (me_metrics w) (me_seen w) q (me_calls w) w)) in
  (if (accepted : bool) then ret tt else md_inc "dropped_events") ;*
  ret accepted.

(** One turn of [run]: the next event, if there is one. *)
Definition consume_one : M ME (option IngestResult) :=
  fun w => match queue_get (me_queue w) with
           | None => (Ok None, w)
           | Some (e, q) =>
               (let* r := ingest_raw e in ret (Some r))
                 (me_set (me_repository w) (me_metrics w) (me_seen w) q (me_calls w) w)
           end.
End Engine.

(** * What the engine does with its events *)

Definition counted {DB} (w : MdEngine DB) (name : string) : Z := default 0 (me_metrics w !! name).

Lemma counted_bump (m : gmap string Z) name name' :
  default 0 (bump m name !! name') = default 0 (m !! name') + (if String.eqb name name' then 1 else 0).
Proof.
  unfold bump. destruct (String.eqb_spec name name') as [->|H].
  - by rewrite lookup_insert_eq.
  - rewrite lookup_insert_ne by done. lia.
Qed.

(** The tick counters, the detector, the deliveries and the queue. *)
Record Tally := {
  ta_received : Z;
  ta_duplicates : Z;
  ta_stale : Z;
  ta_future : Z;
  ta_candles_received : Z;
  ta_rejected : Z;
  ta_seen : list (string * string);
  ta_ticks : list (MarketTick * datetime);
  ta_candles : list MarketCandle;
  ta_queue : BoundedQueue;
}.

Definition tally {DB} (w : MdEngine DB) : Tally :=
  {| ta_received := counted w "ticks_received"; ta_duplicates := counted w "duplicates";
     ta_stale := counted w "stale_events"; ta_future := counted w "future_timestamps";
     ta_candles_received := counted w "candles_received"; ta_rejected := counted w "rejected_events";
     ta_seen := me_seen w; ta_ticks := me_ticks w; ta_candles := me_candles w; ta_queue := me_queue w |}.

(** [within R m]: every run of [m], failing ones included, relates its states
    by [R]. *)
Section Within.
Context {S : Type} (R : S -> S -> Prop) `{!PreOrder R}.

Definition within {A} (m : M S A) : Prop := forall s, R s (snd (m s)).

Lemma within_ret {A} (a : A) : within (ret a).
Proof. intros s. reflexivity. Qed.
Lemma within_lift {A} (r : res A) : within (lift r).
Proof. intros s. reflexivity. Qed.
Lemma within_bind {A B} (m : M S A) (k : A -> M S B) : within m -> (forall a, within (k a)) -> within (bind m k).
Proof.
  intros Hm Hk s. unfold bind. specialize (Hm s). destruct (m s) as [[a|e] s1]; cbn in *; [|done].
  etransitivity; [exact Hm|apply Hk].
Qed.
Lemma within_try {A} (m : M S A) (h : exn -> option (M S A)) :
  within m -> (forall e k, h e = Some k -> within k) -> within (try_except m h).
Proof.
  intros Hm Hh s. unfold try_except. specialize (Hm s). destruct (m s) as [[a|e] s1]; [done|].
  destruct (h e) as [k|] eqn:E; [|done]. etransitivity; [exact Hm|by apply (Hh e)].
Qed.
End Within.

Create HintDb within.

(** Walk through a program; the database closes its leaves. *)
Ltac within_walk :=
  repeat first
    [ apply (within_ret _) | apply (within_lift _)
    | apply (within_bind _); [|intros ?]
    | progress auto with within nocore
    | match goal with |- within _ (if ?b then _ else _) => destruct b end ].

(** Only counters outside the tally, the repository and the call counter may change. *)
Abbreviation aside := (within (fun w w' => tally w' = tally w)).
#[export] Instance aside_preorder {DB} : PreOrder (fun w w' : MdEngine DB => tally w' = tally w).
Proof. split; [by intros w|by intros x y z -> ->]. Qed.

Section EngineProofs.
Context {DB : Type} `{!Session DB MarketRow market_constraint} (es : EngineSettings).
Abbreviation ME := (MdEngine DB).

Definition untracked (name : string) : bool :=
  negb (bool_decide (name ∈ ["ticks_received"; "duplicates"; "stale_events"; "future_timestamps"; "candles_received";
                             "rejected_events"]%string)).

Lemma aside_inc name : untracked name = true -> aside (md_inc name : M ME unit).
Proof.
  intros H w. unfold untracked in H. apply negb_true_iff, bool_decide_eq_false in H. unfold tally, md_inc, counted. cbn.
  rewrite !counted_bump.
  repeat match goal with |- context [String.eqb name ?s] =>
    rewrite (proj2 (String.eqb_neq name s)) by (intros ->; apply H; set_solver) end.
  by rewrite !Z.add_0_r.
Qed.

Lemma within_exception {A} (R : ME -> ME -> Prop) `{!PreOrder R} (m h : M ME A) :
  within R m -> within R h -> within R (on_exception m h).
Proof. intros Hm Hh. apply within_try; [done..|]. intros e k E. by destruct (isinstance e Exception); simplify_eq. Qed.

(** Dispatching calls consumers and counts failures. *)
Lemma within_dispatch {V} (R : ME -> ME -> Prop) `{!PreOrder R} (consumers : list (nat -> V -> res unit)) v :
  (forall f : nat -> res unit, within R (md_call f)) -> within R (md_inc "consumer_failures") ->
  within R (dispatch_all consumers v).
Proof.
  intros Hcall Hinc. induction consumers as [|c l IH]; [by apply within_ret|]. cbn [dispatch_all].
  apply within_bind; [done| |intros _; exact IH]. apply within_exception; [done| |done].
  apply within_bind; [done|apply Hcall|intros r; by apply within_lift].
Qed.

Lemma aside_dispatch {V} (consumers : list (nat -> V -> res unit)) v : aside (dispatch_all consumers v : M ME unit).
Proof. apply within_dispatch; [apply _|by intros f w|by apply aside_inc]. Qed.

Lemma aside_store counter (m : M DB unit) : untracked counter = true -> aside (store es counter m).
Proof.
  intros Hc w. unfold store. destruct (me_repository w); [|done]. destruct (es_persist_enabled es); [|done].
  apply (within_exception (fun w w' => tally w' = tally w)); [|by apply aside_inc].
  apply within_bind; [apply _| |intros _; by apply aside_inc].
  intros w'. unfold in_repository. destruct (me_repository w'); [|done]. by destruct (m _).
Qed.

(** ** The abstract ledger *)

(** A tick received: what is added to the counters, the detector's new keys, the
    deliveries. *)
Definition ta_tick (duplicates stale future : Z) (seen : list (string * string))
    (delivered : list (MarketTick * datetime)) (ta : Tally) : Tally :=
  {| ta_received := ta_received ta + 1; ta_duplicates := ta_duplicates ta + duplicates; ta_stale := ta_stale ta + stale;
     ta_future := ta_future ta + future; ta_candles_received := ta_candles_received ta; ta_rejected := ta_rejected ta;
     ta_seen := seen; ta_ticks := ta_ticks ta ++ delivered; ta_candles := ta_candles ta; ta_queue := ta_queue ta |}.
Definition ta_other (candles : list MarketCandle) (rejected : Z) (queue : BoundedQueue) (ta : Tally) : Tally :=
  {| ta_received := ta_received ta; ta_duplicates := ta_duplicates ta; ta_stale := ta_stale ta; ta_future := ta_future ta;
     ta_candles_received := ta_candles_received ta + Z.of_nat (List.length candles); ta_rejected := ta_rejected ta + rejected;
     ta_seen := ta_seen ta; ta_ticks := ta_ticks ta; ta_candles := ta_candles ta ++ candles; ta_queue := queue |}.

Definition admissible_tick (t : MarketTick) : Prop :=
  mk_MarketTick t = Ok t /\ check_supported_symbol (tk_symbol t) (es_allowed_symbols es) = Ok tt.
Definition admissible_candle (c : MarketCandle) : Prop :=
  mk_MarketCandle c = Ok c /\ check_supported_symbol (cd_symbol c) (es_allowed_symbols es) = Ok tt.

Inductive tally_step : Tally -> Tally -> Prop :=
| ts_same ta : tally_step ta ta
| ts_rejected ta : tally_step ta (ta_other [] 1 (ta_queue ta) ta)
| ts_duplicate t seen ta : admissible_tick t -> is_duplicate (es_dedupe_maxsize es) (ta_seen ta) t = (true, seen) ->
    tally_step ta (ta_tick 1 0 0 seen [] ta)
| ts_unjudged t seen now e ta : is_duplicate (es_dedupe_maxsize es) (ta_seen ta) t = (false, seen) -> admissible_tick t ->
    evaluate_staleness t now (es_max_age es) = Err e -> (exists n, now = es_clock es n) ->
    tally_step ta (ta_tick 0 0 0 seen [] ta)
| ts_judged t seen now verdict ta : is_duplicate (es_dedupe_maxsize es) (ta_seen ta) t = (false, seen) -> admissible_tick t ->
    evaluate_staleness t now (es_max_age es) = Ok verdict ->
    tally_step ta (match verdict with
                   | FUTURE_TICK => ta_tick 0 0 1 seen [] ta
                   | STALE_TICK => ta_tick 0 1 0 seen [] ta
                   | FRESH_TICK => ta_tick 0 0 0 seen [(t, now)] ta
                   end)
| ts_candle c ta : admissible_candle c -> tally_step ta (ta_other [c] 0 (ta_queue ta) ta)
| ts_put e ta : tally_step ta (ta_other [] 0 (snd (put_nowait e (ta_queue ta))) ta)
| ts_get e q ta : queue_get (ta_queue ta) = Some (e, q) -> tally_step ta (ta_other [] 0 q ta).

Lemma tally_inc name (w : ME) : tally (snd (md_inc name w)) =
  {| ta_received := counted w "ticks_received" + (if String.eqb name "ticks_received" then 1 else 0);
     ta_duplicates := counted w "duplicates" + (if String.eqb name "duplicates" then 1 else 0);
     ta_stale := counted w "stale_events" + (if String.eqb name "stale_events" then 1 else 0);
     ta_future := counted w "future_timestamps" + (if String.eqb name "future_timestamps" then 1 else 0);
     ta_candles_received := counted w "candles_received" + (if String.eqb name "candles_received" then 1 else 0);
     ta_rejected := counted w "rejected_events" + (if String.eqb name "rejected_events" then 1 else 0);
     ta_seen := me_seen w; ta_ticks := me_ticks w; ta_candles := me_candles w; ta_queue := me_queue w |}.
Proof. unfold tally, md_inc, counted. cbn. by rewrite !counted_bump. Qed.

Lemma mk_tick_id t t' : mk_MarketTick t = Ok t' -> t' = t.
Proof. unfold mk_MarketTick. intros H. by res_inv. Qed.
Lemma mk_candle_id c c' : mk_MarketCandle c = Ok c' -> c' = c.
Proof. unfold mk_MarketCandle. intros H. by res_inv. Qed.

Lemma checked_ok {A} what (r : res A) a : checked what r = Ok a -> r = Ok a.
Proof. unfold checked, validation_error. by destruct r. Qed.

(** What normalization returns satisfies the contract. *)
Lemma normalize_valid e n : normalize (es_fromisoformat es) (es_lax_int es) e = Ok n ->
  match n with inl t => mk_MarketTick t = Ok t | inr c => mk_MarketCandle c = Ok c end.
Proof.
  unfold normalize. destruct (rm_kind e); intros H; res_inv.
  - unfold normalize_tick in E. res_inv. match goal with H : checked _ _ = Ok _ |- _ => apply checked_ok in H; rename H into Hc end.
    pose proof (mk_tick_id _ _ Hc) as ->. exact Hc.
  - unfold normalize_candle in E. res_inv. match goal with H : checked _ _ = Ok _ |- _ => apply checked_ok in H; rename H into Hc end.
    pose proof (mk_candle_id _ _ Hc) as ->. exact Hc.
Qed.

Lemma aside_snd {A B} (m : M ME A) (k : A -> M ME B) (w : ME) : (forall a, aside (k a)) -> tally (snd (bind m k w)) = tally (snd (m w)).
Proof. intros Hk. unfold bind. destruct (m w) as [[a|e] w1]; [apply Hk|done]. Qed.

Lemma tick_step t (w : ME) : admissible_tick t ->
  tally_step (tally w) (tally (snd ((md_inc "ticks_received" ;* ingest_tick es t) w))).
Proof.
  intros Ht. unfold bind at 1, md_inc at 1, modify. cbn beta iota.
  set (w1 := me_set (me_repository w) (bump (me_metrics w) "ticks_received") (me_seen w) (me_queue w) (me_calls w) w).
  unfold ingest_tick. unfold bind at 1, detect_duplicate. change (me_seen w1) with (me_seen w).
  destruct (is_duplicate (es_dedupe_maxsize es) (me_seen w) t) as [dup seen] eqn:Ed. cbn beta iota.
  set (w2 := me_set (me_repository w1) (me_metrics w1) seen (me_queue w1) (me_calls w1) w1).
  assert (tally w2 = ta_tick 0 0 0 seen [] (tally w)) as H2.
  { unfold tally, ta_tick, counted. cbn. rewrite !counted_bump. cbn. by rewrite !Z.add_0_r, app_nil_r. }
  destruct dup.
  - rewrite aside_snd by (intros; apply (within_ret _)). rewrite tally_inc.
    assert (forall n, counted w2 n = counted w n + (if String.eqb "ticks_received" n then 1 else 0)) as Hc
      by (intros n; unfold counted; cbn; apply counted_bump).
    rewrite !Hc. cbn. rewrite !Z.add_0_r.
    eapply (ts_duplicate t seen (tally w)) in Ed; [|done]. unfold ta_tick, tally in Ed. cbn in Ed.
    by rewrite !Z.add_0_r, app_nil_r in Ed.
  - unfold bind at 1, md_call. cbn beta iota. set (now := es_clock es (me_calls w2)).
    set (w3 := me_set (me_repository w2) (me_metrics w2) (me_seen w2) (me_queue w2) (S (me_calls w2)) w2).
    assert (tally w3 = ta_tick 0 0 0 seen [] (tally w)) as H3 by done.
    unfold bind at 1, lift. destruct (evaluate_staleness t now (es_max_age es)) as [verdict|e] eqn:Ev; cbn beta iota.
    + pose proof (ts_judged t seen now verdict (tally w) Ed Ht Ev) as Hs.
      assert (forall n, counted w3 n = counted w n + (if String.eqb "ticks_received" n then 1 else 0)) as Hc
        by (intros n; unfold counted; cbn; apply counted_bump).
      destruct verdict.
      * unfold fan_out_tick. unfold bind at 1. unfold bind at 1, modify. cbn beta iota.
        match goal with |- context [dispatch_all ?l t ?x] => set (w4 := x) end.
        assert (tally w4 = ta_tick 0 0 0 seen [(t, now)] (tally w)) as H4.
        { unfold tally, ta_tick. cbn. unfold counted. cbn. rewrite !counted_bump. cbn. by rewrite !Z.add_0_r. }
        rewrite <- H4 in Hs.
        match goal with |- tally_step _ ?x => replace x with (tally w4); [exact Hs|] end. symmetry.
        pose proof (aside_dispatch (es_tick_consumers es) t w4) as Hd.
        destruct (dispatch_all (es_tick_consumers es) t w4) as [[u|e] w5]; cbn [snd] in *; [|exact Hd].
        rewrite aside_snd by (intros; apply (within_ret _)). rewrite (aside_store "persisted_ticks" (persist_tick t) eq_refl w5). exact Hd.
      * rewrite aside_snd by (intros; apply (within_ret _)). rewrite tally_inc, !Hc. cbn. rewrite !Z.add_0_r.
        unfold ta_tick, tally in Hs. cbn in Hs. by rewrite !Z.add_0_r, app_nil_r in Hs.
      * rewrite aside_snd by (intros; apply (within_ret _)). rewrite tally_inc, !Hc. cbn. rewrite !Z.add_0_r.
        unfold ta_tick, tally in Hs. cbn in Hs. by rewrite !Z.add_0_r, app_nil_r in Hs.
    + cbn [snd]. rewrite H3. eapply ts_unjudged; [done|done|exact Ev|by eexists].
Qed.

Lemma candle_step c (w : ME) : admissible_candle c ->
  tally_step (tally w) (tally (snd ((md_inc "candles_received" ;* ingest_candle es c) w))).
Proof.
  intros Hc. pose proof (ts_candle c (tally w) Hc) as Hs. unfold bind at 1, md_inc, modify. cbn beta iota.
  unfold ingest_candle, fan_out_candle. unfold bind at 1. unfold bind at 1, modify. cbn beta iota.
  match goal with |- context [dispatch_all ?l c ?x] => set (w4 := x) end.
  assert (tally w4 = ta_other [c] 0 (ta_queue (tally w)) (tally w)) as H4.
  { unfold tally, ta_other, counted. cbn. rewrite !counted_bump. cbn. by rewrite !Z.add_0_r. }
  rewrite <- H4 in Hs. match goal with |- tally_step _ ?x => replace x with (tally w4); [exact Hs|] end. symmetry.
  pose proof (aside_dispatch (es_candle_consumers es) c w4) as Hd.
  destruct (dispatch_all (es_candle_consumers es) c w4) as [[u|e] w5]; cbn [snd] in *; [|exact Hd].
  rewrite aside_snd by (intros; apply (within_ret _)). rewrite (aside_store "persisted_candles" (persist_candle c) eq_refl w5). exact Hd.
Qed.

(** The pipeline implements the ledger. *)
Lemma ingest_raw_step e (w : ME) : tally_step (tally w) (tally (snd (ingest_raw es e w))).
Proof.
  assert (forall u : ME, tally (snd (md_inc "rejected_events" u)) = ta_other [] 1 (ta_queue (tally u)) (tally u)) as Hrej.
  { intros u. rewrite tally_inc. unfold ta_other, tally. cbn. by rewrite !Z.add_0_r, app_nil_r. }
  unfold ingest_raw. destruct (validate_raw_event e).
  2: { rewrite aside_snd by (intros; apply (within_ret _)). rewrite Hrej. constructor. }
  destruct (normalize _ _ e) as [n|exc] eqn:En.
  2: { destruct (normalization_error exc); [|apply ts_same].
       unfold bind at 1. pose proof (aside_inc "normalization_failures" eq_refl w) as Hn.
       destruct (md_inc "normalization_failures" w) as [[u|x] w1] eqn:Ei; [|done]. cbn [snd] in Hn.
       rewrite aside_snd by (intros; apply (within_ret _)). rewrite Hrej, Hn. constructor. }
  apply normalize_valid in En.
  destruct (check_supported_symbol _ _) as [[]|exc] eqn:Es.
  2: { rewrite aside_snd by (intros; apply (within_ret _)). rewrite Hrej. constructor. }
  destruct n as [t|c]; [apply tick_step|apply candle_step]; by split.
Qed.

Lemma enqueue_step e (w : ME) : tally_step (tally w) (tally (snd (enqueue e w))).
Proof.
  unfold enqueue. unfold bind at 1. pose proof (ts_put e (tally w)) as Hs. cbn [ta_queue tally] in Hs.
  destruct (put_nowait e (me_queue w)) as [ok q] eqn:E. cbn beta iota.
  match goal with |- context [(bind ?m ?k) ?x] => set (w1 := x) end.
  assert (tally w1 = ta_other [] 0 q (tally w)) as H1.
  { unfold tally, ta_other. cbn. by rewrite !Z.add_0_r, app_nil_r. }
  cbn [snd] in Hs. rewrite <- H1 in Hs. rewrite aside_snd by (intros; apply (within_ret _)).
  destruct ok; [exact Hs|]. by rewrite (aside_inc "dropped_events" eq_refl w1).
Qed.

Lemma consume_steps (w : ME) : rtc tally_step (tally w) (tally (snd (consume_one es w))).
Proof.
  unfold consume_one. destruct (queue_get (me_queue w)) as [[e q]|] eqn:E; [|apply rtc_refl].
  match goal with |- context [bind ?m ?k ?x] => set (w1 := x) end.
  assert (tally w1 = ta_other [] 0 q (tally w)) as H1.
  { unfold tally, ta_other. cbn. by rewrite !Z.add_0_r, app_nil_r. }
  eapply rtc_l; [exact (ts_get e q (tally w) E)|]. rewrite <- H1. apply rtc_once.
  rewrite aside_snd by (intros; apply (within_ret _)). apply ingest_raw_step.
Qed.
End EngineProofs.

(** ** Invariants of the ledger *)

Section Ledger.
Context (es : EngineSettings).

(** The clock is aware and the age limit positive. *)
Definition sane : Prop := (forall n, dt_aware (es_clock es n) = true) /\ 0 < es_max_age es.

Definition fresh_at (t : MarketTick) (now : datetime) : Prop :=
  0 <= dt_instant now - dt_instant (tk_timestamp t) <= es_max_age es.

(** The detector has room for every tick received. *)
Definition roomy (received : Z) : Prop :=
  match es_dedupe_maxsize es with Some m => received <= Z.of_nat m | None => True end.

Record tally_inv (ta : Tally) : Prop := {
  ti_counts : sane -> ta_received ta =
    Z.of_nat (List.length (ta_ticks ta)) + ta_duplicates ta + ta_stale ta + ta_future ta;
  ti_sound : Forall (fun p => admissible_tick es p.1 /\ fresh_at p.1 p.2) (ta_ticks ta);
  ti_known : Z.of_nat (List.length (ta_seen ta)) <= ta_received ta;
  ti_once : roomy (ta_received ta) ->
    Forall (fun p => tick_key p.1 ∈ ta_seen ta) (ta_ticks ta) /\ NoDup ((fun p => tick_key p.1) <$> ta_ticks ta);
  ti_candles : ta_candles_received ta = Z.of_nat (List.length (ta_candles ta)) /\ Forall (admissible_candle es) (ta_candles ta);
  ti_queue : (List.length (bq_items (ta_queue ta)) <= bq_maxsize (ta_queue ta))%nat /\ (1 <= bq_maxsize (ta_queue ta))%nat;
}.

Lemma evaluate_fresh t now verdict : evaluate_staleness t now (es_max_age es) = Ok verdict -> verdict = FRESH_TICK -> fresh_at t now.
Proof.
  unfold evaluate_staleness, fresh_at, dt_sub. intros H ->. res_inv. destruct (dt_comparable _ _); [|done]. res_inv.
  destruct (Z.ltb_spec (dt_instant now - dt_instant (tk_timestamp t)) 0); [done|].
  destruct (Z.ltb_spec (es_max_age es) (dt_instant now - dt_instant (tk_timestamp t))); [done|]. lia.
Qed.

Lemma sane_judges t n e : sane -> admissible_tick es t -> evaluate_staleness t (es_clock es n) (es_max_age es) = Err e -> False.
Proof.
  intros [Hc Hm] [Ht _] H. unfold mk_MarketTick, timestamp_aware in Ht. res_inv.
  unfold evaluate_staleness, dt_sub, dt_comparable in H. rewrite Hc in H. cbn in H.
  destruct (Z.leb_spec (es_max_age es) 0); [lia|]. cbn in H.
  destruct (dt_aware (tk_timestamp t)); [|done]. done.
Qed.

Lemma filter_remove_length {A} `{EqDecision A} (k : A) (l : list A) : k ∈ l -> (List.length (filter (fun x => x <> k) l) < List.length l)%nat.
Proof.
  induction l as [|x l IH]; intros H; [by apply not_elem_of_nil in H|].
  pose proof (length_filter (fun x => x <> k) l) as Hf.
  destruct (decide (x = k)) as [->|Hne].
  - rewrite filter_cons_False by tauto. cbn. lia.
  - rewrite filter_cons_True by done. cbn. apply elem_of_cons in H as [->|H]; [done|]. specialize (IH H). lia.
Qed.

(** The detector: known keys stay known, a fresh key becomes known unless the
    table overflows. *)
Lemma is_duplicate_spec seen t dup seen' : is_duplicate (es_dedupe_maxsize es) seen t = (dup, seen') ->
  (if dup then (tick_key t ∈ seen) /\ (forall k, k ∈ seen -> k ∈ seen') /\ (List.length seen' <= List.length seen)%nat
   else (tick_key t ∉ seen) /\ (List.length seen' <= S (List.length seen))%nat /\
        (roomy (Z.of_nat (S (List.length seen))) -> seen' = seen ++ [tick_key t])).
Proof.
  unfold is_duplicate, roomy. case_bool_decide as Hk; intros [= <- <-].
  - split_and!; [done| |].
    + intros k Hin. rewrite elem_of_app, list_elem_of_filter, list_elem_of_singleton.
      destruct (decide (k = tick_key t)); [by right|by left].
    + rewrite length_app. cbn. pose proof (filter_remove_length _ _ Hk). lia.
  - split_and!; [done| |].
    + destruct (es_dedupe_maxsize es) as [m|]; [case_match|]; rewrite ?length_drop, length_app; cbn; lia.
    + destruct (es_dedupe_maxsize es) as [m|]; [|done]. intros Hr.
      destruct (Nat.ltb_spec m (List.length (seen ++ [tick_key t]))) as [Hl|]; [|done].
      rewrite length_app in Hl. cbn in Hl. lia.
Qed.

Lemma roomy_le a b : a <= b -> roomy b -> roomy a.
Proof. unfold roomy. destruct (es_dedupe_maxsize es); [lia|done]. Qed.

Lemma tick_known_inv ta dup stale future seen' delivered (t : MarketTick) :
  tally_inv ta -> 0 <= dup -> 0 <= stale -> 0 <= future ->
  (dup + stale + future + Z.of_nat (List.length delivered) = 1 \/ (sane -> False)) ->
  Forall (fun p => admissible_tick es p.1 /\ fresh_at p.1 p.2) delivered ->
  (List.length seen' <= S (List.length (ta_seen ta)))%nat ->
  (roomy (ta_received ta + 1) ->
     (forall k, k ∈ ta_seen ta -> k ∈ seen') /\
     (delivered = [] \/ exists now, delivered = [(t, now)] /\ (tick_key t ∉ ta_seen ta) /\ tick_key t ∈ seen')) ->
  tally_inv (ta_tick dup stale future seen' delivered ta).
Proof.
  intros [H1 H2 H3 H4 H5 H6] D1 D2 D3 Hsum Hdel Hlen Hroom. split; cbn; try done.
  - intros Hs. rewrite length_app, H1 by done. destruct Hsum as [Hsum|Hn]; [lia|destruct (Hn Hs)].
  - by apply Forall_app.
  - lia.
  - intros Hr. destruct (Hroom Hr) as [Hk Hd]. destruct H4 as [G1 G2]; [eapply roomy_le; [|exact Hr]; lia|].
    assert (Forall (fun p => tick_key p.1 ∈ seen') (ta_ticks ta)) as G1' by (eapply Forall_impl; [exact G1|]; intros; by apply Hk).
    destruct Hd as [->|(now & -> & Hn & Hi)]; [by rewrite app_nil_r|]. split.
    + apply Forall_app. split; [done|]. by constructor.
    + rewrite fmap_app. apply NoDup_app. split_and!; [done| |apply NoDup_singleton].
      intros k Hin Hin'. apply list_elem_of_singleton in Hin' as ->. apply list_elem_of_fmap in Hin as (p & E & Hp).
      rewrite Forall_forall in G1. apply Hn. cbn in E. rewrite E. by apply G1.
Qed.

Lemma put_bounded e q : (List.length (bq_items q) <= bq_maxsize q)%nat -> (1 <= bq_maxsize q)%nat ->
  (List.length (bq_items (snd (put_nowait e q))) <= bq_maxsize q)%nat /\ bq_maxsize (snd (put_nowait e q)) = bq_maxsize q.
Proof.
  intros H1 H2. unfold put_nowait, queue_full. destruct (Nat.leb_spec (bq_maxsize q) (List.length (bq_items q))).
  - destruct (bq_drop_policy q); cbn; [done|]. rewrite length_app, length_drop. cbn. split; [lia|done].
  - cbn. rewrite length_app. cbn. split; [lia|done].
Qed.

Lemma tally_inv_step ta ta' : tally_step es ta ta' -> tally_inv ta -> tally_inv ta'.
Proof.
  intros H Hinv. pose proof (ti_known _ Hinv) as Hknown.
  destruct H as [ta|ta|t seen ta Ht Hd|t seen now e ta Hd Ht He [n ->]|t seen now verdict ta Hd Ht He|c ta Hc|e ta|e q ta Hg].
  - done.
  - destruct Hinv. split; cbn; rewrite ?app_nil_r, ?Z.add_0_r; done.
  - pose proof (is_duplicate_spec _ _ _ _ Hd) as (D1 & D2 & D3).
    apply (tick_known_inv _ _ _ _ _ _ t); try done; try lia; [left; cbn; lia|]. intros _. split; [done|by left].
  - pose proof (is_duplicate_spec _ _ _ _ Hd) as (D1 & D2 & D3).
    apply (tick_known_inv _ _ _ _ _ _ t); try done; try lia.
    + right. intros Hs. by eapply sane_judges.
    + intros Hr. rewrite D3 by (eapply roomy_le; [|exact Hr]; lia). set_solver.
  - pose proof (is_duplicate_spec _ _ _ _ Hd) as (D1 & D2 & D3).
    assert (roomy (ta_received ta + 1) -> seen = ta_seen ta ++ [tick_key t]) as D4.
    { intros Hr. apply D3. eapply roomy_le; [|exact Hr]. lia. }
    destruct verdict; apply (tick_known_inv _ _ _ _ _ _ t); try done; try lia; try (left; cbn; lia).
    + constructor; [|done]. split; [done|]. by eapply evaluate_fresh.
    + intros Hr. rewrite (D4 Hr). split; [set_solver|]. right. exists now. split_and!; [done..|set_solver].
    + intros Hr. rewrite (D4 Hr). split; [set_solver|by left].
    + intros Hr. rewrite (D4 Hr). split; [set_solver|by left].
  - destruct Hinv as [? ? ? ? [C1 C2] ?]. split; cbn; rewrite ?Z.add_0_r; try done. rewrite length_app. cbn.
    split; [lia|]. apply Forall_app. split; [done|by constructor].
  - destruct Hinv as [? ? ? ? ? [Q1 Q2]]. destruct (put_bounded e _ Q1 Q2) as [Q3 Q4].
    split; cbn; rewrite ?app_nil_r, ?Z.add_0_r, ?Q4; done.
  - destruct Hinv as [? ? ? ? ? [Q1 Q2]]. unfold queue_get in Hg. destruct (bq_items (ta_queue ta)) eqn:Eq; [done|].
    injection Hg as _ <-. cbn in Q1. split; cbn; rewrite ?app_nil_r, ?Z.add_0_r; try done. split; [lia|done].
Qed.
End Ledger.

(** ** The engine *)

Section EngineTheorems.
Context {DB : Type} `{!Session DB MarketRow market_constraint} (es : EngineSettings).
Abbreviation ME := (MdEngine DB).

(** The operations of the engine, in any order, whatever they return. *)
Inductive engine_step : ME -> ME -> Prop :=
| es_ingest e w : engine_step w (snd (ingest_raw es e w))
| es_enqueue e w : engine_step w (snd (enqueue e w))
| es_consume w : engine_step w (snd (consume_one es w)).

Lemma new_queue_ok maxsize policy q : new_queue maxsize policy = Ok q ->
  bq_items q = [] /\ (1 <= bq_maxsize q)%nat /\ bq_dropped_count q = 0.
Proof.
  unfold new_queue. intros H. res_inv.
  destruct (String.eqb _ _); [|destruct (String.eqb _ _); [|done]]; res_inv; cbn; split_and!; done || lia.
Qed.

Lemma reachable_inv repository maxsize policy q w : new_queue maxsize policy = Ok q ->
  rtc engine_step (new_engine repository [] q) w -> tally_inv es (tally w).
Proof.
  intros Hq Hr. apply new_queue_ok in Hq as (Q1 & Q2 & _).
  refine (rtc_preserved engine_step (fun w => tally_inv es (tally w)) _ _ _ Hr _).
  - intros x y Hx Hxy. assert (rtc (tally_step es) (tally x) (tally y)) as Hst.
    { inversion Hxy; subst; [apply rtc_once, ingest_raw_step|apply rtc_once, enqueue_step|apply consume_steps]. }
    refine (rtc_preserved (tally_step es) (tally_inv es) _ _ _ Hst Hx). intros a b Ha Hab. by eapply tally_inv_step.
  - split; cbn; try done.
    + intros _. by split; [|constructor].
    + rewrite Q1. cbn. split; [lia|done].
Qed.

(** *** Dropped events *)

Definition same_drops (w w' : ME) : Prop :=
  counted w' "dropped_events" = counted w "dropped_events" /\ me_queue w' = me_queue w.
#[local] Instance same_drops_preorder : PreOrder same_drops.
Proof. split; [by intros w|]. intros x y z [H1 H2] [H3 H4]. by split; etransitivity. Qed.

Lemma drops_inc name : name <> "dropped_events" -> within same_drops (md_inc name).
Proof.
  intros H w. split; [|done]. unfold counted. cbn. rewrite counted_bump.
  rewrite (proj2 (String.eqb_neq _ _)) by done. lia.
Qed.
Lemma drops_call {A} (f : nat -> A) : within same_drops (md_call f).
Proof. by intros w. Qed.
Lemma drops_dispatch {V} (l : list (nat -> V -> res unit)) v : within same_drops (dispatch_all l v).
Proof. apply within_dispatch; [apply _|intros f; apply drops_call|by apply drops_inc]. Qed.
Lemma drops_store counter m : counter <> "dropped_events" -> within same_drops (store es counter m).
Proof.
  intros Hc w. unfold store. destruct (me_repository w); [|reflexivity]. destruct (es_persist_enabled es); [|reflexivity].
  apply (within_exception same_drops); [|by apply drops_inc].
  apply within_bind; [apply _| |intros _; by apply drops_inc].
  intros w'. unfold in_repository. destruct (me_repository w'); [|reflexivity]. by destruct (m _).
Qed.
#[local] Hint Resolve drops_call drops_dispatch : within.
#[local] Hint Extern 1 (within same_drops (md_inc _)) => (by apply drops_inc) : within.
#[local] Hint Extern 1 (within same_drops (store _ _ _)) => (by apply drops_store) : within.
#[local] Hint Extern 1 (within same_drops (modify _)) => (by intros w) : within.

Lemma drops_detect t : within same_drops (detect_duplicate es t).
Proof. intros w. unfold detect_duplicate. by destruct (is_duplicate _ _ _). Qed.
#[local] Hint Resolve drops_detect : within.

Lemma drops_ingest e : within same_drops (ingest_raw es e).
Proof.
  unfold ingest_raw. destruct (validate_raw_event e); [|by within_walk].
  destruct (normalize _ _ e) as [n|exc]; [|by within_walk].
  destruct (check_supported_symbol _ _); [|by within_walk].
  destruct n as [t|c].
  - unfold ingest_tick, fan_out_tick. within_walk. match goal with |- within _ (match ?v with _ => _ end) => destruct v end; within_walk.
  - unfold ingest_candle, fan_out_candle. within_walk.
Qed.

(** The drops the metrics report: those of [drop_newest]. *)
Definition drops_counted (w : ME) : Prop :=
  counted w "dropped_events" =
  match bq_drop_policy (me_queue w) with drop_newest => bq_dropped_count (me_queue w) | drop_oldest => 0 end.

Lemma drops_counted_same w w' : same_drops w w' -> drops_counted w -> drops_counted w'.
Proof. unfold drops_counted. by intros [-> ->]. Qed.

Lemma enqueue_run e (w : ME) : enqueue e w =
  let '(ok, q) := put_nowait e (me_queue w) in
  (Ok ok, me_set (me_repository w) (if ok then me_metrics w else bump (me_metrics w) "dropped_events") (me_seen w) q (me_calls w) w).
Proof. unfold enqueue, bind. by destruct (put_nowait e (me_queue w)) as [[] q]. Qed.

Lemma drops_counted_step w w' : engine_step w w' -> drops_counted w -> drops_counted w'.
Proof.
  intros H Hw. destruct H as [e w|e w|w].
  - eapply drops_counted_same; [apply drops_ingest|done].
  - rewrite enqueue_run. unfold drops_counted, put_nowait, counted in *.
    destruct (queue_full (me_queue w)); [destruct (bq_drop_policy (me_queue w)) eqn:Ep|]; cbn -[bump default lookup]; rewrite ?Ep; try done.
    rewrite counted_bump, Hw. done.
  - unfold consume_one, queue_get. destruct (bq_items (me_queue w)) as [|e l]; [done|].
    match goal with |- context [bind ?m ?k ?x] => set (w1 := x) end.
    apply (drops_counted_same w1); [|done].
    apply (within_bind same_drops); [apply drops_ingest|intros r; apply (within_ret _)].
Qed.

Lemma queue_size_kept repository maxsize policy q w : new_queue maxsize policy = Ok q ->
  rtc engine_step (new_engine repository [] q) w -> Z.of_nat (bq_maxsize (me_queue w)) = maxsize.
Proof.
  intros Hq Hr. assert (Z.of_nat (bq_maxsize q) = maxsize) as H0.
  { unfold new_queue in Hq. res_inv. destruct (String.eqb _ _); [|destruct (String.eqb _ _); [|done]]; res_inv; cbn; lia. }
  refine (rtc_preserved engine_step (fun w => Z.of_nat (bq_maxsize (me_queue w)) = maxsize) _ _ _ Hr H0).
  clear. intros x y Hx Hxy. rewrite <- Hx. f_equal. destruct Hxy as [e w|e w|w].
  - by rewrite (proj2 (drops_ingest e w)).
  - rewrite enqueue_run. unfold put_nowait. by destruct (queue_full _); [destruct (bq_drop_policy _)|].
  - unfold consume_one, queue_get. destruct (bq_items (me_queue w)) as [|e l]; [done|].
    match goal with |- context [bind ?m ?k ?x] => set (w1 := x) end.
    assert (same_drops w1 (snd (bind (ingest_raw es e) (fun r => ret (Some r)) w1))) as [_ H]; [|by rewrite H].
    apply (within_bind same_drops); [apply drops_ingest|intros r; apply (within_ret _)].
Qed.

(** *** Stored rows *)

Definition delivered_row (w : ME) (r : MarketRow) : Prop :=
  (exists p, p ∈ me_ticks w /\ r = to_orm_tick p.1) \/ (exists c, c ∈ me_candles w /\ r = to_orm_candle c).
Definition stored (w : ME) : gmap N MarketRow := match me_repository w with Some db => rows db | None => ∅ end.
Definition persisted (w : ME) : Z := counted w "persisted_ticks" + counted w "persisted_candles".

Record stores (w w' : ME) : Prop := {
  st_delivered r : delivered_row w r -> delivered_row w' r;
  st_kept k r : stored w !! k = Some r -> stored w' !! k = Some r;
  st_new k r : stored w' !! k = Some r -> stored w !! k = Some r \/ delivered_row w' r;
  st_size : Z.of_nat (size (stored w')) - persisted w' = Z.of_nat (size (stored w)) - persisted w;
  st_repository : me_repository w = None <-> me_repository w' = None;
}.
#[local] Instance stores_preorder : PreOrder stores.
Proof.
  split; [split; eauto; tauto|]. intros x y z [A1 A2 A3 A4 A5] [B1 B2 B3 B4 B5]. split; eauto; [|lia|tauto].
  intros k r H. destruct (B3 _ _ H) as [H'|]; [|by right]. destruct (A3 _ _ H') as [|]; eauto.
Qed.

(** Anything that leaves the repository, the deliveries and the persistence
    counters alone. *)
Lemma stores_same w w' : me_repository w' = me_repository w -> me_ticks w' = me_ticks w -> me_candles w' = me_candles w ->
  persisted w' = persisted w -> stores w w'.
Proof.
  intros H1 H2 H3 H4. split; unfold delivered_row, stored; rewrite ?H1, ?H2, ?H3, ?H4; eauto; done.
Qed.

Lemma stores_inc name : name <> "persisted_ticks" -> name <> "persisted_candles" -> within stores (md_inc name).
Proof.
  intros H1 H2 w. apply stores_same; try done. unfold persisted, counted. cbn. rewrite !counted_bump.
  rewrite !(proj2 (String.eqb_neq _ _)) by done. lia.
Qed.
Lemma stores_call {A} (f : nat -> A) : within stores (md_call f).
Proof. intros w. by apply stores_same. Qed.
Lemma stores_dispatch {V} (l : list (nat -> V -> res unit)) v : within stores (dispatch_all l v).
Proof. apply within_dispatch; [apply _|intros f; apply stores_call|by apply stores_inc]. Qed.

Lemma commit_one_run row (db : DB) r db' : commit_rows [row] db = (r, db') ->
  match r with
  | Ok _ => exists k, rows db !! k = None /\ rows db' = <[k := row]> (rows db)
  | Err _ => rows db' = rows db
  end.
Proof.
  unfold commit_rows. cbn. intros H. destruct r as [[]|e]; [|by eapply commit_err].
  apply commit_ok in H as [Ha _]. inversion Ha as [|k x cs m m' Hk Ha'|]; subst. inversion Ha'; subst. eauto.
Qed.

Lemma stores_row counter row w : counter = "persisted_ticks" \/ counter = "persisted_candles" -> delivered_row w row ->
  stores w (snd (store es counter (commit_rows [row]) w)).
Proof.
  intros Hc Hd. unfold store. destruct (me_repository w) as [db|] eqn:Er; [|reflexivity].
  destruct (es_persist_enabled es); [|reflexivity]. unfold on_exception, try_except, in_repository, bind. rewrite Er.
  destruct (commit_rows [row] db) as [r db'] eqn:Ec. pose proof (commit_one_run _ _ _ _ Ec) as Hr. destruct r as [u|e].
  - destruct Hr as (k & Hk & Hdb). unfold md_inc, modify. cbn [snd]. split; try done.
    + intros k' r' H. unfold stored in *. cbn. rewrite Er in H. rewrite Hdb.
      destruct (decide (k = k')) as [->|]; [congruence|by rewrite lookup_insert_ne].
    + intros k' r' H. unfold stored in *. cbn in H. rewrite Er. rewrite Hdb in H.
      destruct (decide (k = k')) as [->|]; [|rewrite lookup_insert_ne in H by done; by left].
      rewrite lookup_insert_eq in H. injection H as <-. by right.
    + unfold stored, persisted, counted. cbn. rewrite Er, Hdb, map_size_insert_None, !counted_bump by done.
      destruct Hc as [-> | ->]; cbn; lia.
    + cbn. split; congruence.
  - assert (stores w (me_set (Some db') (me_metrics w) (me_seen w) (me_queue w) (me_calls w) w)) as H1.
    { split; unfold stored; cbn; rewrite ?Er, ?Hr; eauto; done. }
    cbn beta iota. destruct (isinstance e Exception); [|exact H1].
    etransitivity; [exact H1|]. by apply stores_inc.
Qed.

Lemma stores_fan_out_tick t now w : stores w (snd (fan_out_tick es t now w)) /\
  delivered_row (snd (fan_out_tick es t now w)) (to_orm_tick t).
Proof.
  unfold fan_out_tick. unfold bind, modify. cbn beta iota. match goal with |- context [dispatch_all _ _ ?x] => set (w1 := x) end.
  pose proof (stores_dispatch (es_tick_consumers es) t w1) as H1.
  assert (stores w w1) as H0.
  { split; try done; [|by left]. intros r [(p & Hp & ->)|Hc]; [left|by right]. exists p. split; [cbn; set_solver|done]. }
  split; [by etransitivity|]. eapply st_delivered; [exact H1|]. left. exists (t, now). split; [cbn; set_solver|done].
Qed.

Lemma stores_fan_out_candle c w : stores w (snd (fan_out_candle es c w)) /\
  delivered_row (snd (fan_out_candle es c w)) (to_orm_candle c).
Proof.
  unfold fan_out_candle. unfold bind, modify. cbn beta iota. match goal with |- context [dispatch_all _ _ ?x] => set (w1 := x) end.
  pose proof (stores_dispatch (es_candle_consumers es) c w1) as H1.
  assert (stores w w1) as H0.
  { split; try done; [|by left]. intros r [Ht|(p & Hp & ->)]; [by left|right]. exists p. split; [cbn; set_solver|done]. }
  split; [by etransitivity|]. eapply st_delivered; [exact H1|]. right. exists c. split; [cbn; set_solver|done].
Qed.

#[local] Hint Resolve stores_call stores_dispatch : within.
#[local] Hint Extern 1 (within stores (md_inc _)) => (by apply stores_inc) : within.

Lemma stores_detect t : within stores (detect_duplicate es t).
Proof. intros w. unfold detect_duplicate. destruct (is_duplicate _ _ _). by apply stores_same. Qed.
#[local] Hint Resolve stores_detect : within.

(** Delivering, then storing what was delivered. *)
Lemma stores_deliver (deliver : M ME unit) counter row (r : IngestResult) :
  counter = "persisted_ticks" \/ counter = "persisted_candles" ->
  (forall w, stores w (snd (deliver w)) /\ delivered_row (snd (deliver w)) row) ->
  within stores (deliver ;* store es counter (commit_rows [row]) ;* ret r).
Proof.
  intros Hc Hd w. destruct (Hd w) as [H1 H2]. unfold bind at 1. destruct (deliver w) as [[u|e] w1]; cbn [snd] in *; [|done].
  etransitivity; [exact H1|]. pose proof (stores_row counter row w1 Hc H2) as H3. unfold bind.
  by destruct (store es counter (commit_rows [row]) w1) as [[|] w2].
Qed.

Lemma stores_ingest e : within stores (ingest_raw es e).
Proof.
  unfold ingest_raw. destruct (validate_raw_event e); [|by within_walk].
  destruct (normalize _ _ e) as [n|exc]; [|by within_walk].
  destruct (check_supported_symbol _ _); [|by within_walk].
  destruct n as [t|c].
  - unfold ingest_tick. do 2 (apply (within_bind _); [by within_walk|intros ?]). case_match; [by within_walk|].
    do 2 (apply (within_bind _); [by within_walk|intros ?]). case_match; [|by within_walk..].
    apply stores_deliver; [by left|intros w; apply stores_fan_out_tick].
  - apply (within_bind _); [by within_walk|intros _].
    apply stores_deliver; [by right|intros w; apply stores_fan_out_candle].
Qed.

Lemma stores_step w w' : engine_step w w' -> stores w w'.
Proof.
  intros H. destruct H as [e w|e w|w]; [apply stores_ingest| |].
  - rewrite enqueue_run. destruct (put_nowait e (me_queue w)) as [ok q]. apply stores_same; try done.
    unfold persisted, counted. cbn -[bump default lookup]. destruct ok; [done|]. by rewrite !counted_bump, !Z.add_0_r.
  - unfold consume_one, queue_get. destruct (bq_items (me_queue w)) as [|e l]; [done|].
    match goal with |- context [bind ?m ?k ?x] => transitivity x; [by apply stores_same|] end.
    apply (within_bind stores); [apply stores_ingest|intros r; apply (within_ret _)].
Qed.

(** *** Results *)

Definition consumers_raise_exceptions : Prop :=
  Forall (fun c => forall n t e, c n t = Err e -> isinstance e Exception = true) (es_tick_consumers es) /\
  Forall (fun c => forall n t e, c n t = Err e -> isinstance e Exception = true) (es_candle_consumers es).

Lemma dispatch_total {V} (l : list (nat -> V -> res unit)) v (w : ME) :
  Forall (fun c => forall n t e, c n t = Err e -> isinstance e Exception = true) l ->
  fst (dispatch_all l v w) = Ok tt /\ me_calls (snd (dispatch_all l v w)) = (me_calls w + List.length l)%nat.
Proof.
  intros H. revert w. induction H as [|c l Hc Hl IH]; intros w; [cbn; split; [done|lia]|].
  cbn [dispatch_all]. unfold bind.
  assert (fst (safe_dispatch c v w) = Ok tt /\ me_calls (snd (safe_dispatch c v w)) = S (me_calls w)) as [H1 H2].
  { unfold safe_dispatch, on_exception, try_except, bind, md_call, lift. cbn beta iota.
    destruct (c (me_calls w) v) as [[]|e] eqn:E; [done|]. by rewrite (Hc _ _ _ E). }
  destruct (safe_dispatch c v w) as [r w1]. cbn [fst snd] in *. rewrite H1. destruct (IH w1) as [G1 G2].
  rewrite G2, H2. cbn [List.length]. split; [done|lia].
Qed.

Lemma db_error_exception e : db_error (exn_cls e) = true -> isinstance e Exception = true.
Proof. destruct e as [c m f]. by destruct c. Qed.

Lemma store_total counter row (w : ME) : fst (store es counter (commit_rows [row]) w) = Ok tt.
Proof.
  unfold store. destruct (me_repository w) as [db|] eqn:Er; [|done]. destruct (es_persist_enabled es); [|done].
  unfold on_exception, try_except, in_repository, bind. rewrite Er.
  pose proof (commit_error (Add <$> [row]) db) as He. unfold commit_rows. destruct (commit (Add <$> [row]) db) as [[[]|e] db']; [done|].
  cbn beta iota. rewrite (db_error_exception e) by (by apply He). done.
Qed.

Lemma store_deliveries counter m (w : ME) :
  me_ticks (snd (store es counter m w)) = me_ticks w /\ me_candles (snd (store es counter m w)) = me_candles w.
Proof.
  assert (forall name (x : ME), me_ticks (snd (md_inc name x)) = me_ticks x /\ me_candles (snd (md_inc name x)) = me_candles x) as Hi by done.
  unfold store. destruct (me_repository w) as [db|] eqn:Er; [|done]. destruct (es_persist_enabled es); [|done].
  unfold on_exception, try_except, in_repository, bind. rewrite Er. destruct (m db) as [[u|e] db']; [done|].
  cbn beta iota. by destruct (isinstance e Exception).
Qed.

(** [datetime.fromisoformat] refuses with [ValueError]. *)
Definition isoformat_refuses : Prop :=
  forall s e, es_fromisoformat es s = Err e -> isinstance e ValueError = true.

(** A computation whose errors the normalization step catches. *)
Definition caught {A} (r : res A) : Prop := forall e, r = Err e -> normalization_error e = true.

Lemma caught_ok {A} (a : A) : caught (Ok a).
Proof. by intros e H. Qed.
Lemma caught_raise {A} msg : caught (A:=A) (raise RawEventValidationError msg).
Proof. by intros e [= <-]. Qed.
Lemma caught_bind {A B} (r : res A) (k : A -> res B) : caught r -> (forall a, caught (k a)) -> caught (rbind r k).
Proof. intros Hr Hk. destruct r as [a|e']; [apply Hk|]. intros e [= <-]. by apply Hr. Qed.
Lemma caught_item p key : caught (item p key).
Proof. unfold item. destruct (p !! key); by intros e [= <-]. Qed.
Lemma caught_checked {A} what (r : res A) : caught (checked what r).
Proof. destruct r; [apply caught_ok|apply caught_raise]. Qed.
Lemma caught_decimal v field : caught (coerce_decimal v field).
Proof. unfold coerce_decimal. destruct v; [..|]; repeat case_match; first [apply caught_ok|apply caught_raise]. Qed.
Lemma caught_uuid v field : caught (coerce_uuid v field).
Proof. unfold coerce_uuid. repeat case_match; first [apply caught_ok|apply caught_raise]. Qed.
Lemma caught_datetime v field : isoformat_refuses -> caught (coerce_datetime (es_fromisoformat es) v field).
Proof.
  intros Hf. unfold coerce_datetime. destruct v; try apply caught_raise; [|apply caught_ok].
  destruct (es_fromisoformat es s) as [d|e] eqn:E; [apply caught_ok|]. rewrite (Hf _ _ E). apply caught_raise.
Qed.
Lemma caught_optional v field : caught (coerce_optional_decimal v field).
Proof.
  unfold coerce_optional_decimal. destruct v as [[]|]; try apply caught_ok;
    (apply caught_bind; [apply caught_decimal|intros; apply caught_ok]).
Qed.
Lemma caught_text what v : caught (text_field what v).
Proof. destruct v; first [apply caught_ok|apply caught_raise]. Qed.
Lemma caught_int what v : caught (int_field (es_lax_int es) what v).
Proof. unfold int_field. repeat case_match; first [apply caught_ok|apply caught_raise]. Qed.
Lemma caught_timeframe v : caught (coerce_timeframe v).
Proof. unfold coerce_timeframe. repeat case_match; first [apply caught_ok|apply caught_raise]. Qed.

#[local] Hint Resolve caught_ok caught_item caught_checked caught_decimal caught_uuid caught_datetime caught_optional
  caught_text caught_int caught_timeframe : within.

Lemma normalize_caught e : isoformat_refuses -> caught (normalize (es_fromisoformat es) (es_lax_int es) e).
Proof.
  intros Hf. unfold normalize, normalize_tick, normalize_candle.
  destruct (rm_kind e); repeat (apply caught_bind; [|intros ?]); auto with within.
Qed.

(** What a result says of the deliveries. *)
Definition truthful (w : ME) (r : IngestResult) (w' : ME) : Prop :=
  match ig_tick r, ig_candle r with
  | Some t, None => ig_status r = in_ACCEPTED /\ me_candles w' = me_candles w /\ exists now, me_ticks w' = me_ticks w ++ [(t, now)]
  | None, Some c => ig_status r = in_ACCEPTED /\ me_ticks w' = me_ticks w /\ me_candles w' = me_candles w ++ [c]
  | None, None => ig_status r <> in_ACCEPTED /\ me_ticks w' = me_ticks w /\ me_candles w' = me_candles w /\
                  me_repository w' = me_repository w
  | Some _, Some _ => False
  end.

Lemma tally_deliveries (w w' : ME) : tally w' = tally w -> me_ticks w' = me_ticks w /\ me_candles w' = me_candles w.
Proof. intros H. split; [exact (f_equal ta_ticks H)|exact (f_equal ta_candles H)]. Qed.

Lemma dispatched {V} (l : list (nat -> V -> res unit)) v (w : ME) :
  Forall (fun c => forall n t e, c n t = Err e -> isinstance e Exception = true) l ->
  exists w', dispatch_all l v w = (Ok tt, w') /\ me_ticks w' = me_ticks w /\ me_candles w' = me_candles w.
Proof.
  intros H. destruct (dispatch_total l v w H) as [H1 _]. pose proof (tally_deliveries _ _ (aside_dispatch l v w)) as H2.
  destruct (dispatch_all l v w) as [r w']. cbn [fst snd] in *. subst r. eauto.
Qed.

Lemma stored_after counter row (w : ME) :
  exists w', store es counter (commit_rows [row]) w = (Ok tt, w') /\ me_ticks w' = me_ticks w /\ me_candles w' = me_candles w.
Proof.
  pose proof (store_total counter row w) as H1. pose proof (store_deliveries counter (commit_rows [row]) w) as H2.
  destruct (store es counter (commit_rows [row]) w) as [r w']. cbn [fst snd] in *. subst r. eauto.
Qed.

Lemma tick_truthful t w : sane es -> consumers_raise_exceptions -> admissible_tick es t ->
  exists r w', ingest_tick es t w = (Ok r, w') /\ truthful w r w'.
Proof.
  intros Hs [Hc _] Ht. unfold ingest_tick. unfold bind at 1, detect_duplicate.
  destruct (is_duplicate _ _ t) as [[] seen]; [by eexists _, _|]. unfold bind at 1, md_call. cbn beta iota.
  destruct (evaluate_staleness t _ _) as [v|e] eqn:Ev; [|by edestruct sane_judges].
  unfold bind at 1, lift. cbn beta iota. destruct v; [|by eexists _, _..].
  unfold fan_out_tick. unfold bind at 1. unfold bind at 1, modify. cbn beta iota.
  match goal with |- context [dispatch_all _ _ ?x] => destruct (dispatched (es_tick_consumers es) t x Hc) as (w1 & -> & H1 & H2) end.
  unfold bind at 1, persist_tick. destruct (stored_after "persisted_ticks" (to_orm_tick t) w1) as (w2 & -> & H3 & H4).
  eexists _, w2. split; [done|]. unfold truthful. cbn. rewrite H3, H4, H1, H2. eauto.
Qed.

Lemma candle_truthful c w : consumers_raise_exceptions -> exists r w', ingest_candle es c w = (Ok r, w') /\ truthful w r w'.
Proof.
  intros [_ Hc]. unfold ingest_candle, fan_out_candle. unfold bind at 1. unfold bind at 1, modify. cbn beta iota.
  match goal with |- context [dispatch_all _ _ ?x] => destruct (dispatched (es_candle_consumers es) c x Hc) as (w1 & -> & H1 & H2) end.
  unfold bind at 1, persist_candle. destruct (stored_after "persisted_candles" (to_orm_candle c) w1) as (w2 & -> & H3 & H4).
  eexists _, w2. split; [done|]. unfold truthful. cbn. rewrite H3, H4, H1, H2. eauto.
Qed.

(** Every event has a result and the result says what happened, whatever the
    consumers raise and whatever commits fail: an accepted tick or candle was
    handed to the consumers, exactly once, and anything refused was neither handed
    over nor stored.  The clock is aware, the age limit positive, and
    [datetime.fromisoformat] refuses with [ValueError]. *)
Lemma ingest_truthful e w : sane es -> consumers_raise_exceptions -> isoformat_refuses ->
  exists r w', ingest_raw es e w = (Ok r, w') /\ truthful w r w'.
Proof.
  intros Hs Hc Hf. unfold ingest_raw. destruct (validate_raw_event e); [|by eexists _, _].
  destruct (normalize _ _ e) as [n|exc] eqn:En; [|rewrite (normalize_caught _ Hf _ En); by eexists _, _].
  apply normalize_valid in En. destruct (check_supported_symbol _ _) as [[]|] eqn:Es; [|by eexists _, _].
  destruct n as [t|c]; unfold bind, md_inc, modify; cbn beta iota.
  - match goal with |- context [ingest_tick es t ?x] => apply (tick_truthful t x Hs Hc); exact (conj En Es) end.
  - match goal with |- context [ingest_candle es c ?x] => by apply (candle_truthful c x) end.
Qed.

(** *** The theorems *)

(** Whatever events arrive and in whatever order they are ingested, enqueued
    and consumed, and whatever the consumers and the database do: every tick
    handed to the consumers satisfies the contract, is of an allowed symbol and
    was at most [max_age] old (and not from the future) when it was judged;
    while no more ticks were received than the duplicate detector remembers, no
    (broker, sequence) pair was handed over twice; the candles handed over are
    valid, allowed and exactly those received; and every tick received is
    accounted for: delivered, duplicate, stale or from the future. *)
Lemma delivered_ticks_sound repository maxsize policy q w : new_queue maxsize policy = Ok q ->
  rtc engine_step (new_engine repository [] q) w ->
  Forall (fun p => admissible_tick es p.1 /\ fresh_at es p.1 p.2) (me_ticks w) /\
  (roomy es (counted w "ticks_received") -> NoDup ((fun p => tick_key p.1) <$> me_ticks w)) /\
  Forall (admissible_candle es) (me_candles w) /\ counted w "candles_received" = Z.of_nat (List.length (me_candles w)) /\
  (sane es -> counted w "ticks_received" =
     Z.of_nat (List.length (me_ticks w)) + counted w "duplicates" + counted w "stale_events" + counted w "future_timestamps").
Proof.
  intros Hq Hr. destruct (reachable_inv _ _ _ _ _ Hq Hr) as [H1 H2 H3 H4 [H5 H6] H7]. split_and!; try done.
  intros Hroom. by apply H4.
Qed.

(** The queue never holds more than its limit; the metric
    [dropped_events] is the number of events dropped under [drop_newest] and
    stays 0 under [drop_oldest], where the queue's own counter alone counts the
    oldest events it discards. *)
Lemma drops_reported repository maxsize policy q w : new_queue maxsize policy = Ok q ->
  rtc engine_step (new_engine repository [] q) w ->
  (List.length (bq_items (me_queue w)) <= bq_maxsize (me_queue w))%nat /\
  counted w "dropped_events" =
    match bq_drop_policy (me_queue w) with drop_newest => bq_dropped_count (me_queue w) | drop_oldest => 0 end.
Proof.
  intros Hq Hr. split; [apply (reachable_inv _ _ _ _ _ Hq Hr)|].
  refine (rtc_preserved engine_step drops_counted _ _ _ Hr _).
  - intros x y Hx Hxy. by apply (drops_counted_step x y).
  - apply new_queue_ok in Hq as (_ & _ & Hd). unfold drops_counted, new_engine. cbn. rewrite Hd. by destruct (bq_drop_policy q).
Qed.

(** the engine stores what it delivered: no stored row is changed or
    removed, every row added is the row of a tick or candle handed to the
    consumers, so a valid one of an allowed symbol, and there are as many new
    rows as the persistence counters say, whatever commits fail. *)
Theorem stored_rows_delivered db0 maxsize policy q w : new_queue maxsize policy = Ok q ->
  rtc engine_step (new_engine (Some db0) [] q) w ->
  exists db, me_repository w = Some db /\
    (forall k r, rows db0 !! k = Some r -> rows db !! k = Some r) /\
    (forall k r, rows db !! k = Some r -> rows db0 !! k = Some r \/
       (exists t now, r = to_orm_tick t /\ admissible_tick es t /\ fresh_at es t now) \/
       (exists c, r = to_orm_candle c /\ admissible_candle es c)) /\
    Z.of_nat (size (rows db)) = Z.of_nat (size (rows db0)) + counted w "persisted_ticks" + counted w "persisted_candles".
Proof.
  intros Hq Hr. destruct (reachable_inv _ _ _ _ _ Hq Hr) as [_ I2 _ _ [_ I6] _].
  assert (stores (new_engine (Some db0) [] q) w) as [_ H2 H3 H4 H5].
  { clear I2 I6 Hq. induction Hr as [|x y z Hxy _ IH]; [done|]. etransitivity; [by apply stores_step|done]. }
  unfold stored, persisted in *. destruct (me_repository w) as [db|]; [|by destruct H5 as [_ H5]; discriminate H5].
  exists db. split_and!; [done|exact H2| |].
  2: { change (counted (new_engine (Some db0) [] q) _) with 0 in H4. cbn [me_repository new_engine] in H4. lia. }
  intros k r H. destruct (H3 k r H) as [|[([t now] & Hp & ->)|(c & Hc & ->)]]; [by left|right; left|right; right].
  - exists t, now. rewrite Forall_forall in I2. destruct (I2 _ Hp). done.
  - exists c. rewrite Forall_forall in I6. auto.
Qed.
End EngineTheorems.

(** * Runs *)

Module MarketDataSample.

Definition at_second (s : Z) : datetime := DT (s * 1000000) (Some 0).

(** Ticks of "INFY" up to five seconds old; the first of two consumers raises. *)
Definition settings : EngineSettings :=
  {| es_allowed_symbols := Some ["INFY"]; es_max_age := 5 * 1000000; es_persist_enabled := true;
     es_clock := fun _ => at_second 10; es_dedupe_maxsize := Some 3%nat;
     es_tick_consumers := [(fun _ _ => raise ValueError "broken consumer"); (fun _ _ => Ok tt)]; es_candle_consumers := [];
     es_fromisoformat := fun _ => raise ValueError "Invalid isoformat string";
     es_lax_int := fun v => match v with RInt z => Some z | _ => None end |}.

Definition tick_event (sequence symbol price : string) (second : Z) : RawMarketEvent :=
  {| rm_provider := "fake"; rm_kind := ek_TICK;
     rm_payload := list_to_map [("instrument_id", RUuid 7); ("exchange", RStr "NSE"); ("symbol", RStr symbol);
       ("timestamp", RTime (at_second second)); ("ltp", RStr price); ("source_broker", RStr "fake");
       ("source_sequence", RStr sequence)]%string;
     rm_received_at := at_second 10 |}.

Definition bounded (maxsize : nat) (policy : DropPolicy) : BoundedQueue :=
  {| bq_items := []; bq_maxsize := maxsize; bq_drop_policy := policy; bq_dropped_count := 0 |}.

Abbreviation engine := (MdEngine (gmap N MarketRow)).
#[local] Instance sample_session : Session (gmap N MarketRow) MarketRow market_constraint := MemDB market_constraint.

Definition start : engine := new_engine (Some ∅) [] (bounded 1 drop_oldest).

Fixpoint ingest_all (l : list RawMarketEvent) (w : engine) : list (res IngestStatus) * engine :=
  match l with
  | [] => ([], w)
  | e :: rest => let '(r, w1) := ingest_raw settings e w in
                 let '(rs, w2) := ingest_all rest w1 in
                 ((let! x := r in Ok (ig_status x)) :: rs, w2)
  end.

(** Fresh, repeated, stale, from the future, of another symbol, without a
    positive price. *)
Definition events : list RawMarketEvent :=
  [tick_event "1" "INFY" "1500.25" 9; tick_event "1" "INFY" "1500.25" 9; tick_event "2" "INFY" "1500" 4;
   tick_event "3" "INFY" "1500" 11; tick_event "4" "TCS" "3500" 9; tick_event "5" "INFY" "-1" 9].

Lemma every_verdict : fst (ingest_all events start) =
  [Ok in_ACCEPTED; Ok in_DUPLICATE; Ok in_STALE; Ok in_FUTURE; Ok in_REJECTED; Ok in_REJECTED].
Proof. by vm_compute. Qed.

Lemma every_counter : let w := snd (ingest_all events start) in
  counted w <$> ["ticks_received"; "duplicates"; "stale_events"; "future_timestamps"; "rejected_events";
                 "normalization_failures"; "consumer_failures"; "persisted_ticks"] = [4; 1; 1; 1; 2; 1; 1; 1] /\
  List.length (me_ticks w) = 1%nat.
Proof. by vm_compute. Qed.

Lemma stored_witness : new_queue 1 "drop_oldest" = Ok (bounded 1 drop_oldest) /\
  exists db, me_repository (snd (ingest_raw settings (tick_event "1" "INFY" "1500.25" 9) start)) = Some db /\
    (forall k r, rows db !! k = Some r -> (∅ : gmap N MarketRow) !! k = Some r \/
       (exists t now, r = to_orm_tick t /\ admissible_tick settings t /\ fresh_at settings t now) \/
       (exists c, r = to_orm_candle c /\ admissible_candle settings c)) /\
    size (rows db) = 1%nat.
Proof.
  split; [reflexivity|].
  destruct (stored_rows_delivered settings ∅ 1 "drop_oldest" (bounded 1 drop_oldest)
    (snd (ingest_raw settings (tick_event "1" "INFY" "1500.25" 9) start)) eq_refl (rtc_once _ _ (es_ingest _ _ _)))
    as (db & H1 & _ & H3 & H4).
  exists db. split; [exact H1|]. split; [exact H3|]. apply Nat2Z.inj. rewrite H4. by vm_compute.
Defined.

(** Under [drop_oldest] a full queue discards an event and says so to no one:
    both calls answer true and the metric stays 0. *)
Lemma oldest_drop_unreported :
  let '(r1, w1) := enqueue (tick_event "1" "INFY" "1" 9) start in
  let '(r2, w2) := enqueue (tick_event "2" "INFY" "1" 9) w1 in
  r1 = Ok true /\ r2 = Ok true /\ bq_dropped_count (me_queue w2) = 1 /\ counted w2 "dropped_events" = 0.
Proof. by vm_compute. Qed.

(** An injected detector that has seen nothing is false and is replaced, its
    limit with it. *)
Lemma injected_detector_replaced {DB} (repository : option DB) allowed max_age queue_size policy persist clock limit dedupe iso lax :
  new_market_data_engine repository allowed max_age queue_size policy persist clock (Some (limit, [])) dedupe iso lax =
  new_market_data_engine repository allowed max_age queue_size policy persist clock None dedupe iso lax.
Proof. reflexivity. Qed.

(** A tick that was judged stale or from the future is a duplicate when it is
    sent again. *)
Lemma refused_tick_remembered :
  fst (ingest_all [tick_event "3" "INFY" "1500" 11; tick_event "3" "INFY" "1500" 9] start) = [Ok in_FUTURE; Ok in_DUPLICATE].
Proof. by vm_compute. Qed.

(** With an age limit of zero, which no constructor refuses, the first tick makes
    the pipeline raise. *)
Lemma nonpositive_age_raises :
  fst (ingest_raw {| es_allowed_symbols := None; es_max_age := 0; es_persist_enabled := true; es_clock := fun _ => at_second 10;
                     es_dedupe_maxsize := Some 3%nat; es_tick_consumers := []; es_candle_consumers := [];
                     es_fromisoformat := es_fromisoformat settings; es_lax_int := es_lax_int settings |}
        (tick_event "1" "INFY" "1500" 9) start) = raise ValueError "max_age must be positive".
Proof. by vm_compute. Qed.
End MarketDataSample.
