(* ===== verification/MarketFeed.v ===== *)
(** The provider side of the market-data engine
    (src/services/market_data/alpha_algo_market_data): provider.py with the
    in-process provider of fake_provider.py, connection.py, historical.py and
    service.py.

    A provider is any instance of [MarketDataProvider]; a call that exceeds its
    time limit raises [TimeoutError].  Sleeps are not modelled.  The awaits of the
    event loop are the boundaries of [service_action]: an event handed in, a turn
    of the consumer loop, a turn of the watchdog. *)

From stdpp Require Import base list strings gmap sorting.
From Stdlib Require Import ZArith QArith Lia String Ascii Lqa.
From S2P Require Import Prelude PyBase Decimal DecimalText Sql Service Market MarketData.
Open Scope Z_scope.

(** * provider.py and fake_provider.py *)

Record HistoricalRequest := {
  hr_instrument_id : UUID;
  hr_exchange : string;
  hr_symbol : string;
  hr_timeframe : option CandleTimeframe;     (* of a candles request *)
  hr_start : datetime;
  hr_end : datetime;
  hr_limit : nat;
}.

Record ProviderHealth := {
  ph_state : MdConnectionState;
  ph_authenticated : bool;
}.

(** [MarketDataProvider]; a call that exceeds its time limit raises
    [TimeoutError]. *)
Class MarketDataProvider (P : Type) := {
  mp_connect : M P unit;
  mp_disconnect : M P unit;
  mp_health : M P ProviderHealth;
  mp_subscribe : list string -> M P unit;
  mp_unsubscribe : list string -> M P unit;
  mp_fetch_candles : HistoricalRequest -> M P (list MarketCandle);
  mp_fetch_ticks : HistoricalRequest -> M P (list MarketTick);
}.

Record FakeProvider := {
  fp_connected : bool;
  fp_authenticated : bool;
  fp_subscriptions : list string;
  fp_historical_candles : list MarketCandle;
  fp_historical_ticks : list MarketTick;
  fp_connect_calls : Z;
  fp_fail_connect : bool;
  fp_fail_authenticate : bool;
}.

Definition fp_set (connected authenticated : bool) (subscriptions : list string) (calls : Z) (p : FakeProvider) : FakeProvider :=
  {| fp_connected := connected; fp_authenticated := authenticated; fp_subscriptions := subscriptions;
     fp_historical_candles := fp_historical_candles p; fp_historical_ticks := fp_historical_ticks p;
     fp_connect_calls := calls; fp_fail_connect := fp_fail_connect p; fp_fail_authenticate := fp_fail_authenticate p |}.

Definition fake_connect : M FakeProvider unit :=
  modify (fun p => fp_set (fp_connected p) (fp_authenticated p) (fp_subscriptions p) (fp_connect_calls p + 1) p) ;*
  let* p := gets id in
  if fp_fail_connect p then throw ConnectionError "connection refused"
  else
    modify (fun p => fp_set true (negb (fp_fail_authenticate p)) (fp_subscriptions p) (fp_connect_calls p) p) ;*
    if fp_fail_authenticate p then throw ProviderAuthenticationError "authentication failed" else ret tt.

Definition fake_disconnect : M FakeProvider unit :=
  modify (fun p => fp_set false false (fp_subscriptions p) (fp_connect_calls p) p).
Definition fake_subscribe (symbols : list string) : M FakeProvider unit :=
  modify (fun p => fp_set (fp_connected p) (fp_authenticated p) (list_union (fp_subscriptions p) symbols) (fp_connect_calls p) p).
Definition fake_unsubscribe (symbols : list string) : M FakeProvider unit :=
  modify (fun p => fp_set (fp_connected p) (fp_authenticated p) (list_difference (fp_subscriptions p) symbols) (fp_connect_calls p) p).

Definition fake_health : M FakeProvider ProviderHealth :=
  gets (fun p => {| ph_state := if fp_connected p then md_CONNECTED else md_DISCONNECTED;
                    ph_authenticated := fp_authenticated p |}).

(** The comprehension [[c for c in items if request.start < c.key <= request.end]]. *)
Fixpoint in_range {A} (key : A -> datetime) (start end_ : datetime) (items : list A) : res (list A) :=
  match items with
  | [] => Ok []
  | a :: rest =>
      let! after := dt_lt start (key a) in
      let! inside := (if (after : bool) then dt_le (key a) end_ else Ok false) in
      let! others := in_range key start end_ rest in
      Ok (if (inside : bool) then a :: others else others)
  end.

(** Items after [start], up to [end], ascending, at most [limit] of them. *)
Definition keyset_page {A} (key : A -> datetime) (r : HistoricalRequest) (items : list A) : res (list A) :=
  let! matching := in_range key (hr_start r) (hr_end r) items in
  Ok (take (hr_limit r) (sort_by (fun a => dt_instant (key a)) matching)).

#[export] Instance FakeMarketDataProvider : MarketDataProvider FakeProvider := {|
  mp_connect := fake_connect;
  mp_disconnect := fake_disconnect;
  mp_health := fake_health;
  mp_subscribe := fake_subscribe;
  mp_unsubscribe := fake_unsubscribe;
  mp_fetch_candles r := (fun p => (keyset_page cd_candle_start r (fp_historical_candles p), p));
  mp_fetch_ticks r := (fun p => (keyset_page tk_timestamp r (fp_historical_ticks p), p));
|}.

(** * connection.py *)

Definition backoff_delay (attempt : Z) (base max_delay : Q) : res Q :=
  raise_if (attempt <? 1) ValueError "attempt must be >= 1" ;!
  raise_if (Qle_bool base 0) ValueError "base must be > 0" ;!
  raise_if (negb (Qle_bool base max_delay)) ValueError "max_delay must be >= base" ;!
  let delay := (base * inject_Z (2 ^ (attempt - 1)))%Q in
  Ok (if Qle_bool delay max_delay then delay else max_delay).

Record ReconnectResult := {
  rr_attempts_used : Z;
  rr_succeeded : bool;
  rr_last_error : option exn;
}.

Section Reconnector.
Context {S : Type} (base_delay max_delay : Q) (connect_fn : M S unit).

(** The attempts from [attempt] on, [left] of them. *)
Fixpoint reconnect_attempts (left : nat) (attempt : Z) (last_error : option exn) : M S ReconnectResult :=
  match left with
  | O => ret {| rr_attempts_used := attempt - 1; rr_succeeded := false; rr_last_error := last_error |}
  | Datatypes.S n => fun s =>
      match connect_fn s with
      | (Ok _, s') => (Ok {| rr_attempts_used := attempt; rr_succeeded := true; rr_last_error := None |}, s')
      | (Err exc, s') =>
          if isinstance exc Exception then
            match n with
            | O => reconnect_attempts n (attempt + 1) (Some exc) s'
            | _ => match backoff_delay attempt base_delay max_delay with
                   | Ok _ => reconnect_attempts n (attempt + 1) (Some exc) s'
                   | Err e => (Err e, s')
                   end
            end
          else (Err exc, s')
      end
  end.
End Reconnector.

Record ConnectionSettings := {
  cs_max_attempts : Z;
  cs_base_delay : Q;
  cs_max_delay : Q;
  cs_heartbeat_timeout : Z;        (* microseconds *)
  cs_now : nat -> datetime;
}.

(** [HeartbeatMonitor.is_alive] *)
Definition heartbeat_alive (timeout : Z) (last_activity : option datetime) (now : datetime) : res bool :=
  match last_activity with
  | None => Ok true
  | Some last => let! silent := dt_sub now last in Ok (silent <=? timeout)
  end.

Record ConnectionManager (P : Type) := {
  mx_provider : P;
  mx_metrics : gmap string Z;
  mx_last_heartbeat : option datetime;
  mx_state : MdConnectionState;
  mx_calls : nat;
}.
Arguments mx_provider {P} _.
Arguments mx_metrics {P} _.
Arguments mx_last_heartbeat {P} _.
Arguments mx_state {P} _.
Arguments mx_calls {P} _.

Section Connection.
Context {P : Type} `{!MarketDataProvider P} (cs : ConnectionSettings).
Abbreviation MX := (ConnectionManager P).

Definition mx_with (provider : P) (metrics : gmap string Z) (heartbeat : option datetime) (state : MdConnectionState)
    (calls : nat) : MX :=
  {| mx_provider := provider; mx_metrics := metrics; mx_last_heartbeat := heartbeat; mx_state := state; mx_calls := calls |}.

Definition set_connection (state : MdConnectionState) : M MX unit :=
  modify (fun w => mx_with (mx_provider w) (mx_metrics w) (mx_last_heartbeat w) state (mx_calls w)).
Definition mx_inc (name : string) : M MX unit :=
  modify (fun w => mx_with (mx_provider w) (bump (mx_metrics w) name) (mx_last_heartbeat w) (mx_state w) (mx_calls w)).
Definition on_provider {A} (m : M P A) : M MX A :=
  zoom mx_provider (fun p w => mx_with p (mx_metrics w) (mx_last_heartbeat w) (mx_state w) (mx_calls w)) m.
Definition utc_now : M MX datetime :=
  fun w => (Ok (cs_now cs (mx_calls w)), mx_with (mx_provider w) (mx_metrics w) (mx_last_heartbeat w) (mx_state w) (S (mx_calls w))).

(** [record_heartbeat()] *)
Definition record_heartbeat : M MX unit :=
  let* now := utc_now in
  modify (fun w => mx_with (mx_provider w) (mx_metrics w) (Some now) (mx_state w) (mx_calls w)).

Definition manager_connect : M MX unit :=
  set_connection md_CONNECTING ;*
  (fun w => match on_provider mp_connect w with
            | (Ok _, w') => (Ok tt, w')
            | (Err exc, w') =>
                if isinstance exc Exception
                then (set_connection md_FAILED ;* mx_inc "connect_failures" ;* lift (Err exc)) w' else (Err exc, w')
            end) ;*
  set_connection md_CONNECTED ;*
  mx_inc "connected" ;*
  record_heartbeat.

Definition manager_disconnect : M MX unit :=
  on_provider mp_disconnect ;*
  set_connection md_CLOSED ;*
  mx_inc "disconnected".

Definition manager_reconnect : M MX bool :=
  set_connection md_RECONNECTING ;*
  mx_inc "reconnects" ;*
  try_except (on_provider mp_disconnect) (fun exc => if isinstance exc Exception then Some (ret tt) else None) ;*
  let* result := reconnect_attempts (cs_base_delay cs) (cs_max_delay cs) (on_provider mp_connect)
                   (Z.to_nat (Z.max 1 (cs_max_attempts cs))) 1 None in
  if rr_succeeded result then
    set_connection md_CONNECTED ;*
    record_heartbeat ;*
    ret true
  else
    set_connection md_FAILED ;*
    mx_inc "reconnect_failures" ;*
    ret false.

(** [is_alive()] *)
Definition manager_alive : M MX bool :=
  let* w := gets id in
  if bool_decide (mx_state w = md_CONNECTED) then
    let* now := utc_now in
    lift (heartbeat_alive (cs_heartbeat_timeout cs) (mx_last_heartbeat w) now)
  else ret false.

(** One turn of [run_monitor]. *)
Definition monitor_turn : M MX unit :=
  let* w := gets id in
  if bool_decide (mx_state w = md_CONNECTED) then
    let* now := utc_now in
    let* alive := lift (heartbeat_alive (cs_heartbeat_timeout cs) (mx_last_heartbeat w) now) in
    if (alive : bool) then ret tt
    else mx_inc "heartbeat_failures" ;* manager_reconnect ;* ret tt
  else ret tt.

Fixpoint monitor_turns (n : nat) : M MX unit :=
  match n with O => ret tt | S n => monitor_turn ;* monitor_turns n end.
End Connection.

(** * historical.py *)

Record HistoricalSettings := {
  hs_max_candles : nat;
  hs_page_size : nat;
  hs_retry_attempts : Z;
}.

Definition retryable (exc : exn) : bool :=
  isinstance exc ConnectionError || isinstance exc TimeoutError || isinstance exc OSError.

Section Historical.
Context {P : Type} `{!MarketDataProvider P} (hs : HistoricalSettings).

(** [_retry_awaitable] with [left] attempts left of [attempts]. *)
Fixpoint retry_awaitable {A} (m : M P A) (attempts : Z) (left : nat) : M P A :=
  match left with
  | O => throw HistoricalDataError ("historical fetch failed after " +:+ str_Z attempts +:+ " attempts")
  | S n => try_except m (fun exc => if retryable exc then Some (retry_awaitable m attempts n) else None)
  end.

(** The paging loop over a provider call [fetch] with the given start. *)
Fixpoint fetch_pages {A} (fetch : datetime -> M P (list A)) (key : A -> datetime) (fuel : nat) (cursor : datetime)
    (items : list A) : M P (list A) :=
  match fuel with
  | O => ret items
  | S n =>
      if (List.length items <? hs_max_candles hs)%nat then
        let attempts := Z.max 1 (hs_retry_attempts hs) in
        let* batch := retry_awaitable (fetch cursor) attempts (Z.to_nat attempts) in
        let batch := sort_by (fun a => dt_instant (key a)) batch in
        match last batch with
        | None => ret items
        | Some final =>
            let* stuck := lift (dt_le (key final) cursor) in
            if (stuck : bool) then ret (items ++ batch)
            else fetch_pages fetch key n (key final) (items ++ batch)
        end
      else ret items
  end.

Definition fetch_all {A} (fetch : HistoricalRequest -> M P (list A)) (key : A -> datetime) (instrument_id : UUID)
    (exchange symbol : string) (timeframe : option CandleTimeframe) (start end_ : datetime) : M P (list A) :=
  let* empty := lift (dt_le end_ start) in
  lift (raise_if empty ValueError "end must be after start") ;*
  let request cursor :=
    {| hr_instrument_id := instrument_id; hr_exchange := exchange; hr_symbol := symbol; hr_timeframe := timeframe;
       hr_start := cursor; hr_end := end_; hr_limit := hs_page_size hs |} in
  let* items := fetch_pages (fun cursor => fetch (request cursor)) key (S (hs_max_candles hs)) start [] in
  ret (take (hs_max_candles hs) items).

Definition fetch_candles (instrument_id : UUID) (exchange symbol : string) (timeframe : CandleTimeframe)
    (start end_ : datetime) : M P (list MarketCandle) :=
  fetch_all mp_fetch_candles cd_candle_start instrument_id exchange symbol (Some timeframe) start end_.
Definition fetch_ticks (instrument_id : UUID) (exchange symbol : string) (start end_ : datetime) : M P (list MarketTick) :=
  fetch_all mp_fetch_ticks tk_timestamp instrument_id exchange symbol None start end_.
End Historical.

(** * service.py *)

Record MarketDataService (DB P : Type) := {
  sd_connection : ConnectionManager P;
  sd_engine : MdEngine DB;
  sd_symbols : list string;
  sd_handler_set : bool;         (* the provider calls [_on_event] *)
  sd_engine_task : bool;         (* the consumer loop runs *)
  sd_monitor_task : bool;        (* the watchdog runs *)
}.
Arguments sd_connection {DB P} _.
Arguments sd_engine {DB P} _.
Arguments sd_symbols {DB P} _.
Arguments sd_handler_set {DB P} _.
Arguments sd_engine_task {DB P} _.
Arguments sd_monitor_task {DB P} _.

(** Durations in microseconds, the reconnection delays in seconds. *)
Record MarketDataServiceConfig := {
  mc_provider_name : string;
  mc_symbols : list string;
  mc_queue_size : Z;
  mc_drop_policy : string;
  mc_max_age : Z;
  mc_reconnect_max_attempts : Z;
  mc_reconnect_base_delay : Q;
  mc_reconnect_max_delay : Q;
  mc_heartbeat_timeout : Z;
  mc_dedupe_maxsize : Z;
}.

Definition new_provider : FakeProvider :=
  {| fp_connected := false; fp_authenticated := false; fp_subscriptions := []; fp_historical_candles := [];
     fp_historical_ticks := []; fp_connect_calls := 0; fp_fail_connect := false; fp_fail_authenticate := false |}.

Definition build_provider (provider_name : string) : res FakeProvider :=
  if String.eqb provider_name "fake" then Ok new_provider
  else raise ValueError ("unknown market-data provider: " +:+ py_repr provider_name).

Section Service.
Context {DB P : Type} `{!Session DB MarketRow market_constraint} `{!MarketDataProvider P}.
Context (es : EngineSettings) (cs : ConnectionSettings).
Abbreviation MS := (MarketDataService DB P).

Definition in_connection {A} (m : M (ConnectionManager P) A) : M MS A :=
  zoom sd_connection (fun c w => {| sd_connection := c; sd_engine := sd_engine w; sd_symbols := sd_symbols w;
                                    sd_handler_set := sd_handler_set w; sd_engine_task := sd_engine_task w;
                                    sd_monitor_task := sd_monitor_task w |}) m.
Definition in_engine {A} (m : M (MdEngine DB) A) : M MS A :=
  zoom sd_engine (fun e w => {| sd_connection := sd_connection w; sd_engine := e; sd_symbols := sd_symbols w;
                                sd_handler_set := sd_handler_set w; sd_engine_task := sd_engine_task w;
                                sd_monitor_task := sd_monitor_task w |}) m.
Definition set_tasks (handler engine_task monitor_task : bool) : M MS unit :=
  modify (fun w => {| sd_connection := sd_connection w; sd_engine := sd_engine w; sd_symbols := sd_symbols w;
                      sd_handler_set := handler; sd_engine_task := engine_task; sd_monitor_task := monitor_task |}).

Definition service_start : M MS unit :=
  in_connection (manager_connect cs) ;*
  let* w := gets id in
  set_tasks true (sd_engine_task w) (sd_monitor_task w) ;*
  (match sd_symbols w with [] => ret tt | symbols => in_connection (on_provider (mp_subscribe symbols)) end) ;*
  set_tasks true true true.

(** [_on_event] *)
Definition on_event (e : RawMarketEvent) : M MS unit :=
  in_connection (record_heartbeat cs) ;*
  in_engine (enqueue e) ;*
  ret tt.

Definition service_stop : M MS unit :=
  let* w := gets id in
  set_tasks (sd_handler_set w) false false ;*
  in_connection manager_disconnect.

(** A task that raises is over; its exception stays in the task. *)
Definition task_turn {A} (running : MS -> bool) (over : M MS unit) (m : M MS A) : M MS unit :=
  fun w => if running w then
             match m w with (Ok _, w') => (Ok tt, w') | (Err _, w') => over w' end
           else (Ok tt, w).

(** What the event loop interleaves. *)
Inductive service_action := act_event (e : RawMarketEvent) | act_consume | act_monitor.

Definition service_act (a : service_action) : M MS unit :=
  match a with
  | act_event e => let* w := gets id in if sd_handler_set w then on_event e else ret tt
  | act_consume =>
      task_turn sd_engine_task (let* w := gets id in set_tasks (sd_handler_set w) false (sd_monitor_task w))
        (in_engine (consume_one es))
  | act_monitor =>
      task_turn sd_monitor_task (let* w := gets id in set_tasks (sd_handler_set w) (sd_engine_task w) false)
        (in_connection (monitor_turn cs))
  end.

Fixpoint service_acts (l : list service_action) : M MS unit :=
  match l with [] => ret tt | a :: rest => service_act a ;* service_acts rest end.

(** [build_market_data_service]; [fromisoformat], [lax_int] and the two clocks
    are the library's. *)
Definition build_market_data_service (config : MarketDataServiceConfig) (repository : option DB) (clock now : nat -> datetime)
    (fromisoformat : string -> res datetime) (lax_int : raw_value -> option Z)
    : res (EngineSettings * ConnectionSettings * MarketDataService DB FakeProvider) :=
  let! provider := build_provider (mc_provider_name config) in
  let! built := new_market_data_engine repository None (mc_max_age config) (mc_queue_size config) (mc_drop_policy config)
                  true clock None (mc_dedupe_maxsize config) fromisoformat lax_int in
  let '(settings, engine) := (built : EngineSettings * MdEngine DB) in
  raise_if (mc_heartbeat_timeout config <=? 0) ValueError "timeout_seconds must be > 0" ;!
  Ok (settings,
      {| cs_max_attempts := mc_reconnect_max_attempts config; cs_base_delay := mc_reconnect_base_delay config;
         cs_max_delay := mc_reconnect_max_delay config; cs_heartbeat_timeout := mc_heartbeat_timeout config; cs_now := now |},
      {| sd_connection := {| mx_provider := provider; mx_metrics := ∅; mx_last_heartbeat := None;
                             mx_state := md_DISCONNECTED; mx_calls := 0 |};
         sd_engine := engine; sd_symbols := mc_symbols config; sd_handler_set := false;
         sd_engine_task := false; sd_monitor_task := false |}).
End Service.

(** * Paging *)

Section Paging.
Context {A : Type} (key : A -> datetime).
Abbreviation at_ := (fun a => dt_instant (key a)).

Definition ranged (start end_ : datetime) (a : A) : bool :=
  (dt_instant start <? at_ a) && (at_ a <=? dt_instant end_).

(** The specification: everything in the range, ascending. *)
Definition all_in_range (start end_ : datetime) (l : list A) : list A :=
  sort_by at_ (filter (fun a => ranged start end_ a = true) l).

Lemma in_range_aware start end_ l : dt_aware start = true -> dt_aware end_ = true ->
  Forall (fun a => dt_aware (key a) = true) l ->
  in_range key start end_ l = Ok (filter (fun a => ranged start end_ a = true) l).
Proof.
  intros Hs He H. induction H as [|a l Ha Hl IH]; [done|]. cbn [in_range].
  unfold dt_lt, dt_le, dt_cmp, dt_comparable. rewrite Hs, He, Ha, IH. cbn [rbind eqb].
  destruct (dt_instant start <? at_ a) eqn:E1; cbn [rbind].
  - destruct (at_ a <=? dt_instant end_) eqn:E2.
    + rewrite filter_cons_True by (unfold ranged; by rewrite E1, E2). done.
    + rewrite filter_cons_False by (unfold ranged; by rewrite E1, E2). done.
  - rewrite filter_cons_False by (unfold ranged; by rewrite E1). done.
Qed.

(** Lists sorted by distinct instants are determined by their elements. *)
Lemma sorted_by_unique (l1 l2 : list A) : NoDup (at_ <$> l1) -> l1 ≡ₚ l2 ->
  StronglySorted (fun a b => at_ a <= at_ b) l1 -> StronglySorted (fun a b => at_ a <= at_ b) l2 -> l1 = l2.
Proof.
  intros Hnd Hp H1 H2. eapply (StronglySorted_unique_strong (fun a b => at_ a <= at_ b)); [|done..].
  intros x y Hx Hy Hxy Hyx. rewrite <- Hp in Hy.
  apply list_elem_of_lookup in Hx as [i Hi]. apply list_elem_of_lookup in Hy as [j Hj].
  assert (i = j) as ->; [|congruence]. eapply NoDup_lookup; [exact Hnd| |]; rewrite list_lookup_fmap.
  - by rewrite Hi.
  - rewrite Hj. cbn. f_equal. lia.
Qed.

Lemma StronglySorted_filter (R : A -> A -> Prop) (P : A -> Prop) `{!forall a, Decision (P a)} l :
  StronglySorted R l -> StronglySorted R (filter P l).
Proof.
  intros Hs. induction Hs as [|a l Hl IH Ha]; [constructor|]. destruct (decide (P a)).
  - rewrite filter_cons_True by done. constructor; [done|]. apply Forall_forall. intros x Hx.
    apply list_elem_of_filter in Hx as [_ Hx]. rewrite Forall_forall in Ha. auto.
  - by rewrite filter_cons_False by done.
Qed.

Lemma NoDup_fmap_filter (P : A -> Prop) `{!forall a, Decision (P a)} (l : list A) : NoDup (at_ <$> l) -> NoDup (at_ <$> filter P l).
Proof.
  intros Hd. induction l as [|a l IH]; [done|]. rewrite fmap_cons in Hd. apply NoDup_cons in Hd as [Hn Hd].
  destruct (decide (P a)); [rewrite filter_cons_True by done|rewrite filter_cons_False by done; auto].
  rewrite fmap_cons. apply NoDup_cons. split; [|auto]. intros Hin. apply Hn.
  apply list_elem_of_fmap in Hin as (x & -> & Hx). apply list_elem_of_filter in Hx as [_ Hx].
  apply list_elem_of_fmap. eauto.
Qed.

(** Past a cursor: the rest of the range. *)
Lemma range_after start end_ cursor l : NoDup (at_ <$> l) -> dt_instant start <= dt_instant cursor ->
  all_in_range cursor end_ l = filter (fun a => dt_instant cursor < at_ a) (all_in_range start end_ l).
Proof.
  intros Hnd Hle. apply sorted_by_unique.
  - unfold all_in_range. rewrite sort_by_perm. by apply NoDup_fmap_filter.
  - unfold all_in_range. rewrite !sort_by_perm, list_filter_filter.
    match goal with |- ?x ≡ₚ ?y => enough (x = y) as -> by done end. apply list_filter_iff. intros a. unfold ranged. rewrite !andb_true_iff, !Z.ltb_lt, !Z.leb_le. lia.
  - apply sort_by_sorted.
  - apply StronglySorted_filter, sort_by_sorted.
Qed.

Lemma filter_every (P : A -> Prop) `{!forall a, Decision (P a)} (l : list A) : Forall P l -> filter P l = l.
Proof. intros Hl. induction Hl as [|a l Ha _ IH]; [done|]. by rewrite filter_cons_True, IH. Qed.

(** A strictly ascending list is cut by the instant of one of its elements. *)
Lemma filter_after_nth (l : list A) : forall n x, StronglySorted (fun a b => at_ a <= at_ b) l -> NoDup (at_ <$> l) ->
  l !! n = Some x -> filter (fun a => at_ x < at_ a) l = drop (S n) l.
Proof.
  induction l as [|a l IH]; intros n x Hs Hnd Hx; [done|].
  apply StronglySorted_inv in Hs as [Hs Ha]. rewrite Forall_forall in Ha.
  rewrite fmap_cons in Hnd. apply NoDup_cons in Hnd as [Hn Hnd]. destruct n as [|n]; cbn in Hx.
  - injection Hx as <-. rewrite filter_cons_False by (cbn beta; lia). cbn [drop]. apply filter_every, Forall_forall. intros y Hy.
    assert (at_ a <> at_ y) by (intros E; apply Hn; rewrite E; by apply (list_elem_of_fmap_2 at_)).
    specialize (Ha _ Hy). cbn beta in *. lia.
  - rewrite filter_cons_False; [by apply IH|]. specialize (Ha x (list_elem_of_lookup_2 _ _ _ Hx)). cbn beta in *. lia.
Qed.

Lemma all_in_range_in start end_ l a : a ∈ all_in_range start end_ l -> a ∈ l /\ ranged start end_ a = true.
Proof. unfold all_in_range. rewrite sort_by_perm, list_elem_of_filter. tauto. Qed.

Lemma all_in_range_nodup start end_ l : NoDup (at_ <$> l) -> NoDup (at_ <$> all_in_range start end_ l).
Proof. intros Hd. unfold all_in_range. rewrite sort_by_perm. by apply NoDup_fmap_filter. Qed.

Lemma all_in_range_sorted start end_ l : StronglySorted (fun a b => at_ a <= at_ b) (all_in_range start end_ l).
Proof. apply sort_by_sorted. Qed.

(** Where the loop stands after [n] items. *)
Definition cursor_at (start : datetime) (full : list A) (n : nat) (cursor : datetime) : Prop :=
  match n with O => cursor = start | S m => exists x, full !! m = Some x /\ cursor = key x end.

Lemma rest_of_range start end_ l n cursor : NoDup (at_ <$> l) -> cursor_at start (all_in_range start end_ l) n cursor ->
  all_in_range cursor end_ l = drop n (all_in_range start end_ l).
Proof.
  intros Hd Hc. destruct n as [|n]; [by rewrite Hc|]. destruct Hc as (x & Hx & ->).
  pose proof (all_in_range_in _ _ _ _ (list_elem_of_lookup_2 _ _ _ Hx)) as [_ Hr].
  rewrite (range_after start) by (try done; unfold ranged in Hr; apply andb_true_iff in Hr as [Hr _]; apply Z.ltb_lt in Hr; lia).
  by rewrite (filter_after_nth _ n x (all_in_range_sorted _ _ _) (all_in_range_nodup _ _ _ Hd) Hx).
Qed.

Lemma StronglySorted_sub (R : A -> A -> Prop) n m l : StronglySorted R l -> StronglySorted R (take m (drop n l)).
Proof.
  intros Hs. assert (StronglySorted R (drop n l)) as Hd.
  { rewrite <- (take_drop n l) in Hs. revert Hs. generalize (take n l) as l1. induction l1 as [|a l1 IH]; [done|].
    intros Hs. apply StronglySorted_inv in Hs as [Hs _]. auto. }
  revert m. induction Hd as [|a l' Hl IH Ha]; intros m; [destruct m; constructor|]. destruct m; cbn; constructor; [apply IH|].
  by apply Forall_take.
Qed.

Lemma page_is_next start end_ l n limit cursor : NoDup (at_ <$> l) -> cursor_at start (all_in_range start end_ l) n cursor ->
  sort_by at_ (take limit (all_in_range cursor end_ l)) = take limit (drop n (all_in_range start end_ l)).
Proof.
  intros Hd Hc. rewrite (rest_of_range _ _ _ _ _ Hd Hc). symmetry. apply sorted_by_unique.
  - rewrite fmap_take, fmap_drop. pose proof (all_in_range_nodup start end_ l Hd) as Hn.
    rewrite <- (take_drop n) in Hn. apply NoDup_app in Hn as (_ & _ & Hn).
    rewrite <- (take_drop limit) in Hn. by apply NoDup_app in Hn as (Hn & _ & _).
  - by rewrite sort_by_perm.
  - apply StronglySorted_sub, all_in_range_sorted.
  - apply sort_by_sorted.
Qed.
End Paging.

Section PagingLoop.
Context {P : Type} `{!MarketDataProvider P} (hs : HistoricalSettings).
Context {A : Type} (key : A -> datetime) (fetch : datetime -> M P (list A)) (start end_ : datetime) (l : list A) (p : P).
Abbreviation at_ := (fun a => dt_instant (key a)).
Abbreviation full := (all_in_range key start end_ l).

(** The provider answers a cursor with the next items of [l], and items have
    distinct, aware times. *)
Context (Hstart : dt_aware start = true) (Haware : Forall (fun a => dt_aware (key a) = true) l) (Hdistinct : NoDup (at_ <$> l)).
Context (Hpage : (1 <= hs_page_size hs)%nat).
Context (Hfetch : forall cursor, dt_aware cursor = true ->
  fetch cursor p = (Ok (take (hs_page_size hs) (all_in_range key cursor end_ l)), p)).

Lemma retry_first cursor : dt_aware cursor = true -> let attempts := Z.max 1 (hs_retry_attempts hs) in
  retry_awaitable (fetch cursor) attempts (Z.to_nat attempts) p = (Ok (take (hs_page_size hs) (all_in_range key cursor end_ l)), p).
Proof.
  intros Hc attempts. destruct (Z.to_nat attempts) as [|n] eqn:E; [lia|]. cbn [retry_awaitable]. unfold try_except. by rewrite Hfetch.
Qed.

Lemma cursor_aware n cursor : cursor_at key start full n cursor -> dt_aware cursor = true.
Proof.
  destruct n as [|n]; [by intros ->|]. intros (x & Hx & ->).
  pose proof (all_in_range_in _ _ _ _ _ (list_elem_of_lookup_2 _ _ _ Hx)) as [Hin _]. rewrite Forall_forall in Haware. auto.
Qed.

(** The last item of a page is later than the cursor. *)
Lemma page_advances n cursor final : cursor_at key start full n cursor ->
  last (take (hs_page_size hs) (drop n full)) = Some final ->
  dt_le (key final) cursor = Ok false /\
  cursor_at key start full (n + List.length (take (hs_page_size hs) (drop n full))) (key final).
Proof.
  intros Hc Hl. rewrite last_lookup in Hl. set (page := take (hs_page_size hs) (drop n full)) in *.
  assert (List.length page <> 0)%nat as Hne by (intros E; apply nil_length_inv in E; by rewrite E in Hl).
  pose proof Hl as Hl'. unfold page in Hl'. apply lookup_take_Some in Hl' as [Hf _]. fold page in Hf.
  assert (final ∈ all_in_range key cursor end_ l) as Hin.
  { rewrite (rest_of_range key start end_ l n cursor Hdistinct Hc). by eapply list_elem_of_lookup_2. }
  apply all_in_range_in in Hin as [Hin Hr]. split.
  - unfold dt_le, dt_cmp, dt_comparable. rewrite (cursor_aware _ _ Hc). rewrite Forall_forall in Haware. rewrite (Haware _ Hin).
    cbn [eqb]. f_equal. apply Z.leb_gt. unfold ranged in Hr. apply andb_true_iff in Hr as [Hr _]. by apply Z.ltb_lt in Hr.
  - rewrite lookup_drop in Hf. replace (n + List.length page)%nat with (S (n + pred (List.length page)))%nat by lia.
    exists final. done.
Qed.

(** The loop returns the first [max_candles] items of the range; [S max_candles]
    rounds are enough. *)
Lemma pages_spec fuel : forall n cursor, (n <= List.length full)%nat -> cursor_at key start full n cursor ->
  (S (hs_max_candles hs) <= fuel + n)%nat ->
  exists items, fetch_pages hs fetch key fuel cursor (take n full) p = (Ok items, p) /\
    take (hs_max_candles hs) items = take (hs_max_candles hs) full.
Proof.
  induction fuel as [|fuel IH]; intros n cursor Hn Hc Hf; cbn [fetch_pages].
  - exists (take n full). split; [done|]. rewrite take_take. f_equal. lia.
  - rewrite length_take_le by done. destruct (Nat.ltb_spec n (hs_max_candles hs)) as [Hlt|Hge].
    2: { exists (take n full). split; [done|]. rewrite take_take. f_equal. lia. }
    unfold bind at 1. rewrite (retry_first cursor (cursor_aware _ _ Hc)). cbn beta iota.
    rewrite (page_is_next key start end_ l n (hs_page_size hs) cursor Hdistinct Hc).
    set (page := take (hs_page_size hs) (drop n full)). destruct (last page) as [final|] eqn:El.
    + destruct (page_advances n cursor final Hc El) as [Hle Hc']. fold page in Hc'.
      unfold bind at 1, lift. rewrite Hle. cbn beta iota.
      assert (take n full ++ page = take (n + List.length page) full) as ->.
      { unfold page. rewrite length_take, length_drop. rewrite <- (take_take_drop full n). f_equal.
        destruct (Nat.le_gt_cases (hs_page_size hs) (List.length full - n)); [f_equal; lia|].
        rewrite !take_ge; try done; rewrite length_drop; lia. }
      assert (List.length page <> 0)%nat as Hne by (intros E; apply nil_length_inv in E; by rewrite E in El).
      apply IH; [|done|lia]. unfold page. rewrite length_take, length_drop. lia.
    + exists (take n full). split; [done|]. apply last_None in El. unfold page in El. apply (f_equal List.length) in El.
      rewrite length_take, length_drop in El. cbn in El. rewrite (take_ge full n) by lia. done.
Qed.
End PagingLoop.

Section HistoricalTheorems.
Context (hs : HistoricalSettings).

Lemma keyset_page_aware {A} (key : A -> datetime) r items : dt_aware (hr_start r) = true -> dt_aware (hr_end r) = true ->
  Forall (fun a => dt_aware (key a) = true) items ->
  keyset_page key r items = Ok (take (hr_limit r) (all_in_range key (hr_start r) (hr_end r) items)).
Proof. intros Hs He Ha. unfold keyset_page. by rewrite in_range_aware. Qed.

Lemma fetch_all_spec {A} (key : A -> datetime) (items : FakeProvider -> list A) (fetch : HistoricalRequest -> M FakeProvider (list A))
    instrument_id exchange symbol timeframe start end_ p :
  (forall r q, fetch r q = (keyset_page key r (items q), q)) ->
  dt_aware start = true -> dt_aware end_ = true -> dt_instant start < dt_instant end_ -> (1 <= hs_page_size hs)%nat ->
  Forall (fun a => dt_aware (key a) = true) (items p) -> NoDup ((fun a => dt_instant (key a)) <$> items p) ->
  fetch_all hs fetch key instrument_id exchange symbol timeframe start end_ p =
    (Ok (take (hs_max_candles hs) (all_in_range key start end_ (items p))), p).
Proof.
  intros Hfetch Hs He Hlt Hpage Haw Hnd. unfold fetch_all. unfold bind at 1, lift at 1.
  unfold dt_le, dt_cmp, dt_comparable. rewrite Hs, He. cbn [eqb].
  destruct (Z.leb_spec (dt_instant end_) (dt_instant start)); [lia|]. cbn beta iota. unfold bind at 1, lift at 1. cbn [raise_if].
  match goal with |- context [fetch_pages hs ?f key _ _ _] => set (page := f) end.
  destruct (pages_spec hs key page start end_ (items p) p Hs Haw Hnd Hpage) with (fuel := S (hs_max_candles hs)) (n := O) (cursor := start)
    as (got & Hgot & Htake); [|lia|done|lia|].
  - intros cursor Hc. unfold page. rewrite Hfetch, keyset_page_aware by done. done.
  - rewrite take_0 in Hgot. unfold bind. rewrite Hgot. cbn. by rewrite Htake.
Qed.

(** paging is transparent: with a provider that pages by time, and items of
    distinct times, the historical client returns the first [max_candles] items
    of the range, in time order, none lost and none repeated at the page
    boundaries, for every positive page size; the loop always ends. *)
Theorem paging_transparent instrument_id exchange symbol timeframe start end_ (p : FakeProvider) :
  dt_aware start = true -> dt_aware end_ = true -> dt_instant start < dt_instant end_ -> (1 <= hs_page_size hs)%nat ->
  Forall (fun c => dt_aware (cd_candle_start c) = true) (fp_historical_candles p) ->
  NoDup ((fun c => dt_instant (cd_candle_start c)) <$> fp_historical_candles p) ->
  Forall (fun t => dt_aware (tk_timestamp t) = true) (fp_historical_ticks p) ->
  NoDup ((fun t => dt_instant (tk_timestamp t)) <$> fp_historical_ticks p) ->
  fetch_candles hs instrument_id exchange symbol timeframe start end_ p =
    (Ok (take (hs_max_candles hs) (all_in_range cd_candle_start start end_ (fp_historical_candles p))), p) /\
  fetch_ticks hs instrument_id exchange symbol start end_ p =
    (Ok (take (hs_max_candles hs) (all_in_range tk_timestamp start end_ (fp_historical_ticks p))), p).
Proof.
  intros Hs He Hlt Hpage Hc1 Hc2 Ht1 Ht2. split; [by apply fetch_all_spec with (items := fp_historical_candles)|].
  by apply fetch_all_spec with (items := fp_historical_ticks).
Qed.

(** A retried call ends with a result, an error that is not transient, or
    [HistoricalDataError]. *)
Lemma retry_errors {P A} `{!MarketDataProvider P} (m : M P A) attempts n s e s' :
  retry_awaitable m attempts n s = (Err e, s') -> retryable e = false.
Proof.
  revert s. induction n as [|n IH]; intros s; cbn [retry_awaitable].
  - by intros [= <- _].
  - unfold try_except. destruct (m s) as [[a|e'] s1]; [done|]. destruct (retryable e') eqn:E; [apply IH|]. by intros [= <- _].
Qed.
End HistoricalTheorems.

(** * The connection *)

Section ConnectionTheorems.
Context {P : Type} `{!MarketDataProvider P} (cs : ConnectionSettings).
Abbreviation MX := (ConnectionManager P).

Lemma backoff_bounds attempt base max_delay d : backoff_delay attempt base max_delay = Ok d ->
  (base <= d)%Q /\ (d <= max_delay)%Q.
Proof.
  unfold backoff_delay. intros H. res_inv.
  assert (Ha : 1 <= attempt) by (apply Z.ltb_ge; assumption).
  assert (Hb : (0 < base)%Q).
  { apply Qnot_le_lt. intros Hc. apply Qle_bool_iff in Hc. congruence. }
  assert (Hm : (base <= max_delay)%Q) by (apply Qle_bool_iff; by apply negb_false_iff).
  assert (Hp : (1 <= inject_Z (2 ^ (attempt - 1)))%Q).
  { change 1%Q with (inject_Z 1). rewrite <- Zle_Qle. pose proof (Z.pow_pos_nonneg 2 (attempt - 1)). lia. }
  match goal with |- context [if ?b then _ else _] => destruct b eqn:Ed end.
  - apply Qle_bool_iff in Ed. split; [|done]. rewrite <- (Qmult_1_r base) at 1.
    rewrite !(Qmult_comm base). apply Qmult_le_compat_r; [done|]. by apply Qlt_le_weak.
  - split; [done|apply Qle_refl].
Qed.

(** The delays are configured. *)
Definition delays_ok : Prop := (0 < cs_base_delay cs)%Q /\ (cs_base_delay cs <= cs_max_delay cs)%Q.

Lemma backoff_total attempt : delays_ok -> 1 <= attempt -> exists d, backoff_delay attempt (cs_base_delay cs) (cs_max_delay cs) = Ok d.
Proof.
  intros [H1 H2] Ha. unfold backoff_delay. destruct (Z.ltb_spec attempt 1); [lia|].
  destruct (Qle_bool (cs_base_delay cs) 0) eqn:E; [apply Qle_bool_iff in E; exfalso; by apply (Qlt_not_le _ _ H1)|].
  rewrite (proj2 (Qle_bool_iff _ _) H2). cbn. eauto.
Qed.

(** A provider's failures are exceptions. *)
Definition provider_raises : Prop := forall s e s', mp_connect (P:=P) s = (Err e, s') -> isinstance e Exception = true.
Definition disconnect_raises : Prop := forall s e s', mp_disconnect (P:=P) s = (Err e, s') -> isinstance e Exception = true.

(** The provider's states over the failed connection attempts. *)
Fixpoint failed_attempts (n : nat) (s s' : P) : Prop :=
  match n with
  | O => s' = s
  | S n => exists e s1, mp_connect s = (Err e, s1) /\ failed_attempts n s1 s'
  end.

Definition with_provider (s : P) (w : MX) : MX := mx_with s (mx_metrics w) (mx_last_heartbeat w) (mx_state w) (mx_calls w).

Lemma attempts_spec left : forall attempt err (w : MX), delays_ok -> provider_raises -> 1 <= attempt ->
  exists r s', reconnect_attempts (cs_base_delay cs) (cs_max_delay cs) (on_provider mp_connect) left attempt err w =
    (Ok r, with_provider s' w) /\
    (if rr_succeeded r
     then exists n s, (n < left)%nat /\ failed_attempts n (mx_provider w) s /\ mp_connect s = (Ok tt, s') /\
          rr_attempts_used r = attempt + Z.of_nat n
     else failed_attempts left (mx_provider w) s' /\ rr_attempts_used r = attempt + Z.of_nat left - 1).
Proof.
  induction left as [|n IH]; intros attempt err w Hd Hp Ha; cbn [reconnect_attempts].
  - eexists _, (mx_provider w). split; [by destruct w|]. cbn. split; [done|lia].
  - unfold on_provider at 1, zoom. destruct (mp_connect (mx_provider w)) as [[[]|e] s1] eqn:E; cbn beta iota.
    + eexists _, s1. split; [done|]. cbn. exists O, (mx_provider w). split_and!; [lia|done|done|lia].
    + rewrite (Hp _ _ _ E).
      destruct (IH (attempt + 1) (Some e) (with_provider s1 w) Hd Hp) as (r & s' & Hr & Hres); [lia|].
      exists r, s'. split.
      * destruct n as [|n]; [exact Hr|]. destruct (backoff_total attempt Hd Ha) as [d ->]. exact Hr.
      * destruct (rr_succeeded r).
        -- destruct Hres as (k & s & Hk & Hf & Hc & Hu). exists (S k), s. split_and!; [lia| |done|lia]. exists e, s1. done.
        -- destruct Hres as [Hf Hu]. split; [|lia]. exists e, s1. done.
Qed.

(** A reconnection tears the connection down and then tries to connect, at
    most [max(1, max_attempts)] times and never after a success: it answers true,
    the state is CONNECTED and the heartbeat is restarted, after fewer failures
    than that, or it answers false and the state is FAILED after exactly that many;
    it never raises. *)
Lemma reconnect_bounded (w : MX) : delays_ok -> provider_raises -> disconnect_raises ->
  let attempts := Z.to_nat (Z.max 1 (cs_max_attempts cs)) in
  exists ok w', manager_reconnect cs w = (Ok ok, w') /\
    (if (ok : bool)
     then mx_state w' = md_CONNECTED /\ mx_last_heartbeat w' = Some (cs_now cs (mx_calls w)) /\
          exists n s, (n < attempts)%nat /\ failed_attempts n (snd (mp_disconnect (mx_provider w))) s /\
                      mp_connect s = (Ok tt, mx_provider w')
     else mx_state w' = md_FAILED /\ failed_attempts attempts (snd (mp_disconnect (mx_provider w))) (mx_provider w')).
Proof.
  intros Hd Hp Hx attempts. unfold manager_reconnect. unfold bind at 1, set_connection at 1, modify at 1. cbn beta iota.
  unfold bind at 1, mx_inc at 1, modify at 1. cbn beta iota. unfold bind at 1, try_except, on_provider at 1, zoom.
  cbn [mx_provider mx_with].
  destruct (mp_disconnect (mx_provider w)) as [r s1] eqn:E.
  match goal with |- context [bind (reconnect_attempts _ _ _ _ _ _) ?k] => set (rest := k) end.
  set (w1 := mx_with s1 (bump (mx_metrics w) "reconnects") (mx_last_heartbeat w) md_RECONNECTING (mx_calls w)).
  destruct (attempts_spec attempts 1 None w1 Hd Hp) as (res & s' & Hr & Hres); [lia|].
  assert (exists ok w', bind (reconnect_attempts (cs_base_delay cs) (cs_max_delay cs) (on_provider mp_connect) attempts 1 None) rest w1
    = (Ok ok, w') /\
    (if (ok : bool)
     then mx_state w' = md_CONNECTED /\ mx_last_heartbeat w' = Some (cs_now cs (mx_calls w)) /\
          exists n s, (n < attempts)%nat /\ failed_attempts n s1 s /\ mp_connect s = (Ok tt, mx_provider w')
     else mx_state w' = md_FAILED /\ failed_attempts attempts s1 (mx_provider w'))) as Hgoal.
  { unfold bind at 1. rewrite Hr. unfold rest. destruct (rr_succeeded res).
    - destruct Hres as (n & s & Hn & Hf & Hc & _). eexists true, _. split; [reflexivity|]. cbn. split_and!; [done..|]. eauto.
    - destruct Hres as [Hf _]. eexists false, _. split; [reflexivity|]. done. }
  destruct r as [[]|e]; [exact Hgoal|]. rewrite (Hx _ _ _ E). exact Hgoal.
Qed.

(** The watchdog leaves every state but CONNECTED alone. *)
Lemma monitor_idle (w : MX) : mx_state w <> md_CONNECTED -> monitor_turn cs w = (Ok tt, w).
Proof. intros H. unfold monitor_turn, bind, gets. cbn beta iota. unfold id. by rewrite bool_decide_false. Qed.

(** a turn of the watchdog.  It acts on a connection that is CONNECTED and
    silent for longer than the timeout, and on no other: it counts a heartbeat
    failure, tears the connection down and tries to connect, at most
    [max(1, max_attempts)] times and never after a success.  Afterwards the state
    is CONNECTED with a heartbeat of this turn, or FAILED after exactly that many
    failures; the turn never raises. *)
Theorem watchdog_turn (w : MX) : delays_ok -> provider_raises -> disconnect_raises -> (forall n, dt_aware (cs_now cs n) = true) ->
  (forall h, mx_last_heartbeat w = Some h -> dt_aware h = true) ->
  let silent := match mx_last_heartbeat w with
                | Some h => cs_heartbeat_timeout cs <? dt_instant (cs_now cs (mx_calls w)) - dt_instant h
                | None => false
                end in
  let attempts := Z.to_nat (Z.max 1 (cs_max_attempts cs)) in
  exists w', monitor_turn cs w = (Ok tt, w') /\
    (if bool_decide (mx_state w = md_CONNECTED) && silent then
       exists n s, failed_attempts n (snd (mp_disconnect (mx_provider w))) s /\
         (mx_state w' = md_CONNECTED /\ (n < attempts)%nat /\ mp_connect s = (Ok tt, mx_provider w') /\
            mx_last_heartbeat w' = Some (cs_now cs (S (mx_calls w)))
          \/ mx_state w' = md_FAILED /\ n = attempts /\ mx_provider w' = s)
     else mx_state w' = mx_state w /\ mx_provider w' = mx_provider w /\ mx_metrics w' = mx_metrics w /\
          mx_last_heartbeat w' = mx_last_heartbeat w).
Proof.
  intros Hd Hp Hx Hn Hh silent attempts. case_bool_decide as Hc; [|exists w; by rewrite monitor_idle].
  unfold monitor_turn. unfold bind at 1, gets, id. cbn beta iota. rewrite bool_decide_true by done.
  unfold bind at 1, utc_now. cbn beta iota. unfold bind at 1, lift, heartbeat_alive, silent.
  destruct (mx_last_heartbeat w) as [h|] eqn:Eh; [|by eexists].
  unfold dt_sub, dt_comparable. rewrite Hn, (Hh h eq_refl). cbn [Bool.eqb eqb rbind andb]. cbv beta iota.
  rewrite Z.leb_antisym. destruct (cs_heartbeat_timeout cs <? _) eqn:Es; cbn [negb]; [|by eexists].
  unfold bind at 1, mx_inc, modify. cbn beta iota. unfold bind.
  match goal with |- context [manager_reconnect cs ?x] => destruct (reconnect_bounded x Hd Hp Hx) as (ok & w' & Hr & Hres); rewrite Hr end.
  exists w'. split; [done|]. destruct ok.
  - destruct Hres as (H1 & H2 & n & s & H3 & H4 & H5). exists n, s. split; [done|]. by left.
  - destruct Hres as [H1 H2]. exists attempts, (mx_provider w'). split; [done|]. by right.
Qed.
End ConnectionTheorems.

(** * The service *)

Section ServiceTheorems.
Context {DB P : Type} `{!Session DB MarketRow market_constraint} `{!MarketDataProvider P}.
Context (es : EngineSettings) (cs : ConnectionSettings).
Abbreviation MS := (MarketDataService DB P).

Lemma in_connection_run {A} (m : M (ConnectionManager P) A) (w : MS) :
  sd_engine (snd (in_connection m w)) = sd_engine w /\ sd_engine_task (snd (in_connection m w)) = sd_engine_task w /\
  sd_connection (snd (in_connection m w)) = snd (m (sd_connection w)) /\ fst (in_connection m w) = fst (m (sd_connection w)).
Proof. unfold in_connection, zoom. by destruct (m (sd_connection w)). Qed.

Lemma in_engine_run {A} (m : M (MdEngine DB) A) (w : MS) :
  sd_engine (snd (in_engine m w)) = snd (m (sd_engine w)) /\ sd_engine_task (snd (in_engine m w)) = sd_engine_task w /\
  sd_connection (snd (in_engine m w)) = sd_connection w /\ fst (in_engine m w) = fst (m (sd_engine w)).
Proof. unfold in_engine, zoom. by destruct (m (sd_engine w)). Qed.

(** What one action does to the engine and to the connection. *)
Lemma act_event_run e (w : MS) : exists w', service_act es cs (act_event e) w = (Ok tt, w') /\
  sd_engine_task w' = sd_engine_task w /\
  (sd_engine w' = sd_engine w \/ sd_engine w' = snd (enqueue e (sd_engine w))) /\
  mx_state (sd_connection w') = mx_state (sd_connection w) /\ mx_provider (sd_connection w') = mx_provider (sd_connection w).
Proof.
  cbn [service_act]. unfold bind at 1, gets, id. cbn beta iota. destruct (sd_handler_set w); [|exists w; by auto].
  unfold on_event, in_connection, in_engine, record_heartbeat, utc_now, bind, zoom, modify. cbn.
  rewrite enqueue_run. destruct (put_nowait e _) as [ok q]. eexists. split; [reflexivity|]. cbn. auto.
Qed.

Lemma act_consume_run (w : MS) : exists w', service_act es cs act_consume w = (Ok tt, w') /\
  sd_connection w' = sd_connection w /\
  (if sd_engine_task w
   then sd_engine w' = snd (consume_one es (sd_engine w)) /\ sd_engine_task w' = is_ok (fst (consume_one es (sd_engine w)))
   else w' = w).
Proof.
  cbn [service_act]. unfold task_turn. destruct (sd_engine_task w) eqn:Et; [|by exists w].
  pose proof (in_engine_run (consume_one es) w) as (H1 & H2 & H3 & H4).
  destruct (in_engine (consume_one es) w) as [[r|e] w1]; cbn [fst snd] in *.
  - exists w1. by rewrite <- H4, H2, H1, H3.
  - eexists. split; [reflexivity|]. cbn. by rewrite <- H4, H1, H3.
Qed.

Lemma act_monitor_run (w : MS) : exists w', service_act es cs act_monitor w = (Ok tt, w') /\
  sd_engine w' = sd_engine w /\ sd_engine_task w' = sd_engine_task w /\
  sd_connection w' = (if sd_monitor_task w then snd (monitor_turn cs (sd_connection w)) else sd_connection w).
Proof.
  cbn [service_act]. unfold task_turn. destruct (sd_monitor_task w) eqn:Et; [|by exists w].
  pose proof (in_connection_run (monitor_turn cs) w) as (H1 & H2 & H3 & H4).
  destruct (in_connection (monitor_turn cs) w) as [[r|e] w1]; cbn [fst snd] in *.
  - exists w1. by rewrite H1, H2, H3.
  - eexists. split; [reflexivity|]. cbn. by rewrite H1, H2, H3.
Qed.

Lemma act_engine_steps a (w : MS) : rtc (engine_step es) (sd_engine w) (sd_engine (snd (service_act es cs a w))).
Proof.
  destruct a as [e| |].
  - destruct (act_event_run e w) as (w' & -> & _ & [H|H] & _); cbn [snd]; rewrite H; [apply rtc_refl|apply rtc_once, es_enqueue].
  - destruct (act_consume_run w) as (w' & -> & _ & H). cbn [snd]. destruct (sd_engine_task w); [|rewrite H; apply rtc_refl].
    destruct H as [-> _]. apply rtc_once, es_consume.
  - destruct (act_monitor_run w) as (w' & -> & H & _). cbn [snd]. rewrite H. apply rtc_refl.
Qed.

Lemma act_ok a (w : MS) : fst (service_act es cs a w) = Ok tt.
Proof.
  destruct a as [e| |]; [destruct (act_event_run e w) as (w' & -> & _)|destruct (act_consume_run w) as (w' & -> & _)
    |destruct (act_monitor_run w) as (w' & -> & _)]; done.
Qed.

Lemma acts_cons a l (w : MS) : service_acts es cs (a :: l) w = service_acts es cs l (snd (service_act es cs a w)).
Proof.
  cbn [service_acts]. unfold bind. pose proof (act_ok a w) as H. destruct (service_act es cs a w) as [r w1].
  cbn [fst snd] in *. by rewrite H.
Qed.

Lemma acts_inv (I : MS -> Prop) l : (forall a w, I w -> I (snd (service_act es cs a w))) ->
  forall w, I w -> I (snd (service_acts es cs l w)).
Proof. intros Hstep. induction l as [|a l IH]; intros w Hw; [done|]. rewrite acts_cons. auto. Qed.

Lemma acts_engine_steps l (w : MS) : rtc (engine_step es) (sd_engine w) (sd_engine (snd (service_acts es cs l w))).
Proof.
  apply (acts_inv (fun w' => rtc (engine_step es) (sd_engine w) (sd_engine w'))); [|apply rtc_refl].
  intros a w' Hw. etransitivity; [exact Hw|apply act_engine_steps].
Qed.

Lemma failed_stays l (w : MS) : mx_state (sd_connection w) = md_FAILED ->
  mx_state (sd_connection (snd (service_acts es cs l w))) = md_FAILED /\
  mx_provider (sd_connection (snd (service_acts es cs l w))) = mx_provider (sd_connection w).
Proof.
  intros H. apply (acts_inv (fun w' => mx_state (sd_connection w') = md_FAILED /\
    mx_provider (sd_connection w') = mx_provider (sd_connection w))); [|done].
  intros a w' [H1 H2]. destruct a as [e| |].
  - destruct (act_event_run e w') as (w1 & -> & _ & _ & G1 & G2). cbn [snd]. by rewrite G1, G2.
  - destruct (act_consume_run w') as (w1 & -> & G & _). cbn [snd]. by rewrite G.
  - destruct (act_monitor_run w') as (w1 & -> & _ & _ & G). cbn [snd]. rewrite G, monitor_idle by (by rewrite H1).
    by destruct (sd_monitor_task w').
Qed.

Lemma consume_run (w : MdEngine DB) : sane es -> consumers_raise_exceptions es -> isoformat_refuses es ->
  is_ok (fst (consume_one es w)) = true /\ bq_items (me_queue (snd (consume_one es w))) = drop 1 (bq_items (me_queue w)).
Proof.
  intros Hs Hc Hf. unfold consume_one, queue_get. destruct (bq_items (me_queue w)) as [|e l] eqn:Eq; [by split|].
  match goal with |- context [bind ?m ?k ?x] => set (w1 := x) end.
  destruct (ingest_truthful es e w1 Hs Hc Hf) as (r & w2 & Hr & _).
  pose proof (drops_ingest es e w1) as [_ Hq]. rewrite Hr in Hq. unfold bind. rewrite Hr. cbn [fst snd ret is_ok].
  split; [done|]. cbn [snd] in Hq. change (bq_items (me_queue w2) = l). by rewrite Hq.
Qed.

(** C27: the consumer loop survives and keeps up: with an aware clock, a
    positive age limit, consumers that raise subclasses of [Exception] only and
    a [datetime.fromisoformat] that refuses a text with [ValueError], as it is
    documented to, whatever the events, the consumers' exceptions, the
    database's failures and the watchdog do, the task never ends, and as many
    turns as there are queued events empty the queue. *)
Theorem consumer_keeps_up l (w : MS) : sane es -> consumers_raise_exceptions es -> isoformat_refuses es ->
  sd_engine_task w = true ->
  let w1 := snd (service_acts es cs l w) in
  let w2 := snd (service_acts es cs (replicate (List.length (bq_items (me_queue (sd_engine w1)))) act_consume) w1) in
  sd_engine_task w1 = true /\ sd_engine_task w2 = true /\ bq_items (me_queue (sd_engine w2)) = [].
Proof.
  intros Hs Hc Hf Hw w1 w2.
  assert (forall a x, sd_engine_task x = true -> sd_engine_task (snd (service_act es cs a x)) = true) as Hstep.
  { intros a x Hx. destruct a as [e| |].
    - destruct (act_event_run e x) as (x' & -> & H & _). by rewrite <- Hx.
    - destruct (act_consume_run x) as (x' & -> & _ & H). rewrite Hx in H. destruct H as [_ H]. cbn [snd]. rewrite H. by apply consume_run.
    - destruct (act_monitor_run x) as (x' & -> & _ & H & _). by rewrite <- Hx. }
  assert (sd_engine_task w1 = true) as H1 by (by apply (acts_inv (fun x => sd_engine_task x = true))).
  split; [done|]. split; [by apply (acts_inv (fun x => sd_engine_task x = true))|].
  unfold w2. clearbody w1. clear w2 Hw w. remember (List.length (bq_items (me_queue (sd_engine w1)))) as n eqn:En.
  revert w1 H1 En. induction n as [|n IH]; intros w1 H1 En; [by apply nil_length_inv|].
  cbn [replicate]. rewrite acts_cons. apply IH; [by apply Hstep|].
  destruct (act_consume_run w1) as (x' & -> & _ & H). rewrite H1 in H. destruct H as [H _]. cbn [snd]. rewrite H.
  rewrite (proj2 (consume_run (sd_engine w1) Hs Hc Hf)), length_drop. lia.
Qed.
End ServiceTheorems.

(** * A service as it is built *)

Section BuiltService.
Context {DB : Type} `{!Session DB MarketRow market_constraint}.
Abbreviation MS := (MarketDataService DB FakeProvider).

(** The settings of the engine once its consumers are registered. *)
Definition with_consumers (tick_consumers : list (nat -> MarketTick -> res unit))
    (candle_consumers : list (nat -> MarketCandle -> res unit)) (es : EngineSettings) : EngineSettings :=
  foldr add_tick_consumer (foldr add_candle_consumer es candle_consumers) tick_consumers.

Lemma with_consumers_fields tc cc es : let es' := with_consumers tc cc es in
  es_max_age es' = es_max_age es /\ es_clock es' = es_clock es /\ es_dedupe_maxsize es' = es_dedupe_maxsize es.
Proof. unfold with_consumers. induction tc; [|done]. induction cc; done. Qed.

Lemma build_ok config repository clock now iso lax es cs (w : MS) :
  build_market_data_service config repository clock now iso lax = Ok (es, cs, w) ->
  exists q, new_queue (mc_queue_size config) (mc_drop_policy config) = Ok q /\ sd_engine w = new_engine repository [] q /\
    es_max_age es = mc_max_age config /\ es_clock es = clock /\ es_dedupe_maxsize es = Some (Z.to_nat (mc_dedupe_maxsize config)) /\
    1 <= mc_dedupe_maxsize config.
Proof.
  unfold build_market_data_service, new_market_data_engine. intros H. apply rbind_ok in H as (p & _ & H).
  apply rbind_ok in H as ([es0 e0] & He & H). apply rbind_ok in He as ([m seen] & Hm & He). apply rbind_ok in He as (q & Hq & He).
  apply rbind_ok in Hm as (m' & Hm & Hm'). injection Hm' as <- <-. injection He as <- <-.
  apply rbind_ok in H as (u & _ & H). injection H as <- _ <-. unfold new_detector in Hm. res_inv. exists q. cbn. split_and!; try done. lia.
Qed.

Lemma lifecycle_engine_steps es cs l (w : MS) :
  rtc (engine_step es) (sd_engine w) (sd_engine (snd ((service_start cs ;* service_acts es cs l ;* service_stop) w))).
Proof.
  assert (forall {A B} (m : M MS A) (k : A -> M MS B), (forall x, rtc (engine_step es) (sd_engine x) (sd_engine (snd (m x)))) ->
    (forall a x, rtc (engine_step es) (sd_engine x) (sd_engine (snd (k a x)))) ->
    forall x, rtc (engine_step es) (sd_engine x) (sd_engine (snd (bind m k x)))) as Hbind.
  { intros A B m k Hm Hk x. unfold bind. specialize (Hm x). destruct (m x) as [[a|e] x1]; [|done]. etransitivity; [exact Hm|apply Hk]. }
  assert (forall A (m : M (ConnectionManager FakeProvider) A) x,
    rtc (engine_step es) (sd_engine x) (sd_engine (snd (in_connection m x)))) as Hconn.
  { intros A m x. rewrite (proj1 (in_connection_run m x)). apply rtc_refl. }
  revert w. apply Hbind; [|intros _; apply Hbind; [apply acts_engine_steps|intros _]].
  - unfold service_start. apply Hbind; [apply Hconn|intros _]. apply Hbind; [intros x; apply rtc_refl|intros w0].
    apply Hbind; [intros x; apply rtc_refl|intros _]. apply Hbind; [|intros _ x; apply rtc_refl].
    destruct (sd_symbols w0); [intros x; apply rtc_refl|apply Hconn].
  - unfold service_stop. apply Hbind; [intros x; apply rtc_refl|intros w0].
    apply Hbind; [intros x; apply rtc_refl|intros _; apply Hconn].
Qed.

(** C26: the market-data service, built from its configuration, started, run over
    any interleaving of inbound events, consumer turns and watchdog turns, and
    stopped, whatever the consumers raise and the database refuses.  Every tick
    handed to the consumers satisfies the contract and was between 0 and
    [max_age_seconds] old when it was judged; as long as no more than
    [dedupe_maxsize] ticks were received, no (broker, sequence) pair was handed
    over twice; the queue stays within [queue_size]; and with an aware clock and a
    positive age limit every tick received was delivered, or counted as a
    duplicate, as stale or as from the future. *)
Theorem built_service_sound config repository clock now iso lax es0 cs (w0 : MS) tick_consumers candle_consumers l :
  build_market_data_service config repository clock now iso lax = Ok (es0, cs, w0) ->
  let es := with_consumers tick_consumers candle_consumers es0 in
  let w := sd_engine (snd ((service_start cs ;* service_acts es cs l ;* service_stop) w0)) in
  Forall (fun p => mk_MarketTick p.1 = Ok p.1 /\ 0 <= dt_instant p.2 - dt_instant (tk_timestamp p.1) <= mc_max_age config) (me_ticks w) /\
  (counted w "ticks_received" <= mc_dedupe_maxsize config -> NoDup ((fun p => tick_key p.1) <$> me_ticks w)) /\
  Z.of_nat (List.length (bq_items (me_queue w))) <= mc_queue_size config /\
  ((forall n, dt_aware (clock n) = true) -> 0 < mc_max_age config ->
   counted w "ticks_received" =
     Z.of_nat (List.length (me_ticks w)) + counted w "duplicates" + counted w "stale_events" + counted w "future_timestamps").
Proof.
  intros Hb es w. apply build_ok in Hb as (q & Hq & Hw & Hage & Hclock & Hded & Hpos).
  pose proof (lifecycle_engine_steps es cs l w0) as Hr. fold w in Hr. rewrite Hw in Hr.
  pose proof (with_consumers_fields tick_consumers candle_consumers es0) as (F1 & F2 & F3). fold es in F1, F2, F3.
  pose proof (delivered_ticks_sound es _ _ _ _ _ Hq Hr) as (H1 & H2 & _ & _ & H5).
  pose proof (drops_reported es _ _ _ _ _ Hq Hr) as [H6 _]. split_and!.
  - eapply Forall_impl; [exact H1|]. intros p [[Hp _] Hfresh]. split; [done|]. unfold fresh_at in Hfresh. rewrite F1, Hage in Hfresh. done.
  - intros Hle. apply H2. unfold roomy. rewrite F3, Hded. lia.
  - pose proof (queue_size_kept es _ _ _ _ _ Hq Hr). lia.
  - intros Hc Ha. apply H5. unfold sane. rewrite F1, F2, Hclock, Hage. done.
Qed.
End BuiltService.

(** * Runs *)

Module MarketFeedSample.
Import MarketDataSample.

Definition config (max_age : Z) : MarketDataServiceConfig :=
  {| mc_provider_name := "fake"; mc_symbols := ["INFY"]; mc_queue_size := 4; mc_drop_policy := "drop_newest";
     mc_max_age := max_age; mc_reconnect_max_attempts := 3; mc_reconnect_base_delay := 1 # 2;
     mc_reconnect_max_delay := 30; mc_heartbeat_timeout := 45 * 1000000; mc_dedupe_maxsize := 100 |}.

#[local] Instance feed_session : Session (gmap N MarketRow) MarketRow market_constraint := MemDB market_constraint.
Abbreviation service := (MarketDataService (gmap N MarketRow) FakeProvider).

(** The wall clock moves on by a minute a call. *)
Definition wall (n : nat) : datetime := at_second (60 * Z.of_nat n).

Definition built (max_age : Z) : res (EngineSettings * ConnectionSettings * service) :=
  build_market_data_service (config max_age) (Some ∅) (es_clock settings) wall (es_fromisoformat settings) (es_lax_int settings).

Definition with_built {A} (max_age : Z) (f : EngineSettings -> ConnectionSettings -> service -> A) : option A :=
  match built max_age with Ok (es, cs, w) => Some (f es cs w) | Err _ => None end.

(** What [built] returns for an age limit of five seconds. *)
Definition es5 : EngineSettings :=
  {| es_allowed_symbols := None; es_max_age := 5 * 1000000; es_persist_enabled := true; es_clock := es_clock settings;
     es_dedupe_maxsize := Some 100%nat; es_tick_consumers := []; es_candle_consumers := [];
     es_fromisoformat := es_fromisoformat settings; es_lax_int := es_lax_int settings |}.
Definition cs5 : ConnectionSettings :=
  {| cs_max_attempts := 3; cs_base_delay := 1 # 2; cs_max_delay := 30; cs_heartbeat_timeout := 45 * 1000000; cs_now := wall |}.
Definition w5 : service :=
  {| sd_connection := {| mx_provider := new_provider; mx_metrics := ∅; mx_last_heartbeat := None; mx_state := md_DISCONNECTED;
                         mx_calls := 0 |};
     sd_engine := new_engine (Some ∅) [] (bounded 4 drop_newest); sd_symbols := ["INFY"]; sd_handler_set := false;
     sd_engine_task := false; sd_monitor_task := false |}.

Lemma built_is : built (5 * 1000000) = Ok (es5, cs5, w5).
Proof. reflexivity. Qed.

Definition actions : list service_action :=
  [act_event (tick_event "1" "INFY" "1500.25" 9); act_consume; act_event (tick_event "1" "INFY" "1500.25" 9); act_monitor; act_consume;
   act_event (tick_event "2" "TCS" "3500" 8); act_monitor; act_consume].
Definition consumers : list (nat -> MarketTick -> res unit) := es_tick_consumers settings.
Definition es_run : EngineSettings := with_consumers consumers [] es5.
Definition final : MdEngine (gmap N MarketRow) :=
  sd_engine (snd ((service_start cs5 ;* service_acts es_run cs5 actions ;* service_stop) w5)).

Lemma delivered_two : tk_source_sequence ∘ fst <$> me_ticks final = ["1"; "2"] /\ counted final "duplicates" = 1.
Proof. by vm_compute. Qed.

Lemma built_witness : built (5 * 1000000) = Ok (es5, cs5, w5) /\ NoDup ((fun p => tick_key p.1) <$> me_ticks final) /\
  counted final "ticks_received" =
    Z.of_nat (List.length (me_ticks final)) + counted final "duplicates" + counted final "stale_events" + counted final "future_timestamps".
Proof.
  split; [exact built_is|].
  destruct (built_service_sound (config (5 * 1000000)) (Some ∅) (es_clock settings) wall (es_fromisoformat settings)
    (es_lax_int settings) es5 cs5 w5 consumers [] actions built_is) as (_ & H2 & _ & H4).
  split; [apply H2; by vm_compute|]. apply H4; [done|by vm_compute].
Defined.

(** The consumer loop. *)
Definition running : service := snd (service_start cs5 w5).
Lemma keeps_up_witness :
  let w1 := snd (service_acts es_run cs5 [act_event (tick_event "1" "INFY" "1500.25" 9); act_event (tick_event "2" "INFY" "x" 9)] running) in
  sd_engine_task running = true /\ List.length (bq_items (me_queue (sd_engine w1))) = 2%nat /\
  bq_items (me_queue (sd_engine (snd (service_acts es_run cs5 [act_consume; act_consume] w1)))) = [].
Proof.
  split; [by vm_compute|]. split; [by vm_compute|].
  apply (consumer_keeps_up es_run cs5 [act_event (tick_event "1" "INFY" "1500.25" 9); act_event (tick_event "2" "INFY" "x" 9)] running).
  - by split.
  - split; [|constructor]. cbn. repeat constructor; by intros n t e [= <-].
  - by intros s e [= <-].
  - by vm_compute.
Defined.

(** An age limit of zero passes the constructors and ends the consumer loop at
    the first tick. *)
Lemma zero_age_ends_consumer :
  with_built 0 (fun es cs w =>
    sd_engine_task (snd ((service_start cs ;* service_acts es cs [act_event (tick_event "1" "INFY" "1500" 9); act_consume]) w))) = Some false.
Proof. by vm_compute. Qed.

(** The watchdog: the provider refuses two attempts and the third, or all. *)
Definition refusing : FakeProvider :=
  {| fp_connected := true; fp_authenticated := true; fp_subscriptions := ["INFY"]; fp_historical_candles := [];
     fp_historical_ticks := []; fp_connect_calls := 1; fp_fail_connect := true; fp_fail_authenticate := false |}.
Definition silent_connection : ConnectionManager FakeProvider :=
  {| mx_provider := refusing; mx_metrics := ∅; mx_last_heartbeat := Some (at_second 0); mx_state := md_CONNECTED; mx_calls := 2 |}.

Lemma fake_raises : provider_raises (P:=FakeProvider) /\ disconnect_raises (P:=FakeProvider).
Proof.
  split; [|by intros s e s' H]. intros s e s'. cbn. unfold fake_connect, bind, modify, gets, id. cbn.
  destruct (fp_fail_connect s); [by intros [= <- _]|]. cbn. by destruct (fp_fail_authenticate s); [intros [= <- _]|].
Qed.

Lemma watchdog_witness : exists w', monitor_turn cs5 silent_connection = (Ok tt, w') /\
  exists n s, failed_attempts n (snd (mp_disconnect refusing)) s /\
    (mx_state w' = md_CONNECTED /\ (n < 3)%nat \/ mx_state w' = md_FAILED /\ n = 3%nat /\ mx_provider w' = s).
Proof.
  destruct (watchdog_turn cs5 silent_connection) as (w' & H1 & H2).
  - split; [reflexivity|]. by apply Qle_bool_iff.
  - apply fake_raises.
  - apply fake_raises.
  - done.
  - intros h [= <-]. done.
  - exists w'. split; [exact H1|]. change (bool_decide _ && _) with true in H2. destruct H2 as (n & s & Hf & [(G1 & G2 & _)|G]).
    + exists n, s. split; [exact Hf|]. by left.
    + exists n, s. split; [exact Hf|]. by right.
Defined.

(** All attempts fail: the state is FAILED and no later turn tries again. *)
Lemma watchdog_gives_up : let w := snd (monitor_turn cs5 silent_connection) in
  mx_state w = md_FAILED /\ fp_connect_calls (mx_provider w) = 4 /\ snd (monitor_turn cs5 w) = w.
Proof. by vm_compute. Qed.

(** Paging. *)
Definition tick_at (second : Z) (sequence : string) : MarketTick :=
  {| tk_instrument_id := 7; tk_exchange := "NSE"; tk_symbol := "INFY"; tk_timestamp := at_second second;
     tk_ltp := dec_of_Z 1500; tk_volume := None; tk_bid := None; tk_ask := None; tk_bid_quantity := None;
     tk_ask_quantity := None; tk_source_broker := "fake"; tk_source_sequence := sequence; tk_received_at := at_second second |}.
Definition candle_at (minute : Z) : MarketCandle :=
  {| cd_instrument_id := 7; cd_exchange := "NSE"; cd_symbol := "INFY"; cd_timeframe := ONE_MINUTE;
     cd_candle_start := at_second (60 * minute); cd_open_price := dec_of_Z 1; cd_high_price := dec_of_Z 1;
     cd_low_price := dec_of_Z 1; cd_close_price := dec_of_Z 1; cd_volume := None; cd_source_broker := "fake";
     cd_generated_at := at_second (60 * minute + 60) |}.
Definition archive (ticks : list MarketTick) (candles : list MarketCandle) : FakeProvider :=
  {| fp_connected := true; fp_authenticated := true; fp_subscriptions := []; fp_historical_candles := candles;
     fp_historical_ticks := ticks; fp_connect_calls := 1; fp_fail_connect := false; fp_fail_authenticate := false |}.
Definition paged : HistoricalSettings := {| hs_max_candles := 3; hs_page_size := 2; hs_retry_attempts := 3 |}.
Definition history : FakeProvider := archive [tick_at 2 "b"; tick_at 1 "a"; tick_at 3 "c"] (candle_at <$> [5; 4; 1; 2; 9]).

Lemma paging_witness :
  fetch_candles paged 7 "NSE" "INFY" ONE_MINUTE (at_second 60) (at_second 500) history =
    (Ok (take 3 (all_in_range cd_candle_start (at_second 60) (at_second 500) (fp_historical_candles history))), history) /\
  take 3 (all_in_range cd_candle_start (at_second 60) (at_second 500) (fp_historical_candles history)) = candle_at <$> [2; 4; 5].
Proof.
  split; [|by vm_compute].
  apply (paging_transparent paged 7 "NSE" "INFY" ONE_MINUTE (at_second 60) (at_second 500) history); try done.
  - cbn. lia.
  - repeat constructor.
  - apply (bool_decide_unpack _). by vm_compute.
  - repeat constructor.
  - apply (bool_decide_unpack _). by vm_compute.
Defined.

(** Items of one time on both sides of a page boundary: the later ones are lost. *)
Lemma equal_times_lost :
  fst (fetch_ticks {| hs_max_candles := 3; hs_page_size := 1; hs_retry_attempts := 3 |} 7 "NSE" "INFY" (at_second 0) (at_second 9)
         (archive [tick_at 2 "a"; tick_at 2 "b"; tick_at 3 "c"] [])) = Ok [tick_at 2 "a"; tick_at 3 "c"].
Proof. by vm_compute. Qed.
End MarketFeedSample.
