(* ===== verification/Tokens.v ===== *)
(** The signed tokens of the API (src/apps/api/alpha_algo_api/security/tokens.py):
    base64url, HMAC-SHA256, [create_token] and [decode_token], with their round
    trip and what a decoded token guarantees.

    [int(time.time())] and [uuid.uuid4()] are arguments.  A character beyond ASCII
    is one that [encode("ascii")] refuses.  A [frozenset] is a list without
    duplicates, of which only membership and the sorted order are used. *)

From stdpp Require Import base list gmap strings.
From Stdlib Require Import ZArith Lia String Ascii.
From S2P Require Import Prelude PyBase Hashing Decimal DecimalText Json.
Open Scope Z_scope.

(** * base64 *)

Definition b64_char (v : N) : ascii :=
  ascii_of_N (if v <? 26 then 65 + v else if v <? 52 then 71 + v else if v <? 62 then v - 4
              else if v =? 62 then 45 else 95)%N.

Fixpoint b64_text (s : string) : string :=
  match s with
  | EmptyString => ""
  | String a s1 =>
      let a := N_of_ascii a in
      let c0 := b64_char (a / 4) in
      match s1 with
      | EmptyString => String c0 (String (b64_char (a mod 4 * 16)) "==")
      | String b s2 =>
          let b := N_of_ascii b in
          let c1 := b64_char (a mod 4 * 16 + b / 16) in
          match s2 with
          | EmptyString => String c0 (String c1 (String (b64_char (b mod 16 * 4)) "="))
          | String c s3 =>
              let c := N_of_ascii c in
              String c0 (String c1 (String (b64_char (b mod 16 * 4 + c / 64)) (String (b64_char (c mod 64)) (b64_text s3))))
          end
      end
  end%N.

(** [s.rstrip(c)] of one character *)
Fixpoint rstrip_char (c : ascii) (s : string) : string :=
  match s with
  | EmptyString => ""
  | String x s' =>
      match rstrip_char c s' with
      | EmptyString => if Ascii.eqb x c then "" else String x ""
      | r => String x r
      end
  end.

Definition b64url_encode (data : string) : string := rstrip_char "=" (b64_text data).

(** The value of a character in the standard alphabet. *)
Definition std_value (c : ascii) : option N :=
  let n := N_of_ascii c in
  (if (65 <=? n) && (n <=? 90) then Some (n - 65)
   else if (97 <=? n) && (n <=? 122) then Some (n - 71)
   else if (48 <=? n) && (n <=? 57) then Some (n + 4)
   else if n =? 43 then Some 62
   else if n =? 47 then Some 63
   else None)%N.

(** [s.translate(_urlsafe_decode_translation)] *)
Definition from_urlsafe (c : ascii) : ascii :=
  if Ascii.eqb c "-" then "+" else if Ascii.eqb c "_" then "/" else c.

(** [binascii.a2b_base64] outside strict mode: characters that are not in the
    alphabet are skipped, and padding ends the data only where it completes a
    group. *)
Fixpoint a2b (quad_pos : nat) (leftchar : N) (pads : nat) (s : string) : res string :=
  match s with
  | EmptyString =>
      match quad_pos with
      | 0%nat => Ok ""%string
      | 1%nat => raise BinasciiError "number of data characters cannot be 1 more than a multiple of 4"
      | _ => raise BinasciiError "Incorrect padding"
      end
  | String c s' =>
      let c := from_urlsafe c in
      if Ascii.eqb c "=" then
        if (2 <=? quad_pos)%nat then
          if (4 <=? quad_pos + S pads)%nat then Ok ""%string else a2b quad_pos leftchar (S pads) s'
        else a2b quad_pos leftchar pads s'
      else
        match std_value c with
        | None => a2b quad_pos leftchar pads s'
        | Some v =>
            let out b rest := let! r := rest in Ok (String (ascii_of_N b) r) in
            match quad_pos with
            | 0%nat => a2b 1 v 0 s'
            | 1%nat => out (leftchar * 4 + v / 16)%N (a2b 2 (v mod 16)%N 0 s')
            | 2%nat => out (leftchar * 16 + v / 4)%N (a2b 3 (v mod 4)%N 0 s')
            | _ => out (leftchar * 64 + v)%N (a2b 0 0%N 0 s')
            end
        end
  end.

Fixpoint str_repeat (n : nat) (s : string) : string :=
  match n with O => "" | S n' => s +:+ str_repeat n' s end.

Definition b64url_decode (data : string) : res string :=
  a2b 0 0 0 (data +:+ str_repeat (Z.to_nat (- Z.of_nat (String.length data) mod 4)) "=").

(** * HMAC-SHA256 *)

Fixpoint string_of_bytes (l : list N) : string :=
  match l with [] => "" | b :: l' => String (ascii_of_N b) (string_of_bytes l') end.

(** [hashlib.sha256(s).digest()] *)
Definition sha256_digest (s : string) : string := string_of_bytes (mjoin (be_bytes 4 <$> Sha256.digest s)).

Definition xor_pad (b : N) (key : string) : string :=
  string_of_bytes (N.lxor b <$> bytes_of_string key ++ replicate (64 - String.length key) 0%N).

(** [hmac.new(key, msg, hashlib.sha256).digest()] *)
Definition hmac_sha256 (key msg : string) : string :=
  let key := if (64 <? String.length key)%nat then sha256_digest key else key in
  sha256_digest (xor_pad 0x5c key +:+ sha256_digest (xor_pad 0x36 key +:+ msg)).

Fixpoint str_all (f : ascii -> bool) (s : string) : bool :=
  match s with EmptyString => true | String c s' => f c && str_all f s' end.

Definition is_ascii : string -> bool := str_all (fun c => N_of_ascii c <? 128)%N.

(** [s.encode("ascii")] *)
Definition encode_ascii (s : string) : res string :=
  if is_ascii s then Ok s else raise UnicodeEncodeError "'ascii' codec can't encode characters".

Definition sign (header_b64 payload_b64 secret : string) : res string :=
  let! signing_input := encode_ascii (header_b64 +:+ "." +:+ payload_b64) in
  Ok (b64url_encode (hmac_sha256 secret signing_input)).

(** [hmac.compare_digest] of two [str] *)
Definition compare_digest (a b : string) : res bool :=
  if is_ascii a && is_ascii b then Ok (String.eqb a b)
  else raise TypeError "comparing strings with non-ASCII characters is not supported".

(** [s.split(c)] *)
Fixpoint split_char (c : ascii) (s : string) : list string :=
  match s with
  | EmptyString => [""%string]
  | String x s' =>
      if Ascii.eqb x c then ""%string :: split_char c s'
      else match split_char c s' with
           | w :: ws => String x w :: ws
           | [] => [String x ""]
           end
  end.

(** * Claims *)

Fixpoint member (key : string) (l : list (string * json)) : option json :=
  match l with
  | [] => None
  | (k, v) :: l' => if String.eqb k key then Some v else member key l'
  end.

(** [json_value.get(key, default)] *)
Definition claim (key : string) (d : json) (j : json) : res json :=
  match j with
  | JObj l => Ok (default d (member key l))
  | _ => raise AttributeError "object has no attribute 'get'"
  end.

Definition json_is (s : string) (j : json) : bool :=
  match j with JStr t => String.eqb t s | _ => false end.

(** The integer part of the double nearest to [n / d]. *)
Definition round_half_even (n d : Z) : Z :=
  let q := n / d in let r := 2 * (n mod d) in
  if r <? d then q else if d <? r then q + 1 else if Z.even q then q else q + 1.
Definition double_floor (n d : Z) : Z :=
  let e := if n <? d then -53 else Z.log2 (n / d) - 52 in
  if 0 <=? e then round_half_even n (d * 2 ^ e) * 2 ^ e else round_half_even (n * 2 ^ (- e)) d / 2 ^ (- e).

(** [int(float(text))] *)
Definition int_of_float (text : string) : res Z :=
  if String.eqb text "NaN" then raise ValueError "cannot convert float NaN to integer"
  else
    match dec_parse text with
    | Some (Dec neg c e) =>
        let v := if 0 <=? e then double_floor (Z.of_N c * 10 ^ e) 1 else double_floor (Z.of_N c) (10 ^ (- e)) in
        if 2 ^ 1024 <=? v then raise OverflowError "cannot convert float infinity to integer"
        else Ok (if neg : bool then - v else v)
    | None => raise OverflowError "cannot convert float infinity to integer"
    end.

(** [int(value)] *)
Definition json_int (j : json) : res Z :=
  match j with
  | JInt z => Ok z
  | JBool b => Ok (if b then 1 else 0)
  | JFloat t => int_of_float t
  | JStr s => int_text s
  | _ => raise TypeError "int() argument must be a string, a bytes-like object or a real number"
  end.

Fixpoint json_repr (j : json) : string :=
  match j with
  | JNull => "None"
  | JStr s => py_repr s
  | JInt z => str_Z z
  | JFloat t => t
  | JBool b => if b then "True" else "False"
  | JArr l => "[" +:+ String.concat ", " (List.map json_repr l) +:+ "]"
  | JObj l => "{" +:+ String.concat ", " (List.map (fun kv => py_repr kv.1 +:+ ": " +:+ json_repr kv.2) l) +:+ "}"
  end.

(** [str(value)] *)
Definition json_str (j : json) : string := match j with JStr s => s | _ => json_repr j end.

Definition hashable (j : json) : bool := match j with JArr _ | JObj _ => false | _ => true end.

Definition as_int (j : json) : option Z :=
  match j with JInt z => Some z | JBool b => Some (if b then 1 else 0) | _ => None end.

(** [a == b] of two scalars *)
Definition scalar_eqb (a b : json) : bool :=
  match a, b with
  | JStr s, JStr t => String.eqb s t
  | JFloat s, JFloat t => String.eqb s t
  | JNull, JNull => true
  | _, _ => match as_int a, as_int b with Some x, Some y => x =? y | _, _ => false end
  end.

Fixpoint distinct (l : list json) : list json :=
  match l with
  | [] => []
  | x :: l' => x :: List.filter (fun y => negb (scalar_eqb x y)) (distinct l')
  end.

Fixpoint chars_of (s : string) : list json :=
  match s with EmptyString => [] | String c s' => JStr (String c "") :: chars_of s' end.

(** [frozenset(value)] *)
Definition frozenset (j : json) : res (list json) :=
  match j with
  | JArr l => if forallb hashable l then Ok (distinct l) else raise TypeError "unhashable type"
  | JStr s => Ok (distinct (chars_of s))
  | JObj l => Ok (distinct (JStr <$> (fst <$> l)))
  | _ => raise TypeError "object is not iterable"
  end.

Definition as_str (j : json) : option string := match j with JStr s => Some s | _ => None end.

(** [sorted(values)]: text sorts with text and numbers with numbers. *)
Definition json_sorted (l : list json) : res (list json) :=
  match mapM as_str l, mapM as_int l with
  | Some texts, _ => Ok (JStr <$> sorted_strings texts)
  | None, Some _ => Ok (stable_sort (fun a b => default 0 (as_int a) <=? default 0 (as_int b)) l)
  | None, None => match l with
                  | [x] => Ok [x]
                  | _ => raise TypeError "'<' not supported between instances"
                  end
  end.

(** * tokens.py *)

Definition ALGORITHM : string := "HS256".

Record TokenPayload := {
  tp_subject : string;
  tp_permissions : list json;
  tp_token_type : string;
  tp_issued_at : Z;
  tp_expires_at : Z;
  tp_jti : string;
}.

Definition token_dumps (j : json) : string := json_plain "," ":" j.

Definition create_token (now : Z) (uuid : N) (subject : string) (permissions : list json) (token_type : string)
    (ttl_seconds : Z) (secret issuer audience : string) : res string :=
  let header := JObj [("alg", JStr ALGORITHM); ("typ", JStr "JWT")]%string in
  let! permissions := json_sorted (distinct permissions) in
  let payload := JObj [("sub", JStr subject); ("permissions", JArr permissions); ("type", JStr token_type);
                       ("iss", JStr issuer); ("aud", JStr audience); ("iat", JInt now); ("exp", JInt (now + ttl_seconds));
                       ("jti", JStr (to_hex 32 uuid))]%string in
  let header_b64 := b64url_encode (token_dumps header) in
  let payload_b64 := b64url_encode (token_dumps payload) in
  let! signature := sign header_b64 payload_b64 secret in
  Ok (header_b64 +:+ "." +:+ payload_b64 +:+ "." +:+ signature).

Definition refuse_token (b : bool) (msg : string) : res unit := raise_if b TokenError msg.

(** [json.loads(_b64url_decode(part))] with the errors of [except (ValueError, UnicodeDecodeError)] *)
Definition decode_part (part : string) : res json :=
  match rbind (b64url_decode part) json_loads with
  | Ok j => Ok j
  | Err e => if isinstance e ValueError then raise TokenError "invalid token encoding" else Err e
  end.

Definition decode_token (now : Z) (token secret issuer audience : string) (expected_type : option string) : res TokenPayload :=
  match split_char "." token with
  | [header_b64; payload_b64; signature] =>
      let! expected_signature := sign header_b64 payload_b64 secret in
      let! same := compare_digest signature expected_signature in
      refuse_token (negb same) "invalid signature" ;!
      let! header := decode_part header_b64 in
      let! payload := decode_part payload_b64 in
      let! alg := claim "alg" JNull header in
      refuse_token (negb (json_is ALGORITHM alg)) "unsupported algorithm" ;!
      let! exp := claim "exp" (JInt 0) payload in
      let! exp := json_int exp in
      refuse_token (exp <=? now) "expired token" ;!
      let! iss := claim "iss" JNull payload in
      refuse_token (negb (json_is issuer iss)) "invalid issuer" ;!
      let! aud := claim "aud" JNull payload in
      refuse_token (negb (json_is audience aud)) "invalid audience" ;!
      let! type := claim "type" JNull payload in
      refuse_token (match expected_type with Some t => negb (json_is t type) | None => false end) "invalid token type" ;!
      let! sub := claim "sub" (JStr "") payload in
      let! permissions := claim "permissions" (JArr []) payload in
      let! permissions := frozenset permissions in
      let! type := claim "type" (JStr "") payload in
      let! iat := claim "iat" (JInt 0) payload in
      let! iat := json_int iat in
      let! jti := claim "jti" (JStr "") payload in
      Ok {| tp_subject := json_str sub; tp_permissions := permissions; tp_token_type := json_str type;
            tp_issued_at := iat; tp_expires_at := exp; tp_jti := json_str jti |}
  | _ => raise TokenError "malformed token"
  end.

(** ** base64url round trip *)

Lemma b64_value v : (v < 64)%N ->
  let c := b64_char v in
  std_value (from_urlsafe c) = Some v /\ Ascii.eqb (from_urlsafe c) "=" = false /\ Ascii.eqb c "=" = false /\
  Ascii.eqb c "." = false /\ (N_of_ascii c <? 128)%N = true.
Proof.
  intros Hv. assert (forallb (fun v => let c := b64_char v in
    bool_decide (std_value (from_urlsafe c) = Some v) && negb (Ascii.eqb (from_urlsafe c) "=") && negb (Ascii.eqb c "=") &&
    negb (Ascii.eqb c ".") && (N_of_ascii c <? 128)%N) (N.of_nat <$> seq 0 64) = true) as H by (vm_compute; reflexivity).
  rewrite forallb_forall in H. specialize (H v).
  assert (List.In v (N.of_nat <$> seq 0 64)) as Hin.
  { apply list_elem_of_In, list_elem_of_fmap. exists (N.to_nat v). split; [lia|]. apply elem_of_seq. lia. }
  specialize (H Hin). cbv zeta in *. rewrite !andb_true_iff, !negb_true_iff, bool_decide_eq_true in H. tauto.
Qed.

Lemma byte_lt c : (N_of_ascii c < 256)%N.
Proof. apply N_ascii_bounded. Qed.

(** Three bytes at a time. *)
Lemma string_triple_ind (P : string -> Prop) :
  P ""%string -> (forall a, P (String a "")) -> (forall a b, P (String a (String b ""))) ->
  (forall a b c s, P s -> P (String a (String b (String c s)))) -> forall s, P s.
Proof.
  intros H0 H1 H2 H3 s. enough (forall n s, (String.length s <= n)%nat -> P s) by eauto.
  clear s. induction n as [|n IH]; intros [|a [|b [|c s]]] Hn; auto; cbn in Hn; [lia..|]. apply H3, IH. lia.
Qed.

(** The text without its padding. *)
Fixpoint b64_bare (s : string) : string :=
  match s with
  | EmptyString => ""
  | String a s1 =>
      let a := N_of_ascii a in
      match s1 with
      | EmptyString => String (b64_char (a / 4)) (String (b64_char (a mod 4 * 16)) "")
      | String b s2 =>
          let b := N_of_ascii b in
          match s2 with
          | EmptyString =>
              String (b64_char (a / 4)) (String (b64_char (a mod 4 * 16 + b / 16)) (String (b64_char (b mod 16 * 4)) ""))
          | String c s3 =>
              let c := N_of_ascii c in
              String (b64_char (a / 4)) (String (b64_char (a mod 4 * 16 + b / 16))
                (String (b64_char (b mod 16 * 4 + c / 64)) (String (b64_char (c mod 64)) (b64_bare s3))))
          end
      end
  end%N.

Ltac bytes := repeat match goal with
  | |- context [N_of_ascii ?c] => pose proof (byte_lt c); generalize dependent (N_of_ascii c); intros end;
  zify; Z.to_euclidean_division_equations; lia.

Lemma rstrip_cons c x s : Ascii.eqb x c = false -> rstrip_char c (String x s) = String x (rstrip_char c s).
Proof. intros H. cbn. destruct (rstrip_char c s); [by rewrite H|done]. Qed.

Lemma rstrip_cons4 c x y z w s : Ascii.eqb w c = false ->
  rstrip_char c (String x (String y (String z (String w s)))) = String x (String y (String z (String w (rstrip_char c s)))).
Proof. intros H. cbn [rstrip_char]. destruct (rstrip_char c s); [by rewrite H|done]. Qed.

Lemma b64url_bare s : b64url_encode s = b64_bare s.
Proof.
  unfold b64url_encode. induction s as [|a|a b|a b c s IH] using string_triple_ind; [done|..].
  - cbn [b64_text b64_bare]. rewrite !rstrip_cons by (apply b64_value; bytes). done.
  - cbn [b64_text b64_bare]. rewrite !rstrip_cons by (apply b64_value; bytes). done.
  - cbn [b64_text b64_bare]. rewrite rstrip_cons4 by (apply b64_value; bytes). by rewrite IH.
Qed.

Lemma a2b_char q l p v rest : (v < 64)%N ->
  a2b q l p (String (b64_char v) rest) =
    match q with
    | 0%nat => a2b 1 v 0 rest
    | 1%nat => let! r := a2b 2 (v mod 16)%N 0 rest in Ok (String (ascii_of_N (l * 4 + v / 16)%N) r)
    | 2%nat => let! r := a2b 3 (v mod 4)%N 0 rest in Ok (String (ascii_of_N (l * 16 + v / 4)%N) r)
    | _ => let! r := a2b 0 0%N 0 rest in Ok (String (ascii_of_N (l * 64 + v)%N) r)
    end.
Proof. intros Hv. destruct (b64_value v Hv) as (H1 & H2 & _). cbn [a2b]. rewrite H2, H1. by destruct q as [|[|[|q]]]. Qed.

Lemma byte_back n c : n = N_of_ascii c -> ascii_of_N n = c.
Proof. intros ->. apply ascii_N_embedding. Qed.

Lemma b64url_roundtrip s : b64url_decode (b64url_encode s) = Ok s.
Proof.
  rewrite b64url_bare. unfold b64url_decode. induction s as [|a|a b|a b c s IH] using string_triple_ind; [done|..].
  - cbn [b64_bare]. cbn [String.length]. change (str_repeat (Z.to_nat (- Z.of_nat 2 mod 4)) "=") with "=="%string.
    change (String ?x (String ?y "") +:+ "==") with (String x (String y "==")).
    rewrite !a2b_char by bytes. cbn. do 2 f_equal. apply byte_back. bytes.
  - cbn [b64_bare]. cbn [String.length]. change (str_repeat (Z.to_nat (- Z.of_nat 3 mod 4)) "=") with "="%string.
    change (String ?x (String ?y (String ?z "")) +:+ "=") with (String x (String y (String z "="))).
    rewrite !a2b_char by bytes. cbn. f_equal. f_equal; [apply byte_back; bytes|]. f_equal. apply byte_back; bytes.
  - cbn [b64_bare]. cbn [String.length].
    replace (- Z.of_nat (S (S (S (S (String.length (b64_bare s)))))) mod 4) with (- Z.of_nat (String.length (b64_bare s)) mod 4)
      by (Z.to_euclidean_division_equations; lia).
    change (String ?x (String ?y (String ?z (String ?w ?t))) +:+ ?p) with (String x (String y (String z (String w (t +:+ p))))).
    rewrite !a2b_char by bytes. rewrite IH. cbn. f_equal. f_equal; [apply byte_back; bytes|]. f_equal; [apply byte_back; bytes|].
    f_equal. apply byte_back; bytes.
Qed.

Lemma b64_all f s : (forall v, (v < 64)%N -> f (b64_char v) = true) -> str_all f (b64url_encode s) = true.
Proof.
  intros Hf. rewrite b64url_bare. induction s as [|a|a b|a b c s IH] using string_triple_ind; [done|..]; cbn [b64_bare str_all];
    rewrite !Hf by bytes; done.
Qed.

Lemma b64_ascii s : is_ascii (b64url_encode s) = true.
Proof. apply (b64_all (fun c => N_of_ascii c <? 128)%N). intros v Hv. by apply b64_value. Qed.

Lemma is_ascii_app s t : is_ascii (s +:+ t) = is_ascii s && is_ascii t.
Proof.
  induction s as [|c s IH]; [done|]. change (String c s +:+ t) with (String c (s +:+ t)). cbn. fold is_ascii. by rewrite IH, andb_assoc.
Qed.

Lemma sign_encoded h p secret : exists data, sign (b64url_encode h) (b64url_encode p) secret = Ok (b64url_encode data).
Proof. unfold sign, encode_ascii. rewrite !is_ascii_app, !b64_ascii. cbn. eauto. Qed.

Lemma split_char_app c s t : str_all (fun x => negb (Ascii.eqb x c)) s = true ->
  split_char c (s +:+ String c t) = s :: split_char c t.
Proof.
  induction s as [|x s IH]; intros H.
  - change ("" +:+ String c t) with (String c t). cbn. by rewrite Ascii.eqb_refl.
  - change (String x s +:+ String c t) with (String x (s +:+ String c t)). cbn in H |- *.
    apply andb_true_iff in H as [Hx Hs]. apply negb_true_iff in Hx. by rewrite Hx, IH.
Qed.

Lemma split_char_whole c s : str_all (fun x => negb (Ascii.eqb x c)) s = true -> split_char c s = [s].
Proof.
  induction s as [|x s IH]; intros H; [done|]. cbn in H |- *. apply andb_true_iff in H as [Hx Hs]. apply negb_true_iff in Hx.
  by rewrite Hx, IH.
Qed.

Lemma b64_no_dot s : str_all (fun x => negb (Ascii.eqb x ".")) (b64url_encode s) = true.
Proof. apply b64_all. intros v Hv. apply negb_true_iff. by apply b64_value. Qed.

Lemma split_token h p data :
  split_char "." (b64url_encode h +:+ "." +:+ b64url_encode p +:+ "." +:+ b64url_encode data)
  = [b64url_encode h; b64url_encode p; b64url_encode data].
Proof.
  change ("." +:+ b64url_encode p +:+ "." +:+ b64url_encode data)
    with (String "." (b64url_encode p +:+ String "." (b64url_encode data))).
  rewrite !split_char_app by apply b64_no_dot. by rewrite split_char_whole by apply b64_no_dot.
Qed.

Lemma decode_part_text j : json_ok j = true -> decode_part (b64url_encode (token_dumps j)) = Ok j.
Proof.
  intros Hj. unfold decode_part. rewrite b64url_roundtrip. cbn [rbind]. unfold token_dumps. by rewrite (loads_dumps "" "" eq_refl eq_refl).
Qed.

(** ** Permissions *)

Lemma mapM_as_str texts : mapM as_str (JStr <$> texts) = Some texts.
Proof. apply mapM_Some. induction texts; by constructor. Qed.

Lemma distinct_texts texts : exists texts', distinct (JStr <$> texts) = JStr <$> texts' /\ NoDup texts' /\ (forall t, t ∈ texts' <-> t ∈ texts).
Proof.
  induction texts as [|t l (l' & Hl & Hnd & Hin)]; [by exists []; repeat split; [constructor| |]|].
  exists (t :: List.filter (fun u => negb (String.eqb t u)) l'). cbn [distinct fmap list_fmap]. split_and!.
  - f_equal. rewrite Hl. clear. induction l' as [|u l' IH]; [done|]. rewrite !fmap_cons. cbn [List.filter]. rewrite IH.
    change (scalar_eqb (JStr t) (JStr u)) with (String.eqb t u). by destruct (String.eqb t u).
  - constructor; [rewrite list_elem_of_In, filter_In; by rewrite String.eqb_refl; intros []|].
    clear -Hnd. induction Hnd as [|u l' Hu Hnd IH]; [constructor|]. cbn. destruct (negb _); [|done]. constructor; [|done].
    rewrite list_elem_of_In, filter_In, <- list_elem_of_In. tauto.
  - intros u. rewrite !elem_of_cons, <- Hin, list_elem_of_In, filter_In, <- list_elem_of_In, negb_true_iff, String.eqb_neq.
    destruct (decide (u = t)); intuition congruence.
Qed.

Lemma stable_insert_in {A} (le : A -> A -> bool) x l y : y ∈ stable_insert le x l <-> y = x \/ y ∈ l.
Proof.
  induction l as [|z l IH]; cbn; [by rewrite elem_of_cons|].
  destruct (le x z); rewrite !elem_of_cons, ?IH; tauto.
Qed.

Lemma sorted_strings_in l t : t ∈ sorted_strings l <-> t ∈ l.
Proof.
  unfold sorted_strings, stable_sort. induction l as [|x l IH]; [done|]. cbn [foldr]. by rewrite stable_insert_in, elem_of_cons, IH.
Qed.

Lemma json_ok_texts texts : forallb json_ok (JStr <$> texts) = true.
Proof. by induction texts. Qed.

Lemma hashable_texts texts : forallb hashable (JStr <$> texts) = true.
Proof. by induction texts. Qed.

(** [has_permission] of a set of permissions *)
Definition grants (l : list json) (permission : string) : bool := existsb (scalar_eqb (JStr permission)) l.

Lemma grants_texts texts p : grants (JStr <$> texts) p = true <-> p ∈ texts.
Proof.
  unfold grants. rewrite existsb_exists. split.
  - intros (j & Hin & He). apply list_elem_of_In, list_elem_of_fmap in Hin as (t & -> & Ht).
    apply String.eqb_eq in He. by subst.
  - intros Hp. exists (JStr p). split; [|apply String.eqb_refl]. apply list_elem_of_In, list_elem_of_fmap. eauto.
Qed.

(** What [create_token] puts into a token for permissions that are text. *)
Lemma create_decode now uuid subject texts token_type ttl secret issuer audience :
  exists token perms,
    create_token now uuid subject (JStr <$> texts) token_type ttl secret issuer audience = Ok token /\
    (forall t, t ∈ perms <-> t ∈ texts) /\
    forall now' issuer' audience' expected,
      decode_token now' token secret issuer' audience' expected =
        (refuse_token (now + ttl <=? now') "expired token" ;!
         refuse_token (negb (String.eqb issuer issuer')) "invalid issuer" ;!
         refuse_token (negb (String.eqb audience audience')) "invalid audience" ;!
         refuse_token (match expected with Some t => negb (String.eqb token_type t) | None => false end) "invalid token type" ;!
         Ok {| tp_subject := subject; tp_permissions := JStr <$> perms; tp_token_type := token_type; tp_issued_at := now;
               tp_expires_at := now + ttl; tp_jti := to_hex 32 uuid |}).
Proof.
  destruct (distinct_texts texts) as (once & Hd & _ & Honce).
  destruct (distinct_texts (sorted_strings once)) as (perms & Hp & _ & Hin).
  unfold create_token. rewrite Hd. unfold json_sorted. rewrite mapM_as_str. cbn [rbind].
  assert (frozenset (JArr (JStr <$> sorted_strings once)) = Ok (JStr <$> perms)) as Hf
    by (unfold frozenset; by rewrite hashable_texts, Hp).
  pose proof (json_ok_texts (sorted_strings once)) as Hk. revert Hf Hk. generalize (JStr <$> sorted_strings once). intros arr Hf Hk.
  set (header := JObj _). set (payload := JObj _).
  destruct (sign_encoded (token_dumps header) (token_dumps payload) secret) as [data Hs]. rewrite Hs. cbn [rbind].
  eexists _, perms. split; [done|]. split; [intros t; by rewrite Hin, sorted_strings_in|]. intros now' issuer' audience' expected.
  unfold decode_token. rewrite split_token, Hs. cbn [rbind]. unfold compare_digest. rewrite b64_ascii. cbn [andb rbind].
  rewrite String.eqb_refl. cbn [negb refuse_token raise_if rbind].
  rewrite (decode_part_text header eq_refl). cbn [rbind].
  assert (json_ok payload = true) as Hok.
  { subst payload. cbn. fold (forallb json_ok). by rewrite Hk. }
  rewrite (decode_part_text payload Hok). cbn [rbind]. subst header payload. cbn -[refuse_token frozenset distinct json_is].
  rewrite Hf. cbn [rbind]. done.
Qed.

(** C29: A token that was issued can be read back until it expires, under the same
    secret, issuer, audience and type: [decode_token] then returns the subject,
    the type, the times and the identifier that were given, and grants exactly
    the permissions it was issued for, whatever their text. *)
Theorem token_roundtrip now uuid subject texts token_type ttl secret issuer audience now' expected :
  now' < now + ttl -> expected = None \/ expected = Some token_type ->
  exists token p,
    create_token now uuid subject (JStr <$> texts) token_type ttl secret issuer audience = Ok token /\
    decode_token now' token secret issuer audience expected = Ok p /\
    tp_subject p = subject /\ tp_token_type p = token_type /\ tp_issued_at p = now /\ tp_expires_at p = now + ttl /\
    tp_jti p = to_hex 32 uuid /\ forall permission, grants (tp_permissions p) permission = true <-> permission ∈ texts.
Proof.
  intros Hnow Hexp.
  destruct (create_decode now uuid subject texts token_type ttl secret issuer audience) as (token & perms & Hc & Hin & Hd).
  exists token. eexists. split; [done|]. rewrite Hd, (proj2 (Z.leb_gt _ _) Hnow), !String.eqb_refl.
  cbn [negb refuse_token raise_if rbind]. replace (match expected with Some t => negb (token_type =? t)%string | None => false end) with false
    by (destruct Hexp as [->| ->]; [done|by rewrite String.eqb_refl]).
  split_and!; [done..|]. intros permission. rewrite <- Hin. apply grants_texts.
Qed.

Lemma token_roundtrip_witness : exists token p,
  create_token 1000 7 "u1" (JStr <$> ["system:read"; "a\b"]%string) "access" 900 "k" "iss" "aud" = Ok token /\
  decode_token 1899 token "k" "iss" "aud" (Some "access") = Ok p /\
  tp_subject p = "u1"%string /\ tp_token_type p = "access"%string /\ tp_issued_at p = 1000 /\ tp_expires_at p = 1900 /\
  tp_jti p = to_hex 32 7 /\ forall permission, grants (tp_permissions p) permission = true <-> permission ∈ ["system:read"; "a\b"]%string.
Proof.
  apply (token_roundtrip 1000 7 "u1" ["system:read"; "a\b"]%string "access" 900 "k" "iss" "aud" 1899 (Some "access"%string));
    [lia|by right].
Defined.

Lemma refuse_token_ok {B} b msg (k : res B) x : (refuse_token b msg ;! k) = Ok x -> b = false /\ k = Ok x.
Proof. unfold refuse_token, raise_if. by destruct b. Qed.

Ltac step_ok H := match type of H with
  | (refuse_token _ _ ;! _) = Ok _ => let Hb := fresh "Hb" in apply refuse_token_ok in H as [Hb H]
  | rbind _ _ = Ok _ => let a := fresh "a" in let Ha := fresh "Ha" in apply rbind_ok in H as (a & Ha & H)
  end.

Lemma json_is_text s j : json_is s j = true -> j = JStr s.
Proof. destruct j; try done. cbn. intros ->%String.eqb_eq. done. Qed.

Lemma claim_text key s j : claim key JNull j = Ok (JStr s) -> forall d, claim key d j = Ok (JStr s).
Proof. destruct j; try done. cbn. destruct (member key l); [done|]. intros [=]. Qed.

(** C28: Every token [decode_token] accepts has three parts of which the third is
    exactly the HMAC-SHA256 signature of the first two under the secret; its
    header names the only algorithm supported; it has not expired; its issuer,
    audience and, where one is expected, type are the ones asked for. *)
Theorem decoded_token_sound now token secret issuer audience expected p :
  decode_token now token secret issuer audience expected = Ok p ->
  exists header_b64 payload_b64 signature header payload,
    split_char "." token = [header_b64; payload_b64; signature] /\ sign header_b64 payload_b64 secret = Ok signature /\
    decode_part header_b64 = Ok header /\ decode_part payload_b64 = Ok payload /\
    claim "alg" JNull header = Ok (JStr ALGORITHM) /\ now < tp_expires_at p /\
    claim "iss" JNull payload = Ok (JStr issuer) /\ claim "aud" JNull payload = Ok (JStr audience) /\
    forall t, expected = Some t -> claim "type" JNull payload = Ok (JStr t) /\ tp_token_type p = t.
Proof.
  intros H. unfold decode_token in H. destruct (split_char "." token) as [|h [|pl [|s [|]]]] eqn:Hs; try done.
  apply rbind_ok in H as (sg & Hsg & H). apply rbind_ok in H as (same & Hsame & H). repeat step_ok H. simplify_eq.
  unfold compare_digest in Hsame. destruct (is_ascii s && is_ascii sg); [|done]. simplify_eq.
  repeat match goal with Hb : negb _ = false |- _ => apply negb_false_iff in Hb end.
  repeat match goal with Hb : json_is _ _ = true |- _ => apply json_is_text in Hb; subst end.
  match goal with Hb : (s =? sg)%string = true |- _ => apply String.eqb_eq in Hb; subst end.
  match goal with Hb : (_ <=? now) = false |- _ => apply Z.leb_gt in Hb end.
  eexists h, pl, sg, _, _. split_and!; try done. intros t ->. cbn.
  match goal with Hb : negb (json_is t _) = false |- _ => apply negb_false_iff, json_is_text in Hb; subst end.
  split; [done|]. match goal with H1 : claim "type" JNull _ = Ok _, H2 : claim "type" (JStr "") _ = Ok _ |- _ =>
    rewrite (claim_text _ _ _ H1) in H2; by simplify_eq end.
Qed.

Definition sample_token : string := Eval vm_compute in
  match create_token 1000 7 "u1" (JStr <$> ["system:read"]%string) "access" 900 "k" "iss" "aud" with Ok t => t | Err _ => "" end.

Lemma decoded_token_sound_witness : exists p header_b64 payload_b64 signature,
  decode_token 1899 sample_token "k" "iss" "aud" (Some "access"%string) = Ok p /\
  split_char "." sample_token = [header_b64; payload_b64; signature] /\ sign header_b64 payload_b64 "k" = Ok signature /\
  1899 < tp_expires_at p /\ tp_token_type p = "access"%string.
Proof.
  destruct (decode_token 1899 sample_token "k" "iss" "aud" (Some "access"%string)) as [p|e] eqn:H; [|vm_compute in H; discriminate].
  destruct (decoded_token_sound _ _ _ _ _ _ _ H) as (h & pl & s & hd & py & H1 & H2 & _ & _ & _ & H3 & _ & _ & H4).
  exists p, h, pl, s. split_and!; [done..|]. by apply H4.
Defined.

(** A text of one type of token is refused wherever another type is expected. *)
Lemma wrong_type_refused now uuid subject texts token_type ttl secret issuer audience other now' :
  other <> token_type ->
  exists token e,
    create_token now uuid subject (JStr <$> texts) token_type ttl secret issuer audience = Ok token /\
    decode_token now' token secret issuer audience (Some other) = Err e /\ exn_cls e = TokenError.
Proof.
  intros Ho. destruct (create_decode now uuid subject texts token_type ttl secret issuer audience) as (token & perms & Hc & _ & Hd).
  exists token. rewrite Hd, !String.eqb_refl, (proj2 (String.eqb_neq token_type other)) by done.
  unfold refuse_token, raise_if, raise. destruct (_ <=? _); cbn; eauto.
Qed.

(** RFC 4231, test case 2; RFC 4648, section 10 *)
Example hmac_vector : String.concat "" (to_hex 2 <$> bytes_of_string (hmac_sha256 "Jefe" "what do ya want for nothing?"))
  = "5bdcc146bf60754e6a042426089575c75a003f089d2739839dec58b964ec3843"%string.
Proof. vm_compute. reflexivity. Qed.
Example b64_vectors : b64url_encode <$> ["f"; "fo"; "foo"; "foob"; "fooba"; "foobar"]%string
  = ["Zg"; "Zm8"; "Zm9v"; "Zm9vYg"; "Zm9vYmE"; "Zm9vYmFy"]%string.
Proof. vm_compute. reflexivity. Qed.
Example floats : int_of_float <$> ["1e3"; "-2.9"; "0.99999999999999999999"; "9007199254740993.0"]%string
  = Ok <$> [1000; -2; 1; 9007199254740992].
Proof. vm_compute. reflexivity. Qed.
