(* ===== verification/WalkForward.v ===== *)
(** Walk-forward testing (src/backtesting/alpha_algo_walk_forward): the schedule
    of windows (windows.py), the periods and their coverage (results.py), the
    statistics over periods (aggregate.py) and the overfitting assessment
    (assessment.py).

    The runner of a window is a parameter, as it is in the code.  Statistics of
    decimals use the arithmetic of [Decimal] at 28 digits. *)

From stdpp Require Import base list strings gmap sorting.
From Stdlib Require Import ZArith QArith Lqa Lia String.
From S2P Require Import Prelude PyBase Hashing Decimal DecimalText Market Backtest BacktestEngine.
Open Scope Z_scope.

Definition refuse_wf (b : bool) (msg : string) : res unit := raise_if b WalkForwardError msg.

(** * windows.py *)

Record WalkForwardConfig := {
  wc_training_records : Z;
  wc_validation_records : Z;
  wc_test_records : Z;
  wc_step_records : Z;
}.

Definition mk_WalkForwardConfig (c : WalkForwardConfig) : res WalkForwardConfig :=
  refuse_wf (wc_training_records c <? 1) "training_records must be at least 1" ;!
  refuse_wf (wc_validation_records c <? 1) "validation_records must be at least 1" ;!
  refuse_wf (wc_test_records c <? 1) "test_records must be at least 1" ;!
  refuse_wf (wc_step_records c <? 1) "step_records must be at least 1" ;!
  refuse_wf (wc_step_records c <? wc_test_records c)
    "step_records must be >= test_records so out-of-sample windows never overlap across periods" ;!
  Ok c.

Record WindowSlice := {
  wl_start_index : Z;
  wl_end_index : Z;
  wl_start_timestamp : datetime;
  wl_end_timestamp : datetime;
}.

Definition mk_WindowSlice (s : WindowSlice) : res WindowSlice :=
  refuse_wf (wl_start_index s <? 0) "start_index must be non-negative" ;!
  refuse_wf (wl_end_index s <=? wl_start_index s) "end_index must be strictly greater than start_index (slices are never empty)" ;!
  refuse_wf (negb (dt_aware (wl_start_timestamp s))) "start_timestamp must be a timezone-aware datetime" ;!
  refuse_wf (negb (dt_aware (wl_end_timestamp s))) "end_timestamp must be a timezone-aware datetime" ;!
  refuse_wf (ts_lt (wl_end_timestamp s) (wl_start_timestamp s)) "start_timestamp must not be after end_timestamp" ;!
  Ok s.

Record WalkForwardWindow := {
  ww_index : Z;
  ww_train : WindowSlice;
  ww_validation : WindowSlice;
  ww_test : WindowSlice;
  ww_train_input : BacktestInput;
  ww_validation_input : BacktestInput;
  ww_test_input : BacktestInput;
}.

(** [a == b] of aware time stamps *)
Definition ts_eq (a b : datetime) : bool := dt_instant a =? dt_instant b.

Definition check_segment (name : string) (value : BacktestInput) (slice : WindowSlice) : res unit :=
  refuse_wf (negb (record_count value =? wl_end_index slice - wl_start_index slice)) (name +:+ " record count does not match its slice range") ;!
  let! first := first_timestamp value in
  refuse_wf (negb (ts_eq first (wl_start_timestamp slice))) (name +:+ " first timestamp does not match its slice start") ;!
  let! last := last_timestamp value in
  refuse_wf (negb (ts_eq last (wl_end_timestamp slice))) (name +:+ " last timestamp does not match its slice end").

Definition mk_WalkForwardWindow (w : WalkForwardWindow) : res WalkForwardWindow :=
  refuse_wf (ww_index w <? 0) "index must be non-negative" ;!
  refuse_wf (negb (wl_end_index (ww_train w) =? wl_start_index (ww_validation w)))
    "train and validation must be contiguous (no intra-window gaps)" ;!
  refuse_wf (negb (wl_end_index (ww_validation w) =? wl_start_index (ww_test w)))
    "validation and test must be contiguous (no intra-window gaps)" ;!
  refuse_wf (negb (wl_start_index (ww_train w) <? wl_end_index (ww_test w)))
    "window slices must be strictly ordered (train before validation before test)" ;!
  refuse_wf (negb (ts_lt (wl_start_timestamp (ww_train w)) (wl_end_timestamp (ww_validation w)) &&
                   ts_lt (wl_end_timestamp (ww_validation w)) (wl_end_timestamp (ww_test w))))
    "window boundary timestamps must be strictly increasing" ;!
  check_segment "train_input" (ww_train_input w) (ww_train w) ;!
  check_segment "validation_input" (ww_validation_input w) (ww_validation w) ;!
  check_segment "test_input" (ww_test_input w) (ww_test w) ;!
  Ok w.

Definition in_sample (w : WalkForwardWindow) : res WindowSlice :=
  mk_WindowSlice {| wl_start_index := wl_start_index (ww_train w); wl_end_index := wl_end_index (ww_validation w);
                    wl_start_timestamp := wl_start_timestamp (ww_train w); wl_end_timestamp := wl_end_timestamp (ww_validation w) |}.

Definition in_sample_input (w : WalkForwardWindow) : res BacktestInput :=
  mk_BacktestInput {| bt_dataset_id := bt_dataset_id (ww_train_input w); bt_source := bt_source (ww_train_input w);
                      bt_records := bt_records (ww_train_input w) ++ bt_records (ww_validation_input w);
                      bt_metadata := bt_metadata (ww_train_input w) |}.

(** [l[a:b]] for indices from the front *)
Definition py_slice {A} (l : list A) (a b : Z) : list A := take (Z.to_nat (b - a)) (drop (Z.to_nat a) l).

Definition record_at (i : BacktestInput) (k : Z) : res market_record :=
  match bt_records i !! Z.to_nat k with Some r => Ok r | None => raise IndexError "tuple index out of range" end.

(** [_slice(begin, end)] *)
Definition slice_of (i : BacktestInput) (a b : Z) : res WindowSlice :=
  let! first := record_at i a in
  let! last := record_at i (b - 1) in
  mk_WindowSlice {| wl_start_index := a; wl_end_index := b; wl_start_timestamp := record_timestamp first;
                    wl_end_timestamp := record_timestamp last |}.

Definition sub_input (i : BacktestInput) (a b : Z) : res BacktestInput :=
  mk_BacktestInput {| bt_dataset_id := bt_dataset_id i; bt_source := bt_source i; bt_records := py_slice (bt_records i) a b;
                      bt_metadata := bt_metadata i |}.

Definition window_at (i : BacktestInput) (c : WalkForwardConfig) (index : Z) : res WalkForwardWindow :=
  let start := index * wc_step_records c in
  let train_end := start + wc_training_records c in
  let validation_end := train_end + wc_validation_records c in
  let test_end := validation_end + wc_test_records c in
  let! train := slice_of i start train_end in
  let! validation := slice_of i train_end validation_end in
  let! test := slice_of i validation_end test_end in
  let! train_input := sub_input i start train_end in
  let! validation_input := sub_input i train_end validation_end in
  let! test_input := sub_input i validation_end test_end in
  mk_WalkForwardWindow {| ww_index := index; ww_train := train; ww_validation := validation; ww_test := test;
                          ww_train_input := train_input; ww_validation_input := validation_input; ww_test_input := test_input |}.

Definition span (c : WalkForwardConfig) : Z := wc_training_records c + wc_validation_records c + wc_test_records c.
Definition period_count (i : BacktestInput) (c : WalkForwardConfig) : Z := (record_count i - span c) / wc_step_records c + 1.

Definition build_windows (i : BacktestInput) (c : WalkForwardConfig) : res (list WalkForwardWindow) :=
  refuse_wf (record_count i <? span c)
    ("cannot form a single full window: " +:+ str_Z (record_count i) +:+ " records available, " +:+ str_Z (span c) +:+ " required") ;!
  mapM_res (window_at i c) (Z.of_nat <$> seq 0 (Z.to_nat (period_count i c))).

(** ** Every window can be built *)

(** What [check_record] asks of a record, besides its order. *)
Definition similar (first r : market_record) : Prop :=
  alike first r /\ match r, first with rec_candle c, rec_candle f => cd_timeframe c = cd_timeframe f | _, _ => True end.
Definition quote_ok (r : market_record) : Prop :=
  match r with rec_tick t => match tk_bid t, tk_ask t with Some b, Some a => dgt b a = false | _, _ => True end | _ => True end.

Lemma check_record_iff first previous index r : check_record first previous index r = Ok tt <->
  similar first r /\ quote_ok r /\ (forall p, previous = Some p -> instant p < instant r).
Proof.
  unfold check_record, similar, alike, quote_ok, instant. split.
  - intros H. res_inv. repeat match goal with
    | H : negb _ = false |- _ => apply negb_false_iff in H
    | H : Bool.eqb _ _ = true |- _ => apply Bool.eqb_prop in H
    | H : N.eqb _ _ = true |- _ => apply N.eqb_eq in H
    | H : String.eqb _ _ = true |- _ => apply String.eqb_eq in H
    end.
    split_and!; try done.
    + destruct r, first; try done; match goal with H : negb (bool_decide _) = false |- _ => by apply negb_false_iff, bool_decide_eq_true in H end.
    + destruct r as [|t]; [done|]. destruct (tk_bid t), (tk_ask t); try done. unfold raise_if in *. by destruct (dgt _ _).
    + intros p ->. cbn iota in *. res_inv. unfold ts_lt in *. lia.
  - unfold raise_if. intros (((Hk & Ha & Hi & He & Hs) & Ht) & Hq & Hp). rewrite Hk, Ha, Hi, He, Hs, eqb_reflx, N.eqb_refl, !String.eqb_refl. cbn [negb rbind].
    assert ((match r, first with rec_candle c, rec_candle f => negb (bool_decide (cd_timeframe c = cd_timeframe f)) | _, _ => false end) = false) as ->.
    { destruct r, first; try done. by rewrite bool_decide_eq_true_2. }
    cbn [rbind]. assert (match previous with
      | Some p => (if ts_lt (record_timestamp r) (record_timestamp p) then raise ValueError
                    ("records must be sorted ascending by timestamp (index " +:+ str_Z (Z.of_nat index) +:+ ")") else Ok tt) ;!
                  (if dt_instant (record_timestamp r) =? dt_instant (record_timestamp p) then raise ValueError
                    ("duplicate record timestamp at index " +:+ str_Z (Z.of_nat index)) else Ok tt)
      | None => Ok tt end = Ok tt) as ->.
    { destruct previous as [p|]; [|done]. specialize (Hp p eq_refl). unfold ts_lt. rewrite (proj2 (Z.ltb_ge _ _)) by lia. cbn.
      by rewrite (proj2 (Z.eqb_neq _ _)) by lia. }
    cbn [rbind]. destruct r as [|t]; [done|]. destruct (tk_bid t), (tk_ask t); try done. by rewrite Hq.
Qed.

Lemma check_records_iff first records : forall previous index, check_records first previous index records = Ok tt <->
  Forall (similar first) records /\ Forall quote_ok records /\ StronglySorted Z.lt (instant <$> records) /\
  (forall p, previous = Some p -> Forall (fun r => instant p < instant r) records).
Proof.
  induction records as [|r rest IH]; intros previous index; cbn [check_records fmap list_fmap].
  { split; [|done]. intros _. repeat split; intros; constructor. }
  split.
  - intros H. res_inv. destruct a. apply check_record_iff in E as (Hs & Hq & Hp). apply IH in K as (HS & HQ & Hord & Hlt).
    specialize (Hlt r eq_refl). split_and!; [by constructor|by constructor|constructor; [done|by apply Forall_fmap]|].
    intros p ->. specialize (Hp p eq_refl). constructor; [done|]. eapply Forall_impl; [exact Hlt|]. cbn. lia.
  - intros (HS & HQ & Hord & Hlt). inversion HS; subst. inversion HQ; subst. inversion Hord; subst.
    assert (check_record first previous index r = Ok tt) as ->.
    { apply check_record_iff. split_and!; [done..|]. intros p Hp. specialize (Hlt p Hp). by inversion Hlt. }
    cbn [rbind]. apply IH. split_and!; try done. intros p [= <-].
    match goal with H : Forall (Z.lt (instant r)) _ |- _ => exact (proj1 (Forall_fmap _ _ _) H) end.
Qed.

(** A checked input, by its records. *)
Lemma input_iff i : mk_BacktestInput i = Ok i <->
  is_blank (bt_dataset_id i) = false /\ is_blank (bt_source i) = false /\
  exists first, head (bt_records i) = Some first /\ Forall (similar first) (bt_records i) /\ Forall quote_ok (bt_records i) /\
    StronglySorted Z.lt (instant <$> bt_records i).
Proof.
  unfold mk_BacktestInput, raise_if. split.
  - intros H. destruct (is_blank (bt_dataset_id i)), (is_blank (bt_source i)); try done. cbn in H.
    destruct (bt_records i) as [|first rest] eqn:E; [done|]. apply rbind_ok in H as ([] & H & _).
    apply check_records_iff in H as (H1 & H2 & H3 & _). split_and!; [done..|]. by exists first.
  - intros (-> & -> & first & Hh & H1 & H2 & H3). cbn. destruct (bt_records i) as [|f rest] eqn:E; [done|]. cbn in Hh. simplify_eq.
    rewrite (proj2 (check_records_iff first (first :: rest) None 0)); [done|]. by split_and!.
Qed.

Lemma similar_trans f a b : similar f a -> similar f b -> similar a b.
Proof.
  intros ((K1 & A1 & I1 & E1 & S1) & T1) ((K2 & A2 & I2 & E2 & S2) & T2). split; [split_and!; congruence|].
  destruct f, a, b; cbn in *; congruence.
Qed.

Lemma sorted_lookup l j k x y : StronglySorted Z.lt l -> l !! j = Some x -> l !! k = Some y -> (j < k)%nat -> x < y.
Proof.
  intros Hs. revert j k. induction Hs as [|a l Hs IH Ha]; intros j k Hj Hk Hlt; [done|].
  destruct k as [|k]; [lia|]. destruct j as [|j]; cbn in *; [|by apply (IH j k); [..|lia]]. simplify_eq.
  rewrite Forall_forall in Ha. apply Ha. by eapply list_elem_of_lookup_2.
Qed.

Lemma sorted_slice (l : list Z) n m : StronglySorted Z.lt l -> StronglySorted Z.lt (take m (drop n l)).
Proof.
  intros H. apply (StronglySorted_app_1_l Z.lt _ (drop m (drop n l))). rewrite take_drop.
  apply (StronglySorted_app_1_r Z.lt (take n l)). by rewrite take_drop.
Qed.

Section Windows.
Context (i : BacktestInput) (Hi : mk_BacktestInput i = Ok i).

Lemma records_ascending j k x y : bt_records i !! j = Some x -> bt_records i !! k = Some y -> (j < k)%nat -> instant x < instant y.
Proof.
  intros Hj Hk Hlt. apply input_iff in Hi as (_ & _ & f & _ & _ & _ & Hs).
  eapply (sorted_lookup _ j k); [exact Hs| | |done]; by rewrite list_lookup_fmap, ?Hj, ?Hk.
Qed.

Lemma records_aware j x : bt_records i !! j = Some x -> dt_aware (record_timestamp x) = true.
Proof.
  intros Hj. apply input_iff in Hi as (_ & _ & f & _ & Hf & _ & _). rewrite Forall_forall in Hf.
  destruct (Hf x) as [(_ & H & _) _]; [by eapply list_elem_of_lookup_2|done].
Qed.

Lemma record_at_ok k : 0 <= k < record_count i -> exists r, record_at i k = Ok r /\ bt_records i !! Z.to_nat k = Some r.
Proof.
  intros Hk. unfold record_at. destruct (bt_records i !! Z.to_nat k) as [r|] eqn:E; [by exists r|].
  apply lookup_ge_None in E. unfold record_count in Hk. lia.
Qed.

Definition slice_value (a b : Z) (first last : market_record) : WindowSlice :=
  {| wl_start_index := a; wl_end_index := b; wl_start_timestamp := record_timestamp first; wl_end_timestamp := record_timestamp last |}.

Lemma slice_of_ok a b : 0 <= a < b -> b <= record_count i -> exists first last,
  slice_of i a b = Ok (slice_value a b first last) /\ bt_records i !! Z.to_nat a = Some first /\
  bt_records i !! Z.to_nat (b - 1) = Some last /\ instant first <= instant last.
Proof.
  intros Ha Hb. destruct (record_at_ok a) as (f & Ef & Hf); [lia|]. destruct (record_at_ok (b - 1)) as (l & El & Hl); [lia|].
  assert (instant f <= instant l) as Hle.
  { destruct (decide (a = b - 1)) as [->|Hne]; [by simplify_eq|]. apply Z.lt_le_incl. apply (records_ascending (Z.to_nat a) (Z.to_nat (b - 1))); [done..|lia]. }
  exists f, l. split_and!; try done. unfold slice_of. rewrite Ef, El. cbn [rbind]. unfold mk_WindowSlice, slice_value, refuse_wf, raise_if. cbn.
  rewrite (proj2 (Z.ltb_ge a 0)), (proj2 (Z.leb_gt b a)), (records_aware _ _ Hf), (records_aware _ _ Hl) by lia. cbn.
  unfold ts_lt. unfold instant in Hle. by rewrite (proj2 (Z.ltb_ge _ _)) by lia.
Qed.

Definition sub_value (a b : Z) : BacktestInput :=
  {| bt_dataset_id := bt_dataset_id i; bt_source := bt_source i; bt_records := py_slice (bt_records i) a b; bt_metadata := bt_metadata i |}.

Lemma slice_lookup a b k : 0 <= a -> a <= b -> (Z.of_nat k < b - a) -> py_slice (bt_records i) a b !! k = bt_records i !! (Z.to_nat a + k)%nat.
Proof. intros Ha Hb Hk. unfold py_slice. rewrite lookup_take_lt by lia. by rewrite lookup_drop. Qed.

Lemma slice_length a b : 0 <= a <= b -> b <= record_count i -> Z.of_nat (List.length (py_slice (bt_records i) a b)) = b - a.
Proof. intros Ha Hb. unfold py_slice. rewrite length_take, length_drop. unfold record_count in Hb. lia. Qed.

Lemma sub_input_ok a b : 0 <= a < b -> b <= record_count i -> sub_input i a b = Ok (sub_value a b).
Proof.
  intros Ha Hb. unfold sub_input. fold (sub_value a b). apply input_iff. apply input_iff in Hi as (H1 & H2 & f & Hf & H3 & H4 & H5).
  split_and!; [done..|]. pose proof (slice_length a b ltac:(lia) Hb) as Hlen. cbn [bt_records sub_value].
  destruct (py_slice (bt_records i) a b) as [|g rest] eqn:E; [cbn in Hlen; lia|]. exists g. rewrite <- E.
  assert (Forall (similar f) (py_slice (bt_records i) a b)) as Hs by (unfold py_slice; by apply Forall_take, Forall_drop).
  split_and!; [by rewrite E| |unfold py_slice; by apply Forall_take, Forall_drop|].
  - eapply Forall_impl; [exact Hs|]. intros r Hr. eapply similar_trans; [|exact Hr]. rewrite E in Hs. by inversion Hs.
  - unfold py_slice. rewrite fmap_take, fmap_drop. by apply sorted_slice.
Qed.

Lemma segment_ok name a b first last : 0 <= a < b -> b <= record_count i ->
  bt_records i !! Z.to_nat a = Some first -> bt_records i !! Z.to_nat (b - 1) = Some last ->
  check_segment name (sub_value a b) (slice_value a b first last) = Ok tt.
Proof.
  intros Ha Hb Hf Hl. pose proof (slice_length a b ltac:(lia) Hb) as Hlen. unfold check_segment, record_count. cbn [bt_records sub_value slice_value wl_end_index wl_start_index].
  rewrite Hlen, Z.eqb_refl. cbn [negb refuse_wf raise_if rbind]. unfold first_timestamp, last_timestamp.
  cbn [bt_records sub_value]. rewrite head_lookup, slice_lookup, Nat.add_0_r, Hf by lia. cbn [rbind].
  rewrite last_lookup. replace (Init.Nat.pred (List.length (py_slice (bt_records i) a b))) with (Z.to_nat (b - 1 - a)) by lia.
  rewrite slice_lookup by lia. replace (Z.to_nat a + Z.to_nat (b - 1 - a))%nat with (Z.to_nat (b - 1)) by lia. rewrite Hl. cbn [rbind].
  unfold ts_eq. cbn [wl_start_timestamp wl_end_timestamp]. by rewrite !Z.eqb_refl.
Qed.

Context (c : WalkForwardConfig) (Hc : mk_WalkForwardConfig c = Ok c).

Lemma config_bounds : 1 <= wc_training_records c /\ 1 <= wc_validation_records c /\ 1 <= wc_test_records c /\ 1 <= wc_step_records c /\
  wc_test_records c <= wc_step_records c.
Proof. unfold mk_WalkForwardConfig, refuse_wf in Hc. clear Hi. res_inv. lia. Qed.

(** The [k]-th window of the schedule. *)
Definition is_window (k : Z) (w : WalkForwardWindow) : Prop :=
  let a := k * wc_step_records c in let t := a + wc_training_records c in let v := t + wc_validation_records c in
  let e := v + wc_test_records c in
  ww_index w = k /\
  wl_start_index (ww_train w) = a /\ wl_end_index (ww_train w) = t /\
  wl_start_index (ww_validation w) = t /\ wl_end_index (ww_validation w) = v /\
  wl_start_index (ww_test w) = v /\ wl_end_index (ww_test w) = e /\
  ww_train_input w = sub_value a t /\ ww_validation_input w = sub_value t v /\ ww_test_input w = sub_value v e.

Lemma window_at_ok k : 0 <= k -> k * wc_step_records c + span c <= record_count i -> exists w, window_at i c k = Ok w /\ is_window k w.
Proof.
  intros Hk Hfit. destruct config_bounds as (H1 & H2 & H3 & H4 & H5). unfold span in Hfit. unfold window_at.
  set (a := k * wc_step_records c) in *. assert (0 <= a) as Ha by (unfold a; lia).
  set (t := a + wc_training_records c). set (v := t + wc_validation_records c). set (e := v + wc_test_records c).
  assert (a < t /\ t < v /\ v < e /\ e <= record_count i) as (Hat & Htv & Hve & He) by lia.
  destruct (slice_of_ok a t) as (f1 & l1 & -> & Ef1 & El1 & O1); [lia..|].
  destruct (slice_of_ok t v) as (f2 & l2 & -> & Ef2 & El2 & O2); [lia..|].
  destruct (slice_of_ok v e) as (f3 & l3 & -> & Ef3 & El3 & O3); [lia..|]. cbn [rbind].
  rewrite !sub_input_ok by lia. cbn [rbind].
  match goal with |- exists w, mk_WalkForwardWindow ?x = Ok w /\ _ => exists x end.
  split; [|unfold is_window; fold a t v e; split_and!; reflexivity].
  unfold mk_WalkForwardWindow. cbn [ww_index ww_train ww_validation ww_test ww_train_input ww_validation_input ww_test_input].
  rewrite !segment_ok by (done || lia). cbn [slice_value wl_start_index wl_end_index wl_start_timestamp wl_end_timestamp].
  rewrite !Z.eqb_refl, (proj2 (Z.ltb_ge k 0)), (proj2 (Z.ltb_lt a e)) by lia. cbn [negb refuse_wf raise_if rbind]. unfold ts_lt.
  assert (instant f1 < instant l2) by (eapply records_ascending; [exact Ef1|exact El2|lia]).
  assert (instant l2 < instant l3) by (eapply records_ascending; [exact El2|exact El3|lia]). unfold instant in *.
  rewrite !(proj2 (Z.ltb_lt _ _)) by done. done.
Qed.

Lemma mapM_res_all {A B} (f : A -> res B) l : (forall x, x ∈ l -> exists y, f x = Ok y) ->
  exists ys, mapM_res f l = Ok ys /\ Forall2 (fun x y => f x = Ok y) l ys.
Proof.
  induction l as [|x l IH]; intros H; [exists []; by split; [|constructor]|]. destruct (H x (list_elem_of_here _ _)) as [y Hy].
  destruct IH as (ys & Hys & Hall); [intros z Hz; apply H; by apply list_elem_of_further|].
  exists (y :: ys). cbn. rewrite Hy, Hys. split; [done|by constructor].
Qed.

(** A record of a segment, by its place in the history. *)
Lemma sub_value_elem a b x : 0 <= a <= b -> b <= record_count i -> x ∈ bt_records (sub_value a b) ->
  exists k, a <= k < b /\ bt_records i !! Z.to_nat k = Some x.
Proof.
  intros Ha Hb Hx. apply list_elem_of_lookup in Hx as [n Hn]. cbn [bt_records sub_value] in Hn.
  pose proof (slice_length a b Ha Hb) as Hlen. pose proof (lookup_lt_Some _ _ _ Hn). rewrite slice_lookup in Hn by lia.
  exists (a + Z.of_nat n). split; [lia|]. by replace (Z.to_nat (a + Z.of_nat n)) with (Z.to_nat a + n)%nat by lia.
Qed.

Lemma segments_ascending a b a' b' x y : 0 <= a <= b -> b <= a' -> a' <= b' -> b' <= record_count i ->
  x ∈ bt_records (sub_value a b) -> y ∈ bt_records (sub_value a' b') -> instant x < instant y.
Proof.
  intros Ha Hab Hb Hn Hx Hy. apply sub_value_elem in Hx as (j & Hj & Ej); [|lia..]. apply sub_value_elem in Hy as (k & Hk & Ek); [|lia..].
  eapply records_ascending; [exact Ej|exact Ek|lia].
Qed.

Lemma build_windows_ok : span c <= record_count i -> exists ws, build_windows i c = Ok ws /\
  Z.of_nat (List.length ws) = period_count i c /\ (forall k w, ws !! k = Some w -> is_window (Z.of_nat k) w) /\
  (forall k, Z.of_nat k < period_count i c -> Z.of_nat k * wc_step_records c + span c <= record_count i) /\
  record_count i < period_count i c * wc_step_records c + span c.
Proof.
  intros Hs. destruct config_bounds as (H1 & H2 & H3 & H4 & H5). unfold build_windows.
  assert (1 <= period_count i c) as Hp by (unfold period_count; pose proof (Z.div_pos (record_count i - span c) (wc_step_records c)); lia).
  assert (forall k, Z.of_nat k < period_count i c -> Z.of_nat k * wc_step_records c + span c <= record_count i) as Hfit.
  { intros k Hk. unfold period_count in Hk. pose proof (Z.mul_div_le (record_count i - span c) (wc_step_records c) ltac:(lia)). nia. }
  destruct (mapM_res_all (window_at i c) (Z.of_nat <$> seq 0 (Z.to_nat (period_count i c)))) as (ws & Hws & Hall).
  { intros x (k & -> & Hk)%list_elem_of_fmap. apply elem_of_seq in Hk. destruct (window_at_ok (Z.of_nat k)) as (w & Hw & _); [lia|apply Hfit; lia|eauto]. }
  exists ws. rewrite (proj2 (Z.ltb_ge _ _)) by lia. split_and!; [done| | |done|].
  - apply Forall2_length in Hall. rewrite length_fmap, length_seq in Hall. lia.
  - intros k w Hk. destruct (Forall2_lookup_r _ _ _ _ _ Hall Hk) as (x & Hx & Hwx). rewrite list_lookup_fmap in Hx.
    apply fmap_Some in Hx as (n & Hn & ->). apply lookup_seq in Hn as [-> Hlt]. cbn in *.
    destruct (window_at_ok (Z.of_nat k)) as (w' & Hw' & Hi'); [lia|apply Hfit; lia|]. rewrite Hw' in Hwx. by simplify_eq.
  - unfold period_count. pose proof (Z.mul_succ_div_gt (record_count i - span c) (wc_step_records c) ltac:(lia)). lia.
Qed.

(** C34: The schedule is exactly the uniform one, and it never looks ahead: a
    history shorter than one window is refused; otherwise every window that fits
    is built and no other, the [k]-th from the [k * step]-th record on, its three
    inputs being those records of the history; within a window every in-sample
    record is strictly before every test record, and the test records of a period
    are strictly before those of any later period. *)
Theorem schedule_forward_and_disjoint :
  (record_count i < span c -> exists e, build_windows i c = Err e /\ exn_cls e = WalkForwardError) /\
  (span c <= record_count i -> exists ws, build_windows i c = Ok ws /\
     Z.of_nat (List.length ws) = period_count i c /\
     record_count i < period_count i c * wc_step_records c + span c /\
     (forall k w, ws !! k = Some w -> is_window (Z.of_nat k) w /\
        forall x y, x ∈ bt_records (ww_train_input w) ++ bt_records (ww_validation_input w) -> y ∈ bt_records (ww_test_input w) ->
          instant x < instant y) /\
     (forall j k wj wk x y, (j < k)%nat -> ws !! j = Some wj -> ws !! k = Some wk ->
        x ∈ bt_records (ww_test_input wj) -> y ∈ bt_records (ww_test_input wk) -> instant x < instant y)).
Proof.
  destruct config_bounds as (H1 & H2 & H3 & H4 & H5). split.
  - intros Hs. unfold build_windows, refuse_wf, raise_if, raise. rewrite (proj2 (Z.ltb_lt _ _)) by done. cbn. eauto.
  - intros Hs. destruct (build_windows_ok Hs) as (ws & Hws & Hlen & Hw & Hfit & Hlast). exists ws. split_and!; try done.
    + intros k w Hk. pose proof (Hw k w Hk) as Hi'. split; [done|].
      pose proof (Hfit k ltac:(apply lookup_lt_Some in Hk; lia)) as Hf. unfold span in Hf.
      destruct Hi' as (_ & _ & _ & _ & _ & _ & _ & -> & -> & ->). intros x y [Hx|Hx]%elem_of_app Hy;
        (eapply segments_ascending; [| | | |exact Hx|exact Hy]; nia).
    + intros j k wj wk x y Hjk Hj Hk Hx Hy. pose proof (Hfit k ltac:(apply lookup_lt_Some in Hk; lia)) as Hf. unfold span in Hf.
      destruct (Hw _ _ Hj) as (_ & _ & _ & _ & _ & _ & _ & _ & _ & Ej). destruct (Hw _ _ Hk) as (_ & _ & _ & _ & _ & _ & _ & _ & _ & Ek).
      rewrite Ej in Hx. rewrite Ek in Hy. eapply segments_ascending; [| | | |exact Hx|exact Hy]; nia.
Qed.
End Windows.

(** * Equality of windows ([dataclass] equality) *)

Definition opt_eqb {A} (eqb : A -> A -> bool) (x y : option A) : bool :=
  match x, y with Some a, Some b => eqb a b | None, None => true | _, _ => false end.

Fixpoint list_eqb {A} (eqb : A -> A -> bool) (l k : list A) : bool :=
  match l, k with [], [] => true | x :: l', y :: k' => eqb x y && list_eqb eqb l' k' | _, _ => false end.

Definition record_eqb (a b : market_record) : bool :=
  match a, b with
  | rec_candle x, rec_candle y =>
      (cd_instrument_id x =? cd_instrument_id y)%N && String.eqb (cd_exchange x) (cd_exchange y) && String.eqb (cd_symbol x) (cd_symbol y) &&
      bool_decide (cd_timeframe x = cd_timeframe y) && ts_eq (cd_candle_start x) (cd_candle_start y) &&
      deq (cd_open_price x) (cd_open_price y) && deq (cd_high_price x) (cd_high_price y) && deq (cd_low_price x) (cd_low_price y) &&
      deq (cd_close_price x) (cd_close_price y) && opt_eqb Z.eqb (cd_volume x) (cd_volume y) &&
      String.eqb (cd_source_broker x) (cd_source_broker y) && ts_eq (cd_generated_at x) (cd_generated_at y)
  | rec_tick x, rec_tick y =>
      (tk_instrument_id x =? tk_instrument_id y)%N && String.eqb (tk_exchange x) (tk_exchange y) && String.eqb (tk_symbol x) (tk_symbol y) &&
      ts_eq (tk_timestamp x) (tk_timestamp y) && deq (tk_ltp x) (tk_ltp y) && opt_eqb Z.eqb (tk_volume x) (tk_volume y) &&
      opt_eqb deq (tk_bid x) (tk_bid y) && opt_eqb deq (tk_ask x) (tk_ask y) &&
      opt_eqb Z.eqb (tk_bid_quantity x) (tk_bid_quantity y) && opt_eqb Z.eqb (tk_ask_quantity x) (tk_ask_quantity y) &&
      String.eqb (tk_source_broker x) (tk_source_broker y) && String.eqb (tk_source_sequence x) (tk_source_sequence y) &&
      ts_eq (tk_received_at x) (tk_received_at y)
  | _, _ => false
  end.

Definition input_eqb (a b : BacktestInput) : bool :=
  String.eqb (bt_dataset_id a) (bt_dataset_id b) && String.eqb (bt_source a) (bt_source b) &&
  list_eqb record_eqb (bt_records a) (bt_records b) && bool_decide (bt_metadata a = bt_metadata b).

Definition slice_eqb (a b : WindowSlice) : bool :=
  (wl_start_index a =? wl_start_index b) && (wl_end_index a =? wl_end_index b) &&
  ts_eq (wl_start_timestamp a) (wl_start_timestamp b) && ts_eq (wl_end_timestamp a) (wl_end_timestamp b).

Definition window_eqb (a b : WalkForwardWindow) : bool :=
  (ww_index a =? ww_index b) && slice_eqb (ww_train a) (ww_train b) && slice_eqb (ww_validation a) (ww_validation b) &&
  slice_eqb (ww_test a) (ww_test b) && input_eqb (ww_train_input a) (ww_train_input b) &&
  input_eqb (ww_validation_input a) (ww_validation_input b) && input_eqb (ww_test_input a) (ww_test_input b).

Lemma deq_refl d : deq d d = true.
Proof. unfold deq, dcmp. by rewrite Z.compare_refl. Qed.

Lemma opt_eqb_refl {A} (eqb : A -> A -> bool) x : (forall a, eqb a a = true) -> opt_eqb eqb x x = true.
Proof. intros H. destruct x; cbn; auto. Qed.

Lemma window_eqb_refl w : window_eqb w w = true.
Proof.
  assert (forall t, ts_eq t t = true) as Ht by (intros; apply Z.eqb_refl).
  assert (forall r, record_eqb r r = true) as Hr.
  { intros [x|x]; cbn; by rewrite ?N.eqb_refl, ?String.eqb_refl, ?bool_decide_eq_true_2, ?Ht, ?deq_refl, ?opt_eqb_refl by
      (done || apply Z.eqb_refl || apply deq_refl). }
  assert (forall i, input_eqb i i = true) as Hi.
  { intros i. unfold input_eqb. rewrite !String.eqb_refl, bool_decide_eq_true_2, andb_true_r by done. cbn.
    induction (bt_records i) as [|r l IH]; [done|]. cbn. by rewrite Hr. }
  unfold window_eqb, slice_eqb. by rewrite !Z.eqb_refl, !Ht, !Hi.
Qed.

(** * aggregate.py *)

Inductive Metric := total_return | win_rate | profit_factor | max_drawdown_ | sharpe_ratio | trade_count.

Definition AGGREGATED_METRICS : list Metric := [total_return; win_rate; profit_factor; max_drawdown_; sharpe_ratio; trade_count].
Definition DEGRADATION_METRICS : list Metric := [total_return; win_rate; profit_factor; max_drawdown_; sharpe_ratio].

#[export] Instance Metric_eq_dec : EqDecision Metric.
Proof. solve_decision. Defined.

Definition metric_name (m : Metric) : string :=
  match m with
  | total_return => "total_return" | win_rate => "win_rate" | profit_factor => "profit_factor" | max_drawdown_ => "max_drawdown"
  | sharpe_ratio => "sharpe_ratio" | trade_count => "trade_count"
  end.

(** [getattr(metrics, metric)], as a decimal where it is defined *)
Definition metric_value (m : Metric) (b : BacktestMetrics) : option decimal :=
  match m with
  | total_return => Some (bm_total_return b)
  | win_rate => bm_win_rate b
  | profit_factor => bm_profit_factor b
  | max_drawdown_ => Some (bm_max_drawdown b)
  | sharpe_ratio => bm_sharpe_ratio b
  | trade_count => Some (dec_of_Z (bm_trade_count b))
  end.

Definition DEGRADATION_DIRECTIONS (m : Metric) : Z := match m with max_drawdown_ => -1 | _ => 1 end.

Record MetricStats := { ms_mean : option decimal; ms_median : option decimal; ms_stdev : option decimal; ms_count : Z }.

Definition is_none {A} (o : option A) : bool := match o with None => true | _ => false end.

Definition mk_MetricStats (s : MetricStats) : res MetricStats :=
  refuse_wf (ms_count s <? 0) "count must be a non-negative int" ;!
  (if ms_count s =? 0 then
     refuse_wf (negb (is_none (ms_mean s)) || negb (is_none (ms_median s)) || negb (is_none (ms_stdev s)))
       "count == 0 requires all stats to be None"
   else refuse_wf (is_none (ms_mean s) || is_none (ms_median s)) "count > 0 requires mean and median to be defined") ;!
  refuse_wf ((ms_count s =? 1) && negb (is_none (ms_stdev s)))
    "count == 1 must report stdev as None (single-value dispersion is not assessable)" ;!
  Ok s.

Record MetricAggregate := { ma_metric : Metric; ma_is_stats : MetricStats; ma_oos_stats : MetricStats; ma_degradation : option decimal }.

Definition mk_MetricAggregate (a : MetricAggregate) : res MetricAggregate :=
  refuse_wf (bool_decide (ma_metric a = trade_count) && negb (is_none (ma_degradation a)))
    "trade_count degradation is structurally undefined and must be None" ;!
  Ok a.

Record WalkForwardAggregate := { wa_period_count : Z; wa_metrics : list MetricAggregate }.

Definition mk_WalkForwardAggregate (a : WalkForwardAggregate) : res WalkForwardAggregate :=
  refuse_wf (wa_period_count a <? 1) "period_count must be a positive int" ;!
  refuse_wf (negb (bool_decide (ma_metric <$> wa_metrics a = AGGREGATED_METRICS)))
    "metrics must be in AGGREGATED_METRICS order" ;!
  Ok a.

(** [ordered[k]] *)
Definition dec_at (l : list decimal) (k : nat) : res decimal :=
  match l !! k with Some d => Ok d | None => raise IndexError "list index out of range" end.

Definition metric_stats (values : list decimal) : res MetricStats :=
  let count := List.length values in
  match count with
  | O => mk_MetricStats {| ms_mean := None; ms_median := None; ms_stdev := None; ms_count := 0 |}
  | S _ =>
      let n := dec_of_Z (Z.of_nat count) in
      let! mean := ddiv (dsum values) n in
      let ordered := stable_sort dle values in
      let! median :=
        if (count mod 2 =? 1)%nat then dec_at ordered (count / 2)
        else
          let! low := dec_at ordered (count / 2 - 1) in
          let! high := dec_at ordered (count / 2) in
          ddiv (dadd low high) (dec_of_Z 2) in
      let! stdev :=
        if (2 <=? count)%nat then
          let! variance := ddiv (dsum ((fun v => let d := dsub v mean in dmul d d) <$> values)) n in
          let! s := dsqrt variance in Ok (Some s)
        else Ok None in
      mk_MetricStats {| ms_mean := Some mean; ms_median := Some median; ms_stdev := stdev; ms_count := Z.of_nat count |}
  end.

(** * results.py: one period *)

Record WindowBacktestResult := {
  wr_window : WalkForwardWindow;
  wr_is_metrics : BacktestMetrics;
  wr_oos_metrics : BacktestMetrics;
  wr_metadata : metadata;
}.

Definition unit_interval (d : decimal) : bool := dle dzero d && dle d (dec_of_Z 1).

Definition validate_carried_metrics (m : BacktestMetrics) (label : string) : res unit :=
  refuse_wf (bm_trade_count m <? 0) ("runner contract: " +:+ label +:+ ".trade_count must be a non-negative int") ;!
  refuse_wf (match bm_win_rate m with Some w => negb (unit_interval w) | None => false end)
    ("runner contract: " +:+ label +:+ ".win_rate must be None or a finite Decimal in [0, 1]") ;!
  refuse_wf (match bm_profit_factor m with Some p => dlt p dzero | None => false end)
    ("runner contract: " +:+ label +:+ ".profit_factor must be None or a finite non-negative Decimal") ;!
  refuse_wf (negb (unit_interval (bm_max_drawdown m))) ("runner contract: " +:+ label +:+ ".max_drawdown must be a finite Decimal in [0, 1]").

Definition mk_WindowBacktestResult (r : WindowBacktestResult) : res WindowBacktestResult :=
  validate_carried_metrics (wr_is_metrics r) "is_metrics" ;!
  validate_carried_metrics (wr_oos_metrics r) "oos_metrics" ;!
  Ok r.

(** [for index, period in enumerate(periods): period.window.index == index] *)
Definition gap_free (periods : list WindowBacktestResult) : bool :=
  bool_decide ((fun p => ww_index (wr_window p)) <$> periods = Z.of_nat <$> seq 0 (List.length periods)).

Definition degradation_of (m : Metric) (is_stats oos_stats : MetricStats) : res (option decimal) :=
  if bool_decide (m ∈ DEGRADATION_METRICS) then
    match ms_mean is_stats, ms_mean oos_stats with
    | Some is_mean, Some oos_mean =>
        if deq is_mean dzero then Ok None
        else
          let! d := ddiv (dmul (dec_of_Z (DEGRADATION_DIRECTIONS m)) (dsub is_mean oos_mean)) (dabs is_mean) in
          Ok (Some d)
    | _, _ => Ok None
    end
  else Ok None.

Definition aggregate_metric (periods : list WindowBacktestResult) (m : Metric) : res MetricAggregate :=
  let! is_stats := metric_stats (omap (fun p => metric_value m (wr_is_metrics p)) periods) in
  let! oos_stats := metric_stats (omap (fun p => metric_value m (wr_oos_metrics p)) periods) in
  let! degradation := degradation_of m is_stats oos_stats in
  mk_MetricAggregate {| ma_metric := m; ma_is_stats := is_stats; ma_oos_stats := oos_stats; ma_degradation := degradation |}.

Definition aggregate_periods (periods : list WindowBacktestResult) : res WalkForwardAggregate :=
  refuse_wf (match periods with [] => true | _ => false end) "periods must be a non-empty tuple of WindowBacktestResult" ;!
  refuse_wf (negb (gap_free periods)) "periods must be strictly ascending and gap-free (window.index must equal the position)" ;!
  let! metrics := mapM_res (aggregate_metric periods) AGGREGATED_METRICS in
  mk_WalkForwardAggregate {| wa_period_count := Z.of_nat (List.length periods); wa_metrics := metrics |}.

(** * results.py: the run *)

Record WalkForwardResult := {
  wo_config : WalkForwardConfig;
  wo_input_sha256 : string;
  wo_dataset_id : string;
  wo_source : string;
  wo_periods : list WindowBacktestResult;
  wo_aggregate : WalkForwardAggregate;
  wo_record_count : Z;
  wo_covered_records : Z;
  wo_uncovered_records : Z;
}.

Definition mk_WalkForwardResult (r : WalkForwardResult) : res WalkForwardResult :=
  refuse_wf (is_blank (wo_input_sha256 r)) "input_sha256 must be a non-empty string" ;!
  refuse_wf (is_blank (wo_dataset_id r)) "dataset_id must be a non-empty string" ;!
  refuse_wf (is_blank (wo_source r)) "source must be a non-empty string" ;!
  refuse_wf (match wo_periods r with [] => true | _ => false end) "periods must be a non-empty tuple of WindowBacktestResult" ;!
  refuse_wf (negb (gap_free (wo_periods r)))
    "periods must be strictly ascending and gap-free (window.index must equal the period position)" ;!
  refuse_wf (negb (wa_period_count (wo_aggregate r) =? Z.of_nat (List.length (wo_periods r)))) "aggregate.period_count must equal len(periods)" ;!
  refuse_wf (wo_record_count r <? 0) "record_count must be a non-negative int" ;!
  refuse_wf (wo_covered_records r <? 0) "covered_records must be a non-negative int" ;!
  refuse_wf (wo_uncovered_records r <? 0) "uncovered_records must be a non-negative int" ;!
  refuse_wf (negb (wo_covered_records r + wo_uncovered_records r =? wo_record_count r))
    "covered_records + uncovered_records must equal record_count" ;!
  Ok r.

Definition wo_windows (r : WalkForwardResult) : list WalkForwardWindow := wr_window <$> wo_periods r.

(** [covered[a:b] = b"\x01" * (b - a)] *)
Definition mark_range (a b : Z) (covered : list bool) : list bool :=
  imap (fun k c => c || ((a <=? Z.of_nat k) && (Z.of_nat k <? b))) covered.

Definition mark_slice (covered : list bool) (s : WindowSlice) : list bool := mark_range (wl_start_index s) (wl_end_index s) covered.
Definition mark_window (covered : list bool) (w : WalkForwardWindow) : list bool :=
  foldl mark_slice covered [ww_train w; ww_validation w; ww_test w].

Definition covered_count (n : nat) (ws : list WalkForwardWindow) : Z :=
  Z.of_nat (List.length (List.filter id (foldl mark_window (replicate n false) ws))).

Definition run_window (runner : WalkForwardWindow -> res WindowBacktestResult) (w : WalkForwardWindow) : res WindowBacktestResult :=
  let! result := runner w in
  refuse_wf (negb (window_eqb (wr_window result) w))
    ("runner contract: period " +:+ str_Z (ww_index w) +:+ " returned a result for a different window") ;!
  Ok result.

Definition run_walk_forward (i : BacktestInput) (c : WalkForwardConfig) (runner : WalkForwardWindow -> res WindowBacktestResult)
    : res WalkForwardResult :=
  let! windows := build_windows i c in
  let! periods := mapM_res (run_window runner) windows in
  let! aggregate := aggregate_periods periods in
  let covered := covered_count (List.length (bt_records i)) windows in
  mk_WalkForwardResult {| wo_config := c; wo_input_sha256 := content_sha256 (bt_records i); wo_dataset_id := bt_dataset_id i;
                          wo_source := bt_source i; wo_periods := periods; wo_aggregate := aggregate; wo_record_count := record_count i;
                          wo_covered_records := covered; wo_uncovered_records := record_count i - covered |}.

(** * assessment.py *)

Definition DEGRADATION_THRESHOLD : decimal := Dec false 5 (-1).
Definition LOW_TRADE_COUNT_THRESHOLD : Z := 30.
Definition MAX_RETURN_SANITY_BOUND : decimal := dec_of_Z 100.
Definition DEPENDENCY_CV_THRESHOLD : decimal := Dec false 10 (-1).
Definition MIN_PERIODS_FOR_ASSESSMENT : Z := 3.

Inductive FlagName := degradation_flag (m : Metric) | low_oos_trade_count | unrealistic_oos_return | high_period_dependency.
Inductive OverfittingRisk := risk_LOW | risk_MEDIUM | risk_HIGH.

#[export] Instance FlagName_eq_dec : EqDecision FlagName.
Proof. solve_decision. Defined.
#[export] Instance OverfittingRisk_eq_dec : EqDecision OverfittingRisk.
Proof. solve_decision. Defined.

Definition OVERFITTING_FLAG_NAMES : list FlagName :=
  (degradation_flag <$> DEGRADATION_METRICS) ++ [low_oos_trade_count; unrealistic_oos_return; high_period_dependency].

Definition flag_severity (f : FlagName) : OverfittingRisk :=
  match f with
  | degradation_flag _ => risk_HIGH
  | low_oos_trade_count => risk_MEDIUM
  | unrealistic_oos_return => risk_HIGH
  | high_period_dependency => risk_MEDIUM
  end.

Definition severity_rank (r : OverfittingRisk) : Z := match r with risk_LOW => 0 | risk_MEDIUM => 1 | risk_HIGH => 2 end.

Definition flag_description (f : FlagName) : string :=
  match f with
  | degradation_flag m => "OOS " +:+ metric_name m +:+ " degradation exceeds the fixed threshold"
  | low_oos_trade_count => "Mean OOS trade count is below the fixed minimum"
  | unrealistic_oos_return => "A single OOS window return exceeds the fixed sanity bound"
  | high_period_dependency => "OOS total_return coefficient of variation exceeds the fixed threshold"
  end.

Record OverfittingFlag := {
  of_name : FlagName;
  of_description : string;
  of_triggered : bool;
  of_severity : OverfittingRisk;
  of_detail : option string;
}.

Definition mk_flag (name : FlagName) (triggered : bool) (detail : option string) : OverfittingFlag :=
  {| of_name := name; of_description := flag_description name; of_triggered := triggered; of_severity := flag_severity name;
     of_detail := detail |}.

Record OverfittingAssessment := {
  oa_risk : OverfittingRisk;
  oa_flags : list OverfittingFlag;
  oa_reasons : list string;
  oa_period_count : Z;
}.

Definition mk_OverfittingAssessment (a : OverfittingAssessment) : res OverfittingAssessment :=
  refuse_wf (negb (bool_decide (of_name <$> oa_flags a = OVERFITTING_FLAG_NAMES)))
    "flags must contain exactly one OverfittingFlag per OVERFITTING_FLAG_NAMES" ;!
  refuse_wf (match oa_reasons a with [] => true | _ => false end) "reasons must be a non-empty tuple of strings" ;!
  refuse_wf (existsb is_blank (oa_reasons a)) "reasons entries must be non-empty strings" ;!
  refuse_wf (oa_period_count a <? 0) "period_count must be a non-negative int" ;!
  Ok a.

(** [by_metric[metric]] *)
Definition by_metric (a : WalkForwardAggregate) (m : Metric) : res MetricAggregate :=
  match list_find (fun e => ma_metric e = m) (wa_metrics a) with
  | Some (_, e) => Ok e
  | None => raise KeyError (metric_name m)
  end.

Definition opt_dec_str (o : option decimal) : string := match o with Some d => dec_str d | None => "None" end.

Definition degradation_detail (e : MetricAggregate) : string :=
  "degradation=" +:+ opt_dec_str (ma_degradation e) +:+ " (> " +:+ dec_str DEGRADATION_THRESHOLD +:+ "); IS mean=" +:+
  opt_dec_str (ms_mean (ma_is_stats e)) +:+ "; OOS mean=" +:+ opt_dec_str (ms_mean (ma_oos_stats e)).

Definition degradation_entry (a : WalkForwardAggregate) (m : Metric) : res OverfittingFlag :=
  let! e := by_metric a m in
  let triggered := match ma_degradation e with Some d => dgt d DEGRADATION_THRESHOLD | None => false end in
  Ok (mk_flag (degradation_flag m) triggered (if triggered then Some (degradation_detail e) else None)).

Definition max_oos_return (periods : list WindowBacktestResult) : decimal :=
  match (fun p => bm_total_return (wr_oos_metrics p)) <$> periods with [] => dzero | x :: l => foldl dmax x l end.

(** The coefficient of variation, where it is assessable. *)
Definition variation (stats : MetricStats) : res (option decimal) :=
  match ms_stdev stats, ms_mean stats with
  | Some stdev, Some mean => if dgt mean dzero then let! cv := ddiv stdev mean in Ok (Some cv) else Ok None
  | _, _ => Ok None
  end.

(** [max(triggered_flags, key=rank).severity] *)
Definition highest_severity (flags : list OverfittingFlag) : OverfittingRisk :=
  foldl (fun r f => if severity_rank r <? severity_rank (of_severity f) then of_severity f else r) risk_LOW flags.

Definition not_assessable (a : WalkForwardAggregate) (m : Metric) : res (list string) :=
  let! e := by_metric a m in
  Ok (match ma_degradation e with
      | None => ["degradation not assessable for " +:+ metric_name m +:+ ": IS mean is zero or undefined"]
      | Some _ => []
      end).

Definition assess_overfitting (periods : list WindowBacktestResult) (a : WalkForwardAggregate) : res OverfittingAssessment :=
  refuse_wf (match periods with [] => true | _ => false end) "periods must be a non-empty tuple of WindowBacktestResult" ;!
  refuse_wf (negb (wa_period_count a =? Z.of_nat (List.length periods))) "aggregate.period_count must equal len(periods)" ;!
  let period_count := Z.of_nat (List.length periods) in
  let! degradations := mapM_res (degradation_entry a) DEGRADATION_METRICS in
  let! trade_entry := by_metric a trade_count in
  let mean_oos_trades := ms_mean (ma_oos_stats trade_entry) in
  let low_trades := match mean_oos_trades with Some t => dlt t (dec_of_Z LOW_TRADE_COUNT_THRESHOLD) | None => false end in
  let low_flag := mk_flag low_oos_trade_count low_trades (if low_trades then
    Some ("mean OOS trades=" +:+ opt_dec_str mean_oos_trades +:+ " (< " +:+ str_Z LOW_TRADE_COUNT_THRESHOLD +:+ ")") else None) in
  let best := max_oos_return periods in
  let unrealistic := dgt best MAX_RETURN_SANITY_BOUND in
  let unrealistic_flag := mk_flag unrealistic_oos_return unrealistic (if unrealistic then
    Some ("max OOS window return=" +:+ dec_str best +:+ " (> " +:+ dec_str MAX_RETURN_SANITY_BOUND +:+ ")") else None) in
  let! total_entry := by_metric a total_return in
  let! cv := variation (ma_oos_stats total_entry) in
  let dependency := match cv with Some v => dgt v DEPENDENCY_CV_THRESHOLD | None => false end in
  let dependency_flag := mk_flag high_period_dependency dependency (if dependency then
    Some ("OOS total_return CV=" +:+ opt_dec_str cv +:+ " (> " +:+ dec_str DEPENDENCY_CV_THRESHOLD +:+ "); stdev=" +:+
          opt_dec_str (ms_stdev (ma_oos_stats total_entry)) +:+ "; mean=" +:+ opt_dec_str (ms_mean (ma_oos_stats total_entry))) else None) in
  let flags := degradations ++ [low_flag; unrealistic_flag; dependency_flag] in
  let triggered := List.filter of_triggered flags in
  let '(risk, first_reasons, degenerate) :=
    if match mean_oos_trades with Some t => deq t dzero | None => false end then
      (risk_LOW, ["zero OOS trades; nothing assessable"%string], true)
    else if period_count <? MIN_PERIODS_FOR_ASSESSMENT then
      (risk_LOW, ["fewer than " +:+ str_Z MIN_PERIODS_FOR_ASSESSMENT +:+ " periods; cross-window statistics are degenerate"], true)
    else match triggered with
         | [] => (risk_LOW, [], false)
         | _ => (highest_severity triggered, [], false)
         end in
  let! gaps := mapM_res (not_assessable a) DEGRADATION_METRICS in
  let reasons := first_reasons ++ mjoin gaps ++ ((fun f => default (of_description f) (of_detail f)) <$> triggered) ++
    (match triggered with [] => if degenerate : bool then [] else ["no overfitting flags triggered"%string] | _ => [] end) in
  mk_OverfittingAssessment {| oa_risk := risk; oa_flags := flags; oa_reasons := reasons; oa_period_count := period_count |}.

(** ** The statistics are always defined *)

Lemma stable_insert_length {A} (le : A -> A -> bool) x l : List.length (stable_insert le x l) = S (List.length l).
Proof. induction l as [|y l IH]; [done|]. cbn. destruct (le x y); cbn; by rewrite ?IH. Qed.
Lemma stable_sort_length {A} (le : A -> A -> bool) l : List.length (stable_sort le l) = List.length l.
Proof. unfold stable_sort. induction l as [|x l IH]; [done|]. cbn. by rewrite stable_insert_length, IH. Qed.

Lemma dec_at_ok l k : (k < List.length l)%nat -> exists d, dec_at l k = Ok d.
Proof. intros H. unfold dec_at. destruct (lookup_lt_is_Some_2 l k H) as [d ->]. eauto. Qed.

Lemma dec_of_pos z : 0 < z -> (0 < dval (dec_of_Z z))%Q.
Proof. intros H. rewrite dval_of_Z. change 0%Q with (inject_Z 0). by rewrite <- Zlt_Qlt. Qed.

Lemma median_ok l n : (0 < n)%nat -> n = List.length l -> exists d,
  (if (n mod 2 =? 1)%nat then dec_at l (n / 2)
   else let! low := dec_at l (n / 2 - 1) in let! high := dec_at l (n / 2) in ddiv (dadd low high) (dec_of_Z 2)) = Ok d.
Proof.
  intros H0 Hn. assert (n / 2 < n)%nat as Hh by (apply Nat.div_lt; lia). rewrite Hn in Hh at 2.
  destruct (_ =? 1)%nat; [by apply dec_at_ok|]. destruct (dec_at_ok l (n / 2 - 1)) as [low ->]; [lia|].
  destruct (dec_at_ok l (n / 2)) as [high ->]; [done|]. cbn [rbind]. apply ddiv_total. by apply dec_of_pos.
Qed.

Lemma stdev_ok mean values n : (0 < n)%nat -> exists s,
  (if (2 <=? n)%nat then
     let! variance := ddiv (dsum ((fun v => dmul (dsub v mean) (dsub v mean)) <$> values)) (dec_of_Z (Z.of_nat n)) in
     let! s := dsqrt variance in Ok (Some s)
   else Ok None) = Ok s /\ (n = 1%nat -> s = None).
Proof.
  intros Hn. assert (0 < dval (dec_of_Z (Z.of_nat n)))%Q as Hc by (apply dec_of_pos; lia).
  destruct (Nat.leb_spec 2 n); [|by eexists]. set (sq := dsum _). destruct (ddiv_total sq _ Hc) as [v Ev]. rewrite Ev. cbn [rbind].
  assert (0 <= dval v)%Q as Hv.
  { apply (ddiv_nonneg _ _ _ Ev); [|done]. apply dsum_nonneg, Forall_fmap, Forall_forall. intros r _. apply dmul_square. }
  destruct (dsqrt_total v Hv) as (sd & -> & _). cbn. eexists. split; [done|]. lia.
Qed.

Lemma metric_stats_total values : exists s, metric_stats values = Ok s /\ ms_count s = Z.of_nat (List.length values) /\
  (is_none (ms_mean s) = true <-> values = []).
Proof.
  unfold metric_stats. destruct (List.length values) as [|m] eqn:Hlen.
  { apply length_zero_iff_nil in Hlen as ->. by eexists. }
  rewrite <- Hlen. set (n := List.length values) in *. assert (0 < n)%nat as H0 by lia.
  destruct (ddiv_total (dsum values) (dec_of_Z (Z.of_nat n))) as [mean ->]; [apply dec_of_pos; lia|]. cbn [rbind].
  destruct (median_ok (stable_sort dle values) n H0) as [median ->]; [by rewrite stable_sort_length|]. cbn [rbind].
  destruct (stdev_ok mean values n H0) as (sd & -> & H1). cbn [rbind]. eexists. split.
  - unfold mk_MetricStats, refuse_wf, raise_if. cbn [ms_count ms_mean ms_median ms_stdev is_none negb orb].
    rewrite (proj2 (Z.ltb_ge (Z.of_nat n) 0)), (proj2 (Z.eqb_neq (Z.of_nat n) 0)) by lia. cbn [rbind].
    destruct (Z.eqb_spec (Z.of_nat n) 1); cbn; [|done]. by rewrite H1 by lia.
  - split; [done|]. split; [done|]. intros ->. cbn in n. lia.
Qed.

Lemma dabs_pos d : deq d dzero = false -> (0 < dval (dabs d))%Q.
Proof.
  intros H. apply deq_false in H. rewrite dval_zero in H. unfold dabs. apply dfix_pos, dval_pos. unfold dz; cbn.
  destruct (N.eq_dec (dcoef d) 0) as [E|]; [|lia]. exfalso. apply H. unfold dval, dz. rewrite E. by destruct (dneg d).
Qed.

Lemma degradation_total m s s' : exists d, degradation_of m s s' = Ok d /\ (m = trade_count -> d = None).
Proof.
  unfold degradation_of. destruct (bool_decide_reflect (m ∈ DEGRADATION_METRICS)) as [Hm|]; [|by eexists].
  assert (m <> trade_count) as Ht by (intros ->; apply list_elem_of_In in Hm; cbn in Hm; intuition discriminate).
  destruct (ms_mean s) as [is_mean|]; [|by eexists]. destruct (ms_mean s') as [oos_mean|]; [|by eexists].
  destruct (deq is_mean dzero) eqn:E; [by eexists|]. destruct (ddiv_total (dmul (dec_of_Z (DEGRADATION_DIRECTIONS m)) (dsub is_mean oos_mean))
    (dabs is_mean) (dabs_pos _ E)) as [d ->]. by eexists.
Qed.

Lemma aggregate_metric_total periods m : exists a, aggregate_metric periods m = Ok a /\ ma_metric a = m.
Proof.
  unfold aggregate_metric. destruct (metric_stats_total (omap (fun p => metric_value m (wr_is_metrics p)) periods)) as (s & -> & _).
  destruct (metric_stats_total (omap (fun p => metric_value m (wr_oos_metrics p)) periods)) as (s' & -> & _). cbn [rbind].
  destruct (degradation_total m s s') as (d & -> & Hd). cbn [rbind]. unfold mk_MetricAggregate, refuse_wf, raise_if. cbn [ma_metric ma_degradation].
  destruct (bool_decide_reflect (m = trade_count)) as [E|]; cbn; [rewrite (Hd E)|]; by eexists.
Qed.

(** Periods in order, one after the other. *)
Lemma aggregate_total periods : periods <> [] -> gap_free periods = true ->
  exists a, aggregate_periods periods = Ok a /\ wa_period_count a = Z.of_nat (List.length periods) /\ ma_metric <$> wa_metrics a = AGGREGATED_METRICS.
Proof.
  intros Hne Hg. unfold aggregate_periods. replace (match periods with [] => true | _ => false end) with false by (by destruct periods).
  rewrite Hg. cbn [negb refuse_wf raise_if rbind].
  destruct (mapM_res_all (aggregate_metric periods) AGGREGATED_METRICS) as (ms & -> & Hall).
  { intros m _. destruct (aggregate_metric_total periods m) as (a & Ha & _). eauto. }
  cbn [rbind]. assert (ma_metric <$> ms = AGGREGATED_METRICS) as Hm.
  { clear -Hall. induction Hall as [|m a l k Ha _ IH]; [done|]. cbn. f_equal; [|exact IH].
    destruct (aggregate_metric_total periods m) as (a' & Ha' & E). rewrite Ha in Ha'. by simplify_eq. }
  eexists. unfold mk_WalkForwardAggregate, refuse_wf, raise_if. cbn [wa_period_count wa_metrics].
  rewrite (proj2 (Z.ltb_ge _ _)) by (destruct periods; [done|cbn; lia]). rewrite Hm, bool_decide_eq_true_2 by done. by cbn.
Qed.

Lemma by_metric_ok a m : ma_metric <$> wa_metrics a = AGGREGATED_METRICS -> exists e, by_metric a m = Ok e /\ ma_metric e = m.
Proof.
  intros H. assert (m ∈ ma_metric <$> wa_metrics a) as Hin by (rewrite H; destruct m; cbn; apply list_elem_of_In; cbn; tauto).
  apply list_elem_of_fmap in Hin as (e0 & Hm & He). unfold by_metric.
  destruct (list_find_elem_of (fun e => ma_metric e = m) (wa_metrics a) e0) as [[k e] E]; [done|done|].
  rewrite E. apply list_find_Some in E as (_ & E & _). by exists e.
Qed.

(** ** Coverage *)

Definition in_range (a b k : Z) : bool := (a <=? k) && (k <? b).

Definition marked (ws : list WalkForwardWindow) (k : Z) : bool :=
  existsb (fun w => in_range (wl_start_index (ww_train w)) (wl_end_index (ww_train w)) k ||
                    in_range (wl_start_index (ww_validation w)) (wl_end_index (ww_validation w)) k ||
                    in_range (wl_start_index (ww_test w)) (wl_end_index (ww_test w)) k) ws.

Lemma mark_range_lookup a b l k : mark_range a b l !! k = (fun c => c || in_range a b (Z.of_nat k)) <$> l !! k.
Proof. unfold mark_range. by rewrite list_lookup_imap. Qed.

Lemma mark_windows_lookup ws : forall l k, foldl mark_window l ws !! k = (fun c => c || marked ws (Z.of_nat k)) <$> l !! k.
Proof.
  induction ws as [|w ws IH]; intros l k; cbn [foldl marked existsb].
  - destruct (l !! k) as [c|]; cbn; by rewrite ?orb_false_r.
  - rewrite IH. unfold mark_window, mark_slice. cbn [foldl]. rewrite !mark_range_lookup. destruct (l !! k) as [c|]; cbn; [|done].
    f_equal. by rewrite !orb_assoc.
Qed.

Lemma mark_windows_eq n ws : foldl mark_window (replicate n false) ws = (fun k => marked ws (Z.of_nat k)) <$> seq 0 n.
Proof.
  apply list_eq. intros k. rewrite mark_windows_lookup, list_lookup_fmap. destruct (decide (k < n)%nat) as [Hk|Hk].
  - rewrite lookup_replicate_2, lookup_seq_lt by done. done.
  - rewrite (proj2 (lookup_ge_None _ _)), (proj2 (lookup_ge_None (seq 0 n) _)) by (rewrite ?length_replicate, ?length_seq; lia). done.
Qed.

(** How many of the first [n] indices satisfy [p]. *)
Definition count_upto (n : nat) (p : Z -> bool) : Z := Z.of_nat (List.length (List.filter id ((fun k => p (Z.of_nat k)) <$> seq 0 n))).

Lemma count_upto_S n p : count_upto (S n) p = count_upto n p + (if p (Z.of_nat n) then 1 else 0).
Proof.
  unfold count_upto. rewrite seq_S, fmap_app, List.filter_app, length_app. cbn. destruct (p (Z.of_nat n)); cbn; lia.
Qed.

Lemma count_upto_or n p q : (forall k, p k = true -> q k = false) -> count_upto n (fun k => p k || q k) = count_upto n p + count_upto n q.
Proof.
  intros H. induction n as [|n IH]; [done|]. rewrite !count_upto_S, IH. specialize (H (Z.of_nat n)). destruct (p (Z.of_nat n)); [rewrite H by done|]; cbn [orb]; lia.
Qed.

Lemma count_upto_range n a b : 0 <= a <= b -> b <= Z.of_nat n -> count_upto n (in_range a b) = b - a.
Proof.
  intros Ha Hb. enough (forall m, count_upto m (in_range a b) = Z.max 0 (Z.min b (Z.of_nat m) - a)) as H by (rewrite H; lia).
  clear n Hb. induction m as [|m IH]; [unfold count_upto; cbn [seq fmap list_fmap List.filter List.length]; lia|]. rewrite count_upto_S, IH. unfold in_range.
  destruct (Z.leb_spec a (Z.of_nat m)), (Z.ltb_spec (Z.of_nat m) b); cbn [andb]; lia.
Qed.

Lemma count_upto_ext n p q : (forall k, 0 <= k -> p k = q k) -> count_upto n p = count_upto n q.
Proof. intros H. induction n as [|n IH]; [done|]. rewrite !count_upto_S, IH, H by lia. done. Qed.

(** Index [k] lies in one of the first [m] windows. *)
Fixpoint scheduled (c : WalkForwardConfig) (m : nat) (k : Z) : bool :=
  match m with
  | O => false
  | S m' => scheduled c m' k || in_range (Z.of_nat m' * wc_step_records c) (Z.of_nat m' * wc_step_records c + span c) k
  end.

Lemma scheduled_bound c m k : 0 <= wc_step_records c -> scheduled c m k = true -> k < (Z.of_nat m - 1) * wc_step_records c + span c.
Proof.
  intros Hs. induction m as [|m IH]; [done|]. cbn [scheduled]. unfold in_range. rewrite orb_true_iff, andb_true_iff, Z.ltb_lt. intros [H|[_ H]]; [|nia].
  specialize (IH H). nia.
Qed.

Lemma scheduled_count c n m : 1 <= wc_step_records c -> 1 <= span c -> (0 < m)%nat ->
  (Z.of_nat m - 1) * wc_step_records c + span c <= Z.of_nat n ->
  count_upto n (scheduled c m) = span c + (Z.of_nat m - 1) * Z.min (wc_step_records c) (span c).
Proof.
  intros Hs Hp. induction m as [|m IH]; intros H0 Hn; [lia|]. destruct (decide (m = 0%nat)) as [->|Hm].
  - rewrite (count_upto_ext _ _ (in_range 0 (span c))) by done. rewrite count_upto_range; lia.
  - set (lo := Z.of_nat m * wc_step_records c + span c - Z.min (wc_step_records c) (span c)).
    rewrite (count_upto_ext _ _ (fun k => scheduled c m k || in_range lo (Z.of_nat m * wc_step_records c + span c) k)).
    + rewrite count_upto_or; [rewrite IH, count_upto_range|].
      * unfold lo. lia.
      * unfold lo. nia.
      * lia.
      * lia.
      * nia.
      * intros k Hk%scheduled_bound; [|lia]. unfold in_range. apply andb_false_iff. left. apply Z.leb_gt. unfold lo. nia.
    + intros k Hk. cbn [scheduled]. destruct (in_range (Z.of_nat m * wc_step_records c) _ k) eqn:E1, (in_range lo _ k) eqn:E2; try done.
      * (* between the two starts: in the window before *)
        rewrite orb_true_r, orb_false_r. symmetry. destruct m as [|m']; [done|]. cbn [scheduled]. apply orb_true_iff. right.
        unfold in_range in *. rewrite andb_true_iff, Z.leb_le, Z.ltb_lt in *. apply andb_false_iff in E2. rewrite Z.leb_gt, Z.ltb_ge in E2.
        unfold lo in E2. nia.
      * exfalso. unfold in_range, lo in *. rewrite andb_true_iff, Z.leb_le, Z.ltb_lt in E2. apply andb_false_iff in E1.
        rewrite Z.leb_gt, Z.ltb_ge in E1. nia.
Qed.

Section Run.
Context (i : BacktestInput) (Hi : mk_BacktestInput i = Ok i) (c : WalkForwardConfig) (Hc : mk_WalkForwardConfig c = Ok c).

Lemma marked_scheduled ws k : (forall j w, ws !! j = Some w -> is_window i c (Z.of_nat j) w) -> marked ws k = scheduled c (List.length ws) k.
Proof.
  destruct (config_bounds c Hc) as (H1 & H2 & H3 & _). induction ws as [|w ws IH] using rev_ind; intros H; [done|].
  unfold marked. rewrite existsb_app, length_app, Nat.add_1_r. cbn [scheduled existsb]. f_equal.
  - apply IH. intros j w' Hj. apply H. by apply lookup_app_l_Some.
  - rewrite orb_false_r. destruct (H (List.length ws) w) as (_ & -> & -> & -> & -> & -> & -> & _).
    { by rewrite lookup_app_r, Nat.sub_diag by lia. }
    unfold in_range, span. destruct (Z.leb_spec (Z.of_nat (List.length ws) * wc_step_records c) k); cbn [andb];
      repeat match goal with |- context [?x <? ?y] => destruct (Z.ltb_spec x y) | |- context [?x <=? ?y] => destruct (Z.leb_spec x y) end; cbn; lia.
Qed.

Lemma covered_formula ws : span c <= record_count i -> build_windows i c = Ok ws ->
  covered_count (List.length (bt_records i)) ws = span c + (period_count i c - 1) * Z.min (wc_step_records c) (span c).
Proof.
  intros Hs Hb. destruct (config_bounds c Hc) as (H1 & H2 & H3 & H4 & H5).
  destruct (build_windows_ok i Hi c Hc Hs) as (ws' & Hb' & Hlen & Hw & Hfit & _). rewrite Hb in Hb'. simplify_eq.
  assert (1 <= period_count i c) as Hp by (unfold period_count; pose proof (Z.div_pos (record_count i - span c) (wc_step_records c)); lia).
  unfold covered_count. rewrite mark_windows_eq. fold (count_upto (List.length (bt_records i)) (marked ws')).
  rewrite (count_upto_ext _ _ (scheduled c (List.length ws'))) by (intros; by apply marked_scheduled).
  rewrite scheduled_count; [by rewrite Hlen|lia|unfold span; lia|lia|].
  specialize (Hfit (List.length ws' - 1)%nat ltac:(lia)). unfold record_count in Hfit. nia.
Qed.

Lemma degradation_entries a : ma_metric <$> wa_metrics a = AGGREGATED_METRICS -> exists fs,
  mapM_res (degradation_entry a) DEGRADATION_METRICS = Ok fs /\ of_name <$> fs = degradation_flag <$> DEGRADATION_METRICS /\
  Forall (fun f => of_severity f = flag_severity (of_name f)) fs /\
  Forall (fun f => of_triggered f = true -> exists d, of_detail f = Some d /\ is_blank d = false) fs.
Proof.
  intros H. destruct (mapM_res_all (degradation_entry a) DEGRADATION_METRICS) as (fs & Hf & Hall).
  { intros m _. unfold degradation_entry. destruct (by_metric_ok a m H) as (e & -> & _). cbn. eauto. }
  exists fs. split; [done|]. clear Hf.
  enough (of_name <$> fs = degradation_flag <$> DEGRADATION_METRICS /\
    Forall (fun f => of_severity f = flag_severity (of_name f) /\ (of_triggered f = true -> exists d, of_detail f = Some d /\ is_blank d = false)) fs) as [E F].
  { split; [done|]. split; (eapply Forall_impl; [exact F|]); cbn beta; intros f [Hx Hy]; done. }
  induction Hall as [|m f l k Hf _ IH]; [done|]. destruct IH as [IH1 IH2]. unfold degradation_entry in Hf.
  destruct (by_metric_ok a m H) as (e & Ee & _). rewrite Ee in Hf. cbn in Hf. simplify_eq. split; [cbn; by f_equal|]. constructor; [|done].
  split; [done|]. cbn. destruct (match ma_degradation e with Some d => _ | None => _ end); [|done]. intros _. eexists. split; [done|].
  apply is_blank_cons. done.
Qed.
End Run.

(** ** The decision table *)

Lemma severity_not_low n : flag_severity n <> risk_LOW.
Proof. by destruct n. Qed.

Lemma highest_from r fs : let h := foldl (fun r f => if severity_rank r <? severity_rank (of_severity f) then of_severity f else r) r fs in
  (h = risk_HIGH <-> r = risk_HIGH \/ Exists (fun f => of_severity f = risk_HIGH) fs) /\
  (h = risk_LOW <-> r = risk_LOW /\ Forall (fun f => of_severity f = risk_LOW) fs).
Proof.
  revert r. induction fs as [|f fs IH]; intros r; cbn [foldl].
  - split; split; intros H; [by left|destruct H as [|H]; [done|inversion H]|by split; [|constructor]|tauto].
  - destruct (IH (if severity_rank r <? severity_rank (of_severity f) then of_severity f else r)) as [IH1 IH2]. cbv zeta in *.
    rewrite IH1, IH2, Exists_cons, Forall_cons. clear. destruct r, (of_severity f); cbn; split; intuition congruence.
Qed.

Definition zero_trades (a : WalkForwardAggregate) : bool :=
  match by_metric a trade_count with
  | Ok e => match ms_mean (ma_oos_stats e) with Some t => deq t dzero | None => false end
  | Err _ => false
  end.

(** An assessment that follows the fixed decision table. *)
Definition follows_table (periods : list WindowBacktestResult) (a : WalkForwardAggregate) (r : OverfittingAssessment) : Prop :=
  of_name <$> oa_flags r = OVERFITTING_FLAG_NAMES /\ oa_reasons r <> [] /\ oa_period_count r = Z.of_nat (List.length periods) /\
  (zero_trades a || (Z.of_nat (List.length periods) <? MIN_PERIODS_FOR_ASSESSMENT) = true -> oa_risk r = risk_LOW) /\
  (zero_trades a || (Z.of_nat (List.length periods) <? MIN_PERIODS_FOR_ASSESSMENT) = false ->
     (oa_risk r = risk_HIGH <-> exists f, f ∈ oa_flags r /\ of_triggered f = true /\ flag_severity (of_name f) = risk_HIGH) /\
     (oa_risk r = risk_LOW <-> forall f, f ∈ oa_flags r -> of_triggered f = false)).

(** Flags as [_flag] makes them. *)
Definition flag_made (f : OverfittingFlag) : Prop :=
  of_severity f = flag_severity (of_name f) /\ (of_triggered f = true -> exists d, of_detail f = Some d /\ is_blank d = false).

Lemma table_risk fs : Forall flag_made fs ->
  let t := List.filter of_triggered fs in
  let risk := match t with [] => risk_LOW | _ => highest_severity t end in
  (risk = risk_HIGH <-> exists f, f ∈ fs /\ of_triggered f = true /\ flag_severity (of_name f) = risk_HIGH) /\
  (risk = risk_LOW <-> forall f, f ∈ fs -> of_triggered f = false).
Proof.
  intros Hm t risk. assert (forall f, f ∈ t <-> of_triggered f = true /\ f ∈ fs) as Ht
    by (intros f; unfold t; by rewrite list_elem_of_In, filter_In, <- list_elem_of_In, (and_comm (f ∈ fs))).
  assert (risk = highest_severity t) as -> by (unfold risk; by destruct t).
  destruct (highest_from risk_LOW t) as [H1 H2]. cbv zeta in H1, H2. fold (highest_severity t) in H1, H2. rewrite Forall_forall in Hm. split.
  - rewrite H1. split.
    + intros [|H]; [done|]. apply Exists_exists in H as (f & [Hf Hin]%Ht & Hs). exists f. destruct (Hm f Hin) as [E _]. by rewrite <- E.
    + intros (f & Hin & Hf & Hs). right. apply Exists_exists. exists f. split; [by apply Ht|]. destruct (Hm f Hin) as [E _]. by rewrite E.
  - rewrite H2. split.
    + intros [_ H] f Hin. destruct (of_triggered f) eqn:E; [|done]. rewrite Forall_forall in H. destruct (Hm f Hin) as [Es _].
      specialize (H f (proj2 (Ht f) (conj E Hin))). rewrite Es in H. by apply severity_not_low in H.
    + intros H. split; [done|]. apply Forall_forall. intros f [Hf Hin]%Ht. by rewrite H in Hf.
Qed.

Lemma variation_total s : exists cv, variation s = Ok cv.
Proof.
  unfold variation. destruct (ms_stdev s) as [sd|]; [|eauto]. destruct (ms_mean s) as [m|]; [|eauto]. destruct (dgt m dzero) eqn:E; [|eauto].
  destruct (ddiv_total sd m) as [cv ->]; [|cbn; eauto]. unfold dgt in E. apply dlt_spec in E. by rewrite dval_zero in E.
Qed.

Lemma gaps_ok a : ma_metric <$> wa_metrics a = AGGREGATED_METRICS -> exists gaps, mapM_res (not_assessable a) DEGRADATION_METRICS = Ok gaps /\
  Forall (fun s => is_blank s = false) (mjoin gaps).
Proof.
  intros H. destruct (mapM_res_all (not_assessable a) DEGRADATION_METRICS) as (gaps & -> & Hall).
  { intros m _. unfold not_assessable. destruct (by_metric_ok a m H) as (e & -> & _). cbn. eauto. }
  exists gaps. split; [done|]. induction Hall as [|m g l k Hg _ IH]; [constructor|]. cbn. apply Forall_app. split; [|done].
  unfold not_assessable in Hg. destruct (by_metric_ok a m H) as (e & Ee & _). rewrite Ee in Hg. cbn in Hg. injection Hg as <-.
  destruct (ma_degradation e); [constructor|]. constructor; [by apply is_blank_cons|constructor].
Qed.

Lemma flag_detail_made name b d s : is_space d = false -> flag_made (mk_flag name b (if b then Some (String d s) else None)).
Proof. intros Hd. split; [done|]. cbn. intros ->. eexists. split; [done|]. by apply is_blank_cons. Qed.

Lemma mk_assessment_ok x : of_name <$> oa_flags x = OVERFITTING_FLAG_NAMES -> oa_reasons x <> [] ->
  Forall (fun s => is_blank s = false) (oa_reasons x) -> 0 <= oa_period_count x -> mk_OverfittingAssessment x = Ok x.
Proof.
  intros H1 H2 H3 H4. unfold mk_OverfittingAssessment, refuse_wf, raise_if. rewrite H1, bool_decide_eq_true_2 by done. cbn [negb rbind].
  replace (match oa_reasons x with [] => true | _ => false end) with false by (by destruct (oa_reasons x)). cbn [rbind].
  assert (existsb is_blank (oa_reasons x) = false) as ->.
  { apply not_true_iff_false. rewrite existsb_exists. intros (y & Hy & Hb). rewrite Forall_forall in H3.
    rewrite H3 in Hb; [done|by apply list_elem_of_In]. }
  cbn [rbind]. by rewrite (proj2 (Z.ltb_ge _ _)).
Qed.

Lemma assess_total periods a : periods <> [] -> wa_period_count a = Z.of_nat (List.length periods) ->
  ma_metric <$> wa_metrics a = AGGREGATED_METRICS -> exists r, assess_overfitting periods a = Ok r /\ follows_table periods a r.
Proof.
  intros Hne Hn Hm. unfold assess_overfitting. replace (match periods with [] => true | _ => false end) with false by (by destruct periods).
  rewrite Hn, Z.eqb_refl. cbn [negb refuse_wf raise_if rbind].
  destruct (degradation_entries a Hm) as (ds & -> & Hdn & Hds & Hdd). cbn [rbind].
  destruct (by_metric_ok a trade_count Hm) as (te & Ete & _). rewrite Ete. cbn [rbind].
  destruct (by_metric_ok a total_return Hm) as (re & -> & _). cbn [rbind].
  destruct (variation_total (ma_oos_stats re)) as [cv ->]. cbn [rbind].
  set (low := mk_flag low_oos_trade_count _ _). set (unr := mk_flag unrealistic_oos_return _ _). set (dep := mk_flag high_period_dependency _ _).
  set (flags := ds ++ [low; unr; dep]). set (trades0 := match ms_mean (ma_oos_stats te) with Some t => deq t dzero | None => false end).
  assert (zero_trades a = trades0) as Hz by (unfold zero_trades; by rewrite Ete).
  assert (Forall flag_made flags) as Hmade.
  { apply Forall_app. split.
    - rewrite Forall_forall in Hds, Hdd |- *. intros f Hf. split; [by apply Hds|by apply Hdd].
    - repeat constructor; cbn; intros Hb; rewrite Hb; eexists; (split; [done|by apply is_blank_cons]). }
  assert (of_name <$> flags = OVERFITTING_FLAG_NAMES) as Hnames by (unfold flags; rewrite fmap_app, Hdn; done).
  destruct (gaps_ok a Hm) as (gaps & -> & Hgaps).
  pose proof (table_risk flags Hmade) as Htab. cbv zeta in Htab. set (t := List.filter of_triggered flags) in *.
  assert (Forall (fun s => is_blank s = false) ((fun f => default (of_description f) (of_detail f)) <$> t)) as Htexts.
  { apply Forall_fmap, Forall_forall. intros f Hf. unfold t in Hf. rewrite list_elem_of_In, filter_In, <- list_elem_of_In in Hf.
    rewrite Forall_forall in Hmade. destruct (Hmade f (proj1 Hf)) as [_ Hd]. destruct (Hd (proj2 Hf)) as (d & E & Hb). cbn. by rewrite E. }
  clearbody trades0. destruct trades0.
  - cbn [rbind app]. rewrite mk_assessment_ok; cbn [oa_flags oa_reasons oa_period_count].
    + eexists. split; [done|]. unfold follows_table. rewrite Hz. cbn [oa_flags oa_reasons oa_period_count oa_risk orb]. split_and!; done.
    + done.
    + done.
    + constructor; [done|]. apply Forall_app. split; [done|]. apply Forall_app. split; [done|]. by destruct t.
    + lia.
  - destruct (Z.ltb_spec (Z.of_nat (List.length periods)) MIN_PERIODS_FOR_ASSESSMENT) as [Hlt|Hge].
    + cbn [rbind app]. rewrite mk_assessment_ok; cbn [oa_flags oa_reasons oa_period_count].
      * eexists. split; [done|]. unfold follows_table. rewrite Hz. cbn [oa_flags oa_reasons oa_period_count oa_risk orb].
        rewrite (proj2 (Z.ltb_lt _ _)) by done. split_and!; done.
      * done.
      * done.
      * constructor; [done|]. apply Forall_app. split; [done|]. apply Forall_app. split; [done|]. by destruct t.
      * lia.
    + assert (forall rs, rs = mjoin gaps ++ ((fun f => default (of_description f) (of_detail f)) <$> t) ++
        match t with [] => ["no overfitting flags triggered"%string] | _ => [] end -> rs <> [] /\ Forall (fun s => is_blank s = false) rs) as Hrs.
      { intros rs ->. split.
        - destruct t; [|cbn; by destruct (mjoin gaps)]. cbn. by destruct (mjoin gaps).
        - apply Forall_app. split; [done|]. apply Forall_app. split; [done|]. destruct t; repeat constructor. }
      destruct (Hrs _ eq_refl) as [Hr1 Hr2].
      assert (match t with [] => (risk_LOW, @nil string, false) | _ => (highest_severity t, [], false) end
        = (match t with [] => risk_LOW | _ => highest_severity t end, [], false)) as -> by (by destruct t).
      cbn [rbind app]. rewrite mk_assessment_ok; cbn [oa_flags oa_reasons oa_period_count]; [|done|done|done|lia].
      eexists. split; [done|]. unfold follows_table. rewrite Hz, (proj2 (Z.ltb_ge _ _)) by done.
      cbn [oa_flags oa_reasons oa_period_count oa_risk orb]. split_and!; try done.
Qed.

(** C35: A walk-forward run over enough history, with a runner that keeps its
    contract (it answers every window, with a result for that window), completes
    (decimals have no exponent limit here: no overflow of [Emax]): the runner's results are stored unchanged, one per
    window, in the order of the schedule; the number of covered records is exact
    ([span + (periods - 1) * min step span], so that with a step longer than a
    window the records between windows stay unused too); and the assessment of
    the stored periods exists and follows the fixed decision table, with every
    flag in its place and at least one reason. *)
Theorem walk_forward_completes i c runner :
  mk_BacktestInput i = Ok i -> mk_WalkForwardConfig c = Ok c -> span c <= record_count i ->
  (forall w, exists r, runner w = Ok r /\ wr_window r = w) ->
  exists ws out r,
    build_windows i c = Ok ws /\ run_walk_forward i c runner = Ok out /\
    Forall2 (fun w p => runner w = Ok p) ws (wo_periods out) /\ wo_windows out = ws /\
    wo_covered_records out = span c + (period_count i c - 1) * Z.min (wc_step_records c) (span c) /\
    wo_covered_records out + wo_uncovered_records out = record_count i /\
    assess_overfitting (wo_periods out) (wo_aggregate out) = Ok r /\ follows_table (wo_periods out) (wo_aggregate out) r.
Proof.
  intros Hi Hc Hs Hr. destruct (build_windows_ok i Hi c Hc Hs) as (ws & Hb & Hlen & Hw & Hfit & Hlast).
  destruct (config_bounds c Hc) as (H1 & H2 & H3 & H4 & H5). pose proof (covered_formula i Hi c Hc ws Hs Hb) as Hcov.
  destruct (mapM_res_all (run_window runner) ws) as (ps & Hps & Hall).
  { intros w _. unfold run_window. destruct (Hr w) as (p & -> & <-). cbn [rbind]. rewrite window_eqb_refl. cbn. eauto. }
  assert (Forall2 (fun w p => runner w = Ok p /\ wr_window p = w) ws ps) as Hres.
  { eapply Forall2_impl; [exact Hall|]. cbn beta. intros w p Hp. unfold run_window in Hp. destruct (Hr w) as (p' & E & <-).
    rewrite E in Hp. cbn [rbind] in Hp. rewrite window_eqb_refl in Hp. cbn in Hp. by simplify_eq. }
  assert (wr_window <$> ps = ws) as Hws by (clear -Hres; induction Hres as [|w p l k [_ E] _ IH]; [done|]; cbn; by rewrite E, IH).
  assert (List.length ps = List.length ws) as Hl by (by apply Forall2_length in Hres).
  assert (1 <= period_count i c) as Hp by (unfold period_count; pose proof (Z.div_pos (record_count i - span c) (wc_step_records c)); lia).
  assert (ps <> []) as Hne by (intros ->; cbn in Hl; lia).
  assert (gap_free ps = true) as Hg.
  { apply bool_decide_eq_true. apply list_eq. intros k. rewrite !list_lookup_fmap. destruct (decide (k < List.length ps)%nat) as [Hk|Hk].
    - rewrite lookup_seq_lt by done. destruct (lookup_lt_is_Some_2 ps k Hk) as [p Ep]. rewrite Ep. cbn. f_equal.
      destruct (Hw k (wr_window p)) as [E _]; [|done]. rewrite <- Hws, list_lookup_fmap, Ep. done.
    - rewrite (proj2 (lookup_ge_None _ _)), (proj2 (lookup_ge_None (seq 0 _) _)) by (rewrite ?length_seq; lia). done. }
  destruct (aggregate_total ps Hne Hg) as (agg & Ha & Hac & Hm). destruct (assess_total ps agg Hne Hac Hm) as (r & Hass & Htab).
  pose proof (proj1 (input_iff i) Hi) as (Hd & Hsrc & _). set (cov := covered_count (List.length (bt_records i)) ws) in *.
  assert (0 <= cov <= record_count i) as Hcb.
  { rewrite Hcov. specialize (Hfit (Z.to_nat (period_count i c - 1)) ltac:(lia)). unfold span in *. nia. }
  exists ws. eexists. exists r. split; [done|]. split.
  - unfold run_walk_forward. rewrite Hb. cbn [rbind]. rewrite Hps. cbn [rbind]. rewrite Ha. cbn [rbind]. fold cov.
    unfold mk_WalkForwardResult, refuse_wf, raise_if. cbn [wo_input_sha256 wo_dataset_id wo_source wo_periods wo_aggregate wo_record_count
      wo_covered_records wo_uncovered_records]. unfold content_sha256. rewrite sha256_hex_nonblank, Hd, Hsrc, Hg, Hac, Z.eqb_refl.
    replace (match ps with [] => true | _ => false end) with false by (by destruct ps). cbn [negb rbind].
    rewrite !(proj2 (Z.ltb_ge _ _)) by lia. cbn [rbind]. rewrite (proj2 (Z.eqb_eq _ _)) by lia. cbn [negb rbind]. reflexivity.
  - cbn [wo_periods wo_covered_records wo_uncovered_records wo_aggregate wo_windows]. split_and!; try done; [|lia].
    eapply Forall2_impl; [exact Hres|]. cbn beta. tauto.
Qed.

(** ** Witnesses *)

Module WalkForwardSamples.
Definition long_history : BacktestInput :=
  {| bt_dataset_id := "ds"; bt_source := "nse"; bt_records := (fun k => BacktestSample.candle (Z.of_nat k) 10000 (10000 + Z.of_nat k)) <$> seq 0 8; bt_metadata := ∅ |}.
Definition geometry : WalkForwardConfig :=
  {| wc_training_records := 2; wc_validation_records := 1; wc_test_records := 1; wc_step_records := 2 |}.
Definition flat : BacktestMetrics :=
  {| bm_initial_capital := dec_of_Z 1000; bm_final_equity := dec_of_Z 1010; bm_total_return := Dec false 1 (-2); bm_trade_count := 40;
     bm_wins := 40; bm_losses := 0; bm_breakevens := 0; bm_win_rate := Some (dec_of_Z 1); bm_gross_profit := dec_of_Z 10;
     bm_gross_loss := dzero; bm_profit_factor := None; bm_max_drawdown := dzero; bm_sharpe_ratio := None;
     bm_risk_free_rate_per_period := dzero |}.
Definition runner (w : WalkForwardWindow) : res WindowBacktestResult :=
  mk_WindowBacktestResult {| wr_window := w; wr_is_metrics := flat; wr_oos_metrics := flat; wr_metadata := ∅ |}.
End WalkForwardSamples.

Lemma schedule_forward_and_disjoint_witness : exists ws,
  build_windows WalkForwardSamples.long_history WalkForwardSamples.geometry = Ok ws /\ List.length ws = 3%nat /\
  forall j k wj wk x y, (j < k)%nat -> ws !! j = Some wj -> ws !! k = Some wk ->
    x ∈ bt_records (ww_test_input wj) -> y ∈ bt_records (ww_test_input wk) -> instant x < instant y.
Proof.
  destruct (schedule_forward_and_disjoint WalkForwardSamples.long_history ltac:(vm_compute; reflexivity) WalkForwardSamples.geometry
    ltac:(vm_compute; reflexivity)) as [_ H]. destruct H as (ws & Hb & Hl & _ & _ & Hd); [vm_compute; discriminate|].
  exists ws. split; [done|]. split; [|exact Hd]. change (period_count WalkForwardSamples.long_history WalkForwardSamples.geometry) with 3 in Hl. lia.
Defined.

Lemma walk_forward_completes_witness : exists ws out r,
  build_windows WalkForwardSamples.long_history WalkForwardSamples.geometry = Ok ws /\
  run_walk_forward WalkForwardSamples.long_history WalkForwardSamples.geometry WalkForwardSamples.runner = Ok out /\
  wo_covered_records out = 8 /\ assess_overfitting (wo_periods out) (wo_aggregate out) = Ok r.
Proof.
  destruct (walk_forward_completes WalkForwardSamples.long_history WalkForwardSamples.geometry WalkForwardSamples.runner)
    as (ws & out & r & Hb & Ho & _ & _ & Hc & _ & Ha & _).
  - vm_compute. reflexivity.
  - vm_compute. reflexivity.
  - vm_compute. discriminate.
  - intros w. eexists. split; reflexivity.
  - exists ws, out, r. split_and!; [done|done| |done]. rewrite Hc. vm_compute. reflexivity.
Defined.
