(* ===== verification/BacktestTools.v ===== *)
(** The tools around the backtests (src/backtesting): the latency model
    (alpha_algo_backtest_latency), the grid search and the seeded Monte Carlo
    resampling (alpha_algo_backtest_optimize), the data-quality classifier
    (alpha_algo_backtest_quality), and the identity, the records and the store of
    finished runs (alpha_algo_backtest_persistence).

    The objective of a search and the statistic of a resampling are arbitrary
    functions that may raise.  A score of type [float] is given by its [str];
    [datetime.fromisoformat] is a parameter of the reader of records. *)

From stdpp Require Import base list strings gmap sorting.
From Stdlib Require Import ZArith QArith Lqa Lia String Ascii.
From S2P Require Import Prelude PyBase Hashing Decimal DecimalText Json Tokens Market Backtest BacktestEngine BacktestPortfolio.
Open Scope Z_scope.

(** * latency/model.py *)

(** Sums of [timedelta]s and of a [datetime] and a [timedelta], in microseconds;
    both raise beyond their largest value. *)
Definition TIMEDELTA_MAX : Z := 1000000000 * 86400 * 1000000 - 1.
Definition td_check (delta : Z) : res Z :=
  raise_if (TIMEDELTA_MAX <? delta) OverflowError "days must have magnitude <= 999999999" ;! Ok delta.
Definition DATETIME_MAX : Z := 253402300800 * 1000000 - 1.
Definition wall (d : datetime) : Z := dt_instant d + default 0 (dt_offset d).
Definition dt_shift (d : datetime) (delta : Z) : res datetime :=
  raise_if (DATETIME_MAX <? wall d + delta) OverflowError "date value out of range" ;! Ok (dt_add d delta).

Record LatencyModel := { ly_signal : Z; ly_decision : Z; ly_submission : Z; ly_fill : Z }.

Definition refuse_latency (b : bool) (msg : string) : res unit := raise_if b LatencyError msg.

Definition mk_LatencyModel (m : LatencyModel) : res LatencyModel :=
  refuse_latency (ly_signal m <? 0) "signal_latency must be non-negative" ;!
  refuse_latency (ly_decision m <? 0) "decision_latency must be non-negative" ;!
  refuse_latency (ly_submission m <? 0) "submission_latency must be non-negative" ;!
  refuse_latency (ly_fill m <? 0) "fill_latency must be non-negative" ;!
  Ok m.

Definition total_latency (m : LatencyModel) : res Z :=
  let! a := td_check (ly_signal m + ly_decision m) in
  let! b := td_check (a + ly_submission m) in
  td_check (b + ly_fill m).

Definition is_zero (m : LatencyModel) : res bool := let! t := total_latency m in Ok (t =? 0).

(** [replace] builds the intent anew, so that its checks run again. *)
Definition apply_latency_to_intent (intent : OrderIntent) (m : LatencyModel) : res OrderIntent :=
  let! t := total_latency m in
  let! decided_at := dt_shift (oi_decided_at intent) t in
  mk_OrderIntent {| oi_side := oi_side intent; oi_order_type := oi_order_type intent; oi_quantity := oi_quantity intent;
                    oi_decided_at := decided_at; oi_limit_price := oi_limit_price intent; oi_label := oi_label intent |}.

Definition apply_latency (intents : list OrderIntent) (m : LatencyModel) : res (list OrderIntent) :=
  mapM_res (fun intent => apply_latency_to_intent intent m) intents.

(** * optimize/grid.py *)

Definition refuse_search (b : bool) (msg : string) : res unit := raise_if b OptimizationError msg.

(** What an objective may return. *)
Inductive Score :=
| sc_decimal (d : decimal) | sc_nonfinite | sc_bool (b : bool) | sc_int (z : Z) | sc_float (text : string) | sc_other.

Definition coerce_score (s : Score) : res decimal :=
  match s with
  | sc_decimal d => Ok d
  | sc_nonfinite => raise OptimizationError "objective score must be finite"
  | sc_bool _ => raise OptimizationError "objective score must be numeric, not bool"
  | sc_int z => Ok (dec_of_Z z)
  | sc_float text =>
      match dec_parse text with
      | Some d => Ok d
      | None => raise OptimizationError "objective score must be finite" (* nan and inf *)
      end
  | sc_other => raise OptimizationError "objective score must be a Decimal, int, or float"
  end.

Section Grid.
Context {V : Type}.

Record Parameter_ := { pr_name : string; pr_values : list V }.

Definition mk_Parameter (p : Parameter_) : res Parameter_ :=
  refuse_search (is_blank (pr_name p)) "Parameter.name must be a non-empty string" ;!
  refuse_search (match pr_values p with [] => true | _ => false end)
    ("Parameter " +:+ py_repr (pr_name p) +:+ " values must be a non-empty tuple") ;!
  Ok p.

Definition ParameterGrid : Type := list Parameter_.

Definition mk_ParameterGrid (g : ParameterGrid) : res ParameterGrid :=
  refuse_search (match g with [] => true | _ => false end) "ParameterGrid.parameters must be a non-empty tuple of Parameter" ;!
  refuse_search (negb (bool_decide (NoDup (pr_name <$> g)))) "Parameter names must be unique" ;!
  Ok g.

Definition combination_count (g : ParameterGrid) : Z :=
  foldl (fun count p => count * Z.of_nat (List.length (pr_values p))) 1 g.

Definition ParameterPoint : Type := list (string * V).

Record Evaluation := { el_point : ParameterPoint; el_score : decimal }.
Record OptimizationResult := {
  op_grid : ParameterGrid;
  op_evaluations : list Evaluation;
  op_best_point : ParameterPoint;
  op_best_score : decimal;
}.

Definition evaluate_point (point : ParameterPoint) (objective : ParameterPoint -> res Score) : res decimal :=
  let! s := objective point in coerce_score s.

Definition select_best (evaluations : list Evaluation) : res Evaluation :=
  match evaluations with
  | [] => raise OptimizationError "evaluations must be a non-empty tuple of Evaluation"
  | first :: rest => Ok (foldl (fun best e => if dgt (el_score e) (el_score best) then e else best) first rest)
  end.

(** [itertools.product]: the last tuple varies fastest. *)
Fixpoint product (tuples : list (list V)) : list (list V) :=
  match tuples with
  | [] => [[]]
  | values :: rest => x ← values; cons x <$> product rest
  end.

Definition grid_points (g : ParameterGrid) : list ParameterPoint :=
  (fun combo => zip (pr_name <$> g) combo) <$> product (pr_values <$> g).

Definition grid_search (g : ParameterGrid) (objective : ParameterPoint -> res Score) : res OptimizationResult :=
  let! evaluations := mapM_res (fun point =>
    let! score := evaluate_point point objective in Ok {| el_point := point; el_score := score |}) (grid_points g) in
  let! best := select_best evaluations in
  Ok {| op_grid := g; op_evaluations := evaluations; op_best_point := el_point best; op_best_score := el_score best |}.
End Grid.
Arguments Parameter_ : clear implicits.
Arguments ParameterGrid : clear implicits.
Arguments ParameterPoint : clear implicits.
Arguments Evaluation : clear implicits.
Arguments OptimizationResult : clear implicits.

(** * optimize/monte_carlo.py *)

(** [int.from_bytes(digest[:8], "big") % bound] *)
Definition rand_index (seed : string) (counter : Z) (bound : nat) : nat :=
  match Sha256.digest (seed +:+ ":" +:+ str_Z counter) with
  | w0 :: w1 :: _ => N.to_nat ((w0 * 2 ^ 32 + w1) mod N.of_nat bound)
  | _ => 0
  end.

Definition validate_values (values : list decimal) : res unit :=
  refuse_search (match values with [] => true | _ => false end) "values must be a non-empty tuple of Decimal".
Definition validate_seed (seed : string) : res unit :=
  refuse_search (String.eqb seed "") "seed must be a non-empty string".

(** [items[i], items[j] = items[j], items[i]] *)
Definition swap {A} (i j : nat) (items : list A) : list A :=
  match items !! i, items !! j with
  | Some a, Some b => <[j := a]> (<[i := b]> items)
  | _, _ => items
  end.

(** The loop from position [i] down to 1. *)
Fixpoint shuffle_from {A} (seed : string) (i : nat) (items : list A) : list A :=
  match i with
  | O => items
  | S k => shuffle_from seed k (swap i (rand_index seed (Z.of_nat i) (S i)) items)
  end.

Definition deterministic_shuffle (values : list decimal) (seed : string) : res (list decimal) :=
  validate_values values ;! validate_seed seed ;!
  Ok (shuffle_from seed (List.length values - 1) values).

Definition sample_path (values : list decimal) (seed : string) (path : nat) : list decimal :=
  let n := List.length values in
  (fun draw => default dzero (values !! rand_index seed (Z.of_nat (path * n + draw)) n)) <$> seq 0 n.

Definition bootstrap_paths (values : list decimal) (n_paths : Z) (seed : string)
    (statistic : option (list decimal -> res decimal)) : res (list decimal) :=
  validate_values values ;! validate_seed seed ;!
  refuse_search (n_paths <? 1) "n_paths must be a positive int" ;!
  let fn := default (fun xs => Ok (dsum xs)) statistic in
  mapM_res (fun path => fn (sample_path values seed path)) (seq 0 (Z.to_nat n_paths)).

(** [sorted_values[k]] *)
Definition value_at (l : list decimal) (k : Z) : res decimal :=
  match l !! Z.to_nat k with Some d => Ok d | None => raise IndexError "tuple index out of range" end.

Definition percentile (sorted_values : list decimal) (quantile : decimal) : res decimal :=
  let n := Z.of_nat (List.length sorted_values) in
  if n =? 1 then value_at sorted_values 0
  else value_at sorted_values (int_of_dec (to_integral_value (dmul quantile (dec_of_Z (n - 1))))).

Record MonteCarloSummary := {
  mc_seed : string; mc_n_paths : Z; mc_statistic_name : string;
  mc_mean : decimal; mc_minimum : decimal; mc_maximum : decimal; mc_p5 : decimal; mc_p50 : decimal; mc_p95 : decimal;
}.

Definition mk_MonteCarloSummary (s : MonteCarloSummary) : res MonteCarloSummary :=
  validate_seed (mc_seed s) ;!
  refuse_search (mc_n_paths s <? 1) "n_paths must be a positive int" ;!
  refuse_search (String.eqb (mc_statistic_name s) "") "statistic_name must be a non-empty string" ;!
  Ok s.

Definition bootstrap_summary (values : list decimal) (n_paths : Z) (seed : string)
    (statistic : option (list decimal -> res decimal)) (statistic_name : string) : res MonteCarloSummary :=
  validate_seed seed ;!
  refuse_search (String.eqb statistic_name "") "statistic_name must be a non-empty string" ;!
  let! paths := bootstrap_paths values n_paths seed statistic in
  let sorted_paths := stable_sort dle paths in
  let! mean := ddiv (dsum paths) (dec_of_Z (Z.of_nat (List.length sorted_paths))) in
  let! minimum := value_at sorted_paths 0 in
  let! maximum := value_at sorted_paths (Z.of_nat (List.length sorted_paths) - 1) in
  let! p5 := percentile sorted_paths (Dec false 5 (-2)) in
  let! p50 := percentile sorted_paths (Dec false 50 (-2)) in
  let! p95 := percentile sorted_paths (Dec false 95 (-2)) in
  mk_MonteCarloSummary {| mc_seed := seed; mc_n_paths := n_paths; mc_statistic_name := statistic_name; mc_mean := mean;
                          mc_minimum := minimum; mc_maximum := maximum; mc_p5 := p5; mc_p50 := p50; mc_p95 := p95 |}.

(** * quality/validation.py *)

Inductive QualityClass := qc_VALID | qc_QUARANTINED | qc_REJECTED.
#[export] Instance QualityClass_eq_dec : EqDecision QualityClass.
Proof. solve_decision. Defined.

Record DataQualityFinding := { qf_index : nat; qf_classification : QualityClass; qf_reason : string }.

Record DataQualityReport := {
  qr_total_records : Z; qr_valid_count : Z; qr_quarantined_count : Z; qr_rejected_count : Z;
  qr_findings : list DataQualityFinding; qr_dataset_classification : QualityClass;
}.

Definition refuse_quality (b : bool) (msg : string) : res unit := raise_if b DataQualityError msg.

Definition mk_DataQualityReport (r : DataQualityReport) : res DataQualityReport :=
  refuse_quality (qr_total_records r <? 0) "total_records must be a non-negative int" ;!
  refuse_quality (qr_valid_count r <? 0) "valid_count must be a non-negative int" ;!
  refuse_quality (qr_quarantined_count r <? 0) "quarantined_count must be a non-negative int" ;!
  refuse_quality (qr_rejected_count r <? 0) "rejected_count must be a non-negative int" ;!
  refuse_quality (negb (qr_valid_count r + qr_quarantined_count r + qr_rejected_count r =? qr_total_records r))
    "record classification counts must sum to total_records" ;!
  Ok r.

Definition is_simulation_ready (r : DataQualityReport) : bool := (qr_rejected_count r =? 0) && (qr_quarantined_count r =? 0).

Definition finding (index : nat) (c : QualityClass) (reason : string) : DataQualityFinding :=
  {| qf_index := index; qf_classification := c; qf_reason := reason |}.
Definition rejected (b : bool) (index : nat) (reason : string) : list DataQualityFinding :=
  if b then [finding index qc_REJECTED reason] else [].
Definition quarantined (b : bool) (index : nat) (reason : string) : list DataQualityFinding :=
  if b then [finding index qc_QUARANTINED reason] else [].

(** [_classify_record]: what it appends; its answer is REJECTED when it appends anything. *)
Definition classify_record (r : market_record) (index : nat) : list DataQualityFinding :=
  rejected (negb (dt_aware (record_timestamp r))) index "naive timestamp" ++
  match r with
  | rec_candle c =>
      rejected (dle (cd_open_price c) dzero) index "invalid candle open_price" ++
      rejected (dle (cd_high_price c) dzero) index "invalid candle high_price" ++
      rejected (dle (cd_low_price c) dzero) index "invalid candle low_price" ++
      rejected (dle (cd_close_price c) dzero) index "invalid candle close_price" ++
      rejected (dgt (cd_low_price c) (cd_high_price c)) index "candle low exceeds high" ++
      rejected (negb (dle (cd_low_price c) (cd_open_price c) && dle (cd_open_price c) (cd_high_price c))) index "candle open outside range" ++
      rejected (negb (dle (cd_low_price c) (cd_close_price c) && dle (cd_close_price c) (cd_high_price c))) index "candle close outside range"
  | rec_tick t =>
      rejected (dle (tk_ltp t) dzero) index "invalid tick ltp" ++
      rejected (match tk_bid t, tk_ask t with Some b, Some a => dgt b a | _, _ => false end) index "tick bid exceeds ask"
  end.

Definition same_identity (first r : market_record) : bool :=
  (record_instrument r =? record_instrument first)%N && String.eqb (record_exchange r) (record_exchange first) &&
  String.eqb (record_symbol r) (record_symbol first).

Definition series_findings (first r : market_record) (index : nat) : list DataQualityFinding :=
  rejected (negb (same_identity first r)) index "symbol/exchange/instrument identity drift" ++
  rejected (negb (Bool.eqb (is_candle first) (is_candle r))) index "mixed candle/tick kinds" ++
  rejected (match first, r with
            | rec_candle f, rec_candle c => negb (bool_decide (cd_timeframe c = cd_timeframe f))
            | _, _ => false
            end) index "candle timeframe drift".

Definition order_findings (expected_step : option Z) (gap_multiple : Z) (previous : option datetime) (ts : datetime) (index : nat)
    : res (list DataQualityFinding) :=
  match previous with
  | None => Ok []
  | Some p =>
      let! before := dt_lt ts p in
      if before then Ok [finding index qc_REJECTED "out-of-order timestamp"]
      else if dt_instant ts =? dt_instant p then Ok [finding index qc_QUARANTINED "duplicate timestamp"]
      else
        match expected_step with
        | None => Ok []
        | Some step =>
            let! spacing := dt_sub ts p in
            let! limit := td_check (step * gap_multiple) in
            Ok (quarantined (limit <? spacing) index "gap larger than expected step")
        end
  end.

Definition future_findings (reference_time : option datetime) (ts : datetime) (index : nat) : res (list DataQualityFinding) :=
  match reference_time with
  | None => Ok []
  | Some t => let! future := dt_gt ts t in Ok (quarantined future index "future-dated record")
  end.

(** The class of a record, from all the findings so far. *)
Definition class_of (index : nat) (per_record : list DataQualityFinding) (findings : list DataQualityFinding) : QualityClass :=
  let own c := existsb (fun f => (qf_index f =? index)%nat && bool_decide (qf_classification f = c)) findings in
  if match per_record with [] => false | _ => true end || own qc_REJECTED then qc_REJECTED
  else if own qc_QUARANTINED then qc_QUARANTINED
  else qc_VALID.

Section Quality.
Context (first : market_record) (reference_time : option datetime) (expected_step : option Z) (gap_multiple : Z).

Fixpoint classify_all (previous : option datetime) (index : nat) (records : list market_record)
    (findings : list DataQualityFinding) (classes : list QualityClass) : res (list DataQualityFinding * list QualityClass) :=
  match records with
  | [] => Ok (findings, classes)
  | r :: rest =>
      let per_record := classify_record r index in
      let ts := record_timestamp r in
      let! ordering := order_findings expected_step gap_multiple previous ts index in
      let! future := future_findings reference_time ts index in
      let findings := findings ++ per_record ++ series_findings first r index ++ ordering ++ future in
      classify_all (Some ts) (S index) rest findings (classes ++ [class_of index per_record findings])
  end.
End Quality.

Definition count_class (c : QualityClass) (classes : list QualityClass) : Z :=
  Z.of_nat (List.length (List.filter (fun x => bool_decide (x = c)) classes)).

Definition validate_dataset (records : list market_record) (reference_time : option datetime) (expected_step : option Z)
    (gap_multiple : Z) : res DataQualityReport :=
  refuse_quality (match reference_time with Some t => negb (dt_aware t) | None => false end)
    "reference_time must be timezone-aware or None" ;!
  refuse_quality (match expected_step with Some s => s <=? 0 | None => false end)
    "expected_step must be a positive timedelta or None" ;!
  refuse_quality (gap_multiple <? 1) "gap_multiple must be a positive int" ;!
  let! fc := match records with
             | [] => Ok ([], [])
             | first :: _ => classify_all first reference_time expected_step gap_multiple None 0 records [] []
             end in
  let '(findings, classes) := fc in
  let rejected_count := count_class qc_REJECTED classes in
  let quarantined_count := count_class qc_QUARANTINED classes in
  mk_DataQualityReport {|
    qr_total_records := Z.of_nat (List.length records); qr_valid_count := count_class qc_VALID classes;
    qr_quarantined_count := quarantined_count; qr_rejected_count := rejected_count; qr_findings := findings;
    qr_dataset_classification :=
      if 0 <? rejected_count then qc_REJECTED else if 0 <? quarantined_count then qc_QUARANTINED else qc_VALID |}.

(** * persistence/identity.py *)

Definition SIMULATOR_VERSION : string := "P16-1".
Definition RUN_NAMESPACE : UUID := 0x5c9d8f7e6b5a4c3d9e2f1a0b9c8d7e6f%N.

Definition refuse_run (b : bool) (msg : string) : res unit := raise_if b RunPersistenceError msg.

Record BacktestRunIdentity := {
  ri_dataset_id : string; ri_source : string; ri_input_sha256 : string; ri_simulator_version : string;
  ri_strategy_identity : option string; ri_strategy_version : option string; ri_configuration_hash : option string;
  ri_initial_capital : option decimal; ri_commission_per_fill : option decimal; ri_slippage_bps : option decimal;
  ri_risk_free_rate_per_period : option decimal; ri_periods_per_year : option Z; ri_seed : option string;
  ri_start_at : option datetime; ri_end_at : option datetime; ri_instrument_universe : list string;
}.

Definition opt_test {A} (p : A -> bool) (o : option A) : bool := match o with Some a => p a | None => false end.

Definition mk_BacktestRunIdentity (i : BacktestRunIdentity) : res BacktestRunIdentity :=
  refuse_run (String.eqb (ri_dataset_id i) "") "dataset_id must be a non-empty string" ;!
  refuse_run (String.eqb (ri_source i) "") "source must be a non-empty string" ;!
  refuse_run (negb (String.length (ri_input_sha256 i) =? 64)%nat) "input_sha256 must be a 64-char hex string" ;!
  refuse_run (String.eqb (ri_simulator_version i) "") "simulator_version must be a non-empty string" ;!
  refuse_run (opt_test (fun d => dle d dzero) (ri_initial_capital i)) "initial_capital must be a positive finite Decimal or None" ;!
  refuse_run (opt_test (fun d => dlt d dzero) (ri_commission_per_fill i)) "commission_per_fill must be a non-negative finite Decimal or None" ;!
  refuse_run (opt_test (fun d => dlt d dzero) (ri_slippage_bps i)) "slippage_bps must be a non-negative finite Decimal or None" ;!
  refuse_run (opt_test (fun d => dlt d dzero) (ri_risk_free_rate_per_period i))
    "risk_free_rate_per_period must be a non-negative finite Decimal or None" ;!
  refuse_run (opt_test (fun n => n <? 1) (ri_periods_per_year i)) "periods_per_year must be a positive int or None" ;!
  refuse_run (opt_test (fun d => negb (dt_aware d)) (ri_start_at i)) "start_at must be a timezone-aware datetime or None" ;!
  refuse_run (opt_test (fun d => negb (dt_aware d)) (ri_end_at i)) "end_at must be a timezone-aware datetime or None" ;!
  Ok i.

Definition unit_separator : string := String (ascii_of_N 31) "".

(** The fields, each by [_canonical]. *)
Definition identity_fields (i : BacktestRunIdentity) : list (string * string) :=
  [("dataset_id", ri_dataset_id i); ("source", ri_source i); ("input_sha256", ri_input_sha256 i);
   ("simulator_version", ri_simulator_version i);
   ("strategy_identity", canonical_opt id (ri_strategy_identity i));
   ("strategy_version", canonical_opt id (ri_strategy_version i));
   ("configuration_hash", canonical_opt id (ri_configuration_hash i));
   ("initial_capital", canonical_opt dec_str (ri_initial_capital i));
   ("commission_per_fill", canonical_opt dec_str (ri_commission_per_fill i));
   ("slippage_bps", canonical_opt dec_str (ri_slippage_bps i));
   ("risk_free_rate_per_period", canonical_opt dec_str (ri_risk_free_rate_per_period i));
   ("periods_per_year", canonical_opt str_Z (ri_periods_per_year i));
   ("seed", canonical_opt id (ri_seed i));
   ("start_at", canonical_opt canonical_time (ri_start_at i));
   ("end_at", canonical_opt canonical_time (ri_end_at i));
   ("instrument_universe", String.concat unit_separator (sorted_strings (ri_instrument_universe i)))]%string.

Definition canonical_string (i : BacktestRunIdentity) : string :=
  String.concat "|" ((fun kv => kv.1 +:+ "=" +:+ kv.2) <$> identity_fields i).

Definition identity_sha256 (i : BacktestRunIdentity) : string := sha256_hex (canonical_string i).

Definition run_id_for_identity (canonical : string) : res UUID :=
  refuse_run (String.eqb canonical "") "canonical must be a non-empty string" ;! Ok (uuid5 RUN_NAMESPACE canonical).

Definition run_id (i : BacktestRunIdentity) : res UUID := run_id_for_identity (canonical_string i).

(** * persistence/store.py *)

Inductive BacktestStatus := bs_PENDING | bs_COMPLETED | bs_FAILED.
Definition bs_all : list BacktestStatus := [bs_PENDING; bs_COMPLETED; bs_FAILED].
Definition bs_value (s : BacktestStatus) : string :=
  match s with bs_PENDING => "PENDING" | bs_COMPLETED => "COMPLETED" | bs_FAILED => "FAILED" end.

Definition pair_leb (a b : string * string) : bool :=
  if String.eqb a.1 b.1 then String.leb a.2 b.2 else String.leb a.1 b.1.
Definition sorted_pairs : list (string * string) -> list (string * string) := stable_sort pair_leb.

Record BacktestRecord := {
  bc_run_id : UUID;
  bc_identity_sha256 : string;
  bc_status : BacktestStatus;
  bc_created_at : datetime;
  bc_report_reference : option string;
  bc_configuration : list (string * string);
  bc_metrics : list (string * string);
}.

Definition mk_BacktestRecord (r : BacktestRecord) : res BacktestRecord :=
  refuse_run (negb (String.length (bc_identity_sha256 r) =? 64)%nat) "identity_sha256 must be a 64-char hex string" ;!
  refuse_run (negb (dt_aware (bc_created_at r))) "created_at must be a timezone-aware datetime" ;!
  Ok {| bc_run_id := bc_run_id r; bc_identity_sha256 := bc_identity_sha256 r; bc_status := bc_status r;
        bc_created_at := bc_created_at r; bc_report_reference := bc_report_reference r;
        bc_configuration := sorted_pairs (bc_configuration r); bc_metrics := sorted_pairs (bc_metrics r) |}.

Definition pairs_to_sorted_list (pairs : list (string * string)) : json :=
  JArr ((fun kv => JArr [JStr kv.1; JStr kv.2]) <$> sorted_pairs pairs).

Definition record_to_dict (r : BacktestRecord) : list (string * json) :=
  [("run_id", JStr (uuid_str (bc_run_id r))); ("identity_sha256", JStr (bc_identity_sha256 r));
   ("status", JStr (bs_value (bc_status r))); ("created_at", JStr (canonical_time (bc_created_at r)));
   ("report_reference", json_opt_str (bc_report_reference r)); ("configuration", pairs_to_sorted_list (bc_configuration r));
   ("metrics", pairs_to_sorted_list (bc_metrics r))]%string.

Definition to_json (r : BacktestRecord) : string := json_default (record_to_dict r).

Section FromJson.
Context (fromisoformat : string -> res datetime).

Definition required_str (data : list (string * json)) (key : string) : res string :=
  match member key data with
  | Some (JStr s) => if String.eqb s "" then raise RunPersistenceError ("corrupted metadata: missing " +:+ py_repr key) else Ok s
  | _ => raise RunPersistenceError ("corrupted metadata: missing " +:+ py_repr key)
  end.

Definition optional_str (data : list (string * json)) (key : string) : res (option string) :=
  match member key data with
  | None | Some JNull => Ok None
  | Some (JStr s) => Ok (Some s)
  | _ => raise RunPersistenceError ("corrupted metadata: " +:+ py_repr key +:+ " must be a string or null")
  end.

Definition read_pairs (data : list (string * json)) (key : string) : res (list (string * string)) :=
  match default (JArr []) (member key data) with
  | JArr items =>
      mapM_res (fun item =>
        match item with
        | JArr [k; v] => Ok (json_str k, json_str v)
        | _ => raise RunPersistenceError ("corrupted metadata: " +:+ py_repr key +:+ " entries must be [key, value]")
        end) items
  | _ => raise RunPersistenceError ("corrupted metadata: " +:+ py_repr key +:+ " must be a list")
  end.

(** [except (ValueError, TypeError) as exc: raise PersistenceError(...) from exc] *)
Definition as_corrupted {A} (r : res A) : res A :=
  match r with
  | Ok a => Ok a
  | Err e => if isinstance e ValueError || isinstance e TypeError then raise RunPersistenceError ("corrupted metadata: " +:+ exn_msg e)
             else Err e
  end.

Definition read_header (data : list (string * json)) : res (UUID * BacktestStatus * datetime) :=
  as_corrupted (
    let! id_text := required_str data "run_id" in
    let! run_id := match uuid_parse id_text with Some u => Ok u | None => raise ValueError "badly formed hexadecimal UUID string" end in
    let! status_text := required_str data "status" in
    let! status := enum_of bs_all bs_value status_text in
    let! created_text := required_str data "created_at" in
    let! created_at := fromisoformat created_text in
    Ok (run_id, status, created_at)).

Definition from_json (text : string) : res BacktestRecord :=
  refuse_run (String.eqb text "") "text must be a non-empty JSON string" ;!
  let! data := match json_loads text with
               | Err e => if isinstance e JSONDecodeError then raise RunPersistenceError ("corrupted metadata: invalid JSON (" +:+ exn_msg e +:+ ")")
                          else Err e
               | Ok data => Ok data
               end in
  match data with
  | JObj data =>
      let! header := read_header data in
      let '(run_id, status, created_at) := header in
      let! identity := required_str data "identity_sha256" in
      let! report_reference := optional_str data "report_reference" in
      let! configuration := read_pairs data "configuration" in
      let! metrics := read_pairs data "metrics" in
      mk_BacktestRecord {| bc_run_id := run_id; bc_identity_sha256 := identity; bc_status := status; bc_created_at := created_at;
                           bc_report_reference := report_reference; bc_configuration := configuration; bc_metrics := metrics |}
  | _ => raise RunPersistenceError "corrupted metadata: top-level JSON must be an object"
  end.
End FromJson.

Definition cache_key_for_identity (identity : string) : res string :=
  refuse_run (negb (String.length identity =? 64)%nat) "identity_sha256 must be a 64-char hex string" ;! Ok identity.

(** The store: the dictionary of its records. *)
Definition store_save (record : BacktestRecord) : M (gmap string BacktestRecord) BacktestRecord := fun s =>
  match s !! bc_identity_sha256 record with
  | None => (Ok record, <[ bc_identity_sha256 record := record ]> s)
  | Some existing =>
      if negb (bc_run_id existing =? bc_run_id record)%N then
        (raise RunPersistenceError "same identity with a different run id is a conflict", s)
      else if negb (String.eqb (to_json existing) (to_json record)) then
        (raise RunPersistenceError "same identity with a different payload is a conflict (original preserved)", s)
      else (Ok existing, s)
  end.

Definition store_load (identity : string) (s : (gmap string BacktestRecord)) : res (option BacktestRecord) :=
  let! key := cache_key_for_identity identity in Ok (s !! key).
Definition store_contains (identity : string) (s : (gmap string BacktestRecord)) : res bool :=
  let! key := cache_key_for_identity identity in Ok (match s !! key with Some _ => true | None => false end).

(** ** Latency *)

Definition delayed (t : Z) (i i' : OrderIntent) : Prop :=
  i' = {| oi_side := oi_side i; oi_order_type := oi_order_type i; oi_quantity := oi_quantity i;
          oi_decided_at := dt_add (oi_decided_at i) t; oi_limit_price := oi_limit_price i; oi_label := oi_label i |}.

Lemma mk_OrderIntent_id i i' : mk_OrderIntent i = Ok i' -> i' = i.
Proof. unfold mk_OrderIntent. intros H. res_inv. done. Qed.

Lemma total_latency_ok m t : mk_LatencyModel m = Ok m -> total_latency m = Ok t ->
  0 <= t /\ t = ly_signal m + ly_decision m + ly_submission m + ly_fill m.
Proof.
  unfold mk_LatencyModel, refuse_latency, total_latency, td_check. intros H H'. res_inv.
  repeat match goal with E : (_ <? 0) = false |- _ => apply Z.ltb_ge in E end. lia.
Qed.

Lemma apply_latency_to_intent_inv m i i' : apply_latency_to_intent i m = Ok i' ->
  exists t, total_latency m = Ok t /\ delayed t i i'.
Proof.
  unfold apply_latency_to_intent, dt_shift. intros H. res_inv. exists a. split; [done|].
  match goal with H : mk_OrderIntent _ = _ |- _ => by apply mk_OrderIntent_id in H as -> end.
Qed.

Lemma apply_latency_inv intents m intents' : apply_latency intents m = Ok intents' -> intents <> [] ->
  exists t, total_latency m = Ok t /\ Forall2 (delayed t) intents intents'.
Proof.
  intros H%mapM_res_ok Hne. destruct H as [|i i' l l' Hi Hl]; [done|]. apply apply_latency_to_intent_inv in Hi as (t & Ht & Hi).
  exists t. split; [done|]. constructor; [done|]. eapply Forall2_impl; [exact Hl|]. cbn beta. intros j j' Hj.
  apply apply_latency_to_intent_inv in Hj as (t' & Ht' & Hj). rewrite Ht in Ht'. by injection Ht' as ->.
Qed.

(** Delaying every intent by the same time keeps them sorted. *)
Lemma delayed_ascending t intents intents' : Forall2 (delayed t) intents intents' ->
  check_ascending intents' = check_ascending intents.
Proof.
  induction 1 as [|a a' l l' Ha Hl IH]; [done|]. destruct Hl as [|b b' l l' Hb Hl]; [done|].
  assert (ts_le (oi_decided_at b') (oi_decided_at a') = ts_le (oi_decided_at b) (oi_decided_at a)) as E.
  { rewrite Ha, Hb. unfold ts_le, dt_add. cbn. apply eq_true_iff_eq. rewrite !Z.leb_le. lia. }
  cbn [check_ascending] in IH |- *. by rewrite E, IH.
Qed.

(** Latency only delays.  A run over intents to which a latency was applied
    accepts the same orders of intents as without it, and whenever it fills one of
    them, the fill has the side and the quantity of the original intent, is made
    more than the whole latency after the original decision, and at no earlier
    record than the original intent would have been evaluated at; there is no
    usable record that it skipped: every record before the fill's is within the
    latency of the decision. *)
Theorem latency_delays_fills inputs intents m intents' cm capital run i it :
  mk_LatencyModel m = Ok m -> apply_latency intents m = Ok intents' ->
  run_backtest inputs intents' cm capital = Ok run -> intents !! i = Some it ->
  exists t, total_latency m = Ok t /\ 0 <= t /\ check_ascending intents' = check_ascending intents /\
    forall o f, br_outcomes run !! i = Some o -> fo_fill o = Some f ->
      fi_side f = oi_side it /\ fi_quantity f = oi_quantity it /\
      dt_instant (oi_decided_at it) + t < dt_instant (fi_filled_at f) /\
      (anchor_of (bt_records inputs) it <= fi_record_index f)%nat /\
      forall k r, bt_records inputs !! k = Some r -> (k < fi_record_index f)%nat ->
        instant r <= dt_instant (oi_decided_at it) + t.
Proof.
  intros Hm Hl Hrun Hi. apply apply_latency_inv in Hl as (t & Ht & Hall); [|by destruct intents].
  exists t. destruct (total_latency_ok _ _ Hm Ht) as [H0 _]. split_and!; [done..|by eapply delayed_ascending|].
  destruct (Forall2_lookup_l _ _ _ _ _ Hall Hi) as (it' & Hi' & Hd). intros o f Ho Hf.
  destruct (outcomes_after_decision _ _ _ _ _ _ _ Hrun Hi') as (_ & Hk & Hr). rewrite Hd in Hk, Hr. cbn in Hk, Hr.
  destruct (bt_records inputs !! _) as [r|]; [|rewrite Ho in Hr; by simplify_eq].
  destruct Hr as (Hlt & o' & Ho' & _ & Hfill). rewrite Ho in Ho'. simplify_eq. destruct (Hfill f Hf) as (Hj & Hat & Hs & Hq).
  split_and!; [done..| | |].
  - rewrite Hat. exact Hlt.
  - rewrite Hj. unfold anchor_of. apply skip_past_mono. cbn. lia.
  - intros k r' Hr' Hkj. apply (Hk k r' Hr'). by rewrite Hj in Hkj.
Qed.

(** ** Grid search *)

Section GridSearch.
Context {V : Type}.
Implicit Types (g : ParameterGrid V) (e : Evaluation V).

Lemma product_in (tuples : list (list V)) combo : combo ∈ product tuples <-> Forall2 (fun x values => x ∈ values) combo tuples.
Proof.
  revert combo. induction tuples as [|values rest IH]; intros combo; cbn [product].
  - rewrite list_elem_of_singleton. split; [intros ->; constructor|by inversion 1].
  - rewrite list_elem_of_bind. split.
    + intros (x & Hc & Hx). apply list_elem_of_fmap in Hc as (c & -> & Hc). constructor; [done|]. by apply IH.
    + inversion 1 as [|x ? c ? Hx Hc]; subst. exists x. split; [|done]. apply list_elem_of_fmap. exists c. split; [done|]. by apply IH.
Qed.

Lemma product_length (tuples : list (list V)) :
  Z.of_nat (List.length (product tuples)) = foldr (fun l n => Z.of_nat (List.length l) * n) 1 tuples.
Proof.
  induction tuples as [|values rest IH]; [done|]. cbn [product foldr]. rewrite <- IH. clear IH.
  induction values as [|x values IHv]; [done|]. rewrite bind_cons, length_app, length_fmap, Nat2Z.inj_add, IHv. cbn [List.length]. lia.
Qed.

Lemma product_distinct (tuples : list (list V)) : Forall NoDup tuples -> NoDup (product tuples).
Proof.
  induction 1 as [|values rest Hv Hr IH]; [cbn; by apply NoDup_singleton|]. cbn [product].
  induction Hv as [|x values Hx Hv IHv]; [constructor|]. rewrite bind_cons. apply NoDup_app. split_and!; [|..|done].
  - apply NoDup_fmap_2; [|done]. by intros ? ? [= ->].
  - intros c (c' & -> & _)%list_elem_of_fmap (y & Hc & Hy)%list_elem_of_bind. apply list_elem_of_fmap in Hc as (c'' & [= <- _] & _). done.
Qed.

Lemma combination_count_product g : combination_count g = Z.of_nat (List.length (grid_points g)).
Proof.
  unfold combination_count, grid_points. rewrite length_fmap, product_length.
  assert (forall acc, foldl (fun count p => count * Z.of_nat (List.length (pr_values p))) acc g =
    acc * foldr (fun l n => Z.of_nat (List.length l) * n) 1 (pr_values <$> g)) as H; [|rewrite H; lia].
  induction g as [|p g IH]; intros acc; [cbn; lia|]. cbn [foldl foldr fmap list_fmap]. rewrite IH. cbn. lia.
Qed.

(** The best of a list: beaten by none, and it beats all before it. *)
Definition first_best (l : list (Evaluation V)) (best : Evaluation V) : Prop :=
  exists pre post, l = pre ++ best :: post /\
    Forall (fun e => (dval (el_score e) < dval (el_score best))%Q) pre /\
    Forall (fun e => (dval (el_score e) <= dval (el_score best))%Q) post.

Lemma select_best_loop rest : forall seen best, first_best seen best ->
  first_best (seen ++ rest) (foldl (fun best e => if dgt (el_score e) (el_score best) then e else best) best rest).
Proof.
  induction rest as [|e rest IH]; intros seen best H; [by rewrite app_nil_r|]. cbn [foldl].
  rewrite (cons_middle e seen rest), app_assoc. apply IH. destruct H as (pre & post & -> & Hpre & Hpost).
  unfold dgt. destruct (dlt (el_score best) (el_score e)) eqn:E.
  - apply dlt_spec in E. exists (pre ++ best :: post), []. split_and!; [done| |constructor].
    apply Forall_app. split; [|constructor; [done|]]; (eapply Forall_impl; [eassumption|]); cbn; intros; lra.
  - apply dlt_false in E. exists pre, (post ++ [e]). split_and!; [by rewrite <- app_assoc|done|].
    apply Forall_app. split; [done|]. by repeat constructor.
Qed.

Lemma select_best_ok l best : select_best l = Ok best -> first_best l best.
Proof.
  destruct l as [|e l]; [done|]. intros [= <-]. apply (select_best_loop l [e]). by exists [], [].
Qed.

Lemma grid_points_nonempty g : Forall (fun p => mk_Parameter p = Ok p) g -> grid_points g <> [].
Proof.
  intros H. assert (1 <= Z.of_nat (List.length (product (pr_values <$> g)))) as Hl.
  - rewrite product_length. induction H as [|p g Hp _ IH]; [done|]. cbn [foldr fmap list_fmap].
    unfold mk_Parameter, refuse_search in Hp. res_inv. destruct (pr_values p); [done|]. cbn [List.length].
    set (z := foldr _ _ _) in *. nia.
  - unfold grid_points. intros E. apply (f_equal List.length) in E. rewrite length_fmap in E. cbn in E. lia.
Qed.
End GridSearch.

(** The grid search is exhaustive and picks the first best.  With an objective
    that scores every point, it evaluates one point per combination in the order
    of [itertools.product], each assigning every parameter, by its name, one of its
    values; every such assignment is among them, and none twice when no parameter
    repeats a value.  The result is the score of a point that no point beats and
    that beats every point before it. *)
Theorem grid_search_exhaustive {V} (g : ParameterGrid V) (objective : ParameterPoint V -> res Score) :
  Forall (fun p => mk_Parameter p = Ok p) g ->
  (forall p, exists d, evaluate_point p objective = Ok d) ->
  exists r best, grid_search g objective = Ok r /\
    el_point <$> op_evaluations r = grid_points g /\
    Z.of_nat (List.length (op_evaluations r)) = combination_count g /\
    (forall e, e ∈ op_evaluations r -> evaluate_point (el_point e) objective = Ok (el_score e)) /\
    (forall combo, Forall2 (fun x p => x ∈ pr_values p) combo g ->
       exists e, e ∈ op_evaluations r /\ el_point e = zip (pr_name <$> g) combo) /\
    (Forall (fun p => NoDup (pr_values p)) g -> NoDup (el_point <$> op_evaluations r)) /\
    first_best (op_evaluations r) best /\ op_best_point r = el_point best /\ op_best_score r = el_score best.
Proof.
  intros Hp Hobj.
  assert (exists evs, mapM_res (fun point => let! score := evaluate_point point objective in
    Ok {| el_point := point; el_score := score |}) (grid_points g) = Ok evs /\
    el_point <$> evs = grid_points g /\ Forall (fun e => evaluate_point (el_point e) objective = Ok (el_score e)) evs)
    as (evs & Hevs & Hpts & Hsc).
  { induction (grid_points g) as [|p l (evs & Hevs & Hpts & Hsc)]; [exists []; by repeat constructor|].
    destruct (Hobj p) as [d Hd]. exists ({| el_point := p; el_score := d |} :: evs). cbn [mapM_res]. rewrite Hd. cbn [rbind].
    rewrite Hevs. split_and!; [done|by cbn; rewrite Hpts|by constructor]. }
  pose proof (grid_points_nonempty g Hp) as Hne.
  assert (exists best, select_best evs = Ok best) as [best Hbest] by (destruct evs; [by rewrite <- Hpts in Hne|eexists; reflexivity]).
  unfold grid_search. rewrite Hevs. cbn [rbind]. rewrite Hbest. cbn [rbind]. do 2 eexists. split; [reflexivity|]. cbn.
  split_and!; [done| | | | |by apply select_best_ok|done|done].
  - rewrite combination_count_product, <- Hpts, length_fmap. done.
  - intros e He. by apply (proj1 (Forall_forall _ _) Hsc).
  - intros combo Hc. assert (zip (pr_name <$> g) combo ∈ el_point <$> evs) as Hin.
    { rewrite Hpts. apply list_elem_of_fmap. exists combo. split; [done|]. apply product_in. by apply Forall2_fmap_r. }
    apply list_elem_of_fmap in Hin as (e & E & He). by exists e.
  - intros Hn. rewrite Hpts. apply NoDup_fmap_2_strong; [|apply product_distinct; by apply Forall_fmap].
    intros c c' Hc Hc' E. apply product_in in Hc, Hc'. apply Forall2_length in Hc, Hc'. rewrite length_fmap in Hc, Hc'.
    apply (f_equal (fmap snd)) in E. rewrite !snd_zip in E by (rewrite length_fmap; lia). done.
Qed.

(** ** Seeded resampling *)

Lemma rand_index_lt seed counter bound : (0 < bound)%nat -> (rand_index seed counter bound < bound)%nat.
Proof.
  intros H. unfold rand_index. destruct (Sha256.digest _) as [|w0 [|w1 l]]; [lia..|].
  pose proof (N.mod_lt (w0 * 2 ^ 32 + w1) (N.of_nat bound) ltac:(lia)). lia.
Qed.

Lemma delete_insert_same {A} (i : nat) (x : A) (l : list A) : delete i (<[i := x]> l) = delete i l.
Proof. revert i. induction l as [|y l IH]; intros [|i]; cbn; [done..|]. f_equal. apply IH. Qed.

Lemma insert_perm {A} (i : nat) (x : A) (l : list A) y : l !! i = Some y -> <[i := x]> l ≡ₚ x :: delete i l.
Proof.
  intros H. assert (<[i := x]> l !! i = Some x) as Hx by (apply list_lookup_insert_eq; by eapply lookup_lt_Some).
  transitivity (x :: delete i (<[i := x]> l)); [by apply delete_Permutation|]. by rewrite delete_insert_same.
Qed.

Lemma swap_perm {A} i j (l : list A) : swap i j l ≡ₚ l.
Proof.
  unfold swap. destruct (l !! i) as [a|] eqn:Hi; [|done]. destruct (l !! j) as [b|] eqn:Hj; [|done].
  destruct (decide (i = j)) as [->|Hne].
  { rewrite Hi in Hj. injection Hj as ->. by rewrite list_insert_insert_eq, list_insert_id. }
  assert (<[i := b]> l !! j = Some b) as Hj' by (by rewrite list_lookup_insert_ne).
  transitivity (a :: delete j (<[i := b]> l)); [by eapply insert_perm|].
  transitivity (a :: delete i l); [|symmetry; by apply delete_Permutation]. constructor. apply (Permutation_cons_inv (a := b)).
  transitivity (<[i := b]> l); [symmetry; by apply delete_Permutation|by eapply insert_perm].
Qed.

Lemma shuffle_perm {A} seed i : forall l : list A, shuffle_from seed i l ≡ₚ l.
Proof. induction i as [|i IH]; intros l; [done|]. cbn [shuffle_from]. by rewrite IH, swap_perm. Qed.

(** The seeded shuffle is a permutation of its input, and an input of one value
    is left alone; every other call is refused. *)
Theorem shuffle_is_permutation values seed :
  match deterministic_shuffle values seed with
  | Ok l => values <> [] /\ seed <> ""%string /\ l ≡ₚ values
  | Err e => exn_cls e = OptimizationError /\ (values = [] \/ seed = ""%string)
  end.
Proof.
  unfold deterministic_shuffle, validate_values, validate_seed, refuse_search, raise_if.
  destruct values as [|v values]; [cbn; by eauto|]. destruct (String.eqb_spec seed ""); [cbn; by eauto|]. cbn.
  split_and!; [done..|]. apply shuffle_perm.
Qed.

Lemma sample_path_in values seed path : values <> [] ->
  List.length (sample_path values seed path) = List.length values /\ Forall (fun v => v ∈ values) (sample_path values seed path).
Proof.
  intros Hne. unfold sample_path. rewrite length_fmap, length_seq. split; [done|]. apply Forall_fmap, Forall_forall. intros draw _.
  cbn. assert (0 < List.length values)%nat as Hl by (destruct values; [done|cbn; lia]).
  pose proof (rand_index_lt seed (Z.of_nat (path * List.length values + draw)) _ Hl) as Hi.
  destruct (lookup_lt_is_Some_2 _ _ Hi) as [v Hv]. rewrite Hv. cbn. by eapply list_elem_of_lookup_2.
Qed.

(** Sorting by value *)
Definition dsorted : list decimal -> Prop := StronglySorted (fun a b => (dval a <= dval b)%Q).

Lemma insert_sorted_dec x l : dsorted l -> dsorted (stable_insert dle x l).
Proof.
  induction 1 as [|y l Hl IH Hy]; [by repeat constructor|]. cbn. destruct (dle x y) eqn:E.
  - apply dle_spec in E. constructor; [by constructor|]. constructor; [done|]. eapply Forall_impl; [exact Hy|]. cbn. intros. lra.
  - apply dle_false in E. constructor; [done|]. rewrite stable_insert_perm. constructor; [lra|done].
Qed.

Lemma sort_sorted_dec l : dsorted (stable_sort dle l).
Proof. induction l as [|x l IH]; [constructor|]. by apply insert_sorted_dec. Qed.

Lemma dsorted_lookup l i j a b : dsorted l -> l !! i = Some a -> l !! j = Some b -> (i <= j)%nat -> (dval a <= dval b)%Q.
Proof.
  intros H. revert i j. induction H as [|x l Hl IH Hx]; intros i j Hi Hj Hij; [done|].
  destruct i as [|i], j as [|j]; cbn in *; [simplify_eq; lra| |lia|eapply IH; eauto; lia].
  simplify_eq. apply (proj1 (Forall_forall _ _) Hx). by eapply list_elem_of_lookup_2.
Qed.

(** The position of a percentile given in hundredths. *)
Definition percentile_index (q : N) (n : Z) : Z := if n =? 1 then 0 else Z.of_N (div_half_even (q * Z.to_N (n - 1)) 100).

Lemma percentile_at q l : (q <= 100)%N -> 1 <= Z.of_nat (List.length l) < 10 ^ 20 ->
  percentile l (Dec false q (-2)) = value_at l (percentile_index q (Z.of_nat (List.length l))).
Proof.
  intros Hq Hn. unfold percentile, percentile_index. set (n := Z.of_nat (List.length l)) in *. destruct (n =? 1) eqn:E; [done|].
  apply Z.eqb_neq in E. f_equal. unfold dmul, dec_of_Z. rewrite (proj2 (Z.ltb_ge (n - 1) 0)) by lia. cbn [dneg dcoef dexp xorb].
  replace (Z.abs_N (n - 1)) with (Z.to_N (n - 1)) by lia. rewrite dfix_id.
  { unfold to_integral_value, int_of_dec, rescale_coef, dz. cbn [dexp dcoef dneg]. change (10 ^ Z.to_N (0 - (-2 + 0)))%N with 100%N. generalize (div_half_even (q * Z.to_N (n - 1)) 100). intros k.
    destruct (0 <=? -2 + 0) eqn:F; [done|]. cbn [dexp dcoef dneg]. cbn. lia. }
  cbn [dcoef].
  apply N.le_lt_trans with (100 * 10 ^ 20)%N; [|reflexivity]. apply N.mul_le_mono; [done|].
  apply N2Z.inj_le. rewrite Z2N.id by lia. change (Z.of_N (10 ^ 20)) with (10 ^ 20). lia.
Qed.

Lemma percentile_index_range q q' n : (q <= q')%N -> (q' <= 100)%N -> 1 <= n ->
  0 <= percentile_index q n <= percentile_index q' n /\ percentile_index q' n <= n - 1.
Proof.
  intros Hq Hq' Hn. unfold percentile_index. destruct (n =? 1) eqn:E; [lia|]. apply Z.eqb_neq in E.
  set (m := Z.to_N (n - 1)). assert (div_half_even (q * m) 100 <= div_half_even (q' * m) 100)%N as H1.
  - destruct (div_half_even_cases (q * m) 100 eq_refl) as (a & r & Ha & Hr & Hc).
    destruct (div_half_even_cases (q' * m) 100 eq_refl) as (b & r' & Hb & Hr' & Hc').
    assert (q * m <= q' * m)%N by (apply N.mul_le_mono_r; done).
    destruct (N.eq_dec (q * m) (q' * m)) as [Eq|Ne]; [by rewrite Eq|]. revert Ha Hb. generalize dependent (div_half_even (q * m) 100). generalize dependent (div_half_even (q' * m) 100).
    generalize dependent (q * m)%N. generalize dependent (q' * m)%N. intros. lia.
  - assert (div_half_even (q' * m) 100 <= m)%N as H2 by (apply div_half_even_le; [done|nia]). unfold m in *. lia.
Qed.

(** The summary of a resampling is in order.  With a statistic that is defined
    on the paths, the bootstrap answers one statistic per path, each of a sample as
    long as the input that holds only values of the input; and the summary's
    figures are statistics of paths, with minimum <= p5 <= p50 <= p95 <= maximum,
    the first and the last bounding all of them. *)
Theorem bootstrap_summary_ordered values n_paths seed statistic name :
  values <> [] -> seed <> ""%string -> name <> ""%string -> 1 <= n_paths < 10 ^ 20 ->
  (forall xs, List.length xs = List.length values -> Forall (fun v => v ∈ values) xs ->
     exists d, default (fun xs => Ok (dsum xs)) statistic xs = Ok d) ->
  exists paths s, bootstrap_paths values n_paths seed statistic = Ok paths /\
    Z.of_nat (List.length paths) = n_paths /\
    (forall k d, paths !! k = Some d -> exists xs, List.length xs = List.length values /\ Forall (fun v => v ∈ values) xs /\
       default (fun xs => Ok (dsum xs)) statistic xs = Ok d) /\
    bootstrap_summary values n_paths seed statistic name = Ok s /\
    Forall (fun d => d ∈ paths) [mc_minimum s; mc_p5 s; mc_p50 s; mc_p95 s; mc_maximum s] /\
    Forall (fun d => (dval (mc_minimum s) <= dval d <= dval (mc_maximum s))%Q) paths /\
    (dval (mc_minimum s) <= dval (mc_p5 s) /\ dval (mc_p5 s) <= dval (mc_p50 s) /\
     dval (mc_p50 s) <= dval (mc_p95 s) /\ dval (mc_p95 s) <= dval (mc_maximum s))%Q.
Proof.
  intros Hv Hs Hname Hn Hstat. set (fn := default (fun xs => Ok (dsum xs)) statistic) in *.
  assert (forall ps, exists out, mapM_res (fun path => fn (sample_path values seed path)) ps = Ok out) as Htotal.
  { induction ps as [|p ps [out IH]]; [by exists []|]. destruct (sample_path_in values seed p Hv) as [H1 H2].
    destruct (Hstat _ H1 H2) as [d Hd]. exists (d :: out). cbn [mapM_res]. by rewrite Hd, IH. }
  destruct (Htotal (seq 0 (Z.to_nat n_paths))) as [paths Hp].
  assert (bootstrap_paths values n_paths seed statistic = Ok paths) as Hpaths.
  { unfold bootstrap_paths, validate_values, validate_seed, refuse_search, raise_if. destruct values; [done|].
    rewrite (proj2 (String.eqb_neq _ _) Hs). rewrite (proj2 (Z.ltb_ge n_paths 1)) by lia. exact Hp. }
  apply mapM_res_ok in Hp. assert (Z.of_nat (List.length paths) = n_paths) as Hlen.
  { apply Forall2_length in Hp. rewrite length_seq in Hp. lia. }
  set (sorted := stable_sort dle paths). assert (sorted ≡ₚ paths) as Hperm by apply stable_sort_perm.
  assert (Z.of_nat (List.length sorted) = n_paths) as Hsl by (by rewrite (Permutation_length Hperm)).
  pose proof (sort_sorted_dec paths : dsorted sorted) as Hsorted.
  assert (forall k, 0 <= k < n_paths -> exists d, sorted !! Z.to_nat k = Some d /\ value_at sorted k = Ok d /\ d ∈ paths) as Hat.
  { intros k Hk. destruct (lookup_lt_is_Some_2 sorted (Z.to_nat k)) as [d Hd]; [lia|]. exists d. split_and!; [done|unfold value_at; by rewrite Hd|].
    rewrite <- Hperm. by eapply list_elem_of_lookup_2. }
  destruct (percentile_index_range 5 50 n_paths ltac:(done) ltac:(done) ltac:(lia)) as [I1 I2].
  destruct (percentile_index_range 50 95 n_paths ltac:(done) ltac:(done) ltac:(lia)) as [I3 I4].
  destruct (Hat 0) as (lo & L1 & L2 & L3); [lia|]. destruct (Hat (n_paths - 1)) as (hi & H1 & H2 & H3); [lia|].
  destruct (Hat (percentile_index 5 n_paths)) as (p5 & A1 & A2 & A3); [lia|].
  destruct (Hat (percentile_index 50 n_paths)) as (p50 & B1 & B2 & B3); [lia|].
  destruct (Hat (percentile_index 95 n_paths)) as (p95 & C1 & C2 & C3); [lia|].
  destruct (ddiv_total (dsum paths) (dec_of_Z n_paths)) as [mean Hmean]; [rewrite dval_of_Z; unfold Qlt; cbn; lia|].
  exists paths. eexists. split; [done|]. split; [done|]. split.
  { intros k d Hk. destruct (Forall2_lookup_r _ _ _ _ _ Hp Hk) as (p & _ & Hd). destruct (sample_path_in values seed p Hv). eauto. }
  split.
  { unfold bootstrap_summary, validate_seed, refuse_search, raise_if. rewrite (proj2 (String.eqb_neq _ _) Hs), (proj2 (String.eqb_neq _ _) Hname).
    cbn [rbind]. rewrite Hpaths. cbn [rbind]. fold sorted. rewrite Hsl, Hmean, L2, H2. cbn [rbind].
    rewrite !percentile_at by (done || lia). rewrite Hsl, A2, B2, C2. cbn [rbind].
    unfold mk_MonteCarloSummary, validate_seed, refuse_search, raise_if. cbn [mc_seed mc_n_paths mc_statistic_name].
    rewrite (proj2 (String.eqb_neq _ _) Hs), (proj2 (String.eqb_neq _ _) Hname), (proj2 (Z.ltb_ge n_paths 1)) by lia. reflexivity. }
  cbn [mc_minimum mc_p5 mc_p50 mc_p95 mc_maximum]. split_and!.
  - by repeat constructor.
  - rewrite <- Hperm. apply Forall_forall. intros d [k Hk]%list_elem_of_lookup. pose proof (lookup_lt_Some _ _ _ Hk).
    split; [eapply dsorted_lookup; [done|exact L1|exact Hk|lia]|eapply dsorted_lookup; [done|exact Hk|exact H1|lia]].
  - eapply dsorted_lookup; [done|exact L1|exact A1|lia].
  - eapply dsorted_lookup; [done|exact A1|exact B1|lia].
  - eapply dsorted_lookup; [done|exact B1|exact C1|lia].
  - eapply dsorted_lookup; [done|exact C1|exact H1|lia].
Qed.

(** ** Data quality *)

Lemma rejected_nil b index reason : rejected b index reason = [] <-> b = false.
Proof. by destruct b. Qed.
Lemma quarantined_nil b index reason : quarantined b index reason = [] <-> b = false.
Proof. by destruct b. Qed.

(** A finding about the record at [index], of a class that is not VALID. *)
Definition about (index : nat) (f : DataQualityFinding) : Prop := qf_index f = index /\ qf_classification f <> qc_VALID.

Lemma rejected_about b index reason : Forall (about index) (rejected b index reason).
Proof. destruct b; by repeat constructor. Qed.
Lemma quarantined_about b index reason : Forall (about index) (quarantined b index reason).
Proof. destruct b; by repeat constructor. Qed.
#[local] Hint Resolve rejected_about quarantined_about : quality.
#[local] Hint Extern 1 (Forall _ (_ ++ _)) => apply Forall_app_2 : quality.

Lemma classify_record_about r index : Forall (about index) (classify_record r index).
Proof. unfold classify_record. destruct r; auto 12 with quality. Qed.
Lemma series_about first r index : Forall (about index) (series_findings first r index).
Proof. unfold series_findings. auto with quality. Qed.

(** With earlier findings only about earlier records, the class of a record is that
    of its own findings. *)
Lemma class_of_own index per_record old own :
  Forall (fun f => (qf_index f < index)%nat) old -> Forall (about index) own -> (exists rest, own = per_record ++ rest) ->
  class_of index per_record (old ++ own) = qc_VALID <-> own = [].
Proof.
  intros Hold Hown [rest ->]. unfold class_of.
  assert (forall c, existsb (fun f => (qf_index f =? index)%nat && bool_decide (qf_classification f = c)) old = false) as Ho.
  { intros c. apply not_true_iff_false. intros (f & Hf & E)%existsb_exists. apply list_elem_of_In in Hf.
    apply (proj1 (Forall_forall _ _) Hold) in Hf. apply andb_true_iff in E as [E _]. apply Nat.eqb_eq in E. lia. }
  rewrite !existsb_app, !(Ho _). cbn [orb]. split.
  - destruct per_record as [|f l]; [|done]. cbn [app orb]. cbn [app] in Hown.
    destruct rest as [|f rest]; [done|]. inversion Hown as [|? ? [Hi Hc] Hr]; subst. cbn [existsb]. rewrite Nat.eqb_refl. cbn [andb].
    destruct (qf_classification f) eqn:E; [done|..].
    + rewrite (bool_decide_eq_false_2 (qc_QUARANTINED = qc_REJECTED)), (bool_decide_eq_true_2 (qc_QUARANTINED = qc_QUARANTINED)) by done.
      cbn [orb]. by destruct (existsb _ rest).
    + rewrite (bool_decide_eq_true_2 (qc_REJECTED = qc_REJECTED)) by done. done.
  - intros H. apply app_eq_nil in H as [-> ->]. done.
Qed.

Definition spaced (limit : option Z) (previous : option market_record) (r : market_record) : Prop :=
  match limit, previous with Some d, Some p => instant r - instant p <= d | _, _ => True end.
Definition not_future (reference_time : option datetime) (r : market_record) : Prop :=
  match reference_time with Some t => instant r <= dt_instant t | None => True end.

Lemma valid_record_aware r : valid_record r -> dt_aware (record_timestamp r) = true.
Proof.
  destruct r as [c|t]; cbn; [unfold mk_MarketCandle|unfold mk_MarketTick]; intros H; unfold timestamp_aware in H; res_inv;
    by repeat match goal with E : negb _ = false |- _ => apply negb_false_iff in E end.
Qed.

(** A valid record has findings of its own only if it is a tick with crossed quotes. *)
Lemma classify_valid r index : valid_record r ->
  classify_record r index =
  rejected (match r with rec_tick t => match tk_bid t, tk_ask t with Some b, Some a => dgt b a | _, _ => false end | _ => false end)
    index "tick bid exceeds ask".
Proof.
  intros H. unfold classify_record. rewrite (valid_record_aware r H). cbn [negb rejected app].
  destruct r as [c|t]; cbn in H; [unfold mk_MarketCandle, validate_price_range in H|unfold mk_MarketTick in H];
    unfold positive_price in H; res_inv;
    repeat match goal with E : dle ?x dzero = false |- _ => rewrite E; clear E end; [|done].
  repeat match goal with E : _ = false |- _ => rewrite E; clear E end. done.
Qed.

Definition crossed (r : market_record) : bool :=
  match r with rec_tick t => match tk_bid t, tk_ask t with Some b, Some a => dgt b a | _, _ => false end | rec_candle _ => false end.
Definition timeframe_drift (first r : market_record) : bool :=
  match first, r with rec_candle f, rec_candle c => negb (bool_decide (cd_timeframe c = cd_timeframe f)) | _, _ => false end.

Lemma unit_seq {A} (m : res unit) (k : res A) x : (m ;! k) = Ok x <-> m = Ok tt /\ k = Ok x.
Proof. destruct m as [[]|e]; cbn; naive_solver. Qed.
Lemma raise_if_done b c msg : raise_if b c msg = Ok tt <-> b = false.
Proof. by destruct b. Qed.

(** When a backtest input accepts a record at its place *)
Lemma accepted_record_iff first previous index r : dt_aware (record_timestamp r) = true ->
  check_record first previous index r = Ok tt <->
  Bool.eqb (is_candle r) (is_candle first) = true /\ same_identity first r = true /\ timeframe_drift first r = false /\
  (forall p, previous = Some p -> instant p < instant r) /\ crossed r = false.
Proof.
  intros Ha. unfold check_record, same_identity, timeframe_drift. rewrite Ha, !unit_seq, !raise_if_done, !negb_false_iff, !andb_true_iff.
  assert (match r with rec_candle c => match first with rec_candle f => negb (bool_decide (cd_timeframe c = cd_timeframe f)) | _ => false end
          | rec_tick _ => false end = match first with rec_candle f => match r with rec_candle c => negb (bool_decide (cd_timeframe c = cd_timeframe f))
          | _ => false end | rec_tick _ => false end) as -> by (by destruct r, first).
  assert (match previous with Some p => raise_if (ts_lt (record_timestamp r) (record_timestamp p)) ValueError
      ("records must be sorted ascending by timestamp (index " +:+ str_Z (Z.of_nat index) +:+ ")") ;!
      raise_if (dt_instant (record_timestamp r) =? dt_instant (record_timestamp p)) ValueError
      ("duplicate record timestamp at index " +:+ str_Z (Z.of_nat index)) | None => Ok tt end = Ok tt <->
      (forall p, previous = Some p -> instant p < instant r)) as ->.
  { destruct previous as [p|]; [|done]. rewrite unit_seq, !raise_if_done. unfold ts_lt, instant. split.
    - intros [H1 H2] ? [= <-]. lia.
    - intros H. specialize (H p eq_refl). lia. }
  assert (match r with rec_candle _ => Ok tt | rec_tick t => match tk_bid t with Some b => match tk_ask t with Some a =>
      raise_if (dgt b a) ValueError ("tick bid cannot exceed ask (index " +:+ str_Z (Z.of_nat index) +:+ ")") | None => Ok tt end
      | None => Ok tt end end = Ok tt <-> crossed r = false) as ->.
  { destruct r as [c|t]; [done|]. cbn. destruct (tk_bid t), (tk_ask t); try done. apply raise_if_done. }
  tauto.
Qed.

Lemma eqb_sym_bool a b : Bool.eqb a b = Bool.eqb b a.
Proof. by destruct a, b. Qed.

Section Clean.
Context (first : market_record) (reference_time : option datetime) (expected_step : option Z) (gap_multiple : Z).
Context (Href : match reference_time with Some t => dt_aware t = true | None => True end).
Context (Hstep : match expected_step with Some s => s * gap_multiple <= TIMEDELTA_MAX | None => True end).

Definition clean (previous : option market_record) (index : nat) (r : market_record) : Prop :=
  check_record first previous index r = Ok tt /\
  spaced ((fun s => s * gap_multiple) <$> expected_step) previous r /\ not_future reference_time r.

Lemma future_findings_run r index : dt_aware (record_timestamp r) = true ->
  exists f, future_findings reference_time (record_timestamp r) index = Ok f /\ Forall (about index) f /\
    (f = [] <-> not_future reference_time r).
Proof.
  intros Ha. unfold future_findings, not_future. destruct reference_time as [t|]; [|by exists []].
  unfold dt_gt. rewrite dt_cmp_aware by done. cbn [rbind]. eexists. split; [reflexivity|]. split; [apply quarantined_about|].
  rewrite quarantined_nil, Z.gtb_ltb, Z.ltb_ge. done.
Qed.

Lemma order_findings_run previous r index :
  (forall p, previous = Some p -> dt_aware (record_timestamp p) = true) -> dt_aware (record_timestamp r) = true ->
  exists o, order_findings expected_step gap_multiple (record_timestamp <$> previous) (record_timestamp r) index = Ok o /\
    Forall (about index) o /\
    (o = [] <-> (forall p, previous = Some p -> instant p < instant r) /\
                spaced ((fun s => s * gap_multiple) <$> expected_step) previous r).
Proof.
  intros Hp Ha. unfold order_findings, spaced. destruct previous as [p|]; cbn [fmap option_fmap option_map].
  2: { exists []. split_and!; [done|constructor|]. split; [|done]. intros _. split; [done|]. by destruct expected_step. }
  specialize (Hp p eq_refl). unfold dt_lt. rewrite dt_cmp_aware by done. cbn [rbind]. unfold instant.
  destruct (dt_instant (record_timestamp r) <? dt_instant (record_timestamp p)) eqn:E1.
  { eexists. split_and!; [done|by repeat constructor|]. split; [done|]. intros [H _]. specialize (H p eq_refl). lia. }
  destruct (dt_instant (record_timestamp r) =? dt_instant (record_timestamp p)) eqn:E2.
  { eexists. split_and!; [done|by repeat constructor|]. split; [done|]. intros [H _]. specialize (H p eq_refl). lia. }
  assert (dt_instant (record_timestamp p) < dt_instant (record_timestamp r)) by lia.
  destruct expected_step as [s|]; cbn [fmap option_fmap option_map].
  - unfold dt_sub, dt_comparable. rewrite Hp, Ha. cbn [Bool.eqb rbind]. unfold td_check. rewrite (proj2 (Z.ltb_ge TIMEDELTA_MAX _)) by lia.
    cbn [raise_if rbind]. eexists. split_and!; [done|apply quarantined_about|]. rewrite quarantined_nil, Z.ltb_ge. split; [|by intros [_ H']].
    intros Hle. split; [by intros ? [= <-]|done].
  - exists []. split_and!; [done|constructor|]. split; [|done]. intros _. split; [|done]. by intros ? [= <-].
Qed.

(** A record has no finding exactly when a backtest input accepts it at its place
    and it is neither late nor in the future. *)
Lemma record_clean previous index r : valid_record r ->
  (forall p, previous = Some p -> dt_aware (record_timestamp p) = true) ->
  exists o f, order_findings expected_step gap_multiple (record_timestamp <$> previous) (record_timestamp r) index = Ok o /\
    future_findings reference_time (record_timestamp r) index = Ok f /\
    Forall (about index) (classify_record r index ++ series_findings first r index ++ o ++ f) /\
    (classify_record r index ++ series_findings first r index ++ o ++ f = [] <-> clean previous index r).
Proof.
  intros Hr Hp. pose proof (valid_record_aware r Hr) as Ha.
  destruct (order_findings_run previous r index Hp Ha) as (o & Ho & Hoa & Hon).
  destruct (future_findings_run r index Ha) as (f & Hf & Hfa & Hfn). exists o, f. split_and!; [done..| |].
  { apply Forall_app_2; [apply classify_record_about|]. apply Forall_app_2; [apply series_about|]. by apply Forall_app_2. }
  rewrite !app_nil, Hon, Hfn. unfold clean. rewrite accepted_record_iff by done. rewrite classify_valid by done. fold (crossed r).
  unfold series_findings. fold (timeframe_drift first r). rewrite !app_nil, !rejected_nil, !negb_false_iff.
  rewrite (eqb_sym_bool (is_candle first) (is_candle r)). tauto.
Qed.
End Clean.

(** The records with their places: each is paired with the one before it. *)
Fixpoint places (previous : option market_record) (index : nat) (records : list market_record)
    : list (option market_record * nat * market_record) :=
  match records with
  | [] => []
  | r :: rest => (previous, index, r) :: places (Some r) (S index) rest
  end.

Section Classify.
Context (first : market_record) (reference_time : option datetime) (expected_step : option Z) (gap_multiple : Z).
Context (Href : match reference_time with Some t => dt_aware t = true | None => True end).
Context (Hstep : match expected_step with Some s => s * gap_multiple <= TIMEDELTA_MAX | None => True end).
Let clean := clean first reference_time expected_step gap_multiple.

Lemma classify_all_run records : forall previous index findings classes,
  Forall valid_record records -> (forall p, previous = Some p -> dt_aware (record_timestamp p) = true) ->
  Forall (fun f => (qf_index f < index)%nat) findings ->
  exists fs cs, classify_all first reference_time expected_step gap_multiple (record_timestamp <$> previous) index records findings classes =
      Ok (findings ++ fs, classes ++ cs) /\
    List.length cs = List.length records /\
    Forall2 (fun place c => c = qc_VALID <-> clean place.1.1 place.1.2 place.2) (places previous index records) cs.
Proof.
  induction records as [|r rest IH]; intros previous index findings classes Hv Hp Hf.
  { exists [], []. rewrite !app_nil_r. by repeat constructor. }
  inversion Hv as [|? ? Hr Hrest]; subst.
  destruct (record_clean first reference_time expected_step gap_multiple Href Hstep previous index r Hr Hp) as (o & f & Ho & Hfu & Hab & Hcl).
  cbn [classify_all]. rewrite Ho, Hfu. cbn [rbind]. set (own := classify_record r index ++ series_findings first r index ++ o ++ f) in *.
  destruct (IH (Some r) (S index) (findings ++ own) (classes ++ [class_of index (classify_record r index) (findings ++ own)]) Hrest)
    as (fs & cs & E & Hl & Hall).
  { intros ? [= <-]. by apply valid_record_aware. }
  { apply Forall_app_2; (eapply Forall_impl; [eassumption|]); cbn; [lia|]. intros g [Hg _]. lia. }
  cbn [fmap option_fmap option_map] in E. rewrite E. exists (own ++ fs), (class_of index (classify_record r index) (findings ++ own) :: cs).
  rewrite <- !app_assoc. split_and!; [done|by cbn; rewrite Hl|]. cbn [places]. constructor; [|done]. cbn [fst snd].
  rewrite class_of_own; [exact Hcl|done|done|]. by exists (series_findings first r index ++ o ++ f).
Qed.
End Classify.

Lemma count_class_sum classes :
  count_class qc_VALID classes + count_class qc_QUARANTINED classes + count_class qc_REJECTED classes = Z.of_nat (List.length classes).
Proof.
  unfold count_class. induction classes as [|c l IH]; [done|]. cbn [List.filter List.length]. destruct c;
    repeat first [rewrite bool_decide_eq_true_2 by done|rewrite bool_decide_eq_false_2 by done]; cbn [List.length]; lia.
Qed.

Lemma all_valid classes : count_class qc_REJECTED classes = 0 /\ count_class qc_QUARANTINED classes = 0 <-> Forall (eq qc_VALID) classes.
Proof.
  unfold count_class. induction classes as [|c l IH]; [done|]. rewrite Forall_cons, <- IH. cbn [List.filter]. destruct c;
    repeat first [rewrite bool_decide_eq_true_2 by done|rewrite bool_decide_eq_false_2 by done]; cbn [List.length];
    (split; [intros [H1 H2]; first [lia|by split_and!]|intros (E & H1 & H2); first [discriminate E|done]]).
Qed.

(** The checks of a backtest input, place by place *)
Lemma check_records_places first records : forall previous index,
  check_records first previous index records = Ok tt <->
  Forall (fun place => check_record first place.1.1 place.1.2 place.2 = Ok tt) (places previous index records).
Proof.
  induction records as [|r rest IH]; intros previous index; [done|]. cbn [check_records places]. by rewrite unit_seq, IH, Forall_cons.
Qed.

Lemma places_records records : forall previous index, snd <$> places previous index records = records.
Proof. induction records as [|r rest IH]; intros; [done|]. cbn. by rewrite IH. Qed.

(** A dataset that is not empty is ready exactly when a simulation accepts it. *)
Lemma nonempty_ready_iff records reference_time expected_step gap_multiple dataset_id source meta :
  records <> [] -> Forall valid_record records -> is_blank dataset_id = false -> is_blank source = false ->
  match reference_time with Some t => dt_aware t = true | None => True end ->
  match expected_step with Some s => 0 < s /\ s * gap_multiple <= TIMEDELTA_MAX | None => True end -> 1 <= gap_multiple ->
  let input := {| bt_dataset_id := dataset_id; bt_source := source; bt_records := records; bt_metadata := meta |} in
  exists rep, validate_dataset records reference_time expected_step gap_multiple = Ok rep /\
    qr_valid_count rep + qr_quarantined_count rep + qr_rejected_count rep = Z.of_nat (List.length records) /\
    (is_simulation_ready rep = true <-> qr_dataset_classification rep = qc_VALID) /\
    (is_simulation_ready rep = true <->
       mk_BacktestInput input = Ok input /\ Forall (not_future reference_time) records /\
       Forall (fun place => spaced ((fun s => s * gap_multiple) <$> expected_step) place.1.1 place.2) (places None 0 records)).
Proof.
  intros Hne Hv Hd Hsrc Href Hstep Hm input. destruct records as [|first rest]; [done|].
  destruct (classify_all_run first reference_time expected_step gap_multiple Href) with (records := first :: rest)
    (previous := @None market_record) (index := 0%nat) (findings := @nil DataQualityFinding) (classes := @nil QualityClass)
    as (fs & cs & E & Hl & Hall); [by destruct expected_step; lia|done|done|constructor|].
  unfold validate_dataset, refuse_quality. cbn [fmap option_fmap option_map app] in E. rewrite E. clear E.
  rewrite (proj2 (raise_if_done _ _ _)) by (destruct reference_time; [by rewrite Href|done]).
  rewrite (proj2 (raise_if_done _ _ _)) by (destruct expected_step; [apply Z.leb_gt; lia|done]).
  rewrite (proj2 (raise_if_done _ _ _)) by (by apply Z.ltb_ge). cbn [rbind].
  pose proof (count_class_sum cs) as Hsum. rewrite Hl in Hsum. pose proof (all_valid cs) as Hval.
  assert (0 <= count_class qc_VALID cs /\ 0 <= count_class qc_QUARANTINED cs /\ 0 <= count_class qc_REJECTED cs) as (P1 & P2 & P3)
    by (unfold count_class; lia).
  unfold mk_DataQualityReport, refuse_quality. cbn [qr_total_records qr_valid_count qr_quarantined_count qr_rejected_count].
  rewrite (proj2 (Z.ltb_ge (Z.of_nat _) 0)) by lia. rewrite (proj2 (Z.ltb_ge (count_class qc_VALID cs) 0)) by lia.
  rewrite (proj2 (Z.ltb_ge (count_class qc_QUARANTINED cs) 0)) by lia. rewrite (proj2 (Z.ltb_ge (count_class qc_REJECTED cs) 0)) by lia.
  rewrite Hsum, Z.eqb_refl. cbn [negb raise_if rbind]. eexists. split; [reflexivity|]. unfold is_simulation_ready.
  cbn [qr_valid_count qr_quarantined_count qr_rejected_count qr_dataset_classification]. split; [done|].
  rewrite andb_true_iff, !Z.eqb_eq, Hval. split.
  { rewrite <- Hval. destruct (Z.ltb_spec 0 (count_class qc_REJECTED cs)), (Z.ltb_spec 0 (count_class qc_QUARANTINED cs)); split; try done; lia. }
  assert (mk_BacktestInput input = Ok input <-> check_records first None 0 (first :: rest) = Ok tt) as ->.
  { unfold mk_BacktestInput, input. cbn [bt_dataset_id bt_source bt_records]. rewrite Hd, Hsrc. cbn [raise_if rbind]. rewrite unit_seq. tauto. }
  rewrite check_records_places. clear -Hall. rewrite <- (places_records (first :: rest) None 0) at 2. rewrite Forall_fmap.
  unfold clean in Hall. induction Hall as [|place c l k Hc _ IH]; [done|]. rewrite !Forall_cons, IH. cbn. split.
  - intros [<- H]. destruct (proj1 Hc eq_refl) as (H1 & H2 & H3). tauto.
  - intros ([H1 H1'] & [H2 H2'] & [H3 H3']). split; [symmetry; by apply Hc|done].
Qed.

(** C39: A dataset is ready for simulation exactly when a simulation accepts it,
    the empty dataset apart, which is reported ready and which no simulation
    accepts.  For records that satisfy the market-data contracts, an aware
    reference time (or none) and an expected step (or none) whose allowed
    multiple is a representable timedelta, the classifier always answers, with
    every record counted in one class; it reports the dataset ready if and only
    if the dataset is empty, or a backtest input made of the records (under names
    that are not blank) is accepted, no record lies after the reference time, and
    no two neighbours are further apart than the allowed multiple of the expected
    step. *)
Theorem ready_iff_accepted records reference_time expected_step gap_multiple dataset_id source meta :
  Forall valid_record records -> is_blank dataset_id = false -> is_blank source = false ->
  match reference_time with Some t => dt_aware t = true | None => True end ->
  match expected_step with Some s => 0 < s /\ s * gap_multiple <= TIMEDELTA_MAX | None => True end -> 1 <= gap_multiple ->
  let input := {| bt_dataset_id := dataset_id; bt_source := source; bt_records := records; bt_metadata := meta |} in
  exists rep, validate_dataset records reference_time expected_step gap_multiple = Ok rep /\
    qr_valid_count rep + qr_quarantined_count rep + qr_rejected_count rep = Z.of_nat (List.length records) /\
    (is_simulation_ready rep = true <-> qr_dataset_classification rep = qc_VALID) /\
    (is_simulation_ready rep = true <->
       records = [] \/
       (mk_BacktestInput input = Ok input /\ Forall (not_future reference_time) records /\
        Forall (fun place => spaced ((fun s => s * gap_multiple) <$> expected_step) place.1.1 place.2) (places None 0 records))) /\
    (records = [] -> exists e, mk_BacktestInput input = Err e /\ exn_cls e = ValueError).
Proof.
  intros Hv Hd Hsrc Href Hstep Hm input. destruct records as [|first rest].
  - unfold validate_dataset, refuse_quality.
    rewrite (proj2 (raise_if_done _ _ _)) by (destruct reference_time; [by rewrite Href|done]).
    rewrite (proj2 (raise_if_done _ _ _)) by (destruct expected_step; [apply Z.leb_gt; lia|done]).
    rewrite (proj2 (raise_if_done _ _ _)) by (by apply Z.ltb_ge). eexists. split; [reflexivity|].
    split; [done|]. split; [done|]. split; [split; [by left|done]|]. intros _.
    unfold mk_BacktestInput, input. cbn [bt_dataset_id bt_source bt_records]. rewrite Hd, Hsrc. eexists. split; [reflexivity|done].
  - destruct (nonempty_ready_iff (first :: rest) reference_time expected_step gap_multiple dataset_id source meta)
      as (rep & H1 & H2 & H3 & H4); [done..|]. exists rep. split_and!; [done..| |done]. rewrite H4. split; [by right|by intros [?|?]].
Qed.

(** The classifier is said to report data problems as findings; a naive time stamp
    makes it raise as soon as there is a reference time. *)
Example naive_record_raises :
  let naive := rec_tick {| tk_instrument_id := 1%N; tk_exchange := "NSE"; tk_symbol := "ABC"; tk_timestamp := DT 0 None;
                           tk_ltp := dec_of_Z 1; tk_volume := None; tk_bid := None; tk_ask := None; tk_bid_quantity := None;
                           tk_ask_quantity := None; tk_source_broker := "x"; tk_source_sequence := "1"; tk_received_at := utc 0 |} in
  match validate_dataset [naive] (Some (utc 0)) None 3 with Err e => exn_cls e = TypeError | Ok _ => False end.
Proof. reflexivity. Qed.

(** ** Stored runs *)

Lemma stable_insert_front {A} (le : A -> A -> bool) x l : Sorted (fun a b => le a b = true) (x :: l) -> stable_insert le x l = x :: l.
Proof. intros H. inversion H as [|? ? _ Hh]; subst. destruct Hh as [|y l E]; [done|]. cbn. by rewrite E. Qed.

Lemma stable_sort_fixed {A} (le : A -> A -> bool) l : Sorted (fun a b => le a b = true) l -> stable_sort le l = l.
Proof.
  induction l as [|x l IH]; intros H; [done|]. cbn [stable_sort foldr]. fold (stable_sort le l).
  rewrite IH by (by inversion H). by apply stable_insert_front.
Qed.

Lemma stable_sort_sorted {A} (le : A -> A -> bool) l : (forall a b, le a b = true \/ le b a = true) ->
  Sorted (fun a b => le a b = true) (stable_sort le l).
Proof.
  intros Ht. induction l as [|x l IH]; [constructor|]. cbn [stable_sort foldr]. fold (stable_sort le l).
  induction IH as [|y k Hk IHk Hy]; [by repeat constructor|]. cbn. destruct (le x y) eqn:E.
  - constructor; [by constructor|]. by constructor.
  - assert (le y x = true) as E' by (destruct (Ht x y); congruence). constructor; [done|].
    destruct k as [|z k]; cbn; [by constructor|]. destruct (le x z); constructor; [done|by inversion Hy].
Qed.

Lemma pair_leb_total a b : pair_leb a b = true \/ pair_leb b a = true.
Proof. unfold pair_leb. rewrite (String.eqb_sym b.1 a.1). destruct (String.eqb a.1 b.1); apply String.leb_total. Qed.

Lemma sorted_pairs_twice l : sorted_pairs (sorted_pairs l) = sorted_pairs l.
Proof. apply stable_sort_fixed, stable_sort_sorted, pair_leb_total. Qed.

Definition in_utc (r : BacktestRecord) : BacktestRecord :=
  {| bc_run_id := bc_run_id r; bc_identity_sha256 := bc_identity_sha256 r; bc_status := bc_status r;
     bc_created_at := utc (dt_instant (bc_created_at r)); bc_report_reference := bc_report_reference r;
     bc_configuration := bc_configuration r; bc_metrics := bc_metrics r |}.

Lemma mk_record_inv r0 r : mk_BacktestRecord r0 = Ok r ->
  String.length (bc_identity_sha256 r) = 64%nat /\ dt_aware (bc_created_at r) = true /\ bc_run_id r = bc_run_id r0 /\
  sorted_pairs (bc_configuration r) = bc_configuration r /\ sorted_pairs (bc_metrics r) = bc_metrics r.
Proof.
  unfold mk_BacktestRecord, refuse_run. intros H. res_inv. cbn. rewrite !sorted_pairs_twice.
  repeat match goal with E : negb _ = false |- _ => apply negb_false_iff in E end.
  by split_and!; [apply Nat.eqb_eq|..].
Qed.

Definition pair_item (kv : string * string) : json := JArr [JStr kv.1; JStr kv.2].

Lemma json_ok_pairs l : json_ok (pairs_to_sorted_list l) = true.
Proof. unfold pairs_to_sorted_list. cbn. apply forallb_forall. intros j Hj. apply in_map_iff in Hj as (kv & <- & _). done. Qed.

Lemma sort_deep_pairs l : sort_deep (pairs_to_sorted_list l) = pairs_to_sorted_list l.
Proof. unfold pairs_to_sorted_list. cbn. f_equal. rewrite List.map_map. by apply List.map_ext. Qed.

Lemma to_json_loads r : json_loads (to_json r) = Ok (JObj
  [("configuration", pairs_to_sorted_list (bc_configuration r)); ("created_at", JStr (canonical_time (bc_created_at r)));
   ("identity_sha256", JStr (bc_identity_sha256 r)); ("metrics", pairs_to_sorted_list (bc_metrics r));
   ("report_reference", json_opt_str (bc_report_reference r)); ("run_id", JStr (uuid_str (bc_run_id r)));
   ("status", JStr (bs_value (bc_status r)))])%string.
Proof.
  unfold to_json, json_default, json_dumps. rewrite json_text_sorted.
  rewrite (loads_dumps " " " " eq_refl eq_refl).
  - unfold record_to_dict. cbn [sort_deep List.map fst snd]. rewrite !sort_deep_pairs.
    assert (sort_deep (json_opt_str (bc_report_reference r)) = json_opt_str (bc_report_reference r)) as -> by (by destruct (bc_report_reference r)).
    reflexivity.
  - apply sort_deep_ok. unfold record_to_dict. cbn [json_ok List.map fst snd forallb]. rewrite !json_ok_pairs.
    by destruct (bc_report_reference r).
Qed.

Lemma app_char_nonempty s c t : String.eqb (s +:+ String c t) "" = false.
Proof. by destruct s. Qed.

Lemma canonical_time_nonempty d : String.eqb (canonical_time d) "" = false.
Proof.
  unfold canonical_time. destruct (_ =? 0); [apply app_char_nonempty|]. unfold isoformat, iso_text.
  destruct (civil_of_days _) as [[y m] dd]. apply app_char_nonempty.
Qed.

Lemma uuid_str_nonempty u : String.eqb (uuid_str u) "" = false.
Proof. unfold uuid_str. apply app_char_nonempty. Qed.

Lemma read_pairs_sorted data key l : member key data = Some (pairs_to_sorted_list l) -> read_pairs data key = Ok (sorted_pairs l).
Proof.
  intros H. unfold read_pairs. rewrite H. cbn. induction (sorted_pairs l) as [|[k v] t IH]; [done|]. cbn. by rewrite IH.
Qed.

Lemma record_roundtrip (fromisoformat : string -> res datetime) r0 r : mk_BacktestRecord r0 = Ok r -> (bc_run_id r0 < 2 ^ 128)%N ->
  fromisoformat (canonical_time (bc_created_at r)) = Ok (utc (dt_instant (bc_created_at r))) ->
  from_json fromisoformat (to_json r) = Ok (in_utc r).
Proof.
  intros Hr Hid Hiso. apply mk_record_inv in Hr as (Hlen & Ha & Er & Hc & Hm).
  unfold from_json, refuse_run. assert (String.eqb (to_json r) "" = false) as -> by (unfold to_json, json_default, json_dumps; done).
  cbn [raise_if rbind]. rewrite to_json_loads. cbn [rbind]. unfold read_header, required_str.
  cbn [member String.eqb Ascii.eqb Bool.eqb]. rewrite uuid_str_nonempty, canonical_time_nonempty. cbn [rbind].
  rewrite uuid_roundtrip by (by rewrite Er). cbn [rbind].
  assert (String.eqb (bs_value (bc_status r)) "" = false) as -> by (by destruct (bc_status r)). cbn [rbind].
  assert (enum_of bs_all bs_value (bs_value (bc_status r)) = Ok (bc_status r)) as -> by (by destruct (bc_status r)). cbn [rbind].
  rewrite Hiso. cbn [rbind as_corrupted].
  assert (String.eqb (bc_identity_sha256 r) "" = false) as -> by (by destruct (bc_identity_sha256 r)). cbn [rbind].
  unfold optional_str. cbn [member String.eqb Ascii.eqb Bool.eqb].
  assert (match json_opt_str (bc_report_reference r) with JNull => Ok None | JStr s => Ok (Some s)
    | _ => raise RunPersistenceError ("corrupted metadata: " +:+ py_repr "report_reference" +:+ " must be a string or null") end
    = Ok (bc_report_reference r)) as -> by (by destruct (bc_report_reference r)). cbn [rbind].
  rewrite (read_pairs_sorted _ "configuration" (bc_configuration r)), (read_pairs_sorted _ "metrics" (bc_metrics r)) by reflexivity. cbn [rbind].
  unfold mk_BacktestRecord, refuse_run. cbn [bc_identity_sha256 bc_created_at bc_run_id bc_status bc_report_reference bc_configuration bc_metrics].
  rewrite Hlen, !Hc, !Hm. done.
Qed.

(** Saves, one after another; a failed one leaves the store as it is. *)
Fixpoint save_all (records : list BacktestRecord) (s : (gmap string BacktestRecord)) : (gmap string BacktestRecord) :=
  match records with [] => s | r :: rest => save_all rest (snd (store_save r s)) end.

Lemma store_save_keeps r s k x : s !! k = Some x -> snd (store_save r s) !! k = Some x.
Proof.
  intros H. unfold store_save. destruct (s !! bc_identity_sha256 r) as [e|] eqn:E.
  - destruct (negb _); [done|]. by destruct (negb _).
  - cbn [snd]. rewrite lookup_insert_ne; [done|]. intros <-. congruence.
Qed.

Lemma save_all_keeps records : forall s k x, s !! k = Some x -> save_all records s !! k = Some x.
Proof. induction records as [|r rest IH]; intros s k x H; [done|]. cbn. by apply IH, store_save_keeps. Qed.

Lemma save_all_first records : forall s k,
  save_all records s !! k =
  match s !! k with Some x => Some x | None => List.find (fun r => String.eqb (bc_identity_sha256 r) k) records end.
Proof.
  induction records as [|r rest IH]; intros s k; [cbn; by destruct (s !! k)|]. cbn [save_all List.find].
  destruct (s !! k) as [x|] eqn:E; [by apply save_all_keeps, store_save_keeps|]. rewrite IH. clear IH.
  destruct (String.eqb_spec (bc_identity_sha256 r) k) as [<-|Hne].
  - unfold store_save. rewrite E. cbn [snd]. by rewrite lookup_insert_eq.
  - assert (snd (store_save r s) !! k = None) as ->; [|done]. unfold store_save.
    destruct (s !! bc_identity_sha256 r); [by repeat (destruct (negb _))|]. cbn [snd]. by rewrite lookup_insert_ne.
Qed.

(** What was saved can be recovered.  Let a record be saved successfully at any
    point in a history of saves.  Then ever after, whatever else is saved, loading
    its identity gives a record with the same text and run id, the first one that
    was saved under this identity, and reading that text back gives the record that
    was handed to the store, with its time in UTC. *)
Theorem saved_record_recovered (fromisoformat : string -> res datetime) before r0 r r' s s' later :
  mk_BacktestRecord r0 = Ok r -> (bc_run_id r0 < 2 ^ 128)%N ->
  fromisoformat (canonical_time (bc_created_at r)) = Ok (utc (dt_instant (bc_created_at r))) ->
  s = save_all before ∅ -> store_save r s = (Ok r', s') ->
  store_load (bc_identity_sha256 r) (save_all later s') = Ok (Some r') /\
  store_contains (bc_identity_sha256 r) (save_all later s') = Ok true /\
  List.find (fun x => String.eqb (bc_identity_sha256 x) (bc_identity_sha256 r)) (before ++ [r]) = Some r' /\
  bc_run_id r' = bc_run_id r /\ to_json r' = to_json r /\ from_json fromisoformat (to_json r') = Ok (in_utc r).
Proof.
  intros Hr Hid Hiso -> Hsave. pose proof (mk_record_inv _ _ Hr) as (Hlen & _).
  assert (s' !! bc_identity_sha256 r = Some r' /\ bc_run_id r' = bc_run_id r /\ to_json r' = to_json r) as (Hs & Hrun & Hj).
  { unfold store_save in Hsave. destruct (save_all before ∅ !! bc_identity_sha256 r) as [e|] eqn:E.
    - destruct (N.eqb_spec (bc_run_id e) (bc_run_id r)); [|done]. destruct (String.eqb_spec (to_json e) (to_json r)); [|done].
      cbn [negb] in Hsave. injection Hsave as <- <-. by split_and!.
    - injection Hsave as <- <-. by rewrite lookup_insert_eq. }
  pose proof (save_all_keeps later _ _ _ Hs) as Hk. unfold store_load, store_contains, cache_key_for_identity, refuse_run.
  rewrite Hlen. cbn [Nat.eqb negb raise_if rbind]. rewrite Hk. split_and!; [done..| |done|done|].
  - pose proof (save_all_first (before ++ [r]) ∅ (bc_identity_sha256 r)) as Hf. rewrite lookup_empty in Hf. rewrite <- Hf, <- Hs.
    replace s' with (snd (store_save r (save_all before ∅))) by (by rewrite Hsave).
    generalize (∅ : (gmap string BacktestRecord)). clear. induction before as [|x before IH]; intros s; [done|]. cbn. apply IH.
  - rewrite Hj. by eapply record_roundtrip.
Qed.

(** The identity of a run does not depend on the order in which its instruments are
    listed nor on the time zones its period is given in. *)
Theorem identity_order_and_zone i i' :
  ri_instrument_universe i ≡ₚ ri_instrument_universe i' ->
  dt_instant <$> ri_start_at i = dt_instant <$> ri_start_at i' -> dt_instant <$> ri_end_at i = dt_instant <$> ri_end_at i' ->
  i' = {| ri_dataset_id := ri_dataset_id i; ri_source := ri_source i; ri_input_sha256 := ri_input_sha256 i;
          ri_simulator_version := ri_simulator_version i; ri_strategy_identity := ri_strategy_identity i;
          ri_strategy_version := ri_strategy_version i; ri_configuration_hash := ri_configuration_hash i;
          ri_initial_capital := ri_initial_capital i; ri_commission_per_fill := ri_commission_per_fill i;
          ri_slippage_bps := ri_slippage_bps i; ri_risk_free_rate_per_period := ri_risk_free_rate_per_period i;
          ri_periods_per_year := ri_periods_per_year i; ri_seed := ri_seed i; ri_start_at := ri_start_at i';
          ri_end_at := ri_end_at i'; ri_instrument_universe := ri_instrument_universe i' |} ->
  canonical_string i' = canonical_string i /\ identity_sha256 i' = identity_sha256 i /\ run_id i' = run_id i /\ is_ok (run_id i) = true.
Proof.
  intros Hu Hs He Hi. assert (canonical_string i' = canonical_string i) as E.
  - unfold canonical_string, identity_fields. rewrite Hi. cbn [ri_dataset_id ri_source ri_input_sha256 ri_simulator_version
      ri_strategy_identity ri_strategy_version ri_configuration_hash ri_initial_capital ri_commission_per_fill ri_slippage_bps
      ri_risk_free_rate_per_period ri_periods_per_year ri_seed ri_start_at ri_end_at ri_instrument_universe].
    rewrite (sorted_strings_unique _ _ Hu).
    assert (forall a b : option datetime, dt_instant <$> a = dt_instant <$> b -> canonical_opt canonical_time b = canonical_opt canonical_time a) as Ht.
    { intros [a|] [b|] H; try done. cbn in H |- *. injection H as H. unfold canonical_time. by rewrite H. }
    by rewrite (Ht _ _ Hs), (Ht _ _ He).
  - split_and!; [done|unfold identity_sha256; by rewrite E|unfold run_id; by rewrite E|].
    unfold run_id, run_id_for_identity, refuse_run. unfold canonical_string at 1. cbn [identity_fields fmap list_fmap String.concat fst snd]. done.
Qed.

Module BacktestToolsSamples.
Definition identity (source : string) (seed version : option string) : BacktestRunIdentity :=
  {| ri_dataset_id := "d"; ri_source := source; ri_input_sha256 := sha256_hex "x"; ri_simulator_version := SIMULATOR_VERSION;
     ri_strategy_identity := None; ri_strategy_version := version; ri_configuration_hash := None; ri_initial_capital := None;
     ri_commission_per_fill := None; ri_slippage_bps := None; ri_risk_free_rate_per_period := None; ri_periods_per_year := None;
     ri_seed := seed; ri_start_at := None; ri_end_at := None; ri_instrument_universe := [] |}.

(** Two different identities with one digest: a seed that reads [None], and no seed. *)
Example identity_not_injective :
  mk_BacktestRunIdentity (identity "s" None None) = Ok (identity "s" None None) /\
  mk_BacktestRunIdentity (identity "s" (Some "None"%string) None) = Ok (identity "s" (Some "None"%string) None) /\
  canonical_string (identity "s" None None) = canonical_string (identity "s" (Some "None"%string) None).
Proof. split_and!; vm_compute; reflexivity. Qed.

Definition record : BacktestRecord :=
  {| bc_run_id := 7%N; bc_identity_sha256 := sha256_hex "x"; bc_status := bs_COMPLETED; bc_created_at := DT 1700000000000000 (Some 19800000000);
     bc_report_reference := None; bc_configuration := [("b", "2"); ("a", "1")]%string; bc_metrics := [] |}.
Definition stored : BacktestRecord := Eval vm_compute in match mk_BacktestRecord record with Ok r => r | Err _ => record end.
Definition reader (s : string) : res datetime :=
  if String.eqb s "2023-11-14T22:13:20.000000+00:00" then Ok (utc 1700000000000000) else raise ValueError "Invalid isoformat string".

Lemma saved_record_recovered_witness :
  store_load (bc_identity_sha256 stored) (save_all [stored] (snd (store_save stored ∅))) = Ok (Some stored) /\
  from_json reader (to_json stored) = Ok (in_utc stored).
Proof.
  assert (mk_BacktestRecord record = Ok stored) as Hr by (vm_compute; reflexivity).
  assert (store_save stored ∅ = (Ok stored, snd (store_save stored ∅))) as Hs by (vm_compute; reflexivity).
  assert (reader (canonical_time (bc_created_at stored)) = Ok (utc (dt_instant (bc_created_at stored)))) as Hi by (vm_compute; reflexivity).
  destruct (saved_record_recovered reader [] record stored stored ∅ _ [stored] Hr eq_refl Hi eq_refl Hs) as (H1 & _ & _ & _ & _ & H2).
  split; [exact H1|exact H2].
Defined.

(** A latency of 45 seconds moves the buy decided at 0:30 from the second record to
    the third. *)
Definition latency : LatencyModel := {| ly_signal := 20000000; ly_decision := 15000000; ly_submission := 10000000; ly_fill := 0 |}.
Definition delayed_intents : list OrderIntent := Eval vm_compute in
  match apply_latency BacktestSample.early latency with Ok l => l | Err _ => [] end.
Definition delayed_run : BacktestRun := BacktestSample.run_of BacktestSample.rising delayed_intents.

Example delayed_fill : (fun f => (fi_record_index f, fi_filled_at f)) <$> run_fills delayed_run = [(2%nat, BacktestSample.at_ 2)].
Proof. vm_compute. reflexivity. Qed.

Lemma latency_delays_fills_witness : exists t, total_latency latency = Ok t /\ t = 45000000 /\
  forall o f, br_outcomes delayed_run !! 0%nat = Some o -> fo_fill o = Some f ->
    dt_instant (oi_decided_at (BacktestSample.order it_BUY 2 30)) + t < dt_instant (fi_filled_at f).
Proof.
  assert (mk_LatencyModel latency = Ok latency) as Hm by reflexivity.
  assert (apply_latency BacktestSample.early latency = Ok delayed_intents) as Hl by (vm_compute; reflexivity).
  assert (run_backtest BacktestSample.rising delayed_intents BacktestSample.costs BacktestSample.capital = Ok delayed_run) as Hr
    by (vm_compute; reflexivity).
  destruct (latency_delays_fills BacktestSample.rising BacktestSample.early latency delayed_intents BacktestSample.costs
    BacktestSample.capital delayed_run 0 (BacktestSample.order it_BUY 2 30) Hm Hl Hr eq_refl) as (t & Ht & _ & _ & H).
  exists t. split; [exact Ht|]. split; [vm_compute in Ht; injection Ht as <-; reflexivity|].
  intros o f Ho Hf. exact (proj1 (proj2 (proj2 (H o f Ho Hf)))).
Defined.

Definition grid : ParameterGrid Z :=
  [{| pr_name := "fast"; pr_values := [1; 2] |}; {| pr_name := "slow"; pr_values := [5; 3] |}].
Definition objective (p : ParameterPoint Z) : res Score := Ok (sc_int (foldr (fun kv n => kv.2 + n) 0 p)).

Example grid_in_order : grid_points grid =
  [[("fast", 1); ("slow", 5)]; [("fast", 1); ("slow", 3)]; [("fast", 2); ("slow", 5)]; [("fast", 2); ("slow", 3)]]%string.
Proof. reflexivity. Qed.

Lemma grid_search_exhaustive_witness : exists r best, grid_search grid objective = Ok r /\
  first_best (op_evaluations r) best /\ op_best_point r = el_point best.
Proof.
  destruct (grid_search_exhaustive grid objective) as (r & best & Hr & _ & _ & _ & _ & _ & Hb & Hp & _).
  - repeat constructor.
  - intros p. eexists. reflexivity.
  - exists r, best. split; [exact Hr|]. split; [exact Hb|exact Hp].
Defined.

Definition returns : list decimal := [dec_of_Z 3; dec_of_Z (-1); dec_of_Z 2].

Lemma bootstrap_summary_ordered_witness : exists paths s,
  bootstrap_paths returns 4 "seed" None = Ok paths /\ bootstrap_summary returns 4 "seed" None "sum" = Ok s /\
  (dval (mc_minimum s) <= dval (mc_p5 s))%Q.
Proof.
  destruct (bootstrap_summary_ordered returns 4 "seed" None "sum") as (paths & s & H1 & _ & _ & H2 & _ & _ & H3 & _).
  - discriminate.
  - discriminate.
  - discriminate.
  - lia.
  - intros xs _ _. eexists. reflexivity.
  - exists paths, s. split; [exact H1|]. split; [exact H2|exact H3].
Defined.

Lemma ready_iff_accepted_witness :
  let input := BacktestSample.rising in
  exists rep, validate_dataset (bt_records input) None (Some 60000000) 3 = Ok rep /\ is_simulation_ready rep = true.
Proof.
  destruct (ready_iff_accepted (bt_records BacktestSample.rising) None (Some 60000000) 3 (bt_dataset_id BacktestSample.rising)
    (bt_source BacktestSample.rising) (bt_metadata BacktestSample.rising)) as (rep & Hrep & _ & _ & Hiff & _).
  - repeat constructor; reflexivity.
  - reflexivity.
  - reflexivity.
  - exact I.
  - vm_compute. split; [reflexivity|discriminate].
  - lia.
  - exists rep. split; [exact Hrep|]. apply Hiff. right. split; [reflexivity|]. split; [repeat constructor|].
    repeat constructor; vm_compute; discriminate.
Defined.
End BacktestToolsSamples.
