(* ===== verification/BacktestReports.v ===== *)
(** Reports on backtest runs (src/backtesting/alpha_algo_backtest_reports): the
    curves (curves.py), the trade statistics (statistics.py), the risk ratios
    (risk.py) and the report (report.py).  The main theorem composes the engine
    with the report: the books of a run (unique fills, lots and trades that join
    to fills in order, positive prices) are what a report needs to be built.

    Sums of durations are not checked against the largest [timedelta]; a square
    [x ** 2] is the rounded product. *)

From stdpp Require Import base list strings gmap sorting.
From Stdlib Require Import ZArith QArith Lqa Lia String Ascii.
From S2P Require Import Prelude PyBase Hashing Decimal DecimalText Tokens Money Service Market Backtest BacktestEngine BacktestPortfolio BacktestTools.
Open Scope Z_scope.

Definition refuse_report (b : bool) (msg : string) : res unit := raise_if b BacktestReportError msg.

(** * curves.py *)

Definition validate_equity_curve (curve : list EquityPoint) : res unit :=
  refuse_report (match curve with [] => true | _ => false end) "equity_curve must be a non-empty tuple of EquityPoint" ;!
  raise_if (existsb (fun p => dle (ep_equity p) dzero) curve) BacktestReportMetricsError
    "marked equity must stay positive to compute honest reports".

Record ReturnPoint := { rp_timestamp : datetime; rp_value : decimal }.

Definition mk_ReturnPoint (p : ReturnPoint) : res ReturnPoint :=
  refuse_report (negb (dt_aware (rp_timestamp p))) "ReturnPoint.timestamp must be timezone-aware" ;! Ok p.

Record DrawdownPoint := {
  dd_timestamp : datetime; dd_equity : decimal; dd_peak_equity : decimal; dd_drawdown_ratio : decimal; dd_drawdown_amount : decimal;
}.

Definition mk_DrawdownPoint (p : DrawdownPoint) : res DrawdownPoint :=
  refuse_report (negb (dt_aware (dd_timestamp p))) "DrawdownPoint.timestamp must be timezone-aware" ;!
  refuse_report (dle (dd_equity p) dzero || dle (dd_peak_equity p) dzero) "DrawdownPoint equity values must be positive" ;!
  refuse_report (dlt (dd_drawdown_ratio p) dzero || dgt (dd_drawdown_ratio p) (dec_of_Z 1)) "DrawdownPoint.drawdown_ratio must be in [0, 1]" ;!
  refuse_report (dlt (dd_drawdown_amount p) dzero) "DrawdownPoint.drawdown_amount must be non-negative" ;!
  Ok p.

Inductive PeriodGranularity := DAILY | MONTHLY | YEARLY.

Record PeriodBucket := {
  pb_label : string; pb_start_timestamp : datetime; pb_end_timestamp : datetime;
  pb_start_equity : decimal; pb_end_equity : decimal; pb_period_return : option decimal;
}.

Definition mk_PeriodBucket (b : PeriodBucket) : res PeriodBucket :=
  refuse_report (String.eqb (pb_label b) "") "PeriodBucket.label must be a non-empty string" ;!
  refuse_report (negb (dt_aware (pb_start_timestamp b))) "PeriodBucket.start_timestamp must be timezone-aware" ;!
  refuse_report (negb (dt_aware (pb_end_timestamp b))) "PeriodBucket.end_timestamp must be timezone-aware" ;!
  (let! late := dt_gt (pb_start_timestamp b) (pb_end_timestamp b) in refuse_report late "PeriodBucket start must not follow end") ;!
  refuse_report (dle (pb_start_equity b) dzero) "PeriodBucket.start_equity must be a positive finite Decimal" ;!
  refuse_report (dle (pb_end_equity b) dzero) "PeriodBucket.end_equity must be a positive finite Decimal" ;!
  Ok b.

(** The loop over consecutive marks. *)
Fixpoint return_points (curve : list EquityPoint) : res (list ReturnPoint) :=
  match curve with
  | previous :: (current :: _) as rest =>
      let! value := ddiv (dsub (ep_equity current) (ep_equity previous)) (ep_equity previous) in
      let! p := mk_ReturnPoint {| rp_timestamp := ep_timestamp current; rp_value := value |} in
      let! others := return_points rest in
      Ok (p :: others)
  | _ => Ok []
  end.

Definition compute_period_returns (curve : list EquityPoint) : res (list ReturnPoint) :=
  validate_equity_curve curve ;! return_points curve.

Fixpoint drawdown_points (peak : decimal) (curve : list EquityPoint) : res (list DrawdownPoint) :=
  match curve with
  | [] => Ok []
  | point :: rest =>
      let equity := ep_equity point in
      let peak := if dgt equity peak then equity else peak in
      let amount := dsub peak equity in
      let! ratio := ddiv amount peak in
      let! p := mk_DrawdownPoint {| dd_timestamp := ep_timestamp point; dd_equity := equity; dd_peak_equity := peak;
                                    dd_drawdown_ratio := ratio; dd_drawdown_amount := amount |} in
      let! others := drawdown_points peak rest in
      Ok (p :: others)
  end.

Definition compute_drawdown_series (curve : list EquityPoint) : res (list DrawdownPoint) :=
  validate_equity_curve curve ;!
  match curve with
  | [] => raise IndexError "tuple index out of range"
  | first :: _ => drawdown_points (ep_equity first) curve
  end.

Definition compute_downside_deviation (returns : list decimal) : res decimal :=
  match returns with
  | [] => Ok dzero
  | _ =>
      let squares := dsum ((fun value => let m := dmin value dzero in dmul m m) <$> returns) in
      let! mean := ddiv squares (dec_of_Z (Z.of_nat (List.length returns))) in
      dsqrt mean
  end.

(** The wall-clock date of a time stamp *)
Definition civil_date (t : datetime) : Z * Z * Z := civil_of_days (wall t / 1000000 / 86400).

Definition bucket_key (t : datetime) (granularity : PeriodGranularity) : list Z :=
  let '(y, m, d) := civil_date t in
  match granularity with DAILY => [y; m; d] | MONTHLY => [y; m] | YEARLY => [y] end.

Definition bucket_label (key : list Z) : string :=
  match key with
  | [y; m; d] => pad 4 y +:+ "-" +:+ pad 2 m +:+ "-" +:+ pad 2 d
  | [y; m] => pad 4 y +:+ "-" +:+ pad 2 m
  | y :: _ => pad 4 y
  | [] => ""
  end.

Definition make_bucket (key : list Z) (points : list EquityPoint) : res PeriodBucket :=
  match head points, last points with
  | Some start, Some end_ =>
      let! period_return := if (2 <=? List.length points)%nat
                            then let! r := ddiv (dsub (ep_equity end_) (ep_equity start)) (ep_equity start) in Ok (Some r)
                            else Ok None in
      mk_PeriodBucket {| pb_label := bucket_label key; pb_start_timestamp := ep_timestamp start; pb_end_timestamp := ep_timestamp end_;
                         pb_start_equity := ep_equity start; pb_end_equity := ep_equity end_; pb_period_return := period_return |}
  | _, _ => raise IndexError "list index out of range"
  end.

(** The loop, with the key and the points of the current bucket. *)
Fixpoint bucket_loop (granularity : PeriodGranularity) (current_key : list Z) (current_points rest : list EquityPoint)
    : res (list PeriodBucket) :=
  match rest with
  | [] => let! b := make_bucket current_key current_points in Ok [b]
  | point :: rest =>
      let key := bucket_key (ep_timestamp point) granularity in
      if bool_decide (key = current_key) then bucket_loop granularity current_key (current_points ++ [point]) rest
      else
        let! b := make_bucket current_key current_points in
        let! others := bucket_loop granularity key [point] rest in
        Ok (b :: others)
  end.

Definition bucket_performance (curve : list EquityPoint) (granularity : PeriodGranularity) : res (list PeriodBucket) :=
  validate_equity_curve curve ;!
  match curve with
  | [] => Ok []
  | point :: rest => bucket_loop granularity (bucket_key (ep_timestamp point) granularity) [point] rest
  end.

(** * statistics.py *)

Definition streak_step (p : decimal -> bool) (acc : Z * Z) (value : decimal) : Z * Z :=
  let '(best, current) := acc in
  if p value then (Z.max best (current + 1), current + 1) else (best, 0).
Definition max_streak (values : list decimal) (p : decimal -> bool) : Z := fst (foldl (streak_step p) (0, 0) values).

Definition find_fill (fills : list FillRecord) (sequence : Z) : option FillRecord :=
  List.find (fun f => fi_sequence f =? sequence) fills.

Definition entry_fill (fills : list FillRecord) (t : TradeRecord) : res FillRecord :=
  match find_fill fills (tr_entry_fill_sequence t) with
  | Some f => Ok f
  | None => raise BacktestReportError "trade references an unknown entry fill sequence"
  end.
Definition exit_fills (fills : list FillRecord) (t : TradeRecord) : res (list FillRecord) :=
  mapM_res (fun sequence =>
    match find_fill fills sequence with
    | Some f => Ok f
    | None => raise BacktestReportError "trade references an unknown exit fill sequence"
    end) (tr_exit_fill_sequences t).

Definition unique_sequences (fills : list FillRecord) : res unit :=
  refuse_report (negb (bool_decide (NoDup (fi_sequence <$> fills)))) "fill sequences must be unique".

(** [max(items, key=lambda fill: fill.filled_at)]: the first of the latest *)
Definition latest_fill (fills : list FillRecord) : res FillRecord :=
  match fills with
  | [] => raise ValueError "max() iterable argument is empty"
  | f :: rest => foldM (fun best x => let! later := dt_gt (fi_filled_at x) (fi_filled_at best) in Ok (if later : bool then x else best)) f rest
  end.

Definition trade_duration (fills : list FillRecord) (t : TradeRecord) : res Z :=
  let! entry := entry_fill fills t in
  refuse_report (match tr_exit_fill_sequences t with [] => true | _ => false end) "trade must have at least one exit fill sequence" ;!
  let! exits := exit_fills fills t in
  let! last_exit := latest_fill exits in
  let! duration := match dt_sub (fi_filled_at last_exit) (fi_filled_at entry) with
                   | Err e => if isinstance e TypeError then raise BacktestReportError "fill timestamps must share timezone awareness" else Err e
                   | Ok d => Ok d
                   end in
  refuse_report (duration <? 0) "exit fill must not precede the entry fill" ;!
  Ok duration.

(** [sum(durations, timedelta(0)) / len(durations)] *)
Definition average_trade_duration (run : BacktestRun) : res (option Z) :=
  unique_sequences (run_fills run) ;!
  let! durations := mapM_res (trade_duration (run_fills run)) (br_trades run) in
  match durations with
  | [] => Ok None
  | _ => Ok (Some (round_half_even (foldr Z.add 0 durations) (Z.of_nat (List.length durations))))
  end.

Record TradeStatistics := {
  ts_net_profit : decimal; ts_loss_rate : option decimal; ts_expectancy : option decimal; ts_avg_win : option decimal;
  ts_avg_loss : option decimal; ts_risk_reward_ratio : option decimal; ts_largest_win : option decimal; ts_largest_loss : option decimal;
  ts_max_consecutive_wins : Z; ts_max_consecutive_losses : Z; ts_average_trade_duration : option Z; ts_recovery_factor : option decimal;
  ts_total_fees : decimal; ts_total_slippage : decimal;
}.

Definition negative (o : option decimal) : bool := opt_test (fun d => dlt d dzero) o.

Definition mk_TradeStatistics (t : TradeStatistics) : res TradeStatistics :=
  refuse_report (negative (ts_avg_win t)) "TradeStatistics.avg_win must be non-negative" ;!
  refuse_report (negative (ts_avg_loss t)) "TradeStatistics.avg_loss must be non-negative" ;!
  refuse_report (negative (ts_largest_win t)) "TradeStatistics.largest_win must be non-negative" ;!
  refuse_report (negative (ts_largest_loss t)) "TradeStatistics.largest_loss must be non-negative" ;!
  refuse_report (ts_max_consecutive_wins t <? 0) "TradeStatistics.max_consecutive_wins must be a non-negative int" ;!
  refuse_report (ts_max_consecutive_losses t <? 0) "TradeStatistics.max_consecutive_losses must be a non-negative int" ;!
  refuse_report (dlt (ts_total_fees t) dzero) "TradeStatistics.total_fees must be a non-negative finite Decimal" ;!
  refuse_report (dlt (ts_total_slippage t) dzero) "TradeStatistics.total_slippage must be a non-negative finite Decimal" ;!
  Ok t.

(** [a / b if condition else None] *)
Definition ratio_if (b : bool) (x y : decimal) : res (option decimal) :=
  if b then let! r := ddiv x y in Ok (Some r) else Ok None.

(** [max(values, default=None)] *)
Definition max_opt (values : list decimal) : option decimal :=
  match values with [] => None | v :: rest => Some (foldl dmax v rest) end.

Definition compute_trade_statistics (run : BacktestRun) (metrics : BacktestMetrics) (max_drawdown_dollar : decimal) : res TradeStatistics :=
  refuse_report (dlt max_drawdown_dollar dzero) "max_drawdown_dollar must be a non-negative finite Decimal" ;!
  let trade_count := Z.of_nat (List.length (br_trades run)) in
  let pnl := tr_realized_pnl <$> br_trades run in
  let net_profit := dsum pnl in
  let! loss_rate := ratio_if (0 <? trade_count) (dec_of_Z (bm_losses metrics)) (dec_of_Z trade_count) in
  let! expectancy := ratio_if (0 <? trade_count) net_profit (dec_of_Z trade_count) in
  let! avg_win := ratio_if (0 <? bm_wins metrics) (bm_gross_profit metrics) (dec_of_Z (bm_wins metrics)) in
  let! avg_loss := ratio_if (0 <? bm_losses metrics) (bm_gross_loss metrics) (dec_of_Z (bm_losses metrics)) in
  let! risk_reward_ratio := match avg_win, avg_loss with Some w, Some l => ratio_if true w l | _, _ => Ok None end in
  let! average_duration := if 0 <? trade_count then average_trade_duration run else Ok None in
  let! recovery_factor := ratio_if ((0 <? trade_count) && dgt max_drawdown_dollar dzero) net_profit max_drawdown_dollar in
  mk_TradeStatistics {|
    ts_net_profit := net_profit; ts_loss_rate := loss_rate; ts_expectancy := expectancy; ts_avg_win := avg_win; ts_avg_loss := avg_loss;
    ts_risk_reward_ratio := risk_reward_ratio;
    ts_largest_win := max_opt (List.filter (fun v => dgt v dzero) pnl);
    ts_largest_loss := max_opt (dminus <$> List.filter (fun v => dlt v dzero) pnl);
    ts_max_consecutive_wins := max_streak pnl (fun v => dgt v dzero);
    ts_max_consecutive_losses := max_streak pnl (fun v => dlt v dzero);
    ts_average_trade_duration := average_duration; ts_recovery_factor := recovery_factor;
    ts_total_fees := total_commission run; ts_total_slippage := total_slippage_cost run |}.

(** * risk.py *)

Definition validate_rf (rate : decimal) : res unit :=
  refuse_report (dlt rate dzero) "risk_free_rate_per_period must be a non-negative finite Decimal".

Record RiskMetrics := { rk_sortino_ratio : option decimal; rk_calmar_ratio : option decimal }.

Definition compute_sortino_ratio (returns : list decimal) (rate : decimal) : res (option decimal) :=
  validate_rf rate ;!
  if (List.length returns <? 2)%nat then Ok None
  else
    let! mean := ddiv (dsum returns) (dec_of_Z (Z.of_nat (List.length returns))) in
    let! downside := compute_downside_deviation returns in
    if deq downside dzero then Ok None else let! r := ddiv (dsub mean rate) downside in Ok (Some r).

Definition compute_calmar_ratio (total_return max_dd : decimal) : res (option decimal) :=
  refuse_report (dlt max_dd dzero || dgt max_dd (dec_of_Z 1)) "max_drawdown must be in [0, 1]" ;!
  if deq max_dd dzero then Ok None else let! r := ddiv total_return max_dd in Ok (Some r).

Definition compute_risk_metrics (run : BacktestRun) (rate : decimal) : res RiskMetrics :=
  validate_rf rate ;!
  validate_equity_curve (br_equity_curve run) ;!
  let! returns := compute_period_returns (br_equity_curve run) in
  let! metrics := compute_metrics run rate in
  let! sortino := compute_sortino_ratio (rp_value <$> returns) rate in
  let! calmar := compute_calmar_ratio (bm_total_return metrics) (bm_max_drawdown metrics) in
  Ok {| rk_sortino_ratio := sortino; rk_calmar_ratio := calmar |}.

(** * report.py *)

Definition REPORT_LIMITATIONS : list string := [
  "single-instrument (P7-001 enforces one symbol/kind; the run carries dataset_id/source, not a symbol)";
  "long-only (the engine is BUY-opens / SELL-closes with a single non-negative position)";
  "non-annualized (Sharpe/Sortino/Calmar are per-record; no calendar model exists)";
  "no regime breakdown (regime is not modeled by the engine)";
  "MFE/MAE, entry/exit reason, stop loss, and target are None (not recorded by the engine)"].

Record TradeReconstruction := {
  tc_trade_id : Z; tc_side : string; tc_symbol : option string; tc_timeframe : option string;
  tc_entry_timestamp : datetime; tc_entry_price : decimal; tc_exit_timestamp : datetime; tc_exit_price : decimal;
  tc_quantity : decimal; tc_entry_label : option string; tc_exit_label : option string;
  tc_entry_reason : option string; tc_exit_reason : option string; tc_stop_loss : option decimal; tc_target : option decimal;
  tc_gross_pnl : decimal; tc_net_pnl : decimal; tc_fees : decimal; tc_entry_slippage : decimal;
  tc_exit_slippage : option decimal; tc_slippage : option decimal; tc_mfe : option decimal; tc_mae : option decimal;
}.

Definition not_positive (o : option decimal) : bool := opt_test (fun d => dle d dzero) o.
Definition positive_opt (o : option decimal) : bool := opt_test (fun d => dgt d dzero) o.
Definition is_none {A} (o : option A) : bool := match o with None => true | Some _ => false end.

Definition mk_TradeReconstruction (t : TradeReconstruction) : res TradeReconstruction :=
  refuse_report (tc_trade_id t <? 0) "TradeReconstruction.trade_id must be a non-negative int" ;!
  refuse_report (String.eqb (tc_side t) "") "TradeReconstruction.side must be a non-empty string" ;!
  refuse_report (negb (dt_aware (tc_entry_timestamp t))) "TradeReconstruction.entry_timestamp must be timezone-aware" ;!
  refuse_report (negb (dt_aware (tc_exit_timestamp t))) "TradeReconstruction.exit_timestamp must be timezone-aware" ;!
  (let! late := dt_gt (tc_entry_timestamp t) (tc_exit_timestamp t) in refuse_report late "TradeReconstruction entry must not follow exit") ;!
  refuse_report (dle (tc_entry_price t) dzero) "TradeReconstruction.entry_price must be a positive finite Decimal" ;!
  refuse_report (dle (tc_exit_price t) dzero) "TradeReconstruction.exit_price must be a positive finite Decimal" ;!
  refuse_report (dle (tc_quantity t) dzero) "TradeReconstruction.quantity must be a positive finite Decimal" ;!
  refuse_report (not_positive (tc_stop_loss t)) "TradeReconstruction.stop_loss must be a positive finite Decimal or None" ;!
  refuse_report (not_positive (tc_target t)) "TradeReconstruction.target must be a positive finite Decimal or None" ;!
  refuse_report (dlt (tc_fees t) dzero) "TradeReconstruction.fees must be a non-negative finite Decimal" ;!
  refuse_report (dlt (tc_entry_slippage t) dzero) "TradeReconstruction.entry_slippage must be a non-negative finite Decimal" ;!
  refuse_report (negative (tc_exit_slippage t)) "TradeReconstruction.exit_slippage must be a non-negative finite Decimal or None" ;!
  refuse_report (negative (tc_slippage t)) "TradeReconstruction.slippage must be a non-negative finite Decimal or None" ;!
  refuse_report (xorb (is_none (tc_exit_slippage t)) (is_none (tc_slippage t)))
    "TradeReconstruction exit_slippage and slippage must be None together" ;!
  refuse_report (negative (tc_mfe t)) "TradeReconstruction.mfe must be a non-negative finite Decimal or None" ;!
  refuse_report (positive_opt (tc_mae t)) "TradeReconstruction.mae must be a non-positive finite Decimal or None" ;!
  Ok t.

(** [exit_usage[sequence]]: how many trades a fill closes *)
Definition exit_usage (trades : list TradeRecord) (sequence : Z) : Z :=
  Z.of_nat (List.length (filter (fun q => q = sequence) (trades ≫= tr_exit_fill_sequences))).

(** [_label(fill_index)] *)
Definition intent_label (intents : list OrderIntent) (fill_index : nat) : option string :=
  match intents !! fill_index with Some i => oi_label i | None => None end.

Definition reconstruct_trade (run : BacktestRun) (symbol timeframe : option string) (trade : TradeRecord) : res TradeReconstruction :=
  let! entry_fill := entry_fill (run_fills run) trade in
  let! exits := exit_fills (run_fills run) trade in
  refuse_report (match exits with [] => true | _ => false end) "trade must have at least one exit fill sequence" ;!
  let! latest_exit_fill := latest_fill exits in
  let fees := dadd (tr_entry_cost trade) (tr_exit_cost trade) in
  let net_pnl := tr_realized_pnl trade in
  let gross_pnl := dadd net_pnl fees in
  let entry_slippage := dmul (fi_slippage_per_share entry_fill) (tr_quantity trade) in
  let shared := existsb (fun sequence => 1 <? exit_usage (br_trades run) sequence) (tr_exit_fill_sequences trade) in
  let exit_slippage := if shared then None
                       else Some (dsum ((fun f => dmul (fi_slippage_per_share f) (fi_quantity f)) <$> exits)) in
  mk_TradeReconstruction {|
    tc_trade_id := tr_sequence trade; tc_side := "long"; tc_symbol := symbol; tc_timeframe := timeframe;
    tc_entry_timestamp := fi_filled_at entry_fill; tc_entry_price := tr_entry_price trade;
    tc_exit_timestamp := fi_filled_at latest_exit_fill; tc_exit_price := tr_exit_price trade; tc_quantity := tr_quantity trade;
    tc_entry_label := intent_label (br_intents run) (fi_intent_index entry_fill);
    tc_exit_label := intent_label (br_intents run) (fi_intent_index latest_exit_fill);
    tc_entry_reason := None; tc_exit_reason := None; tc_stop_loss := None; tc_target := None;
    tc_gross_pnl := gross_pnl; tc_net_pnl := net_pnl; tc_fees := fees; tc_entry_slippage := entry_slippage;
    tc_exit_slippage := exit_slippage; tc_slippage := dadd entry_slippage <$> exit_slippage; tc_mfe := None; tc_mae := None |}.

Definition build_trade_reconstructions (run : BacktestRun) (symbol timeframe : option string) : res (list TradeReconstruction) :=
  unique_sequences (run_fills run) ;!
  mapM_res (reconstruct_trade run symbol timeframe) (br_trades run).

(** The mode of a run is a constant of the engine. *)
Record BacktestReport := {
  rt_input_sha256 : string; rt_dataset_id : string; rt_source : string; rt_symbol : option string; rt_timeframe : option string;
  rt_initial_capital : decimal; rt_cost_model : CostModel; rt_risk_free_rate_per_period : decimal;
  rt_metrics : BacktestMetrics; rt_statistics : TradeStatistics; rt_risk : RiskMetrics; rt_trades : list TradeReconstruction;
  rt_equity_curve : list EquityPoint; rt_returns : list ReturnPoint; rt_drawdowns : list DrawdownPoint;
  rt_daily_buckets : list PeriodBucket; rt_monthly_buckets : list PeriodBucket; rt_yearly_buckets : list PeriodBucket;
  rt_limitations : list string;
}.

Definition mk_BacktestReport (r : BacktestReport) : res BacktestReport :=
  refuse_report (String.eqb (rt_input_sha256 r) "") "BacktestReport.input_sha256 must be a non-empty string" ;!
  refuse_report (String.eqb (rt_dataset_id r) "") "BacktestReport.dataset_id must be a non-empty string" ;!
  refuse_report (String.eqb (rt_source r) "") "BacktestReport.source must be a non-empty string" ;!
  refuse_report (dle (rt_initial_capital r) dzero) "BacktestReport.initial_capital must be a positive finite Decimal" ;!
  refuse_report (dlt (rt_risk_free_rate_per_period r) dzero)
    "BacktestReport.risk_free_rate_per_period must be a non-negative finite Decimal" ;!
  refuse_report (match rt_equity_curve r with [] => true | _ => false end)
    "BacktestReport.equity_curve must be a non-empty tuple of EquityPoint" ;!
  Ok r.

Definition build_report (run : BacktestRun) (rate : decimal) (symbol timeframe : option string) : res BacktestReport :=
  validate_rf rate ;!
  validate_equity_curve (br_equity_curve run) ;!
  let! metrics := compute_metrics run rate in
  let! returns := compute_period_returns (br_equity_curve run) in
  let! drawdowns := compute_drawdown_series (br_equity_curve run) in
  let max_drawdown_dollar := default dzero (max_opt (dd_drawdown_amount <$> drawdowns)) in
  let! statistics := compute_trade_statistics run metrics max_drawdown_dollar in
  let! sortino := compute_sortino_ratio (rp_value <$> returns) rate in
  let! calmar := compute_calmar_ratio (bm_total_return metrics) (bm_max_drawdown metrics) in
  let! trades := build_trade_reconstructions run symbol timeframe in
  let! daily := bucket_performance (br_equity_curve run) DAILY in
  let! monthly := bucket_performance (br_equity_curve run) MONTHLY in
  let! yearly := bucket_performance (br_equity_curve run) YEARLY in
  mk_BacktestReport {|
    rt_input_sha256 := br_input_sha256 run; rt_dataset_id := br_dataset_id run; rt_source := br_source run;
    rt_symbol := symbol; rt_timeframe := timeframe; rt_initial_capital := br_initial_capital run;
    rt_cost_model := br_cost_model run; rt_risk_free_rate_per_period := rate; rt_metrics := metrics; rt_statistics := statistics;
    rt_risk := {| rk_sortino_ratio := sortino; rk_calmar_ratio := calmar |}; rt_trades := trades;
    rt_equity_curve := br_equity_curve run; rt_returns := returns; rt_drawdowns := drawdowns; rt_daily_buckets := daily;
    rt_monthly_buckets := monthly; rt_yearly_buckets := yearly; rt_limitations := REPORT_LIMITATIONS |}.

(** * What a run records *)

Lemma div_pre_pos a b : (0 < dcoef a)%N -> (0 < dcoef b)%N -> (0 < (div_pre a b).1)%N.
Proof.
  intros Ha Hb. pose proof (div_quot_big a b Ha Hb). unfold div_pre. case_match; [|case_match; cbn; lia].
  match goal with |- context [strip_zeros ?n ?c ?e] => pose proof (strip_zeros_val n c e) as Hv; set (z := strip_zeros n c e) in * end.
  destruct (N.eq_dec z.1 0) as [Hz|]; [|lia]. exfalso. rewrite Hz in Hv. change (inject_Z (Z.of_N 0)) with 0%Q in Hv.
  assert (0 < inject_Z (Z.of_N (div_num a b / div_den a b)) * pow10 (div_exp a b))%Q; [|lra].
  apply Qmult_lt_0_compat; [|apply pow10_pos]. change 0%Q with (inject_Z 0). rewrite <- Zlt_Qlt. lia.
Qed.

Lemma ddiv_pos a b r : ddiv a b = Ok r -> (0 < dval a)%Q -> (0 < dval b)%Q -> (0 < dval r)%Q.
Proof.
  intros E [Hna Ha]%dval_pos%dz_pos_inv [Hnb Hb]%dval_pos%dz_pos_inv. rewrite ddiv_unfold in E by lia. injection E as <-.
  apply dfix_pos, dval_pos. unfold dz. cbn [dneg dcoef]. rewrite Hna, Hnb. cbn [xorb]. pose proof (div_pre_pos a b Ha Hb). lia.
Qed.

(** The factor of a slippage within the precision never swallows the price. *)
Lemma slippage_part_below_one bps part : representable bps -> ddiv bps (dec_of_Z 10000) = Ok part ->
  (0 <= dval bps < 10000)%Q -> (0 <= dval part < 1)%Q.
Proof.
  intros [Hn Hc] E Hb. assert (0 < dval (dec_of_Z 10000))%Q as Hp by (rewrite dval_of_Z; reflexivity).
  split; [apply (ddiv_nonneg _ _ _ E); lra|].
  assert (dval (Dec false (dcoef bps) (dexp bps - 4)) * 10000 == dval bps)%Q as Hv.
  { rewrite (pos_val bps Hn), (pos_val (Dec false _ _) eq_refl). cbn [dcoef dexp].
    replace (dexp bps) with (dexp bps - 4 + 4) at 2 by lia. rewrite (pow10_add (dexp bps - 4)). change (pow10 4) with (10000 # 1)%Q. ring. }
  pose proof (ddiv_le_repr _ _ (Dec false (dcoef bps) (dexp bps - 4)) _ E) as H.
  rewrite dval_of_Z in H. change (inject_Z 10000) with (10000 # 1)%Q in H.
  assert (dval part <= dval (Dec false (dcoef bps) (dexp bps - 4)))%Q; [|lra].
  apply H; [done|lra|reflexivity|lra].
Qed.

Lemma apply_slippage_positive anchor side bps p : representable bps -> apply_slippage anchor side bps = Ok p -> (0 < dval p)%Q.
Proof.
  unfold apply_slippage, refuse. intros Hr H. res_inv. apply dle_false in E. rewrite dval_zero in E.
  apply orb_false_iff in E0 as [E0 E1]. apply dlt_false in E0. unfold dge in E1. apply dle_false in E1. rewrite dval_zero in E0.
  rewrite dval_of_Z in E1. change (inject_Z 10000) with (10000 # 1)%Q in E1.
  destruct (deq bps dzero); res_inv; [done|].
  match goal with H : ddiv _ _ = Ok ?part |- _ => apply (slippage_part_below_one _ _ Hr) in H; [|lra] end.
  apply dmul_pos; [done|]. pose proof (dval_of_Z 1) as H1. change (inject_Z 1) with 1%Q in H1.
  destruct side; [apply dadd_pos|apply dsub_pos]; lra.
Qed.

(** A fill with sensible numbers. *)
Record fill_sound (f : FillRecord) : Prop := {
  fs_aware : dt_aware (fi_filled_at f) = true;
  fs_quantity : (0 < dval (fi_quantity f))%Q;
  fs_price : (0 < dval (fi_fill_price f))%Q;
  fs_slippage : (0 <= dval (fi_slippage_per_share f))%Q;
  fs_commission : (0 <= dval (fi_commission_amount f))%Q;
}.

Lemma evaluate_fill_sound it r j cash position cm seq i ev f : valid_record r -> valid_intent it -> valid_costs cm ->
  representable (cm_slippage_bps cm) -> evaluate_fill it r j cash position cm seq i = Ok ev -> fe_fill ev = Some f ->
  fill_sound f /\ filled_by it r j cash position cm seq i ev f.
Proof.
  intros Hr Hi Hc Hb E Hf. assert (0 <= dval (fi_slippage_per_share f))%Q as Hs.
  { unfold evaluate_fill, refuse in E. res_inv. destruct a0 as [anchor|reason]; [|by simplify_eq].
    res_inv. assert (exists x, fi_slippage_per_share f = dabs x) as [x ->].
    { destruct (oi_side it); repeat case_match; simplify_eq; cbn; eauto. all: cbn in Hf; simplify_eq; cbn; eauto. }
    unfold dabs. apply dfix_nonneg, dval_nonneg. unfold dz. cbn. lia. }
  destruct (evaluate_fill_cases _ _ _ _ _ _ _ _ _ E) as [[reason ->]|[f' H]]; [done|].
  assert (f' = f) as -> by (unfold filled_by in H; destruct_and! H; congruence). split; [|done].
  unfold filled_by in H. destruct_and! H. split; [|..|done|].
  - match goal with H : fi_filled_at f = _ |- _ => rewrite H end. by apply valid_record_aware.
  - match goal with H : fi_quantity f = _ |- _ => rewrite H end. by apply valid_intent_facts.
  - destruct (oi_order_type it); [by eapply apply_slippage_positive|].
    match goal with H : fi_fill_price f = _ |- _ => by rewrite H end.
  - match goal with H : fi_commission_amount f = _ |- _ => rewrite H end. unfold valid_costs, mk_CostModel, refuse in Hc. res_inv.
    apply dlt_false in E0. by rewrite dval_zero in E0.
Qed.

(** ** Lots and trades *)

Definition fill_instant (f : FillRecord) : Z := dt_instant (fi_filled_at f).

(** The fills an entry and its exits come from, among the known ones [K]: the
    exits do not precede the entry. *)
Definition joined (K : FillRecord -> Prop) (entry : Z) (exits : list Z) : Prop :=
  exists f, K f /\ fi_sequence f = entry /\
    Forall (fun q => exists g, K g /\ fi_sequence g = q /\ fill_instant f <= fill_instant g) exits.

Record lot_sound (K : FillRecord -> Prop) (lot : Lot) : Prop := {
  ls_joined : joined K (lt_entry_fill_sequence lot) (lt_exit_fill_sequences lot);
  ls_total : (0 < dval (lt_total_quantity lot))%Q;
  ls_price : (0 < dval (lt_entry_price lot))%Q;
  ls_cost : (0 <= dval (lt_entry_cost lot))%Q;
  ls_used : (0 <= dval (lt_entry_cost_used lot))%Q /\ (0 <= dval (lt_exit_cost_used lot))%Q;
  ls_weighted : (0 <= dval (lt_weighted_exit_sum lot))%Q;
  ls_exited : lt_exit_fill_sequences lot <> [] -> (0 < dval (lt_weighted_exit_sum lot))%Q;
}.

Record trade_sound (K : FillRecord -> Prop) (t : TradeRecord) : Prop := {
  tn_joined : joined K (tr_entry_fill_sequence t) (tr_exit_fill_sequences t);
  tn_exited : tr_exit_fill_sequences t <> [];
  tn_sequence : 0 <= tr_sequence t;
  tn_quantity : (0 < dval (tr_quantity t))%Q;
  tn_prices : (0 < dval (tr_entry_price t))%Q /\ (0 < dval (tr_exit_price t))%Q;
  tn_costs : (0 <= dval (tr_entry_cost t))%Q /\ (0 <= dval (tr_exit_cost t))%Q;
}.

Lemma joined_mono (K K' : FillRecord -> Prop) e x : (forall f, K f -> K' f) -> joined K e x -> joined K' e x.
Proof.
  intros H (f & Hf & He & Hx). exists f. split_and!; [auto|done|]. eapply Forall_impl; [exact Hx|]. cbn.
  intros q (g & Hg & Hq & Hle). eauto.
Qed.

Lemma lot_sound_mono (K K' : FillRecord -> Prop) lot : (forall f, K f -> K' f) -> lot_sound K lot -> lot_sound K' lot.
Proof. intros H []. constructor; [by eapply joined_mono|done..]. Qed.

Lemma trade_sound_mono (K K' : FillRecord -> Prop) t : (forall f, K f -> K' f) -> trade_sound K t -> trade_sound K' t.
Proof. intros H []. constructor; [by eapply joined_mono|done..]. Qed.

(** A sale meets a lot with a fill no earlier than any known one. *)
Section sale.
Context (K : FillRecord -> Prop) (f : FillRecord).
Context (Hf : K f) (Hsound : fill_sound f) (Hlatest : forall g, K g -> fill_instant g <= fill_instant f).

Lemma match_lot_sound remaining lot lot' : lot_sound K lot -> (0 < dval remaining)%Q ->
  (0 < dval (lt_remaining_quantity lot))%Q -> match_lot f remaining lot = Ok lot' ->
  lot_sound K lot' /\ lt_exit_fill_sequences lot' <> [].
Proof.
  intros [(e & He & Hseq & Hx) L2 L3 L4 [L5 L6] L7 L8] Hr Hl H. unfold match_lot in H. res_inv.
  set (matched := dmin remaining (lt_remaining_quantity lot)) in *.
  assert (0 < dval matched)%Q as Hm by (subst matched; unfold dmin; by case_match).
  destruct Hsound as [_ Hq Hp _ Hcom]. assert (0 <= dval matched)%Q as Hm' by lra.
  assert (0 <= dval a)%Q by (eapply ddiv_nonneg; [exact E|by apply dmul_nonneg|done]).
  assert (0 <= dval a0)%Q by (eapply ddiv_nonneg; [exact E0|by apply dmul_nonneg|done]).
  assert (0 < dval (dadd (lt_weighted_exit_sum lot) (dmul (fi_fill_price f) matched)))%Q.
  { apply dadd_pos. pose proof (dmul_pos _ _ Hp Hm). lra. }
  split; [|cbn; by destruct (lt_exit_fill_sequences lot)].
  constructor; cbn; [|done|done|done|split; apply dadd_nonneg; lra|lra|done].
  exists e. split_and!; [done..|]. apply Forall_app. split; [done|]. constructor; [|constructor]. exists f. auto.
Qed.

Lemma complete_lot_sound seq lot t : lot_sound K lot -> lt_exit_fill_sequences lot <> [] -> 0 <= seq ->
  complete_lot seq lot = Ok t -> trade_sound K t.
Proof.
  intros [L1 L2 L3 L4 [L5 L6] L7 L8] Hx Hs H. unfold complete_lot in H. res_inv.
  constructor; cbn; try done. split; [done|]. apply (ddiv_pos _ _ _ E); auto.
Qed.

Lemma close_loop_sound lots : Forall (lot_sound K) lots -> forall remaining seq lots' completed seq' unsold, 0 <= seq ->
  close_loop f remaining seq lots = Ok (lots', completed, seq', unsold) ->
  Forall (lot_sound K) lots' /\ Forall (trade_sound K) completed /\ 0 <= seq'.
Proof.
  induction 1 as [|lot lots Hlot Hlots IH]; intros remaining seq lots' completed seq' unsold Hs H; cbn [close_loop] in H.
  { by simplify_eq. }
  destruct (dle remaining dzero) eqn:Hr; [simplify_eq; split_and!; [by constructor|constructor|done]|].
  apply dle_false in Hr. rewrite dval_zero in Hr.
  destruct (dle (lt_remaining_quantity lot) dzero) eqn:Hl.
  { res_inv. destruct a as [[[? ?] ?] ?]. simplify_eq. eapply IH in E as (? & ? & ?); [|done]. split_and!; [by constructor|done|done]. }
  apply dle_false in Hl. rewrite dval_zero in Hl. res_inv.
  destruct (match_lot_sound _ _ _ Hlot Hr Hl E) as [Hlot' Hx].
  destruct (deq _ _); res_inv; repeat match goal with H : _ * _ * _ * _ |- _ => destruct H as [[[? ?] ?] ?] end; simplify_eq;
    match goal with H : close_loop _ _ _ _ = Ok _ |- _ => eapply IH in H as (? & ? & ?); [|lia] end;
    (split_and!; [by constructor| |done]); [|done]. constructor; [|done]. by apply (complete_lot_sound _ _ _ Hlot' Hx Hs).
Qed.

Lemma close_lots_sound l trades l' : Forall (lot_sound K) (lg_lots l) -> 0 <= lg_trade_sequence l ->
  close_lots f l = Ok (trades, l') ->
  Forall (lot_sound K) (lg_lots l') /\ Forall (trade_sound K) trades /\ 0 <= lg_trade_sequence l'.
Proof.
  intros Hl Hs H. unfold close_lots, refuse in H. res_inv. destruct a0 as [[[lots c] s'] u].
  apply close_loop_sound in E0 as (A & B & C); [|done..]. unfold refuse in *. res_inv. cbn. split_and!; [|done..].
  rewrite Forall_forall in A |- *. intros lot [_ Hin]%list_elem_of_filter. auto.
Qed.

End sale.

(** ** The simulation *)

Definition fill_of (s : Sim) (i : nat) (f : FillRecord) : Prop :=
  exists o, sm_outcomes s !! i = Some (Some o) /\ outcome_fill o = Some f.
Definition known (s : Sim) (f : FillRecord) : Prop := exists i, fill_of s i f.

(** The books of a simulation whose last record was at [now]. *)
Record sim_sound (now : Z) (s : Sim) : Prop := {
  sn_fills : forall f, known s f -> fill_sound f /\ 0 <= fi_sequence f < sm_sequence s /\ fill_instant f <= now;
  sn_distinct : forall i j f g, fill_of s i f -> fill_of s j g -> fi_sequence f = fi_sequence g -> i = j;
  sn_lots : Forall (lot_sound (known s)) (lg_lots (sm_ledger s));
  sn_trades : Forall (trade_sound (known s)) (sm_trades s);
  sn_counters : 0 <= sm_sequence s /\ 0 <= lg_trade_sequence (sm_ledger s);
}.

Lemma sim_sound_later now now' s : now <= now' -> sim_sound now s -> sim_sound now' s.
Proof.
  intros H [S1 S2 S3 S4 S5]. constructor; [|done..]. intros f Hf. destruct (S1 f Hf) as (? & ? & ?). split_and!; done || lia.
Qed.

Lemma fill_of_insert s s' i o j f : sm_outcomes s !! i = Some None ->
  sm_outcomes s' = <[i := Some o]> (sm_outcomes s) ->
  fill_of s' j f <-> (j = i /\ outcome_fill o = Some f) \/ fill_of s j f.
Proof.
  intros Hn Ho. unfold fill_of. rewrite Ho. pose proof (lookup_lt_Some _ _ _ Hn) as Hlt.
  destruct (decide (j = i)) as [->|Hne].
  - rewrite list_lookup_insert_eq by done. split.
    + intros (o' & [= <-] & H). by left.
    + intros [[_ H]|(o' & H & _)]; [by exists o|congruence].
  - rewrite list_lookup_insert_ne by done. split; [by right|]. by intros [[? _]|H].
Qed.

Lemma apply_intent_sound intents cm j r s i s' now : Forall valid_intent intents -> valid_record r -> valid_costs cm ->
  representable (cm_slippage_bps cm) -> now <= instant r -> sm_outcomes s !! i = Some None -> sim_sound now s ->
  apply_intent intents cm j r s i = Ok s' -> sim_sound (instant r) s'.
Proof.
  intros Hi Hr Hc Hb Hnow Hnone Hs H. apply (sim_sound_later _ _ _ Hnow) in Hs. clear Hnow. destruct Hs as [S1 S2 S3 S4 [S5 S6]].
  unfold apply_intent in H. destruct (intents !! i) as [it|] eqn:Hit; [|done]. res_inv. rename a into ev.
  assert (valid_intent it) as Hv by (rewrite Forall_lookup in Hi; eauto).
  destruct (fe_fill ev) as [f|] eqn:Hf.
  - res_inv. rename a into booked.
    destruct (evaluate_fill_sound _ _ _ _ _ _ _ _ _ _ Hr Hv Hc Hb E Hf) as [Hsound Hby]. unfold filled_by in Hby. destruct_and! Hby.
    match goal with H : fe_outcome ev = _ |- _ => rewrite H in * end.
    match goal with |- sim_sound _ ?x => set (s' := x) in * end.
    assert (forall k g, fill_of s' k g <-> (k = i /\ g = f) \/ fill_of s k g) as Hfill.
    { intros k g. rewrite (fill_of_insert s s' i _ k g Hnone eq_refl). cbn. naive_solver. }
    assert (known s' f) as Kf by (exists i; apply Hfill; auto).
    assert (forall g, known s g -> known s' g) as Kmono by (intros g [k Hk]; exists k; apply Hfill; auto).
    assert (fill_instant f = instant r) as Hinst by (unfold fill_instant, instant; congruence).
    assert (forall g, known s' g -> fill_sound g /\ 0 <= fi_sequence g < sm_sequence s + 1 /\ fill_instant g <= instant r) as K1.
    { intros g [k [[-> ->]|Hk]%Hfill]; [split_and!; done || lia|].
      destruct (S1 g ltac:(by exists k)) as (? & ? & ?). split_and!; done || lia. }
    assert (forall a b g h, fill_of s' a g -> fill_of s' b h -> fi_sequence g = fi_sequence h -> a = b) as K2.
    { intros a b g h [[-> ->]|Ha]%Hfill [[-> ->]|Hb']%Hfill Heq; [done| | |by eapply S2].
      - destruct (S1 h ltac:(by exists b)) as (_ & ? & _). lia.
      - destruct (S1 g ltac:(by exists a)) as (_ & ? & _). lia. }
    assert (Forall (lot_sound (known s')) (lg_lots (sm_ledger s))) as K3
      by (eapply Forall_impl; [exact S3|]; intros lot; by apply lot_sound_mono).
    assert (Forall (trade_sound (known s')) (sm_trades s)) as K4
      by (eapply Forall_impl; [exact S4|]; intros t; by apply trade_sound_mono).
    destruct (oi_side it) eqn:Es.
    + unfold open_lot, refuse in *. res_inv. constructor; cbn; [done..| |by rewrite app_nil_r|lia].
      apply Forall_app. split; [done|]. constructor; [|constructor]. destruct Hsound.
      constructor; cbn; rewrite ?dval_zero; try done; try lra. exists f. split_and!; [done..|constructor].
    + match goal with H : close_lots _ _ = Ok ?b |- _ => destruct b as [trades l']; 
        apply (close_lots_sound (known s') f Kf Hsound) in H as (A & B & C); [|intros g Hg; rewrite Hinst; by apply K1|done..] end.
      constructor; cbn; [done..| |lia]. by apply Forall_app.
  - simplify_eq. destruct (evaluate_fill_cases _ _ _ _ _ _ _ _ _ E) as [[reason ->]|[f H]];
      [|unfold filled_by in H; destruct_and! H; congruence].
    match goal with |- sim_sound _ ?x => set (s' := x) end.
    assert (forall k g, fill_of s' k g <-> fill_of s k g) as Hfill.
    { intros k g. rewrite (fill_of_insert s s' i _ k g Hnone eq_refl). cbn. naive_solver. }
    assert (forall g, known s' g <-> known s g) as Hk by (intros g; unfold known; setoid_rewrite Hfill; done).
    constructor; cbn.
    + intros g Hg. apply S1, Hk, Hg.
    + intros a b g h Ha Hb'. apply Hfill in Ha, Hb'. by eapply S2.
    + eapply Forall_impl; [exact S3|]. intros lot. apply lot_sound_mono. intros g. apply Hk.
    + eapply Forall_impl; [exact S4|]. intros t. apply trade_sound_mono. intros g. apply Hk.
    + done.
Qed.

Lemma anchored_at_NoDup records (intents : list OrderIntent) j : NoDup (anchored_at records (enumerate intents) j).
Proof.
  unfold anchored_at. assert (NoDup (enumerate intents).*1) as H.
  { rewrite fmap_enumerate. cbn. rewrite (imap_seq_0 intents (fun k => k)), list_fmap_id. apply NoDup_seq. }
  revert H. generalize (enumerate intents). intros l. induction l as [|e l IH]; intros H; [constructor|].
  cbn in H. apply NoDup_cons in H as [Hn H]. rewrite filter_cons. case_decide; [|auto]. cbn. constructor; [|auto].
  intros Hin. apply Hn. apply list_elem_of_fmap in Hin as (x & -> & Hx). apply list_elem_of_fmap. exists x.
  split; [done|]. by apply list_elem_of_filter in Hx as [_ Hx].
Qed.

Lemma record_fills_sound intents cm j r l s s' : Forall valid_intent intents -> valid_record r -> valid_costs cm ->
  representable (cm_slippage_bps cm) -> NoDup l -> (forall i, i ∈ l -> sm_outcomes s !! i = Some None) ->
  sim_sound (instant r) s -> foldM (apply_intent intents cm j r) s l = Ok s' -> sim_sound (instant r) s'.
Proof.
  intros Hi Hr Hc Hb Hnd Hnone Hs Hrun.
  refine (proj1 (foldM_inv _ (fun past s' => sim_sound (instant r) s' /\
    forall i, i ∈ l -> i ∉ past -> sm_outcomes s' !! i = Some None) l _ s s' _ Hrun)).
  - intros past i a a' [rest Hp] [H1 H2] E. assert (i ∈ l /\ i ∉ past) as [Hin Hout].
    { rewrite Hp in Hnd |- *. rewrite <- app_assoc in Hnd. apply NoDup_app in Hnd as (_ & Hd & _). split; [set_solver|].
      intros Hpast. apply (Hd i Hpast). set_solver. }
    split; [eapply (apply_intent_sound _ _ _ _ _ _ _ (instant r)); [done|done|done|done|lia|by apply H2|done|exact E]|]. intros k Hk Hk'. apply apply_intent_run in E as (it & ev & _ & _ & _ & _ & ->).
    rewrite list_lookup_insert_ne by set_solver. apply H2; set_solver.
  - split; [done|]. auto.
Qed.

Lemma no_fill_at_start records intents capital i f : ~ fill_of (start_sim capital (preset_outcomes records intents)) i f.
Proof.
  intros (o & Ho & Hf). cbn in Ho. pose proof (lookup_lt_Some _ _ _ Ho) as Hlt. rewrite preset_outcomes_length in Hlt.
  destruct (lookup_lt_is_Some_2 _ _ Hlt) as [it Hit]. rewrite (preset_outcomes_lookup _ _ _ _ Hit) in Ho.
  unfold unanchored in Ho. by case_match; simplify_eq.
Qed.

Lemma latest_instant (records : list market_record) : exists now, Forall (fun r => instant r <= now) records.
Proof.
  induction records as [|r l [now IH]]; [by exists 0|]. exists (Z.max (instant r) now). constructor; [lia|].
  eapply Forall_impl; [exact IH|]. cbn. lia.
Qed.

(** The books of a run are sound for every time no record passed yet exceeds. *)
Lemma run_sound inputs intents cm capital run : mk_BacktestInput inputs = Ok inputs -> Forall valid_record (bt_records inputs) ->
  Forall valid_intent intents -> valid_costs cm -> representable (cm_slippage_bps cm) ->
  run_backtest inputs intents cm capital = Ok run ->
  exists now s, sim_sound now s /\ mapM id (sm_outcomes s) = Some (br_outcomes run) /\ br_trades run = sm_trades s /\
    ep_timestamp <$> br_equity_curve run = record_timestamp <$> bt_records inputs.
Proof.
  intros Hin Hrecs Hi Hc Hb Hrun. apply input_coherent in Hin as [_ (first & rest & _ & _ & Hsort)].
  apply run_backtest_inv in Hrun as (s & _ & Hcap & Hf & Hm & _ & Ht & _). set (records := bt_records inputs) in *.
  assert (run_inv records intents cm (enumerate records) (s, br_equity_curve run) /\
    (forall now, Forall (fun r => instant r <= now) (enumerate records).*2 -> sim_sound now s)) as [(_ & _ & Hts) Hs].
  { refine (foldM_inv _ (fun past acc => run_inv records intents cm past acc /\
      forall now, Forall (fun r => instant r <= now) past.*2 -> sim_sound now acc.1) _ _ _ _ _ Hf).
    - intros past [k r] [s1 c1] acc' Hp [HI Hs] E. split; [by eapply record_step_inv|]. intros now Hnow.
      rewrite fmap_app in Hnow. apply Forall_app in Hnow as [_ [Hr _]%Forall_cons].
      apply (sim_sound_later (instant r)); [exact Hr|]. pose proof Hp as [-> Hk]%enumerate_prefix. cbn in E.
      rewrite anchor_table_lookup in E by (by eapply lookup_lt_Some). res_inv. cbn [fst].
      assert (Forall valid_record records) as Hv by done. rewrite Forall_lookup in Hv.
      eapply record_fills_sound; [done|by eapply Hv|done..|apply anchored_at_NoDup| | |exact E0].
      + intros i Hai. apply anchored_at_in in Hai as (it & Hit & Ha). destruct HI as [[_ Ho] _]. specialize (Ho i it Hit).
        rewrite decide_False in Ho by lia. cbn [fst] in Ho. rewrite Ho. unfold unanchored. apply lookup_lt_Some in Hk.
        rewrite (proj2 (Nat.ltb_lt _ _)) by (rewrite Ha; exact Hk). done.
      + apply Hs. destruct Hp as [more Hp]. apply (f_equal (fmap snd)) in Hp. rewrite enumerate_snd in Hp.
        rewrite Hp, <- app_assoc, !fmap_app in Hsort. apply StronglySorted_app in Hsort as [Hlt _].
        apply Forall_forall. intros x Hx. apply Z.lt_le_incl, Hlt; [by apply list_elem_of_fmap_2|]. cbn. set_solver.
    - split; [by apply run_inv_start|]. intros now _.
      assert (forall i f, ~ fill_of (start_sim capital (preset_outcomes records intents)) i f) as Hnone by apply no_fill_at_start.
      constructor; cbn; [| |constructor|constructor|lia].
      + intros f [i Hfill]. by apply Hnone in Hfill.
      + intros i j f g Hfill. by apply Hnone in Hfill. }
  destruct (latest_instant (enumerate records).*2) as [now Hnow]. exists now, s. rewrite enumerate_snd in Hts. auto.
Qed.

(** A trade and the fills it names. *)
Lemma run_fills_known s (outcomes : list FillOutcome) : mapM id (sm_outcomes s) = Some outcomes ->
  (forall f, f ∈ omap outcome_fill outcomes <-> known s f).
Proof.
  intros Hm f. rewrite list_elem_of_omap. unfold known, fill_of. split.
  - intros (o & Ho & Hf). apply list_elem_of_lookup in Ho as [i Hi]. rewrite (mapM_id_lookup _ _ _ Hm) in Hi.
    exists i, o. split; [|done]. by destruct (sm_outcomes s !! i) as [[]|]; cbn in Hi; simplify_eq.
  - intros (i & o & Hi & Hf). exists o. split; [|done]. apply list_elem_of_lookup. exists i.
    by rewrite (mapM_id_lookup _ _ _ Hm), Hi.
Qed.

Lemma distinct_sequences (outcomes : list FillOutcome) :
  (forall i j o p f g, outcomes !! i = Some o -> outcomes !! j = Some p -> outcome_fill o = Some f -> outcome_fill p = Some g ->
    fi_sequence f = fi_sequence g -> i = j) -> NoDup (fi_sequence <$> omap outcome_fill outcomes).
Proof.
  induction outcomes as [|o rest IH]; intros H; [constructor|].
  assert (NoDup (fi_sequence <$> omap outcome_fill rest)) as Hrest.
  { apply IH. intros i j a b f g Hi Hj Ha Hb E. specialize (H (S i) (S j) a b f g Hi Hj Ha Hb E). lia. }
  cbn. destruct (outcome_fill o) as [f|] eqn:Ef; [|done]. cbn. constructor; [|done].
  intros Hin. apply list_elem_of_fmap in Hin as (g & Eg & Hg). apply list_elem_of_omap in Hg as (p & Hp & Hpg).
  apply list_elem_of_lookup in Hp as [j Hj]. specialize (H 0%nat (S j) o p f g eq_refl Hj Ef Hpg Eg). lia.
Qed.

Lemma sim_sound_sequences now s (outcomes : list FillOutcome) : sim_sound now s -> mapM id (sm_outcomes s) = Some outcomes ->
  NoDup (fi_sequence <$> omap outcome_fill outcomes).
Proof.
  intros [_ S2 _ _ _] Hm. apply distinct_sequences. intros i j o p f g Hi Hj Hf Hg E.
  rewrite (mapM_id_lookup _ _ i Hm) in Hi. rewrite (mapM_id_lookup _ _ j Hm) in Hj.
  apply (S2 i j f g); [exists o; split; [|done]|exists p; split; [|done]|done];
    [destruct (sm_outcomes s !! i) as [[]|]|destruct (sm_outcomes s !! j) as [[]|]]; cbn in *; by simplify_eq.
Qed.

(** * Curves *)

(** A point a report can be built from. *)
Definition point_ok (p : EquityPoint) : Prop := curve_value (ep_equity p) /\ dt_aware (ep_timestamp p) = true.
Definition point_instant (p : EquityPoint) : Z := dt_instant (ep_timestamp p).

Lemma positive_not_le d : (0 < dval d)%Q -> dle d dzero = false.
Proof. intros H. apply dle_false. by rewrite dval_zero. Qed.

Lemma nonneg_not_lt d : (0 <= dval d)%Q -> dlt d dzero = false.
Proof. intros H. apply dlt_false. by rewrite dval_zero. Qed.

Lemma dt_gt_aware a b : dt_aware a = true -> dt_aware b = true -> dt_gt a b = Ok (dt_instant a >? dt_instant b).
Proof. unfold dt_gt, dt_cmp, dt_comparable, dt_aware. by destruct (dt_offset a), (dt_offset b). Qed.

(** Every marked equity is positive. *)
Definition equity_positive (curve : list EquityPoint) : Prop := Forall (fun p => dgt (ep_equity p) dzero = true) curve.

#[export] Instance equity_positive_dec curve : Decision (equity_positive curve).
Proof. unfold equity_positive. apply _. Defined.

Lemma validate_curve_iff curve : curve <> [] -> validate_equity_curve curve =
  if decide (equity_positive curve) then Ok tt
  else raise BacktestReportMetricsError "marked equity must stay positive to compute honest reports".
Proof.
  intros Hne. unfold validate_equity_curve, refuse_report. destruct curve as [|p rest]; [done|]. cbn [raise_if rbind].
  set (curve := p :: rest). destruct (decide _) as [H|H].
  - assert (existsb (fun p => dle (ep_equity p) dzero) curve = false) as ->; [|done].
    apply not_true_iff_false. rewrite existsb_exists. intros (q & Hin & Hq). apply list_elem_of_In in Hin.
    unfold equity_positive in H. rewrite Forall_forall in H. specialize (H q Hin). unfold dgt in H. apply dlt_spec in H.
    apply dle_spec in Hq. lra.
  - assert (existsb (fun p => dle (ep_equity p) dzero) curve = true) as ->; [|done].
    apply not_Forall_Exists in H; [|intros q; apply _]. apply Exists_exists in H as (q & Hq & Hv).
    apply existsb_exists. exists q. split; [by apply list_elem_of_In|].
    apply dle_spec, dlt_false. by destruct (dlt dzero (ep_equity q)) eqn:E; [exfalso; apply Hv|].
Qed.

Lemma mk_ReturnPoint_ok p : dt_aware (rp_timestamp p) = true -> mk_ReturnPoint p = Ok p.
Proof. unfold mk_ReturnPoint. by intros ->. Qed.

(** The returns are those of the engine, each at the time of its later mark. *)
Lemma return_points_spec curve : Forall point_ok curve -> exists ps, return_points curve = Ok ps /\
  period_returns (ep_equity <$> curve) = Ok (rp_value <$> ps) /\ rp_timestamp <$> ps = tail (ep_timestamp <$> curve).
Proof.
  induction 1 as [|p l [Hp _] Hl IH]; [by exists []|]. destruct l as [|q l]; [by exists []|].
  destruct IH as (ps & E & Er & Et). cbn [return_points fmap list_fmap period_returns] in *.
  destruct Hp as [_ Hp]. destruct (ddiv_total (dsub (ep_equity q) (ep_equity p)) _ Hp) as [v ->]. cbn [rbind].
  apply Forall_cons in Hl as [[_ Ha] _]. rewrite mk_ReturnPoint_ok by done. cbn [rbind]. rewrite E, Er. cbn [rbind]. eexists. split; [done|]. cbn. split; [done|]. f_equal. exact Et.
Qed.

Lemma mk_DrawdownPoint_ok p : dt_aware (dd_timestamp p) = true -> (0 < dval (dd_equity p))%Q -> (0 < dval (dd_peak_equity p))%Q ->
  (0 <= dval (dd_drawdown_ratio p))%Q -> (dval (dd_drawdown_ratio p) <= 1)%Q -> (0 <= dval (dd_drawdown_amount p))%Q ->
  mk_DrawdownPoint p = Ok p.
Proof.
  unfold mk_DrawdownPoint, refuse_report. intros -> H1 H2 H3 H4 H5. rewrite !positive_not_le, !nonneg_not_lt by done. unfold dgt.
  by rewrite (proj2 (dlt_false (dec_of_Z 1) (dd_drawdown_ratio p))) by (rewrite dval_of_Z; exact H4).
Qed.

(** The running drawdowns; the deepest one is the engine's. *)
Lemma drawdown_points_spec curve : Forall point_ok curve -> forall peak, curve_value peak -> exists ps,
  drawdown_points peak curve = Ok ps /\ dd_equity <$> ps = ep_equity <$> curve /\ dd_timestamp <$> ps = ep_timestamp <$> curve /\
  Forall (fun p => (0 <= dval (dd_drawdown_amount p))%Q) ps /\
  forall deepest, exists peak', foldM drawdown_step (peak, deepest) (ep_equity <$> curve)
    = Ok (peak', foldl dmax deepest (dd_drawdown_ratio <$> ps)).
Proof.
  induction 1 as [|p l [Hp Ha] Hl IH]; intros peak Hpeak.
  { exists []. split_and!; try done. intros d. by exists peak. }
  cbn [drawdown_points fmap list_fmap foldM].
  assert (0 <= dval dzero <= 1)%Q as H0 by (rewrite dval_zero; lra).
  destruct (drawdown_step_bounds peak dzero (ep_equity p) Hpeak Hp H0) as (peak' & d' & E & Hp' & Hle & Hd).
  unfold drawdown_step in E. set (pk := if dgt (ep_equity p) peak then ep_equity p else peak) in *.
  destruct (ddiv (dsub pk (ep_equity p)) pk) as [ratio|] eqn:Er; [|done]. cbn [rbind] in E. injection E as E1 E2. rewrite <- E1 in Hp', Hle.
  rewrite <- E2 in Hd. clear E1 E2 peak' d'.
  assert (forall d, drawdown_step (peak, d) (ep_equity p) = Ok (pk, dmax d ratio)) as Hstep
    by (intros d; unfold drawdown_step; fold pk; by rewrite Er).
  assert (0 <= dval (dsub pk (ep_equity p)))%Q as Hamt by (by apply dsub_nonneg).
  assert (0 <= dval ratio)%Q as Hr0 by (eapply ddiv_nonneg; [exact Er|done|by destruct Hp']).
  assert (dval ratio <= 1)%Q as Hr1.
  { destruct (dgt ratio dzero) eqn:Eg; [by destruct Hd|]. unfold dgt in Eg. apply dlt_false in Eg. rewrite dval_zero in Eg. lra. }
  destruct Hp as [Hrep Hpos], Hp' as [Hrep' Hpos']. cbn [rbind]. rewrite mk_DrawdownPoint_ok by done. cbn [rbind].
  destruct (IH pk (conj Hrep' Hpos')) as (ps & -> & E1 & E2 & E3 & E4). cbn [rbind].
  eexists. split; [done|]. cbn [fmap list_fmap dd_equity dd_timestamp dd_drawdown_ratio foldl] in *. rewrite E1, E2.
  split_and!; [done..|by constructor|]. intros d. rewrite Hstep. apply E4.
Qed.

Lemma sortino_total returns rate : (0 <= dval rate)%Q -> exists s, compute_sortino_ratio returns rate = Ok s.
Proof.
  intros Hr. unfold compute_sortino_ratio, validate_rf, refuse_report. rewrite (nonneg_not_lt _ Hr). cbn [raise_if rbind].
  destruct (Nat.ltb_spec (List.length returns) 2) as [|H]; [eauto|].
  assert (0 < dval (dec_of_Z (Z.of_nat (List.length returns))))%Q as Hc.
  { rewrite dval_of_Z. change 0%Q with (inject_Z 0). rewrite <- Zlt_Qlt. lia. }
  destruct (ddiv_total (dsum returns) _ Hc) as [mean ->]. cbn [rbind].
  assert (exists d, compute_downside_deviation returns = Ok d /\ (0 <= dval d)%Q) as (d & -> & Hd).
  { unfold compute_downside_deviation. destruct returns as [|r l]; [cbn in H; lia|]. set (rs := r :: l) in *.
    match goal with |- context [ddiv (dsum ?l) ?c] => destruct (ddiv_total (dsum l) c Hc) as [v Ev]; rewrite Ev end. cbn [rbind].
    apply dsqrt_total. apply (ddiv_nonneg _ _ _ Ev); [|done]. apply dsum_nonneg, Forall_fmap, Forall_forall.
    intros x _. apply dmul_square. }
  cbn [rbind]. destruct (deq d dzero) eqn:E; [eauto|]. apply deq_false in E. rewrite dval_zero in E.
  destruct (ddiv_total (dsub mean rate) d) as [x ->]; [|cbn; eauto].
  destruct (Qlt_le_dec 0 (dval d)) as [|Hle]; [done|]. exfalso. apply E. by apply Qle_antisym.
Qed.

Lemma calmar_total total deepest : (0 <= dval deepest <= 1)%Q -> exists c, compute_calmar_ratio total deepest = Ok c.
Proof.
  intros [H0 H1]. unfold compute_calmar_ratio, refuse_report. rewrite (nonneg_not_lt _ H0). unfold dgt.
  rewrite (proj2 (dlt_false (dec_of_Z 1) deepest)) by (rewrite dval_of_Z; exact H1). cbn [raise_if rbind orb].
  destruct (deq deepest dzero) eqn:E; [eauto|]. apply deq_false in E. rewrite dval_zero in E.
  destruct (ddiv_total total deepest) as [x ->]; [|cbn; eauto].
  destruct (Qlt_le_dec 0 (dval deepest)) as [|Hle]; [done|]. exfalso. apply E. by apply Qle_antisym.
Qed.

(** ** Buckets *)

Definition point_key (granularity : PeriodGranularity) (p : EquityPoint) : list Z := bucket_key (ep_timestamp p) granularity.

(** What a bucket says of the points it was made of. *)
Definition bucket_of (granularity : PeriodGranularity) (points : list EquityPoint) (b : PeriodBucket) : Prop :=
  exists key start end_, Forall (fun p => point_key granularity p = key) points /\
    head points = Some start /\ last points = Some end_ /\ pb_label b = bucket_label key /\
    pb_start_timestamp b = ep_timestamp start /\ pb_end_timestamp b = ep_timestamp end_ /\
    pb_start_equity b = ep_equity start /\ pb_end_equity b = ep_equity end_ /\
    match pb_period_return b with
    | Some r => (2 <= List.length points)%nat /\ ddiv (dsub (ep_equity end_) (ep_equity start)) (ep_equity start) = Ok r
    | None => List.length points = 1%nat
    end.

(** Neighbouring groups fall in different periods. *)
Definition new_period (granularity : PeriodGranularity) (a b : list EquityPoint) : Prop :=
  exists p q, last a = Some p /\ head b = Some q /\ point_key granularity p <> point_key granularity q.

Lemma pad_nonempty width z : String.eqb (pad (S width) z) "" = false.
Proof.
  unfold pad. assert (str_Z z <> ""%string) as H by (unfold str_Z; case_match; [done|apply str_N_ne]).
  destruct (String.concat _ _); [|done]. by apply String.eqb_neq.
Qed.

Lemma bucket_label_nonempty granularity t : String.eqb (bucket_label (bucket_key t granularity)) "" = false.
Proof.
  unfold bucket_key. destruct (civil_date t) as [[y m] d]. unfold bucket_label. pose proof (pad_nonempty 3 y) as H.
  destruct granularity; destruct (pad 4 y); done.
Qed.

Lemma sorted_head_last curve start end_ : StronglySorted Z.lt (point_instant <$> curve) -> head curve = Some start ->
  last curve = Some end_ -> point_instant start <= point_instant end_.
Proof.
  destruct curve as [|p l]; [done|]. intros H [= ->] Hl. cbn in H. apply StronglySorted_inv in H as [_ H].
  destruct l as [|q l]; [cbn in Hl; simplify_eq; lia|]. rewrite last_cons_cons in Hl. apply last_Some_elem_of in Hl.
  rewrite Forall_forall in H. apply Z.lt_le_incl, H, list_elem_of_fmap_2, Hl.
Qed.

Lemma make_bucket_spec granularity key points : points <> [] -> Forall point_ok points ->
  StronglySorted Z.lt (point_instant <$> points) -> Forall (fun p => point_key granularity p = key) points ->
  exists b, make_bucket key points = Ok b /\ bucket_of granularity points b.
Proof.
  intros Hne Hok Hsort Hkey. destruct (head points) as [start|] eqn:Hh; [|by destruct points].
  destruct (last points) as [end_|] eqn:Hl; [|by apply last_None in Hl].
  pose proof (sorted_head_last _ _ _ Hsort Hh Hl) as Hle. unfold make_bucket. rewrite Hh, Hl.
  assert (start ∈ points) as Hs by (destruct points; [done|]; cbn in Hh; simplify_eq; by left).
  assert (end_ ∈ points) as He by (by apply last_Some_elem_of).
  rewrite Forall_forall in Hok, Hkey. destruct (Hok start Hs) as [[_ Hps] Has]. destruct (Hok end_ He) as [[_ Hpe] Hae].
  assert (String.eqb (bucket_label key) "" = false) as Hlab by (rewrite <- (Hkey start Hs); apply bucket_label_nonempty).
  set (ret := if (2 <=? List.length points)%nat then _ else _).
  assert (exists r, ret = Ok r /\ match r with
    | Some r => (2 <= List.length points)%nat /\ ddiv (dsub (ep_equity end_) (ep_equity start)) (ep_equity start) = Ok r
    | None => List.length points = 1%nat end) as (r & -> & Hr).
  { subst ret. destruct (Nat.leb_spec 2 (List.length points)).
    - destruct (ddiv_total (dsub (ep_equity end_) (ep_equity start)) _ Hps) as [r Er]. exists (Some r). by rewrite Er.
    - exists None. split; [done|]. destruct points as [|? [|]]; cbn in *; done || lia. }
  cbn [rbind]. unfold mk_PeriodBucket, refuse_report. cbn [pb_label pb_start_timestamp pb_end_timestamp pb_start_equity pb_end_equity].
  rewrite Hlab, Has, Hae, (dt_gt_aware _ _ Has Hae), (positive_not_le _ Hps), (positive_not_le _ Hpe).
  unfold point_instant in Hle. replace (_ >? _) with false by lia. cbn. eexists. split; [done|].
  exists key, start, end_. rewrite Forall_forall. split_and!; done.
Qed.

Lemma bucket_loop_spec granularity rest : forall key points, points <> [] ->
  Forall point_ok (points ++ rest) -> StronglySorted Z.lt (point_instant <$> points ++ rest) ->
  Forall (fun p => point_key granularity p = key) points ->
  exists group groups buckets, bucket_loop granularity key points rest = Ok buckets /\
    mjoin (group :: groups) = points ++ rest /\ Forall2 (bucket_of granularity) (group :: groups) buckets /\
    Sorted (new_period granularity) (group :: groups) /\ head group = head points.
Proof.
  induction rest as [|p rest IH]; intros key points Hne Hok Hsort Hkey; cbn [bucket_loop].
  - rewrite app_nil_r in *. destruct (make_bucket_spec granularity key points Hne Hok Hsort Hkey) as (b & -> & Hb).
    exists points, [], [b]. cbn. rewrite app_nil_r. split_and!; try done; repeat constructor. done.
  - fold (point_key granularity p). case_bool_decide as Hk.
    + destruct (IH key (points ++ [p])) as (g & gs & bs & E & H1 & H2 & H3 & H4).
      * by destruct points.
      * by rewrite <- app_assoc.
      * by rewrite <- app_assoc.
      * apply Forall_app. split; [done|]. by constructor.
      * exists g, gs, bs. rewrite <- app_assoc in H1. split_and!; try done. rewrite H4. by destruct points.
    + rewrite fmap_app in Hsort. apply StronglySorted_app in Hsort as (_ & Hs1 & Hs2). apply Forall_app in Hok as [Hok1 Hok2].
      destruct (make_bucket_spec granularity key points Hne Hok1 Hs1 Hkey) as (b & -> & Hb). cbn [rbind].
      destruct (IH (point_key granularity p) [p]) as (g & gs & bs & -> & H1 & H2 & H3 & H4); [done|done|done|by repeat constructor|].
      cbn [rbind]. exists points, (g :: gs), (b :: bs). split_and!; [done|change (points ++ mjoin (g :: gs) = points ++ p :: rest); by rewrite H1|by constructor| |done].
      constructor; [done|]. constructor. destruct (last points) as [q|] eqn:Hl; [|by apply last_None in Hl].
      exists q, p. split_and!; [done|by rewrite H4|]. rewrite Forall_forall in Hkey.
      rewrite (Hkey q); [done|by apply last_Some_elem_of].
Qed.

(** A partition of the curve into maximal runs of points of one period. *)
Lemma bucket_performance_spec granularity curve : curve <> [] -> Forall point_ok curve ->
  StronglySorted Z.lt (point_instant <$> curve) -> validate_equity_curve curve = Ok tt ->
  exists groups buckets, bucket_performance curve granularity = Ok buckets /\ mjoin groups = curve /\
    Forall2 (bucket_of granularity) groups buckets /\ Sorted (new_period granularity) groups.
Proof.
  intros Hne Hok Hsort Hv. unfold bucket_performance. rewrite Hv. cbn [rbind]. destruct curve as [|p rest]; [done|].
  destruct (bucket_loop_spec granularity rest (point_key granularity p) [p]) as (g & gs & bs & E & H1 & H2 & H3 & _);
    [done|done|done|by repeat constructor|]. exists (g :: gs), bs. done.
Qed.

(** ** Streaks *)

(** The values at the end of [l] that satisfy [p]. *)
Fixpoint leading {A} (p : A -> bool) (l : list A) : nat :=
  match l with v :: rest => if p v then S (leading p rest) else 0%nat | [] => 0%nat end.

(** A contiguous stretch of values that satisfy [p]. *)
Definition streak_in {A} (p : A -> bool) (l : list A) (n : Z) : Prop :=
  exists before run after, l = before ++ run ++ after /\ Forall (fun v => p v = true) run /\ Z.of_nat (List.length run) = n.

Lemma leading_prefix {A} (p : A -> bool) run rest : Forall (fun v => p v = true) run -> (List.length run <= leading p (run ++ rest))%nat.
Proof. induction 1 as [|v run Hv Hrun IH]; cbn; [lia|]. rewrite Hv. lia. Qed.

Lemma leading_run {A} (p : A -> bool) l : Forall (fun v => p v = true) (take (leading p l) l) /\ (leading p l <= List.length l)%nat.
Proof. induction l as [|v l [IH1 IH2]]; cbn; [by split; [constructor|]|]. destruct (p v) eqn:E; cbn; split; [by constructor|lia|constructor|lia]. Qed.

(** The loop in terms of the longest streak of what follows and the run it
    starts with. *)
Lemma streak_fold p values : forall best current, 0 <= current <= best ->
  let best' := fst (foldl (streak_step p) (best, current) values) in
  best <= best' /\ current + Z.of_nat (leading p values) <= best' /\ (forall n, streak_in p values n -> n <= best') /\
  (best' = best \/ best' = current + Z.of_nat (leading p values) \/ streak_in p values best').
Proof.
  induction values as [|v values IH]; intros best current Hb; cbn [foldl].
  { cbn. split_and!; [lia|lia| |by left]. intros n (b & run & a & E & _ & <-). destruct b, run; try done. cbn. lia. }
  change (streak_step p (best, current) v) with (if p v then (Z.max best (current + 1), current + 1) else (best, 0)).
  cbn [leading]. destruct (p v) eqn:Ev.
  - destruct (IH (Z.max best (current + 1)) (current + 1)) as (H1 & H2 & H3 & H4); [lia|].
    set (best' := fst _) in *. split_and!; [lia|lia| |].
    + intros n (b & run & a & E & Hrun & <-). destruct b as [|x b]; cbn in E.
      * destruct run as [|x run]; [cbn; lia|]. cbn in E. injection E as <- E. rewrite E in H2. apply Forall_cons in Hrun as [_ Hrun].
        pose proof (leading_prefix p run a Hrun). cbn [List.length]. lia.
      * injection E as _ E. apply H3. exists b, run, a. done.
    + destruct H4 as [H4|[H4|(b & run & a & E & Hrun & Hn)]].
      * destruct (Z.max_spec best (current + 1)) as [[? Hm]|[? Hm]]; rewrite Hm in H4; [|by left].
        right; left. lia.
      * right; left. lia.
      * right; right. exists (v :: b), run, a. by rewrite E.
  - destruct (IH best 0) as (H1 & H2 & H3 & H4); [lia|]. set (best' := fst _) in *. split_and!; [lia|lia| |].
    + intros n (b & run & a & E & Hrun & <-). destruct b as [|x b]; cbn in E.
      * destruct run as [|x run]; [cbn; lia|]. cbn in E. injection E as <- E. apply Forall_cons in Hrun as [Hx _]. congruence.
      * injection E as _ E. apply H3. exists b, run, a. done.
    + destruct H4 as [H4|[H4|(b & run & a & E & Hrun & Hn)]]; [by left| |].
      * right; right. exists [v], (take (leading p values) values), (drop (leading p values) values).
        destruct (leading_run p values) as [L1 L2]. rewrite take_drop. split_and!; [done|done|]. rewrite length_take. lia.
      * right; right. exists (v :: b), run, a. by rewrite E.
Qed.

(** [max_streak] is the length of the longest streak. *)
Lemma max_streak_spec values p : streak_in p values (max_streak values p) /\
  forall n, streak_in p values n -> n <= max_streak values p.
Proof.
  unfold max_streak. destruct (streak_fold p values 0 0) as (_ & H2 & H3 & H4); [lia|]. split; [|done].
  destruct H4 as [H4|[H4|H4]]; [|..|done].
  - rewrite H4. exists [], [], values. split_and!; [done|constructor|done].
  - destruct (leading_run p values) as [L1 L2]. exists [], (take (leading p values) values), (drop (leading p values) values).
    rewrite take_drop, length_take. split_and!; [done|done|lia].
Qed.

(** * Trades and their fills *)

Lemma find_fill_ok fills f : NoDup (fi_sequence <$> fills) -> f ∈ fills -> find_fill fills (fi_sequence f) = Some f.
Proof.
  unfold find_fill. induction fills as [|g fills IH]; intros Hnd Hin; [by apply not_elem_of_nil in Hin|].
  cbn in *. apply NoDup_cons in Hnd as [Hn Hnd]. apply elem_of_cons in Hin as [->|Hin]; [by rewrite Z.eqb_refl|].
  destruct (Z.eqb_spec (fi_sequence g) (fi_sequence f)) as [E|E]; [|auto]. exfalso. apply Hn. rewrite E. by apply list_elem_of_fmap_2.
Qed.

Lemma latest_fill_total fills : fills <> [] -> Forall (fun f => dt_aware (fi_filled_at f) = true) fills ->
  exists f, latest_fill fills = Ok f /\ f ∈ fills /\ Forall (fun g => fill_instant g <= fill_instant f) fills.
Proof.
  destruct fills as [|f fills]; [done|]. intros _ Ha. unfold latest_fill.
  destruct (foldM_total (fun best x => let! later := dt_gt (fi_filled_at x) (fi_filled_at best) in Ok (if later : bool then x else best))
    (fun past best => best ∈ f :: past /\ Forall (fun g => fill_instant g <= fill_instant best) (f :: past)) fills) with (a := f)
    as (g & E & H1 & H2).
  - intros past x best [rest Hp] [H1 H2]. rewrite Forall_forall in Ha. rewrite Hp in Ha.
    rewrite dt_gt_aware by (apply Ha; set_solver). cbn [rbind]. rewrite Forall_forall in H2.
    destruct (Z.gtb_spec (dt_instant (fi_filled_at x)) (dt_instant (fi_filled_at best))) as [Hlt|Hle];
      (eexists; split; [done|]; split; [set_solver|]); rewrite Forall_forall; intros g Hg;
      assert (g ∈ f :: past \/ g = x) as [Hg'| ->] by set_solver; try specialize (H2 g Hg'); unfold fill_instant in *; lia.
  - split; [by left|]. constructor; [lia|constructor].
  - exists g. done.
Qed.

Section trades.
Context (fills : list FillRecord).
Context (Hnd : NoDup (fi_sequence <$> fills)) (Hfills : Forall fill_sound fills).
Let K : FillRecord -> Prop := fun f => f ∈ fills.

(** A sound trade joins to its fills. *)
Lemma trade_join t : trade_sound K t -> exists f gs g,
  entry_fill fills t = Ok f /\ f ∈ fills /\ exit_fills fills t = Ok gs /\ gs <> [] /\ Forall K gs /\
  latest_fill gs = Ok g /\ g ∈ fills /\ fill_instant f <= fill_instant g.
Proof.
  intros [(f & Hf & He & Hx) Hne _ _ _ _]. exists f.
  assert (exists gs, exit_fills fills t = Ok gs /\ List.length gs = List.length (tr_exit_fill_sequences t) /\
    Forall (fun g => K g /\ fill_instant f <= fill_instant g) gs) as (gs & E & Hl & Hgs).
  { unfold exit_fills. clear Hne. induction Hx as [|q l (g & Hg & <- & Hle) Hl (gs & IH1 & IH2 & IH3)]; [by exists []|]. cbn [mapM_res].
    rewrite (find_fill_ok _ _ Hnd Hg). cbn [rbind]. rewrite IH1. cbn. exists (g :: gs). split_and!; [done|cbn; lia|by constructor]. }
  assert (gs <> []) as Hgne by (intros ->; by destruct (tr_exit_fill_sequences t)).
  rewrite Forall_forall in Hgs. rewrite Forall_forall in Hfills.
  destruct (latest_fill_total gs Hgne) as (g & Eg & Hg & _).
  { apply Forall_forall. intros g Hg. apply Hfills, Hgs, Hg. }
  exists gs, g. destruct (Hgs g Hg) as [Kg Hle]. unfold entry_fill. rewrite <- He, (find_fill_ok _ _ Hnd Hf).
  split_and!; try done. apply Forall_forall. intros h Hh. by apply Hgs.
Qed.

Lemma trade_duration_total t : trade_sound K t -> exists d, trade_duration fills t = Ok d.
Proof.
  intros Ht. destruct (trade_join t Ht) as (f & gs & g & E1 & Hf & E2 & _ & _ & E3 & Hg & Hle).
  unfold trade_duration, refuse_report. rewrite E1. cbn [rbind]. destruct Ht as [_ Hx _ _ _ _].
  destruct (tr_exit_fill_sequences t); [done|]. cbn [raise_if rbind]. rewrite E2. cbn [rbind]. rewrite E3. cbn [rbind].
  rewrite Forall_forall in Hfills. pose proof (fs_aware _ (Hfills f Hf)) as Af. pose proof (fs_aware _ (Hfills g Hg)) as Ag.
  assert (dt_sub (fi_filled_at g) (fi_filled_at f) = Ok (fill_instant g - fill_instant f)) as ->.
  { unfold dt_sub, dt_comparable, dt_aware in *. by destruct (dt_offset (fi_filled_at f)), (dt_offset (fi_filled_at g)). }
  cbn [rbind]. destruct (Z.ltb_spec (fill_instant g - fill_instant f) 0); [lia|]. cbn. eauto.
Qed.

Lemma slippage_nonneg gs : Forall K gs ->
  (0 <= dval (dsum ((fun f => dmul (fi_slippage_per_share f) (fi_quantity f)) <$> gs)))%Q.
Proof.
  intros H. apply dsum_nonneg, Forall_fmap. eapply Forall_impl; [exact H|]. intros f Hf. cbn.
  rewrite Forall_forall in Hfills. destruct (Hfills f Hf). apply dmul_nonneg; lra.
Qed.

End trades.

(** ** Reconstructions *)

Lemma opt_shared_ok (x : decimal) (o : option decimal) : (0 <= dval x)%Q -> match o with Some d => (0 <= dval d)%Q | None => True end ->
  negative o = false /\ negative (dadd x <$> o) = false /\ xorb (is_none o) (is_none (dadd x <$> o)) = false.
Proof.
  intros Hx Ho. destruct o as [d|]; cbn; [|done]. rewrite !nonneg_not_lt; [done|apply dadd_nonneg; lra|done].
Qed.

Lemma reconstruct_trade_total run symbol timeframe t : NoDup (fi_sequence <$> run_fills run) -> Forall fill_sound (run_fills run) ->
  trade_sound (fun f => f ∈ run_fills run) t -> exists c, reconstruct_trade run symbol timeframe t = Ok c /\
    tc_trade_id c = tr_sequence t /\ tc_net_pnl c = tr_realized_pnl t.
Proof.
  intros Hnd Hfills Ht. destruct (trade_join _ Hnd Hfills t Ht) as (f & gs & g & E1 & Hf & E2 & Hne & HK & E3 & Hg & Hle).
  unfold reconstruct_trade. rewrite E1. cbn [rbind]. rewrite E2. cbn [rbind]. destruct gs as [|g0 gs]; [done|].
  cbn [refuse_report raise_if rbind]. rewrite E3. cbn [rbind]. pose proof (slippage_nonneg _ Hfills _ HK) as Hexit.
  pose proof Hfills as Hall. rewrite Forall_forall in Hall. destruct (Hall f Hf) as [Af _ _ Sf _]. destruct (Hall g Hg) as [Ag _ _ _ _].
  destruct Ht as [_ _ Hs Hq [Hp1 Hp2] [Hc1 Hc2]].
  assert (0 <= dval (dmul (fi_slippage_per_share f) (tr_quantity t)))%Q as Hentry by (apply dmul_nonneg; lra).
  set (shared := existsb _ _). set (exit_slippage := if shared then None else _).
  destruct (opt_shared_ok _ exit_slippage Hentry) as (O1 & O2 & O3); [subst exit_slippage; by destruct shared|].
  unfold mk_TradeReconstruction, refuse_report.
  cbn [tc_trade_id tc_side tc_entry_timestamp tc_exit_timestamp tc_entry_price tc_exit_price tc_quantity tc_stop_loss tc_target tc_fees
    tc_entry_slippage tc_exit_slippage tc_slippage tc_mfe tc_mae].
  rewrite (proj2 (Z.ltb_ge _ _) Hs), Af, Ag, (dt_gt_aware _ _ Af Ag), !positive_not_le, !nonneg_not_lt, O1, O2, O3
    by (first [done|apply dadd_nonneg; lra]).
  unfold fill_instant in Hle. replace (_ >? _) with false by lia. cbn [raise_if rbind negb opt_test not_positive]. by eexists.
Qed.

(** ** Statistics *)

Lemma ratio_if_total b x y : (b = true -> (0 < dval y)%Q) -> exists o, ratio_if b x y = Ok o /\
  ((0 <= dval x)%Q -> negative o = false) /\ (forall r, o = Some r -> b = true /\ ddiv x y = Ok r).
Proof.
  intros H. unfold ratio_if. destruct b; [|by exists None]. destruct (ddiv_total x y (H eq_refl)) as [r Er]. rewrite Er. cbn.
  exists (Some r). split_and!; [done| |by intros ? [= <-]]. intros Hx. cbn. apply nonneg_not_lt. by apply (ddiv_nonneg _ _ _ Er Hx); apply H.
Qed.

Lemma max_opt_nonneg l : Forall (fun d => (0 <= dval d)%Q) l -> negative (max_opt l) = false.
Proof.
  destruct 1 as [|v l Hv Hl]; [done|]. cbn. apply nonneg_not_lt. revert v Hv. induction Hl as [|x l Hx Hl IH]; intros v Hv; [done|].
  cbn. apply IH. unfold dmax. by case_match.
Qed.

Lemma dminus_pos d : (dval d < 0)%Q -> (0 < dval (dminus d))%Q.
Proof.
  intros H. assert (dz d < 0) as Hz.
  { destruct (Z.lt_ge_cases (dz d) 0) as [|Hge]; [done|]. apply dval_nonneg in Hge. lra. }
  unfold dminus. destruct (N.eqb_spec (dcoef d) 0) as [E|E]; [unfold dz in Hz; rewrite E in Hz; by destruct (dneg d)|].
  apply dfix_pos. rewrite copy_negate_val. lra.
Qed.

Lemma dsum_pos l : l <> [] -> Forall (fun d => (0 < dval d)%Q) l -> (0 < dval (dsum l))%Q.
Proof.
  intros Hne H. destruct H as [|d l Hd Hl]; [done|]. clear Hne. unfold dsum. cbn. assert (0 < dval (dadd dzero d))%Q as H0 by (apply dadd_pos; rewrite dval_zero; lra).
  revert H0. generalize (dadd dzero d). clear Hd. induction Hl as [|x l Hx Hl IH]; intros a Ha; [done|]. cbn. apply IH, dadd_pos. lra.
Qed.

(** What the metrics say of the trades. *)
Lemma metrics_fields run rate m : compute_metrics run rate = Ok m ->
  bm_wins m = count_trades (fun p => dgt p dzero) (br_trades run) /\ bm_losses m = count_trades (fun p => dlt p dzero) (br_trades run) /\
  bm_gross_profit m = dsum (filter (fun p => dgt p dzero = true) (tr_realized_pnl <$> br_trades run)) /\
  bm_gross_loss m = dsum (dminus <$> filter (fun p => dlt p dzero = true) (tr_realized_pnl <$> br_trades run)) /\
  max_drawdown (ep_equity <$> br_equity_curve run) = Ok (bm_max_drawdown m).
Proof. unfold compute_metrics, refuse. intros H. res_inv. done. Qed.

(** Trades counted as losses make a positive gross loss. *)
Lemma gross_loss_pos trades : 0 < count_trades (fun p => dlt p dzero) trades ->
  (0 < dval (dsum (dminus <$> filter (fun p => dlt p dzero = true) (tr_realized_pnl <$> trades))))%Q.
Proof.
  intros H. apply dsum_pos.
  - unfold count_trades in H. intros E%fmap_nil_inv. destruct (filter (fun t => dlt (tr_realized_pnl t) dzero = true) trades) as [|t l] eqn:Ef;
      [done|]. assert (t ∈ filter (fun t => dlt (tr_realized_pnl t) dzero = true) trades) as Hin by (rewrite Ef; by left).
    apply list_elem_of_filter in Hin as [Ht Hin]. assert (tr_realized_pnl t ∈ filter (fun p => dlt p dzero = true) (tr_realized_pnl <$> trades)) as Hx
      by (apply list_elem_of_filter; split; [done|by apply list_elem_of_fmap_2]). rewrite E in Hx. by apply not_elem_of_nil in Hx.
  - apply Forall_fmap, Forall_forall. intros p [Hp _]%list_elem_of_filter. apply dlt_spec in Hp. rewrite dval_zero in Hp. by apply dminus_pos.
Qed.

Lemma gross_profit_nonneg pnls : (0 <= dval (dsum (filter (fun p => dgt p dzero = true) pnls)))%Q.
Proof.
  apply dsum_nonneg, Forall_forall. intros p [Hp _]%list_elem_of_filter. unfold dgt in Hp. apply dlt_spec in Hp. rewrite dval_zero in Hp. lra.
Qed.

Lemma count_pos z : 0 < z -> (0 < dval (dec_of_Z z))%Q.
Proof. intros H. rewrite dval_of_Z. change 0%Q with (inject_Z 0). by rewrite <- Zlt_Qlt. Qed.

Lemma mk_TradeStatistics_ok t : negative (ts_avg_win t) = false -> negative (ts_avg_loss t) = false -> negative (ts_largest_win t) = false ->
  negative (ts_largest_loss t) = false -> 0 <= ts_max_consecutive_wins t -> 0 <= ts_max_consecutive_losses t ->
  (0 <= dval (ts_total_fees t))%Q -> (0 <= dval (ts_total_slippage t))%Q -> mk_TradeStatistics t = Ok t.
Proof.
  unfold mk_TradeStatistics, refuse_report. intros -> -> -> -> H1 H2 H3 H4.
  by rewrite (proj2 (Z.ltb_ge _ _) H1), (proj2 (Z.ltb_ge _ _) H2), (nonneg_not_lt _ H3), (nonneg_not_lt _ H4).
Qed.

Lemma max_streak_nonneg values p : 0 <= max_streak values p.
Proof. destruct (max_streak_spec values p) as [(? & ? & ? & _ & _ & <-) _]. lia. Qed.

Lemma trade_statistics_total run rate m amount : NoDup (fi_sequence <$> run_fills run) -> Forall fill_sound (run_fills run) ->
  Forall (trade_sound (fun f => f ∈ run_fills run)) (br_trades run) -> compute_metrics run rate = Ok m -> (0 <= dval amount)%Q ->
  exists st, compute_trade_statistics run m amount = Ok st.
Proof.
  intros Hnd Hfills Htrades Hm Hamt. destruct (metrics_fields _ _ _ Hm) as (Hw & Hl & Hgp & Hgl & _).
  unfold compute_trade_statistics, refuse_report. rewrite (nonneg_not_lt _ Hamt). cbn [raise_if rbind].
  set (n := Z.of_nat (List.length (br_trades run))).
  destruct (ratio_if_total (0 <? n) (dec_of_Z (bm_losses m)) (dec_of_Z n)) as (o1 & -> & _); [intros H%Z.ltb_lt; by apply count_pos|].
  cbn [rbind]. destruct (ratio_if_total (0 <? n) (dsum (tr_realized_pnl <$> br_trades run)) (dec_of_Z n)) as (o2 & -> & _);
    [intros H%Z.ltb_lt; by apply count_pos|].
  cbn [rbind]. destruct (ratio_if_total (0 <? bm_wins m) (bm_gross_profit m) (dec_of_Z (bm_wins m))) as (o3 & -> & N3 & _);
    [intros H%Z.ltb_lt; by apply count_pos|].
  cbn [rbind]. destruct (ratio_if_total (0 <? bm_losses m) (bm_gross_loss m) (dec_of_Z (bm_losses m))) as (o4 & -> & N4 & P4);
    [intros H%Z.ltb_lt; by apply count_pos|].
  assert (0 < bm_losses m -> (0 < dval (bm_gross_loss m))%Q) as Hloss by (rewrite Hgl, Hl; apply gross_loss_pos).
  assert (forall r, o4 = Some r -> (0 < dval r)%Q) as Hpos4.
  { intros r Er. destruct (P4 r Er) as [Hlt%Z.ltb_lt E]. apply (ddiv_pos _ _ _ E); [auto|by apply count_pos]. }
  cbn [rbind]. assert (exists o, match o3, o4 with Some w, Some l => ratio_if true w l | _, _ => Ok None end = Ok o) as [o5 ->].
  { destruct o3 as [w|]; [|eauto]. destruct o4 as [l|]; [|eauto]. destruct (ratio_if_total true w l) as (o & -> & _); eauto. }
  cbn [rbind]. assert (exists o, (if 0 <? n then average_trade_duration run else Ok None) = Ok o) as [o6 ->].
  { destruct (0 <? n); [|eauto]. unfold average_trade_duration, unique_sequences, refuse_report. rewrite bool_decide_eq_true_2 by done.
    cbn [negb raise_if rbind]. destruct (mapM_res_total (trade_duration (run_fills run)) (br_trades run)) as [ds ->].
    - intros t Ht. rewrite Forall_forall in Htrades. by apply trade_duration_total, Htrades.
    - cbn [rbind]. destruct ds; eauto. }
  cbn [rbind]. destruct (ratio_if_total ((0 <? n) && dgt amount dzero) (dsum (tr_realized_pnl <$> br_trades run)) amount) as (o7 & -> & _).
  { intros [_ H]%andb_true_iff. unfold dgt in H. apply dlt_spec in H. by rewrite dval_zero in H. }
  cbn [rbind]. eexists. apply mk_TradeStatistics_ok; cbn.
  - apply N3. rewrite Hgp. apply gross_profit_nonneg.
  - destruct o4 as [r|]; [|done]. cbn. apply nonneg_not_lt. specialize (Hpos4 r eq_refl). lra.
  - apply max_opt_nonneg, Forall_forall. intros v [_ Hv]%list_elem_of_In%filter_In. unfold dgt in Hv. apply dlt_spec in Hv.
    rewrite dval_zero in Hv. lra.
  - apply max_opt_nonneg, Forall_fmap, Forall_forall. intros v [_ Hv]%list_elem_of_In%filter_In. apply dlt_spec in Hv.
    rewrite dval_zero in Hv. cbn. pose proof (dminus_pos v Hv). lra.
  - apply max_streak_nonneg.
  - apply max_streak_nonneg.
  - apply dsum_nonneg, Forall_fmap. eapply Forall_impl; [exact Hfills|]. by intros f [].
  - apply slippage_nonneg with (fills := run_fills run); [done|]. by apply Forall_forall.
Qed.

(** * The report of a run *)

Lemma mapM_res_forall {A B} (P : A -> B -> Prop) (f : A -> res B) l :
  (forall a, a ∈ l -> exists b, f a = Ok b /\ P a b) -> exists bs, mapM_res f l = Ok bs /\ Forall2 P l bs.
Proof.
  induction l as [|a l IH]; intros H; cbn; [by exists []|]. destruct (H a ltac:(by left)) as (b & -> & Hb).
  destruct IH as (bs & -> & Hbs); [|exists (b :: bs); by split; [|constructor]]. intros x Hx. apply H. by right.
Qed.

(** A run over valid data, with the assumptions a report of it rests on. *)
Record reported (inputs : BacktestInput) (intents : list OrderIntent) (cm : CostModel) (capital : decimal) (run : BacktestRun) : Prop := {
  rd_input : mk_BacktestInput inputs = Ok inputs;
  rd_records : Forall valid_record (bt_records inputs);
  rd_intents : Forall valid_intent intents;
  rd_costs : valid_costs cm;
  rd_slippage : representable (cm_slippage_bps cm);
  rd_run : run_backtest inputs intents cm capital = Ok run;
}.

Section report.
Context {inputs intents cm capital run} (R : reported inputs intents cm capital run).

Lemma run_books : NoDup (fi_sequence <$> run_fills run) /\ Forall fill_sound (run_fills run) /\
  Forall (trade_sound (fun f => f ∈ run_fills run)) (br_trades run).
Proof.
  destruct R as [R1 R2 R3 R4 R5 R6]. destruct (run_sound _ _ _ _ _ R1 R2 R3 R4 R5 R6) as (now & s & Hs & Hm & Ht & _).
  unfold run_fills. pose proof (run_fills_known s _ Hm) as Hk. split_and!; [by eapply sim_sound_sequences|..].
  - apply Forall_forall. intros f Hf%Hk. by apply (sn_fills _ _ Hs).
  - rewrite Ht. eapply Forall_impl; [exact (sn_trades _ _ Hs)|]. intros t. apply trade_sound_mono. intros f. apply Hk.
Qed.

Lemma run_curve : br_equity_curve run <> [] /\ StronglySorted Z.lt (point_instant <$> br_equity_curve run) /\
  (equity_positive (br_equity_curve run) -> Forall point_ok (br_equity_curve run)).
Proof.
  destruct R as [R1 R2 R3 R4 R5 R6]. destruct (run_sound _ _ _ _ _ R1 R2 R3 R4 R5 R6) as (_ & _ & _ & _ & _ & Hts).
  destruct (run_curve_sums _ _ _ _ _ R6) as [Hsums Hne]. split; [done|]. split.
  - assert (point_instant <$> br_equity_curve run = instant <$> bt_records inputs) as ->.
    { transitivity (dt_instant <$> (ep_timestamp <$> br_equity_curve run)); [by rewrite <- list_fmap_compose|].
      rewrite Hts. by rewrite <- list_fmap_compose. }
    apply input_coherent in R1 as [_ (? & ? & _ & _ & Hsort)]. done.
  - intros Hpos. apply Forall_forall. intros p Hp. unfold equity_positive in Hpos. rewrite Forall_forall in Hpos, Hsums.
    specialize (Hpos p Hp). unfold dgt in Hpos. apply dlt_spec in Hpos. rewrite dval_zero in Hpos. split.
    + split; [|done]. destruct (Hsums p Hp) as (a & b & E). rewrite E in Hpos |- *. by apply dadd_representable.
    + assert (ep_timestamp p ∈ record_timestamp <$> bt_records inputs) as Hin by (rewrite <- Hts; by apply list_elem_of_fmap_2).
      apply list_elem_of_fmap in Hin as (r & -> & Hr). rewrite Forall_forall in R2. by apply valid_record_aware, R2.
Qed.

Lemma run_labels : String.eqb (br_input_sha256 run) "" = false /\ String.eqb (br_dataset_id run) "" = false /\
  String.eqb (br_source run) "" = false /\ (0 < dval (br_initial_capital run))%Q.
Proof.
  destruct R as [R1 _ _ _ _ R6]. pose proof (run_backtest_inv _ _ _ _ _ R6) as (_ & _ & Hcap & _).
  rewrite (run_capital _ _ _ _ _ R6). assert (forall s, is_blank s = false -> String.eqb s "" = false) as Hblank by (by intros []).
  unfold mk_BacktestInput in R1. unfold run_backtest in R6. res_inv. destruct (anchor_intents _ _ _) as [[? ?] ?]. res_inv.
  unfold mk_BacktestRun, refuse in *. res_inv. cbn. split_and!; [apply Hblank, sha256_hex_nonblank|by apply Hblank..|done].
Qed.

Lemma run_drawdowns : equity_positive (br_equity_curve run) -> exists ds, compute_drawdown_series (br_equity_curve run) = Ok ds /\
  dd_equity <$> ds = ep_equity <$> br_equity_curve run /\ dd_timestamp <$> ds = ep_timestamp <$> br_equity_curve run /\
  (0 <= dval (default dzero (max_opt (dd_drawdown_amount <$> ds))))%Q /\
  max_drawdown (ep_equity <$> br_equity_curve run) = Ok (foldl dmax dzero (dd_drawdown_ratio <$> ds)).
Proof.
  intros Hpos. destruct run_curve as (Hne & _ & Hok). specialize (Hok Hpos). unfold compute_drawdown_series.
  rewrite (validate_curve_iff _ Hne), decide_True by done. cbn [rbind]. destruct (br_equity_curve run) as [|p rest] eqn:Ec; [done|].
  pose proof Hok as [[Hp _] _]%Forall_cons. destruct (drawdown_points_spec _ Hok _ Hp) as (ds & -> & E1 & E2 & Hamt & Hfold).
  exists ds. split_and!; try done.
  - destruct (max_opt (dd_drawdown_amount <$> ds)) as [d|] eqn:Ed; cbn; [|rewrite dval_zero; lra].
    assert (negative (max_opt (dd_drawdown_amount <$> ds)) = false) as Hn by (by apply max_opt_nonneg, Forall_fmap).
    rewrite Ed in Hn. cbn in Hn. apply dlt_false in Hn. by rewrite dval_zero in Hn.
  - destruct (Hfold dzero) as [peak Hf]. cbn [fmap list_fmap] in *. unfold max_drawdown. by rewrite Hf.
Qed.

End report.

(** C38: A report can be built of every honest run, and of no other: for a run of
    the engine over a checked history of valid records, valid intents and costs
    whose slippage fits the precision, [build_report] succeeds if every marked
    equity is positive, and otherwise raises its own metrics error.  The join of
    trades with fills never fails, no ratio divides by zero, and the report agrees
    with the engine: the same metrics and period returns, one reconstruction per
    trade with its number and profit, one drawdown per mark, the deepest of which
    is the engine's maximal drawdown. *)
Theorem reports_complete inputs intents cm capital run rate symbol timeframe :
  reported inputs intents cm capital run -> (0 <= dval rate)%Q ->
  if decide (equity_positive (br_equity_curve run)) then
    exists r, build_report run rate symbol timeframe = Ok r /\ compute_metrics run rate = Ok (rt_metrics r) /\
      Forall2 (fun t c => tc_trade_id c = tr_sequence t /\ tc_net_pnl c = tr_realized_pnl t) (br_trades run) (rt_trades r) /\
      period_returns (ep_equity <$> br_equity_curve run) = Ok (rp_value <$> rt_returns r) /\
      dd_equity <$> rt_drawdowns r = ep_equity <$> br_equity_curve run /\
      bm_max_drawdown (rt_metrics r) = foldl dmax dzero (dd_drawdown_ratio <$> rt_drawdowns r)
  else build_report run rate symbol timeframe =
    raise BacktestReportMetricsError "marked equity must stay positive to compute honest reports".
Proof.
  intros R Hrate. destruct (run_curve R) as (Hne & Hsort & Hok). unfold build_report, validate_rf, refuse_report.
  rewrite (nonneg_not_lt _ Hrate). cbn [raise_if rbind].
  pose proof (validate_curve_iff _ Hne) as Hv. rewrite Hv. destruct (decide _) as [Hpos|Hneg]; [|done]. cbn [rbind].
  specialize (Hok Hpos). destruct (run_books R) as (Hnd & Hfills & Htrades).
  pose proof (metrics_defined_iff_equity_positive _ _ _ _ _ rate (rd_run _ _ _ _ _ R) Hrate) as Hm.
  rewrite decide_True in Hm by done. destruct Hm as (m & Em & _ & Hdd). rewrite Em. cbn [rbind].
  unfold compute_period_returns. rewrite Hv. cbn [rbind]. destruct (return_points_spec _ Hok) as (ps & -> & Er & _). cbn [rbind].
  destruct (run_drawdowns R Hpos) as (ds & -> & E1 & _ & Hamt & Hdeep). cbn [rbind].
  destruct (trade_statistics_total run rate m _ Hnd Hfills Htrades Em Hamt) as [st ->]. cbn [rbind].
  destruct (sortino_total (rp_value <$> ps) rate Hrate) as [so ->]. cbn [rbind].
  destruct (calmar_total (bm_total_return m) _ Hdd) as [ca ->]. cbn [rbind].
  unfold build_trade_reconstructions, unique_sequences, refuse_report. rewrite bool_decide_eq_true_2 by done. cbn [negb raise_if rbind].
  destruct (mapM_res_forall (fun t c => tc_trade_id c = tr_sequence t /\ tc_net_pnl c = tr_realized_pnl t)
    (reconstruct_trade run symbol timeframe) (br_trades run)) as (cs & -> & Hcs).
  { intros t Ht. rewrite Forall_forall in Htrades. by apply reconstruct_trade_total, Htrades. }
  cbn [rbind]. destruct (bucket_performance_spec DAILY _ Hne Hok Hsort Hv) as (_ & b1 & -> & _). cbn [rbind].
  destruct (bucket_performance_spec MONTHLY _ Hne Hok Hsort Hv) as (_ & b2 & -> & _). cbn [rbind].
  destruct (bucket_performance_spec YEARLY _ Hne Hok Hsort Hv) as (_ & b3 & -> & _). cbn [rbind].
  destruct (run_labels R) as (L1 & L2 & L3 & L4). unfold mk_BacktestReport, refuse_report.
  cbn [rt_input_sha256 rt_dataset_id rt_source rt_initial_capital rt_risk_free_rate_per_period rt_equity_curve].
  rewrite L1, L2, L3, (positive_not_le _ L4), (nonneg_not_lt _ Hrate).
  destruct (metrics_fields _ _ _ Em) as (_ & _ & _ & _ & Hmd). rewrite Hdeep in Hmd. injection Hmd as Hmd.
  destruct (br_equity_curve run) as [|p rest] eqn:Ec; [done|]. cbn [raise_if rbind].
  eexists. split; [done|]. cbn [rt_metrics rt_trades rt_returns rt_drawdowns]. split_and!; done.
Qed.

(** The buckets of a run partition its curve, in order, into maximal runs of
    points of one calendar period, and each bucket describes its points. *)
Theorem buckets_partition_run inputs intents cm capital run granularity : reported inputs intents cm capital run ->
  equity_positive (br_equity_curve run) ->
  exists groups buckets, bucket_performance (br_equity_curve run) granularity = Ok buckets /\
    mjoin groups = br_equity_curve run /\ Forall2 (bucket_of granularity) groups buckets /\ Sorted (new_period granularity) groups.
Proof.
  intros R Hpos. destruct (run_curve R) as (Hne & Hsort & Hok). apply bucket_performance_spec; auto.
  by rewrite (validate_curve_iff _ Hne), decide_True.
Qed.

(** * Examples *)

Module ReportSamples.
Import BacktestSample.

Definition round_trip : list OrderIntent := [order it_BUY 2 30; order it_SELL 2 90].
Definition closed_run : BacktestRun := run_of rising round_trip.

Lemma closed_run_reported : reported rising round_trip costs capital closed_run.
Proof.
  constructor; [vm_compute; reflexivity|repeat constructor; vm_compute; reflexivity..|vm_compute; reflexivity| |].
  - split; [reflexivity|vm_compute; reflexivity].
  - apply run_of_ok. vm_compute. reflexivity.
Qed.

Lemma closed_run_positive : equity_positive (br_equity_curve closed_run).
Proof.
  apply Forall_forall. intros p Hp. apply list_elem_of_In in Hp. revert p Hp. apply forallb_forall.
  vm_compute. reflexivity.
Qed.

Lemma reports_complete_witness : exists r, build_report closed_run dzero (Some "ABC"%string) None = Ok r /\
  (tc_trade_id <$> rt_trades r) = [0].
Proof.
  pose proof (reports_complete rising round_trip costs capital closed_run dzero (Some "ABC"%string) None closed_run_reported) as H.
  rewrite decide_True in H by exact closed_run_positive.
  destruct H as (r & E & _ & Ht & _); [rewrite dval_zero; apply Qle_refl|]. exists r. split; [exact E|].
  assert (tr_sequence <$> br_trades closed_run = [0]) as Hseq by (vm_compute; reflexivity). rewrite <- Hseq. symmetry.
  apply list_eq_Forall2, Forall2_fmap. eapply Forall2_impl; [exact Ht|]. intros t c [-> _]. reflexivity.
Defined.

(** A slippage below 10000 basis points, with more digits than the precision,
    makes a sale at price zero. *)
Example sale_at_zero :
  let cm := {| cm_commission_per_fill := dzero; cm_slippage_bps := Dec false (10 ^ 34 - 1) (-30) |} in
  valid_costs cm /\ exists p, apply_slippage (dec_of_Z 100) it_SELL (cm_slippage_bps cm) = Ok p /\ deq p dzero = true.
Proof. split; [vm_compute; reflexivity|]. eexists. split; vm_compute; reflexivity. Qed.

End ReportSamples.
