(* ===== verification/BacktestAnalytics.v ===== *)
(** Measures of a run (src/backtesting/alpha_algo_backtest_analytics): historical
    value at risk (var.py), excursions of a trade (excursions.py), alpha and beta
    against a benchmark (alpha_beta.py), the growth rate (cagr.py) and their
    composition (advanced.py).

    [Decimal.ln] and [Decimal.exp] are parameters of the growth rate. *)

From stdpp Require Import base list strings gmap sorting.
From Stdlib Require Import ZArith QArith Lqa Lia String Ascii.
From S2P Require Import Prelude PyBase Decimal Service Market Backtest BacktestEngine BacktestPortfolio BacktestTools BacktestReports.
Open Scope Z_scope.

(** * analytics/var.py *)

Definition refuse_risk (b : bool) (msg : string) : res unit := raise_if b RiskMeasureError msg.

(** [Decimal("0") < confidence < Decimal("1")] *)
Definition in_unit_interval (c : decimal) : bool := dlt dzero c && dlt c (dec_of_Z 1).

Record VarCvarMetrics := {
  vc_confidence : decimal; vc_method : string; vc_observation_count : Z; vc_var_return : decimal;
  vc_var_loss : decimal; vc_cvar_loss : decimal;
}.

Definition mk_VarCvarMetrics (v : VarCvarMetrics) : res VarCvarMetrics :=
  refuse_risk (negb (in_unit_interval (vc_confidence v))) "confidence must be in the open interval (0, 1)" ;!
  refuse_risk (String.eqb (vc_method v) "") "method must be a non-empty string" ;!
  refuse_risk (vc_observation_count v <? 1) "observation_count must be a positive int" ;!
  refuse_risk (dlt (vc_var_loss v) dzero) "var_loss must be non-negative" ;!
  refuse_risk (dlt (vc_cvar_loss v) dzero) "cvar_loss must be non-negative" ;!
  refuse_risk (dlt (vc_cvar_loss v) (vc_var_loss v))
    "cvar_loss must be at least var_loss (tail mean cannot beat its own worst point)" ;!
  Ok v.

(** [int(d.to_integral_value(rounding=ROUND_FLOOR))] *)
Definition dfloor (d : decimal) : Z := if 0 <=? dexp d then dz d * 10 ^ dexp d else dz d / 10 ^ (- dexp d).

(** The position of the quantile. *)
Definition tail_count (confidence : decimal) (n : nat) : Z :=
  Z.max 1 (dfloor (dmul (dsub (dec_of_Z 1) confidence) (dec_of_Z (Z.of_nat n)))).

(** [x if x >= 0 else Decimal("0")] *)
Definition clamp_loss (x : decimal) : decimal := if dlt x dzero then dzero else x.

Definition compute_var_cvar (returns : list decimal) (confidence : decimal) : res (option VarCvarMetrics) :=
  refuse_risk (negb (in_unit_interval confidence)) "confidence must be in the open interval (0, 1)" ;!
  let n := List.length returns in
  if (n =? 0)%nat then Ok None
  else
    let sorted_returns := stable_sort dle returns in
    let k := tail_count confidence n in
    let! var_return := value_at sorted_returns (k - 1) in
    let var_loss := clamp_loss (dminus var_return) in
    let tail := take (Z.to_nat k) sorted_returns in
    let! mean := ddiv (dsum tail) (dec_of_Z (Z.of_nat (List.length tail))) in
    let cvar_loss := clamp_loss (dminus mean) in
    let! v := mk_VarCvarMetrics {| vc_confidence := confidence; vc_method := "historical"; vc_observation_count := Z.of_nat n;
                                   vc_var_return := var_return; vc_var_loss := var_loss; vc_cvar_loss := cvar_loss |} in
    Ok (Some v).

(** * analytics/excursions.py *)

Definition refuse_excursion (b : bool) (msg : string) : res unit := raise_if b ExcursionError msg.

Inductive ExcursionSide := LONG | SHORT.

Record ExcursionPoint := { xp_timestamp : datetime; xp_high : decimal; xp_low : decimal }.

Definition mk_ExcursionPoint (p : ExcursionPoint) : res ExcursionPoint :=
  refuse_excursion (negb (dt_aware (xp_timestamp p))) "ExcursionPoint.timestamp must be timezone-aware" ;!
  refuse_excursion (dle (xp_high p) dzero) "ExcursionPoint.high must be a positive finite Decimal" ;!
  refuse_excursion (dle (xp_low p) dzero) "ExcursionPoint.low must be a positive finite Decimal" ;!
  refuse_excursion (dgt (xp_low p) (xp_high p)) "ExcursionPoint.low must not exceed high" ;!
  Ok p.

Record ExcursionResult := {
  xr_side : ExcursionSide; xr_entry_price : decimal; xr_exit_price : decimal; xr_observation_count : Z; xr_mfe : decimal; xr_mae : decimal;
}.

Definition mk_ExcursionResult (r : ExcursionResult) : res ExcursionResult :=
  refuse_excursion (dle (xr_entry_price r) dzero) "entry_price must be a positive finite Decimal" ;!
  refuse_excursion (dle (xr_exit_price r) dzero) "exit_price must be a positive finite Decimal" ;!
  refuse_excursion (xr_observation_count r <? 0) "observation_count must be a non-negative int" ;!
  refuse_excursion (dlt (xr_mfe r) dzero) "mfe must be a non-negative finite Decimal" ;!
  refuse_excursion (dgt (xr_mae r) dzero) "mae must be a non-positive finite Decimal" ;!
  Ok r.

(** The points strictly after the entry, up to and including the exit. *)
Definition observed (entry exit : datetime) (p : ExcursionPoint) : res bool :=
  let! early := dt_le (xp_timestamp p) entry in
  if early : bool then Ok false else let! late := dt_gt (xp_timestamp p) exit in Ok (negb late).

Definition observe_point (entry exit : datetime) (acc : list decimal * list decimal) (p : ExcursionPoint)
    : res (list decimal * list decimal) :=
  let! seen := observed entry exit p in
  Ok (if seen : bool then (acc.1 ++ [xp_high p], acc.2 ++ [xp_low p]) else acc).

(** [max(values)] and [min(values)] of a list that is not empty *)
Definition max_of (v : decimal) (rest : list decimal) : decimal := foldl dmax v rest.
Definition min_of (v : decimal) (rest : list decimal) : decimal := foldl dmin v rest.

Definition compute_excursions (side : ExcursionSide) (entry_timestamp exit_timestamp : datetime) (entry_price exit_price : decimal)
    (path : list ExcursionPoint) : res ExcursionResult :=
  refuse_excursion (negb (dt_aware entry_timestamp)) "entry_timestamp must be timezone-aware" ;!
  refuse_excursion (negb (dt_aware exit_timestamp)) "exit_timestamp must be timezone-aware" ;!
  (let! late := dt_gt entry_timestamp exit_timestamp in refuse_excursion late "entry_timestamp must not follow exit_timestamp") ;!
  refuse_excursion (dle entry_price dzero) "entry_price must be a positive finite Decimal" ;!
  refuse_excursion (dle exit_price dzero) "exit_price must be a positive finite Decimal" ;!
  let! seen := foldM (observe_point entry_timestamp exit_timestamp) ([], []) path in
  let highest := max_of exit_price (fst seen) in
  let lowest := min_of exit_price (snd seen) in
  let '(mfe, mae) := match side with
                     | LONG => (dsub highest entry_price, dsub lowest entry_price)
                     | SHORT => (dsub entry_price lowest, dsub entry_price highest)
                     end in
  mk_ExcursionResult {| xr_side := side; xr_entry_price := entry_price; xr_exit_price := exit_price;
                        xr_observation_count := Z.of_nat (List.length path);
                        xr_mfe := if dlt mfe dzero then dzero else mfe; xr_mae := if dgt mae dzero then dzero else mae |}.

(** * analytics/alpha_beta.py *)

Record AlphaBetaMetrics := {
  ab_benchmark_identity : string; ab_frequency : string; ab_observation_count : Z; ab_alpha : option decimal; ab_beta : option decimal;
}.

Definition mk_AlphaBetaMetrics (m : AlphaBetaMetrics) : res AlphaBetaMetrics :=
  refuse_risk (String.eqb (ab_benchmark_identity m) "") "benchmark_identity must be a non-empty string" ;!
  refuse_risk (String.eqb (ab_frequency m) "") "frequency must be a non-empty string" ;!
  refuse_risk (ab_observation_count m <? 0) "observation_count must be a non-negative int" ;!
  refuse_risk (xorb (is_none (ab_alpha m)) (is_none (ab_beta m)))
    "alpha and beta must be None together (both defined or both undefined)" ;!
  Ok m.

Definition alpha_and_beta (portfolio benchmark : list decimal) (rate : decimal) : res (option decimal * option decimal) :=
  let n := List.length portfolio in
  if (n <? 2)%nat then Ok (None, None)
  else
    let count := dec_of_Z (Z.of_nat n) in
    let! mean_p := ddiv (dsum portfolio) count in
    let! mean_b := ddiv (dsum benchmark) count in
    let! covariance := ddiv (dsum (zip_with (fun p b => dmul (dsub p mean_p) (dsub b mean_b)) portfolio benchmark)) count in
    let! variance_b := ddiv (dsum ((fun b => let d := dsub b mean_b in dmul d d) <$> benchmark)) count in
    if deq variance_b dzero then Ok (None, None)
    else
      let! beta := ddiv covariance variance_b in
      Ok (Some (dsub (dsub mean_p rate) (dmul beta (dsub mean_b rate))), Some beta).

Definition compute_alpha_beta (portfolio benchmark : list decimal) (rate : decimal) (benchmark_identity frequency : string)
    : res AlphaBetaMetrics :=
  refuse_risk (negb (List.length portfolio =? List.length benchmark)%nat)
    ("portfolio and benchmark must be aligned (got " +:+ str_Z (Z.of_nat (List.length portfolio)) +:+ " vs "
     +:+ str_Z (Z.of_nat (List.length benchmark)) +:+ ")") ;!
  refuse_risk (dlt rate dzero) "risk_free_rate_per_period must be a non-negative finite Decimal" ;!
  refuse_risk (String.eqb benchmark_identity "") "benchmark_identity must be a non-empty string" ;!
  refuse_risk (String.eqb frequency "") "frequency must be a non-empty string" ;!
  let! ab := alpha_and_beta portfolio benchmark rate in
  mk_AlphaBetaMetrics {| ab_benchmark_identity := benchmark_identity; ab_frequency := frequency;
                         ab_observation_count := Z.of_nat (List.length portfolio); ab_alpha := fst ab; ab_beta := snd ab |}.

(** * analytics/cagr.py and analytics/advanced.py *)

Definition refuse_annual (b : bool) (msg : string) : res unit := raise_if b AnnualizationError msg.
Definition refuse_analytics (b : bool) (msg : string) : res unit := raise_if b AnalyticsError msg.

Record CagrResult := {
  cg_beginning_value : decimal; cg_ending_value : decimal; cg_total_return : decimal; cg_periods : Z; cg_periods_per_year : Z;
  cg_cagr : option decimal;
}.

Definition check_growth (beginning_value ending_value : decimal) (periods periods_per_year : Z) : res unit :=
  refuse_annual (dle beginning_value dzero) "beginning_value must be a positive finite Decimal" ;!
  refuse_annual (dle ending_value dzero) "ending_value must be a positive finite Decimal" ;!
  refuse_annual (periods <? 0) "periods must be non-negative" ;!
  refuse_annual (periods_per_year <? 1) "periods_per_year must be at least 1".

Definition mk_CagrResult (c : CagrResult) : res CagrResult :=
  refuse_annual (dle (cg_beginning_value c) dzero) "beginning_value must be a positive finite Decimal" ;!
  refuse_annual (dle (cg_ending_value c) dzero) "ending_value must be a positive finite Decimal" ;!
  refuse_annual (cg_periods_per_year c <? 1) "periods_per_year must be at least 1" ;!
  refuse_annual (cg_periods c <? 0) "periods must be non-negative" ;!
  Ok c.

Record AdvancedMetrics := {
  am_initial_equity : decimal; am_final_equity : decimal; am_total_return : decimal; am_period_count : Z; am_periods_per_year : Z;
  am_confidence : decimal; am_cagr : option CagrResult; am_var_cvar : option VarCvarMetrics; am_alpha_beta : option AlphaBetaMetrics;
}.

Definition mk_AdvancedMetrics (m : AdvancedMetrics) : res AdvancedMetrics :=
  refuse_analytics (dle (am_initial_equity m) dzero) "initial_equity must be a positive finite Decimal" ;!
  refuse_analytics (dle (am_final_equity m) dzero) "final_equity must be a positive finite Decimal" ;!
  refuse_analytics (am_period_count m <? 0) "period_count must be a non-negative int" ;!
  refuse_analytics (am_periods_per_year m <? 1) "periods_per_year must be at least 1" ;!
  refuse_analytics (negb (in_unit_interval (am_confidence m))) "confidence must be in the open interval (0, 1)" ;!
  Ok m.

Definition require_positive_curve (curve : list EquityPoint) : res unit :=
  refuse_analytics (existsb (fun p => dle (ep_equity p) dzero) curve) "marked equity must stay positive to compute advanced metrics".

(** The natural logarithm of a positive number and the exponential, as
    [Decimal.ln] and [Decimal.exp] compute them. *)
Section growth.
Context (ln exp : decimal -> decimal).

Definition compute_cagr (beginning_value ending_value : decimal) (periods periods_per_year : Z) : res CagrResult :=
  check_growth beginning_value ending_value periods periods_per_year ;!
  let! ratio := ddiv ending_value beginning_value in
  let total_return := dsub ratio (dec_of_Z 1) in
  let! cagr := if periods <=? 0 then Ok None
               else let! exponent := ddiv (dec_of_Z periods_per_year) (dec_of_Z periods) in
                    Ok (Some (dsub (exp (dmul (ln ratio) exponent)) (dec_of_Z 1))) in
  mk_CagrResult {| cg_beginning_value := beginning_value; cg_ending_value := ending_value; cg_total_return := total_return;
                   cg_periods := periods; cg_periods_per_year := periods_per_year; cg_cagr := cagr |}.

Definition compute_advanced_metrics (run : BacktestRun) (rate : decimal) (periods_per_year : Z) (confidence : decimal)
    (benchmark_returns : option (list decimal)) (benchmark_identity frequency : option string) : res AdvancedMetrics :=
  refuse_analytics (dlt rate dzero) "risk_free_rate_per_period must be a non-negative finite Decimal" ;!
  refuse_analytics (periods_per_year <? 1) "periods_per_year must be at least 1" ;!
  refuse_analytics (negb (in_unit_interval confidence)) "confidence must be in the open interval (0, 1)" ;!
  let curve := br_equity_curve run in
  require_positive_curve curve ;!
  let! returns := compute_period_returns curve in
  let values := rp_value <$> returns in
  let count := Z.of_nat (List.length values) in
  match head curve, last curve with
  | Some start, Some end_ =>
      let! cagr := compute_cagr (ep_equity start) (ep_equity end_) count periods_per_year in
      let! var_cvar := compute_var_cvar values confidence in
      let! alpha_beta := match benchmark_returns with
                         | None => Ok None
                         | Some benchmark =>
                             match benchmark_identity, frequency with
                             | Some identity, Some freq => let! m := compute_alpha_beta values benchmark rate identity freq in Ok (Some m)
                             | _, _ => raise AnalyticsError "benchmark_identity and frequency are required when benchmark_returns is provided"
                             end
                         end in
      mk_AdvancedMetrics {| am_initial_equity := ep_equity start; am_final_equity := ep_equity end_; am_total_return := cg_total_return cagr;
                            am_period_count := count; am_periods_per_year := periods_per_year; am_confidence := confidence;
                            am_cagr := Some cagr; am_var_cvar := var_cvar; am_alpha_beta := alpha_beta |}
  | _, _ => raise IndexError "tuple index out of range"
  end.

End growth.

(** * Properties *)

Lemma in_unit_interval_spec c : in_unit_interval c = true <-> (0 < dval c < 1)%Q.
Proof.
  unfold in_unit_interval. rewrite andb_true_iff, !dlt_spec, dval_zero. pose proof (dval_of_Z 1) as H. change (inject_Z 1) with 1%Q in H.
  by rewrite H.
Qed.

Lemma clamp_loss_nonneg x : dlt (clamp_loss x) dzero = false.
Proof. unfold clamp_loss. by destruct (dlt x dzero) eqn:E. Qed.

Lemma dfloor_le d z : (dval d <= inject_Z z)%Q -> dfloor d <= z.
Proof.
  unfold dfloor, dval. intros H. destruct (Z.leb_spec 0 (dexp d)) as [He|He].
  - rewrite pow10_Z in H by done. rewrite <- inject_Z_mult, <- Zle_Qle in H. done.
  - assert (0 < 10 ^ (- dexp d)) as Hp by lia. apply (Zmult_le_reg_r _ _ (10 ^ (- dexp d))); [lia|].
    assert (dz d <= z * 10 ^ (- dexp d)) as Hz.
    { rewrite Zle_Qle, inject_Z_mult, <- pow10_Z by lia.
      assert (inject_Z (dz d) == inject_Z (dz d) * pow10 (dexp d) * pow10 (- dexp d))%Q as ->.
      { rewrite <- Qmult_assoc, <- pow10_add. replace (dexp d + - dexp d) with 0 by lia. change (pow10 0) with 1%Q. ring. }
      apply Qmult_le_compat_r; [done|]. apply Qlt_le_weak, pow10_pos. }
    pose proof (Z.mul_div_le (dz d) (10 ^ (- dexp d)) ltac:(lia)). nia.
Qed.

(** The tail is not empty and not longer than the sample. *)
Lemma tail_count_bounds confidence n : (0 < dval confidence < 1)%Q -> (0 < n)%nat -> Z.of_nat n < 10 ^ 28 ->
  1 <= tail_count confidence n <= Z.of_nat n.
Proof.
  intros Hc Hn Hb. unfold tail_count. split; [lia|]. apply Z.max_lub; [lia|]. apply dfloor_le. rewrite <- dval_of_Z.
  assert (representable (dec_of_Z (Z.of_nat n))) as Hr by (split; cbn; [apply Z.ltb_ge; lia|lia]).
  assert (0 < dval (dec_of_Z (Z.of_nat n)))%Q as Hp by (apply count_pos; lia).
  pose proof (dval_of_Z 1) as H1. change (inject_Z 1) with 1%Q in H1.
  assert (0 <= dval (dsub (dec_of_Z 1) confidence))%Q as H0 by (apply dsub_nonneg; lra).
  assert (dval (dsub (dec_of_Z 1) confidence) <= 1)%Q as Hle.
  { rewrite <- H1. unfold dsub. apply dadd_le_repr; [apply one_representable|..]; rewrite copy_negate_val; lra. }
  apply dmul_le_repr; [done|by apply Qmult_le_0_compat; [|apply Qlt_le_weak]|]. nra.
Qed.

(** Historical value at risk.  For a confidence strictly between 0 and 1 and a
    sample that is not empty, the tail holds between one and all of the returns;
    the reported return is the last one of the tail of the sorted sample, the
    losses are the negated quantile and the negated mean of the tail, clamped at
    zero.  The only error is the check of the result that the mean of the tail is
    no better than the quantile, which rounding can violate. *)
Theorem var_is_order_statistic returns confidence : (0 < dval confidence < 1)%Q -> returns <> [] ->
  Z.of_nat (List.length returns) < 10 ^ 28 ->
  exists sorted var_return mean, sorted ≡ₚ returns /\ StronglySorted (fun a b => (dval a <= dval b)%Q) sorted /\
    let k := tail_count confidence (List.length returns) in
    1 <= k <= Z.of_nat (List.length returns) /\ sorted !! Z.to_nat (k - 1) = Some var_return /\
    ddiv (dsum (take (Z.to_nat k) sorted)) (dec_of_Z k) = Ok mean /\
    compute_var_cvar returns confidence =
      if dlt (clamp_loss (dminus mean)) (clamp_loss (dminus var_return))
      then raise RiskMeasureError "cvar_loss must be at least var_loss (tail mean cannot beat its own worst point)"
      else Ok (Some {| vc_confidence := confidence; vc_method := "historical";
                       vc_observation_count := Z.of_nat (List.length returns); vc_var_return := var_return;
                       vc_var_loss := clamp_loss (dminus var_return); vc_cvar_loss := clamp_loss (dminus mean) |}).
Proof.
  intros Hc Hne Hb. assert (0 < List.length returns)%nat as Hn by (destruct returns; [done|cbn; lia]).
  pose proof (tail_count_bounds _ _ Hc Hn Hb) as Hk. set (k := tail_count confidence (List.length returns)) in *.
  pose proof (stable_sort_perm dle returns) as Hperm. set (sorted := stable_sort dle returns) in *.
  assert (List.length sorted = List.length returns) as Hlen by (by rewrite Hperm).
  destruct (lookup_lt_is_Some_2 sorted (Z.to_nat (k - 1))) as [v Hv]; [lia|].
  assert (List.length (take (Z.to_nat k) sorted) = Z.to_nat k) as Htail by (rewrite length_take; lia).
  destruct (ddiv_total (dsum (take (Z.to_nat k) sorted)) (dec_of_Z k)) as [mean Em]; [apply count_pos; lia|].
  exists sorted, v, mean. split; [done|]. split; [apply sort_sorted_dec|]. split; [done|]. split; [done|]. split; [done|].
  unfold compute_var_cvar, refuse_risk. rewrite (proj2 (in_unit_interval_spec confidence) Hc). cbn [negb raise_if rbind].
  destruct (Nat.eqb_spec (List.length returns) 0) as [|_]; [lia|]. fold sorted k. unfold value_at at 1. 
  rewrite Hv. cbn [rbind]. rewrite Htail, Z2Nat.id by lia. rewrite Em. cbn [rbind].
  unfold mk_VarCvarMetrics, refuse_risk. cbn [vc_confidence vc_method vc_observation_count vc_var_loss vc_cvar_loss].
  rewrite (proj2 (in_unit_interval_spec confidence) Hc), !clamp_loss_nonneg. rewrite (proj2 (Z.ltb_ge _ _)) by lia. cbn.
  by destruct (dlt (clamp_loss (dminus mean)) (clamp_loss (dminus v))).
Qed.

Lemma filter_twice {A} (p : A -> bool) l : List.filter p (List.filter p l) = List.filter p l.
Proof. induction l as [|x l IH]; [done|]. cbn. destruct (p x) eqn:E; cbn; [by rewrite E, IH|done]. Qed.

(** The window of a trade. *)
Definition in_window (entry exit : datetime) (p : ExcursionPoint) : bool :=
  (dt_instant entry <? dt_instant (xp_timestamp p)) && (dt_instant (xp_timestamp p) <=? dt_instant exit).

Lemma observe_path entry exit path : dt_aware entry = true -> dt_aware exit = true ->
  Forall (fun p => dt_aware (xp_timestamp p) = true) path -> forall acc,
  foldM (observe_point entry exit) acc path =
    Ok (acc.1 ++ (xp_high <$> List.filter (in_window entry exit) path), acc.2 ++ (xp_low <$> List.filter (in_window entry exit) path)).
Proof.
  intros He Hx. induction 1 as [|p path Hp Hpath IH]; intros [h l]; [cbn; by rewrite !app_nil_r|]. cbn [foldM List.filter].
  assert (observe_point entry exit (h, l) p = Ok (if in_window entry exit p then (h ++ [xp_high p], l ++ [xp_low p]) else (h, l))) as ->.
  { unfold observe_point, observed, dt_le, dt_gt, dt_cmp, dt_comparable, in_window, dt_aware in *.
    destruct (dt_offset entry), (dt_offset exit), (dt_offset (xp_timestamp p)); try done. cbn [rbind].
    destruct (Z.leb_spec (dt_instant (xp_timestamp p)) (dt_instant entry)), (Z.ltb_spec (dt_instant entry) (dt_instant (xp_timestamp p)));
      try lia; cbn [rbind andb]; [done|].
    destruct (Z.gtb_spec (dt_instant (xp_timestamp p)) (dt_instant exit)), (Z.leb_spec (dt_instant (xp_timestamp p)) (dt_instant exit)); try lia; done. }
  cbn [rbind]. destruct (in_window entry exit p); rewrite IH; cbn; [by rewrite <- !app_assoc|done].
Qed.

(** Excursions look at the trade only: over valid points the computation always
    succeeds, with a favourable excursion that is not negative and an adverse one
    that is not positive, and both are those of the points strictly after the
    entry and not after the exit.  The count it reports is of the whole path. *)
Theorem excursions_within_trade side entry exit entry_price exit_price path : dt_aware entry = true -> dt_aware exit = true ->
  dt_instant entry <= dt_instant exit -> (0 < dval entry_price)%Q -> (0 < dval exit_price)%Q ->
  Forall (fun p => dt_aware (xp_timestamp p) = true) path ->
  exists r r', compute_excursions side entry exit entry_price exit_price path = Ok r /\
    compute_excursions side entry exit entry_price exit_price (List.filter (in_window entry exit) path) = Ok r' /\
    xr_mfe r = xr_mfe r' /\ xr_mae r = xr_mae r' /\ (0 <= dval (xr_mfe r))%Q /\ (dval (xr_mae r) <= 0)%Q /\
    xr_observation_count r = Z.of_nat (List.length path).
Proof.
  intros He Hx Hle Hp1 Hp2 Hpath.
  assert (forall path, Forall (fun p => dt_aware (xp_timestamp p) = true) path ->
    exists r, compute_excursions side entry exit entry_price exit_price path = Ok r /\
      xr_observation_count r = Z.of_nat (List.length path) /\ (0 <= dval (xr_mfe r))%Q /\ (dval (xr_mae r) <= 0)%Q /\
      forall path', List.filter (in_window entry exit) path' = List.filter (in_window entry exit) path ->
        Forall (fun p => dt_aware (xp_timestamp p) = true) path' -> forall r',
        compute_excursions side entry exit entry_price exit_price path' = Ok r' -> xr_mfe r' = xr_mfe r /\ xr_mae r' = xr_mae r) as H.
  { clear path Hpath. intros path Hpath. unfold compute_excursions, refuse_excursion. rewrite He, Hx, (dt_gt_aware _ _ He Hx), (positive_not_le _ Hp1),
      (positive_not_le _ Hp2). replace (_ >? _) with false by lia. cbn [negb raise_if rbind].
    rewrite observe_path by done. cbn [rbind fst snd app].
    set (hs := xp_high <$> _). set (ls := xp_low <$> _).
    set (ms := match side with LONG => _ | SHORT => _ end). destruct ms as [mfe mae] eqn:Ems.
    assert (dlt (if dlt mfe dzero then dzero else mfe) dzero = false) as Hm1 by (by destruct (dlt mfe dzero) eqn:E).
    assert (dgt (if dgt mae dzero then dzero else mae) dzero = false) as Hm2 by (by destruct (dgt mae dzero) eqn:E).
    unfold mk_ExcursionResult, refuse_excursion. cbn [xr_entry_price xr_exit_price xr_observation_count xr_mfe xr_mae].
    rewrite (positive_not_le _ Hp1), (positive_not_le _ Hp2), Hm1, Hm2, (proj2 (Z.ltb_ge _ _)) by lia. cbn [raise_if rbind].
    eexists. split; [done|]. cbn [xr_observation_count xr_mfe xr_mae]. apply dlt_false in Hm1. unfold dgt in Hm2 at 1. apply dlt_false in Hm2.
    rewrite dval_zero in Hm1, Hm2. split_and!; [done..|]. intros path' Hf Hp' r'. rewrite observe_path by done. cbn [rbind fst snd app].
    rewrite Hf. fold hs ls ms. rewrite Ems. unfold mk_ExcursionResult, refuse_excursion. intros Hr. res_inv. done. }
  assert (Forall (fun p => dt_aware (xp_timestamp p) = true) (List.filter (in_window entry exit) path)) as Hwin.
  { rewrite Forall_forall in Hpath |- *. intros p [Hp _]%list_elem_of_In%filter_In. by apply Hpath, list_elem_of_In. }
  destruct (H path Hpath) as (r & E & Hn & Hm1 & Hm2 & Hsame). destruct (H _ Hwin) as (r' & E' & _).
  exists r, r'. destruct (Hsame _ (filter_twice _ _) Hwin r' E') as [-> ->]. done.
Qed.

Lemma alpha_and_beta_total portfolio benchmark rate : exists o, alpha_and_beta portfolio benchmark rate = Ok o /\
  xorb (is_none o.1) (is_none o.2) = false /\ ((List.length portfolio < 2)%nat -> o = (None, None)).
Proof.
  unfold alpha_and_beta. destruct (Nat.ltb_spec (List.length portfolio) 2) as [H|H]; [by exists (None, None)|].
  assert (0 < dval (dec_of_Z (Z.of_nat (List.length portfolio))))%Q as Hc by (apply count_pos; lia).
  destruct (ddiv_total (dsum portfolio) _ Hc) as [mean_p ->]. cbn [rbind]. destruct (ddiv_total (dsum benchmark) _ Hc) as [mean_b ->].
  cbn [rbind]. match goal with |- context [ddiv (dsum (zip_with ?f portfolio benchmark)) _] =>
    destruct (ddiv_total (dsum (zip_with f portfolio benchmark)) _ Hc) as [cov ->] end.
  cbn [rbind]. match goal with |- context [ddiv (dsum (?f <$> benchmark)) _] =>
    destruct (ddiv_total (dsum (f <$> benchmark)) _ Hc) as [var Ev]; rewrite Ev end. cbn [rbind].
  assert (0 <= dval var)%Q as Hv.
  { apply (ddiv_nonneg _ _ _ Ev); [|done]. apply dsum_nonneg, Forall_fmap, Forall_forall. intros b _. apply dmul_square. }
  destruct (deq var dzero) eqn:E; [exists (None, None); split_and!; try done; lia|]. apply deq_false in E. rewrite dval_zero in E.
  destruct (ddiv_total cov var) as [beta ->]; [|cbn; eexists; split_and!; [done|done|lia]].
  destruct (Qlt_le_dec 0 (dval var)) as [|Hle]; [done|]. exfalso. apply E. by apply Qle_antisym.
Qed.

Section advanced.
Context (ln exp : decimal -> decimal).

(** A growth rate is defined exactly when some period has passed. *)
Lemma cagr_total b e periods per_year : (0 < dval b)%Q -> (0 < dval e)%Q -> 0 <= periods -> 1 <= per_year ->
  exists c, compute_cagr ln exp b e periods per_year = Ok c /\ (is_Some (cg_cagr c) <-> 0 < periods).
Proof.
  intros Hb He Hp Hy. unfold compute_cagr, check_growth, refuse_annual. rewrite (positive_not_le _ Hb), (positive_not_le _ He).
  rewrite (proj2 (Z.ltb_ge _ _) Hp), (proj2 (Z.ltb_ge _ _) Hy). cbn [raise_if rbind].
  destruct (ddiv_total e b Hb) as [ratio ->]. cbn [rbind].
  assert (exists o, (if periods <=? 0 then Ok None else let! exponent := ddiv (dec_of_Z per_year) (dec_of_Z periods) in
    Ok (Some (dsub (exp (dmul (ln ratio) exponent)) (dec_of_Z 1)))) = Ok o /\ (is_Some o <-> 0 < periods)) as (o & -> & Ho).
  { destruct (Z.leb_spec periods 0); [exists None; split; [done|split; [by intros []|lia]]|].
    destruct (ddiv_total (dec_of_Z per_year) (dec_of_Z periods)) as [x ->]; [by apply count_pos|]. cbn. eexists. split; [done|]. by split; eauto. }
  cbn [rbind]. unfold mk_CagrResult, refuse_annual. cbn [cg_beginning_value cg_ending_value cg_periods cg_periods_per_year].
  rewrite (positive_not_le _ Hb), (positive_not_le _ He), (proj2 (Z.ltb_ge _ _) Hp), (proj2 (Z.ltb_ge _ _) Hy). cbn. by eexists.
Qed.

(** The advanced metrics of a reported run with positive equity, and no benchmark,
    exist whenever the value at risk does: the failure of its check is the only one. *)
Theorem advanced_metrics_defined inputs intents cm capital run rate per_year confidence : reported inputs intents cm capital run ->
  equity_positive (br_equity_curve run) -> (0 <= dval rate)%Q -> 1 <= per_year -> (0 < dval confidence < 1)%Q ->
  exists returns, period_returns (ep_equity <$> br_equity_curve run) = Ok returns /\
    match compute_var_cvar returns confidence with
    | Err e => compute_advanced_metrics ln exp run rate per_year confidence None None None = Err e
    | Ok v => exists m, compute_advanced_metrics ln exp run rate per_year confidence None None None = Ok m /\
        am_var_cvar m = v /\ am_period_count m = Z.of_nat (List.length returns) /\ am_alpha_beta m = None
    end.
Proof.
  intros R Hpos Hr Hy Hc. destruct (run_curve R) as (Hne & _ & Hok). specialize (Hok Hpos).
  destruct (return_points_spec _ Hok) as (ps & Eps & Er & _). exists (rp_value <$> ps). split; [done|].
  pose proof (proj2 (in_unit_interval_spec confidence) Hc) as Hu.
  assert (compute_advanced_metrics ln exp run rate per_year confidence None None None =
    match head (br_equity_curve run), last (br_equity_curve run) with
    | Some start, Some end_ => let! cagr := compute_cagr ln exp (ep_equity start) (ep_equity end_) (Z.of_nat (List.length (rp_value <$> ps))) per_year in
        let! v := compute_var_cvar (rp_value <$> ps) confidence in
        mk_AdvancedMetrics {| am_initial_equity := ep_equity start; am_final_equity := ep_equity end_; am_total_return := cg_total_return cagr;
          am_period_count := Z.of_nat (List.length (rp_value <$> ps)); am_periods_per_year := per_year; am_confidence := confidence;
          am_cagr := Some cagr; am_var_cvar := v; am_alpha_beta := None |}
    | _, _ => raise IndexError "tuple index out of range"
    end) as ->.
  { unfold compute_advanced_metrics, refuse_analytics, require_positive_curve, compute_period_returns.
    rewrite (nonneg_not_lt _ Hr), (proj2 (Z.ltb_ge _ _) Hy), Hu. cbn [raise_if rbind negb].
    pose proof (validate_curve_iff _ Hne) as Hv. rewrite decide_True in Hv by done. unfold refuse_analytics.
    assert (existsb (fun p => dle (ep_equity p) dzero) (br_equity_curve run) = false) as ->.
    { unfold validate_equity_curve in Hv. destruct (br_equity_curve run); [done|]. cbn [refuse_report raise_if rbind] in Hv. by destruct (existsb _ _). }
    cbn [raise_if rbind]. rewrite Hv. cbn [rbind]. rewrite Eps. done. }
  destruct (head (br_equity_curve run)) as [start|] eqn:Hh; [|by destruct (br_equity_curve run)].
  destruct (last (br_equity_curve run)) as [end_|] eqn:Hl; [|by apply last_None in Hl].
  rewrite Forall_forall in Hok. destruct (Hok start) as [[_ Hs] _]; [destruct (br_equity_curve run); [done|]; cbn in Hh; simplify_eq; by left|].
  destruct (Hok end_) as [[_ He] _]; [by apply last_Some_elem_of|].
  destruct (cagr_total (ep_equity start) (ep_equity end_) (Z.of_nat (List.length (rp_value <$> ps))) per_year) as (c & -> & _); [done|done|lia|done|].
  cbn [rbind]. destruct (compute_var_cvar _ _) as [v|e]; [|done]. cbn [rbind]. unfold mk_AdvancedMetrics, refuse_analytics.
  cbn [am_initial_equity am_final_equity am_period_count am_periods_per_year am_confidence].
  rewrite (positive_not_le _ Hs), (positive_not_le _ He), (proj2 (Z.ltb_ge _ _) Hy), (proj2 (Z.ltb_ge _ _)) by lia. rewrite Hu. cbn. by eexists.
Qed.

End advanced.

(** * Examples *)

Module AnalyticsSamples.
Import BacktestSample.

Definition sample_returns : list decimal := [Dec false 2 (-2); Dec true 1 (-2); Dec true 3 (-2); Dec false 1 (-2)].

Lemma var_is_order_statistic_witness : exists sorted var_return mean, sorted ≡ₚ sample_returns /\
  sorted !! 1%nat = Some var_return /\ ddiv (dsum (take 2 sorted)) (dec_of_Z 2) = Ok mean.
Proof.
  destruct (var_is_order_statistic sample_returns (Dec false 5 (-1))) as (sorted & v & mean & Hp & _ & _ & Hv & Hm & _);
    [split; vm_compute; reflexivity|discriminate|vm_compute; reflexivity|]. exists sorted, v, mean. split_and!; [exact Hp|exact Hv|exact Hm].
Defined.

(** Three equal losses of 28 digits: their sum rounds down, so that the mean of
    the tail is smaller than each of them and the result refuses itself. *)
Example equal_losses_raise :
  let loss := Dec true 3333333333333333333333333334 (-28) in
  compute_var_cvar [loss; loss; loss; dzero] (Dec false 25 (-2))
  = raise RiskMeasureError "cvar_loss must be at least var_loss (tail mean cannot beat its own worst point)".
Proof. vm_compute. reflexivity. Qed.

(** The observations reported are those of the path, before the entry included. *)
Example observations_outside_counted :
  let p minute := {| xp_timestamp := at_ minute; xp_high := dec_of_Z 200; xp_low := dec_of_Z 1 |} in
  exists r, compute_excursions LONG (at_ 5) (at_ 6) (dec_of_Z 100) (dec_of_Z 100) [p 1; p 2; p 9] = Ok r /\
    xr_observation_count r = 3 /\ deq (xr_mfe r) dzero = true /\ deq (xr_mae r) dzero = true.
Proof. eexists. split_and!; vm_compute; reflexivity. Qed.

End AnalyticsSamples.
