(* ===== verification/Observability.v ===== *)
(** Domain events and observability: the event contract
    (src/packages/contracts/alpha_algo_contracts/events.py), the in-process bus
    (src/packages/events/alpha_algo_event_bus/bus.py) and, of
    src/packages/observability/alpha_algo_observability, error classes
    (errors.py), redaction (structured_log.py), metrics (metrics.py), alerts
    (alerts.py), the audit trail (audit.py), health (health.py) and tracing
    (tracing.py).

    Times and fresh identifiers are arguments.  Payloads are JSON values.  Python
    objects that are shared and changed in place (subscriptions, alerts) live in a
    store under their identity.  Floating-point amounts are rationals. *)

From stdpp Require Import base list gmap strings.
From Stdlib Require Import ZArith QArith Lia String Ascii.
From S2P Require Import Prelude PyBase Hashing Decimal DecimalText Json Tokens.
Open Scope Z_scope.

(** * contracts/events.py *)

Definition SENSITIVE_KEY_PARTS : list string :=
  ["password"; "passwd"; "token"; "secret"; "api_key"; "apikey"; "authorization"; "credential"; "private_key"; "refresh"; "cookie";
   "session_id"]%string.

Definition is_sensitive_key (key : string) : bool := existsb (fun part => py_in part (py_lower key)) SENSITIVE_KEY_PARTS.

Definition secret_error (key : string) : exn :=
  mk_exn DomainEventError ("payload key " +:+ py_repr key +:+ " is sensitive and not allowed in events").

(** [validate_no_secrets] of a payload; of a list only the items that are
    dictionaries themselves are looked into. *)
Fixpoint no_secrets (j : json) : res unit :=
  match j with
  | JObj l =>
      (fix members l := match l with
        | [] => Ok tt
        | (key, value) :: l' =>
            (if is_sensitive_key key then Err (secret_error key)
             else match value with
                  | JObj _ => no_secrets value
                  | JArr items => (fix each items := match items with
                      | [] => Ok tt
                      | item :: rest => (match item with JObj _ => no_secrets item | _ => Ok tt end) ;! each rest
                      end) items
                  | _ => Ok tt
                  end) ;! members l'
        end) l
  | _ => Ok tt
  end.

Definition validate_no_secrets (payload : list (string * json)) : res unit := no_secrets (JObj payload).

Record DomainEvent := {
  de_event_type : string;
  de_occurred_at : datetime;
  de_source : string;
  de_payload : list (string * json);
  de_event_id : UUID;
  de_correlation_id : option string;
  de_causation_id : option string;
  de_trace_id : option string;
  de_domain_ids : list (string * string);
}.

Definition lower_letter (c : ascii) : bool := let n := N_of_ascii c in ((97 <=? n) && (n <=? 122))%N.
Definition type_char (c : ascii) : bool :=
  let n := N_of_ascii c in lower_letter c || ((48 <=? n) && (n <=? 57) || (n =? 95) || (n =? 46))%N.

(** [^[a-z][a-z0-9_.]{0,127}$] *)
Definition type_text (s : string) : bool :=
  match s with String c s' => lower_letter c && str_all type_char s' && (String.length s' <=? 127)%nat | EmptyString => false end.

(** [$] matches before a final line break too. *)
Fixpoint drop_final_newline (s : string) : string :=
  match s with
  | EmptyString => ""
  | String c s' => if (N_of_ascii c =? 10)%N && String.eqb s' "" then "" else String c (drop_final_newline s')
  end.
Definition safe_event_type (s : string) : bool := type_text s || type_text (drop_final_newline s).

Definition mk_DomainEvent (e : DomainEvent) : res DomainEvent :=
  raise_if (negb (safe_event_type (de_event_type e))) DomainEventError
    "event_type must be a lowercase dotted string matching [a-z][a-z0-9_.]*" ;!
  raise_if (negb (dt_aware (de_occurred_at e))) DomainEventError "occurred_at must be timezone-aware" ;!
  raise_if (is_blank (de_source e)) DomainEventError "source must be a non-empty string" ;!
  validate_no_secrets (de_payload e) ;!
  raise_if (match de_causation_id e with Some c => String.eqb c (uuid_str (de_event_id e)) | None => false end) DomainEventError
    "causation_id cannot equal event_id (no self-causation)" ;!
  Ok e.

Definition event_to_dict (e : DomainEvent) : json :=
  JObj [("event_id", JStr (uuid_str (de_event_id e))); ("event_type", JStr (de_event_type e));
        ("occurred_at", JStr (isoformat (de_occurred_at e))); ("source", JStr (de_source e));
        ("correlation_id", json_opt_str (de_correlation_id e)); ("causation_id", json_opt_str (de_causation_id e));
        ("trace_id", json_opt_str (de_trace_id e)); ("domain_ids", JObj ((fun kv => (kv.1, JStr kv.2)) <$> de_domain_ids e));
        ("payload", JObj (de_payload e))]%string.

(** What [derive] may override. *)
Record Overrides := {
  ov_occurred_at : option datetime;
  ov_source : option string;
  ov_correlation_id : option (option string);
  ov_trace_id : option (option string);
  ov_domain_ids : option (list (string * string));
}.

Definition derive (parent : DomainEvent) (event_type : string) (payload : option (list (string * json))) (o : Overrides)
    (now : datetime) (event_id : UUID) : res DomainEvent :=
  mk_DomainEvent {|
    de_event_type := event_type; de_occurred_at := default now (ov_occurred_at o); de_source := default (de_source parent) (ov_source o);
    de_payload := default [] payload; de_event_id := event_id;
    de_correlation_id := default (de_correlation_id parent) (ov_correlation_id o);
    de_causation_id := Some (uuid_str (de_event_id parent)); de_trace_id := default (de_trace_id parent) (ov_trace_id o);
    de_domain_ids := default (de_domain_ids parent) (ov_domain_ids o) |}.

Definition create_event (event_type source : string) (payload : option (list (string * json)))
    (correlation_id causation_id trace_id : option string) (domain_ids : option (list (string * string))) (occurred_at : option datetime)
    (now : datetime) (event_id : UUID) : res DomainEvent :=
  mk_DomainEvent {|
    de_event_type := event_type; de_occurred_at := default now occurred_at; de_source := source; de_payload := default [] payload;
    de_event_id := event_id; de_correlation_id := correlation_id; de_causation_id := causation_id; de_trace_id := trace_id;
    de_domain_ids := default [] domain_ids |}.

(** * event_bus/bus.py *)

Definition WILDCARD : string := "*".

Record Subscription := { sb_topic : string; sb_handler : nat; sb_cancelled : bool }.
Record HandlerFailure := { hf_topic : string; hf_event_id : string; hf_event_type : string; hf_error : exn }.

Record EventBus := {
  eb_handlers : gmap string (list nat);       (* subscriptions of a topic, by identity, oldest first *)
  eb_subs : gmap nat Subscription;            (* the subscription objects *)
  eb_published : Z;
  eb_failures : list HandlerFailure;
}.

Definition empty_bus : EventBus := {| eb_handlers := ∅; eb_subs := ∅; eb_published := 0; eb_failures := [] |}.

(** [Subscription.__eq__]: all fields ([bus] is the same here) *)
Definition sub_eqb (a b : Subscription) : bool :=
  String.eqb (sb_topic a) (sb_topic b) && (sb_handler a =? sb_handler b)%nat && Bool.eqb (sb_cancelled a) (sb_cancelled b).

Definition subscribe (topic : string) (handler : nat) : M EventBus nat := fun b =>
  if is_blank topic then (raise ValueError "topic must be a non-empty string", b)
  else
    let id := fresh (dom (eb_subs b)) in
    (Ok id, {| eb_handlers := <[ topic := default [] (eb_handlers b !! topic) ++ [id] ]> (eb_handlers b);
               eb_subs := <[ id := {| sb_topic := topic; sb_handler := handler; sb_cancelled := false |} ]> (eb_subs b);
               eb_published := eb_published b; eb_failures := eb_failures b |}).

(** Is the object [id] equal to [s]? *)
Definition equals_sub (b : EventBus) (s : Subscription) (id : nat) : bool :=
  match eb_subs b !! id with Some s' => sub_eqb s' s | None => false end.

(** [subs.remove(subscription)]: the first equal element *)
Fixpoint remove_first (p : nat -> bool) (l : list nat) : list nat :=
  match l with [] => [] | x :: l' => if p x then l' else x :: remove_first p l' end.

Definition unsubscribe (id : nat) : M EventBus unit := fun b =>
  match eb_subs b !! id with
  | None => (Ok tt, b)
  | Some s =>
      let subs := default [] (eb_handlers b !! sb_topic s) in
      if existsb (equals_sub b s) subs then
        (Ok tt, {| eb_handlers := <[ sb_topic s := remove_first (equals_sub b s) subs ]> (eb_handlers b);
                   eb_subs := <[ id := {| sb_topic := sb_topic s; sb_handler := sb_handler s; sb_cancelled := true |} ]> (eb_subs b);
                   eb_published := eb_published b; eb_failures := eb_failures b |})
      else (Ok tt, b)
  end.

Definition matching_subs (b : EventBus) (event_type : string) : list nat :=
  default [] (eb_handlers b !! event_type) ++ default [] (eb_handlers b !! WILDCARD).

Definition handler_count (topic : option string) (b : EventBus) : nat :=
  match topic with
  | Some t => List.length (default [] (eb_handlers b !! t))
  | None => map_fold (fun _ l n => (List.length l + n)%nat) 0%nat (eb_handlers b)
  end.

Definition with_failures (f : list HandlerFailure) (b : EventBus) : EventBus :=
  {| eb_handlers := eb_handlers b; eb_subs := eb_subs b; eb_published := eb_published b; eb_failures := f |}.
Definition clear_failures : M EventBus unit := modify (with_failures []).
Definition bus_reset : M EventBus unit := modify (fun b =>
  {| eb_handlers := ∅; eb_subs := eb_subs b; eb_published := 0; eb_failures := [] |}).

(** Publishing, in a world that holds the bus: the handlers may do anything to
    it, the bus included. *)
Section Publish.
Context {W : Type} (get_bus : W -> EventBus) (set_bus : EventBus -> W -> W) (run : nat -> DomainEvent -> M W unit).

Definition failure_of (s : Subscription) (event : DomainEvent) (e : exn) : HandlerFailure :=
  {| hf_topic := sb_topic s; hf_event_id := uuid_str (de_event_id event); hf_event_type := de_event_type event; hf_error := e |}.

Fixpoint dispatch (event : DomainEvent) (subs : list nat) (invoked : Z) : M W Z := fun w =>
  match subs with
  | [] => (Ok invoked, w)
  | id :: rest =>
      match eb_subs (get_bus w) !! id with
      | None => dispatch event rest invoked w
      | Some s =>
          if sb_cancelled s then dispatch event rest invoked w
          else
            match run (sb_handler s) event w with
            | (Ok _, w') => dispatch event rest (invoked + 1) w'
            | (Err e, w') =>
                if isinstance e Exception then
                  let b := get_bus w' in
                  dispatch event rest (invoked + 1) (set_bus (with_failures (eb_failures b ++ [failure_of s event e]) b) w')
                else (Err e, w')
            end
      end
  end.

Definition publish (event : DomainEvent) : M W Z := fun w =>
  let b := get_bus w in
  let subs := matching_subs b (de_event_type event) in
  dispatch event subs 0 (set_bus {| eb_handlers := eb_handlers b; eb_subs := eb_subs b; eb_published := eb_published b + 1;
                                    eb_failures := eb_failures b |} w).

Fixpoint publish_many (events : list DomainEvent) : M W Z :=
  match events with
  | [] => ret 0
  | e :: rest => let* n := publish e in let* m := publish_many rest in ret (n + m)
  end.
End Publish.

(** * observability/errors.py *)

Inductive ObsFailure :=
| of_AUTHENTICATION_FAILURE | of_AUTHORIZATION_FAILURE | of_VALIDATION_FAILURE | of_TIMEOUT | of_RATE_LIMIT | of_DATABASE_ERROR
| of_BROKER_ERROR | of_NETWORK_ERROR | of_PROVIDER_UNAVAILABLE | of_STATE_CONFLICT | of_UNKNOWN.

Definition STATUS_MAP : list (Z * ObsFailure) :=
  [(401, of_AUTHENTICATION_FAILURE); (403, of_AUTHORIZATION_FAILURE); (422, of_VALIDATION_FAILURE); (429, of_RATE_LIMIT);
   (503, of_PROVIDER_UNAVAILABLE); (504, of_TIMEOUT); (408, of_TIMEOUT); (409, of_STATE_CONFLICT)].

Definition CODE_MAP : list (string * ObsFailure) :=
  [("auth", of_AUTHENTICATION_FAILURE); ("forbidden", of_AUTHORIZATION_FAILURE); ("permission", of_AUTHORIZATION_FAILURE);
   ("validation", of_VALIDATION_FAILURE); ("rate", of_RATE_LIMIT); ("timeout", of_TIMEOUT); ("database", of_DATABASE_ERROR);
   ("db_", of_DATABASE_ERROR); ("broker", of_BROKER_ERROR); ("network", of_NETWORK_ERROR); ("provider", of_PROVIDER_UNAVAILABLE);
   ("unavailable", of_PROVIDER_UNAVAILABLE); ("conflict", of_STATE_CONFLICT); ("duplicate", of_STATE_CONFLICT)]%string.

Fixpoint status_lookup (l : list (Z * ObsFailure)) (status : Z) : option ObsFailure :=
  match l with [] => None | (k, f) :: l' => if k =? status then Some f else status_lookup l' status end.

Fixpoint code_lookup (l : list (string * ObsFailure)) (lowered : string) : option ObsFailure :=
  match l with [] => None | (fragment, f) :: l' => if py_in fragment lowered then Some f else code_lookup l' lowered end.

Definition classify_status_code (status : Z) : ObsFailure :=
  if 500 <=? status then default of_PROVIDER_UNAVAILABLE (status_lookup STATUS_MAP status)
  else default of_UNKNOWN (status_lookup STATUS_MAP status).

(** An exception, as [classify_error] sees it: its class name and the attributes
    [status_code] and [code], where they are set to an [int] or a [str]. *)
Record ErrorView := { ev_class : string; ev_status_code : option (Z + string); ev_code : option (Z + string) }.

Definition attr_class (v : option (Z + string)) : option ObsFailure :=
  match v with
  | Some (inl z) => Some (classify_status_code z)
  | Some (inr s) => code_lookup CODE_MAP (py_lower s)
  | None => None
  end.

Definition classify_error (error : option ErrorView) (code : option string) (status_code : option Z) : ObsFailure :=
  match status_code with
  | Some s => classify_status_code s
  | None =>
      match match code with
            | Some c => if String.eqb c "" then None else code_lookup CODE_MAP (py_lower c)
            | None => None
            end with
      | Some f => f
      | None =>
          match error with
          | None => of_UNKNOWN
          | Some e =>
              let name := py_lower (ev_class e) in
              let has part := py_in part name in
              if has "timeout" then of_TIMEOUT
              else if has "broker" then of_BROKER_ERROR
              else if has "database" || has "db" then of_DATABASE_ERROR
              else if has "network" || has "connection" then of_NETWORK_ERROR
              else if has "validation" then of_VALIDATION_FAILURE
              else if has "conflict" || has "duplicate" then of_STATE_CONFLICT
              else match attr_class (ev_status_code e) with
                   | Some f => f
                   | None => default of_UNKNOWN (attr_class (ev_code e))
                   end
          end
      end
  end%string.

(** * observability/structured_log.py *)

Definition REDACTED : json := JStr "[REDACTED]".

Fixpoint redact (value : json) : json :=
  match value with
  | JObj l => JObj (List.map (fun kv => (kv.1, if is_sensitive_key kv.1 then REDACTED else redact kv.2)) l)
  | JArr l => JArr (List.map redact l)
  | v => v
  end.

Definition sanitize_fields (fields : list (string * json)) : list (string * json) :=
  List.map (fun kv => (kv.1, if is_sensitive_key kv.1 then REDACTED else redact kv.2)) fields.

(** [payload] of [StructuredLogger._emit]: defaults, fields, service, event *)
Definition emit_payload (service : string) (default_fields fields : list (string * json)) (event : string) : list (string * json) :=
  let payload := foldl (fun d kv => dict_set kv.1 kv.2 d) (dict_of default_fields) fields in
  let payload := if negb (String.eqb service "") && negb (existsb (fun kv => String.eqb kv.1 "service") payload)
                 then payload ++ [("service"%string, JStr service)] else payload in
  sanitize_fields (dict_set "event" (JStr event) payload).

(** * observability/metrics.py *)

Definition MAX_LABEL_VALUE_LENGTH : nat := 128.

Definition resolve_labels (spec : list string) (labels : list (string * string)) : res (list string) :=
  let value k := snd <$> (snd <$> list_find (fun kv => kv.1 = k) labels) in
  raise_if (existsb (fun kv => negb (existsb (String.eqb kv.1) spec)) labels) CardinalityError "unknown label(s)" ;!
  match mapM value spec with
  | None => raise CardinalityError "missing label(s)"
  | Some values =>
      raise_if (existsb (fun v => (MAX_LABEL_VALUE_LENGTH <? String.length v)%nat) values) CardinalityError "label value exceeds 128 chars" ;!
      Ok values
  end.

Record HistogramSeries := { hs_counts : list Z; hs_total : Q; hs_count : Z }.

(** [bisect.bisect_right(buckets, value)] of sorted buckets *)
Definition bisect_right (buckets : list Q) (value : Q) : nat := List.length (List.filter (fun b => Qle_bool b value) buckets).

Definition new_series (buckets : list Q) : HistogramSeries :=
  {| hs_counts := replicate (S (List.length buckets)) 0; hs_total := 0; hs_count := 0 |}.

Definition hs_observe (buckets : list Q) (value : Q) (s : HistogramSeries) : HistogramSeries :=
  {| hs_counts := alter (Z.add 1) (bisect_right buckets value) (hs_counts s); hs_total := (hs_total s + value)%Q; hs_count := hs_count s + 1 |}.

Inductive MetricKind := mk_counter | mk_gauge | mk_histogram (buckets : list Q).

(** A family: counters and gauges have one number per key, histograms a series. *)
Record MetricFamily := {
  mf_name : string;
  mf_description : string;
  mf_labels : list string;
  mf_kind : MetricKind;
  mf_values : gmap (list string) Q;
  mf_series : gmap (list string) HistogramSeries;
}.

Fixpoint insert_q (q : Q) (l : list Q) : list Q :=
  match l with [] => [q] | x :: l' => if Qle_bool q x then q :: l else x :: insert_q q l' end.

Definition new_family (name description : string) (labels : list string) (kind : MetricKind) : MetricFamily :=
  {| mf_name := name; mf_description := description; mf_labels := labels;
     mf_kind := match kind with mk_histogram b => mk_histogram (foldr insert_q [] b) | k => k end; mf_values := ∅; mf_series := ∅ |}.

Definition with_values (v : gmap (list string) Q) (m : MetricFamily) : MetricFamily :=
  {| mf_name := mf_name m; mf_description := mf_description m; mf_labels := mf_labels m; mf_kind := mf_kind m; mf_values := v; mf_series := mf_series m |}.
Definition with_series (v : gmap (list string) HistogramSeries) (m : MetricFamily) : MetricFamily :=
  {| mf_name := mf_name m; mf_description := mf_description m; mf_labels := mf_labels m; mf_kind := mf_kind m; mf_values := mf_values m; mf_series := v |}.

(** [Counter.inc], [Gauge.inc] *)
Definition family_inc (amount : Q) (labels : list (string * string)) : M MetricFamily unit := fun m =>
  match resolve_labels (mf_labels m) labels with
  | Err e => (Err e, m)
  | Ok key => (Ok tt, with_values (<[ key := (default 0 (mf_values m !! key) + amount)%Q ]> (mf_values m)) m)
  end.
Definition gauge_dec (amount : Q) (labels : list (string * string)) : M MetricFamily unit := family_inc (- amount)%Q labels.
Definition gauge_set (value : Q) (labels : list (string * string)) : M MetricFamily unit := fun m =>
  match resolve_labels (mf_labels m) labels with
  | Err e => (Err e, m)
  | Ok key => (Ok tt, with_values (<[ key := value ]> (mf_values m)) m)
  end.
Definition family_get (labels : list (string * string)) (m : MetricFamily) : res Q :=
  let! key := resolve_labels (mf_labels m) labels in Ok (default 0%Q (mf_values m !! key)).

Definition buckets_of (m : MetricFamily) : list Q := match mf_kind m with mk_histogram b => b | _ => [] end.

Definition histogram_observe (value : Q) (labels : list (string * string)) : M MetricFamily unit := fun m =>
  match resolve_labels (mf_labels m) labels with
  | Err e => (Err e, m)
  | Ok key =>
      let s := default (new_series (buckets_of m)) (mf_series m !! key) in
      (Ok tt, with_series (<[ key := hs_observe (buckets_of m) value s ]> (mf_series m)) m)
  end.

(** The registry: families by name, in order of registration. *)
Definition Registry : Type := list (string * MetricFamily).

Definition same_kind (a b : MetricKind) : bool :=
  match a, b with mk_counter, mk_counter | mk_gauge, mk_gauge | mk_histogram _, mk_histogram _ => true | _, _ => false end.

(** [register]: the name under which the family is found *)
Definition register (m : MetricFamily) : M Registry MetricFamily := fun r =>
  match list_find (fun kv => kv.1 = mf_name m) r with
  | Some (_, (_, existing)) =>
      if same_kind (mf_kind existing) (mf_kind m) then (Ok existing, r)
      else (raise ValueError ("metric " +:+ py_repr (mf_name m) +:+ " already registered with a different type"), r)
  | None => (Ok m, r ++ [(mf_name m, m)])
  end.

(** * observability/health.py *)

Inductive HealthStatus := hh_OK | hh_DEGRADED | hh_UNAVAILABLE | hh_UNKNOWN.
#[export] Instance HealthStatus_eq_dec : EqDecision HealthStatus.
Proof. solve_decision. Defined.

Record DependencyStatus := { dp_name : string; dp_status : HealthStatus; dp_optional : bool; dp_detail : string }.
Record HealthSnapshot := { sn_status : HealthStatus; sn_dependencies : list (string * DependencyStatus); sn_trading_safety : list (string * bool) }.

Record HealthRegistry := { hr_checks : list (string * res DependencyStatus); hr_safety : list (string * bool) }.

(** [d[name] = v] *)
Fixpoint assoc_set {A} (name : string) (v : A) (l : list (string * A)) : list (string * A) :=
  match l with
  | [] => [(name, v)]
  | (k, x) :: l' => if String.eqb k name then (name, v) :: l' else (k, x) :: assoc_set name v l'
  end.

(** A check is what calling it gives at the moment of the snapshot. *)
Definition health_register (name : string) (check : res DependencyStatus) (h : HealthRegistry) : HealthRegistry :=
  {| hr_checks := assoc_set name check (hr_checks h); hr_safety := hr_safety h |}.
Definition set_trading_safety (fields : list (string * bool)) (h : HealthRegistry) : HealthRegistry :=
  {| hr_checks := hr_checks h; hr_safety := foldl (fun d kv => assoc_set kv.1 kv.2 d) (hr_safety h) fields |}.

Definition aggregate_health (deps : list (string * DependencyStatus)) : HealthStatus :=
  let has p := existsb (fun d => p (snd d)) deps in
  match deps with
  | [] => hh_UNKNOWN
  | _ =>
      if has (fun d => bool_decide (dp_status d = hh_UNAVAILABLE) && negb (dp_optional d)) then hh_UNAVAILABLE
      else if has (fun d => bool_decide (dp_status d = hh_DEGRADED)) then hh_DEGRADED
      else if negb (has (fun d => negb (bool_decide (dp_status d = hh_UNKNOWN)))) then hh_UNKNOWN
      else hh_OK
  end.

Fixpoint run_checks (checks : list (string * res DependencyStatus)) : res (list (string * DependencyStatus)) :=
  match checks with
  | [] => Ok []
  | (name, check) :: rest =>
      let! d := match check with
                | Ok d => Ok d
                | Err e => if isinstance e Exception
                           then Ok {| dp_name := name; dp_status := hh_UNAVAILABLE; dp_optional := false; dp_detail := exn_msg e |}
                           else Err e
                end in
      let! ds := run_checks rest in
      Ok ((name, d) :: ds)
  end.

Definition health_snapshot (h : HealthRegistry) : res HealthSnapshot :=
  let! deps := run_checks (hr_checks h) in
  Ok {| sn_status := aggregate_health deps; sn_dependencies := deps; sn_trading_safety := hr_safety h |}.

(** An operation on the registered object of that name. *)
Fixpoint on_family (name : string) (op : M MetricFamily unit) (r : Registry) : res unit * Registry :=
  match r with
  | [] => (Ok tt, [])
  | (k, m) :: r' =>
      if String.eqb k name then let '(x, m') := op m in (x, (k, m') :: r')
      else let '(x, r'') := on_family name op r' in (x, (k, m) :: r'')
  end.

(** [registry.counter(name, ...).inc(amount, labels)] *)
Definition counter_inc (name description : string) (spec : list string) (amount : Q) (labels : list (string * string)) : M Registry unit :=
  let* _ := register (new_family name description spec mk_counter) in
  on_family name (family_inc amount labels).

(** * observability/alerts.py *)

Inductive AlertSeverity := sv_CRITICAL | sv_HIGH | sv_WARNING | sv_INFO.
Inductive AlertState := al_DETECTED | al_ACTIVE | al_ACKNOWLEDGED | al_RESOLVED | al_ESCALATED.
#[export] Instance AlertState_eq_dec : EqDecision AlertState.
Proof. solve_decision. Defined.

Definition alert_identity (alert_type source scope condition : string) : string :=
  sha256_hex (String.concat "|" [alert_type; source; scope; condition]).

Record AlertTransition := { tn_from : option AlertState; tn_to : AlertState; tn_at : Z }.

Record Alert := {
  at_id : string;
  at_identity : string;
  at_type : string;
  at_severity : AlertSeverity;
  at_source : string;
  at_scope : string;
  at_condition : string;
  at_title : string;
  at_message : string;
  at_state : AlertState;
  at_incident_id : option string;
  at_correlation_id : option string;
  at_trace_id : option string;
  at_created_at : Z;
  at_updated_at : Z;
  at_transitions : list AlertTransition;
}.

Record AlertManager := { am_alerts : gmap string Alert; am_by_identity : gmap string string }.
Definition new_manager : AlertManager := {| am_alerts := ∅; am_by_identity := ∅ |}.

(** The arguments of [trigger]. *)
Record AlertSpec := {
  as_type : string;
  as_severity : AlertSeverity;
  as_source : string;
  as_scope : string;
  as_condition : string;
  as_title : string;
  as_message : string;
  as_incident_id : option string;
  as_correlation_id : option string;
  as_trace_id : option string;
}.

Definition new_alert (s : AlertSpec) (identity id : string) (created updated : Z) : Alert :=
  {| at_id := id; at_identity := identity; at_type := as_type s; at_severity := as_severity s; at_source := as_source s;
     at_scope := as_scope s; at_condition := as_condition s; at_title := as_title s; at_message := as_message s; at_state := al_DETECTED;
     at_incident_id := as_incident_id s; at_correlation_id := as_correlation_id s; at_trace_id := as_trace_id s; at_created_at := created;
     at_updated_at := updated; at_transitions := [{| tn_from := None; tn_to := al_DETECTED; tn_at := created |}] |}.

Definition spec_identity (s : AlertSpec) : string := alert_identity (as_type s) (as_source s) (as_scope s) (as_condition s).

(** [trigger]; [id] and the two readings of the clock are those of a new alert. *)
Definition trigger (s : AlertSpec) (id : string) (created updated : Z) : M AlertManager Alert := fun m =>
  let identity := spec_identity s in
  let create :=
    let alert := new_alert s identity id created updated in
    (Ok alert, {| am_alerts := <[ id := alert ]> (am_alerts m); am_by_identity := <[ identity := id ]> (am_by_identity m) |}) in
  match am_by_identity m !! identity with
  | Some existing_id =>
      match am_alerts m !! existing_id with
      | Some existing => if bool_decide (at_state existing = al_RESOLVED) then create else (Ok existing, m)
      | None => (raise KeyError existing_id, m)
      end
  | None => create
  end.

Definition transitioned (to : AlertState) (at_ updated : Z) (a : Alert) : Alert :=
  {| at_id := at_id a; at_identity := at_identity a; at_type := at_type a; at_severity := at_severity a; at_source := at_source a;
     at_scope := at_scope a; at_condition := at_condition a; at_title := at_title a; at_message := at_message a; at_state := to;
     at_incident_id := at_incident_id a; at_correlation_id := at_correlation_id a; at_trace_id := at_trace_id a;
     at_created_at := at_created_at a; at_updated_at := updated;
     at_transitions := at_transitions a ++ [{| tn_from := Some (at_state a); tn_to := to; tn_at := at_ |}] |}.

Definition alert_transition (alert_id : string) (to : AlertState) (at_ updated : Z) : M AlertManager (option Alert) := fun m =>
  match am_alerts m !! alert_id with
  | None => (Ok None, m)
  | Some a =>
      let a' := transitioned to at_ updated a in
      (Ok (Some a'), {| am_alerts := <[ alert_id := a' ]> (am_alerts m); am_by_identity := am_by_identity m |})
  end.

Definition acknowledge (alert_id : string) := alert_transition alert_id al_ACKNOWLEDGED.
Definition escalate (alert_id : string) := alert_transition alert_id al_ESCALATED.
Definition resolve (alert_id : string) := alert_transition alert_id al_RESOLVED.
Definition alerts_clear : M AlertManager unit := modify (fun _ => new_manager).

(** [list(state=...)], sorted by creation *)
Definition alert_list (state : option AlertState) (m : AlertManager) : list Alert :=
  let alerts := snd <$> map_to_list (am_alerts m) in
  let alerts := match state with Some s => List.filter (fun a => bool_decide (at_state a = s)) alerts | None => alerts end in
  stable_sort (fun a b => at_created_at a <=? at_created_at b) alerts.

(** * observability/audit.py *)

Record AuditEvent := {
  au_id : string;
  au_event_type : string;
  au_actor : option string;
  au_source : string;
  au_status : string;
  au_event_hash : string;
  au_previous_event_hash : option string;
  au_timestamp : json;                      (* a number *)
  au_reason : option string;
  au_correlation_id : option string;
  au_trace_id : option string;
  au_request_id : option string;
  au_fields : list (string * json);
}.

Definition hash_payload (previous : option string) (event_type : string) (timestamp : json) (fields : list (string * json)) : json :=
  JObj [("previous", json_opt_str previous); ("event_type", JStr event_type); ("timestamp", timestamp); ("fields", JObj fields)]%string.

Definition hash_event (previous : option string) (event_type : string) (timestamp : json) (fields : list (string * json)) : string :=
  sha256_hex (json_text ", " ": " (hash_payload previous event_type timestamp fields)).

(** The keyword arguments of [record] that are read; any other one is not looked at. *)
Record AuditArgs := {
  ag_actor : option string;
  ag_source : option string;
  ag_status : option string;
  ag_reason : option string;
  ag_correlation_id : option string;
  ag_trace_id : option string;
  ag_request_id : option string;
  ag_fields : option (list (string * json));
}.

Record AuditLog := { lg_events : list AuditEvent; lg_last_hash : option string }.
Definition empty_log : AuditLog := {| lg_events := []; lg_last_hash := None |}.

Definition make_event (last : option string) (event_type : string) (k : AuditArgs) (timestamp : json) (id : string) : AuditEvent :=
  let fields := default [] (ag_fields k) in
  {| au_id := id; au_event_type := event_type; au_actor := ag_actor k; au_source := default "system"%string (ag_source k);
     au_status := default "ok"%string (ag_status k); au_event_hash := hash_event last event_type timestamp fields;
     au_previous_event_hash := last; au_timestamp := timestamp; au_reason := ag_reason k; au_correlation_id := ag_correlation_id k;
     au_trace_id := ag_trace_id k; au_request_id := ag_request_id k; au_fields := fields |}.

(** The locked part of [record]. *)
Definition append_event (e : AuditEvent) (l : AuditLog) : AuditLog :=
  {| lg_events := lg_events l ++ [e]; lg_last_hash := Some (au_event_hash e) |}.


(** * observability/tracing.py *)

Record SpanContext := { sc_trace_id : string; sc_span_id : string; sc_sampled : bool }.

Record Span := {
  sp_name : string;
  sp_trace_id : string;
  sp_span_id : string;
  sp_parent : option string;
  sp_start : Z;
  sp_end : option Z;
  sp_status : string;
  sp_error : bool;
}.

(** The current task: its trace, its innermost span, and the shared store. *)
Record Tracing := { tr_trace : option (string * bool); tr_current : option Span; tr_store : list Span }.

(** [_new_id()]: sixteen digits *)
Definition new_span_id (u : N) : string := str_take 16 (to_hex 32 u).

Definition begin_trace (trace_id : option string) (sampled : bool) (u : N) : M Tracing string := fun t =>
  let tid := match trace_id with Some s => if String.eqb s "" then new_span_id u else s | None => new_span_id u end in
  (Ok tid, {| tr_trace := Some (tid, sampled); tr_current := tr_current t; tr_store := tr_store t |}).

(** [with start_span(name) as span: body], [u] and [u'] being the identifiers drawn. *)
Definition with_span {A} (name : string) (u u' : N) (start finish : Z) (body : M Tracing A) : M Tracing A := fun t =>
  let trace_id := match tr_current t with
                  | Some p => sp_trace_id p
                  | None => match tr_trace t with Some (tid, _) => tid | None => new_span_id u end
                  end in
  let span := {| sp_name := name; sp_trace_id := trace_id; sp_span_id := new_span_id u'; sp_parent := sp_span_id <$> tr_current t;
                 sp_start := start; sp_end := None; sp_status := "unset"; sp_error := false |} in
  let '(r, t1) := body {| tr_trace := tr_trace t; tr_current := Some span; tr_store := tr_store t |} in
  let current := default span (tr_current t1) in
  let failed := match r with Ok _ => false | Err _ => true end in
  let closed := {| sp_name := name; sp_trace_id := trace_id; sp_span_id := sp_span_id span; sp_parent := sp_parent span; sp_start := start;
                   sp_end := Some finish; sp_status := if failed then "error"%string else sp_status current;
                   sp_error := failed || sp_error current |} in
  (r, {| tr_trace := tr_trace t1; tr_current := tr_current t; tr_store := tr_store t1 ++ [closed] |}).

(** [span.set_status(status, error)] of the current span *)
Definition set_status (status : string) (error : bool) : M Tracing unit := modify (fun t =>
  {| tr_trace := tr_trace t;
     tr_current := (fun s => {| sp_name := sp_name s; sp_trace_id := sp_trace_id s; sp_span_id := sp_span_id s; sp_parent := sp_parent s;
                                sp_start := sp_start s; sp_end := sp_end s; sp_status := status; sp_error := error |}) <$> tr_current t;
     tr_store := tr_store t |}).

Definition spans (trace_id : option string) (t : Tracing) : list Span :=
  match trace_id with Some i => List.filter (fun s => String.eqb (sp_trace_id s) i) (tr_store t) | None => tr_store t end.

(** [SpanSampler.should_sample], [draw] being the random number *)
Definition should_sample (ratio draw : Q) (error safety : bool) : bool := error || safety || negb (Qle_bool ratio draw).

Definition format_traceparent (c : SpanContext) : string :=
  "00-" +:+ sc_trace_id c +:+ "-" +:+ sc_span_id c +:+ "-" +:+ (if sc_sampled c then "01" else "00").

(** [int(s, 16)]: a sign, [0x], digits of either case, single underscores. *)
Fixpoint hex_digits (acc : N) (after_digit : bool) (s : string) : option N :=
  match s with
  | EmptyString => if after_digit then Some acc else None
  | String c s' =>
      match hex_value (lower_ascii c) with
      | Some d => hex_digits (16 * acc + d) true s'
      | None => if after_digit && Ascii.eqb c "_" then hex_digits acc false s' else None
      end
  end.
Definition int16 (s : string) : option Z :=
  let '(neg, t) := parse_sign (py_strip s) in
  let digits := match t with
                | String "0"%char (String x r) =>
                    if Ascii.eqb (lower_ascii x) "x" then match r with String "_"%char r' => r' | _ => r end else t
                | _ => t
                end in
  (fun n => if neg : bool then - Z.of_N n else Z.of_N n) <$> hex_digits 0 false digits.

Definition parse_traceparent (header : option string) : option SpanContext :=
  match header with
  | None => None
  | Some h =>
      match split_char "-" (py_strip h) with
      | [version; trace_id; span_id; flags] =>
          if negb (String.eqb version "00") then None
          else if negb ((String.length trace_id =? 32)%nat && (String.length span_id =? 16)%nat) then None
          else match int16 trace_id, int16 span_id, int16 flags with
               | Some _, Some _, Some f => Some {| sc_trace_id := trace_id; sc_span_id := span_id; sc_sampled := Z.odd f |}
               | _, _, _ => None
               end
      | _ => None
      end
  end.

(** ** The bus isolates its handlers *)

Definition active (b : EventBus) (id : nat) : bool := match eb_subs b !! id with Some s => negb (sb_cancelled s) | None => false end.

(** The subscriptions an event reaches: those of its topic, then those of the
    wildcard, each in the order of subscribing, without the cancelled ones. *)
Definition live_subs (b : EventBus) (event_type : string) : list Subscription :=
  omap (fun id => eb_subs b !! id) (List.filter (active b) (matching_subs b event_type)).

(** Handlers that neither subscribe nor cancel while they run. *)
Section Isolation.
Context {W : Type} (get_bus : W -> EventBus) (set_bus : EventBus -> W -> W) (run : nat -> DomainEvent -> M W unit).
Context (get_set : forall b w, get_bus (set_bus b w) = b).
Context (run_subs : forall h e w, eb_subs (get_bus (run h e w).2) = eb_subs (get_bus w)).

(** [failure_recorded s event e w]: the failure is appended to the bus's list. *)
Definition failure_recorded (s : Subscription) (event : DomainEvent) (e : exn) (w : W) : W :=
  set_bus (with_failures (eb_failures (get_bus w) ++ [failure_of s event e]) (get_bus w)) w.

(** Every handler of [subs] is called with the event, once and in order, in the
    state the one before left, and the failures are exactly those raised. *)
Inductive served (event : DomainEvent) : list Subscription -> W -> W -> list HandlerFailure -> Prop :=
| served_nil w : served event [] w w []
| served_ok s subs w w1 w' fs : run (sb_handler s) event w = (Ok tt, w1) -> served event subs w1 w' fs -> served event (s :: subs) w w' fs
| served_failed s subs w w1 w' fs e : run (sb_handler s) event w = (Err e, w1) -> isinstance e Exception = true ->
    served event subs (failure_recorded s event e w1) w' fs -> served event (s :: subs) w w' (failure_of s event e :: fs).

(** All of [subs] were served, or the first of them that raised something that is
    no [Exception] ended the call with it. *)
Definition delivery (event : DomainEvent) (subs : list Subscription) (w : W) (fs : list HandlerFailure) (w' : W) (r : res Z) (invoked : Z) : Prop :=
  match r with
  | Ok n => n = invoked + Z.of_nat (List.length subs) /\ served event subs w w' fs
  | Err e => isinstance e Exception = false /\ exists pre s post w1, subs = pre ++ s :: post /\ served event pre w w1 fs /\
      run (sb_handler s) event w1 = (Err e, w')
  end.

Lemma delivery_ok event s subs w w1 fs w' r invoked : run (sb_handler s) event w = (Ok tt, w1) ->
  delivery event subs w1 fs w' r (invoked + 1) -> delivery event (s :: subs) w fs w' r invoked.
Proof.
  intros Hs. destruct r as [n|e]; cbn.
  - intros [-> Hd]. split; [lia|]. by eapply served_ok.
  - intros (He & pre & s0 & post & w2 & -> & Hd & Hr). split; [done|]. exists (s :: pre), s0, post, w2. split_and!; [done| |done]. by eapply served_ok.
Qed.

Lemma delivery_failed event s subs w w1 fs w' r invoked x : run (sb_handler s) event w = (Err x, w1) -> isinstance x Exception = true ->
  delivery event subs (failure_recorded s event x w1) fs w' r (invoked + 1) -> delivery event (s :: subs) w (failure_of s event x :: fs) w' r invoked.
Proof.
  intros Hs Hx. destruct r as [n|e]; cbn.
  - intros [-> Hd]. split; [lia|]. by eapply served_failed.
  - intros (He & pre & s0 & post & w2 & -> & Hd & Hr). split; [done|]. exists (s :: pre), s0, post, w2. split_and!; [done| |done]. by eapply served_failed.
Qed.

Lemma dispatch_delivers event ids : forall invoked w, exists fs,
  let '(r, w') := dispatch get_bus set_bus run event ids invoked w in
  delivery event (omap (fun id => eb_subs (get_bus w) !! id) (List.filter (active (get_bus w)) ids)) w fs w' r invoked.
Proof.
  induction ids as [|id rest IH]; intros invoked w.
  { exists []. cbn. rewrite Z.add_0_r. split; [done|constructor]. }
  cbn [dispatch List.filter]. destruct (active (get_bus w) id) eqn:Ea; unfold active in Ea;
    (destruct (eb_subs (get_bus w) !! id) as [s|] eqn:Es; [|first [discriminate Ea|apply IH]]).
  2: { apply negb_false_iff in Ea. rewrite Ea. apply IH. }
  apply negb_true_iff in Ea. rewrite Ea. cbn [omap list_omap]. rewrite Es. pose proof (run_subs (sb_handler s) event w) as Hf.
  destruct (run (sb_handler s) event w) as [[[]|x] w1] eqn:Er; cbn [snd] in Hf.
  - destruct (IH (invoked + 1) w1) as [fs Hd]. exists fs. unfold active in Hd. rewrite Hf in Hd. destruct (dispatch _ _ _ _ _ _ w1) as [r w'].
    by eapply delivery_ok.
  - destruct (isinstance x Exception) eqn:Ex.
    + destruct (IH (invoked + 1) (failure_recorded s event x w1)) as [fs Hd]. exists (failure_of s event x :: fs). fold (failure_recorded s event x w1).
      assert (eb_subs (get_bus (failure_recorded s event x w1)) = eb_subs (get_bus w)) as Hg
        by (unfold failure_recorded; by rewrite get_set). unfold active in Hd. rewrite Hg in Hd.
      destruct (dispatch _ _ _ _ _ _ (failure_recorded s event x w1)) as [r w']. by eapply delivery_failed.
    + exists []. split; [done|]. eexists [], s, _, w. split_and!; [done|constructor|done].
Qed.

(** Handlers that leave the bus alone leave it with the failures appended. *)
Lemma served_bus event subs w w' fs : (forall h e v, get_bus (run h e v).2 = get_bus v) -> served event subs w w' fs ->
  get_bus w' = with_failures (eb_failures (get_bus w) ++ fs) (get_bus w).
Proof.
  intros Hrun Hs. induction Hs as [w|s subs w w1 w' fs Hr _ IH|s subs w w1 w' fs e Hr _ _ IH].
  - rewrite app_nil_r. by destruct (get_bus w).
  - pose proof (Hrun (sb_handler s) event w) as H. rewrite Hr in H. cbn in H. by rewrite IH, H.
  - pose proof (Hrun (sb_handler s) event w) as H. rewrite Hr in H. cbn in H. rewrite IH. unfold failure_recorded. rewrite get_set, H.
    unfold with_failures. cbn. by rewrite <- app_assoc.
Qed.

(** The bus that has counted one more event. *)
Definition counted (b : EventBus) : EventBus :=
  {| eb_handlers := eb_handlers b; eb_subs := eb_subs b; eb_published := eb_published b + 1; eb_failures := eb_failures b |}.

(** C36: The bus isolates its handlers, for handlers that neither subscribe nor
    cancel while they run (they may publish).  [publish] counts the event and calls every
    handler subscribed to the event's topic and then to the wildcard, without
    the cancelled ones, once each, in the order of subscription, with the event:
    a handler that raises an [Exception] has exactly that failure recorded and
    does not keep the next ones from being called, and the number of handlers
    called is returned.  Only something that is no [Exception] (an interrupt)
    ends the call early, after the handlers before it were served, and is raised
    as it is.  If the handlers leave the bus alone altogether, the bus differs in
    the count and in the failures raised, appended in order. *)
Theorem publish_isolates_handlers event w :
  let subs := live_subs (get_bus w) (de_event_type event) in
  let w0 := set_bus (counted (get_bus w)) w in
  exists fs, let '(r, w') := publish get_bus set_bus run event w in
    match r with
    | Ok n => n = Z.of_nat (List.length subs) /\ served event subs w0 w' fs
    | Err e => isinstance e Exception = false /\ exists pre s post w1, subs = pre ++ s :: post /\ served event pre w0 w1 fs /\
        run (sb_handler s) event w1 = (Err e, w')
    end /\
    ((forall h e v, get_bus (run h e v).2 = get_bus v) ->
     get_bus w' = with_failures (eb_failures (get_bus w) ++ fs) (counted (get_bus w))).
Proof.
  intros subs w0. destruct (dispatch_delivers event (matching_subs (get_bus w) (de_event_type event)) 0 w0) as [fs Hd]. exists fs.
  unfold publish. fold (counted (get_bus w)). fold w0. destruct (dispatch _ _ _ _ _ _ w0) as [r w'] eqn:E.
  assert (get_bus w0 = counted (get_bus w)) as Hw0 by apply get_set. rewrite Hw0 in Hd. split; [exact Hd|]. intros Hrun.
  destruct r as [n|e]; [destruct Hd as [_ Hd]|destruct Hd as (_ & pre & s & post & w1 & _ & Hd & Hr)]; apply served_bus in Hd; try done.
  - by rewrite Hd, Hw0.
  - pose proof (Hrun (sb_handler s) event w1) as H. rewrite Hr in H. cbn in H. by rewrite H, Hd, Hw0.
Qed.
End Isolation.

(** Two subscriptions of one handler to one topic are equal objects: cancelling
    the second takes the first off the list and marks the second, and the event
    reaches neither. *)
Definition two_subscriptions : EventBus :=
  snd (subscribe "order.created" 7 (snd (subscribe "order.created" 7 empty_bus))).

Theorem cancelling_one_silences_both :
  let b := snd (unsubscribe 1 two_subscriptions) in
  handler_count (Some "order.created"%string) b = 1%nat /\ active b 0 = true /\ active b 1 = false /\
  List.filter (active b) (matching_subs b "order.created") = [].
Proof. vm_compute. split_and!; reflexivity. Qed.

(** Two handlers, the first of which raises. *)
Definition first_raises (h : nat) (_ : DomainEvent) (b : EventBus) : res unit * EventBus :=
  (if (h =? 7)%nat then raise ValueError "boom" else Ok tt, b).
Definition sample_event : DomainEvent :=
  {| de_event_type := "order.created"; de_occurred_at := utc 0; de_source := "oms"; de_payload := []; de_event_id := 5; de_correlation_id := None;
     de_causation_id := None; de_trace_id := None; de_domain_ids := [] |}.
Definition raising_bus : EventBus := snd (subscribe WILDCARD 8 (snd (subscribe "order.created" 7 empty_bus))).

Lemma publish_isolates_handlers_witness : exists b', publish (fun b => b) (fun b _ => b) first_raises sample_event raising_bus = (Ok 2, b') /\
  exists fs, eb_failures b' = fs /\
  served (fun b => b) (fun b _ => b) first_raises sample_event (live_subs raising_bus "order.created") (counted raising_bus) b' fs.
Proof.
  destruct (publish_isolates_handlers (fun b => b) (fun b _ => b) first_raises ltac:(done) ltac:(done) sample_event raising_bus) as [fs H].
  destruct (publish (fun b => b) (fun b _ => b) first_raises sample_event raising_bus) as [r b'] eqn:E.
  destruct r as [n|e]; [|exfalso; vm_compute in E; discriminate]. destruct H as [[Hn Hs] Hb]. exists b'. split; [rewrite Hn; reflexivity|].
  exists fs. split; [rewrite (Hb ltac:(done)); reflexivity|exact Hs].
Defined.

(** ** Secrets *)

(** Every value under a sensitive key is the redaction mark, at any depth. *)
Fixpoint redacted (j : json) : bool :=
  match j with
  | JObj l => forallb (fun kv => if is_sensitive_key kv.1 then match kv.2 with JStr s => String.eqb s "[REDACTED]" | _ => false end
                                 else redacted kv.2) l
  | JArr l => forallb redacted l
  | _ => true
  end.

Lemma redact_obj l : redact (JObj l) = JObj (sanitize_fields l).
Proof. reflexivity. Qed.

Lemma redact_redacted j : redacted (redact j) = true.
Proof.
  induction j as [j IH] using json_size_ind. destruct j as [|s|z|t|b|l|l]; try done.
  - cbn [redact redacted]. apply forallb_forall. intros v Hv. apply in_map_iff in Hv as (x & <- & Hx). apply IH, jsize_item.
    by apply list_elem_of_In.
  - rewrite redact_obj. cbn [redacted]. apply forallb_forall. intros kv Hv. apply in_map_iff in Hv as (x & <- & Hx).
    apply list_elem_of_In in Hx. cbn [fst snd]. destruct (is_sensitive_key x.1) eqn:E; [done|]. by apply IH, jsize_member.
Qed.

(** Nothing under a sensitive key leaves through the structured log: in the
    payload that is emitted, whatever was passed as default fields and fields and
    however deep it is nested, in dictionaries or in lists of lists, every value
    under a sensitive key is the redaction mark. *)
Theorem log_payload_redacted service default_fields fields event :
  redacted (JObj (emit_payload service default_fields fields event)) = true.
Proof. unfold emit_payload. rewrite <- redact_obj. apply redact_redacted. Qed.

(** The check of event payloads does not see into a list within a list. *)
Theorem nested_list_hides_secret :
  validate_no_secrets [("items"%string, JArr [JArr [JObj [("password"%string, JStr "hunter2")]]])] = Ok tt /\
  (exists e, validate_no_secrets [("items"%string, JArr [JObj [("password"%string, JStr "hunter2")]])] = Err e).
Proof. split; [vm_compute; reflexivity|]. eexists. vm_compute. reflexivity. Qed.

(** ** Histograms count every observation once, in its bin *)

Definition observe_all (buckets values : list Q) : HistogramSeries :=
  foldl (fun s v => hs_observe buckets v s) (new_series buckets) values.

Definition in_bin (buckets : list Q) (k : nat) (v : Q) : bool := (bisect_right buckets v =? k)%nat.

Lemma bisect_bound buckets v : (bisect_right buckets v <= List.length buckets)%nat.
Proof. unfold bisect_right. apply filter_length_le. Qed.

Lemma observe_all_counts buckets values k : (k <= List.length buckets)%nat ->
  hs_counts (observe_all buckets values) !! k = Some (Z.of_nat (List.length (List.filter (in_bin buckets k) values))).
Proof.
  intros Hk. unfold observe_all. induction values as [|v values IH] using rev_ind.
  - cbn [foldl]. unfold new_series. cbn [hs_counts]. by rewrite lookup_replicate_2 by lia.
  - rewrite foldl_snoc, List.filter_app, length_app. cbn [hs_observe hs_counts List.filter]. unfold in_bin at 2.
    destruct (Nat.eqb_spec (bisect_right buckets v) k) as [->|Hne].
    + rewrite list_lookup_alter_eq, IH. cbn. f_equal. lia.
    + rewrite list_lookup_alter_ne, IH by done. cbn. f_equal. lia.
Qed.

Lemma sum_bins {A} (f : A -> nat) (l : list A) n : (forall x, x ∈ l -> (f x <= n)%nat) ->
  foldr Z.add 0 ((fun k => Z.of_nat (List.length (List.filter (fun x => (f x =? k)%nat) l))) <$> seq 0 (S n)) = Z.of_nat (List.length l).
Proof.
  induction l as [|x l IH]; intros H.
  { cbn [List.filter List.length]. generalize (seq 0 (S n)). intros s. induction s; [done|]. cbn. lia. }
  assert (forall s, NoDup s -> foldr Z.add 0 ((fun k => Z.of_nat (List.length (List.filter (fun y => (f y =? k)%nat) (x :: l)))) <$> s) =
    foldr Z.add 0 ((fun k => Z.of_nat (List.length (List.filter (fun y => (f y =? k)%nat) l))) <$> s) + (if bool_decide (f x ∈ s) then 1 else 0)) as Hs.
  { induction 1 as [|k s Hk Hs IHs]; [done|]. rewrite !fmap_cons. cbn [foldr]. rewrite IHs. cbn [List.filter].
    destruct (Nat.eqb_spec (f x) k) as [<-|Hne].
    - rewrite (bool_decide_eq_false_2 (f x ∈ s)), (bool_decide_eq_true_2 (f x ∈ f x :: s)) by (done || apply list_elem_of_here). cbn [List.length]. lia.
    - destruct (bool_decide_reflect (f x ∈ s)).
      + rewrite (bool_decide_eq_true_2 (f x ∈ k :: s)) by (by apply list_elem_of_further). lia.
      + rewrite (bool_decide_eq_false_2 (f x ∈ k :: s)); [lia|]. by apply not_elem_of_cons. }
  rewrite Hs by apply NoDup_seq. rewrite IH by (intros y Hy; apply H; by apply list_elem_of_further).
  rewrite bool_decide_eq_true_2; [cbn [List.length]; lia|]. apply elem_of_seq. pose proof (H x (list_elem_of_here _ _)). lia.
Qed.

(** The counts of a series are those of the observed values, bin by bin, and
    nothing is lost: they add up to the number of observations. *)
Theorem histogram_counts buckets values :
  hs_counts (observe_all buckets values) =
    ((fun k => Z.of_nat (List.length (List.filter (in_bin buckets k) values))) <$> seq 0 (S (List.length buckets))) /\
  foldr Z.add 0 (hs_counts (observe_all buckets values)) = Z.of_nat (List.length values).
Proof.
  assert (hs_counts (observe_all buckets values) =
    ((fun k => Z.of_nat (List.length (List.filter (in_bin buckets k) values))) <$> seq 0 (S (List.length buckets)))) as E.
  { apply list_eq. intros k. destruct (decide (k <= List.length buckets)%nat) as [Hk|Hk].
    - rewrite observe_all_counts, list_lookup_fmap, lookup_seq_lt by lia. done.
    - assert (List.length (hs_counts (observe_all buckets values)) = S (List.length buckets)) as Hl.
      { unfold observe_all. induction values as [|v values IH] using rev_ind; [apply length_replicate|].
        rewrite foldl_snoc. cbn [hs_observe hs_counts]. by rewrite length_alter. }
      rewrite (proj2 (lookup_ge_None _ _)), (proj2 (lookup_ge_None _ _)); [done|rewrite length_fmap, length_seq; lia|lia]. }
  split; [done|]. rewrite E. apply (sum_bins (bisect_right buckets)). intros v _. apply bisect_bound.
Qed.

(** A value on the boundary falls into the bin above it, not into [<= b0]. *)
Example boundary_goes_up : bisect_right [1 # 10; 5 # 10]%Q (1 # 10) = 1%nat.
Proof. reflexivity. Qed.

(** ** Alerts *)

Definition is_open (a : Alert) : Prop := at_state a <> al_RESOLVED.

(** A history that starts in DETECTED, each step from where the last one ended. *)
Fixpoint history_from (state : option AlertState) (l : list AlertTransition) : option (option AlertState) :=
  match l with
  | [] => Some state
  | t :: l' => if decide (tn_from t = state) then history_from (Some (tn_to t)) l' else None
  end.

Lemma history_app l : forall s t, history_from s (l ++ [t]) =
  match history_from s l with Some s' => if decide (tn_from t = s') then Some (Some (tn_to t)) else None | None => None end.
Proof. induction l as [|x l IH]; intros s t; cbn; [done|]. destruct (decide (tn_from x = s)); [apply IH|done]. Qed.

Record manager_ok (m : AlertManager) : Prop := {
  mo_index : forall ident id, am_by_identity m !! ident = Some id -> exists a, am_alerts m !! id = Some a /\ at_identity a = ident;
  mo_ids : forall id a, am_alerts m !! id = Some a -> at_id a = id;
  mo_open : forall id a, am_alerts m !! id = Some a -> is_open a -> am_by_identity m !! at_identity a = Some id;
  mo_history : forall id a, am_alerts m !! id = Some a -> history_from None (at_transitions a) = Some (Some (at_state a));
}.

(** The calls of a manager: fresh identifiers for new alerts, and a resolved
    alert is not brought back. *)
Inductive alert_step (m : AlertManager) : AlertManager -> Prop :=
| step_trigger s id created updated : am_alerts m !! id = None -> alert_step m (snd (trigger s id created updated m))
| step_transition id to at_ updated :
    (forall a, am_alerts m !! id = Some a -> at_state a = al_RESOLVED -> to = al_RESOLVED) ->
    alert_step m (snd (alert_transition id to at_ updated m))
| step_clear : alert_step m new_manager.

Lemma create_ok m s id created updated : manager_ok m -> am_alerts m !! id = None ->
  (forall j a, am_alerts m !! j = Some a -> is_open a -> at_identity a <> spec_identity s) ->
  manager_ok {| am_alerts := <[ id := new_alert s (spec_identity s) id created updated ]> (am_alerts m);
                am_by_identity := <[ spec_identity s := id ]> (am_by_identity m) |}.
Proof.
  intros [H1 H2 H3 H4] Hf Hno. split; cbn.
  - intros ident j. destruct (decide (ident = spec_identity s)) as [->|Hne].
    + rewrite lookup_insert_eq. intros [= <-]. eexists. by rewrite lookup_insert_eq.
    + rewrite lookup_insert_ne by done. intros Hj. destruct (H1 _ _ Hj) as (a & Ha & Hi). exists a. rewrite lookup_insert_ne; [done|]. intros ->. congruence.
  - intros j a. destruct (decide (j = id)) as [->|Hne]; [rewrite lookup_insert_eq; by intros [= <-]|rewrite lookup_insert_ne by done; apply H2].
  - intros j a. destruct (decide (j = id)) as [->|Hne]; [rewrite lookup_insert_eq; intros [= <-] _; apply lookup_insert_eq|].
    rewrite lookup_insert_ne by done. intros Ha Ho. rewrite lookup_insert_ne; [by apply H3|]. intros E. by apply (Hno j a).
  - intros j a. destruct (decide (j = id)) as [->|Hne]; [rewrite lookup_insert_eq; by intros [= <-]|rewrite lookup_insert_ne by done; apply H4].
Qed.

Lemma step_ok m m' : manager_ok m -> alert_step m m' -> manager_ok m'.
Proof.
  intros Hm [s id created updated Hf|id to at_ updated Hg|].
  - unfold trigger. destruct (am_by_identity m !! spec_identity s) as [eid|] eqn:Ei.
    + destruct (mo_index m Hm _ _ Ei) as (a & Ha & Hid). rewrite Ha. destruct (bool_decide_reflect (at_state a = al_RESOLVED)) as [Hr|Hr]; [|done].
      apply create_ok; [done|done|]. intros j b Hb Ho E. pose proof (mo_open m Hm _ _ Hb Ho) as Hj. rewrite E, Ei in Hj. simplify_eq. done.
    + apply create_ok; [done|done|]. intros j b Hb Ho E. pose proof (mo_open m Hm _ _ Hb Ho) as Hj. by rewrite E, Ei in Hj.
  - unfold alert_transition. destruct (am_alerts m !! id) as [a|] eqn:Ea; [|done]. specialize (Hg a eq_refl). destruct Hm as [H1 H2 H3 H4]. split; cbn.
    + intros ident j Hj. destruct (H1 _ _ Hj) as (b & Hb & Hi). destruct (decide (j = id)) as [->|Hne].
      * simplify_eq. eexists. by rewrite lookup_insert_eq.
      * exists b. by rewrite lookup_insert_ne.
    + intros j b. destruct (decide (j = id)) as [->|Hne]; [rewrite lookup_insert_eq; intros [= <-]; cbn; by apply (H2 id a)|rewrite lookup_insert_ne by done; apply H2].
    + intros j b. destruct (decide (j = id)) as [->|Hne]; [|rewrite lookup_insert_ne by done; apply H3].
      rewrite lookup_insert_eq. intros [= <-] Ho. cbn. apply H3; [done|]. intros Hr. by apply Ho, Hg.
    + intros j b. destruct (decide (j = id)) as [->|Hne]; [|rewrite lookup_insert_ne by done; apply H4].
      rewrite lookup_insert_eq. intros [= <-]. cbn. rewrite history_app, (H4 _ _ Ea). by rewrite decide_True.
  - split; cbn; intros ? ? H; by rewrite lookup_empty in H.
Qed.

Lemma new_manager_ok : manager_ok new_manager.
Proof. split; cbn; intros ? ? H; by rewrite lookup_empty in H. Qed.

(** As long as resolved alerts stay resolved, a condition has at most one
    open alert however often it is triggered: two open alerts with one identity
    are the same alert, triggering the condition again returns it and changes
    nothing, and the recorded history of every alert runs without a gap from
    its detection to its present state. *)
Theorem one_open_alert_per_condition m : rtc alert_step new_manager m ->
  (forall id id' a a', am_alerts m !! id = Some a -> am_alerts m !! id' = Some a' -> is_open a -> is_open a' ->
     at_identity a = at_identity a' -> id = id') /\
  (forall id a s new_id created updated, am_alerts m !! id = Some a -> is_open a -> at_identity a = spec_identity s ->
     trigger s new_id created updated m = (Ok a, m)) /\
  (forall id a, am_alerts m !! id = Some a -> history_from None (at_transitions a) = Some (Some (at_state a))).
Proof.
  intros Hr. assert (manager_ok m) as Hm by (eapply rtc_preserved; [|exact Hr|apply new_manager_ok]; intros; by eapply step_ok).
  split_and!.
  - intros id id' a a' Ha Ha' Ho Ho' E. pose proof (mo_open m Hm _ _ Ha Ho) as H. pose proof (mo_open m Hm _ _ Ha' Ho') as H'.
    rewrite E, H' in H. by injection H.
  - intros id a s new_id created updated Ha Ho E. unfold trigger. rewrite <- E, (mo_open m Hm _ _ Ha Ho), Ha.
    by rewrite bool_decide_eq_false_2.
  - apply (mo_history m Hm).
Qed.

Definition disk_full : AlertSpec :=
  {| as_type := "disk"; as_severity := sv_HIGH; as_source := "db"; as_scope := "node-1"; as_condition := "full"; as_title := "t"; as_message := "m";
     as_incident_id := None; as_correlation_id := None; as_trace_id := None |}.

Lemma one_open_alert_per_condition_witness :
  trigger disk_full "b" 3 4 (snd (trigger disk_full "a" 1 2 new_manager)) =
  (Ok (new_alert disk_full (spec_identity disk_full) "a" 1 2), snd (trigger disk_full "a" 1 2 new_manager)).
Proof.
  eapply (proj1 (proj2 (one_open_alert_per_condition (snd (trigger disk_full "a" 1 2 new_manager))
    (rtc_once _ _ (step_trigger new_manager disk_full "a" 1 2 eq_refl)))) "a"%string).
  - vm_compute. reflexivity.
  - vm_compute. discriminate.
  - reflexivity.
Defined.

(** Nothing keeps a resolved alert resolved: acknowledging it after its condition
    was detected again leaves two open alerts for one condition. *)
Theorem acknowledging_resolved_duplicates : exists m a a',
  m = snd (acknowledge "a" 6 6 (snd (trigger disk_full "b" 4 5 (snd (resolve "a" 3 3 (snd (trigger disk_full "a" 1 2 new_manager))))))) /\
  am_alerts m !! "a"%string = Some a /\ am_alerts m !! "b"%string = Some a' /\ is_open a /\ is_open a' /\ at_identity a = at_identity a'.
Proof. do 3 eexists. split; [reflexivity|]. vm_compute. split_and!; try reflexivity; discriminate. Qed.

(** ** Health *)

(** A snapshot is always produced when the checks raise ordinary exceptions,
    and the whole is unavailable exactly when a required dependency is: one whose
    check says so, or any whose check raises — also an optional one, because the
    status made for a failing check is never optional. *)
Theorem health_unavailable_iff h :
  (forall name e, (name, Err e) ∈ hr_checks h -> isinstance e Exception = true) ->
  exists s, health_snapshot h = Ok s /\ sn_trading_safety s = hr_safety h /\
    (sn_status s = hh_UNAVAILABLE <-> exists name c, (name, c) ∈ hr_checks h /\
       match c with Ok d => dp_status d = hh_UNAVAILABLE /\ dp_optional d = false | Err _ => True end).
Proof.
  intros He. unfold health_snapshot.
  assert (exists deps, run_checks (hr_checks h) = Ok deps /\
    ((exists nd, nd ∈ deps /\ dp_status nd.2 = hh_UNAVAILABLE /\ dp_optional nd.2 = false) <-> exists name c, (name, c) ∈ hr_checks h /\
       match c with Ok d => dp_status d = hh_UNAVAILABLE /\ dp_optional d = false | Err _ => True end)) as (deps & -> & Hdeps).
  { induction (hr_checks h) as [|[name c] l IH]; [exists []; split; [done|]; split; [intros (? & ? & _)|intros (? & ? & ? & _)]; by apply not_elem_of_nil in H|].
    destruct IH as (ds & Hds & Hiff); [intros n e Hin; apply (He n e); by apply list_elem_of_further|]. cbn [run_checks].
    destruct c as [d|e]; cbn [rbind].
    - rewrite Hds. exists ((name, d) :: ds). split; [done|]. split.
      + intros (nd & [->|Hin]%elem_of_cons & Hs); [exists name, (Ok d); split; [apply list_elem_of_here|done]|].
        destruct (proj1 Hiff) as (n & c & Hc & Hm); [by exists nd|]. exists n, c. split; [by apply list_elem_of_further|done].
      + intros (n & c & [E|Hin]%elem_of_cons & Hm); [simplify_eq; exists (name, d); split; [apply list_elem_of_here|done]|].
        destruct (proj2 Hiff) as (nd & Hnd & Hs); [by exists n, c|]. exists nd. split; [by apply list_elem_of_further|done].
    - rewrite (He name e (list_elem_of_here _ _)). cbn [rbind]. rewrite Hds. eexists. split; [done|]. split.
      + intros _. exists name, (Err e). split; [apply list_elem_of_here|done].
      + intros _. eexists. split; [apply list_elem_of_here|done]. }
  cbn [rbind]. eexists. split; [done|]. cbn [sn_trading_safety sn_status]. split; [done|]. rewrite <- Hdeps. unfold aggregate_health. destruct deps as [|x deps].
  - split; [done|]. intros (nd & H & _). by apply not_elem_of_nil in H.
  - destruct (existsb (fun d => bool_decide (dp_status d.2 = hh_UNAVAILABLE) && negb (dp_optional d.2)) (x :: deps)) eqn:E.
    + split; [|done]. intros _. apply existsb_exists in E as (nd & Hin & Hb). apply andb_true_iff in Hb as [Hb1%bool_decide_eq_true Hb2%negb_true_iff].
      exists nd. split; [by apply list_elem_of_In|done].
    + split; [by repeat case_match|]. intros (nd & Hin & Hs & Ho). exfalso. apply not_true_iff_false in E. apply E. apply existsb_exists.
      exists nd. split; [by apply list_elem_of_In|]. by rewrite Hs, Ho.
Qed.

Lemma health_unavailable_iff_witness : exists s,
  health_snapshot (health_register "exporter" (raise ValueError "down") (health_register "database"
    (Ok {| dp_name := "database"; dp_status := hh_OK; dp_optional := false; dp_detail := "" |}) {| hr_checks := []; hr_safety := [] |})) = Ok s /\
  sn_status s = hh_UNAVAILABLE.
Proof.
  destruct (health_unavailable_iff (health_register "exporter" (raise ValueError "down") (health_register "database"
    (Ok {| dp_name := "database"; dp_status := hh_OK; dp_optional := false; dp_detail := "" |}) {| hr_checks := []; hr_safety := [] |})))
    as (s & Hs & _ & Hiff).
  - intros name e H. apply list_elem_of_In in H. cbn in H. destruct H as [H|[H|[]]]; [discriminate|]. injection H as _ <-. reflexivity.
  - exists s. split; [done|]. apply Hiff. exists "exporter"%string, (raise ValueError "down"). split; [|done].
    apply list_elem_of_In. cbn. tauto.
Defined.

(** ** The audit trail *)

Fixpoint chain_ok (previous : option string) (l : list AuditEvent) : Prop :=
  match l with
  | [] => True
  | e :: l' => au_previous_event_hash e = previous /\
      au_event_hash e = hash_event previous (au_event_type e) (au_timestamp e) (au_fields e) /\ chain_ok (Some (au_event_hash e)) l'
  end.

















(** Who did it, with what outcome and why is not part of the hash: a trail with
    another actor, status and reason verifies as well. *)
Definition reattributed (e : AuditEvent) : AuditEvent :=
  {| au_id := au_id e; au_event_type := au_event_type e; au_actor := Some "mallory"%string; au_source := au_source e; au_status := "denied";
     au_event_hash := au_event_hash e; au_previous_event_hash := au_previous_event_hash e; au_timestamp := au_timestamp e;
     au_reason := Some "forged"%string; au_correlation_id := au_correlation_id e; au_trace_id := au_trace_id e; au_request_id := au_request_id e;
     au_fields := au_fields e |}.

Theorem actor_not_protected previous l : chain_ok previous l -> chain_ok previous (reattributed <$> l).
Proof. revert previous. induction l as [|e l IH]; intros previous; [done|]. cbn. intros (H1 & H2 & H3). split_and!; [done|done|by apply IH]. Qed.

(** The hash is computed before the lock is taken: two threads that read the same
    last hash append two events with one predecessor, and the trail no longer
    verifies. *)
Theorem concurrent_records_fork t1 t2 k1 k2 ts1 ts2 id1 id2 :
  let e1 := make_event None t1 k1 ts1 id1 in let e2 := make_event None t2 k2 ts2 id2 in
  ~ chain_ok None (lg_events (append_event e2 (append_event e1 empty_log))).
Proof. cbn. intros (_ & _ & H & _). discriminate. Qed.

(** ** Trace headers *)

Definition hex_text (s : string) : bool := str_all (fun c => match hex_value c with Some _ => true | None => false end) s.

Lemma hex_char c : (match hex_value c with Some _ => true | None => false end) = true ->
  is_space c = false /\ Ascii.eqb c "-" = false /\ Ascii.eqb c "+" = false /\ Ascii.eqb (lower_ascii c) "x" = false /\
  (exists d, hex_value (lower_ascii c) = Some d).
Proof. destruct c as [[] [] [] [] [] [] [] []]; intros H; try discriminate H; split_and!; try reflexivity; eexists; reflexivity. Qed.

Lemma hex_digits_some s : hex_text s = true -> s <> ""%string -> forall acc, exists n, hex_digits acc false s = Some n.
Proof.
  assert (forall s acc b, hex_text s = true -> (s <> ""%string \/ b = true) -> exists n, hex_digits acc b s = Some n) as H;
    [|intros Hs Hne acc; apply H; [done|by left]].
  clear s. induction s as [|c s IH]; intros acc b Hs Hb; cbn; [destruct Hb as [| ->]; [done|eauto]|].
  unfold hex_text in Hs. cbn in Hs. apply andb_true_iff in Hs as [Hc Hs]. destruct (hex_char c Hc) as (_ & _ & _ & _ & d & ->). apply IH; [done|by right].
Qed.

Lemma strip_hex s : hex_text s = true -> py_strip s = s.
Proof.
  unfold py_strip. intros H. assert (lstrip s = s) as ->.
  { destruct s as [|c s]; [done|]. unfold hex_text in H. cbn in H |- *. apply andb_true_iff in H as [Hc _]. by rewrite (proj1 (hex_char c Hc)). }
  induction s as [|c s IH]; [done|]. unfold hex_text in H. cbn in H |- *. apply andb_true_iff in H as [Hc Hs]. rewrite (IH Hs).
  destruct s; [by rewrite (proj1 (hex_char c Hc))|done].
Qed.

Lemma int16_hex s : hex_text s = true -> s <> ""%string -> exists z, int16 s = Some z.
Proof.
  intros H Hne. unfold int16. rewrite strip_hex by done.
  destruct s as [|c s]; [done|]. pose proof H as H'. unfold hex_text in H. cbn in H. apply andb_true_iff in H as [Hc Hs].
  destruct (hex_char c Hc) as (_ & Hm & Hp & _ & _). assert (parse_sign (String c s) = (false, String c s)) as ->.
  { unfold parse_sign. destruct c as [[] [] [] [] [] [] [] []]; try reflexivity; try discriminate Hm; try discriminate Hp. }
  assert ((match String c s with
           | String "0"%char (String x r) => if Ascii.eqb (lower_ascii x) "x" then match r with String "_"%char r' => r' | _ => r end else String c s
           | _ => String c s end) = String c s) as E.
  { destruct s as [|x r]; [by destruct c as [[] [] [] [] [] [] [] []]|]. cbn in Hs. apply andb_true_iff in Hs as [Hx _].
    destruct (hex_char x Hx) as (_ & _ & _ & Hxx & _). rewrite Hxx. by destruct c as [[] [] [] [] [] [] [] []]. }
  cbv zeta. rewrite E. destruct (hex_digits_some (String c s) H' Hne 0) as [n ->]. eauto.
Qed.

Lemma hex_no_dash s : hex_text s = true -> str_all (fun c => negb (Ascii.eqb c "-")) s = true.
Proof.
  induction s as [|c s IH]; [done|]. unfold hex_text. cbn. intros [Hc Hs]%andb_true_iff. destruct (hex_char c Hc) as (_ & -> & _). by apply IH.
Qed.

Lemma rstrip_solid s c : is_space c = false -> rstrip (s +:+ String c "") = s +:+ String c "".
Proof.
  intros Hc. induction s as [|x s IH]; [change ("" +:+ String c "") with (String c ""); cbn [rstrip]; by rewrite Hc|]. change (String x s +:+ String c "") with (String x (s +:+ String c "")).
  cbn [rstrip]. rewrite IH. destruct (s +:+ String c "") eqn:E; [|done]. by destruct s.
Qed.

Lemma traceparent_strip c : py_strip (format_traceparent c) = format_traceparent c.
Proof.
  unfold py_strip. assert (lstrip (format_traceparent c) = format_traceparent c) as -> by done.
  assert (exists s d, format_traceparent c = s +:+ String d "" /\ is_space d = false) as (s & d & -> & Hd).
  { exists ("00-" +:+ sc_trace_id c +:+ "-" +:+ sc_span_id c +:+ "-0"), (if sc_sampled c then "1"%char else "0"%char).
    split; [|by destruct (sc_sampled c)]. unfold format_traceparent. rewrite !str_app_assoc. do 4 f_equal. by destruct (sc_sampled c). }
  by apply rstrip_solid.
Qed.

(** Trace headers round-trip: the header written for a context whose
    identifiers have the standard's lengths reads back as that context, sampling
    decision included; but a trace that starts here has an identifier of sixteen
    digits, half the standard's length, and the header written for it is refused. *)
Theorem traceparent_roundtrip c : hex_text (sc_trace_id c) = true -> hex_text (sc_span_id c) = true -> String.length (sc_span_id c) = 16%nat ->
  parse_traceparent (Some (format_traceparent c)) = if (String.length (sc_trace_id c) =? 32)%nat then Some c else None.
Proof.
  intros Ht Hs Hl. unfold parse_traceparent. rewrite traceparent_strip. unfold format_traceparent.
  assert (split_char "-" ("00-" +:+ sc_trace_id c +:+ "-" +:+ sc_span_id c +:+ "-" +:+ (if sc_sampled c then "01" else "00"))
    = ["00"%string; sc_trace_id c; sc_span_id c; (if sc_sampled c then "01" else "00")%string]) as ->.
  { change ("00-" +:+ sc_trace_id c +:+ "-" +:+ sc_span_id c +:+ "-" +:+ (if sc_sampled c then "01" else "00"))
      with ("00"%string +:+ String "-" (sc_trace_id c +:+ String "-" (sc_span_id c +:+ String "-" (if sc_sampled c then "01" else "00")))).
    rewrite !split_char_app by (done || by apply hex_no_dash). by destruct (sc_sampled c). }
  change (negb (String.eqb "00" "00")) with false. rewrite Hl. cbn [Nat.eqb]. rewrite andb_true_r.
  destruct (Nat.eqb_spec (String.length (sc_trace_id c)) 32) as [Ht'|]; [|done]. cbn [negb].
  destruct (int16_hex (sc_trace_id c) Ht) as [z ->]; [by intros E; rewrite E in Ht'|].
  destruct (int16_hex (sc_span_id c) Hs) as [z' ->]; [by intros E; rewrite E in Hl|]. destruct c as [t s []]; reflexivity.
Qed.

Lemma traceparent_roundtrip_witness :
  parse_traceparent (Some (format_traceparent {| sc_trace_id := to_hex 32 77; sc_span_id := to_hex 16 5; sc_sampled := false |}))
    = Some {| sc_trace_id := to_hex 32 77; sc_span_id := to_hex 16 5; sc_sampled := false |} /\
  parse_traceparent (Some (format_traceparent {| sc_trace_id := new_span_id 77; sc_span_id := to_hex 16 5; sc_sampled := true |})) = None.
Proof.
  split.
  - rewrite (traceparent_roundtrip {| sc_trace_id := to_hex 32 77; sc_span_id := to_hex 16 5; sc_sampled := false |}); reflexivity.
  - rewrite (traceparent_roundtrip {| sc_trace_id := new_span_id 77; sc_span_id := to_hex 16 5; sc_sampled := true |}); reflexivity.
Defined.

(** [TraceContext.context] reads an attribute that the class does not have. *)
Definition trace_context_property (trace_id : string) (sampled : bool) : res SpanContext :=
  raise AttributeError "'TraceContext' object has no attribute '_current_span_var'".

Example context_always_raises trace_id sampled : is_ok (trace_context_property trace_id sampled) = false.
Proof. reflexivity. Qed.

(** A fragment of a code decides its class: strategy errors count as rate limits. *)
Example strategy_code_is_rate_limit :
  classify_error None (Some "STRATEGY_NOT_FOUND"%string) None = of_RATE_LIMIT /\
  classify_error None (Some "AUTHORIZATION_DENIED"%string) None = of_AUTHENTICATION_FAILURE.
Proof. split; reflexivity. Qed.

(** A line break after a valid type is accepted. *)
Example event_type_with_newline : safe_event_type ("order.created" +:+ String (ascii_of_N 10) "") = true.
Proof. reflexivity. Qed.
