(* ===== verification/PaperStore.v ===== *)
(** Paper trading, its edges: the feed of reference prices
    (src/services/paper_trading/alpha_algo_paper_feed: mapping.py, provenance.py),
    the record of a run (alpha_algo_paper_runtime/run.py) and the SQL repository
    of runs, accounts and funds (alpha_algo_paper_runtime/repository.py with the
    tables of packages/shared/alpha_algo_shared/db/models/paper.py).

    [SqlPaper] makes the repository an instance of the interface the service of
    [PaperService] is written against, so that what the service keeps is what a
    restarted service finds, up to the four decimals of the [Numeric(20, 4)]
    columns ([Money.numeric]): the service does not round its cash. *)

From stdpp Require Import base list strings gmap.
From Stdlib Require Import ZArith QArith Lqa Lia String Ascii.
From S2P Require Import Prelude PyBase Hashing Decimal Money Sql Market Backtest Paper PaperService.
Open Scope Z_scope.

(** * paper_feed/mapping.py *)

Definition refuse_feed (b : bool) (msg : string) : res unit := raise_if b PaperFeedError msg.

Definition tick_to_reference (record : market_record) : res PaperReferencePrice :=
  match record with
  | rec_candle _ => raise PaperFeedError
      "paper market-data feed v1 accepts MarketTick only; MarketCandle is unsupported (candles carry no executable bid/ask legs and close_price is an interval aggregate, not a tradable last price)"
  | rec_tick tick =>
      refuse_feed (dle (tk_ltp tick) dzero) "ltp must be positive" ;!
      refuse_feed (not_positive (tk_bid tick)) "bid must be positive" ;!
      refuse_feed (not_positive (tk_ask tick)) "ask must be positive" ;!
      refuse_feed (negb (dt_aware (tk_timestamp tick))) "timestamp must be timezone-aware" ;!
      match tk_bid tick, tk_ask tick with
      | Some bid, Some ask =>
          refuse_feed (dgt bid ask) "bid cannot exceed ask" ;!
          refuse_feed (negb (dle bid (tk_ltp tick) && dle (tk_ltp tick) ask))
            "last must lie within the bid/ask spread when both legs are present"
      | _, _ => Ok tt
      end ;!
      mk_PaperReferencePrice {| rp_instrument_id := tk_instrument_id tick; rp_last := tk_ltp tick; rp_bid := tk_bid tick;
                                rp_ask := tk_ask tick; rp_reference_at := tk_timestamp tick |}
  end.

(** * paper_feed/provenance.py *)

Record TickProvenance := {
  tp_instrument_id : UUID; tp_exchange : string; tp_symbol : string; tp_source_broker : string; tp_source_sequence : string;
  tp_timestamp : datetime; tp_received_at : datetime;
}.

Definition mk_TickProvenance (p : TickProvenance) : res TickProvenance :=
  raise_if (is_blank (tp_exchange p)) ValueError "exchange must be a non-empty string" ;!
  raise_if (is_blank (tp_symbol p)) ValueError "symbol must be a non-empty string" ;!
  raise_if (is_blank (tp_source_broker p)) ValueError "source_broker must be a non-empty string" ;!
  raise_if (is_blank (tp_source_sequence p)) ValueError "source_sequence must be a non-empty string" ;!
  require_timezone (tp_timestamp p) "timestamp" ;!
  require_timezone (tp_received_at p) "received_at" ;!
  Ok p.

Definition provenance_of (record : market_record) : res TickProvenance :=
  match record with
  | rec_candle _ => raise PaperFeedError
      "paper market-data feed v1 accepts MarketTick only; MarketCandle is unsupported and non-tick input is rejected"
  | rec_tick tick =>
      mk_TickProvenance {| tp_instrument_id := tk_instrument_id tick; tp_exchange := tk_exchange tick; tp_symbol := tk_symbol tick;
                           tp_source_broker := tk_source_broker tick; tp_source_sequence := tk_source_sequence tick;
                           tp_timestamp := tk_timestamp tick; tp_received_at := tk_received_at tick |}
  end.

(** * paper_runtime/run.py *)

Inductive PaperRunStatus := pr_ACTIVE | pr_COMPLETED | pr_RESET.
Definition run_statuses : list PaperRunStatus := [pr_ACTIVE; pr_COMPLETED; pr_RESET].
Definition run_status_value (s : PaperRunStatus) : string :=
  match s with pr_ACTIVE => "ACTIVE" | pr_COMPLETED => "COMPLETED" | pr_RESET => "RESET" end.

(** The configuration is a dictionary; the keys are distinct. *)
Definition run_config_hash (parts : gmap string string) : string :=
  sha256_hex (String.concat "&" ((fun k => k +:+ "=" +:+ default "" (parts !! k)) <$> sorted_strings (map_to_list parts).*1)).

Record PaperRun := {
  pn_paper_run_id : UUID; pn_status : PaperRunStatus; pn_config_hash : string; pn_created_at : datetime;
  pn_completed_at : option datetime;
}.

Definition mk_PaperRun (r : PaperRun) : res PaperRun :=
  raise_if (is_blank (pn_config_hash r)) ValueError "config_hash is required" ;!
  require_timezone (pn_created_at r) "created_at" ;!
  match pn_completed_at r with Some t => require_timezone t "completed_at" | None => Ok tt end ;!
  Ok r.

(** * db/models/paper.py *)

Record PaperRunRow := {
  wr_id : UUID; wr_config_hash : string; wr_status : string; wr_started_at : datetime; wr_completed_at : option datetime;
}.
Record PaperAccountRow := {
  wa_id : UUID; wa_paper_run_id : UUID; wa_trading_mode : string; wa_starting_capital : decimal; wa_status : string;
  wa_reset_at : option datetime; wa_created_at : datetime;
}.
Record PaperFundsRow := { wf_account_id : UUID; wf_available_cash : decimal; wf_reserved_cash : decimal; wf_currency : string }.

Inductive paper_row := RRun (r : PaperRunRow) | RAccount (a : PaperAccountRow) | RFunds (f : PaperFundsRow).

Definition run_key (r : paper_row) : option UUID := match r with RRun x => Some (wr_id x) | _ => None end.
Definition account_key (r : paper_row) : option UUID := match r with RAccount x => Some (wa_id x) | _ => None end.
Definition funds_key (r : paper_row) : option UUID := match r with RFunds x => Some (wf_account_id x) | _ => None end.

(** The primary keys, the unique account of the funds, and the foreign keys. *)
Definition paper_constraint (m : gmap N paper_row) : bool :=
  let l := snd <$> map_to_list m in
  unique_on run_key l && unique_on account_key l && unique_on funds_key l &&
  forallb (fun r => match r with
                    | RAccount a => existsb (fun x => bool_decide (run_key x = Some (wa_paper_run_id a))) l
                    | RFunds f => existsb (fun x => bool_decide (account_key x = Some (wf_account_id f))) l
                    | RRun _ => true
                    end) l.

(** What the [Numeric(20, 4)] columns hold of a row. *)
Definition account_columns (r : PaperAccountRow) : PaperAccountRow :=
  {| wa_id := wa_id r; wa_paper_run_id := wa_paper_run_id r; wa_trading_mode := wa_trading_mode r;
     wa_starting_capital := numeric 4 (wa_starting_capital r); wa_status := wa_status r; wa_reset_at := wa_reset_at r;
     wa_created_at := wa_created_at r |}.
Definition funds_columns (r : PaperFundsRow) : PaperFundsRow :=
  {| wf_account_id := wf_account_id r; wf_available_cash := numeric 4 (wf_available_cash r);
     wf_reserved_cash := numeric 4 (wf_reserved_cash r); wf_currency := wf_currency r |}.

(** * paper_runtime/repository.py *)

Definition is_run (id : UUID) (r : paper_row) : bool := bool_decide (run_key r = Some id).
Definition is_account (id : UUID) (r : paper_row) : bool := bool_decide (account_key r = Some id).
Definition is_funds (id : UUID) (r : paper_row) : bool := bool_decide (funds_key r = Some id).

Definition run_row (run : PaperRun) : PaperRunRow :=
  {| wr_id := pn_paper_run_id run; wr_config_hash := pn_config_hash run; wr_status := run_status_value (pn_status run);
     wr_started_at := pn_created_at run; wr_completed_at := pn_completed_at run |}.
Definition run_of_row (r : PaperRunRow) : res PaperRun :=
  let! status := enum_of run_statuses run_status_value (wr_status r) in
  mk_PaperRun {| pn_paper_run_id := wr_id r; pn_status := status; pn_config_hash := wr_config_hash r;
                 pn_created_at := wr_started_at r; pn_completed_at := wr_completed_at r |}.

(** The server fills [created_at] in. *)
Definition account_row (server_now : datetime) (a : PaperAccount) : PaperAccountRow :=
  {| wa_id := ac_account_id a; wa_paper_run_id := ac_paper_run_id a; wa_trading_mode := trading_mode_value (ac_trading_mode a);
     wa_starting_capital := ac_starting_capital a; wa_status := account_status_value (ac_status a); wa_reset_at := ac_reset_at a;
     wa_created_at := server_now |}.
Definition account_of_row (r : PaperAccountRow) : res PaperAccount :=
  let! mode := enum_of [tm_BACKTEST; tm_PAPER; tm_LIVE] trading_mode_value (wa_trading_mode r) in
  let! status := enum_of [as_ACTIVE; as_SUSPENDED; as_RESET] account_status_value (wa_status r) in
  mk_PaperAccount {| ac_account_id := wa_id r; ac_paper_run_id := wa_paper_run_id r; ac_trading_mode := mode;
                     ac_starting_capital := wa_starting_capital r; ac_status := status; ac_created_at := wa_created_at r;
                     ac_reset_at := wa_reset_at r |}.

Definition funds_row (f : PaperFunds) : PaperFundsRow :=
  {| wf_account_id := fu_account_id f; wf_available_cash := fu_available_cash f; wf_reserved_cash := fu_reserved_cash f;
     wf_currency := fu_currency f |}.
Definition funds_of_row (r : PaperFundsRow) : res PaperFunds :=
  mk_PaperFunds (wf_account_id r) (wf_available_cash r) (wf_reserved_cash r) (wf_currency r).

Section SqlPaper.
Context {DB : Type} `{Session DB paper_row paper_constraint}.

Definition sql_save_run (run : PaperRun) : M DB unit := commit [Add (RRun (run_row run))].

(** A row of another table is never selected. *)
Definition sql_load_run (paper_run_id : UUID) : M DB (option PaperRun) :=
  let* found := scalar_one_or_none (is_run paper_run_id) in
  match found with
  | Some (_, RRun r) => lift (let! run := run_of_row r in Ok (Some run))
  | _ => ret None
  end.

(** [session.commit()] of amounts: one that overflows its [Numeric(20, 4)]
    column is refused (SQLAlchemy's [DataError], here a plain [Exception]). *)
Definition commit_amounts (amounts : list decimal) (cs : list (change paper_row)) : M DB unit :=
  if forallb (numeric_fits 20 4) amounts then commit cs else throw Exception "numeric field overflow".

Definition sql_save_account (server_now : datetime) (a : PaperAccount) : M DB unit :=
  commit_amounts [ac_starting_capital a] [Add (RAccount (account_columns (account_row server_now a)))].

Definition sql_load_account (account_id : UUID) : M DB (option PaperAccount) :=
  let* found := scalar_one_or_none (is_account account_id) in
  match found with
  | Some (_, RAccount r) => lift (let! a := account_of_row r in Ok (Some a))
  | _ => ret None
  end.

Definition sql_save_funds (f : PaperFunds) : M DB unit :=
  let* existing := scalar_one_or_none (is_funds (fu_account_id f)) in
  commit_amounts [fu_available_cash f; fu_reserved_cash f]
    match existing with
    | Some (k, _) => [Put k (RFunds (funds_columns (funds_row f)))]
    | None => [Add (RFunds (funds_columns (funds_row f)))]
    end.

Definition sql_load_funds (account_id : UUID) : M DB (option PaperFunds) :=
  let* found := scalar_one_or_none (is_funds account_id) in
  match found with
  | Some (_, RFunds r) => lift (let! f := funds_of_row r in Ok (Some f))
  | _ => ret None
  end.

#[export] Instance SqlPaper : PaperRepository DB := {|
  save_funds := sql_save_funds;
  load_funds := sql_load_funds;
|}.

End SqlPaper.

(** * The feed *)

(** A quote the paper simulator can use. *)
Definition coherent_quote (t : MarketTick) : Prop :=
  match tk_bid t, tk_ask t with
  | Some bid, Some ask => (dval bid <= dval ask)%Q /\ (dval bid <= dval (tk_ltp t) <= dval ask)%Q
  | _, _ => True
  end.

Lemma not_positive_none o : (forall d, o = Some d -> (0 < dval d)%Q) -> not_positive o = false.
Proof. destruct o as [d|]; [|done]. intros H. cbn. apply dle_false. rewrite dval_zero. auto. Qed.

(** The feed converts exactly the valid ticks with coherent quotes, and what it
    answers is a snapshot the simulator accepts, with the prices and the time of
    the tick; it invents no leg of a quote and takes no candle. *)
Theorem feed_converts_coherent_ticks t : mk_MarketTick t = Ok t ->
  (coherent_quote t <-> exists r, tick_to_reference (rec_tick t) = Ok r) /\
  (forall r, tick_to_reference (rec_tick t) = Ok r -> mk_PaperReferencePrice r = Ok r /\ rp_instrument_id r = tk_instrument_id t /\
     rp_last r = tk_ltp t /\ rp_bid r = tk_bid t /\ rp_ask r = tk_ask t /\ rp_reference_at r = tk_timestamp t) /\
  (forall e, tick_to_reference (rec_tick t) = Err e -> exn_cls e = PaperFeedError).
Proof.
  intros Hv. assert (dle (tk_ltp t) dzero = false /\ not_positive (tk_bid t) = false /\ not_positive (tk_ask t) = false /\
    dt_aware (tk_timestamp t) = true) as (H1 & H2 & H3 & H4).
  { unfold mk_MarketTick, timestamp_aware, positive_price in Hv. res_inv. split_and!; [done|..].
    - destruct (tk_bid t); [|done]. cbn in *. by res_inv.
    - destruct (tk_ask t); [|done]. cbn in *. by res_inv.
    - by destruct (dt_aware (tk_timestamp t)). }
  assert (tick_to_reference (rec_tick t) = (
    match tk_bid t, tk_ask t with
    | Some bid, Some ask =>
        refuse_feed (dgt bid ask) "bid cannot exceed ask" ;!
        refuse_feed (negb (dle bid (tk_ltp t) && dle (tk_ltp t) ask)) "last must lie within the bid/ask spread when both legs are present"
    | _, _ => Ok tt
    end ;!
    Ok {| rp_instrument_id := tk_instrument_id t; rp_last := tk_ltp t; rp_bid := tk_bid t; rp_ask := tk_ask t; rp_reference_at := tk_timestamp t |})) as E.
  { unfold tick_to_reference, refuse_feed, mk_PaperReferencePrice, require_timezone. cbn. rewrite H1, H2, H3, H4. cbn.
    destruct (tk_bid t) as [bid|], (tk_ask t) as [ask|]; cbn; try done.
    destruct (dgt bid ask); [done|]. cbn. by destruct (dle bid (tk_ltp t) && dle (tk_ltp t) ask). }
  assert (forall r, tick_to_reference (rec_tick t) = Ok r -> mk_PaperReferencePrice r = Ok r) as Hmk.
  { unfold tick_to_reference. intros r Hr. do 5 (apply rbind_ok in Hr as (? & _ & Hr)).
    assert (forall a b, mk_PaperReferencePrice a = Ok b -> b = a) as Hid by (unfold mk_PaperReferencePrice; intros a b Ha; by res_inv).
    by pose proof (Hid _ _ Hr) as ->. }
  split; [|split].
  - rewrite E. unfold coherent_quote, refuse_feed. destruct (tk_bid t) as [bid|], (tk_ask t) as [ask|]; cbn; try (split; [by eexists|done]).
    unfold dgt. destruct (dlt ask bid) eqn:Eq; cbn.
    { apply dlt_spec in Eq. split; [intros [Hle _]; exfalso; lra|by intros [? ?]]. }
    apply dlt_false in Eq. rewrite <- !dle_spec. split.
    + intros (_ & -> & ->). cbn. by eexists.
    + intros [r Hr]. destruct (dle bid (tk_ltp t)), (dle (tk_ltp t) ask); try done. split; [by apply dle_spec|done].
  - intros r Hr. split; [by apply Hmk|]. rewrite E in Hr. apply rbind_ok in Hr as (? & _ & [= <-]). done.
  - intros e. rewrite E. unfold refuse_feed, raise_if. destruct (tk_bid t), (tk_ask t); cbn; try done.
    repeat (case_match; cbn; try done); by intros [= <-].
Qed.

(** * The repository *)

Section laws.
Context {DB : Type} `{!Session DB paper_row paper_constraint}.

Lemma constraint_unique {K} `{EqDecision K} (key : paper_row -> option K) (m : gmap N paper_row) i j r r' x :
  unique_on key (snd <$> map_to_list m) = true -> m !! i = Some r -> m !! j = Some r' -> key r = Some x -> key r' = Some x -> i = j.
Proof. intros. by eapply unique_on_lookup. Qed.

(** What a query for the funds of an account finds. *)
Lemma load_funds_found account_id db x : fst (sql_load_funds account_id db) = Ok x ->
  match x with
  | None => forall k r, rows db !! k = Some r -> is_funds account_id r = false
  | Some f => exists k r, rows db !! k = Some (RFunds r) /\ wf_account_id r = account_id /\ funds_of_row r = Ok f
  end.
Proof.
  unfold sql_load_funds, bind. destruct (scalar_one_or_none (is_funds account_id) db) as [[[[k r]|]|e] db1] eqn:E; cbn; [| |done].
  - destruct (scalar_some (is_funds account_id) db k r) as (Hk & Hp & _); [by rewrite E|]. unfold is_funds in Hp.
    apply bool_decide_eq_true in Hp. destruct r as [| |f]; [done..|]. cbn in Hp. simplify_eq.
    unfold lift. cbn. destruct (funds_of_row f) as [g|] eqn:Ef; [|done]. intros [= <-]. eauto.
  - intros [= <-]. intros k r Hk. apply (scalar_none _ db) with (k := k); [by rewrite E|done].
Qed.

(** Funds as their row gives them back. *)
Definition stored_funds (f : PaperFunds) : PaperFunds :=
  {| fu_account_id := fu_account_id f; fu_available_cash := numeric 4 (fu_available_cash f);
     fu_reserved_cash := numeric 4 (fu_reserved_cash f); fu_currency := fu_currency f |}.

(** Rounding keeps cash from being negative, so that the row can be read. *)
Lemma funds_of_row_ok f : mk_PaperFunds (fu_account_id f) (fu_available_cash f) (fu_reserved_cash f) (fu_currency f) = Ok f ->
  funds_of_row (funds_columns (funds_row f)) = Ok (stored_funds f).
Proof.
  unfold mk_PaperFunds. intros E. res_inv. unfold funds_of_row, mk_PaperFunds. cbn. by rewrite !numeric_nonneg.
Qed.

Lemma commit_amounts_ok l cs db db' : commit_amounts l cs db = (Ok tt, db') -> commit cs db = (Ok tt, db').
Proof. unfold commit_amounts. by destruct (forallb _ _). Qed.

Lemma commit_amounts_err l cs db e db' : commit_amounts l cs db = (Err e, db') -> rows db' = rows db.
Proof. unfold commit_amounts. destruct (forallb _ _); [apply commit_err|by intros [= _ <-]]. Qed.

(** Saving funds writes one row: a new one, or the one of the account. *)
Lemma save_funds_row f db db' : sql_save_funds f db = (Ok tt, db') -> exists k,
  rows db' = <[k := RFunds (funds_columns (funds_row f))]> (rows db) /\ paper_constraint (rows db') = true /\
  (forall r, rows db !! k = Some r -> is_funds (fu_account_id f) r = true).
Proof.
  unfold sql_save_funds, bind. pose proof (scalar_reads (is_funds (fu_account_id f)) db) as Hr.
  destruct (scalar_one_or_none (is_funds (fu_account_id f)) db) as [[[[k r]|]|e] db1] eqn:E; cbn in Hr; subst db1; [| |done]; intros Hc;
    apply commit_amounts_ok, commit_ok in Hc as [Ha Hc].
  - inversion Ha as [| |k' r' cs m m' Hk Ha']; subst. inversion Ha'; subst. exists k. split_and!; [congruence..|].
    intros r'. destruct (scalar_some (is_funds (fu_account_id f)) db k r) as (Hk' & Hp & _); [by rewrite E|]. rewrite Hk'. by intros [= <-].
  - inversion Ha as [|k' r' cs m m' Hk Ha'|]; subst. inversion Ha'; subst. exists k'. split_and!; [congruence..|]. intros r. by rewrite Hk.
Qed.

Lemma save_funds_failed f db e db' : sql_save_funds f db = (Err e, db') -> rows db' = rows db.
Proof.
  unfold sql_save_funds, bind. pose proof (scalar_reads (is_funds (fu_account_id f)) db) as Hr.
  destruct (scalar_one_or_none (is_funds (fu_account_id f)) db) as [[[[k r]|]|x] db1]; cbn in Hr; subst db1;
    [apply commit_amounts_err..|by intros [= _ <-]].
Qed.

(** Funds are durable and isolated: after a save that succeeds, the funds of the
    account are the ones saved, as their columns hold them, and a query for another account answers what it
    would have answered before; a save that fails changes nothing. *)
Theorem funds_durable f db r db' :
  mk_PaperFunds (fu_account_id f) (fu_available_cash f) (fu_reserved_cash f) (fu_currency f) = Ok f ->
  sql_save_funds f db = (r, db') ->
  match r with
  | Ok _ => forall account_id x, fst (sql_load_funds account_id db') = Ok x ->
      if decide (account_id = fu_account_id f) then x = Some (stored_funds f)
      else forall y, fst (sql_load_funds account_id db) = Ok y -> x = y
  | Err _ => rows db' = rows db
  end.
Proof.
  intros Hf E. destruct r as [[]|e]; [|by eapply save_funds_failed]. apply save_funds_row in E as (k & Hrows & Hc & Hk).
  unfold paper_constraint in Hc. apply andb_true_iff in Hc as [[[_ _]%andb_true_iff Hu]%andb_true_iff _].
  assert (rows db' !! k = Some (RFunds (funds_columns (funds_row f)))) as Hnew by (rewrite Hrows; apply lookup_insert_eq).
  intros account_id x Hx. apply load_funds_found in Hx. destruct (decide _) as [->|Hne].
  - destruct x as [g|].
    + destruct Hx as (k' & r & Hr & Ha & Hg). assert (k' = k) as ->.
      { eapply (constraint_unique funds_key); [exact Hu|exact Hr|exact Hnew|cbn; by rewrite Ha|done]. }
      rewrite Hnew in Hr. simplify_eq. rewrite funds_of_row_ok in Hg by done. congruence.
    + exfalso. specialize (Hx _ _ Hnew).
      unfold is_funds in Hx. cbn in Hx. by rewrite bool_decide_eq_true_2 in Hx.
  - intros y Hy. apply load_funds_found in Hy.
    assert (forall k' r, funds_key r = Some account_id -> rows db' !! k' = Some r <-> rows db !! k' = Some r) as Hsame.
    { intros k' r Hr. rewrite Hrows. destruct (decide (k' = k)) as [->|]; [|by rewrite lookup_insert_ne].
      rewrite lookup_insert_eq. split.
      - intros [= <-]. cbn in Hr. congruence.
      - intros Hl. specialize (Hk r Hl). unfold is_funds in Hk. apply bool_decide_eq_true in Hk. congruence. }
    destruct x as [g|], y as [h|]; [| | |done].
    + destruct Hx as (i & a & Ha & Ea & Hg), Hy as (j & b & Hb & Eb & Hh).
      apply Hsame in Hb; [|cbn; by rewrite Eb]. assert (i = j) as ->
        by (eapply (constraint_unique funds_key); [exact Hu|exact Ha|exact Hb|cbn; by rewrite Ea|cbn; by rewrite Eb]). congruence.
    + exfalso. destruct Hx as (i & a & Ha & Ea & _). apply Hsame in Ha; [|cbn; by rewrite Ea]. specialize (Hy _ _ Ha).
      unfold is_funds in Hy. cbn in Hy. by rewrite bool_decide_eq_true_2 in Hy by (by rewrite Ea).
    + exfalso. destruct Hy as (j & b & Hb & Eb & _). apply Hsame in Hb; [|cbn; by rewrite Eb]. specialize (Hx _ _ Hb).
      unfold is_funds in Hx. cbn in Hx. by rewrite bool_decide_eq_true_2 in Hx by (by rewrite Eb).
Qed.

(** A run that is stored cannot be stored again: its completion, which is a change
    of its status, is never saved. *)
Theorem stored_run_never_updated run db k r db' : rows db !! k = Some (RRun r) -> wr_id r = pn_paper_run_id run ->
  sql_save_run run db <> (Ok tt, db').
Proof.
  intros Hk Hid E. unfold sql_save_run in E. apply commit_added in E as (k' & Hn & Hrows & Hc).
  unfold paper_constraint in Hc. apply andb_true_iff in Hc as [[[Hu _]%andb_true_iff _]%andb_true_iff _].
  assert (rows db' !! k' = Some (RRun (run_row run))) as Hnew by (rewrite Hrows; apply lookup_insert_eq).
  assert (k' <> k) as Hne by (intros ->; congruence).
  assert (rows db' !! k = Some (RRun r)) as Hold by (rewrite Hrows, lookup_insert_ne by done; exact Hk).
  apply Hne. eapply (constraint_unique run_key); [exact Hu|exact Hnew|exact Hold|reflexivity|]. cbn. by rewrite Hid.
Qed.

(** C40: A restart finds the funds, up to the scale of their columns.  When a
    service with valid (non-negative) funds has just persisted them, a service of
    the same account that is started on that repository, if its query does not
    raise, has funds of the same account and currency whose available and
    reserved cash have four decimals, with the values of the persisted ones if
    those are written with at most four decimals, and at most half a
    ten-thousandth away from them in any case (paper_funds has [Numeric(20, 4)] columns and the service does not
    round; an amount that overflows the column is never persisted). *)
Theorem funds_survive_restart (s s' : PaperTradingService DB) account broker prices cost_model r r' s2 :
  ps_repository s = Some r -> persist_funds s = (Ok tt, s') -> ps_repository s' = Some r' ->
  mk_PaperFunds (fu_account_id (ps_funds s)) (fu_available_cash (ps_funds s)) (fu_reserved_cash (ps_funds s)) (fu_currency (ps_funds s))
    = Ok (ps_funds s) ->
  ac_account_id account = fu_account_id (ps_funds s) ->
  new_service account broker prices cost_model (Some r') = Ok s2 ->
  fu_account_id (ps_funds s2) = fu_account_id (ps_funds s) /\ fu_currency (ps_funds s2) = fu_currency (ps_funds s) /\
  column_keeps (fu_available_cash (ps_funds s)) (fu_available_cash (ps_funds s2)) /\
  column_keeps (fu_reserved_cash (ps_funds s)) (fu_reserved_cash (ps_funds s2)).
Proof.
  intros Hr Hp Hr' Hf Hid Hn. unfold persist_funds in Hp. rewrite Hr in Hp. cbn in Hp.
  destruct (sql_save_funds (ps_funds s) r) as [x r1] eqn:E. simplify_eq. cbn in Hr'. simplify_eq.
  pose proof (funds_durable _ _ _ _ Hf E) as Hd. cbn in Hd. unfold new_service in Hn. apply rbind_ok in Hn as ([] & _ & Hn).
  apply rbind_ok in Hn as (restored & Hl & Hn). cbn in Hl. apply Hd in Hl. rewrite Hid in Hl. rewrite decide_True in Hl by done. subst restored.
  cbn in Hn. simplify_eq. cbn. split_and!; [done..|apply numeric_keeps|apply numeric_keeps].
Qed.

End laws.

Lemma enum_of_value {T} (members : list T) value (m : T) : m ∈ members ->
  (forall a b, value a = value b -> a = b) -> enum_of members value (value m) = Ok m.
Proof.
  intros Hin Hinj. unfold enum_of. induction members as [|x l IH]; [by apply not_elem_of_nil in Hin|]. cbn.
  destruct (String.eqb_spec (value x) (value m)) as [E|E]; [by apply Hinj in E as ->|].
  apply elem_of_cons in Hin as [->|Hin]; [done|]. auto.
Qed.

(** A run is read back as it was saved. *)
Lemma run_row_roundtrip run : mk_PaperRun run = Ok run -> run_of_row (run_row run) = Ok run.
Proof.
  intros E. unfold run_of_row, run_row. cbn. rewrite enum_of_value; [by destruct run|destruct (pn_status run); set_solver|by intros [] []].
Qed.

(** An account whose capital the column does not round to zero is read back with
    the time of its row and the capital its column holds. *)
Lemma account_row_roundtrip server_now a : mk_PaperAccount a = Ok a -> dt_aware server_now = true ->
  dle (numeric 4 (ac_starting_capital a)) dzero = false ->
  account_of_row (account_columns (account_row server_now a)) =
    Ok {| ac_account_id := ac_account_id a; ac_paper_run_id := ac_paper_run_id a; ac_trading_mode := ac_trading_mode a;
          ac_starting_capital := numeric 4 (ac_starting_capital a); ac_status := ac_status a; ac_created_at := server_now; ac_reset_at := ac_reset_at a |}.
Proof.
  intros E Hn Hc. unfold account_of_row, account_columns, account_row. cbn.
  rewrite enum_of_value; [|destruct (ac_trading_mode a); set_solver|by intros [] []]. cbn.
  rewrite enum_of_value; [|destruct (ac_status a); set_solver|by intros [] []]. cbn.
  unfold mk_PaperAccount in *. cbn. revert E.
  intros (? & Hm & E)%rbind_ok. apply rbind_ok in E as (? & _ & E). apply rbind_ok in E as (? & _ & E). apply rbind_ok in E as (? & Hz & _).
  rewrite Hm, Hc. unfold require_timezone at 1. rewrite Hn. cbn. by rewrite Hz.
Qed.

(** * A small database *)

Module PaperStoreSamples.
Open Scope string_scope.
Import PaperServiceSample.

#[local] Existing Instance SqlPaper.

Definition sample_run : PaperRun :=
  {| pn_paper_run_id := 8; pn_status := pr_ACTIVE; pn_config_hash := run_config_hash ∅; pn_created_at := utc 0; pn_completed_at := None |}.

(** The run and the account, stored. *)
Definition stored : gmap N paper_row := Eval vm_compute in
  snd (sql_save_account (DB := gmap N paper_row) (utc 5) account (snd (sql_save_run (DB := gmap N paper_row) sample_run ∅))).

Definition sample_funds (cents : N) : PaperFunds :=
  {| fu_account_id := 7; fu_available_cash := Dec false cents (-2); fu_reserved_cash := dzero; fu_currency := "INR" |}.

Definition sample_service (db : gmap N paper_row) (cents : N) : PaperTradingService (gmap N paper_row) :=
  {| ps_account := account; ps_broker := broker; ps_reference_prices := ∅; ps_cost_model := costs 1; ps_repository := Some db;
     ps_funds := sample_funds cents; ps_outcomes := []; ps_sequence := 0; ps_tick := 0 |}.

(** The funds are written twice: a new row, then the same row. *)
Definition once : gmap N paper_row := Eval vm_compute in snd (sql_save_funds (sample_funds 100) stored).
Definition twice : gmap N paper_row := Eval vm_compute in snd (sql_save_funds (sample_funds 250) once).

Lemma funds_survive_restart_witness : exists s2 : PaperTradingService (gmap N paper_row),
  new_service account broker ∅ (costs 1) (Some twice) = Ok s2 /\
  (dval (fu_available_cash (ps_funds s2)) == 250 # 100)%Q.
Proof.
  destruct (new_service account broker ∅ (costs 1) (Some twice)) as [s2|] eqn:E; [|exfalso; vm_compute in E; discriminate].
  exists s2. split; [reflexivity|].
  assert (money (Dec false 250 (-2))) as Hm by (unfold money; cbn; lia).
  destruct (funds_survive_restart (sample_service once 250) (sample_service twice 250) account broker ∅ (costs 1) once twice s2)
    as (_ & _ & (_ & _ & H) & _); [reflexivity|vm_compute; reflexivity|reflexivity|vm_compute; reflexivity|reflexivity|exact E|].
  rewrite (H Hm). reflexivity.
Defined.

(** Cash with five decimals comes back rounded: 99899.87655 as 99899.8766. *)
Example cash_rounded_by_restart :
  match fst (sql_load_funds (DB := gmap N paper_row) 7 (snd (sql_save_funds
          {| fu_account_id := 7; fu_available_cash := Dec false 9989987655 (-5); fu_reserved_cash := dzero; fu_currency := "INR" |}
          once))) with
  | Ok (Some f) => fu_available_cash f = Dec false 998998766 (-4)
  | _ => False
  end.
Proof. vm_compute. reflexivity. Qed.

(** One row per account, and a run that cannot be completed. *)
Example funds_upserted : size once = 3%nat /\ size twice = 3%nat.
Proof. vm_compute. done. Qed.

Example completion_refused : exists e,
  fst (sql_save_run (DB := gmap N paper_row)
    {| pn_paper_run_id := 8; pn_status := pr_COMPLETED; pn_config_hash := run_config_hash ∅; pn_created_at := utc 0;
       pn_completed_at := Some (utc 9) |} stored) = Err e /\ exn_cls e = IntegrityError.
Proof. eexists. vm_compute. done. Qed.

(** An account is read back with the time of the server, not its own. *)
Example created_at_lost : exists a, fst (sql_load_account (DB := gmap N paper_row) 7 stored) = Ok (Some a) /\
  ac_created_at account = utc 0 /\ ac_created_at a = utc 5.
Proof. eexists. vm_compute. done. Qed.

End PaperStoreSamples.
